(* ===== verification/_CoqProject ===== *)
-Q . S2P
Prelude.v
Text.v
Primitives.v
Arithmetic.v
Allocations.v
Payment.v
LockOrder.v
Digest.v
Keys.v
ShipmentPlan.v
Quote.v
Projections.v
Prepare.v
Language.v
ResourcePlan.v
ResourceSearch.v
ResourcePlanFacts.v
Values.v
Transition.v
Guards.v
Lifecycles.v
QuoteRequest.v
Claims.v
Replacements.v
ClaimSlots.v
Handoffs.v
Shipments.v
Jobs.v
Refunds.v
Checkout.v
Payments.v
Phases.v
Orders.v
Archive.v
Upload.v
Json.v
Hash.v
Zod.v
Plates.v
Patterns.v
Limits.v
Dates.v
PriceParameters.v
AutomaticQuote.v
Contracts.v
Metrics.v
MetricsFacts.v
