(* ===== verification/Prelude.v ===== *)
(** * Taven: a verification library

    This library models the domain package of the Taven repository,
    [src/packages/core/src], and proves what makes it correct.  File names
    below are relative to that directory.  The package is pure: it prices a
    3D-printing order, plans its parcels and its machine resources, keys and
    locks what the backend persists, and decides which transitions of an
    aggregate are allowed.  The backend services run these functions inside
    database transactions.  Of the backend, [src/apps/backend/src/modules],
    the library models the validation of uploads (storage/), whose bytes come
    from anonymous clients, the automatic quote (automatic-quotes/), which
    feeds the package's pricing from a published price list (resources/), the
    limits on anonymous quotes and webhooks (quotes/, payments/), and the
    report that is drawn up from what was stored (metrics/).  Of
    the other packages it models the messages that the backend and the slicer
    worker exchange, [src/packages/slicer-contracts/src/contracts.ts].

    ** Conventions

    Functions are translated as they are written: a method is a definition with
    the receiver as an argument, a loop that can throw is [foldM] or [traverse],
    a loop that can return early is a fixpoint on its list.  A function that can
    throw returns in the error monad [result]; the class and the code of an
    error are kept and its message is not.  A [bigint] is a [Z].  A [number] is
    a [jsnumber], which tells safe integers from the rest, since the package
    checks [Number.isSafeInteger] before arithmetic; where it computes with
    32-bit operators (the digest) the wrap-around is written out.  A string is
    the list of its UTF-16 code units.  A [Map] or a [Set] that is only looked
    up is a [gmap] or a [gset], one whose insertion order matters is a list.
    [Array.prototype.sort] is the stable insertion sort [js_sort]; a comparator
    is shown to be a total preorder by an instance of [Comparator], so the
    result is the one of any stable sort.  Objects are immutable records;
    the one place where the code mutates shared state across calls, the search
    of the resource planner, threads that state explicitly.

    ** The parts

    - Prelude.v (this file): errors and the error monad, strings, numbers,
      sorting, sums, the shared tactics.  Text.v: decimal text and
      length-prefixed encodings.  Language.v: JSON text of string arrays,
      [BigInt] of a string, dates.
    - Primitives.v: [Money], the units, [Instant], [RevisionRef]
      (primitives/).  Arithmetic.v: rationals and the seller's VAT
      (pricing/arithmetic.ts, pricing/tax.ts).
    - Allocations.v: exact splitting by largest remainders
      (pricing/allocations.ts, metrics/handling.ts).  Payment.v: the gross-up
      of a payment schedule (pricing/payment.ts).
    - ShipmentPlan.v: parcels (pricing/shipment-plan.ts).  Quote.v: the price
      of an order (pricing/quote.ts), which calls the three above.  Prepare.v:
      the gates (pricing/gates.ts) and the prepared quote (pricing/prepare.ts),
      which calls the planner and the price.
    - Projections.v: payments, credits and fulfilment (projections/).
    - Digest.v, Keys.v: SHA-256 (primitives/digest.ts) and the keys built with
      it (keys/).  LockOrder.v: the order of locks (transactions/lock-order.ts).
    - ResourcePlan.v, ResourceSearch.v, ResourcePlanFacts.v: the resource
      planner (resource-plan.ts), which hands its lock targets to LockOrder.v.
    - Archive.v: the inspection of an uploaded 3MF archive, and Upload.v: the
      metadata and the signatures of uploads (storage/upload-validation.ts of
      the backend), what an upload intent keeps of the metadata, and the
      validation of the stored object through range reads
      (storage/upload.service.ts).
    - PriceParameters.v: the parameters of a price list, how they are parsed
      and what a publication checks
      (automatic-quotes/automatic-quote-pricing.ts, pricing/seller-tax-policy.ts
      and resources/price-list-validation.ts of the backend).
      AutomaticQuote.v: the automatic quote, from these parameters to the calls
      of Prepare.v (automatic-quotes/automatic-quote-pricing.ts).
    - Limits.v: the counters that anonymous quotes and webhook verifications
      are charged to (quotes/anonymous-quote-limit.ts and
      payments/payment-webhook-limit.ts of the backend).
    - Contracts.v: the schemas of jobs and results, their identities, and the
      binding of a result to its job (slicer-contracts/src/contracts.ts).  It
      builds on Json.v (JSON text and the canonical text that is hashed),
      Hash.v (the digest of a text and what equal digests mean), Zod.v (the
      interface of the schema library, with an instance that computes) and
      Patterns.v (the regular expressions).  Plates.v is the reference for the
      pieces on a job's plates, which AutomaticQuote.v shares.
    - Dates.v: the calendar and the text of dates, with [Instant.parse] and
      [toISOString] (primitives/time.ts).  Metrics.v: the metrics report
      (metrics/metrics-report.service.ts of the backend): its query, and every
      figure as a function of the rows that the database returns.
      MetricsFacts.v: what the figures mean.
    - Values.v: values of type [unknown].  Transition.v: the state-machine
      kernel (lifecycle/transition.ts).  The rest of lifecycle/policies.ts is
      split by lifecycle: Lifecycles.v has the tables of all eight, Guards.v
      the checks that several share, and QuoteRequest.v, Claims.v, ClaimSlots.v
      (with Replacements.v), Shipments.v, Jobs.v, Payments.v, Phases.v and
      Orders.v a policy each with every guard it runs.  Handoffs.v has the
      checks of a handoff to the carrier, which shipments, jobs, phases and
      orders share, Refunds.v those of refunds and their late failures, and
      Checkout.v those of a confirmation and of a capture that came too late,
      which payments, phases and orders share.  A guard reads the command and
      the record of the context it carries, and throws or returns; a policy is
      the table with the guard, which [transition] runs.

    ** What the theorems show

    - Prices add up: a binding or provisional price is the sum of its
      components, fees and VAT; every cost of its breakdown is what its
      quantity costs at its rate, and the rest follows from the costs;
      a gross-up is the least total that covers its subtotal after fees and
      tax; monetary splits are exact and independent of order; adding VAT and
      extracting it again agree.
    - Plans are right: a parcel plan packs every unit once within every limit,
      fails only when a unit fits no category, and does not depend on the
      order of the units; a resource plan is feasible, none ranks better, and
      one is found whenever one exists; a prepared quote ships what it prices
      and reports exactly the failing gates.
    - Automatic quotes are bounded: a binding one is within every limit that
      the document of its price list sets (pieces, amount, and each category's
      dimensions, weight and volume) and those of its delivery endpoint, its amounts are safe integers
      when the price list could be published, its items are priced with the
      sums over their plates, and each of its parcels is charged the rates of
      its category.
    - Ledgers hold: the payment projection accepts exactly consistent lists,
      in any order, and balances; credits conserve the contract value;
      hand-off readiness implies a settled contract.
    - Identities are exact: canonical keys are injective, idempotency and
      outbox keys never coincide, cache keys identify their fields up to a
      collision, digests are FIPS 180-4's; two idempotency keys, or two outbox
      keys, are equal exactly when their operations and scopes are; locks taken in the canonical order
      never deadlock.
    - Uploads are safe: an archive that the inspection accepts can be unpacked
      (its directory is the records of its entries, which its local headers
      repeat, with safe and different paths, bounded sizes and ratios, and
      disjoint bytes); the inspection through range reads accepts exactly the
      same structure and stored bytes whose expansion has the size and the
      checksum that the directory gives; the metadata of an intent is read back as it was
      validated; a rejection has a code, but for two odd extensions.
    - Messages are bound: what the schema of a dispatched job accepts is a
      result with the job's identities and its input; a job's fingerprint
      is the same exactly for jobs that differ in their attempt and correlation
      only; an accepted estimate prints the job's quantity and adds up; the
      metrics of an accepted inspection are those of its bodies, which without
      a blocking finding are sound and of one material; the key of a production
      artifact passes its schema and determines the job.  Statements about
      digests hold unless the two texts are a collision, which they exhibit.
    - Reports account for what they count: a margin is known exactly when the
      order is over, its costs are complete and its money reconciles; uploads,
      requests, jobs, orders and offers divide into the groups that are
      reported, each with the number of its rows; each month has the sums of
      its orders, which add up to the turnover; an interval that a report
      repeats is accepted again as the same query.  Of dates: an instant's text
      is parsed back to it.
    - Limits hold: the counters in the database implement fixed windows, and
      of any history in the order of the clock at most twice a window's maximum
      is served in an interval of its length, unless two subjects collide.
    - Lifecycles are sound: [transition] does exactly what a policy says; the
      tables are well typed, have no dead end but their terminal statuses, and
      let every aggregate finish.  Of the histories that a policy allows: an
      accepted quote request was accepted within the window of its quote; a
      settled job was approved, then handed over by a complete handoff, and
      left no slot open; cancelling a
      job never touches the parcel of another; only the carrier's verified word
      moves a shipment after its handoff; a claim is resolved as its complete
      set of children projects; a claim's refund is balanced; a refunded
      payment was refunded exactly what it captured; an order and its phase
      finish only with every slot accounted for and nothing owed, and move
      together where they share a transaction.

    ** Bounds and fuel

    The search of the gross-up runs over its window, whose size the code bounds
    by 10,000 candidates: the model's fuel is that size.  The text of a number
    in a radix has at most [log2 n + 1] digits, which is its fuel.  A level of
    the resource search covers at least one slot more than the level above, so
    one level per slot and one more is enough; the optimality theorem would be
    false with less.  The loop over the extra fields of an archive consumes four
    bytes a turn, so their number is enough.  The other recursions are structural.

    ** Not modelled

    What [Date.parse] does with text that is not in the format of the standard:
    it is the parameter [DateParsing].  The calendar of the time zone of Prague,
    which the months of a report follow: it is the parameter [PragueMonths].
    The rows that the queries of a report return: they are the parameter
    [MetricsStore]; the page of orders and its cursor are left out.  The wording
    of errors, and with it the arguments that only a message needs.  The order
    of [String.prototype.localeCompare], which no standard fixes: it is the
    parameter [Collation] of the guards and of the report, which sort by it.  The tables of Unicode
    behind [toLowerCase] and [toUpperCase], which uploads use: they are the
    parameter [Casing], with what they do on ASCII where a theorem needs it.  The
    object store that reads a range of an object, the decompression of a
    stream by zlib and its checksum: they are the parameter [Storage], with
    what the store and the streams promise as [StorageLaws].  The order of
    texts in the database, by which the limits clean up: it is the parameter
    [DatabaseCollation]; which counters other transactions have locked then is
    an input.  The decimal text of a [number] that is not a safe
    integer, which the identity of a capability snapshot may hash: it is the
    parameter [NumberText].  The schema library zod: it is the parameter [Zod],
    with the laws that its documentation gives for the combinators that are
    used.  The rest of the backend services, the slicer worker,
    the user interfaces, the database triggers and the generated client: they
    are database queries, process control, browser code or other languages. *)
From stdpp Require Export base tactics decidable option list numbers gmap sorting.
From Stdlib Require Export ZArith Lia.
From stdpp Require Export strings.

#[global] Open Scope Z_scope.

Declare Scope taven_scope.
Delimit Scope taven_scope with taven.
#[global] Open Scope taven_scope.

(** ** Errors and the error monad *)

(** The machine-readable codes of [DomainError]. *)
Inductive DomainErrorCode :=
| INVALID_ARGUMENT
| INVALID_CURRENCY
| CURRENCY_MISMATCH
| DUPLICATE_COMPONENT_CREDIT
| DUPLICATE_PAYMENT
| NEGATIVE_RESULT
| OVER_REFUND
| DIVISION_BY_ZERO
| INVALID_KEY_COMPONENT
| INVALID_REVISION_REFERENCE
| INVALID_INSTANT
| INVALID_TRANSITION
| TRANSITION_GUARD_FAILED.

(** The machine-readable codes of [UploadValidationError]. *)
Inductive UploadValidationCode :=
| INVALID_SCOPE_ID
| UNSUPPORTED_FORMAT
| CONTENT_TYPE_MISMATCH
| INVALID_SHA256
| INVALID_SIZE
| SIZE_LIMIT_EXCEEDED
| UNSAFE_FILENAME
| INVALID_SIGNATURE
| MALFORMED_ARCHIVE
| ARCHIVE_LIMIT_EXCEEDED
| ARCHIVE_UNSAFE_PATH.

(** What a function can throw: a [DomainError] or an [UploadValidationError]
    with its code, the exception of a bad request with the code of its body, if
    any, the exceptions of a refused, of a missing and of an unavailable resource, an
    exception with another status, the [ZodError] of the schema library, or one of the language's own error classes ([PlainError]
    is [Error]).
    The human-readable message of an error is not part of the model. *)
Inductive js_error :=
| DomainError (code : DomainErrorCode)
| UploadValidationError (code : UploadValidationCode)
| BadRequestException (code : option UploadValidationCode)
| PlainError
| ForbiddenException
| NotFoundException
| ServiceUnavailableException
| HttpException (status : Z)
| ZodError
| TypeError
| RangeError.

(** The outcome of a function that returns or throws. *)
Inductive result (A : Type) :=
| Ok (a : A)
| Throw (e : js_error).
Arguments Ok {_} _.
Arguments Throw {_} _.

#[global] Instance DomainErrorCode_eq_dec : EqDecision DomainErrorCode.
Proof. solve_decision. Defined.
#[global] Instance UploadValidationCode_eq_dec : EqDecision UploadValidationCode.
Proof. solve_decision. Defined.
#[global] Instance js_error_eq_dec : EqDecision js_error.
Proof. solve_decision. Defined.
#[global] Instance result_eq_dec `{EqDecision A} : EqDecision (result A).
Proof. solve_decision. Defined.

#[global] Instance result_ret : MRet result := λ A a, Ok a.
#[global] Instance result_bind : MBind result := λ A B f m,
  match m with Ok a => f a | Throw e => Throw e end.
#[global] Instance result_fmap : FMap result := λ A B f m,
  match m with Ok a => Ok (f a) | Throw e => Throw e end.

(** [if (b) throw e;] *)
Definition throw_when (b : bool) (e : js_error) : result () :=
  if b then Throw e else Ok ().

(** A [for ... of] loop whose body updates a state and may throw. *)
Fixpoint foldM {S A} (f : S → A → result S) (s : S) (l : list A) : result S :=
  match l with
  | [] => Ok s
  | x :: l' => s' ← f s x; foldM f s' l'
  end.

(** [l.map(f)] where [f] may throw: elements are visited in order. *)
Fixpoint traverse {A B} (f : A → result B) (l : list A) : result (list B) :=
  match l with
  | [] => Ok []
  | x :: l' => y ← f x; ys ← traverse f l'; Ok (y :: ys)
  end.

(** ** JavaScript strings: sequences of UTF-16 code units *)

Abbreviation jstr := (list Z).

(** A literal whose characters are all in the Latin-1 range. *)
Definition js (s : String.string) : jstr :=
  map (λ a, Z.of_N (Ascii.N_of_ascii a)) (String.list_ascii_of_string s).
Arguments js _%_string.

Definition js_length (s : jstr) : Z := Z.of_nat (length s).

(** The code units [String.prototype.trim] strips: WhiteSpace and
    LineTerminator of the language. *)
Definition is_js_space (c : Z) : bool :=
  ((9 <=? c) && (c <=? 13)) || (c =? 32) || (c =? 160) || (c =? 5760)
  || ((8192 <=? c) && (c <=? 8202)) || (c =? 8232) || (c =? 8233)
  || (c =? 8239) || (c =? 8287) || (c =? 12288) || (c =? 65279).

Fixpoint trim_start (s : jstr) : jstr :=
  match s with
  | [] => []
  | c :: s' => if is_js_space c then trim_start s' else s
  end.

Definition js_trim (s : jstr) : jstr := reverse (trim_start (reverse (trim_start s))).

(** [s.trim().length === 0] *)
Definition blank (s : jstr) : bool := js_length (js_trim s) =? 0.

(** The relational operator [<] on strings: by code units. *)
Fixpoint str_ltb (s t : jstr) : bool :=
  match s, t with
  | _, [] => false
  | [], _ :: _ => true
  | c :: s', d :: t' => if c =? d then str_ltb s' t' else c <? d
  end.

Definition str_eqb (s t : jstr) : bool := bool_decide (s = t).

(** ** JavaScript numbers *)

(** The values of type [number]: the finite integral doubles (both zeros are
    [IntNum 0]), the finite non-integral ones, NaN and the infinities.  The
    package tells them apart with [Number.isSafeInteger] before any
    arithmetic, so a non-integral value needs no more than its tag. *)
Inductive jsnumber :=
| IntNum (z : Z)
| FracNum
| NaNNum
| InfNum (negative : bool).

#[global] Instance jsnumber_eq_dec : EqDecision jsnumber.
Proof. solve_decision. Defined.

Definition MAX_SAFE_INTEGER : Z := 9007199254740991.
Definition MIN_SAFE_INTEGER : Z := -9007199254740991.

Definition safe_int (z : Z) : bool :=
  (MIN_SAFE_INTEGER <=? z) && (z <=? MAX_SAFE_INTEGER).

Definition isSafeInteger (n : jsnumber) : bool :=
  match n with
  | IntNum z => safe_int z
  | _ => false
  end.

(** [BigInt(n)]: throws a [RangeError] at a number that is not integral. *)
Definition BigInt_of_number (n : jsnumber) : result Z :=
  match n with
  | IntNum z => Ok z
  | _ => Throw RangeError
  end.

(** The value of a number that [isSafeInteger] accepted. *)
Definition num (n : jsnumber) : Z :=
  match n with
  | IntNum z => z
  | _ => 0
  end.

(** [bigint | number] *)
Inductive bigint_or_number :=
| BigIntIn (z : Z)
| NumberIn (n : jsnumber).

(** ** Comparators and [Array.prototype.sort] *)

(** [a || b] on the numbers comparators return. *)
Definition js_or (a b : Z) : Z := if a =? 0 then b else a.

Definition compareBigInt (a b : Z) : Z :=
  if a <? b then -1 else if b <? a then 1 else 0.

Definition compareStrings (a b : jstr) : Z :=
  if str_ltb a b then -1 else if str_ltb b a then 1 else 0.

Section js_sort.
Context {A : Type} (cmp : A → A → Z).

Fixpoint sort_insert (x : A) (l : list A) : list A :=
  match l with
  | [] => [x]
  | y :: l' => if cmp x y <=? 0 then x :: y :: l' else y :: sort_insert x l'
  end.

(** [Array.prototype.sort] is stable; for a consistent comparator its result
    is determined, and it is the one of a stable insertion sort. *)
Definition js_sort (l : list A) : list A := foldr sort_insert [] l.
End js_sort.

(** [xs.reduce((sum, x) => sum + f(x), 0n)] *)
Definition sum_by {A} (f : A → Z) (l : list A) : Z :=
  foldl (λ acc x, acc + f x) 0 l.

(** ** The error monad: inversion *)

Lemma bind_Ok {A B} (m : result A) (f : A → result B) b :
  (m ≫= f) = Ok b ↔ ∃ a, m = Ok a ∧ f a = Ok b.
Proof. destruct m; naive_solver. Qed.

Lemma fmap_Ok {A B} (f : A → B) (m : result A) b :
  (f <$> m) = Ok b ↔ ∃ a, m = Ok a ∧ b = f a.
Proof. destruct m; naive_solver. Qed.

Lemma throw_when_Ok b e u : throw_when b e = Ok u ↔ b = false.
Proof. destruct b, u; naive_solver. Qed.

Lemma throw_when_false e : throw_when false e = Ok ().
Proof. done. Qed.

Lemma existsb_fmap {A B} (f : B → bool) (g : A → B) l : existsb f (g <$> l) = existsb (λ x, f (g x)) l.
Proof. induction l as [|x l IH]; [done|]. cbn. by f_equal. Qed.

Lemma existsb_false {A} (f : A → bool) l : existsb f l = false ↔ ∀ x, x ∈ l → f x = false.
Proof.
  setoid_rewrite list_elem_of_In. induction l as [|x l IH]; cbn; [by split|].
  rewrite orb_false_iff, IH. naive_solver.
Qed.

(** [ok_inv] takes apart every hypothesis saying that a monadic computation
    returned. *)
Ltac ok_step :=
  match goal with
  | H : (_ ≫= _) = Ok _ |- _ => apply bind_Ok in H; destruct H as (? & ? & ?)
  | H : (_ <$> _) = Ok _ |- _ => apply fmap_Ok in H; destruct H as (? & ? & ?)
  | H : throw_when _ _ = Ok _ |- _ => apply throw_when_Ok in H
  | H : Throw _ = Ok _ |- _ => discriminate H
  | H : Ok _ = Ok _ |- _ => injection H as H
  | x : () |- _ => destruct x
  end.
Ltac ok_inv := repeat ok_step; subst.

(** Reduces the monad's operations and nothing else. *)
Ltac run := cbn [mbind result_bind fmap result_fmap mret result_ret].
Ltac run_in H := cbn [mbind result_bind fmap result_fmap mret result_ret] in H.

(** Boolean conditions of the code as propositions. *)
Ltac bool_inv :=
  repeat match goal with
  | H : _ && _ = true |- _ => apply andb_true_iff in H; destruct H
  | H : _ || _ = false |- _ => apply orb_false_iff in H; destruct H
  | H : negb _ = true |- _ => apply negb_true_iff in H
  | H : negb _ = false |- _ => apply negb_false_iff in H
  | H : bool_decide _ = true |- _ => apply bool_decide_eq_true in H
  | H : bool_decide _ = false |- _ => apply bool_decide_eq_false in H
  | H : (_ <? _) = true |- _ => apply Z.ltb_lt in H
  | H : (_ <? _) = false |- _ => apply Z.ltb_ge in H
  | H : (_ <=? _) = true |- _ => apply Z.leb_le in H
  | H : (_ <=? _) = false |- _ => apply Z.leb_gt in H
  | H : (_ =? _) = true |- _ => apply Z.eqb_eq in H
  | H : (_ =? _) = false |- _ => apply Z.eqb_neq in H
  end.

(** [Forall] over an explicit list, element by element. *)
Ltac forall_list := repeat (apply Forall_cons_2; [try done|]); try apply Forall_nil_2.

Lemma foldM_app {S A} (f : S → A → result S) s l k :
  foldM f s (l ++ k) = (s' ← foldM f s l; foldM f s' k).
Proof. revert s. induction l as [|x l IH]; intros s; [done|]. cbn. by destruct (f s x) as [s'|]; cbn. Qed.

Lemma foldM_inv {S A} (f : S → A → result S) (I : S → Prop) (l : list A) s s' :
  (∀ s x s', x ∈ l → I s → f s x = Ok s' → I s') →
  I s → foldM f s l = Ok s' → I s'.
Proof.
  revert s. induction l as [|x l IH]; cbn; intros s Hstep Hs H; [by ok_inv|].
  ok_inv. eapply IH; [|by eapply (Hstep s x); [left|..]|done].
  intros ???? . apply Hstep. by right.
Qed.

Lemma traverse_Ok {A B} (f : A → result B) l k :
  traverse f l = Ok k ↔ Forall2 (λ x y, f x = Ok y) l k.
Proof.
  revert k. induction l as [|x l IH]; intros k; cbn.
  - split; [intros; by ok_inv|by inversion 1].
  - split.
    + intros H. ok_inv. constructor; [done|]. by apply IH.
    + inversion 1 as [|? y ? k' Hy Hk]; subst. apply IH in Hk. by rewrite Hy, Hk.
Qed.

Lemma traverse_pure {A B} (f : A → result B) (g : A → B) l :
  (∀ x, x ∈ l → f x = Ok (g x)) → traverse f l = Ok (g <$> l).
Proof.
  induction l as [|x l IH]; intros H; [done|]. cbn.
  rewrite H by left. cbn. rewrite IH; [done|]. intros y Hy. apply H. by right.
Qed.

(** A loop that rejects a repeated identity. *)
Lemma foldM_unique {A} (body : gset jstr → A → result (gset jstr))
    (key : A → jstr) (P : A → Prop) :
  (∀ s x s', body s x = Ok s' ↔ P x ∧ key x ∉ s ∧ s' = {[key x]} ∪ s) →
  ∀ l s s', foldM body s l = Ok s' ↔
    Forall P l ∧ NoDup (key <$> l) ∧ (∀ x, x ∈ l → key x ∉ s)
    ∧ s' = list_to_set (key <$> l) ∪ s.
Proof.
  intros Hbody l. induction l as [|x l IH]; intros s s'; cbn.
  - split; [intros; ok_inv; repeat split; try constructor|].
    + intros ? []%not_elem_of_nil.
    + set_solver.
    + intros (?&?&?&->). f_equal. set_solver.
  - rewrite bind_Ok. setoid_rewrite Hbody. setoid_rewrite IH.
    rewrite Forall_cons, NoDup_cons, list_elem_of_fmap. split.
    + intros (s1 & (HP & Hnot & ->) & HF & HN & Hfresh & ->).
      split_and!; try done.
      * intros (y & Heq & Hy). apply (Hfresh y Hy). set_solver.
      * intros y [->|Hy]%elem_of_cons; [done|]. specialize (Hfresh y Hy). set_solver.
      * set_solver.
    + intros ((HP & HF) & (Hx & HN) & Hfresh & ->).
      exists ({[key x]} ∪ s). split_and!; try done.
      * apply Hfresh. by left.
      * intros y Hy [Heq%elem_of_singleton|Hs]%elem_of_union.
        -- apply Hx. exists y. by split.
        -- eapply (Hfresh y); [by right|done].
      * set_solver.
Qed.

(** ** Strings *)

Lemma blank_nonempty s : blank s = false → s ≠ [].
Proof. intros H ->. discriminate H. Qed.

Lemma str_ltb_irrefl s : str_ltb s s = false.
Proof. induction s as [|c s IH]; cbn; [done|]. by rewrite Z.eqb_refl. Qed.

Lemma str_ltb_trans s t u : str_ltb s t = true → str_ltb t u = true → str_ltb s u = true.
Proof.
  revert t u. induction s as [|c s IH]; intros [|d t] [|e u]; cbn; try done.
  destruct (Z.eqb_spec c d), (Z.eqb_spec d e), (Z.eqb_spec c e); subst; try done;
    rewrite ?Z.ltb_lt; try lia; eauto.
Qed.

Lemma str_ltb_total s t : str_ltb s t = false → str_ltb t s = false → s = t.
Proof.
  revert t. induction s as [|c s IH]; intros [|d t]; cbn; try done.
  rewrite (Z.eqb_sym d c). destruct (Z.eqb_spec c d); subst.
  - intros. f_equal. auto.
  - rewrite !Z.ltb_ge. lia.
Qed.

Lemma str_ltb_asym s t : str_ltb s t = true → str_ltb t s = false.
Proof.
  intros H1. destruct (str_ltb t s) eqn:H2; [|done].
  pose proof (str_ltb_trans _ _ _ H1 H2) as H. by rewrite str_ltb_irrefl in H.
Qed.

(** ** Comparators *)

(** What [Array.prototype.sort] asks of a comparator: its sign is
    antisymmetric and being at most zero is transitive. *)
Class Comparator {A} (cmp : A → A → Z) : Prop := {
  cmp_antisym x y : cmp x y ≤ 0 ↔ 0 ≤ cmp y x;
  cmp_trans x y z : cmp x y ≤ 0 → cmp y z ≤ 0 → cmp x z ≤ 0;
}.

Lemma cmp_refl `{Comparator A cmp} x : cmp x x = 0.
Proof. pose proof (cmp_antisym x x). lia. Qed.

Lemma cmp_eq_sym `{Comparator A cmp} x y : cmp x y = 0 → cmp y x = 0.
Proof. pose proof (cmp_antisym x y). pose proof (cmp_antisym y x). lia. Qed.

#[export] Instance compareBigInt_comparator : Comparator compareBigInt.
Proof.
  unfold compareBigInt. split; intros *;
    repeat case_match; bool_inv; lia.
Qed.

Lemma compareBigInt_0 a b : compareBigInt a b = 0 ↔ a = b.
Proof. unfold compareBigInt. repeat case_match; bool_inv; lia. Qed.

#[export] Instance compareStrings_comparator : Comparator compareStrings.
Proof.
  unfold compareStrings. split.
  - intros x y. destruct (str_ltb x y) eqn:E1, (str_ltb y x) eqn:E2; try lia.
    apply str_ltb_asym in E1. congruence.
  - intros x y z.
    destruct (str_ltb x y) eqn:Hxy, (str_ltb y x) eqn:Hyx,
      (str_ltb y z) eqn:Hyz, (str_ltb z y) eqn:Hzy; try lia; intros _ _;
      repeat match goal with
      | H : str_ltb ?a ?b = false, H' : str_ltb ?b ?a = false |- _ =>
          pose proof (str_ltb_total _ _ H H'); clear H; subst
      end; rewrite ?str_ltb_irrefl; try lia;
      repeat match goal with
      | H : str_ltb ?a ?b = true, H' : str_ltb ?b ?c = true |- _ =>
          first [rewrite (str_ltb_trans _ _ _ H H'); lia | fail 1]
      | H : str_ltb ?a ?b = true |- context [str_ltb ?a ?b] => rewrite H; lia
      end.
Qed.

Lemma compareStrings_0 a b : compareStrings a b = 0 ↔ a = b.
Proof.
  unfold compareStrings. destruct (str_ltb a b) eqn:H1; [split; [lia|]|].
  - intros ->. by rewrite str_ltb_irrefl in H1.
  - destruct (str_ltb b a) eqn:H2; [split; [lia|]|].
    + intros ->. by rewrite str_ltb_irrefl in H2.
    + split; [|done]. intros _. by apply str_ltb_total.
Qed.

#[export] Instance sub_comparator : Comparator Z.sub.
Proof. split; intros; lia. Qed.

Lemma contramap_comparator {A B} (f : A → B) (cmp : B → B → Z) :
  Comparator cmp → Comparator (λ x y, cmp (f x) (f y)).
Proof. intros [H1 H2]. split; intros x y; [apply H1|]. intros z. apply H2. Qed.

Lemma flip_comparator {A} (cmp : A → A → Z) : Comparator cmp → Comparator (λ x y, cmp y x).
Proof. intros [H1 H2]. split; intros x y; [apply H1|]. intros z ??. by apply (H2 z y x). Qed.

(** Ascending and descending order by a key. *)
#[export] Instance compareBigInt_asc {A} (f : A → Z) :
  Comparator (λ x y, compareBigInt (f x) (f y)).
Proof. by apply contramap_comparator, _. Qed.
#[export] Instance compareBigInt_desc {A} (f : A → Z) :
  Comparator (λ x y, compareBigInt (f y) (f x)).
Proof. apply flip_comparator, _. Qed.
#[export] Instance compareStrings_asc {A} (f : A → jstr) :
  Comparator (λ x y, compareStrings (f x) (f y)).
Proof. by apply contramap_comparator, _. Qed.
#[export] Instance sub_asc {A} (f : A → Z) : Comparator (λ x y, f x - f y).
Proof. apply (contramap_comparator f Z.sub), _. Qed.

(** A comparator is one up to pointwise equality. *)
Lemma comparator_ext {A} (c1 c2 : A → A → Z) :
  (∀ x y, c1 x y = c2 x y) → Comparator c2 → Comparator c1.
Proof. intros He [H1 H2]. split; intros *; rewrite !He; auto. apply H2. Qed.

#[export] Instance js_or_comparator {A} (c1 c2 : A → A → Z)
  `{!Comparator c1, !Comparator c2} : Comparator (λ x y, js_or (c1 x y) (c2 x y)).
Proof.
  unfold js_or. split.
  - intros x y. pose proof (cmp_antisym (cmp := c1) x y).
    pose proof (cmp_antisym (cmp := c1) y x). pose proof (cmp_antisym (cmp := c2) x y).
    repeat case_match; bool_inv; lia.
  - intros x y z.
    pose proof (cmp_trans (cmp := c1) x y z). pose proof (cmp_trans (cmp := c2) x y z).
    pose proof (cmp_trans (cmp := c1) z x y). pose proof (cmp_trans (cmp := c1) y z x).
    pose proof (cmp_antisym (cmp := c1) x z). pose proof (cmp_antisym (cmp := c1) z x).
    pose proof (cmp_antisym (cmp := c1) y z). pose proof (cmp_antisym (cmp := c1) z y).
    pose proof (cmp_antisym (cmp := c1) x y). pose proof (cmp_antisym (cmp := c1) y x).
    repeat case_match; bool_inv; lia.
Qed.

Lemma js_or_0 a b : js_or a b = 0 ↔ a = 0 ∧ b = 0.
Proof. unfold js_or. case_match; bool_inv; lia. Qed.

(** ** Sorting *)

Section sorting_facts.
Context {A : Type} (cmp : A → A → Z).

Lemma sort_insert_perm x l : sort_insert cmp x l ≡ₚ x :: l.
Proof.
  induction l as [|y l IH]; [done|]. cbn. case_match; [done|].
  by rewrite IH, Permutation_swap.
Qed.

Lemma js_sort_perm l : js_sort cmp l ≡ₚ l.
Proof. induction l as [|x l IH]; [done|]. cbn. by rewrite sort_insert_perm, IH. Qed.

Lemma elem_of_js_sort x l : x ∈ js_sort cmp l ↔ x ∈ l.
Proof. by rewrite js_sort_perm. Qed.

Context `{!Comparator cmp}.

Lemma sort_insert_sorted x l :
  StronglySorted (λ a b, cmp a b ≤ 0) l → StronglySorted (λ a b, cmp a b ≤ 0) (sort_insert cmp x l).
Proof.
  induction 1 as [|y l Hl IH Hy]; [repeat constructor|]. cbn.
  destruct (Z.leb_spec (cmp x y) 0).
  - constructor; [by constructor|]. constructor; [done|].
    eapply Forall_impl; [exact Hy|]. cbn. intros z. by apply cmp_trans.
  - constructor; [done|]. rewrite sort_insert_perm. constructor; [|done].
    apply cmp_antisym. lia.
Qed.

Lemma js_sort_sorted l : StronglySorted (λ a b, cmp a b ≤ 0) (js_sort cmp l).
Proof. induction l; [constructor|]. by apply sort_insert_sorted. Qed.

(** A comparator that separates the elements of a list gives a result that
    does not depend on the order they came in. *)
Lemma js_sort_unique l k :
  (∀ x y, x ∈ l → y ∈ l → cmp x y = 0 → x = y) →
  l ≡ₚ k → js_sort cmp l = js_sort cmp k.
Proof.
  intros Hsep Hperm.
  apply (StronglySorted_unique_strong (λ a b, cmp a b ≤ 0)); try apply js_sort_sorted.
  - intros x y. rewrite !elem_of_js_sort, <-Hperm. intros Hx Hy Hle Hge.
    apply Hsep; try done. apply cmp_antisym in Hge. lia.
  - by rewrite !js_sort_perm.
Qed.
End sorting_facts.

Lemma sorted_mono {A} (R R' : A → A → Prop) l :
  (∀ x y, R x y → R' x y) → StronglySorted R l → StronglySorted R' l.
Proof.
  intros HR. induction 1 as [|x l _ IH Hx]; constructor; [done|].
  eapply Forall_impl; [exact Hx|]. apply HR.
Qed.

(** ** Sums *)

Lemma sum_by_acc {A} (f : A → Z) l a : foldl (λ acc x, acc + f x) a l = a + sum_by f l.
Proof.
  unfold sum_by. revert a. induction l as [|x l IH]; intros a; cbn [foldl]; [lia|].
  rewrite (IH (a + f x)), (IH (0 + f x)). lia.
Qed.

Lemma sum_by_nil {A} (f : A → Z) : sum_by f [] = 0.
Proof. done. Qed.

Lemma sum_by_cons {A} (f : A → Z) x l : sum_by f (x :: l) = f x + sum_by f l.
Proof. unfold sum_by at 1. cbn [foldl]. rewrite sum_by_acc. lia. Qed.

Lemma sum_by_app {A} (f : A → Z) l k : sum_by f (l ++ k) = sum_by f l + sum_by f k.
Proof. induction l; cbn [app]; rewrite ?sum_by_nil, ?sum_by_cons; lia. Qed.

Lemma sum_by_fmap {A B} (g : A → B) (f : B → Z) l : sum_by f (g <$> l) = sum_by (f ∘ g) l.
Proof. induction l; [done|]. by rewrite fmap_cons, !sum_by_cons, IHl. Qed.

Lemma sum_by_ext {A} (f g : A → Z) l :
  (∀ x, x ∈ l → f x = g x) → sum_by f l = sum_by g l.
Proof.
  induction l as [|x l IH]; intros H; [done|]. rewrite !sum_by_cons, H, IH; [done| |by left].
  intros. apply H. by right.
Qed.

#[export] Instance sum_by_proper {A} (f : A → Z) : Proper ((≡ₚ) ==> (=)) (sum_by f).
Proof. induction 1; rewrite ?sum_by_cons; lia. Qed.

Lemma sum_by_add {A} (f g : A → Z) l : sum_by (λ x, f x + g x) l = sum_by f l + sum_by g l.
Proof. induction l; rewrite ?sum_by_nil, ?sum_by_cons; lia. Qed.

Lemma sum_by_mul {A} (c : Z) (f : A → Z) l : sum_by (λ x, c * f x) l = c * sum_by f l.
Proof. induction l; rewrite ?sum_by_nil, ?sum_by_cons; lia. Qed.

Lemma sum_by_const {A} (c : Z) (l : list A) : sum_by (λ _, c) l = c * Z.of_nat (length l).
Proof. induction l; rewrite ?sum_by_nil, ?sum_by_cons; cbn [length]; lia. Qed.

Lemma sum_by_le {A} (f g : A → Z) l :
  (∀ x, x ∈ l → f x ≤ g x) → sum_by f l ≤ sum_by g l.
Proof.
  induction l as [|x l IH]; intros H; [done|]. rewrite !sum_by_cons.
  pose proof (H x ltac:(by left)). assert (sum_by f l ≤ sum_by g l); [|lia].
  apply IH. intros. apply H. by right.
Qed.

Lemma sum_by_nonneg {A} (f : A → Z) l : (∀ x, x ∈ l → 0 ≤ f x) → 0 ≤ sum_by f l.
Proof.
  intros H. transitivity (sum_by (λ _ : A, 0) l); [rewrite sum_by_const; lia|]. by apply sum_by_le.
Qed.

Lemma sum_by_elem {A} (f : A → Z) l x : (∀ y, y ∈ l → 0 ≤ f y) → x ∈ l → f x ≤ sum_by f l.
Proof.
  intros H Hx. apply list_elem_of_split in Hx as (l1 & l2 & ->).
  rewrite sum_by_app, sum_by_cons.
  pose proof (sum_by_nonneg f l1 ltac:(intros; apply H; set_solver)).
  pose proof (sum_by_nonneg f l2 ltac:(intros; apply H; set_solver)). lia.
Qed.

(** ** Automation *)

Create HintDb taven.
#[export] Hint Resolve js_sort_perm js_sort_sorted sum_by_nonneg : taven.
#[export] Hint Rewrite @sum_by_nil @sum_by_cons @sum_by_app @sum_by_fmap : taven.
#[export] Hint Rewrite @throw_when_false : taven.
