(* ===== verification/Text.v ===== *)
(** Decimal text, [Array.prototype.join] and length-prefixed encodings: the
    string operations the lock order and the key builders share. *)
From S2P Require Import Prelude.

(** ** Operations of the language *)

(** The digits of [n], most significant first, in front of [acc]. *)
Fixpoint radix_digits (radix : Z) (fuel : nat) (n : Z) (acc : list Z) : list Z :=
  match fuel with
  | O => acc
  | S fuel' =>
      let acc' := n `mod` radix :: acc in
      if n / radix =? 0 then acc' else radix_digits radix fuel' (n / radix) acc'
  end.

(** The characters 0-9a-z. *)
Definition radix_char (d : Z) : Z := if d <? 10 then 48 + d else 87 + d.

(** The text of a non-negative integer; a number has at most as many digits
    as bits. *)
Definition radix_text (radix n : Z) : jstr :=
  radix_char <$> radix_digits radix (S (Z.to_nat (Z.log2 n))) n [].

(** [z.toString(radix)] on a number that is an integer, or on a bigint. *)
Definition toString (radix z : Z) : jstr :=
  if z <? 0 then 45 :: radix_text radix (- z) else radix_text radix z.

Definition toString10 (z : Z) : jstr := toString 10 z.

(** [parts.join(separator)] *)
Fixpoint join (separator : jstr) (parts : list jstr) : jstr :=
  match parts with
  | [] => []
  | [s] => s
  | s :: rest => s ++ separator ++ join separator rest
  end.

(** [`${value.length}:${value}`] *)
Definition lengthPrefixed (value : jstr) : jstr :=
  toString10 (js_length value) ++ js ":" ++ value.

Example toString10_samples :
  toString10 0 = js "0" ∧ toString10 1029 = js "1029" ∧ toString10 (-40) = js "-40".
Proof. vm_compute. done. Qed.

(** ** The text of an integer determines it *)

Definition is_digit (c : Z) : Prop := 48 ≤ c ≤ 57.

Definition radix_value (radix : Z) (ds : list Z) : Z := foldl (λ v d, radix * v + d) 0 ds.

Lemma radix_digits_spec radix fuel n acc :
  2 ≤ radix → 0 ≤ n < 2 ^ Z.of_nat fuel → (0 < fuel)%nat →
  ∃ ds, radix_digits radix fuel n acc = ds ++ acc ∧ ds ≠ []
    ∧ Forall (λ d, 0 ≤ d < radix) ds ∧ radix_value radix ds = n
    ∧ ∀ k, (0 < k)%nat → n < radix ^ Z.of_nat k → (length ds ≤ k)%nat.
Proof.
  intros Hr. revert n acc. induction fuel as [|fuel IH]; intros n acc Hn Hf; [lia|]. cbn [radix_digits].
  pose proof (Z.mod_pos_bound n radix ltac:(lia)) as Hm.
  pose proof (Z.div_mod n radix ltac:(lia)) as Hd.
  destruct (Z.eqb_spec (n / radix) 0) as [Hz|Hz].
  - exists [n `mod` radix]. split_and!; [done|done|by constructor|cbn; lia|]. intros k Hk _. cbn. lia.
  - assert (n / radix < 2 ^ Z.of_nat fuel).
    { apply Z.div_lt_upper_bound; [lia|]. rewrite Nat2Z.inj_succ, Z.pow_succ_r in Hn by lia. nia. }
    pose proof (Z.div_pos n radix ltac:(lia) ltac:(lia)).
    assert (0 < fuel)%nat. { destruct fuel; [|lia]. change (2 ^ Z.of_nat 0) with 1 in *. lia. }
    destruct (IH (n / radix) (n `mod` radix :: acc)) as (ds & -> & Hne & HF & Hv & Hlen); [lia|done|].
    exists (ds ++ [n `mod` radix]). split_and!.
    + by rewrite <-app_assoc.
    + by destruct ds.
    + apply Forall_app. split; [done|]. by constructor.
    + unfold radix_value in *. rewrite foldl_app, Hv. cbn. lia.
    + intros [|k] Hk Hlt; [lia|]. rewrite Nat2Z.inj_succ, Z.pow_succ_r in Hlt by lia.
      assert (0 < k)%nat. { destruct k; [|lia]. exfalso. apply Hz, Z.div_small. cbn in Hlt. lia. }
      rewrite length_app. cbn. pose proof (Hlen k). rewrite Nat.add_1_r. apply le_n_S.
      apply Hlen; [done|]. apply Z.div_lt_upper_bound; lia.
Qed.

Lemma log2_fuel n : 0 ≤ n → n < 2 ^ Z.of_nat (S (Z.to_nat (Z.log2 n))).
Proof.
  intros Hn. pose proof (Z.log2_nonneg n). rewrite Nat2Z.inj_succ, Z2Nat.id by lia.
  destruct (decide (n = 0)) as [->|]; [done|]. apply Z.log2_spec. lia.
Qed.

#[export] Instance radix_char_inj : Inj (=) (=) radix_char.
Proof. intros d e. unfold radix_char. destruct (Z.ltb_spec d 10), (Z.ltb_spec e 10); lia. Qed.

Lemma radix_text_spec radix n :
  2 ≤ radix → 0 ≤ n → ∃ ds, radix_text radix n = radix_char <$> ds ∧ ds ≠ []
    ∧ Forall (λ d, 0 ≤ d < radix) ds ∧ radix_value radix ds = n
    ∧ ∀ k, (0 < k)%nat → n < radix ^ Z.of_nat k → (length ds ≤ k)%nat.
Proof.
  intros Hr Hn. unfold radix_text.
  destruct (radix_digits_spec radix (S (Z.to_nat (Z.log2 n))) n []) as (ds & -> & ?); [done| |lia|].
  - split; [done|]. by apply log2_fuel.
  - exists ds. by rewrite (right_id_L [] (++)).
Qed.

Lemma radix_text_inj radix m n :
  2 ≤ radix → 0 ≤ m → 0 ≤ n → radix_text radix m = radix_text radix n → m = n.
Proof.
  intros Hr Hm Hn. destruct (radix_text_spec radix m Hr Hm) as (ds & -> & _ & _ & <- & _).
  destruct (radix_text_spec radix n Hr Hn) as (es & -> & _ & _ & <- & _).
  intros Heq. apply (inj (fmap radix_char)) in Heq. by subst.
Qed.

Lemma radix_text_head radix n rest : 2 ≤ radix → 0 ≤ n → radix_text radix n ≠ 45 :: rest.
Proof.
  intros Hr Hn. destruct (radix_text_spec radix n Hr Hn) as (ds & -> & _ & HF & _).
  destruct ds as [|d ds]; [done|]. apply Forall_cons in HF as [Hd _]. intros [= Heq _].
  unfold radix_char in Heq. destruct (Z.ltb_spec d 10); lia.
Qed.

#[export] Instance toString10_inj : Inj (=) (=) toString10.
Proof.
  intros m n. unfold toString10, toString.
  destruct (Z.ltb_spec m 0), (Z.ltb_spec n 0); intros Heq.
  - injection Heq as Heq. apply radix_text_inj in Heq; lia.
  - symmetry in Heq. by apply radix_text_head in Heq.
  - by apply radix_text_head in Heq.
  - apply radix_text_inj in Heq; lia.
Qed.

Lemma toString10_digits n : 0 ≤ n → Forall is_digit (toString10 n).
Proof.
  intros Hn. unfold toString10, toString. rewrite (proj2 (Z.ltb_ge n 0)) by done.
  destruct (radix_text_spec 10 n) as (ds & -> & _ & HF & _); [lia|done|].
  apply Forall_fmap. eapply Forall_impl; [exact HF|]. intros d Hd. cbn in Hd |- *.
  unfold is_digit, radix_char. destruct (Z.ltb_spec d 10); lia.
Qed.

Lemma toString10_nonempty n : toString10 n ≠ [].
Proof.
  unfold toString10, toString. destruct (Z.ltb_spec n 0); [done|].
  destruct (radix_text_spec 10 n) as (ds & -> & Hne & _); [lia|done|]. by destruct ds.
Qed.

Lemma radix_value_app radix ds es :
  radix_value radix (ds ++ es)
  = radix_value radix ds * radix ^ Z.of_nat (length es) + radix_value radix es.
Proof.
  unfold radix_value. induction es as [|e es IH] using rev_ind.
  - rewrite (right_id_L [] (++)). cbn. lia.
  - rewrite app_assoc, (foldl_app _ (ds ++ es)), (foldl_app _ es). cbn [foldl]. rewrite IH, length_app, Nat2Z.inj_add.
    rewrite Z.pow_add_r by lia. cbn [length]. change (Z.of_nat 1) with 1. rewrite Z.pow_1_r. ring.
Qed.

(** A number has one digit list of each length. *)
Lemma radix_value_unique radix ds es :
  0 < radix → Forall (λ d, 0 ≤ d < radix) ds → Forall (λ d, 0 ≤ d < radix) es →
  length ds = length es → radix_value radix ds = radix_value radix es → ds = es.
Proof.
  intros Hr. revert es. induction ds as [|d ds IH] using rev_ind; intros es HF HG Hlen Hv.
  - by destruct es.
  - destruct es as [|e es _] using rev_ind; [rewrite length_app in Hlen; cbn in Hlen; lia|].
    rewrite !length_app in Hlen. cbn in Hlen. rewrite !radix_value_app in Hv. cbn in Hv.
    apply Forall_app in HF as [HF [Hd _]%Forall_cons], HG as [HG [He _]%Forall_cons].
    cbn in Hd, He. change (Z.of_nat 1) with 1 in Hv. rewrite Z.pow_1_r in Hv.
    destruct (Z.div_mod_unique radix (radix_value radix ds) (radix_value radix es) d e) as [Heq ->];
      [lia..|]. f_equal. apply IH; [done..|lia|done].
Qed.

(** ** Cutting a string at its first separator *)

Lemma cut_unique {A} (c : A) (l1 l2 r1 r2 : list A) :
  Forall (.≠ c) l1 → Forall (.≠ c) l2 → l1 ++ c :: r1 = l2 ++ c :: r2 → l1 = l2 ∧ r1 = r2.
Proof.
  intros H1. revert l2. induction H1 as [|x l1 Hx _ IH]; intros [|y l2] H2 Heq; cbn in Heq;
    try apply Forall_cons in H2 as [??]; simplify_eq; [done|].
  destruct (IH l2) as [-> ->]; done.
Qed.

Lemma digits_not_colon s : Forall is_digit s → Forall (.≠ 58) s.
Proof. intros H. eapply Forall_impl; [exact H|]. unfold is_digit. cbn. lia. Qed.

Lemma digits_not_bar s : Forall is_digit s → Forall (.≠ 124) s.
Proof. intros H. eapply Forall_impl; [exact H|]. unfold is_digit. cbn. lia. Qed.

(** A length-prefixed value can be cut off the front of any text. *)
Lemma lengthPrefixed_cut v w r s :
  lengthPrefixed v ++ r = lengthPrefixed w ++ s → v = w ∧ r = s.
Proof.
  unfold lengthPrefixed. rewrite <-!app_assoc. cbn.
  intros Heq. apply cut_unique in Heq as [Hlen Heq].
  - apply (inj toString10) in Hlen. unfold js_length in Hlen. apply (inj Z.of_nat) in Hlen.
    by apply app_inj_1.
  - apply digits_not_colon, toString10_digits. unfold js_length. lia.
  - apply digits_not_colon, toString10_digits. unfold js_length. lia.
Qed.

#[export] Instance lengthPrefixed_inj : Inj (=) (=) lengthPrefixed.
Proof. intros v w Heq. apply (lengthPrefixed_cut v w [] []). by rewrite !(right_id_L [] (++)). Qed.
