(* ===== verification/Primitives.v ===== *)
(** The value objects of [packages/core/src/primitives]: [Money] (money.ts),
    the integral units (units.ts), [Instant] (time.ts) and [RevisionRef]
    (revision-ref.ts).  A constructor of the source is private, so every value
    comes from a validating factory: [wf] is the invariant those establish,
    and the theorems show that every operation keeps it. *)
From S2P Require Import Prelude.

Module Money.

Inductive RoundingMode := floor | ceil | toward_zero | half_up | half_even.

(** ISO 4217 codes with defined minor units. *)
Definition supportedMinorUnitCurrencies : list jstr := js <$> [
  "AED"; "AFN"; "ALL"; "AMD"; "AOA"; "ARS"; "AUD"; "AWG"; "AZN"; "BAM"; "BBD"; "BDT"; "BHD"; "BIF"; "BMD"; "BND"; "BOB"; "BOV";
  "BRL"; "BSD"; "BTN"; "BWP"; "BYN"; "BZD"; "CAD"; "CDF"; "CHE"; "CHF"; "CHW"; "CLF"; "CLP"; "CNY"; "COP"; "COU"; "CRC"; "CUP";
  "CVE"; "CZK"; "DJF"; "DKK"; "DOP"; "DZD"; "EGP"; "ERN"; "ETB"; "EUR"; "FJD"; "FKP"; "GBP"; "GEL"; "GHS"; "GIP"; "GMD"; "GNF";
  "GTQ"; "GYD"; "HKD"; "HNL"; "HTG"; "HUF"; "IDR"; "ILS"; "INR"; "IQD"; "IRR"; "ISK"; "JMD"; "JOD"; "JPY"; "KES"; "KGS"; "KHR";
  "KMF"; "KPW"; "KRW"; "KWD"; "KYD"; "KZT"; "LAK"; "LBP"; "LKR"; "LRD"; "LSL"; "LYD"; "MAD"; "MDL"; "MGA"; "MKD"; "MMK"; "MNT";
  "MOP"; "MRU"; "MUR"; "MVR"; "MWK"; "MXN"; "MXV"; "MYR"; "MZN"; "NAD"; "NGN"; "NIO"; "NOK"; "NPR"; "NZD"; "OMR"; "PAB"; "PEN";
  "PGK"; "PHP"; "PKR"; "PLN"; "PYG"; "QAR"; "RON"; "RSD"; "RUB"; "RWF"; "SAR"; "SBD"; "SCR"; "SDG"; "SEK"; "SGD"; "SHP"; "SLE"; "SOS";
  "SRD"; "SSP"; "STN"; "SVC"; "SYP"; "SZL"; "THB"; "TJS"; "TMT"; "TND"; "TOP"; "TRY"; "TTD"; "TWD"; "TZS"; "UAH"; "UGX"; "USD";
  "USN"; "UYI"; "UYU"; "UYW"; "UZS"; "VED"; "VES"; "VND"; "VUV"; "WST"; "XAD"; "XAF"; "XCD"; "XCG"; "XOF"; "XPF"; "YER"; "ZAR";
  "ZMW"; "ZWG"]%string.

Record t := mk {
  minorUnits : Z;
  currency : jstr;
}.

#[global] Instance t_eq_dec : EqDecision t.
Proof. solve_decision. Defined.

Definition asNonNegativeInteger (value : bigint_or_number) : result Z :=
  match value with
  | NumberIn n => throw_when (negb (isSafeInteger n)) (DomainError INVALID_ARGUMENT)
  | BigIntIn _ => Ok ()
  end ;;
  integer ← match value with
            | NumberIn n => BigInt_of_number n
            | BigIntIn z => Ok z
            end;
  throw_when (integer <? 0) (DomainError NEGATIVE_RESULT) ;;
  Ok integer.

Definition validateCurrency (c : jstr) : result jstr :=
  throw_when (negb (bool_decide (c ∈ supportedMinorUnitCurrencies)))
    (DomainError INVALID_CURRENCY) ;;
  Ok c.

(** [/] and [%] on bigints truncate towards zero. *)
Definition roundedQuotient (numerator denominator : Z) (mode : RoundingMode) : result Z :=
  throw_when (denominator =? 0) (DomainError DIVISION_BY_ZERO) ;;
  throw_when (denominator <? 0) (DomainError INVALID_ARGUMENT) ;;
  let quotient := Z.quot numerator denominator in
  let remainder := Z.rem numerator denominator in
  let is_floor := match mode with floor | toward_zero => true | _ => false end in
  if (remainder =? 0) || is_floor then Ok quotient
  else
    match mode with
    | ceil => Ok (quotient + 1)
    | _ =>
        let doubledRemainder := remainder * 2 in
        if denominator <? doubledRemainder then Ok (quotient + 1)
        else if doubledRemainder <? denominator then Ok quotient
        else
          match mode with
          | half_up => Ok (quotient + 1)
          | _ => if Z.rem quotient 2 =? 0 then Ok quotient else Ok (quotient + 1)
          end
    end.

Definition of_ (units : bigint_or_number) (c : jstr) : result t :=
  m ← asNonNegativeInteger units;
  c' ← validateCurrency c;
  Ok (mk m c').

Definition zero (c : jstr) : result t := of_ (BigIntIn 0) c.

Definition assertSameCurrency (this other : t) : result () :=
  throw_when (negb (str_eqb (currency this) (currency other)))
    (DomainError CURRENCY_MISMATCH).

Definition add (this other : t) : result t :=
  assertSameCurrency this other ;;
  Ok (mk (minorUnits this + minorUnits other) (currency this)).

Definition subtract (this other : t) : result t :=
  assertSameCurrency this other ;;
  throw_when (minorUnits this <? minorUnits other) (DomainError NEGATIVE_RESULT) ;;
  Ok (mk (minorUnits this - minorUnits other) (currency this)).

Definition multiply (this : t) (numerator denominator : bigint_or_number)
    (rounding : RoundingMode) : result t :=
  safeNumerator ← asNonNegativeInteger numerator;
  safeDenominator ← asNonNegativeInteger denominator;
  q ← roundedQuotient (minorUnits this * safeNumerator) safeDenominator rounding;
  Ok (mk q (currency this)).

Definition compare (this other : t) : result Z :=
  assertSameCurrency this other ;;
  Ok (if minorUnits this =? minorUnits other then 0
      else if minorUnits this <? minorUnits other then -1 else 1).

Definition equals (this other : t) : bool :=
  str_eqb (currency this) (currency other) && (minorUnits this =? minorUnits other).

(** *** Specification *)

(** What the factories establish of every value. *)
Definition wf (m : t) : Prop :=
  0 ≤ minorUnits m ∧ currency m ∈ supportedMinorUnitCurrencies.

(** What each mode promises of the quotient [q] of [n] by [d > 0]. *)
Definition rounds_to (mode : RoundingMode) (n d q : Z) : Prop :=
  match mode with
  | floor | toward_zero => q * d ≤ n < q * d + d
  | ceil => q * d - d < n ≤ q * d
  | half_up => 2 * q * d - d ≤ 2 * n < 2 * q * d + d
  | half_even => 2 * q * d - d ≤ 2 * n ≤ 2 * q * d + d
      ∧ (2 * n = 2 * q * d - d ∨ 2 * n = 2 * q * d + d → Z.Even q)
  end.

(** *** Facts *)

Lemma asNonNegativeInteger_bigint z n :
  asNonNegativeInteger (BigIntIn z) = Ok n ↔ 0 ≤ z ∧ n = z.
Proof.
  cbn. destruct (Z.ltb_spec z 0); cbn; split; intros H1; ok_inv; try lia.
  destruct H1 as [_ ->]. done.
Qed.

Lemma asNonNegativeInteger_Ok v n :
  asNonNegativeInteger v = Ok n → 0 ≤ n ∧ (v = BigIntIn n ∨ v = NumberIn (IntNum n)).
Proof.
  destruct v as [z|[z| | |]]; cbn; intros H; ok_inv; bool_inv; auto.
Qed.

Lemma asNonNegativeInteger_safe z :
  0 ≤ z ≤ MAX_SAFE_INTEGER → asNonNegativeInteger (NumberIn (IntNum z)) = Ok z.
Proof.
  intros [Hlo Hhi]. cbn. unfold safe_int, MIN_SAFE_INTEGER.
  rewrite (proj2 (Z.leb_le _ z)), (proj2 (Z.leb_le z _)) by lia. cbn.
  by rewrite (proj2 (Z.ltb_ge _ _)).
Qed.

Lemma validateCurrency_Ok c c' :
  validateCurrency c = Ok c' ↔ c ∈ supportedMinorUnitCurrencies ∧ c' = c.
Proof.
  unfold validateCurrency. split.
  - intros H. ok_inv. bool_inv. done.
  - intros [H ->]. by rewrite bool_decide_eq_true_2.
Qed.

Lemma of__Ok z c m :
  of_ (BigIntIn z) c = Ok m ↔ m = mk z c ∧ wf m.
Proof.
  unfold of_, wf. rewrite bind_Ok. setoid_rewrite asNonNegativeInteger_bigint.
  setoid_rewrite bind_Ok. setoid_rewrite validateCurrency_Ok. split.
  - intros (? & [? ->] & ? & [? ->] & ?). ok_inv. done.
  - intros [-> [? ?]]. cbn in *. eexists. split; [done|]. eexists. by split.
Qed.

Lemma of__wf z c : wf (mk z c) → of_ (BigIntIn z) c = Ok (mk z c).
Proof. intros H. by apply of__Ok. Qed.

Lemma zero_Ok c m : zero c = Ok m ↔ m = mk 0 c ∧ c ∈ supportedMinorUnitCurrencies.
Proof. unfold zero. rewrite of__Ok. unfold wf. split; intros [-> H]; cbn in *; naive_solver lia. Qed.

Lemma zero_wf m : wf m → zero (currency m) = Ok (mk 0 (currency m)).
Proof. intros [_ H]. by apply zero_Ok. Qed.

Lemma assertSameCurrency_Ok m n u : assertSameCurrency m n = Ok u ↔ currency m = currency n.
Proof.
  unfold assertSameCurrency, str_eqb. rewrite throw_when_Ok, negb_false_iff.
  apply bool_decide_eq_true.
Qed.

Lemma add_Ok m n r :
  add m n = Ok r ↔ currency m = currency n ∧ r = mk (minorUnits m + minorUnits n) (currency m).
Proof.
  unfold add. rewrite bind_Ok. setoid_rewrite assertSameCurrency_Ok. split.
  - intros (? & ? & ?). by ok_inv.
  - intros [? ->]. by exists ().
Qed.

Lemma subtract_Ok m n r :
  subtract m n = Ok r ↔ currency m = currency n ∧ minorUnits n ≤ minorUnits m
    ∧ r = mk (minorUnits m - minorUnits n) (currency m).
Proof.
  unfold subtract. rewrite bind_Ok. setoid_rewrite assertSameCurrency_Ok. split.
  - intros (? & ? & ?). ok_inv. bool_inv. done.
  - intros (? & Hle & ->). exists (). split; [done|].
    by rewrite (proj2 (Z.ltb_ge _ _)).
Qed.

Lemma compare_Ok m n k :
  compare m n = Ok k ↔ currency m = currency n ∧
    k = Z.sgn (minorUnits m - minorUnits n).
Proof.
  unfold compare. rewrite bind_Ok. setoid_rewrite assertSameCurrency_Ok.
  assert ((if minorUnits m =? minorUnits n then 0
    else if minorUnits m <? minorUnits n then -1 else 1) = Z.sgn (minorUnits m - minorUnits n)) as ->.
  { repeat case_match; bool_inv; lia. }
  split; [intros (? & ? & ?); by ok_inv|]. intros [? ->]. by exists ().
Qed.

Lemma supported_CZK : js "CZK" ∈ supportedMinorUnitCurrencies.
Proof. apply (bool_decide_eq_true (js "CZK" ∈ supportedMinorUnitCurrencies)). vm_compute. reflexivity. Qed.

Lemma CZK_wf n : 0 ≤ n → wf (mk n (js "CZK")).
Proof. split; [done|]. apply supported_CZK. Qed.

Lemma quot_rem_nonneg n d : 0 ≤ n → 0 < d →
  n = d * Z.quot n d + Z.rem n d ∧ 0 ≤ Z.rem n d < d ∧ 0 ≤ Z.quot n d.
Proof.
  intros. pose proof (Z.quot_rem n d ltac:(lia)).
  pose proof (Z.rem_bound_pos n d). pose proof (Z.quot_pos n d). lia.
Qed.

Lemma rounds_to_unique mode n d q q' :
  0 < d → rounds_to mode n d q → rounds_to mode n d q' → q = q'.
Proof.
  intros Hd. destruct mode; cbn; try nia.
  intros [H1 He] [H2 He'].
  assert (q = q' ∨ q' = q + 1 ∨ q = q' + 1) as [?|[->| ->]] by nia; [done| |]; exfalso.
  - assert (Z.Even q) as [a Ha] by (apply He; nia).
    assert (Z.Even (q + 1)) as [b Hb] by (apply He'; nia). lia.
  - assert (Z.Even q') as [a Ha] by (apply He'; nia).
    assert (Z.Even (q' + 1)) as [b Hb] by (apply He; nia). lia.
Qed.

Lemma rem2_even q : 0 ≤ q → (Z.rem q 2 =? 0) = true ↔ Z.Even q.
Proof.
  intros Hq. rewrite Z.eqb_eq, Z.rem_mod_nonneg by lia. split.
  - intros H. exists (q / 2). pose proof (Z.div_mod q 2). lia.
  - intros [k ->]. rewrite Z.mul_comm. by apply Z.mod_mul.
Qed.

Lemma roundedQuotient_rounds n d mode q :
  0 ≤ n → 0 < d → roundedQuotient n d mode = Ok q → 0 ≤ q ∧ rounds_to mode n d q.
Proof.
  intros Hn Hd. destruct (quot_rem_nonneg n d Hn Hd) as (Heq & Hr & Hq).
  pose proof (rem2_even (Z.quot n d) Hq) as Hev.
  unfold roundedQuotient. rewrite (proj2 (Z.eqb_neq d 0)), (proj2 (Z.ltb_ge d 0)) by lia. cbn.
  set (k := Z.quot n d) in *. set (r := Z.rem n d) in *. clearbody k r. subst n.
  assert (Z.rem k 2 ≠ 0 → Z.Even (k + 1)) as Hodd.
  { intros Hne. destruct (Z.Even_or_Odd k) as [He|[j ->]]; [|exists (j + 1); lia].
    apply Hev, Z.eqb_eq in He. lia. }
  destruct (Z.eqb_spec r 0), mode; cbn; repeat case_match; intros HOk; ok_inv; bool_inv;
    split; try lia; unfold rounds_to; try nia;
    (split; [nia|]); intros [?|?]; try nia; try (apply Hev; lia); try (apply Hodd; lia).
Qed.

Lemma roundedQuotient_total n d mode : 0 < d → ∃ q, roundedQuotient n d mode = Ok q.
Proof.
  intros Hd. unfold roundedQuotient.
  rewrite (proj2 (Z.eqb_neq d 0)), (proj2 (Z.ltb_ge d 0)) by lia. cbn.
  destruct mode; repeat case_match; eauto.
Qed.

Lemma multiply_bigint m n d mode r :
  0 ≤ minorUnits m → 0 ≤ n → 0 < d →
  multiply m (BigIntIn n) (BigIntIn d) mode = Ok r ↔
    currency r = currency m ∧ rounds_to mode (minorUnits m * n) d (minorUnits r).
Proof.
  intros Hm Hn Hd. unfold multiply.
  rewrite (proj2 (asNonNegativeInteger_bigint n n)) by done.
  rewrite (proj2 (asNonNegativeInteger_bigint d d)) by (split; [lia|done]). cbn [mbind result_bind].
  destruct (roundedQuotient_total (minorUnits m * n) d mode Hd) as [q Hq].
  pose proof (roundedQuotient_rounds _ _ _ _ (Z.mul_nonneg_nonneg _ _ Hm Hn) Hd Hq) as [Hq0 Hr].
  rewrite Hq. cbn. split.
  - intros H. by ok_inv.
  - destruct r as [u c]. cbn. intros [-> Hr'].
    by rewrite (rounds_to_unique _ _ _ _ _ Hd Hr' Hr).
Qed.

Lemma multiply_total m n d mode :
  0 ≤ n → 0 < d → ∃ r, multiply m (BigIntIn n) (BigIntIn d) mode = Ok r.
Proof.
  intros Hn Hd. unfold multiply.
  rewrite (proj2 (asNonNegativeInteger_bigint n n)) by done.
  rewrite (proj2 (asNonNegativeInteger_bigint d d)) by (split; [lia|done]). cbn [mbind result_bind].
  destruct (roundedQuotient_total (minorUnits m * n) d mode Hd) as [q ->]. by eexists.
Qed.

Lemma multiply_number m n d mode :
  0 ≤ n ≤ MAX_SAFE_INTEGER → 0 ≤ d ≤ MAX_SAFE_INTEGER →
  multiply m (NumberIn (IntNum n)) (NumberIn (IntNum d)) mode
    = multiply m (BigIntIn n) (BigIntIn d) mode.
Proof.
  intros Hn Hd. unfold multiply. rewrite !asNonNegativeInteger_safe by done.
  by rewrite (proj2 (asNonNegativeInteger_bigint n n)), (proj2 (asNonNegativeInteger_bigint d d))
    by (split; [lia|done]).
Qed.

Lemma multiply_wf m n d mode r : wf m → multiply m n d mode = Ok r → wf r.
Proof.
  intros [Hm Hc] H. unfold multiply in H. ok_inv.
  match goal with H : asNonNegativeInteger n = _ |- _ => apply asNonNegativeInteger_Ok in H as [? _] end.
  match goal with H : asNonNegativeInteger d = _ |- _ => apply asNonNegativeInteger_Ok in H as [? _] end.
  split; [|done]. cbn. 
  match goal with H : roundedQuotient _ ?d _ = Ok _ |- _ =>
    destruct (Z.eqb_spec d 0); [subst; discriminate H|];
    apply roundedQuotient_rounds in H as [? _]; [done|by apply Z.mul_nonneg_nonneg|lia] end.
Qed.
End Money.

Module Units.

Definition integerBaseUnits (value : bigint_or_number) : result Z :=
  match value with
  | NumberIn n => throw_when (negb (isSafeInteger n)) (DomainError INVALID_ARGUMENT)
  | BigIntIn _ => Ok ()
  end ;;
  integer ← match value with
            | NumberIn n => BigInt_of_number n
            | BigIntIn z => Ok z
            end;
  throw_when (integer <? 0) (DomainError NEGATIVE_RESULT) ;;
  Ok integer.

(** The three unit classes share one representation; each has its own
    factories and accessor. *)
Record Quantity := mkQuantity { count : Z }.
Record Weight := mkWeight { milligrams : Z }.
Record Duration := mkDuration { seconds : Z }.

Definition Quantity_of (value : bigint_or_number) : result Quantity :=
  v ← integerBaseUnits value; Ok (mkQuantity v).

Definition Weight_milligrams (value : bigint_or_number) : result Weight :=
  v ← integerBaseUnits value; Ok (mkWeight v).

Definition Weight_grams (value : bigint_or_number) : result Weight :=
  g ← integerBaseUnits value; Weight_milligrams (BigIntIn (g * 1000)).

Definition Duration_seconds (value : bigint_or_number) : result Duration :=
  v ← integerBaseUnits value; Ok (mkDuration v).

(** *** Facts *)

Lemma integerBaseUnits_Ok v n :
  integerBaseUnits v = Ok n → 0 ≤ n ∧ (v = BigIntIn n ∨ v = NumberIn (IntNum n)).
Proof. exact (Money.asNonNegativeInteger_Ok v n). Qed.

Lemma integerBaseUnits_bigint z : 0 ≤ z → integerBaseUnits (BigIntIn z) = Ok z.
Proof. intros H. by apply Money.asNonNegativeInteger_bigint. Qed.

Lemma Weight_grams_milligrams v w :
  Weight_grams v = Ok w → ∃ g, (v = BigIntIn g ∨ v = NumberIn (IntNum g))
    ∧ 0 ≤ g ∧ milligrams w = 1000 * g.
Proof.
  unfold Weight_grams, Weight_milligrams. intros H. ok_inv.
  match goal with H : integerBaseUnits v = Ok ?g |- _ =>
    apply integerBaseUnits_Ok in H as [? ?]; exists g end.
  match goal with H : integerBaseUnits (BigIntIn _) = _ |- _ =>
    apply integerBaseUnits_Ok in H as [? [[= <-]|?]]; [|done] end.
  cbn. split_and!; try done. lia.
Qed.
End Units.

Module Instant.

Definition MIN_DATE_EPOCH_MILLISECONDS : Z := -8640000000000000.
Definition MAX_DATE_EPOCH_MILLISECONDS : Z := 8640000000000000.

Record t := mk { epochMilliseconds : Z }.

#[global] Instance t_eq_dec : EqDecision t.
Proof. solve_decision. Defined.

Definition fromEpochMilliseconds (epoch : jsnumber) : result t :=
  throw_when (negb (isSafeInteger epoch)) (DomainError INVALID_INSTANT) ;;
  throw_when ((num epoch <? MIN_DATE_EPOCH_MILLISECONDS)
    || (MAX_DATE_EPOCH_MILLISECONDS <? num epoch)) (DomainError INVALID_INSTANT) ;;
  Ok (mk (num epoch)).

Definition add (this : t) (duration : Units.Duration) : result t :=
  let res := epochMilliseconds this + Units.seconds duration * 1000 in
  throw_when ((res <? MIN_SAFE_INTEGER) || (MAX_SAFE_INTEGER <? res))
    (DomainError INVALID_INSTANT) ;;
  fromEpochMilliseconds (IntNum res).

Definition compare (this other : t) : Z :=
  if epochMilliseconds this =? epochMilliseconds other then 0
  else if epochMilliseconds this <? epochMilliseconds other then -1 else 1.

Definition equals (this other : t) : bool :=
  epochMilliseconds this =? epochMilliseconds other.

(** *** Specification *)

(** The instants a JavaScript [Date] can hold. *)
Definition wf (i : t) : Prop :=
  MIN_DATE_EPOCH_MILLISECONDS ≤ epochMilliseconds i ≤ MAX_DATE_EPOCH_MILLISECONDS.

(** *** Facts *)

Lemma fromEpochMilliseconds_Ok z i :
  fromEpochMilliseconds (IntNum z) = Ok i ↔ i = mk z ∧ wf i.
Proof.
  unfold fromEpochMilliseconds, wf, MIN_DATE_EPOCH_MILLISECONDS, MAX_DATE_EPOCH_MILLISECONDS.
  cbn. unfold safe_int, MIN_SAFE_INTEGER, MAX_SAFE_INTEGER. split.
  - intros H. ok_inv. bool_inv. cbn. split; [done|lia].
  - intros [-> H]. cbn in H.
    destruct (Z.leb_spec (-9007199254740991) z), (Z.leb_spec z 9007199254740991); try lia. cbn.
    destruct (Z.ltb_spec z (-8640000000000000)), (Z.ltb_spec 8640000000000000 z); try lia. done.
Qed.
End Instant.

Module RevisionRef.

Record t := mk { kind : jstr; id : jstr }.

#[global] Instance t_eq_dec : EqDecision t.
Proof. solve_decision. Defined.

Definition create (k i : jstr) : result t :=
  throw_when (blank k || blank i) (DomainError INVALID_REVISION_REFERENCE) ;;
  Ok (mk k i).

Definition equals (this other : t) : bool :=
  str_eqb (kind this) (kind other) && str_eqb (id this) (id other).

Definition toString (this : t) : jstr := kind this ++ js ":" ++ id this.
End RevisionRef.

(** ** Properties *)

(** [Money.multiply] by a rational rounds the exact product
    the way its mode says: at non-negative numerator and positive denominator
    it returns, and what it returns is the one amount of the same currency
    that [rounds_to] allows. *)
Theorem money_multiply_rounds (m r : Money.t) (n d : Z) (mode : Money.RoundingMode) :
  Money.wf m → 0 ≤ n → 0 < d →
  Money.multiply m (BigIntIn n) (BigIntIn d) mode = Ok r ↔
    Money.currency r = Money.currency m ∧ Money.wf r
    ∧ Money.rounds_to mode (Money.minorUnits m * n) d (Money.minorUnits r).
Proof.
  intros [Hm Hc] Hn Hd. rewrite Money.multiply_bigint by done. unfold Money.wf.
  split; [|naive_solver]. intros [Hcur Hr]. rewrite Hcur. split_and!; try done.
  destruct (Money.multiply_total m n d mode Hn Hd) as [r' Hr'].
  pose proof (Money.multiply_wf _ _ _ _ _ (conj Hm Hc) Hr') as [Hpos _].
  apply Money.multiply_bigint in Hr' as [_ Hr']; try done.
  by rewrite (Money.rounds_to_unique _ _ _ _ _ Hd Hr Hr').
Qed.

Lemma money_multiply_rounds_witness :
  Money.multiply (Money.mk 5 (js "CZK")) (BigIntIn 1) (BigIntIn 2) Money.half_even
    = Ok (Money.mk 2 (js "CZK")).
Proof.
  apply money_multiply_rounds; [apply Money.CZK_wf; lia|lia|lia|].
  split; [reflexivity|]. split; [apply Money.CZK_wf; lia|].
  cbn. split; [lia|]. intros _. exists 1. reflexivity.
Defined.

(** Adding a duration to an instant never leaves the range of
    a JavaScript [Date]: the sum is exact, or the operation throws
    [INVALID_INSTANT], and it throws only when the exact sum is out of range. *)
Theorem instant_add_bounds (i : Instant.t) (d : Units.Duration) :
  let sum := Instant.epochMilliseconds i + 1000 * Units.seconds d in
  Instant.add i d =
    if (Instant.MIN_DATE_EPOCH_MILLISECONDS <=? sum)
      && (sum <=? Instant.MAX_DATE_EPOCH_MILLISECONDS)
    then Ok (Instant.mk sum) else Throw (DomainError INVALID_INSTANT).
Proof.
  intros sum. unfold Instant.add.
  replace (Instant.epochMilliseconds i + Units.seconds d * 1000) with sum by lia. clearbody sum.
  unfold Instant.fromEpochMilliseconds; cbn; unfold safe_int.
  unfold MIN_SAFE_INTEGER, MAX_SAFE_INTEGER, Instant.MIN_DATE_EPOCH_MILLISECONDS,
    Instant.MAX_DATE_EPOCH_MILLISECONDS.
  destruct (Z.ltb_spec sum (-9007199254740991)), (Z.ltb_spec 9007199254740991 sum),
    (Z.leb_spec (-9007199254740991) sum), (Z.leb_spec sum 9007199254740991),
    (Z.leb_spec (-8640000000000000) sum), (Z.leb_spec sum 8640000000000000),
    (Z.ltb_spec sum (-8640000000000000)), (Z.ltb_spec 8640000000000000 sum);
    try lia; reflexivity.
Qed.
