(* ===== verification/Arithmetic.v ===== *)
(** Exact rational arithmetic on money (pricing/arithmetic.ts) and the
    seller's VAT policy (pricing/tax.ts). *)
From S2P Require Import Prelude Primitives.

(** ** pricing/types.ts: rationals *)

Record Rational := mkRational {
  numerator : Z;
  denominator : Z;
}.

Module Arith.

Inductive FloorOrCeil := RFloor | RCeil.

Definition assertNonNegative (value : Z) : result () :=
  throw_when (value <? 0) (DomainError NEGATIVE_RESULT).

Definition floorDivide (num den : Z) : result Z :=
  assertNonNegative num ;;
  throw_when (den <=? 0) (DomainError DIVISION_BY_ZERO) ;;
  Ok (Z.quot num den).

Definition ceilDivide (num den : Z) : result Z :=
  assertNonNegative num ;;
  throw_when (den <=? 0) (DomainError DIVISION_BY_ZERO) ;;
  Ok (Z.quot (num + den - 1) den).

Definition assertRational (value : Rational) : result () :=
  assertNonNegative (numerator value) ;;
  throw_when (denominator value <=? 0) (DomainError DIVISION_BY_ZERO).

Definition multiplyRational (value : Z) (rate : Rational) (rounding : FloorOrCeil) : result Z :=
  assertNonNegative value ;;
  assertRational rate ;;
  let num := value * numerator rate in
  match rounding with
  | RCeil => ceilDivide num (denominator rate)
  | RFloor => floorDivide num (denominator rate)
  end.

Definition moneyFromRational (currency : jstr) (quantity : Z) (rate : Rational)
    (rounding : FloorOrCeil) : result Money.t :=
  q ← multiplyRational quantity rate rounding;
  Money.of_ (BigIntIn q) currency.

Definition multiplyMoneyRational (money : Money.t) (rate : Rational)
    (rounding : Money.RoundingMode) : result Money.t :=
  assertRational rate ;;
  Money.multiply money (BigIntIn (numerator rate)) (BigIntIn (denominator rate)) rounding.

Definition sumMoney (currency : jstr) (values : list Money.t) : result Money.t :=
  z ← Money.zero currency;
  foldM Money.add z values.

(** *** Specification *)

Definition rational_wf (r : Rational) : Prop := 0 ≤ numerator r ∧ 0 < denominator r.

(** The least integer not below [n / d]. *)
Definition cdiv (n d : Z) : Z := (n + d - 1) / d.

(** The integer nearest to [n / d], ties upwards. *)
Definition hdiv (n d : Z) : Z := (2 * n + d) / (2 * d).

(** *** Facts *)

Lemma assertNonNegative_Ok v u : assertNonNegative v = Ok u ↔ 0 ≤ v.
Proof. unfold assertNonNegative. rewrite throw_when_Ok. apply Z.ltb_ge. Qed.

Lemma assertNonNegative_nonneg v : 0 ≤ v → assertNonNegative v = Ok ().
Proof. apply assertNonNegative_Ok. Qed.

Lemma assertRational_Ok r u : assertRational r = Ok u ↔ rational_wf r.
Proof.
  unfold assertRational, rational_wf. rewrite bind_Ok. setoid_rewrite assertNonNegative_Ok.
  setoid_rewrite throw_when_Ok. setoid_rewrite Z.leb_gt. split; [naive_solver|].
  intros ?. exists (). done.
Qed.

Lemma cdiv_bounds n d : 0 < d → n ≤ d * cdiv n d < n + d.
Proof.
  intros Hd. unfold cdiv. pose proof (Z.div_mod (n + d - 1) d).
  pose proof (Z.mod_pos_bound (n + d - 1) d Hd). lia.
Qed.

Lemma cdiv_nonneg n d : 0 ≤ n → 0 < d → 0 ≤ cdiv n d.
Proof. intros. apply Z.div_pos; lia. Qed.

Lemma cdiv_le_iff n d k : 0 < d → cdiv n d ≤ k ↔ n ≤ d * k.
Proof. intros Hd. pose proof (cdiv_bounds n d Hd). nia. Qed.

Lemma cdiv_step n m d : 0 < d → n ≤ m ≤ n + d → cdiv n d ≤ cdiv m d ≤ cdiv n d + 1.
Proof.
  intros Hd Hm. pose proof (cdiv_bounds n d Hd). pose proof (cdiv_bounds m d Hd). nia.
Qed.

Lemma hdiv_rounds n d q : 0 < d → Money.rounds_to Money.half_up n d q ↔ q = hdiv n d.
Proof.
  intros Hd. unfold hdiv. cbn. pose proof (Z.div_mod (2 * n + d) (2 * d)).
  pose proof (Z.mod_pos_bound (2 * n + d) (2 * d)). split.
  - intros. nia.
  - intros ->. nia.
Qed.

Lemma hdiv_bounds n d : 0 < d → 2 * hdiv n d * d - d ≤ 2 * n < 2 * hdiv n d * d + d.
Proof. intros Hd. by apply hdiv_rounds. Qed.

Lemma hdiv_nonneg n d : 0 ≤ n → 0 < d → 0 ≤ hdiv n d.
Proof. intros. apply Z.div_pos; lia. Qed.

Lemma ceilDivide_Ok n d q :
  ceilDivide n d = Ok q ↔ 0 ≤ n ∧ 0 < d ∧ q = cdiv n d.
Proof.
  unfold ceilDivide, cdiv. rewrite bind_Ok. setoid_rewrite assertNonNegative_Ok.
  setoid_rewrite bind_Ok. setoid_rewrite throw_when_Ok. split.
  - intros (_ & ? & _ & ? & ?). ok_inv. bool_inv. rewrite Z.quot_div_nonneg by lia. done.
  - intros (? & ? & ->). exists (). split; [done|]. exists (). rewrite Z.leb_gt. split; [done|].
    by rewrite Z.quot_div_nonneg by lia.
Qed.

Lemma ceilDivide_eq n d : 0 ≤ n → 0 < d → ceilDivide n d = Ok (cdiv n d).
Proof. intros. by apply ceilDivide_Ok. Qed.

Lemma floorDivide_Ok n d q :
  floorDivide n d = Ok q ↔ 0 ≤ n ∧ 0 < d ∧ q = n / d.
Proof.
  unfold floorDivide. rewrite bind_Ok. setoid_rewrite assertNonNegative_Ok.
  setoid_rewrite bind_Ok. setoid_rewrite throw_when_Ok. split.
  - intros (_ & ? & _ & ? & ?). ok_inv. bool_inv. rewrite Z.quot_div_nonneg by lia. done.
  - intros (? & ? & ->). exists (). split; [done|]. exists (). rewrite Z.leb_gt. split; [done|].
    by rewrite Z.quot_div_nonneg by lia.
Qed.

Lemma floorDivide_eq n d : 0 ≤ n → 0 < d → floorDivide n d = Ok (n / d).
Proof. intros. by apply floorDivide_Ok. Qed.

Lemma multiplyRational_ceil v r q :
  multiplyRational v r RCeil = Ok q ↔
    0 ≤ v ∧ rational_wf r ∧ q = cdiv (v * numerator r) (denominator r).
Proof.
  unfold multiplyRational. rewrite bind_Ok. setoid_rewrite assertNonNegative_Ok.
  setoid_rewrite bind_Ok. setoid_rewrite assertRational_Ok. cbn [FloorOrCeil_rect].
  setoid_rewrite ceilDivide_Ok. unfold rational_wf. split.
  - naive_solver.
  - intros (? & [? ?] & ->). exists (). split; [done|]. exists (). split_and!; try done. nia.
Qed.

Lemma moneyFromRational_ceil c v r m :
  moneyFromRational c v r RCeil = Ok m ↔
    0 ≤ v ∧ rational_wf r ∧ Money.wf m
    ∧ m = Money.mk (cdiv (v * numerator r) (denominator r)) c.
Proof.
  unfold moneyFromRational. rewrite bind_Ok. setoid_rewrite multiplyRational_ceil.
  setoid_rewrite Money.of__Ok. naive_solver.
Qed.

Lemma foldM_add_Ok c n l m :
  foldM Money.add (Money.mk n c) l = Ok m ↔
    Forall (λ x, Money.currency x = c) l ∧ m = Money.mk (n + sum_by Money.minorUnits l) c.
Proof.
  revert n. induction l as [|x l IH]; intros n; cbn [foldM].
  - rewrite sum_by_nil, Z.add_0_r. split; [intros; ok_inv; done|]. by intros [_ ->].
  - rewrite bind_Ok. setoid_rewrite Money.add_Ok. rewrite sum_by_cons, Forall_cons. cbn. split.
    + intros (? & [<- ->] & [? ->]%IH). cbn. split_and!; try done. f_equal. lia.
    + intros [[Hx Hl] ->]. eexists. split; [by split|]. apply IH. split; [done|]. f_equal. lia.
Qed.

Lemma sumMoney_Ok c l m :
  sumMoney c l = Ok m ↔
    c ∈ Money.supportedMinorUnitCurrencies
    ∧ Forall (λ x, Money.currency x = c) l ∧ m = Money.mk (sum_by Money.minorUnits l) c.
Proof.
  unfold sumMoney. rewrite bind_Ok. setoid_rewrite Money.zero_Ok. split.
  - intros (? & [-> ?] & [? ->]%foldM_add_Ok). done.
  - intros (? & ? & ->). eexists. split; [by split|]. by apply foldM_add_Ok.
Qed.
End Arith.

Module Tax.

Definition BASIS_POINTS : Z := 10000.

Inductive SellerTaxRegime := NON_VAT_PAYER | VAT_PAYER.

#[global] Instance SellerTaxRegime_eq_dec : EqDecision SellerTaxRegime.
Proof. solve_decision. Defined.

Record SellerTaxPolicy := mkPolicy {
  policy_regime : SellerTaxRegime;
  policy_vatRateBasisPoints : jsnumber;
}.

Record CustomerTaxBreakdown := mkBreakdown {
  regime : SellerTaxRegime;
  vatRateBasisPoints : jsnumber;
  net : Money.t;
  vat : Money.t;
  gross : Money.t;
}.

(** The last check of the source, that the regime is one of the two, cannot
    fail at a value of the union type. *)
Definition validateSellerTaxPolicy (policy : SellerTaxPolicy) : result () :=
  let rate := policy_vatRateBasisPoints policy in
  throw_when (negb (isSafeInteger rate) || (num rate <? 0) || (BASIS_POINTS <? num rate))
    (DomainError INVALID_ARGUMENT) ;;
  throw_when match policy_regime policy with
             | NON_VAT_PAYER => negb (num rate =? 0)
             | VAT_PAYER => num rate =? 0
             end (DomainError INVALID_ARGUMENT).

Definition taxBreakdownFromNet (net : Money.t) (policy : SellerTaxPolicy)
    : result CustomerTaxBreakdown :=
  validateSellerTaxPolicy policy ;;
  vat ← Money.multiply net (NumberIn (policy_vatRateBasisPoints policy))
          (NumberIn (IntNum BASIS_POINTS)) Money.half_up;
  gross ← Money.add net vat;
  Ok (mkBreakdown (policy_regime policy) (policy_vatRateBasisPoints policy) net vat gross).

Definition taxBreakdownFromGross (gross : Money.t) (policy : SellerTaxPolicy)
    : result CustomerTaxBreakdown :=
  validateSellerTaxPolicy policy ;;
  vat ← Money.multiply gross (NumberIn (policy_vatRateBasisPoints policy))
          (NumberIn (IntNum (BASIS_POINTS + num (policy_vatRateBasisPoints policy)))) Money.half_up;
  net ← Money.subtract gross vat;
  Ok (mkBreakdown (policy_regime policy) (policy_vatRateBasisPoints policy) net vat gross).

(** *** Specification *)

(** A policy [validateSellerTaxPolicy] accepts. *)
Definition policy_wf (p : SellerTaxPolicy) (rate : Z) : Prop :=
  policy_vatRateBasisPoints p = IntNum rate ∧ 0 ≤ rate ≤ BASIS_POINTS
  ∧ (policy_regime p = NON_VAT_PAYER ↔ rate = 0).

(** The VAT contained in a gross amount. *)
Definition vat_of_gross (rate g : Z) : Z := Arith.hdiv (g * rate) (BASIS_POINTS + rate).

Definition net_of_gross (rate g : Z) : Z := g - vat_of_gross rate g.

(** *** Facts *)

Lemma validateSellerTaxPolicy_Ok p u :
  validateSellerTaxPolicy p = Ok u ↔ ∃ rate, policy_wf p rate.
Proof.
  destruct p as [reg [z| | |]], u; unfold policy_wf, validateSellerTaxPolicy; cbn; [|split; [done|naive_solver]..].
  unfold BASIS_POINTS, safe_int, MIN_SAFE_INTEGER, MAX_SAFE_INTEGER. split.
  - intros H. ok_inv. bool_inv. exists z. split; [done|]. split; [lia|].
    destruct reg; bool_inv; split; intros; try done; lia.
  - intros (rate & [= ->] & Hr & Hreg).
    destruct (Z.leb_spec (-9007199254740991) rate), (Z.leb_spec rate 9007199254740991); try lia.
    destruct (Z.ltb_spec rate 0), (Z.ltb_spec 10000 rate); try lia. cbn.
    destruct reg, (Z.eqb_spec rate 0); try done; exfalso; naive_solver.
Qed.

Lemma policy_wf_validates p rate : policy_wf p rate → validateSellerTaxPolicy p = Ok ().
Proof. intros H. apply validateSellerTaxPolicy_Ok. by exists rate. Qed.

Lemma vat_of_gross_bounds rate g : 0 ≤ rate ≤ BASIS_POINTS → 0 ≤ g → 0 ≤ vat_of_gross rate g ≤ g.
Proof.
  unfold BASIS_POINTS. intros Hr Hg. unfold vat_of_gross, BASIS_POINTS.
  pose proof (Arith.hdiv_bounds (g * rate) (10000 + rate)).
  pose proof (Arith.hdiv_nonneg (g * rate) (10000 + rate)). nia.
Qed.

(** One more minor unit of gross is at most one more of VAT, and never less:
    net and VAT both move by zero or one. *)
Lemma vat_of_gross_step rate g : 0 ≤ rate ≤ BASIS_POINTS →
  vat_of_gross rate g ≤ vat_of_gross rate (g + 1) ≤ vat_of_gross rate g + 1.
Proof.
  unfold vat_of_gross, BASIS_POINTS. intros Hr.
  pose proof (Arith.hdiv_bounds (g * rate) (10000 + rate)).
  pose proof (Arith.hdiv_bounds ((g + 1) * rate) (10000 + rate)). nia.
Qed.

Lemma multiply_rate m rate d :
  Money.wf m → 0 ≤ rate ≤ BASIS_POINTS → 0 < d ≤ BASIS_POINTS + BASIS_POINTS →
  Money.multiply m (NumberIn (IntNum rate)) (NumberIn (IntNum d)) Money.half_up
  = Ok (Money.mk (Arith.hdiv (Money.minorUnits m * rate) d) (Money.currency m)).
Proof.
  unfold BASIS_POINTS. intros [Hm Hc] Hr Hd.
  rewrite Money.multiply_number by (unfold MAX_SAFE_INTEGER; lia).
  apply Money.multiply_bigint; [lia..|]. split; [done|]. by apply Arith.hdiv_rounds; [lia|].
Qed.

(** Extracting the VAT that was added to a net amount finds it again. *)
Lemma vat_of_gross_of_net rate m : 0 ≤ rate ≤ BASIS_POINTS →
  vat_of_gross rate (m + Arith.hdiv (m * rate) BASIS_POINTS) = Arith.hdiv (m * rate) BASIS_POINTS.
Proof.
  unfold vat_of_gross, BASIS_POINTS. intros Hr.
  pose proof (Arith.hdiv_bounds (m * rate) 10000) as Hv.
  set (v := Arith.hdiv (m * rate) 10000) in *. clearbody v.
  symmetry. apply Arith.hdiv_rounds; [lia|]. cbn. nia.
Qed.

Lemma taxBreakdownFromGross_eq g p rate :
  Money.wf g → policy_wf p rate →
  taxBreakdownFromGross g p = Ok (mkBreakdown (policy_regime p) (IntNum rate)
    (Money.mk (net_of_gross rate (Money.minorUnits g)) (Money.currency g))
    (Money.mk (vat_of_gross rate (Money.minorUnits g)) (Money.currency g)) g).
Proof.
  intros Hg Hp. unfold taxBreakdownFromGross. rewrite (policy_wf_validates _ _ Hp). run.
  destruct Hp as (Hrate & Hr & _). rewrite Hrate. cbn [num].
  rewrite multiply_rate by (unfold BASIS_POINTS in *; lia || done). run. destruct (vat_of_gross_bounds rate (Money.minorUnits g) Hr (proj1 Hg)).
  by erewrite (proj2 (Money.subtract_Ok _ _ _)) by (cbn; split_and!; [done|done|reflexivity]).
Qed.

Lemma taxBreakdownFromNet_eq n p rate :
  Money.wf n → policy_wf p rate →
  let v := Arith.hdiv (Money.minorUnits n * rate) BASIS_POINTS in
  taxBreakdownFromNet n p = Ok (mkBreakdown (policy_regime p) (IntNum rate) n
    (Money.mk v (Money.currency n)) (Money.mk (Money.minorUnits n + v) (Money.currency n))).
Proof.
  intros Hn Hp v. unfold taxBreakdownFromNet. rewrite (policy_wf_validates _ _ Hp). run.
  destruct Hp as (Hrate & Hr & _). rewrite Hrate.
  rewrite multiply_rate by (unfold BASIS_POINTS in *; lia || done). run. by erewrite (proj2 (Money.add_Ok _ _ _)) by (cbn; split; reflexivity).
Qed.

Lemma taxBreakdownFromNet_gross_wf n p rate b :
  Money.wf n → policy_wf p rate → taxBreakdownFromNet n p = Ok b → Money.wf (gross b).
Proof.
  intros Hn Hp H. rewrite (taxBreakdownFromNet_eq _ _ _ Hn Hp) in H. ok_inv. destruct Hn as [Hn Hc].
  split; [|done]. cbn. destruct Hp as (_ & Hr & _). unfold BASIS_POINTS in *.
  pose proof (Arith.hdiv_nonneg (Money.minorUnits n * rate) 10000). nia.
Qed.
End Tax.

(** ** Properties *)

(** A breakdown computed from a net amount reconciles
    ([net + vat = gross], VAT to the nearest minor unit), and extracting the
    tax again from its gross amount gives back exactly the same breakdown. *)
Theorem tax_breakdown_roundtrip (n : Money.t) (p : Tax.SellerTaxPolicy) (rate : Z) :
  Money.wf n → Tax.policy_wf p rate →
  ∃ b, Tax.taxBreakdownFromNet n p = Ok b
    ∧ Tax.net b = n
    ∧ Money.minorUnits (Tax.gross b) = Money.minorUnits (Tax.net b) + Money.minorUnits (Tax.vat b)
    ∧ Money.rounds_to Money.half_up (Money.minorUnits n * rate) Tax.BASIS_POINTS
        (Money.minorUnits (Tax.vat b))
    ∧ Tax.taxBreakdownFromGross (Tax.gross b) p = Ok b.
Proof.
  intros Hn Hp. pose proof (Tax.taxBreakdownFromNet_eq _ _ _ Hn Hp) as Hb. cbv zeta in Hb.
  pose proof (Tax.taxBreakdownFromNet_gross_wf _ _ _ _ Hn Hp Hb) as Hg.
  eexists. split; [exact Hb|]. cbn [Tax.net Tax.vat Tax.gross Money.minorUnits].
  split; [done|]. split; [done|]. split; [by apply Arith.hdiv_rounds|].
  cbn [Tax.gross] in Hg. rewrite (Tax.taxBreakdownFromGross_eq _ _ _ Hg Hp).
  cbn [Money.minorUnits Money.currency]. unfold Tax.net_of_gross.
  rewrite Tax.vat_of_gross_of_net by apply Hp. do 2 f_equal. destruct n. cbn. f_equal. lia.
Qed.

Lemma tax_breakdown_roundtrip_witness :
  Tax.taxBreakdownFromGross (Money.mk 1210 (js "CZK")) (Tax.mkPolicy Tax.VAT_PAYER (IntNum 2100))
  = Tax.taxBreakdownFromNet (Money.mk 1000 (js "CZK")) (Tax.mkPolicy Tax.VAT_PAYER (IntNum 2100)).
Proof.
  destruct (tax_breakdown_roundtrip (Money.mk 1000 (js "CZK"))
    (Tax.mkPolicy Tax.VAT_PAYER (IntNum 2100)) 2100) as (b & Hb & _ & _ & _ & Hg).
  - apply Money.CZK_wf. lia.
  - split; [reflexivity|]. split; [unfold Tax.BASIS_POINTS; lia|]. cbn. split; intros; discriminate.
  - rewrite Hb, <-Hg. revert Hb. vm_compute. intros [= <-]. reflexivity.
Defined.
