(* ===== verification/Allocations.v ===== *)
(** Exact splitting by the largest-remainder method: monetary components
    (pricing/allocations.ts) and handling sessions (metrics/handling.ts).
    Module [LargestRemainder] is the loop the two share, with its theory. *)
From S2P Require Import Prelude Primitives Arithmetic.

Module LargestRemainder.

Section definitions.
Context {T : Type} (id : T → jstr).

Record entry := mkEntry {
  target : T;
  amount : Z;
  remainder : Z;
}.

(** [value.target.id] *)
Definition entryId (value : entry) : jstr := id (target value).

Definition compareRemainders (left right : entry) : Z :=
  if negb (remainder left =? remainder right)
  then (if remainder right <? remainder left then -1 else 1)
  else compareStrings (entryId left) (entryId right).

Definition orderRemainders (values : list entry) : list entry :=
  js_sort compareRemainders values.

(** [new Map(values.map((value) => [value.target.id, value.amount]))] *)
Definition amountsById (values : list entry) : gmap jstr Z :=
  foldl (λ m v, <[entryId v := amount v]> m) ∅ values.

(** The loop that gives one unit each to the first [remaining] entries. *)
Fixpoint handOut (values : list entry) (remaining : Z) (allocations : gmap jstr Z)
    : gmap jstr Z :=
  match values with
  | [] => allocations
  | value :: rest =>
      if remaining =? 0 then allocations
      else
        let k := entryId value in
        handOut rest (remaining - 1) (<[k := default 0 (allocations !! k) + 1]> allocations)
  end.

Definition distribute (total : Z) (values : list entry) : gmap jstr Z :=
  handOut (orderRemainders values) (total - sum_by amount values) (amountsById values).
End definitions.
Arguments entry : clear implicits.
Arguments mkEntry {T} _ _ _.
Arguments target {T} _.
Arguments amount {T} _.
Arguments remainder {T} _.

(** *** Theory *)

Section theory.
Context {T : Type} (id : T → jstr).
Implicit Types (e : entry T) (es : list (entry T)).

#[local] Notation eid := (entryId id).

#[global] Instance compareRemainders_comparator : Comparator (compareRemainders id).
Proof.
  apply (comparator_ext _ (λ l r, js_or (compareBigInt (remainder r) (remainder l))
    (compareStrings (eid l) (eid r)))), _.
  intros l r. unfold compareRemainders, js_or, compareBigInt.
  repeat case_match; bool_inv; try done; lia.
Qed.

Lemma compareRemainders_le l r :
  compareRemainders id l r ≤ 0 → remainder r ≤ remainder l.
Proof. unfold compareRemainders. repeat case_match; bool_inv; lia. Qed.

Lemma compareRemainders_0 l r : compareRemainders id l r = 0 → eid l = eid r.
Proof.
  unfold compareRemainders. repeat case_match; bool_inv; try lia.
  by rewrite compareStrings_0.
Qed.

Lemma amountsById_lookup_ne es k m :
  k ∉ (eid <$> es) →
  foldl (λ (m : gmap jstr Z) v, <[eid v := amount v]> m) m es !! k = m !! k.
Proof.
  revert m. induction es as [|e es IH]; intros m Hk; [done|]. cbn in *.
  rewrite not_elem_of_cons in Hk. rewrite IH by naive_solver.
  apply lookup_insert_ne. naive_solver.
Qed.

Lemma amountsById_lookup es e :
  NoDup (eid <$> es) → e ∈ es → amountsById id es !! eid e = Some (amount e).
Proof.
  unfold amountsById. generalize (∅ : gmap jstr Z).
  induction es as [|e' es IH]; intros m HN He; [by apply not_elem_of_nil in He|].
  cbn in *. apply NoDup_cons in HN as [Hnot HN].
  apply elem_of_cons in He as [->|He]; [|by apply IH].
  rewrite amountsById_lookup_ne by done. apply lookup_insert_eq.
Qed.

Lemma handOut_lookup es u m k :
  NoDup (eid <$> es) → 0 ≤ u →
  handOut id es u m !! k =
    if decide (k ∈ (eid <$> take (Z.to_nat u) es))
    then Some (default 0 (m !! k) + 1) else m !! k.
Proof.
  revert u m. induction es as [|e es IH]; intros u m HN Hu.
  - cbn. rewrite take_nil. by rewrite decide_False by apply not_elem_of_nil.
  - cbn [handOut]. cbn in HN. apply NoDup_cons in HN as [Hnot HN].
    destruct (Z.eqb_spec u 0) as [->|Hne].
    { cbn. by rewrite decide_False by apply not_elem_of_nil. }
    replace (Z.to_nat u) with (S (Z.to_nat (u - 1))) by lia. cbn [take fmap list_fmap].
    rewrite IH by (done || lia).
    assert (eid e ∉ (eid <$> take (Z.to_nat (u - 1)) es)) as Hnot'.
    { intros (y & Heq & Hy)%list_elem_of_fmap. apply Hnot. rewrite Heq. apply list_elem_of_fmap_2.
      by apply elem_of_take in Hy as (? & ?%list_elem_of_lookup_2 & _). }
    destruct (decide (k = eid e)) as [->|Hk].
    + rewrite decide_False by done. rewrite decide_True by left.
      by rewrite lookup_insert_eq.
    + rewrite lookup_insert_ne by naive_solver.
      case_decide; [rewrite decide_True by (by right)|rewrite decide_False; [|]]; try done.
      intros [?|?]%elem_of_cons; done.
Qed.

Context (total D : Z) (es : list (entry T)).
Hypothesis HD : 0 < D.
Hypothesis Hids : NoDup (eid <$> es).
Hypothesis Hrem : ∀ e, e ∈ es → 0 ≤ remainder e < D ∧ 0 ≤ amount e.
Hypothesis Hsum : sum_by (λ e, D * amount e + remainder e) es = total * D.

Let u : Z := total - sum_by amount es.

Lemma unallocated_remainders : u * D = sum_by remainder es.
Proof. rewrite sum_by_add, sum_by_mul in Hsum. unfold u. lia. Qed.

Lemma unallocated_nonneg : 0 ≤ u.
Proof.
  pose proof unallocated_remainders. assert (0 ≤ sum_by remainder es); [|nia].
  apply sum_by_nonneg. intros e He. by apply Hrem.
Qed.

Lemma sum_remainders_le ks :
  (∀ e, e ∈ ks → e ∈ es) → sum_by remainder ks ≤ (D - 1) * Z.of_nat (length ks).
Proof.
  intros Hks. rewrite <-sum_by_const. apply sum_by_le. intros e He.
  pose proof (Hrem e (Hks e He)). lia.
Qed.

Lemma unallocated_le_length : u ≤ Z.of_nat (length es).
Proof.
  pose proof unallocated_remainders. pose proof (sum_remainders_le es ltac:(done)). nia.
Qed.

Lemma ordered_ids : NoDup (eid <$> orderRemainders id es).
Proof. unfold orderRemainders. by rewrite js_sort_perm. Qed.

(** Only an entry with a positive remainder gets a unit. *)
Lemma favoured_positive e :
  e ∈ take (Z.to_nat u) (orderRemainders id es) → 0 < remainder e.
Proof.
  intros He. set (s := orderRemainders id es) in *.
  pose proof unallocated_remainders as Hu. pose proof unallocated_nonneg as Hu0.
  pose proof (js_sort_sorted (compareRemainders id) es) as Hs. fold (orderRemainders id es) in Hs.
  fold s in Hs. assert (s ≡ₚ es) as Hperm by apply js_sort_perm.
  apply elem_of_take in He as (i & Hi & Hlt).
  destruct (decide (0 < remainder e)) as [|Hz]; [done|exfalso].
  rewrite <-(take_drop i s) in Hs. apply StronglySorted_app in Hs as (Hcross & _ & _).
  assert (sum_by remainder s = sum_by remainder es) as Hsame by by rewrite Hperm.
  rewrite <-(take_drop i s), sum_by_app in Hsame.
  assert (sum_by remainder (drop i s) ≤ 0) as Hdrop.
  { transitivity (sum_by (λ _ : entry T, 0) (drop i s)); [|by rewrite sum_by_const].
    apply sum_by_le. intros x Hx. rewrite (drop_S _ _ _ Hi) in Hx.
    apply elem_of_cons in Hx as [->|Hx]; [lia|].
    pose proof (js_sort_sorted (compareRemainders id) es) as Hs'.
    fold (orderRemainders id es) in Hs'. fold s in Hs'.
    rewrite <-(take_drop (S i) s), (take_S_r _ _ _ Hi) in Hs'.
    apply StronglySorted_app in Hs' as (Hc & _ & _).
    pose proof (compareRemainders_le e x ltac:(apply Hc; set_solver)). lia. }
  pose proof (sum_remainders_le (take i s)) as Htake.
  rewrite length_take in Htake.
  assert (∀ x, x ∈ take i s → x ∈ es) as Hin.
  { intros x Hx. rewrite <-Hperm. by apply elem_of_take in Hx as (? & ?%list_elem_of_lookup_2 & _). }
  specialize (Htake Hin). nia.
Qed.

(** What the loop leaves with each entry: its floor, plus one for the favoured. *)
Lemma distribute_lookup e : e ∈ es →
  default 0 (distribute id total es !! eid e) =
    amount e + if decide (eid e ∈ (eid <$> take (Z.to_nat u) (orderRemainders id es))) then 1 else 0.
Proof.
  intros He. unfold distribute. fold u.
  rewrite handOut_lookup by (apply ordered_ids || apply unallocated_nonneg).
  rewrite (amountsById_lookup es e Hids He). case_decide; cbn; lia.
Qed.

Lemma distribute_bounds e : e ∈ es →
  let s := default 0 (distribute id total es !! eid e) in
  amount e ≤ s ≤ amount e + 1 ∧ (remainder e = 0 → s = amount e).
Proof.
  intros He s. unfold s. rewrite distribute_lookup by done.
  case_decide as Hfav; [|lia]. split; [lia|]. intros Hz. exfalso.
  apply list_elem_of_fmap in Hfav as (e' & Heq & He').
  pose proof (favoured_positive _ He') as Hpos.
  assert (e' ∈ es) as Hin.
  { apply elem_of_take in He' as (? & ?%list_elem_of_lookup_2 & _).
    by rewrite <-(js_sort_perm (compareRemainders id) es). }
  assert (e = e') as ->; [|lia].
  apply list_elem_of_lookup in He as (i & Hi), Hin as (j & Hj).
  assert (i = j) as ->; [|congruence].
  eapply NoDup_lookup; [exact Hids|..]; rewrite list_lookup_fmap, ?Hi, ?Hj; cbn; by rewrite ?Heq.
Qed.

(** Nothing is lost and nothing is invented. *)
Lemma distribute_sum :
  sum_by (λ e, default 0 (distribute id total es !! eid e)) es = total.
Proof.
  rewrite (sum_by_ext _ _ es distribute_lookup), sum_by_add.
  set (s := orderRemainders id es). assert (s ≡ₚ es) as Hperm by apply js_sort_perm.
  set (k := Z.to_nat u). set (favour := λ e, if decide (eid e ∈ (eid <$> take k s)) then 1 else 0).
  pose proof ordered_ids as HN. fold s in HN. rewrite <-(take_drop k s), fmap_app in HN.
  apply NoDup_app in HN as (_ & Hdisj & _).
  assert (sum_by favour s = Z.of_nat (length (take k s))) as Hfav.
  { transitivity (sum_by favour (take k s ++ drop k s)); [by rewrite take_drop|].
    rewrite sum_by_app, (sum_by_ext favour (λ _, 1) (take k s)),
      (sum_by_ext favour (λ _, 0) (drop k s)), !sum_by_const; [lia| |]; intros x Hx; unfold favour.
    - rewrite decide_False; [done|]. intros Hf. eapply Hdisj; [exact Hf|]. by apply list_elem_of_fmap_2.
    - rewrite decide_True; [done|]. by apply list_elem_of_fmap_2. }
  rewrite (sum_by_proper favour _ _ Hperm), length_take, (Permutation_length Hperm) in Hfav.
  rewrite Hfav. pose proof unallocated_le_length. pose proof unallocated_nonneg.
  unfold k, u in *. lia.
Qed.
End theory.

(** The order the entries come in does not matter. *)
Lemma distribute_perm {T} (id : T → jstr) total (es es' : list (entry T)) :
  NoDup (entryId id <$> es) → es ≡ₚ es' → distribute id total es = distribute id total es'.
Proof.
  intros HN Hperm. unfold distribute, orderRemainders.
  rewrite (js_sort_unique (compareRemainders id) es es'), (sum_by_proper amount _ _ Hperm); [| |done].
  - f_equal. apply map_eq. intros k.
    destruct (decide (k ∈ (entryId id <$> es))) as [(e & -> & He)%list_elem_of_fmap|Hk].
    + rewrite (amountsById_lookup id es e) by done.
      symmetry. apply amountsById_lookup; [by rewrite <-Hperm|by rewrite <-Hperm].
    + unfold amountsById. rewrite !amountsById_lookup_ne; [done|by rewrite <-Hperm|done].
  - intros x y Hx Hy Heq%compareRemainders_0.
    apply list_elem_of_lookup in Hx as (i & Hi), Hy as (j & Hj).
    assert (i = j) as ->; [|congruence].
    eapply NoDup_lookup; [exact HN|..]; rewrite list_lookup_fmap, ?Hi, ?Hj; cbn; by rewrite ?Heq.
Qed.
(** *** Proportional shares *)

Section proportional.
Context {T : Type} (id : T → jstr) (w : T → Z) (n : Z).

(** The exact share [n * w t / d] of a target, floor and remainder. *)
Definition proportional (d : Z) (t : T) : entry T :=
  mkEntry t ((n * w t) / d) ((n * w t) mod d).

(** The share of the target called [k]. *)
Definition share (ts : list T) (k : jstr) : Z :=
  default 0 (distribute id n (proportional (sum_by w ts) <$> ts) !! k).

Lemma share_perm ts ts' k :
  NoDup (id <$> ts) → ts ≡ₚ ts' → share ts k = share ts' k.
Proof.
  intros HN Hperm. unfold share. rewrite (sum_by_proper w _ _ Hperm). do 2 f_equal.
  apply distribute_perm; [|by apply fmap_Permutation]. by rewrite <-list_fmap_compose.
Qed.

Context (ts : list T).
Hypothesis Hn : 0 ≤ n.
Hypothesis Hw : ∀ t, t ∈ ts → 0 ≤ w t.
Hypothesis Hpos : 0 < sum_by w ts.
Hypothesis Hids : NoDup (id <$> ts).

Let d := sum_by w ts.
Let es := proportional d <$> ts.

Lemma proportional_ids : NoDup (entryId id <$> es).
Proof. unfold es. by rewrite <-list_fmap_compose. Qed.

Lemma proportional_rem e : e ∈ es → 0 ≤ remainder e < d ∧ 0 ≤ amount e.
Proof.
  intros (t & -> & Ht)%list_elem_of_fmap. pose proof (Hw t Ht). cbn. split.
  - by apply Z.mod_pos_bound.
  - apply Z.div_pos; [nia|done].
Qed.

Lemma proportional_sum : sum_by (λ e, d * amount e + remainder e) es = n * d.
Proof.
  unfold es. rewrite sum_by_fmap, (sum_by_ext _ (λ t, n * w t)); [by rewrite sum_by_mul|].
  intros t Ht. cbn. symmetry. apply Z.div_mod. unfold d. lia.
Qed.

(** Every share is the floor or the ceiling of the exact proportion. *)
Lemma share_bounds t : t ∈ ts → n * w t - d < d * share ts (id t) < n * w t + d.
Proof.
  intros Ht. destruct (distribute_bounds id n d es Hpos proportional_ids proportional_rem
    proportional_sum (proportional d t) ltac:(by apply list_elem_of_fmap_2)) as [Hb Hz].
  change (share ts (id t)) with (default 0 (distribute id n es !! id t)).
  change (entryId id (proportional d t)) with (id t) in Hb, Hz. cbn in Hb, Hz.
  generalize dependent (default 0 (distribute id n es !! id t)). intros s Hb Hz.
  pose proof (Z.div_mod (n * w t) d ltac:(unfold d; lia)).
  pose proof (Z.mod_pos_bound (n * w t) d Hpos).
  destruct (Z.eq_dec ((n * w t) mod d) 0) as [E|E]; [specialize (Hz E)|]; nia.
Qed.

Lemma share_nonneg t : t ∈ ts → 0 ≤ share ts (id t).
Proof. intros Ht. pose proof (share_bounds t Ht). pose proof (Hw t Ht). unfold d in *. nia. Qed.

(** The shares add up to the total exactly. *)
Lemma share_sum : sum_by (λ t, share ts (id t)) ts = n.
Proof.
  pose proof (distribute_sum id n d es Hpos proportional_ids proportional_rem proportional_sum) as Hs.
  unfold es in Hs at 2. rewrite sum_by_fmap in Hs. exact Hs.
Qed.
End proportional.
End LargestRemainder.

Module Allocations.
Import LargestRemainder.

(** pricing/types.ts *)
Record AllocationTarget := mkTarget {
  id : jstr;
  basis : Z;
}.

Record MonetaryAllocation := mkAllocation {
  targetId : jstr;
  allocated : Money.t;
}.

Record PriceComponentAllocationInput := mkComponentInput {
  input_componentId : jstr;
  input_amount : Money.t;
  input_targets : list AllocationTarget;
}.

Record AllocatedPriceComponent := mkAllocatedComponent {
  componentId : jstr;
  componentAmount : Money.t;
  allocations : list MonetaryAllocation;
}.

#[global] Instance AllocationTarget_eq_dec : EqDecision AllocationTarget.
Proof. solve_decision. Defined.
#[global] Instance MonetaryAllocation_eq_dec : EqDecision MonetaryAllocation.
Proof. solve_decision. Defined.

Definition assertTarget (target : AllocationTarget) : result () :=
  throw_when (blank (id target)) (DomainError INVALID_ARGUMENT) ;;
  throw_when (basis target <? 0) (DomainError NEGATIVE_RESULT).

(** One round of the loop that checks the targets. *)
Definition checkTarget (targetIds : gset jstr) (target : AllocationTarget)
    : result (gset jstr) :=
  assertTarget target ;;
  throw_when (bool_decide (id target ∈ targetIds)) (DomainError INVALID_ARGUMENT) ;;
  Ok ({[id target]} ∪ targetIds).

(** The proportional share of one target, rounded down, and what is left. *)
Definition weigh (minorUnits totalBasis denominator : Z) (target : AllocationTarget)
    : result (entry AllocationTarget) :=
  let numerator := if totalBasis =? 0 then minorUnits else minorUnits * basis target in
  q ← Arith.floorDivide numerator denominator;
  Ok (mkEntry target q (Z.rem numerator denominator)).

Definition allocateMoney (amount : Money.t) (targets : list AllocationTarget)
    : result (list MonetaryAllocation) :=
  throw_when (bool_decide (targets = [])) (DomainError INVALID_ARGUMENT) ;;
  foldM checkTarget ∅ targets ;;
  let totalBasis := sum_by basis targets in
  let denominator := if totalBasis =? 0 then Z.of_nat (length targets) else totalBasis in
  weighted ← traverse (weigh (Money.minorUnits amount) totalBasis denominator) targets;
  let byTargetId := distribute id (Money.minorUnits amount) weighted in
  traverse (λ target,
    m ← Money.of_ (BigIntIn (default 0 (byTargetId !! id target))) (Money.currency amount);
    Ok (mkAllocation (id target) m)) targets.

Definition allocateComponent (state : gset jstr * list AllocatedPriceComponent)
    (component : PriceComponentAllocationInput)
    : result (gset jstr * list AllocatedPriceComponent) :=
  throw_when (blank (input_componentId component)) (DomainError INVALID_ARGUMENT) ;;
  throw_when (bool_decide (input_componentId component ∈ state.1)) (DomainError INVALID_ARGUMENT) ;;
  shares ← allocateMoney (input_amount component) (input_targets component);
  Ok ({[input_componentId component]} ∪ state.1,
      state.2 ++ [mkAllocatedComponent (input_componentId component) (input_amount component) shares]).

Definition allocatePriceComponents (components : list PriceComponentAllocationInput)
    : result (list AllocatedPriceComponent) :=
  snd <$> foldM allocateComponent (∅, []) components.

(** *** Specification *)

Definition total (l : list MonetaryAllocation) : Z :=
  sum_by (Money.minorUnits ∘ allocated) l.

(** Targets [allocateMoney] accepts. *)
Definition targets_wf (targets : list AllocationTarget) : Prop :=
  targets ≠ [] ∧ Forall (λ t, blank (id t) = false ∧ 0 ≤ basis t) targets
  ∧ NoDup (id <$> targets).

(** The weight of a target: its basis, or one each when no basis is positive. *)
Definition weight (targets : list AllocationTarget) (t : AllocationTarget) : Z :=
  if sum_by basis targets =? 0 then 1 else basis t.

(** *** Facts *)

Lemma checkTarget_Ok s t s' :
  checkTarget s t = Ok s' ↔ (blank (id t) = false ∧ 0 ≤ basis t) ∧ id t ∉ s ∧ s' = {[id t]} ∪ s.
Proof.
  unfold checkTarget, assertTarget. split.
  - intros H. ok_inv. bool_inv. done.
  - intros ((Hb & Hn) & Hs & ->). rewrite Hb, (proj2 (Z.ltb_ge _ _) Hn). run. cbn.
    by rewrite bool_decide_eq_false_2.
Qed.

Lemma foldM_checkTarget targets s :
  foldM checkTarget ∅ targets = Ok s ↔
    Forall (λ t, blank (id t) = false ∧ 0 ≤ basis t) targets ∧ NoDup (id <$> targets)
    ∧ s = list_to_set (id <$> targets).
Proof.
  rewrite (foldM_unique checkTarget id _ checkTarget_Ok), (right_id_L ∅ (∪)).
  split; [intros (? & ? & _ & ->); done|]. intros (? & ? & ->). split_and!; done.
Qed.

Lemma sum_weight_pos targets : targets_wf targets → 0 < sum_by (weight targets) targets.
Proof.
  intros (Hne & HF & _). assert (0 ≤ sum_by basis targets) as Hnn.
  { apply sum_by_nonneg. intros t Ht. rewrite Forall_forall in HF. by apply HF. }
  unfold weight. destruct (Z.eqb_spec (sum_by basis targets) 0).
  - rewrite sum_by_const. destruct targets; cbn [length]; [done|lia].
  - change (sum_by _ _) with (sum_by basis targets). lia.
Qed.

Lemma weight_nonneg targets t : targets_wf targets → t ∈ targets → 0 ≤ weight targets t.
Proof.
  intros (_ & HF & _) Ht. rewrite Forall_forall in HF. unfold weight.
  case_match; [lia|]. by apply HF.
Qed.

Lemma weigh_eq n targets t :
  targets_wf targets → 0 ≤ n → t ∈ targets →
  let totalBasis := sum_by basis targets in
  weigh n totalBasis (if totalBasis =? 0 then Z.of_nat (length targets) else totalBasis) t
  = Ok (proportional (weight targets) n (sum_by (weight targets) targets) t).
Proof.
  intros Hwf Hn Ht. cbv zeta. pose proof (sum_weight_pos _ Hwf) as Hpos.
  pose proof (weight_nonneg _ _ Hwf Ht) as Hw.
  assert ((if sum_by basis targets =? 0 then Z.of_nat (length targets) else sum_by basis targets)
    = sum_by (weight targets) targets) as ->.
  { unfold weight. case_match; [by rewrite sum_by_const, Z.mul_1_l|]. by apply sum_by_ext. }
  unfold weigh, proportional.
  assert ((if sum_by basis targets =? 0 then n else n * basis t) = n * weight targets t) as ->.
  { unfold weight. case_match; lia. }
  rewrite Arith.floorDivide_eq by lia. run. rewrite Z.rem_mod_nonneg by lia. done.
Qed.

(** The share of a target, in minor units. *)
Definition shareOf (n : Z) (targets : list AllocationTarget) (k : jstr) : Z :=
  share id (weight targets) n targets k.

Lemma shareOf_bounds n targets t :
  0 ≤ n → targets_wf targets → t ∈ targets →
  let d := sum_by (weight targets) targets in
  0 ≤ shareOf n targets (id t)
  ∧ n * weight targets t - d < d * shareOf n targets (id t) < n * weight targets t + d.
Proof.
  intros Hn Hwf Ht. pose proof (sum_weight_pos _ Hwf). pose proof (λ t, weight_nonneg targets t Hwf).
  destruct Hwf as (? & ? & ?). split; [apply share_nonneg|apply share_bounds]; auto.
Qed.

Lemma shareOf_sum n targets :
  0 ≤ n → targets_wf targets → sum_by (λ t, shareOf n targets (id t)) targets = n.
Proof.
  intros Hn Hwf. pose proof (sum_weight_pos _ Hwf). pose proof (λ t, weight_nonneg targets t Hwf).
  destruct Hwf as (? & ? & ?). apply share_sum; auto.
Qed.

Lemma shareOf_perm n targets targets' k :
  NoDup (id <$> targets) → targets ≡ₚ targets' → shareOf n targets k = shareOf n targets' k.
Proof.
  intros HN Hperm. unfold shareOf. rewrite (share_perm _ _ _ _ _ _ HN Hperm).
  unfold share. assert (∀ x, weight targets x = weight targets' x) as Hw.
  { intros x. unfold weight. by rewrite (sum_by_proper basis _ _ Hperm). }
  rewrite (sum_by_ext _ _ _ (λ x _, Hw x)). do 3 f_equal.
  apply list_fmap_ext. intros _ t _. unfold proportional. by rewrite Hw.
Qed.

Lemma allocateMoney_eq amount targets :
  Money.wf amount → targets_wf targets →
  allocateMoney amount targets = Ok ((λ t, mkAllocation (id t)
    (Money.mk (shareOf (Money.minorUnits amount) targets (id t)) (Money.currency amount))) <$> targets).
Proof.
  intros [Hn Hc] Hwf. unfold allocateMoney. destruct (Hwf) as (Hne & HF & HN).
  rewrite bool_decide_eq_false_2 by done. run.
  rewrite (proj2 (foldM_checkTarget targets _)) by (split_and!; done). run.
  rewrite (traverse_pure _ (proportional (weight targets) (Money.minorUnits amount)
    (sum_by (weight targets) targets))) by (intros; by apply weigh_eq). run.
  apply traverse_pure. intros t Ht.
  change (default 0 _) with (shareOf (Money.minorUnits amount) targets (id t)).
  rewrite Money.of__wf; [done|]. split; [|done]. by apply shareOf_bounds.
Qed.

Lemma allocateMoney_accepts amount targets r :
  allocateMoney amount targets = Ok r → targets_wf targets.
Proof.
  unfold allocateMoney. intros H. ok_inv. bool_inv.
  match goal with H : foldM _ _ _ = Ok _ |- _ => apply foldM_checkTarget in H as (? & ? & _) end.
  done.
Qed.

Lemma allocateMoney_total amount targets r :
  Money.wf amount → allocateMoney amount targets = Ok r →
  total r = Money.minorUnits amount ∧ targetId <$> r = id <$> targets
  ∧ Forall (λ a, Money.wf (allocated a) ∧ Money.currency (allocated a) = Money.currency amount) r.
Proof.
  intros Ha H. pose proof (allocateMoney_accepts _ _ _ H) as Hwf.
  rewrite (allocateMoney_eq _ _ Ha Hwf) in H. ok_inv. split_and!.
  - unfold total. rewrite sum_by_fmap. apply shareOf_sum; [apply Ha|done].
  - by rewrite <-list_fmap_compose.
  - apply Forall_fmap, Forall_forall. intros t Ht. cbn. split; [|done].
    split; [|by apply Ha]. apply shareOf_bounds; [apply Ha|done..].
Qed.
End Allocations.

Module Handling.
Import LargestRemainder.

(** metrics/handling.ts *)
Record HandlingAllocationTarget := mkTarget {
  id : jstr;
  servedUnits : Z;
}.

Record HandlingAllocation := mkAllocation {
  targetId : jstr;
  allocatedDurationMilliseconds : Z;
  allocatedCostMinor : Z;
}.

Definition calculateHandlingCostMinor (durationMilliseconds : Z)
    (laborRateMinorPerSecond : Rational) : result Z :=
  throw_when (durationMilliseconds <=? 0) (DomainError INVALID_ARGUMENT) ;;
  Arith.assertRational laborRateMinorPerSecond ;;
  Arith.ceilDivide (durationMilliseconds * numerator laborRateMinorPerSecond)
    (1000 * denominator laborRateMinorPerSecond).

Definition checkTarget (ids : gset jstr) (target : HandlingAllocationTarget)
    : result (gset jstr) :=
  throw_when (blank (id target)) (DomainError INVALID_ARGUMENT) ;;
  throw_when (servedUnits target <=? 0) (DomainError INVALID_ARGUMENT) ;;
  throw_when (bool_decide (id target ∈ ids)) (DomainError INVALID_ARGUMENT) ;;
  Ok ({[id target]} ∪ ids).

Definition validateTargets (targets : list HandlingAllocationTarget) : result () :=
  throw_when (bool_decide (targets = [])) (DomainError INVALID_ARGUMENT) ;;
  foldM checkTarget ∅ targets ;;
  Ok ().

Definition allocateByServedUnits (total : Z) (targets : list HandlingAllocationTarget)
    : result (gmap jstr Z) :=
  let totalUnits := sum_by servedUnits targets in
  values ← traverse (λ target,
    let numerator := total * servedUnits target in
    q ← Arith.floorDivide numerator totalUnits;
    Ok (mkEntry target q (Z.rem numerator totalUnits))) targets;
  Ok (distribute id total values).

Definition allocateHandlingSession (durationMilliseconds costMinor : Z)
    (targets : list HandlingAllocationTarget) : result (list HandlingAllocation) :=
  throw_when (durationMilliseconds <=? 0) (DomainError INVALID_ARGUMENT) ;;
  throw_when (costMinor <? 0) (DomainError NEGATIVE_RESULT) ;;
  validateTargets targets ;;
  durations ← allocateByServedUnits durationMilliseconds targets;
  costs ← allocateByServedUnits costMinor targets;
  Ok ((λ target, mkAllocation (id target)
        (default 0 (durations !! id target)) (default 0 (costs !! id target))) <$> targets).

(** *** Specification *)

Definition targets_wf (targets : list HandlingAllocationTarget) : Prop :=
  targets ≠ [] ∧ Forall (λ t, blank (id t) = false ∧ 0 < servedUnits t) targets
  ∧ NoDup (id <$> targets).

(** *** Facts *)

Lemma checkHandlingTarget_Ok s t s' :
  checkTarget s t = Ok s' ↔
    (blank (id t) = false ∧ 0 < servedUnits t) ∧ id t ∉ s ∧ s' = {[id t]} ∪ s.
Proof.
  unfold checkTarget. split.
  - intros H. ok_inv. bool_inv. done.
  - intros ((Hb & Hn) & Hs & ->). rewrite Hb, (proj2 (Z.leb_gt _ _) Hn). cbn.
    by rewrite bool_decide_eq_false_2.
Qed.

Lemma validateTargets_Ok targets u : validateTargets targets = Ok u ↔ targets_wf targets.
Proof.
  unfold validateTargets, targets_wf. destruct u. split.
  - intros H. ok_inv. bool_inv.
    match goal with H : foldM _ _ _ = Ok _ |- _ =>
      apply (foldM_unique checkTarget id _ checkHandlingTarget_Ok) in H as (? & ? & _) end. done.
  - intros (Hne & HF & HN). rewrite bool_decide_eq_false_2 by done. run.
    rewrite (proj2 (foldM_unique checkTarget id _ checkHandlingTarget_Ok targets ∅ (list_to_set (id <$> targets) ∪ ∅))); [done|].
    split_and!; [done..| |reflexivity]. intros x _. apply not_elem_of_empty.
Qed.

Lemma served_positive targets : targets_wf targets → 0 < sum_by servedUnits targets.
Proof.
  intros (Hne & HF & _). rewrite Forall_forall in HF.
  destruct targets as [|t l]; [done|]. rewrite sum_by_cons.
  pose proof (HF t ltac:(by left)) as [_ Ht].
  assert (0 ≤ sum_by servedUnits l); [|lia].
  apply sum_by_nonneg. intros x Hx. pose proof (HF x ltac:(by right)) as [_ ?]. lia.
Qed.

Lemma served_nonneg targets t : targets_wf targets → t ∈ targets → 0 ≤ servedUnits t.
Proof. intros (_ & HF & _) Ht. rewrite Forall_forall in HF. pose proof (HF t Ht). lia. Qed.

Lemma allocateByServedUnits_eq n targets :
  targets_wf targets → 0 ≤ n → ∃ m, allocateByServedUnits n targets = Ok m
    ∧ ∀ t, default 0 (m !! id t) = share id servedUnits n targets (id t).
Proof.
  intros Hwf Hn. pose proof (served_positive _ Hwf) as Hpos. unfold allocateByServedUnits.
  rewrite (traverse_pure _ (proportional servedUnits n (sum_by servedUnits targets))).
  - eexists. split; [reflexivity|]. done.
  - intros t Ht. pose proof (served_nonneg _ _ Hwf Ht). unfold proportional.
    rewrite Arith.floorDivide_eq by lia. run. by rewrite Z.rem_mod_nonneg by lia.
Qed.

Lemma allocateHandlingSession_eq duration cost targets :
  0 < duration → 0 ≤ cost → targets_wf targets →
  allocateHandlingSession duration cost targets = Ok ((λ t, mkAllocation (id t)
    (share id servedUnits duration targets (id t)) (share id servedUnits cost targets (id t))) <$> targets).
Proof.
  intros Hd Hc Hwf. unfold allocateHandlingSession.
  rewrite (proj2 (Z.leb_gt _ _) Hd), (proj2 (Z.ltb_ge _ _) Hc). cbn [throw_when]. run.
  rewrite (proj2 (validateTargets_Ok _ ()) Hwf). run.
  destruct (allocateByServedUnits_eq duration targets Hwf ltac:(lia)) as (m1 & -> & H1).
  destruct (allocateByServedUnits_eq cost targets Hwf Hc) as (m2 & -> & H2). run.
  f_equal. apply list_fmap_ext. intros _ t _. by rewrite H1, H2.
Qed.

Lemma allocateHandlingSession_accepts duration cost targets r :
  allocateHandlingSession duration cost targets = Ok r →
  0 < duration ∧ 0 ≤ cost ∧ targets_wf targets.
Proof.
  unfold allocateHandlingSession. intros H. ok_inv. bool_inv.
  match goal with H : validateTargets _ = _ |- _ => apply validateTargets_Ok in H end. done.
Qed.
End Handling.

(** ** Properties *)

(** A monetary split loses and invents nothing.  Whenever
    [allocateMoney] returns, there is one allocation per target in the
    targets' order, in the amount's currency; the allocations add up to the
    amount exactly; and each of them is the floor or the ceiling of the exact
    proportional share (of an equal share when no basis is positive). *)
Theorem allocateMoney_exact (amount : Money.t) (targets : list Allocations.AllocationTarget)
    (r : list Allocations.MonetaryAllocation) :
  Money.wf amount → Allocations.allocateMoney amount targets = Ok r →
  let d := sum_by (Allocations.weight targets) targets in
  Allocations.total r = Money.minorUnits amount
  ∧ Forall2 (λ t a, Allocations.targetId a = Allocations.id t
      ∧ Money.currency (Allocations.allocated a) = Money.currency amount
      ∧ let s := Money.minorUnits (Allocations.allocated a) in
        let exact := Money.minorUnits amount * Allocations.weight targets t in
        0 ≤ s ∧ exact - d < d * s < exact + d) targets r.
Proof.
  intros Ha H d. destruct (Allocations.allocateMoney_total _ _ _ Ha H) as (Htot & _ & _).
  split; [done|]. pose proof (Allocations.allocateMoney_accepts _ _ _ H) as Hwf.
  rewrite (Allocations.allocateMoney_eq _ _ Ha Hwf) in H. ok_inv.
  apply Forall2_fmap_r, Forall_Forall2_diag, Forall_forall. intros t Ht. cbn.
  split; [done|]. split; [done|]. by apply Allocations.shareOf_bounds; [apply Ha| |].
Qed.

Lemma allocateMoney_exact_witness :
  let targets := [Allocations.mkTarget (js "a") 1; Allocations.mkTarget (js "b") 1;
                  Allocations.mkTarget (js "c") 1] in
  let r := [Allocations.mkAllocation (js "a") (Money.mk 34 (js "CZK"));
            Allocations.mkAllocation (js "b") (Money.mk 33 (js "CZK"));
            Allocations.mkAllocation (js "c") (Money.mk 33 (js "CZK"))] in
  Allocations.allocateMoney (Money.mk 100 (js "CZK")) targets = Ok r
  ∧ Allocations.total r = 100.
Proof.
  assert (H : Allocations.allocateMoney (Money.mk 100 (js "CZK"))
    [Allocations.mkTarget (js "a") 1; Allocations.mkTarget (js "b") 1;
     Allocations.mkTarget (js "c") 1] = Ok _) by (vm_compute; reflexivity).
  split; [exact H|]. exact (proj1 (allocateMoney_exact _ _ _ (Money.CZK_wf 100 ltac:(lia)) H)).
Defined.

(** [allocateMoney] returns exactly at the inputs it
    documents: at least one target, identities that are not blank and do not
    repeat, and no negative basis; and the share a target gets does not
    depend on the order the targets are listed in. *)
Theorem allocateMoney_deterministic (amount : Money.t)
    (targets targets' : list Allocations.AllocationTarget) :
  Money.wf amount → targets ≡ₚ targets' →
  (Allocations.targets_wf targets ↔ ∃ r, Allocations.allocateMoney amount targets = Ok r)
  ∧ ∀ r, Allocations.allocateMoney amount targets = Ok r →
      ∃ r', Allocations.allocateMoney amount targets' = Ok r' ∧ r ≡ₚ r'.
Proof.
  intros Ha Hperm. split.
  - split; [intros Hwf; eexists; by apply Allocations.allocateMoney_eq|].
    intros [r Hr]. by eapply Allocations.allocateMoney_accepts.
  - intros r H. pose proof (Allocations.allocateMoney_accepts _ _ _ H) as Hwf.
    rewrite (Allocations.allocateMoney_eq _ _ Ha Hwf) in H. ok_inv.
    assert (Allocations.targets_wf targets') as Hwf'.
    { destruct Hwf as (Hne & HF & HN). split_and!.
      - intros ->. by apply Hne, Permutation_nil_r.
      - by rewrite <-Hperm.
      - by rewrite <-Hperm. }
    eexists. split; [by apply Allocations.allocateMoney_eq|].
    destruct Hwf as (_ & _ & HN).
    rewrite (list_fmap_ext _ (λ t, Allocations.mkAllocation (Allocations.id t)
      (Money.mk (Allocations.shareOf (Money.minorUnits amount) targets' (Allocations.id t))
        (Money.currency amount))) targets).
    + by apply fmap_Permutation.
    + intros _ t _. by rewrite (Allocations.shareOf_perm _ _ _ _ HN Hperm).
Qed.

Lemma allocateMoney_deterministic_witness :
  ∃ r', Allocations.allocateMoney (Money.mk 5 (js "CZK"))
    [Allocations.mkTarget (js "b") 0; Allocations.mkTarget (js "a") 0] = Ok r'
  ∧ [Allocations.mkAllocation (js "a") (Money.mk 3 (js "CZK"));
     Allocations.mkAllocation (js "b") (Money.mk 2 (js "CZK"))] ≡ₚ r'.
Proof.
  apply (allocateMoney_deterministic (Money.mk 5 (js "CZK"))
    [Allocations.mkTarget (js "a") 0; Allocations.mkTarget (js "b") 0]).
  - apply Money.CZK_wf. lia.
  - apply Permutation_swap.
  - vm_compute. reflexivity.
Defined.

(** A handling session is reconciled exactly.  Whenever
    [allocateHandlingSession] returns, the allocated durations add up to the
    session's duration and the allocated costs to its cost, and every target
    gets the floor or the ceiling of its share by served units of both. *)
Theorem allocateHandlingSession_exact (duration cost : Z)
    (targets : list Handling.HandlingAllocationTarget) (r : list Handling.HandlingAllocation) :
  Handling.allocateHandlingSession duration cost targets = Ok r →
  let d := sum_by Handling.servedUnits targets in
  sum_by Handling.allocatedDurationMilliseconds r = duration
  ∧ sum_by Handling.allocatedCostMinor r = cost
  ∧ Forall2 (λ t a, Handling.targetId a = Handling.id t
      ∧ (let exact := duration * Handling.servedUnits t in
         0 ≤ Handling.allocatedDurationMilliseconds a
         ∧ exact - d < d * Handling.allocatedDurationMilliseconds a < exact + d)
      ∧ (let exact := cost * Handling.servedUnits t in
         0 ≤ Handling.allocatedCostMinor a
         ∧ exact - d < d * Handling.allocatedCostMinor a < exact + d)) targets r.
Proof.
  intros H d. destruct (Handling.allocateHandlingSession_accepts _ _ _ _ H) as (Hd & Hc & Hwf).
  rewrite (Handling.allocateHandlingSession_eq _ _ _ Hd Hc Hwf) in H. ok_inv.
  pose proof (Handling.served_positive _ Hwf) as Hpos. pose proof (λ t, Handling.served_nonneg targets t Hwf) as Hnn.
  destruct (Hwf) as (_ & _ & HN). rewrite !sum_by_fmap. split_and!.
  - apply LargestRemainder.share_sum; auto with lia.
  - apply LargestRemainder.share_sum; auto with lia.
  - apply Forall2_fmap_r, Forall_Forall2_diag, Forall_forall. intros t Ht. cbn.
    split; [done|]. split; (split; [apply LargestRemainder.share_nonneg|apply LargestRemainder.share_bounds]);
      auto with lia.
Qed.

Lemma allocateHandlingSession_exact_witness :
  sum_by Handling.allocatedCostMinor
    [Handling.mkAllocation (js "a") 667 7; Handling.mkAllocation (js "b") 333 3] = 10.
Proof.
  apply (allocateHandlingSession_exact 1000 10
    [Handling.mkTarget (js "a") 2; Handling.mkTarget (js "b") 1]).
  vm_compute. reflexivity.
Defined.
