(* ===== verification/Payment.v ===== *)
(** The payment-schedule gross-up (pricing/payment.ts): the least
    tax-inclusive total whose planned captures, after their fees and the VAT,
    still cover a subtotal. *)
From S2P Require Import Prelude Primitives Arithmetic.

Module Payment.
Import Arith.

(** ** Data (pricing/types.ts) *)

Inductive PaymentScheduleRole := FULL | DEPOSIT | BALANCE.

#[global] Instance PaymentScheduleRole_eq_dec : EqDecision PaymentScheduleRole.
Proof. solve_decision. Defined.

Record PaymentScheduleCapture := mkCapture {
  id : jstr;
  sequence : jsnumber;
  role : PaymentScheduleRole;
  shareBasisPoints : jsnumber;
  feeRateBasisPoints : jsnumber;
  feeFixed : Money.t;
}.

Record GrossedUpPaymentCapture := mkGrossedUp {
  gross_id : jstr;
  gross_sequence : jsnumber;
  gross_role : PaymentScheduleRole;
  gross : Money.t;
  fee : Money.t;
}.

Record PaymentScheduleGrossUp := mkGrossUp {
  contractTotal : Money.t;
  paymentFee : Money.t;
  tax : Tax.CustomerTaxBreakdown;
  captures : list GrossedUpPaymentCapture;
}.

(** ** Operations *)

Definition SHARE_BASIS_POINTS : Z := 10000.
Definition MAX_EXACT_GROSS_UP_CANDIDATES : Z := 10000.

Record GrossCaptureMinor := mkGrossMinor {
  definition : PaymentScheduleCapture;
  grossMinor : Z;
  feeMinor : Z;
}.

Definition assertSafeNonNegativeInteger (value : jsnumber) : result () :=
  throw_when (negb (isSafeInteger value) || (num value <? 0)) (DomainError INVALID_ARGUMENT).

Definition compareCaptureTie (left right : PaymentScheduleCapture) : Z :=
  if negb (num (sequence left) =? num (sequence right))
  then num (sequence left) - num (sequence right)
  else compareStrings (id left) (id right).

(** The variables of the validating loop. *)
Record ScheduleState := mkScheduleState {
  ids : gset jstr;
  sequences : gset Z;
  roles : list PaymentScheduleRole;
  shares : Z;
}.

Definition validateCapture (subtotal : Money.t) (s : ScheduleState)
    (capture : PaymentScheduleCapture) : result ScheduleState :=
  throw_when (blank (id capture)) (DomainError INVALID_ARGUMENT) ;;
  throw_when (bool_decide (id capture ∈ ids s)) (DomainError DUPLICATE_PAYMENT) ;;
  assertSafeNonNegativeInteger (sequence capture) ;;
  throw_when (bool_decide (num (sequence capture) ∈ sequences s)) (DomainError INVALID_ARGUMENT) ;;
  throw_when (bool_decide (role capture ∈ roles s)) (DomainError INVALID_ARGUMENT) ;;
  assertSafeNonNegativeInteger (shareBasisPoints capture) ;;
  assertSafeNonNegativeInteger (feeRateBasisPoints capture) ;;
  throw_when ((num (shareBasisPoints capture) <=? 0)
    || (SHARE_BASIS_POINTS <=? num (feeRateBasisPoints capture))) (DomainError INVALID_ARGUMENT) ;;
  throw_when (negb (str_eqb (Money.currency (feeFixed capture)) (Money.currency subtotal)))
    (DomainError CURRENCY_MISMATCH) ;;
  Ok (mkScheduleState ({[id capture]} ∪ ids s) ({[num (sequence capture)]} ∪ sequences s)
        (role capture :: roles s) (shares s + num (shareBasisPoints capture))).

(** [captures.find((capture) => capture.role === r)?.sequence === n] *)
Definition roleAt (captures : list PaymentScheduleCapture) (r : PaymentScheduleRole) (n : Z) : bool :=
  match List.find (λ c, bool_decide (role c = r)) captures with
  | Some c => num (sequence c) =? n
  | None => false
  end.

Definition validateSchedule (subtotal : Money.t) (captures : list PaymentScheduleCapture)
    : result () :=
  throw_when (negb (length captures =? 1)%nat && negb (length captures =? 2)%nat)
    (DomainError INVALID_ARGUMENT) ;;
  s ← foldM (validateCapture subtotal) (mkScheduleState ∅ ∅ [] 0) captures;
  let validShape :=
    ((length captures =? 1)%nat && (length (roles s) =? 1)%nat && roleAt captures FULL 0)
    || ((length captures =? 2)%nat && roleAt captures DEPOSIT 0 && roleAt captures BALANCE 1) in
  throw_when (negb validShape || negb (shares s =? SHARE_BASIS_POINTS))
    (DomainError INVALID_ARGUMENT).

(** The objects of [values] in [allocateGrossMinor].  The sorted copy holds
    references to the same objects: an object is known by its index here. *)
Record GrossValue := mkGrossValue {
  value_definition : PaymentScheduleCapture;
  value_grossMinor : Z;
  value_remainder : Z;
}.

Definition grossValue (total : Z) (definition : PaymentScheduleCapture) : GrossValue :=
  let numerator := total * num (shareBasisPoints definition) in
  mkGrossValue definition (Z.quot numerator SHARE_BASIS_POINTS) (Z.rem numerator SHARE_BASIS_POINTS).

Definition compareGrossValues (left right : nat * GrossValue) : Z :=
  if negb (value_remainder left.2 =? value_remainder right.2)
  then (if value_remainder right.2 <? value_remainder left.2 then -1 else 1)
  else compareCaptureTie (value_definition left.2) (value_definition right.2).

(** [value.grossMinor += 1n] *)
Definition incrementGross (v : GrossValue) : GrossValue :=
  mkGrossValue (value_definition v) (value_grossMinor v + 1) (value_remainder v).

Fixpoint giveRemainder (order : list (nat * GrossValue)) (remainder : Z)
    (values : list GrossValue) : list GrossValue :=
  match order with
  | [] => values
  | (i, _) :: rest =>
      if remainder =? 0 then values
      else giveRemainder rest (remainder - 1) (alter incrementGross i values)
  end.

Definition allocateGrossMinor (total : Z) (captures : list PaymentScheduleCapture)
    : list (PaymentScheduleCapture * Z) :=
  let values := grossValue total <$> captures in
  let remainder := total - sum_by value_grossMinor values in
  let order := js_sort compareGrossValues (imap pair values) in
  (λ v, (value_definition v, value_grossMinor v)) <$> giveRemainder order remainder values.

Definition evaluateTotal (total : Z) (captures : list PaymentScheduleCapture)
    : result (list GrossCaptureMinor) :=
  traverse (λ '(definition, grossMinor),
    f ← ceilDivide (grossMinor * num (feeRateBasisPoints definition)) SHARE_BASIS_POINTS;
    Ok (mkGrossMinor definition grossMinor (f + Money.minorUnits (feeFixed definition))))
    (allocateGrossMinor total captures).

Definition satisfies (subtotalMinor total : Z) (captures : list PaymentScheduleCapture)
    (taxPolicy : Tax.SellerTaxPolicy) (currency : jstr) : result bool :=
  evaluated ← evaluateTotal total captures;
  if existsb (λ capture, grossMinor capture <=? 0) evaluated then Ok false
  else
    let fees := sum_by feeMinor evaluated in
    m ← Money.of_ (BigIntIn total) currency;
    tax ← Tax.taxBreakdownFromGross m taxPolicy;
    let net := Money.minorUnits (Tax.net tax) in
    Ok ((fees <=? net) && (subtotalMinor <=? net - fees)).

Definition maxShareFloor (minimum : Z) (capture : PaymentScheduleCapture) : result Z :=
  c ← ceilDivide SHARE_BASIS_POINTS (num (shareBasisPoints capture));
  Ok (if c <? minimum then minimum else c).

Definition candidateRange (subtotalMinor : Z) (captures : list PaymentScheduleCapture)
    (taxPolicy : Tax.SellerTaxPolicy) : result (Z * Z) :=
  let basis := SHARE_BASIS_POINTS in
  let taxDenominator := basis + num (Tax.policy_vatRateBasisPoints taxPolicy) in
  let weightedFeeRates :=
    sum_by (λ c, num (shareBasisPoints c) * num (feeRateBasisPoints c)) captures in
  let slopeNumerator := basis * basis * basis - taxDenominator * weightedFeeRates in
  throw_when (slopeNumerator <=? 0) (DomainError INVALID_ARGUMENT) ;;
  let slopeDenominator := taxDenominator * basis * basis in
  let twiceBasis := 2 * basis in
  let fixedFees := sum_by (λ c, Money.minorUnits (feeFixed c)) captures in
  let feeRates := sum_by (λ c, num (feeRateBasisPoints c)) captures in
  let upperErrorScaled := basis + 2 * feeRates in
  let lowerErrorScaled := basis + 2 * Z.of_nat (length captures) * basis + 2 * feeRates in
  let targetScaled := (subtotalMinor + fixedFees) * twiceBasis in
  let firstPossibleTarget := targetScaled - upperErrorScaled in
  firstPossible ←
    (if firstPossibleTarget <=? 0 then Ok 0
     else ceilDivide (slopeDenominator * firstPossibleTarget) (slopeNumerator * twiceBasis));
  guaranteedByMargin ←
    ceilDivide (slopeDenominator * (targetScaled + lowerErrorScaled)) (slopeNumerator * twiceBasis);
  guaranteedPositiveCaptures ← foldM maxShareFloor 1 captures;
  Ok (firstPossible,
      if guaranteedPositiveCaptures <? guaranteedByMargin
      then guaranteedByMargin else guaranteedPositiveCaptures).

(** [while (total <= guaranteed) { if (satisfies(...)) break; total += 1n; }]:
    at most [fuel] rounds. *)
Fixpoint searchTotal (fuel : nat) (accepts : Z → result bool) (guaranteed total : Z) : result Z :=
  match fuel with
  | O => Ok total
  | S fuel' =>
      if total <=? guaranteed then
        found ← accepts total;
        if found : bool then Ok total else searchTotal fuel' accepts guaranteed (total + 1)
      else Ok total
  end.

Definition grossUpPaymentSchedule (subtotal : Money.t) (captures : list PaymentScheduleCapture)
    (taxPolicy : Tax.SellerTaxPolicy) : result PaymentScheduleGrossUp :=
  let currency := Money.currency subtotal in
  validateSchedule subtotal captures ;;
  Tax.validateSellerTaxPolicy taxPolicy ;;
  '(firstPossible, guaranteed) ← candidateRange (Money.minorUnits subtotal) captures taxPolicy;
  throw_when (MAX_EXACT_GROSS_UP_CANDIDATES <? guaranteed - firstPossible + 1)
    (DomainError INVALID_ARGUMENT) ;;
  total ← searchTotal (Z.to_nat (guaranteed - firstPossible + 1))
            (λ total, satisfies (Money.minorUnits subtotal) total captures taxPolicy currency)
            guaranteed firstPossible;
  throw_when (guaranteed <? total) (DomainError INVALID_ARGUMENT) ;;
  evaluated ← evaluateTotal total captures;
  grossedCaptures ← traverse (λ capture,
      g ← Money.of_ (BigIntIn (grossMinor capture)) currency;
      f ← Money.of_ (BigIntIn (feeMinor capture)) currency;
      let d := definition capture in
      Ok (mkGrossedUp (id d) (sequence d) (role d) g f))
    (js_sort (λ l r, compareCaptureTie (definition l) (definition r)) evaluated);
  let feeMinor := sum_by feeMinor evaluated in
  contractTotal ← Money.of_ (BigIntIn total) currency;
  paymentFee ← Money.of_ (BigIntIn feeMinor) currency;
  tax ← Tax.taxBreakdownFromGross contractTotal taxPolicy;
  Ok (mkGrossUp contractTotal paymentFee tax grossedCaptures).

(** ** Specification *)

Definition sh (c : PaymentScheduleCapture) : Z := num (shareBasisPoints c).
Definition rt (c : PaymentScheduleCapture) : Z := num (feeRateBasisPoints c).
Definition fx (c : PaymentScheduleCapture) : Z := Money.minorUnits (feeFixed c).

(** What the planned captures owe their provider when the total is [total]. *)
Definition feesOf (total : Z) (captures : list PaymentScheduleCapture) : Z :=
  sum_by (λ cg, cdiv (cg.2 * rt cg.1) SHARE_BASIS_POINTS + fx cg.1)
    (allocateGrossMinor total captures).

(** A total is accepted when every capture is positive and what is left after
    VAT and fees covers the subtotal. *)
Definition covers (subtotalMinor rate : Z) (captures : list PaymentScheduleCapture) (total : Z) : Prop :=
  Forall (λ cg, 0 < cg.2) (allocateGrossMinor total captures)
  ∧ 0 ≤ Tax.net_of_gross rate total - feesOf total captures
  ∧ subtotalMinor ≤ Tax.net_of_gross rate total - feesOf total captures.

#[global] Instance covers_dec S rate cs t : Decision (covers S rate cs t).
Proof. unfold covers. apply _. Defined.

(** The facts about a schedule that the arithmetic needs. *)
Record schedule_ok (captures : list PaymentScheduleCapture) : Prop := {
  so_share : Forall (λ c, 0 < sh c) captures;
  so_rate : Forall (λ c, 0 ≤ rt c) captures;
  so_fixed : Forall (λ c, 0 ≤ fx c) captures;
  so_total : sum_by sh captures = SHARE_BASIS_POINTS;
  so_shape : (∃ c, captures = [c]) ∨ (∃ c d, captures = [c; d]);
}.

(** The quantities of [candidateRange]. *)
Definition weightedRates (cs : list PaymentScheduleCapture) : Z := sum_by (λ c, sh c * rt c) cs.
Definition rates (cs : list PaymentScheduleCapture) : Z := sum_by rt cs.
Definition fixed (cs : list PaymentScheduleCapture) : Z := sum_by fx cs.
Definition slope (rate : Z) (cs : list PaymentScheduleCapture) : Z :=
  SHARE_BASIS_POINTS * SHARE_BASIS_POINTS * SHARE_BASIS_POINTS
  - (SHARE_BASIS_POINTS + rate) * weightedRates cs.

(** ** Facts *)

Lemma assertSafeNonNegativeInteger_Ok v u :
  assertSafeNonNegativeInteger v = Ok u → 0 ≤ num v.
Proof. unfold assertSafeNonNegativeInteger. intros H. ok_inv. bool_inv. done. Qed.

Lemma validateCapture_Ok m s c s' :
  validateCapture m s c = Ok s' →
  0 < sh c ∧ 0 ≤ rt c < SHARE_BASIS_POINTS
  ∧ Money.currency (feeFixed c) = Money.currency m
  ∧ num (sequence c) ∉ sequences s ∧ sequences s' = {[num (sequence c)]} ∪ sequences s
  ∧ shares s' = shares s + sh c.
Proof.
  unfold validateCapture. intros H. ok_inv.
  repeat match goal with
  | H : assertSafeNonNegativeInteger _ = Ok _ |- _ => apply assertSafeNonNegativeInteger_Ok in H
  end. bool_inv. unfold str_eqb in *. bool_inv. unfold sh, rt. cbn. done.
Qed.

Lemma validateCaptures_Ok m cs s s' :
  foldM (validateCapture m) s cs = Ok s' →
  Forall (λ c, 0 < sh c ∧ 0 ≤ rt c < SHARE_BASIS_POINTS
    ∧ Money.currency (feeFixed c) = Money.currency m ∧ num (sequence c) ∉ sequences s) cs
  ∧ NoDup ((λ c, num (sequence c)) <$> cs) ∧ shares s' = shares s + sum_by sh cs.
Proof.
  revert s. induction cs as [|c cs IH]; intros s H; cbn in H; ok_inv.
  - rewrite sum_by_nil. split_and!; [constructor|constructor|lia].
  - match goal with H : validateCapture _ _ _ = _ |- _ =>
      apply validateCapture_Ok in H as (? & ? & ? & Hfresh & Hseq & Hsh) end.
    match goal with H : foldM _ _ _ = _ |- _ => apply IH in H as (HF & HN & Hs) end.
    rewrite Hseq in HF. rewrite sum_by_cons, fmap_cons. split_and!; [constructor| |lia].
    + done.
    + eapply Forall_impl; [exact HF|]. cbn. set_solver.
    + constructor; [|done]. intros (d & Heq & Hd)%list_elem_of_fmap.
      rewrite Forall_forall in HF. specialize (HF d Hd) as (_ & _ & _ & Hnot).
      apply Hnot. rewrite <-Heq. set_solver.
Qed.

Lemma validateSchedule_Ok m cs u :
  Money.wf m → Forall (λ c, Money.wf (feeFixed c)) cs →
  validateSchedule m cs = Ok u →
  schedule_ok cs ∧ NoDup ((λ c, num (sequence c)) <$> cs).
Proof.
  unfold validateSchedule. intros Hm Hfx H. ok_inv.
  match goal with H : foldM _ _ _ = _ |- _ => apply validateCaptures_Ok in H as (HF & HN & Hs) end.
  bool_inv. rewrite Hs in *. cbn in *. split; [|done]. split.
  - eapply Forall_impl; [exact HF|]. cbn. naive_solver.
  - eapply Forall_impl; [exact HF|]. cbn. naive_solver.
  - eapply Forall_impl; [exact Hfx|]. intros c [? _]. done.
  - done.
  - destruct cs as [|c [|d [|e cs]]]; cbn in *; try discriminate; eauto.
Qed.

Lemma grossValue_spec t c :
  0 ≤ t → 0 < sh c → ∃ q r, grossValue t c = mkGrossValue c q r
    ∧ t * sh c = SHARE_BASIS_POINTS * q + r ∧ 0 ≤ r < SHARE_BASIS_POINTS.
Proof.
  intros Ht Hs. unfold grossValue. fold (sh c).
  destruct (Money.quot_rem_nonneg (t * sh c) SHARE_BASIS_POINTS) as (? & ? & ?);
    [nia|done|]. by do 2 eexists.
Qed.

(** Two captures: the one with the larger remainder takes the odd unit. *)
Lemma allocateGrossMinor_pair t c d :
  0 ≤ t → 0 < sh c → 0 < sh d → sh c + sh d = SHARE_BASIS_POINTS →
  ∃ g, allocateGrossMinor t [c; d] = [(c, g); (d, t - g)]
    ∧ 2 * t * sh c - SHARE_BASIS_POINTS ≤ 2 * SHARE_BASIS_POINTS * g
        ≤ 2 * t * sh c + SHARE_BASIS_POINTS.
Proof.
  intros Ht Hc Hd Hsum. unfold allocateGrossMinor. cbn [fmap list_fmap].
  destruct (grossValue_spec t c Ht Hc) as (q1 & r1 & -> & H1 & Hr1).
  destruct (grossValue_spec t d Ht Hd) as (q2 & r2 & -> & H2 & Hr2).
  unfold SHARE_BASIS_POINTS in *. assert (r1 + r2 = 0 ∨ r1 + r2 = 10000) as Hr by nia.
  unfold sum_by. cbn -[Z.mul compareGrossValues].
  destruct Hr as [Hr|Hr].
  - assert (t - (0 + q1 + q2) = 0) as Hodd by nia. rewrite Hodd.
    exists q1. assert (t - q1 = q2) as -> by lia. destruct (_ <=? 0); (split; [done|nia]).
  - assert (t - (0 + q1 + q2) = 1) as Hodd by nia. rewrite Hodd.
    destruct (_ <=? 0) eqn:Hcmp; unfold compareGrossValues in Hcmp; cbn in Hcmp.
    + exists (q1 + 1). assert (t - (q1 + 1) = q2) as -> by lia. split; [done|].
      destruct (Z.eqb_spec r1 r2), (Z.ltb_spec r2 r1); cbn in Hcmp; bool_inv; nia.
    + exists q1. assert (t - q1 = q2 + 1) as -> by lia. split; [done|].
      destruct (Z.eqb_spec r1 r2), (Z.ltb_spec r2 r1); cbn in Hcmp; bool_inv; nia.
Qed.

Lemma allocateGrossMinor_single t c :
  0 ≤ t → sh c = SHARE_BASIS_POINTS → allocateGrossMinor t [c] = [(c, t)].
Proof.
  intros Ht Hc. unfold allocateGrossMinor. cbn [fmap list_fmap].
  destruct (grossValue_spec t c Ht ltac:(by rewrite Hc)) as (q & r & -> & H & Hr).
  rewrite Hc in H. unfold SHARE_BASIS_POINTS in *. unfold sum_by. cbn -[Z.mul].
  assert (q = t) as -> by nia. replace (t - (0 + t)) with 0 by lia. done.
Qed.

Section arithmetic.
Context (cs : list PaymentScheduleCapture).
Hypothesis Hok : schedule_ok cs.

(** A capture gets its ideal share rounded to a nearest integer. *)
Definition near (t : Z) (cg : PaymentScheduleCapture * Z) : Prop :=
  2 * t * sh cg.1 - SHARE_BASIS_POINTS ≤ 2 * SHARE_BASIS_POINTS * cg.2
    ≤ 2 * t * sh cg.1 + SHARE_BASIS_POINTS.

Lemma allocateGrossMinor_near t :
  0 ≤ t →
  fst <$> allocateGrossMinor t cs = cs
  ∧ sum_by snd (allocateGrossMinor t cs) = t
  ∧ Forall (near t) (allocateGrossMinor t cs).
Proof.
  intros Ht. destruct Hok as [Hs _ _ Htot [[c ->]|(c & d & ->)]].
  - assert (sh c = SHARE_BASIS_POINTS) as Hc by (rewrite sum_by_cons, sum_by_nil in Htot; lia).
    rewrite (allocateGrossMinor_single t c Ht Hc), sum_by_cons, sum_by_nil. cbn.
    split_and!; [done|lia|]. repeat constructor; unfold near; cbn; rewrite Hc; unfold SHARE_BASIS_POINTS; lia.
  - rewrite !sum_by_cons, sum_by_nil in Htot. apply Forall_cons in Hs as [Hc Hd].
    apply Forall_cons in Hd as [Hd _].
    destruct (allocateGrossMinor_pair t c d Ht Hc Hd ltac:(lia)) as (g & -> & Hg).
    rewrite !sum_by_cons, sum_by_nil. cbn. split_and!; [done|lia|].
    assert (sh d = SHARE_BASIS_POINTS - sh c) as Hd' by lia.
    repeat constructor; unfold near; cbn; rewrite ?Hd'; unfold SHARE_BASIS_POINTS in *; lia.
Qed.

Lemma gross_capture_in t cg : 0 ≤ t → cg ∈ allocateGrossMinor t cs → cg.1 ∈ cs.
Proof.
  intros Ht Hin. destruct (allocateGrossMinor_near t Ht) as (Hf & _ & _).
  rewrite <-Hf. by apply list_elem_of_fmap_2.
Qed.

Lemma sum_over_captures t (f : PaymentScheduleCapture → Z) : 0 ≤ t →
  sum_by (λ cg, f cg.1) (allocateGrossMinor t cs) = sum_by f cs.
Proof.
  intros Ht. destruct (allocateGrossMinor_near t Ht) as (Hf & _ & _).
  rewrite <-Hf at 2. by rewrite sum_by_fmap.
Qed.

Lemma near_nonneg t cg : 0 ≤ t → cg ∈ allocateGrossMinor t cs → 0 ≤ cg.2.
Proof.
  intros Ht Hin. destruct (allocateGrossMinor_near t Ht) as (_ & _ & HF).
  rewrite Forall_forall in HF. pose proof (HF cg Hin) as Hn.
  destruct Hok as [Hs _ _ _ _]. rewrite Forall_forall in Hs.
  pose proof (Hs _ (gross_capture_in t cg Ht Hin)). unfold near, SHARE_BASIS_POINTS in *. nia.
Qed.

(** The fees differ from their ideal value by a bounded error. *)
Lemma feesOf_bounds t : 0 ≤ t →
  let B := SHARE_BASIS_POINTS in
  let scaled := 2 * B * B * (feesOf t cs - fixed cs) in
  2 * t * weightedRates cs - B * rates cs ≤ scaled
  ≤ 2 * t * weightedRates cs + B * rates cs + 2 * B * B * Z.of_nat (length cs).
Proof.
  intros Ht. cbv zeta. unfold feesOf, fixed, rates, weightedRates.
  rewrite sum_by_add, (sum_over_captures t fx Ht).
  rewrite <-(sum_over_captures t rt Ht), <-(sum_over_captures t (λ c, sh c * rt c) Ht).
  assert (Z.of_nat (length cs) = sum_by (λ _, 1) (allocateGrossMinor t cs)) as ->.
  { rewrite (sum_over_captures t (λ _, 1) Ht), sum_by_const. lia. }
  replace (sum_by _ _ + sum_by fx cs - sum_by fx cs)
    with (sum_by (λ cg, cdiv (cg.2 * rt cg.1) SHARE_BASIS_POINTS) (allocateGrossMinor t cs)) by lia.
  destruct (allocateGrossMinor_near t Ht) as (_ & _ & HF). destruct Hok as [_ Hr _ _ _].
  assert (∀ cg, cg ∈ allocateGrossMinor t cs → 0 ≤ rt cg.1) as Hrt.
  { intros cg Hin. rewrite Forall_forall in Hr. by apply Hr, (gross_capture_in t). }
  revert HF Hrt. generalize (allocateGrossMinor t cs). intros l HF Hrt.
  induction HF as [|cg l Hcg _ IH]; [rewrite !sum_by_nil; lia|].
  rewrite !sum_by_cons. specialize (IH ltac:(intros; apply Hrt; by right)).
  pose proof (Hrt cg ltac:(by left)) as H0.
  pose proof (cdiv_bounds (cg.2 * rt cg.1) SHARE_BASIS_POINTS ltac:(done)) as Hk.
  unfold near in Hcg. unfold SHARE_BASIS_POINTS in *.
  set (k := cdiv _ _) in *. clearbody k.
  assert (rt cg.1 * (2 * t * sh cg.1 - 10000) ≤ rt cg.1 * (2 * 10000 * cg.2)
    ≤ rt cg.1 * (2 * t * sh cg.1 + 10000)) by nia.
  nia.
Qed.

(** One more unit of total: no capture shrinks, so no fee does. *)
Lemma feesOf_mono t : 0 ≤ t → feesOf t cs ≤ feesOf (t + 1) cs.
Proof.
  intros Ht. assert (Forall2 (λ a b, a.1 = b.1 ∧ a.2 ≤ b.2)
    (allocateGrossMinor t cs) (allocateGrossMinor (t + 1) cs)) as HF.
  { destruct Hok as [Hs _ _ Htot [[c ->]|(c & d & ->)]].
    - rewrite sum_by_cons, sum_by_nil in Htot.
      rewrite !allocateGrossMinor_single by lia. repeat constructor; cbn; lia.
    - rewrite !sum_by_cons, sum_by_nil in Htot. apply Forall_cons in Hs as [Hc Hd].
      apply Forall_cons in Hd as [Hd _].
      destruct (allocateGrossMinor_pair t c d Ht Hc Hd ltac:(lia)) as (g & -> & Hg).
      destruct (allocateGrossMinor_pair (t + 1) c d ltac:(lia) Hc Hd ltac:(lia)) as (g' & -> & Hg').
      unfold SHARE_BASIS_POINTS in *. repeat constructor; cbn; nia. }
  assert (∀ cg, cg ∈ allocateGrossMinor t cs → 0 ≤ rt cg.1) as Hrt.
  { intros cg Hin. destruct Hok as [_ Hr _ _ _]. rewrite Forall_forall in Hr.
    by apply Hr, (gross_capture_in t). }
  unfold feesOf. revert HF Hrt. generalize (allocateGrossMinor t cs), (allocateGrossMinor (t + 1) cs).
  intros l k HF Hrt. induction HF as [|a b l k [Heq Hle] _ IH]; [done|].
  rewrite !sum_by_cons. rewrite <-Heq. pose proof (Hrt a ltac:(by left)).
  specialize (IH ltac:(intros; apply Hrt; by right)).
  assert (cdiv (a.2 * rt a.1) SHARE_BASIS_POINTS ≤ cdiv (b.2 * rt a.1) SHARE_BASIS_POINTS); [|lia].
  apply cdiv_le_iff; [done|].
  pose proof (cdiv_bounds (b.2 * rt a.1) SHARE_BASIS_POINTS ltac:(done)). nia.
Qed.

Context (rate : Z).
Hypothesis Hrate : 0 ≤ rate ≤ Tax.BASIS_POINTS.

(** What a total leaves after VAT and fees moves by at most one per unit. *)
Lemma remaining_step t : 0 ≤ t →
  Tax.net_of_gross rate (t + 1) - feesOf (t + 1) cs
  ≤ Tax.net_of_gross rate t - feesOf t cs + 1.
Proof.
  intros Ht. pose proof (feesOf_mono t Ht). pose proof (Tax.vat_of_gross_step rate t Hrate).
  unfold Tax.net_of_gross. lia.
Qed.

(** The net amount, scaled: VAT is off by at most half a unit. *)
Lemma net_bounds t : 0 ≤ t →
  let D := SHARE_BASIS_POINTS + rate in
  2 * t * SHARE_BASIS_POINTS - D ≤ 2 * D * Tax.net_of_gross rate t
  ≤ 2 * t * SHARE_BASIS_POINTS + D.
Proof.
  intros Ht. cbv zeta. unfold Tax.net_of_gross, Tax.vat_of_gross.
  pose proof (hdiv_bounds (t * rate) (Tax.BASIS_POINTS + rate)).
  unfold Tax.BASIS_POINTS, SHARE_BASIS_POINTS in *. nia.
Qed.

(** The envelope of [candidateRange]: below [firstPossible] no total covers. *)
Lemma covers_lower S t : 0 ≤ t → covers S rate cs t →
  let B := SHARE_BASIS_POINTS in let D := B + rate in
  D * B * ((S + fixed cs) * (2 * B) - (B + 2 * rates cs)) ≤ slope rate cs * 2 * t.
Proof.
  intros Ht (_ & _ & Hcov). cbv zeta. pose proof (feesOf_bounds t Ht) as [Hf _].
  pose proof (net_bounds t Ht) as [_ Hn]. cbv zeta in Hf, Hn.
  assert (0 ≤ rates cs) as HR.
  { apply sum_by_nonneg. destruct Hok as [_ Hr _ _ _]. by rewrite Forall_forall in Hr. }
  unfold slope. unfold SHARE_BASIS_POINTS, Tax.BASIS_POINTS in *.
  set (W := weightedRates cs) in *. set (R := rates cs) in *. set (F := fixed cs) in *.
  set (fees := feesOf t cs) in *. set (net := Tax.net_of_gross rate t) in *.
  clearbody W R F fees net.
  assert ((10000 + rate) * (2 * t * W - 10000 * R)
    ≤ (10000 + rate) * (2 * 10000 * 10000 * (fees - F))) by nia.
  nia.
Qed.

(** ... and a total past the margin covers, once every capture is positive. *)
Lemma covers_upper S t : 0 ≤ t → 0 ≤ S →
  let B := SHARE_BASIS_POINTS in let D := B + rate in
  Forall (λ c, B ≤ sh c * t) cs →
  D * B * ((S + fixed cs) * (2 * B) + (B + 2 * Z.of_nat (length cs) * B + 2 * rates cs))
    ≤ slope rate cs * 2 * t →
  covers S rate cs t.
Proof.
  intros Ht HS B D Hpos Hm. subst B D. pose proof (feesOf_bounds t Ht) as [_ Hf].
  pose proof (net_bounds t Ht) as [Hn _]. cbv zeta in Hf, Hn.
  assert (0 ≤ rates cs) as HR.
  { apply sum_by_nonneg. destruct Hok as [_ Hr _ _ _]. by rewrite Forall_forall in Hr. }
  assert (S ≤ Tax.net_of_gross rate t - feesOf t cs) as Hcov.
  { unfold slope in Hm. unfold SHARE_BASIS_POINTS, Tax.BASIS_POINTS in *.
    set (W := weightedRates cs) in *. set (R := rates cs) in *. set (F := fixed cs) in *.
    set (fees := feesOf t cs) in *. set (net := Tax.net_of_gross rate t) in *.
    set (n := Z.of_nat (length cs)) in *. clearbody W R F fees net n.
    assert ((10000 + rate) * (2 * 10000 * 10000 * (fees - F))
      ≤ (10000 + rate) * (2 * t * W + 10000 * R + 2 * 10000 * 10000 * n)) by nia.
    nia. }
  split; [|lia]. apply Forall_forall. intros cg Hin.
  destruct (allocateGrossMinor_near t Ht) as (_ & _ & HF). rewrite Forall_forall in HF. rewrite Forall_forall in Hpos.
  pose proof (HF cg Hin) as Hnear. pose proof (Hpos _ (gross_capture_in t cg Ht Hin)).
  unfold near, SHARE_BASIS_POINTS in *. nia.
Qed.
End arithmetic.

(** ** The code computes these quantities *)

Lemma evaluateTotal_eq cs t : schedule_ok cs → 0 ≤ t →
  evaluateTotal t cs = Ok ((λ cg, mkGrossMinor cg.1 cg.2
    (cdiv (cg.2 * rt cg.1) SHARE_BASIS_POINTS + fx cg.1)) <$> allocateGrossMinor t cs).
Proof.
  intros Hok Ht. apply traverse_pure. intros [c g] Hin. fold (rt c) (fx c).
  pose proof (near_nonneg cs Hok t _ Ht Hin) as Hg. destruct (Hok) as [_ Hr _ _ _].
  rewrite Forall_forall in Hr. pose proof (Hr _ (gross_capture_in cs Hok t _ Ht Hin)) as Hrt.
  cbn in *. rewrite ceilDivide_eq by (done || nia). done.
Qed.

Lemma existsb_nonpositive (l : list (PaymentScheduleCapture * Z)) (f : PaymentScheduleCapture * Z → Z) :
  existsb (λ e, grossMinor e <=? 0) ((λ cg, mkGrossMinor cg.1 cg.2 (f cg)) <$> l)
  = negb (bool_decide (Forall (λ cg, 0 < cg.2) l)).
Proof.
  induction l as [|cg l IH]; [done|]. cbn. rewrite IH.
  destruct (Z.leb_spec cg.2 0); cbn.
  - rewrite bool_decide_eq_false_2; [done|]. rewrite Forall_cons. lia.
  - f_equal. apply bool_decide_ext. rewrite Forall_cons. naive_solver.
Qed.

Lemma satisfies_eq S t cs p rate cur :
  schedule_ok cs → Tax.policy_wf p rate → cur ∈ Money.supportedMinorUnitCurrencies → 0 ≤ t →
  satisfies S t cs p cur = Ok (bool_decide (covers S rate cs t)).
Proof.
  intros Hok Hp Hcur Ht. unfold satisfies. rewrite evaluateTotal_eq by done. run.
  rewrite existsb_nonpositive. case_bool_decide as Hpos; cbn [negb].
  - rewrite (Money.of__wf t cur) by done. run.
    rewrite (Tax.taxBreakdownFromGross_eq _ _ _ (conj Ht Hcur : Money.wf (Money.mk t cur)) Hp). run.
    rewrite sum_by_fmap. fold (feesOf t cs).
    change (sum_by _ _) with (feesOf t cs). cbn. f_equal. unfold covers.
    destruct (Z.leb_spec (feesOf t cs) (Tax.net_of_gross rate t)),
      (Z.leb_spec S (Tax.net_of_gross rate t - feesOf t cs)); symmetry;
      (apply bool_decide_eq_true_2 || apply bool_decide_eq_false_2); cbn; (split_and!; done || lia) || lia.
  - symmetry. f_equal. apply bool_decide_eq_false_2. unfold covers. tauto.
Qed.

Lemma maxShareFloor_eq m c : 0 < sh c →
  let q := cdiv SHARE_BASIS_POINTS (sh c) in maxShareFloor m c = Ok (if q <? m then m else q).
Proof. intros Hc. cbv zeta. unfold maxShareFloor. fold (sh c). by rewrite ceilDivide_eq by done. Qed.

Lemma maxShareFloor_spec cs m : Forall (λ c, 0 < sh c) cs →
  ∃ k, foldM maxShareFloor m cs = Ok k ∧ m ≤ k
    ∧ Forall (λ c, cdiv SHARE_BASIS_POINTS (sh c) ≤ k) cs.
Proof.
  revert m. induction cs as [|c cs IH]; intros m HF; cbn [foldM].
  { exists m. split_and!; [done|lia|constructor]. }
  apply Forall_cons in HF as [Hc HF]. rewrite maxShareFloor_eq by done. run.
  set (q := cdiv _ _). destruct (IH (if q <? m then m else q) HF) as (k & -> & Hm & Hk).
  exists k. split_and!; [done| |constructor; [|done]]; destruct (Z.ltb_spec q m); lia.
Qed.

(** A range that works: nothing below it covers, its end does. *)
Definition range_spec (S rate : Z) (cs : list PaymentScheduleCapture) (first guaranteed : Z) : Prop :=
  0 ≤ first ∧ 0 ≤ guaranteed
  ∧ (∀ t, 0 ≤ t → covers S rate cs t → first ≤ t) ∧ covers S rate cs guaranteed.

Lemma candidateRange_spec S cs p rate :
  0 ≤ S → schedule_ok cs → Tax.policy_wf p rate →
  (slope rate cs ≤ 0 → candidateRange S cs p = Throw (DomainError INVALID_ARGUMENT))
  ∧ (0 < slope rate cs → ∃ first guaranteed,
      candidateRange S cs p = Ok (first, guaranteed) ∧ range_spec S rate cs first guaranteed).
Proof.
  intros HS Hok (Hp & Hrate & _). unfold candidateRange. rewrite Hp. cbn [num].
  change (SHARE_BASIS_POINTS * SHARE_BASIS_POINTS * SHARE_BASIS_POINTS
    - (SHARE_BASIS_POINTS + rate) * sum_by _ cs) with (slope rate cs).
  split; intros Hsl; [by rewrite (proj2 (Z.leb_le _ _) Hsl)|].
  rewrite (proj2 (Z.leb_gt _ _) Hsl). cbn [throw_when]. run.
  change (sum_by (λ c, Money.minorUnits (feeFixed c)) cs) with (fixed cs).
  change (sum_by (λ c, num (feeRateBasisPoints c)) cs) with (rates cs).
  assert (0 ≤ fixed cs ∧ 0 ≤ rates cs) as [HF HR].
  { destruct Hok as [_ Hr Hf _ _]. rewrite Forall_forall in Hr, Hf. split; by apply sum_by_nonneg. }
  destruct (maxShareFloor_spec cs 1 (so_share _ Hok)) as (k & -> & Hk1 & Hk).
  unfold Tax.BASIS_POINTS in Hrate.
  set (low := (S + fixed cs) * (2 * SHARE_BASIS_POINTS) - (SHARE_BASIS_POINTS + 2 * rates cs)).
  set (high := (S + fixed cs) * (2 * SHARE_BASIS_POINTS)
    + (SHARE_BASIS_POINTS + 2 * Z.of_nat (length cs) * SHARE_BASIS_POINTS + 2 * rates cs)).
  set (dn := (SHARE_BASIS_POINTS + rate) * SHARE_BASIS_POINTS * SHARE_BASIS_POINTS).
  set (sl := slope rate cs * (2 * SHARE_BASIS_POINTS)).
  assert (0 < dn ∧ 0 < sl ∧ 0 ≤ high) as (Hdn & Hslp & Hhigh)
    by (unfold dn, sl, high, SHARE_BASIS_POINTS in *; lia).
  rewrite (ceilDivide_eq (dn * high)) by (done || nia). run.
  pose proof (cdiv_bounds (dn * high) sl Hslp) as Hg.
  set (first := if low <=? 0 then 0 else cdiv (dn * low) sl).
  assert ((if low <=? 0 then Ok 0 else ceilDivide (dn * low) sl) = Ok first) as ->.
  { unfold first. destruct (Z.leb_spec low 0); [done|]. by apply ceilDivide_eq; [nia|]. }
  run. set (g := if k <? cdiv (dn * high) sl then cdiv (dn * high) sl else k).
  assert (k ≤ g ∧ cdiv (dn * high) sl ≤ g) as [Hkg Hmg]
    by (unfold g; destruct (Z.ltb_spec k (cdiv (dn * high) sl)); lia).
  exists first, g. split; [done|]. split_and!; [|lia| |].
  - unfold first. destruct (Z.leb_spec low 0); [done|]. apply cdiv_nonneg; [nia|done].
  - intros t Ht Hcov. unfold first. destruct (Z.leb_spec low 0) as [|Hlow]; [done|].
    apply cdiv_le_iff; [done|].
    pose proof (covers_lower cs Hok rate Hrate S t Ht Hcov) as Hl. cbv zeta in Hl. fold low in Hl.
    unfold dn, sl, SHARE_BASIS_POINTS in *. nia.
  - apply covers_upper; try done; [lia| |].
    + pose proof (so_share _ Hok) as Hs. rewrite Forall_forall in Hs. rewrite Forall_forall in Hk.
      apply Forall_forall. intros c Hin. specialize (Hs c Hin). specialize (Hk c Hin).
      cbn beta in Hk. apply cdiv_le_iff in Hk; [|done]. nia.
    + fold high. assert (dn * high ≤ sl * g) as Hgoal by nia.
      unfold dn, sl, SHARE_BASIS_POINTS in *. nia.
Qed.

(** The loop finds the first total its test accepts. *)
Lemma searchTotal_spec (accepts : Z → result bool) (P : Z → Prop) `{∀ t, Decision (P t)} guaranteed fuel t :
  (∀ u, 0 ≤ u → accepts u = Ok (bool_decide (P u))) →
  0 ≤ t → P guaranteed → t ≤ guaranteed → guaranteed - t < Z.of_nat fuel →
  ∃ u, searchTotal fuel accepts guaranteed t = Ok u ∧ t ≤ u ≤ guaranteed ∧ P u
    ∧ ∀ v, t ≤ v < u → ¬ P v.
Proof.
  intros Hacc. revert t. induction fuel as [|fuel IH]; intros t Ht HP Hle Hfuel; [lia|].
  cbn. rewrite (proj2 (Z.leb_le _ _) Hle), Hacc by done. run.
  case_bool_decide as HPt; [exists t; split_and!; [done|lia..|done|lia]|].
  assert (t ≠ guaranteed) by (intros ->; done).
  destruct (IH (t + 1)) as (u & -> & Hu & HPu & Hmin); [lia..|done|lia|lia|].
  exists u. split_and!; [done|lia..|done|]. intros v Hv. destruct (Z.eq_dec v t) as [->|]; [done|].
  apply Hmin. lia.
Qed.
(** ** The operation as a whole *)

#[global] Instance compareCaptureTie_comparator : Comparator compareCaptureTie.
Proof.
  apply (comparator_ext _ (λ l r, js_or (num (sequence l) - num (sequence r))
    (compareStrings (id l) (id r)))), _.
  intros l r. unfold compareCaptureTie, js_or. repeat case_match; bool_inv; try done; lia.
Qed.

Lemma compareCaptureTie_le l r : compareCaptureTie l r ≤ 0 → num (sequence l) ≤ num (sequence r).
Proof. unfold compareCaptureTie. repeat case_match; bool_inv; lia. Qed.

(** What the code keeps of one capture at the chosen total. *)
Definition evaluated (T : Z) (cs : list PaymentScheduleCapture) : list GrossCaptureMinor :=
  (λ cg, mkGrossMinor cg.1 cg.2 (cdiv (cg.2 * rt cg.1) SHARE_BASIS_POINTS + fx cg.1))
    <$> allocateGrossMinor T cs.

Definition asGrossedUp (cur : jstr) (e : GrossCaptureMinor) : GrossedUpPaymentCapture :=
  mkGrossedUp (id (definition e)) (sequence (definition e)) (role (definition e))
    (Money.mk (grossMinor e) cur) (Money.mk (feeMinor e) cur).

Definition grossUpAt (T rate : Z) (cs : list PaymentScheduleCapture) (p : Tax.SellerTaxPolicy)
    (cur : jstr) : PaymentScheduleGrossUp :=
  mkGrossUp (Money.mk T cur) (Money.mk (feesOf T cs) cur)
    (Tax.mkBreakdown (Tax.policy_regime p) (IntNum rate)
      (Money.mk (Tax.net_of_gross rate T) cur) (Money.mk (Tax.vat_of_gross rate T) cur) (Money.mk T cur))
    (asGrossedUp cur <$> js_sort (λ l r, compareCaptureTie (definition l) (definition r)) (evaluated T cs)).

Lemma evaluated_nonneg T cs e : schedule_ok cs → 0 ≤ T → e ∈ evaluated T cs →
  definition e ∈ cs ∧ 0 ≤ grossMinor e ∧ 0 ≤ feeMinor e
  ∧ feeMinor e = cdiv (grossMinor e * rt (definition e)) SHARE_BASIS_POINTS + fx (definition e)
  ∧ near T (definition e, grossMinor e).
Proof.
  intros Hok HT (cg & -> & Hin)%list_elem_of_fmap. cbn.
  pose proof (near_nonneg cs Hok T cg HT Hin) as Hg.
  pose proof (gross_capture_in cs Hok T cg HT Hin) as Hc.
  destruct (allocateGrossMinor_near cs Hok T HT) as (_ & _ & HF). rewrite Forall_forall in HF.
  destruct Hok as [_ Hr Hf _ _]. rewrite Forall_forall in Hr. rewrite Forall_forall in Hf.
  pose proof (Hr _ Hc). pose proof (Hf _ Hc).
  assert (0 ≤ cdiv (cg.2 * rt cg.1) SHARE_BASIS_POINTS) by (apply cdiv_nonneg; [nia|done]).
  split_and!; try done; [lia|]. specialize (HF cg Hin). by destruct cg.
Qed.

Lemma feesOf_evaluated T cs : sum_by feeMinor (evaluated T cs) = feesOf T cs.
Proof. unfold evaluated. by rewrite sum_by_fmap. Qed.

Lemma grossed_evaluated T cs : schedule_ok cs → 0 ≤ T → sum_by grossMinor (evaluated T cs) = T.
Proof.
  intros Hok HT. unfold evaluated. rewrite sum_by_fmap.
  destruct (allocateGrossMinor_near cs Hok T HT) as (_ & Hs & _). exact Hs.
Qed.

(** The search window is narrow enough. *)
Definition searchable (S rate : Z) (cs : list PaymentScheduleCapture) (p : Tax.SellerTaxPolicy) : Prop :=
  0 < slope rate cs ∧ ∀ first guaranteed, candidateRange S cs p = Ok (first, guaranteed) →
    guaranteed - first + 1 ≤ MAX_EXACT_GROSS_UP_CANDIDATES.

Section gross_up.
Context (m : Money.t) (cs : list PaymentScheduleCapture) (p : Tax.SellerTaxPolicy) (rate : Z).
Hypothesis Hm : Money.wf m.
Hypothesis Hfees : Forall (λ c, Money.wf (feeFixed c)) cs.
Hypothesis Hschedule : validateSchedule m cs = Ok ().
Hypothesis Hp : Tax.policy_wf p rate.

Lemma grossUp_finish T : 0 ≤ T →
  (evaluated ← evaluateTotal T cs;
   grossedCaptures ← traverse (λ capture,
      g ← Money.of_ (BigIntIn (grossMinor capture)) (Money.currency m);
      f ← Money.of_ (BigIntIn (feeMinor capture)) (Money.currency m);
      let d := definition capture in
      Ok (mkGrossedUp (id d) (sequence d) (role d) g f))
    (js_sort (λ l r, compareCaptureTie (definition l) (definition r)) evaluated);
   let feeMinor := sum_by feeMinor evaluated in
   contractTotal ← Money.of_ (BigIntIn T) (Money.currency m);
   paymentFee ← Money.of_ (BigIntIn feeMinor) (Money.currency m);
   tax ← Tax.taxBreakdownFromGross contractTotal p;
   Ok (mkGrossUp contractTotal paymentFee tax grossedCaptures))
  = Ok (grossUpAt T rate cs p (Money.currency m)).
Proof.
  intros HT. destruct (validateSchedule_Ok m cs () Hm Hfees Hschedule) as [Hok _].
  destruct Hm as [_ Hc]. rewrite evaluateTotal_eq by done. run. fold (evaluated T cs).
  rewrite (traverse_pure _ (asGrossedUp (Money.currency m))).
  2: { intros e He%elem_of_js_sort.
    destruct (evaluated_nonneg T cs e Hok HT He) as (_ & Hg & Hf & _).
    rewrite !Money.of__wf by done. done. }
  run. rewrite feesOf_evaluated. rewrite (Money.of__wf T) by done. run.
  rewrite (Money.of__wf (feesOf T cs)).
  2: { split; [|done]. rewrite <-feesOf_evaluated. apply sum_by_nonneg. intros e He.
    by apply (evaluated_nonneg T cs e Hok HT He). }
  run. by rewrite (Tax.taxBreakdownFromGross_eq _ _ _ (conj HT Hc : Money.wf (Money.mk T _)) Hp).
Qed.

Lemma grossUp_cases :
  let S := Money.minorUnits m in
  (grossUpPaymentSchedule m cs p = Throw (DomainError INVALID_ARGUMENT) ∧ ¬ searchable S rate cs p)
  ∨ (searchable S rate cs p ∧ ∃ T, 0 ≤ T ∧ covers S rate cs T
     ∧ (∀ t, 0 ≤ t < T → ¬ covers S rate cs t)
     ∧ grossUpPaymentSchedule m cs p = Ok (grossUpAt T rate cs p (Money.currency m))).
Proof.
  cbv zeta. destruct (validateSchedule_Ok m cs () Hm Hfees Hschedule) as [Hok _].
  destruct (Hm) as [HS Hc].
  destruct (candidateRange_spec (Money.minorUnits m) cs p rate HS Hok Hp) as [Hneg Hpos].
  unfold grossUpPaymentSchedule. rewrite Hschedule, (Tax.policy_wf_validates _ _ Hp). run.
  destruct (Z.le_gt_cases (slope rate cs) 0) as [Hsl|Hsl].
  { left. rewrite (Hneg Hsl). split; [done|]. intros [? _]. lia. }
  destruct (Hpos Hsl) as (first & guaranteed & Hrange & Hf0 & Hg0 & Hlow & Hg). rewrite Hrange. run.
  destruct (Z.ltb_spec MAX_EXACT_GROSS_UP_CANDIDATES (guaranteed - first + 1)) as [Hw|Hw].
  { left. split; [done|]. intros [_ Hs]. specialize (Hs _ _ Hrange). lia. }
  right. split; [split; [done|]; intros ?? Hr; rewrite Hrange in Hr; by ok_inv|].
  cbn [throw_when]. run.
  pose proof (Hlow guaranteed Hg0 Hg) as Hle.
  destruct (searchTotal_spec (λ total, satisfies (Money.minorUnits m) total cs p (Money.currency m))
    (covers (Money.minorUnits m) rate cs) guaranteed (Z.to_nat (guaranteed - first + 1)) first)
    as (T & -> & HT & HcovT & Hmin); try done; [|lia|].
  { intros u Hu. by apply satisfies_eq. }
  run. rewrite (proj2 (Z.ltb_ge guaranteed T)) by lia. cbn [throw_when]. run.
  exists T. split_and!; [lia|done| |apply grossUp_finish; lia].
  intros t Ht Hcov. destruct (Z.lt_ge_cases t first) as [Hlt|Hge].
  - pose proof (Hlow t (proj1 Ht) Hcov). lia.
  - apply (Hmin t); [lia|done].
Qed.
End gross_up.

Lemma grossUp_Ok m cs p r :
  Money.wf m → Forall (λ c, Money.wf (feeFixed c)) cs → grossUpPaymentSchedule m cs p = Ok r →
  ∃ rate T, Tax.policy_wf p rate ∧ schedule_ok cs ∧ NoDup ((λ c, num (sequence c)) <$> cs) ∧ 0 ≤ T
    ∧ covers (Money.minorUnits m) rate cs T
    ∧ (∀ t, 0 ≤ t < T → ¬ covers (Money.minorUnits m) rate cs t)
    ∧ r = grossUpAt T rate cs p (Money.currency m).
Proof.
  intros Hm Hfees H.
  assert (validateSchedule m cs = Ok () ∧ ∃ rate, Tax.policy_wf p rate) as [Hs [rate Hp]].
  { unfold grossUpPaymentSchedule in H.
    destruct (validateSchedule m cs) as [[]|] eqn:Hs; [|discriminate]. run_in H.
    destruct (Tax.validateSellerTaxPolicy p) as [u|] eqn:Hp; [|discriminate].
    split; [done|]. by apply Tax.validateSellerTaxPolicy_Ok in Hp. }
  destruct (validateSchedule_Ok m cs () Hm Hfees Hs) as [Hok HN].
  destruct (grossUp_cases m cs p rate Hm Hfees Hs Hp) as [[He _]|(_ & T & HT & Hcov & Hmin & He)];
    rewrite He in H; ok_inv. by exists rate, T.
Qed.

(** The slack left in the total: zero unless the total before was refused
    only because some capture would have been empty. *)
Lemma remaining_exact cs rate S T :
  schedule_ok cs → 0 ≤ rate ≤ Tax.BASIS_POINTS → 0 ≤ S → 0 < T →
  covers S rate cs T → ¬ covers S rate cs (T - 1) →
  Forall (λ cg, 0 < cg.2) (allocateGrossMinor (T - 1) cs) →
  Tax.net_of_gross rate T - feesOf T cs = S.
Proof.
  intros Hok Hr HS HT (_ & _ & Hcov) Hnot Hpos.
  pose proof (remaining_step cs Hok rate Hr (T - 1) ltac:(lia)) as Hstep.
  replace (T - 1 + 1) with T in Hstep by lia.
  destruct (Z.le_gt_cases S (Tax.net_of_gross rate (T - 1) - feesOf (T - 1) cs)); [|lia].
  exfalso. apply Hnot. split; [done|]. lia.
Qed.
End Payment.

(** ** Properties *)

(** C33: the gross-up is exact and minimal.  The total
    [grossUpPaymentSchedule] returns covers the subtotal: every capture is
    positive and what is left of the total after VAT and fees reaches the
    subtotal.  No smaller total does, although the test is not monotone in
    the total and the code only searches a window of candidates. *)
Theorem grossUpPaymentSchedule_least (subtotal : Money.t)
    (captures : list Payment.PaymentScheduleCapture) (policy : Tax.SellerTaxPolicy)
    (r : Payment.PaymentScheduleGrossUp) :
  Money.wf subtotal → Forall (λ c, Money.wf (Payment.feeFixed c)) captures →
  Payment.grossUpPaymentSchedule subtotal captures policy = Ok r →
  let T := Money.minorUnits (Payment.contractTotal r) in
  let accepts t := Payment.satisfies (Money.minorUnits subtotal) t captures policy
    (Money.currency subtotal) in
  0 ≤ T ∧ accepts T = Ok true ∧ ∀ t, 0 ≤ t < T → accepts t = Ok false.
Proof.
  intros Hm Hf H. destruct (Payment.grossUp_Ok _ _ _ _ Hm Hf H)
    as (rate & T & Hp & Hok & _ & HT & Hcov & Hmin & ->). destruct Hm as [_ Hc]. cbn. split_and!; [done| |].
  - rewrite (Payment.satisfies_eq _ _ _ _ rate) by done. by rewrite bool_decide_eq_true_2.
  - intros t Ht. rewrite (Payment.satisfies_eq _ _ _ _ rate) by (done || lia).
    rewrite bool_decide_eq_false_2; [done|]. by apply Hmin.
Qed.

(** A one-capture schedule: 1.5 % and 1 CZK at the provider. *)
Definition example_full : Payment.PaymentScheduleCapture :=
  Payment.mkCapture (js "full") (IntNum 0) Payment.FULL (IntNum 10000) (IntNum 150)
    (Money.mk 100 (js "CZK")).
Definition example_vat : Tax.SellerTaxPolicy := Tax.mkPolicy Tax.VAT_PAYER (IntNum 2100).

Lemma example_fees : Forall (λ c, Money.wf (Payment.feeFixed c)) [example_full].
Proof. constructor; [apply (Money.CZK_wf 100); lia|constructor]. Qed.

Lemma grossUpPaymentSchedule_least_witness :
  Payment.satisfies 10001 12447 [example_full] example_vat (js "CZK") = Ok false.
Proof.
  assert (H : ∃ r, Payment.grossUpPaymentSchedule (Money.mk 10001 (js "CZK")) [example_full] example_vat
    = Ok r ∧ Payment.contractTotal r = Money.mk 12448 (js "CZK"))
    by (eexists; split; vm_compute; reflexivity).
  destruct H as (r & H & HT).
  destruct (grossUpPaymentSchedule_least _ _ _ _ (Money.CZK_wf 10001 ltac:(lia)) example_fees H)
    as (_ & _ & Hmin). rewrite HT in Hmin. apply Hmin. cbn. lia.
Defined.

(** The parts of a grossed-up price reconcile.  The
    captures add up to the contract total and their fees to the payment fee,
    each fee being the capture's percentage rounded up plus its fixed part;
    they are listed in sequence order; net and VAT make up the total; and
    what the net leaves after the fees is at least the subtotal, and exactly
    the subtotal whenever one unit less would still give every capture a
    positive amount. *)
Theorem grossUpPaymentSchedule_reconciles (subtotal : Money.t)
    (captures : list Payment.PaymentScheduleCapture) (policy : Tax.SellerTaxPolicy)
    (r : Payment.PaymentScheduleGrossUp) :
  Money.wf subtotal → Forall (λ c, Money.wf (Payment.feeFixed c)) captures →
  Payment.grossUpPaymentSchedule subtotal captures policy = Ok r →
  let T := Money.minorUnits (Payment.contractTotal r) in
  let net := Money.minorUnits (Tax.net (Payment.tax r)) in
  let vat := Money.minorUnits (Tax.vat (Payment.tax r)) in
  let fees := Money.minorUnits (Payment.paymentFee r) in
  sum_by (Money.minorUnits ∘ Payment.gross) (Payment.captures r) = T
  ∧ sum_by (Money.minorUnits ∘ Payment.fee) (Payment.captures r) = fees
  ∧ StronglySorted (λ a b, num (Payment.gross_sequence a) ≤ num (Payment.gross_sequence b))
      (Payment.captures r)
  ∧ Forall (λ c, ∃ d, d ∈ captures ∧ Payment.gross_id c = Payment.id d
      ∧ 0 ≤ Money.minorUnits (Payment.gross c)
      ∧ Money.minorUnits (Payment.fee c) =
          Arith.cdiv (Money.minorUnits (Payment.gross c) * num (Payment.feeRateBasisPoints d))
            Payment.SHARE_BASIS_POINTS + Money.minorUnits (Payment.feeFixed d)) (Payment.captures r)
  ∧ net + vat = T
  ∧ Money.minorUnits subtotal ≤ net - fees
  ∧ (0 < T → (∀ e, Payment.evaluateTotal (T - 1) captures = Ok e →
        Forall (λ c, 0 < Payment.grossMinor c) e) →
      net - fees = Money.minorUnits subtotal).
Proof.
  intros Hm Hf H. destruct (Payment.grossUp_Ok _ _ _ _ Hm Hf H)
    as (rate & T & (_ & Hr & _) & Hok & _ & HT & Hcov & Hmin & ->).
  unfold Payment.grossUpAt. cbn [Payment.contractTotal Payment.tax Payment.paymentFee
    Payment.captures Money.minorUnits Tax.net Tax.vat]. cbv zeta.
  set (l := js_sort _ _).
  assert (l ≡ₚ Payment.evaluated T captures) as Hperm by apply js_sort_perm.
  rewrite !sum_by_fmap, !(sum_by_proper _ _ _ Hperm). split_and!.
  - by apply Payment.grossed_evaluated.
  - apply Payment.feesOf_evaluated.
  - eapply (StronglySorted_fmap _ (λ a b : Payment.GrossCaptureMinor,
      Payment.compareCaptureTie (Payment.definition a) (Payment.definition b) ≤ 0)).
    + intros a b. apply Payment.compareCaptureTie_le.
    + apply js_sort_sorted. exact (contramap_comparator Payment.definition _ _).
  - apply Forall_fmap, Forall_forall. intros e He. cbn. rewrite Hperm in He.
    destruct (Payment.evaluated_nonneg T captures e Hok HT He) as (? & ? & _ & ? & _).
    by exists (Payment.definition e).
  - unfold Tax.net_of_gross. lia.
  - by destruct Hcov as (_ & _ & ?).
  - intros HT0 Hpos. apply (Payment.remaining_exact captures rate); try done; [apply Hm|apply Hmin; lia|].
    specialize (Hpos _ (Payment.evaluateTotal_eq captures (T - 1) Hok ltac:(lia))).
    rewrite Forall_fmap in Hpos. exact Hpos.
Qed.

Lemma grossUpPaymentSchedule_reconciles_witness :
  ∃ r, Payment.grossUpPaymentSchedule (Money.mk 10001 (js "CZK")) [example_full] example_vat = Ok r
  ∧ Money.minorUnits (Tax.net (Payment.tax r)) - Money.minorUnits (Payment.paymentFee r) = 10001.
Proof.
  assert (H : ∃ r, Payment.grossUpPaymentSchedule (Money.mk 10001 (js "CZK")) [example_full] example_vat
    = Ok r ∧ Payment.contractTotal r = Money.mk 12448 (js "CZK"))
    by (eexists; split; vm_compute; reflexivity).
  destruct H as (r & H & HT). exists r. split; [exact H|].
  destruct (grossUpPaymentSchedule_reconciles _ _ _ _ (Money.CZK_wf 10001 ltac:(lia)) example_fees H)
    as (_ & _ & _ & _ & _ & _ & Hexact). rewrite HT in Hexact. apply Hexact; [cbn; lia|].
  vm_compute. intros e [= <-]. repeat constructor.
Defined.

(** C34: the gross-up terminates with a total for every schedule
    and policy its validations accept, unless the rates leave no usable
    search window: it then throws [INVALID_ARGUMENT].  In particular the loop
    never runs past its window, so the last check of the function ("cannot
    cover the requested subtotal") never fires. *)
Theorem grossUpPaymentSchedule_total (subtotal : Money.t)
    (captures : list Payment.PaymentScheduleCapture) (policy : Tax.SellerTaxPolicy) :
  Money.wf subtotal → Forall (λ c, Money.wf (Payment.feeFixed c)) captures →
  Payment.validateSchedule subtotal captures = Ok () →
  Tax.validateSellerTaxPolicy policy = Ok () →
  let window first guaranteed :=
    Payment.candidateRange (Money.minorUnits subtotal) captures policy = Ok (first, guaranteed)
    ∧ guaranteed - first + 1 ≤ Payment.MAX_EXACT_GROSS_UP_CANDIDATES in
  ((∃ first guaranteed, window first guaranteed) ∧
    ∃ r, Payment.grossUpPaymentSchedule subtotal captures policy = Ok r
      ∧ ∀ first guaranteed, window first guaranteed →
          first ≤ Money.minorUnits (Payment.contractTotal r) ≤ guaranteed)
  ∨ (¬ (∃ first guaranteed, window first guaranteed) ∧
     Payment.grossUpPaymentSchedule subtotal captures policy = Throw (DomainError INVALID_ARGUMENT)).
Proof.
  intros Hm Hf Hs [rate Hp]%Tax.validateSellerTaxPolicy_Ok window.
  destruct (Payment.validateSchedule_Ok _ _ _ Hm Hf Hs) as [Hok _].
  destruct (Payment.candidateRange_spec _ captures policy rate (proj1 Hm) Hok Hp) as [Hneg Hpos].
  destruct (Payment.grossUp_cases subtotal captures policy rate Hm Hf Hs Hp)
    as [[He Hno]|([Hsl Hw] & T & HT & Hcov & Hmin & He)].
  - right. split; [|done]. intros (first & g & Hr & Hle). apply Hno. split.
    + destruct (Z.le_gt_cases (Payment.slope rate captures) 0) as [Hsl|]; [|lia].
      rewrite (Hneg Hsl) in Hr. discriminate Hr.
    + intros ?? Hr'. rewrite Hr in Hr'. by ok_inv.
  - left. destruct (Hpos Hsl) as (first & g & Hr & _ & Hg0 & Hlow & Hg).
    split; [exists first, g; split; [done|by apply Hw]|].
    eexists. split; [done|]. intros f' g' [Hr' _]. rewrite Hr in Hr'. injection Hr' as <- <-. cbn.
    split; [by apply Hlow|]. destruct (Z.le_gt_cases T g) as [|Hlt]; [done|].
    exfalso. by apply (Hmin g).
Qed.

Lemma grossUpPaymentSchedule_total_witness :
  ∃ r, Payment.grossUpPaymentSchedule (Money.mk 10001 (js "CZK")) [example_full] example_vat = Ok r.
Proof.
  destruct (grossUpPaymentSchedule_total (Money.mk 10001 (js "CZK")) [example_full] example_vat)
    as [(_ & r & Hr & _)|(Hno & _)].
  - apply Money.CZK_wf. lia.
  - apply example_fees.
  - vm_compute. reflexivity.
  - vm_compute. reflexivity.
  - exists r. exact Hr.
  - exfalso. apply Hno. do 2 eexists. split; [vm_compute; reflexivity|]. vm_compute. discriminate.
Defined.
