(* ===== verification/LockOrder.v ===== *)
(** The acquisition order of row locks (transactions/lock-order.ts), and what
    it is for: transactions that take their locks in this order never
    deadlock. *)
From S2P Require Import Prelude Text.

Module LockOrder.

Inductive LockTargetKind :=
| idempotency_record | provider_event | legal_document | commercial_policy_selection
| quote_request | order | order_phase | fulfilment_slot | claim | claim_slot_resolution
| job | shipment | shipment_plan | payment | refund_transaction | component_allocation
| price_snapshot | eligibility_snapshot | phase_resource_plan | candidate_resource_estimate
| machine_profile | machine | machine_calibration | inventory | candidate_capacity_interval
| phase_reservation_set | production_reservation | inventory_reservation | capacity_reservation.

#[global] Instance LockTargetKind_eq_dec : EqDecision LockTargetKind.
Proof. solve_decision. Defined.

(** The values of [lockTargetRank]. *)
Definition lockTargetRank (k : LockTargetKind) : Z :=
  match k with
  | idempotency_record => 0
  | provider_event => 0
  | legal_document => 1
  | commercial_policy_selection => 2
  | quote_request => 3
  | order => 3
  | order_phase => 4
  | fulfilment_slot => 5
  | claim => 6
  | claim_slot_resolution => 6
  | job => 7
  | shipment => 7
  | shipment_plan => 7
  | payment => 8
  | refund_transaction => 8
  | component_allocation => 9
  | price_snapshot => 9
  | eligibility_snapshot => 9
  | phase_resource_plan => 9
  | candidate_resource_estimate => 10
  | machine_profile => 11
  | machine => 12
  | machine_calibration => 13
  | inventory => 14
  | candidate_capacity_interval => 15
  | phase_reservation_set => 16
  | production_reservation => 17
  | inventory_reservation => 18
  | capacity_reservation => 19
  end.

(** The keys of [lockTargetRank]: a kind is its own name in the source. *)
Definition kindName (k : LockTargetKind) : jstr :=
  js match k with
  | idempotency_record => "idempotency_record"
  | provider_event => "provider_event"
  | legal_document => "legal_document"
  | commercial_policy_selection => "commercial_policy_selection"
  | quote_request => "quote_request"
  | order => "order"
  | order_phase => "order_phase"
  | fulfilment_slot => "fulfilment_slot"
  | claim => "claim"
  | claim_slot_resolution => "claim_slot_resolution"
  | job => "job"
  | shipment => "shipment"
  | shipment_plan => "shipment_plan"
  | payment => "payment"
  | refund_transaction => "refund_transaction"
  | component_allocation => "component_allocation"
  | price_snapshot => "price_snapshot"
  | eligibility_snapshot => "eligibility_snapshot"
  | phase_resource_plan => "phase_resource_plan"
  | candidate_resource_estimate => "candidate_resource_estimate"
  | machine_profile => "machine_profile"
  | machine => "machine"
  | machine_calibration => "machine_calibration"
  | inventory => "inventory"
  | candidate_capacity_interval => "candidate_capacity_interval"
  | phase_reservation_set => "phase_reservation_set"
  | production_reservation => "production_reservation"
  | inventory_reservation => "inventory_reservation"
  | capacity_reservation => "capacity_reservation"
  end%string.

Record LockTarget := mkTarget {
  kind : LockTargetKind;
  id : jstr;
  nodeId : option jstr;
}.

#[global] Instance LockTarget_eq_dec : EqDecision LockTarget.
Proof. solve_decision. Defined.

(** Membership in the set [nodeScopedKinds]. *)
Definition nodeScoped (k : LockTargetKind) : bool :=
  match k with
  | job | candidate_resource_estimate | candidate_capacity_interval | machine_calibration
  | inventory | machine | eligibility_snapshot | phase_resource_plan | phase_reservation_set
  | inventory_reservation | capacity_reservation | production_reservation => true
  | _ => false
  end.

Definition canonicalIdentity (target : LockTarget) : jstr :=
  let components := [
    kindName (kind target);
    (if nodeScoped (kind target) then default [] (nodeId target) else []);
    id target] in
  join (js "|") (lengthPrefixed <$> components).

(** The body of the validating loop. *)
Definition checkTarget (identities : gset jstr) (target : LockTarget) : result (gset jstr) :=
  throw_when (blank (id target)) (DomainError INVALID_ARGUMENT) ;;
  throw_when (nodeScoped (kind target)
    && match nodeId target with None => true | Some n => blank n end)
    (DomainError INVALID_ARGUMENT) ;;
  throw_when (negb (nodeScoped (kind target)) && bool_decide (nodeId target ≠ None))
    (DomainError INVALID_ARGUMENT) ;;
  let identity := canonicalIdentity target in
  throw_when (bool_decide (identity ∈ identities)) (DomainError INVALID_ARGUMENT) ;;
  Ok ({[identity]} ∪ identities).

Definition compareTargets (left right : LockTarget) : Z :=
  let rank := lockTargetRank (kind left) - lockTargetRank (kind right) in
  if negb (rank =? 0) then rank
  else
    let leftIdentity := canonicalIdentity left in
    let rightIdentity := canonicalIdentity right in
    if str_ltb leftIdentity rightIdentity then -1
    else if str_ltb rightIdentity leftIdentity then 1 else 0.

Definition orderLockTargets (targets : list LockTarget) : result (list LockTarget) :=
  foldM checkTarget ∅ targets ;;
  Ok (js_sort compareTargets targets).

(** ** Specification *)

(** A target the validation accepts. *)
Definition target_wf (t : LockTarget) : Prop :=
  blank (id t) = false
  ∧ if nodeScoped (kind t) then ∃ n, nodeId t = Some n ∧ blank n = false else nodeId t = None.

Definition targets_wf (targets : list LockTarget) : Prop :=
  Forall target_wf targets ∧ NoDup targets.

(** The strict order in which locks are taken. *)
Definition before (t u : LockTarget) : Prop := compareTargets t u < 0.

(** ** Facts *)

Lemma kindName_inj k k' : kindName k = kindName k' → k = k'.
Proof. intros H. destruct k; destruct k'; first [reflexivity | vm_compute in H; discriminate H]. Qed.

(** The text of an identity determines the target. *)
Lemma canonicalIdentity_inj t u :
  target_wf t → target_wf u → canonicalIdentity t = canonicalIdentity u → t = u.
Proof.
  destruct t as [k i n], u as [k' i' n']. unfold canonicalIdentity, target_wf. cbn [kind id nodeId].
  cbn [fmap list_fmap join]. intros [_ Ht] [_ Hu] Heq.
  apply lengthPrefixed_cut in Heq as [Hk Heq]. apply kindName_inj in Hk as <-.
  cbn in Heq. injection Heq as Heq. apply lengthPrefixed_cut in Heq as [Hn Heq].
  cbn in Heq. injection Heq as Heq. apply (inj lengthPrefixed) in Heq as <-. f_equal.
  destruct (nodeScoped k); [|by rewrite Ht, Hu].
  destruct Ht as (m & -> & _), Hu as (m' & -> & _). cbn in Hn. congruence.
Qed.

#[export] Instance compareTargets_comparator : Comparator compareTargets.
Proof.
  apply (comparator_ext _ (λ l r, js_or (lockTargetRank (kind l) - lockTargetRank (kind r))
    (compareStrings (canonicalIdentity l) (canonicalIdentity r)))); [|apply _].
  intros l r. unfold compareTargets, js_or, compareStrings. by destruct (_ =? 0).
Qed.

Lemma compareTargets_0 t u :
  target_wf t → target_wf u → compareTargets t u = 0 → t = u.
Proof.
  intros Ht Hu H. apply canonicalIdentity_inj; [done..|]. apply compareStrings_0.
  unfold compareTargets, compareStrings in *. by destruct (Z.eqb_spec (lockTargetRank (kind t) - lockTargetRank (kind u)) 0).
Qed.

Lemma before_irrefl t : ¬ before t t.
Proof. unfold before. rewrite cmp_refl. lia. Qed.

Lemma before_trans t u v : before t u → before u v → before t v.
Proof.
  unfold before. intros H1 H2. pose proof (cmp_trans (cmp := compareTargets) t u v ltac:(lia) ltac:(lia)).
  destruct (decide (compareTargets t v = 0)) as [H0|]; [|lia].
  apply cmp_eq_sym in H0. pose proof (cmp_trans (cmp := compareTargets) u v t ltac:(lia) ltac:(lia)) as Hut.
  apply cmp_antisym in Hut. lia.
Qed.

Lemma before_total t u : target_wf t → target_wf u → t ≠ u → before t u ∨ before u t.
Proof.
  unfold before. intros Ht Hu Hne.
  destruct (decide (compareTargets t u = 0)) as [H0|H0].
  - by apply compareTargets_0 in H0.
  - destruct (decide (compareTargets t u < 0)); [by left|right].
    destruct (decide (compareTargets u t < 0)); [done|].
    assert (compareTargets t u ≤ 0) by (apply cmp_antisym; lia). lia.
Qed.

Lemma lockTarget_Ok s t s' :
  checkTarget s t = Ok s' ↔
    target_wf t ∧ canonicalIdentity t ∉ s ∧ s' = {[canonicalIdentity t]} ∪ s.
Proof.
  unfold checkTarget, target_wf. split.
  - intros H. ok_inv. destruct (blank (id t)); [done|]. bool_inv.
    destruct (nodeScoped (kind t)), (nodeId t) as [n|]; cbn in *; try done; bool_inv; try done; eauto 10.
  - intros ((Hb & Hn) & Hs & ->). rewrite Hb, (bool_decide_eq_false_2 _ Hs).
    destruct (nodeScoped (kind t)); [destruct Hn as (n & -> & Hn); by rewrite Hn|by rewrite Hn].
Qed.

Lemma NoDup_identities targets :
  Forall target_wf targets → NoDup (canonicalIdentity <$> targets) ↔ NoDup targets.
Proof.
  intros HF. split; [apply NoDup_fmap_1|]. intros HN. apply NoDup_fmap_2_strong; [|done].
  rewrite Forall_forall in HF. intros t u Ht Hu. apply canonicalIdentity_inj; auto.
Qed.

Lemma validates targets s :
  foldM checkTarget ∅ targets = Ok s ↔
    targets_wf targets ∧ s = list_to_set (canonicalIdentity <$> targets) ∪ ∅.
Proof.
  rewrite (foldM_unique checkTarget canonicalIdentity _ lockTarget_Ok). unfold targets_wf. split.
  - intros (HF & HN & _ & ->). by apply NoDup_identities in HN.
  - intros ((HF & HN) & ->). split_and!; [done|by apply NoDup_identities|set_solver|done].
Qed.

Lemma orderLockTargets_Ok targets r :
  orderLockTargets targets = Ok r ↔ targets_wf targets ∧ r = js_sort compareTargets targets.
Proof.
  unfold orderLockTargets. rewrite bind_Ok. setoid_rewrite validates. split.
  - intros (? & (? & _) & ?). by ok_inv.
  - intros (? & ->). by eexists.
Qed.

Lemma targets_wf_perm targets targets' : targets ≡ₚ targets' → targets_wf targets → targets_wf targets'.
Proof. intros Hp [HF HN]. unfold targets_wf. by rewrite <-!Hp. Qed.

(** The result lists each target once, in strictly increasing order. *)
Lemma ordered_strictly targets :
  targets_wf targets → StronglySorted before (js_sort compareTargets targets).
Proof.
  intros Hwf. pose proof (targets_wf_perm _ _ (symmetry (js_sort_perm compareTargets targets)) Hwf) as [HF HN].
  pose proof (js_sort_sorted compareTargets targets) as Hs.
  induction Hs as [|t l Hl IH Ht]; [constructor|].
  apply Forall_cons in HF as [Hwt HF]. apply NoDup_cons in HN as [Hnt HN].
  constructor; [by apply IH|]. rewrite Forall_forall in Ht, HF |- *. intros u Hu. unfold before.
  pose proof (Ht u Hu). destruct (decide (compareTargets t u = 0)) as [H0|]; [|lia].
  apply compareTargets_0 in H0 as ->; [done|done|auto].
Qed.

Lemma before_rank t u : before t u → lockTargetRank (kind t) ≤ lockTargetRank (kind u).
Proof.
  unfold before, compareTargets.
  destruct (Z.eqb_spec (lockTargetRank (kind t) - lockTargetRank (kind u)) 0); cbn; lia.
Qed.
End LockOrder.

(** ** Transactions that lock in this order *)

Module Locking.
Import LockOrder.

(** A transaction: the locks it holds and those it has still to take. *)
Record txn := mkTxn {
  held : list LockTarget;
  pending : list LockTarget;
}.

Definition idle (t : txn) : Prop := held t = [] ∧ pending t = [].

(** A request starts by asking for the acquisition order. *)
Definition starts (requests : list (list LockTarget)) : result (list txn) :=
  traverse (λ targets, r ← orderLockTargets targets; Ok (mkTxn [] r)) requests.

(** Exclusive locks: a transaction takes its next target when no other one
    holds it, and releases everything when it ends. *)
Inductive step : list txn → list txn → Prop :=
| step_acquire ts i h t rest :
    ts !! i = Some (mkTxn h (t :: rest)) →
    (∀ j u, j ≠ i → ts !! j = Some u → t ∉ held u) →
    step ts (<[i := mkTxn (h ++ [t]) rest]> ts)
| step_end ts i h :
    ts !! i = Some (mkTxn h []) → h ≠ [] →
    step ts (<[i := mkTxn [] []]> ts).

(** What holds in every state reached from ordered requests. *)
Definition ordered (ts : list txn) : Prop :=
  Forall (λ t, StronglySorted before (held t ++ pending t)) ts.

(** No lock is held twice. *)
Definition exclusive (ts : list txn) : Prop :=
  ∀ i j u v t, ts !! i = Some u → ts !! j = Some v → t ∈ held u → t ∈ held v → i = j.

(** The steps left. *)
Definition remaining (ts : list txn) : Z :=
  sum_by (λ t, 2 * Z.of_nat (length (pending t)) + Z.of_nat (length (held t))) ts.

Lemma starts_ordered requests ts :
  starts requests = Ok ts → ordered ts ∧ exclusive ts.
Proof.
  unfold starts. rewrite traverse_Ok. intros H.
  assert (Forall (λ t, held t = [] ∧ StronglySorted before (held t ++ pending t)) ts) as HF.
  { apply Forall_forall. intros t Ht. apply list_elem_of_lookup in Ht as [i Hi].
    destruct (Forall2_lookup_r _ _ _ _ _ H Hi) as (targets & _ & Hb). ok_inv.
    match goal with H : orderLockTargets _ = _ |- _ => apply orderLockTargets_Ok in H as [? ->] end.
    split; [done|]. by apply ordered_strictly. }
  rewrite Forall_forall in HF. split.
  - apply Forall_forall. intros t Ht. by apply HF.
  - intros i j u v t Hu _ Htu. apply list_elem_of_lookup_2 in Hu. destruct (HF u Hu) as [Hnil _].
    rewrite Hnil in Htu. by apply not_elem_of_nil in Htu.
Qed.

Lemma step_ordered ts ts' : step ts ts' → ordered ts → ordered ts'.
Proof.
  unfold ordered. intros [ts1 i h t rest Hi _|ts1 i h Hi _] H; apply Forall_insert; try done.
  - rewrite Forall_forall in H. specialize (H _ (list_elem_of_lookup_2 _ _ _ Hi)). cbn in *.
    by rewrite <-app_assoc.
  - constructor.
Qed.

Lemma step_exclusive ts ts' : step ts ts' → exclusive ts → exclusive ts'.
Proof.
  intros [ts1 i h t rest Hi Hfree|ts1 i h Hi _] H j k u v x
    [(<- & <- & _)|[Hj Hu]]%list_lookup_insert_Some [(<- & <- & _)|[Hk Hv]]%list_lookup_insert_Some;
    cbn [held]; try done.
  - intros [Hx| ->%list_elem_of_singleton]%elem_of_app Hxv; [by eapply (H i k)|].
    by eapply Hfree in Hv.
  - intros Hxu [Hx| ->%list_elem_of_singleton]%elem_of_app; [by eapply (H j i)|].
    by eapply Hfree in Hu.
  - by apply (H j k).
  - by intros []%not_elem_of_nil.
  - by intros _ []%not_elem_of_nil.
  - by apply (H j k).
Qed.

Lemma remaining_insert ts i u v :
  ts !! i = Some u →
  remaining (<[i := v]> ts) = remaining ts - remaining [u] + remaining [v].
Proof.
  intros Hi. unfold remaining. rewrite <-(take_drop_middle ts i u Hi) at 2.
  rewrite insert_take_drop by (by eapply lookup_lt_Some).
  rewrite !sum_by_app, !sum_by_cons. rewrite sum_by_nil. lia.
Qed.

Lemma step_remaining ts ts' : step ts ts' → remaining ts' < remaining ts.
Proof.
  intros [ts1 i h t rest Hi _|ts1 i h Hi Hne]; rewrite (remaining_insert _ _ _ _ Hi);
    unfold remaining; rewrite !sum_by_cons, !sum_by_nil; cbn [pending held length].
  - rewrite length_app. cbn [length]. lia.
  - destruct h; [done|]. cbn [length]. lia.
Qed.

Lemma remaining_nonneg ts : 0 ≤ remaining ts.
Proof. apply sum_by_nonneg. lia. Qed.

Lemma last_target (l : list LockTarget) : l ≠ [] → ∃ m, m ∈ l ∧ ∀ x, x ∈ l → ¬ before m x.
Proof.
  induction l as [|h l IH]; [done|]. intros _. destruct (decide (l = [])) as [->|Hne].
  - exists h. split; [by left|]. intros x ->%list_elem_of_singleton. apply before_irrefl.
  - destruct (IH Hne) as (m & Hm & Hmax).
    destruct (decide (compareTargets m h < 0)) as [Hlt|Hlt].
    + exists h. split; [by left|]. intros x [->|Hx]%elem_of_cons; [apply before_irrefl|].
      intros Hhx. apply (Hmax x Hx). by apply (before_trans m h x).
    + exists m. split; [by right|]. intros x [->|Hx]%elem_of_cons; [done|auto].
Qed.

(** Someone can always move: of all the targets waited for, the one that
    comes last cannot be held by a transaction that waits for another. *)
Lemma ordered_progress ts :
  ordered ts → (∃ t, t ∈ ts ∧ ¬ idle t) → ∃ ts', step ts ts'.
Proof.
  intros Hord (t0 & Ht0 & Hbusy). unfold ordered in Hord. rewrite Forall_forall in Hord.
  destruct (decide (Exists (λ t, pending t = [] ∧ held t ≠ []) ts)) as [He|Hn].
  { apply Exists_exists in He as ([h p] & Hin & Hp & Hh). cbn in *. subst p.
    apply list_elem_of_lookup in Hin as [i Hi]. eexists. by eapply step_end. }
  assert (∀ t, t ∈ ts → held t ≠ [] → pending t ≠ []) as Hwait.
  { intros t Ht Hh Hp. apply Hn, Exists_exists. eauto. }
  set (waited := omap (head ∘ pending) ts).
  assert (∀ t x p, t ∈ ts → pending t = x :: p → x ∈ waited) as Hwaited.
  { intros t x p Ht Hp. apply list_elem_of_omap. exists t. split; [done|]. cbn. by rewrite Hp. }
  destruct (last_target waited) as (m & Hm & Hmax).
  { destruct t0 as [h p]. destruct p as [|x p].
    - exfalso. apply (Hwait _ Ht0); [|done]. cbn. intros ->. by apply Hbusy.
    - intros Hnil. specialize (Hwaited _ x p Ht0 eq_refl). rewrite Hnil in Hwaited.
      by apply not_elem_of_nil in Hwaited. }
  apply list_elem_of_omap in Hm as ([h p] & Hin & Hhead). cbn in Hhead.
  destruct p as [|x p]; [done|]. injection Hhead as ->.
  apply list_elem_of_lookup in Hin as [i Hi]. eexists. eapply (step_acquire _ i h m p); [done|].
  intros j u _ Hj Hmu. apply list_elem_of_lookup_2 in Hj.
  destruct (pending u) as [|y q] eqn:Hq; [apply (Hwait u Hj); [by destruct (held u); [apply not_elem_of_nil in Hmu|]|done]|].
  apply (Hmax y); [by eapply Hwaited|]. pose proof (Hord u Hj) as Hs. rewrite Hq in Hs.
  eapply StronglySorted_app_1_elem_of; [exact Hs|done|by left].
Qed.

Lemma run_invariant n ts ts' :
  nsteps step n ts ts' → ordered ts → exclusive ts →
  ordered ts' ∧ exclusive ts' ∧ Z.of_nat n + remaining ts' ≤ remaining ts.
Proof.
  induction 1 as [ts|n ts ts1 ts2 Hstep _ IH]; intros Hord Hex; [done|].
  destruct IH as (? & ? & ?); [by eapply step_ordered|by eapply step_exclusive|].
  pose proof (step_remaining _ _ Hstep). split_and!; [done..|lia].
Qed.

Lemma starts_remaining requests ts :
  starts requests = Ok ts → remaining ts = 2 * sum_by (λ r, Z.of_nat (length r)) requests.
Proof.
  unfold starts, remaining. rewrite traverse_Ok.
  induction 1 as [|targets t requests ts Ht _ IH]; [done|]. rewrite !sum_by_cons, IH. ok_inv.
  match goal with H : orderLockTargets _ = _ |- _ => apply orderLockTargets_Ok in H as [_ ->] end.
  cbn [pending held length]. rewrite (Permutation_length (js_sort_perm compareTargets targets)). lia.
Qed.
End Locking.

(** ** Properties *)

(** [orderLockTargets] returns exactly when every target is valid and no
    target is repeated; the result is the same whatever order the targets are
    given in, lists each of them once, and is strictly increasing, first by
    the rank of the kind. *)
Theorem orderLockTargets_canonical (targets targets' : list LockOrder.LockTarget) :
  targets ≡ₚ targets' →
  (LockOrder.targets_wf targets ↔ ∃ r, LockOrder.orderLockTargets targets = Ok r)
  ∧ ∀ r, LockOrder.orderLockTargets targets = Ok r →
      LockOrder.orderLockTargets targets' = Ok r
      ∧ r ≡ₚ targets
      ∧ StronglySorted (λ t u, LockOrder.lockTargetRank (LockOrder.kind t)
          ≤ LockOrder.lockTargetRank (LockOrder.kind u)) r
      ∧ StronglySorted LockOrder.before r.
Proof.
  intros Hp. split.
  { split; [intros; eexists; by apply LockOrder.orderLockTargets_Ok|].
    intros [r [H _]%LockOrder.orderLockTargets_Ok]. done. }
  intros r [Hwf ->]%LockOrder.orderLockTargets_Ok.
  pose proof (LockOrder.ordered_strictly _ Hwf) as Hs. split_and!.
  - apply LockOrder.orderLockTargets_Ok. split; [by eapply LockOrder.targets_wf_perm|].
    apply js_sort_unique; [apply LockOrder.compareTargets_comparator| |done].
    destruct Hwf as [HF _]. rewrite Forall_forall in HF.
    intros x y Hx Hy. apply LockOrder.compareTargets_0; auto.
  - apply js_sort_perm.
  - eapply sorted_mono; [|exact Hs]. intros t u. apply LockOrder.before_rank.
  - done.
Qed.

Lemma orderLockTargets_canonical_witness :
  let payment := LockOrder.mkTarget LockOrder.payment (js "p1") None in
  let order := LockOrder.mkTarget LockOrder.order (js "o1") None in
  let job := LockOrder.mkTarget LockOrder.job (js "j1") (Some (js "node")) in
  LockOrder.orderLockTargets [job; payment; order] = Ok [order; job; payment].
Proof.
  apply (orderLockTargets_canonical
    [LockOrder.mkTarget LockOrder.payment (js "p1") None;
     LockOrder.mkTarget LockOrder.job (js "j1") (Some (js "node"));
     LockOrder.mkTarget LockOrder.order (js "o1") None]).
  - apply Permutation_swap.
  - vm_compute. reflexivity.
Defined.

(** C38: transactions that take their locks in the order
    [orderLockTargets] gives never deadlock.  In every state reachable from
    any set of accepted requests no lock is held twice and, while some
    transaction is not done, some transaction can move; and every run ends
    within two steps per target and transaction. *)
Theorem ordered_locking_deadlock_free (requests : list (list LockOrder.LockTarget))
    (ts ts' : list Locking.txn) (n : nat) :
  Locking.starts requests = Ok ts → nsteps Locking.step n ts ts' →
  Locking.exclusive ts'
  ∧ ((∃ t, t ∈ ts' ∧ ¬ Locking.idle t) → ∃ ts'', Locking.step ts' ts'')
  ∧ Z.of_nat n ≤ 2 * sum_by (λ r, Z.of_nat (length r)) requests.
Proof.
  intros Hs Hrun. destruct (Locking.starts_ordered _ _ Hs) as [Hord Hex].
  destruct (Locking.run_invariant _ _ _ Hrun Hord Hex) as (Hord' & Hex' & Hle).
  split; [done|]. split; [by apply Locking.ordered_progress|].
  rewrite <-(Locking.starts_remaining _ _ Hs). pose proof (Locking.remaining_nonneg ts'). lia.
Qed.

Lemma ordered_locking_deadlock_free_witness :
  let a := LockOrder.mkTarget LockOrder.order (js "a") None in
  let b := LockOrder.mkTarget LockOrder.payment (js "b") None in
  Locking.exclusive [Locking.mkTxn [a] [b]; Locking.mkTxn [] [a; b]].
Proof.
  intros a b. eapply (ordered_locking_deadlock_free [[a; b]; [b; a]] _ _ 1).
  - vm_compute. reflexivity.
  - eapply nsteps_once. refine (Locking.step_acquire _ 0 [] a [b] _ _); [reflexivity|].
    intros j u Hj Hu. destruct j as [|[|j]]; [done|..|done].
    injection Hu as <-. apply not_elem_of_nil.
Defined.
