(* ===== verification/Digest.v ===== *)
(** SHA-256 as primitives/digest.ts computes it, with the 32-bit bitwise
    operators of JavaScript numbers and the code's typed arrays, and its
    refinement to the definition of FIPS 180-4. *)
From S2P Require Import Prelude Text.

(** ** The language's 32-bit operators *)

Definition W32 : Z := 4294967296.

Definition toUint32 (z : Z) : Z := z `mod` W32.
Definition toInt32 (z : Z) : Z :=
  let u := toUint32 z in if u <? 2147483648 then u else u - W32.

Definition bit_or (a b : Z) : Z := Z.lor (toInt32 a) (toInt32 b).
Definition bit_xor (a b : Z) : Z := Z.lxor (toInt32 a) (toInt32 b).
Definition bit_and (a b : Z) : Z := Z.land (toInt32 a) (toInt32 b).
Definition bit_not (a : Z) : Z := Z.lnot (toInt32 a).
(** Shifts by a literal distance below 32. *)
Definition bit_shl (a n : Z) : Z := toInt32 (Z.shiftl (toInt32 a) n).
Definition bit_ushr (a n : Z) : Z := Z.shiftr (toUint32 a) n.

(** ** [TextEncoder.encode]: UTF-8, a lone surrogate becoming U+FFFD *)

Definition utf8_code_point (c : Z) : list Z :=
  if c <? 128 then [c]
  else if c <? 2048 then [192 + c / 64; 128 + c `mod` 64]
  else if c <? 65536 then [224 + c / 4096; 128 + (c / 64) `mod` 64; 128 + c `mod` 64]
  else [240 + c / 262144; 128 + (c / 4096) `mod` 64; 128 + (c / 64) `mod` 64; 128 + c `mod` 64].

Definition is_high_surrogate (c : Z) : bool := (55296 <=? c) && (c <=? 56319).
Definition is_low_surrogate (c : Z) : bool := (56320 <=? c) && (c <=? 57343).

Fixpoint TextEncoder_encode (s : jstr) : list Z :=
  match s with
  | [] => []
  | c :: rest =>
      if is_high_surrogate c then
        match rest with
        | d :: rest' =>
            if is_low_surrogate d
            then utf8_code_point (65536 + (c - 55296) * 1024 + (d - 56320)) ++ TextEncoder_encode rest'
            else utf8_code_point 65533 ++ TextEncoder_encode rest
        | [] => utf8_code_point 65533
        end
      else if is_low_surrogate c then utf8_code_point 65533 ++ TextEncoder_encode rest
      else utf8_code_point c ++ TextEncoder_encode rest
  end.

Module Sha256Digest.

Definition INITIAL_HASH : list Z := [
  0x6a09e667; 0xbb67ae85; 0x3c6ef372; 0xa54ff53a; 0x510e527f; 0x9b05688c;
  0x1f83d9ab; 0x5be0cd19].

Definition ROUND_CONSTANTS : list Z :=
  [0x428a2f98; 0x71374491; 0xb5c0fbcf; 0xe9b5dba5; 0x3956c25b; 0x59f111f1]
  ++ [0x923f82a4; 0xab1c5ed5; 0xd807aa98; 0x12835b01; 0x243185be; 0x550c7dc3]
  ++ [0x72be5d74; 0x80deb1fe; 0x9bdc06a7; 0xc19bf174; 0xe49b69c1; 0xefbe4786]
  ++ [0x0fc19dc6; 0x240ca1cc; 0x2de92c6f; 0x4a7484aa; 0x5cb0a9dc; 0x76f988da]
  ++ [0x983e5152; 0xa831c66d; 0xb00327c8; 0xbf597fc7; 0xc6e00bf3; 0xd5a79147]
  ++ [0x06ca6351; 0x14292967; 0x27b70a85; 0x2e1b2138; 0x4d2c6dfc; 0x53380d13]
  ++ [0x650a7354; 0x766a0abb; 0x81c2c92e; 0x92722c85; 0xa2bfe8a1; 0xa81a664b]
  ++ [0xc24b8b70; 0xc76c51a3; 0xd192e819; 0xd6990624; 0xf40e3585; 0x106aa070]
  ++ [0x19a4c116; 0x1e376c08; 0x2748774c; 0x34b0bcb5; 0x391c0cb3; 0x4ed8aa4a]
  ++ [0x5b9cca4f; 0x682e6ff3; 0x748f82ee; 0x78a5636f; 0x84c87814; 0x8cc70208]
  ++ [0x90befffa; 0xa4506ceb; 0xbef9a3f7; 0xc67178f2].

Definition rotateRight (value bits : Z) : Z :=
  bit_or (bit_ushr value bits) (bit_shl value (32 - bits)).

(** [result[result.length - 1 - index] = ...], [index] from 0 to 7. *)
Definition writeLength (bitLength : Z) (result : list Z) (index : nat) : list Z :=
  <[(length result - 1 - index)%nat :=
      Z.land (Z.shiftr bitLength (Z.of_nat index * 8)) 255]> result.

Definition padded (input : list Z) : result (list Z) :=
  let inputLength := Z.of_nat (length input) in
  let bitLength := inputLength * 8 in
  throw_when (0xffffffffffffffff <? bitLength) (DomainError INVALID_ARGUMENT) ;;
  let paddingLength := Z.rem (64 - Z.rem (inputLength + 9) 64) 64 in
  let result := replicate (Z.to_nat (inputLength + 1 + paddingLength + 8)) 0 in
  let result := input ++ drop (length input) result in
  let result := <[length input := 0x80]> result in
  Ok (foldl (writeLength bitLength) result (seq 0 8)).

(** The first loop of a block: [schedule[word]] from four bytes. *)
Definition loadWord (data : list Z) (offset : nat) (schedule : list Z) (word : nat) : list Z :=
  let index := (offset + word * 4)%nat in
  <[word := toUint32 (
      bit_or (bit_or (bit_or (bit_shl (data !!! index) 24)
                             (bit_shl (data !!! (index + 1)%nat) 16))
                     (bit_shl (data !!! (index + 2)%nat) 8))
             (data !!! (index + 3)%nat))]> schedule.

(** The second loop of a block. *)
Definition extendWord (schedule : list Z) (word : nat) : list Z :=
  let x := schedule !!! (word - 15)%nat in
  let y := schedule !!! (word - 2)%nat in
  let sigma0 := bit_xor (bit_xor (rotateRight x 7) (rotateRight x 18)) (bit_ushr x 3) in
  let sigma1 := bit_xor (bit_xor (rotateRight y 17) (rotateRight y 19)) (bit_ushr y 10) in
  <[word := toUint32 (bit_ushr (schedule !!! (word - 16)%nat + sigma0
                                + schedule !!! (word - 7)%nat + sigma1) 0)]> schedule.

(** The variables [a] to [h]. *)
Record Vars := mkVars { va : Z; vb : Z; vc : Z; vd : Z; ve : Z; vf : Z; vg : Z; vh : Z }.

Definition round (schedule : list Z) (v : Vars) (word : nat) : Vars :=
  let '(mkVars a b c d e f g h) := v in
  let sigma1 := bit_xor (bit_xor (rotateRight e 6) (rotateRight e 11)) (rotateRight e 25) in
  let choose := bit_xor (bit_and e f) (bit_and (bit_not e) g) in
  let temp1 := bit_ushr (h + sigma1 + choose + ROUND_CONSTANTS !!! word + schedule !!! word) 0 in
  let sigma0 := bit_xor (bit_xor (rotateRight a 2) (rotateRight a 13)) (rotateRight a 22) in
  let majority := bit_xor (bit_xor (bit_and a b) (bit_and a c)) (bit_and b c) in
  let temp2 := bit_ushr (sigma0 + majority) 0 in
  mkVars (bit_ushr (temp1 + temp2) 0) a b c (bit_ushr (d + temp1) 0) e f g.

(** The body of the loop over 64-byte blocks. *)
Definition processBlock (data : list Z) (state : list Z * list Z) (offset : nat)
    : list Z * list Z :=
  let '(hash, schedule) := state in
  let schedule := foldl (loadWord data offset) schedule (seq 0 16) in
  let schedule := foldl extendWord schedule (seq 16 48) in
  let v := foldl (round schedule)
    (mkVars (hash !!! 0%nat) (hash !!! 1%nat) (hash !!! 2%nat) (hash !!! 3%nat)
            (hash !!! 4%nat) (hash !!! 5%nat) (hash !!! 6%nat) (hash !!! 7%nat)) (seq 0 64) in
  let hash := <[0%nat := toUint32 (bit_ushr (hash !!! 0%nat + va v) 0)]> hash in
  let hash := <[1%nat := toUint32 (bit_ushr (hash !!! 1%nat + vb v) 0)]> hash in
  let hash := <[2%nat := toUint32 (bit_ushr (hash !!! 2%nat + vc v) 0)]> hash in
  let hash := <[3%nat := toUint32 (bit_ushr (hash !!! 3%nat + vd v) 0)]> hash in
  let hash := <[4%nat := toUint32 (bit_ushr (hash !!! 4%nat + ve v) 0)]> hash in
  let hash := <[5%nat := toUint32 (bit_ushr (hash !!! 5%nat + vf v) 0)]> hash in
  let hash := <[6%nat := toUint32 (bit_ushr (hash !!! 6%nat + vg v) 0)]> hash in
  let hash := <[7%nat := toUint32 (bit_ushr (hash !!! 7%nat + vh v) 0)]> hash in
  (hash, schedule).

(** [offset = 0; offset < data.length; offset += 64] *)
Definition blockOffsets (dataLength : nat) : list nat :=
  (λ k, k * 64)%nat <$> seq 0 ((dataLength + 63) / 64).

(** [s.padStart(n, "0")] *)
Definition padStart (n : nat) (s : jstr) : jstr := replicate (n - length s) 48 ++ s.

Record t := mk { hex : jstr }.

#[global] Instance t_eq_dec : EqDecision t.
Proof. solve_decision. Defined.

(** The characters of [/^[a-f0-9]{64}$/]. *)
Definition is_hex (c : Z) : bool := ((97 <=? c) && (c <=? 102)) || ((48 <=? c) && (c <=? 57)).

Definition parse (s : jstr) : result t :=
  throw_when (negb (forallb is_hex s && (length s =? 64)%nat)) (DomainError INVALID_ARGUMENT) ;;
  Ok (mk s).

(** [of] on a [Uint8Array]. *)
Definition of_bytes (bytes : list Z) : result t :=
  data ← padded bytes;
  let '(hash, _) :=
    foldl (processBlock data) (INITIAL_HASH, replicate 64 0) (blockOffsets (length data)) in
  Ok (mk (concat ((λ word, padStart 8 (toString 16 word)) <$> hash))).

(** [of] on a string. *)
Definition of_ (input : jstr) : result t := of_bytes (TextEncoder_encode input).

Definition equals (this other : t) : bool := str_eqb (hex this) (hex other).

Example of_abc :
  of_ (js "abc")
  = parse (js "ba7816bf8f01cfea414140de5dae2223b00361a396177a9cb410ff61f20015ad").
Proof. vm_compute. reflexivity. Qed.

Example of_empty :
  of_ [] = parse (js "e3b0c44298fc1c149afbf4c8996fb92427ae41e4649b934ca495991b7852b855").
Proof. vm_compute. reflexivity. Qed.
End Sha256Digest.

(** ** FIPS 180-4 *)

Module FIPS.

(** Addition is modulo 2^32. *)
Definition word (z : Z) : Z := z `mod` 2 ^ 32.

Definition ROTR (n x : Z) : Z := Z.lor (Z.shiftr x n) (word (Z.shiftl x (32 - n))).
Definition SHR (n x : Z) : Z := Z.shiftr x n.
Definition Ch (x y z : Z) : Z := Z.lxor (Z.land x y) (Z.land (2 ^ 32 - 1 - x) z).
Definition Maj (x y z : Z) : Z := Z.lxor (Z.lxor (Z.land x y) (Z.land x z)) (Z.land y z).
Definition Sigma0 (x : Z) : Z := Z.lxor (Z.lxor (ROTR 2 x) (ROTR 13 x)) (ROTR 22 x).
Definition Sigma1 (x : Z) : Z := Z.lxor (Z.lxor (ROTR 6 x) (ROTR 11 x)) (ROTR 25 x).
Definition sigma0 (x : Z) : Z := Z.lxor (Z.lxor (ROTR 7 x) (ROTR 18 x)) (SHR 3 x).
Definition sigma1 (x : Z) : Z := Z.lxor (Z.lxor (ROTR 17 x) (ROTR 19 x)) (SHR 10 x).

(** The constants: the first 32 bits of the fractional parts of the cube
    roots of the first 64 primes, and of the square roots of the first 8. *)
Definition is_prime (n : Z) : bool := forallb (λ d, negb (n `mod` d =? 0)) (seqZ 2 (n - 2)).
Definition primes : list Z := filter is_prime (seqZ 2 310).

(** The integer cube root, one bit at a time from bit [b] down. *)
Fixpoint cbrt_from (b : nat) (r n : Z) : Z :=
  let r' := r + 2 ^ Z.of_nat b in
  let r := if r' ^ 3 <=? n then r' else r in
  match b with
  | O => r
  | S b' => cbrt_from b' r n
  end.

Definition cbrt (n : Z) : Z := cbrt_from 40 0 n.

Definition K : list Z := (λ p, word (cbrt (p * 2 ^ 96))) <$> primes.
Definition H0 : list Z := (λ p, word (Z.sqrt (p * 2 ^ 64))) <$> take 8 primes.

(** Padding: a one bit, zeros, and the length in bits as 64-bit big-endian. *)
Definition be64 (x : Z) : list Z := (λ i, (x / 256 ^ i) `mod` 256) <$> [7; 6; 5; 4; 3; 2; 1; 0].

Definition pad (m : list Z) : list Z :=
  let l := Z.of_nat (length m) in
  m ++ [128] ++ replicate (Z.to_nat ((55 - l) `mod` 64)) 0 ++ be64 (8 * l).

(** The message schedule of a block of 64 bytes. *)
Definition M (block : list Z) (t : nat) : Z :=
  block !!! (4 * t)%nat * 2 ^ 24 + block !!! (4 * t + 1)%nat * 2 ^ 16
  + block !!! (4 * t + 2)%nat * 2 ^ 8 + block !!! (4 * t + 3)%nat.

Definition next (w : list Z) : Z :=
  let t := length w in
  word (sigma1 (w !!! (t - 2)%nat) + w !!! (t - 7)%nat
        + sigma0 (w !!! (t - 15)%nat) + w !!! (t - 16)%nat).

Fixpoint grow (f : list Z → Z) (k : nat) (w : list Z) : list Z :=
  match k with
  | O => w
  | S k' => grow f k' (w ++ [f w])
  end.

Definition schedule (block : list Z) : list Z := grow next 48 (M block <$> seq 0 16).

Import Sha256Digest.

Definition step (v : Vars) (kw : Z * Z) : Vars :=
  let '(mkVars a b c d e f g h) := v in
  let T1 := word (h + Sigma1 e + Ch e f g + kw.1 + kw.2) in
  let T2 := word (Sigma0 a + Maj a b c) in
  mkVars (word (T1 + T2)) a b c (word (d + T1)) e f g.

Definition vars_of (H : list Z) : Vars :=
  mkVars (H !!! 0%nat) (H !!! 1%nat) (H !!! 2%nat) (H !!! 3%nat)
         (H !!! 4%nat) (H !!! 5%nat) (H !!! 6%nat) (H !!! 7%nat).

Definition list_of (v : Vars) : list Z :=
  [va v; vb v; vc v; vd v; ve v; vf v; vg v; vh v].

Definition compress (H block : list Z) : list Z :=
  zip_with (λ x y, word (x + y)) H
    (list_of (foldl step (vars_of H) (zip K (schedule block)))).

Definition blocks (m : list Z) : list (list Z) :=
  (λ k, take 64 (drop (k * 64) m)) <$> seq 0 (length m / 64).

Definition sha256 (m : list Z) : list Z := foldl compress H0 (blocks (pad m)).

(** The eight hexadecimal digits of a word. *)
Definition word_hex (w : Z) : jstr :=
  (λ i, radix_char ((w / 16 ^ i) `mod` 16)) <$> [7; 6; 5; 4; 3; 2; 1; 0].

Definition hex_text (H : list Z) : jstr := concat (word_hex <$> H).
End FIPS.

(** ** The operators agree with those of the standard *)

Section words.
Import Sha256Digest.

Definition u32 (x : Z) : Prop := 0 ≤ x < W32.

Lemma toUint32_u32 x : u32 (toUint32 x).
Proof. apply Z.mod_pos_bound. done. Qed.

Lemma toUint32_id x : u32 x → toUint32 x = x.
Proof. apply Z.mod_small. Qed.

Lemma toUint32_land x : toUint32 x = Z.land x (Z.ones 32).
Proof. by rewrite Z.land_ones. Qed.

Lemma toUint32_word x : toUint32 x = FIPS.word x.
Proof. done. Qed.

Lemma toUint32_toInt32 x : toUint32 (toInt32 x) = toUint32 x.
Proof.
  unfold toInt32. pose proof (toUint32_u32 x). destruct (_ <? _).
  - by apply toUint32_id.
  - unfold toUint32 at 1. rewrite <-(Z.mul_1_l W32) at 1.
    rewrite <-Z.add_opp_r, <-Z.mul_opp_l, Z.mod_add by done. by apply toUint32_id.
Qed.

Lemma toUint32_add a b : toUint32 (a + b) = toUint32 (toUint32 a + toUint32 b).
Proof. apply Z.add_mod. done. Qed.

Lemma toUint32_idem a : toUint32 (toUint32 a) = toUint32 a.
Proof. apply toUint32_id, toUint32_u32. Qed.

Lemma toUint32_or a b : toUint32 (bit_or a b) = Z.lor (toUint32 a) (toUint32 b).
Proof.
  unfold bit_or. rewrite <-(toUint32_toInt32 a), <-(toUint32_toInt32 b), !toUint32_land.
  apply Z.land_lor_distr_l.
Qed.

Lemma toUint32_xor a b : toUint32 (bit_xor a b) = Z.lxor (toUint32 a) (toUint32 b).
Proof.
  unfold bit_xor. rewrite <-(toUint32_toInt32 a), <-(toUint32_toInt32 b), !toUint32_land.
  apply Z.bits_inj'. intros n Hn. rewrite ?Z.land_spec, ?Z.lxor_spec, ?Z.land_spec.
  by destruct (Z.testbit (toInt32 a) n), (Z.testbit (toInt32 b) n), (Z.testbit (Z.ones 32) n).
Qed.

Lemma toUint32_and a b : toUint32 (bit_and a b) = Z.land (toUint32 a) (toUint32 b).
Proof.
  unfold bit_and. rewrite <-(toUint32_toInt32 a), <-(toUint32_toInt32 b), !toUint32_land.
  apply Z.bits_inj'. intros n Hn. rewrite !Z.land_spec.
  by destruct (Z.testbit (toInt32 a) n), (Z.testbit (toInt32 b) n), (Z.testbit (Z.ones 32) n).
Qed.

Lemma toUint32_not a : toUint32 (bit_not a) = 2 ^ 32 - 1 - toUint32 a.
Proof.
  unfold bit_not. rewrite <-(toUint32_toInt32 a). set (x := toInt32 a). unfold toUint32, Z.lnot, W32.
  pose proof (Z.div_mod x 4294967296 ltac:(done)). pose proof (Z.mod_pos_bound x 4294967296 ltac:(done)).
  symmetry. apply (Z.mod_unique_pos _ _ (- (x / 4294967296) - 1)); lia.
Qed.

Lemma toUint32_shl a n : 0 ≤ n → toUint32 (bit_shl a n) = FIPS.word (Z.shiftl (toUint32 a) n).
Proof.
  intros Hn. unfold bit_shl. rewrite toUint32_toInt32, <-(toUint32_toInt32 a).
  set (x := toInt32 a). unfold toUint32, FIPS.word. change (2 ^ 32) with W32.
  rewrite !Z.shiftl_mul_pow2 by done. by rewrite Z.mul_mod_idemp_l.
Qed.

Lemma bit_ushr_u32 a n : 0 ≤ n → u32 (bit_ushr a n).
Proof.
  intros Hn. unfold bit_ushr, u32. rewrite Z.shiftr_div_pow2 by done.
  pose proof (toUint32_u32 a) as [? ?].
  pose proof (Z.pow_pos_nonneg 2 n ltac:(lia) Hn). split; [by apply Z.div_pos|].
  apply Z.div_lt_upper_bound; [done|]. nia.
Qed.

Lemma bit_ushr_0 a : bit_ushr a 0 = toUint32 a.
Proof. apply Z.shiftr_0_r. Qed.

Lemma toUint32_ushr a n : 0 ≤ n → toUint32 (bit_ushr a n) = FIPS.SHR n (toUint32 a).
Proof. intros Hn. rewrite toUint32_id by by apply bit_ushr_u32. done. Qed.

Lemma toUint32_rotateRight a n :
  0 ≤ n ≤ 32 → toUint32 (rotateRight a n) = FIPS.ROTR n (toUint32 a).
Proof.
  intros Hn. unfold rotateRight. rewrite toUint32_or, toUint32_ushr, toUint32_shl by lia. done.
Qed.

(** Equality modulo 2^32: what the sums of the code, which mix signed and
    unsigned terms, and those of the standard have in common. *)
Definition same32 (x y : Z) : Prop := toUint32 x = toUint32 y.

#[global] Instance same32_equivalence : Equivalence same32.
Proof. unfold same32. split; congruence. Qed.

#[global] Instance add_same32 : Proper (same32 ==> same32 ==> same32) Z.add.
Proof. intros a a' Ha b b' Hb. unfold same32 in *. by rewrite (toUint32_add a), (toUint32_add a'), Ha, Hb. Qed.

#[global] Instance toUint32_same32 : Proper (same32 ==> eq) toUint32.
Proof. intros a b. done. Qed.

Lemma same32_toUint32 x y : toUint32 x = y → same32 x y.
Proof. intros <-. unfold same32. by rewrite toUint32_idem. Qed.

Lemma same32_ushr0 x : same32 (bit_ushr x 0) x.
Proof. unfold same32. rewrite bit_ushr_0. apply toUint32_idem. Qed.

(** The functions of the standard, as the code writes them. *)
Lemma big_sigma_same x n1 n2 n3 :
  u32 x → 0 ≤ n1 ≤ 32 → 0 ≤ n2 ≤ 32 → 0 ≤ n3 ≤ 32 →
  same32 (bit_xor (bit_xor (rotateRight x n1) (rotateRight x n2)) (rotateRight x n3))
    (Z.lxor (Z.lxor (FIPS.ROTR n1 x) (FIPS.ROTR n2 x)) (FIPS.ROTR n3 x)).
Proof.
  intros Hx H1 H2 H3. apply same32_toUint32.
  by rewrite !toUint32_xor, !toUint32_rotateRight, toUint32_id by done.
Qed.

Lemma small_sigma_same x n1 n2 n3 :
  u32 x → 0 ≤ n1 ≤ 32 → 0 ≤ n2 ≤ 32 → 0 ≤ n3 →
  same32 (bit_xor (bit_xor (rotateRight x n1) (rotateRight x n2)) (bit_ushr x n3))
    (Z.lxor (Z.lxor (FIPS.ROTR n1 x) (FIPS.ROTR n2 x)) (FIPS.SHR n3 x)).
Proof.
  intros Hx H1 H2 H3. apply same32_toUint32.
  by rewrite !toUint32_xor, !toUint32_rotateRight, toUint32_ushr, toUint32_id by done.
Qed.

Lemma choose_same x y z :
  u32 x → u32 y → u32 z →
  same32 (bit_xor (bit_and x y) (bit_and (bit_not x) z)) (FIPS.Ch x y z).
Proof.
  intros Hx Hy Hz. apply same32_toUint32.
  by rewrite toUint32_xor, !toUint32_and, toUint32_not, !toUint32_id by done.
Qed.

Lemma majority_same x y z :
  u32 x → u32 y → u32 z →
  same32 (bit_xor (bit_xor (bit_and x y) (bit_and x z)) (bit_and y z)) (FIPS.Maj x y z).
Proof.
  intros Hx Hy Hz. apply same32_toUint32.
  by rewrite !toUint32_xor, !toUint32_and, !toUint32_id by done.
Qed.
End words.


(** ** The loops compute the standard's sequences *)

Section loops.
Import Sha256Digest.

(** A loop that fills a fixed-length array from index [n] on, each entry from
    the entries before it, grows the same sequence. *)
Lemma fill_grow (P : list Z → Prop) (f : list Z → nat → list Z) (G : list Z → Z) k n s :
  (n + k ≤ length s)%nat → P (take n s) →
  (∀ s' i, length s' = length s → (n ≤ i < n + k)%nat → P (take i s') →
    f s' i = <[i := G (take i s')]> s') →
  (∀ w, (n ≤ length w)%nat → P w → P (w ++ [G w])) →
  let r := foldl f s (seq n k) in
  length r = length s ∧ take (n + k) r = FIPS.grow G k (take n s) ∧ P (take (n + k) r).
Proof.
  revert n s. induction k as [|k IH]; intros n s Hlen HP HF HG; cbn.
  - by rewrite Nat.add_0_r.
  - assert (f s n = <[n := G (take n s)]> s) as HFn by (apply HF; [done|lia|done]).
    assert (take (S n) (<[n := G (take n s)]> s) = take n s ++ [G (take n s)]) as Htake.
    { rewrite (take_S_r _ n (G (take n s))) by (apply list_lookup_insert_eq; lia).
      by rewrite take_insert_ge by done. }
    rewrite HFn. destruct (IH (S n) (<[n := G (take n s)]> s)) as (Hl & Ht & HP').
    + rewrite length_insert. lia.
    + rewrite Htake. apply HG; [|done]. rewrite length_take. lia.
    + intros s' i. rewrite length_insert. intros. apply HF; [done|lia|done].
    + intros. apply HG; [lia|done].
    + rewrite length_insert in Hl. rewrite Nat.add_succ_r, <-Nat.add_succ_l.
      split_and!; [done| |done]. by rewrite Ht, Htake.
Qed.

Lemma grow_indexed (f : nat → Z) k w :
  FIPS.grow (λ w, f (length w)) k w = w ++ (f <$> seq (length w) k).
Proof.
  revert w. induction k as [|k IH]; intros w; cbn; [by rewrite (right_id_L [] (++))|].
  rewrite IH, <-app_assoc, length_app. cbn. by rewrite Nat.add_1_r.
Qed.

Lemma take_lookup_total (l : list Z) i n : (i < n)%nat → take n l !!! i = l !!! i.
Proof. intros H. rewrite !list_lookup_total_alt. by rewrite lookup_take_lt. Qed.

Lemma drop_lookup_total (l : list Z) i n : drop n l !!! i = l !!! (n + i)%nat.
Proof. rewrite !list_lookup_total_alt. by rewrite lookup_drop. Qed.

Lemma Forall_lookup_total (P : Z → Prop) (l : list Z) i : Forall P l → P inhabitant → P (l !!! i).
Proof.
  intros HF H0. rewrite list_lookup_total_alt. destruct (l !! i) eqn:E; [|done].
  by eapply Forall_lookup_1.
Qed.

Definition byte (b : Z) : Prop := 0 ≤ b < 256.

Lemma lor_add_shift a b n : 0 ≤ n → 0 ≤ b < 2 ^ n → Z.lor (a * 2 ^ n) b = a * 2 ^ n + b.
Proof.
  intros Hn Hb. rewrite <-(Z.add_lor_land (a * 2 ^ n) b).
  assert (Z.land (a * 2 ^ n) b = 0) as ->; [|lia].
  apply Z.bits_inj'. intros i Hi. rewrite Z.land_spec, Z.bits_0.
  destruct (decide (i < n)).
  - by rewrite Z.mul_pow2_bits_low.
  - rewrite <-(Z.mod_small b (2 ^ n)) by done.
    by rewrite (Z.mod_pow2_bits_high b) by lia; rewrite andb_false_r.
Qed.

(** Four bytes, most significant first. *)
Lemma loadWord_value b0 b1 b2 b3 :
  byte b0 → byte b1 → byte b2 → byte b3 →
  toUint32 (bit_or (bit_or (bit_or (bit_shl b0 24) (bit_shl b1 16)) (bit_shl b2 8)) b3)
  = b0 * 2 ^ 24 + b1 * 2 ^ 16 + b2 * 2 ^ 8 + b3.
Proof.
  unfold byte. intros H0 H1 H2 H3. rewrite !toUint32_or, !toUint32_shl by lia.
  assert (∀ b, 0 ≤ b < 256 → toUint32 b = b) as Hid.
  { intros b Hb. apply toUint32_id. unfold u32, W32. lia. }
  assert (∀ b n, 0 ≤ n ≤ 24 → 0 ≤ b < 256 → FIPS.word (Z.shiftl (toUint32 b) n) = b * 2 ^ n) as Hsh.
  { intros b n Hn Hb. rewrite (Hid b Hb), Z.shiftl_mul_pow2 by lia. apply Z.mod_small.
    pose proof (Z.pow_le_mono_r 2 n 24 ltac:(lia) ltac:(lia)).
    pose proof (Z.pow_pos_nonneg 2 n ltac:(lia) ltac:(lia)). split; [nia|].
    apply Z.le_lt_trans with (255 * 2 ^ 24); [nia|done]. }
  rewrite !Hsh, (Hid b3 H3) by lia.
  rewrite (lor_add_shift b0 (b1 * 2 ^ 16) 24) by lia.
  replace (b0 * 2 ^ 24 + b1 * 2 ^ 16) with ((b0 * 256 + b1) * 2 ^ 16) by lia.
  rewrite (lor_add_shift _ (b2 * 2 ^ 8) 16) by lia.
  replace ((b0 * 256 + b1) * 2 ^ 16 + b2 * 2 ^ 8) with ((b0 * 65536 + b1 * 256 + b2) * 2 ^ 8) by lia.
  rewrite (lor_add_shift _ b3 8) by lia. lia.
Qed.

Lemma extendWord_value s i :
  (16 ≤ i < length s)%nat → Forall u32 (take i s) →
  toUint32 (bit_ushr (s !!! (i - 16)%nat
    + bit_xor (bit_xor (rotateRight (s !!! (i - 15)%nat) 7) (rotateRight (s !!! (i - 15)%nat) 18))
        (bit_ushr (s !!! (i - 15)%nat) 3)
    + s !!! (i - 7)%nat
    + bit_xor (bit_xor (rotateRight (s !!! (i - 2)%nat) 17) (rotateRight (s !!! (i - 2)%nat) 19))
        (bit_ushr (s !!! (i - 2)%nat) 10)) 0) = FIPS.next (take i s).
Proof.
  intros Hi HF. unfold FIPS.next. rewrite length_take_le by lia.
  assert (∀ j, u32 (take i s !!! j)) as Hu by (intros; by apply Forall_lookup_total).
  rewrite <-(take_lookup_total s (i - 16) i), <-(take_lookup_total s (i - 15) i),
    <-(take_lookup_total s (i - 7) i), <-(take_lookup_total s (i - 2) i) by lia.
  set (w := take i s) in *. clearbody w. rewrite same32_ushr0. change FIPS.word with toUint32.
  rewrite !small_sigma_same by (done || lia). f_equal. unfold FIPS.sigma0, FIPS.sigma1. lia.
Qed.

(** One round. *)
Definition vars_u32 (v : Vars) : Prop := Forall u32 (FIPS.list_of v).

Lemma round_step schedule v i k w :
  vars_u32 v → ROUND_CONSTANTS !!! i = k → schedule !!! i = w →
  round schedule v i = FIPS.step v (k, w) ∧ vars_u32 (FIPS.step v (k, w)).
Proof.
  intros Hv Hk Hw. destruct v as [a b c d e f g h]. unfold vars_u32, FIPS.list_of in *.
  cbn [va vb vc vd ve vf vg vh] in Hv. rewrite !Forall_cons in Hv.
  destruct Hv as (Ha & Hb & Hc & Hd & He & Hf & Hg & Hh & _).
  unfold round, FIPS.step. rewrite Hk, Hw. cbn [fst snd]. change FIPS.word with toUint32. split.
  - rewrite !bit_ushr_0, !big_sigma_same, choose_same, majority_same by (done || lia). done.
  - cbn [va vb vc vd ve vf vg vh]. rewrite !Forall_cons. split_and!; try done; apply toUint32_u32.
Qed.

Lemma rounds_steps schedule (v : Vars) :
  vars_u32 v → length schedule = 64%nat →
  foldl (round schedule) v (seq 0 64) = foldl FIPS.step v (zip ROUND_CONSTANTS schedule)
  ∧ vars_u32 (foldl FIPS.step v (zip ROUND_CONSTANTS schedule)).
Proof.
  intros Hv Hlen.
  assert (∀ n v, (n ≤ 64)%nat → vars_u32 v →
    foldl (round schedule) v (seq n (64 - n)) = foldl FIPS.step v (drop n (zip ROUND_CONSTANTS schedule))
    ∧ vars_u32 (foldl FIPS.step v (drop n (zip ROUND_CONSTANTS schedule)))) as H; [|by apply (H 0%nat); [lia|]].
  clear v Hv. intros n. remember (64 - n)%nat as k eqn:Hk. revert n Hk.
  induction k as [|k IH]; intros n Hk v Hn Hv.
  - rewrite drop_ge; [done|]. rewrite length_zip_with, Hlen. cbn [ROUND_CONSTANTS app length]. lia.
  - destruct (lookup_lt_is_Some_2 schedule n) as [w Hw]; [lia|].
    destruct (lookup_lt_is_Some_2 ROUND_CONSTANTS n) as [c Hc]; [cbn [ROUND_CONSTANTS app length]; lia|].
    rewrite (drop_S _ (c, w) n) by (apply lookup_zip_with_Some; eauto 10).
    destruct (round_step schedule v n c w Hv) as [Hr Hv'].
    { by apply list_lookup_total_correct. }
    { by apply list_lookup_total_correct. }
    cbn [seq foldl]. rewrite Hr. apply IH; [lia|lia|done].
Qed.

Lemma M_u32 block t : Forall byte block → u32 (FIPS.M block t).
Proof.
  intros HF. unfold FIPS.M.
  assert (∀ i, byte (block !!! i)) as Hb by (intros; by apply Forall_lookup_total).
  pose proof (Hb (4 * t)%nat). pose proof (Hb (4 * t + 1)%nat).
  pose proof (Hb (4 * t + 2)%nat). pose proof (Hb (4 * t + 3)%nat).
  unfold byte, u32, W32 in *. lia.
Qed.

(** The message schedule. *)
Lemma schedule_words data s0 off :
  length s0 = 64%nat → Forall byte data → (off + 64 ≤ length data)%nat →
  let s := foldl extendWord (foldl (loadWord data off) s0 (seq 0 16)) (seq 16 48) in
  length s = 64%nat ∧ s = FIPS.schedule (take 64 (drop off data)) ∧ Forall u32 s.
Proof.
  intros Hs0 Hbytes Hoff. set (block := take 64 (drop off data)).
  assert (∀ i, (i < 64)%nat → block !!! i = data !!! (off + i)%nat) as Hblock.
  { intros i Hi. unfold block. by rewrite take_lookup_total, drop_lookup_total. }
  assert (∀ i, byte (data !!! i)) as Hb by (intros; by apply Forall_lookup_total).
  destruct (fill_grow (Forall u32) (loadWord data off) (λ w, FIPS.M block (length w)) 16 0 s0)
    as (Hl1 & Ht1 & Hu1).
  - lia.
  - constructor.
  - intros s' i Hi Hr _. rewrite length_take_le by lia. unfold loadWord, FIPS.M. f_equal.
    rewrite !Hblock by lia.
    replace (off + 4 * i)%nat with (off + i * 4)%nat by lia.
    replace (off + (4 * i + 1))%nat with (off + i * 4 + 1)%nat by lia.
    replace (off + (4 * i + 2))%nat with (off + i * 4 + 2)%nat by lia.
    replace (off + (4 * i + 3))%nat with (off + i * 4 + 3)%nat by lia.
    by apply loadWord_value.
  - intros w _ Hw. apply Forall_app. split; [done|]. constructor; [|constructor]. apply M_u32.
    by apply Forall_take, Forall_drop.
  - change (0 + 16)%nat with 16%nat in *. rewrite take_0 in Ht1.
    rewrite (grow_indexed (FIPS.M block) 16 []) in Ht1. cbn [app length] in Ht1.
    set (s1 := foldl (loadWord data off) s0 (seq 0 16)) in *. rewrite Hs0 in Hl1.
    destruct (fill_grow (Forall u32) extendWord FIPS.next 48 16 s1) as (Hl2 & Ht2 & Hu2).
    + lia.
    + done.
    + intros s' i Hi Hr Hu. unfold extendWord. f_equal. apply extendWord_value; [lia|done].
    + intros w _ Hw. apply Forall_app. split; [done|]. constructor; [|constructor]. apply toUint32_u32.
    + change (16 + 48)%nat with 64%nat in *. rewrite take_ge in Ht2, Hu2 by lia.
      cbv zeta. split_and!; [lia| |exact Hu2]. unfold FIPS.schedule. rewrite <-Ht1. exact Ht2.
Qed.

Lemma K_constants : FIPS.K = ROUND_CONSTANTS.
Proof. vm_compute. reflexivity. Qed.

Lemma H0_constants : FIPS.H0 = INITIAL_HASH.
Proof. vm_compute. reflexivity. Qed.

(** A hash value between blocks. *)
Definition hash_ok (hash : list Z) : Prop := length hash = 8%nat ∧ Forall u32 hash.

Lemma hash_explicit (hash : list Z) :
  length hash = 8%nat → ∃ a b c d e f g h, hash = [a; b; c; d; e; f; g; h].
Proof. intros H. do 9 (destruct hash as [|? hash]; try discriminate H). eauto 10. Qed.

Lemma vars_of_u32 hash : hash_ok hash → vars_u32 (FIPS.vars_of hash).
Proof.
  intros [Hlen HF]. destruct (hash_explicit hash Hlen) as (a & b & c & d & e & f & g & h & ->). exact HF.
Qed.

Lemma zip_add_ok hash v : hash_ok hash → hash_ok (zip_with (λ x y, FIPS.word (x + y)) hash (FIPS.list_of v)).
Proof.
  intros [Hlen HF]. split; [by rewrite length_zip_with, Hlen|].
  eapply Forall_zip_with_fst; [exact HF|]. apply Forall_true. intros. apply toUint32_u32.
Qed.

Lemma processBlock_compress data hash schedule off :
  hash_ok hash → length schedule = 64%nat → Forall byte data → (off + 64 ≤ length data)%nat →
  let '(hash', schedule') := processBlock data (hash, schedule) off in
  hash' = FIPS.compress hash (take 64 (drop off data)) ∧ hash_ok hash' ∧ length schedule' = 64%nat.
Proof.
  intros Hh Hs Hb Hoff. unfold processBlock, FIPS.compress.
  destruct (schedule_words data schedule off Hs Hb Hoff) as (Hl & Heq & Hu). cbv zeta in *.
  set (sched := foldl extendWord _ _) in *. clearbody sched.
  fold (FIPS.vars_of hash). rewrite (proj1 (rounds_steps sched _ (vars_of_u32 _ Hh) Hl)).
  rewrite <-Heq, K_constants. set (v := foldl FIPS.step _ _). clearbody v.
  pose proof (zip_add_ok _ v Hh) as Hok. destruct (hash_explicit hash (proj1 Hh)) as (? & ? & ? & ? & ? & ? & ? & ? & ->).
  rewrite !bit_ushr_0, !toUint32_idem.
  split; [reflexivity|]. split; [exact Hok|done].
Qed.

Lemma processBlocks data n k st :
  hash_ok st.1 → length st.2 = 64%nat → Forall byte data → (64 * (n + k) ≤ length data)%nat →
  (foldl (processBlock data) st ((λ k, k * 64)%nat <$> seq n k)).1
  = foldl FIPS.compress st.1 ((λ k, take 64 (drop (k * 64) data)) <$> seq n k)
  ∧ hash_ok (foldl (processBlock data) st ((λ k, k * 64)%nat <$> seq n k)).1.
Proof.
  revert n st. induction k as [|k IH]; intros n [hash sched] Hh Hs Hb Hlen; [done|].
  cbn [seq fmap list_fmap foldl]. pose proof (processBlock_compress data hash sched (n * 64) Hh Hs Hb ltac:(lia)) as H.
  destruct (processBlock data (hash, sched) (n * 64)) as [hash' sched'].
  destruct H as (Heq & Hh' & Hs'). cbn [fst] in *. rewrite <-Heq.
  by apply (IH (S n) (hash', sched')); [..|lia].
Qed.

(** Padding. *)
Lemma foldl_writeLength x pre :
  foldl (writeLength x) (pre ++ replicate 8 0) (seq 0 8)
  = pre ++ ((λ i, Z.land (Z.shiftr x (i * 8)) 255) <$> [7; 6; 5; 4; 3; 2; 1; 0]).
Proof.
  assert (∀ i l, length l = 8%nat → (i < 8)%nat → writeLength x (pre ++ l) i =
    pre ++ <[(7 - i)%nat := Z.land (Z.shiftr x (Z.of_nat i * 8)) 255]> l) as H.
  { intros i l Hl Hi. unfold writeLength. rewrite length_app, Hl.
    replace (length pre + 8 - 1 - i)%nat with (length pre + (7 - i))%nat by lia.
    by rewrite insert_app_r. }
  cbn [seq foldl]. rewrite !H by (rewrite ?length_insert; done || lia). reflexivity.
Qed.

Lemma byte_of_shift x i : 0 ≤ i → Z.land (Z.shiftr x (i * 8)) 255 = (x / 256 ^ i) `mod` 256.
Proof.
  intros Hi. rewrite Z.shiftr_div_pow2 by lia. change 255 with (Z.ones 8). rewrite Z.land_ones by lia.
  by rewrite Z.mul_comm, Z.pow_mul_r by lia.
Qed.

Lemma padded_pad m :
  8 * Z.of_nat (length m) < 2 ^ 64 → padded m = Ok (FIPS.pad m).
Proof.
  intros Hlen. unfold padded. cbv zeta. rewrite (proj2 (Z.ltb_ge _ _)) by lia. cbn [throw_when]. run.
  f_equal. unfold FIPS.pad. set (l := Z.of_nat (length m)) in *.
  assert (Z.rem (64 - Z.rem (l + 9) 64) 64 = (55 - l) `mod` 64) as ->.
  { rewrite (Z.rem_mod_nonneg (l + 9)) by lia.
    pose proof (Z.mod_pos_bound (l + 9) 64 ltac:(lia)). rewrite Z.rem_mod_nonneg by lia.
    rewrite Zminus_mod_idemp_r. replace (64 - (l + 9)) with (55 - l) by lia. done. }
  pose proof (Z.mod_pos_bound (55 - l) 64 ltac:(lia)). set (k := (55 - l) `mod` 64) in *. clearbody k.
  replace (Z.to_nat (l + 1 + k + 8)) with (length m + S (Z.to_nat k + 8))%nat by lia.
  rewrite drop_replicate. replace (length m + S (Z.to_nat k + 8) - length m)%nat with (S (Z.to_nat k + 8)) by lia.
  rewrite <-(Nat.add_0_r (length m)) at 1. rewrite insert_app_r. cbn [replicate insert list_insert].
  rewrite replicate_add. replace (l * 8) with (8 * l) by lia.
  rewrite app_comm_cons, app_assoc, foldl_writeLength, <-app_assoc. cbn [app]. do 3 f_equal.
  unfold FIPS.be64. apply list_fmap_ext. intros j i Hi. apply byte_of_shift.
  apply list_elem_of_lookup_2 in Hi. repeat (apply elem_of_cons in Hi as [->|Hi]; [lia|]).
  by apply not_elem_of_nil in Hi.
Qed.

Lemma pad_blocks m : length (FIPS.pad m) = (64 * (length (FIPS.pad m) / 64))%nat.
Proof.
  unfold FIPS.pad. set (l := Z.of_nat (length m)).
  rewrite !length_app, length_replicate. cbn [length FIPS.be64 fmap list_fmap].
  pose proof (Z.mod_pos_bound (55 - l) 64 ltac:(lia)). pose proof (Z.div_mod (55 - l) 64 ltac:(lia)).
  set (k := (55 - l) `mod` 64) in *. clearbody k.
  assert (∃ n, length m + (1 + (Z.to_nat k + 8)) = 64 * n)%nat as [n ->].
  { exists (Z.to_nat (1 - (55 - l) / 64)). lia. }
  rewrite Nat.mul_comm, Nat.div_mul by done. lia.
Qed.

Lemma pad_bytes m : Forall byte m → Forall byte (FIPS.pad m).
Proof.
  intros Hm. unfold FIPS.pad. rewrite !Forall_app. split_and!.
  - done.
  - by constructor.
  - by apply Forall_replicate.
  - apply Forall_fmap, Forall_true. intros i. by apply Z.mod_pos_bound.
Qed.

(** Hexadecimal text. *)
Lemma nibbles_value w :
  u32 w → radix_value 16 ((λ i, (w / 16 ^ i) `mod` 16) <$> [7; 6; 5; 4; 3; 2; 1; 0]) = w.
Proof.
  unfold u32, W32. intros Hw. cbn -[Z.div Z.modulo]. 
  assert (∀ k j, 0 ≤ k → j = k + 1 → w / 16 ^ k = 16 * (w / 16 ^ j) + (w / 16 ^ k) `mod` 16) as H.
  { intros k j Hk ->. rewrite Z.pow_add_r, Z.pow_1_r, <-Z.div_div by lia. apply Z.div_mod. done. }
  pose proof (H 0 1 ltac:(lia) eq_refl). pose proof (H 1 2 ltac:(lia) eq_refl).
  pose proof (H 2 3 ltac:(lia) eq_refl). pose proof (H 3 4 ltac:(lia) eq_refl).
  pose proof (H 4 5 ltac:(lia) eq_refl). pose proof (H 5 6 ltac:(lia) eq_refl).
  pose proof (H 6 7 ltac:(lia) eq_refl). pose proof (H 7 8 ltac:(lia) eq_refl). clear H.
  assert (w / 16 ^ 8 = 0) by by apply Z.div_small.
  assert (w / 16 ^ 0 = w) by apply Z.div_1_r.
  repeat match goal with |- context [?a `mod` 16] => generalize dependent (a `mod` 16); intros end.
  repeat match goal with H : context [w / ?p] |- _ => generalize dependent (w / p); intros end. lia.
Qed.

Lemma padStart_word_hex w : u32 w → padStart 8 (toString 16 w) = FIPS.word_hex w.
Proof.
  intros Hw. pose proof Hw as [Hlo Hhi]. unfold toString. rewrite (proj2 (Z.ltb_ge w 0)) by done.
  destruct (radix_text_spec 16 w) as (ds & -> & _ & HF & Hv & Hlen); [lia|done|].
  specialize (Hlen 8%nat ltac:(lia) Hhi). unfold padStart, FIPS.word_hex.
  rewrite length_fmap. change 48 with (radix_char 0). rewrite <-fmap_replicate, <-fmap_app.
  rewrite (list_fmap_compose (λ i, (w / 16 ^ i) `mod` 16) radix_char). f_equal.
  apply (radix_value_unique 16); [done| | | |].
  - apply Forall_app. split; [by apply Forall_replicate|done].
  - apply Forall_fmap, Forall_true. intros i. by apply Z.mod_pos_bound.
  - rewrite length_app, length_replicate, length_fmap. cbn [length]. lia.
  - rewrite nibbles_value by done. rewrite <-Hv, radix_value_app.
    assert (∀ n, radix_value 16 (replicate n 0) = 0) as ->; [|done].
    intros n. induction n as [|n IH]; [done|]. exact IH.
Qed.

Lemma of_bytes_eq m :
  Forall byte m → 8 * Z.of_nat (length m) < 2 ^ 64 →
  of_bytes m = Ok (mk (FIPS.hex_text (FIPS.sha256 m))) ∧ hash_ok (FIPS.sha256 m).
Proof.
  intros Hm Hlen. unfold of_bytes. rewrite padded_pad by done. run.
  pose proof (pad_bytes _ Hm) as Hb. pose proof (pad_blocks m) as Hl.
  unfold FIPS.sha256, FIPS.blocks, blockOffsets. rewrite H0_constants.
  set (data := FIPS.pad m) in *. clearbody data. set (n := (length data / 64)%nat) in *. clearbody n.
  replace ((length data + 63) / 64)%nat with n.
  2:{ rewrite Hl. apply (Nat.div_unique _ _ _ 63); lia. }
  destruct (processBlocks data 0 n (INITIAL_HASH, replicate 64 0)) as [Heq Hok]; [|done|done|lia|].
  { split; [done|]. apply bool_decide_unpack with (dec := Forall_dec _ _). vm_compute. exact I. }
  cbn [fst] in Heq. destruct (foldl (processBlock data) _ _) as [hash sched]. cbn [fst] in Heq, Hok.
  rewrite <-Heq. split; [|done]. do 2 f_equal. unfold FIPS.hex_text. f_equal.
  apply list_fmap_ext. intros i w Hi. apply padStart_word_hex.
  by eapply Forall_lookup_1, Hi; apply Hok.
Qed.

Lemma is_hex_char d : 0 ≤ d < 16 → is_hex (radix_char d) = true.
Proof.
  intros Hd. unfold is_hex, radix_char. destruct (Z.ltb_spec d 10).
  - apply orb_true_iff. right. apply andb_true_iff. split; apply Z.leb_le; lia.
  - apply orb_true_iff. left. apply andb_true_iff. split; apply Z.leb_le; lia.
Qed.

Lemma word_hex_is_hex w : forallb is_hex (FIPS.word_hex w) = true.
Proof.
  unfold FIPS.word_hex. rewrite forallb_forall. intros c Hc. apply list_elem_of_In in Hc.
  apply list_elem_of_fmap in Hc as (i & -> & _). apply is_hex_char. by apply Z.mod_pos_bound.
Qed.

Lemma hex_text_is_hex h : forallb is_hex (FIPS.hex_text h) = true.
Proof.
  unfold FIPS.hex_text. induction h as [|w h IH]; [done|].
  rewrite fmap_cons. cbn [concat]. by rewrite forallb_app, IH, word_hex_is_hex.
Qed.

Lemma hex_text_length h : length (FIPS.hex_text h) = (8 * length h)%nat.
Proof.
  unfold FIPS.hex_text. induction h as [|w h IH]; [done|].
  rewrite fmap_cons. cbn [concat length]. rewrite length_app, IH. unfold FIPS.word_hex.
  rewrite length_fmap. cbn [length]. lia.
Qed.

Lemma is_hex_spec c : is_hex c = true ↔ 48 ≤ c ≤ 57 ∨ 97 ≤ c ≤ 102.
Proof. unfold is_hex. rewrite orb_true_iff, !andb_true_iff, !Z.leb_le. lia. Qed.

Lemma parse_Ok text d :
  parse text = Ok d ↔ d = mk text ∧ length text = 64%nat
    ∧ Forall (λ c, 48 ≤ c ≤ 57 ∨ 97 ≤ c ≤ 102) text.
Proof.
  assert (forallb is_hex text = true ↔ Forall (λ c, 48 ≤ c ≤ 57 ∨ 97 ≤ c ≤ 102) text) as Hhex.
  { rewrite forallb_forall, Forall_forall. setoid_rewrite is_hex_spec.
    by setoid_rewrite list_elem_of_In. }
  unfold parse. rewrite bind_Ok. setoid_rewrite throw_when_Ok. setoid_rewrite negb_false_iff.
  rewrite <-Hhex. split.
  - intros (_ & [? ?%Nat.eqb_eq]%andb_true_iff & ?). by ok_inv.
  - intros (-> & Hlen & ->). exists (). split; [|done]. by rewrite Hlen.
Qed.

(** The encoder yields bytes. *)
Definition code_unit (c : Z) : Prop := 0 ≤ c < 65536.

#[global] Instance code_unit_dec c : Decision (code_unit c).
Proof. unfold code_unit. apply _. Defined.

Lemma utf8_code_point_bytes c : 0 ≤ c < 1114112 → Forall byte (utf8_code_point c).
Proof.
  intros Hc. unfold utf8_code_point, byte.
  repeat case_match; bool_inv; repeat apply Forall_cons_2; try apply Forall_nil_2;
    Z.div_mod_to_equations; lia.
Qed.

Lemma TextEncoder_bytes s : Forall code_unit s → Forall byte (TextEncoder_encode s).
Proof.
  remember (length s) as n eqn:Hn. revert s Hn.
  induction (lt_wf n) as [n _ IH]. intros [|c s] -> Hs; [constructor|].
  apply Forall_cons in Hs as [Hc Hs]. unfold code_unit in Hc. cbn [TextEncoder_encode].
  assert (Forall byte (TextEncoder_encode s)) by (eapply (IH (length s)); [cbn; lia|done|done]).
  assert (Forall byte (utf8_code_point 65533)) by (by apply utf8_code_point_bytes).
  destruct (is_high_surrogate c) eqn:Eh.
  - destruct s as [|d s]; [done|]. destruct (is_low_surrogate d) eqn:El; [|by apply Forall_app].
    apply Forall_cons in Hs as [_ Hs]. apply Forall_app. split.
    + unfold is_high_surrogate, is_low_surrogate in *. bool_inv. apply utf8_code_point_bytes. lia.
    + by eapply (IH (length s)); [cbn; lia|..].
  - destruct (is_low_surrogate c); [by apply Forall_app|].
    apply Forall_app. split; [apply utf8_code_point_bytes; lia|done].
Qed.
End loops.

(** ** Properties *)

(** C39: [Sha256Digest.of] is SHA-256.  On every byte string whose length in
    bits fits in 64 bits, the typed-array loops with JavaScript's signed
    32-bit operators compute the digest FIPS 180-4 defines (whose constants
    are derived here from the primes, as the standard does), written in
    lowercase hexadecimal; on a longer one the code throws. *)
Theorem digest_refines_FIPS (bytes : list Z) :
  Forall (λ b, 0 ≤ b < 256) bytes →
  Sha256Digest.of_bytes bytes =
    if 8 * Z.of_nat (length bytes) <? 2 ^ 64
    then Ok (Sha256Digest.mk (FIPS.hex_text (FIPS.sha256 bytes)))
    else Throw (DomainError INVALID_ARGUMENT).
Proof.
  intros Hb. destruct (Z.ltb_spec (8 * Z.of_nat (length bytes)) (2 ^ 64)) as [Hlt|Hge].
  - by apply of_bytes_eq.
  - unfold Sha256Digest.of_bytes, Sha256Digest.padded. cbv zeta.
    by rewrite (proj2 (Z.ltb_lt _ _)) by lia.
Qed.

Lemma digest_refines_FIPS_witness :
  Sha256Digest.of_bytes [97; 98; 99] = Ok (Sha256Digest.mk (FIPS.hex_text (FIPS.sha256 [97; 98; 99]))).
Proof. apply (digest_refines_FIPS [97; 98; 99]). repeat (constructor; [lia|]). constructor. Defined.

(** The digest of any JavaScript string of reasonable size exists, is a
    valid digest text of 64 characters, and [Sha256Digest.parse] reads it
    back as the same digest; [parse] accepts 64 lowercase hexadecimal
    characters and nothing else. *)
Theorem digest_parse_roundtrip (s text : jstr) (d : Sha256Digest.t) :
  Forall code_unit s → 8 * Z.of_nat (length (TextEncoder_encode s)) < 2 ^ 64 →
  (∃ d', Sha256Digest.of_ s = Ok d' ∧ Sha256Digest.parse (Sha256Digest.hex d') = Ok d')
  ∧ (Sha256Digest.parse text = Ok d ↔
      d = Sha256Digest.mk text ∧ length text = 64%nat
      ∧ Forall (λ c, 48 ≤ c ≤ 57 ∨ 97 ≤ c ≤ 102) text).
Proof.
  intros Hs Hlen. split.
  - destruct (of_bytes_eq _ (TextEncoder_bytes _ Hs) Hlen) as [Hof [Hl _]]. eexists. split; [exact Hof|].
    unfold Sha256Digest.parse. cbn [Sha256Digest.hex]. by rewrite hex_text_is_hex, hex_text_length, Hl.
  - apply parse_Ok.
Qed.

Lemma digest_parse_roundtrip_witness :
  ∃ d', Sha256Digest.of_ (js "abc") = Ok d' ∧ Sha256Digest.parse (Sha256Digest.hex d') = Ok d'.
Proof.
  apply (digest_parse_roundtrip (js "abc") [] (Sha256Digest.mk [])).
  - repeat (constructor; [unfold code_unit; cbn; lia|]). constructor.
  - reflexivity.
Defined.
