(* ===== verification/Keys.v ===== *)
(** Canonical keys (keys/canonical-key.ts), the idempotency and outbox keys
    built on them (keys/idempotency-key.ts), and the slice-cache keys that hash
    them (keys/cache-key.ts). *)
From S2P Require Import Prelude Text Primitives Digest.

Module CanonicalKey.

Inductive KeyValue :=
| StringValue (s : jstr)
| NumberValue (n : jsnumber)
| BigIntValue (z : Z).

Record KeyComponent := mkComponent {
  name : jstr;
  value : KeyValue;
}.

(** [InvalidKeyComponentError] is a [DomainError] with this code. *)
Definition InvalidKeyComponentError : js_error := DomainError INVALID_KEY_COMPONENT.

Definition is_lower (c : Z) : bool := (97 <=? c) && (c <=? 122).
Definition is_name_char (c : Z) : bool :=
  is_lower c || ((48 <=? c) && (c <=? 57)) || (c =? 95) || (c =? 45).

(** [/^[a-z][a-z0-9_-]*$/.test(value)] *)
Definition KEY_NAME_PATTERN (s : jstr) : bool :=
  match s with
  | [] => false
  | c :: rest => is_lower c && forallb is_name_char rest
  end.

Definition assertKeyName (s : jstr) : result () :=
  throw_when (negb (KEY_NAME_PATTERN s)) InvalidKeyComponentError.

Definition normalizeValue (v : KeyValue) : result jstr :=
  match v with
  | NumberValue n =>
      throw_when (negb (isSafeInteger n)) InvalidKeyComponentError ;;
      Ok (toString10 (num n))
  | BigIntValue z => Ok (toString10 z)
  | StringValue s => Ok s
  end.

(** The callback of [components.map]; the set of names is the state it
    shares between calls. *)
Definition encodeComponent (state : gset jstr * list jstr) (c : KeyComponent)
    : result (gset jstr * list jstr) :=
  let '(componentNames, encoded) := state in
  assertKeyName (name c) ;;
  throw_when (bool_decide (name c ∈ componentNames)) InvalidKeyComponentError ;;
  normalized ← normalizeValue (value c);
  throw_when (js_length normalized =? 0) InvalidKeyComponentError ;;
  Ok ({[name c]} ∪ componentNames,
      encoded ++ [name c ++ js ":" ++ toString10 (js_length normalized) ++ js ":" ++ normalized]).

Definition buildCanonicalKey (namespace : jstr) (version : jsnumber)
    (components : list KeyComponent) : result jstr :=
  assertKeyName namespace ;;
  throw_when (negb (isSafeInteger version) || (num version <=? 0)) InvalidKeyComponentError ;;
  throw_when (bool_decide (components = [])) InvalidKeyComponentError ;;
  '(_, encoded) ← foldM encodeComponent (∅, []) components;
  Ok (js "taven:" ++ namespace ++ js ":v" ++ toString10 (num version) ++ js "|"
      ++ join (js "|") encoded).

(** *** Specification *)

(** The text a component stands for. *)
Definition text (v : KeyValue) : jstr :=
  match v with
  | StringValue s => s
  | NumberValue n => toString10 (num n)
  | BigIntValue z => toString10 z
  end.

Definition identity (cs : list KeyComponent) : list (jstr * jstr) :=
  (λ c, (name c, text (value c))) <$> cs.

Definition component_wf (c : KeyComponent) : Prop :=
  KEY_NAME_PATTERN (name c) = true ∧ text (value c) ≠ []
  ∧ match value c with NumberValue n => isSafeInteger n = true | _ => True end.

Definition encode (c : KeyComponent) : jstr :=
  name c ++ js ":" ++ lengthPrefixed (text (value c)).

(** *** Facts *)

Lemma normalizeValue_Ok v s :
  normalizeValue v = Ok s ↔
    s = text v ∧ match v with NumberValue n => isSafeInteger n = true | _ => True end.
Proof.
  destruct v as [t|n|z]; cbn; split; intros H; ok_inv; bool_inv; try done.
  - by destruct H as [-> _].
  - by destruct H as [-> ->].
  - by destruct H as [-> _].
Qed.

Lemma js_length_0 s : (js_length s =? 0) = false ↔ s ≠ [].
Proof. unfold js_length. rewrite Z.eqb_neq. destruct s; cbn; split; try done; lia. Qed.

Lemma encodeComponent_Ok st c st' :
  encodeComponent st c = Ok st' ↔
    component_wf c ∧ name c ∉ st.1 ∧ st' = ({[name c]} ∪ st.1, st.2 ++ [encode c]).
Proof.
  destruct st as [names enc]. unfold encodeComponent, component_wf, encode, assertKeyName. cbn [fst snd]. split.
  - intros H. ok_inv.
    match goal with H : normalizeValue _ = _ |- _ => apply normalizeValue_Ok in H as [-> ?] end.
    match goal with H : (js_length _ =? 0) = false |- _ => apply js_length_0 in H end.
    bool_inv. done.
  - intros ((Hn & Ht & Hv) & Hnot & ->). rewrite Hn. cbn [negb throw_when]. run.
    rewrite bool_decide_eq_false_2 by done. cbn [throw_when]. run.
    rewrite (proj2 (normalizeValue_Ok _ _) (conj eq_refl Hv)). run.
    by rewrite (proj2 (js_length_0 _) Ht).
Qed.

Lemma encodeComponents_Ok cs st st' :
  foldM encodeComponent st cs = Ok st' ↔
    Forall component_wf cs ∧ NoDup (name <$> cs) ∧ (∀ c, c ∈ cs → name c ∉ st.1)
    ∧ st' = (list_to_set (name <$> cs) ∪ st.1, st.2 ++ (encode <$> cs)).
Proof.
  revert st. induction cs as [|c cs IH]; intros st; cbn [foldM].
  - cbn. rewrite (left_id_L ∅ (∪)), (right_id_L [] (++)). destruct st. split.
    + intros H. ok_inv. split_and!; [constructor|constructor| |done]. intros ? []%not_elem_of_nil.
    + by intros (_ & _ & _ & ->).
  - rewrite bind_Ok. setoid_rewrite encodeComponent_Ok. setoid_rewrite IH.
    rewrite Forall_cons, fmap_cons, NoDup_cons, list_elem_of_fmap. cbn [fst snd list_to_set foldr fmap list_fmap]. split.
    + intros (s1 & (Hc & Hnot & ->) & HF & HN & Hfresh & ->). cbn [fst snd] in *. split_and!; try done.
      * intros (d & Heq & Hd). apply (Hfresh d Hd). set_solver.
      * intros d [->|Hd]%elem_of_cons; [done|]. specialize (Hfresh d Hd). set_solver.
      * f_equal; [set_solver|]. by rewrite <-app_assoc.
    + intros ((Hc & HF) & (Hn & HN) & Hfresh & ->). eexists. split; [split_and!; [done| |reflexivity]|].
      * apply Hfresh. by left.
      * cbn [fst snd]. split_and!; [done|done| |].
        -- intros d Hd [Heq%elem_of_singleton|Hs]%elem_of_union.
           ++ apply Hn. by exists d.
           ++ by eapply (Hfresh d); [right|].
        -- f_equal; [set_solver|]. by rewrite <-app_assoc.
Qed.

(** What the builder accepts, and what it returns. *)
Definition key_wf (ns : jstr) (v : Z) (cs : list KeyComponent) : Prop :=
  KEY_NAME_PATTERN ns = true ∧ 0 < v ≤ MAX_SAFE_INTEGER ∧ cs ≠ []
  ∧ Forall component_wf cs ∧ NoDup (name <$> cs).

Definition key_text (ns : jstr) (v : Z) (cs : list KeyComponent) : jstr :=
  js "taven:" ++ ns ++ js ":v" ++ toString10 v ++ js "|" ++ join (js "|") (encode <$> cs).

Lemma buildCanonicalKey_Ok ns version cs k :
  buildCanonicalKey ns version cs = Ok k ↔
    ∃ v, version = IntNum v ∧ key_wf ns v cs ∧ k = key_text ns v cs.
Proof.
  unfold buildCanonicalKey, key_wf, assertKeyName. split.
  - intros H. ok_inv. match goal with x : _ * _ |- _ => destruct x end. ok_inv.
    match goal with H : foldM _ _ _ = Ok _ |- _ => apply encodeComponents_Ok in H as (? & ? & _ & [= -> ->]) end.
    bool_inv. destruct version as [v| | |]; try done. cbn in *. unfold safe_int in *. bool_inv.
    exists v. cbn. split_and!; done || lia.
  - intros (v & -> & (Hns & Hv & Hne & HF & HN) & ->). rewrite Hns. cbn [negb throw_when]. run.
    cbn [isSafeInteger num]. unfold safe_int, MIN_SAFE_INTEGER.
    rewrite (proj2 (Z.leb_le _ v)), (proj2 (Z.leb_le v _)), (proj2 (Z.leb_gt v 0)) by lia.
    cbn [andb negb orb throw_when]. run. rewrite bool_decide_eq_false_2 by done. cbn [throw_when]. run.
    rewrite (proj2 (encodeComponents_Ok cs (∅, [])
      (list_to_set (name <$> cs) ∪ ∅, [] ++ (encode <$> cs)))); [reflexivity|].
    split_and!; [done|done| |reflexivity]. intros c _. cbn. set_solver.
Qed.

(** Names contain neither colons nor bars. *)
Lemma name_no_colon s : KEY_NAME_PATTERN s = true → Forall (.≠ 58) s.
Proof.
  destruct s as [|c s]; [done|]. cbn. intros [Hc Hs]%andb_true_iff.
  constructor; [unfold is_lower in Hc; bool_inv; lia|].
  rewrite forallb_forall in Hs. apply Forall_forall. intros d Hd%list_elem_of_In ->.
  by specialize (Hs _ Hd).
Qed.

Lemma encode_cut c d r s :
  component_wf c → component_wf d → encode c ++ r = encode d ++ s →
  (name c, text (value c)) = (name d, text (value d)) ∧ r = s.
Proof.
  intros (Hc & _) (Hd & _). unfold encode. rewrite <-!app_assoc. cbn [js app].
  intros H. apply cut_unique in H as [-> H]; try by apply name_no_colon.
  by apply lengthPrefixed_cut in H as [-> ->].
Qed.

Lemma join_cons sep s l : l ≠ [] → join sep (s :: l) = s ++ sep ++ join sep l.
Proof. by destruct l. Qed.

Lemma join_encode_inj cs ds :
  cs ≠ [] → ds ≠ [] → Forall component_wf cs → Forall component_wf ds →
  join (js "|") (encode <$> cs) = join (js "|") (encode <$> ds) → identity cs = identity ds.
Proof.
  intros Hne Hne' HF. revert ds Hne'. induction HF as [|c cs Hc HF IH]; [done|].
  intros [|d ds]; [done|]. intros _ [Hd HG]%Forall_cons. rewrite !fmap_cons. intros Heq.
  unfold identity. rewrite !fmap_cons.
  destruct (decide (cs = [])) as [->|Hcs], (decide (ds = [])) as [->|Hds].
  - cbn in *. destruct (encode_cut c d [] []) as [-> _]; try done. by rewrite !(right_id_L [] (++)).
  - rewrite (join_cons _ (encode d)) in Heq by by destruct ds. cbn [join fmap list_fmap] in Heq.
    rewrite <-(right_id_L [] (++) (encode c)) in Heq. by apply encode_cut in Heq as [_ Heq].
  - rewrite (join_cons _ (encode c)) in Heq by by destruct cs. cbn [join fmap list_fmap] in Heq.
    rewrite <-(right_id_L [] (++) (encode d)) in Heq. by apply encode_cut in Heq as [_ Heq].
  - rewrite (join_cons _ (encode c)), (join_cons _ (encode d)) in Heq
      by first [by destruct cs|by destruct ds].
    apply encode_cut in Heq as [-> Heq]; [|done..]. injection Heq as Heq.
    f_equal. by apply IH.
Qed.

Lemma key_text_inj ns v cs ns' v' cs' :
  key_wf ns v cs → key_wf ns' v' cs' → key_text ns v cs = key_text ns' v' cs' →
  ns = ns' ∧ v = v' ∧ identity cs = identity cs'.
Proof.
  intros (Hns & Hv & Hne & HF & _) (Hns' & Hv' & Hne' & HF' & _) H. unfold key_text in H.
  apply app_inv_head in H. cbn [js app] in H.
  apply cut_unique in H as [-> H]; try by apply name_no_colon. injection H as H.
  cbn [app] in H. apply cut_unique in H as [H1 H2]; [|apply digits_not_bar, toString10_digits; lia..].
  apply (inj toString10) in H1 as ->. split_and!; [done..|]. by apply join_encode_inj.
Qed.

(** The text of a key is that of the names and the values it is made of. *)
Lemma key_text_identity ns v cs cs' : identity cs = identity cs' → key_text ns v cs = key_text ns v cs'.
Proof.
  intros H. assert (∀ cs, encode <$> cs = (λ p, p.1 ++ js ":" ++ lengthPrefixed p.2) <$> identity cs) as He.
  { intros ds. unfold identity. by rewrite <-list_fmap_compose. }
  unfold key_text. by rewrite !He, H.
Qed.

Lemma key_text_eq ns v cs ns' cs' : key_wf ns v cs → key_wf ns' v cs' →
  key_text ns v cs = key_text ns' v cs' ↔ ns = ns' ∧ identity cs = identity cs'.
Proof.
  intros Hk Hk'. split.
  - intros H. by apply key_text_inj in H as (? & _ & ?).
  - intros [-> H]. by apply key_text_identity.
Qed.
End CanonicalKey.

(** ** keys/idempotency-key.ts *)

Module IdempotencyKey.
Import CanonicalKey.

Definition buildIdempotencyKey (operation : jstr) (scope : list KeyComponent) : result jstr :=
  throw_when (js_length operation =? 0) InvalidKeyComponentError ;;
  buildCanonicalKey (js "command-" ++ operation) (IntNum 1) scope.

Definition buildOutboxDedupeKey (operation : jstr) (scope : list KeyComponent) : result jstr :=
  throw_when (js_length operation =? 0) InvalidKeyComponentError ;;
  buildCanonicalKey (js "outbox-" ++ operation) (IntNum 1) scope.

Lemma buildIdempotencyKey_Ok op scope k :
  buildIdempotencyKey op scope = Ok k →
  key_wf (js "command-" ++ op) 1 scope ∧ k = key_text (js "command-" ++ op) 1 scope.
Proof.
  unfold buildIdempotencyKey. intros H. ok_inv.
  match goal with H : buildCanonicalKey _ _ _ = _ |- _ =>
    apply buildCanonicalKey_Ok in H as (v & [= <-] & ? & ->) end. done.
Qed.

Lemma buildOutboxDedupeKey_Ok op scope k :
  buildOutboxDedupeKey op scope = Ok k →
  key_wf (js "outbox-" ++ op) 1 scope ∧ k = key_text (js "outbox-" ++ op) 1 scope.
Proof.
  unfold buildOutboxDedupeKey. intros H. ok_inv.
  match goal with H : buildCanonicalKey _ _ _ = _ |- _ =>
    apply buildCanonicalKey_Ok in H as (v & [= <-] & ? & ->) end. done.
Qed.
End IdempotencyKey.

(** ** keys/cache-key.ts *)

Module CacheKey.
Import CanonicalKey.

Record ReferenceSliceCacheKeyInput := mkReferenceSlice {
  rs_geometryHash : Sha256Digest.t;
  rs_modelGeometryId : jstr;
  rs_geometrySelectionHash : Sha256Digest.t;
  rs_referenceProfileRevision : RevisionRef.t;
  rs_printConfigRevision : RevisionRef.t;
  rs_partsPerPlate : bigint_or_number;
}.

Record ProductionSliceCacheKeyInput := mkProductionSlice {
  geometryHash : Sha256Digest.t;
  machineProfileRevision : RevisionRef.t;
  machineCalibrationRevision : RevisionRef.t;
  printConfigRevision : RevisionRef.t;
  partsPerPlate : bigint_or_number;
}.

Record MachineOccupancySliceCacheKeyInput := mkMachineOccupancy {
  production :> ProductionSliceCacheKeyInput;
  modelGeometryId : jstr;
  geometrySelectionHash : Sha256Digest.t;
  arrangementRevision : RevisionRef.t;
}.

Record ProductionPackageKeyInput := mkProductionPackage {
  pp_occupancy :> MachineOccupancySliceCacheKeyInput;
  pp_quantity : bigint_or_number;
  acceptedJobId : jstr;
}.

Record CandidateResourceEstimateKeyInput := mkCandidateResourceEstimate {
  ce_occupancy :> MachineOccupancySliceCacheKeyInput;
  ce_quantity : bigint_or_number;
  shipmentPlanId : jstr;
  dispatchJobId : jstr;
}.

Definition KeyValue_of (v : bigint_or_number) : KeyValue :=
  match v with
  | NumberIn n => NumberValue n
  | BigIntIn z => BigIntValue z
  end.

(** The integer a bound input stands for. *)
Definition integer (v : bigint_or_number) : Z :=
  match v with
  | NumberIn n => num n
  | BigIntIn z => z
  end.

Definition assertPositive (v : bigint_or_number) : result () :=
  match v with
  | NumberIn n => throw_when (negb (isSafeInteger n)) (DomainError INVALID_KEY_COMPONENT)
  | BigIntIn _ => Ok ()
  end ;;
  throw_when (integer v <=? 0) (DomainError INVALID_KEY_COMPONENT).

Definition buildIdentitySha256 (namespace : jstr) (version : Z) (components : list KeyComponent)
    : result Sha256Digest.t :=
  k ← buildCanonicalKey namespace (IntNum version) components;
  Sha256Digest.of_ k.

Definition buildPersistableIdentityKey (namespace : jstr) (version : Z)
    (components : list KeyComponent) : result jstr :=
  identitySha256 ← buildIdentitySha256 namespace version components;
  buildCanonicalKey namespace (IntNum version)
    [mkComponent (js "identity_sha256") (StringValue (Sha256Digest.hex identitySha256))].

Definition machineOccupancyComponents (input : MachineOccupancySliceCacheKeyInput)
    : list KeyComponent := [
  mkComponent (js "geometry_hash") (StringValue (Sha256Digest.hex (geometryHash input)));
  mkComponent (js "model_geometry_id") (StringValue (modelGeometryId input));
  mkComponent (js "geometry_selection_hash")
    (StringValue (Sha256Digest.hex (geometrySelectionHash input)));
  mkComponent (js "machine_profile_revision_id")
    (StringValue (RevisionRef.id (machineProfileRevision input)));
  mkComponent (js "machine_calibration_revision_id")
    (StringValue (RevisionRef.id (machineCalibrationRevision input)));
  mkComponent (js "print_config_revision_id")
    (StringValue (RevisionRef.id (printConfigRevision input)));
  mkComponent (js "arrangement_revision_id")
    (StringValue (RevisionRef.id (arrangementRevision input)));
  mkComponent (js "parts_per_plate") (KeyValue_of (partsPerPlate input))].

Definition referenceSliceComponents (input : ReferenceSliceCacheKeyInput) : list KeyComponent := [
  mkComponent (js "geometry_hash") (StringValue (Sha256Digest.hex (rs_geometryHash input)));
  mkComponent (js "model_geometry_id") (StringValue (rs_modelGeometryId input));
  mkComponent (js "geometry_selection_hash")
    (StringValue (Sha256Digest.hex (rs_geometrySelectionHash input)));
  mkComponent (js "reference_profile_revision_id")
    (StringValue (RevisionRef.id (rs_referenceProfileRevision input)));
  mkComponent (js "print_config_revision_id")
    (StringValue (RevisionRef.id (rs_printConfigRevision input)));
  mkComponent (js "parts_per_plate") (KeyValue_of (rs_partsPerPlate input))].

Definition buildReferenceSliceCacheKey (input : ReferenceSliceCacheKeyInput) : result jstr :=
  assertPositive (rs_partsPerPlate input) ;;
  buildPersistableIdentityKey (js "reference-slice") 2 (referenceSliceComponents input).

Definition buildProductionSliceCacheKey (input : ProductionSliceCacheKeyInput) : result jstr :=
  assertPositive (partsPerPlate input) ;;
  buildCanonicalKey (js "production-slice") (IntNum 1) [
    mkComponent (js "geometry_hash") (StringValue (Sha256Digest.hex (geometryHash input)));
    mkComponent (js "machine_profile_revision_id")
      (StringValue (RevisionRef.id (machineProfileRevision input)));
    mkComponent (js "machine_calibration_revision_id")
      (StringValue (RevisionRef.id (machineCalibrationRevision input)));
    mkComponent (js "print_config_revision_id")
      (StringValue (RevisionRef.id (printConfigRevision input)));
    mkComponent (js "parts_per_plate") (KeyValue_of (partsPerPlate input))].

Definition buildMachineOccupancySliceCacheKey (input : MachineOccupancySliceCacheKeyInput)
    : result jstr :=
  assertPositive (partsPerPlate input) ;;
  buildPersistableIdentityKey (js "machine-occupancy-slice") 1 (machineOccupancyComponents input).

Definition machineOccupancySliceIdentitySha256 (input : MachineOccupancySliceCacheKeyInput)
    : result Sha256Digest.t :=
  assertPositive (partsPerPlate input) ;;
  buildIdentitySha256 (js "machine-occupancy-slice") 1 (machineOccupancyComponents input).

Definition productionPackageComponents (input : ProductionPackageKeyInput) : list KeyComponent :=
  machineOccupancyComponents input ++ [
    mkComponent (js "quantity") (KeyValue_of (pp_quantity input));
    mkComponent (js "accepted_job_id") (StringValue (acceptedJobId input))].

Definition buildProductionPackageKey (input : ProductionPackageKeyInput) : result jstr :=
  assertPositive (partsPerPlate input) ;;
  assertPositive (pp_quantity input) ;;
  buildPersistableIdentityKey (js "production-package") 1 (productionPackageComponents input).

Definition candidateResourceEstimateComponents (input : CandidateResourceEstimateKeyInput)
    : list KeyComponent :=
  machineOccupancyComponents input ++ [
    mkComponent (js "quantity") (KeyValue_of (ce_quantity input));
    mkComponent (js "shipment_plan_id") (StringValue (shipmentPlanId input));
    mkComponent (js "dispatch_job_id") (StringValue (dispatchJobId input))].

Definition buildCandidateResourceEstimateKey (input : CandidateResourceEstimateKeyInput)
    : result jstr :=
  assertPositive (partsPerPlate input) ;;
  assertPositive (ce_quantity input) ;;
  buildPersistableIdentityKey (js "candidate-resource-estimate") 3
    (candidateResourceEstimateComponents input).

(** *** Specification *)

(** Two different texts with one digest. *)
Definition sha256_collision (s t : jstr) : Prop :=
  s ≠ t ∧ ∃ d, Sha256Digest.of_ s = Ok d ∧ Sha256Digest.of_ t = Ok d.

(** A family of persistable keys: its name space, the inputs it hashes, and
    what identifies one of them.  The laws are what the clients of a family
    rely on. *)
Class KeyFamily (I : Type) := {
  namespace : jstr;
  version : Z;
  build : I → result jstr;
  components : I → list KeyComponent;
  fields : Type;
  fieldsOf : I → fields;
  build_persistable i k : build i = Ok k →
    buildPersistableIdentityKey namespace version (components i) = Ok k;
  components_identify i j : identity (components i) = identity (components j) → fieldsOf i = fieldsOf j;
  namespace_short : (length namespace ≤ 30)%nat ∧ 0 < version < 10;
}.
Arguments namespace _ {_}.
Arguments version _ {_}.
Arguments fields _ {_}.

(** The text of an input before it is hashed. *)
Definition canonicalText {I} `{KeyFamily I} (i : I) : jstr :=
  key_text (namespace I) (version I) (components i).

Lemma text_KeyValue_of v w : text (KeyValue_of v) = text (KeyValue_of w) → integer v = integer w.
Proof. destruct v, w; cbn; apply (inj toString10). Qed.

(** What identifies the geometry, machine and configuration of one
    occupancy. *)
Definition occupancyFields (i : MachineOccupancySliceCacheKeyInput) :=
  (Sha256Digest.hex (geometryHash i), modelGeometryId i, Sha256Digest.hex (geometrySelectionHash i),
   RevisionRef.id (machineProfileRevision i), RevisionRef.id (machineCalibrationRevision i),
   RevisionRef.id (printConfigRevision i), RevisionRef.id (arrangementRevision i),
   integer (partsPerPlate i)).

Lemma occupancy_identify i j r s :
  identity (machineOccupancyComponents i ++ r) = identity (machineOccupancyComponents j ++ s) →
  occupancyFields i = occupancyFields j ∧ identity r = identity s.
Proof.
  unfold identity. rewrite !fmap_app. intros H. apply app_inj_1 in H as [H Hr]; [|done].
  split; [|done]. unfold occupancyFields. cbn -[js toString10] in H.
  injection H as H1 H2 H3 H4 H5 H6 H7 H8. apply text_KeyValue_of in H8. congruence.
Qed.

#[export, refine] Instance reference_family : KeyFamily ReferenceSliceCacheKeyInput := {
  namespace := js "reference-slice";
  version := 2;
  build := buildReferenceSliceCacheKey;
  components := referenceSliceComponents;
  fieldsOf i := (Sha256Digest.hex (rs_geometryHash i), rs_modelGeometryId i,
    Sha256Digest.hex (rs_geometrySelectionHash i), RevisionRef.id (rs_referenceProfileRevision i),
    RevisionRef.id (rs_printConfigRevision i), integer (rs_partsPerPlate i));
}.
Proof.
  - intros i k H. unfold buildReferenceSliceCacheKey in H. by ok_inv.
  - intros i j H. cbn -[js toString10] in H. injection H as H1 H2 H3 H4 H5 H6.
    apply text_KeyValue_of in H6. congruence.
  - cbn. lia.
Defined.

#[export, refine] Instance occupancy_family : KeyFamily MachineOccupancySliceCacheKeyInput := {
  namespace := js "machine-occupancy-slice";
  version := 1;
  build := buildMachineOccupancySliceCacheKey;
  components := machineOccupancyComponents;
  fieldsOf := occupancyFields;
}.
Proof.
  - intros i k H. unfold buildMachineOccupancySliceCacheKey in H. by ok_inv.
  - intros i j H. apply (occupancy_identify i j [] []). by rewrite !(right_id_L [] (++)).
  - cbn. lia.
Defined.

#[export, refine] Instance package_family : KeyFamily ProductionPackageKeyInput := {
  namespace := js "production-package";
  version := 1;
  build := buildProductionPackageKey;
  components := productionPackageComponents;
  fieldsOf i := (occupancyFields i, integer (pp_quantity i), acceptedJobId i);
}.
Proof.
  - intros i k H. unfold buildProductionPackageKey in H. by ok_inv.
  - intros i j H. apply occupancy_identify in H as [-> H]. cbn -[js toString10] in H.
    injection H as H1 H2. apply text_KeyValue_of in H1. congruence.
  - cbn. lia.
Defined.

#[export, refine] Instance estimate_family : KeyFamily CandidateResourceEstimateKeyInput := {
  namespace := js "candidate-resource-estimate";
  version := 3;
  build := buildCandidateResourceEstimateKey;
  components := candidateResourceEstimateComponents;
  fieldsOf i := (occupancyFields i, integer (ce_quantity i), shipmentPlanId i, dispatchJobId i);
}.
Proof.
  - intros i k H. unfold buildCandidateResourceEstimateKey in H. by ok_inv.
  - intros i j H. apply occupancy_identify in H as [-> H]. cbn -[js toString10] in H.
    injection H as H1 H2 H3. apply text_KeyValue_of in H1. congruence.
  - cbn. lia.
Defined.

(** *** Facts *)

Definition hashComponent (d : Sha256Digest.t) : list KeyComponent :=
  [mkComponent (js "identity_sha256") (StringValue (Sha256Digest.hex d))].

Lemma buildPersistableIdentityKey_Ok ns v cs k :
  buildPersistableIdentityKey ns v cs = Ok k →
  ∃ d, key_wf ns v cs ∧ Sha256Digest.of_ (key_text ns v cs) = Ok d
    ∧ key_wf ns v (hashComponent d) ∧ k = key_text ns v (hashComponent d).
Proof.
  unfold buildPersistableIdentityKey, buildIdentitySha256. intros H. ok_inv.
  repeat match goal with H : buildCanonicalKey _ _ _ = _ |- _ =>
    apply buildCanonicalKey_Ok in H as (? & [= <-] & ? & ->) end.
  eauto 10.
Qed.

Section family.
Context {I} `{KeyFamily I}.

Lemma family_identifies (i j : I) k :
  build i = Ok k → build j = Ok k →
  fieldsOf i = fieldsOf j ∨ sha256_collision (canonicalText i) (canonicalText j).
Proof.
  intros (d & Hi & Hd & Hk & ->)%build_persistable%buildPersistableIdentityKey_Ok
         (e & Hj & He & Hk' & Heq)%build_persistable%buildPersistableIdentityKey_Ok.
  apply key_text_inj in Heq as (_ & _ & Heq); [|done..]. injection Heq as Heq.
  destruct d as [d], e as [e]. cbn in Heq. subst e.
  destruct (decide (canonicalText i = canonicalText j)) as [Ht|Hne].
  - left. unfold canonicalText in Ht. apply key_text_inj in Ht as (_ & _ & Ht); [|done..].
    by apply components_identify.
  - right. split; [done|]. eauto.
Qed.

Lemma family_namespace (i : I) k :
  build i = Ok k → ∃ d, key_wf (namespace I) (version I) (hashComponent d)
    ∧ Sha256Digest.of_ (canonicalText i) = Ok d
    ∧ k = key_text (namespace I) (version I) (hashComponent d).
Proof. intros (d & ? & ? & ? & ->)%build_persistable%buildPersistableIdentityKey_Ok. eauto. Qed.

Lemma toString10_one_digit v : 0 < v < 10 → length (toString10 v) = 1%nat.
Proof.
  intros Hv. assert (v = 1 ∨ v = 2 ∨ v = 3 ∨ v = 4 ∨ v = 5 ∨ v = 6 ∨ v = 7 ∨ v = 8 ∨ v = 9) as Hc by lia.
  by destruct Hc as [->|[->|[->|[->|[->|[->|[->|[->| ->]]]]]]]].
Qed.

(** A persisted key fits its column. *)
Lemma family_bounded (i : I) k :
  Forall code_unit (canonicalText i) →
  8 * Z.of_nat (length (TextEncoder_encode (canonicalText i))) < 2 ^ 64 →
  build i = Ok k → (length k ≤ 127)%nat.
Proof.
  intros Hu Hlen (d & _ & Hd & ->)%family_namespace.
  destruct (of_bytes_eq _ (TextEncoder_bytes _ Hu) Hlen) as [Hof [Hl _]].
  assert (length (Sha256Digest.hex d) = 64%nat) as H64.
  { unfold Sha256Digest.of_ in Hd. rewrite Hof in Hd.
    assert (d = Sha256Digest.mk (FIPS.hex_text (FIPS.sha256 (TextEncoder_encode (canonicalText i)))))
      as -> by congruence.
    cbn [Sha256Digest.hex]. by rewrite hex_text_length, Hl. }
  clear Hof Hd Hl Hlen Hu. destruct namespace_short as [Hns Hv].
  unfold key_text, hashComponent. cbn [fmap list_fmap join]. unfold encode, lengthPrefixed.
  cbn [name value text]. rewrite !length_app, toString10_one_digit by done.
  unfold js_length. rewrite H64.
  change (length (toString10 (Z.of_nat 64))) with 2%nat. cbn. lia.
Qed.

Definition same_or_collision (i j : I) : Prop :=
  fieldsOf i = fieldsOf j ∨ sha256_collision (canonicalText i) (canonicalText j).
End family.

(** Any of the persisted keys. *)
Inductive AnyInput :=
| Reference (i : ReferenceSliceCacheKeyInput)
| Occupancy (i : MachineOccupancySliceCacheKeyInput)
| Package (i : ProductionPackageKeyInput)
| Estimate (i : CandidateResourceEstimateKeyInput).

Definition buildAny (a : AnyInput) : result jstr :=
  match a with
  | Reference i => buildReferenceSliceCacheKey i
  | Occupancy i => buildMachineOccupancySliceCacheKey i
  | Package i => buildProductionPackageKey i
  | Estimate i => buildCandidateResourceEstimateKey i
  end.

Definition anyText (a : AnyInput) : jstr :=
  match a with
  | Reference i => canonicalText i
  | Occupancy i => canonicalText i
  | Package i => canonicalText i
  | Estimate i => canonicalText i
  end.

Definition kindOf (a : AnyInput) : nat :=
  match a with Reference _ => 0 | Occupancy _ => 1 | Package _ => 2 | Estimate _ => 3 end.

Definition namespaceOf (a : AnyInput) : jstr :=
  match a with
  | Reference _ => namespace ReferenceSliceCacheKeyInput
  | Occupancy _ => namespace MachineOccupancySliceCacheKeyInput
  | Package _ => namespace ProductionPackageKeyInput
  | Estimate _ => namespace CandidateResourceEstimateKeyInput
  end.

Lemma any_namespace a k :
  buildAny a = Ok k → ∃ v d, key_wf (namespaceOf a) v (hashComponent d)
    ∧ k = key_text (namespaceOf a) v (hashComponent d).
Proof.
  destruct a as [i|i|i|i]; pose proof (family_namespace i k) as Hf; intros H;
    destruct (Hf H) as (d & ? & _ & ->); eauto.
Qed.

Lemma any_separate a b k : buildAny a = Ok k → buildAny b = Ok k → kindOf a = kindOf b.
Proof.
  intros (v & d & Hd & ->)%any_namespace (v' & d' & Hd' & Heq)%any_namespace.
  apply key_text_inj in Heq as (Hns & _ & _); [|done..]. clear -Hns.
  destruct a, b; first [reflexivity|vm_compute in Hns; discriminate Hns].
Qed.

Lemma any_bounded a k :
  Forall code_unit (anyText a) → 8 * Z.of_nat (length (TextEncoder_encode (anyText a))) < 2 ^ 64 →
  buildAny a = Ok k → (length k ≤ 127)%nat.
Proof. destruct a as [i|i|i|i]; pose proof (family_bounded i k) as Hf; exact Hf. Qed.
End CacheKey.

(** ** Properties *)

(** A canonical key determines what it was built from.  [buildCanonicalKey]
    accepts exactly well-formed names, a positive version and at least one
    component, all non-empty and differently named; and two inputs with the
    same key have the same namespace, the same version and, in order, the same
    component names and values, however those values are delimited. *)
Theorem canonical_key_injective (ns ns' : jstr) (version version' : jsnumber)
    (cs cs' : list CanonicalKey.KeyComponent) (k : jstr) :
  CanonicalKey.buildCanonicalKey ns version cs = Ok k →
  CanonicalKey.buildCanonicalKey ns' version' cs' = Ok k →
  ns = ns' ∧ version = version' ∧ CanonicalKey.identity cs = CanonicalKey.identity cs'
  ∧ CanonicalKey.key_wf ns (num version) cs.
Proof.
  intros (v & -> & Hk & ->)%CanonicalKey.buildCanonicalKey_Ok
         (v' & -> & Hk' & Heq)%CanonicalKey.buildCanonicalKey_Ok.
  by apply CanonicalKey.key_text_inj in Heq as (-> & -> & ?).
Qed.

Lemma canonical_key_injective_witness :
  CanonicalKey.identity [CanonicalKey.mkComponent (js "order") (CanonicalKey.NumberValue (IntNum 7))]
  = CanonicalKey.identity [CanonicalKey.mkComponent (js "order") (CanonicalKey.StringValue (js "7"))].
Proof.
  apply (canonical_key_injective (js "quote") (js "quote") (IntNum 1) (IntNum 1) _ _
    (js "taven:quote:v1|order:1:7")); vm_compute; reflexivity.
Defined.

(** C40: An idempotency key and an outbox key never coincide; two idempotency
    keys are equal exactly when they are of the same operation and the same scope,
    and so are two outbox keys.  A scope is the names of its components, in their
    order, and the texts of their values. *)
Theorem idempotency_keys_separate (op op' : jstr) (scope scope' : list CanonicalKey.KeyComponent)
    (k k' : jstr) :
  (IdempotencyKey.buildIdempotencyKey op scope = Ok k → IdempotencyKey.buildOutboxDedupeKey op' scope' = Ok k' → k ≠ k')
  ∧ (IdempotencyKey.buildIdempotencyKey op scope = Ok k → IdempotencyKey.buildIdempotencyKey op' scope' = Ok k' →
      (k = k' ↔ op = op' ∧ CanonicalKey.identity scope = CanonicalKey.identity scope'))
  ∧ (IdempotencyKey.buildOutboxDedupeKey op scope = Ok k → IdempotencyKey.buildOutboxDedupeKey op' scope' = Ok k' →
      (k = k' ↔ op = op' ∧ CanonicalKey.identity scope = CanonicalKey.identity scope')).
Proof.
  split_and!.
  - intros [Hk ->]%IdempotencyKey.buildIdempotencyKey_Ok [Hk' ->]%IdempotencyKey.buildOutboxDedupeKey_Ok Heq.
    by apply CanonicalKey.key_text_inj in Heq as (Hns & _ & _).
  - intros [Hk ->]%IdempotencyKey.buildIdempotencyKey_Ok [Hk' ->]%IdempotencyKey.buildIdempotencyKey_Ok.
    rewrite CanonicalKey.key_text_eq by done. f_equiv. split; [apply app_inv_head|by intros ->].
  - intros [Hk ->]%IdempotencyKey.buildOutboxDedupeKey_Ok [Hk' ->]%IdempotencyKey.buildOutboxDedupeKey_Ok.
    rewrite CanonicalKey.key_text_eq by done. f_equiv. split; [apply app_inv_head|by intros ->].
Qed.

Lemma idempotency_keys_separate_witness :
  (js "taven:outbox-late-capture:v1|id:1:7" = js "taven:outbox-late-capture:v1|id:1:7"
   ↔ js "late-capture" = js "late-capture"
     ∧ CanonicalKey.identity [CanonicalKey.mkComponent (js "id") (CanonicalKey.StringValue (js "7"))]
       = CanonicalKey.identity [CanonicalKey.mkComponent (js "id") (CanonicalKey.BigIntValue 7)])
  ∧ js "taven:command-late-capture:v1|id:1:7" ≠ js "taven:outbox-late-capture:v1|id:1:7".
Proof.
  split.
  - apply (idempotency_keys_separate (js "late-capture") (js "late-capture")
      [CanonicalKey.mkComponent (js "id") (CanonicalKey.StringValue (js "7"))]
      [CanonicalKey.mkComponent (js "id") (CanonicalKey.BigIntValue 7)]); vm_compute; reflexivity.
  - apply (idempotency_keys_separate (js "late-capture") (js "late-capture")
      [CanonicalKey.mkComponent (js "id") (CanonicalKey.StringValue (js "7"))]
      [CanonicalKey.mkComponent (js "id") (CanonicalKey.BigIntValue 7)]); vm_compute; reflexivity.
Defined.

(** A cache hit is a hit for the right thing.  If two inputs of one kind
    get the same persisted key, then every field that identifies them agrees
    (geometry, selection, revisions, parts per plate, and the quantity, job,
    plan or dispatch of the kinds that have one), unless two different
    canonical texts collide under SHA-256. *)
Theorem cache_keys_identify (k : jstr) :
  (∀ i j, CacheKey.buildReferenceSliceCacheKey i = Ok k →
      CacheKey.buildReferenceSliceCacheKey j = Ok k →
      CacheKey.same_or_collision (H := CacheKey.reference_family) i j)
  ∧ (∀ i j, CacheKey.buildMachineOccupancySliceCacheKey i = Ok k →
      CacheKey.buildMachineOccupancySliceCacheKey j = Ok k →
      CacheKey.same_or_collision (H := CacheKey.occupancy_family) i j)
  ∧ (∀ i j, CacheKey.buildProductionPackageKey i = Ok k →
      CacheKey.buildProductionPackageKey j = Ok k →
      CacheKey.same_or_collision (H := CacheKey.package_family) i j)
  ∧ (∀ i j, CacheKey.buildCandidateResourceEstimateKey i = Ok k →
      CacheKey.buildCandidateResourceEstimateKey j = Ok k →
      CacheKey.same_or_collision (H := CacheKey.estimate_family) i j).
Proof.
  split_and!; intros i j.
  - apply (CacheKey.family_identifies (H := CacheKey.reference_family)).
  - apply (CacheKey.family_identifies (H := CacheKey.occupancy_family)).
  - apply (CacheKey.family_identifies (H := CacheKey.package_family)).
  - apply (CacheKey.family_identifies (H := CacheKey.estimate_family)).
Qed.

(** The witnesses share one occupancy. *)
Definition sample_occupancy : CacheKey.MachineOccupancySliceCacheKeyInput :=
  let digest := Sha256Digest.mk (js "ba7816bf8f01cfea414140de5dae2223b00361a396177a9cb410ff61f20015ad") in
  CacheKey.mkMachineOccupancy
    (CacheKey.mkProductionSlice digest (RevisionRef.mk (js "machine-profile") (js "m"))
      (RevisionRef.mk (js "machine-calibration") (js "c"))
      (RevisionRef.mk (js "print-config") (js "p")) (NumberIn (IntNum 2)))
    (js "geometry") digest (RevisionRef.mk (js "arrangement") (js "a")).

Lemma cache_keys_identify_witness :
  let i := CacheKey.mkProductionPackage sample_occupancy (BigIntIn 5) (js "job") in
  let j := CacheKey.mkProductionPackage sample_occupancy (NumberIn (IntNum 5)) (js "job") in
  CacheKey.same_or_collision (H := CacheKey.package_family) i j.
Proof.
  intros i j. destruct (CacheKey.buildProductionPackageKey i) as [k|] eqn:Hi; [|vm_compute in Hi; discriminate].
  apply (cache_keys_identify k); [exact Hi|]. rewrite <-Hi. vm_compute. reflexivity.
Defined.

(** Persisted keys of different kinds never coincide, and every persisted
    key fits well inside its 255-character column, whatever identifiers it was
    built from. *)
Theorem cache_keys_bounded (a b : CacheKey.AnyInput) (k : jstr) :
  Forall code_unit (CacheKey.anyText a) →
  8 * Z.of_nat (length (TextEncoder_encode (CacheKey.anyText a))) < 2 ^ 64 →
  CacheKey.buildAny a = Ok k →
  (length k ≤ 127)%nat ∧ (CacheKey.buildAny b = Ok k → CacheKey.kindOf a = CacheKey.kindOf b).
Proof.
  intros Hu Hlen Ha. split; [by eapply CacheKey.any_bounded|]. by apply CacheKey.any_separate.
Qed.

Lemma cache_keys_bounded_witness :
  ∃ k, CacheKey.buildMachineOccupancySliceCacheKey sample_occupancy = Ok k ∧ (length k ≤ 127)%nat.
Proof.
  destruct (CacheKey.buildAny (CacheKey.Occupancy sample_occupancy)) as [k|] eqn:Hk;
    [|vm_compute in Hk; discriminate].
  exists k. split; [exact Hk|].
  apply (cache_keys_bounded (CacheKey.Occupancy sample_occupancy) (CacheKey.Occupancy sample_occupancy)).
  - apply (bool_decide_unpack _). vm_compute. exact I.
  - vm_compute. reflexivity.
  - exact Hk.
Defined.
