(* ===== verification/ShipmentPlan.v ===== *)
(** Parcel planning (pricing/shipment-plan.ts): units are placed greedily, in
    decreasing size, into parcels of the supported categories.  The theorems
    say that a plan is valid (every unit in exactly one parcel, nothing
    overlaps, every limit is kept), that planning fails only when some unit
    fits no category by itself, and that the order of the units does not
    matter. *)
From S2P Require Import Prelude Text Arithmetic.

Module ShipmentPlan.

(** ** Data *)

Inductive Axis := axisX | axisY | axisZ.

#[global] Instance Axis_eq_dec : EqDecision Axis.
Proof. solve_decision. Defined.

Record ShipmentBox := mkBox {
  xMicrometers : Z;
  yMicrometers : Z;
  zMicrometers : Z;
}.

#[global] Instance ShipmentBox_eq_dec : EqDecision ShipmentBox.
Proof. solve_decision. Defined.

Record ShipmentPackingUnit := mkUnit {
  packingUnitKey : jstr;
  box : ShipmentBox;
  weightMilligrams : Z;
}.

Record ShipmentCategory := mkCategory {
  id : jstr;
  maxXMicrometers : Z;
  maxYMicrometers : Z;
  maxZMicrometers : Z;
  maxDimensionSumMicrometers : Z;
  maxWeightMilligrams : Z;
  maxParcelVolumeCubicMicrometers : Z;
}.

Record ShipmentPlannerInput := mkInput {
  units : list ShipmentPackingUnit;
  categories : list ShipmentCategory;
  supportedCategoryIds : gset jstr;
  fillCoefficientNumerator : Z;
  fillCoefficientDenominator : Z;
  packagingWeightMilligrams : Z;
}.

(** An origin or a corner: the fields [x], [y], [z] of [originMicrometers]. *)
Record Point := mkPoint { px : Z; py : Z; pz : Z }.

Record ShipmentPlacement := mkPlacement {
  placed_packingUnitKey : jstr;
  orientedBox : ShipmentBox;
  axis : Axis;
  originMicrometers : Point;
  packingBoxAfterPlacement : ShipmentBox;
}.

Record ShipmentParcel := mkParcel {
  ordinal : Z;
  categoryId : jstr;
  packingBox : ShipmentBox;
  volumeProxyCubicMicrometers : Z;
  parcel_weightMilligrams : Z;
  placements : list ShipmentPlacement;
}.

Inductive ShipmentPlanResult :=
| planned (parcels : list ShipmentParcel)
| no_fit (packingUnitKey : jstr) (supportedCategoryIds : list jstr).

(** ** Operations *)

Definition AXES : list Axis := [axisX; axisY; axisZ].

(** [AXES.indexOf(axis)] *)
Definition axisIndex (a : Axis) : Z := match a with axisX => 0 | axisY => 1 | axisZ => 2 end.

Definition positive (value : Z) : result () := throw_when (value <=? 0) RangeError.

Definition validateBox (b : ShipmentBox) : result () :=
  positive (xMicrometers b) ;;
  positive (yMicrometers b) ;;
  positive (zMicrometers b).

Definition volume (b : ShipmentBox) : Z :=
  xMicrometers b * yMicrometers b * zMicrometers b.

(** [/] on bigints truncates. *)
Definition ceilDivide (numerator denominator : Z) : Z :=
  Z.quot (numerator + denominator - 1) denominator.

Definition boxKey (b : ShipmentBox) : jstr :=
  toString10 (xMicrometers b) ++ js "," ++ toString10 (yMicrometers b) ++ js ","
  ++ toString10 (zMicrometers b).

(** The pairs of the two nested loops, and the body they run unless
    [second === first]. *)
Definition axisPairs : list (nat * nat) :=
  first ← [0; 1; 2]%nat; second ← [0; 1; 2]%nat; [(first, second)].

Definition addRotation (values : list Z) (state : gset jstr * list ShipmentBox)
    (pair : nat * nat) : gset jstr * list ShipmentBox :=
  let '(seen, result) := state in
  let '(first, second) := pair in
  if (second =? first)%nat then state
  else
    let third := (3 - first - second)%nat in
    let orientation := mkBox (values !!! first) (values !!! second) (values !!! third) in
    let key := boxKey orientation in
    if bool_decide (key ∈ seen) then state
    else ({[key]} ∪ seen, result ++ [orientation]).

Definition compareBoxes (a b : ShipmentBox) : Z :=
  js_or (compareBigInt (xMicrometers a) (xMicrometers b))
  (js_or (compareBigInt (yMicrometers a) (yMicrometers b))
         (compareBigInt (zMicrometers a) (zMicrometers b))).

Definition rotations (b : ShipmentBox) : list ShipmentBox :=
  let values := [xMicrometers b; yMicrometers b; zMicrometers b] in
  js_sort compareBoxes (foldl (addRotation values) (∅, []) axisPairs).2.

(** [a > b ? a : b] *)
Definition larger (a b : Z) : Z := if b <? a then a else b.

Definition placedBox (current : option ShipmentBox) (candidate : ShipmentBox) (axis : Axis)
    : ShipmentBox :=
  match current with
  | None => candidate
  | Some current =>
      match axis with
      | axisX => mkBox (xMicrometers current + xMicrometers candidate)
               (larger (yMicrometers current) (yMicrometers candidate))
               (larger (zMicrometers current) (zMicrometers candidate))
      | axisY => mkBox (larger (xMicrometers current) (xMicrometers candidate))
               (yMicrometers current + yMicrometers candidate)
               (larger (zMicrometers current) (zMicrometers candidate))
      | axisZ => mkBox (larger (xMicrometers current) (xMicrometers candidate))
               (larger (yMicrometers current) (yMicrometers candidate))
               (zMicrometers current + zMicrometers candidate)
      end
  end.

Definition fits (category : ShipmentCategory) (box : ShipmentBox)
    (weight volumeProxy : Z) : bool :=
  (xMicrometers box <=? maxXMicrometers category)
  && (yMicrometers box <=? maxYMicrometers category)
  && (zMicrometers box <=? maxZMicrometers category)
  && (xMicrometers box + yMicrometers box + zMicrometers box
      <=? maxDimensionSumMicrometers category)
  && (weight <=? maxWeightMilligrams category)
  && (volumeProxy <=? maxParcelVolumeCubicMicrometers category).

Record Candidate := mkCandidate {
  candidate_box : ShipmentBox;
  candidate_orientedBox : ShipmentBox;
  candidate_axis : Axis;
  candidate_volumeProxy : Z;
  candidate_weight : Z;
  candidate_origin : Point;
}.

Definition candidateFor (category : ShipmentCategory) (current : option ShipmentParcel)
    (unit : ShipmentPackingUnit) (orientation : ShipmentBox) (axis : Axis)
    (fillNumerator fillDenominator packagingWeight : Z) : option Candidate :=
  let box := placedBox (packingBox <$> current) orientation axis in
  let origin :=
    match current with
    | None => mkPoint 0 0 0
    | Some current =>
        match axis with
        | axisX => mkPoint (xMicrometers (packingBox current)) 0 0
        | axisY => mkPoint 0 (yMicrometers (packingBox current)) 0
        | axisZ => mkPoint 0 0 (zMicrometers (packingBox current))
        end
    end in
  let weight :=
    default packagingWeight (parcel_weightMilligrams <$> current) + weightMilligrams unit in
  let currentRawVolume :=
    default 0 ((λ current, sum_by (λ p, volume (orientedBox p)) (placements current)) <$> current) in
  let rawVolume := currentRawVolume * fillDenominator + volume orientation * fillDenominator in
  let volumeProxy := ceilDivide rawVolume fillNumerator in
  if fits category box weight volumeProxy
  then Some (mkCandidate box orientation axis volumeProxy weight origin)
  else None.

(** [[x, y, z].reduce((x, y) => (x > y ? x : y))] *)
Definition longest (b : ShipmentBox) : Z :=
  larger (larger (xMicrometers b) (yMicrometers b)) (zMicrometers b).

Definition candidateCompare (a b : Candidate) : Z :=
  js_or (compareBigInt (volume (candidate_box a)) (volume (candidate_box b)))
  (js_or (compareBigInt (longest (candidate_box a)) (longest (candidate_box b)))
  (js_or (compareBigInt (xMicrometers (candidate_box a)) (xMicrometers (candidate_box b)))
  (js_or (compareBigInt (yMicrometers (candidate_box a)) (yMicrometers (candidate_box b)))
  (js_or (compareBigInt (zMicrometers (candidate_box a)) (zMicrometers (candidate_box b)))
  (js_or (compareBigInt (xMicrometers (candidate_orientedBox a)) (xMicrometers (candidate_orientedBox b)))
  (js_or (compareBigInt (yMicrometers (candidate_orientedBox a)) (yMicrometers (candidate_orientedBox b)))
  (js_or (compareBigInt (zMicrometers (candidate_orientedBox a)) (zMicrometers (candidate_orientedBox b)))
         (axisIndex (candidate_axis a) - axisIndex (candidate_axis b))))))))).

Definition compareUnits (a b : ShipmentPackingUnit) : Z :=
  js_or (compareBigInt (longest (box b)) (longest (box a)))
  (js_or (compareBigInt (volume (box b)) (volume (box a)))
         (compareStrings (packingUnitKey a) (packingUnitKey b))).

Definition sortedUnits (units : list ShipmentPackingUnit) : list ShipmentPackingUnit :=
  js_sort compareUnits units.

(** The validating loops of [planShipment]. *)
Definition checkCategoryId (categoryIds : gset jstr) (category : ShipmentCategory)
    : result (gset jstr) :=
  throw_when (bool_decide (id category = [])) RangeError ;;
  throw_when (bool_decide (id category ∈ categoryIds)) RangeError ;;
  Ok ({[id category]} ∪ categoryIds).

Definition checkUnit (packingUnitKeys : gset jstr) (unit : ShipmentPackingUnit)
    : result (gset jstr) :=
  throw_when (bool_decide (packingUnitKey unit = [])) RangeError ;;
  throw_when (bool_decide (packingUnitKey unit ∈ packingUnitKeys)) RangeError ;;
  let packingUnitKeys := {[packingUnitKey unit]} ∪ packingUnitKeys in
  validateBox (box unit) ;;
  throw_when (weightMilligrams unit <? 0) RangeError ;;
  Ok packingUnitKeys.

Definition checkCategory (category : ShipmentCategory) : result () :=
  validateBox (mkBox (maxXMicrometers category) (maxYMicrometers category)
                 (maxZMicrometers category)) ;;
  positive (maxDimensionSumMicrometers category) ;;
  positive (maxWeightMilligrams category) ;;
  positive (maxParcelVolumeCubicMicrometers category).

Definition placementOf (unit : ShipmentPackingUnit) (selected : Candidate) : ShipmentPlacement :=
  mkPlacement (packingUnitKey unit) (candidate_orientedBox selected) (candidate_axis selected)
    (candidate_origin selected) (candidate_box selected).

Section plan.
Context (input : ShipmentPlannerInput).

Definition supportedCategories : list ShipmentCategory :=
  filter (λ category, id category ∈ supportedCategoryIds input) (categories input).

(** The candidates that pass the category's limits, for an open parcel and
    for a new one; the first of them in the order of [candidateCompare]. *)
Definition candidatesIn (category : ShipmentCategory) (current : option ShipmentParcel)
    (unit : ShipmentPackingUnit) (axes : list Axis) : list Candidate :=
  orientation ← rotations (box unit);
  omap (λ axis, candidateFor category current unit orientation axis
      (fillCoefficientNumerator input) (fillCoefficientDenominator input)
      (packagingWeightMilligrams input)) axes.

Definition select (candidates : list Candidate) : option Candidate :=
  head (js_sort candidateCompare candidates).

(** The loop over the open parcels: the first one that can take the unit
    does.  [categories.find(...)!] is used as an object, so a missing category
    would be a [TypeError]. *)
Fixpoint placeInOpen (unit : ShipmentPackingUnit) (parcels : list ShipmentParcel)
    : result (option (list ShipmentParcel)) :=
  match parcels with
  | [] => Ok None
  | parcel :: rest =>
      match List.find (λ candidate, str_eqb (id candidate) (categoryId parcel)) supportedCategories with
      | None => Throw TypeError
      | Some category =>
          match select (candidatesIn category (Some parcel) unit AXES) with
          | None => placed ← placeInOpen unit rest; Ok (option_map (cons parcel) placed)
          | Some selected =>
              Ok (Some (mkParcel (ordinal parcel) (categoryId parcel) (candidate_box selected)
                          (candidate_volumeProxy selected) (candidate_weight selected)
                          (placements parcel ++ [placementOf unit selected]) :: rest))
          end
      end
  end.

(** The loop over the categories for a new parcel. *)
Fixpoint openParcel (unit : ShipmentPackingUnit) (ordinal : Z)
    (categories : list ShipmentCategory) : option ShipmentParcel :=
  match categories with
  | [] => None
  | category :: rest =>
      match select (candidatesIn category None unit [axisX]) with
      | None => openParcel unit ordinal rest
      | Some selected =>
          Some (mkParcel ordinal (id category) (candidate_box selected)
                  (candidate_volumeProxy selected) (candidate_weight selected)
                  [placementOf unit selected])
      end
  end.

(** The loop over the sorted units. *)
Fixpoint placeUnits (units : list ShipmentPackingUnit) (parcels : list ShipmentParcel)
    : result ShipmentPlanResult :=
  match units with
  | [] => Ok (planned parcels)
  | unit :: rest =>
      open ← placeInOpen unit parcels;
      match open with
      | Some parcels' => placeUnits rest parcels'
      | None =>
          match openParcel unit (Z.of_nat (length parcels) + 1) supportedCategories with
          | None => Ok (no_fit (packingUnitKey unit) (id <$> supportedCategories))
          | Some newParcel => placeUnits rest (parcels ++ [newParcel])
          end
      end
  end.

Definition planShipment : result ShipmentPlanResult :=
  throw_when ((fillCoefficientNumerator input <=? 0) || (fillCoefficientDenominator input <=? 0)
    || (fillCoefficientDenominator input <? fillCoefficientNumerator input)) RangeError ;;
  throw_when (packagingWeightMilligrams input <? 0) RangeError ;;
  foldM checkCategoryId ∅ (categories input) ;;
  foldM checkUnit ∅ (units input) ;;
  traverse checkCategory supportedCategories ;;
  placeUnits (sortedUnits (units input)) [].
End plan.

Definition expandShipmentBox (source : ShipmentBox) (reservePerSideMicrometers : Z)
    : result ShipmentBox :=
  validateBox source ;;
  throw_when (reservePerSideMicrometers <? 0) RangeError ;;
  let totalReserve := reservePerSideMicrometers * 2 in
  Ok (mkBox (xMicrometers source + totalReserve) (yMicrometers source + totalReserve)
        (zMicrometers source + totalReserve)).

(** ** Specification *)

(** The six orientations of a box. *)
Definition orientationsOf (b : ShipmentBox) : list ShipmentBox :=
  let '(mkBox x y z) := b in
  [mkBox x y z; mkBox x z y; mkBox y x z; mkBox y z x; mkBox z x y; mkBox z y x].

(** A placed unit stays inside a box. *)
Definition inside (b : ShipmentBox) (p : ShipmentPlacement) : Prop :=
  let o := originMicrometers p in
  let d := orientedBox p in
  (0 ≤ px o ∧ px o + xMicrometers d ≤ xMicrometers b)
  ∧ (0 ≤ py o ∧ py o + yMicrometers d ≤ yMicrometers b)
  ∧ (0 ≤ pz o ∧ pz o + zMicrometers d ≤ zMicrometers b).

(** Two placed units are separated by a plane orthogonal to some axis. *)
Definition apart (p q : ShipmentPlacement) : Prop :=
  let o := originMicrometers p in let d := orientedBox p in
  let o' := originMicrometers q in let d' := orientedBox q in
  px o + xMicrometers d ≤ px o' ∨ px o' + xMicrometers d' ≤ px o
  ∨ py o + yMicrometers d ≤ py o' ∨ py o' + yMicrometers d' ≤ py o
  ∨ pz o + zMicrometers d ≤ pz o' ∨ pz o' + zMicrometers d' ≤ pz o.

Definition places (u : ShipmentPackingUnit) (p : ShipmentPlacement) : Prop :=
  placed_packingUnitKey p = packingUnitKey u ∧ orientedBox p ∈ orientationsOf (box u).

Definition box_wf (b : ShipmentBox) : Prop :=
  0 < xMicrometers b ∧ 0 < yMicrometers b ∧ 0 < zMicrometers b.

Section spec.
Context (input : ShipmentPlannerInput).

Definition unit_wf (u : ShipmentPackingUnit) : Prop :=
  packingUnitKey u ≠ [] ∧ box_wf (box u) ∧ 0 ≤ weightMilligrams u.

(** What the validation accepts. *)
Record input_wf : Prop := {
  wf_fill : 0 < fillCoefficientNumerator input ≤ fillCoefficientDenominator input;
  wf_packaging : 0 ≤ packagingWeightMilligrams input;
  wf_categoryIds : Forall (λ c, id c ≠ []) (categories input) ∧ NoDup (id <$> categories input);
  wf_units : Forall unit_wf (units input);
  wf_keys : NoDup (packingUnitKey <$> units input);
  wf_categories : Forall (λ c, checkCategory c = Ok ()) (supportedCategories input);
}.

(** The volume a parcel of these units is charged: the sum of their volumes,
    divided by the fill coefficient and rounded up. *)
Definition proxyVolume (us : list ShipmentPackingUnit) : Z :=
  Arith.cdiv (sum_by (λ u, volume (box u)) us * fillCoefficientDenominator input)
    (fillCoefficientNumerator input).

(** A parcel that holds exactly the units [us], within the limits of a
    supported category. *)
Record parcel_valid (us : list ShipmentPackingUnit) (p : ShipmentParcel) : Prop := {
  pv_nonempty : us ≠ [];
  pv_category : ∃ c, c ∈ supportedCategories input ∧ id c = categoryId p
    ∧ fits c (packingBox p) (parcel_weightMilligrams p) (volumeProxyCubicMicrometers p) = true;
  pv_weight : parcel_weightMilligrams p
    = packagingWeightMilligrams input + sum_by weightMilligrams us;
  pv_volume : volumeProxyCubicMicrometers p = proxyVolume us;
  pv_places : Forall2 places us (placements p);
  pv_box : box_wf (packingBox p);
  pv_inside : Forall (inside (packingBox p)) (placements p);
  pv_apart : StronglySorted apart (placements p);
}.

(** A unit fits a category in a parcel of its own. *)
Definition fitsAlone (c : ShipmentCategory) (u : ShipmentPackingUnit) : Prop :=
  ∃ o, o ∈ orientationsOf (box u)
    ∧ fits c o (packagingWeightMilligrams input + weightMilligrams u) (proxyVolume [u]) = true.
End spec.

(** ** Facts *)

Lemma toString10_no_comma z : Forall (.≠ 44) (toString10 z).
Proof.
  unfold toString10, toString.
  assert (∀ n, 0 ≤ n → Forall (.≠ 44) (radix_text 10 n)) as H.
  { intros n Hn. destruct (radix_text_spec 10 n) as (ds & -> & _ & HF & _); [lia|done|].
    apply Forall_fmap. eapply Forall_impl; [exact HF|]. intros d Hd. cbn in *.
    unfold radix_char. destruct (Z.ltb_spec d 10); lia. }
  destruct (Z.ltb_spec z 0); [constructor; [done|]|]; apply H; lia.
Qed.

Lemma boxKey_inj b b' : boxKey b = boxKey b' → b = b'.
Proof.
  destruct b as [x y z], b' as [x' y' z']. unfold boxKey. cbn [xMicrometers yMicrometers zMicrometers js app].
  intros H. cbn in H. apply cut_unique in H as [Hx H]; try apply toString10_no_comma.
  apply cut_unique in H as [Hy H]; try apply toString10_no_comma.
  by apply (inj toString10) in Hx as ->, Hy as ->, H as ->.
Qed.

Definition orientation_at (values : list Z) (p : nat * nat) : ShipmentBox :=
  mkBox (values !!! p.1) (values !!! p.2) (values !!! (3 - p.1 - p.2)%nat).

Lemma addRotations_spec values pairs seen res :
  (∀ o, o ∈ res ↔ boxKey o ∈ seen) →
  ∀ o, o ∈ (foldl (addRotation values) (seen, res) pairs).2 ↔
    o ∈ res ∨ ∃ p, p ∈ pairs ∧ p.2 ≠ p.1 ∧ o = orientation_at values p.
Proof.
  revert seen res. induction pairs as [|[i j] pairs IH]; intros seen res Hinv o; cbn [foldl].
  - cbn. split; [by left|]. intros [?|(p & []%not_elem_of_nil & _)]. done.
  - unfold addRotation at 2. destruct (Nat.eqb_spec j i) as [->|Hne].
    { rewrite IH by done. split; (intros [?|(p & Hp & Hd & ->)]; [by left|right; exists p]).
      - split_and!; [by right|done|done].
      - apply elem_of_cons in Hp as [->|Hp]; done. }
    change (mkBox _ _ _) with (orientation_at values (i, j)).
    assert (∀ b, o ∈ (foldl (addRotation values) b pairs).2 ↔ o ∈ b.2
      ∨ (∃ p, p ∈ pairs ∧ p.2 ≠ p.1 ∧ o = orientation_at values p) →
      (o ∈ b.2 ↔ o ∈ res ∨ o = orientation_at values (i, j)) →
      o ∈ (foldl (addRotation values) b pairs).2 ↔ o ∈ res
      ∨ ∃ p, p ∈ (i, j) :: pairs ∧ p.2 ≠ p.1 ∧ o = orientation_at values p) as Hcombine.
    { intros b -> ->. setoid_rewrite elem_of_cons. naive_solver. }
    case_bool_decide as Hseen; apply Hcombine.
    + by apply IH.
    + cbn. apply Hinv in Hseen. naive_solver.
    + apply IH. intros o'. cbn [snd]. rewrite elem_of_app, list_elem_of_singleton, Hinv.
      rewrite elem_of_union, elem_of_singleton. split; [naive_solver|].
      intros [Hk|?]; [right|by left]. by apply boxKey_inj.
    + cbn. by rewrite elem_of_app, list_elem_of_singleton.
Qed.

Lemma rotations_spec b o : o ∈ rotations b ↔ o ∈ orientationsOf b.
Proof.
  destruct b as [x y z]. unfold rotations. rewrite elem_of_js_sort, addRotations_spec.
  - unfold orientationsOf. cbn [xMicrometers yMicrometers zMicrometers]. split.
    + intros [[]%not_elem_of_nil|([i j] & Hp & Hne & ->)]. cbn in Hp.
      repeat (apply elem_of_cons in Hp as [[= -> ->]|Hp]; [cbn in Hne |- *; try done; set_solver|]).
      by apply not_elem_of_nil in Hp.
    + intros H. right.
      repeat (apply elem_of_cons in H as [->|H]);
        [exists (0, 1)%nat|exists (0, 2)%nat|exists (1, 0)%nat|exists (1, 2)%nat
        |exists (2, 0)%nat|exists (2, 1)%nat|by apply not_elem_of_nil in H];
        (split_and!; [apply (bool_decide_unpack _); vm_compute; exact I|done|done]).
  - intros o'. set_solver.
Qed.

Lemma rotation_volume b o : o ∈ orientationsOf b → volume o = volume b.
Proof.
  destruct b as [x y z]. unfold orientationsOf, volume.
  intros H. repeat (apply elem_of_cons in H as [->|H]; [cbn; lia|]). by apply not_elem_of_nil in H.
Qed.

Lemma rotation_wf b o : o ∈ orientationsOf b → box_wf b → box_wf o.
Proof.
  destruct b as [x y z]. unfold orientationsOf, box_wf. cbn.
  intros H ?. repeat (apply elem_of_cons in H as [->|H]; [cbn; lia|]). by apply not_elem_of_nil in H.
Qed.

Lemma rotation_self b : b ∈ orientationsOf b.
Proof. destruct b. by left. Qed.

Lemma fits_iff c b w v :
  fits c b w v = true ↔
    xMicrometers b ≤ maxXMicrometers c ∧ yMicrometers b ≤ maxYMicrometers c
    ∧ zMicrometers b ≤ maxZMicrometers c
    ∧ xMicrometers b + yMicrometers b + zMicrometers b ≤ maxDimensionSumMicrometers c
    ∧ w ≤ maxWeightMilligrams c ∧ v ≤ maxParcelVolumeCubicMicrometers c.
Proof. unfold fits. rewrite !andb_true_iff, !Z.leb_le. tauto. Qed.

Lemma ceilDivide_cdiv n d : 0 ≤ n → 0 < d → ceilDivide n d = Arith.cdiv n d.
Proof. intros. unfold ceilDivide, Arith.cdiv. by rewrite Z.quot_div_nonneg by lia. Qed.

Lemma larger_max a b : larger a b = Z.max a b.
Proof. unfold larger. destruct (Z.ltb_spec b a); lia. Qed.

Lemma volume_pos b : box_wf b → 0 < volume b.
Proof. unfold box_wf, volume. nia. Qed.

(** A unit put against a face of the packing box. *)
Lemma placedBox_grows b o a p :
  box_wf b → box_wf o → inside b p → inside (placedBox (Some b) o a) p.
Proof.
  unfold inside, box_wf. destruct a; cbn; rewrite ?larger_max; lia.
Qed.

Lemma placedBox_wf b o a : box_wf b → box_wf o → box_wf (placedBox (Some b) o a).
Proof. unfold box_wf. destruct a; cbn; rewrite ?larger_max; lia. Qed.

Lemma select_elem l c : select l = Some c → c ∈ l.
Proof. unfold select. intros H%head_Some_elem_of. by apply elem_of_js_sort in H. Qed.

Lemma select_None l : select l = None ↔ l = [].
Proof.
  unfold select. rewrite head_None. split; [|by intros ->].
  intros H. apply Permutation_nil_r. by rewrite <-H, js_sort_perm.
Qed.

Section plan_facts.
Context (input : ShipmentPlannerInput).

Lemma candidatesIn_spec c cur u axes k :
  k ∈ candidatesIn input c cur u axes ↔
    ∃ o a, o ∈ orientationsOf (box u) ∧ a ∈ axes
      ∧ candidateFor c cur u o a (fillCoefficientNumerator input)
          (fillCoefficientDenominator input) (packagingWeightMilligrams input) = Some k.
Proof.
  unfold candidatesIn. rewrite list_elem_of_bind. split.
  - intros (o & (a & Ha & Hk)%list_elem_of_omap & Ho%rotations_spec). eauto.
  - intros (o & a & Ho%rotations_spec & Ha & Hk). exists o. rewrite list_elem_of_omap. eauto.
Qed.

Lemma sum_oriented us ps :
  Forall2 places us ps →
  sum_by (λ p, volume (orientedBox p)) ps = sum_by (λ u, volume (box u)) us.
Proof.
  induction 1 as [|u p us ps [_ Ho] _ IH]; [done|]. rewrite !sum_by_cons, IH.
  by rewrite (rotation_volume _ _ Ho).
Qed.

Hypothesis Hwf : input_wf input.

Lemma proxy_of_oriented us :
  Forall unit_wf us →
  ceilDivide (sum_by (λ u, volume (box u)) us * fillCoefficientDenominator input)
    (fillCoefficientNumerator input) = proxyVolume input us.
Proof.
  intros HF. destruct (wf_fill _ Hwf). apply ceilDivide_cdiv; [|lia].
  assert (0 ≤ sum_by (λ u, volume (box u)) us); [|nia].
  apply sum_by_nonneg. intros u Hu. rewrite Forall_forall in HF.
  destruct (HF u Hu) as (_ & Hb & _). pose proof (volume_pos _ Hb). lia.
Qed.

(** A unit added to an open parcel. *)
Lemma extend_valid c us p u k :
  c ∈ supportedCategories input → id c = categoryId p → Forall unit_wf (us ++ [u]) →
  parcel_valid input us p → k ∈ candidatesIn input c (Some p) u AXES →
  parcel_valid input (us ++ [u])
    (mkParcel (ordinal p) (categoryId p) (candidate_box k) (candidate_volumeProxy k)
       (candidate_weight k) (placements p ++ [placementOf u k])).
Proof.
  intros Hc Hid Hus Hp (o & a & Ho & Ha & Hk)%candidatesIn_spec. unfold candidateFor in Hk.
  apply Forall_app in Hus as Hus'. destruct Hus' as [_ [Hu _]%Forall_cons].
  pose proof (rotation_wf _ _ Ho (proj1 (proj2 Hu))) as How.
  case_match eqn:Hfits; [|done]. injection Hk as <-.
  cbn [fmap option_fmap option_map default from_option] in *.
  rewrite (sum_oriented us) in * by apply Hp.
  destruct Hp as [Hne Hcat Hw Hv Hpl Hb Hin Hap].
  split; cbn [ordinal categoryId packingBox volumeProxyCubicMicrometers parcel_weightMilligrams
    placements candidate_box candidate_volumeProxy candidate_weight].
  - by destruct us.
  - exists c. done.
  - rewrite Hw, sum_by_app, sum_by_cons, sum_by_nil. lia.
  - rewrite <-(proxy_of_oriented (us ++ [u])) by done. f_equal.
    rewrite sum_by_app, sum_by_cons, sum_by_nil, (rotation_volume _ _ Ho). lia.
  - apply Forall2_app; [done|]. constructor; [by split|constructor].
  - by apply placedBox_wf.
  - apply Forall_app. split.
    + eapply Forall_impl; [exact Hin|]. intros q. by apply placedBox_grows.
    + constructor; [|constructor]. unfold inside, box_wf in *.
      destruct a; cbn; rewrite ?larger_max; lia.
  - apply StronglySorted_app_2; [|done|by repeat constructor].
    intros q r Hq ->%list_elem_of_singleton. rewrite Forall_forall in Hin.
    specialize (Hin q Hq). unfold inside, apart in *. destruct a; cbn; lia.
Qed.

(** A unit in a parcel of its own. *)
Lemma open_valid c u k n :
  c ∈ supportedCategories input → unit_wf u → k ∈ candidatesIn input c None u [axisX] →
  parcel_valid input [u]
    (mkParcel n (id c) (candidate_box k) (candidate_volumeProxy k) (candidate_weight k)
       [placementOf u k]).
Proof.
  intros Hc Hu (o & a & Ho & _ & Hk)%candidatesIn_spec. unfold candidateFor in Hk.
  pose proof (rotation_wf _ _ Ho (proj1 (proj2 Hu))) as How.
  case_match eqn:Hfits; [|done]. injection Hk as <-.
  cbn [fmap option_fmap option_map default from_option placedBox] in *.
  split; cbn [ordinal categoryId packingBox volumeProxyCubicMicrometers parcel_weightMilligrams
    placements candidate_box candidate_volumeProxy candidate_weight].
  - done.
  - exists c. done.
  - rewrite sum_by_cons, sum_by_nil. lia.
  - rewrite <-(proxy_of_oriented [u]) by (by constructor). f_equal.
    rewrite sum_by_cons, sum_by_nil, (rotation_volume _ _ Ho). lia.
  - constructor; [by split|constructor].
  - done.
  - constructor; [|constructor]. unfold inside, box_wf in *. cbn. lia.
  - repeat constructor.
Qed.

(** There is a candidate for a new parcel exactly when the unit fits. *)
Lemma open_candidates c u :
  unit_wf u → fitsAlone input c u ↔ ∃ k, k ∈ candidatesIn input c None u [axisX].
Proof.
  intros Hu. unfold fitsAlone. setoid_rewrite candidatesIn_spec.
  assert (∀ o, o ∈ orientationsOf (box u) →
    ceilDivide (0 * fillCoefficientDenominator input + volume o * fillCoefficientDenominator input)
      (fillCoefficientNumerator input) = proxyVolume input [u]) as Hproxy.
  { intros o Ho. rewrite <-(proxy_of_oriented [u]) by (by constructor). f_equal.
    rewrite sum_by_cons, sum_by_nil, (rotation_volume _ _ Ho). lia. }
  split.
  - intros (o & Ho & Hf). do 2 eexists. exists axisX. split; [done|]. split; [by left|].
    unfold candidateFor. cbn [fmap option_fmap option_map default from_option placedBox].
    by rewrite Hproxy, Hf.
  - intros (k & o & a & Ho & _ & Hk). exists o. split; [done|]. unfold candidateFor in Hk.
    cbn [fmap option_fmap option_map default from_option placedBox] in Hk.
    rewrite Hproxy in Hk by done. by case_match.
Qed.

Lemma find_category p :
  (∃ c, c ∈ supportedCategories input ∧ id c = categoryId p) →
  ∃ c, List.find (λ c, str_eqb (id c) (categoryId p)) (supportedCategories input) = Some c
    ∧ c ∈ supportedCategories input ∧ id c = categoryId p.
Proof.
  intros (c & Hc & Hid). destruct (List.find _ _) as [d|] eqn:Hf.
  - apply find_some in Hf as [Hd%list_elem_of_In Heq]. unfold str_eqb in Heq. bool_inv. eauto.
  - apply list_elem_of_In in Hc. eapply find_none in Hf; [|done].
    unfold str_eqb in Hf. bool_inv. done.
Qed.

(** Placing into the open parcels never fails, and keeps the plan valid. *)
Lemma placeInOpen_valid u uss ps :
  unit_wf u → Forall unit_wf (concat uss) → Forall2 (parcel_valid input) uss ps →
  placeInOpen input u ps = Ok None
  ∨ ∃ uss' ps', placeInOpen input u ps = Ok (Some ps')
      ∧ Forall2 (parcel_valid input) uss' ps' ∧ concat uss' ≡ₚ u :: concat uss
      ∧ ordinal <$> ps' = ordinal <$> ps.
Proof.
  intros Hu Hall H. induction H as [|us p uss ps Hp Hrest IH]; [by left|].
  cbn [concat] in Hall. apply Forall_app in Hall as [Hus Hall]. cbn [placeInOpen].
  destruct (find_category p) as (c & -> & Hc & Hid).
  { destruct (pv_category _ _ _ Hp) as (c & ? & ? & _). eauto. }
  destruct (select _) as [k|] eqn:Hsel.
  - right. apply select_elem in Hsel. exists ((us ++ [u]) :: uss). eexists. split; [reflexivity|].
    split_and!.
    + constructor; [|done]. eapply extend_valid; try done. apply Forall_app. split; [done|by constructor].
    + cbn [concat]. rewrite <-app_assoc. cbn [app]. by rewrite Permutation_middle.
    + done.
  - destruct (IH Hall) as [->|(uss' & ps' & -> & Hps & Hperm & Hord)]; [by left|right].
    exists (us :: uss'). eexists. split; [reflexivity|]. split_and!.
    + by constructor.
    + cbn [concat]. by rewrite Hperm, Permutation_middle.
    + cbn. by f_equal.
Qed.

Lemma openParcel_Some u n cs p :
  unit_wf u → (∀ c, c ∈ cs → c ∈ supportedCategories input) →
  openParcel input u n cs = Some p → parcel_valid input [u] p ∧ ordinal p = n.
Proof.
  intros Hu. induction cs as [|c cs IH]; [done|]. intros Hcs. cbn [openParcel].
  destruct (select _) as [k|] eqn:Hsel.
  - intros [= <-]. apply select_elem in Hsel. split; [|done].
    apply open_valid; [|done|done]. apply Hcs. by left.
  - apply IH. intros d Hd. apply Hcs. by right.
Qed.

Lemma openParcel_None u n cs :
  unit_wf u → openParcel input u n cs = None ↔ ∀ c, c ∈ cs → ¬ fitsAlone input c u.
Proof.
  intros Hu. induction cs as [|c cs IH]; cbn [openParcel].
  - split; [|done]. by intros _ c []%not_elem_of_nil.
  - destruct (select _) as [k|] eqn:Hsel.
    + split; [done|]. intros H. exfalso. apply (H c); [by left|].
      apply open_candidates; [done|]. exists k. by apply select_elem in Hsel.
    + apply select_None in Hsel. rewrite IH. split.
      * intros H d [->|Hd]%elem_of_cons; [|auto]. rewrite open_candidates by done.
        rewrite Hsel. by intros (k & []%not_elem_of_nil).
      * intros H d Hd. apply H. by right.
Qed.

(** A plan for the units [done] whose parcels are numbered from one. *)
Definition plan_valid (done : list ShipmentPackingUnit) (ps : list ShipmentParcel) : Prop :=
  (∃ uss, Forall2 (parcel_valid input) uss ps ∧ concat uss ≡ₚ done)
  ∧ ordinal <$> ps = (λ i, Z.of_nat i + 1) <$> seq 0 (length ps).

(** The loop always ends with a valid plan, or with a unit no supported
    category can take. *)
Lemma placeUnits_valid us done ps :
  Forall unit_wf us → Forall unit_wf done → plan_valid done ps →
  (∃ ps', placeUnits input us ps = Ok (planned ps') ∧ plan_valid (us ++ done) ps')
  ∨ (∃ u, placeUnits input us ps = Ok (no_fit (packingUnitKey u) (id <$> supportedCategories input))
      ∧ u ∈ us ∧ ∀ c, c ∈ supportedCategories input → ¬ fitsAlone input c u).
Proof.
  intros Hus. revert done ps. induction Hus as [|u us Hu Hus IH]; intros done ps Hd Hps.
  { left. eauto. }
  cbn [placeUnits]. destruct Hps as [(uss & Hps & Hperm) Hord].
  assert (Forall unit_wf (concat uss)) as Hall by by rewrite Hperm.
  assert (∀ ps', plan_valid (u :: done) ps' →
    (∃ ps'', placeUnits input us ps' = Ok (planned ps'') ∧ plan_valid ((u :: us) ++ done) ps'')
    ∨ (∃ v, placeUnits input us ps' = Ok (no_fit (packingUnitKey v) (id <$> supportedCategories input))
        ∧ v ∈ u :: us ∧ ∀ c, c ∈ supportedCategories input → ¬ fitsAlone input c v)) as Hnext.
  { intros ps' Hps'. destruct (IH (u :: done) ps') as [(ps'' & -> & [(vss & Hv & Hp) Ho])|(v & -> & Hv & Hn)].
    - by constructor.
    - done.
    - left. eexists. split; [reflexivity|]. split; [|done]. exists vss. split; [done|].
      rewrite Hp. cbn [app]. by rewrite Permutation_middle.
    - right. exists v. split_and!; [done|by right|done]. }
  destruct (placeInOpen_valid u uss ps Hu Hall Hps) as [->|(uss' & ps' & -> & Hps' & Hperm' & Hord')]; run.
  - destruct (openParcel _ _ _ _) as [p|] eqn:Hopen.
    + apply openParcel_Some in Hopen as [Hp Hn]; [|done|done]. apply Hnext. split.
      * exists (uss ++ [[u]]). split; [by apply Forall2_app; [|constructor]|].
        rewrite concat_app, Hperm. cbn. by rewrite Permutation_app_comm.
      * rewrite fmap_app, Hord, length_app. cbn [length]. rewrite Nat.add_1_r, seq_S, fmap_app.
        cbn. by rewrite Hn.
    + rewrite openParcel_None in Hopen by done. right. exists u. split_and!; [done|by left|done].
  - apply Hnext. split.
    + exists uss'. split; [done|]. by rewrite Hperm', Hperm.
    + rewrite Hord', Hord. apply (f_equal length) in Hord'. rewrite !length_fmap in Hord'. by rewrite Hord'.
Qed.

(** A unit inside a valid parcel would fit its category alone. *)
Lemma inside_fitsAlone us p u :
  Forall unit_wf us → parcel_valid input us p → u ∈ us →
  ∃ c, c ∈ supportedCategories input ∧ fitsAlone input c u.
Proof.
  intros HF Hp Hu. destruct (pv_category _ _ _ Hp) as (c & Hc & _ & Hf). exists c. split; [done|].
  rewrite Forall_forall in HF. destruct (HF u Hu) as (_ & Hb & Hw).
  apply list_elem_of_lookup in Hu as Hi. destruct Hi as [i Hi].
  destruct (Forall2_lookup_l _ _ _ _ _ (pv_places _ _ _ Hp) Hi) as (q & Hq & _ & Ho).
  pose proof (Forall_lookup_1 _ _ _ _ (pv_inside _ _ _ Hp) Hq) as Hin.
  exists (orientedBox q). split; [done|]. rewrite fits_iff in Hf |- *. unfold inside in Hin.
  rewrite (pv_weight _ _ _ Hp), (pv_volume _ _ _ Hp) in Hf.
  assert (weightMilligrams u ≤ sum_by weightMilligrams us).
  { apply (sum_by_elem weightMilligrams); [|done]. intros v Hv. by destruct (HF v Hv) as (_ & _ & ?). }
  assert (volume (box u) ≤ sum_by (λ u, volume (box u)) us).
  { apply (sum_by_elem (λ u, volume (box u))); [|done]. intros v Hv.
    destruct (HF v Hv) as (_ & Hbv & _). pose proof (volume_pos _ Hbv). lia. }
  assert (proxyVolume input [u] ≤ proxyVolume input us).
  { unfold proxyVolume. destruct (wf_fill _ Hwf). apply Arith.cdiv_le_iff; [lia|].
    rewrite sum_by_cons, sum_by_nil.
    pose proof (Arith.cdiv_bounds (sum_by (λ u, volume (box u)) us * fillCoefficientDenominator input)
      (fillCoefficientNumerator input) ltac:(lia)). nia. }
  lia.
Qed.
End plan_facts.

Lemma positive_Ok v u : positive v = Ok u ↔ 0 < v.
Proof. unfold positive. rewrite throw_when_Ok. apply Z.leb_gt. Qed.

Lemma validateBox_Ok b u : validateBox b = Ok u ↔ box_wf b.
Proof.
  unfold validateBox, box_wf. split.
  - intros H. ok_inv. by rewrite !positive_Ok in *.
  - intros (Hx & Hy & Hz). destruct u. by rewrite !(proj2 (positive_Ok _ ())) by done.
Qed.

Lemma checkCategoryId_Ok s c s' :
  checkCategoryId s c = Ok s' ↔ id c ≠ [] ∧ id c ∉ s ∧ s' = {[id c]} ∪ s.
Proof.
  unfold checkCategoryId. split.
  - intros H. ok_inv. bool_inv. done.
  - intros (? & ? & ->). by rewrite !bool_decide_eq_false_2.
Qed.

Lemma checkUnit_Ok s u s' :
  checkUnit s u = Ok s' ↔ unit_wf u ∧ packingUnitKey u ∉ s ∧ s' = {[packingUnitKey u]} ∪ s.
Proof.
  unfold checkUnit, unit_wf. split.
  - intros H. ok_inv. bool_inv.
    match goal with H : validateBox _ = _ |- _ => apply validateBox_Ok in H end. done.
  - intros ((? & Hb & Hw) & ? & ->). rewrite !bool_decide_eq_false_2 by done. cbn [throw_when]. run.
    rewrite (proj2 (validateBox_Ok _ ()) Hb). run. by rewrite (proj2 (Z.ltb_ge _ _) Hw).
Qed.

Lemma traverse_units (cs : list ShipmentCategory) r :
  traverse checkCategory cs = Ok r ↔ Forall (λ c, checkCategory c = Ok ()) cs ∧ r = (λ _, ()) <$> cs.
Proof.
  rewrite traverse_Ok. split.
  - induction 1 as [|c [] cs r Hc _ [IH ->]]; [done|]. split; [by constructor|done].
  - intros [HF ->]. induction HF; by constructor.
Qed.

Lemma planShipment_Ok input r :
  planShipment input = Ok r ↔ input_wf input ∧ placeUnits input (sortedUnits (units input)) [] = Ok r.
Proof.
  unfold planShipment. split.
  - intros H. ok_inv. bool_inv. split; [|done].
    repeat match goal with
    | H : foldM checkCategoryId _ _ = _ |- _ =>
        apply (foldM_unique checkCategoryId id _ checkCategoryId_Ok) in H as (? & ? & _)
    | H : foldM checkUnit _ _ = _ |- _ =>
        apply (foldM_unique checkUnit packingUnitKey _ checkUnit_Ok) in H as (? & ? & _)
    | H : traverse _ _ = _ |- _ => apply traverse_units in H as [? _]
    end. by split; try lia.
  - intros [[? ? [? ?] ? ? ?] Hr].
    rewrite (proj2 (Z.leb_gt (fillCoefficientNumerator input) 0)),
      (proj2 (Z.leb_gt (fillCoefficientDenominator input) 0)),
      (proj2 (Z.ltb_ge (fillCoefficientDenominator input) _)),
      (proj2 (Z.ltb_ge (packagingWeightMilligrams input) 0)) by lia.
    cbn [orb throw_when]. run.
    rewrite (proj2 (foldM_unique checkCategoryId id _ checkCategoryId_Ok (categories input) ∅
      (list_to_set (id <$> categories input) ∪ ∅))) by (split_and!; try done; intros ? _; set_solver). run.
    rewrite (proj2 (foldM_unique checkUnit packingUnitKey _ checkUnit_Ok (units input) ∅
      (list_to_set (packingUnitKey <$> units input) ∪ ∅))) by (split_and!; try done; intros ? _; set_solver). run.
    rewrite (proj2 (traverse_units _ ((λ _, ()) <$> supportedCategories input))) by done. done.
Qed.

Lemma sortedUnits_wf input : input_wf input → Forall unit_wf (sortedUnits (units input)).
Proof. intros Hwf. unfold sortedUnits. rewrite js_sort_perm. apply Hwf. Qed.

Lemma placeUnits_start input :
  input_wf input →
  (∃ ps, placeUnits input (sortedUnits (units input)) [] = Ok (planned ps)
      ∧ plan_valid input (units input) ps)
  ∨ (∃ u, placeUnits input (sortedUnits (units input)) []
        = Ok (no_fit (packingUnitKey u) (id <$> supportedCategories input))
      ∧ u ∈ units input ∧ ∀ c, c ∈ supportedCategories input → ¬ fitsAlone input c u).
Proof.
  intros Hwf. destruct (placeUnits_valid input Hwf (sortedUnits (units input)) [] [])
    as [(ps & -> & [(uss & Hps & Hperm) Hord])|(u & -> & Hu & Hn)].
  - by apply sortedUnits_wf.
  - constructor.
  - split; [|done]. by exists [].
  - left. eexists. split; [done|]. split; [|done]. exists uss. split; [done|].
    rewrite Hperm, (right_id_L [] (++)). apply js_sort_perm.
  - right. exists u. split_and!; try done. by apply elem_of_js_sort in Hu.
Qed.

(** Listing the units differently. *)
Definition with_units (input : ShipmentPlannerInput) (us : list ShipmentPackingUnit)
    : ShipmentPlannerInput :=
  mkInput us (categories input) (supportedCategoryIds input) (fillCoefficientNumerator input)
    (fillCoefficientDenominator input) (packagingWeightMilligrams input).

Lemma with_units_wf input us : input_wf input → units input ≡ₚ us → input_wf (with_units input us).
Proof.
  intros [? ? ? HF HN ?] Hperm. split; try done; cbn [units with_units]; by rewrite <-Hperm.
Qed.

Lemma placeUnits_with_units input us l ps :
  placeUnits (with_units input us) l ps = placeUnits input l ps.
Proof. done. Qed.

#[export] Instance compareUnits_comparator : Comparator compareUnits.
Proof. unfold compareUnits. apply _. Qed.

Lemma sortedUnits_perm input us :
  input_wf input → units input ≡ₚ us → sortedUnits (units input) = sortedUnits us.
Proof.
  intros Hwf Hperm. apply js_sort_unique; [apply _| |done].
  intros u v Hu Hv. unfold compareUnits. rewrite !js_or_0, compareStrings_0. intros (_ & _ & Hk).
  apply list_elem_of_lookup in Hu as [i Hi], Hv as [j Hj].
  assert (i = j) as ->; [|congruence].
  eapply NoDup_lookup; [exact (wf_keys _ Hwf)|by rewrite list_lookup_fmap, Hi|].
  by rewrite list_lookup_fmap, Hj, Hk.
Qed.
End ShipmentPlan.

(** ** Properties *)

(** C31: every plan is valid.  When [planShipment] plans, the units are
    distributed over the parcels, each in exactly one; every parcel is within
    the limits of the supported category it names, weighs its packaging and
    its units, is charged the fill-adjusted volume of its units, and holds
    each of them in one of its six orientations, inside the parcel's box and
    apart from all the others; and the parcels are numbered from one. *)
Theorem planShipment_sound (input : ShipmentPlan.ShipmentPlannerInput)
    (parcels : list ShipmentPlan.ShipmentParcel) :
  ShipmentPlan.planShipment input = Ok (ShipmentPlan.planned parcels) →
  (∃ assigned, concat assigned ≡ₚ ShipmentPlan.units input
    ∧ Forall2 (ShipmentPlan.parcel_valid input) assigned parcels)
  ∧ ShipmentPlan.ordinal <$> parcels = (λ i, Z.of_nat i + 1) <$> seq 0 (length parcels).
Proof.
  intros [Hwf H]%ShipmentPlan.planShipment_Ok.
  destruct (ShipmentPlan.placeUnits_start input Hwf) as [(ps & Hps & [(uss & ? & ?) ?])|(u & Hu & _)].
  - rewrite Hps in H. injection H as <-. split; [by exists uss|done].
  - rewrite Hu in H. discriminate H.
Qed.

(** A small and a heavy category, two units that share a parcel and one that
    needs its own. *)
Definition sample_plan_input (third : Z) : ShipmentPlan.ShipmentPlannerInput :=
  let unit k x y z w := ShipmentPlan.mkUnit k (ShipmentPlan.mkBox x y z) w in
  ShipmentPlan.mkInput
    [unit (js "a") 10 20 30 5; unit (js "b") 30 10 20 5; unit (js "c") third 10 10 195]
    [ShipmentPlan.mkCategory (js "small") 40 40 40 100 20 100000;
     ShipmentPlan.mkCategory (js "heavy") 60 60 60 150 200 300000]
    {[js "small"; js "heavy"]} 4 5 1.

Lemma planShipment_sound_witness :
  ∃ parcels, ShipmentPlan.planShipment (sample_plan_input 60) = Ok (ShipmentPlan.planned parcels)
    ∧ length parcels = 2%nat
    ∧ ShipmentPlan.ordinal <$> parcels = (λ i, Z.of_nat i + 1) <$> seq 0 (length parcels).
Proof.
  destruct (ShipmentPlan.planShipment (sample_plan_input 60)) as [[parcels|]|] eqn:Hp;
    try (vm_compute in Hp; discriminate Hp).
  exists parcels. split; [reflexivity|]. split.
  - vm_compute in Hp. injection Hp as <-. reflexivity.
  - exact (proj2 (planShipment_sound _ _ Hp)).
Defined.

(** C32: planning returns for exactly the inputs its checks document, and it
    plans exactly when every unit fits some supported category by itself;
    otherwise it names a unit that fits none, with the categories it tried. *)
Theorem planShipment_complete (input : ShipmentPlan.ShipmentPlannerInput) :
  (ShipmentPlan.input_wf input ↔ ∃ r, ShipmentPlan.planShipment input = Ok r)
  ∧ ∀ r, ShipmentPlan.planShipment input = Ok r →
      ((∃ parcels, r = ShipmentPlan.planned parcels) ↔
        ∀ u, u ∈ ShipmentPlan.units input →
          ∃ c, c ∈ ShipmentPlan.supportedCategories input ∧ ShipmentPlan.fitsAlone input c u)
      ∧ ∀ k ids, r = ShipmentPlan.no_fit k ids →
          ids = ShipmentPlan.id <$> ShipmentPlan.supportedCategories input
          ∧ ∃ u, u ∈ ShipmentPlan.units input ∧ ShipmentPlan.packingUnitKey u = k
            ∧ ∀ c, c ∈ ShipmentPlan.supportedCategories input → ¬ ShipmentPlan.fitsAlone input c u.
Proof.
  split.
  { split; [|by intros (r & [? _]%ShipmentPlan.planShipment_Ok)]. intros Hwf.
    destruct (ShipmentPlan.placeUnits_start input Hwf) as [(ps & ? & _)|(u & ? & _)];
      eexists; by apply ShipmentPlan.planShipment_Ok. }
  intros r [Hwf Hr]%ShipmentPlan.planShipment_Ok.
  destruct (ShipmentPlan.placeUnits_start input Hwf) as [(ps & Hps & [(uss & Hv & Hperm) _])|(u & Hu & Hin & Hn)].
  - rewrite Hps in Hr. injection Hr as <-. split; [|done]. split; [|by eauto]. intros _ u Hu.
    rewrite <-Hperm in Hu. apply list_elem_of_In, in_concat in Hu as (us & Hus & Hu).
    apply list_elem_of_In in Hus, Hu. apply list_elem_of_lookup in Hus as [i Hi].
    destruct (Forall2_lookup_l _ _ _ _ _ Hv Hi) as (p & _ & Hp).
    apply (ShipmentPlan.inside_fitsAlone input Hwf us p); [|done..]. apply Forall_forall. intros v Hv'.
    pose proof (ShipmentPlan.wf_units _ Hwf) as HF. rewrite Forall_forall in HF. apply HF.
    rewrite <-Hperm. apply list_elem_of_In, in_concat. exists us.
    by rewrite <-!list_elem_of_In; split; [eapply list_elem_of_lookup_2|].
  - rewrite Hu in Hr. injection Hr as <-. split.
    + split; [by intros [? ?]|]. intros Hall. destruct (Hall u Hin) as (c & Hc & Hf). by eapply Hn in Hf.
    + intros k ids [= <- <-]. eauto.
Qed.

Lemma planShipment_complete_witness :
  ∃ u, u ∈ ShipmentPlan.units (sample_plan_input 61) ∧ ShipmentPlan.packingUnitKey u = js "c"
    ∧ ∀ c, c ∈ ShipmentPlan.supportedCategories (sample_plan_input 61) →
        ¬ ShipmentPlan.fitsAlone (sample_plan_input 61) c u.
Proof.
  destruct (ShipmentPlan.planShipment (sample_plan_input 61)) as [[|k ids]|] eqn:Hp;
    try (vm_compute in Hp; discriminate Hp).
  assert (k = js "c") as -> by (vm_compute in Hp; injection Hp; intros; by subst).
  exact (proj2 (proj2 (proj2 (planShipment_complete _) _ Hp) _ _ eq_refl)).
Defined.

(** The plan does not depend on the order the units are listed in. *)
Theorem planShipment_deterministic (input : ShipmentPlan.ShipmentPlannerInput)
    (units' : list ShipmentPlan.ShipmentPackingUnit) (r : ShipmentPlan.ShipmentPlanResult) :
  ShipmentPlan.units input ≡ₚ units' → ShipmentPlan.planShipment input = Ok r →
  ShipmentPlan.planShipment (ShipmentPlan.with_units input units') = Ok r.
Proof.
  intros Hperm [Hwf Hr]%ShipmentPlan.planShipment_Ok. apply ShipmentPlan.planShipment_Ok.
  split; [by apply ShipmentPlan.with_units_wf|].
  rewrite ShipmentPlan.placeUnits_with_units. cbn [ShipmentPlan.units ShipmentPlan.with_units].
  by rewrite <-(ShipmentPlan.sortedUnits_perm input units' Hwf Hperm).
Qed.

Lemma planShipment_deterministic_witness :
  ∃ r, ShipmentPlan.planShipment
    (ShipmentPlan.with_units (sample_plan_input 60) (reverse (ShipmentPlan.units (sample_plan_input 60)))) = Ok r.
Proof.
  destruct (ShipmentPlan.planShipment (sample_plan_input 60)) as [r|] eqn:Hp;
    [|vm_compute in Hp; discriminate Hp].
  exists r. apply (planShipment_deterministic (sample_plan_input 60)); [|exact Hp].
  by rewrite reverse_Permutation.
Defined.
