(* ===== verification/Quote.v ===== *)
(** Order pricing (pricing/quote.ts): from slice metrics and a price list to a
    price breakdown, its components and, with a shipment plan, a binding total
    with its payment schedule.  The theorems say how the components of a
    quote add up, and how the breakdown relates to the price list. *)
From S2P Require Import Prelude Primitives Arithmetic Allocations Payment.

Module Quote.
Import Arith.

(** ** Data *)

Record ProductionMetrics := mkMetrics {
  materialWeightMilligrams : Z;
  machineSeconds : Z;
  plateCount : Z;
  pieceHandlingSeconds : Z;
}.

Record OrderItemPricingInput := mkItem {
  itemId : jstr;
  quantity : Z;
  materialRateMinorPerMilligram : Rational;
  base : ProductionMetrics;
  quantityEffect : ProductionMetrics;
  postprocessingSeconds : Z;
  packingUnits : list Allocations.AllocationTarget;
}.

Record ParcelPricingInput := mkParcel {
  shipmentPlanId : jstr;
  categoryId : jstr;
  packingUnitKeys : list jstr;
  carrierCost : Money.t;
  customerShippingRate : Money.t;
  packagingCost : Money.t;
}.

Record BindingShipmentPricingInput := mkShipment {
  deliveryDestinationId : jstr;
  deliveryCapabilitySnapshotId : jstr;
  parcels : list ParcelPricingInput;
}.

Record PriceListCalculationInput := mkPriceList {
  revision : jstr;
  termsRevision : jstr;
  currency : jstr;
  taxPolicy : Tax.SellerTaxPolicy;
  machineRateMinorPerSecond : Rational;
  laborRateMinorPerSecond : Rational;
  amortizationRateMinorPerSecond : Rational;
  reprintRate : Rational;
  marginRate : Rational;
  handlingOrderFixedSeconds : Z;
  handlingPlateSeconds : Z;
  handlingPackSeconds : Z;
  shippingTripSeconds : Z;
  shippingTripPricingDivisor : Z;
  minimumPrintPrice : Money.t;
  smallOrderWeightThresholdMilligrams : Z;
  smallOrderSurcharge : Money.t;
  freeShippingPrintThreshold : Money.t;
  expressMultiplier : Rational;
}.

Record OrderPriceCalculationInput := mkInput {
  priceList : PriceListCalculationInput;
  profileRevisionIds : list jstr;
  items : list OrderItemPricingInput;
  shipment : option BindingShipmentPricingInput;
  expressRequested : bool;
  expressEligible : bool;
  paymentSchedule : list Payment.PaymentScheduleCapture;
}.

Inductive CalculatedPriceComponentKind :=
| ITEM_PRODUCTION | ITEM_QUANTITY | ITEM_POSTPROCESSING | ORDER_MIN_PRINT
| ORDER_SMALL_SURCHARGE | SHIPMENT | EXPRESS | PAYMENT_FEE | VAT.

#[global] Instance CalculatedPriceComponentKind_eq_dec : EqDecision CalculatedPriceComponentKind.
Proof. solve_decision. Defined.

Record CalculatedPriceComponent := mkComponent {
  componentId : jstr;
  kind : CalculatedPriceComponentKind;
  targetId : option jstr;
  amount : Money.t;
  allocations : list Allocations.MonetaryAllocation;
}.

Record OrderPriceBreakdown := mkBreakdown {
  bd_material : Money.t;
  bd_machine : Money.t;
  bd_itemHandling : Money.t;
  bd_sharedHandling : Money.t;
  bd_amortization : Money.t;
  bd_reprintReserve : Money.t;
  bd_packaging : Money.t;
  bd_carrierCost : Money.t;
  bd_productionCost : Money.t;
  bd_printPriceBeforeSubsidy : Money.t;
  bd_customerShipping : Money.t;
  bd_shippingSubsidy : Money.t;
  bd_printPriceBeforeMinimum : Money.t;
  bd_minimumPrintTopUp : Money.t;
  bd_basePrintPrice : Money.t;
  bd_expressSurcharge : Money.t;
  bd_smallOrderSurcharge : Money.t;
  bd_subtotal : Money.t;
}.

(** The fields both kinds of calculation have. *)
Record CommonPrice := mkCommon {
  priceListRevision : jstr;
  common_termsRevision : jstr;
  common_profileRevisionIds : list jstr;
  breakdown : OrderPriceBreakdown;
}.

Inductive OrderPriceCalculation :=
| provisional (common : CommonPrice) (customerTotal : Money.t)
    (tax : Tax.CustomerTaxBreakdown) (components : list CalculatedPriceComponent)
| binding (common : CommonPrice) (shipmentPlanIds : list jstr)
    (deliveryDestinationId deliveryCapabilitySnapshotId : jstr)
    (customerTotal : Money.t) (tax : Tax.CustomerTaxBreakdown)
    (contractTotal paymentFee : Money.t) (captures : list Payment.GrossedUpPaymentCapture)
    (components : list CalculatedPriceComponent).

Record ItemCostBucket := mkBucket {
  bucket_componentId : jstr;
  bucket_kind : CalculatedPriceComponentKind;
  bucket_itemId : jstr;
  bucket_amount : Money.t;
  allocationTargets : list Allocations.AllocationTarget;
}.

Record DirectCosts := mkDirect {
  buckets : list ItemCostBucket;
  dc_material : Money.t;
  dc_machine : Money.t;
  dc_itemHandling : Money.t;
  dc_amortization : Money.t;
  dc_reprintReserve : Money.t;
}.

(** ** Helpers *)

Definition assertNonNegative (value : Z) : result () :=
  throw_when (value <? 0) (DomainError NEGATIVE_RESULT).

Definition assertIdentity (value : jstr) : result () :=
  throw_when (blank value) (DomainError INVALID_ARGUMENT).

Definition assertCurrency (value : Money.t) (currency : jstr) : result () :=
  throw_when (negb (str_eqb (Money.currency value) currency)) (DomainError CURRENCY_MISMATCH).

Definition addMargin (cost : Money.t) (margin : Rational) : result Money.t :=
  throw_when ((numerator margin <? 0) || (denominator margin <=? 0)) (DomainError INVALID_ARGUMENT) ;;
  Money.multiply cost (BigIntIn (denominator margin + numerator margin))
    (BigIntIn (denominator margin)) Money.ceil.

Definition maximum (left right : Money.t) : result Money.t :=
  c ← Money.compare left right;
  Ok (if 0 <=? c then left else right).

Definition differenceOrZero (left right : Money.t) : result Money.t :=
  c ← Money.compare left right;
  if 0 <? c then Money.subtract left right else Money.zero (Money.currency left).

Record MetricCost := mkMetricCost {
  mc_total : Money.t;
  mc_material : Money.t;
  mc_machine : Money.t;
  mc_handling : Money.t;
  mc_amortization : Money.t;
}.

Definition metricCost (currency : jstr) (item : OrderItemPricingInput)
    (metrics : ProductionMetrics) (priceList : PriceListCalculationInput) : result MetricCost :=
  assertNonNegative (materialWeightMilligrams metrics) ;;
  assertNonNegative (machineSeconds metrics) ;;
  assertNonNegative (plateCount metrics) ;;
  assertNonNegative (pieceHandlingSeconds metrics) ;;
  material ← moneyFromRational currency (materialWeightMilligrams metrics)
               (materialRateMinorPerMilligram item) RCeil;
  machine ← moneyFromRational currency (machineSeconds metrics)
              (machineRateMinorPerSecond priceList) RCeil;
  let handlingSeconds :=
    plateCount metrics * handlingPlateSeconds priceList + pieceHandlingSeconds metrics in
  handling ← moneyFromRational currency handlingSeconds (laborRateMinorPerSecond priceList) RCeil;
  amortization ← moneyFromRational currency (machineSeconds metrics)
                   (amortizationRateMinorPerSecond priceList) RCeil;
  total ← sumMoney currency [material; machine; handling; amortization];
  Ok (mkMetricCost total material machine handling amortization).

(** The lists [directCosts] pushes onto. *)
Record DirectState := mkDirectState {
  ds_buckets : list ItemCostBucket;
  ds_material : list Money.t;
  ds_machine : list Money.t;
  ds_itemHandling : list Money.t;
  ds_amortization : list Money.t;
}.

Definition itemCosts (priceList : PriceListCalculationInput) (s : DirectState)
    (item : OrderItemPricingInput) : result DirectState :=
  let currency := currency priceList in
  b ← metricCost currency item (base item) priceList;
  q ← metricCost currency item (quantityEffect item) priceList;
  postprocessing ← moneyFromRational currency (postprocessingSeconds item)
                     (laborRateMinorPerSecond priceList) RCeil;
  Ok (mkDirectState
    (ds_buckets s ++ [
       mkBucket (js "item:" ++ itemId item ++ js ":production") ITEM_PRODUCTION (itemId item)
         (mc_total b) (packingUnits item);
       mkBucket (js "item:" ++ itemId item ++ js ":quantity") ITEM_QUANTITY (itemId item)
         (mc_total q) (packingUnits item);
       mkBucket (js "item:" ++ itemId item ++ js ":postprocessing") ITEM_POSTPROCESSING (itemId item)
         postprocessing (packingUnits item)])
    (ds_material s ++ [mc_material b; mc_material q])
    (ds_machine s ++ [mc_machine b; mc_machine q])
    (ds_itemHandling s ++ [mc_handling b; mc_handling q; postprocessing])
    (ds_amortization s ++ [mc_amortization b; mc_amortization q])).

Definition directCosts (items : list OrderItemPricingInput)
    (priceList : PriceListCalculationInput) : result DirectCosts :=
  let currency := currency priceList in
  s ← foldM (itemCosts priceList) (mkDirectState [] [] [] [] []) items;
  reprintBase ← sumMoney currency (bucket_amount <$> ds_buckets s);
  material ← sumMoney currency (ds_material s);
  machine ← sumMoney currency (ds_machine s);
  itemHandling ← sumMoney currency (ds_itemHandling s);
  amortization ← sumMoney currency (ds_amortization s);
  reprintReserve ← multiplyMoneyRational reprintBase (reprintRate priceList) Money.ceil;
  Ok (mkDirect (ds_buckets s) material machine itemHandling amortization reprintReserve).

(** ** Validation *)

(** The state of the validating loops: item IDs, packing unit keys, targets. *)
Record UnitState := mkUnitState {
  us_itemIds : gset jstr;
  us_packingUnitKeys : gset jstr;
  us_allTargets : list Allocations.AllocationTarget;
}.

Definition collectTarget (s : UnitState) (target : Allocations.AllocationTarget)
    : result UnitState :=
  assertIdentity (Allocations.id target) ;;
  assertNonNegative (Allocations.basis target) ;;
  throw_when (bool_decide (Allocations.id target ∈ us_packingUnitKeys s)) (DomainError INVALID_ARGUMENT) ;;
  Ok (mkUnitState (us_itemIds s) ({[Allocations.id target]} ∪ us_packingUnitKeys s)
        (us_allTargets s ++ [target])).

Definition collectItem (s : UnitState) (item : OrderItemPricingInput) : result UnitState :=
  assertIdentity (itemId item) ;;
  throw_when (bool_decide (itemId item ∈ us_itemIds s)) (DomainError INVALID_ARGUMENT) ;;
  let s := mkUnitState ({[itemId item]} ∪ us_itemIds s) (us_packingUnitKeys s) (us_allTargets s) in
  throw_when (quantity item <=? 0) (DomainError INVALID_ARGUMENT) ;;
  assertNonNegative (postprocessingSeconds item) ;;
  throw_when (negb (Z.of_nat (length (packingUnits item)) =? quantity item))
    (DomainError INVALID_ARGUMENT) ;;
  foldM collectTarget s (packingUnits item).

Definition validateAndCollectPackingUnits (items : list OrderItemPricingInput)
    : result (list Allocations.AllocationTarget) :=
  throw_when (bool_decide (items = [])) (DomainError INVALID_ARGUMENT) ;;
  us_allTargets <$> foldM collectItem (mkUnitState ∅ ∅ []) items.

Definition validatePriceList (priceList : PriceListCalculationInput) : result () :=
  assertIdentity (revision priceList) ;;
  assertIdentity (termsRevision priceList) ;;
  traverse assertNonNegative [
    handlingOrderFixedSeconds priceList; handlingPlateSeconds priceList;
    handlingPackSeconds priceList; shippingTripSeconds priceList;
    smallOrderWeightThresholdMilligrams priceList] ;;
  throw_when (shippingTripPricingDivisor priceList <=? 0) (DomainError INVALID_ARGUMENT) ;;
  throw_when ((denominator (expressMultiplier priceList) <=? 0)
    || (numerator (expressMultiplier priceList) <? denominator (expressMultiplier priceList)))
    (DomainError INVALID_ARGUMENT) ;;
  traverse (λ value, assertCurrency value (currency priceList)) [
    minimumPrintPrice priceList; smallOrderSurcharge priceList;
    freeShippingPrintThreshold priceList] ;;
  Ok ().

(** The inner loop of [validateShipment], over the keys of one parcel. *)
Definition allocateKey (expectedKeys : gset jstr) (allocatedKeys : gset jstr) (key : jstr)
    : result (gset jstr) :=
  throw_when (negb (bool_decide (key ∈ expectedKeys)) || bool_decide (key ∈ allocatedKeys))
    (DomainError INVALID_ARGUMENT) ;;
  Ok ({[key]} ∪ allocatedKeys).

Definition checkParcel (expectedKeys : gset jstr) (currency : jstr)
    (state : gset jstr * gset jstr) (parcel : ParcelPricingInput)
    : result (gset jstr * gset jstr) :=
  let '(allocatedKeys, shipmentPlanIds) := state in
  assertIdentity (shipmentPlanId parcel) ;;
  assertIdentity (categoryId parcel) ;;
  throw_when (bool_decide (shipmentPlanId parcel ∈ shipmentPlanIds)) (DomainError INVALID_ARGUMENT) ;;
  throw_when (bool_decide (packingUnitKeys parcel = [])) (DomainError INVALID_ARGUMENT) ;;
  allocatedKeys' ← foldM (allocateKey expectedKeys) allocatedKeys (packingUnitKeys parcel);
  assertCurrency (carrierCost parcel) currency ;;
  assertCurrency (customerShippingRate parcel) currency ;;
  assertCurrency (packagingCost parcel) currency ;;
  Ok (allocatedKeys', {[shipmentPlanId parcel]} ∪ shipmentPlanIds).

Definition validateShipment (shipment : BindingShipmentPricingInput)
    (allPackingUnits : list Allocations.AllocationTarget) (currency : jstr) : result () :=
  assertIdentity (deliveryDestinationId shipment) ;;
  assertIdentity (deliveryCapabilitySnapshotId shipment) ;;
  throw_when (bool_decide (parcels shipment = [])) (DomainError INVALID_ARGUMENT) ;;
  let expectedKeys := list_to_set (Allocations.id <$> allPackingUnits) : gset jstr in
  '(allocatedKeys, _) ← foldM (checkParcel expectedKeys currency) (∅, ∅) (parcels shipment);
  throw_when (negb (size allocatedKeys =? size expectedKeys)%nat) (DomainError INVALID_ARGUMENT).

Definition checkProfileRevision (ids : gset jstr) (revisionId : jstr) : result (gset jstr) :=
  assertIdentity revisionId ;;
  throw_when (bool_decide (revisionId ∈ ids)) (DomainError INVALID_ARGUMENT) ;;
  Ok ({[revisionId]} ∪ ids).

Definition allocatedComponent (componentId : jstr) (kind : CalculatedPriceComponentKind)
    (amount : Money.t) (targets : list Allocations.AllocationTarget) (targetId : option jstr)
    : result CalculatedPriceComponent :=
  shares ← Allocations.allocateMoney amount targets;
  Ok (mkComponent componentId kind targetId amount shares).

(** ** calculateOrderPrice, step by step *)

(** The handling of one parcel: packing, and its share of a shipping trip. *)
Definition parcelHandling (priceList : PriceListCalculationInput) : result Money.t :=
  let labor := laborRateMinorPerSecond priceList in
  pack ← moneyFromRational (currency priceList) (handlingPackSeconds priceList) labor RCeil;
  trip ← moneyFromRational (currency priceList) (shippingTripSeconds priceList)
           (mkRational (numerator labor) (denominator labor * shippingTripPricingDivisor priceList))
           RCeil;
  Money.add pack trip.

(** [input.items.reduce(...)] *)
Definition totalWeight (items : list OrderItemPricingInput) : Z :=
  sum_by (λ item, materialWeightMilligrams (base item)
                  + materialWeightMilligrams (quantityEffect item)) items.

(** From the direct costs to the subtotal; with the breakdown, the handling of
    each parcel. *)
Definition priceBreakdown (input : OrderPriceCalculationInput) (direct : DirectCosts)
    (parcels : list ParcelPricingInput) : result (OrderPriceBreakdown * list Money.t) :=
  let priceList := priceList input in
  let currency := currency priceList in
  orderFixedHandling ← moneyFromRational currency (handlingOrderFixedSeconds priceList)
                         (laborRateMinorPerSecond priceList) RCeil;
  perParcelHandling ← traverse (λ _, parcelHandling priceList) parcels;
  parcelsHandling ← sumMoney currency perParcelHandling;
  sharedHandling ← Money.add orderFixedHandling parcelsHandling;
  packaging ← sumMoney currency (packagingCost <$> parcels);
  carrier ← sumMoney currency (carrierCost <$> parcels);
  directBucketTotal ← sumMoney currency (bucket_amount <$> buckets direct);
  productionCost ← sumMoney currency
    [directBucketTotal; sharedHandling; packaging; dc_reprintReserve direct];
  marginPrice ← addMargin productionCost (marginRate priceList);
  printPriceBeforeSubsidy ← maximum (minimumPrintPrice priceList) marginPrice;
  customerShipping ←
    match shipment input with
    | None => Money.zero currency
    | Some _ =>
        c ← Money.compare printPriceBeforeSubsidy (freeShippingPrintThreshold priceList);
        if c <? 0 then sumMoney currency (customerShippingRate <$> parcels)
        else Money.zero currency
    end;
  shippingSubsidy ← differenceOrZero carrier customerShipping;
  costWithSubsidy ← Money.add productionCost shippingSubsidy;
  printPriceBeforeMinimum ← addMargin costWithSubsidy (marginRate priceList);
  basePrintPrice ← maximum (minimumPrintPrice priceList) printPriceBeforeMinimum;
  minimumPrintTopUp ← Money.subtract basePrintPrice printPriceBeforeMinimum;
  expressSurcharge ←
    (if expressRequested input then
       Money.multiply basePrintPrice
         (BigIntIn (numerator (expressMultiplier priceList)
                    - denominator (expressMultiplier priceList)))
         (BigIntIn (denominator (expressMultiplier priceList))) Money.ceil
     else Money.zero currency);
  smallSurcharge ←
    (if totalWeight (items input) <? smallOrderWeightThresholdMilligrams priceList
     then Ok (smallOrderSurcharge priceList) else Money.zero currency);
  subtotal ← sumMoney currency
    [basePrintPrice; expressSurcharge; customerShipping; smallSurcharge];
  Ok (mkBreakdown (dc_material direct) (dc_machine direct) (dc_itemHandling direct)
        sharedHandling (dc_amortization direct) (dc_reprintReserve direct) packaging carrier
        productionCost printPriceBeforeSubsidy customerShipping shippingSubsidy
        printPriceBeforeMinimum minimumPrintTopUp basePrintPrice expressSurcharge smallSurcharge
        subtotal, perParcelHandling).

(** [new Map(shares.map(({ targetId, amount }) => [targetId, amount]))] *)
Definition mapOf (shares : list Allocations.MonetaryAllocation) : gmap jstr Money.t :=
  foldl (λ m a, <[Allocations.targetId a := Allocations.allocated a]> m) ∅ shares.

(** [map.get(key) ?? Money.zero(currency)] *)
Definition getOrZero (m : gmap jstr Money.t) (key currency : jstr) : result Money.t :=
  match m !! key with
  | Some v => Ok v
  | None => Money.zero currency
  end.

Definition shipmentComponentId (parcel : ParcelPricingInput) : jstr :=
  js "shipment:" ++ shipmentPlanId parcel.

(** The bases the print price is distributed over: the direct buckets and
    what each parcel costs, without those that cost nothing; the production
    buckets alone when nothing costs anything. *)
Definition pricingBases (direct : DirectCosts) (parcels : list ParcelPricingInput)
    (perParcelHandling : list Money.t) (shippingSubsidy : Money.t) (currency : jstr)
    : result (list Allocations.AllocationTarget) :=
  subsidyAllocations ←
    (if bool_decide (parcels = []) then Ok []
     else Allocations.allocateMoney shippingSubsidy
            ((λ parcel, Allocations.mkTarget (shipmentPlanId parcel)
                          (Money.minorUnits (carrierCost parcel))) <$> parcels));
  let subsidyByParcel := mapOf subsidyAllocations in
  shipmentPricingBases ← traverse (λ '(index, parcel),
    handling ← match perParcelHandling !! index with
               | Some h => Ok h
               | None => Money.zero currency
               end;
    subsidy ← getOrZero subsidyByParcel (shipmentPlanId parcel) currency;
    total ← sumMoney currency [packagingCost parcel; handling; subsidy];
    Ok (Allocations.mkTarget (shipmentComponentId parcel) (Money.minorUnits total)))
    (imap pair parcels);
  let positiveBuckets := List.filter (λ b, 0 <? Allocations.basis b)
    (((λ bucket, Allocations.mkTarget (bucket_componentId bucket)
                   (Money.minorUnits (bucket_amount bucket))) <$> buckets direct)
     ++ shipmentPricingBases) in
  Ok (if (0 <? length positiveBuckets)%nat then positiveBuckets
      else (λ bucket, Allocations.mkTarget (bucket_componentId bucket) 0) <$>
             List.filter (λ bucket, bool_decide (bucket_kind bucket = ITEM_PRODUCTION))
               (buckets direct)).

(** The component of one parcel. *)
Definition parcelComponent (allPackingUnits : list Allocations.AllocationTarget)
    (amountByBucket : gmap jstr Money.t) (customerShipping : Money.t) (currency : jstr)
    (parcel : ParcelPricingInput) : result CalculatedPriceComponent :=
  let parcelTargets := List.filter (λ target,
    bool_decide (Allocations.id target ∈ packingUnitKeys parcel)) allPackingUnits in
  customerShippingForParcel ←
    (if Money.minorUnits customerShipping =? 0 then Money.zero currency
     else Ok (customerShippingRate parcel));
  priced ← getOrZero amountByBucket (shipmentComponentId parcel) currency;
  shipmentComponentAmount ← Money.add priced customerShippingForParcel;
  allocatedComponent (shipmentComponentId parcel) SHIPMENT shipmentComponentAmount parcelTargets
    (Some (shipmentPlanId parcel)).

(** The components every calculation has. *)
Definition orderComponents (direct : DirectCosts) (parcels : list ParcelPricingInput)
    (allPackingUnits : list Allocations.AllocationTarget)
    (bases : list Allocations.AllocationTarget) (b : OrderPriceBreakdown) (currency : jstr)
    : result (list CalculatedPriceComponent) :=
  pricedBucketAmounts ← Allocations.allocateMoney (bd_printPriceBeforeMinimum b) bases;
  let amountByBucket := mapOf pricedBucketAmounts in
  bucketComponents ← traverse (λ bucket,
    amount ← getOrZero amountByBucket (bucket_componentId bucket) currency;
    allocatedComponent (bucket_componentId bucket) (bucket_kind bucket) amount
      (allocationTargets bucket) (Some (bucket_itemId bucket))) (buckets direct);
  minPrint ← allocatedComponent (js "order:min-print") ORDER_MIN_PRINT (bd_minimumPrintTopUp b)
               allPackingUnits None;
  surcharge ← allocatedComponent (js "order:small-order-surcharge") ORDER_SMALL_SURCHARGE
                (bd_smallOrderSurcharge b) allPackingUnits None;
  express ← allocatedComponent (js "order:express") EXPRESS (bd_expressSurcharge b)
              allPackingUnits None;
  parcelComponents ← traverse (parcelComponent allPackingUnits amountByBucket
                                 (bd_customerShipping b) currency) parcels;
  Ok (bucketComponents ++ [minPrint; surcharge; express] ++ parcelComponents).

(** [if (vat.minorUnits > 0n) components.push(...)] *)
Definition vatComponent (vat : Money.t) (allPackingUnits : list Allocations.AllocationTarget)
    : result (list CalculatedPriceComponent) :=
  if 0 <? Money.minorUnits vat then
    c ← allocatedComponent (js "order:vat") VAT vat allPackingUnits None;
    Ok [c]
  else Ok [].

Definition calculateOrderPrice (input : OrderPriceCalculationInput)
    : result OrderPriceCalculation :=
  let priceList := priceList input in
  validatePriceList priceList ;;
  throw_when (bool_decide (profileRevisionIds input = [])) (DomainError INVALID_ARGUMENT) ;;
  foldM checkProfileRevision ∅ (profileRevisionIds input) ;;
  throw_when (expressRequested input && negb (expressEligible input)) (DomainError INVALID_ARGUMENT) ;;
  allPackingUnits ← validateAndCollectPackingUnits (items input);
  let currency := currency priceList in
  direct ← directCosts (items input) priceList;
  let parcels := match shipment input with Some s => parcels s | None => [] end in
  match shipment input with
  | Some s => validateShipment s allPackingUnits currency
  | None => Ok ()
  end ;;
  '(b, perParcelHandling) ← priceBreakdown input direct parcels;
  bases ← pricingBases direct parcels perParcelHandling (bd_shippingSubsidy b) currency;
  components ← orderComponents direct parcels allPackingUnits bases b currency;
  let common := mkCommon (revision priceList) (termsRevision priceList)
    (js_sort compareStrings (profileRevisionIds input)) b in
  match shipment input with
  | None =>
      tax ← Tax.taxBreakdownFromNet (bd_subtotal b) (taxPolicy priceList);
      vat ← vatComponent (Tax.vat tax) allPackingUnits;
      Ok (provisional common (Tax.gross tax) tax (components ++ vat))
  | Some s =>
      grossedUp ← Payment.grossUpPaymentSchedule (bd_subtotal b) (paymentSchedule input)
                    (taxPolicy priceList);
      fee ← allocatedComponent (js "order:payment-fee") PAYMENT_FEE (Payment.paymentFee grossedUp)
              allPackingUnits None;
      vat ← vatComponent (Tax.vat (Payment.tax grossedUp)) allPackingUnits;
      Ok (binding common (shipmentPlanId <$> Quote.parcels s) (deliveryDestinationId s)
            (deliveryCapabilitySnapshotId s) (Payment.contractTotal grossedUp)
            (Payment.tax grossedUp) (Payment.contractTotal grossedUp)
            (Payment.paymentFee grossedUp) (Payment.captures grossedUp)
            (components ++ [fee] ++ vat))
  end.

(** A sample order, used by the witnesses. *)
Definition czk (n : Z) : Money.t := Money.mk n (js "CZK").

Definition sample_priceList : PriceListCalculationInput :=
  mkPriceList (js "pl-1") (js "terms-1") (js "CZK") (Tax.mkPolicy Tax.VAT_PAYER (IntNum 2100))
    (mkRational 1 100) (mkRational 1 60) (mkRational 1 1000) (mkRational 5 100) (mkRational 30 100)
    60 30 20 600 4 (czk 5000) 100000 (czk 900) (czk 50000) (mkRational 3 2).

Definition sample_item : OrderItemPricingInput :=
  mkItem (js "item") 2 (mkRational 3 100) (mkMetrics 20000 3600 1 60) (mkMetrics 15000 3000 1 40) 120
    [Allocations.mkTarget (js "u1") 1; Allocations.mkTarget (js "u2") 1].

Definition sample_shipment : BindingShipmentPricingInput :=
  mkShipment (js "destination") (js "snapshot")
    [mkParcel (js "plan") (js "small") [js "u1"; js "u2"] (czk 8900) (czk 7900) (czk 500)].

Definition sample_input (s : option BindingShipmentPricingInput) : OrderPriceCalculationInput :=
  mkInput sample_priceList [js "profile"] [sample_item] s true true
    [Payment.mkCapture (js "full") (IntNum 0) Payment.FULL (IntNum 10000) (IntNum 150) (czk 100)].

(** An order of one minor unit, split into two payments without fees. *)
Definition gap_input : OrderPriceCalculationInput :=
  let zero := mkRational 0 1 in
  mkInput
    (mkPriceList (js "pl") (js "terms") (js "CZK") (Tax.mkPolicy Tax.NON_VAT_PAYER (IntNum 0))
       zero zero zero zero zero 0 0 0 0 1 (czk 1) 0 (czk 0) (czk 0) (mkRational 1 1))
    [js "profile"]
    [mkItem (js "item") 1 zero (mkMetrics 0 0 0 0) (mkMetrics 0 0 0 0) 0
       [Allocations.mkTarget (js "u") 1]]
    (Some (mkShipment (js "destination") (js "snapshot")
       [mkParcel (js "plan") (js "small") [js "u"] (czk 0) (czk 0) (czk 0)]))
    false false
    [Payment.mkCapture (js "d") (IntNum 0) Payment.DEPOSIT (IntNum 5000) (IntNum 0) (czk 0);
     Payment.mkCapture (js "b") (IntNum 1) Payment.BALANCE (IntNum 5000) (IntNum 0) (czk 0)].

(** ** Specification *)

(** An amount in a currency. *)
Definition money_in (c : jstr) (m : Money.t) : Prop := Money.wf m ∧ Money.currency m = c.

Notation minor := Money.minorUnits.

(** Every [Money] of the input came from its factory. *)
Definition parcel_money (p : ParcelPricingInput) : Prop :=
  Money.wf (carrierCost p) ∧ Money.wf (customerShippingRate p) ∧ Money.wf (packagingCost p).

Record input_wf (input : OrderPriceCalculationInput) : Prop := {
  wf_minimum : Money.wf (minimumPrintPrice (priceList input));
  wf_surcharge : Money.wf (smallOrderSurcharge (priceList input));
  wf_threshold : Money.wf (freeShippingPrintThreshold (priceList input));
  wf_parcels : ∀ s, shipment input = Some s → Forall parcel_money (parcels s);
  wf_fees : Forall (λ c, Money.wf (Payment.feeFixed c)) (paymentSchedule input);
}.

Definition componentsTotal (l : list CalculatedPriceComponent) : Z := sum_by (minor ∘ amount) l.

(** A component's allocations add up to it. *)
Definition component_exact (c : CalculatedPriceComponent) : Prop :=
  Allocations.total (allocations c) = minor (amount c).

(** The cost plus the margin, rounded up. *)
Definition withMargin (margin : Rational) (cost : Z) : Z :=
  cdiv (cost * (denominator margin + numerator margin)) (denominator margin).

(** How the figures of a breakdown hang together. *)
Record breakdown_consistent (input : OrderPriceCalculationInput) (ps : list ParcelPricingInput)
    (b : OrderPriceBreakdown) : Prop := {
  bc_production : minor (bd_productionCost b) =
    minor (bd_material b) + minor (bd_machine b) + minor (bd_itemHandling b)
    + minor (bd_amortization b) + minor (bd_sharedHandling b) + minor (bd_packaging b)
    + minor (bd_reprintReserve b);
  bc_carrier : minor (bd_carrierCost b) = sum_by (minor ∘ carrierCost) ps;
  bc_packaging : minor (bd_packaging b) = sum_by (minor ∘ packagingCost) ps;
  bc_shipping : minor (bd_customerShipping b) =
    if bool_decide (shipment input ≠ None)
      && (minor (bd_printPriceBeforeSubsidy b) <? minor (freeShippingPrintThreshold (priceList input)))
    then sum_by (minor ∘ customerShippingRate) ps else 0;
  bc_before : minor (bd_printPriceBeforeSubsidy b) =
    Z.max (minor (minimumPrintPrice (priceList input)))
      (withMargin (marginRate (priceList input)) (minor (bd_productionCost b)));
  bc_subsidy : minor (bd_shippingSubsidy b) =
    Z.max 0 (minor (bd_carrierCost b) - minor (bd_customerShipping b));
  bc_priced : minor (bd_printPriceBeforeMinimum b) =
    withMargin (marginRate (priceList input))
      (minor (bd_productionCost b) + minor (bd_shippingSubsidy b));
  bc_base : minor (bd_basePrintPrice b) =
    Z.max (minor (minimumPrintPrice (priceList input))) (minor (bd_printPriceBeforeMinimum b));
  bc_topUp : minor (bd_minimumPrintTopUp b) =
    minor (bd_basePrintPrice b) - minor (bd_printPriceBeforeMinimum b);
  bc_express : minor (bd_expressSurcharge b) =
    if expressRequested input then
      let m := expressMultiplier (priceList input) in
      cdiv (minor (bd_basePrintPrice b) * (numerator m - denominator m)) (denominator m)
    else 0;
  bc_small : minor (bd_smallOrderSurcharge b) =
    if sum_by (λ item, materialWeightMilligrams (base item) + materialWeightMilligrams (quantityEffect item)) (items input)
       <? smallOrderWeightThresholdMilligrams (priceList input)
    then minor (smallOrderSurcharge (priceList input)) else 0;
  bc_subtotal : minor (bd_subtotal b) =
    minor (bd_basePrintPrice b) + minor (bd_expressSurcharge b)
    + minor (bd_customerShipping b) + minor (bd_smallOrderSurcharge b);
  bc_money : Forall (money_in (currency (priceList input)))
    [bd_customerShipping b; bd_shippingSubsidy b; bd_printPriceBeforeMinimum b;
     bd_minimumPrintTopUp b; bd_expressSurcharge b; bd_smallOrderSurcharge b; bd_subtotal b];
}.

(** What a quantity costs at a rate, rounded up. *)
Definition charged (quantity : Z) (rate : Rational) : Z := cdiv (quantity * numerator rate) (denominator rate).

(** The costs are charged per item: for the metrics of its production, and for
    what its quantity adds to them. *)
Definition perItem (cost : OrderItemPricingInput → ProductionMetrics → Z) (items : list OrderItemPricingInput) : Z :=
  sum_by (λ item, cost item (base item) + cost item (quantityEffect item)) items.

(** What each cost of a breakdown is charged for, and at which rate. *)
Record breakdown_charged (input : OrderPriceCalculationInput) (ps : list ParcelPricingInput)
    (b : OrderPriceBreakdown) : Prop := {
  bp_material : minor (bd_material b) =
    perItem (λ item m, charged (materialWeightMilligrams m) (materialRateMinorPerMilligram item)) (items input);
  bp_machine : minor (bd_machine b) =
    perItem (λ _ m, charged (machineSeconds m) (machineRateMinorPerSecond (priceList input))) (items input);
  bp_itemHandling : minor (bd_itemHandling b) =
    perItem (λ _ m, charged (plateCount m * handlingPlateSeconds (priceList input) + pieceHandlingSeconds m)
                      (laborRateMinorPerSecond (priceList input))) (items input)
    + sum_by (λ item, charged (postprocessingSeconds item) (laborRateMinorPerSecond (priceList input))) (items input);
  bp_amortization : minor (bd_amortization b) =
    perItem (λ _ m, charged (machineSeconds m) (amortizationRateMinorPerSecond (priceList input))) (items input);
  bp_reprint : minor (bd_reprintReserve b) =
    charged (minor (bd_material b) + minor (bd_machine b) + minor (bd_itemHandling b) + minor (bd_amortization b))
      (reprintRate (priceList input));
  bp_shared : minor (bd_sharedHandling b) =
    let labor := laborRateMinorPerSecond (priceList input) in
    charged (handlingOrderFixedSeconds (priceList input)) labor
    + Z.of_nat (length ps) *
      (charged (handlingPackSeconds (priceList input)) labor
       + charged (shippingTripSeconds (priceList input))
           (mkRational (numerator labor) (denominator labor * shippingTripPricingDivisor (priceList input))));
}.

(** ** Facts *)

Lemma money_in_eq c m : money_in c m → m = Money.mk (minor m) c.
Proof. intros [_ <-]. by destruct m. Qed.

Lemma money_in_mk c n : money_in c (Money.mk n c) ↔ 0 ≤ n ∧ c ∈ Money.supportedMinorUnitCurrencies.
Proof. unfold money_in, Money.wf. naive_solver. Qed.

Lemma money_in_supported c m : money_in c m → c ∈ Money.supportedMinorUnitCurrencies.
Proof. by intros [[_ ?] <-]. Qed.

Lemma money_in_nonneg c m : money_in c m → 0 ≤ minor m.
Proof. by intros [[? _] _]. Qed.

Lemma quoteCurrency_Ok m c u : assertCurrency m c = Ok u ↔ Money.currency m = c.
Proof.
  unfold assertCurrency, str_eqb. rewrite throw_when_Ok, negb_false_iff. apply bool_decide_eq_true.
Qed.

Lemma moneyFromRational_in c v r m : moneyFromRational c v r RCeil = Ok m → money_in c m.
Proof. intros (_ & _ & Hm & ->)%moneyFromRational_ceil. by split. Qed.

Lemma sum_in c l m :
  Forall (λ x, 0 ≤ minor x) l → sumMoney c l = Ok m →
  money_in c m ∧ minor m = sum_by minor l ∧ Forall (λ x, Money.currency x = c) l.
Proof.
  intros HF (Hc & Hl & ->)%sumMoney_Ok. rewrite money_in_mk. split_and!; try done.
  apply sum_by_nonneg. by apply Forall_forall.
Qed.

Lemma sum_in' c l m :
  Forall (money_in c) l → sumMoney c l = Ok m → money_in c m ∧ minor m = sum_by minor l.
Proof.
  intros HF H. apply sum_in in H as (? & ? & _); [done|].
  eapply Forall_impl; [exact HF|]. by intros x [[? _] _].
Qed.

Lemma add_in c m n r :
  money_in c m → money_in c n → Money.add m n = Ok r → money_in c r ∧ minor r = minor m + minor n.
Proof.
  intros [[Hm Hs] <-] [[Hn _] _] [_ ->]%Money.add_Ok. cbn. rewrite money_in_mk. split_and!; [lia|done|done].
Qed.

Lemma zero_in c m : Money.zero c = Ok m → money_in c m ∧ minor m = 0.
Proof. intros [-> ?]%Money.zero_Ok. rewrite money_in_mk. done. Qed.

Lemma addMargin_in c m margin r :
  money_in c m → addMargin m margin = Ok r →
  money_in c r ∧ minor r = withMargin margin (minor m) ∧ 0 ≤ numerator margin ∧ 0 < denominator margin.
Proof.
  unfold addMargin. intros [Hm Hc] H. ok_inv. bool_inv.
  match goal with H : Money.multiply _ _ _ _ = _ |- _ => pose proof (Money.multiply_wf _ _ _ _ _ Hm H) as Hwf;
    apply Money.multiply_bigint in H as [Hcur Hr]; [|apply Hm|lia|lia] end.
  split; [by split; [|congruence]|]. split; [|lia]. cbn in Hr. unfold withMargin.
  pose proof (cdiv_bounds (minor m * (denominator margin + numerator margin)) (denominator margin) ltac:(lia)).
  nia.
Qed.

Lemma maximum_in c m n r :
  money_in c m → money_in c n → maximum m n = Ok r → money_in c r ∧ minor r = Z.max (minor m) (minor n).
Proof.
  unfold maximum. intros Hm Hn H. ok_inv.
  match goal with H : Money.compare _ _ = _ |- _ => apply Money.compare_Ok in H as [_ ->] end.
  destruct (Z.leb_spec 0 (Z.sgn (minor m - minor n))); split; try done; lia.
Qed.

Lemma differenceOrZero_in c m n r :
  money_in c m → money_in c n → differenceOrZero m n = Ok r →
  money_in c r ∧ minor r = Z.max 0 (minor m - minor n).
Proof.
  unfold differenceOrZero. intros Hm Hn H. pose proof Hm as [[_ Hs] <-]. ok_inv.
  match goal with H : Money.compare _ _ = _ |- _ => apply Money.compare_Ok in H as [_ ->] end.
  destruct (Z.ltb_spec 0 (Z.sgn (minor m - minor n))).
  - match goal with H : Money.subtract _ _ = _ |- _ => apply Money.subtract_Ok in H as (_ & ? & ->) end.
    cbn. rewrite money_in_mk. split; [split; [lia|done]|lia].
  - match goal with H : Money.zero _ = _ |- _ => apply zero_in in H as [? ->] end.
    split; [done|lia].
Qed.

Lemma subtract_in c m n r :
  money_in c m → money_in c n → Money.subtract m n = Ok r → money_in c r ∧ minor r = minor m - minor n.
Proof.
  intros [[Hm Hs] <-] _ (_ & ? & ->)%Money.subtract_Ok. cbn. rewrite money_in_mk.
  split_and!; [lia|done|done].
Qed.

Lemma traverse_Forall {A B} (f : A → result B) (P : B → Prop) l r :
  (∀ x y, x ∈ l → f x = Ok y → P y) → traverse f l = Ok r → Forall P r.
Proof.
  intros Hf H. apply traverse_Ok in H. apply Forall_forall. intros y Hy.
  apply list_elem_of_lookup in Hy as [i Hi].
  destruct (Forall2_lookup_r _ _ _ _ _ H Hi) as (x & Hx & Hxy).
  eapply Hf; [by eapply list_elem_of_lookup_2|done].
Qed.

(** Direct costs. *)
Definition bucketIds (items : list OrderItemPricingInput) : list jstr :=
  item ← items; [js "item:" ++ itemId item ++ js ":production";
                 js "item:" ++ itemId item ++ js ":quantity";
                 js "item:" ++ itemId item ++ js ":postprocessing"].

Record direct_state_ok (c : jstr) (items : list OrderItemPricingInput) (s : DirectState) : Prop := {
  dso_money : Forall (money_in c) ((bucket_amount <$> ds_buckets s) ++ ds_material s ++ ds_machine s
    ++ ds_itemHandling s ++ ds_amortization s);
  dso_sum : sum_by (minor ∘ bucket_amount) (ds_buckets s) =
    sum_by minor (ds_material s) + sum_by minor (ds_machine s) + sum_by minor (ds_itemHandling s)
    + sum_by minor (ds_amortization s);
  dso_ids : bucket_componentId <$> ds_buckets s = bucketIds items;
}.

Record direct_ok (c : jstr) (items : list OrderItemPricingInput) (d : DirectCosts) : Prop := {
  do_buckets : Forall (λ b, money_in c (bucket_amount b)) (buckets d);
  do_money : Forall (money_in c) [dc_material d; dc_machine d; dc_itemHandling d; dc_amortization d;
    dc_reprintReserve d];
  do_sum : sum_by (minor ∘ bucket_amount) (buckets d) =
    minor (dc_material d) + minor (dc_machine d) + minor (dc_itemHandling d) + minor (dc_amortization d);
  do_ids : bucket_componentId <$> buckets d = bucketIds items;
}.

Lemma metricCost_in c item m pl r :
  metricCost c item m pl = Ok r →
  Forall (money_in c) [mc_total r; mc_material r; mc_machine r; mc_handling r; mc_amortization r]
  ∧ minor (mc_total r) = minor (mc_material r) + minor (mc_machine r) + minor (mc_handling r)
      + minor (mc_amortization r).
Proof.
  unfold metricCost. cbv zeta. intros H. ok_inv.
  repeat match goal with H : moneyFromRational _ _ _ _ = _ |- _ => apply moneyFromRational_in in H end.
  match goal with H : sumMoney _ _ = _ |- _ => apply sum_in' in H as [? Hs]; [|by forall_list] end.
  cbn [mc_total mc_material mc_machine mc_handling mc_amortization].
  rewrite !sum_by_cons, sum_by_nil in Hs. split; [by forall_list|]. lia.
Qed.

Lemma itemCosts_ok pl items s item s' :
  direct_state_ok (currency pl) items s → itemCosts pl s item = Ok s' →
  direct_state_ok (currency pl) (items ++ [item]) s'.
Proof.
  unfold itemCosts. cbv zeta. intros [Hm Hs Hi] H. ok_inv.
  match goal with H : moneyFromRational _ _ _ _ = _ |- _ => apply moneyFromRational_in in H end.
  repeat match goal with H : metricCost _ _ _ _ = _ |- _ => apply metricCost_in in H as [? ?] end.
  rewrite !Forall_app in Hm. destruct Hm as (? & ? & ? & ? & ?). rewrite !Forall_cons in *.
  destruct_and!. split; cbn [ds_buckets ds_material ds_machine ds_itemHandling ds_amortization].
  - rewrite fmap_app, !Forall_app. split_and!; try done; by forall_list.
  - rewrite !sum_by_app, !sum_by_cons, !sum_by_nil. cbn. lia.
  - rewrite fmap_app, Hi. unfold bucketIds. by rewrite bind_app.
Qed.

Lemma directCosts_Ok pl items d :
  directCosts items pl = Ok d → direct_ok (currency pl) items d.
Proof.
  unfold directCosts. cbv zeta. intros H. ok_inv.
  match goal with H : foldM _ _ _ = Ok ?s' |- _ =>
    assert (direct_state_ok (currency pl) items s') as [Hm Hs Hi]; rename H into Hloop end.
  { assert (∀ done s s', direct_state_ok (currency pl) done s → foldM (itemCosts pl) s items = Ok s' →
      direct_state_ok (currency pl) (done ++ items) s') as Hgen.
    { clear. induction items as [|item items IH]; intros done s s' Hs H; cbn in H; ok_inv.
      - by rewrite (right_id_L [] (++)).
      - rewrite cons_middle, app_assoc. eapply IH; [|done]. by eapply itemCosts_ok. }
    apply (Hgen [] _ _) in Hloop; [done|]. split; [apply Forall_nil_2|done|done]. }
  rewrite !Forall_app in Hm. destruct Hm as (Hb & Hma & Hmc & Hih & Ham).
  repeat match goal with H : sumMoney _ _ = _ |- _ => apply sum_in' in H as [? ?]; [|done] end.
  match goal with H : multiplyMoneyRational ?x _ _ = _ |- _ => unfold multiplyMoneyRational in H; ok_inv end.
  match goal with H : assertRational _ = _ |- _ => apply assertRational_Ok in H as [? ?] end.
  match goal with H : Money.multiply ?x _ _ _ = _, Hx : money_in _ ?x |- _ =>
    pose proof (Money.multiply_wf _ _ _ _ _ (proj1 Hx) H); apply Money.multiply_bigint in H as [? _];
    [|apply Hx|done|done] end.
  split; cbn [buckets dc_material dc_machine dc_itemHandling dc_amortization dc_reprintReserve].
  - by rewrite Forall_fmap in Hb.
  - forall_list. split; [done|].
    match goal with H : Money.currency ?r = Money.currency ?x, Hx : money_in _ ?x |- _ =>
      rewrite H; apply Hx end.
  - lia.
  - done.
Qed.

(** Validation. *)
Lemma collectTargets_ok targets s s' :
  foldM collectTarget s targets = Ok s' →
  us_itemIds s' = us_itemIds s ∧ us_allTargets s' = us_allTargets s ++ targets
  ∧ NoDup (Allocations.id <$> targets)
  ∧ (∀ t, t ∈ targets → Allocations.id t ∉ us_packingUnitKeys s)
  ∧ us_packingUnitKeys s' = us_packingUnitKeys s ∪ list_to_set (Allocations.id <$> targets).
Proof.
  revert s. induction targets as [|t targets IH]; intros s H; cbn in H; ok_inv.
  - rewrite (right_id_L [] (++)). cbn. rewrite (right_id_L ∅ (∪)).
    split_and!; try done; [constructor|]. by intros t []%not_elem_of_nil.
  - match goal with H : collectTarget _ _ = _ |- _ => unfold collectTarget in H end.
    ok_inv. bool_inv.
    match goal with H : foldM _ _ _ = _ |- _ => apply IH in H as (Hi & Ht & HN & Hf & Hk) end.
    cbn [us_itemIds us_allTargets us_packingUnitKeys] in *. split_and!; try done.
    + by rewrite Ht, <-app_assoc.
    + rewrite fmap_cons. constructor; [|done]. intros (u & Heq & Hu)%list_elem_of_fmap.
      apply (Hf u Hu). rewrite <-Heq. set_solver.
    + intros u [->|Hu]%elem_of_cons; [done|]. specialize (Hf u Hu). set_solver.
    + rewrite Hk. cbn. set_solver.
Qed.

Lemma collectItems_ok items s s' :
  foldM collectItem s items = Ok s' →
  NoDup (itemId <$> items) ∧ (∀ i, i ∈ items → itemId i ∉ us_itemIds s)
  ∧ us_allTargets s' = us_allTargets s ++ (items ≫= packingUnits)
  ∧ NoDup (Allocations.id <$> (items ≫= packingUnits))
  ∧ (∀ t, t ∈ items ≫= packingUnits → Allocations.id t ∉ us_packingUnitKeys s).
Proof.
  revert s. induction items as [|i items IH]; intros s H; cbn in H; ok_inv.
  - cbn. rewrite (right_id_L [] (++)). split_and!; try constructor; by intros ? []%not_elem_of_nil.
  - match goal with H : collectItem _ _ = _ |- _ => unfold collectItem in H; cbv zeta in H end.
    ok_inv. bool_inv.
    match goal with H : foldM collectTarget _ _ = _ |- _ => apply collectTargets_ok in H as (Hi1 & Ht1 & HN1 & Hf1 & Hk1) end.
    match goal with H : foldM collectItem _ _ = _ |- _ => apply IH in H as (HN & Hf & Ht & HN2 & Hf2) end.
    cbn [us_itemIds us_allTargets us_packingUnitKeys] in *. rewrite Hi1 in Hf. rewrite Hk1 in Hf2.
    cbn [mbind list_bind]. fold (@mbind list _ _ _ packingUnits items). split_and!.
    + rewrite fmap_cons. constructor; [|done]. intros (j & Heq & Hj)%list_elem_of_fmap.
      apply (Hf j Hj). rewrite <-Heq. set_solver.
    + intros j [->|Hj]%elem_of_cons; [done|]. specialize (Hf j Hj). set_solver.
    + by rewrite Ht, Ht1, <-app_assoc.
    + rewrite fmap_app, NoDup_app. split_and!; [done| |done].
      intros k (t & -> & Htt)%list_elem_of_fmap (u & Heq & Hu)%list_elem_of_fmap.
      apply (Hf2 u Hu). rewrite <-Heq. set_solver.
    + intros t [Htt|Htt]%elem_of_app; [auto|]. specialize (Hf2 t Htt). set_solver.
Qed.

Lemma validateAndCollect_Ok items r :
  validateAndCollectPackingUnits items = Ok r →
  NoDup (itemId <$> items) ∧ r = items ≫= packingUnits ∧ NoDup (Allocations.id <$> r).
Proof.
  unfold validateAndCollectPackingUnits. intros H. ok_inv.
  match goal with H : foldM _ _ _ = _ |- _ => apply collectItems_ok in H as (HN & _ & Ht & HN2 & _) end.
  cbn [us_allTargets app] in Ht. by rewrite Ht.
Qed.

Lemma checkParcels_ok expected c ps st st' :
  foldM (checkParcel expected c) st ps = Ok st' →
  NoDup (shipmentPlanId <$> ps) ∧ (∀ p, p ∈ ps → shipmentPlanId p ∉ st.2)
  ∧ Forall (λ p, Money.currency (carrierCost p) = c ∧ Money.currency (customerShippingRate p) = c
      ∧ Money.currency (packagingCost p) = c) ps.
Proof.
  revert st. induction ps as [|p ps IH]; intros [ks ids] H; cbn [foldM] in H; ok_inv.
  - split_and!; [constructor| |constructor]. by intros ? []%not_elem_of_nil.
  - match goal with H : checkParcel _ _ _ _ = _ |- _ => unfold checkParcel in H end.
    ok_inv. bool_inv.
    match goal with H : foldM (checkParcel _ _) _ _ = _ |- _ => apply IH in H as (HN & Hf & HF) end.
    repeat match goal with H : assertCurrency _ _ = _ |- _ => apply quoteCurrency_Ok in H end.
    cbn [snd] in *. split_and!.
    + rewrite fmap_cons. constructor; [|done]. intros (q & Heq & Hq)%list_elem_of_fmap.
      apply (Hf q Hq). rewrite <-Heq. set_solver.
    + intros q [->|Hq]%elem_of_cons; [done|]. specialize (Hf q Hq). set_solver.
    + by constructor.
Qed.

Lemma validateShipment_Ok s units c u :
  validateShipment s units c = Ok u →
  parcels s ≠ [] ∧ NoDup (shipmentPlanId <$> parcels s)
  ∧ Forall (λ p, Money.currency (carrierCost p) = c ∧ Money.currency (customerShippingRate p) = c
      ∧ Money.currency (packagingCost p) = c) (parcels s).
Proof.
  unfold validateShipment. cbv zeta. intros H. ok_inv. bool_inv.
  match goal with H : foldM _ _ _ = Ok ?x |- _ => apply checkParcels_ok in H as (? & _ & ?) end. done.
Qed.

Lemma validatePriceList_Ok pl u :
  validatePriceList pl = Ok u →
  Money.currency (minimumPrintPrice pl) = currency pl
  ∧ Money.currency (smallOrderSurcharge pl) = currency pl
  ∧ Money.currency (freeShippingPrintThreshold pl) = currency pl
  ∧ 0 < denominator (expressMultiplier pl) ≤ numerator (expressMultiplier pl).
Proof.
  unfold validatePriceList. intros H. ok_inv. bool_inv.
  match goal with H : traverse (λ _, assertCurrency _ _) _ = _ |- _ => apply traverse_Ok in H; rename H into Ht end.
  do 3 (let y := fresh in inversion Ht as [|? y ? ? ?Hc Ht' ]; subst; clear Ht; rename Ht' into Ht).
  repeat match goal with H : assertCurrency _ _ = _ |- _ => apply quoteCurrency_Ok in H end.
  split_and!; done || lia.
Qed.

(** The breakdown: every amount is in the price list's currency, and what it
    is made of. *)
Ltac money_step :=
  match goal with
  | H : moneyFromRational _ _ _ _ = Ok _ |- _ => apply moneyFromRational_in in H
  | H : Money.zero _ = Ok _ |- _ => apply zero_in in H as [? ?]
  | H : sumMoney _ _ = Ok _ |- _ => apply sum_in' in H as [? ?]; [|solve [auto | forall_list]]
  | H : Money.add _ _ = Ok _ |- _ => eapply add_in in H as [? ?]; [|eassumption..]
  | H : Money.subtract _ _ = Ok _ |- _ => eapply subtract_in in H as [? ?]; [|eassumption..]
  | H : addMargin _ _ = Ok _ |- _ => eapply addMargin_in in H as (? & ? & _); [|eassumption]
  | H : maximum _ _ = Ok _ |- _ => eapply maximum_in in H as [? ?]; [|eassumption..]
  | H : differenceOrZero _ _ = Ok _ |- _ => eapply differenceOrZero_in in H as [? ?]; [|eassumption..]
  end.

Lemma parcelHandling_in pl m : parcelHandling pl = Ok m → money_in (currency pl) m.
Proof. unfold parcelHandling. cbv zeta. intros H. ok_inv. by repeat money_step. Qed.

Lemma shipping_in input c (ps : list ParcelPricingInput) m r :
  Forall (money_in c) (customerShippingRate <$> ps) →
  match shipment input with
  | None => Money.zero c
  | Some _ =>
      k ← Money.compare m (freeShippingPrintThreshold (priceList input));
      if k <? 0 then sumMoney c (customerShippingRate <$> ps) else Money.zero c
  end = Ok r →
  money_in c r ∧ minor r =
    if bool_decide (shipment input ≠ None)
      && (minor m <? minor (freeShippingPrintThreshold (priceList input)))
    then sum_by (minor ∘ customerShippingRate) ps else 0.
Proof.
  intros HF H. destruct (shipment input) as [s|].
  - rewrite bool_decide_eq_true_2 by done. cbn [andb]. ok_inv.
    match goal with H : Money.compare _ _ = _ |- _ => apply Money.compare_Ok in H as [_ ->] end.
    destruct (Z.ltb_spec (minor m) (minor (freeShippingPrintThreshold (priceList input))));
      destruct (Z.ltb_spec (Z.sgn (minor m - minor (freeShippingPrintThreshold (priceList input)))) 0);
      try lia; repeat money_step; [|done].
    split; [done|]. by rewrite sum_by_fmap in *.
  - rewrite bool_decide_eq_false_2 by auto. cbn [andb]. by money_step.
Qed.

Lemma express_in input c m r :
  c ∈ Money.supportedMinorUnitCurrencies →
  0 < denominator (expressMultiplier (priceList input)) ≤ numerator (expressMultiplier (priceList input)) →
  money_in c m →
  (if expressRequested input then
     Money.multiply m
       (BigIntIn (numerator (expressMultiplier (priceList input))
                  - denominator (expressMultiplier (priceList input))))
       (BigIntIn (denominator (expressMultiplier (priceList input)))) Money.ceil
   else Money.zero c) = Ok r →
  money_in c r ∧ minor r =
    if expressRequested input then
      let e := expressMultiplier (priceList input) in
      cdiv (minor m * (numerator e - denominator e)) (denominator e)
    else 0.
Proof.
  intros Hc Hex [Hm Hcur] H. destruct (expressRequested input).
  - pose proof (Money.multiply_wf _ _ _ _ _ Hm H). apply Money.multiply_bigint in H as [Hcr Hr];
      [|apply Hm|lia|lia]. split; [split; [done|congruence]|]. cbn in Hr. cbv zeta.
    set (e := expressMultiplier (priceList input)) in *.
    pose proof (cdiv_bounds (minor m * (numerator e - denominator e)) (denominator e) ltac:(lia)). nia.
  - by money_step.
Qed.

Lemma small_in input c r :
  money_in c (smallOrderSurcharge (priceList input)) →
  (if sum_by (λ item, materialWeightMilligrams (base item) + materialWeightMilligrams (quantityEffect item)) (items input)
      <? smallOrderWeightThresholdMilligrams (priceList input)
   then Ok (smallOrderSurcharge (priceList input)) else Money.zero c) = Ok r →
  money_in c r ∧ minor r =
    if sum_by (λ item, materialWeightMilligrams (base item) + materialWeightMilligrams (quantityEffect item)) (items input)
       <? smallOrderWeightThresholdMilligrams (priceList input)
    then minor (smallOrderSurcharge (priceList input)) else 0.
Proof. intros Hs H. destruct (_ <? _); [by ok_inv|by money_step]. Qed.

Definition parcel_in (c : jstr) (p : ParcelPricingInput) : Prop :=
  money_in c (carrierCost p) ∧ money_in c (customerShippingRate p) ∧ money_in c (packagingCost p).

Lemma priceBreakdown_Ok input d ps b handling :
  let c := currency (priceList input) in
  money_in c (minimumPrintPrice (priceList input)) →
  money_in c (smallOrderSurcharge (priceList input)) →
  0 < denominator (expressMultiplier (priceList input)) ≤ numerator (expressMultiplier (priceList input)) →
  direct_ok c (items input) d → Forall (parcel_in c) ps →
  priceBreakdown input d ps = Ok (b, handling) →
  breakdown_consistent input ps b ∧ Forall (money_in c) handling ∧ length handling = length ps.
Proof.
  intros c Hmin Hsur Hex Hd HF H. unfold priceBreakdown in H. cbv zeta in H. fold c in H.
  assert (∀ f : ParcelPricingInput → Money.t, (∀ p, parcel_in c p → money_in c (f p)) →
    Forall (money_in c) (f <$> ps)) as Hps.
  { intros f Hf. apply Forall_fmap. eapply Forall_impl; [exact HF|]. exact Hf. }
  assert (Forall (money_in c) (carrierCost <$> ps)) by (apply Hps; by intros p (? & ? & ?)).
  assert (Forall (money_in c) (customerShippingRate <$> ps)) by (apply Hps; by intros p (? & ? & ?)).
  assert (Forall (money_in c) (packagingCost <$> ps)) by (apply Hps; by intros p (? & ? & ?)).
  assert (Forall (money_in c) (bucket_amount <$> buckets d)) by (apply Forall_fmap, Hd).
  assert (money_in c (dc_reprintReserve d)).
  { pose proof (do_money _ _ _ Hd) as Hm. rewrite !Forall_cons in Hm. by destruct_and!. }
  ok_inv. match goal with H : traverse _ ps = Ok _ |- _ => rename H into Htr end.
  assert (Forall (money_in c) handling).
  { eapply traverse_Forall; [|exact Htr]. intros p m _. apply parcelHandling_in. }
  assert (length handling = length ps).
  { apply traverse_Ok, Forall2_length in Htr. done. }
  repeat money_step.
  match goal with H : match shipment input with _ => _ end = _ |- _ =>
    apply shipping_in in H as [? ?]; [|done] end.
  repeat money_step.
  match goal with H : (if expressRequested input then _ else _) = _ |- _ =>
    eapply express_in in H as [? ?]; [|by eapply money_in_supported|done|done] end.
  unfold totalWeight in *.
  match goal with H : (if sum_by _ _ <? _ then _ else _) = _ |- _ =>
    apply small_in in H as [? ?]; [|done] end.
  repeat money_step.
  rewrite ?sum_by_fmap, ?sum_by_cons, ?sum_by_nil in *. pose proof (do_sum _ _ _ Hd) as Hsum.
  split_and!; [|done|done]. split; cbn [bd_material bd_machine bd_itemHandling bd_sharedHandling
    bd_amortization bd_reprintReserve bd_packaging bd_carrierCost bd_productionCost
    bd_printPriceBeforeSubsidy bd_customerShipping bd_shippingSubsidy bd_printPriceBeforeMinimum
    bd_minimumPrintTopUp bd_basePrintPrice bd_expressSurcharge bd_smallOrderSurcharge bd_subtotal];
    try done; try lia; try congruence. forall_list.
Qed.

(** *** Looking shares up by their target *)

Lemma mapOf_insert l a : mapOf (l ++ [a]) = <[Allocations.targetId a := Allocations.allocated a]> (mapOf l).
Proof. unfold mapOf. by rewrite foldl_app. Qed.

Lemma mapOf_ne l k : k ∉ Allocations.targetId <$> l → mapOf l !! k = None.
Proof.
  induction l as [|a l IH] using rev_ind; [done|]. intros Hk.
  rewrite fmap_app, not_elem_of_app in Hk. destruct Hk as [Hk Ha].
  rewrite mapOf_insert, lookup_insert_ne; [by apply IH|]. set_solver.
Qed.

Lemma mapOf_lookup l a :
  NoDup (Allocations.targetId <$> l) → a ∈ l →
  mapOf l !! Allocations.targetId a = Some (Allocations.allocated a).
Proof.
  induction l as [|b l IH] using rev_ind; [by intros _ ?%not_elem_of_nil|].
  rewrite fmap_app, NoDup_app. intros (HN & Hdisj & _) [Ha| ->%list_elem_of_singleton]%elem_of_app;
    rewrite mapOf_insert.
  - rewrite lookup_insert_ne; [by apply IH|]. intros Heq.
    apply (Hdisj (Allocations.targetId a)); [by apply list_elem_of_fmap_2|].
    rewrite <-Heq. by left.
  - by rewrite lookup_insert_eq.
Qed.

(** What the code reads for a key. *)
Definition valueOf (m : gmap jstr Money.t) (k : jstr) : Z :=
  match m !! k with Some v => minor v | None => 0 end.

Lemma getOrZero_in m k c v :
  (∀ x, m !! k = Some x → money_in c x) → getOrZero m k c = Ok v →
  money_in c v ∧ minor v = valueOf m k.
Proof.
  unfold getOrZero, valueOf. intros Hm H. destruct (m !! k) as [x|]; [|by money_step].
  ok_inv. split; [by apply Hm|done].
Qed.

(** Reading the shares at any set of keys that includes their targets sees
    each of them once. *)
Lemma sum_valueOf l ks :
  NoDup ks → NoDup (Allocations.targetId <$> l) → (∀ k, k ∈ Allocations.targetId <$> l → k ∈ ks) →
  sum_by (valueOf (mapOf l)) ks = Allocations.total l.
Proof.
  intros Hks HN Hsub.
  assert (Allocations.targetId <$> l ⊆+ ks) as [rest Hperm]%submseteq_Permutation.
  { by apply NoDup_submseteq. }
  rewrite (sum_by_proper _ _ _ Hperm), sum_by_app, sum_by_fmap.
  rewrite (sum_by_ext _ (minor ∘ Allocations.allocated) l).
  - rewrite (sum_by_ext _ (λ _, 0) rest); [rewrite sum_by_const; unfold Allocations.total; lia|].
    intros k Hk. unfold valueOf. rewrite mapOf_ne; [done|]. intros Hin.
    rewrite Hperm in Hks. apply NoDup_app in Hks as (_ & Hdisj & _). by eapply Hdisj.
  - intros a Ha. unfold valueOf. cbn. by rewrite (mapOf_lookup l a HN Ha).
Qed.

Lemma mapOf_money c l k v :
  Forall (λ a, money_in c (Allocations.allocated a)) l → mapOf l !! k = Some v → money_in c v.
Proof.
  induction l as [|a l IH] using rev_ind; [done|]. intros [HF [Ha _]%Forall_cons]%Forall_app.
  rewrite mapOf_insert. intros [[<- <-]|[_ Hk]]%lookup_insert_Some; [done|by apply IH].
Qed.

Lemma allocated_money c amount targets l :
  money_in c amount → Allocations.allocateMoney amount targets = Ok l →
  Forall (λ a, money_in c (Allocations.allocated a)) l
  ∧ Allocations.total l = minor amount
  ∧ Allocations.targetId <$> l = Allocations.id <$> targets
  ∧ NoDup (Allocations.id <$> targets).
Proof.
  intros [Hwf Hc] H. destruct (Allocations.allocateMoney_total _ _ _ Hwf H) as (Ht & Hids & HF).
  destruct (Allocations.allocateMoney_accepts _ _ _ H) as (_ & _ & HN). split_and!; try done.
  eapply Forall_impl; [exact HF|]. intros a [Ha Hca]. split; [done|congruence].
Qed.

Lemma allocatedComponent_Ok c id k m targets tid r :
  money_in c m → allocatedComponent id k m targets tid = Ok r →
  component_exact r ∧ amount r = m ∧ kind r = k ∧ componentId r = id ∧ targetId r = tid
  ∧ Allocations.targetId <$> allocations r = Allocations.id <$> targets.
Proof.
  unfold allocatedComponent. intros Hm H. ok_inv.
  match goal with H : Allocations.allocateMoney _ _ = _ |- _ =>
    destruct (allocated_money _ _ _ _ Hm H) as (_ & ? & ? & _) end. done.
Qed.

(** *** The ids the print price is distributed over *)

Definition bucketSuffixes : list jstr := js <$> [":production"; ":quantity"; ":postprocessing"]%string.

Lemma bucket_suffix (x y s t : jstr) :
  s ∈ bucketSuffixes → t ∈ bucketSuffixes →
  js "item:" ++ x ++ s = js "item:" ++ y ++ t → x = y ∧ s = t.
Proof.
  intros Hs Ht H. apply app_inv_head in H. pose proof (f_equal last H) as Hlast.
  rewrite !last_app in Hlast. unfold bucketSuffixes in *. cbn [fmap list_fmap] in Hs, Ht.
  rewrite !elem_of_cons, elem_of_nil in Hs, Ht.
  destruct Hs as [->|[->|[->|[]]]], Ht as [->|[->|[->|[]]]];
    first [split; [by apply app_inv_tail in H|reflexivity]|vm_compute in Hlast; discriminate Hlast].
Qed.

Lemma bucketIds_suffixes items :
  bucketIds items = item ← items; s ← bucketSuffixes; [js "item:" ++ itemId item ++ s].
Proof. done. Qed.

Lemma bucketIds_elem k items :
  k ∈ bucketIds items → ∃ i s, i ∈ items ∧ s ∈ bucketSuffixes ∧ k = js "item:" ++ itemId i ++ s.
Proof.
  rewrite bucketIds_suffixes. intros (i & (s & Hk & Hs)%list_elem_of_bind & Hi)%list_elem_of_bind.
  apply list_elem_of_singleton in Hk. eauto.
Qed.

(** Item ids that differ give bucket ids that differ. *)
Lemma bucketIds_NoDup items : NoDup (itemId <$> items) → NoDup (bucketIds items).
Proof.
  intros HN. rewrite bucketIds_suffixes. apply NoDup_bind.
  - intros i j k Hi Hj (s & Hk & Hs)%list_elem_of_bind (t & Hk' & Ht)%list_elem_of_bind.
    apply list_elem_of_singleton in Hk as ->. apply list_elem_of_singleton in Hk'.
    apply bucket_suffix in Hk' as [Hid _]; [|done..].
    apply list_elem_of_lookup in Hi as [m Hm], Hj as [n Hn].
    assert (m = n) as ->; [|congruence].
    eapply NoDup_lookup; [exact HN|by rewrite list_lookup_fmap, Hm|by rewrite list_lookup_fmap, Hn, Hid].
  - intros i _. apply NoDup_bind.
    + intros s t k Hs Ht ->%list_elem_of_singleton Hk%list_elem_of_singleton.
      by apply bucket_suffix in Hk as [_ ?].
    + intros. apply NoDup_singleton.
    + apply (bool_decide_unpack _). vm_compute. exact I.
  - by apply NoDup_fmap_1 in HN.
Qed.

Lemma allIds_NoDup items ps :
  NoDup (itemId <$> items) → NoDup (shipmentPlanId <$> ps) →
  NoDup (bucketIds items ++ (shipmentComponentId <$> ps)).
Proof.
  intros Hi Hp. apply NoDup_app. split_and!.
  - by apply bucketIds_NoDup.
  - intros k (i & s & _ & _ & ->)%bucketIds_elem (p & Hk & _)%list_elem_of_fmap. discriminate Hk.
  - assert (shipmentComponentId <$> ps = (λ x, js "shipment:" ++ x) <$> (shipmentPlanId <$> ps)) as ->.
    { by rewrite <-list_fmap_compose. }
    apply NoDup_fmap_2; [|done]. intros x y Hxy. by apply app_inv_head in Hxy.
Qed.

Lemma elem_of_List_filter {A} (f : A → bool) l x : x ∈ List.filter f l → x ∈ l.
Proof. rewrite !list_elem_of_In. by intros [? _]%List.filter_In. Qed.

(** The bases only name buckets and parcels. *)
Lemma pricingBases_Ok d ps handling subsidy c items bases :
  bucket_componentId <$> buckets d = bucketIds items →
  pricingBases d ps handling subsidy c = Ok bases →
  ∀ k, k ∈ Allocations.id <$> bases → k ∈ bucketIds items ++ (shipmentComponentId <$> ps).
Proof.
  unfold pricingBases. cbv zeta. intros Hids H. run_in H. ok_inv.
  match goal with H : traverse _ _ = Ok ?l |- _ => rename H into Htr, l into ships end.
  assert (Forall (λ t, Allocations.id t ∈ shipmentComponentId <$> ps) ships) as Hships.
  { eapply traverse_Forall; [|exact Htr]. intros [i p] t Hip Ht. ok_inv. cbn [Allocations.id].
    apply elem_of_lookup_imap_1 in Hip as (j & q & [= <- <-] & Hq).
    apply (list_elem_of_fmap_2 shipmentComponentId). by eapply list_elem_of_lookup_2. }
  rewrite Forall_forall in Hships. intros k. rewrite elem_of_app, <-Hids.
  destruct (0 <? length _)%nat.
  - intros (t & -> & Ht)%list_elem_of_fmap. apply elem_of_List_filter, elem_of_app in Ht as [Ht|Ht].
    + left. apply list_elem_of_fmap in Ht as (b & -> & Hb). cbn. by apply list_elem_of_fmap_2.
    + right. auto.
  - intros (t & -> & Ht)%list_elem_of_fmap. left.
    apply list_elem_of_fmap in Ht as (b & -> & Hb%elem_of_List_filter). cbn. by apply list_elem_of_fmap_2.
Qed.

Lemma allocatedComponents_Ok {A} (f : A → result CalculatedPriceComponent) (g : A → Z) l r :
  (∀ x y, x ∈ l → f x = Ok y → component_exact y ∧ minor (amount y) = g x) →
  traverse f l = Ok r → Forall component_exact r ∧ componentsTotal r = sum_by g l.
Proof.
  intros Hf H. apply traverse_Ok in H. unfold componentsTotal.
  induction H as [|x y l r Hxy _ IH]; [done|].
  destruct (Hf x y ltac:(by left) Hxy) as [He Ha].
  destruct IH as [? IH]; [intros; apply Hf; [by right|done]|].
  rewrite !sum_by_cons. split; [by constructor|]. cbn. unfold compose in *. lia.
Qed.

Lemma parcelComponent_Ok units m ship c p r :
  parcel_in c p → (∀ k x, m !! k = Some x → money_in c x) →
  parcelComponent units m ship c p = Ok r →
  component_exact r ∧ minor (amount r) = valueOf m (shipmentComponentId p)
    + (if minor ship =? 0 then 0 else minor (customerShippingRate p)).
Proof.
  intros (_ & Hr & _) Hm H. unfold parcelComponent in H. cbv zeta in H. ok_inv.
  match goal with H : (if _ =? 0 then _ else _) = Ok ?x |- _ =>
    assert (money_in c x ∧ minor x = if minor ship =? 0 then 0 else minor (customerShippingRate p)) as [? Hx]
      by (destruct (minor ship =? 0); [by money_step|by ok_inv]) end.
  match goal with H : getOrZero _ _ _ = _ |- _ => apply getOrZero_in in H as [? Hy]; [|by apply Hm] end.
  money_step.
  match goal with H : allocatedComponent _ _ ?m _ _ = Ok _, Hm : money_in _ ?m |- _ =>
    apply (allocatedComponent_Ok _ _ _ _ _ _ _ Hm) in H as (He & -> & _) end.
  split; [done|]. lia.
Qed.

(** What the parcels are charged for shipping is what the customer pays. *)
Lemma shipping_total input ps b :
  breakdown_consistent input ps b →
  sum_by (λ p, if minor (bd_customerShipping b) =? 0 then 0 else minor (customerShippingRate p)) ps
  = minor (bd_customerShipping b).
Proof.
  intros Hb. pose proof (bc_shipping _ _ _ Hb) as Hs.
  destruct (Z.eqb_spec (minor (bd_customerShipping b)) 0) as [->|Hne]; [by rewrite sum_by_const|].
  case_match; [by rewrite Hs|done].
Qed.

Lemma orderComponents_Ok input d ps units bases b r :
  let c := currency (priceList input) in
  breakdown_consistent input ps b → direct_ok c (items input) d → Forall (parcel_in c) ps →
  NoDup (itemId <$> items input) → NoDup (shipmentPlanId <$> ps) →
  (∀ k, k ∈ Allocations.id <$> bases → k ∈ bucketIds (items input) ++ (shipmentComponentId <$> ps)) →
  orderComponents d ps units bases b c = Ok r →
  Forall component_exact r
  ∧ componentsTotal r = minor (bd_printPriceBeforeMinimum b) + minor (bd_minimumPrintTopUp b)
      + minor (bd_smallOrderSurcharge b) + minor (bd_expressSurcharge b) + minor (bd_customerShipping b).
Proof.
  intros c Hb Hd HF Hitems Hplans Hsub H. unfold orderComponents in H. ok_inv.
  pose proof (bc_money _ _ _ Hb) as Hm. fold c in Hm. rewrite !Forall_cons in Hm.
  destruct Hm as (_ & _ & Hpriced & Htop & Hexp & Hsmall & _).
  match goal with H : Allocations.allocateMoney _ bases = Ok ?l |- _ =>
    destruct (allocated_money _ _ _ _ Hpriced H) as (Hmoney & Htotal & Hids & HN); rename l into shares end.
  assert (∀ k x, mapOf shares !! k = Some x → money_in c x) as Hmap by (intros; by eapply mapOf_money).
  rewrite <-Hids in HN, Hsub.
  pose proof (sum_valueOf shares _ (allIds_NoDup _ _ Hitems Hplans) HN Hsub) as Hsum.
  rewrite sum_by_app, <-(do_ids _ _ _ Hd), !sum_by_fmap in Hsum.
  match goal with H : traverse _ (buckets d) = _ |- _ =>
    apply (allocatedComponents_Ok _ (valueOf (mapOf shares) ∘ bucket_componentId)) in H as [? Hbk] end.
  2:{ intros bk y _ Hy. ok_inv.
      match goal with H : getOrZero _ _ _ = _ |- _ => apply getOrZero_in in H as [Hx Hv]; [|by apply Hmap] end.
      match goal with H : allocatedComponent _ _ _ _ _ = Ok _ |- _ =>
        apply (allocatedComponent_Ok _ _ _ _ _ _ _ Hx) in H as (He & -> & _) end. done. }
  match goal with H : traverse _ ps = _ |- _ =>
    apply (allocatedComponents_Ok _ (λ p, valueOf (mapOf shares) (shipmentComponentId p)
      + (if minor (bd_customerShipping b) =? 0 then 0 else minor (customerShippingRate p)))) in H as [? Hpk] end.
  2:{ intros p y Hp Hy. rewrite Forall_forall in HF. eapply parcelComponent_Ok; [by apply HF|done|done]. }
  rewrite sum_by_add, (shipping_total _ _ _ Hb) in Hpk.
  repeat match goal with H : allocatedComponent _ _ ?m _ _ = Ok _, Hm : money_in _ ?m |- _ =>
    let Ha := fresh "Ha" in apply (allocatedComponent_Ok _ _ _ _ _ _ _ Hm) in H as (? & Ha & _) end.
  rewrite !Forall_app, !Forall_cons. split; [done|]. unfold componentsTotal in *.
  rewrite !sum_by_app, !sum_by_cons, Hbk, Hpk. cbn [compose]. unfold compose in *.
  rewrite ?Ha, ?Ha0, ?Ha1. lia.
Qed.

Lemma vatComponent_Ok c vat units r :
  money_in c vat → vatComponent vat units = Ok r →
  Forall component_exact r ∧ componentsTotal r = minor vat.
Proof.
  unfold vatComponent, componentsTotal. intros Hv H.
  destruct (Z.ltb_spec 0 (minor vat)); ok_inv.
  - match goal with H : allocatedComponent _ _ _ _ _ = Ok _ |- _ =>
      apply (allocatedComponent_Ok _ _ _ _ _ _ _ Hv) in H as (? & Ha & _) end.
    rewrite sum_by_cons, sum_by_nil. cbn. rewrite Ha. split; [by forall_list|lia].
  - rewrite sum_by_nil. pose proof (money_in_nonneg _ _ Hv). split; [constructor|lia].
Qed.

Definition parcelsOf (input : OrderPriceCalculationInput) : list ParcelPricingInput :=
  match shipment input with Some s => parcels s | None => [] end.

Definition commonOf (r : OrderPriceCalculation) : CommonPrice :=
  match r with
  | provisional common _ _ _ => common
  | binding common _ _ _ _ _ _ _ _ _ => common
  end.

Definition componentsOf (r : OrderPriceCalculation) : list CalculatedPriceComponent :=
  match r with
  | provisional _ _ _ components => components
  | binding _ _ _ _ _ _ _ _ _ components => components
  end.

(** The parcels of a validated shipment. *)
Lemma parcels_in input units :
  input_wf input →
  match shipment input with
  | Some s => validateShipment s units (currency (priceList input))
  | None => Ok ()
  end = Ok () →
  Forall (parcel_in (currency (priceList input))) (parcelsOf input)
  ∧ NoDup (shipmentPlanId <$> parcelsOf input).
Proof.
  unfold parcelsOf. intros Hwf H. destruct (shipment input) as [s|] eqn:Hs; [|split; constructor].
  apply validateShipment_Ok in H as (_ & HN & Hc). split; [|done].
  pose proof (wf_parcels _ Hwf s Hs) as HF. rewrite Forall_forall in HF, Hc. apply Forall_forall.
  intros p Hp. destruct (HF p Hp) as (? & ? & ?), (Hc p Hp) as (? & ? & ?). by split_and!.
Qed.

(** What every calculation has in common: a consistent breakdown, and exact
    components that add up to the subtotal before the fee and the VAT. *)
Lemma calculateOrderPrice_Ok input r :
  input_wf input → calculateOrderPrice input = Ok r →
  let b := breakdown (commonOf r) in
  breakdown_consistent input (parcelsOf input) b
  ∧ ∃ components,
    Forall component_exact components ∧ componentsTotal components = minor (bd_subtotal b)
    ∧ ∃ units vat,
      match shipment input with
      | None => ∃ tax, Tax.taxBreakdownFromNet (bd_subtotal b) (taxPolicy (priceList input)) = Ok tax
          ∧ vatComponent (Tax.vat tax) units = Ok vat
          ∧ r = provisional (commonOf r) (Tax.gross tax) tax (components ++ vat)
      | Some s => ∃ g fee,
          Payment.grossUpPaymentSchedule (bd_subtotal b) (paymentSchedule input)
            (taxPolicy (priceList input)) = Ok g
          ∧ allocatedComponent (js "order:payment-fee") PAYMENT_FEE (Payment.paymentFee g) units None = Ok fee
          ∧ vatComponent (Tax.vat (Payment.tax g)) units = Ok vat
          ∧ r = binding (commonOf r) (shipmentPlanId <$> parcels s) (deliveryDestinationId s)
              (deliveryCapabilitySnapshotId s) (Payment.contractTotal g) (Payment.tax g)
              (Payment.contractTotal g) (Payment.paymentFee g) (Payment.captures g)
              (components ++ [fee] ++ vat)
      end.
Proof.
  intros Hwf H. unfold calculateOrderPrice in H. cbv zeta in H. fold (parcelsOf input) in H.
  apply bind_Ok in H as ([] & Hpl & H). apply validatePriceList_Ok in Hpl as (Hmin & Hsur & _ & Hex).
  do 3 (apply bind_Ok in H as (? & _ & H)).
  apply bind_Ok in H as (units & Hunits & H). apply validateAndCollect_Ok in Hunits as (Hitems & _ & _).
  apply bind_Ok in H as (d & Hd & H). apply directCosts_Ok in Hd.
  apply bind_Ok in H as ([] & Hship & H). destruct (parcels_in _ _ Hwf Hship) as [Hps Hplans].
  apply bind_Ok in H as ([b handling] & Hb & H).
  assert (money_in (currency (priceList input)) (minimumPrintPrice (priceList input))) as Hmin'
    by (split; [by apply Hwf|done]).
  assert (money_in (currency (priceList input)) (smallOrderSurcharge (priceList input))) as Hsur'
    by (split; [by apply Hwf|done]).
  destruct (priceBreakdown_Ok _ _ _ _ _ Hmin' Hsur' Hex Hd Hps Hb) as (Hbd & _ & _).
  apply bind_Ok in H as (bases & Hbases & H).
  pose proof (pricingBases_Ok _ _ _ _ _ _ _ (do_ids _ _ _ Hd) Hbases) as Hsub.
  apply bind_Ok in H as (components & Hcomp & H).
  destruct (orderComponents_Ok _ _ _ _ _ _ _ Hbd Hd Hps Hitems Hplans Hsub Hcomp) as [Hexact Htotal].
  assert (componentsTotal components = minor (bd_subtotal b)) as Hsubtotal.
  { rewrite Htotal, (bc_subtotal _ _ _ Hbd), (bc_topUp _ _ _ Hbd). lia. }
  destruct (shipment input) as [s|]; ok_inv; cbn [commonOf breakdown];
    (split; [done|]); exists components; (split; [done|]); (split; [done|]); eauto 10.
Qed.

(** *** What the costs are charged for *)

Lemma moneyFromRational_charged c v r m : moneyFromRational c v r RCeil = Ok m → minor m = charged v r.
Proof. by intros (_ & _ & _ & ->)%moneyFromRational_ceil. Qed.

Ltac charged_step :=
  match goal with H : moneyFromRational _ _ _ _ = Ok _ |- _ =>
    pose proof (moneyFromRational_charged _ _ _ _ H); apply moneyFromRational_in in H end.

Lemma metricCost_charged c item m pl r : metricCost c item m pl = Ok r →
  minor (mc_material r) = charged (materialWeightMilligrams m) (materialRateMinorPerMilligram item)
  ∧ minor (mc_machine r) = charged (machineSeconds m) (machineRateMinorPerSecond pl)
  ∧ minor (mc_handling r) = charged (plateCount m * handlingPlateSeconds pl + pieceHandlingSeconds m) (laborRateMinorPerSecond pl)
  ∧ minor (mc_amortization r) = charged (machineSeconds m) (amortizationRateMinorPerSecond pl).
Proof. unfold metricCost. cbv zeta. intros H. ok_inv. by repeat charged_step. Qed.

Record state_charged (pl : PriceListCalculationInput) (items : list OrderItemPricingInput) (s : DirectState) : Prop := {
  sc_material : sum_by minor (ds_material s) =
    perItem (λ item m, charged (materialWeightMilligrams m) (materialRateMinorPerMilligram item)) items;
  sc_machine : sum_by minor (ds_machine s) = perItem (λ _ m, charged (machineSeconds m) (machineRateMinorPerSecond pl)) items;
  sc_itemHandling : sum_by minor (ds_itemHandling s) =
    perItem (λ _ m, charged (plateCount m * handlingPlateSeconds pl + pieceHandlingSeconds m) (laborRateMinorPerSecond pl)) items
    + sum_by (λ item, charged (postprocessingSeconds item) (laborRateMinorPerSecond pl)) items;
  sc_amortization : sum_by minor (ds_amortization s) =
    perItem (λ _ m, charged (machineSeconds m) (amortizationRateMinorPerSecond pl)) items;
}.

Lemma itemCosts_charged pl items s item s' :
  state_charged pl items s → itemCosts pl s item = Ok s' → state_charged pl (items ++ [item]) s'.
Proof.
  unfold itemCosts. cbv zeta. intros [Hm Hs Hh Ha] H. ok_inv. charged_step.
  repeat match goal with H : metricCost _ _ _ _ = _ |- _ => apply metricCost_charged in H as (? & ? & ? & ?) end.
  unfold perItem in *. split; cbn [ds_material ds_machine ds_itemHandling ds_amortization];
    unfold perItem; rewrite !sum_by_app, !sum_by_cons, !sum_by_nil; lia.
Qed.

Lemma directCosts_charged pl items d : directCosts items pl = Ok d →
  ∃ s, state_charged pl items s
    ∧ minor (dc_material d) = sum_by minor (ds_material s) ∧ minor (dc_machine d) = sum_by minor (ds_machine s)
    ∧ minor (dc_itemHandling d) = sum_by minor (ds_itemHandling s)
    ∧ minor (dc_amortization d) = sum_by minor (ds_amortization s)
    ∧ minor (dc_reprintReserve d) = charged (sum_by (minor ∘ bucket_amount) (buckets d)) (reprintRate pl).
Proof.
  intros H. pose proof (directCosts_Ok _ _ _ H) as Hd. pose proof (do_buckets _ _ _ Hd) as Hbuckets.
  unfold directCosts in H. cbv zeta in H. ok_inv. cbn [buckets] in Hbuckets.
  match goal with H : foldM _ _ _ = Ok ?s' |- _ => exists s'; rename H into Hloop end. split.
  { assert (∀ done s s', state_charged pl done s → foldM (itemCosts pl) s items = Ok s' → state_charged pl (done ++ items) s') as Hgen.
    { clear. induction items as [|item items IH]; intros done s s' Hs H; cbn in H; ok_inv.
      - by rewrite (right_id_L [] (++)).
      - rewrite cons_middle, app_assoc. eapply IH; [|done]. by eapply itemCosts_charged. }
    apply (Hgen [] _ _) in Hloop; [done|]. by split. }
  match goal with H : multiplyMoneyRational ?x _ _ = _ |- _ => unfold multiplyMoneyRational in H; ok_inv end.
  match goal with H : assertRational _ = _ |- _ => apply assertRational_Ok in H as [? ?] end.
  apply (proj2 (Forall_fmap _ _ _)) in Hbuckets.
  match goal with Hm : Money.multiply ?x _ _ _ = Ok _, Hs : sumMoney _ (bucket_amount <$> _) = Ok ?x |- _ =>
    apply sum_in' in Hs as [Hx Hsum]; [|done]; apply Money.multiply_bigint in Hm as [_ Hr]; [|apply Hx|done|done] end.
  repeat match goal with H : sumMoney _ _ = Ok ?m |- _ => apply sumMoney_Ok in H as (? & ? & ->) end.
  cbn [buckets dc_material dc_machine dc_itemHandling dc_amortization dc_reprintReserve Money.minorUnits].
  split_and!; try done. cbn in Hr. unfold charged. rewrite <- sum_by_fmap, <- Hsum.
  match goal with |- minor ?r = cdiv ?n ?d => pose proof (cdiv_bounds n d ltac:(done)) end. nia.
Qed.

Lemma parcelHandling_charged pl m : parcelHandling pl = Ok m →
  minor m = charged (handlingPackSeconds pl) (laborRateMinorPerSecond pl)
    + charged (shippingTripSeconds pl) (mkRational (numerator (laborRateMinorPerSecond pl))
        (denominator (laborRateMinorPerSecond pl) * shippingTripPricingDivisor pl)).
Proof.
  unfold parcelHandling. cbv zeta. intros H. ok_inv. repeat charged_step.
  match goal with H : Money.add _ _ = Ok _ |- _ => eapply add_in in H as [_ ->]; [|eassumption..] end. lia.
Qed.

Lemma priceBreakdown_charged input d ps b handling :
  directCosts (items input) (priceList input) = Ok d → priceBreakdown input d ps = Ok (b, handling) → breakdown_charged input ps b.
Proof.
  intros Hd H. pose proof (do_sum _ _ _ (directCosts_Ok _ _ _ Hd)) as Hsum.
  apply directCosts_charged in Hd as (s & [Hm Hs Hh Ha] & Hdm & Hds & Hdh & Hda & Hdr).
  unfold priceBreakdown in H. cbv zeta in H. apply bind_Ok in H as (fixed & Hfixed & H).
  apply bind_Ok in H as (perParcel & Hper & H). apply bind_Ok in H as (parcelsHandling & Hph & H).
  apply bind_Ok in H as (shared & Hshared & H).
  assert (Hb : bd_material b = dc_material d ∧ bd_machine b = dc_machine d ∧ bd_itemHandling b = dc_itemHandling d
    ∧ bd_amortization b = dc_amortization d ∧ bd_reprintReserve b = dc_reprintReserve d ∧ bd_sharedHandling b = shared).
  { clear - H. by ok_inv. }
  destruct Hb as (H1 & H2 & H3 & H4 & H5 & H6).
  split; rewrite ?H1, ?H2, ?H3, ?H4, ?H5, ?H6, ?Hdr, ?Hsum, ?Hdm, ?Hds, ?Hdh, ?Hda; try done. cbv zeta.
  pose proof (moneyFromRational_charged _ _ _ _ Hfixed) as <-. apply moneyFromRational_in in Hfixed.
  assert (Hall : Forall (λ m, money_in (currency (priceList input)) m ∧ parcelHandling (priceList input) = Ok m) perParcel).
  { eapply traverse_Forall; [|exact Hper]. intros p m _ Hp. split; [by apply parcelHandling_in|done]. }
  apply traverse_Ok, Forall2_length in Hper. rewrite Hper.
  apply sum_in' in Hph as [Hin Hph]; [|eapply Forall_impl; [exact Hall|]; by intros m []].
  eapply add_in in Hshared as [_ ->]; [|exact Hfixed|exact Hin]. rewrite Hph. f_equal. clear - Hall.
  induction Hall as [|m ms [_ Hp] _ IH]; [done|]. rewrite sum_by_cons, IH, (parcelHandling_charged _ _ Hp). cbn [length]. lia.
Qed.

Lemma calculateOrderPrice_charged input r :
  calculateOrderPrice input = Ok r → breakdown_charged input (parcelsOf input) (breakdown (commonOf r)).
Proof.
  unfold calculateOrderPrice. cbv zeta. fold (parcelsOf input). intros H.
  do 5 (apply bind_Ok in H as (? & _ & H)). apply bind_Ok in H as (d & Hd & H). apply bind_Ok in H as (? & _ & H).
  apply bind_Ok in H as ([b handling] & Hb & H). apply (priceBreakdown_charged _ _ _ _ _ Hd) in Hb.
  do 2 (apply bind_Ok in H as (? & _ & H)). by destruct (shipment input); ok_inv.
Qed.

Lemma taxFromNet_wf n p b c :
  money_in c n → Tax.taxBreakdownFromNet n p = Ok b →
  money_in c (Tax.vat b) ∧ minor (Tax.gross b) = minor n + minor (Tax.vat b).
Proof.
  intros [Hn <-] H.
  assert (∃ rate, Tax.policy_wf p rate) as [rate Hp].
  { unfold Tax.taxBreakdownFromNet in H. apply bind_Ok in H as (u & Hu & _).
    by apply Tax.validateSellerTaxPolicy_Ok in Hu. }
  rewrite (Tax.taxBreakdownFromNet_eq _ _ _ Hn Hp) in H. ok_inv. cbn. split; [|done].
  apply money_in_mk. split; [|apply Hn]. destruct Hp as (_ & Hr & _), Hn as [Hn _].
  apply hdiv_nonneg; [nia|done].
Qed.

Lemma grossUp_money m cs p g c :
  money_in c m → Forall (λ c, Money.wf (Payment.feeFixed c)) cs →
  Payment.grossUpPaymentSchedule m cs p = Ok g →
  money_in c (Payment.paymentFee g) ∧ money_in c (Tax.vat (Payment.tax g)).
Proof.
  intros [Hm <-] Hf H. destruct (Payment.grossUp_Ok _ _ _ _ Hm Hf H)
    as (rate & T & (_ & Hr & _) & Hok & _ & HT & (_ & Hcov & _) & _ & ->).
  unfold Payment.grossUpAt. cbn [Payment.paymentFee Payment.tax Tax.vat]. rewrite !money_in_mk.
  pose proof (Tax.vat_of_gross_bounds rate T Hr HT). destruct Hm as [_ Hc].
  split_and!; try done; [|lia]. rewrite <-Payment.feesOf_evaluated.
  apply sum_by_nonneg. intros e He. destruct (Payment.evaluated_nonneg T cs e Hok HT He) as (_ & _ & ? & _). lia.
Qed.
End Quote.

(** ** Properties *)

(** A provisional price adds up.  Its components, with the VAT, are
    exactly the total the customer is shown, the total is the subtotal of the
    breakdown plus the VAT, and the allocations of every component to packing
    units add up to the component. *)
Theorem provisional_price_reconciles (input : Quote.OrderPriceCalculationInput)
    (common : Quote.CommonPrice) (customerTotal : Money.t) (tax : Tax.CustomerTaxBreakdown)
    (components : list Quote.CalculatedPriceComponent) :
  Quote.input_wf input →
  Quote.calculateOrderPrice input = Ok (Quote.provisional common customerTotal tax components) →
  Quote.componentsTotal components = Money.minorUnits customerTotal
  ∧ Money.minorUnits customerTotal
    = Money.minorUnits (Quote.bd_subtotal (Quote.breakdown common)) + Money.minorUnits (Tax.vat tax)
  ∧ Forall Quote.component_exact components.
Proof.
  intros Hwf H. destruct (Quote.calculateOrderPrice_Ok _ _ Hwf H) as (Hb & cs & Hcs & Htot & units & vat & Hr).
  destruct (Quote.shipment input); [by destruct Hr as (? & ? & _ & _ & _ & ?)|].
  destruct Hr as (tax' & Htax & Hvat & [= -> -> ->]). cbn [Quote.commonOf] in *.
  pose proof (Quote.bc_money _ _ _ Hb) as Hm. rewrite !Forall_cons in Hm.
  destruct Hm as (_ & _ & _ & _ & _ & _ & Hs & _).
  destruct (Quote.taxFromNet_wf _ _ _ _ Hs Htax) as [Hv Hg].
  destruct (Quote.vatComponent_Ok _ _ _ _ Hv Hvat) as [Hve Hvt]. rewrite Hg. split_and!; [|done|].
  - unfold Quote.componentsTotal in *. rewrite sum_by_app. lia.
  - apply Forall_app. done.
Qed.

Lemma sample_input_wf s :
  s = None ∨ s = Some Quote.sample_shipment → Quote.input_wf (Quote.sample_input s).
Proof.
  intros Hs. split; cbn.
  - apply (Money.CZK_wf 5000). lia.
  - apply (Money.CZK_wf 900). lia.
  - apply (Money.CZK_wf 50000). lia.
  - intros s' ->. destruct Hs as [|[= ->]]; [done|]. cbn. forall_list.
    split_and!; (apply (Money.CZK_wf 8900) || apply (Money.CZK_wf 7900) || apply (Money.CZK_wf 500)); lia.
  - forall_list. apply (Money.CZK_wf 100). lia.
Qed.

Lemma provisional_price_reconciles_witness :
  ∃ common tax components,
    Quote.calculateOrderPrice (Quote.sample_input None)
      = Ok (Quote.provisional common (Quote.czk 10164) tax components)
    ∧ Quote.componentsTotal components = 10164.
Proof.
  destruct (Quote.calculateOrderPrice (Quote.sample_input None)) as [[common total tax components|]|] eqn:H;
    try (vm_compute in H; discriminate H).
  assert (total = Quote.czk 10164) as -> by (vm_compute in H; injection H; intros; by subst).
  exists common, tax, components. split; [reflexivity|].
  exact (proj1 (provisional_price_reconciles _ _ _ _ _ (sample_input_wf None (or_introl eq_refl)) H)).
Defined.

(** C1: a binding price adds up.  Its components are exactly the subtotal, the
    payment fee and the VAT, every component is allocated exactly, and the
    captures to be collected add up to the contract total.  The components
    never exceed the contract total; they reach it exactly whenever a total
    one unit smaller would still give every planned capture a positive
    amount. *)
Theorem binding_price_reconciles (input : Quote.OrderPriceCalculationInput)
    (common : Quote.CommonPrice) (plans : list jstr) (destination snapshot : jstr)
    (customerTotal : Money.t) (tax : Tax.CustomerTaxBreakdown) (contractTotal paymentFee : Money.t)
    (captures : list Payment.GrossedUpPaymentCapture)
    (components : list Quote.CalculatedPriceComponent) :
  Quote.input_wf input →
  Quote.calculateOrderPrice input = Ok (Quote.binding common plans destination snapshot
    customerTotal tax contractTotal paymentFee captures components) →
  let total := Money.minorUnits contractTotal in
  customerTotal = contractTotal
  ∧ Quote.componentsTotal components
    = Money.minorUnits (Quote.bd_subtotal (Quote.breakdown common))
      + Money.minorUnits paymentFee + Money.minorUnits (Tax.vat tax)
  ∧ Forall Quote.component_exact components
  ∧ sum_by (Money.minorUnits ∘ Payment.gross) captures = total
  ∧ Quote.componentsTotal components ≤ total
  ∧ (0 < total →
     (∀ e, Payment.evaluateTotal (total - 1) (Quote.paymentSchedule input) = Ok e →
        Forall (λ c, 0 < Payment.grossMinor c) e) →
     Quote.componentsTotal components = total).
Proof.
  intros Hwf H. destruct (Quote.calculateOrderPrice_Ok _ _ Hwf H) as (Hb & cs & Hcs & Htot & units & vat & Hr).
  destruct (Quote.shipment input) as [s|]; [|by destruct Hr as (? & _ & _ & ?)].
  destruct Hr as (g & fee & Hg & Hfee & Hvat & [= -> -> -> -> -> -> -> -> ->]). cbn [Quote.commonOf] in *.
  pose proof (Quote.bc_money _ _ _ Hb) as Hm. rewrite !Forall_cons in Hm.
  destruct Hm as (_ & _ & _ & _ & _ & _ & Hs & _). pose proof (Quote.wf_fees _ Hwf) as Hf.
  destruct (Quote.grossUp_money _ _ _ _ _ Hs Hf Hg) as [Hmf Hmv].
  apply (Quote.allocatedComponent_Ok _ _ _ _ _ _ _ Hmf) in Hfee as (Hfe & Hfa & _).
  destruct (Quote.vatComponent_Ok _ _ _ _ Hmv Hvat) as [Hve Hvt].
  assert (Quote.componentsTotal (cs ++ fee :: vat) =
    Money.minorUnits (Quote.bd_subtotal (Quote.breakdown common))
    + Money.minorUnits (Payment.paymentFee g) + Money.minorUnits (Tax.vat (Payment.tax g))) as Hsum.
  { unfold Quote.componentsTotal in *. rewrite sum_by_app, sum_by_cons, Htot, Hvt. cbn.
    rewrite Hfa. lia. }
  destruct (Payment.grossUp_Ok _ _ _ _ (proj1 Hs) Hf Hg)
    as (rate & T & (_ & Hr & _) & Hok & _ & HT & Hcov & Hmin & ->).
  unfold Payment.grossUpAt in *. cbn [Payment.contractTotal Payment.tax Payment.paymentFee
    Payment.captures Money.minorUnits Tax.net Tax.vat] in *. cbv zeta. cbn [app]. split_and!.
  - done.
  - done.
  - apply Forall_app. split; [done|]. by constructor.
  - rewrite sum_by_fmap. erewrite sum_by_proper by apply js_sort_perm. by apply Payment.grossed_evaluated.
  - rewrite Hsum. destruct Hcov as (_ & _ & Hc). unfold Tax.net_of_gross in Hc. lia.
  - intros HT0 Hpos. rewrite Hsum.
    assert (Tax.net_of_gross rate T - Payment.feesOf T (Quote.paymentSchedule input)
      = Money.minorUnits (Quote.bd_subtotal (Quote.breakdown common))) as Hexact; [|unfold Tax.net_of_gross in Hexact; lia].
    apply Payment.remaining_exact; try done; [apply Hs|apply Hmin; lia|].
    specialize (Hpos _ (Payment.evaluateTotal_eq _ (T - 1) Hok ltac:(lia))).
    rewrite Forall_fmap in Hpos. exact Hpos.
Qed.

Lemma binding_price_reconciles_witness :
  ∃ r, Quote.calculateOrderPrice (Quote.sample_input (Some Quote.sample_shipment)) = Ok r
  ∧ Quote.componentsTotal (Quote.componentsOf r) = 20212.
Proof.
  destruct (Quote.calculateOrderPrice (Quote.sample_input (Some Quote.sample_shipment)))
    as [[|common plans dest snap ct tax total fee captures components]|] eqn:H;
    try (vm_compute in H; discriminate H).
  eexists. split; [reflexivity|]. cbn [Quote.componentsOf].
  assert (total = Quote.czk 20212) as Ht by (vm_compute in H; injection H; intros; by subst).
  destruct (binding_price_reconciles _ _ _ _ _ _ _ _ _ _ _
    (sample_input_wf _ (or_intror eq_refl)) H) as (_ & _ & _ & _ & _ & Hexact).
  rewrite Ht in Hexact. cbn [Money.minorUnits Quote.czk] in Hexact. apply Hexact; [lia|].
  vm_compute. intros e [= <-]. repeat constructor.
Defined.

(** C2: the figures of a breakdown follow the pricing rules.  Material, machine
    time, handling and amortization are charged per item at the rates of the price
    list, each rounded up, the reserve for reprints is a share of them, and the
    shared handling is that of the order and of each parcel; the production cost is
    the sum of its parts; the print price is the cost with the subsidy plus the
    margin, rounded up, but at least the price list's minimum; the subsidy is
    what the carrier costs beyond what the customer pays for shipping, and
    shipping is free from the threshold on; and the subtotal is the print
    price with the express and small-order surcharges and the shipping. *)
Theorem price_breakdown_consistent (input : Quote.OrderPriceCalculationInput)
    (r : Quote.OrderPriceCalculation) :
  Quote.input_wf input → Quote.calculateOrderPrice input = Ok r →
  Quote.breakdown_charged input (Quote.parcelsOf input) (Quote.breakdown (Quote.commonOf r))
  ∧ Quote.breakdown_consistent input (Quote.parcelsOf input) (Quote.breakdown (Quote.commonOf r)).
Proof.
  intros Hwf H. split; [by apply Quote.calculateOrderPrice_charged|by apply Quote.calculateOrderPrice_Ok].
Qed.

Lemma price_breakdown_consistent_witness :
  ∃ r, Quote.calculateOrderPrice (Quote.sample_input (Some Quote.sample_shipment)) = Ok r
  ∧ Money.minorUnits (Quote.bd_basePrintPrice (Quote.breakdown (Quote.commonOf r))) = 5000.
Proof.
  destruct (Quote.calculateOrderPrice (Quote.sample_input (Some Quote.sample_shipment))) as [r|] eqn:H;
    [|vm_compute in H; discriminate H].
  exists r. split; [reflexivity|].
  rewrite (Quote.bc_base _ _ _ (proj2 (price_breakdown_consistent _ _ (sample_input_wf _ (or_intror eq_refl)) H))).
  vm_compute in H. injection H as <-. reflexivity.
Defined.

(** The exception is real.  For an order of one minor unit split into two
    payments, the code binds a contract total of two units with components of
    one unit only: the unit added to make both captures positive belongs to no
    component. *)
Theorem binding_price_gap :
  match Quote.calculateOrderPrice Quote.gap_input with
  | Ok (Quote.binding _ _ _ _ _ _ contractTotal _ _ components) =>
      Money.minorUnits contractTotal = 2 ∧ Quote.componentsTotal components = 1
  | _ => False
  end.
Proof. vm_compute. done. Qed.
