(* ===== verification/Projections.v ===== *)
(** The projections of [packages/core/src/projections]: what an order's
    captures and refunds amount to, the ledger of component credits
    (financial.ts), and the readiness and completion barriers over fulfilment
    slots (fulfilment.ts). *)
From S2P Require Import Prelude Primitives.

Module Financial.
Import Money.

(** ** Payments *)

Inductive CapturedPaymentStatus := captured | refund_pending | partially_refunded | refunded.

#[global] Instance CapturedPaymentStatus_eq_dec : EqDecision CapturedPaymentStatus.
Proof. solve_decision. Defined.

(** An optional field is [None] when it is absent. *)
Record CapturedPayment := mkPayment {
  id : jstr;
  status : CapturedPaymentStatus;
  capturedAmount : Money.t;
  refundedAmount : option Money.t;
  isCompensationCapture : option bool;
  includedInSettlement : option bool;
}.

Inductive DerivedPaymentStatus :=
| status_unpaid | status_partially_paid | status_paid | status_partially_refunded | status_refunded.

#[global] Instance DerivedPaymentStatus_eq_dec : EqDecision DerivedPaymentStatus.
Proof. solve_decision. Defined.

Record PaymentProjection := mkProjection {
  paymentStatus : DerivedPaymentStatus;
  capturedTotal : Money.t;
  refundedTotal : Money.t;
  netCaptured : Money.t;
  amountDue : Money.t;
  refundableBalance : Money.t;
}.

Definition assertCurrency (value : Money.t) (c : jstr) : result () :=
  throw_when (negb (str_eqb (currency value) c)) (DomainError CURRENCY_MISMATCH).

(** The condition of the third [throw] of the loop: the captured amount, the
    refund and the status contradict each other.  [compare] throws only on a
    currency mismatch, which the checks before it exclude; its operands are
    evaluated in order. *)
Definition inconsistent (payment : CapturedPayment) (refund : Money.t) : result bool :=
  c ← compare refund (capturedAmount payment);
  Ok (match status payment with
      | refunded => negb (c =? 0)
      | partially_refunded => (minorUnits refund =? 0) || (0 <=? c)
      | refund_pending => 0 <=? c
      | captured => 0 <? minorUnits refund
      end).

(** [payment.isCompensationCapture || payment.includedInSettlement === false] *)
Definition excluded (payment : CapturedPayment) : bool :=
  default false (isCompensationCapture payment)
  || bool_decide (includedInSettlement payment = Some false).

(** The loop's state: the totals and the IDs seen. *)
Definition totals : Type := Money.t * Money.t * gset jstr.

Definition addPayment (contractCurrency : jstr) (s : totals) (payment : CapturedPayment)
    : result totals :=
  let '(capturedTotal, refundedTotal, paymentIds) := s in
  throw_when (blank (id payment)) (DomainError INVALID_ARGUMENT) ;;
  throw_when (bool_decide (id payment ∈ paymentIds)) (DomainError DUPLICATE_PAYMENT) ;;
  let paymentIds := {[id payment]} ∪ paymentIds in
  assertCurrency (capturedAmount payment) contractCurrency ;;
  refund ← match refundedAmount payment with
           | Some r => Ok r
           | None => zero contractCurrency
           end;
  assertCurrency refund contractCurrency ;;
  c ← compare refund (capturedAmount payment);
  throw_when (0 <? c) (DomainError OVER_REFUND) ;;
  bad ← inconsistent payment refund;
  throw_when bad (DomainError INVALID_ARGUMENT) ;;
  if excluded payment then Ok (capturedTotal, refundedTotal, paymentIds)
  else
    capturedTotal ← add capturedTotal (capturedAmount payment);
    refundedTotal ← add refundedTotal refund;
    Ok (capturedTotal, refundedTotal, paymentIds).

(** The nested conditional that names the status. *)
Definition deriveStatus (contractTotal capturedTotal refundedTotal netCaptured : Money.t)
    : result DerivedPaymentStatus :=
  if minorUnits capturedTotal =? 0 then Ok status_unpaid
  else if (minorUnits netCaptured =? 0) && (0 <? minorUnits refundedTotal) then Ok status_refunded
  else if 0 <? minorUnits refundedTotal then Ok status_partially_refunded
  else
    c ← compare netCaptured contractTotal;
    Ok (if 0 <=? c then status_paid else status_partially_paid).

(** [left.compare(right) > 0 ? left.subtract(right) : Money.zero(currency)] *)
Definition excessOver (left right : Money.t) (c : jstr) : result Money.t :=
  k ← compare left right;
  if 0 <? k then subtract left right else zero c.

Definition projectPayments (contractTotal : Money.t) (payments : list CapturedPayment)
    : result PaymentProjection :=
  let c := currency contractTotal in
  capturedTotal ← zero c;
  refundedTotal ← zero c;
  '(capturedTotal, refundedTotal, _) ← foldM (addPayment c) (capturedTotal, refundedTotal, ∅) payments;
  netCaptured ← subtract capturedTotal refundedTotal;
  paymentStatus ← deriveStatus contractTotal capturedTotal refundedTotal netCaptured;
  amountDue ← excessOver contractTotal netCaptured c;
  refundableBalance ← excessOver netCaptured contractTotal c;
  Ok (mkProjection paymentStatus capturedTotal refundedTotal netCaptured amountDue refundableBalance).

(** ** Component credits *)

Record ComponentAllocation := mkAllocation {
  allocationId : jstr;
  remaining : Money.t;
}.

Record ComponentCreditLedger := mkLedger {
  ledgerCurrency : jstr;
  consumedAllocationIds : list jstr;
  creditedTotal : Money.t;
}.

Record ComponentCreditResult := mkCredit {
  ledger : ComponentCreditLedger;
  credited : Money.t;
  remainingContractValue : Money.t;
}.

(** [seen.add(id)] on a [Set], which remembers the order of insertion. *)
Definition set_add (seen : list jstr) (x : jstr) : list jstr :=
  if bool_decide (x ∈ seen) then seen else seen ++ [x].

Definition seeConsumed (seen : list jstr) (x : jstr) : result (list jstr) :=
  throw_when (bool_decide (x ∈ seen)) (DomainError DUPLICATE_COMPONENT_CREDIT) ;;
  Ok (set_add seen x).

Definition creditAllocation (contractCurrency : jstr) (s : list jstr * Money.t)
    (allocation : ComponentAllocation) : result (list jstr * Money.t) :=
  let '(seen, credited) := s in
  throw_when (blank (allocationId allocation)) (DomainError INVALID_ARGUMENT) ;;
  throw_when (bool_decide (allocationId allocation ∈ seen)) (DomainError DUPLICATE_COMPONENT_CREDIT) ;;
  assertCurrency (remaining allocation) contractCurrency ;;
  let seen := set_add seen (allocationId allocation) in
  credited ← add credited (remaining allocation);
  Ok (seen, credited).

(** The [try] statement turns a [NEGATIVE_RESULT] of the subtraction into the
    projection's own error with the same code, and rethrows any other. *)
Definition remainingValue (contractTotal cumulativeCredited : Money.t) : result Money.t :=
  match subtract contractTotal cumulativeCredited with
  | Ok r => Ok r
  | Throw error =>
      if bool_decide (error = DomainError NEGATIVE_RESULT) then Throw (DomainError NEGATIVE_RESULT)
      else Throw error
  end.

Definition consumeComponentCredits (contractTotal : Money.t)
    (allocations : list ComponentAllocation) (l : ComponentCreditLedger)
    : result ComponentCreditResult :=
  let c := currency contractTotal in
  throw_when (negb (str_eqb (ledgerCurrency l) c)) (DomainError CURRENCY_MISMATCH) ;;
  assertCurrency (creditedTotal l) c ;;
  seen ← foldM seeConsumed [] (consumedAllocationIds l);
  credited ← zero c;
  '(seen, credited) ← foldM (creditAllocation c) (seen, credited) allocations;
  cumulativeCredited ← add (creditedTotal l) credited;
  remainingContractValue ← remainingValue contractTotal cumulativeCredited;
  Ok (mkCredit (mkLedger (ledgerCurrency l) seen cumulativeCredited) credited remainingContractValue).

(** ** Specification *)

(** What the loop accepts of one payment. *)
Definition refundOf (p : CapturedPayment) : Z := default 0 (minorUnits <$> refundedAmount p).

Definition capturedOf (p : CapturedPayment) : Z := minorUnits (capturedAmount p).

Definition payment_wf (p : CapturedPayment) : Prop :=
  Money.wf (capturedAmount p) ∧ ∀ r, refundedAmount p = Some r → Money.wf r.

Definition status_agrees (p : CapturedPayment) : Prop :=
  match status p with
  | captured => refundOf p = 0
  | refund_pending => refundOf p < capturedOf p
  | partially_refunded => 0 < refundOf p < capturedOf p
  | refunded => refundOf p = capturedOf p
  end.

Definition payment_ok (c : jstr) (p : CapturedPayment) : Prop :=
  blank (id p) = false ∧ currency (capturedAmount p) = c
  ∧ (∀ r, refundedAmount p = Some r → currency r = c)
  ∧ refundOf p ≤ capturedOf p ∧ status_agrees p.

(** The payments that settle the order. *)
Definition settling (payments : list CapturedPayment) : list CapturedPayment :=
  List.filter (λ p, negb (excluded p)) payments.

(** The projection, as figures. *)
Definition projection_of (contractTotal : Money.t) (payments : list CapturedPayment)
    : PaymentProjection :=
  let m n := mk n (currency contractTotal) in
  let total := minorUnits contractTotal in
  let cap := sum_by capturedOf (settling payments) in
  let ref := sum_by refundOf (settling payments) in
  let net := cap - ref in
  mkProjection
    (if decide (cap = 0) then status_unpaid
     else if decide (0 < ref) then (if decide (net = 0) then status_refunded else status_partially_refunded)
     else if decide (total ≤ net) then status_paid else status_partially_paid)
    (m cap) (m ref) (m net) (m (Z.max 0 (total - net))) (m (Z.max 0 (net - total))).

(** A ledger that a contract's credits can have produced: no allocation is
    consumed twice, and the credited total is what the consumed ones held. *)
Definition ledger_of (contractTotal : Money.t) (consumed : list ComponentAllocation)
    : ComponentCreditLedger :=
  mkLedger (currency contractTotal) (allocationId <$> consumed)
    (mk (sum_by (minorUnits ∘ remaining) consumed) (currency contractTotal)).

Definition allocation_ok (contractTotal : Money.t) (a : ComponentAllocation) : Prop :=
  blank (allocationId a) = false ∧ currency (remaining a) = currency contractTotal.

(** Calls of [consumeComponentCredits] one after the other, each with the
    ledger the previous one left. *)
Inductive credits (contractTotal : Money.t) :
    ComponentCreditLedger → list (list ComponentAllocation) → ComponentCreditLedger → Prop :=
| credits_nil l : credits contractTotal l [] l
| credits_cons l batch r rest l' :
    consumeComponentCredits contractTotal batch l = Ok r →
    credits contractTotal (ledger r) rest l' →
    credits contractTotal l (batch :: rest) l'.

(** The ledger a contract starts with. *)
Definition empty_ledger (contractTotal : Money.t) : ComponentCreditLedger := ledger_of contractTotal [].

(** ** Facts *)

Lemma assertCurrency_Ok m c u : assertCurrency m c = Ok u ↔ currency m = c.
Proof.
  unfold assertCurrency, str_eqb. rewrite throw_when_Ok, negb_false_iff. apply bool_decide_eq_true.
Qed.

Lemma refund_nonneg p : payment_wf p → 0 ≤ refundOf p.
Proof.
  intros [_ H]. unfold refundOf. destruct (refundedAmount p) as [r|]; cbn; [|lia]. by apply H.
Qed.

Lemma inconsistent_Ok p c :
  payment_wf p → currency (capturedAmount p) = c →
  inconsistent p (mk (refundOf p) c) = Ok false ↔ status_agrees p.
Proof.
  intros Hwf Hc. pose proof (refund_nonneg p Hwf).
  unfold inconsistent, status_agrees. rewrite bind_Ok. setoid_rewrite Money.compare_Ok.
  cbn [currency minorUnits]. fold (capturedOf p). rewrite Hc. split.
  - intros (k & [_ ->] & Hk). injection Hk as Hk. destruct (status p); lia.
  - intros Ha. eexists. split; [done|]. f_equal. destruct (status p); lia.
Qed.

Lemma settling_one p : settling [p] = if excluded p then [] else [p].
Proof. unfold settling. cbn. by destruct (excluded p). Qed.

(** One iteration of the loop over the payments. *)
Lemma addPayment_Ok c a b ids p s' :
  payment_wf p → c ∈ supportedMinorUnitCurrencies →
  addPayment c (mk a c, mk b c, ids) p = Ok s' ↔
    payment_ok c p ∧ id p ∉ ids
    ∧ s' = (mk (a + sum_by capturedOf (settling [p])) c,
            mk (b + sum_by refundOf (settling [p])) c, {[id p]} ∪ ids).
Proof.
  intros Hwf Hc. unfold addPayment.
  assert (∀ r, (match refundedAmount p with Some r => Ok r | None => zero c end = Ok r ∧ currency r = c)
    ↔ (∀ r, refundedAmount p = Some r → currency r = c) ∧ r = mk (refundOf p) c) as Hr.
  { intros r. unfold refundOf. destruct (refundedAmount p) as [[n cr]|].
    - cbn. split; [intros [[= <-] [= ->]]|intros [H ->]]; [|by rewrite <-(H _ eq_refl)].
      split; [|done]. by intros ? [= <-].
    - rewrite Money.zero_Ok. cbn [default fmap option_fmap option_map from_option]. naive_solver. }
  split.
  - intros H. cbv zeta in H. ok_inv. bool_inv.
    match goal with H : assertCurrency (capturedAmount p) _ = _ |- _ => apply assertCurrency_Ok in H as Hcc end.
    match goal with H : assertCurrency ?r _ = _, H' : _ = Ok ?r |- _ => apply assertCurrency_Ok in H as Hrc;
      destruct (proj1 (Hr r) (conj H' Hrc)) as [Hrs ->] end.
    match goal with H : compare _ _ = _ |- _ => apply Money.compare_Ok in H as [_ ->] end.
    match goal with H : inconsistent _ _ = _ |- _ => apply inconsistent_Ok in H; [|done..] end.
    cbn [currency minorUnits] in *. unfold payment_ok. split_and!; try done.
    + unfold capturedOf. lia.
    + rewrite settling_one. destruct (excluded p); ok_inv.
      * by rewrite !sum_by_nil, !Z.add_0_r.
      * repeat match goal with H : add _ _ = _ |- _ => apply Money.add_Ok in H as [_ ->] end.
        by rewrite !sum_by_cons, !sum_by_nil, !Z.add_0_r.
  - intros ((Hb & Hcc & Hrs & Hle & Hst) & Hn & ->). rewrite Hb, throw_when_false. run.
    rewrite bool_decide_eq_false_2, throw_when_false by done. run.
    rewrite (proj2 (assertCurrency_Ok _ _ tt) Hcc). run.
    destruct (proj2 (Hr _) (conj Hrs eq_refl)) as [-> _]. run.
    rewrite (proj2 (assertCurrency_Ok (mk (refundOf p) c) c tt) eq_refl). run.
    rewrite (proj2 (Money.compare_Ok (mk (refundOf p) c) (capturedAmount p) _) (conj (eq_sym Hcc) eq_refl)). run.
    cbn [minorUnits].
    fold (capturedOf p). rewrite (proj2 (Z.ltb_ge 0 _)), throw_when_false by lia. run.
    rewrite (proj2 (inconsistent_Ok p c Hwf Hcc) Hst). run. rewrite throw_when_false. run.
    rewrite settling_one.
    destruct (excluded p); [by rewrite !sum_by_nil, !Z.add_0_r|].
    rewrite (proj2 (Money.add_Ok (mk a c) (capturedAmount p) _) (conj (eq_sym Hcc) eq_refl)). run.
    rewrite (proj2 (Money.add_Ok (mk b c) (mk (refundOf p) c) _) (conj eq_refl eq_refl)). run.
    by rewrite !sum_by_cons, !sum_by_nil, !Z.add_0_r.
Qed.

Lemma settling_cons p ps : settling (p :: ps) = settling [p] ++ settling ps.
Proof. unfold settling. cbn. by destruct (negb (excluded p)). Qed.

Lemma addPayments_Ok c ps a b ids s' :
  Forall payment_wf ps → c ∈ supportedMinorUnitCurrencies →
  foldM (addPayment c) (mk a c, mk b c, ids) ps = Ok s' ↔
    Forall (payment_ok c) ps ∧ NoDup (id <$> ps) ∧ (∀ p, p ∈ ps → id p ∉ ids)
    ∧ s' = (mk (a + sum_by capturedOf (settling ps)) c,
            mk (b + sum_by refundOf (settling ps)) c, list_to_set (id <$> ps) ∪ ids).
Proof.
  intros Hwf Hc. revert a b ids. induction Hwf as [|p ps Hp Hwf IH]; intros a b ids.
  - change (settling []) with (@nil CapturedPayment). rewrite !sum_by_nil, !Z.add_0_r. cbn.
    rewrite (left_id_L ∅ (∪)). split.
    + intros H. ok_inv. split_and!; try constructor. by intros ? []%not_elem_of_nil.
    + by intros (_ & _ & _ & ->).
  - cbn [foldM]. rewrite bind_Ok. setoid_rewrite (addPayment_Ok c a b ids p _ Hp Hc).
    rewrite (settling_cons p ps), !sum_by_app, fmap_cons, !Forall_cons, NoDup_cons, list_elem_of_fmap. split.
    + intros (s1 & (Hok & Hn & ->) & H). apply IH in H as (HF & HN & Hd & ->). split_and!; try done.
      * intros (q & Hq & Hin). apply (Hd q Hin). set_solver.
      * intros q [->|Hin]%elem_of_cons; [done|]. specialize (Hd q Hin). set_solver.
      * by rewrite !Z.add_assoc, list_to_set_cons, (assoc_L (∪)), (comm_L (∪) (list_to_set _)).
    + intros ((Hok & HF) & (Hnp & HN) & Hd & ->). eexists. split.
      { split_and!; [done|apply Hd; by left|done]. }
      apply IH. split_and!; try done.
      * intros q Hq [Heq%elem_of_singleton|Hs]%elem_of_union; [|by apply (Hd q); [right|]].
        apply Hnp. by exists q.
      * by rewrite !Z.add_assoc, list_to_set_cons, (assoc_L (∪)), (comm_L (∪) (list_to_set _)).
Qed.

Lemma settled_refunds c ps :
  Forall (payment_ok c) ps → sum_by refundOf (settling ps) ≤ sum_by capturedOf (settling ps).
Proof.
  rewrite Forall_forall. intros H. apply sum_by_le. unfold settling.
  intros p [Hp _]%list_elem_of_In%List.filter_In. apply H. by apply list_elem_of_In.
Qed.

Lemma settled_nonneg ps : Forall payment_wf ps → 0 ≤ sum_by refundOf (settling ps).
Proof.
  rewrite Forall_forall. intros H. apply sum_by_nonneg. unfold settling.
  intros p [Hp _]%list_elem_of_In%List.filter_In. apply refund_nonneg, H. by apply list_elem_of_In.
Qed.

Lemma excessOver_eq a b c :
  c ∈ supportedMinorUnitCurrencies → excessOver (mk a c) (mk b c) c = Ok (mk (Z.max 0 (a - b)) c).
Proof.
  intros Hc. unfold excessOver.
  rewrite (proj2 (Money.compare_Ok (mk a c) (mk b c) _) (conj eq_refl eq_refl)). cbn.
  destruct (Z.ltb_spec 0 (Z.sgn (a - b))).
  - apply Money.subtract_Ok. cbn. split_and!; [done|lia|]. f_equal. lia.
  - apply Money.zero_Ok. split; [|done]. f_equal. lia.
Qed.

Lemma deriveStatus_eq contractTotal cap ref :
  0 ≤ ref ≤ cap →
  let m n := mk n (currency contractTotal) in
  deriveStatus contractTotal (m cap) (m ref) (m (cap - ref))
  = Ok (if decide (cap = 0) then status_unpaid
     else if decide (0 < ref) then (if decide (cap - ref = 0) then status_refunded else status_partially_refunded)
     else if decide (minorUnits contractTotal ≤ cap - ref) then status_paid else status_partially_paid).
Proof.
  intros Hr m. subst m. unfold deriveStatus. cbn [minorUnits].
  destruct (Z.eqb_spec cap 0), (decide (cap = 0)); try lia; [done|].
  destruct (Z.ltb_spec 0 ref), (decide (0 < ref)); try lia.
  - rewrite andb_true_r. by destruct (Z.eqb_spec (cap - ref) 0), (decide (cap - ref = 0)).
  - rewrite andb_false_r.
    rewrite (proj2 (Money.compare_Ok (mk (cap - ref) (currency contractTotal)) contractTotal _) (conj eq_refl eq_refl)).
    cbn. destruct (decide _); [rewrite (proj2 (Z.leb_le 0 _)) by lia|rewrite (proj2 (Z.leb_gt 0 _)) by lia]; done.
Qed.

(** The projection, in full. *)
Lemma projectPayments_Ok contractTotal ps r :
  Money.wf contractTotal → Forall payment_wf ps →
  projectPayments contractTotal ps = Ok r ↔
    Forall (payment_ok (currency contractTotal)) ps ∧ NoDup (id <$> ps)
    ∧ r = projection_of contractTotal ps.
Proof.
  intros Hct Hwf. destruct contractTotal as [total c]. destruct Hct as [H0 Hc]. cbn in Hc.
  unfold projectPayments. cbn [currency].
  rewrite (proj2 (Money.zero_Ok c (mk 0 c)) (conj eq_refl Hc)). run.
  rewrite bind_Ok. setoid_rewrite (addPayments_Ok c ps 0 0 ∅ _ Hwf Hc).
  pose proof (settled_nonneg ps Hwf) as Hn.
  transitivity (Forall (payment_ok c) ps ∧ NoDup (id <$> ps) ∧ Ok (projection_of (mk total c) ps) = Ok r).
  2:{ split; intros (? & ? & He); [injection He as <-|subst]; done. }
  unfold projection_of. cbn [currency minorUnits]. cbv zeta.
  set (cap := sum_by capturedOf (settling ps)) in *. set (ref := sum_by refundOf (settling ps)) in *.
  assert (Forall (payment_ok c) ps → ∀ ids : gset jstr, (let '(capturedTotal, refundedTotal, _) := (mk (0 + cap) c, mk (0 + ref) c, ids) in
    netCaptured ← subtract capturedTotal refundedTotal;
    paymentStatus ← deriveStatus (mk total c) capturedTotal refundedTotal netCaptured;
    amountDue ← excessOver (mk total c) netCaptured c;
    refundableBalance ← excessOver netCaptured (mk total c) c;
    Ok (mkProjection paymentStatus capturedTotal refundedTotal netCaptured amountDue refundableBalance))
    = Ok (projection_of (mk total c) ps)) as Hrest.
  { intros HF ids. pose proof (settled_refunds c ps HF) as Hle.
    rewrite !Z.add_0_l. rewrite (proj2 (Money.subtract_Ok (mk cap c) (mk ref c) _) (conj eq_refl (conj Hle eq_refl))).
    run. cbn [currency minorUnits].
    rewrite (deriveStatus_eq (mk total c) cap ref (conj Hn Hle) : deriveStatus _ (mk cap c) (mk ref c) (mk (cap - ref) c) = _).
    run. rewrite !excessOver_eq by done. done. }
  unfold projection_of in Hrest. cbn [currency minorUnits] in Hrest. cbv zeta in Hrest.
  split.
  - intros (s & (HF & HN & _ & ->) & H). split_and!; [done..|]. rewrite <-H. symmetry. apply (Hrest HF ∅).
  - intros (HF & HN & H). eexists. split.
    + split_and!; [done..| |reflexivity]. intros p _. apply not_elem_of_empty.
    + rewrite <-H. apply (Hrest HF ∅).
Qed.

Lemma projection_of_perm contractTotal ps ps' :
  ps ≡ₚ ps' → projection_of contractTotal ps = projection_of contractTotal ps'.
Proof.
  intros Hp. assert (settling ps ≡ₚ settling ps') as Hs.
  { unfold settling. induction Hp as [|p ? ? _ IH|p q ?|? ? ? _ IH1 _ IH2]; cbn; [done| | |by etrans].
    - by case_match; [f_equiv|].
    - repeat case_match; try done. apply Permutation_swap. }
  unfold projection_of. cbv zeta.
  by rewrite (sum_by_proper capturedOf _ _ Hs), (sum_by_proper refundOf _ _ Hs).
Qed.

(** *** The ledger *)

Lemma id_set_add_new seen x : x ∉ seen → set_add seen x = seen ++ [x].
Proof. intros H. unfold set_add. by rewrite bool_decide_eq_false_2. Qed.

(** [NoDup] grows at the end. *)
Lemma NoDup_snoc_cons {A} (l k : list A) x : NoDup (l ++ x :: k) ↔ x ∉ l ∧ NoDup ((l ++ [x]) ++ k).
Proof.
  rewrite <-app_assoc. cbn. split; [|tauto]. intros H. split; [|done].
  apply NoDup_app in H as (_ & H & _). intros Hx. apply (H x Hx). by left.
Qed.

Lemma seeConsumed_Ok ids seen s' :
  NoDup seen → foldM seeConsumed seen ids = Ok s' ↔ NoDup (seen ++ ids) ∧ s' = seen ++ ids.
Proof.
  revert seen. induction ids as [|x ids IH]; intros seen Hs; cbn [foldM].
  - rewrite app_nil_r. split; [intros; by ok_inv|by intros [_ ->]].
  - unfold seeConsumed at 2. rewrite NoDup_snoc_cons. destruct (decide (x ∈ seen)) as [Hx|Hx].
    + rewrite bool_decide_eq_true_2 by done. cbn. split; [done|]. naive_solver.
    + rewrite bool_decide_eq_false_2, id_set_add_new by done. cbn.
      rewrite IH, <-app_assoc; [cbn; naive_solver|].
      apply NoDup_app. split_and!; [done| |apply NoDup_singleton].
      by intros y Hy ->%list_elem_of_singleton.
Qed.

Lemma creditAllocation_Ok contractTotal a seen n s' :
  creditAllocation (currency contractTotal) (seen, mk n (currency contractTotal)) a = Ok s' ↔
    allocation_ok contractTotal a ∧ allocationId a ∉ seen
    ∧ s' = (seen ++ [allocationId a], mk (n + minorUnits (remaining a)) (currency contractTotal)).
Proof.
  unfold creditAllocation, allocation_ok. split.
  - intros H. cbv zeta in H. ok_inv. bool_inv.
    match goal with H : assertCurrency _ _ = _ |- _ => apply assertCurrency_Ok in H end.
    match goal with H : add _ _ = _ |- _ => apply Money.add_Ok in H as [_ ->] end.
    by rewrite id_set_add_new.
  - intros ((-> & Hc) & Hn & ->). rewrite throw_when_false. run.
    rewrite bool_decide_eq_false_2, throw_when_false by done. run.
    rewrite (proj2 (assertCurrency_Ok _ _ tt) Hc). run.
    rewrite id_set_add_new by done.
    by rewrite (proj2 (Money.add_Ok (mk n (currency contractTotal)) (remaining a) _) (conj (eq_sym Hc) eq_refl)).
Qed.

Lemma creditAllocations_Ok contractTotal batch seen n s' :
  NoDup seen →
  foldM (creditAllocation (currency contractTotal)) (seen, mk n (currency contractTotal)) batch = Ok s' ↔
    Forall (allocation_ok contractTotal) batch ∧ NoDup (seen ++ (allocationId <$> batch))
    ∧ s' = (seen ++ (allocationId <$> batch),
            mk (n + sum_by (minorUnits ∘ remaining) batch) (currency contractTotal)).
Proof.
  revert seen n. induction batch as [|a batch IH]; intros seen n Hs; cbn [foldM].
  - cbn [fmap list_fmap]. rewrite app_nil_r, sum_by_nil, Z.add_0_r.
    split; [intros; by ok_inv|by intros (_ & _ & ->)].
  - rewrite bind_Ok, fmap_cons, NoDup_snoc_cons, Forall_cons, sum_by_cons.
    setoid_rewrite creditAllocation_Ok.
    assert (allocationId a ∉ seen → NoDup (seen ++ [allocationId a])) as Hsn.
    { intros Hn. apply NoDup_app. split_and!; [done| |apply NoDup_singleton].
      by intros y Hy ->%list_elem_of_singleton. }
    split.
    + intros (s1 & (Hok & Hn & ->) & H). apply IH in H as (HF & HN & ->); [|by apply Hsn].
      rewrite <-app_assoc, Z.add_assoc in *. done.
    + intros ((Hok & HF) & (Hn & HN) & ->). eexists. split; [by split_and!|].
      apply IH; [by apply Hsn|]. rewrite <-app_assoc, <-Z.add_assoc in *. by split_and!.
Qed.

Lemma remainingValue_Ok a b r :
  remainingValue a b = Ok r ↔ subtract a b = Ok r.
Proof. unfold remainingValue. destruct (subtract a b); [done|]. by case_bool_decide. Qed.

(** One call, on a ledger that the contract's credits have produced. *)
Lemma consume_Ok contractTotal consumed batch r :
  Money.wf contractTotal → NoDup (allocationId <$> consumed) →
  consumeComponentCredits contractTotal batch (ledger_of contractTotal consumed) = Ok r ↔
    let total := sum_by (minorUnits ∘ remaining) (consumed ++ batch) in
    Forall (allocation_ok contractTotal) batch ∧ NoDup (allocationId <$> consumed ++ batch)
    ∧ total ≤ minorUnits contractTotal
    ∧ r = mkCredit (ledger_of contractTotal (consumed ++ batch))
        (mk (sum_by (minorUnits ∘ remaining) batch) (currency contractTotal))
        (mk (minorUnits contractTotal - total) (currency contractTotal)).
Proof.
  intros [_ Hc] HN. cbv zeta. set (c := currency contractTotal).
  unfold consumeComponentCredits, str_eqb. fold c. cbn [ledgerCurrency ledger_of creditedTotal consumedAllocationIds].
  fold c. rewrite bool_decide_eq_true_2 by done. cbn [negb]. rewrite throw_when_false. run.
  rewrite (proj2 (assertCurrency_Ok (mk _ c) c tt) eq_refl). run.
  rewrite (proj2 (seeConsumed_Ok _ [] _ (NoDup_nil_2)) (conj HN eq_refl)). run. cbn [app].
  rewrite (proj2 (Money.zero_Ok c (mk 0 c)) (conj eq_refl Hc)). run.
  rewrite bind_Ok. pose proof (λ s', creditAllocations_Ok contractTotal batch _ 0 s' HN) as Hcredit.
  fold c in Hcredit. setoid_rewrite Hcredit.
  rewrite fmap_app, sum_by_app. split.
  - intros (s & (HF & HN' & ->) & H). rewrite Z.add_0_l in H. apply bind_Ok in H as (cum & [_ ->]%Money.add_Ok & H).
    apply bind_Ok in H as (rv & Hrv & H). apply remainingValue_Ok, Money.subtract_Ok in Hrv as (_ & Hle & ->).
    ok_inv. cbn [minorUnits currency] in *. split_and!; try done.
    unfold ledger_of. by rewrite fmap_app, sum_by_app.
  - intros (HF & HN' & Hle & ->). eexists. split; [by split_and!|]. rewrite Z.add_0_l. cbv beta iota.
    rewrite (proj2 (Money.add_Ok (mk (sum_by (minorUnits ∘ remaining) consumed) c)
      (mk (sum_by (minorUnits ∘ remaining) batch) c) _) (conj eq_refl eq_refl)). run. cbn [minorUnits currency].
    rewrite (proj2 (remainingValue_Ok contractTotal (mk _ c) _) (proj2 (Money.subtract_Ok contractTotal (mk _ c) _)
      (conj eq_refl (conj Hle eq_refl)))). run. unfold ledger_of. by rewrite fmap_app, sum_by_app.
Qed.

Lemma credits_from contractTotal consumed batches l' :
  Money.wf contractTotal → NoDup (allocationId <$> consumed) →
  sum_by (minorUnits ∘ remaining) consumed ≤ minorUnits contractTotal →
  Forall (λ a, 0 ≤ minorUnits (remaining a)) (concat batches) →
  credits contractTotal (ledger_of contractTotal consumed) batches l' ↔
    Forall (allocation_ok contractTotal) (concat batches)
    ∧ NoDup (allocationId <$> consumed ++ concat batches)
    ∧ sum_by (minorUnits ∘ remaining) (consumed ++ concat batches) ≤ minorUnits contractTotal
    ∧ l' = ledger_of contractTotal (consumed ++ concat batches).
Proof.
  intros Hct. revert consumed. induction batches as [|batch rest IH]; intros consumed HN Hle Hpos.
  - cbn [concat]. rewrite app_nil_r. split; [by inversion 1|]. intros (_ & _ & _ & ->). constructor.
  - cbn [concat] in *. apply Forall_app in Hpos as [_ Hpos]. rewrite Forall_app, app_assoc. split.
    + inversion 1 as [|? ? r ? ? Hr Hrest]; subst.
      apply consume_Ok in Hr as (HF & HN' & Hle' & ->); [|done..]. cbn [ledger] in Hrest.
      apply IH in Hrest as (? & ? & ? & ->); done.
    + intros ((HF & HF') & HN' & Hle' & ->).
      assert (sum_by (minorUnits ∘ remaining) (consumed ++ batch) ≤ minorUnits contractTotal) as Hle1.
      { rewrite sum_by_app in Hle'. rewrite Forall_forall in Hpos.
        pose proof (sum_by_nonneg (minorUnits ∘ remaining) (concat rest) Hpos). lia. }
      assert (NoDup (allocationId <$> consumed ++ batch)) as HN1.
      { rewrite fmap_app in HN'. by apply NoDup_app in HN' as (? & _ & _). }
      eapply credits_cons; [by apply consume_Ok|]. cbn [ledger]. by apply IH.
Qed.
End Financial.

Module Fulfilment.

Inductive CurrentJobLeafStatus := qc_approved | packed | handed_over | settled | other.

#[global] Instance CurrentJobLeafStatus_eq_dec : EqDecision CurrentJobLeafStatus.
Proof. solve_decision. Defined.

Inductive Outcome := delivered | cancelled_refunded | pending.

#[global] Instance Outcome_eq_dec : EqDecision Outcome.
Proof. solve_decision. Defined.

Record FulfilmentSlotState := mkSlot {
  id : jstr;
  currentJobLeafStatus : option CurrentJobLeafStatus;
  hasOpenReplacement : bool;
  recoveryBlocked : option bool;
  outcome : option Outcome;
}.

Definition isQcReady (slots : list FulfilmentSlotState) : bool :=
  (0 <? length slots)%nat
  && forallb (λ slot,
       negb (hasOpenReplacement slot)
       && (bool_decide (currentJobLeafStatus slot = Some qc_approved)
           || bool_decide (currentJobLeafStatus slot = Some packed)
           || bool_decide (currentJobLeafStatus slot = Some handed_over)
           || bool_decide (currentJobLeafStatus slot = Some settled))) slots.

(** The two balances are the fields picked from a payment projection. *)
Definition isShipmentHandoffReady (shipmentSlots : list FulfilmentSlotState)
    (amountDue refundableBalance : Money.t) : bool :=
  (0 <? length shipmentSlots)%nat
  && (Money.minorUnits amountDue =? 0)
  && (Money.minorUnits refundableBalance =? 0)
  && forallb (λ slot,
       bool_decide (currentJobLeafStatus slot = Some packed)
       && negb (hasOpenReplacement slot)
       && negb (default false (recoveryBlocked slot))) shipmentSlots.

Inductive SlotCompletion :=
| all_delivered | slots_partially_fulfilled | all_cancelled_refunded | slots_pending.

Inductive SinglePhaseCompletion :=
| phase_completed | phase_partially_fulfilled | phase_cancelled_refunded | phase_pending.

Inductive OrderCompletion :=
| order_completed | order_partially_fulfilled | order_refunded | order_pending.

(** [slots.filter((slot) => slot.outcome === o).length] *)
Definition countOutcome (o : Outcome) (slots : list FulfilmentSlotState) : nat :=
  length (List.filter (λ slot, bool_decide (outcome slot = Some o)) slots).

Definition projectSlotCompletion (slots : list FulfilmentSlotState) : SlotCompletion :=
  if (length slots =? 0)%nat
     || existsb (λ slot, bool_decide (outcome slot = None)
                         || bool_decide (outcome slot = Some pending)) slots
  then slots_pending
  else
    let delivered := countOutcome delivered slots in
    let cancelledRefunded := countOutcome cancelled_refunded slots in
    if (delivered =? length slots)%nat then all_delivered
    else if (0 <? delivered)%nat && (delivered + cancelledRefunded =? length slots)%nat
    then slots_partially_fulfilled
    else if (cancelledRefunded =? length slots)%nat then all_cancelled_refunded
    else slots_pending.

Definition projectSinglePhaseCompletion (slots : list FulfilmentSlotState) : SinglePhaseCompletion :=
  match projectSlotCompletion slots with
  | all_delivered => phase_completed
  | all_cancelled_refunded => phase_cancelled_refunded
  | slots_partially_fulfilled => phase_partially_fulfilled
  | slots_pending => phase_pending
  end.

Definition projectOrderCompletion (slots : list FulfilmentSlotState) : OrderCompletion :=
  match projectSlotCompletion slots with
  | all_delivered => order_completed
  | all_cancelled_refunded => order_refunded
  | slots_partially_fulfilled => order_partially_fulfilled
  | slots_pending => order_pending
  end.

(** ** Specification *)

Definition resolved (s : FulfilmentSlotState) : Prop :=
  outcome s = Some delivered ∨ outcome s = Some cancelled_refunded.

(** What each completion says of the slots. *)
Definition completion_means (c : SlotCompletion) (slots : list FulfilmentSlotState) : Prop :=
  match c with
  | all_delivered => slots ≠ [] ∧ Forall (λ s, outcome s = Some delivered) slots
  | all_cancelled_refunded => slots ≠ [] ∧ Forall (λ s, outcome s = Some cancelled_refunded) slots
  | slots_partially_fulfilled => Forall resolved slots
      ∧ Exists (λ s, outcome s = Some delivered) slots
      ∧ Exists (λ s, outcome s = Some cancelled_refunded) slots
  | slots_pending => slots = [] ∨ ¬ Forall resolved slots
  end.

(** The completion of two groups of slots together. *)
Definition combine (a b : SlotCompletion) : SlotCompletion :=
  match a, b with
  | slots_pending, _ | _, slots_pending => slots_pending
  | all_delivered, all_delivered => all_delivered
  | all_cancelled_refunded, all_cancelled_refunded => all_cancelled_refunded
  | _, _ => slots_partially_fulfilled
  end.

(** Its image in the completion of a single phase and of an order. *)
Definition phase_of (c : OrderCompletion) : SinglePhaseCompletion :=
  match c with
  | order_completed => phase_completed
  | order_partially_fulfilled => phase_partially_fulfilled
  | order_refunded => phase_cancelled_refunded
  | order_pending => phase_pending
  end.

(** ** Facts *)

Lemma isQcReady_spec slots :
  isQcReady slots = true ↔ slots ≠ [] ∧
    Forall (λ s, hasOpenReplacement s = false
      ∧ ∃ l, currentJobLeafStatus s = Some l ∧ l ≠ other) slots.
Proof.
  unfold isQcReady. rewrite andb_true_iff, Nat.ltb_lt, forallb_forall, Forall_forall.
  setoid_rewrite list_elem_of_In. split.
  - intros [Hl H]. split; [intros ->; cbn in Hl; lia|]. intros s Hs. specialize (H s Hs).
    destruct (hasOpenReplacement s), (currentJobLeafStatus s) as [[]|]; try discriminate H; naive_solver.
  - intros [Hn H]. split; [by destruct slots; cbn; [|lia]|]. intros s Hs.
    destruct (H s Hs) as (-> & [] & -> & ?); done.
Qed.

Lemma isShipmentHandoffReady_spec slots due back :
  isShipmentHandoffReady slots due back = true ↔
    slots ≠ [] ∧ Money.minorUnits due = 0 ∧ Money.minorUnits back = 0 ∧
    Forall (λ s, currentJobLeafStatus s = Some packed ∧ hasOpenReplacement s = false
      ∧ recoveryBlocked s ≠ Some true) slots.
Proof.
  unfold isShipmentHandoffReady.
  rewrite !andb_true_iff, !Z.eqb_eq, Nat.ltb_lt, forallb_forall, Forall_forall.
  setoid_rewrite list_elem_of_In. setoid_rewrite andb_true_iff. setoid_rewrite andb_true_iff.
  setoid_rewrite negb_true_iff. setoid_rewrite bool_decide_eq_true.
  assert ((0 < length slots)%nat ↔ slots ≠ []) as -> by (destruct slots; cbn; split; (done || lia)).
  assert (∀ s, default false (recoveryBlocked s) = false ↔ recoveryBlocked s ≠ Some true) as Hr
    by (intros s; destruct (recoveryBlocked s) as [[]|]; cbn; split; congruence).
  setoid_rewrite Hr. naive_solver.
Qed.

Lemma countOutcome_le o slots : (countOutcome o slots ≤ length slots)%nat.
Proof. apply List.filter_length_le. Qed.

Lemma countOutcome_all o slots :
  countOutcome o slots = length slots ↔ Forall (λ s, outcome s = Some o) slots.
Proof.
  induction slots as [|s slots IH]; [split; [constructor|done]|].
  pose proof (countOutcome_le o slots). unfold countOutcome in *. cbn. rewrite Forall_cons, <-IH.
  case_bool_decide as Ho; cbn; [split; [split; [done|lia]|intros [_ ?]; lia]|].
  split; [lia|]. by intros [? _].
Qed.

Lemma countOutcome_pos o slots :
  (0 < countOutcome o slots)%nat ↔ Exists (λ s, outcome s = Some o) slots.
Proof.
  induction slots as [|s slots IH]; [by split; [cbn; lia|inversion 1]|].
  unfold countOutcome in *. cbn. rewrite Exists_cons, <-IH. case_bool_decide as Ho; cbn.
  - split; [by left|lia].
  - split; [by right|]. by intros [?|?].
Qed.

Lemma countOutcome_cons o s slots :
  countOutcome o (s :: slots) = ((if bool_decide (outcome s = Some o) then 1 else 0) + countOutcome o slots)%nat.
Proof. unfold countOutcome. cbn. by case_bool_decide. Qed.

Lemma countOutcome_resolved slots :
  Forall resolved slots →
  (countOutcome delivered slots + countOutcome cancelled_refunded slots = length slots)%nat.
Proof.
  induction 1 as [|s slots Hs _ IH]; [done|]. rewrite !countOutcome_cons. cbn [length]. rewrite <-IH.
  destruct Hs as [-> | ->]; cbn [bool_decide]; repeat case_bool_decide; (congruence || lia).
Qed.

Lemma unresolved_spec slots :
  existsb (λ s, bool_decide (outcome s = None) || bool_decide (outcome s = Some pending)) slots = false
  ↔ Forall resolved slots.
Proof.
  induction slots as [|s slots IH]; [by split; [constructor|]|].
  cbn. rewrite orb_false_iff, IH, Forall_cons. apply and_iff_compat_r. unfold resolved.
  destruct (outcome s) as [[]|]; cbn; naive_solver.
Qed.

(** The four meanings by which outcomes occur: they exclude each other. *)
Lemma means_occurrences c slots :
  completion_means c slots →
  let all := slots ≠ [] ∧ Forall resolved slots in
  let D := Exists (λ s, outcome s = Some delivered) slots in
  let C := Exists (λ s, outcome s = Some cancelled_refunded) slots in
  match c with
  | all_delivered => all ∧ D ∧ ¬ C
  | all_cancelled_refunded => all ∧ C ∧ ¬ D
  | slots_partially_fulfilled => all ∧ D ∧ C
  | slots_pending => ¬ all
  end.
Proof.
  cbv zeta. destruct c; cbn [completion_means];
    rewrite ?Forall_forall, ?Exists_exists.
  - intros [Hn HF]. destruct slots as [|s slots]; [done|].
    split_and!; [done|left; auto|exists s; split; [by left|apply HF; by left]|].
    intros (x & Hx & Hx'). by rewrite (HF x Hx) in Hx'.
  - intros (HF & HD & HC). split_and!; try done. destruct HD as (x & Hx & _). by intros ->; apply not_elem_of_nil in Hx.
  - intros [Hn HF]. destruct slots as [|s slots]; [done|].
    split_and!; [done|right; auto|exists s; split; [by left|apply HF; by left]|].
    intros (x & Hx & Hx'). by rewrite (HF x Hx) in Hx'.
  - intros [->|Hn] [H1 H2]; [done|]. by apply Hn.
Qed.

(** Exactly one of the four meanings holds, and the projection names it. *)
Lemma projectSlotCompletion_means slots c :
  projectSlotCompletion slots = c ↔ completion_means c slots.
Proof.
  assert (completion_means (projectSlotCompletion slots) slots) as Hsound.
  { unfold projectSlotCompletion.
    destruct (Nat.eqb_spec (length slots) 0) as [Hl|Hl]; [left; by apply nil_length_inv|]. cbn [orb].
    destruct (existsb _ slots) eqn:He.
    { right. intros Hr%unresolved_spec. by rewrite Hr in He. }
    apply unresolved_spec in He. pose proof (countOutcome_resolved _ He) as Hsum.
    assert (slots ≠ []) as Hne by by intros ->.
    destruct (Nat.eqb_spec (countOutcome delivered slots) (length slots)) as [Hd|Hd].
    { split; [done|]. by apply countOutcome_all. }
    rewrite Hsum, Nat.eqb_refl, andb_true_r. destruct (Nat.ltb_spec 0 (countOutcome delivered slots)).
    - split_and!; [done|by apply countOutcome_pos|]. apply countOutcome_pos. lia.
    - rewrite (proj2 (Nat.eqb_eq _ _)) by lia. split; [done|]. apply countOutcome_all. lia. }
  split; [by intros <-|]. intros Hc%means_occurrences. apply means_occurrences in Hsound.
  destruct (projectSlotCompletion slots), c; tauto.
Qed.

Lemma combine_means a b l k :
  l ≠ [] → k ≠ [] → completion_means a l → completion_means b k → completion_means (combine a b) (l ++ k).
Proof.
  intros Hl Hk. assert (l ++ k ≠ []) as Hlk by (by destruct l).
  assert (∀ o m, m ≠ [] → Forall (λ s, outcome s = Some o) m → Exists (λ s, outcome s = Some o) m) as Hex.
  { intros o [|s m] Hm HF; [done|]. left. by apply Forall_cons in HF as [? _]. }
  assert (∀ m, Forall (λ s, outcome s = Some delivered) m → Forall resolved m) as Hd.
  { intros m HF. eapply Forall_impl; [exact HF|]. by left. }
  assert (∀ m, Forall (λ s, outcome s = Some cancelled_refunded) m → Forall resolved m) as Hc.
  { intros m HF. eapply Forall_impl; [exact HF|]. by right. }
  destruct a, b; cbn [combine completion_means]; rewrite ?Forall_app, ?Exists_app; naive_solver.
Qed.
End Fulfilment.

(** ** Properties *)

(** The projection of an order's payments.  It accepts exactly the lists
    in which every payment has an identity of its own, the contract's
    currency, a refund within its capture and a status its refund agrees
    with; and then every figure is the one the settling payments determine,
    whatever order they come in. *)
Theorem projectPayments_exact (contractTotal : Money.t) (payments payments' : list Financial.CapturedPayment)
    (r : Financial.PaymentProjection) :
  Money.wf contractTotal → Forall Financial.payment_wf payments → payments ≡ₚ payments' →
  (Financial.projectPayments contractTotal payments = Ok r ↔
     Forall (Financial.payment_ok (Money.currency contractTotal)) payments
     ∧ NoDup (Financial.id <$> payments)
     ∧ r = Financial.projection_of contractTotal payments)
  ∧ (Financial.projectPayments contractTotal payments = Ok r ↔
     Financial.projectPayments contractTotal payments' = Ok r).
Proof.
  intros Hct Hwf Hperm. rewrite !Financial.projectPayments_Ok by (done || by rewrite <-Hperm).
  split; [done|].
  rewrite (Financial.projection_of_perm _ _ _ Hperm). by rewrite Hperm.
Qed.

(** A deposit, a balance that was partly returned, and a late capture that
    does not settle the order. *)
Definition sample_payments : list Financial.CapturedPayment :=
  let czk n := Money.mk n (js "CZK") in
  [Financial.mkPayment (js "deposit") Financial.captured (czk 5000) None None None;
   Financial.mkPayment (js "balance") Financial.partially_refunded (czk 6000) (Some (czk 500)) None None;
   Financial.mkPayment (js "late") Financial.captured (czk 700) None None (Some false)].

Lemma sample_payments_wf : Forall Financial.payment_wf sample_payments.
Proof.
  unfold sample_payments, Financial.payment_wf. cbn.
  forall_list; split; try (apply Money.CZK_wf; lia); try done. intros r [= <-]. apply Money.CZK_wf. lia.
Qed.

Lemma projectPayments_exact_witness :
  Financial.projectPayments (Money.mk 10000 (js "CZK")) (reverse sample_payments)
  = Ok (Financial.projection_of (Money.mk 10000 (js "CZK")) sample_payments).
Proof.
  apply (projectPayments_exact (Money.mk 10000 (js "CZK")) sample_payments);
    [by apply Money.CZK_wf|apply sample_payments_wf|by rewrite reverse_Permutation|].
  vm_compute. reflexivity.
Defined.

(** C35: the balances of a projection.  What is due and what can be returned
    close the gap between the contract and the money kept, and never both at
    once; and the derived status says which: an order is paid only when
    nothing is due and nothing was returned, fully refunded only when nothing
    was kept, and unpaid only when nothing was captured. *)
Theorem payment_projection_balances (contractTotal : Money.t) (payments : list Financial.CapturedPayment)
    (r : Financial.PaymentProjection) :
  Money.wf contractTotal → Forall Financial.payment_wf payments →
  Financial.projectPayments contractTotal payments = Ok r →
  let due := Money.minorUnits (Financial.amountDue r) in
  let back := Money.minorUnits (Financial.refundableBalance r) in
  let net := Money.minorUnits (Financial.netCaptured r) in
  let cap := Money.minorUnits (Financial.capturedTotal r) in
  let ref := Money.minorUnits (Financial.refundedTotal r) in
  0 ≤ due ∧ 0 ≤ back ∧ 0 ≤ net ∧ 0 ≤ ref ∧ cap = net + ref
  ∧ net + due = Money.minorUnits contractTotal + back ∧ (due = 0 ∨ back = 0)
  ∧ match Financial.paymentStatus r with
    | Financial.status_unpaid => cap = 0 ∧ due = Money.minorUnits contractTotal
    | Financial.status_partially_paid => 0 < cap ∧ ref = 0 ∧ 0 < due
    | Financial.status_paid => 0 < cap ∧ ref = 0 ∧ due = 0
    | Financial.status_partially_refunded => 0 < ref ∧ 0 < net
    | Financial.status_refunded => 0 < ref ∧ net = 0 ∧ due = Money.minorUnits contractTotal
    end.
Proof.
  intros Hct Hwf H. apply Financial.projectPayments_Ok in H as (HF & _ & ->); [|done..]. cbv zeta.
  pose proof (Financial.settled_refunds _ _ HF) as Hle. pose proof (Financial.settled_nonneg _ Hwf) as Hnn.
  destruct Hct as [Hct _]. unfold Financial.projection_of.
  cbn [Financial.amountDue Financial.refundableBalance Financial.netCaptured Financial.capturedTotal
    Financial.refundedTotal Financial.paymentStatus Money.minorUnits].
  split_and!; try lia. repeat case_decide; lia.
Qed.

Lemma payment_projection_balances_witness :
  ∃ r, Financial.projectPayments (Money.mk 11000 (js "CZK")) sample_payments = Ok r
  ∧ Money.minorUnits (Financial.netCaptured r) + Money.minorUnits (Financial.amountDue r)
    = 11000 + Money.minorUnits (Financial.refundableBalance r).
Proof.
  destruct (Financial.projectPayments (Money.mk 11000 (js "CZK")) sample_payments) as [r|] eqn:Hr;
    [|vm_compute in Hr; discriminate Hr].
  exists r. split; [reflexivity|].
  apply (payment_projection_balances _ _ _ (Money.CZK_wf 11000 ltac:(lia)) sample_payments_wf Hr).
Defined.

(** The credit ledger of a contract.  A sequence of calls, each given the
    ledger the last one returned, succeeds exactly when every allocation has
    an identity and the contract's currency, no allocation is credited twice
    in the whole sequence, and all credits together stay within the contract;
    and the final ledger lists every allocation once with the sum credited,
    however the credits were split into calls. *)
Theorem component_credits_exact (contractTotal : Money.t)
    (batches : list (list Financial.ComponentAllocation)) (l : Financial.ComponentCreditLedger) :
  Money.wf contractTotal →
  Forall (λ a, 0 ≤ Money.minorUnits (Financial.remaining a)) (concat batches) →
  Financial.credits contractTotal (Financial.empty_ledger contractTotal) batches l ↔
    Forall (Financial.allocation_ok contractTotal) (concat batches)
    ∧ NoDup (Financial.allocationId <$> concat batches)
    ∧ sum_by (Money.minorUnits ∘ Financial.remaining) (concat batches) ≤ Money.minorUnits contractTotal
    ∧ l = Financial.ledger_of contractTotal (concat batches).
Proof.
  intros Hct Hpos. apply (Financial.credits_from contractTotal []); [done|constructor| |done].
  rewrite sum_by_nil. apply Hct.
Qed.

Lemma component_credits_exact_witness :
  let czk n := Money.mk n (js "CZK") in
  let a := Financial.mkAllocation (js "a") (czk 300) in
  let b := Financial.mkAllocation (js "b") (czk 200) in
  Financial.credits (czk 500) (Financial.empty_ledger (czk 500)) [[a]; [b]] (Financial.ledger_of (czk 500) [a; b])
  ∧ ∀ l, ¬ Financial.credits (czk 500) (Financial.empty_ledger (czk 500)) [[a]; [a]] l.
Proof.
  split.
  - apply component_credits_exact; [by apply Money.CZK_wf|cbn; forall_list; lia|].
    cbn [concat app]. split_and!.
    + forall_list; by vm_compute.
    + apply (bool_decide_unpack _). vm_compute. exact I.
    + vm_compute. discriminate.
    + reflexivity.
  - intros l (_ & HN & _)%component_credits_exact; [|by apply Money.CZK_wf|cbn; forall_list; lia].
    apply (bool_decide_eq_true_2 _) in HN. vm_compute in HN. discriminate HN.
Defined.

(** One call conserves the contract.  From any ledger the contract's
    credits have produced, what has been credited and what remains of the
    contract always add up to it, and exactly the new allocations are added
    to the ledger. *)
Theorem consume_credits_conserves (contractTotal : Money.t)
    (consumed batch : list Financial.ComponentAllocation) (r : Financial.ComponentCreditResult) :
  Money.wf contractTotal → NoDup (Financial.allocationId <$> consumed) →
  Financial.consumeComponentCredits contractTotal batch (Financial.ledger_of contractTotal consumed) = Ok r →
  Financial.ledger r = Financial.ledger_of contractTotal (consumed ++ batch)
  ∧ NoDup (Financial.allocationId <$> consumed ++ batch)
  ∧ Money.minorUnits (Financial.credited r) = sum_by (Money.minorUnits ∘ Financial.remaining) batch
  ∧ Money.minorUnits (Financial.creditedTotal (Financial.ledger r))
    + Money.minorUnits (Financial.remainingContractValue r) = Money.minorUnits contractTotal
  ∧ Money.wf (Financial.remainingContractValue r).
Proof.
  intros Hct HN H. apply Financial.consume_Ok in H as (_ & HN' & Hle & ->); [|done..]. cbn.
  split_and!; try done; [lia|]. split; [cbn; lia|apply Hct].
Qed.

Lemma consume_credits_conserves_witness :
  let czk n := Money.mk n (js "CZK") in
  let a := Financial.mkAllocation (js "a") (czk 300) in
  let b := Financial.mkAllocation (js "b") (czk 150) in
  ∃ r, Financial.consumeComponentCredits (czk 500) [b] (Financial.ledger_of (czk 500) [a]) = Ok r
  ∧ 450 + Money.minorUnits (Financial.remainingContractValue r) = 500.
Proof.
  intros czk a b.
  destruct (Financial.consumeComponentCredits (czk 500) [b] (Financial.ledger_of (czk 500) [a])) as [r|] eqn:Hr;
    [|vm_compute in Hr; discriminate Hr].
  exists r. split; [reflexivity|].
  destruct (consume_credits_conserves (czk 500) [a] [b] r (Money.CZK_wf 500 ltac:(lia))
    ltac:(apply NoDup_singleton) Hr) as (Hl & _ & _ & Hsum & _).
  rewrite Hl in Hsum. exact Hsum.
Defined.

(** The completion barrier.  The projection names the one of its four
    results that describes the slots: complete only when every slot is
    delivered, refunded only when every slot is, partly fulfilled only when
    every slot is settled one way or the other and both occur, and pending
    as long as anything is open.  Two groups of slots complete together as
    the combination of what they complete as alone, and an order and its
    single phase always agree. *)
Theorem slot_completion_exact (slots more : list Fulfilment.FulfilmentSlotState)
    (c : Fulfilment.SlotCompletion) :
  (Fulfilment.projectSlotCompletion slots = c ↔ Fulfilment.completion_means c slots)
  ∧ (slots = [] ∨ more = [] ∨
     Fulfilment.projectSlotCompletion (slots ++ more)
     = Fulfilment.combine (Fulfilment.projectSlotCompletion slots) (Fulfilment.projectSlotCompletion more))
  ∧ Fulfilment.projectSinglePhaseCompletion slots = Fulfilment.phase_of (Fulfilment.projectOrderCompletion slots).
Proof.
  split_and!.
  - apply Fulfilment.projectSlotCompletion_means.
  - destruct (decide (slots = [])) as [|Hs]; [by left|]. right.
    destruct (decide (more = [])) as [|Hm]; [by left|]. right.
    apply Fulfilment.projectSlotCompletion_means, Fulfilment.combine_means; try done;
      by apply Fulfilment.projectSlotCompletion_means.
  - unfold Fulfilment.projectSinglePhaseCompletion, Fulfilment.projectOrderCompletion.
    by destruct (Fulfilment.projectSlotCompletion slots).
Qed.

(** Handing over implies quality control.  When every shipment of an order
    is ready for handoff, the order passes the quality gate; its balances
    being zero, a payment projection that gave them has collected exactly the
    contract total; and none of its slots is delivered early: a shipment with
    an open replacement, a blocked recovery or anything but a packed part is
    never ready. *)
Theorem handoff_ready_safe (shipments : list (list Fulfilment.FulfilmentSlotState))
    (contractTotal : Money.t) (payments : list Financial.CapturedPayment) (r : Financial.PaymentProjection) :
  shipments ≠ [] →
  Money.wf contractTotal → Forall Financial.payment_wf payments →
  Financial.projectPayments contractTotal payments = Ok r →
  Forall (λ slots, Fulfilment.isShipmentHandoffReady slots (Financial.amountDue r)
                     (Financial.refundableBalance r) = true) shipments →
  Fulfilment.isQcReady (concat shipments) = true
  ∧ Money.minorUnits (Financial.netCaptured r) = Money.minorUnits contractTotal
  ∧ ∀ s, s ∈ concat shipments → Fulfilment.currentJobLeafStatus s = Some Fulfilment.packed
      ∧ Fulfilment.hasOpenReplacement s = false ∧ Fulfilment.recoveryBlocked s ≠ Some true.
Proof.
  intros Hne Hct Hwf Hr HF. setoid_rewrite Fulfilment.isShipmentHandoffReady_spec in HF.
  assert (∀ s, s ∈ concat shipments → Fulfilment.currentJobLeafStatus s = Some Fulfilment.packed
      ∧ Fulfilment.hasOpenReplacement s = false ∧ Fulfilment.recoveryBlocked s ≠ Some true) as Hall.
  { intros s (l & Hl & Hs)%list_elem_of_In%in_concat. rewrite Forall_forall in HF.
    destruct (HF l) as (_ & _ & _ & Hl'); [by apply list_elem_of_In|]. rewrite Forall_forall in Hl'.
    by apply Hl', list_elem_of_In. }
  destruct shipments as [|l rest]; [done|]. apply Forall_cons in HF as [(Hl & Hd & Hb & _) _].
  split_and!; [| |done].
  - apply Fulfilment.isQcReady_spec. split; [by destruct l|]. apply Forall_forall. intros s Hs.
    destruct (Hall s Hs) as (Hp & Ho & _). by split; [|exists Fulfilment.packed].
  - apply Financial.projectPayments_Ok in Hr as (_ & _ & ->); [|done..]. cbn in *. lia.
Qed.

Lemma handoff_ready_safe_witness :
  let slot k := Fulfilment.mkSlot k (Some Fulfilment.packed) false None None in
  Fulfilment.isQcReady (concat [[slot (js "a")]; [slot (js "b"); slot (js "c")]]) = true.
Proof.
  intros slot.
  destruct (Financial.projectPayments (Money.mk 10500 (js "CZK")) sample_payments) as [r|] eqn:Hr;
    [|vm_compute in Hr; discriminate Hr].
  refine (proj1 (handoff_ready_safe [[slot (js "a")]; [slot (js "b"); slot (js "c")]] _ _ r _
    (Money.CZK_wf 10500 ltac:(lia)) sample_payments_wf Hr _)); [done|].
  vm_compute in Hr. injection Hr as <-. forall_list; reflexivity.
Defined.
