(* ===== verification/Prepare.v ===== *)
(** The quote decision: the gates an automatic quote must pass (pricing/gates.ts)
    and the composition of the express offer, the shipment planner and the
    order price into one prepared quote (pricing/prepare.ts). *)
From S2P Require Import Prelude Primitives Arithmetic Allocations Payment ShipmentPlan Quote.

Module Gates.

(** ** Data *)

Inductive QuoteGateReason :=
| REFERENCE_SLICING_PENDING | DELIVERY_DESTINATION_REQUIRED
| DELIVERY_CAPABILITY_SNAPSHOT_REQUIRED | SHIPMENT_PLAN_REQUIRED | UNSUPPORTED_FORMAT
| BLOCKING_PREFLIGHT_FINDING | RISK_ACKNOWLEDGEMENT_REQUIRED
| AUTOMATIC_QUANTITY_LIMIT_EXCEEDED | AUTOMATIC_AMOUNT_LIMIT_EXCEEDED
| BUILD_LIMIT_EXCEEDED | SHIPMENT_INELIGIBLE | EXPRESS_INELIGIBLE.

#[global] Instance QuoteGateReason_eq_dec : EqDecision QuoteGateReason.
Proof. solve_decision. Defined.

Inductive QuoteGateResult :=
| gate_provisional (reasons : list QuoteGateReason)
| gate_custom_request (reasons : list QuoteGateReason)
| gate_binding_quote.

Record QuoteGateInput := mkGateInput {
  referenceSlicingComplete : bool;
  deliveryDestinationSelected : bool;
  deliveryCapabilitySnapshotPresent : bool;
  shipmentPlanPresent : bool;
  supportedFormat : bool;
  hasBlockingPreflightFinding : bool;
  riskAcknowledgementsComplete : bool;
  withinAutomaticQuantityLimit : bool;
  withinAutomaticAmountLimit : bool;
  withinBuildLimits : bool;
  shipmentEligible : bool;
  gate_expressRequested : bool;
  gate_expressEligible : bool;
}.

Inductive ExpressGateReason :=
| PHASE_NOT_SINGLE | TOO_MANY_PLATES | MATERIAL_OR_COLOR_UNAVAILABLE
| NONSTANDARD_POSTPROCESSING | PRODUCTION_WINDOW_INSUFFICIENT.

#[global] Instance ExpressGateReason_eq_dec : EqDecision ExpressGateReason.
Proof. solve_decision. Defined.

Inductive PhaseKind := SINGLE | SAMPLE | BATCH.

#[global] Instance PhaseKind_eq_dec : EqDecision PhaseKind.
Proof. solve_decision. Defined.

Record ExpressEligibilityInput := mkExpress {
  phaseKind : PhaseKind;
  requiredPlateCount : Z;
  maximumPlateCount : Z;
  materialAndColorAvailable : bool;
  hasNonstandardPostprocessing : bool;
  requiredProductionSeconds : Z;
  availableProductionWindowSeconds : Z;
  packagingBufferSeconds : Z;
}.

Record ExpressEligibility := mkEligibility {
  eligible : bool;
  reasons : list ExpressGateReason;
}.

(** ** Operations *)

Definition assertNonNegative (value : Z) : result () :=
  throw_when (value <? 0) (DomainError NEGATIVE_RESULT).

(** [if (b) reasons.push(r)], on the list built so far. *)
Definition push_when {A} (b : bool) (r : A) (rs : list A) : list A := if b then rs ++ [r] else rs.

Definition evaluateExpressEligibility (input : ExpressEligibilityInput) : result ExpressEligibility :=
  assertNonNegative (requiredPlateCount input) ;;
  assertNonNegative (maximumPlateCount input) ;;
  assertNonNegative (requiredProductionSeconds input) ;;
  assertNonNegative (availableProductionWindowSeconds input) ;;
  assertNonNegative (packagingBufferSeconds input) ;;
  let reasons := [] in
  let reasons := push_when (negb (bool_decide (phaseKind input = SINGLE))) PHASE_NOT_SINGLE reasons in
  let reasons := push_when (maximumPlateCount input <? requiredPlateCount input) TOO_MANY_PLATES reasons in
  let reasons := push_when (negb (materialAndColorAvailable input)) MATERIAL_OR_COLOR_UNAVAILABLE reasons in
  let reasons := push_when (hasNonstandardPostprocessing input) NONSTANDARD_POSTPROCESSING reasons in
  let reasons := push_when
    ((availableProductionWindowSeconds input <? packagingBufferSeconds input)
     || (availableProductionWindowSeconds input - packagingBufferSeconds input
         <? requiredProductionSeconds input)) PRODUCTION_WINDOW_INSUFFICIENT reasons in
  Ok (mkEligibility (length reasons =? 0)%nat reasons).

Definition permanentReasons (input : QuoteGateInput) : list QuoteGateReason :=
  let reasons := [] in
  let reasons := push_when (negb (supportedFormat input)) UNSUPPORTED_FORMAT reasons in
  let reasons := push_when (hasBlockingPreflightFinding input) BLOCKING_PREFLIGHT_FINDING reasons in
  let reasons := push_when (negb (withinAutomaticQuantityLimit input)) AUTOMATIC_QUANTITY_LIMIT_EXCEEDED reasons in
  let reasons := push_when (negb (withinAutomaticAmountLimit input)) AUTOMATIC_AMOUNT_LIMIT_EXCEEDED reasons in
  let reasons := push_when (negb (withinBuildLimits input)) BUILD_LIMIT_EXCEEDED reasons in
  let reasons := push_when (negb (shipmentEligible input)) SHIPMENT_INELIGIBLE reasons in
  push_when (gate_expressRequested input && negb (gate_expressEligible input)) EXPRESS_INELIGIBLE reasons.

Definition provisionalReasons (input : QuoteGateInput) : list QuoteGateReason :=
  let reasons := [] in
  let reasons := push_when (negb (referenceSlicingComplete input)) REFERENCE_SLICING_PENDING reasons in
  let reasons := push_when (negb (riskAcknowledgementsComplete input)) RISK_ACKNOWLEDGEMENT_REQUIRED reasons in
  let reasons := push_when (negb (deliveryDestinationSelected input)) DELIVERY_DESTINATION_REQUIRED reasons in
  let reasons := push_when (negb (deliveryCapabilitySnapshotPresent input)) DELIVERY_CAPABILITY_SNAPSHOT_REQUIRED reasons in
  push_when (negb (shipmentPlanPresent input)) SHIPMENT_PLAN_REQUIRED reasons.

Definition evaluateQuoteGates (input : QuoteGateInput) : QuoteGateResult :=
  if (0 <? length (permanentReasons input))%nat then gate_custom_request (permanentReasons input)
  else if (0 <? length (provisionalReasons input))%nat then gate_provisional (provisionalReasons input)
  else gate_binding_quote.

(** ** Specification *)

(** The condition each reason names. *)
Definition express_fails (input : ExpressEligibilityInput) (r : ExpressGateReason) : Prop :=
  match r with
  | PHASE_NOT_SINGLE => phaseKind input ≠ SINGLE
  | TOO_MANY_PLATES => maximumPlateCount input < requiredPlateCount input
  | MATERIAL_OR_COLOR_UNAVAILABLE => materialAndColorAvailable input = false
  | NONSTANDARD_POSTPROCESSING => hasNonstandardPostprocessing input = true
  | PRODUCTION_WINDOW_INSUFFICIENT =>
      availableProductionWindowSeconds input
      < requiredProductionSeconds input + packagingBufferSeconds input
  end.

Definition gate_fails (input : QuoteGateInput) (r : QuoteGateReason) : Prop :=
  match r with
  | UNSUPPORTED_FORMAT => supportedFormat input = false
  | BLOCKING_PREFLIGHT_FINDING => hasBlockingPreflightFinding input = true
  | AUTOMATIC_QUANTITY_LIMIT_EXCEEDED => withinAutomaticQuantityLimit input = false
  | AUTOMATIC_AMOUNT_LIMIT_EXCEEDED => withinAutomaticAmountLimit input = false
  | BUILD_LIMIT_EXCEEDED => withinBuildLimits input = false
  | SHIPMENT_INELIGIBLE => shipmentEligible input = false
  | EXPRESS_INELIGIBLE => gate_expressRequested input = true ∧ gate_expressEligible input = false
  | REFERENCE_SLICING_PENDING => referenceSlicingComplete input = false
  | RISK_ACKNOWLEDGEMENT_REQUIRED => riskAcknowledgementsComplete input = false
  | DELIVERY_DESTINATION_REQUIRED => deliveryDestinationSelected input = false
  | DELIVERY_CAPABILITY_SNAPSHOT_REQUIRED => deliveryCapabilitySnapshotPresent input = false
  | SHIPMENT_PLAN_REQUIRED => shipmentPlanPresent input = false
  end.

(** The reasons that rule out an automatic price for good. *)
Definition permanent (r : QuoteGateReason) : bool :=
  match r with
  | UNSUPPORTED_FORMAT | BLOCKING_PREFLIGHT_FINDING | AUTOMATIC_QUANTITY_LIMIT_EXCEEDED
  | AUTOMATIC_AMOUNT_LIMIT_EXCEEDED | BUILD_LIMIT_EXCEEDED | SHIPMENT_INELIGIBLE
  | EXPRESS_INELIGIBLE => true
  | _ => false
  end.

Definition reasonsOf (g : QuoteGateResult) : list QuoteGateReason :=
  match g with
  | gate_provisional rs | gate_custom_request rs => rs
  | gate_binding_quote => []
  end.

(** ** Facts *)

Lemma elem_of_push_when {A} (b : bool) (r x : A) rs :
  x ∈ push_when b r rs ↔ x ∈ rs ∨ (b = true ∧ x = r).
Proof. unfold push_when. destruct b; set_solver. Qed.

Lemma permanentReasons_spec input r :
  r ∈ permanentReasons input ↔ permanent r = true ∧ gate_fails input r.
Proof.
  unfold permanentReasons. cbv zeta. rewrite !elem_of_push_when, !negb_true_iff, andb_true_iff, negb_true_iff, elem_of_nil.
  split; [naive_solver|]. destruct r; cbn; intros [? ?]; try discriminate; tauto.
Qed.

Lemma provisionalReasons_spec input r :
  r ∈ provisionalReasons input ↔ permanent r = false ∧ gate_fails input r.
Proof.
  unfold provisionalReasons. cbv zeta. rewrite !elem_of_push_when, !negb_true_iff, elem_of_nil.
  split; [naive_solver|]. destruct r; cbn; intros [? ?]; try discriminate; tauto.
Qed.

Lemma nonempty_length {A} (l : list A) : (0 <? length l)%nat = true ↔ l ≠ [].
Proof. destruct l; cbn; split; done. Qed.

Lemma no_reasons (l : list QuoteGateReason) (P : QuoteGateReason → Prop) :
  (∀ r, r ∈ l ↔ P r) → l = [] ↔ ∀ r, ¬ P r.
Proof.
  intros Hl. setoid_rewrite <-Hl. split; [intros -> r; apply not_elem_of_nil|]. apply elem_of_nil_inv.
Qed.

(** What each result of the gates means. *)
Lemma evaluateQuoteGates_spec input :
  match evaluateQuoteGates input with
  | gate_custom_request rs => rs ≠ [] ∧ ∀ r, r ∈ rs ↔ permanent r = true ∧ gate_fails input r
  | gate_provisional rs => rs ≠ []
      ∧ (∀ r, permanent r = true → ¬ gate_fails input r) ∧ ∀ r, r ∈ rs ↔ gate_fails input r
  | gate_binding_quote => ∀ r, ¬ gate_fails input r
  end.
Proof.
  unfold evaluateQuoteGates. pose proof (permanentReasons_spec input) as Hp.
  pose proof (provisionalReasons_spec input) as Hv.
  destruct (0 <? length (permanentReasons input))%nat eqn:Hn; [split; [by apply nonempty_length|done]|].
  assert (permanentReasons input = []) as Hnil.
  { destruct (permanentReasons input); [done|discriminate Hn]. }
  assert (∀ r, permanent r = true → ¬ gate_fails input r) as Hno.
  { intros r Hr Hf. apply (not_elem_of_nil r). rewrite <-Hnil. by apply Hp. }
  destruct (0 <? length (provisionalReasons input))%nat eqn:Hn'.
  - split_and!; [by apply nonempty_length|done|]. intros r. rewrite Hv. split; [tauto|]. intros Hf.
    split; [|done]. destruct (permanent r) eqn:He; [|done]. by apply Hno in He.
  - intros r Hf. destruct (permanent r) eqn:He; [by eapply Hno|].
    assert (provisionalReasons input = []) as Hnil'.
    { destruct (provisionalReasons input); [done|discriminate Hn']. }
    apply (not_elem_of_nil r). rewrite <-Hnil'. by apply Hv.
Qed.

(** The express gate. *)
Definition express_wf (input : ExpressEligibilityInput) : Prop :=
  0 ≤ requiredPlateCount input ∧ 0 ≤ maximumPlateCount input ∧ 0 ≤ requiredProductionSeconds input
  ∧ 0 ≤ availableProductionWindowSeconds input ∧ 0 ≤ packagingBufferSeconds input.

Lemma evaluateExpress_spec input :
  match evaluateExpressEligibility input with
  | Ok e => express_wf input ∧ (∀ r, r ∈ reasons e ↔ express_fails input r)
      ∧ (eligible e = true ↔ ∀ r, ¬ express_fails input r)
  | Throw e => e = DomainError NEGATIVE_RESULT ∧ ¬ express_wf input
  end.
Proof.
  unfold evaluateExpressEligibility, assertNonNegative, express_wf. cbv zeta.
  do 5 (match goal with |- context [throw_when (?x <? 0) _ ≫= _] => destruct (Z.ltb_spec x 0) end;
    cbn [throw_when]; run; [split; [done|]; intros (? & ? & ? & ? & ?); lia|]).
  cbn [reasons eligible]. set (l := push_when _ _ _).
  assert (∀ r, r ∈ l ↔ express_fails input r) as Hl.
  { intros r. subst l. rewrite !elem_of_push_when, elem_of_nil, !negb_true_iff, bool_decide_eq_false, orb_true_iff, !Z.ltb_lt.
    split.
    { intros [[[[[[]|[? ->]]|[? ->]]|[? ->]]|[? ->]]|[? ->]]; cbn; first [done|lia]. }
    destruct r; cbn; intros Hf; try tauto. right. split; [lia|done]. }
  split_and!; try done. rewrite Nat.eqb_eq. setoid_rewrite <-Hl. split.
  - intros Hlen r. apply nil_length_inv in Hlen as ->. apply not_elem_of_nil.
  - intros Hr. apply elem_of_nil_inv in Hr as ->. done.
Qed.
End Gates.

Module Prepare.

(** ** Data *)

Record AutomaticQuoteFacts := mkFacts {
  referenceSlicingComplete : bool;
  supportedFormat : bool;
  hasBlockingPreflightFinding : bool;
  riskAcknowledgementsComplete : bool;
  withinAutomaticQuantityLimit : bool;
  withinAutomaticAmountLimit : bool;
  withinBuildLimits : bool;
}.

Record ShipmentCategoryPricing := mkCategoryPricing {
  categoryId : jstr;
  carrierCost : Money.t;
  customerShippingRate : Money.t;
  packagingCost : Money.t;
}.

(** [shipmentPlanIdsByOrdinal] is a [Map]: its entries in insertion order,
    with distinct keys. *)
Record DestinationShipmentPreparation := mkDestination {
  deliveryDestinationId : jstr;
  deliveryCapabilitySnapshotId : jstr;
  plannerInput : ShipmentPlan.ShipmentPlannerInput;
  categoryPricing : list ShipmentCategoryPricing;
  shipmentPlanIdsByOrdinal : list (jsnumber * jstr);
}.

(** The pricing input without [shipment] and [expressEligible]. *)
Record PricingInput := mkPricing {
  priceList : Quote.PriceListCalculationInput;
  profileRevisionIds : list jstr;
  items : list Quote.OrderItemPricingInput;
  expressRequested : bool;
  paymentSchedule : list Payment.PaymentScheduleCapture;
}.

Record PrepareOrderQuoteInput := mkPrepare {
  pricing : PricingInput;
  automaticQuoteFacts : AutomaticQuoteFacts;
  expressEligibility : Gates.ExpressEligibilityInput;
  destinationShipment : option DestinationShipmentPreparation;
}.

(** A [price] is the whole result of [calculateOrderPrice]; the constructor
    that uses it says which kind it is.  A [ShipmentPlanNoFit] has two fields. *)
Inductive PreparedOrderQuote :=
| prepared_provisional (reasons : list Gates.QuoteGateReason)
    (express : Gates.ExpressEligibility) (price : Quote.OrderPriceCalculation)
    (shipmentPlan : option (list ShipmentPlan.ShipmentParcel))
| prepared_custom_request (reasons : list Gates.QuoteGateReason)
    (express : Gates.ExpressEligibility) (price : Quote.OrderPriceCalculation)
    (shipmentFailure : option (jstr * list jstr))
| prepared_binding_quote (express : Gates.ExpressEligibility)
    (shipmentPlan : list ShipmentPlan.ShipmentParcel) (price : Quote.OrderPriceCalculation).

(** ** Operations *)

Definition pricingWith (p : PricingInput) (shipment : option Quote.BindingShipmentPricingInput)
    (requested eligible : bool) : Quote.OrderPriceCalculationInput :=
  Quote.mkInput (priceList p) (profileRevisionIds p) (items p) shipment requested eligible
    (paymentSchedule p).

Definition provisionalPrice (input : PrepareOrderQuoteInput) (express : Gates.ExpressEligibility)
    : result Quote.OrderPriceCalculation :=
  calculated ← Quote.calculateOrderPrice
    (pricingWith (pricing input) None
       (expressRequested (pricing input) && Gates.eligible express) (Gates.eligible express));
  match calculated with
  | Quote.provisional _ _ _ _ => Ok calculated
  | Quote.binding _ _ _ _ _ _ _ _ _ _ => Throw (DomainError TRANSITION_GUARD_FAILED)
  end.

Definition gateInput (input : PrepareOrderQuoteInput) (express : Gates.ExpressEligibility)
    (destinationSelected capabilitySnapshotPresent planPresent eligible : bool)
    : Gates.QuoteGateInput :=
  let facts := automaticQuoteFacts input in
  Gates.mkGateInput (referenceSlicingComplete facts) destinationSelected capabilitySnapshotPresent
    planPresent (supportedFormat facts) (hasBlockingPreflightFinding facts)
    (riskAcknowledgementsComplete facts) (withinAutomaticQuantityLimit facts)
    (withinAutomaticAmountLimit facts) (withinBuildLimits facts) eligible
    (expressRequested (pricing input)) (Gates.eligible express).

Definition assertIdentity (value : jstr) : result () :=
  throw_when (blank value) (DomainError INVALID_ARGUMENT).

Definition assertCurrency (value : Money.t) (currency : jstr) : result () :=
  throw_when (negb (str_eqb (Money.currency value) currency)) (DomainError CURRENCY_MISMATCH).

Definition addCategoryPricing (currency : jstr) (result : gmap jstr ShipmentCategoryPricing)
    (value : ShipmentCategoryPricing) : Prelude.result (gmap jstr ShipmentCategoryPricing) :=
  throw_when (blank (categoryId value) || bool_decide (is_Some (result !! categoryId value)))
    (DomainError INVALID_ARGUMENT) ;;
  assertCurrency (carrierCost value) currency ;;
  assertCurrency (customerShippingRate value) currency ;;
  assertCurrency (packagingCost value) currency ;;
  Ok (<[categoryId value := value]> result).

Definition categoryPricingById (values : list ShipmentCategoryPricing) (currency : jstr)
    : result (gmap jstr ShipmentCategoryPricing) :=
  foldM (addCategoryPricing currency) ∅ values.

(** The loop over the entries of [shipmentPlanIds]. *)
Definition checkPlanId (expectedOrdinals : gset Z) (seenIds : gset jstr) (entry : jsnumber * jstr)
    : result (gset jstr) :=
  let '(ordinal, id) := entry in
  throw_when (negb (isSafeInteger ordinal) || negb (bool_decide (num ordinal ∈ expectedOrdinals)))
    (DomainError INVALID_ARGUMENT) ;;
  assertIdentity id ;;
  throw_when (bool_decide (id ∈ seenIds)) (DomainError INVALID_ARGUMENT) ;;
  Ok ({[id]} ∪ seenIds).

(** [map.get(ordinal)] *)
Definition planIdAt (ids : list (jsnumber * jstr)) (ordinal : Z) : option jstr :=
  snd <$> List.find (λ '(k, _), bool_decide (k = IntNum ordinal)) ids.

(** [shipmentPlanIds.get(parcel.ordinal)!]: the checks before it make the
    lookup succeed, and using a missing ID as a string would be a
    [TypeError]. *)
Definition bindingParcel (ids : list (jsnumber * jstr)) (prices : gmap jstr ShipmentCategoryPricing)
    (parcel : ShipmentPlan.ShipmentParcel) : result Quote.ParcelPricingInput :=
  match prices !! ShipmentPlan.categoryId parcel with
  | None => Throw (DomainError INVALID_ARGUMENT)
  | Some price =>
      match planIdAt ids (ShipmentPlan.ordinal parcel) with
      | None => Throw TypeError
      | Some id =>
          Ok (Quote.mkParcel id (ShipmentPlan.categoryId parcel)
                (ShipmentPlan.placed_packingUnitKey <$> ShipmentPlan.placements parcel)
                (carrierCost price) (customerShippingRate price) (packagingCost price))
      end
  end.

Definition bindingShipmentForPlan (destination : DestinationShipmentPreparation)
    (shipmentPlan : list ShipmentPlan.ShipmentParcel) (prices : gmap jstr ShipmentCategoryPricing)
    : result Quote.BindingShipmentPricingInput :=
  let shipmentPlanIds := shipmentPlanIdsByOrdinal destination in
  let expectedOrdinals : gset Z := list_to_set (ShipmentPlan.ordinal <$> shipmentPlan) in
  foldM (checkPlanId expectedOrdinals) ∅ shipmentPlanIds ;;
  throw_when (negb (length shipmentPlanIds =? size expectedOrdinals)%nat
    || existsb (λ ordinal, negb (bool_decide (is_Some (planIdAt shipmentPlanIds ordinal))))
         (elements expectedOrdinals)) (DomainError INVALID_ARGUMENT) ;;
  parcels ← traverse (bindingParcel shipmentPlanIds prices) shipmentPlan;
  Ok (Quote.mkShipment (deliveryDestinationId destination)
        (deliveryCapabilitySnapshotId destination) parcels).

Definition prepareOrderQuote (input : PrepareOrderQuoteInput) : result PreparedOrderQuote :=
  express ← Gates.evaluateExpressEligibility (expressEligibility input);
  provisional ← provisionalPrice input express;
  match destinationShipment input with
  | None =>
      match Gates.evaluateQuoteGates (gateInput input express false false false true) with
      | Gates.gate_custom_request reasons =>
          Ok (prepared_custom_request reasons express provisional None)
      | gates => Ok (prepared_provisional (Gates.reasonsOf gates) express provisional None)
      end
  | Some destination =>
      shipmentPlan ← ShipmentPlan.planShipment (plannerInput destination);
      match shipmentPlan with
      | ShipmentPlan.no_fit key ids =>
          let gates := Gates.evaluateQuoteGates (gateInput input express true true false false) in
          Ok (prepared_custom_request
                match gates with
                | Gates.gate_custom_request reasons => reasons
                | _ => [Gates.SHIPMENT_INELIGIBLE]
                end express provisional (Some (key, ids)))
      | ShipmentPlan.planned parcels =>
          match Gates.evaluateQuoteGates (gateInput input express true true true true) with
          | Gates.gate_custom_request reasons =>
              Ok (prepared_custom_request reasons express provisional None)
          | Gates.gate_provisional reasons =>
              Ok (prepared_provisional reasons express provisional (Some parcels))
          | Gates.gate_binding_quote =>
              prices ← categoryPricingById (categoryPricing destination)
                         (Quote.currency (priceList (pricing input)));
              bindingShipment ← bindingShipmentForPlan destination parcels prices;
              price ← Quote.calculateOrderPrice
                (pricingWith (pricing input) (Some bindingShipment)
                   (expressRequested (pricing input)) (Gates.eligible express));
              match price with
              | Quote.binding _ _ _ _ _ _ _ _ _ _ => Ok (prepared_binding_quote express parcels price)
              | Quote.provisional _ _ _ _ => Throw (DomainError TRANSITION_GUARD_FAILED)
              end
          end
      end
  end.

(** ** Specification *)

Definition expressOf (r : PreparedOrderQuote) : Gates.ExpressEligibility :=
  match r with
  | prepared_provisional _ e _ _ | prepared_custom_request _ e _ _ | prepared_binding_quote e _ _ => e
  end.

Definition priceOf (r : PreparedOrderQuote) : Quote.OrderPriceCalculation :=
  match r with
  | prepared_provisional _ _ p _ | prepared_custom_request _ _ p _ | prepared_binding_quote _ _ p => p
  end.

Definition is_binding (p : Quote.OrderPriceCalculation) : bool :=
  match p with Quote.binding _ _ _ _ _ _ _ _ _ _ => true | _ => false end.

(** What the gates are evaluated on: no destination yet, a plan, or units that
    fit no parcel. *)
Definition situation (input : PrepareOrderQuoteInput) (express : Gates.ExpressEligibility)
    : Gates.QuoteGateInput :=
  match destinationShipment input with
  | None => gateInput input express false false false true
  | Some d =>
      match ShipmentPlan.planShipment (plannerInput d) with
      | Ok (ShipmentPlan.planned _) => gateInput input express true true true true
      | _ => gateInput input express true true false false
      end
  end.

(** The packing units of the priced items. *)
Definition pricedKeys (input : PrepareOrderQuoteInput) : list jstr :=
  Allocations.id <$> (items (pricing input) ≫= Quote.packingUnits).

Definition placedKeys (parcel : ShipmentPlan.ShipmentParcel) : list jstr :=
  ShipmentPlan.placed_packingUnitKey <$> ShipmentPlan.placements parcel.

(** ** Facts *)

Lemma calculate_validates input r :
  Quote.calculateOrderPrice input = Ok r →
  ∃ units, Quote.validateAndCollectPackingUnits (Quote.items input) = Ok units
  ∧ match Quote.shipment input with
    | Some s => Quote.validateShipment s units (Quote.currency (Quote.priceList input)) = Ok ()
        ∧ ∃ common tax ct fee caps comps, r = Quote.binding common (Quote.shipmentPlanId <$> Quote.parcels s)
            (Quote.deliveryDestinationId s) (Quote.deliveryCapabilitySnapshotId s) ct tax ct fee caps comps
    | None => is_binding r = false
    end.
Proof.
  unfold Quote.calculateOrderPrice. intros H. cbv zeta in H. do 4 (apply bind_Ok in H as (? & _ & H)).
  apply bind_Ok in H as (units & Hu & H). exists units. split; [done|].
  apply bind_Ok in H as (? & _ & H). apply bind_Ok in H as ([] & Hs & H).
  apply bind_Ok in H as ([b handling] & _ & H). do 2 (apply bind_Ok in H as (? & _ & H)).
  destruct (Quote.shipment input) as [s|].
  - split; [done|]. ok_inv. by do 6 eexists.
  - by ok_inv.
Qed.

Lemma provisionalPrice_Ok input express r :
  provisionalPrice input express = Ok r ↔
  Quote.calculateOrderPrice (pricingWith (pricing input) None
    (expressRequested (pricing input) && Gates.eligible express) (Gates.eligible express)) = Ok r.
Proof.
  unfold provisionalPrice. rewrite bind_Ok. split.
  - intros (c & Hc & H). destruct c; [|done]. by ok_inv.
  - intros H. exists r. split; [done|]. destruct (calculate_validates _ _ H) as (? & _ & Hb). by destruct r.
Qed.

Lemma provisionalPrice_kind input express r :
  provisionalPrice input express = Ok r → is_binding r = false.
Proof. intros H%provisionalPrice_Ok. destruct (calculate_validates _ _ H) as (? & _ & Hb). done. Qed.

(** A reason that is given refutes that none fails. *)
Lemma reasons_refute (reasons : list Gates.QuoteGateReason) (P : Gates.QuoteGateReason → Prop) (b : bool) :
  b = false → reasons ≠ [] → (∀ x, x ∈ reasons → P x) → b = true ↔ ∀ x, ¬ P x.
Proof.
  intros -> Hne HP. split; [done|]. intros Hn. destruct reasons as [|x rs]; [done|].
  destruct (Hn x). apply HP. by left.
Qed.

(** The two decisions made without a binding price. *)
Lemma decides_custom gates reasons b :
  Gates.evaluateQuoteGates gates = Gates.gate_custom_request reasons → b = false →
  (b = true ↔ ∀ x, ¬ Gates.gate_fails gates x) ∧ reasons ≠ []
  ∧ ∀ x, x ∈ reasons ↔ Gates.permanent x = true ∧ Gates.gate_fails gates x.
Proof.
  intros Hg Hb. pose proof (Gates.evaluateQuoteGates_spec gates) as Hs. rewrite Hg in Hs.
  destruct Hs as [Hne Hs]. split; [|done]. apply (reasons_refute reasons); naive_solver.
Qed.

Lemma decides_provisional gates reasons b :
  Gates.evaluateQuoteGates gates = Gates.gate_provisional reasons → b = false →
  (b = true ↔ ∀ x, ¬ Gates.gate_fails gates x) ∧ reasons ≠ []
  ∧ (∀ x, Gates.permanent x = true → ¬ Gates.gate_fails gates x)
  ∧ ∀ x, x ∈ reasons ↔ Gates.gate_fails gates x.
Proof.
  intros Hg Hb. pose proof (Gates.evaluateQuoteGates_spec gates) as Hs. rewrite Hg in Hs.
  destruct Hs as (Hne & Hp & Hs). split; [|done]. apply (reasons_refute reasons); naive_solver.
Qed.

Lemma decides_binding gates :
  Gates.evaluateQuoteGates gates = Gates.gate_binding_quote → ∀ x, ¬ Gates.gate_fails gates x.
Proof. intros Hg. pose proof (Gates.evaluateQuoteGates_spec gates) as Hs. by rewrite Hg in Hs. Qed.

Lemma allocateKeys_spec expected keys ks ks' :
  foldM (Quote.allocateKey expected) ks keys = Ok ks' ↔
    Forall (.∈ expected) keys ∧ NoDup keys ∧ (∀ k, k ∈ keys → k ∉ ks) ∧ ks' = list_to_set keys ∪ ks.
Proof.
  rewrite (foldM_unique _ (λ k : jstr, k) (.∈ expected)).
  - by rewrite list_fmap_id.
  - intros s x s'. unfold Quote.allocateKey. split.
    + intros H. ok_inv. bool_inv. done.
    + intros (Hx & Hn & ->). by rewrite bool_decide_eq_true_2, bool_decide_eq_false_2.
Qed.

(** The parcels of a validated shipment take each expected key once. *)
Lemma checkParcels_keys expected c ps ks ids ks' ids' :
  foldM (Quote.checkParcel expected c) (ks, ids) ps = Ok (ks', ids') →
  let keys := ps ≫= Quote.packingUnitKeys in
  Forall (.∈ expected) keys ∧ NoDup keys ∧ (∀ k, k ∈ keys → k ∉ ks) ∧ ks' = list_to_set keys ∪ ks.
Proof.
  revert ks ids. induction ps as [|p ps IH]; intros ks ids H; cbn [foldM] in H.
  - ok_inv. split_and!; [constructor|constructor|by intros k ?%not_elem_of_nil|]. cbn. set_solver.
  - apply bind_Ok in H as ([ks1 ids1] & Hp & H). apply IH in H as (HF & HN & Hf & ->). cbv zeta.
    unfold Quote.checkParcel in Hp. ok_inv.
    match goal with H : foldM _ _ _ = _ |- _ => apply allocateKeys_spec in H as (HF1 & HN1 & Hf1 & ->) end.
    cbn [mbind list_bind]. fold (@mbind list _ _ _ Quote.packingUnitKeys ps) in *. split_and!.
    + by apply Forall_app.
    + apply NoDup_app. split_and!; try done. intros k Hk Hk'. specialize (Hf k Hk'). set_solver.
    + intros k [Hk|Hk]%elem_of_app; [auto|]. specialize (Hf k Hk). set_solver.
    + rewrite list_to_set_app_L, (assoc_L (∪)). by rewrite (comm_L (∪) (list_to_set (ps ≫= _))).
Qed.

Lemma validated_keys s units c :
  NoDup (Allocations.id <$> units) →
  Quote.validateShipment s units c = Ok () →
  (Quote.parcels s ≫= Quote.packingUnitKeys) ≡ₚ Allocations.id <$> units.
Proof.
  intros HN H. unfold Quote.validateShipment in H. cbv zeta in H.
  do 3 (apply bind_Ok in H as (? & _ & H)). apply bind_Ok in H as ([ks ids] & Hp & H).
  apply checkParcels_keys in Hp as (HF & HN' & _ & ->). apply throw_when_Ok in H. bool_inv.
  apply Nat.eqb_eq in H. rewrite (right_id_L ∅ (∪)) in H.
  apply NoDup_Permutation; [done..|]. intros k.
  assert (list_to_set (Quote.parcels s ≫= Quote.packingUnitKeys)
    =@{gset jstr} list_to_set (Allocations.id <$> units)) as Heq.
  { apply set_subseteq_size_eq; [|lia]. intros j Hj%elem_of_list_to_set. rewrite Forall_forall in HF. by apply HF. }
  by rewrite <-(elem_of_list_to_set (C := gset jstr)), Heq, elem_of_list_to_set.
Qed.

Lemma bindingShipment_Ok d parcels prices s :
  bindingShipmentForPlan d parcels prices = Ok s →
  Quote.deliveryDestinationId s = deliveryDestinationId d
  ∧ Quote.deliveryCapabilitySnapshotId s = deliveryCapabilitySnapshotId d
  ∧ Forall2 (λ parcel p, planIdAt (shipmentPlanIdsByOrdinal d) (ShipmentPlan.ordinal parcel) = Some (Quote.shipmentPlanId p)
      ∧ Quote.packingUnitKeys p = placedKeys parcel
      ∧ ∃ price, prices !! ShipmentPlan.categoryId parcel = Some price
          ∧ Quote.carrierCost p = carrierCost price ∧ Quote.customerShippingRate p = customerShippingRate price
          ∧ Quote.packagingCost p = packagingCost price) parcels (Quote.parcels s).
Proof.
  unfold bindingShipmentForPlan. cbv zeta. intros H. ok_inv. cbn.
  match goal with H : traverse _ _ = _ |- _ => apply traverse_Ok in H; rename H into Ht end.
  split_and!; [done..|]. eapply Forall2_impl; [exact Ht|]. cbv beta. intros parcel p Hp.
  unfold bindingParcel in Hp. destruct (prices !! _) as [price|] eqn:Hprice; [|done].
  destruct (planIdAt _ _) as [i|] eqn:Hi; [|done]. injection Hp as <-. cbn. eauto 10.
Qed.

Lemma bound_keys {A B} (f : A → list jstr) (g : B → list jstr) (R : A → B → Prop) l k :
  (∀ a b, R a b → g b = f a) → Forall2 R l k → k ≫= g = l ≫= f.
Proof.
  intros HR. induction 1 as [|a b l k Hab _ IH]; [done|].
  rewrite !bind_cons, IH. by rewrite (HR _ _ Hab).
Qed.

(** The keys a valid plan places are those of its units. *)
Lemma planned_keys input parcels :
  ShipmentPlan.planShipment input = Ok (ShipmentPlan.planned parcels) →
  parcels ≫= placedKeys ≡ₚ ShipmentPlan.packingUnitKey <$> ShipmentPlan.units input.
Proof.
  intros [Hwf H]%ShipmentPlan.planShipment_Ok.
  destruct (ShipmentPlan.placeUnits_start input Hwf) as [(ps & Hps & [(uss & Hv & Hperm) _])|(u & Hu & _)];
    [|rewrite Hu in H; discriminate H].
  rewrite Hps in H. injection H as ->. rewrite <-Hperm. clear -Hv. induction Hv as [|us p uss ps Hp _ IH]; [done|].
  cbn [concat]. rewrite fmap_app, bind_cons, IH. apply Permutation_app_tail.
  assert (placedKeys p = ShipmentPlan.packingUnitKey <$> us) as ->; [|done]. unfold placedKeys.
  pose proof (ShipmentPlan.pv_places _ _ _ Hp) as Hpl. clear -Hpl.
  induction Hpl as [|u q us qs [Hq _] _ IH]; [done|]. by rewrite !fmap_cons, Hq, IH.
Qed.
End Prepare.

(** ** Properties *)

(** The gates.  The express offer stands exactly when none of its five
    conditions fails, and every condition that fails is reported; an
    automatic quote becomes a custom request exactly when a permanent
    condition fails, reporting all of those, stays provisional exactly when
    only provisional ones fail, and is binding exactly when none does. *)
Theorem gates_exact (input : Gates.QuoteGateInput) (express : Gates.ExpressEligibilityInput) :
  match Gates.evaluateQuoteGates input with
  | Gates.gate_custom_request rs =>
      rs ≠ [] ∧ ∀ r, r ∈ rs ↔ Gates.permanent r = true ∧ Gates.gate_fails input r
  | Gates.gate_provisional rs =>
      rs ≠ [] ∧ (∀ r, Gates.permanent r = true → ¬ Gates.gate_fails input r)
      ∧ ∀ r, r ∈ rs ↔ Gates.gate_fails input r
  | Gates.gate_binding_quote => ∀ r, ¬ Gates.gate_fails input r
  end
  ∧ match Gates.evaluateExpressEligibility express with
    | Ok e => Gates.express_wf express ∧ (∀ r, r ∈ Gates.reasons e ↔ Gates.express_fails express r)
        ∧ (Gates.eligible e = true ↔ ∀ r, ¬ Gates.express_fails express r)
    | Throw e => e = DomainError NEGATIVE_RESULT ∧ ¬ Gates.express_wf express
    end.
Proof. split; [apply Gates.evaluateQuoteGates_spec|apply Gates.evaluateExpress_spec]. Qed.

(** What a prepared quote is.  It is a custom request exactly when a
    permanent gate fails, with the failing ones as its reasons and the unit
    that fits no parcel when there is one; provisional when only provisional
    gates fail, with all of them as its reasons; and a binding quote only
    when none fails.  Its price is binding exactly for a binding quote. *)
Theorem prepare_decides (input : Prepare.PrepareOrderQuoteInput) (r : Prepare.PreparedOrderQuote) :
  Prepare.prepareOrderQuote input = Ok r →
  let gates := Prepare.situation input (Prepare.expressOf r) in
  Gates.evaluateExpressEligibility (Prepare.expressEligibility input) = Ok (Prepare.expressOf r)
  ∧ (Prepare.is_binding (Prepare.priceOf r) = true ↔ ∀ x, ¬ Gates.gate_fails gates x)
  ∧ match r with
    | Prepare.prepared_custom_request reasons _ _ failure =>
        reasons ≠ []
        ∧ (∀ x, x ∈ reasons ↔ Gates.permanent x = true ∧ Gates.gate_fails gates x)
        ∧ ∀ k ids, failure = Some (k, ids) ↔
            ∃ d, Prepare.destinationShipment input = Some d
              ∧ ShipmentPlan.planShipment (Prepare.plannerInput d) = Ok (ShipmentPlan.no_fit k ids)
    | Prepare.prepared_provisional reasons _ _ _ =>
        reasons ≠ []
        ∧ (∀ x, Gates.permanent x = true → ¬ Gates.gate_fails gates x)
        ∧ ∀ x, x ∈ reasons ↔ Gates.gate_fails gates x
    | Prepare.prepared_binding_quote _ _ _ => ∀ x, ¬ Gates.gate_fails gates x
    end.
Proof.
  unfold Prepare.prepareOrderQuote. intros H. apply bind_Ok in H as (e & He & H).
  apply bind_Ok in H as (p & Hp%Prepare.provisionalPrice_kind & H). cbv zeta. unfold Prepare.situation.
  destruct (Prepare.destinationShipment input) as [d|].
  - apply bind_Ok in H as (plan & Hplan & H). rewrite Hplan. destruct plan as [parcels|key ids].
    + destruct (Gates.evaluateQuoteGates _) eqn:Hg; ok_inv; cbn [Prepare.expressOf Prepare.priceOf].
      * destruct (Prepare.decides_provisional _ _ _ Hg Hp) as [? ?]. done.
      * destruct (Prepare.decides_custom _ _ _ Hg Hp) as (? & ? & ?). split_and!; try done.
        intros k ids'. split; [done|]. intros (d' & [= <-] & ?). congruence.
      * pose proof (Prepare.decides_binding _ Hg).
        match goal with H : match ?x with _ => _ end = Ok _ |- _ => destruct x; [done|] end.
        ok_inv. cbn [Prepare.expressOf Prepare.priceOf Prepare.is_binding]. done.
    + ok_inv. cbn [Prepare.expressOf Prepare.priceOf].
      destruct (Gates.evaluateQuoteGates _) as [rs|rs|] eqn:Hg.
      * exfalso. destruct (Prepare.decides_provisional _ _ _ Hg Hp) as (_ & _ & Hno & _).
        by apply (Hno Gates.SHIPMENT_INELIGIBLE).
      * destruct (Prepare.decides_custom _ _ _ Hg Hp) as (? & ? & ?). split_and!; try done.
        intros k ids'. split; [intros [= <- <-]; eauto|]. intros (d' & [= <-] & ?). congruence.
      * exfalso. by apply (Prepare.decides_binding _ Hg Gates.SHIPMENT_INELIGIBLE).
  - destruct (Gates.evaluateQuoteGates _) eqn:Hg; ok_inv; cbn [Prepare.expressOf Prepare.priceOf Gates.reasonsOf].
    + destruct (Prepare.decides_provisional _ _ _ Hg Hp) as [? ?]. done.
    + destruct (Prepare.decides_custom _ _ _ Hg Hp) as (? & ? & ?). split_and!; try done.
      intros k ids'. split; [done|]. by intros (d' & ? & _).
    + exfalso. by apply (Prepare.decides_binding _ Hg Gates.SHIPMENT_PLAN_REQUIRED).
Qed.

(** The sample order of Quote.v, for which everything passes, with a
    destination or without. *)
Definition sample_prepare (d : option Prepare.DestinationShipmentPreparation) : Prepare.PrepareOrderQuoteInput :=
  let input := Quote.sample_input None in
  Prepare.mkPrepare
    (Prepare.mkPricing (Quote.priceList input) (Quote.profileRevisionIds input) (Quote.items input)
       (Quote.expressRequested input) (Quote.paymentSchedule input))
    (Prepare.mkFacts true true false true true true true)
    (Gates.mkExpress Gates.SINGLE 1 4 true false 3600 86400 7200) d.

Definition sample_destination : Prepare.DestinationShipmentPreparation :=
  let units := (λ t, ShipmentPlan.mkUnit (Allocations.id t) (ShipmentPlan.mkBox 10 20 30) 5)
                 <$> (Quote.items (Quote.sample_input None) ≫= Quote.packingUnits) in
  Prepare.mkDestination (js "destination") (js "snapshot")
    (ShipmentPlan.mkInput units [ShipmentPlan.mkCategory (js "small") 400 400 400 1000 200 10000000]
       {[js "small"]} 4 5 1)
    [Prepare.mkCategoryPricing (js "small") (Quote.czk 8900) (Quote.czk 7900) (Quote.czk 500)]
    [(IntNum 1, js "plan-1")].

Lemma prepare_decides_witness :
  ∃ r, Prepare.prepareOrderQuote (sample_prepare None) = Ok r
  ∧ Prepare.is_binding (Prepare.priceOf r) = false.
Proof.
  destruct (Prepare.prepareOrderQuote (sample_prepare None)) as [r|] eqn:Hr; [|vm_compute in Hr; discriminate Hr].
  exists r. split; [reflexivity|]. destruct (prepare_decides _ _ Hr) as (_ & Hb & _).
  destruct (Prepare.is_binding (Prepare.priceOf r)); [|reflexivity].
  destruct (proj1 Hb eq_refl Gates.SHIPMENT_PLAN_REQUIRED). reflexivity.
Defined.

(** C3: a binding quote ships what it prices.  Its plan is the planner's for
    the chosen destination; the price names one shipment plan for each
    planned parcel, the one allocated to the parcel's ordinal, no plan twice;
    and every packing unit of the priced items is a unit the planner was
    given and is placed in exactly one parcel of the plan. *)
Theorem prepare_binding_ships (input : Prepare.PrepareOrderQuoteInput) (express : Gates.ExpressEligibility)
    (parcels : list ShipmentPlan.ShipmentParcel) (price : Quote.OrderPriceCalculation) :
  Prepare.prepareOrderQuote input = Ok (Prepare.prepared_binding_quote express parcels price) →
  ∃ d common plans tax total fee captures components,
    Prepare.destinationShipment input = Some d
    ∧ ShipmentPlan.planShipment (Prepare.plannerInput d) = Ok (ShipmentPlan.planned parcels)
    ∧ price = Quote.binding common plans (Prepare.deliveryDestinationId d)
        (Prepare.deliveryCapabilitySnapshotId d) total tax total fee captures components
    ∧ Forall2 (λ parcel plan, Prepare.planIdAt (Prepare.shipmentPlanIdsByOrdinal d)
        (ShipmentPlan.ordinal parcel) = Some plan) parcels plans
    ∧ NoDup plans
    ∧ parcels ≫= Prepare.placedKeys ≡ₚ Prepare.pricedKeys input
    ∧ ShipmentPlan.packingUnitKey <$> ShipmentPlan.units (Prepare.plannerInput d) ≡ₚ Prepare.pricedKeys input.
Proof.
  unfold Prepare.prepareOrderQuote. intros H. apply bind_Ok in H as (e & _ & H).
  apply bind_Ok in H as (p & _ & H).
  destruct (Prepare.destinationShipment input) as [d|]; [|by destruct (Gates.evaluateQuoteGates _)].
  apply bind_Ok in H as (plan & Hplan & H). destruct plan as [ps|]; [|done].
  destruct (Gates.evaluateQuoteGates _); [done..|]. apply bind_Ok in H as (prices & _ & H).
  apply bind_Ok in H as (s & Hs & H). apply bind_Ok in H as (c & Hc & H).
  apply Prepare.bindingShipment_Ok in Hs as (Hdest & Hsnap & Hpar).
  destruct (Prepare.calculate_validates _ _ Hc) as (units & Hu & Hv & common & tax & ct & fee & caps & comps & ->).
  injection H as <- <- <-. cbn [Quote.items Quote.priceList Prepare.pricingWith] in Hu, Hv.
  apply Quote.validateAndCollect_Ok in Hu as (_ & -> & HN).
  assert (Quote.parcels s ≫= Quote.packingUnitKeys = ps ≫= Prepare.placedKeys) as Hkeys.
  { eapply Prepare.bound_keys; [|exact Hpar]. cbv beta. by intros ? ? (_ & ? & _). }
  pose proof (Prepare.validated_keys _ _ _ HN Hv) as Hall. rewrite Hkeys in Hall.
  apply Quote.validateShipment_Ok in Hv as (_ & HNp & _).
  exists d, common, (Quote.shipmentPlanId <$> Quote.parcels s), tax, ct, fee, caps, comps. split_and!; try done.
  - by rewrite Hdest, Hsnap.
  - apply Forall2_fmap_r. eapply Forall2_impl; [exact Hpar|]. cbv beta. by intros ? ? (? & _).
  - rewrite <-(Prepare.planned_keys _ _ Hplan). exact Hall.
Qed.

Lemma prepare_binding_ships_witness :
  ∃ express parcels price,
    Prepare.prepareOrderQuote (sample_prepare (Some sample_destination))
      = Ok (Prepare.prepared_binding_quote express parcels price)
    ∧ parcels ≫= Prepare.placedKeys ≡ₚ Prepare.pricedKeys (sample_prepare (Some sample_destination)).
Proof.
  destruct (Prepare.prepareOrderQuote (sample_prepare (Some sample_destination)))
    as [[| |express parcels price]|] eqn:Hr; try (vm_compute in Hr; discriminate Hr).
  exists express, parcels, price. split; [reflexivity|].
  destruct (prepare_binding_ships _ _ _ _ Hr) as (d & c & pl & t & tot & f & cap & comps & _ & _ & _ & _ & _ & Hk & _).
  exact Hk.
Defined.
