(* ===== verification/Language.v ===== *)
(** Built-in operations of the language that the resource planner relies on:
    [JSON.stringify] on an array of strings, [BigInt] on a string, and [Date]
    values.  [JSON.stringify] is injective there, which is what makes its
    result usable as a key. *)
From S2P Require Import Prelude Text.

(** ** JSON.stringify *)

Definition is_lead_surrogate (c : Z) : bool := (55296 <=? c) && (c <=? 56319).
Definition is_trail_surrogate (c : Z) : bool := (56320 <=? c) && (c <=? 57343).

(** [\u] and four lowercase hexadecimal digits. *)
Definition unicode_escape (c : Z) : jstr :=
  92 :: 117 :: (radix_char <$> [c / 4096; (c / 256) `mod` 16; (c / 16) `mod` 16; c `mod` 16]).

(** The letter of a two-character escape. *)
Definition short_escape (c : Z) : option Z :=
  if c =? 8 then Some 98 else if c =? 9 then Some 116 else if c =? 10 then Some 110
  else if c =? 12 then Some 102 else if c =? 13 then Some 114
  else if c =? 34 then Some 34 else if c =? 92 then Some 92 else None.

(** One code unit that is not half of a surrogate pair.  (A code unit is never
    negative.) *)
Definition json_unit (c : Z) : jstr :=
  match short_escape c with
  | Some e => [92; e]
  | None =>
      if ((0 <=? c) && (c <? 32)) || is_lead_surrogate c || is_trail_surrogate c
      then unicode_escape c else [c]
  end.

(** QuoteJSONString, without the quotes. *)
Fixpoint json_body (s : jstr) : jstr :=
  match s with
  | [] => []
  | c :: s' =>
      match s' with
      | d :: s'' =>
          if is_lead_surrogate c && is_trail_surrogate d then c :: d :: json_body s''
          else json_unit c ++ json_body s'
      | [] => json_unit c
      end
  end.

Definition jsonQuote (s : jstr) : jstr := 34 :: json_body s ++ [34].

(** [JSON.stringify(values)] *)
Definition jsonStringify (values : list jstr) : jstr :=
  91 :: join (js ",") (jsonQuote <$> values) ++ [93].

Example jsonStringify_sample :
  jsonStringify [js "a"; []; [34; 10; 55357; 56832; 55357]] = js "[" ++ [34; 97; 34] ++ js "," ++ [34; 34]
    ++ js "," ++ [34; 92; 34; 92; 110; 55357; 56832; 92; 117; 100; 56; 51; 100; 34] ++ js "]".
Proof. vm_compute. reflexivity. Qed.

(** ** BigInt of a string *)

(** The value of a digit character in a radix. *)
Definition digit_of (radix c : Z) : option Z :=
  let d := if (48 <=? c) && (c <=? 57) then c - 48
           else if (97 <=? c) && (c <=? 122) then c - 87
           else if (65 <=? c) && (c <=? 90) then c - 55 else -1 in
  if (0 <=? d) && (d <? radix) then Some d else None.

Fixpoint digits_of (radix : Z) (s : jstr) (acc : Z) : option Z :=
  match s with
  | [] => Some acc
  | c :: s' => match digit_of radix c with
               | Some d => digits_of radix s' (acc * radix + d)
               | None => None
               end
  end.

Definition unsigned_of (radix : Z) (s : jstr) : option Z :=
  match s with [] => None | _ => digits_of radix s 0 end.

(** StringToBigInt: surrounding white space, then nothing, a decimal literal
    with an optional sign, or a literal with a radix prefix. *)
Definition BigInt_of_string (s : jstr) : option Z :=
  match js_trim s with
  | [] => Some 0
  | 43 :: s' => unsigned_of 10 s'
  | 45 :: s' => Z.opp <$> unsigned_of 10 s'
  | 48 :: c :: s' =>
      if (c =? 120) || (c =? 88) then unsigned_of 16 s'
      else if (c =? 111) || (c =? 79) then unsigned_of 8 s'
      else if (c =? 98) || (c =? 66) then unsigned_of 2 s'
      else unsigned_of 10 (48 :: c :: s')
  | s' => unsigned_of 10 s'
  end.

Example BigInt_of_string_sample :
  BigInt_of_string <$> [js " 42 "; js "-7"; js ""; js "0x1F"; js "-0x1"; js "1.5"; js "1e3"]
  = [Some 42; Some (-7); Some 0; Some 31; None; None; None].
Proof. vm_compute. reflexivity. Qed.

(** ** Date *)

(** The time value of a [Date], in milliseconds; [None] is NaN, an invalid
    date. *)
Definition jsdate : Type := option Z.

Definition date_lt (a b : jsdate) : bool :=
  match a, b with Some x, Some y => x <? y | _, _ => false end.
Definition date_le (a b : jsdate) : bool :=
  match a, b with Some x, Some y => x <=? y | _, _ => false end.

(** Subtraction of two time values as doubles: their difference is below
    2^54, so the only rounding is to an even integer above 2^53, with ties to
    the even significand. *)
Definition time_sub (a b : Z) : Z :=
  let d := a - b in
  if (Z.abs d <=? 9007199254740992) || Z.even d then d
  else if Z.even (d / 2) then 2 * (d / 2) else 2 * (d / 2) + 2.

(** ** Strings *)

(** [s.localeCompare(t)]: the collation of the host's locale, which the
    language leaves open. *)
Class Collation := localeCompare : jstr → jstr → Z.

(** ** Facts *)

Definition unhex (c : Z) : Z := if c <? 97 then c - 48 else c - 87.

Definition unescape (e : Z) : Z :=
  if e =? 98 then 8 else if e =? 116 then 9 else if e =? 110 then 10
  else if e =? 102 then 12 else if e =? 114 then 13 else e.

(** Reads a quoted string up to its closing quote. *)
Fixpoint unquote (fuel : nat) (t : jstr) : jstr * jstr :=
  match fuel with
  | O => ([], [])
  | S fuel' =>
      match t with
      | [] => ([], [])
      | c :: t' =>
          if c =? 34 then ([], t')
          else if c =? 92 then
            match t' with
            | e :: t'' =>
                if e =? 117 then
                  match t'' with
                  | x :: y :: z :: w :: r =>
                      let '(s, rest) := unquote fuel' r in
                      (4096 * unhex x + 256 * unhex y + 16 * unhex z + unhex w :: s, rest)
                  | _ => ([], [])
                  end
                else let '(s, rest) := unquote fuel' t'' in (unescape e :: s, rest)
            | [] => ([], [])
            end
          else let '(s, rest) := unquote fuel' t' in (c :: s, rest)
      end
  end.

Lemma unhex_char d : 0 ≤ d < 16 → unhex (radix_char d) = d.
Proof. unfold unhex, radix_char. intros Hd. destruct (Z.ltb_spec d 10); case_match; bool_inv; lia. Qed.

Lemma short_escape_spec c e :
  short_escape c = Some e → unescape e = c ∧ e ≠ 117.
Proof.
  unfold short_escape, unescape. intros H.
  repeat case_match; simplify_eq; bool_inv; try lia; done.
Qed.

Lemma short_escape_None c : short_escape c = None → c ≠ 34 ∧ c ≠ 92.
Proof. unfold short_escape. intros H. repeat case_match; simplify_eq; bool_inv; lia. Qed.

Lemma unquote_unit fuel c t :
  unquote (S fuel) (json_unit c ++ t) = let '(s, r) := unquote fuel t in (c :: s, r).
Proof.
  unfold json_unit. destruct (short_escape c) as [e|] eqn:He.
  - destruct (short_escape_spec c e He) as [Hu Hne]. cbn.
    rewrite (proj2 (Z.eqb_neq e 117)) by done. by rewrite Hu.
  - destruct (short_escape_None c He) as [Hq Hb]. destruct (_ || _ || _) eqn:Hc.
    + assert (0 ≤ c < 65536) as Hr.
      { unfold is_lead_surrogate, is_trail_surrogate in Hc. lia. }
      assert (4096 * unhex (radix_char (c / 4096)) + 256 * unhex (radix_char ((c / 256) `mod` 16))
        + 16 * unhex (radix_char ((c / 16) `mod` 16)) + unhex (radix_char (c `mod` 16)) = c) as Hv.
      { rewrite !unhex_char by first [apply Z.mod_pos_bound; lia|
          split; [apply Z.div_pos; lia|apply Z.div_lt_upper_bound; lia]].
        change 4096 with (16 * 16 * 16). change 256 with (16 * 16). rewrite <-!Z.div_div by lia.
        pose proof (Z.div_mod c 16). pose proof (Z.div_mod (c / 16) 16). pose proof (Z.div_mod (c / 16 / 16) 16). lia. }
      unfold unicode_escape. cbn [app fmap list_fmap]. cbn [unquote Z.eqb Pos.eqb].
      destruct (unquote fuel t) as [s r]. by rewrite Hv.
    + cbn. by rewrite (proj2 (Z.eqb_neq c 34)), (proj2 (Z.eqb_neq c 92)) by done.
Qed.

Lemma unquote_body fuel s t :
  (length s < fuel)%nat → unquote fuel (json_body s ++ 34 :: t) = (s, t).
Proof.
  revert fuel. induction s as [s IH] using (induction_ltof1 _ (@length Z)). unfold ltof in IH.
  intros fuel Hf. destruct fuel as [|fuel]; [lia|]. destruct s as [|c s]; [done|].
  cbn [length] in *. cbn [json_body]. destruct s as [|d s].
  - rewrite unquote_unit. by rewrite (IH [] ltac:(cbn; lia) fuel ltac:(cbn in *; lia) : unquote fuel (34 :: t) = _).
  - destruct (is_lead_surrogate c && is_trail_surrogate d) eqn:Hp.
    + cbn [length app] in *. destruct fuel as [|fuel]; [lia|].
      unfold is_lead_surrogate, is_trail_surrogate in Hp.
      cbn [unquote]. rewrite !(proj2 (Z.eqb_neq _ _)) by lia.
      by rewrite (IH s ltac:(lia) fuel ltac:(lia)).
    + rewrite <-app_assoc, unquote_unit. by rewrite (IH (d :: s) ltac:(lia) fuel ltac:(cbn in *; lia)).
Qed.

Lemma jsonQuote_cut s s' r r' :
  jsonQuote s ++ r = jsonQuote s' ++ r' → s = s' ∧ r = r'.
Proof.
  unfold jsonQuote. cbn [app]. rewrite <-!app_assoc. cbn [app]. intros [= H].
  apply (f_equal (unquote (S (length s + length s')))) in H.
  rewrite !unquote_body in H by lia. by injection H.
Qed.

Lemma join_quoted_cons s l :
  join (js ",") (jsonQuote <$> s :: l) ++ [93]
  = jsonQuote s ++ match l with [] => [93] | _ => 44 :: join (js ",") (jsonQuote <$> l) ++ [93] end.
Proof. destruct l as [|s' l]; [done|]. cbn [fmap list_fmap join]. by rewrite <-!app_assoc. Qed.

#[export] Instance jsonStringify_inj : Inj (=) (=) jsonStringify.
Proof.
  intros l k. unfold jsonStringify. intros [= H]. revert k H. induction l as [|s l IH]; intros [|s' k] H.
  - done.
  - by rewrite join_quoted_cons in H.
  - by rewrite join_quoted_cons in H.
  - rewrite !join_quoted_cons in H. apply jsonQuote_cut in H as [-> H]. f_equal.
    destruct l, k; try done. injection H as H. by apply IH.
Qed.

Lemma date_lt_Some a b : date_lt (Some a) (Some b) = true ↔ a < b.
Proof. apply Z.ltb_lt. Qed.
Lemma date_le_Some a b : date_le (Some a) (Some b) = true ↔ a ≤ b.
Proof. apply Z.leb_le. Qed.
