(* ===== verification/ResourcePlan.v ===== *)
(** The resource planner (resource-plan.ts): which machine candidates produce
    the slots of an order, chosen by exhaustive search over canonical slot
    selections.  This file has its data and operations; ResourceSearch.v and
    ResourcePlanFacts.v have the theorems. *)
From S2P Require Import Prelude Text Language LockOrder.

Module ResourcePlan.

(** ** Data *)

Inductive ResourceAmount :=
| BigIntAmount (z : Z)
| NumberAmount (n : jsnumber)
| StringAmount (s : jstr).

(** [color] is [None] for null. *)
Record FulfilmentSlotResourceInput := mkSlot {
  slot_id : jstr;
  slot_shipmentPlanId : jstr;
  slot_modelGeometryId : jstr;
  slot_printConfigRevisionId : jstr;
  slot_material : jstr;
  slot_color : option jstr;
}.

(** In this and the next two records, an [option] is a field that may be
    absent; [color] may also be null, which is [None] there. *)
Record ResourceInventoryAvailability := mkInventory {
  inventory_id : jstr;
  inventory_nodeId : option jstr;
  inventory_machineId : option jstr;
  availableMilligrams : option ResourceAmount;
  availableGrams : option ResourceAmount;
  remainingMilligrams : option ResourceAmount;
  reservedMilligrams : option ResourceAmount;
}.

Record ResourceCapacityInterval := mkInterval {
  interval_id : option jstr;
  interval_nodeId : option jstr;
  interval_machineId : jstr;
  interval_machineProfileId : option jstr;
  interval_machineCalibrationId : option jstr;
  startsAt : jsdate;
  endsAt : jsdate;
}.

Inductive CandidateSource := source_candidate | source_reference.
Inductive SliceKind := CANDIDATE | REFERENCE.

#[global] Instance CandidateSource_eq_dec : EqDecision CandidateSource.
Proof. solve_decision. Defined.
#[global] Instance SliceKind_eq_dec : EqDecision SliceKind.
Proof. solve_decision. Defined.

Record ResourceCandidateEstimate := mkCandidate {
  id : jstr;
  estimateKey : option jstr;
  plannerOptionId : option jstr;
  nodeId : jstr;
  machineId : jstr;
  machineProfileId : option jstr;
  machineCalibrationId : option jstr;
  inventoryId : jstr;
  shipmentPlanId : jstr;
  modelGeometryId : jstr;
  printConfigRevisionId : jstr;
  material : jstr;
  color : option jstr;
  requiredMaterialMilligrams : ResourceAmount;
  requiredMachineSeconds : ResourceAmount;
  expiresAt : jsdate;
  intervals : list ResourceCapacityInterval;
  fulfilmentSlotIds : option (list jstr);
  fulfilmentSlotCount : option jsnumber;
  slotIds : option (list jstr);
  fulfilmentSlotId : option jstr;
  source : option CandidateSource;
  sliceKind : option SliceKind;
  isReferenceSlice : option bool;
  primarySliceKind : option SliceKind;
  tailSliceKind : option SliceKind;
}.

Record ResourcePlanSelectorInput := mkInput {
  requiredFulfilmentSlots : option (list FulfilmentSlotResourceInput);
  requiredSlots : option (list FulfilmentSlotResourceInput);
  candidates : list ResourceCandidateEstimate;
  inventory : list ResourceInventoryAvailability;
  occupiedCapacity : option (list ResourceCapacityInterval);
  maximumCapacityIntervalCount : option jsnumber;
  now : jsdate;
}.

Record ResourcePlanSlotAssignment := mkAssignment {
  assigned_fulfilmentSlotId : jstr;
  candidateResourceEstimateId : jstr;
}.

(** [candidates] are looked up with [find(...)!]: [None] would be a missing
    one. *)
Record CompleteResourcePlan := mkPlan {
  plan_candidates : list (option ResourceCandidateEstimate);
  candidateResourceEstimateIds : list jstr;
  assignments : list ResourcePlanSlotAssignment;
  plan_requiredMaterialMilligrams : Z;
  plan_requiredMachineSeconds : Z;
  lockTargets : list LockOrder.LockTarget;
}.

(** The candidate with the fields [UsableCandidate] adds or overrides. *)
Record UsableCandidate := mkUsable {
  candidate : ResourceCandidateEstimate;
  usable_slotIds : list jstr;
  coverageQuantity : nat;
  requiredMaterial : Z;
  usable_machineSeconds : Z;
}.

Record PlanChoice := mkChoice {
  choice_candidates : list UsableCandidate;
  choice_requiredMaterial : Z;
  choice_requiredMachineSeconds : Z;
}.

(** ** Amounts and identities *)

Definition toInteger (value : ResourceAmount) : result Z :=
  match value with
  | NumberAmount n => throw_when (negb (isSafeInteger n)) RangeError
  | _ => Ok ()
  end ;;
  match value with
  | BigIntAmount z => Ok z
  | NumberAmount n => BigInt_of_number n
  | StringAmount s => match BigInt_of_string s with Some z => Ok z | None => Throw RangeError end
  end.

Definition nonNegative (value : ResourceAmount) : result Z :=
  integer ← toInteger value;
  throw_when (integer <? 0) RangeError ;;
  Ok integer.

Definition positive (value : ResourceAmount) : result Z :=
  integer ← toInteger value;
  throw_when (integer <=? 0) RangeError ;;
  Ok integer.

Definition requireId (value : jstr) : result () := throw_when (blank value) RangeError.

(** [if (value !== undefined) requireId(value)] *)
Definition requireOptionalId (value : option jstr) : result () :=
  match value with Some v => requireId v | None => Ok () end.

Definition supplied {A} (field : option A) : nat := match field with Some _ => 1 | None => 0 end.

Definition availabilityMilligrams (inventory : ResourceInventoryAvailability) : result Z :=
  requireId (inventory_id inventory) ;;
  throw_when (1 <? supplied (availableMilligrams inventory) + supplied (availableGrams inventory)
                   + supplied (remainingMilligrams inventory))%nat RangeError ;;
  match availableMilligrams inventory, availableGrams inventory, remainingMilligrams inventory with
  | Some v, _, _ => nonNegative v
  | None, Some v, _ => grams ← nonNegative v; Ok (grams * 1000)
  | None, None, None => Throw RangeError
  | None, None, Some v =>
      remaining ← nonNegative v;
      reserved ← nonNegative (default (BigIntAmount 0) (reservedMilligrams inventory));
      throw_when (remaining <? reserved) RangeError ;;
      Ok (remaining - reserved)
  end.

(** ** Capacity intervals *)

Definition intervalOverlaps (left right : ResourceCapacityInterval) : bool :=
  str_eqb (interval_machineId left) (interval_machineId right)
  && date_lt (startsAt left) (endsAt right)
  && date_lt (startsAt right) (endsAt left).

(** The first loop of [validIntervals]; [false] is its [return false]. *)
Fixpoint checkIntervals (intervals : list ResourceCapacityInterval) : result bool :=
  match intervals with
  | [] => Ok true
  | interval :: rest =>
      requireOptionalId (interval_id interval) ;;
      requireOptionalId (interval_nodeId interval) ;;
      requireId (interval_machineId interval) ;;
      throw_when (bool_decide (startsAt interval = None)) RangeError ;;
      throw_when (bool_decide (endsAt interval = None)) RangeError ;;
      if date_le (endsAt interval) (startsAt interval) then Ok false else checkIntervals rest
  end.

(** The nested loops over pairs of intervals. *)
Fixpoint overlapFree (intervals : list ResourceCapacityInterval) : bool :=
  match intervals with
  | [] => true
  | interval :: rest =>
      forallb (λ other, negb (intervalOverlaps interval other)) rest && overlapFree rest
  end.

Definition validIntervals (intervals : list ResourceCapacityInterval) : result bool :=
  ordered ← checkIntervals intervals;
  Ok (ordered && overlapFree intervals).

(** [BigInt] throws a [RangeError] at NaN. *)
Definition intervalDurationSeconds (intervals : list ResourceCapacityInterval) : result Z :=
  milliseconds ← foldM (λ total interval,
    match endsAt interval, startsAt interval with
    | Some e, Some s => Ok (total + time_sub e s)
    | _, _ => Throw RangeError
    end) 0 intervals;
  Ok (Z.quot milliseconds 1000).

(** ** Candidates *)

Definition sameIds (alias first : list jstr) : bool :=
  (length alias =? length first)%nat && forallb (λ '(a, b), str_eqb a b) (zip alias first).

Definition candidateSlots (candidate : ResourceCandidateEstimate) : list jstr :=
  let aliases := omap (λ a, a) [fulfilmentSlotIds candidate; slotIds candidate]
    ++ match fulfilmentSlotId candidate with Some s => [[s]] | None => [] end in
  match aliases with
  | [] => []
  | first :: rest => if forallb (λ alias, sameIds alias first) rest then first else []
  end.

Definition matchesSlot (candidate : ResourceCandidateEstimate) (slot : FulfilmentSlotResourceInput)
    : bool :=
  str_eqb (shipmentPlanId candidate) (slot_shipmentPlanId slot)
  && str_eqb (modelGeometryId candidate) (slot_modelGeometryId slot)
  && str_eqb (printConfigRevisionId candidate) (slot_printConfigRevisionId slot)
  && str_eqb (material candidate) (slot_material slot)
  && (bool_decide (slot_color slot = None) || bool_decide (color candidate = slot_color slot)).

Definition plannerOptionIdentity (candidate : ResourceCandidateEstimate) : jstr :=
  default (id candidate) (plannerOptionId candidate).

Definition compareCandidateIds (left right : ResourceCandidateEstimate) : Z :=
  js_or (compareStrings (default (id left) (estimateKey left)) (default (id right) (estimateKey right)))
  (js_or (compareStrings (id left) (id right))
         (compareStrings (plannerOptionIdentity left) (plannerOptionIdentity right))).

(** The same comparator on usable candidates, whose identities are their
    candidate's. *)
Definition compareUsable (left right : UsableCandidate) : Z :=
  compareCandidateIds (candidate left) (candidate right).

Definition hasDuplicate (values : list jstr) : bool :=
  negb (size (list_to_set values : gset jstr) =? length values)%nat.

(** The final loop of [choiceIsBetter], over lists of equal length. *)
Fixpoint idsBefore (left right : list UsableCandidate) : bool :=
  match left, right with
  | l :: left', r :: right' =>
      let comparison := compareUsable l r in
      if negb (comparison =? 0) then comparison <? 0 else idsBefore left' right'
  | _, _ => false
  end.

Definition choiceIsBetter (candidate : PlanChoice) (current : option PlanChoice) : bool :=
  match current with
  | None => true
  | Some current =>
      if negb (length (choice_candidates candidate) =? length (choice_candidates current))%nat
      then (length (choice_candidates candidate) <? length (choice_candidates current))%nat
      else if negb (choice_requiredMaterial candidate =? choice_requiredMaterial current)
      then choice_requiredMaterial candidate <? choice_requiredMaterial current
      else if negb (choice_requiredMachineSeconds candidate =? choice_requiredMachineSeconds current)
      then choice_requiredMachineSeconds candidate <? choice_requiredMachineSeconds current
      else idsBefore (js_sort compareUsable (choice_candidates candidate))
             (js_sort compareUsable (choice_candidates current))
  end.

(** ** Locks *)

Definition add (state : list LockOrder.LockTarget * gset jstr) (target : LockOrder.LockTarget)
    : list LockOrder.LockTarget * gset jstr :=
  let '(targets, identities) := state in
  let identity := LockOrder.kindName (LockOrder.kind target) ++ [0]
    ++ default [] (LockOrder.nodeId target) ++ [0] ++ LockOrder.id target in
  if bool_decide (identity ∈ identities) then state
  else (targets ++ [target], {[identity]} ∪ identities).

(** [if (value) ...] on an optional string. *)
Definition truthy (value : option jstr) : option jstr :=
  match value with Some (_ :: _) => value | _ => None end.

(** The targets [add] is called with for one candidate, in order. *)
Definition targetsOf (u : UsableCandidate) : list LockOrder.LockTarget :=
  let c := candidate u in
  let node := Some (nodeId c) in
  [LockOrder.mkTarget LockOrder.candidate_resource_estimate (id c) node;
   LockOrder.mkTarget LockOrder.machine (machineId c) node]
  ++ match truthy (machineProfileId c) with
     | Some p => [LockOrder.mkTarget LockOrder.machine_profile p None]
     | None => []
     end
  ++ match truthy (machineCalibrationId c) with
     | Some p => [LockOrder.mkTarget LockOrder.machine_calibration p node]
     | None => []
     end
  ++ [LockOrder.mkTarget LockOrder.inventory (inventoryId c) node]
  ++ omap (λ interval, (λ i, LockOrder.mkTarget LockOrder.candidate_capacity_interval i node)
                         <$> truthy (interval_id interval)) (intervals c).

Definition buildLockTargets (candidates : list UsableCandidate) : result (list LockOrder.LockTarget) :=
  LockOrder.orderLockTargets (foldl add ([], ∅) (candidates ≫= targetsOf)).1.

(** ** Canonical slot selections *)

Record SlotGroup := mkGroup {
  optionSet : jstr;
  group_slotIds : list jstr;
  minimum : nat;
}.

(** [slotGroups.get(optionSet) ?? []], [push] and [slotGroups.set]: the entries
    of the [Map], in insertion order. *)
Fixpoint addToGroup (optionSet slotId : jstr) (groups : list (jstr * list jstr))
    : list (jstr * list jstr) :=
  match groups with
  | [] => [(optionSet, [slotId])]
  | (o, group) :: rest =>
      if str_eqb o optionSet then (o, group ++ [slotId]) :: rest
      else (o, group) :: addToGroup optionSet slotId rest
  end.

(** The loop over the compatible slots; [None] is its [return]. *)
Fixpoint groupSlots (slotOptionSet : gmap jstr jstr) (compatibleSlotIds : list jstr)
    (groups : list (jstr * list jstr)) : option (list (jstr * list jstr)) :=
  match compatibleSlotIds with
  | [] => Some groups
  | slotId :: rest =>
      match slotOptionSet !! slotId with
      | None => None
      | Some optionSet => groupSlots slotOptionSet rest (addToGroup optionSet slotId groups)
      end
  end.

Definition compareGroups (l r : SlotGroup) : Z :=
  js_or (compareStrings (optionSet l) (optionSet r))
        (compareStrings (default [] (group_slotIds l !! 0%nat)) (default [] (group_slotIds r !! 0%nat))).

(** The slots [choose] takes from one group. *)
Definition canonicalSlotIds (requiredSlotId requiredOptionSet : jstr) (group : SlotGroup) (count : nat)
    : list jstr :=
  if str_eqb (optionSet group) requiredOptionSet
  then requiredSlotId ::
         take (count - 1) (List.filter (λ slotId, negb (str_eqb slotId requiredSlotId)) (group_slotIds group))
  else take count (group_slotIds group).

(** [choose], as the list of the selections it visits; [selected] is the
    array the recursion pushes to and truncates again. *)
Fixpoint choose (requiredSlotId requiredOptionSet : jstr) (groups : list SlotGroup)
    (remaining : nat) (selected : list jstr) : list (list jstr) :=
  match groups with
  | [] => if (remaining =? 0)%nat then [js_sort compareStrings selected] else []
  | group :: rest =>
      let maximum := Nat.min (length (group_slotIds group)) remaining in
      count ← seq (minimum group) (S maximum - minimum group);
      if (list_sum (length ∘ group_slotIds <$> rest) <? remaining - count)%nat then []
      else choose requiredSlotId requiredOptionSet rest (remaining - count)
             (selected ++ canonicalSlotIds requiredSlotId requiredOptionSet group count)
  end.

(** [forEachCanonicalSlotSelection], as the list of the selections it
    visits. *)
Definition canonicalSlotSelections (requiredSlotId : jstr) (compatibleSlotIds : list jstr)
    (quantity : nat) (slotOptionSet : gmap jstr jstr) : list (list jstr) :=
  if negb (bool_decide (requiredSlotId ∈ compatibleSlotIds)) then []
  else
    match groupSlots slotOptionSet compatibleSlotIds [], slotOptionSet !! requiredSlotId with
    | Some slotGroups, Some requiredOptionSet =>
        let groups := js_sort compareGroups
          ((λ '(optionSet, slotIds), mkGroup optionSet (js_sort compareStrings slotIds)
              (if str_eqb optionSet requiredOptionSet then 1 else 0)) <$> slotGroups) in
        choose requiredSlotId requiredOptionSet groups quantity []
    | _, _ => []
    end.

(** ** The search *)

(** The variables the search shares between its levels. *)
Record SearchState := mkState {
  selected : gset jstr;
  covered : gset jstr;
  usedIntervals : list ResourceCapacityInterval;
  usedInventory : gmap jstr Z;
  best : option PlanChoice;
}.

Section search.
Context (maximumCapacityIntervalCount : option jsnumber).
Context (inventoryAvailability : gmap jstr Z).
Context (candidatesBySlot : gmap jstr (list UsableCandidate)).
Context (slotOptionSet : gmap jstr jstr).
Context (orderedSlotIds : list jstr).

Definition inventoryUsed (s : SearchState) (u : UsableCandidate) : Z :=
  default 0 (usedInventory s !! inventoryId (candidate u)).

(** The assignments before the recursive call of the callback. *)
Definition enter (u : UsableCandidate) (selectedSlotIds : list jstr) (s : SearchState) : SearchState :=
  mkState ({[id (candidate u)]} ∪ selected s) (list_to_set selectedSlotIds ∪ covered s)
    (usedIntervals s ++ intervals (candidate u))
    (<[inventoryId (candidate u) := inventoryUsed s u + requiredMaterial u]> (usedInventory s))
    (best s).

(** The assignments after it, which undo those before. *)
Definition leave (u : UsableCandidate) (selectedSlotIds : list jstr) (currentInventory : Z)
    (s : SearchState) : SearchState :=
  mkState (selected s ∖ {[id (candidate u)]}) (covered s ∖ list_to_set selectedSlotIds)
    (take (length (usedIntervals s) - length (intervals (candidate u))) (usedIntervals s))
    (<[inventoryId (candidate u) := currentInventory]> (usedInventory s))
    (best s).

(** The uncovered slots of a candidate. *)
Definition availableSlots (s : SearchState) (u : UsableCandidate) : list jstr :=
  List.filter (λ slotId, negb (bool_decide (slotId ∈ covered s))) (usable_slotIds u).

(** The [continue]s of the loop over the options. *)
Definition skipped (s : SearchState) (u : UsableCandidate) : bool :=
  bool_decide (id (candidate u) ∈ selected s)
  || match maximumCapacityIntervalCount with
     | Some n => num n <? Z.of_nat (length (usedIntervals s) + length (intervals (candidate u)))
     | None => false
     end
  || (length (availableSlots s u) <? coverageQuantity u)%nat
  || existsb (λ interval, existsb (λ used, intervalOverlaps interval used) (usedIntervals s))
       (intervals (candidate u))
  || match inventoryAvailability !! inventoryId (candidate u) with
     | Some available => available <? inventoryUsed s u + requiredMaterial u
     | None => false
     end.

Definition withSlots (u : UsableCandidate) (selectedSlotIds : list jstr) : UsableCandidate :=
  mkUsable (candidate u) selectedSlotIds (coverageQuantity u) (requiredMaterial u)
    (usable_machineSeconds u).

Definition firstUncovered (s : SearchState) : option jstr :=
  List.find (λ slotId, negb (bool_decide (slotId ∈ covered s))) orderedSlotIds.

(** [search]; the position grows with every level, so as many levels as there
    are slots, and one more, are enough. *)
Fixpoint search (fuel : nat) (position : nat) (chosen : list UsableCandidate)
    (material machineSeconds : Z) (s : SearchState) : SearchState :=
  match fuel with
  | O => s
  | S fuel' =>
      if (position =? length orderedSlotIds)%nat then
        let choice := mkChoice chosen material machineSeconds in
        if choiceIsBetter choice (best s)
        then mkState (selected s) (covered s) (usedIntervals s) (usedInventory s) (Some choice)
        else s
      else
        match firstUncovered s with
        | None | Some [] => s
        | Some uncoveredSlotId =>
            foldl (λ s candidate,
              if skipped s candidate then s
              else
                let currentInventory := inventoryUsed s candidate in
                foldl (λ s selectedSlotIds,
                  leave candidate selectedSlotIds currentInventory
                    (search fuel' (position + length selectedSlotIds)
                       (chosen ++ [withSlots candidate selectedSlotIds])
                       (material + requiredMaterial candidate)
                       (machineSeconds + usable_machineSeconds candidate)
                       (enter candidate selectedSlotIds s)))
                  s (canonicalSlotSelections uncoveredSlotId (availableSlots s candidate)
                       (coverageQuantity candidate) slotOptionSet))
              s (default [] (candidatesBySlot !! uncoveredSlotId))
        end
  end.
End search.

(** ** The planner *)

(** A computation that throws, returns undefined early ([None]), or goes on. *)
Notation outcome A := (result (option A)) (only parsing).

Definition obind {A B} (m : outcome A) (f : A → outcome B) : outcome B :=
  r ← m; match r with Some a => f a | None => Ok None end.

(** [if (b) return undefined;] *)
Definition undefined_when (b : bool) : outcome () := Ok (if b then None else Some ()).

(** A loop whose body may return early. *)
Fixpoint foldO {S A} (f : S → A → outcome S) (s : S) (l : list A) : outcome S :=
  match l with
  | [] => Ok (Some s)
  | x :: l' => obind (f s x) (λ s', foldO f s' l')
  end.

Definition addSlot (slotById : gmap jstr FulfilmentSlotResourceInput)
    (slot : FulfilmentSlotResourceInput) : outcome (gmap jstr FulfilmentSlotResourceInput) :=
  requireId (slot_id slot) ;;
  obind (undefined_when (bool_decide (is_Some (slotById !! slot_id slot)))) (λ _,
  Ok (Some (<[slot_id slot := slot]> slotById))).

Definition addInventory (availability : gmap jstr Z) (inventory : ResourceInventoryAvailability)
    : outcome (gmap jstr Z) :=
  requireOptionalId (inventory_nodeId inventory) ;;
  requireOptionalId (inventory_machineId inventory) ;;
  obind (undefined_when (bool_decide (is_Some (availability !! inventory_id inventory)))) (λ _,
  milligrams ← availabilityMilligrams inventory;
  Ok (Some (<[inventory_id inventory := milligrams]> availability))).

Section candidates.
Context (input : ResourcePlanSelectorInput).
Context (slotById : gmap jstr FulfilmentSlotResourceInput).
Context (inventoryAvailability : gmap jstr Z).

Definition occupied : list ResourceCapacityInterval := default [] (occupiedCapacity input).

(** The first [continue]: reference slices and expired candidates. *)
Definition ineligible (c : ResourceCandidateEstimate) : bool :=
  bool_decide (source c = Some source_reference)
  || bool_decide (sliceKind c = Some REFERENCE)
  || bool_decide (isReferenceSlice c = Some true)
  || bool_decide (primarySliceKind c = Some REFERENCE)
  || bool_decide (tailSliceKind c = Some REFERENCE)
  || bool_decide (expiresAt c = None)
  || date_le (expiresAt c) (now input).

(** An interval on another machine or node, or one that has started. *)
Definition misplaced (c : ResourceCandidateEstimate) (interval : ResourceCapacityInterval) : bool :=
  negb (str_eqb (interval_machineId interval) (machineId c))
  || match interval_nodeId interval with
     | Some n => negb (str_eqb n (nodeId c))
     | None => false
     end
  || date_le (startsAt interval) (now input).

(** [inventory.nodeId !== undefined && inventory.nodeId !== candidate.nodeId],
    and the same for the machine. *)
Definition elsewhere (c : ResourceCandidateEstimate) (i : ResourceInventoryAvailability) : bool :=
  match inventory_nodeId i with Some n => negb (str_eqb n (nodeId c)) | None => false end
  || match inventory_machineId i with Some m => negb (str_eqb m (machineId c)) | None => false end.

(** The body of the loop over the candidates from its first [continue] on:
    [None] is a [continue]. *)
Definition usableOf (c : ResourceCandidateEstimate) : result (option UsableCandidate) :=
  if ineligible c then Ok None
  else if (length (intervals c) =? 0)%nat then Ok None
  else
    valid ← validIntervals (intervals c);
    let slots := candidateSlots c in
    if negb valid then Ok None
    else if (length slots =? 0)%nat || hasDuplicate slots then Ok None
    else if existsb (λ s, bool_decide (slotById !! s = None)) slots then Ok None
    else
      let coverage := default (IntNum (Z.of_nat (length slots))) (fulfilmentSlotCount c) in
      if negb (isSafeInteger coverage) || (num coverage <? 1)
         || (Z.of_nat (length slots) <? num coverage) then Ok None
      else
        requiredMaterial ← positive (requiredMaterialMilligrams c);
        machineSeconds ← positive (requiredMachineSeconds c);
        if existsb (misplaced c) (intervals c) || hasDuplicate (omap interval_id (intervals c))
        then Ok None
        else
          duration ← intervalDurationSeconds (intervals c);
          if duration <? machineSeconds then Ok None
          else
            match inventoryAvailability !! inventoryId c with
            | None => Ok None
            | Some _ =>
                match List.find (λ i, str_eqb (inventory_id i) (inventoryId c)) (inventory input) with
                | None => Throw TypeError
                | Some i =>
                    if elsewhere c i then Ok None
                    else if existsb (λ interval, existsb (intervalOverlaps interval) occupied) (intervals c)
                    then Ok None
                    else if existsb (λ s, match slotById !! s with
                                          | Some slot => negb (matchesSlot c slot)
                                          | None => true
                                          end) slots
                    then Ok None
                    else Ok (Some (mkUsable c slots (Z.to_nat (num coverage)) requiredMaterial machineSeconds))
                end
            end.

(** The state of the loop: the planner options seen and the usable candidates
    of each slot. *)
Definition inspectCandidate (s : gset jstr * gmap jstr (list UsableCandidate))
    (c : ResourceCandidateEstimate) : outcome (gset jstr * gmap jstr (list UsableCandidate)) :=
  let '(plannerOptionIds, candidatesBySlot) := s in
  requireId (id c) ;;
  requireOptionalId (plannerOptionId c) ;;
  requireId (nodeId c) ;;
  requireId (machineId c) ;;
  requireId (inventoryId c) ;;
  obind (undefined_when (bool_decide (plannerOptionIdentity c ∈ plannerOptionIds))) (λ _,
  let plannerOptionIds := {[plannerOptionIdentity c]} ∪ plannerOptionIds in
  usable ← usableOf c;
  Ok (Some (plannerOptionIds,
    match usable with
    | None => candidatesBySlot
    | Some u => foldl (λ m slotId, <[slotId := default [] (m !! slotId) ++ [u]]> m)
                  candidatesBySlot (usable_slotIds u)
    end))).
End candidates.

Definition emptyState : SearchState := mkState ∅ ∅ [] ∅ None.

(** The result for the best choice. *)
Definition completePlan (input : ResourcePlanSelectorInput) (best : PlanChoice)
    : result CompleteResourcePlan :=
  let selectedCandidates := js_sort compareUsable (choice_candidates best) in
  let selectedCandidateInputs := (λ selected,
    List.find (λ c, str_eqb (plannerOptionIdentity c) (plannerOptionIdentity (candidate selected)))
      (candidates input)) <$> selectedCandidates in
  let assignments := js_sort (λ l r,
      js_or (compareStrings (assigned_fulfilmentSlotId l) (assigned_fulfilmentSlotId r))
            (compareStrings (candidateResourceEstimateId l) (candidateResourceEstimateId r)))
    (selectedCandidates ≫= λ u, (λ s, mkAssignment s (id (candidate u))) <$> usable_slotIds u) in
  lockTargets ← buildLockTargets selectedCandidates;
  Ok (mkPlan selectedCandidateInputs (id ∘ candidate <$> selectedCandidates) assignments
        (choice_requiredMaterial best) (choice_requiredMachineSeconds best) lockTargets).

(** What the validation of the input hands to the search. *)
Record Prepared := mkPrepared {
  prepared_availability : gmap jstr Z;
  prepared_candidatesBySlot : gmap jstr (list UsableCandidate);
  prepared_slotOptionSet : gmap jstr jstr;
  prepared_orderedSlotIds : list jstr;
}.

Definition prepareSearch (input : ResourcePlanSelectorInput) : outcome Prepared :=
  match match requiredFulfilmentSlots input with Some s => Some s | None => requiredSlots input end with
  | None | Some [] => Ok None
  | Some slots =>
      throw_when (bool_decide (now input = None)) RangeError ;;
      throw_when match maximumCapacityIntervalCount input with
                 | Some n => negb (isSafeInteger n) || (num n <? 1)
                 | None => false
                 end RangeError ;;
      obind (foldO addSlot ∅ slots) (λ slotById,
      obind (foldO addInventory ∅ (inventory input)) (λ inventoryAvailability,
      valid ← validIntervals (occupied input);
      obind (undefined_when (negb valid)) (λ _,
      obind (foldO (inspectCandidate input slotById inventoryAvailability) (∅, ∅) (candidates input))
        (λ '(_, candidatesBySlot),
      let candidatesBySlot := js_sort compareUsable <$> candidatesBySlot in
      obind (undefined_when (existsb (λ slot,
        match candidatesBySlot !! slot_id slot with Some (_ :: _) => false | _ => true end) slots)) (λ _,
      let slotOptionSet := (λ us, jsonStringify (plannerOptionIdentity ∘ candidate <$> us))
                             <$> candidatesBySlot in
      Ok (Some (mkPrepared inventoryAvailability candidatesBySlot slotOptionSet
                  (js_sort compareStrings (slot_id <$> slots)))))))))
  end.

Definition selectCompleteResourcePlan (input : ResourcePlanSelectorInput)
    : outcome CompleteResourcePlan :=
  obind (prepareSearch input) (λ p,
  let s := search (maximumCapacityIntervalCount input) (prepared_availability p)
    (prepared_candidatesBySlot p) (prepared_slotOptionSet p) (prepared_orderedSlotIds p)
    (S (length (prepared_orderedSlotIds p))) 0 [] 0 0 emptyState in
  match best s with
  | None => Ok None
  | Some choice => plan ← completePlan input choice; Ok (Some plan)
  end).
End ResourcePlan.
