(* ===== verification/ResourceSearch.v ===== *)
(** The search of the resource planner (ResourcePlan.v): what its choices are
    ranked by, what the canonical slot selections are, and that the search,
    which shares and restores its state between levels, finds a best feasible
    plan. *)
From S2P Require Import Prelude Text Language LockOrder ResourcePlan.

Module ResourceSearch.
Import ResourcePlan.

(** ** The ranking *)

(** Lists compared element by element. *)
Fixpoint idsCompare (l r : list UsableCandidate) : Z :=
  match l, r with
  | [], [] => 0
  | [], _ => -1
  | _, [] => 1
  | x :: l', y :: r' => js_or (compareUsable x y) (idsCompare l' r')
  end.

(** Fewest candidates, then material, then machine time, then identities. *)
Definition choiceCompare (a b : PlanChoice) : Z :=
  js_or (Z.of_nat (length (choice_candidates a)) - Z.of_nat (length (choice_candidates b)))
  (js_or (choice_requiredMaterial a - choice_requiredMaterial b)
  (js_or (choice_requiredMachineSeconds a - choice_requiredMachineSeconds b)
         (idsCompare (js_sort compareUsable (choice_candidates a))
            (js_sort compareUsable (choice_candidates b))))).

#[export] Instance compareCandidateIds_comparator : Comparator compareCandidateIds.
Proof. unfold compareCandidateIds. apply _. Qed.

#[export] Instance compareUsable_comparator : Comparator compareUsable.
Proof. apply (contramap_comparator candidate), _. Qed.

#[export] Instance idsCompare_comparator : Comparator idsCompare.
Proof.
  split.
  - intros l. induction l as [|x l IH]; intros [|y r]; cbn; try lia. unfold js_or.
    pose proof (cmp_antisym (cmp := compareUsable) x y). pose proof (cmp_antisym (cmp := compareUsable) y x).
    specialize (IH r). repeat case_match; bool_inv; lia.
  - intros l. induction l as [|x l IH]; intros [|y r] [|z t]; cbn; try lia. unfold js_or.
    pose proof (cmp_trans (cmp := compareUsable) x y z). pose proof (cmp_trans (cmp := compareUsable) z x y).
    pose proof (cmp_trans (cmp := compareUsable) y z x).
    pose proof (cmp_antisym (cmp := compareUsable) x z). pose proof (cmp_antisym (cmp := compareUsable) z x).
    pose proof (cmp_antisym (cmp := compareUsable) y z). pose proof (cmp_antisym (cmp := compareUsable) z y).
    pose proof (cmp_antisym (cmp := compareUsable) x y). pose proof (cmp_antisym (cmp := compareUsable) y x).
    specialize (IH r t). repeat case_match; bool_inv; lia.
Qed.

#[export] Instance choiceCompare_comparator : Comparator choiceCompare.
Proof.
  unfold choiceCompare.
  repeat first [apply js_or_comparator
    | apply (contramap_comparator (λ a, js_sort compareUsable (choice_candidates a)) idsCompare), _
    | apply (contramap_comparator (λ a, Z.of_nat (length (choice_candidates a))) Z.sub), _
    | apply sub_asc].
Qed.

Lemma idsBefore_compare l r :
  length l = length r → idsBefore l r = (idsCompare l r <? 0).
Proof.
  revert r. induction l as [|x l IH]; intros [|y r] H; try done. cbn in *. unfold js_or.
  destruct (Z.eqb_spec (compareUsable x y) 0); cbn; [apply IH; lia|done].
Qed.

(** [choiceIsBetter] is the strict part of the ranking. *)
Lemma choiceIsBetter_compare a b : choiceIsBetter a (Some b) = (choiceCompare a b <? 0).
Proof.
  unfold choiceIsBetter, choiceCompare, js_or.
  destruct (Nat.eqb_spec (length (choice_candidates a)) (length (choice_candidates b))) as [Hl|Hl]; cbn [negb].
  - rewrite (proj2 (Z.eqb_eq _ 0)) by lia.
    destruct (Z.eqb_spec (choice_requiredMaterial a) (choice_requiredMaterial b)); cbn [negb].
    + rewrite (proj2 (Z.eqb_eq _ 0)) by lia.
      destruct (Z.eqb_spec (choice_requiredMachineSeconds a) (choice_requiredMachineSeconds b)); cbn [negb].
      * rewrite (proj2 (Z.eqb_eq _ 0)) by lia. apply idsBefore_compare.
        by rewrite !(Permutation_length (js_sort_perm _ _)).
      * rewrite (proj2 (Z.eqb_neq _ 0)) by lia.
        destruct (Z.ltb_spec (choice_requiredMachineSeconds a) (choice_requiredMachineSeconds b));
          symmetry; [apply Z.ltb_lt|apply Z.ltb_ge]; lia.
    + rewrite (proj2 (Z.eqb_neq _ 0)) by lia.
      destruct (Z.ltb_spec (choice_requiredMaterial a) (choice_requiredMaterial b));
        symmetry; [apply Z.ltb_lt|apply Z.ltb_ge]; lia.
  - rewrite (proj2 (Z.eqb_neq _ 0)) by lia.
    destruct (Nat.ltb_spec (length (choice_candidates a)) (length (choice_candidates b)));
      symmetry; [apply Z.ltb_lt|apply Z.ltb_ge]; lia.
Qed.

(** Sorting by a key that only depends on the candidate. *)
Lemma sort_candidates us :
  candidate <$> js_sort compareUsable us = js_sort compareCandidateIds (candidate <$> us).
Proof.
  induction us as [|u us IH]; [done|]. cbn [js_sort foldr fmap list_fmap] in *.
  fold (js_sort compareUsable us) in *. fold (js_sort compareCandidateIds (candidate <$> us)) in *.
  rewrite <-IH. generalize (js_sort compareUsable us). intros l. induction l as [|v l IHl]; [done|].
  cbn [sort_insert fmap list_fmap]. unfold compareUsable at 1. destruct (_ <=? 0); [done|].
  cbn [fmap list_fmap]. f_equal. apply IHl.
Qed.

Lemma idsCompare_candidates l r : candidate <$> l = candidate <$> r → idsCompare l r = 0.
Proof.
  revert r. induction l as [|x l IH]; intros [|y r] H; try done. cbn in *. injection H as H1 H2.
  unfold compareUsable. rewrite H1. unfold js_or. rewrite cmp_refl. cbn. by apply IH.
Qed.

(** The choice a list of picked candidates makes. *)
Definition choice_of (vs : list UsableCandidate) : PlanChoice :=
  mkChoice vs (sum_by requiredMaterial vs) (sum_by usable_machineSeconds vs).

(** What the ranking sees of a pick. *)
Definition figures (u : UsableCandidate) : ResourceCandidateEstimate * Z * Z :=
  (candidate u, requiredMaterial u, usable_machineSeconds u).

(** Choices of the same candidates rank equally, whatever slots they were
    given and in whatever order they were made. *)
Lemma choice_ties vs ws :
  figures <$> vs ≡ₚ figures <$> ws →
  (∀ v w, v ∈ vs → w ∈ ws → plannerOptionIdentity (candidate v) = plannerOptionIdentity (candidate w) →
     candidate v = candidate w) →
  choiceCompare (choice_of vs) (choice_of ws) = 0.
Proof.
  intros Hp Hid. unfold choiceCompare. cbn [choice_of choice_candidates choice_requiredMaterial choice_requiredMachineSeconds].
  assert (sum_by requiredMaterial vs = sum_by requiredMaterial ws) as ->.
  { pose proof (sum_by_proper (λ f : ResourceCandidateEstimate * Z * Z, f.1.2) _ _ Hp) as H. by rewrite !sum_by_fmap in H. }
  assert (sum_by usable_machineSeconds vs = sum_by usable_machineSeconds ws) as ->.
  { pose proof (sum_by_proper (λ f : ResourceCandidateEstimate * Z * Z, f.2) _ _ Hp) as H. by rewrite !sum_by_fmap in H. }
  apply Permutation_length in Hp as Hlen. rewrite !length_fmap in Hlen. rewrite Hlen.
  rewrite !js_or_0. split_and!; try lia. apply idsCompare_candidates. rewrite !sort_candidates.
  assert (candidate <$> vs ≡ₚ candidate <$> ws) as Hc.
  { apply (fmap_Permutation (fst ∘ fst)) in Hp. by rewrite <-!list_fmap_compose in Hp. }
  apply js_sort_unique; [apply _| |done].
  intros c d (v & -> & Hv)%list_elem_of_fmap Hd. rewrite Hc in Hd.
  apply list_elem_of_fmap in Hd as (w & -> & Hw). unfold compareCandidateIds.
  rewrite !js_or_0, !compareStrings_0. intros (_ & _ & He). by apply Hid.
Qed.

(** ** Selections of slots *)

Lemma take_NoDup {A} n (l : list A) : NoDup l → NoDup (take n l).
Proof. rewrite <-(take_drop n l) at 1. by intros (? & _ & _)%NoDup_app. Qed.

Lemma take_elem {A} n (l : list A) x : x ∈ take n l → x ∈ l.
Proof. intros H. rewrite <-(take_drop n l). apply elem_of_app. by left. Qed.

Section groups.
Context (slotOptionSet : gmap jstr jstr).

(** The slots of a list in one option set. *)
Definition inSet (o : jstr) (l : list jstr) : list jstr :=
  filter (λ x, slotOptionSet !! x = Some o) l.

Lemma inSet_cons o x l :
  inSet o (x :: l) = if decide (slotOptionSet !! x = Some o) then x :: inSet o l else inSet o l.
Proof. unfold inSet. by rewrite filter_cons. Qed.

Lemma inSet_app o l k : inSet o (l ++ k) = inSet o l ++ inSet o k.
Proof. apply filter_app. Qed.

Lemma inSet_all o l : (∀ x, x ∈ l → slotOptionSet !! x = Some o) → inSet o l = l.
Proof.
  induction l as [|x l IH]; intros H; [done|]. rewrite inSet_cons, decide_True by (apply H; by left).
  f_equal. apply IH. intros y Hy. apply H. by right.
Qed.

Lemma elem_of_inSet o x l : x ∈ inSet o l ↔ slotOptionSet !! x = Some o ∧ x ∈ l.
Proof. unfold inSet. by rewrite list_elem_of_filter. Qed.

Lemma inSet_perm o l k : l ≡ₚ k → inSet o l ≡ₚ inSet o k.
Proof. intros H. unfold inSet. by rewrite H. Qed.

Lemma inSet_NoDup o l : NoDup l → NoDup (inSet o l).
Proof. apply NoDup_filter. Qed.

(** What the entries of [slotGroups] are: the option sets of the slots seen,
    each with its slots. *)
Definition groups_of (l : list jstr) (groups : list (jstr * list jstr)) : Prop :=
  NoDup groups.*1
  ∧ (∀ o g, (o, g) ∈ groups → g = inSet o l ∧ g ≠ [])
  ∧ ∀ x, x ∈ l → ∃ o, slotOptionSet !! x = Some o ∧ o ∈ groups.*1.

Lemma addToGroup_keys o x groups :
  (addToGroup o x groups).*1 = if decide (o ∈ groups.*1) then groups.*1 else groups.*1 ++ [o].
Proof.
  induction groups as [|[o' g] groups IH]; [done|]. cbn [addToGroup]. unfold str_eqb.
  case_bool_decide as He.
  - subst. rewrite decide_True; [done|by left].
  - cbn [fmap list_fmap fst]. rewrite IH. repeat case_decide; set_solver.
Qed.

Lemma addToGroup_elem o x groups o' g :
  NoDup groups.*1 →
  (o', g) ∈ addToGroup o x groups ↔
    (o' ≠ o ∧ (o', g) ∈ groups)
    ∨ (o' = o ∧ ((∃ g', (o, g') ∈ groups ∧ g = g' ++ [x]) ∨ (o ∉ groups.*1 ∧ g = [x]))).
Proof.
  induction groups as [|[p h] groups IH]; intros HN; cbn [addToGroup].
  - rewrite list_elem_of_singleton. cbn. split.
    + intros [= -> ->]. right. split; [done|]. right. split; [apply not_elem_of_nil|done].
    + intros [[_ []%not_elem_of_nil]|[-> [(g' & []%not_elem_of_nil & _)|[_ ->]]]]; done.
  - cbn in HN. apply NoDup_cons in HN as [Hp HN]. unfold str_eqb. case_bool_decide as He.
    + subst p. rewrite elem_of_cons. split.
      * intros [[= -> ->]|Hin].
        -- right. split; [done|]. left. exists h. split; [by left|done].
        -- left. split; [|by right]. intros ->. apply Hp. by apply (list_elem_of_fmap_2 fst) in Hin.
      * intros [[Hne Hin]|[-> [(g' & Hin & ->)|[Hn _]]]].
        -- apply elem_of_cons in Hin as [[= ? ?]|Hin]; [congruence|by right].
        -- apply elem_of_cons in Hin as [[= ->]|Hin]; [by left|].
           exfalso. apply Hp. by apply (list_elem_of_fmap_2 fst) in Hin.
        -- exfalso. apply Hn. by left.
    + rewrite elem_of_cons, IH by done. cbn [fmap list_fmap fst]. split.
      * intros [[= -> ->]|[[Hne Hin]|[-> [(g' & Hin & ->)|[Hn ->]]]]].
        -- left. split; [done|by left].
        -- left. split; [done|by right].
        -- right. split; [done|]. left. exists g'. split; [by right|done].
        -- right. split; [done|]. right. split; [|done]. by apply not_elem_of_cons.
      * intros [[Hne Hin]|[-> [(g' & Hin & ->)|[Hn ->]]]].
        -- apply elem_of_cons in Hin as [[= -> ->]|Hin]; [by left|by right; left].
        -- apply elem_of_cons in Hin as [[= -> ->]|Hin]; [done|]. right. right. split; [done|]. left. by exists g'.
        -- right. right. split; [done|]. right. split; [|done]. by apply not_elem_of_cons in Hn as [_ ?].
Qed.

Lemma groupSlots_spec l done groups r :
  groups_of done groups → groupSlots slotOptionSet l groups = Some r → groups_of (done ++ l) r.
Proof.
  revert done groups. induction l as [|x l IH]; intros done groups Hg H; cbn [groupSlots] in H.
  - injection H as <-. by rewrite (right_id_L [] (++)).
  - destruct (slotOptionSet !! x) as [o|] eqn:Hx; [|discriminate H].
    rewrite cons_middle, app_assoc. apply (IH (done ++ [x])) in H; [exact H|].
    destruct Hg as (HN & Hel & Hcov). split_and!.
    + rewrite addToGroup_keys. case_decide; [done|]. apply NoDup_app. split_and!; [done| |apply NoDup_singleton].
      by intros y Hy ->%list_elem_of_singleton.
    + intros o' g. rewrite addToGroup_elem by done. rewrite inSet_app, inSet_cons.
      change (inSet o' []) with (@nil jstr).
      intros [[Hne Hin]|[-> [(g' & Hin & ->)|[Hn ->]]]].
      * rewrite decide_False by congruence. rewrite (right_id_L [] (++)). by apply Hel.
      * rewrite decide_True by done. destruct (Hel _ _ Hin) as [-> _]. split; [done|by destruct (inSet _ _)].
      * rewrite decide_True by done. split; [|done].
        assert (inSet o done = []) as ->; [|done]. apply elem_of_nil_inv. intros y [Hy Hin]%elem_of_inSet.
        apply Hn. destruct (Hcov y Hin) as (o' & Hy' & Ho'). congruence.
    + intros y [Hy| ->%list_elem_of_singleton]%elem_of_app; rewrite addToGroup_keys.
      * destruct (Hcov y Hy) as (o' & ? & ?). exists o'. split; [done|]. case_decide; set_solver.
      * exists o. split; [done|]. case_decide; set_solver.
Qed.

Lemma groupSlots_Some l groups :
  (∀ x, x ∈ l → is_Some (slotOptionSet !! x)) → is_Some (groupSlots slotOptionSet l groups).
Proof.
  revert groups. induction l as [|x l IH]; intros groups H; cbn [groupSlots]; [by eexists|].
  destruct (H x ltac:(by left)) as [o ->]. apply IH. intros y Hy. apply H. by right.
Qed.

(** *** The selections of one candidate *)

Section selections.
Context (requiredSlotId requiredOptionSet : jstr).

Record group_wf (g : SlotGroup) : Prop := {
  gw_set : ∀ y, y ∈ group_slotIds g → slotOptionSet !! y = Some (optionSet g);
  gw_NoDup : NoDup (group_slotIds g);
  gw_required : optionSet g = requiredOptionSet → requiredSlotId ∈ group_slotIds g ∧ minimum g = 1%nat;
  gw_minimum : optionSet g ≠ requiredOptionSet → minimum g = 0%nat;
}.

Notation canon := (canonicalSlotIds requiredSlotId requiredOptionSet).

(** The slots taken from each group, [counts] of them. *)
Definition picked (groups : list SlotGroup) (counts : list nat) : list jstr :=
  concat (zip_with canon groups counts).

Definition counts_wf (groups : list SlotGroup) (counts : list nat) : Prop :=
  Forall2 (λ g n, (minimum g ≤ n ≤ length (group_slotIds g))%nat) groups counts.

Lemma canon_spec g n :
  group_wf g → (minimum g ≤ n ≤ length (group_slotIds g))%nat →
  NoDup (canon g n) ∧ (∀ y, y ∈ canon g n → y ∈ group_slotIds g) ∧ length (canon g n) = n
  ∧ (optionSet g = requiredOptionSet → requiredSlotId ∈ canon g n).
Proof.
  intros Hg Hn. unfold canonicalSlotIds, str_eqb. case_bool_decide as Ho.
  - destruct (gw_required g Hg Ho) as [Hr Hmin].
    set (rest := List.filter _ _).
    assert (NoDup (requiredSlotId :: rest)) as HN.
    { apply NoDup_cons. split.
      - intros [_ Hf]%list_elem_of_In%List.filter_In. by rewrite bool_decide_eq_true_2 in Hf.
      - apply NoDup_ListNoDup, List.NoDup_filter, NoDup_ListNoDup, gw_NoDup, Hg. }
    assert (requiredSlotId :: rest ≡ₚ group_slotIds g) as Hperm.
    { apply NoDup_Permutation; [done|by apply gw_NoDup|]. intros y. rewrite elem_of_cons. subst rest.
      rewrite list_elem_of_In, List.filter_In, <-list_elem_of_In, negb_true_iff, bool_decide_eq_false.
      destruct (decide (y = requiredSlotId)) as [->|]; naive_solver. }
    apply Permutation_length in Hperm as Hlen. cbn [length] in Hlen.
    assert (requiredSlotId :: take (n - 1) rest = take n (requiredSlotId :: rest)) as ->.
    { destruct n as [|n]; [lia|]. cbn. by rewrite Nat.sub_0_r. }
    split_and!.
    + by apply take_NoDup.
    + intros y Hy. rewrite <-Hperm. by eapply take_elem.
    + rewrite length_take. cbn [length]. lia.
    + intros _. destruct n as [|n]; [lia|]. by left.
  - split_and!; [by apply take_NoDup, gw_NoDup| |rewrite length_take; lia|done].
    intros y Hy. by eapply take_elem.
Qed.

Lemma canon_set g n y :
  group_wf g → (minimum g ≤ n ≤ length (group_slotIds g))%nat → y ∈ canon g n →
  slotOptionSet !! y = Some (optionSet g).
Proof. intros Hg Hn Hy. apply (gw_set g Hg). by apply (canon_spec g n Hg Hn). Qed.

Lemma picked_set groups counts y :
  Forall group_wf groups → counts_wf groups counts → y ∈ picked groups counts →
  ∃ g, g ∈ groups ∧ y ∈ group_slotIds g ∧ slotOptionSet !! y = Some (optionSet g).
Proof.
  intros HF Hc. revert HF. induction Hc as [|g n groups counts Hn Hc IH]; intros HF Hy.
  - by apply not_elem_of_nil in Hy.
  - apply Forall_cons in HF as [Hg HF]. unfold picked in Hy. cbn in Hy. apply elem_of_app in Hy as [Hy|Hy].
    + exists g. split_and!; [by left|by apply (canon_spec g n Hg Hn)|by eapply canon_set].
    + destruct (IH HF Hy) as (g' & ? & ?). exists g'. split; [by right|done].
Qed.

Lemma picked_spec groups counts :
  Forall group_wf groups → NoDup (optionSet <$> groups) → counts_wf groups counts →
  NoDup (picked groups counts) ∧ length (picked groups counts) = list_sum counts
  ∧ ∀ o, length (inSet o (picked groups counts)) =
      list_sum (zip_with (λ g n, if decide (optionSet g = o) then n else 0%nat) groups counts).
Proof.
  intros HF HN Hc. revert HF HN. induction Hc as [|g n groups counts Hn Hc IH]; intros HF HN.
  { split_and!; [constructor|done|done]. }
  apply Forall_cons in HF as [Hg HF]. cbn in HN. apply NoDup_cons in HN as [Hgn HN].
  destruct (IH HF HN) as (HN' & Hlen & Hset). destruct (canon_spec g n Hg Hn) as (HNc & Hsub & Hlc & _).
  unfold picked in *. cbn [zip_with concat list_sum foldr]. split_and!.
  - apply NoDup_app. split_and!; [done| |done]. intros y Hy Hy'.
    destruct (picked_set groups counts y HF Hc Hy') as (g' & Hg' & _ & Ho).
    rewrite (canon_set g n y Hg Hn Hy) in Ho. injection Ho as Ho. apply Hgn. rewrite Ho.
    by apply (list_elem_of_fmap_2 optionSet).
  - by rewrite length_app, Hlc, Hlen.
  - intros o. rewrite inSet_app, length_app, Hset. fold (list_sum (zip_with (λ g n, if decide (optionSet g = o) then n else 0%nat) groups counts)).
    f_equal. case_decide as Ho.
    + assert (inSet o (canon g n) = canon g n) as ->; [|done].
      apply inSet_all. intros y Hy. subst o. by eapply canon_set.
    + assert (inSet o (canon g n) = []) as ->; [|done]. apply elem_of_nil_inv.
      intros y [Hy Hin]%elem_of_inSet. rewrite (canon_set g n y Hg Hn Hin) in Hy. congruence.
Qed.

Lemma choose_spec groups remaining selected C :
  C ∈ choose requiredSlotId requiredOptionSet groups remaining selected ↔
  ∃ counts, counts_wf groups counts ∧ list_sum counts = remaining
    ∧ C = js_sort compareStrings (selected ++ picked groups counts).
Proof.
  revert remaining selected. induction groups as [|g groups IH]; intros remaining selected; cbn [choose].
  - destruct (Nat.eqb_spec remaining 0) as [->|Hr].
    + rewrite list_elem_of_singleton. split.
      * intros ->. exists []. split_and!; [constructor|done|]. cbn. by rewrite (right_id_L [] (++)).
      * intros (counts & Hc & _ & ->). inversion Hc. cbn. by rewrite (right_id_L [] (++)).
    + split; [by intros []%not_elem_of_nil|]. intros (counts & Hc & Hs & _). inversion Hc; subst. done.
  - rewrite list_elem_of_bind. split.
    + intros (n & HC & Hn%elem_of_seq).
      destruct (Nat.ltb_spec (list_sum (length ∘ group_slotIds <$> groups)) (remaining - n)); [by apply not_elem_of_nil in HC|].
      apply IH in HC as (counts & Hc & Hs & ->). exists (n :: counts). split_and!.
      * constructor; [lia|done].
      * cbn. fold (list_sum counts). lia.
      * unfold picked. cbn. by rewrite app_assoc.
    + intros (counts & Hc & Hs & ->). inversion Hc as [|? n ? counts' Hn Hc']; subst.
      exists n. cbn [list_sum foldr]. fold (list_sum counts'). split.
      * assert (list_sum counts' ≤ list_sum (length ∘ group_slotIds <$> groups))%nat as Hle.
        { clear -Hc'. induction Hc' as [|g' m groups counts Hm _ IH]; [done|].
          apply Nat.add_le_mono; [apply Hm|exact IH]. }
        rewrite (proj2 (Nat.ltb_ge _ _)) by lia. apply IH. exists counts'. split_and!; [done|lia|].
        unfold picked. cbn. by rewrite app_assoc.
      * apply elem_of_seq. lia.
Qed.
End selections.

Lemma partition_length os l :
  NoDup os → (∀ x, x ∈ l → ∃ o, slotOptionSet !! x = Some o ∧ o ∈ os) →
  list_sum ((λ o, length (inSet o l)) <$> os) = length l.
Proof.
  intros HN. induction l as [|x l IH]; intros Hc.
  - clear. induction os as [|o os IH]; [done|]. cbn. done.
  - cbn [length]. rewrite <-IH by (intros; apply Hc; by right).
    destruct (Hc x ltac:(by left)) as (o & Ho & Hin). clear IH Hc.
    induction HN as [|p os Hp HN IH]; [by apply not_elem_of_nil in Hin|].
    cbn [fmap list_fmap list_sum foldr]. fold (list_sum ((λ o, length (inSet o (x :: l))) <$> os)).
    fold (list_sum ((λ o, length (inSet o l)) <$> os)). rewrite inSet_cons.
    apply elem_of_cons in Hin as [->|Hin].
    + rewrite decide_True by done. cbn [length].
      assert ((λ o, length (inSet o (x :: l))) <$> os = (λ o, length (inSet o l)) <$> os) as ->; [|done].
      apply list_fmap_ext. intros i q Hq. rewrite inSet_cons, decide_False; [done|].
      intros Hq'. apply Hp. rewrite Ho in Hq'. injection Hq' as ->. by eapply list_elem_of_lookup_2.
    + rewrite IH by done. rewrite decide_False; [lia|]. rewrite Ho. intros [= ->]. done.
Qed.

Lemma inSet_le o l k : NoDup l → (∀ x, x ∈ l → x ∈ k) → (length (inSet o l) ≤ length (inSet o k))%nat.
Proof.
  intros HN Hsub. apply submseteq_length, NoDup_submseteq; [by apply inSet_NoDup|].
  intros x [Hx Hin]%elem_of_inSet. apply elem_of_inSet. auto.
Qed.

Lemma pick_sum o groups (f : jstr → nat) :
  NoDup (optionSet <$> groups) →
  list_sum (zip_with (λ g n, if decide (optionSet g = o) then n else 0%nat) groups
    ((λ g, f (optionSet g)) <$> groups)) = if decide (o ∈ optionSet <$> groups) then f o else 0%nat.
Proof.
  induction groups as [|g gs IH]; intros HN; [done|]. apply NoDup_cons in HN as [Hg HN].
  cbn [fmap list_fmap zip_with list_sum foldr]. fold (list_sum (zip_with
    (λ g n, if decide (optionSet g = o) then n else 0%nat) gs ((λ g, f (optionSet g)) <$> gs))).
  rewrite (IH HN). destruct (decide (optionSet g = o)) as [<-|Hne].
  - rewrite (decide_False (P := optionSet g ∈ _)) by done.
    rewrite decide_True by by left. lia.
  - cbn [Nat.add]. destruct (decide (o ∈ optionSet <$> gs)) as [Hin|Hin].
    + by rewrite decide_True by by right.
    + rewrite decide_False; [done|]. intros [?|?]%elem_of_cons; congruence.
Qed.

(** The groups [canonicalSlotSelections] chooses from. *)
Lemma canonicalGroups_wf required compatible slotGroups ro :
  NoDup compatible → required ∈ compatible → slotOptionSet !! required = Some ro →
  groups_of compatible slotGroups →
  let groups := js_sort compareGroups
    ((λ '(o, slotIds), mkGroup o (js_sort compareStrings slotIds)
        (if str_eqb o ro then 1 else 0)%nat) <$> slotGroups) in
  Forall (group_wf required ro) groups ∧ NoDup (optionSet <$> groups)
  ∧ (∀ g, g ∈ groups → group_slotIds g ≡ₚ inSet (optionSet g) compatible)
  ∧ ∀ x, x ∈ compatible → ∃ o, slotOptionSet !! x = Some o ∧ o ∈ optionSet <$> groups.
Proof.
  intros HN Hreq Hro (HNg & Hel & Hcov). cbv zeta.
  set (mk := λ '(o, slotIds), mkGroup o (js_sort compareStrings slotIds) (if str_eqb o ro then 1 else 0)%nat).
  assert (js_sort compareGroups (mk <$> slotGroups) ≡ₚ mk <$> slotGroups) as Hp by apply js_sort_perm.
  assert (∀ g, g ∈ js_sort compareGroups (mk <$> slotGroups) →
    ∃ o, g = mk (o, inSet o compatible)) as Hg.
  { intros g Hg. rewrite Hp in Hg. apply list_elem_of_fmap in Hg as ([o l] & -> & Hin).
    exists o. by destruct (Hel o l Hin) as [-> _]. }
  split_and!.
  - apply Forall_forall. intros g Hin. destruct (Hg g Hin) as (o & ->). unfold mk, str_eqb. split; cbn.
    + intros y Hy. apply elem_of_js_sort in Hy. by apply elem_of_inSet in Hy as [? _].
    + rewrite js_sort_perm. by apply inSet_NoDup.
    + intros ->. rewrite bool_decide_eq_true_2 by done. split; [|done].
      apply elem_of_js_sort, elem_of_inSet. done.
    + intros Hne. by rewrite bool_decide_eq_false_2.
  - rewrite Hp, <-list_fmap_compose.
    assert ((optionSet ∘ mk) <$> slotGroups = slotGroups.*1) as ->; [|done].
    apply list_fmap_ext. by intros i [o l] _.
  - intros g Hin. destruct (Hg g Hin) as (o & ->). cbn. apply js_sort_perm.
  - intros x Hx. destruct (Hcov x Hx) as (o & Ho & Hin). exists o. split; [done|].
    rewrite Hp. apply list_elem_of_fmap in Hin as ([o' l] & -> & Hin).
    apply list_elem_of_fmap. exists (mk (o', l)). split; [done|]. by apply list_elem_of_fmap_2.
Qed.

(** The selections, both ways: every one takes [quantity] of the compatible
    slots with the required one among them, and every such set of slots is
    represented by a selection with as many slots of each option set. *)
Lemma canonicalSlotSelections_spec required compatible quantity :
  NoDup compatible → (∀ x, x ∈ compatible → is_Some (slotOptionSet !! x)) →
  (∀ C, C ∈ canonicalSlotSelections required compatible quantity slotOptionSet →
     NoDup C ∧ (∀ y, y ∈ C → y ∈ compatible) ∧ required ∈ C ∧ length C = quantity)
  ∧ ∀ S, NoDup S → (∀ y, y ∈ S → y ∈ compatible) → required ∈ S → length S = quantity →
     ∃ C, C ∈ canonicalSlotSelections required compatible quantity slotOptionSet
       ∧ ∀ o, length (inSet o C) = length (inSet o S).
Proof.
  intros HN Hsome. unfold canonicalSlotSelections.
  case_bool_decide as Hreq; cbn [negb].
  2:{ split; [by intros C ?%not_elem_of_nil|]. intros S _ Hsub Hr _. by destruct (Hreq (Hsub _ Hr)). }
  destruct (groupSlots_Some compatible [] Hsome) as [slotGroups Hsg]. rewrite Hsg.
  destruct (Hsome required Hreq) as [ro Hro]. rewrite Hro.
  assert (groups_of compatible slotGroups) as Hgs.
  { apply (groupSlots_spec compatible [] [] slotGroups); [|done].
    split_and!; [constructor|by intros ? ? ?%not_elem_of_nil|by intros ? ?%not_elem_of_nil]. }
  destruct (canonicalGroups_wf required compatible slotGroups ro HN Hreq Hro Hgs) as (Hwf & HNg & Hslots & Hcov).
  cbv zeta in *. set (groups := js_sort compareGroups _) in *. split.
  - intros C (counts & Hc & <- & ->)%choose_spec. cbn [app].
    destruct (picked_spec required ro groups counts Hwf HNg Hc) as (HNp & Hlen & Hset). rewrite js_sort_perm. split_and!.
    + done.
    + intros y Hy. rewrite js_sort_perm in Hy. destruct (picked_set _ _ _ _ _ Hwf Hc Hy) as (g & Hg & Hyg & _).
      rewrite (Hslots g Hg) in Hyg. by apply elem_of_inSet in Hyg as [_ ?].
    + destruct (Hcov required Hreq) as (o & Ho & Hin).
      assert (o = ro) as -> by congruence. apply list_elem_of_fmap in Hin as (g & Hgo & Hg).
      apply list_elem_of_lookup in Hg as [i Hi]. destruct (Forall2_lookup_l _ _ _ _ _ Hc Hi) as (n & Hni & Hn).
      rewrite Forall_forall in Hwf. pose proof (Hwf g ltac:(by eapply list_elem_of_lookup_2)) as Hgw.
      destruct (canon_spec required ro g n Hgw Hn) as (_ & _ & _ & Hrc).
      unfold picked. apply list_elem_of_In, in_concat. exists (canonicalSlotIds required ro g n).
      rewrite <-!list_elem_of_In. split; [|by apply Hrc].
      apply (list_elem_of_lookup_2 _ i). rewrite lookup_zip_with, Hi. cbn. by rewrite Hni.
    + done.
  - intros S HNS Hsub Hr Hlen.
    set (counts := (λ g, length (inSet (optionSet g) S)) <$> groups).
    assert (counts_wf groups counts) as Hc.
    { unfold counts_wf, counts. apply Forall2_fmap_r, Forall_Forall2_diag, Forall_forall. intros g Hg. split.
      - rewrite Forall_forall in Hwf. pose proof (Hwf g Hg) as Hgw.
        destruct (decide (optionSet g = ro)) as [He|He].
        + destruct (gw_required _ _ _ Hgw He) as [_ ->]. rewrite He.
          assert (required ∈ inSet ro S) as Hin by by apply elem_of_inSet.
          destruct (inSet ro S); [by apply not_elem_of_nil in Hin|cbn; lia].
        + rewrite (gw_minimum _ _ _ Hgw He). lia.
      - rewrite (Permutation_length (Hslots g Hg)). by apply inSet_le. }
    assert (list_sum counts = quantity) as Hsum.
    { subst counts. rewrite <-Hlen, <-(partition_length (optionSet <$> groups) S HNg).
      - by rewrite <-list_fmap_compose.
      - intros x Hx. apply Hcov. auto. }
    exists (js_sort compareStrings (picked required ro groups counts)). split.
    + apply choose_spec. by exists counts.
    + intros o. rewrite (Permutation_length (inSet_perm o _ _ (js_sort_perm compareStrings _))).
      destruct (picked_spec required ro groups counts Hwf HNg Hc) as (_ & _ & ->). subst counts.
      rewrite (pick_sum _ _ (λ o, length (inSet o S)) HNg). case_decide as Hin; [done|].
      assert (inSet o S = []) as ->; [|done]. apply elem_of_nil_inv. intros y [Hy Hyin]%elem_of_inSet.
      apply Hin. destruct (Hcov y (Hsub y Hyin)) as (o' & ? & ?). congruence.
Qed.

(** *** Exchanging slots of one option set *)

Definition swap (a b y : jstr) : jstr := if decide (y = a) then b else if decide (y = b) then a else y.

Lemma swap_set a b y :
  slotOptionSet !! a = slotOptionSet !! b → slotOptionSet !! swap a b y = slotOptionSet !! y.
Proof. intros H. unfold swap. repeat case_decide; congruence. Qed.

#[local] Instance swap_inj a b : Inj (=) (=) (swap a b).
Proof. intros x y. unfold swap. repeat case_decide; congruence. Qed.

Lemma inSet_fmap o (f : jstr → jstr) l :
  (∀ y, slotOptionSet !! f y = slotOptionSet !! y) → inSet o (f <$> l) = f <$> inSet o l.
Proof.
  intros Hf. induction l as [|x l IH]; [done|]. rewrite fmap_cons, !inSet_cons, Hf, IH. by case_decide.
Qed.

(** Two sets of slots, one within the other's option sets. *)
Lemma same_counts_incl o S C x :
  NoDup S → (∀ y, y ∈ inSet o S → y ∈ C) →
  length (inSet o S) = length (inSet o C) → x ∈ inSet o C → x ∈ inSet o S.
Proof.
  intros HN Hsub Hlen Hx. assert (inSet o S ⊆+ inSet o C) as Hle.
  { apply NoDup_submseteq; [by apply inSet_NoDup|]. intros y Hy. apply elem_of_inSet.
    split; [by apply elem_of_inSet in Hy as [? _]|auto]. }
  apply submseteq_length_Permutation in Hle; [|lia]. by rewrite Hle.
Qed.

(** Sets of slots with as many slots of each option set are related by a
    renaming of the slots within their option sets. *)
Lemma exchange (U S C : list jstr) :
  NoDup S → NoDup C → (∀ y, y ∈ S → y ∈ U) → (∀ y, y ∈ C → y ∈ U) →
  (∀ y, y ∈ U → is_Some (slotOptionSet !! y)) →
  (∀ o, length (inSet o S) = length (inSet o C)) →
  ∃ f : jstr → jstr, Inj (=) (=) f ∧ (∀ y, y ∈ U → f y ∈ U)
    ∧ (∀ y, slotOptionSet !! f y = slotOptionSet !! y) ∧ f <$> S ≡ₚ C.
Proof.
  intros HS HC HSU HCU Hsome.
  remember (size (list_to_set S ∖ list_to_set C : gset jstr)) as n eqn:Hn.
  revert S HS HSU Hn. induction (lt_wf n) as [n _ IH]. intros S HS HSU Hn Hcount.
  destruct (decide (Exists (.∉ C) S)) as [Ha|Ha].
  - apply Exists_exists in Ha as (a & Ha & HaC). destruct (Hsome a (HSU a Ha)) as [o Ho].
    destruct (decide (Exists (.∉ S) (inSet o C))) as [Hb|Hb].
    + apply Exists_exists in Hb as (b & [Hbo HbC]%elem_of_inSet & HbS).
      assert (∀ y, slotOptionSet !! swap a b y = slotOptionSet !! y) as Hswap by (intros; apply swap_set; congruence).
      assert (∀ y, y ∈ S → (y = a ∧ swap a b y = b) ∨ (y ≠ a ∧ swap a b y = y)) as Hcase.
      { intros y Hy. unfold swap. destruct (decide (y = a)); [by left|]. right. rewrite decide_False by congruence. done. }
      destruct (IH (size (list_to_set (swap a b <$> S) ∖ list_to_set C : gset jstr))) with (S := swap a b <$> S)
        as (f & Hinj & HU & Hset & Hperm); [|by apply (NoDup_fmap_2 (swap a b))| |done| |].
      * subst n. apply subset_size. split.
        -- intros x. rewrite !elem_of_difference, !elem_of_list_to_set.
           intros [(y & -> & Hy)%list_elem_of_fmap Hx]. destruct (Hcase y Hy) as [[-> He]|[_ He]]; rewrite He in *; done.
        -- intros Hle. assert (a ∈ (list_to_set (swap a b <$> S) ∖ list_to_set C : gset jstr)) as Hin by (apply Hle; set_solver).
           rewrite elem_of_difference, !elem_of_list_to_set in Hin. destruct Hin as [(y & He & Hy)%list_elem_of_fmap _].
           destruct (Hcase y Hy) as [[-> Hs]|[Hne Hs]]; congruence.
      * intros x (y & -> & Hy)%list_elem_of_fmap. destruct (Hcase y Hy) as [[_ ->]|[_ ->]]; auto.
      * intros p. rewrite inSet_fmap by done. by rewrite length_fmap.
      * exists (f ∘ swap a b). split_and!.
        -- intros x y Hxy. by apply (inj f), (inj (swap a b)) in Hxy.
        -- intros y Hy. apply HU. unfold swap. repeat case_decide; auto.
        -- intros y. cbn. by rewrite Hset.
        -- by rewrite list_fmap_compose.
    + exfalso. apply HaC. assert (a ∈ inSet o C) as Hin; [|by apply elem_of_inSet in Hin as [_ ?]].
      apply (same_counts_incl o C S a HC); [|done|by apply elem_of_inSet].
      intros y Hy. apply dec_stable. intros Hny. apply Hb, Exists_exists. by exists y.
  - exists (λ y, y). split_and!; try done. { by intros x y. }
    rewrite list_fmap_id. apply NoDup_Permutation; [done..|]. intros x.
    assert (∀ y, y ∈ S → y ∈ C) as Hsub.
    { intros y Hy. apply dec_stable. intros Hn'. apply Ha, Exists_exists. by exists y. }
    split; [auto|]. intros Hx. destruct (Hsome x (HCU x Hx)) as [o Ho].
    assert (x ∈ inSet o S) as Hin; [|by apply elem_of_inSet in Hin as [_ ?]].
    apply (same_counts_incl o S C); [done| |done|by apply elem_of_inSet].
    intros y [_ Hy]%elem_of_inSet. auto.
Qed.
End groups.

(** ** Feasible plans *)

Section feasible.
Context (maximum : option jsnumber) (availability : gmap jstr Z).
Context (usable : list UsableCandidate) (ordered : list jstr).

(** A candidate with slots picked for it, as many as it covers. *)
Definition pick_of (u v : UsableCandidate) : Prop :=
  v = withSlots u (usable_slotIds v) ∧ NoDup (usable_slotIds v)
  ∧ (∀ y, y ∈ usable_slotIds v → y ∈ usable_slotIds u)
  ∧ length (usable_slotIds v) = coverageQuantity u.

Definition picks (v : UsableCandidate) : Prop := ∃ u, u ∈ usable ∧ pick_of u v.

Notation F := (ResourceCandidateEstimate * Z * Z)%type.

(** Candidates whose intervals do not overlap. *)
Definition apart (f g : F) : Prop :=
  ∀ i j, i ∈ intervals f.1.1 → j ∈ intervals g.1.1 → intervalOverlaps i j = false.

Definition materialFrom (k : jstr) (fs : list F) : Z :=
  sum_by (λ f : F, if decide (inventoryId f.1.1 = k) then f.1.2 else 0) fs.

(** What a plan needs of its candidates, whatever slots they get: no persisted
    candidate twice, no overlapping capacity, no more material than the
    inventory has, and no more intervals than allowed. *)
Record resources_ok (fs : list F) : Prop := {
  ro_ids : NoDup (id ∘ fst ∘ fst <$> fs);
  ro_apart : StronglySorted apart fs;
  ro_inventory : ∀ f a, f ∈ fs → availability !! inventoryId f.1.1 = Some a →
    materialFrom (inventoryId f.1.1) fs ≤ a;
  ro_count : ∀ n, maximum = Some n → Z.of_nat (length (fs ≫= intervals ∘ fst ∘ fst)) ≤ num n;
}.

Definition feasible_part (vs : list UsableCandidate) : Prop :=
  Forall picks vs ∧ NoDup (vs ≫= usable_slotIds) ∧ resources_ok (figures <$> vs).

(** A complete plan gives every slot to one candidate. *)
Definition feasible (vs : list UsableCandidate) : Prop :=
  feasible_part vs ∧ vs ≫= usable_slotIds ≡ₚ ordered.

Lemma intervalOverlaps_sym i j : intervalOverlaps i j = intervalOverlaps j i.
Proof.
  unfold intervalOverlaps, str_eqb.
  rewrite (bool_decide_ext _ (interval_machineId j = interval_machineId i)) by done.
  by destruct (bool_decide _), (date_lt (startsAt i) (endsAt j)), (date_lt (startsAt j) (endsAt i)).
Qed.

Lemma apart_sym f g : apart f g → apart g f.
Proof. intros H i j Hi Hj. rewrite intervalOverlaps_sym. by apply H. Qed.

Lemma sorted_sym_perm {A} (R : A → A → Prop) l k :
  (∀ x y, R x y → R y x) → l ≡ₚ k → StronglySorted R l → StronglySorted R k.
Proof.
  intros HR. induction 1 as [|x l k Hp IH|x y l|l k m _ IH1 _ IH2]; [done|..|auto].
  - intros H. inversion H as [|? ? Hl Hx]; subst. constructor; [auto|]. by rewrite <-Hp.
  - intros H. inversion H as [|? ? Hl Hx]; subst. inversion Hl as [|? ? Hl' Hy]; subst.
    apply Forall_cons in Hx as [Hxy Hx]. repeat constructor; auto.
Qed.

Lemma resources_perm fs gs : fs ≡ₚ gs → resources_ok fs → resources_ok gs.
Proof.
  intros Hp [Hi Ha Hv Hc]. split.
  - by rewrite <-Hp.
  - eapply sorted_sym_perm; [apply apart_sym|done|done].
  - intros f a Hf Hav. unfold materialFrom. rewrite <-Hp. apply Hv; [by rewrite Hp|done].
  - intros n Hn. rewrite <-Hp. auto.
Qed.

Lemma materialFrom_app k fs gs : materialFrom k (fs ++ gs) = materialFrom k fs + materialFrom k gs.
Proof. apply sum_by_app. Qed.

Lemma materialFrom_one k f : materialFrom k [f] = if decide (inventoryId f.1.1 = k) then f.1.2 else 0.
Proof. unfold materialFrom. rewrite sum_by_cons, sum_by_nil. lia. Qed.

Lemma materialFrom_nonneg k fs : (∀ f, f ∈ fs → 0 ≤ f.1.2) → 0 ≤ materialFrom k fs.
Proof. intros H. apply sum_by_nonneg. intros f Hf. case_decide; [auto|lia]. Qed.

Lemma sorted_app_l {A} (R : A → A → Prop) l k : StronglySorted R (l ++ k) → StronglySorted R l.
Proof.
  induction l as [|x l IH]; [constructor|]. cbn. inversion 1 as [|? ? Hl Hx]; subst.
  constructor; [auto|]. by apply Forall_app in Hx as [? _].
Qed.

Lemma sorted_snoc {A} (R : A → A → Prop) l x :
  StronglySorted R (l ++ [x]) ↔ StronglySorted R l ∧ Forall (λ y, R y x) l.
Proof.
  induction l as [|y l IH]; cbn.
  - split; [intros; split; constructor|repeat constructor].
  - split.
    + inversion 1 as [|? ? Hl Hy]; subst. apply IH in Hl as [Hl Hx].
      apply Forall_app in Hy as [Hy [Hyx _]%Forall_cons]. split; by constructor.
    + intros [H HF]. inversion H as [|? ? Hl Hy]; subst. apply Forall_cons in HF as [Hyx HF].
      constructor; [by apply IH|]. apply Forall_app. split; [done|by constructor].
Qed.

Lemma resources_app_l fs gs : (∀ g, g ∈ gs → 0 ≤ g.1.2) → resources_ok (fs ++ gs) → resources_ok fs.
Proof.
  intros Hpos [Hi Ha Hv Hc]. split.
  - rewrite fmap_app in Hi. by apply NoDup_app in Hi as (? & _ & _).
  - by eapply sorted_app_l.
  - intros f a Hf Hav. pose proof (Hv f a ltac:(by apply elem_of_app; left) Hav) as H.
    rewrite materialFrom_app in H. pose proof (materialFrom_nonneg (inventoryId f.1.1) gs Hpos). lia.
  - intros n Hn. specialize (Hc n Hn). rewrite bind_app, length_app in Hc. lia.
Qed.

(** ** What the search relies on *)

Record search_wf (bySlot : gmap jstr (list UsableCandidate)) (optionSets : gmap jstr jstr) : Prop := {
  sw_ordered : NoDup ordered;
  sw_nonempty : ∀ x, x ∈ ordered → x ≠ [];
  sw_bySlot : ∀ x, x ∈ ordered → ∃ us, bySlot !! x = Some us
    ∧ ∀ u, u ∈ us ↔ u ∈ usable ∧ x ∈ usable_slotIds u;
  sw_optionSet : ∀ x, x ∈ ordered → is_Some (optionSets !! x);
  sw_sameSet : ∀ x y u, x ∈ ordered → y ∈ ordered → optionSets !! x = optionSets !! y →
    u ∈ usable → x ∈ usable_slotIds u → y ∈ usable_slotIds u;
  sw_slots : ∀ u, u ∈ usable → NoDup (usable_slotIds u) ∧ (∀ x, x ∈ usable_slotIds u → x ∈ ordered)
    ∧ (1 ≤ coverageQuantity u)%nat;
  sw_identity : ∀ u v, u ∈ usable → v ∈ usable →
    plannerOptionIdentity (candidate u) = plannerOptionIdentity (candidate v) → u = v;
  sw_material : ∀ u, u ∈ usable → 0 ≤ requiredMaterial u;
  sw_maximum : ∀ n, maximum = Some n → 0 ≤ num n;
}.

Section wf.
Context (bySlot : gmap jstr (list UsableCandidate)) (optionSets : gmap jstr jstr).
Context (Hwf : search_wf bySlot optionSets).

Lemma pick_figures u v : pick_of u v → figures v = figures u.
Proof. intros (-> & _). done. Qed.

Lemma picks_material v : picks v → 0 ≤ requiredMaterial v.
Proof. intros (u & Hu & -> & _). apply (sw_material _ _ Hwf u Hu). Qed.

Lemma picks_slots v : picks v → NoDup (usable_slotIds v) ∧ usable_slotIds v ≠ []
  ∧ ∀ x, x ∈ usable_slotIds v → x ∈ ordered.
Proof.
  intros (u & Hu & _ & HN & Hsub & Hlen). destruct (sw_slots _ _ Hwf u Hu) as (_ & Hord & Hc).
  split_and!; [done| |auto]. intros He. rewrite He in Hlen. cbn in Hlen. lia.
Qed.

Lemma picks_identity v w :
  picks v → picks w → plannerOptionIdentity (candidate v) = plannerOptionIdentity (candidate w) →
  candidate v = candidate w.
Proof.
  intros (u & Hu & -> & _) (u' & Hu' & -> & _) Hid. cbn in *. by rewrite (sw_identity _ _ Hwf u u' Hu Hu' Hid).
Qed.

Lemma feasible_part_nil : feasible_part [].
Proof.
  split_and!; [constructor|constructor|]. split; [constructor|constructor|by intros ? ? ?%not_elem_of_nil|].
  intros n Hn. by apply (sw_maximum _ _ Hwf).
Qed.

Lemma feasible_part_app_l vs ws : feasible_part (vs ++ ws) → feasible_part vs.
Proof.
  intros (Hp & HN & Hr). apply Forall_app in Hp as [Hp Hpw]. rewrite bind_app in HN.
  apply NoDup_app in HN as (HN & _ & _). split_and!; try done. rewrite fmap_app in Hr.
  eapply resources_app_l; [|exact Hr]. rewrite Forall_forall in Hpw.
  intros g (w & -> & Hw)%list_elem_of_fmap. by apply picks_material, Hpw.
Qed.

Lemma feasible_part_perm vs ws : vs ≡ₚ ws → feasible_part vs → feasible_part ws.
Proof.
  intros Hp (HF & HN & Hr). split_and!; [by rewrite <-Hp|by rewrite <-Hp|].
  eapply resources_perm; [|exact Hr]. by rewrite Hp.
Qed.

(** Picking the same candidates ties. *)
Lemma picks_tie vs ws :
  Forall picks vs → Forall picks ws → figures <$> vs ≡ₚ figures <$> ws →
  choiceCompare (choice_of vs) (choice_of ws) = 0.
Proof.
  rewrite !Forall_forall. intros Hv Hw Hp. apply choice_ties; [done|]. intros v w Hvin Hwin.
  apply picks_identity; auto.
Qed.

(** ** The shared state *)

Definition slotsOf (vs : list UsableCandidate) : list jstr := vs ≫= usable_slotIds.

(** The state at a node of the search is determined by the candidates chosen
    so far, up to zero entries of the inventory map. *)
Record tracks (chosen : list UsableCandidate) (s : SearchState) : Prop := {
  tr_selected : selected s = list_to_set (id ∘ candidate <$> chosen);
  tr_covered : covered s = list_to_set (slotsOf chosen);
  tr_intervals : usedIntervals s = chosen ≫= intervals ∘ candidate;
  tr_inventory : ∀ u, inventoryUsed s u = materialFrom (inventoryId (candidate u)) (figures <$> chosen);
}.

Lemma slotsOf_snoc vs v : slotsOf (vs ++ [v]) = slotsOf vs ++ usable_slotIds v.
Proof. unfold slotsOf. by rewrite bind_app, bind_singleton. Qed.

Lemma tracks_enter chosen u C s : tracks chosen s → tracks (chosen ++ [withSlots u C]) (enter u C s).
Proof.
  intros [Hs Hc Hi Hv]. split; cbn.
  - rewrite Hs, fmap_app, list_to_set_app_L. cbn. set_solver.
  - rewrite Hc, slotsOf_snoc, list_to_set_app_L. cbn. set_solver.
  - by rewrite Hi, bind_app, bind_singleton.
  - intros w. rewrite fmap_app, materialFrom_app. cbn [fmap list_fmap]. rewrite materialFrom_one.
    unfold inventoryUsed in *. cbn [usedInventory enter figures withSlots candidate requiredMaterial fst snd].
    destruct (decide (inventoryId (candidate u) = inventoryId (candidate w))) as [He|Hne].
    + rewrite <-He, lookup_insert_eq. unfold inventoryUsed. rewrite Hv. done.
    + rewrite lookup_insert_ne, Hv by done. lia.
Qed.

(** Leaving undoes what entering did. *)
Lemma tracks_leave chosen u C s :
  id (candidate u) ∉ (id ∘ candidate <$> chosen) → (∀ y, y ∈ C → y ∉ slotsOf chosen) →
  tracks (chosen ++ [withSlots u C]) s →
  tracks chosen (leave u C (materialFrom (inventoryId (candidate u)) (figures <$> chosen)) s).
Proof.
  intros Hid Hdis [Hs Hc Hi Hv]. split; cbn.
  - rewrite Hs, fmap_app, list_to_set_app_L. cbn. set_solver.
  - rewrite Hc, slotsOf_snoc, list_to_set_app_L. cbn. set_solver.
  - rewrite Hi, bind_app, bind_singleton. cbn. rewrite length_app.
    replace (_ + _ - _)%nat with (length (chosen ≫= intervals ∘ candidate)) by lia. by rewrite take_app_length.
  - intros w. specialize (Hv w). unfold inventoryUsed in *. cbn.
    rewrite fmap_app, materialFrom_app in Hv. cbn [fmap list_fmap] in Hv. rewrite materialFrom_one in Hv.
    cbn in Hv. destruct (decide (inventoryId (candidate u) = inventoryId (candidate w))) as [He|Hne].
    + by rewrite He, lookup_insert_eq.
    + rewrite lookup_insert_ne by done. rewrite Hv. lia.
Qed.

Notation skip := (skipped maximum availability).

Lemma elem_of_available s u y : y ∈ availableSlots s u ↔ y ∈ usable_slotIds u ∧ y ∉ covered s.
Proof.
  unfold availableSlots. rewrite list_elem_of_In, List.filter_In, <-list_elem_of_In, negb_true_iff.
  by rewrite bool_decide_eq_false.
Qed.

Lemma available_NoDup s u : u ∈ usable → NoDup (availableSlots s u).
Proof.
  intros Hu. destruct (sw_slots _ _ Hwf u Hu) as (HN & _). unfold availableSlots.
  by apply NoDup_ListNoDup, List.NoDup_filter, NoDup_ListNoDup.
Qed.

Lemma existsb_overlaps l k :
  existsb (λ i, existsb (λ j, intervalOverlaps i j) k) l = false ↔
  ∀ i j, i ∈ l → j ∈ k → intervalOverlaps i j = false.
Proof.
  rewrite <-not_true_iff_false, List.existsb_exists. setoid_rewrite List.existsb_exists.
  setoid_rewrite <-list_elem_of_In. split.
  - intros H i j Hi Hj. apply not_true_iff_false. intros Ho. apply H. eauto.
  - intros H (i & Hi & j & Hj & Ho). by rewrite (H i j Hi Hj) in Ho.
Qed.

(** A candidate that is not skipped extends a feasible choice with any slots
    picked for it. *)
Lemma not_skipped_extends chosen s u C :
  tracks chosen s → feasible_part chosen → u ∈ usable → skip s u = false →
  NoDup C → (∀ y, y ∈ C → y ∈ availableSlots s u) → length C = coverageQuantity u →
  feasible_part (chosen ++ [withSlots u C]).
Proof.
  intros [Hs Hc Hi Hv] (HF & HN & [Rid Rap Rinv Rcnt]) Hu Hsk HC Hsub Hlen.
  unfold skipped in Hsk. bool_inv. match goal with H : existsb _ _ = false |- _ => rewrite existsb_overlaps in H; rename H into Hov end.
  assert (pick_of u (withSlots u C)) as Hpick.
  { split_and!; try done. intros y Hy. by apply Hsub, elem_of_available in Hy as [? _]. }
  assert (id (candidate u) ∉ (id ∘ candidate <$> chosen)) as Hid.
  { match goal with H : id (candidate u) ∉ _ |- _ => by rewrite Hs, elem_of_list_to_set in H end. }
  split_and!.
  - apply Forall_app. split; [done|]. constructor; [by exists u|done].
  - fold (slotsOf (chosen ++ [withSlots u C])). rewrite slotsOf_snoc. cbn. apply NoDup_app. split_and!; try done.
    intros y Hy HyC. apply Hsub, elem_of_available in HyC as [_ Hnc]. apply Hnc. rewrite Hc. by apply elem_of_list_to_set.
  - rewrite fmap_app. cbn [fmap list_fmap]. split.
    + rewrite fmap_app, <-list_fmap_compose in *. apply NoDup_app. split_and!; [done| |apply NoDup_singleton].
      intros y Hy ->%list_elem_of_singleton. cbn in *. by apply Hid.
    + apply sorted_snoc. split; [done|]. apply Forall_fmap, Forall_forall. intros w Hw i j Hii Hj. cbn in *.
      rewrite intervalOverlaps_sym. apply Hov; [done|]. rewrite Hi. apply list_elem_of_bind. by exists w.
    + intros f a Hf Hav. rewrite materialFrom_app, materialFrom_one. cbn [figures withSlots candidate requiredMaterial fst snd].
      destruct (decide (inventoryId (candidate u) = inventoryId f.1.1)) as [He|Hne].
      * rewrite <-He, <-Hv. rewrite <-He in Hav. rewrite Hav in *. bool_inv. lia.
      * apply elem_of_app in Hf as [Hf| ->%list_elem_of_singleton]; [|done]. rewrite Z.add_0_r. by apply Rinv.
    + intros n Hn. rewrite bind_app, length_app. cbn. rewrite (right_id_L [] (++)).
      rewrite Hn in *. bool_inv. rewrite Hi in *.
      assert ((figures <$> chosen) ≫= intervals ∘ fst ∘ fst = chosen ≫= intervals ∘ candidate) as ->; [|lia].
      clear. induction chosen as [|v vs IH]; [done|]. by rewrite fmap_cons, !bind_cons, IH.
Qed.

Lemma bind_figures vs : (figures <$> vs) ≫= intervals ∘ fst ∘ fst = vs ≫= intervals ∘ candidate.
Proof. induction vs as [|v vs IH]; [done|]. by rewrite fmap_cons, !bind_cons, IH. Qed.

(** A candidate of a feasible completion is not skipped. *)
Lemma completion_not_skipped chosen s u v rest :
  tracks chosen s → feasible_part (chosen ++ v :: rest) → u ∈ usable → pick_of u v → skip s u = false.
Proof.
  intros [Hs Hc Hi Hv] Hf Hu Hpick.
  rewrite cons_middle, app_assoc in Hf. apply feasible_part_app_l in Hf.
  destruct Hf as (_ & HN & [Rid Rap Rinv Rcnt]).
  assert (figures v = figures u) as Hfig by by apply pick_figures.
  destruct Hpick as (Hvu & HNv & Hsub & Hlen).
  rewrite fmap_app in *. cbn [fmap list_fmap] in *. fold (slotsOf (chosen ++ [v])) in HN. rewrite slotsOf_snoc in HN.
  apply NoDup_app in HN as (_ & Hdis & _).
  unfold skipped. rewrite !orb_false_iff. split_and!.
  - apply bool_decide_eq_false. rewrite Hs, elem_of_list_to_set. rewrite fmap_app, <-list_fmap_compose in Rid.
    apply NoDup_app in Rid as (_ & Hd & _). intros Hin. apply (Hd _ Hin). rewrite Hfig. by left.
  - destruct maximum as [n|] eqn:Hn; [|done]. specialize (Rcnt n eq_refl).
    rewrite bind_app, length_app, bind_figures, bind_singleton in Rcnt. cbn in Rcnt. rewrite Hvu in Rcnt. cbn in Rcnt.
    apply Z.ltb_ge. rewrite Hi. lia.
  - apply Nat.ltb_ge. rewrite <-Hlen. apply submseteq_length, NoDup_submseteq; [done|].
    intros y Hy. apply elem_of_available. split; [auto|]. rewrite Hc, elem_of_list_to_set. intros Hin. by apply (Hdis y Hin).
  - apply existsb_overlaps. intros i j Hii Hj. rewrite intervalOverlaps_sym. apply sorted_snoc in Rap as [_ Rap].
    rewrite Forall_forall in Rap. rewrite Hi in Hj. apply list_elem_of_bind in Hj as (w & Hj & Hw).
    apply (Rap (figures w)); [by apply list_elem_of_fmap_2|done|]. rewrite Hfig. done.
  - destruct (availability !! _) as [a|] eqn:Ha; [|done]. apply Z.ltb_ge.
    specialize (Rinv (figures v) a ltac:(apply elem_of_app; right; by left)). rewrite Hfig in Rinv. cbn in Rinv.
    specialize (Rinv Ha). rewrite materialFrom_app, materialFrom_one in Rinv. cbn [figures fst snd] in Rinv.
    rewrite decide_True in Rinv by done. rewrite Hv. lia.
Qed.

(** ** The search finds a best plan *)

Definition rename (f : jstr → jstr) (v : UsableCandidate) : UsableCandidate :=
  withSlots v (f <$> usable_slotIds v).

Lemma slotsOf_rename f (vs : list UsableCandidate) : slotsOf (rename f <$> vs) = f <$> slotsOf vs.
Proof.
  unfold slotsOf. induction vs as [|v vs IH]; [done|]. by rewrite fmap_cons, !bind_cons, fmap_app, IH.
Qed.

Lemma figures_rename f (vs : list UsableCandidate) : figures <$> (rename f <$> vs) = figures <$> vs.
Proof. rewrite <-list_fmap_compose. by apply list_fmap_ext. Qed.

(** Every feasible completion that gives the next slot to a candidate is
    matched by one in which the candidate has a canonical selection. *)
Lemma canonical_completion chosen s u v x rest :
  tracks chosen s → feasible (chosen ++ v :: rest) → u ∈ usable → pick_of u v → x ∈ usable_slotIds v →
  ∃ C rest', C ∈ canonicalSlotSelections x (availableSlots s u) (coverageQuantity u) optionSets
    ∧ feasible (chosen ++ withSlots u C :: rest')
    ∧ figures <$> rest' = figures <$> rest.
Proof.
  intros Htr [(HF & HN & Hr) Hperm] Hu Hpick Hx. pose proof Hpick as (Hv & HNv & Hsubv & Hlenv).
  fold (slotsOf (chosen ++ v :: rest)) in *. unfold slotsOf in HN, Hperm. rewrite bind_app, bind_cons in HN, Hperm.
  fold (slotsOf chosen) (slotsOf rest) in *. set (W := usable_slotIds v ++ slotsOf rest) in *.
  pose proof (sw_ordered _ _ Hwf) as Hord. apply NoDup_app in HN as (HNc & Hdis & HNW).
  assert (∀ y, y ∈ W → y ∈ ordered) as HW by (intros y Hy; rewrite <-Hperm; apply elem_of_app; by right).
  assert (∀ y, y ∈ availableSlots s u → y ∈ W) as Hav.
  { intros y [Hy Hn]%elem_of_available. destruct (sw_slots _ _ Hwf u Hu) as (_ & Hin & _).
    specialize (Hin y Hy). rewrite <-Hperm in Hin. apply elem_of_app in Hin as [Hin|]; [|done].
    destruct Hn. by rewrite (tr_covered _ _ Htr), elem_of_list_to_set. }
  destruct (canonicalSlotSelections_spec optionSets x (availableSlots s u) (coverageQuantity u)) as [Hsound Hcomp].
  { by apply available_NoDup. }
  { intros y Hy. by apply (sw_optionSet _ _ Hwf), HW, Hav. }
  destruct (Hcomp (usable_slotIds v)) as (C & HC & Hcount); [done| |done|done|].
  { intros y Hy. apply elem_of_available. split; [auto|].
    rewrite (tr_covered _ _ Htr), elem_of_list_to_set. intros Hin. apply (Hdis y Hin). apply elem_of_app. by left. }
  destruct (Hsound C HC) as (HNC & HCav & _ & HCl).
  destruct (exchange optionSets W (usable_slotIds v) C) as (f & Hinj & HfW & Hfset & HfC); try done.
  { intros y Hy. apply elem_of_app. by left. }
  { auto. }
  { intros y Hy. by apply (sw_optionSet _ _ Hwf), HW. }
  assert (f <$> W ≡ₚ W) as HfWp.
  { apply submseteq_length_Permutation; [|by rewrite length_fmap].
    apply NoDup_submseteq; [by apply NoDup_fmap_2|]. intros y (z & -> & Hz)%list_elem_of_fmap. auto. }
  exists C, (rename f <$> rest). split_and!; [done| |apply figures_rename].
  apply Forall_app in HF as [HFc [_ HFr]%Forall_cons].
  assert (slotsOf (chosen ++ withSlots u C :: (rename f <$> rest)) ≡ₚ ordered) as Hnew.
  { rewrite <-Hperm. unfold slotsOf at 1. rewrite bind_app, bind_cons. cbn [usable_slotIds withSlots].
    fold (slotsOf chosen) (slotsOf (rename f <$> rest)). rewrite slotsOf_rename, <-HfC, <-fmap_app. fold W. by rewrite HfWp. }
  split; [|done]. split_and!.
  - apply Forall_app. split; [done|]. constructor.
    + exists u. split; [done|]. split_and!; try done. intros y Hy. by apply HCav, elem_of_available in Hy as [? _].
    + apply Forall_fmap, Forall_forall. intros w Hw. rewrite Forall_forall in HFr.
      destruct (HFr w Hw) as (u' & Hu' & Hw' & HNw & Hsw & Hlw). exists u'. split; [done|]. split_and!.
      * unfold rename. cbn. by rewrite Hw'.
      * by apply NoDup_fmap_2.
      * intros y (z & -> & Hz)%list_elem_of_fmap.
        assert (z ∈ W) as HzW by (apply elem_of_app; right; apply list_elem_of_bind; by exists w).
        apply (sw_sameSet _ _ Hwf z); auto.
      * cbn. by rewrite length_fmap.
  - fold (slotsOf (chosen ++ withSlots u C :: (rename f <$> rest))). by rewrite Hnew.
  - rewrite fmap_app, fmap_cons in *. rewrite figures_rename.
    assert (figures (withSlots u C) = figures v) as ->; [|done]. by rewrite (pick_figures u v Hpick).
Qed.

(** A choice that is the best of what has been seen. *)
Definition no_worse (b : option PlanChoice) (c : PlanChoice) : Prop :=
  ∃ d, b = Some d ∧ choiceCompare d c ≤ 0.

Definition improves (b b' : option PlanChoice) : Prop := ∀ c, b = Some c → no_worse b' c.

Definition good (b : option PlanChoice) : Prop := ∀ c, b = Some c → ∃ vs, c = choice_of vs ∧ feasible vs.

Lemma improves_refl b : improves b b.
Proof. intros c ->. exists c. split; [done|]. by rewrite cmp_refl. Qed.

Lemma no_worse_improves b b' c : no_worse b c → improves b b' → no_worse b' c.
Proof.
  intros (d & -> & Hd) H. destruct (H d eq_refl) as (e & -> & He). exists e. split; [done|].
  by apply (cmp_trans e d c).
Qed.

Lemma improves_trans b b' b'' : improves b b' → improves b' b'' → improves b b''.
Proof. intros H1 H2 c Hc. eapply no_worse_improves; [by apply H1|done]. Qed.

Lemma no_worse_tie b c c' : no_worse b c → choiceCompare c c' = 0 → no_worse b c'.
Proof. intros (d & -> & Hd) Ht. exists d. split; [done|]. apply (cmp_trans d c c'); lia. Qed.

(** What a step of a search from the choice [chosen] may do to the state. *)
Definition step_ok (chosen : list UsableCandidate) (s s' : SearchState) : Prop :=
  tracks chosen s' ∧ good (best s') ∧ improves (best s) (best s').

(** A loop of such steps is one; what one of its steps has found stays found. *)
Lemma foldl_steps {A} (f : SearchState → A → SearchState) chosen l s :
  (∀ s x, x ∈ l → tracks chosen s → good (best s) → step_ok chosen s (f s x)) →
  tracks chosen s → good (best s) →
  step_ok chosen s (foldl f s l)
  ∧ ∀ x c, x ∈ l → (∀ s, tracks chosen s → good (best s) → no_worse (best (f s x)) c) →
      no_worse (best (foldl f s l)) c.
Proof.
  intros Hf. revert s. induction l as [|y l IH]; intros s Ht Hg; cbn [foldl].
  - split; [split_and!; [done|done|apply improves_refl]|by intros ? ? ?%not_elem_of_nil].
  - destruct (Hf s y ltac:(by left) Ht Hg) as (Ht1 & Hg1 & Hi1).
    destruct (IH ltac:(intros; apply Hf; [by right|done..]) (f s y) Ht1 Hg1) as [(Ht2 & Hg2 & Hi2) Hr].
    split; [split_and!; [done|done|by eapply improves_trans]|].
    intros x c [->|Hx]%elem_of_cons Hc; [|by apply (Hr x)].
    exact (no_worse_improves _ _ _ (Hc s Ht Hg) Hi2).
Qed.

Notation the_search := (search maximum availability bySlot optionSets ordered).

Lemma feasible_part_slots chosen : feasible_part chosen → slotsOf chosen ⊆+ ordered.
Proof.
  intros (HF & HN & _). apply NoDup_submseteq; [done|]. intros y (w & Hy & Hw)%list_elem_of_bind.
  rewrite Forall_forall in HF. by apply (picks_slots w (HF w Hw)).
Qed.

(** One candidate at a node: every canonical selection is tried, and the state
    is restored after each. *)
Definition visit (fuel position : nat) (chosen : list UsableCandidate) (material machineSeconds : Z)
    (x : jstr) (s : SearchState) (u : UsableCandidate) : SearchState :=
  if skip s u then s
  else
    foldl (λ s' C, leave u C (inventoryUsed s u)
        (the_search fuel (position + length C) (chosen ++ [withSlots u C])
           (material + requiredMaterial u) (machineSeconds + usable_machineSeconds u) (enter u C s')))
      s (canonicalSlotSelections x (availableSlots s u) (coverageQuantity u) optionSets).

(** What the search does from a choice, when it is right one level down. *)
Definition search_right (fuel : nat) (chosen : list UsableCandidate) (s : SearchState) : Prop :=
  let s' := the_search fuel (length (slotsOf chosen)) chosen (sum_by requiredMaterial chosen)
    (sum_by usable_machineSeconds chosen) s in
  step_ok chosen s s'
  ∧ ((length ordered - length (slotsOf chosen) < fuel)%nat →
     ∀ rest, feasible (chosen ++ rest) → no_worse (best s') (choice_of (chosen ++ rest))).

Lemma visit_steps fuel chosen x s u :
  (∀ chosen s, tracks chosen s → feasible_part chosen → good (best s) → search_right fuel chosen s) →
  tracks chosen s → feasible_part chosen → good (best s) → u ∈ usable → x ∈ ordered →
  let s' := visit fuel (length (slotsOf chosen)) chosen (sum_by requiredMaterial chosen)
    (sum_by usable_machineSeconds chosen) x s u in
  step_ok chosen s s'
  ∧ ((length ordered - length (slotsOf chosen) < S fuel)%nat → skip s u = false →
     ∀ C rest, C ∈ canonicalSlotSelections x (availableSlots s u) (coverageQuantity u) optionSets →
       feasible (chosen ++ withSlots u C :: rest) →
       no_worse (best s') (choice_of (chosen ++ withSlots u C :: rest))).
Proof.
  intros IH Ht Hf Hg Hu Hxo. cbv zeta. unfold visit. destruct (skip s u) eqn:Hsk.
  { split; [split_and!; [done|done|apply improves_refl]|done]. }
  destruct (canonicalSlotSelections_spec optionSets x (availableSlots s u) (coverageQuantity u)
    (available_NoDup s u Hu)) as [Hsound _].
  { intros y [Hy _]%elem_of_available. apply (sw_optionSet _ _ Hwf). by apply (sw_slots _ _ Hwf u Hu). }
  set (f := λ s' C, leave _ _ _ _).
  assert (∀ C s', C ∈ canonicalSlotSelections x (availableSlots s u) (coverageQuantity u) optionSets →
    tracks chosen s' → good (best s') → step_ok chosen s' (f s' C)
    ∧ ((length ordered - length (slotsOf chosen) < S fuel)%nat → ∀ rest,
        feasible (chosen ++ withSlots u C :: rest) →
        no_worse (best (f s' C)) (choice_of (chosen ++ withSlots u C :: rest)))) as Hvisit.
  { intros C s1 HC Ht1 Hg1. destruct (Hsound C HC) as (HNC & HCav & HxC & HCl).
    assert (feasible_part (chosen ++ [withSlots u C])) as Hext by by apply (not_skipped_extends chosen s u C).
    destruct (IH (chosen ++ [withSlots u C]) (enter u C s1)) as [(Ht2 & Hg2 & Hi2) Hcomp];
      [by apply tracks_enter|done|done|].
    rewrite slotsOf_snoc, length_app, !sum_by_app, !sum_by_cons, !sum_by_nil, !Z.add_0_r in Ht2, Hg2, Hi2, Hcomp.
    cbn [usable_slotIds withSlots requiredMaterial usable_machineSeconds] in *.
    assert (best (f s1 C) = best (the_search fuel (length (slotsOf chosen) + length C) (chosen ++ [withSlots u C])
      (sum_by requiredMaterial chosen + requiredMaterial u)
      (sum_by usable_machineSeconds chosen + usable_machineSeconds u) (enter u C s1))) as Hbest by done.
    split.
    - split_and!; [|by rewrite Hbest|by rewrite Hbest]. unfold f. rewrite (tr_inventory _ _ Ht).
      destruct Hext as (_ & HNs & [Rid _ _ _]). fold (slotsOf (chosen ++ [withSlots u C])) in HNs.
      rewrite slotsOf_snoc in HNs. apply NoDup_app in HNs as (_ & Hdis & _).
      apply tracks_leave; [| |done].
      + rewrite fmap_app, fmap_app, <-list_fmap_compose in Rid. apply NoDup_app in Rid as (_ & Hd & _).
        intros Hin. apply (Hd _ Hin). by left.
      + intros y Hy Hin. by apply (Hdis y Hin).
    - intros Hfuel rest Hfr. rewrite Hbest. rewrite (cons_middle (withSlots u C) chosen rest), app_assoc in Hfr |- *.
      apply Hcomp; [|done].
      destruct C as [|c0 C0]; [by apply not_elem_of_nil in HxC|]. apply feasible_part_slots, submseteq_length in Hext.
      rewrite slotsOf_snoc, length_app in Hext. cbn [usable_slotIds withSlots length] in Hext |- *. lia. }
  destruct (foldl_steps f chosen (canonicalSlotSelections x (availableSlots s u) (coverageQuantity u) optionSets) s)
    as [Hok Hreach]; [|done|done|].
  { intros s1 C HC Ht1 Hg1. by apply Hvisit. }
  split; [done|]. intros Hfuel _ C rest HC Hfr. apply (Hreach C); [done|].
  intros s1 Ht1 Hg1. by apply (Hvisit C s1 HC Ht1 Hg1).
Qed.

(** A node of the search, for enough fuel. *)
Lemma search_steps fuel chosen s :
  tracks chosen s → feasible_part chosen → good (best s) → search_right fuel chosen s.
Proof.
  revert chosen s. induction fuel as [|fuel IH]; intros chosen s Ht Hf Hg; unfold search_right; cbv zeta; cbn [search].
  { split; [split_and!; [done|done|apply improves_refl]|lia]. }
  pose proof (sw_ordered _ _ Hwf) as Hord. pose proof Hf as (HF & HN & Hr).
  pose proof (feasible_part_slots chosen Hf) as Hsub.
  destruct (Nat.eqb_spec (length (slotsOf chosen)) (length ordered)) as [Hlen|Hlen].
  - assert (slotsOf chosen ≡ₚ ordered) as Hperm by (apply submseteq_length_Permutation; [done|lia]).
    assert (∀ rest, feasible (chosen ++ rest) → rest = []) as Hrest.
    { intros [|w rest] [(HF' & _) Hp]; [done|]. apply Forall_app in HF' as [_ [Hw _]%Forall_cons].
      destruct (picks_slots w Hw) as (_ & Hne & _). apply Permutation_length in Hp.
      rewrite bind_app, bind_cons, !length_app in Hp. fold (slotsOf chosen) in Hp.
      destruct (usable_slotIds w); [done|]. cbn in Hp. lia. }
    fold (choice_of chosen). split.
    + destruct (choiceIsBetter (choice_of chosen) (best s)) eqn:Hb.
      * split_and!; cbn.
        -- destruct Ht. by split.
        -- intros c [= <-]. exists chosen. done.
        -- intros c Hc. rewrite Hc in Hb. rewrite choiceIsBetter_compare in Hb. exists (choice_of chosen).
           split; [done|]. bool_inv. lia.
      * split_and!; [done|done|apply improves_refl].
    + intros _ rest Hrf. rewrite (Hrest rest Hrf), (right_id_L [] (++)).
      destruct (choiceIsBetter (choice_of chosen) (best s)) eqn:Hb.
      * exists (choice_of chosen). split; [done|]. by rewrite cmp_refl.
      * destruct (best s) as [d|] eqn:Hd; [|done]. rewrite choiceIsBetter_compare in Hb. exists d.
        split; [done|]. bool_inv. by apply (cmp_antisym (cmp := choiceCompare)).
  - apply submseteq_length in Hsub as Hle.
    destruct (firstUncovered ordered s) as [x|] eqn:Hx.
    2:{ exfalso. apply Hlen. assert (ordered ⊆+ slotsOf chosen) as Hsub'; [|apply submseteq_length in Hsub'; lia].
        apply NoDup_submseteq; [done|]. intros y Hy. unfold firstUncovered in Hx.
        apply list_elem_of_In, (List.find_none _ _ Hx) in Hy. apply negb_false_iff, bool_decide_eq_true in Hy.
        by rewrite (tr_covered _ _ Ht), elem_of_list_to_set in Hy. }
    apply List.find_some in Hx as Hx'. destruct Hx' as [Hxo%list_elem_of_In Hxc].
    apply negb_true_iff, bool_decide_eq_false in Hxc.
    destruct (sw_bySlot _ _ Hwf x Hxo) as (us & Hus & Hin). pose proof (sw_nonempty _ _ Hwf x Hxo) as Hxne.
    destruct x as [|a x']; [done|]. set (x := a :: x') in *. rewrite Hus. cbn [default from_option].
    set (f := λ s u, if skip s u then s else _).
    assert (∀ s u, f s u = visit fuel (length (slotsOf chosen)) chosen (sum_by requiredMaterial chosen)
      (sum_by usable_machineSeconds chosen) x s u) as Hfv by done.
    destruct (foldl_steps f chosen us s) as [Hok Hreach]; [|done|done|].
    { intros s1 u Hu Ht1 Hg1. apply Hin in Hu as [Hu _]. rewrite Hfv. by apply visit_steps. }
    split; [done|]. intros Hfuel rest Hfr.
    (* the slot is covered by a candidate of the completion *)
    pose proof Hfr as [(HF' & _) Hp]. assert (x ∈ slotsOf (chosen ++ rest)) as Hxr by by rewrite <-Hp in Hxo.
    unfold slotsOf in Hxr. rewrite bind_app in Hxr. apply elem_of_app in Hxr as [Hxr|Hxr].
    { destruct Hxc. by rewrite (tr_covered _ _ Ht), elem_of_list_to_set. }
    apply list_elem_of_bind in Hxr as (v & Hxv & Hv). apply Forall_app in HF' as [_ HF'].
    rewrite Forall_forall in HF'. destruct (HF' v Hv) as (u & Hu & Hpick).
    apply list_elem_of_split in Hv as (r1 & r2 & ->).
    assert (chosen ++ r1 ++ v :: r2 ≡ₚ chosen ++ v :: (r1 ++ r2)) as Hpm by (by rewrite <-Permutation_middle).
    assert (feasible (chosen ++ v :: (r1 ++ r2))) as Hfr'.
    { split; [by eapply feasible_part_perm; [|apply Hfr]|]. rewrite <-Hp. by rewrite Hpm. }
    assert (u ∈ us) as Huus by (apply Hin; split; [done|]; by apply Hpick).
    apply (no_worse_tie _ (choice_of (chosen ++ v :: (r1 ++ r2)))).
    2:{ apply picks_tie; [apply Hfr'|apply Hfr|]. by rewrite Hpm. }
    apply (Hreach u); [done|]. intros s1 Ht1 Hg1. rewrite Hfv.
    destruct (canonical_completion chosen s1 u v x (r1 ++ r2) Ht1 Hfr' Hu Hpick Hxv) as (C & rest' & HC & Hfc & Hfig).
    destruct (visit_steps fuel chosen x s1 u IH Ht1 Hf Hg1 Hu Hxo) as [_ Hcomp].
    apply (no_worse_tie _ (choice_of (chosen ++ withSlots u C :: rest'))).
    + apply Hcomp; try done. apply (completion_not_skipped chosen s1 u v (r1 ++ r2)); [done|apply Hfr'|done..].
    + apply picks_tie; [apply Hfc|apply Hfr'|]. rewrite !fmap_app, !fmap_cons, Hfig.
      by rewrite (pick_figures u v Hpick).
Qed.
End wf.
End feasible.
End ResourceSearch.
