(* ===== verification/ResourcePlanFacts.v ===== *)
(** What the resource planner (ResourcePlan.v) promises, in terms of its input
    alone: which candidates may serve which slots, which plans are feasible,
    and how a returned plan presents one.  The theorems say that the planner
    returns a plan exactly when a well-posed input has a feasible one, that
    the plan is feasible, and that no feasible plan ranks better. *)
From S2P Require Import Prelude Text Language LockOrder ResourcePlan ResourceSearch.

Module ResourcePlanFacts.
Import ResourcePlan ResourceSearch.

(** ** Specification *)

Definition requested (input : ResourcePlanSelectorInput) : list FulfilmentSlotResourceInput :=
  default [] (match requiredFulfilmentSlots input with Some s => Some s | None => requiredSlots input end).

(** Half-open intervals of one machine that end after they start. *)
Definition proper (i : ResourceCapacityInterval) : Prop := date_lt (startsAt i) (endsAt i) = true.

Definition disjoint_intervals (l : list ResourceCapacityInterval) : Prop :=
  Forall proper l ∧ StronglySorted (λ i j, intervalOverlaps i j = false) l.

(** A slot that is requested and that a candidate matches. *)
Definition fits (input : ResourcePlanSelectorInput) (c : ResourceCandidateEstimate) (s : jstr) : Prop :=
  ∃ slot, slot ∈ requested input ∧ slot_id slot = s ∧ matchesSlot c slot = true.

(** A candidate estimate of the input that the planner may use, with its
    amounts read. *)
Record offer (input : ResourcePlanSelectorInput) (u : UsableCandidate) : Prop := {
  of_candidate : candidate u ∈ candidates input;
  of_eligible : ineligible input (candidate u) = false;
  of_intervals : intervals (candidate u) ≠ [] ∧ disjoint_intervals (intervals (candidate u));
  of_placed : ∀ i, i ∈ intervals (candidate u) → misplaced input (candidate u) i = false;
  of_intervalIds : NoDup (omap interval_id (intervals (candidate u)));
  of_free : ∀ i j, i ∈ intervals (candidate u) → j ∈ occupied input → intervalOverlaps i j = false;
  of_slots : usable_slotIds u = candidateSlots (candidate u) ∧ NoDup (usable_slotIds u)
    ∧ ∀ s, s ∈ usable_slotIds u → fits input (candidate u) s;
  of_coverage : default (IntNum (Z.of_nat (length (usable_slotIds u)))) (fulfilmentSlotCount (candidate u))
      = IntNum (Z.of_nat (coverageQuantity u))
    ∧ safe_int (Z.of_nat (coverageQuantity u)) = true
    ∧ (1 ≤ coverageQuantity u ≤ length (usable_slotIds u))%nat;
  of_material : positive (requiredMaterialMilligrams (candidate u)) = Ok (requiredMaterial u);
  of_seconds : positive (requiredMachineSeconds (candidate u)) = Ok (usable_machineSeconds u)
    ∧ ∃ d, intervalDurationSeconds (intervals (candidate u)) = Ok d ∧ usable_machineSeconds u ≤ d;
  of_inventory : ∃ i, i ∈ inventory input ∧ inventory_id i = inventoryId (candidate u)
    ∧ elsewhere (candidate u) i = false;
}.

(** A complete plan: slots of its own for each of some candidates, every
    requested slot once, within inventory and capacity. *)
Record feasible_plan (input : ResourcePlanSelectorInput) (vs : list UsableCandidate) : Prop := {
  fp_picks : ∀ v, v ∈ vs → ∃ u, offer input u ∧ pick_of u v;
  fp_slots : vs ≫= usable_slotIds ≡ₚ slot_id <$> requested input;
  fp_ids : NoDup (id ∘ candidate <$> vs);
  fp_apart : StronglySorted (λ v w, ∀ i j, i ∈ intervals (candidate v) → j ∈ intervals (candidate w) →
    intervalOverlaps i j = false) vs;
  fp_inventory : ∀ i a, i ∈ inventory input → availabilityMilligrams i = Ok a →
    (∃ v, v ∈ vs ∧ inventoryId (candidate v) = inventory_id i) →
    sum_by (λ v, if decide (inventoryId (candidate v) = inventory_id i) then requiredMaterial v else 0) vs ≤ a;
  fp_count : ∀ n, maximumCapacityIntervalCount input = Some n →
    Z.of_nat (length (vs ≫= intervals ∘ candidate)) ≤ num n;
}.

(** Inputs without contradictory entries. *)
Record well_posed (input : ResourcePlanSelectorInput) : Prop := {
  wp_slots : requested input ≠ [] ∧ NoDup (slot_id <$> requested input);
  wp_inventory : NoDup (inventory_id <$> inventory input);
  wp_occupied : disjoint_intervals (occupied input);
  wp_candidates : NoDup (plannerOptionIdentity <$> candidates input);
}.

(** The identity [add] drops repeated lock targets by. *)
Definition lockIdentity (t : LockOrder.LockTarget) : jstr :=
  LockOrder.kindName (LockOrder.kind t) ++ [0] ++ default [] (LockOrder.nodeId t) ++ [0] ++ LockOrder.id t.

(** How a result presents the candidates it chose. *)
Record presents (vs : list UsableCandidate) (plan : CompleteResourcePlan) : Prop := {
  pr_candidates : plan_candidates plan = Some ∘ candidate <$> js_sort compareUsable vs;
  pr_ids : candidateResourceEstimateIds plan = id ∘ candidate <$> js_sort compareUsable vs;
  pr_assignments : assignments plan
    ≡ₚ vs ≫= λ v, (λ s, mkAssignment s (id (candidate v))) <$> usable_slotIds v;
  pr_sorted : StronglySorted (λ a b, compareStrings (assigned_fulfilmentSlotId a)
    (assigned_fulfilmentSlotId b) ≤ 0) (assignments plan);
  pr_material : plan_requiredMaterialMilligrams plan = sum_by requiredMaterial vs;
  pr_seconds : plan_requiredMachineSeconds plan = sum_by usable_machineSeconds vs;
  pr_ordered : StronglySorted LockOrder.before (lockTargets plan);
  pr_locked : ∀ v t, v ∈ vs → t ∈ targetsOf v → ∃ t', t' ∈ lockTargets plan ∧ lockIdentity t' = lockIdentity t;
  pr_needed : ∀ t, t ∈ lockTargets plan → ∃ v, v ∈ vs ∧ t ∈ targetsOf v;
}.

(** ** Early returns *)

Lemma obind_Some {A B} (m : result (option A)) (f : A → result (option B)) b :
  obind m f = Ok (Some b) ↔ ∃ a, m = Ok (Some a) ∧ f a = Ok (Some b).
Proof. unfold obind. destruct m as [[a|]|]; cbn; naive_solver. Qed.

Lemma obind_None {A B} (m : result (option A)) (f : A → result (option B)) :
  obind m f = Ok None ↔ m = Ok None ∨ ∃ a, m = Ok (Some a) ∧ f a = Ok None.
Proof. unfold obind. destruct m as [[a|]|]; cbn; naive_solver. Qed.

Lemma obind_Ok {A B} (m : result (option A)) (f : A → result (option B)) r :
  obind m f = Ok r → (m = Ok None ∧ r = None) ∨ ∃ a, m = Ok (Some a) ∧ f a = Ok r.
Proof. unfold obind. destruct m as [[a|]|]; cbn; naive_solver. Qed.

Lemma undefined_when_Some b u : undefined_when b = Ok (Some u) ↔ b = false.
Proof. unfold undefined_when. destruct b, u; split; congruence. Qed.

Lemma undefined_when_None b : undefined_when b = Ok None ↔ b = true.
Proof. unfold undefined_when. destruct b; split; congruence. Qed.

(** A loop that may return early, by an invariant on the elements seen: it
    ends with all of them, or returns early at the first one rejected. *)
Lemma foldO_inv {S A} (f : S → A → result (option S)) (I : list A → S → Prop) s l :
  (∀ done s x s', I done s → f s x = Ok (Some s') → I (done ++ [x]) s') →
  ∀ done, I done s →
  (∀ s', foldO f s l = Ok (Some s') → I (done ++ l) s')
  ∧ (foldO f s l = Ok None → ∃ l1 x l2 s', l = l1 ++ x :: l2 ∧ I (done ++ l1) s' ∧ f s' x = Ok None).
Proof.
  intros Hstep. revert s. induction l as [|x l IH]; intros s seen Hs; cbn [foldO].
  { split; [intros s' [= <-]; by rewrite (right_id_L [] (++))|done]. }
  split.
  - intros s' (s1 & H1 & H2)%obind_Some. rewrite cons_middle, app_assoc.
    by apply (IH s1 (seen ++ [x]) (Hstep _ _ _ _ Hs H1)).
  - intros [H|(s1 & H1 & H2)]%obind_None.
    + exists [], x, l, s. by rewrite (right_id_L [] (++)).
    + destruct (proj2 (IH s1 (seen ++ [x]) (Hstep _ _ _ _ Hs H1)) H2) as (l1 & y & l2 & s' & -> & HI & Hy).
      exists (x :: l1), y, l2, s'. split_and!; [done| |done]. by rewrite <-app_assoc in HI.
Qed.

(** ** Validation *)

Lemma hasDuplicate_false l : hasDuplicate l = false ↔ NoDup l.
Proof.
  unfold hasDuplicate. rewrite negb_false_iff, Nat.eqb_eq. induction l as [|x l IH].
  { split; [constructor|done]. }
  cbn [list_to_set length]. rewrite NoDup_cons, <-IH. destruct (decide (x ∈ l)) as [Hx|Hx].
  - rewrite subseteq_union_1_L by set_solver. split; [|by intros [? _]].
    intros Hs. assert (size (list_to_set l : gset jstr) ≤ length l)%nat as Hle; [|lia].
    clear. induction l as [|y l IH]; cbn; [done|].
    pose proof (size_union_alt {[y]} (list_to_set l : gset jstr)) as Hu. rewrite size_singleton in Hu.
    rewrite Hu. assert (size (list_to_set l ∖ {[y]} : gset jstr) ≤ size (list_to_set l : gset jstr))%nat; [|lia].
    apply subseteq_size. set_solver.
  - rewrite size_union by set_solver. rewrite size_singleton. split; [intros [= ?]; done|]. intros [_ ?]. lia.
Qed.

Lemma blank_false_nonempty s : requireId s = Ok () → s ≠ [].
Proof. intros H%throw_when_Ok. by apply blank_nonempty. Qed.

Lemma checkIntervals_Ok l b :
  checkIntervals l = Ok b → b = true ↔ Forall proper l.
Proof.
  induction l as [|i l IH]; cbn [checkIntervals]; intros H; ok_inv; [by split; [constructor|]|].
  destruct (date_le (endsAt i) (startsAt i)) eqn:Hle; ok_inv.
  - split; [done|]. intros [Hp _]%Forall_cons. unfold proper in Hp.
    destruct (startsAt i), (endsAt i); try done. apply date_le_Some in Hle. apply date_lt_Some in Hp. lia.
  - rewrite Forall_cons. rewrite IH by done. split; [|by intros [_ ?]]. intros HF. split; [|done].
    unfold proper. bool_inv. destruct (startsAt i), (endsAt i); try done. apply date_lt_Some.
    unfold date_le in Hle. bool_inv. lia.
Qed.

Lemma overlapFree_spec l :
  overlapFree l = true ↔ StronglySorted (λ i j, intervalOverlaps i j = false) l.
Proof.
  induction l as [|i l IH]; cbn [overlapFree]; [by split; [constructor|]|].
  rewrite andb_true_iff, IH, forallb_forall. split.
  - intros [Hi Hl]. constructor; [done|]. apply Forall_forall. intros j Hj%list_elem_of_In.
    by apply negb_true_iff, Hi.
  - inversion 1 as [|? ? Hl Hi]; subst. split; [|done]. intros j Hj%list_elem_of_In.
    rewrite Forall_forall in Hi. by apply negb_true_iff, Hi.
Qed.

Lemma validIntervals_Ok l b : validIntervals l = Ok b → b = true ↔ disjoint_intervals l.
Proof.
  unfold validIntervals, disjoint_intervals. intros H. ok_inv.
  rewrite andb_true_iff, overlapFree_spec. by rewrite (checkIntervals_Ok l _) by done.
Qed.

(** The slots by id. *)
Lemma addSlot_inv done m slot m' :
  (NoDup (slot_id <$> done) ∧ Forall (λ s, slot_id s ≠ []) done
   ∧ ∀ k s, m !! k = Some s ↔ s ∈ done ∧ slot_id s = k) →
  addSlot m slot = Ok (Some m') →
  NoDup (slot_id <$> done ++ [slot]) ∧ Forall (λ s, slot_id s ≠ []) (done ++ [slot])
  ∧ ∀ k s, m' !! k = Some s ↔ s ∈ done ++ [slot] ∧ slot_id s = k.
Proof.
  intros (HN & HF & Hm) H. unfold addSlot in H. apply bind_Ok in H as ([] & Hid & H).
  apply obind_Some in H as ([] & Hnew%undefined_when_Some%bool_decide_eq_false & [= <-]).
  split_and!.
  - rewrite fmap_app. apply NoDup_app. split_and!; [done| |apply NoDup_singleton].
    intros k (s & -> & Hs)%list_elem_of_fmap [Heq|[]%not_elem_of_nil]%elem_of_cons.
    destruct Hnew. rewrite <-Heq. exists s. by apply Hm.
  - apply Forall_app. split; [done|]. constructor; [by apply blank_false_nonempty|constructor].
  - intros k s. rewrite elem_of_app, list_elem_of_singleton. destruct (decide (k = slot_id slot)) as [->|Hk].
    + rewrite lookup_insert_eq. split; [intros [= ->]; by split; [right|]|]. intros [[Hs| ->] Heq]; [|done].
      destruct Hnew. exists s. by apply Hm.
    + rewrite lookup_insert_ne by done. rewrite Hm. naive_solver.
Qed.

(** The available material by inventory. *)
Lemma addInventory_inv done m i m' :
  (NoDup (inventory_id <$> done)
   ∧ ∀ k a, m !! k = Some a ↔ ∃ i, i ∈ done ∧ inventory_id i = k ∧ availabilityMilligrams i = Ok a) ∧
  Forall (λ i, ∃ a, availabilityMilligrams i = Ok a) done →
  addInventory m i = Ok (Some m') →
  (NoDup (inventory_id <$> done ++ [i])
   ∧ ∀ k a, m' !! k = Some a ↔
       ∃ i', i' ∈ done ++ [i] ∧ inventory_id i' = k ∧ availabilityMilligrams i' = Ok a) ∧
  Forall (λ i, ∃ a, availabilityMilligrams i = Ok a) (done ++ [i]).
Proof.
  intros ((HN & Hm) & HF) H. unfold addInventory in H. apply bind_Ok in H as ([] & _ & H).
  apply bind_Ok in H as ([] & _ & H).
  apply obind_Some in H as ([] & Hnew%undefined_when_Some%bool_decide_eq_false & H). ok_inv.
  rename x into a0. assert (∀ i', i' ∈ done → inventory_id i' ≠ inventory_id i) as Hother.
  { intros i' Hi' Heq. rewrite Forall_forall in HF. destruct (HF i' Hi') as [b Hb]. destruct Hnew.
    exists b. apply Hm. eauto. }
  split_and!.
  - rewrite fmap_app. apply NoDup_app. split_and!; [done| |apply NoDup_singleton].
    intros k (i' & -> & Hi')%list_elem_of_fmap Heq%list_elem_of_singleton. by destruct (Hother i').
  - intros k a. setoid_rewrite elem_of_app. setoid_rewrite list_elem_of_singleton.
    destruct (decide (k = inventory_id i)) as [->|Hk].
    + rewrite lookup_insert_eq. split; [intros [= ->]; exists i; by split; [right|]|].
      intros (i' & [Hi'| ->] & Heq & Ha); [by destruct (Hother i')|congruence].
    + rewrite lookup_insert_ne by done. rewrite Hm. naive_solver.
  - apply Forall_app. split; [done|]. constructor; [by exists a0|constructor].
Qed.

Lemma find_key {A} (f : A → jstr) l x :
  NoDup (f <$> l) → x ∈ l → List.find (λ y, str_eqb (f y) (f x)) l = Some x.
Proof.
  induction l as [|y l IH]; intros HN Hx; [by apply not_elem_of_nil in Hx|].
  cbn [fmap list_fmap] in HN. apply NoDup_cons in HN as [Hy HN]. cbn [List.find].
  unfold str_eqb at 1. case_bool_decide as Heq.
  - apply elem_of_cons in Hx as [->|Hx]; [done|]. destruct Hy. rewrite Heq. by apply list_elem_of_fmap_2.
  - apply elem_of_cons in Hx as [->|Hx]; [done|]. by apply IH.
Qed.

Section usable.
Context (input : ResourcePlanSelectorInput).
Context (slotById : gmap jstr FulfilmentSlotResourceInput) (availability : gmap jstr Z).
Context (Hslots : ∀ k s, slotById !! k = Some s ↔ s ∈ requested input ∧ slot_id s = k).
Context (HinvN : NoDup (inventory_id <$> inventory input)).
Context (Hinv : ∀ k a, availability !! k = Some a ↔
  ∃ i, i ∈ inventory input ∧ inventory_id i = k ∧ availabilityMilligrams i = Ok a).
Context (HinvOk : Forall (λ i, ∃ a, availabilityMilligrams i = Ok a) (inventory input)).

(** The loop's body keeps exactly the offers. *)
Lemma usableOf_offer c u :
  c ∈ candidates input → usableOf input slotById availability c = Ok (Some u) → candidate u = c ∧ offer input u.
Proof.
  unfold usableOf. intros Hc H. destruct (ineligible input c) eqn:Hel; [done|].
  destruct (Nat.eqb_spec (length (intervals c)) 0) as [|Hne]; [done|].
  apply bind_Ok in H as (valid & Hv & H). cbv zeta in H.
  destruct valid; [|done]. cbn [negb] in H. apply validIntervals_Ok in Hv. destruct Hv as [Hv _].
  destruct (_ || hasDuplicate _) eqn:Hd; [done|]. destruct (existsb _ (candidateSlots c)) eqn:Hin; [done|].
  set (cov := default _ (fulfilmentSlotCount c)) in H.
  destruct (_ || _ || _) eqn:Hcov; [done|].
  apply bind_Ok in H as (mat & Hmat & H). apply bind_Ok in H as (sec & Hsec & H).
  destruct (existsb (misplaced input c) _ || _) eqn:Hmis; [done|].
  apply bind_Ok in H as (d & Hd' & H). destruct (Z.ltb_spec d sec); [done|].
  destruct (availability !! inventoryId c) as [a|] eqn:Ha; [|done].
  apply Hinv in Ha as (i & Hi & Hid & Hai). rewrite <-Hid in H. rewrite find_key in H by done.
  destruct (elsewhere c i) eqn:Hels; [done|]. destruct (existsb (λ interval, existsb _ _) (intervals c)) eqn:Hocc; [done|].
  match type of H with (if ?b then _ else _) = _ => destruct b eqn:Hmatch; [done|] end. injection H as <-.
  apply orb_false_iff in Hd as [_ Hdup]. apply orb_false_iff in Hmis as [Hmis Hids].
  rewrite hasDuplicate_false in Hdup, Hids. rewrite existsb_false in Hin. rewrite existsb_false in Hmis.
  rewrite existsb_false in Hmatch. rewrite existsb_false in Hocc.
  apply orb_false_iff in Hcov as [[Hsafe Hlo]%orb_false_iff Hhi]. apply negb_false_iff in Hsafe.
  destruct cov as [z| | |] eqn:Hz; try done. cbn [isSafeInteger num] in *. bool_inv.
  split; [done|]. split; cbn; try done.
  - split; [by destruct (intervals c)|]. by apply Hv.
  - intros x y Hx Hy. specialize (Hocc x Hx). rewrite existsb_false in Hocc. by apply Hocc.
  - split_and!; [done..|]. intros s Hs. specialize (Hmatch s Hs). destruct (slotById !! s) as [slot|] eqn:Hsl; [|done].
    apply Hslots in Hsl as [? ?]. exists slot. by rewrite negb_false_iff in Hmatch.
  - rewrite Z2Nat.id by lia. unfold cov in Hz. split_and!; [done..|lia|lia].
  - split; [done|]. eauto.
  - by exists i.
Qed.

Lemma offer_usableOf u r :
  offer input u → usableOf input slotById availability (candidate u) = Ok r → r = Some u.
Proof.
  intros [_ Hel [Hne Hdis] Hmis Hids Hfree (Hsl & HN & Hfit) (Hcov & Hsafe & Hlo & Hhi) Hmat (Hsec & d & Hd & Hle)
    (i & Hi & Hid & Hels)] H. unfold usableOf in H. rewrite Hel in H.
  destruct (Nat.eqb_spec (length (intervals (candidate u))) 0) as [H0|]; [by apply length_zero_iff_nil in H0|].
  apply bind_Ok in H as (valid & Hv & H). cbv zeta in H. apply validIntervals_Ok in Hv as [_ Hv].
  rewrite Hv in H by done. cbn [negb] in H. rewrite <-Hsl in H.
  destruct (Nat.eqb_spec (length (usable_slotIds u)) 0); [lia|].
  rewrite (proj2 (hasDuplicate_false _) HN) in H. cbn [orb] in H.
  rewrite (proj2 (existsb_false _ (usable_slotIds u))) in H.
  2:{ intros s (slot & Hsl' & Heq & _)%Hfit. apply bool_decide_eq_false. intros Hnone.
      by rewrite (proj2 (Hslots s slot)) in Hnone by done. }
  rewrite Hcov in H. cbn [isSafeInteger num] in H. rewrite Hsafe in H.
  rewrite (proj2 (Z.ltb_ge _ _)), (proj2 (Z.ltb_ge _ _)) in H by lia. cbn [negb orb] in H.
  rewrite Hmat, Hsec in H. run_in H. rewrite (proj2 (existsb_false _ _) Hmis) in H.
  rewrite (proj2 (hasDuplicate_false _) Hids) in H. cbn [orb] in H. rewrite Hd in H. run_in H.
  rewrite (proj2 (Z.ltb_ge _ _)) in H by lia.
  rewrite Forall_forall in HinvOk. destruct (HinvOk i Hi) as [a Ha].
  rewrite (proj2 (Hinv (inventoryId (candidate u)) a)) in H by eauto.
  rewrite <-Hid, find_key, Hels in H by done.
  rewrite (proj2 (existsb_false _ (intervals (candidate u)))) in H.
  2:{ intros x Hx. apply existsb_false. intros y Hy. by apply Hfree. }
  rewrite (proj2 (existsb_false _ (usable_slotIds u))) in H.
  2:{ intros s (slot & Hsl' & Heq & Hmt)%Hfit. rewrite (proj2 (Hslots s slot)) by done. by rewrite Hmt. }
  rewrite Nat2Z.id in H. injection H as <-. destruct u; cbn in *. by rewrite Hsl.
Qed.
End usable.

(** The loop over the candidates. *)
Lemma pushed_elem (u v : UsableCandidate) (x : jstr) (slotIds : list jstr)
    (m : gmap jstr (list UsableCandidate)) :
  v ∈ default [] (foldl (λ m slotId, <[slotId := default [] (m !! slotId) ++ [u]]> m) m slotIds !! x) ↔
  v ∈ default [] (m !! x) ∨ (v = u ∧ x ∈ slotIds).
Proof.
  revert m. induction slotIds as [|s slotIds IH]; intros m; cbn [foldl].
  { rewrite elem_of_nil. tauto. }
  rewrite IH, elem_of_cons. destruct (decide (x = s)) as [->|Hx].
  - rewrite lookup_insert_eq. simpl. rewrite elem_of_app, list_elem_of_singleton. tauto.
  - rewrite lookup_insert_ne by done. tauto.
Qed.

Section loop.
Context (input : ResourcePlanSelectorInput).
Context (slotById : gmap jstr FulfilmentSlotResourceInput) (availability : gmap jstr Z).
Notation usableOf := (usableOf input slotById availability).

Definition inspected (done : list ResourceCandidateEstimate)
    (s : gset jstr * gmap jstr (list UsableCandidate)) : Prop :=
  s.1 = list_to_set (plannerOptionIdentity <$> done)
  ∧ NoDup (plannerOptionIdentity <$> done)
  ∧ (∀ c, c ∈ done → ∃ r, usableOf c = Ok r)
  ∧ ∀ x u, u ∈ default [] (s.2 !! x) ↔ x ∈ usable_slotIds u ∧ ∃ c, c ∈ done ∧ usableOf c = Ok (Some u).

Lemma inspectCandidate_inv seen s c s' :
  inspected seen s → inspectCandidate input slotById availability s c = Ok (Some s') →
  inspected (seen ++ [c]) s'.
Proof.
  destruct s as [ids bySlot]. intros (Hids & HN & Hok & Hmem) H. cbn in Hids. subst ids. unfold inspectCandidate in H.
  do 5 (apply bind_Ok in H as ([] & _ & H)).
  apply obind_Some in H as ([] & Hnew%undefined_when_Some%bool_decide_eq_false & H). cbv zeta in H.
  apply bind_Ok in H as (r & Hr & [= <-]). cbn [fst snd] in *. rewrite elem_of_list_to_set in Hnew.
  unfold inspected. cbn [fst snd]. split_and!.
  - rewrite fmap_app, list_to_set_app_L. cbn. set_solver.
  - rewrite fmap_app. apply NoDup_app. split_and!; [done| |apply NoDup_singleton].
    by intros k Hk ->%list_elem_of_singleton.
  - intros c' [Hc'| ->%list_elem_of_singleton]%elem_of_app; eauto.
  - intros x u. setoid_rewrite elem_of_app. setoid_rewrite list_elem_of_singleton.
    destruct r as [v|]; [rewrite pushed_elem|]; rewrite Hmem.
    + split.
      * intros [(Hx & c' & Hc' & Hu)|(-> & Hx)]; eauto 6.
      * intros (Hx & c' & [Hc'| ->] & Hu); [by left; eauto|]. right. rewrite Hr in Hu. by injection Hu as ->.
    + split; [intros (Hx & c' & Hc' & Hu); eauto 6|]. intros (Hx & c' & [Hc'| ->] & Hu); [by eauto|congruence].
Qed.

Lemma inspectCandidate_None seen s c :
  inspected seen s → inspectCandidate input slotById availability s c = Ok None →
  plannerOptionIdentity c ∈ plannerOptionIdentity <$> seen.
Proof.
  destruct s as [ids bySlot]. intros (Hids & HN & Hok & Hmem) H. cbn in Hids. subst ids. unfold inspectCandidate in H.
  do 5 (apply bind_Ok in H as ([] & _ & H)).
  apply obind_None in H as [H%undefined_when_None%bool_decide_eq_true|([] & _ & H)].
  - by apply elem_of_list_to_set in H.
  - cbv zeta in H. by apply bind_Ok in H as (r & _ & [=]).
Qed.
End loop.

Lemma NoDup_fmap_split {A B} (f : A → B) (l1 l2 : list A) x :
  f x ∈ f <$> l1 → ¬ NoDup (f <$> l1 ++ x :: l2).
Proof. rewrite fmap_app, fmap_cons. intros Hx (_ & Hd & _)%NoDup_app. apply (Hd _ Hx). by left. Qed.

(** ** What the search is started with *)

Lemma sorted_fmap {A B} (f : A → B) (R : B → B → Prop) (l : list A) :
  StronglySorted R (f <$> l) ↔ StronglySorted (λ x y, R (f x) (f y)) l.
Proof.
  induction l as [|x l IH]; cbn; [by split; constructor|]. split; inversion 1; subst; constructor.
  - by apply IH.
  - by apply Forall_fmap.
  - by apply IH.
  - by apply Forall_fmap.
Qed.

(** The search's notion of a feasible plan is the specification's. *)
Lemma feasible_spec input avail usable ordered vs :
  NoDup (slot_id <$> requested input) → ordered ≡ₚ slot_id <$> requested input →
  (∀ u, u ∈ usable ↔ offer input u) →
  (∀ k a, avail !! k = Some a ↔ ∃ i, i ∈ inventory input ∧ inventory_id i = k ∧ availabilityMilligrams i = Ok a) →
  feasible (maximumCapacityIntervalCount input) avail usable ordered vs ↔ feasible_plan input vs.
Proof.
  intros HN Hord Hus Hav. unfold feasible, feasible_part, picks.
  assert (∀ k, materialFrom k (figures <$> vs)
    = sum_by (λ v, if decide (inventoryId (candidate v) = k) then requiredMaterial v else 0) vs) as Hsum.
  { intros k. unfold materialFrom. by rewrite sum_by_fmap. }
  split.
  - intros ((HF & _ & [Hids Hap Hi Hc]) & Hp). rewrite Forall_forall in HF. split.
    + intros v (u & Hu & Hv)%HF. exists u. by apply Hus in Hu.
    + by rewrite Hp.
    + by rewrite <-list_fmap_compose in Hids.
    + exact (proj1 (sorted_fmap figures apart vs) Hap).
    + intros i a Hin Ha (v & Hv & Hvi). rewrite <-Hvi, <-Hsum. apply (Hi (figures v)); [by apply list_elem_of_fmap_2|].
      apply Hav. eauto.
    + intros n Hn. rewrite <-bind_figures. by apply Hc.
  - intros [HF Hp Hids Hap Hi Hc]. split; [|by rewrite Hp]. split_and!.
    + apply Forall_forall. intros v (u & Hu & Hv)%HF. exists u. by rewrite Hus.
    + by rewrite Hp.
    + split.
      * rewrite <-(list_fmap_compose figures). exact Hids.
      * exact (proj2 (sorted_fmap figures apart vs) Hap).
      * intros f a (v & -> & Hv)%list_elem_of_fmap (i & Hin & Heq & Ha)%Hav. rewrite Hsum, <-Heq. cbn in Heq.
        by eauto.
      * intros n Hn. rewrite bind_figures. by apply Hc.
Qed.

Definition usables (input : ResourcePlanSelectorInput) (slotById : gmap jstr FulfilmentSlotResourceInput)
    (availability : gmap jstr Z) : list UsableCandidate :=
  omap (λ c, match usableOf input slotById availability c with Ok r => r | _ => None end) (candidates input).

Lemma positive_pos a z : positive a = Ok z → 0 < z.
Proof. unfold positive. intros H. ok_inv. bool_inv. lia. Qed.

(** Planner identities tell the offers of one input apart. *)
Lemma offer_identity input u v :
  NoDup (plannerOptionIdentity <$> candidates input) → offer input u → offer input v →
  plannerOptionIdentity (candidate u) = plannerOptionIdentity (candidate v) → u = v.
Proof.
  intros HN Hu Hv Heq. destruct u as [c ss q m t], v as [c' ss' q' m' t'].
  destruct Hu as [Hc _ _ _ _ _ [Hs _] [Hq _] Hm [Ht _] _], Hv as [Hc' _ _ _ _ _ [Hs' _] [Hq' _] Hm' [Ht' _] _].
  cbn [candidate usable_slotIds coverageQuantity requiredMaterial usable_machineSeconds] in *.
  apply list_elem_of_lookup in Hc as [i Hi]. apply list_elem_of_lookup in Hc' as [j Hj].
  assert (i = j) as ->.
  { eapply (NoDup_lookup _ i j _ HN); rewrite list_lookup_fmap; [by rewrite Hi|by rewrite Hj; cbn; rewrite Heq]. }
  rewrite Hi in Hj. injection Hj as <-. assert (ss = ss') as <- by congruence. f_equal; [|congruence..].
  rewrite Hq in Hq'. injection Hq'. lia.
Qed.

(** The loops of the validation, whole. *)
Lemma slots_loop slots :
  (∀ m, foldO addSlot ∅ slots = Ok (Some m) →
     NoDup (slot_id <$> slots) ∧ Forall (λ s, slot_id s ≠ []) slots
     ∧ ∀ k s, m !! k = Some s ↔ s ∈ slots ∧ slot_id s = k)
  ∧ (foldO addSlot ∅ slots = Ok None → ¬ NoDup (slot_id <$> slots)).
Proof.
  destruct (foldO_inv addSlot _ ∅ slots (λ seen s x s' H1 H2, addSlot_inv seen s x s' H1 H2) [])
    as [Hs Hn].
  { split_and!; [constructor|constructor|]. intros k s. rewrite lookup_empty, elem_of_nil. by split; [|intros []]. }
  split; [done|]. intros (l1 & x & l2 & m & -> & (_ & _ & Hm) & H)%Hn. unfold addSlot in H.
  apply bind_Ok in H as ([] & _ & H).
  apply obind_None in H as [H%undefined_when_None%bool_decide_eq_true|(? & _ & [=])].
  destruct H as [s [Hs' Heq]%Hm]. apply NoDup_fmap_split. rewrite <-Heq. by apply list_elem_of_fmap_2.
Qed.

Lemma inventory_loop invs :
  (∀ m, foldO addInventory ∅ invs = Ok (Some m) →
     (NoDup (inventory_id <$> invs)
      ∧ ∀ k a, m !! k = Some a ↔ ∃ i, i ∈ invs ∧ inventory_id i = k ∧ availabilityMilligrams i = Ok a)
     ∧ Forall (λ i, ∃ a, availabilityMilligrams i = Ok a) invs)
  ∧ (foldO addInventory ∅ invs = Ok None → ¬ NoDup (inventory_id <$> invs)).
Proof.
  destruct (foldO_inv addInventory _ ∅ invs (λ seen s x s' H1 H2, addInventory_inv seen s x s' H1 H2) [])
    as [Hs Hn].
  { split_and!; [constructor| |constructor]. intros k a. rewrite lookup_empty. split; [done|].
    by intros (i & Hi%elem_of_nil & _). }
  split; [done|]. intros (l1 & x & l2 & m & -> & ((_ & Hm) & _) & H)%Hn. unfold addInventory in H.
  do 2 (apply bind_Ok in H as ([] & _ & H)).
  apply obind_None in H as [H%undefined_when_None%bool_decide_eq_true|([] & _ & H)].
  - destruct H as [a (i & Hi & Heq & _)%Hm]. apply NoDup_fmap_split. rewrite <-Heq. by apply list_elem_of_fmap_2.
  - by apply bind_Ok in H as (? & _ & [=]).
Qed.

Lemma candidates_loop input m a :
  (∀ s, foldO (inspectCandidate input m a) (∅, ∅) (candidates input) = Ok (Some s) →
     inspected input m a (candidates input) s)
  ∧ (foldO (inspectCandidate input m a) (∅, ∅) (candidates input) = Ok None →
     ¬ NoDup (plannerOptionIdentity <$> candidates input)).
Proof.
  destruct (foldO_inv (inspectCandidate input m a) (inspected input m a) (∅, ∅) (candidates input)
    (λ seen s x s' H1 H2, inspectCandidate_inv input m a seen s x s' H1 H2) []) as [Hs Hn].
  { split_and!; [done|constructor|by intros c Hc%elem_of_nil|]. intros x u. cbn. rewrite lookup_empty.
    split; [by intros Hu%elem_of_nil|]. by intros (_ & c & Hc%elem_of_nil & _). }
  split; [done|]. intros (l1 & x & l2 & s' & -> & HI & H)%Hn.
  by eapply NoDup_fmap_split, inspectCandidate_None.
Qed.

(** What a successful validation hands to the search. *)
Record prepared_ok (input : ResourcePlanSelectorInput) (p : Prepared) : Prop := {
  po_posed : well_posed input;
  po_ordered : prepared_orderedSlotIds p ≡ₚ slot_id <$> requested input;
  po_availability : ∀ k a, prepared_availability p !! k = Some a ↔
    ∃ i, i ∈ inventory input ∧ inventory_id i = k ∧ availabilityMilligrams i = Ok a;
  po_search : ∃ usable, (∀ u, u ∈ usable ↔ offer input u)
    ∧ search_wf (maximumCapacityIntervalCount input) usable (prepared_orderedSlotIds p)
        (prepared_candidatesBySlot p) (prepared_slotOptionSet p);
}.

(** The candidates found for the slots. *)
Lemma inspected_offers input m a s :
  (∀ k slot, m !! k = Some slot ↔ slot ∈ requested input ∧ slot_id slot = k) →
  (NoDup (inventory_id <$> inventory input)
   ∧ ∀ k z, a !! k = Some z ↔ ∃ i, i ∈ inventory input ∧ inventory_id i = k ∧ availabilityMilligrams i = Ok z)
  ∧ Forall (λ i, ∃ z, availabilityMilligrams i = Ok z) (inventory input) →
  inspected input m a (candidates input) s →
  (∀ u, u ∈ usables input m a ↔ offer input u)
  ∧ ∀ x u, u ∈ default [] (s.2 !! x) ↔ u ∈ usables input m a ∧ x ∈ usable_slotIds u.
Proof.
  intros Hm ((HaN & Ha) & HaOk) (_ & _ & Hok & Hmem).
  assert (∀ u, u ∈ usables input m a ↔ ∃ c, c ∈ candidates input ∧ usableOf input m a c = Ok (Some u)) as Hus.
  { intros u. unfold usables. rewrite list_elem_of_omap. split; intros (c & Hc & Hu); exists c; split; try done.
    - by destruct (usableOf input m a c) as [[v|]|]; simplify_eq.
    - by rewrite Hu. }
  split.
  - intros u. rewrite Hus. split.
    + intros (c & Hc & Hu). by eapply usableOf_offer.
    + intros Hu. pose proof (of_candidate _ _ Hu) as Hc. destruct (Hok _ Hc) as [r Hr].
      exists (candidate u). split; [done|]. rewrite Hr. f_equal. by eapply offer_usableOf.
  - intros x u. rewrite Hmem, Hus. tauto.
Qed.

(** A slot without candidates cannot be served. *)
Lemma unserved_infeasible (input : ResourcePlanSelectorInput) (bySlot : gmap jstr (list UsableCandidate)) slot :
  (∀ x u, u ∈ default [] (bySlot !! x) ↔ offer input u ∧ x ∈ usable_slotIds u) →
  slot ∈ requested input → default [] (bySlot !! slot_id slot) = [] → ¬ ∃ vs, feasible_plan input vs.
Proof.
  intros Hby Hslot Hnone (vs & [Hpicks Hslots _ _ _ _]).
  assert (slot_id slot ∈ vs ≫= usable_slotIds) as Hin by (rewrite Hslots; by apply list_elem_of_fmap_2).
  apply list_elem_of_bind in Hin as (v & Hx & Hv). destruct (Hpicks v Hv) as (u & Hu & _ & _ & Hsub & _).
  apply (not_elem_of_nil u). rewrite <-Hnone. apply Hby. auto.
Qed.

Lemma sorted_by_slot (bySlot : gmap jstr (list UsableCandidate)) (x : jstr) u :
  u ∈ default [] ((js_sort compareUsable <$> bySlot) !! x) ↔ u ∈ default [] (bySlot !! x).
Proof. rewrite lookup_fmap. destruct (bySlot !! x); cbn; [apply elem_of_js_sort|done]. Qed.

(** Slots with the same list of planner options have the same candidates. *)
Lemma same_option_set (l k : list UsableCandidate) (P : UsableCandidate → Prop) u :
  (∀ v w, P v → P w → plannerOptionIdentity (candidate v) = plannerOptionIdentity (candidate w) → v = w) →
  (∀ v, v ∈ l → P v) → (∀ v, v ∈ k → P v) →
  jsonStringify (plannerOptionIdentity ∘ candidate <$> l) = jsonStringify (plannerOptionIdentity ∘ candidate <$> k) →
  u ∈ l → u ∈ k.
Proof.
  intros Hid Hl Hk Heq%(inj jsonStringify) Hu.
  assert (plannerOptionIdentity (candidate u) ∈ (plannerOptionIdentity ∘ candidate <$> k)) as Hin.
  { rewrite <-Heq. by apply (list_elem_of_fmap_2 (plannerOptionIdentity ∘ candidate)). }
  apply list_elem_of_fmap in Hin as (v & Hv & Hvk). by rewrite (Hid u v (Hl u Hu) (Hk v Hvk) Hv).
Qed.

(** What the search relies on. *)
Lemma prepared_search (input : ResourcePlanSelectorInput) (usable : list UsableCandidate)
    (bySlot : gmap jstr (list UsableCandidate)) (ordered : list jstr) :
  NoDup (slot_id <$> requested input) → Forall (λ s, slot_id s ≠ []) (requested input) →
  NoDup (plannerOptionIdentity <$> candidates input) →
  match maximumCapacityIntervalCount input with
  | Some n => negb (isSafeInteger n) || (num n <? 1) | None => false end = false →
  ordered ≡ₚ slot_id <$> requested input →
  (∀ u, u ∈ usable ↔ offer input u) →
  (∀ x u, u ∈ default [] (bySlot !! x) ↔ u ∈ usable ∧ x ∈ usable_slotIds u) →
  (∀ slot, slot ∈ requested input → default [] (bySlot !! slot_id slot) ≠ []) →
  search_wf (maximumCapacityIntervalCount input) usable ordered bySlot
    ((λ us, jsonStringify (plannerOptionIdentity ∘ candidate <$> us)) <$> bySlot).
Proof.
  intros HN Hne HNc Hmax Hord Hus Hby Hserved.
  assert (∀ x, x ∈ ordered → ∃ slot, slot ∈ requested input ∧ x = slot_id slot) as Hslot.
  { intros x Hx. rewrite Hord in Hx. apply list_elem_of_fmap in Hx as (slot & -> & ?). eauto. }
  assert (∀ x, x ∈ ordered → ∃ us, bySlot !! x = Some us ∧ ∀ u, u ∈ us ↔ u ∈ usable ∧ x ∈ usable_slotIds u) as Hl.
  { intros x (slot & Hs & ->)%Hslot. specialize (Hserved slot Hs). setoid_rewrite <-Hby.
    destruct (bySlot !! slot_id slot) as [us|]; [by exists us|done]. }
  split; try done.
  - by rewrite Hord.
  - intros x (slot & Hs & ->)%Hslot. rewrite Forall_forall in Hne. by apply Hne.
  - intros x (us & Hx & _)%Hl. rewrite lookup_fmap, Hx. by eexists.
  - intros x y u (us & Hx & Hux)%Hl (ws & Hy & Huy)%Hl. rewrite !lookup_fmap, Hx, Hy. intros Heq%(inj Some) Hu Hxu.
    apply Huy. apply (same_option_set us ws (offer input)); try done.
    + intros v w Hv Hw. by apply (offer_identity input).
    + intros v [Hv _]%Hux. by apply Hus.
    + intros v [Hv _]%Huy. by apply Hus.
    + by apply Hux.
  - intros u [Hc _ _ _ _ _ (_ & HNu & Hfit) (_ & _ & Hlo & _) _ _ _]%Hus. split_and!; [done| |done].
    intros x (slot & Hs & <- & _)%Hfit. rewrite Hord. by apply list_elem_of_fmap_2.
  - intros u v Hu%Hus Hv%Hus. by apply (offer_identity input).
  - intros u [_ _ _ _ _ _ _ _ Hm _ _]%Hus. apply positive_pos in Hm. lia.
  - intros n Hn. rewrite Hn in Hmax. bool_inv. lia.
Qed.

Lemma prepareSearch_spec input r :
  prepareSearch input = Ok r →
  match r with
  | Some p => prepared_ok input p
  | None => ¬ (well_posed input ∧ ∃ vs, feasible_plan input vs)
  end.
Proof.
  unfold prepareSearch. intros H.
  assert (∀ slots, match requiredFulfilmentSlots input with Some s => Some s | None => requiredSlots input end
    = slots → requested input = default [] slots) as Hreq by (by intros ? <-).
  destruct (match requiredFulfilmentSlots input with Some s => Some s | None => requiredSlots input end)
    as [[|slot0 slots]|]; specialize (Hreq _ eq_refl).
  1,3: injection H as <-; intros [[[Hne _] _ _ _] _]; done.
  assert (requested input ≠ []) as Hne by (by rewrite Hreq).
  cbn [default from_option Datatypes.id] in Hreq. rewrite <-Hreq in H. clear slot0 slots Hreq.
  apply bind_Ok in H as ([] & _ & H). apply bind_Ok in H as ([] & Hmax%throw_when_Ok & H).
  destruct (slots_loop (requested input)) as [Hsl Hsl'].
  destruct (inventory_loop (inventory input)) as [Hinv Hinv'].
  apply obind_Ok in H as [[H ->]|(slotById & Hs & H)]; [by intros [[[_ ?] _ _ _] _]; apply Hsl'|].
  apply Hsl in Hs as (HNs & HFs & Hm). clear Hsl Hsl'.
  apply obind_Ok in H as [[H ->]|(avail & Ha & H)]; [by intros [[_ ? _ _] _]; apply Hinv'|].
  apply Hinv in Ha as Ha. clear Hinv Hinv'. pose proof Ha as [[HNi Hav] _].
  apply bind_Ok in H as (valid & Hv & H). apply validIntervals_Ok in Hv.
  apply obind_Ok in H as [[Hu%undefined_when_None ->]|([] & Hu%undefined_when_Some & H)].
  { intros [[_ _ Hocc _] _]. apply Hv in Hocc. by subst. }
  apply negb_false_iff, Hv in Hu. clear valid Hv.
  destruct (candidates_loop input slotById avail) as [Hc Hc'].
  apply obind_Ok in H as [[H ->]|([ids bySlot] & Hs & H)]; [by intros [[_ _ _ ?] _]; apply Hc'|].
  apply Hc in Hs. clear Hc Hc'. pose proof Hs as (_ & HNc & _ & _). cbv zeta in H.
  destruct (inspected_offers input slotById avail (ids, bySlot) Hm Ha Hs) as [Hus Hby]. cbn [snd] in Hby.
  assert (∀ x u, u ∈ default [] ((js_sort compareUsable <$> bySlot) !! x) ↔
    u ∈ usables input slotById avail ∧ x ∈ usable_slotIds u) as Hby' by (intros x u; by rewrite sorted_by_slot).
  set (sorted := js_sort compareUsable <$> bySlot) in *. clearbody sorted.
  apply obind_Ok in H as [[Hn%undefined_when_None ->]|([] & Hn%undefined_when_Some & [= <-])].
  - intros [_ Hex]. revert Hex. apply existsb_exists in Hn as (slot & Hslot%list_elem_of_In & Hempty).
    apply (unserved_infeasible input sorted slot); [|done|].
    + intros x u. by rewrite Hby', Hus.
    + by destruct (sorted !! slot_id slot) as [[|]|].
  - split; cbn; [done|apply js_sort_perm|done|]. exists (usables input slotById avail). split; [done|].
    apply prepared_search; try done; [apply js_sort_perm|].
    intros slot Hslot. rewrite existsb_false in Hn. specialize (Hn slot Hslot).
    by destruct (sorted !! slot_id slot) as [[|]|].
Qed.

(** ** The result *)

Lemma add_targets ts :
  let s := foldl add ([], ∅) ts in
  (∀ t, t ∈ s.1 → t ∈ ts) ∧ (∀ t, t ∈ ts → ∃ t', t' ∈ s.1 ∧ lockIdentity t' = lockIdentity t)
  ∧ s.2 = list_to_set (lockIdentity <$> s.1).
Proof.
  cbv zeta. induction ts as [|t ts IH] using rev_ind.
  { cbn. split_and!; [done|by intros t ?%elem_of_nil|done]. }
  rewrite foldl_app. cbn [foldl]. destruct (foldl add ([], ∅) ts) as [targets ids]. cbn [fst snd] in IH.
  destruct IH as (Hin & Hout & ->). unfold add. fold (lockIdentity t). case_bool_decide as Hi; cbn [fst snd].
  - apply elem_of_list_to_set, list_elem_of_fmap in Hi as (t0 & Ht0 & Ht0in). split_and!; [|intros u|done].
    + intros u Hu. apply elem_of_app. auto.
    + intros [Hu| ->%list_elem_of_singleton]%elem_of_app; [auto|]. by exists t0.
  - split_and!.
    + intros u [Hu|Hu]%elem_of_app; apply elem_of_app; auto.
    + intros u [Hu| ->%list_elem_of_singleton]%elem_of_app.
      * destruct (Hout u Hu) as (t' & Ht' & Heq). exists t'. split; [|done]. apply elem_of_app. by left.
      * exists t. split; [|done]. apply elem_of_app. right. by left.
    + rewrite fmap_app, list_to_set_app_L. cbn. set_solver.
Qed.

Lemma buildLockTargets_Ok us r :
  buildLockTargets us = Ok r →
  StronglySorted LockOrder.before r
  ∧ (∀ v t, v ∈ us → t ∈ targetsOf v → ∃ t', t' ∈ r ∧ lockIdentity t' = lockIdentity t)
  ∧ ∀ t, t ∈ r → ∃ v, v ∈ us ∧ t ∈ targetsOf v.
Proof.
  unfold buildLockTargets. intros [Hwf ->]%LockOrder.orderLockTargets_Ok.
  destruct (add_targets (us ≫= targetsOf)) as (Hin & Hout & _). split_and!.
  - by apply LockOrder.ordered_strictly.
  - intros v t Hv Ht. destruct (Hout t) as (t' & Ht' & Heq); [apply list_elem_of_bind; eauto|].
    exists t'. by rewrite elem_of_js_sort.
  - intros t Ht%elem_of_js_sort%Hin. apply list_elem_of_bind in Ht as (v & ? & ?). eauto.
Qed.

#[local] Instance assignment_comparator : Comparator (λ l r : ResourcePlanSlotAssignment,
  js_or (compareStrings (assigned_fulfilmentSlotId l) (assigned_fulfilmentSlotId r))
        (compareStrings (candidateResourceEstimateId l) (candidateResourceEstimateId r))).
Proof. apply _. Qed.

(** The result presents the choice. *)
Lemma completePlan_presents input vs plan :
  NoDup (plannerOptionIdentity <$> candidates input) → (∀ v, v ∈ vs → candidate v ∈ candidates input) →
  completePlan input (choice_of vs) = Ok plan → presents vs plan.
Proof.
  intros HN Hvs H. unfold completePlan in H. cbv zeta in H. apply bind_Ok in H as (locks & Hl & [= <-]).
  apply buildLockTargets_Ok in Hl as (Hsorted & Hall & Honly). cbn [choice_candidates choice_of] in *.
  split; cbn; try done.
  - apply list_fmap_ext. intros i v Hv%list_elem_of_lookup_2%elem_of_js_sort. cbn.
    apply (find_key plannerOptionIdentity); auto.
  - rewrite js_sort_perm. by rewrite js_sort_perm.
  - eapply sorted_mono; [|apply js_sort_sorted; apply _]. intros a b. cbn. unfold js_or.
    destruct (Z.eqb_spec (compareStrings (assigned_fulfilmentSlotId a) (assigned_fulfilmentSlotId b)) 0); lia.
  - intros v t Hv. apply Hall. by apply elem_of_js_sort.
  - intros t (v & Hv%elem_of_js_sort & Ht)%Honly. eauto.
Qed.

(** The planner, as specified. *)
Lemma select_spec input r :
  selectCompleteResourcePlan input = Ok r →
  match r with
  | Some plan => well_posed input ∧ ∃ vs, feasible_plan input vs ∧ presents vs plan
      ∧ ∀ ws, feasible_plan input ws → choiceCompare (choice_of vs) (choice_of ws) ≤ 0
  | None => ¬ (well_posed input ∧ ∃ vs, feasible_plan input vs)
  end.
Proof.
  unfold selectCompleteResourcePlan. intros [[H ->]|(p & Hp & H)]%obind_Ok; [by apply (prepareSearch_spec input None)|].
  apply prepareSearch_spec in Hp as [Hposed Hord Hav (usable & Hus & Hwf)]. cbv zeta in H.
  set (s := search _ _ _ _ _ _ _ _ _ _ _) in H. pose proof Hposed as [[_ HN] _ _ HNc].
  set (fuel := S (length (prepared_orderedSlotIds p))) in s.
  assert (∀ vs, feasible (maximumCapacityIntervalCount input) (prepared_availability p) usable
    (prepared_orderedSlotIds p) vs ↔ feasible_plan input vs) as Hfeas by (intros vs; by apply feasible_spec).
  destruct (search_steps (maximumCapacityIntervalCount input) (prepared_availability p) usable
    (prepared_orderedSlotIds p) (prepared_candidatesBySlot p) (prepared_slotOptionSet p) Hwf fuel [] emptyState)
    as [(_ & Hgood & _) Hbest]; [done|by eapply feasible_part_nil|done|].
  change (search _ _ _ _ _ _ _ _ _ _ _) with s in Hgood, Hbest. cbn [app] in Hbest.
  assert (∀ ws, feasible_plan input ws → no_worse (best s) (choice_of ws)) as Hno.
  { intros ws Hws%Hfeas. apply Hbest; [cbn; unfold fuel; lia|done]. }
  destruct (best s) as [choice|].
  - apply bind_Ok in H as (plan & Hplan & [= <-]). destruct (Hgood choice eq_refl) as (vs & -> & Hvs%Hfeas).
    split; [done|]. exists vs. split_and!; [done| |].
    + eapply completePlan_presents; [done| |done]. intros v Hv.
      destruct (fp_picks _ _ Hvs v Hv) as (u & [Hc _ _ _ _ _ _ _ _ _ _] & -> & _). done.
    + intros ws Hws. destruct (Hno ws Hws) as (d & [= <-] & Hle). done.
  - injection H as <-. intros [_ [vs Hvs]]. by destruct (Hno vs Hvs) as (d & [=] & _).
Qed.

Lemma sorted_pairs {A} (R : A → A → Prop) l x y :
  (∀ a b, R a b → R b a) → StronglySorted R l → x ∈ l → y ∈ l → x ≠ y → R x y.
Proof.
  intros HR. induction 1 as [|a l _ IH Ha]; [by intros ?%not_elem_of_nil|]. rewrite Forall_forall in Ha.
  rewrite !elem_of_cons. intros [->|Hx] [->|Hy] Hne; auto. done.
Qed.

(** *** A sample input *)

(** One machine and one spool for two equal slots: a candidate that prints
    both on one plate, and one candidate for each alone. *)
Definition sampleInterval (start : Z) : ResourceCapacityInterval :=
  mkInterval (Some (js "i" ++ [start])) None (js "m") None None (Some start) (Some (start + 3000)).

Definition sampleCandidate (key : jstr) (slots : list jstr) (milligrams start : Z) : ResourceCandidateEstimate :=
  mkCandidate key None None (js "n") (js "m") None None (js "spool") (js "plan") (js "geometry") (js "config")
    (js "PLA") None (BigIntAmount milligrams) (NumberAmount (IntNum 2)) (Some 9000) [sampleInterval start]
    (Some slots) None None None None None None None None.

Definition sampleSlot (key : jstr) : FulfilmentSlotResourceInput :=
  mkSlot key (js "plan") (js "geometry") (js "config") (js "PLA") None.

Definition sampleInput (grams : Z) (candidates : list ResourceCandidateEstimate) : ResourcePlanSelectorInput :=
  mkInput (Some (sampleSlot <$> [js "s1"; js "s2"])) None candidates
    [mkInventory (js "spool") None None None (Some (BigIntAmount grams)) None None]
    None (Some (IntNum 5)) (Some 1000).

Definition sampleCandidates : list ResourceCandidateEstimate :=
  [sampleCandidate (js "b") [js "s1"; js "s2"] 900 2000; sampleCandidate (js "c") [js "s1"] 300 6000;
   sampleCandidate (js "d") [js "s2"] 300 2000].

End ResourcePlanFacts.

(** * Theorems *)

Import ResourcePlan ResourceSearch ResourcePlanFacts.

(** C6: A returned resource plan serves the order: every requested slot is
    assigned exactly once, no persisted candidate is used twice, every
    assignment is to an eligible (not reference, not expired) candidate of the
    input that matches the slot's plan, geometry, configuration, material and
    colour, and the capacity intervals of the chosen candidates overlap neither
    occupied capacity nor each other. *)
Theorem resource_plan_serves input plan :
  selectCompleteResourcePlan input = Ok (Some plan) →
  assigned_fulfilmentSlotId <$> assignments plan ≡ₚ slot_id <$> requested input
  ∧ NoDup (slot_id <$> requested input)
  ∧ NoDup (candidateResourceEstimateIds plan)
  ∧ (∀ a, a ∈ assignments plan → ∃ c, Some c ∈ plan_candidates plan ∧ id c = candidateResourceEstimateId a
       ∧ c ∈ candidates input ∧ ineligible input c = false ∧ fits input c (assigned_fulfilmentSlotId a)
       ∧ ∀ i j, i ∈ intervals c → j ∈ occupied input → intervalOverlaps i j = false)
  ∧ ∀ c d i j, Some c ∈ plan_candidates plan → Some d ∈ plan_candidates plan → c ≠ d →
      i ∈ intervals c → j ∈ intervals d → intervalOverlaps i j = false.
Proof.
  intros ([[_ HN] _ _ _] & vs & [Hpicks Hslots Hids Hap _ _] & [Hc Hi Ha _ _ _ _ _ _] & _)%select_spec.
  assert (∀ c, Some c ∈ plan_candidates plan ↔ ∃ v, v ∈ vs ∧ c = candidate v) as Hin.
  { intros c. rewrite Hc, list_elem_of_fmap. setoid_rewrite elem_of_js_sort. cbn. naive_solver. }
  split_and!; [|done|by rewrite Hi, js_sort_perm| |].
  - rewrite Ha, <-Hslots. clear. induction vs as [|v vs IH]; [done|].
    rewrite !bind_cons, fmap_app, IH. by rewrite <-list_fmap_compose, list_fmap_id.
  - intros a Hin'. rewrite Ha in Hin'. apply list_elem_of_bind in Hin' as (v & (s & -> & Hs)%list_elem_of_fmap & Hv).
    exists (candidate v). destruct (Hpicks v Hv) as (u & [Hcu Hel _ _ _ Hfree (_ & _ & Hfit) _ _ _ _] & Heq & _ & Hsub & _).
    rewrite Heq in *. cbn in *. split_and!; try done; [|by apply Hfit, Hsub].
    apply Hin. by exists v; rewrite Heq.
  - intros c d i j (v & Hv & ->)%Hin (w & Hw & ->)%Hin Hne Hic Hjd.
    assert (v ≠ w) as Hvw by congruence.
    refine (sorted_pairs _ _ v w _ Hap Hv Hw Hvw i j Hic Hjd).
    intros x y Hxy i' j' Hi' Hj'. rewrite intervalOverlaps_sym. by apply Hxy.
Qed.

Lemma resource_plan_serves_witness :
  ∃ plan, selectCompleteResourcePlan (sampleInput 1 sampleCandidates) = Ok (Some plan)
    ∧ candidateResourceEstimateIds plan = [js "b"]
    ∧ NoDup (slot_id <$> requested (sampleInput 1 sampleCandidates)).
Proof.
  eexists. split; [vm_compute; reflexivity|]. split; [reflexivity|].
  eapply (resource_plan_serves (sampleInput 1 sampleCandidates)). vm_compute. reflexivity.
Defined.

(** C4: A returned resource plan is a best feasible one: it presents a choice
    of candidates and slots within material, capacity and the interval limit
    (its totals and candidate ids are the choice's, its lock targets are those
    the chosen candidates need, in lock order), and no feasible plan for the
    input ranks before it by number of candidates, material, machine time and
    identities. *)
Theorem resource_plan_optimal input plan :
  selectCompleteResourcePlan input = Ok (Some plan) →
  ∃ vs, feasible_plan input vs ∧ presents vs plan
    ∧ ∀ ws, feasible_plan input ws → choiceCompare (choice_of vs) (choice_of ws) ≤ 0.
Proof. by intros (_ & Hvs)%select_spec. Qed.

Lemma resource_plan_optimal_witness :
  ∃ plan, selectCompleteResourcePlan (sampleInput 1 (drop 1 sampleCandidates)) = Ok (Some plan)
    ∧ plan_requiredMaterialMilligrams plan = 600
    ∧ ∃ vs, feasible_plan (sampleInput 1 (drop 1 sampleCandidates)) vs ∧ presents vs plan
        ∧ ∀ ws, feasible_plan (sampleInput 1 (drop 1 sampleCandidates)) ws →
            choiceCompare (choice_of vs) (choice_of ws) ≤ 0.
Proof.
  eexists. split; [vm_compute; reflexivity|]. split; [reflexivity|].
  apply resource_plan_optimal. vm_compute. reflexivity.
Defined.

(** C5: Unless the input makes it throw, the planner returns a plan exactly
    when the input is well posed (slots present and distinct, inventory entries
    and planner options distinct, occupied capacity disjoint) and some feasible
    plan exists: the pruned, canonical search misses none. *)
Theorem resource_plan_decides input r :
  selectCompleteResourcePlan input = Ok r →
  is_Some r ↔ well_posed input ∧ ∃ vs, feasible_plan input vs.
Proof.
  intros H%select_spec. destruct r as [plan|].
  - destruct H as (Hwp & vs & Hvs & _). split; [eauto|by eexists].
  - split; [by intros []|done].
Qed.

Lemma resource_plan_decides_witness :
  selectCompleteResourcePlan (sampleInput 0 sampleCandidates) = Ok None
  ∧ ¬ (well_posed (sampleInput 0 sampleCandidates) ∧ ∃ vs, feasible_plan (sampleInput 0 sampleCandidates) vs).
Proof.
  assert (selectCompleteResourcePlan (sampleInput 0 sampleCandidates) = Ok None) as H by (vm_compute; reflexivity).
  split; [done|]. intros Hex. by apply (resource_plan_decides _ _ H) in Hex as [? [=]].
Defined.
