(* ===== verification/Values.v ===== *)
(** Values of type [unknown], as the lifecycle guards inspect them: the
    context of a transition is a record of such values. *)
From S2P Require Import Prelude Text Primitives.

(** ** Data *)

(** A value.  Objects have an identity, their address, which is what strict
    equality compares; records and arrays are read, never written, so their
    contents are part of the value.  A non-integral number is identified by
    its bits. *)
Inductive value :=
| Undefined
| Null
| Bool (b : bool)
| Integral (z : Z)
| NonIntegral (bits : Z)
| NaN
| Infinity (negative : bool)
| BigIntV (z : Z)
| Str (s : jstr)
| InstantV (address : Z) (i : Instant.t)
| ArrayV (address : Z) (elements : list value)
| RecordV (address : Z) (fields : list (jstr * value))
| MapV (address : Z) (entries : list (value * value)).

(** The first entry with a key. *)
Fixpoint assoc {A} (k : jstr) (l : list (jstr * A)) : option A :=
  match l with
  | [] => None
  | (k', a) :: l' => if str_eqb k' k then Some a else assoc k l'
  end.

(** [v?.[k]]: undefined at a missing property and at a value without
    properties.  The one own property of an [Instant] is its number. *)
Definition property (v : value) (k : jstr) : value :=
  match v with
  | RecordV _ fields => default Undefined (assoc k fields)
  | InstantV _ i =>
      if str_eqb k (js "epochMilliseconds") then Integral (Instant.epochMilliseconds i) else Undefined
  | _ => Undefined
  end.

(** [v?.k] *)
Definition get (v : value) (k : String.string) : value := property v (js k).
Arguments get _ _%_string.

Notation "v ?. k" := (get v k) (at level 8, left associativity, k at level 0) : taven_scope.

(** [a === b] *)
Definition strict_eq (a b : value) : bool :=
  match a, b with
  | Undefined, Undefined | Null, Null => true
  | Bool x, Bool y => Bool.eqb x y
  | Integral x, Integral y | NonIntegral x, NonIntegral y | BigIntV x, BigIntV y => x =? y
  | Infinity x, Infinity y => Bool.eqb x y
  | Str x, Str y => str_eqb x y
  | InstantV x _, InstantV y _ | ArrayV x _, ArrayV y _ | RecordV x _, RecordV y _
  | MapV x _, MapV y _ => x =? y
  | _, _ => false
  end.

Notation "a === b" := (strict_eq a b) (at level 69, no associativity) : taven_scope.
Notation "a !== b" := (negb (strict_eq a b)) (at level 69, no associativity) : taven_scope.

(** Literals, and optional strings. *)
Definition lit (s : String.string) : value := Str (js s).
Arguments lit _%_string.

Definition optional (s : option jstr) : value := match s with Some s => Str s | None => Undefined end.

(** [typeof v === "string" && v.trim().length > 0] *)
Definition nonBlank (v : value) : bool := match v with Str s => negb (blank s) | _ => false end.

(** [typeof v === "object" && v !== null && !Array.isArray(v)] *)
Definition is_record (v : value) : bool := match v with RecordV _ _ | InstantV _ _ | MapV _ _ => true | _ => false end.

(** [typeof v === "object" && v !== null && !Array.isArray(v) ? v : undefined] *)
Definition record (v : value) : value := if is_record v then v else Undefined.

(** [v instanceof Instant], with the instant. *)
Definition instant (v : value) : option Instant.t := match v with InstantV _ i => Some i | _ => None end.

(** [a instanceof Instant && b instanceof Instant && a.equals(b)] *)
Definition sameInstant (a b : value) : bool :=
  match instant a, instant b with
  | Some i, Some j => Instant.equals i j
  | _, _ => false
  end.

(** [Array.from(s).length]: a surrogate pair is one element. *)
Fixpoint codePoints (s : jstr) : Z :=
  match s with
  | [] => 0
  | c :: s' =>
      match s' with
      | d :: s'' =>
          if (55296 <=? c) && (c <=? 56319) && ((56320 <=? d) && (d <=? 57343))
          then 1 + codePoints s'' else 1 + codePoints s'
      | [] => 1
      end
  end.

(** *** Arrays, sets and maps

    A set is the list of its elements and a map the list of its entries, in
    the order of insertion, which is the order of iteration.  The guards test
    that a value is an array before they read its length or its elements, and
    a reading operation is given the value it has on no array by convention. *)

Definition is_array (v : value) : bool := match v with ArrayV _ _ => true | _ => false end.
Definition is_string (v : value) : bool := match v with Str _ => true | _ => false end.
Definition is_bigint (v : value) : bool := match v with BigIntV _ => true | _ => false end.
Definition is_boolean (v : value) : bool := match v with Bool _ => true | _ => false end.
Definition is_instant (v : value) : bool := match v with InstantV _ _ => true | _ => false end.

Definition elements (v : value) : list value := match v with ArrayV _ l => l | _ => [] end.

Definition zlength {A} (l : list A) : Z := Z.of_nat (length l).

(** [v?.length] *)
Definition lengthV (v : value) : value :=
  match v with
  | ArrayV _ l => Integral (zlength l)
  | Str s => Integral (js_length s)
  | _ => v ?. "length"
  end.

(** [v.length], of an array or a string. *)
Definition js_len (v : value) : Z := match lengthV v with Integral z => z | _ => 0 end.

(** [Array.isArray(v) ? v : undefined] and [Array.isArray(v) ? v : []], with a
    copy of the array or the array itself: no guard compares the two. *)
Definition array (v : value) : value := if is_array v then v else Undefined.
Definition array_or_empty (v : value) : value := if is_array v then v else ArrayV 0 [].

(** [v[n]] *)
Definition item (v : value) (n : nat) : value := default Undefined (elements v !! n).

(** The equality of [includes], [Set] and [Map], which identifies [NaN]s. *)
Definition same_value (a b : value) : bool :=
  match a, b with NaN, NaN => true | _, _ => a === b end.

Definition includes (l : list value) (v : value) : bool := existsb (same_value v) l.

(** [l.find(f)], from its result as an option. *)
Definition found (v : option value) : value := default Undefined v.

Abbreviation set_has := includes (only parsing).
Definition set_add (l : list value) (v : value) : list value := if set_has l v then l else l ++ [v].
Definition set_of (l : list value) : list value := foldl set_add [] l.

Fixpoint map_find (m : list (value * value)) (k : value) : option value :=
  match m with
  | [] => None
  | (k', v) :: m' => if same_value k k' then Some v else map_find m' k
  end.
Definition map_get (m : list (value * value)) (k : value) : value := found (map_find m k).
Definition map_has (m : list (value * value)) (k : value) : bool := includes (map fst m) k.
Fixpoint map_set (m : list (value * value)) (k v : value) : list (value * value) :=
  match m with
  | [] => [(k, v)]
  | (k', v') :: m' => if same_value k k' then (k', v) :: m' else (k', v') :: map_set m' k v
  end.
(** The map a value is, and [[...m]], its entries as pairs. *)
Definition entries (v : value) : list (value * value) := match v with MapV _ m => m | _ => [] end.
Definition map_entries (m : list (value * value)) : list value := map (λ '(k, v), ArrayV 0 [k; v]) m.

Definition map_keys (m : list (value * value)) : list value := map fst m.
Definition map_values (m : list (value * value)) : list value := map snd m.

(** [new Map(l)], of pairs. *)
Definition map_of (l : list value) : list (value * value) :=
  foldl (λ m pair, map_set m (item pair 0) (item pair 1)) [] l.

(** [strings.sort()] *)
Definition sort_strings (l : list value) : list value :=
  js_sort (λ a b, match a, b with Str s, Str t => compareStrings s t | _, _ => 0 end) l.

(** [l.every((v, index) => f(v, index))] *)
Definition every_indexed (f : value → nat → bool) (l : list value) : bool :=
  forallb (λ p, f (snd p) (fst p)) (zip (seq 0 (length l)) l).

(** *** Loops that end early

    What an iteration of a [for ... of] does next, for a loop whose variables
    are [S] in a function that returns [R]. *)
Inductive flow (S R : Type) :=
| Next (s : S)
| Break (s : S)
| Return (r : R).
Arguments Next {S R} _.
Arguments Break {S R} _.
Arguments Return {S R} _.

(** A loop that can return from its function, which goes on with [k]. *)
Fixpoint for_return {S A R} (f : S → A → flow S R) (s : S) (l : list A) (k : S → R) : R :=
  match l with
  | [] => k s
  | v :: l' =>
      match f s v with
      | Next s' => for_return f s' l' k
      | Break s' => k s'
      | Return r => r
      end
  end.

(** A loop that can only break. *)
Definition for_break {S A} (f : S → A → flow S S) (s : S) (l : list A) : S :=
  for_return f s l (λ s, s).

(** [l.every(f)], for an [f] that also updates variables of its function. *)
Fixpoint every_with {S A} (f : S → A → bool * S) (s : S) (l : list A) : bool * S :=
  match l with
  | [] => (true, s)
  | a :: l' => let '(b, s') := f s a in if b then every_with f s' l' else (false, s')
  end.

(** *** Other operations *)

(** [v?.[k]], for a key that is a value. *)
Definition get_key (v k : value) : value := match k with Str s => property v s | _ => Undefined end.

(** [Object.prototype.hasOwnProperty.call(v, k)] *)
Definition has_property (v : value) (k : String.string) : bool :=
  match v with
  | RecordV _ fields => bool_decide (is_Some (assoc (js k) fields))
  | InstantV _ _ => str_eqb (js k) (js "epochMilliseconds")
  | _ => false
  end.
Arguments has_property _ _%_string.

(** The entries of [{...v}]; a literal that spreads has distinct keys. *)
Definition fields (v : value) : list (jstr * value) := match v with RecordV _ l => l | _ => [] end.

(** [v?.m(...)], for the result of the call, and [a ?? b]. *)
Definition when_defined (v r : value) : value := match v with Undefined | Null => Undefined | _ => r end.
Definition coalesce (a b : value) : value := match a with Undefined | Null => b | _ => a end.

Definition truthy (v : value) : bool :=
  match v with
  | Undefined | Null | NaN => false
  | Bool b => b
  | Integral z | BigIntV z => negb (z =? 0)
  | Str s => negb (js_length s =? 0)
  | _ => true
  end.

(** Comparison and arithmetic of two integral numbers, or of two BigInts: the
    guards test the types first. *)
Definition numeric (v : value) : option Z := match v with Integral z | BigIntV z => Some z | _ => None end.
Definition js_lt (a b : value) : bool :=
  match numeric a, numeric b with Some x, Some y => x <? y | _, _ => false end.
Definition js_le (a b : value) : bool :=
  match numeric a, numeric b with Some x, Some y => x <=? y | _, _ => false end.
Definition js_add (a b : value) : value :=
  match a, b with
  | Integral x, Integral y => Integral (x + y)
  | BigIntV x, BigIntV y => BigIntV (x + y)
  | _, _ => Undefined
  end.
Definition js_sub (a b : value) : value :=
  match a, b with
  | Integral x, Integral y => Integral (x - y)
  | BigIntV x, BigIntV y => BigIntV (x - y)
  | _, _ => Undefined
  end.

(** The product of two numbers.  The guards multiply a number of days by the
    milliseconds of a day, [2 ^ 10 * 84375]: a product below [2 ^ 63] is a
    double exactly, and a larger one is no time. *)
Definition js_mul (a b : value) : value :=
  match a, b with
  | Integral x, Integral y => Integral (x * y)
  | BigIntV x, BigIntV y => BigIntV (x * y)
  | _, _ => Undefined
  end.

(** [Math.max(...l)], of integral numbers. *)
Definition js_max_of (l : list value) : value :=
  match omap numeric l with [] => Infinity true | z :: zs => Integral (foldl Z.max z zs) end.

(** [Number.isSafeInteger(v)] *)
Definition is_number (v : value) : bool :=
  match v with Integral _ | NonIntegral _ | NaN | Infinity _ => true | _ => false end.
Definition is_safe_integer (v : value) : bool :=
  match v with Integral z => safe_int z | _ => false end.

(** [Object.keys(v)] *)
Definition object_keys (v : value) : list value :=
  match v with
  | RecordV _ fields => set_of (map (λ f, Str (fst f)) fields)
  | InstantV _ _ => [lit "epochMilliseconds"]
  | _ => []
  end.

(** [/^[A-Z]{3}$/.test(v)], of a string. *)
Definition isCurrencyCode (v : value) : bool :=
  match v with
  | Str s => (js_length s =? 3) && forallb (λ c, (65 <=? c) && (c <=? 90)) s
  | _ => false
  end.

(** [a.compare(b)], of instants. *)
Definition compareV (a b : value) : Z :=
  match instant a, instant b with Some i, Some j => Instant.compare i j | _, _ => 0 end.

(** [String(v)], also for the holes of templates.  A guard interpolates values
    that it tests to be strings in the same condition; the text of values with
    a structure is not modelled, and equals no string. *)
Definition text_of (v : value) : jstr :=
  match v with
  | Undefined => js "undefined"
  | Null => js "null"
  | Bool b => if b then js "true" else js "false"
  | Integral z | BigIntV z => toString10 z
  | NaN => js "NaN"
  | Infinity negative => if negative then js "-Infinity" else js "Infinity"
  | Str s => s
  | NonIntegral _ | InstantV _ _ | ArrayV _ _ | RecordV _ _ | MapV _ _ => [-1]
  end.
Definition js_String (v : value) : value := Str (text_of v).

(** ** Facts *)

Lemma assoc_elem {A} k (l : list (jstr * A)) a : assoc k l = Some a → (k, a) ∈ l.
Proof.
  induction l as [|[k' a'] l IH]; cbn; [done|]. unfold str_eqb. case_bool_decide as Hk.
  - intros [= ->]. subst. by left.
  - intros H. right. auto.
Qed.

Lemma strict_eq_Str v s : (v === Str s) = true ↔ v = Str s.
Proof.
  destruct v; cbn; try done. unfold str_eqb. rewrite bool_decide_eq_true. naive_solver.
Qed.

Lemma strict_eq_lit v s : (v === lit s) = true ↔ v = lit s.
Proof. apply strict_eq_Str. Qed.

Lemma strict_eq_Bool v b : (v === Bool b) = true ↔ v = Bool b.
Proof. destruct v; cbn; try done. rewrite Bool.eqb_true_iff. naive_solver. Qed.

Lemma strict_eq_nonBlank v w : nonBlank w = true → (v === w) = true ↔ v = w.
Proof. destruct w; cbn; try done. intros _. apply strict_eq_Str. Qed.

Lemma strict_eq_Undefined v : (v === Undefined) = true ↔ v = Undefined.
Proof. by destruct v. Qed.

Lemma strict_eq_Null v : (v === Null) = true ↔ v = Null.
Proof. by destruct v. Qed.

Lemma strict_eq_BigIntV v z : (v === BigIntV z) = true ↔ v = BigIntV z.
Proof. destruct v; cbn; try done. rewrite Z.eqb_eq. naive_solver. Qed.

Lemma strict_eq_sym v w : (v === w) = (w === v).
Proof.
  assert (∀ b c, Bool.eqb b c = Bool.eqb c b) as Hb by (by intros [] []).
  destruct v, w; cbn; try done; try apply Z.eqb_sym; try apply Hb.
  unfold str_eqb. by apply bool_decide_ext.
Qed.

Lemma is_boolean_Bool v : is_boolean v = true ↔ ∃ b, v = Bool b.
Proof. destruct v; cbn; naive_solver. Qed.

Lemma is_bigint_BigIntV v : is_bigint v = true ↔ ∃ z, v = BigIntV z.
Proof. destruct v; cbn; naive_solver. Qed.

#[export] Instance Str_inj : Inj (=) (=) Str.
Proof. by intros ? ? [=]. Qed.

Lemma nonBlank_Str v : nonBlank v = true ↔ ∃ s, v = Str s ∧ blank s = false.
Proof.
  destruct v; cbn; try by split; [done|intros (? & [=] & ?)]. rewrite negb_true_iff. naive_solver.
Qed.

Lemma instant_Some v i : instant v = Some i ↔ ∃ a, v = InstantV a i.
Proof. destruct v; cbn; naive_solver. Qed.

Lemma sameInstant_spec a b : sameInstant a b = true ↔ ∃ i, instant a = Some i ∧ instant b = Some i.
Proof.
  unfold sameInstant. destruct (instant a) as [i|], (instant b) as [j|]; try by split; [done|intros (? & [=] & [=])].
  unfold Instant.equals. rewrite Z.eqb_eq. destruct i as [i], j as [j]. cbn. naive_solver.
Qed.

#[export] Hint Rewrite strict_eq_lit strict_eq_Bool sameInstant_spec : guards.
