(* ===== verification/Transition.v ===== *)
(** The state-machine kernel of the lifecycles (lifecycle/transition.ts):
    policies, commands, and the one operation that applies a command to a
    policy.  Persistence is the caller's. *)
From S2P Require Import Prelude Text Primitives Values.

Module Transition.

(** ** Data *)

(** A status is the string the source's union type names. *)
Abbreviation Status := jstr (only parsing).

(** [transitions]: the entries of the object literal. *)
Abbreviation TransitionTable := (list (Status * list Status)) (only parsing).

Inductive TransitionResult :=
| changed (previous current : Status)
| reconciled (current : Status)
| already_applied (current : Status).

(** An absent [context] is [Undefined]. *)
Record TransitionCommand := mkCommand {
  aggregateId : option jstr;
  current : Status;
  target : Status;
  idempotencyKey : jstr;
  currentStateCommandKey : option jstr;
  currentStateResultId : option jstr;
  parentAggregateId : option jstr;
  parentCurrentStateCommandKey : option jstr;
  parentCurrentStateResultId : option jstr;
  ownershipSnapshotId : option jstr;
  ownershipSnapshotResultId : option jstr;
  context : value;
}.

Record TransitionPolicy := mkPolicy {
  name : jstr;
  initial : list Status;
  terminal : list Status;
  contextualTerminal : option (Status → value → result bool);
  transitions : TransitionTable;
  sameStateReconciliationGuard : option (TransitionCommand → result bool);
  guard : option (TransitionCommand → result ());
}.

(** ** Operations *)

Definition isTerminal (policy : TransitionPolicy) (state : Status) (context : value) : result bool :=
  if bool_decide (state ∈ terminal policy) then Ok true
  else match contextualTerminal policy with Some f => f state context | None => Ok false end.

(** [policy.transitions[state] ?? []] *)
Definition targets (table : TransitionTable) (state : Status) : list Status :=
  default [] (assoc state table).

Definition InvalidTransitionError : js_error := DomainError INVALID_TRANSITION.
Definition TransitionGuardError : js_error := DomainError TRANSITION_GUARD_FAILED.

Definition transition (policy : TransitionPolicy) (command : TransitionCommand)
    : result TransitionResult :=
  throw_when (blank (idempotencyKey command)) TypeError ;;
  if str_eqb (current command) (target command) then
    if bool_decide (currentStateCommandKey command = Some (idempotencyKey command))
    then Ok (already_applied (current command))
    else
      reconcile ← match sameStateReconciliationGuard policy with
                  | Some f => f command
                  | None => Ok false
                  end;
      if reconcile : bool then Ok (reconciled (current command)) else Throw InvalidTransitionError
  else
    throw_when (negb (bool_decide (target command ∈ targets (transitions policy) (current command))))
      InvalidTransitionError ;;
    match guard policy with Some f => f command | None => Ok () end ;;
    Ok (changed (current command) (target command)).

(** ** Specification *)

(** The status a result leaves the aggregate in. *)
Definition status_after (r : TransitionResult) : Status :=
  match r with changed _ s | reconciled s | already_applied s => s end.

(** A result of the policy, by kind. *)
Inductive accepts (policy : TransitionPolicy) (command : TransitionCommand) : TransitionResult → Prop :=
| accepts_replay :
    current command = target command →
    currentStateCommandKey command = Some (idempotencyKey command) →
    accepts policy command (already_applied (current command))
| accepts_reconciled f :
    current command = target command →
    currentStateCommandKey command ≠ Some (idempotencyKey command) →
    sameStateReconciliationGuard policy = Some f → f command = Ok true →
    accepts policy command (reconciled (current command))
| accepts_changed :
    current command ≠ target command →
    target command ∈ targets (transitions policy) (current command) →
    (∀ f, guard policy = Some f → f command = Ok ()) →
    accepts policy command (changed (current command) (target command)).

(** What [transition] throws, and when. *)
Inductive rejects (policy : TransitionPolicy) (command : TransitionCommand) : js_error → Prop :=
| rejects_key : blank (idempotencyKey command) = true → rejects policy command TypeError
| rejects_same :
    blank (idempotencyKey command) = false → current command = target command →
    currentStateCommandKey command ≠ Some (idempotencyKey command) →
    (∀ f, sameStateReconciliationGuard policy = Some f → f command = Ok false) →
    rejects policy command InvalidTransitionError
| rejects_reconciliation f e :
    blank (idempotencyKey command) = false → current command = target command →
    currentStateCommandKey command ≠ Some (idempotencyKey command) →
    sameStateReconciliationGuard policy = Some f → f command = Throw e →
    rejects policy command e
| rejects_target :
    blank (idempotencyKey command) = false → current command ≠ target command →
    target command ∉ targets (transitions policy) (current command) →
    rejects policy command InvalidTransitionError
| rejects_guard f e :
    blank (idempotencyKey command) = false → current command ≠ target command →
    target command ∈ targets (transitions policy) (current command) →
    guard policy = Some f → f command = Throw e →
    rejects policy command e.

(** The histories of an aggregate: commands in order, each issued at the
    status the ones before left. *)
Inductive history (policy : TransitionPolicy) : Status → list TransitionCommand → Status → Prop :=
| history_start s : s ∈ initial policy → history policy s [] s
| history_step s0 cs s c r :
    history policy s0 cs s → current c = s → transition policy c = Ok r →
    history policy s0 (cs ++ [c]) (status_after r).

(** ** Facts *)

(** A status with targets is a key of the table. *)
Lemma targets_elem (table : TransitionTable) s t :
  t ∈ targets table s → ∃ ts, (s, ts) ∈ table ∧ t ∈ ts.
Proof.
  unfold targets. destruct (assoc s table) as [ts|] eqn:H; [|by intros ?%not_elem_of_nil].
  intros Ht. exists ts. split; [by apply assoc_elem|done].
Qed.

(** The statuses with an edge to [t]. *)
Definition sources (table : TransitionTable) (t : Status) : list Status :=
  fst <$> filter (λ p, t ∈ p.2) table.

Lemma targets_sources table s t : t ∈ targets table s → s ∈ sources table t.
Proof.
  intros (ts & Hin & Ht)%targets_elem. unfold sources. apply list_elem_of_fmap. exists (s, ts). split; [done|].
  by apply list_elem_of_filter.
Qed.

Lemma transition_Ok policy c r :
  transition policy c = Ok r ↔ blank (idempotencyKey c) = false ∧ accepts policy c r.
Proof.
  unfold transition, str_eqb. split.
  - intros H. apply bind_Ok in H as ([] & Hk%throw_when_Ok & H). split; [done|].
    case_bool_decide as Heq; [case_bool_decide as Hkey|].
    + injection H as <-. by constructor.
    + apply bind_Ok in H as (b & Hb & H). destruct b; [|done]. injection H as <-.
      destruct (sameStateReconciliationGuard policy) as [f|] eqn:Hf; [|done]. by apply (accepts_reconciled _ _ f).
    + apply bind_Ok in H as ([] & Ht%throw_when_Ok & H). apply bind_Ok in H as ([] & Hg & [= <-]). bool_inv.
      constructor; [done..|]. intros f Hf. by rewrite Hf in Hg.
  - intros [Hk Ha]. rewrite Hk. run. rewrite throw_when_false. run.
    destruct Ha as [Heq Hkey|f Heq Hkey Hf Hfc|Hne Ht Hg].
    + by rewrite !bool_decide_eq_true_2.
    + by rewrite bool_decide_eq_true_2, bool_decide_eq_false_2, Hf, Hfc.
    + rewrite bool_decide_eq_false_2, bool_decide_eq_true_2 by done. cbn [negb]. rewrite throw_when_false. run.
      destruct (guard policy) as [f|]; [|done]. by rewrite (Hg f).
Qed.

Lemma transition_Throw policy c e : transition policy c = Throw e ↔ rejects policy c e.
Proof.
  unfold transition, str_eqb. split.
  - destruct (blank (idempotencyKey c)) eqn:Hk; [intros [= <-]; by constructor|]. rewrite throw_when_false. run.
    case_bool_decide as Heq; [case_bool_decide as Hkey; [done|]|].
    + destruct (sameStateReconciliationGuard policy) as [f|] eqn:Hf; 
        [|intros [= <-]; apply rejects_same; [done..|]; intros f'; by rewrite Hf].
      destruct (f c) as [[]|e'] eqn:Hfc; run; [done|..]; intros [= <-].
      * apply rejects_same; [done..|]. intros f'. rewrite Hf. by intros [= <-].
      * by apply (rejects_reconciliation _ _ f).
    + case_bool_decide as Ht; cbn [negb]; [rewrite throw_when_false; run|intros [= <-]; by apply rejects_target].
      destruct (guard policy) as [f|] eqn:Hf; [|done].
      destruct (f c) as [[]|e'] eqn:Hfc; run; [done|]. intros [= <-]. by apply (rejects_guard _ _ f).
  - intros Hr. destruct Hr as [Hk|Hk Heq Hkey Hf|f e Hk Heq Hkey Hf Hfc|Hk Hne Ht|f e Hk Hne Ht Hf Hfc];
      rewrite Hk; [done|..]; rewrite throw_when_false; run.
    + rewrite bool_decide_eq_true_2, bool_decide_eq_false_2 by done.
      destruct (sameStateReconciliationGuard policy) as [f|]; [|done]. by rewrite (Hf f).
    + by rewrite bool_decide_eq_true_2, bool_decide_eq_false_2, Hf, Hfc.
    + by rewrite bool_decide_eq_false_2, bool_decide_eq_false_2.
    + rewrite bool_decide_eq_false_2, bool_decide_eq_true_2 by done. cbn [negb]. rewrite throw_when_false. run.
      by rewrite Hf, Hfc.
Qed.

(** A changed result names the edge of the table it took. *)
Lemma transition_changed policy c p s :
  transition policy c = Ok (changed p s) →
  p = current c ∧ s = target c ∧ p ≠ s ∧ s ∈ targets (transitions policy) p
  ∧ ∀ f, guard policy = Some f → f c = Ok ().
Proof. intros [_ H]%transition_Ok. by inversion H; subst. Qed.

(** Statuses along a history follow the table. *)
Lemma history_reachable policy s0 cs s :
  history policy s0 cs s →
  s0 ∈ initial policy ∧ rtc (λ p s, s ∈ targets (transitions policy) p) s0 s.
Proof.
  induction 1 as [s Hs|s0 cs s c r _ [Hi IH] <- Hr]; [done|]. split; [done|].
  apply transition_Ok in Hr as [_ Ha]. destruct Ha as [|f|Hne Ht _]; cbn; [done|done|]. by eapply rtc_r.
Qed.

(** A status is initial or was entered by a command of the history. *)
Lemma history_entered policy s0 cs s :
  history policy s0 cs s →
  s ∈ initial policy ∨ ∃ c p, c ∈ cs ∧ transition policy c = Ok (changed p s).
Proof.
  induction 1 as [s Hs|s0 cs s c r _ IH <- Hr]; [by left|].
  assert (current c ∈ initial policy ∨ ∃ c' p, c' ∈ cs ++ [c] ∧ transition policy c' = Ok (changed p (current c)))
    as Hsame.
  { destruct IH as [?|(c' & p & Hc & Ht)]; [by left|right]. exists c', p. rewrite elem_of_app. auto. }
  apply transition_Ok in Hr as Hr'. destruct Hr' as [_ Ha]. destruct Ha; [done..|]. cbn [status_after].
  right. exists c, (current c). rewrite elem_of_app, list_elem_of_singleton. auto.
Qed.

(** The last time a status was entered. *)
Lemma history_entered_from policy s0 cs s :
  history policy s0 cs s →
  s ∈ initial policy ∨ ∃ pre c post, cs = pre ++ c :: post ∧ history policy s0 pre (current c)
    ∧ transition policy c = Ok (changed (current c) s).
Proof.
  induction 1 as [s Hs|s0 cs s c r Hh IH <- Hr]; [by left|].
  assert (current c ∈ initial policy ∨ ∃ pre c' post, cs ++ [c] = pre ++ c' :: post ∧ history policy s0 pre (current c')
    ∧ transition policy c' = Ok (changed (current c') (current c))) as Hsame.
  { destruct IH as [?|(pre & c' & post & -> & ?)]; [by left|right]. exists pre, c', (post ++ [c]). by rewrite <-app_assoc. }
  apply transition_Ok in Hr as Hr'. destruct Hr' as [_ Ha]. destruct Ha; [done..|]. cbn [status_after].
  right. by exists cs, c, [].
Qed.

(** Runs the commands of a history. *)
Fixpoint replay (policy : TransitionPolicy) (s : Status) (cs : list TransitionCommand) : option Status :=
  match cs with
  | [] => Some s
  | c :: cs' =>
      if str_eqb (current c) s
      then match transition policy c with Ok r => replay policy (status_after r) cs' | Throw _ => None end
      else None
  end.

Lemma replay_history policy s0 cs s :
  s0 ∈ initial policy → replay policy s0 cs = Some s → history policy s0 cs s.
Proof.
  intros Hs. cut (∀ pre s1, history policy s0 pre s1 → replay policy s1 cs = Some s → history policy s0 (pre ++ cs) s).
  { intros H. apply (H []). by constructor. }
  induction cs as [|c cs IH]; intros pre s1 Hh; cbn [replay]; [intros [= <-]; by rewrite app_nil_r|].
  unfold str_eqb. case_bool_decide as Hc; [|done]. destruct (transition policy c) as [r|] eqn:Hr; [|done].
  rewrite cons_middle, app_assoc. apply IH. by apply (history_step _ _ _ s1).
Qed.
End Transition.

(** * Properties *)

Import Transition.

(** [transition] does exactly what the policy says, for every policy and
    command.  With a non-blank idempotency key it replays the command that
    produced the state, reconciles an unchanged state when the policy's opt-in
    guard says so, or changes the state along the table when the guard does
    not throw; in every other case it throws, a [TypeError] for a blank key, an
    invalid-transition error for a pair outside the table, and otherwise
    whatever the guard threw. *)
Theorem transition_exact policy command :
  (∀ r, transition policy command = Ok r ↔ blank (idempotencyKey command) = false ∧ accepts policy command r)
  ∧ ∀ e, transition policy command = Throw e ↔ rejects policy command e.
Proof. split; intros x; [apply transition_Ok|apply transition_Throw]. Qed.
