(* ===== verification/Guards.v ===== *)
(** What the guards of the lifecycle policies (lifecycle/policies.ts) share:
    how a guard fails, the flags and balances it reads, the comparison of
    identity sets, and the class of the computations that fail only as guards
    do.  The wording of an error is not part of the model, so the parameters
    that only name the lifecycle or the reason in it are dropped. *)
From S2P Require Import Prelude Text Primitives Values Transition.

Import Transition.

(** ** Operations *)

(** [if (b) throw new TransitionGuardError(...)] *)
Definition guard_when (b : bool) : result () := throw_when b TransitionGuardError.

(** [if (b) m] *)
Definition when (b : bool) (m : result ()) : result () := if b then m else Ok ().

(** [command.current === s], for a literal. *)
Definition currentIs (command : TransitionCommand) (s : String.string) : bool :=
  str_eqb (current command) (js s).
Definition targetIs (command : TransitionCommand) (s : String.string) : bool :=
  str_eqb (target command) (js s).
Arguments currentIs _ _%_string.
Arguments targetIs _ _%_string.

Definition requireFlag (command : TransitionCommand) (flag : String.string) : result () :=
  guard_when ((context command) ?. flag !== Bool true).
Arguments requireFlag _ _%_string.

(** [s.startsWith(prefix)] *)
Definition starts_with (s prefix : jstr) : bool := str_eqb (take (length prefix) s) prefix.

Definition requireZeroBalances (command : TransitionCommand) : result () :=
  guard_when
    (((context command) ?. "amountDueMinor" !== BigIntV 0)
     || ((context command) ?. "refundableBalanceMinor" !== BigIntV 0)).

Definition requireZeroAmountDue (command : TransitionCommand) : result () :=
  guard_when ((context command) ?. "amountDueMinor" !== BigIntV 0).

Definition requireReconciliationRefundAllocation (command : TransitionCommand) : result () :=
  let refundableBalanceMinor := (context command) ?. "refundableBalanceMinor" in
  guard_when
    (negb (is_bigint refundableBalanceMinor)
     || js_lt refundableBalanceMinor (BigIntV 0)
     || (js_lt (BigIntV 0) refundableBalanceMinor
         && ((context command) ?. "reconciliationRefundAllocated" !== Bool true))).

Definition hasSameNonEmptyStringSet (actual : value) (expected : value) : bool :=
  if negb (is_array actual) || negb (is_array expected) then
    false
  else
  let normalizedActual := ArrayV 0 (elements actual) in
  let normalizedExpected := ArrayV 0 (elements expected) in
  if (js_len normalizedActual =? 0)
     || (js_len normalizedExpected =? 0)
     || existsb (λ value_, negb (is_string value_) || (js_len value_ =? 0))
          (elements normalizedActual)
     || existsb (λ value_, negb (is_string value_) || (js_len value_ =? 0))
          (elements normalizedExpected) then
    false
  else
  let actualSet := set_of (elements normalizedActual) in
  let expectedSet := set_of (elements normalizedExpected) in
  (zlength actualSet =? js_len normalizedActual)
  && (zlength expectedSet =? js_len normalizedExpected)
  && (zlength actualSet =? zlength expectedSet)
  && forallb (λ value_, set_has expectedSet value_) actualSet.

Definition requireVerifiedMatchingProviderPaymentEvent (command : TransitionCommand)
    : result () :=
  let paymentId := (context command) ?. "paymentId" in
  let eventPaymentId := (context command) ?. "providerEventPaymentId" in
  guard_when
    (negb (is_string paymentId) || (js_len paymentId =? 0) || (eventPaymentId !== paymentId)) ;;
  requireFlag command "providerPaymentEventAuthenticated" ;;
  requireFlag command "providerPaymentEventVerified" ;;
  guard_when ((context command) ?. "providerPaymentEventStatus" !== Str (target command)).

Definition requireVerifiedMatchingProviderShipmentEvent (command : TransitionCommand)
    : result () :=
  let shipmentId := (context command) ?. "shipmentId" in
  let eventShipmentId := (context command) ?. "providerEventShipmentId" in
  guard_when
    (negb (is_string shipmentId)
     || (js_len shipmentId =? 0)
     || (eventShipmentId !== shipmentId)) ;;
  requireFlag command "providerEventAuthenticated" ;;
  requireFlag command "providerEventVerified" ;;
  guard_when ((context command) ?. "providerEventStatus" !== Str (target command)).

(** ** Guards fail only as guards

    [GuardOnly m]: the one error [m] throws is the guard's. *)

Class GuardOnly {A} (m : result A) : Prop := guard_only e : m = Throw e → e = TransitionGuardError.
#[export] Hint Mode GuardOnly ! ! : typeclass_instances.

Lemma guard_only_Ok {A} (a : A) : GuardOnly (Ok a).
Proof. by intros e [=]. Qed.

Lemma guard_only_Throw {A} : GuardOnly (Throw TransitionGuardError : result A).
Proof. by intros e [= <-]. Qed.

Lemma guard_only_guard_when b : GuardOnly (guard_when b).
Proof. destruct b; [intros e [= <-]|intros e [=]]; done. Qed.

Lemma guard_only_requireFlag command flag : GuardOnly (requireFlag command flag).
Proof. apply guard_only_guard_when. Qed.

Lemma guard_only_bind {A B} (m : result A) (f : A → result B) :
  GuardOnly m → (∀ a, GuardOnly (f a)) → GuardOnly (m ≫= f).
Proof. intros Hm Hf e. destruct m as [a|e']; run; [apply Hf|]. intros [= <-]. by apply Hm. Qed.

Lemma guard_only_if {A} (b : bool) (m n : result A) :
  GuardOnly m → GuardOnly n → GuardOnly (if b then m else n).
Proof. by destruct b. Qed.

Lemma guard_only_when b m : GuardOnly m → GuardOnly (when b m).
Proof. by destruct b; [|intros _; apply guard_only_Ok]. Qed.

Lemma guard_only_foldM {S A} (f : S → A → result S) s l :
  (∀ s a, GuardOnly (f s a)) → GuardOnly (foldM f s l).
Proof. intros Hf. revert s. induction l as [|a l IH]; intros s; cbn [foldM]; [apply guard_only_Ok|].
  apply guard_only_bind; [apply Hf|done].
Qed.

(** [∀ x ... , GuardOnly (f x ...)] *)
Ltac guard_only_all f :=
  lazymatch type of f with
  | result _ => constr:(GuardOnly f)
  | ?X → _ =>
      let x := fresh "x" in
      constr:(∀ x : X, ltac:(let P := guard_only_all constr:(f x) in exact P))
  end.

(** Decides [GuardOnly] along the structure of a guard: a [let] is a variable
    in the rest, and a local function is first decided for all its
    arguments. *)
Ltac guard_only :=
  lazymatch goal with
  | |- GuardOnly (let x := ?a in @?m x) =>
      change (GuardOnly (m a));
      lazymatch type of a with
      | context [result] =>
          let Ha := fresh in let P := guard_only_all a in
          assert P as Ha by (intros; cbv beta; guard_only); revert Ha; generalize a; intros ? Ha
      | _ => generalize a; intros ?
      end; cbv beta; guard_only
  | |- GuardOnly (match ?p with pair _ _ => _ end) => destruct p; guard_only
  | |- GuardOnly ((match ?p with pair _ _ => _ end) _) => destruct p; cbv beta; guard_only
  | |- GuardOnly (guard_when _) => apply guard_only_guard_when
  | |- GuardOnly (requireFlag _ _) => apply guard_only_requireFlag
  | |- GuardOnly (Ok _) => apply guard_only_Ok
  | |- GuardOnly (Throw _) => apply guard_only_Throw
  | |- GuardOnly (mbind _ _) => apply guard_only_bind; [|intros ?]; guard_only
  | |- GuardOnly (if _ then _ else _) => apply guard_only_if; guard_only
  | |- GuardOnly (when _ _) => apply guard_only_when; guard_only
  | |- GuardOnly (foldM _ _ _) => apply guard_only_foldM; intros ? ?; cbv beta; guard_only
  | |- _ => apply _
  end.

#[global] Typeclasses Opaque
  requireZeroBalances
  requireZeroAmountDue
  requireReconciliationRefundAllocation
  requireVerifiedMatchingProviderPaymentEvent
  requireVerifiedMatchingProviderShipmentEvent.

#[export] Instance guard_only_requireZeroBalances command :
  GuardOnly (requireZeroBalances command).
Proof. cbv beta delta [requireZeroBalances]. guard_only. Qed.

#[export] Instance guard_only_requireZeroAmountDue command :
  GuardOnly (requireZeroAmountDue command).
Proof. cbv beta delta [requireZeroAmountDue]. guard_only. Qed.

#[export] Instance guard_only_requireReconciliationRefundAllocation command :
  GuardOnly (requireReconciliationRefundAllocation command).
Proof. cbv beta delta [requireReconciliationRefundAllocation]. guard_only. Qed.

#[export] Instance guard_only_requireVerifiedMatchingProviderPaymentEvent command :
  GuardOnly (requireVerifiedMatchingProviderPaymentEvent command).
Proof. cbv beta delta [requireVerifiedMatchingProviderPaymentEvent]. guard_only. Qed.

#[export] Instance guard_only_requireVerifiedMatchingProviderShipmentEvent command :
  GuardOnly (requireVerifiedMatchingProviderShipmentEvent command).
Proof. cbv beta delta [requireVerifiedMatchingProviderShipmentEvent]. guard_only. Qed.

(** ** The conditions of a guard that did not throw *)

Lemma guard_when_Ok b u : guard_when b = Ok u ↔ b = false.
Proof. apply throw_when_Ok. Qed.

Ltac guard_inv H :=
  apply guard_when_Ok in H; bool_inv;
  repeat match goal with
  | E : strict_eq _ (lit _) = true |- _ => apply strict_eq_lit in E
  | E : strict_eq _ (Bool _) = true |- _ => apply strict_eq_Bool in E
  end.

Lemma optional_refl s : (optional s === optional s) = true.
Proof. destruct s; [by apply strict_eq_Str|done]. Qed.

Lemma optional_Str s r : optional s = Str r → s = Some r.
Proof. by destruct s; [intros [= ->]|]. Qed.

(** Turns the equations of a guard into equations with the strings of its
    identities. *)
Ltac identities :=
  repeat match goal with
  | E : nonBlank ?v = true |- _ =>
      let s := fresh "s" in let Hs := fresh "Hs" in let Hb := fresh "Hb" in
      apply nonBlank_Str in E as (s & Hs & Hb); rewrite Hs in *
  end;
  repeat match goal with
  | E : strict_eq _ (Str _) = true |- _ => apply strict_eq_Str in E
  | E : optional _ = Str _ |- _ => apply optional_Str in E
  end.

(** Comparisons of literals. *)
Ltac literals H :=
  repeat match type of H with
  | context [str_eqb (js ?a) (js ?b)] =>
      let v := eval vm_compute in (str_eqb (js a) (js b)) in change (str_eqb (js a) (js b)) with v in H
  end;
  cbn [andb orb negb when] in H.

(** Comparisons of literals in the goal. *)
Ltac literal_tests :=
  repeat match goal with |- context [str_eqb (js ?a) (js ?b)] =>
    let v := eval vm_compute in (str_eqb (js a) (js b)) in change (str_eqb (js a) (js b)) with v end.

(** Runs a guard that did not throw: a [let] becomes a local definition and
    every guard before the end a hypothesis; a pair is destructed by [tac]. *)
Ltac guard_steps_with tac H :=
  repeat lazymatch type of H with
  | (let x := ?a in @?m x) = ?r =>
      let v := fresh x in pose (v := a); change (m v = r) in H; cbv beta in H
  | (guard_when _ ≫= _) = Ok _ =>
      let Hg := fresh "Hg" in apply bind_Ok in H as ([] & Hg & H); apply guard_when_Ok in Hg
  | (requireFlag _ _ ≫= _) = Ok _ =>
      let Hg := fresh "Hf" in apply bind_Ok in H as ([] & Hg & H); apply guard_when_Ok in Hg
  | @mbind result _ () _ _ _ = Ok _ =>
      let Hm := fresh "Hm" in apply bind_Ok in H as ([] & Hm & H)
  | (_ ≫= _) = Ok _ =>
      let s := fresh "st" in let Hm := fresh "Hm" in apply bind_Ok in H as (s & Hm & H)
  | match ?p with pair _ _ => _ end = Ok _ => tac p
  | match ?p with pair _ _ => _ end _ = Ok _ => tac p; cbv beta in H
  end.
Ltac guard_steps H := guard_steps_with ltac:(fun p => destruct p) H.

(** Replaces every local definition by its value. *)
Ltac subst_lets := repeat match goal with x := _ |- _ => subst x end.

(** The conditions of a guard as equations: its local definitions unfolded, and
    each identity that it tests to be a string replaced by the string. *)
Ltac guard_facts :=
  bool_inv; subst_lets;
  repeat match goal with E : nonBlank ?x = true |- _ => apply nonBlank_Str in E as (? & ? & _) end;
  repeat match goal with E : (_ ?. _) = Str _ |- _ => progress rewrite E in * end;
  repeat match goal with
  | E : (_ === Str _) = true |- _ => apply strict_eq_Str in E
  | E : (_ === lit _) = true |- _ => apply strict_eq_lit in E
  | E : (_ === Bool _) = true |- _ => apply strict_eq_Bool in E
  | E : (_ === Null) = true |- _ => apply strict_eq_Null in E
  | E : optional _ = Str _ |- _ => apply optional_Str in E
  end.

Lemma bind_tt (m : result ()) : (m ≫= λ _, Ok ()) = m.
Proof. by destruct m as [[]|]. Qed.

(** ** Sets and loops *)

(** A property of the state of a loop and the elements it has visited. *)
Lemma foldM_prefix {S A} (f : S → A → result S) (P : S → list A → Prop) s l s' :
  P s [] → (∀ t pre x t', P t pre → f t x = Ok t' → P t' (pre ++ [x])) →
  foldM f s l = Ok s' → P s' l.
Proof.
  intros Hs Hf. cut (∀ pre, P s pre → foldM f s l = Ok s' → P s' (pre ++ l)).
  { intros H. by apply (H []). }
  clear Hs. revert s. induction l as [|x l IH]; intros s pre Hp; cbn [foldM].
  - intros [= ->]. by rewrite app_nil_r.
  - intros (t & Hx & Hl)%bind_Ok. rewrite cons_middle, app_assoc. eapply IH; eauto.
Qed.

(** The same for a loop that leaves its function only with [r0]. *)
Lemma for_return_prefix {S A R} (f : S → A → flow S R) (P : S → list A → Prop) (r0 : R) s l k r :
  P s [] →
  (∀ t pre x, P t pre → match f t x with Next t' => P t' (pre ++ [x]) | Break _ => False | Return r' => r' = r0 end) →
  for_return f s l k = r → r ≠ r0 → ∃ s', P s' l ∧ k s' = r.
Proof.
  intros Hs Hf. cut (∀ pre, P s pre → for_return f s l k = r → r ≠ r0 → ∃ s', P s' (pre ++ l) ∧ k s' = r).
  { intros H. by apply (H []). }
  clear Hs. revert s. induction l as [|x l IH]; intros s pre Hp; cbn [for_return].
  - intros Hk _. exists s. by rewrite app_nil_r.
  - specialize (Hf s pre x Hp). destruct (f s x) as [s'| |r']; [|done|by intros ->].
    rewrite cons_middle, app_assoc. by apply IH.
Qed.

(** The same for an [every] that updates variables. *)
Lemma every_with_prefix {S A} (f : S → A → bool * S) (P : S → list A → Prop) s l s' :
  P s [] → (∀ t pre x t', P t pre → f t x = (true, t') → P t' (pre ++ [x])) →
  every_with f s l = (true, s') → P s' l.
Proof.
  intros Hs Hf. cut (∀ pre, P s pre → every_with f s l = (true, s') → P s' (pre ++ l)).
  { intros H. by apply (H []). }
  clear Hs. revert s. induction l as [|x l IH]; intros s pre Hp; cbn [every_with].
  - intros [= ->]. by rewrite app_nil_r.
  - destruct (f s x) as [[] t] eqn:Hx; [|done]. rewrite cons_middle, app_assoc. eapply IH; eauto.
Qed.

Lemma includes_Str l s : includes l (Str s) = true ↔ Str s ∈ l.
Proof.
  unfold includes. rewrite existsb_exists. setoid_rewrite list_elem_of_In. split.
  - intros (v & Hv & Hs). assert (v = Str s) as ->; [|done].
    destruct v; try done. cbn in Hs. unfold str_eqb in Hs. apply bool_decide_eq_true in Hs. by subst.
  - intros H. exists (Str s). split; [done|]. cbn. unfold str_eqb. by apply bool_decide_eq_true.
Qed.

Lemma includes_Str_false l s : includes l (Str s) = false ↔ Str s ∉ l.
Proof. rewrite <-includes_Str. by destruct (includes _ _). Qed.

Lemma set_add_new l v : set_has l v = false → set_add l v = l ++ [v].
Proof. unfold set_add. by intros ->. Qed.

(** A loop over a set that found nothing missing. *)
Lemma existsb_negb_false {A} (f : A → bool) l :
  existsb (λ x, negb (f x)) l = false ↔ ∀ x, x ∈ l → f x = true.
Proof.
  rewrite <-not_true_iff_false, existsb_exists. setoid_rewrite <-list_elem_of_In.
  setoid_rewrite negb_true_iff. split.
  - intros H x Hx. destruct (f x) eqn:E; [done|]. destruct H. eauto.
  - intros H (x & Hx & E). rewrite H in E; done.
Qed.

Lemma is_string_Str v : is_string v = true ↔ ∃ s, v = Str s.
Proof. destruct v; cbn; naive_solver. Qed.

(** A set of strings that grows by a new one. *)
Lemma set_add_string (f : value → value) l pre set v s :
  set = Str <$> l → NoDup l → f <$> pre = set → set_has set (Str s) = false → f v = Str s →
  ∃ l', set_add set (Str s) = Str <$> l' ∧ NoDup l' ∧ f <$> pre ++ [v] = set_add set (Str s).
Proof.
  intros -> Hl Hpre Hs Hv. exists (l ++ [s]). rewrite set_add_new by done. apply includes_Str_false in Hs.
  rewrite !fmap_app, Hpre. cbn. rewrite Hv. split_and!; [done| |done].
  apply NoDup_app. split_and!; [done| |apply NoDup_singleton].
  intros x Hx ->%list_elem_of_singleton. apply Hs. by apply list_elem_of_fmap_2.
Qed.

Lemma includes_strings l v : includes (Str <$> l) v = true → v ∈ Str <$> l.
Proof.
  unfold includes. rewrite existsb_exists. setoid_rewrite <-list_elem_of_In.
  intros (w & Hw & Hvw). assert (v = w) as ->; [|done]. apply list_elem_of_fmap in Hw as (x & -> & _).
  destruct v; try done. by apply strict_eq_Str.
Qed.

Lemma array_elements v : (array v === Undefined) = false → elements (array v) = elements v.
Proof. by destruct v. Qed.

Lemma js_len_array v : (array v === Undefined) = false → js_len (array v) = zlength (elements v).
Proof. by destruct v. Qed.

Lemma array_length v : js_len (array v) = zlength (elements (array v)).
Proof. by destruct v. Qed.

Lemma js_len_elements v : is_array v = true → js_len v = zlength (elements v).
Proof. by destruct v. Qed.

Lemma set_of_strings ls :
  ∃ k, set_of (Str <$> ls) = Str <$> k ∧ NoDup k ∧ ∀ x, x ∈ k ↔ x ∈ ls.
Proof.
  unfold set_of. induction ls as [|x ls (k & Hk & Hn & He)] using rev_ind.
  - exists []. split_and!; [done|constructor|done].
  - rewrite fmap_app, foldl_app, Hk. cbn. unfold set_add. destruct (set_has _ _) eqn:Hx.
    + apply includes_Str, list_elem_of_fmap in Hx as (y & [= ->] & Hy). exists k. split_and!; [done..|].
      intros y'. rewrite elem_of_app, list_elem_of_singleton, He. split; [by left|].
      intros [?| ->]; [done|]. by apply He.
    + apply includes_Str_false in Hx. exists (k ++ [x]). split_and!; [by rewrite fmap_app| |].
      * apply NoDup_app. split_and!; [done| |apply NoDup_singleton].
        intros y Hy ->%list_elem_of_singleton. apply Hx. by apply list_elem_of_fmap_2.
      * intros y. by rewrite !elem_of_app, He.
Qed.

(** [new Set(l).size === l.length] *)
Lemma set_of_distinct ls : zlength (set_of (Str <$> ls)) = zlength (Str <$> ls) → NoDup ls.
Proof.
  destruct (set_of_strings ls) as (k & -> & Hn & He). unfold zlength. rewrite !length_fmap. intros Hl.
  apply NoDup_ListNoDup. apply (NoDup_incl_NoDup (l := k)); [by apply NoDup_ListNoDup|lia|].
  intros x Hx%list_elem_of_In. by apply list_elem_of_In, He.
Qed.

Lemma nonBlank_strings l : forallb (λ id, nonBlank id) l = true → ∃ ls, l = Str <$> ls.
Proof.
  induction l as [|v l IH]; cbn; [by exists []|].
  intros [(s & -> & _)%nonBlank_Str (ls & ->)%IH]%andb_true_iff. by exists (s :: ls).
Qed.

(** The rows of an array by their identities: the strings [ids], all distinct. *)
Definition identified (rows : list value) (ids : list jstr) : Prop :=
  (λ v, v ?. "id") <$> rows = Str <$> ids ∧ NoDup ids.

Lemma is_instant_instant v : is_instant v = true ↔ ∃ i, instant v = Some i.
Proof. destruct v; cbn; naive_solver. Qed.

Lemma same_strings a b :
  hasSameNonEmptyStringSet a b = true →
  ∃ l r, elements a = Str <$> l ∧ elements b = Str <$> r ∧ NoDup l ∧ NoDup r ∧ l ≡ₚ r.
Proof.
  unfold hasSameNonEmptyStringSet. destruct (negb (is_array a) || _); [done|].
  assert (∀ l, existsb (λ v, negb (is_string v) || (js_len v =? 0)) l = false → ∃ s, l = Str <$> s) as Hstr.
  { induction l as [|v l IH]; cbn; [by exists []|]. intros [[[s ->]%negb_false_iff%is_string_Str _]%orb_false_iff (k & ->)%IH]%orb_false_iff.
    by exists (s :: k). }
  destruct (_ || _) eqn:E; [done|]. bool_inv. cbn [elements] in *.
  destruct (Hstr (elements a)) as (l & Hl); [done|]. destruct (Hstr (elements b)) as (r & Hr); [done|].
  rewrite Hl, Hr. change (js_len (ArrayV 0 ?x)) with (zlength x). intros Hs. bool_inv.
  exists l, r.
  assert (NoDup l) as Hnl by (by apply set_of_distinct).
  assert (NoDup r) as Hnr by (by apply set_of_distinct).
  destruct (set_of_strings l) as (k & Hk & Hkn & Hke), (set_of_strings r) as (k' & Hk' & Hkn' & Hke').
  rewrite Hk, Hk' in *. unfold zlength in *. rewrite !length_fmap in *. split_and!; [done..|].
  apply submseteq_length_Permutation; [|lia]. apply NoDup_submseteq; [done|]. intros x Hx%Hke.
  apply Hke'. match goal with E : forallb _ _ = true |- _ => rewrite forallb_forall in E; specialize (E (Str x)) end.
  apply (list_elem_of_fmap_2 Str), list_elem_of_In in Hx.
  match goal with E : In _ _ → _ |- _ => apply E, includes_Str, list_elem_of_fmap in Hx end.
  by destruct Hx as (y & [= ->] & ?).
Qed.

(** A list without duplicates that covers another of the same length. *)
Lemma covers_Permutation {A} (l k : list A) :
  NoDup k → length l = length k → (∀ x, x ∈ k → x ∈ l) → k ≡ₚ l.
Proof.
  intros Hk Hl Hin. apply submseteq_length_Permutation; [by apply NoDup_submseteq|lia].
Qed.

(** A loop that collects the identities of its rows and rejects a row it has
    seen or that is not as it should be. *)
Lemma foldM_rows (f : list value → value → result (list value)) (Q : value → Prop) l ids :
  (∀ t v t', f t v = Ok t' →
    nonBlank (v ?. "id") = true ∧ set_has t (v ?. "id") = false ∧ t' = set_add t (v ?. "id") ∧ Q v) →
  foldM f [] l = Ok ids → ∃ k, ids = Str <$> k ∧ identified l k ∧ Forall Q l.
Proof.
  intros Hf. apply (foldM_prefix f (λ t pre, ∃ k, t = Str <$> k ∧ identified pre k ∧ Forall Q pre)).
  { exists []. split_and!; [done|split; [done|constructor]|done]. }
  intros t pre v t' (k & -> & [Hp Hk] & HQ) ((s & Hs & _)%nonBlank_Str & Hn & -> & Hv)%Hf. rewrite Hs in *.
  destruct (set_add_string (λ v, v ?. "id") k pre (Str <$> k) v s) as (k' & Hk' & Hn' & Hp'); [done..|].
  exists k'. split_and!; [done|split; [by rewrite <-Hk'|done]|]. apply Forall_app. by rewrite Forall_singleton.
Qed.

Lemma record_defined v : (record v === Undefined) = false → record v = v.
Proof. unfold record. by destruct (is_record v). Qed.

(** A map from the identities of rows to the rows. *)
Definition by_id (rows : list value) : list (value * value) := (λ v, (v ?. "id", v)) <$> rows.

Lemma map_set_new m k v : map_has m k = false → map_set m k v = m ++ [(k, v)].
Proof.
  induction m as [|[k' v'] m IH]; [done|]. unfold map_has, includes. cbn. intros [-> H]%orb_false_iff.
  by rewrite (IH H).
Qed.

Lemma map_get_by_id rows x : (map_get (by_id rows) (Str x) === Undefined) = false →
  map_get (by_id rows) (Str x) ∈ rows ∧ (map_get (by_id rows) (Str x)) ?. "id" = Str x.
Proof.
  unfold map_get. induction rows as [|v rows IH]; [done|]. cbn [by_id fmap list_fmap map_find].
  destruct (same_value (Str x) (v ?. "id")) eqn:E.
  - cbn. intros _. split; [by left|]. apply strict_eq_Str. rewrite strict_eq_sym. exact E.
  - intros [Hin Hid]%IH. split; [by right|done].
Qed.

Lemma identified_inj rows ids v w :
  identified rows ids → v ∈ rows → w ∈ rows → v ?. "id" = w ?. "id" → v = w.
Proof.
  intros [Hids Hn] Hv Hw Hvw. apply list_elem_of_lookup in Hv as [i Hi], Hw as [j Hj].
  assert (∀ k u, rows !! k = Some u → ∃ x, u ?. "id" = Str x ∧ ids !! k = Some x) as Hl.
  { intros k u Hk. apply (f_equal (.!! k)) in Hids. rewrite !list_lookup_fmap, Hk in Hids. cbn in Hids.
    destruct (ids !! k) as [x|]; [|done]. injection Hids as ->. by exists x. }
  destruct (Hl i v Hi) as (x & Hvx & Hx), (Hl j w Hj) as (y & Hwy & Hy).
  assert (x = y) as -> by congruence. assert (i = j) as -> by (by eapply NoDup_lookup). congruence.
Qed.

Lemma identified_snoc rows ids v :
  identified rows ids → nonBlank (v ?. "id") = true → map_has (by_id rows) (v ?. "id") = false →
  ∃ x, identified (rows ++ [v]) (ids ++ [x]).
Proof.
  intros [Hids Hn] (x & Hx & _)%nonBlank_Str Hnew. exists x. unfold identified. rewrite !fmap_app, Hids. cbn.
  rewrite Hx in *. split; [done|]. apply NoDup_app. split_and!; [done| |apply NoDup_singleton].
  intros y Hy ->%list_elem_of_singleton. unfold map_has in Hnew. apply includes_Str_false in Hnew. apply Hnew.
  change (map fst (by_id rows)) with (fst <$> by_id rows). unfold by_id. rewrite <-list_fmap_compose.
  change (fst ∘ _) with (λ v, v ?. "id"). rewrite Hids. by apply list_elem_of_fmap_2.
Qed.

Lemma by_id_snoc (Q : value → Prop) pre ids v :
  identified pre ids → Forall Q pre → nonBlank (v ?. "id") = true → map_has (by_id pre) (v ?. "id") = false → Q v →
  ∃ ids', map_set (by_id pre) (v ?. "id") v = by_id (pre ++ [v]) ∧ identified (pre ++ [v]) ids' ∧ Forall Q (pre ++ [v]).
Proof.
  intros Hids HQ Hs Hn Hv. destruct (identified_snoc pre ids v) as [x Hx]; [done..|]. exists (ids ++ [x]).
  rewrite map_set_new by done. unfold by_id. rewrite fmap_app. split_and!; [done..|].
  apply Forall_app. by rewrite Forall_singleton.
Qed.

(** A loop that maps the identities of its rows to them. *)
Lemma foldM_by_id (f : list (value * value) → value → result (list (value * value))) (Q : value → Prop) l m :
  (∀ t v t', f t v = Ok t' →
    nonBlank (v ?. "id") = true ∧ map_has t (v ?. "id") = false ∧ t' = map_set t (v ?. "id") v ∧ Q v) →
  foldM f [] l = Ok m → ∃ ids, m = by_id l ∧ identified l ids ∧ Forall Q l.
Proof.
  intros Hf. apply (foldM_prefix f (λ t pre, ∃ ids, t = by_id pre ∧ identified pre ids ∧ Forall Q pre)).
  { exists []. split_and!; [done|split; [done|constructor]|done]. }
  intros t pre v t' (ids & -> & Hids & HQ) (Hs & Hn & -> & Hv)%Hf. by eapply by_id_snoc.
Qed.

(** The same for an [every]. *)
Lemma every_with_by_id (f : list (value * value) → value → bool * list (value * value)) (Q : value → Prop) l m :
  (∀ t v t', f t v = (true, t') →
    nonBlank (v ?. "id") = true ∧ map_has t (v ?. "id") = false ∧ t' = map_set t (v ?. "id") v ∧ Q v) →
  every_with f [] l = (true, m) → ∃ ids, m = by_id l ∧ identified l ids ∧ Forall Q l.
Proof.
  intros Hf. apply (every_with_prefix f (λ t pre, ∃ ids, t = by_id pre ∧ identified pre ids ∧ Forall Q pre)).
  { exists []. split_and!; [done|split; [done|constructor]|done]. }
  intros t pre v t' (ids & -> & Hids & HQ) (Hs & Hn & -> & Hv)%Hf. by eapply by_id_snoc.
Qed.

(** Rows that each have the identity of one of some others, as many as these. *)
Lemma identified_Permutation rows ids rows' ids' :
  identified rows ids → identified rows' ids' → zlength (Str <$> ids') = zlength (by_id rows) →
  Forall (λ c, ∃ v, v ∈ rows ∧ v ?. "id" = c ?. "id") rows' → ids' ≡ₚ ids.
Proof.
  intros [Hids Hn] [Hids' Hn'] Hl HQ.
  apply submseteq_length_Permutation.
  - apply NoDup_submseteq; [done|]. intros x Hx%(list_elem_of_fmap_2 Str). rewrite <-Hids' in Hx.
    apply list_elem_of_fmap in Hx as (c & Hc & Hin). rewrite Forall_forall in HQ.
    destruct (HQ c Hin) as (v & Hv & Hvc). apply (list_elem_of_fmap_2 (λ v, v ?. "id")) in Hv. cbn in Hv.
    rewrite Hids, Hvc, <-Hc in Hv. apply list_elem_of_fmap in Hv as (y & [= ->] & ?). done.
  - apply (f_equal length) in Hids, Hids'. rewrite !length_fmap in Hids, Hids'. unfold zlength, by_id in Hl.
    rewrite !length_fmap in Hl. lia.
Qed.

(** ** Sample contexts *)

Module Sample.

(** The fields of a record. *)
Definition field (k : String.string) (v : value) : jstr * value := (js k, v).
Definition text (k v : String.string) := field k (lit v).
Definition flag (k : String.string) := field k (Bool true).
Definition none (k : String.string) := field k Null.
Definition amount (k : String.string) (z : Z) := field k (BigIntV z).
Definition at_ (k : String.string) (z : Z) := field k (InstantV 0 (Instant.mk z)).
Arguments field _%_string _.
Arguments text (_ _)%_string.
Arguments flag _%_string.
Arguments none _%_string.
Arguments amount _%_string _.
Arguments at_ _%_string _.

(** A command for [id], in a state that the command [key] produced with the
    result [result], with a key of its own. *)
Definition command (id from to key result own : String.string) (context : list (jstr * value)) : TransitionCommand :=
  mkCommand (Some (js id)) (js from) (js to) (js own) (Some (js key)) (Some (js result))
    None None None None None (RecordV 1 context).

(** The same command with an ownership snapshot, or with a parent. *)
Definition with_snapshot (id result : String.string) (c : TransitionCommand) : TransitionCommand :=
  mkCommand (aggregateId c) (current c) (target c) (idempotencyKey c) (currentStateCommandKey c)
    (currentStateResultId c) (parentAggregateId c) (parentCurrentStateCommandKey c) (parentCurrentStateResultId c)
    (Some (js id)) (Some (js result)) (context c).
Definition with_parent (id key result : String.string) (c : TransitionCommand) : TransitionCommand :=
  mkCommand (aggregateId c) (current c) (target c) (idempotencyKey c) (currentStateCommandKey c)
    (currentStateResultId c) (Some (js id)) (Some (js key)) (Some (js result))
    (ownershipSnapshotId c) (ownershipSnapshotResultId c) (context c).
Arguments command (_ _ _ _ _ _)%_string _.
Arguments with_snapshot (_ _)%_string _.
Arguments with_parent (_ _ _)%_string _.

End Sample.
