(* ===== verification/Lifecycles.v ===== *)
(** The eight lifecycles of the system (lifecycle/policies.ts): their statuses,
    their initial and terminal statuses, and their transition tables.  What is
    shown of them here is what the tables say; the policies add the guards, in
    QuoteRequest.v, Claims.v, ClaimSlots.v, Shipments.v, Jobs.v, Payments.v,
    Phases.v and Orders.v. *)
From S2P Require Import Prelude Text Primitives Values Transition.

Module Lifecycles.
Import Transition.

Definition QuoteRequestStatus : list jstr :=
  [js "new"; js "in_review"; js "quoted"; js "accepted"; js "rejected"; js "expired"].

Definition quoteRequestInitial : list jstr := [js "new"].
Definition quoteRequestTerminal : list jstr :=
  [js "accepted"; js "rejected"; js "expired"].

Definition quoteRequestTransitions : list (jstr * list jstr) :=
  [(js "new", [js "in_review"; js "rejected"]);
   (js "in_review", [js "quoted"; js "rejected"]);
   (js "quoted", [js "quoted"; js "accepted"; js "rejected"; js "expired"])].

Definition PaymentStatus : list jstr :=
  [js "created"; js "pending"; js "captured"; js "failed"; js "voided"; js "refund_pending";
   js "partially_refunded"; js "refunded"].

Definition paymentInitial : list jstr := [js "created"].
Definition paymentTerminal : list jstr := [].

Definition paymentTransitions : list (jstr * list jstr) :=
  [(js "created", [js "pending"; js "failed"; js "voided"]);
   (js "pending", [js "captured"; js "failed"; js "voided"; js "refund_pending"]);
   (js "failed", [js "refund_pending"]);
   (js "captured", [js "refund_pending"]);
   (js "partially_refunded", [js "captured"; js "refund_pending"]);
   (js "voided", [js "refund_pending"]);
   (js "refund_pending", [js "captured"; js "partially_refunded"; js "refunded"]);
   (js "refunded", [js "captured"; js "partially_refunded"; js "refund_pending"])].

Definition OrderStatus : list jstr :=
  [js "draft"; js "quoted"; js "confirmed"; js "in_production"; js "qc_passed";
   js "awaiting_balance"; js "ready_to_ship"; js "shipped"; js "delivered"; js "completed";
   js "recovery_pending"; js "cancelled"; js "refunded"; js "cancelled_settled";
   js "partially_fulfilled"; js "expired"].

Definition orderInitial : list jstr := [js "draft"].
Definition orderTerminal : list jstr :=
  [js "completed"; js "partially_fulfilled"; js "cancelled_settled"; js "expired"].

Definition orderTransitions : list (jstr * list jstr) :=
  [(js "draft", [js "quoted"]);
   (js "quoted", [js "confirmed"; js "expired"; js "cancelled"]);
   (js "confirmed", [js "in_production"; js "cancelled"]);
   (js "in_production", [js "qc_passed"; js "recovery_pending"; js "cancelled"]);
   (js "qc_passed", [js "awaiting_balance"; js "ready_to_ship"; js "recovery_pending";
     js "cancelled"]);
   (js "awaiting_balance", [js "ready_to_ship"; js "shipped"; js "recovery_pending";
     js "cancelled"; js "cancelled_settled"]);
   (js "ready_to_ship", [js "shipped"; js "recovery_pending"; js "cancelled"]);
   (js "shipped", [js "delivered"; js "partially_fulfilled"; js "cancelled"]);
   (js "delivered", [js "completed"]);
   (js "recovery_pending", [js "qc_passed"; js "cancelled"; js "partially_fulfilled"]);
   (js "cancelled", [js "shipped"; js "refunded"; js "cancelled_settled"]);
   (js "refunded", [js "shipped"; js "cancelled"])].

Definition SingleOrderPhaseStatus : list jstr :=
  [js "quoted"; js "active"; js "in_production"; js "qc_passed"; js "shipped"; js "delivered";
   js "completed"; js "recovery_pending"; js "cancelled"; js "cancelled_refunded";
   js "cancelled_settled"; js "partially_fulfilled"].

Definition singleOrderPhaseInitial : list jstr := [js "quoted"].
Definition singleOrderPhaseTerminal : list jstr :=
  [js "completed"; js "cancelled_settled"; js "partially_fulfilled"].

Definition singleOrderPhaseTransitions : list (jstr * list jstr) :=
  [(js "quoted", [js "active"; js "cancelled"]);
   (js "active", [js "in_production"; js "cancelled"]);
   (js "in_production", [js "qc_passed"; js "recovery_pending"; js "cancelled"]);
   (js "qc_passed", [js "shipped"; js "recovery_pending"; js "cancelled"]);
   (js "shipped", [js "delivered"; js "partially_fulfilled"; js "cancelled_refunded"]);
   (js "delivered", [js "completed"]);
   (js "recovery_pending", [js "qc_passed"; js "partially_fulfilled"; js "cancelled_refunded"]);
   (js "cancelled", [js "shipped"; js "cancelled_refunded"; js "cancelled_settled"]);
   (js "cancelled_refunded", [js "shipped"; js "cancelled"])].

Definition JobStatus : list jstr :=
  [js "created"; js "accepted"; js "gcode_ready"; js "printing"; js "printed";
   js "photo_submitted"; js "qc_approved"; js "qc_rejected"; js "packed"; js "handed_over";
   js "settled"; js "failed"; js "cancelled"].

Definition jobInitial : list jstr := [js "created"].
Definition jobTerminal : list jstr :=
  [js "settled"; js "qc_rejected"; js "failed"].

Definition jobTransitions : list (jstr * list jstr) :=
  [(js "created", [js "accepted"; js "cancelled"]);
   (js "accepted", [js "gcode_ready"; js "failed"; js "cancelled"]);
   (js "gcode_ready", [js "printing"; js "failed"; js "cancelled"]);
   (js "printing", [js "printed"; js "failed"; js "cancelled"]);
   (js "printed", [js "photo_submitted"; js "failed"; js "cancelled"]);
   (js "photo_submitted", [js "qc_approved"; js "qc_rejected"; js "failed"; js "cancelled"]);
   (js "qc_approved", [js "packed"; js "failed"; js "cancelled"]);
   (js "packed", [js "handed_over"; js "failed"; js "cancelled"]);
   (js "cancelled", [js "handed_over"]);
   (js "handed_over", [js "settled"])].

Definition ShipmentStatus : list jstr :=
  [js "planned"; js "label_created"; js "cancellation_pending"; js "handed_over";
   js "in_transit"; js "delivered"; js "cancelled"; js "lost"; js "returned"; js "recovered"].

Definition shipmentInitial : list jstr := [js "planned"].
Definition shipmentTerminal : list jstr :=
  [js "delivered"; js "returned"; js "recovered"].

Definition shipmentTransitions : list (jstr * list jstr) :=
  [(js "planned", [js "label_created"; js "cancelled"]);
   (js "label_created", [js "handed_over"; js "cancellation_pending"]);
   (js "cancellation_pending", [js "cancelled"; js "handed_over"]);
   (js "cancelled", [js "handed_over"]);
   (js "handed_over", [js "in_transit"; js "delivered"]);
   (js "in_transit", [js "delivered"; js "lost"; js "returned"]);
   (js "lost", [js "recovered"])].

Definition ClaimStatus : list jstr :=
  [js "opened"; js "investigating"; js "active"; js "resolved_rejected"; js "resolved_reprint";
   js "resolved_reship"; js "resolved_refund"; js "resolved_mixed"; js "withdrawn"].

Definition claimInitial : list jstr := [js "opened"].
Definition claimTerminal : list jstr :=
  [js "resolved_rejected"; js "resolved_reprint"; js "resolved_reship"; js "resolved_refund";
   js "resolved_mixed"; js "withdrawn"].

Definition claimTransitions : list (jstr * list jstr) :=
  [(js "opened", [js "investigating"; js "withdrawn"]);
   (js "investigating", [js "active"; js "resolved_rejected"; js "withdrawn"]);
   (js "active", [js "resolved_reprint"; js "resolved_reship"; js "resolved_refund";
     js "resolved_mixed";
     js "withdrawn"])].

Definition ClaimSlotResolutionStatus : list jstr :=
  [js "pending"; js "rejected"; js "reship_pending"; js "reship_shipped"; js "delivered_reship";
   js "reprint_pending"; js "replacement_in_production"; js "replacement_shipped";
   js "delivered_reprint"; js "refund_pending"; js "refunded"; js "recovery_pending";
   js "withdrawn"].

Definition claimSlotResolutionInitial : list jstr := [js "pending"].
Definition claimSlotResolutionTerminal : list jstr :=
  [js "rejected"; js "delivered_reship"; js "delivered_reprint"; js "refunded"; js "withdrawn"].

Definition claimSlotResolutionTransitions : list (jstr * list jstr) :=
  [(js "pending", [js "rejected"; js "reship_pending"; js "reprint_pending"; js "refund_pending";
     js "withdrawn"]);
   (js "reship_pending", [js "reship_shipped"; js "refund_pending"; js "withdrawn"]);
   (js "reship_shipped", [js "delivered_reship"; js "recovery_pending"]);
   (js "reprint_pending", [js "replacement_in_production"; js "refund_pending"; js "withdrawn"]);
   (js "replacement_in_production", [js "replacement_shipped"; js "refund_pending";
     js "recovery_pending"; js "withdrawn"]);
   (js "replacement_shipped", [js "delivered_reprint"; js "recovery_pending"]);
   (js "refund_pending", [js "refunded"]);
   (js "recovery_pending", [js "reship_pending"; js "reprint_pending"; js "refund_pending";
     js "withdrawn"])].

(** The statuses that the policy's [contextualTerminal] can call terminal. *)
Definition paymentContextual : list jstr := [js "refunded"; js "failed"; js "voided"].
Definition orderContextual : list jstr := [js "refunded"; js "cancelled"].
Definition singleOrderPhaseContextual : list jstr := [js "cancelled_refunded"; js "cancelled"].
Definition jobContextual : list jstr := [js "cancelled"].
Definition shipmentContextual : list jstr := [js "cancelled"].

(** ** Lifecycles *)

Record Lifecycle := mkLifecycle {
  statuses : list jstr;
  initialStatuses : list jstr;
  terminalStatuses : list jstr;
  contextualStatuses : list jstr;
  table : list (jstr * list jstr);
}.

Definition lifecycles : list Lifecycle :=
  [mkLifecycle QuoteRequestStatus quoteRequestInitial quoteRequestTerminal [] quoteRequestTransitions;
   mkLifecycle PaymentStatus paymentInitial paymentTerminal paymentContextual paymentTransitions;
   mkLifecycle OrderStatus orderInitial orderTerminal orderContextual orderTransitions;
   mkLifecycle SingleOrderPhaseStatus singleOrderPhaseInitial singleOrderPhaseTerminal
     singleOrderPhaseContextual singleOrderPhaseTransitions;
   mkLifecycle JobStatus jobInitial jobTerminal jobContextual jobTransitions;
   mkLifecycle ShipmentStatus shipmentInitial shipmentTerminal shipmentContextual shipmentTransitions;
   mkLifecycle ClaimStatus claimInitial claimTerminal [] claimTransitions;
   mkLifecycle ClaimSlotResolutionStatus claimSlotResolutionInitial claimSlotResolutionTerminal []
     claimSlotResolutionTransitions].

(** One edge of a table. *)
Definition edge (l : Lifecycle) (s t : jstr) : Prop := t ∈ targets (table l) s.

(** Every status of the table is one of the union type's, and every status can
    be entered. *)
Record typed (l : Lifecycle) : Prop := {
  ty_initial : ∀ s, s ∈ initialStatuses l → s ∈ statuses l;
  ty_edge : ∀ s t, edge l s t → s ∈ statuses l ∧ t ∈ statuses l;
  ty_reachable : ∀ s, s ∈ statuses l → ∃ i, i ∈ initialStatuses l ∧ rtc (edge l) i s;
}.

(** Terminal statuses have no way out and are the only dead ends, and every
    status can still be finished. *)
Record finishes (l : Lifecycle) : Prop := {
  fi_terminal : ∀ s t, s ∈ terminalStatuses l → ¬ edge l s t;
  fi_dead : ∀ s, s ∈ statuses l → (∀ t, ¬ edge l s t) → s ∈ terminalStatuses l ++ contextualStatuses l;
  fi_live : ∀ s, s ∈ statuses l → ∃ t, t ∈ terminalStatuses l ++ contextualStatuses l ∧ rtc (edge l) s t;
}.

(** ** Deciding the table properties *)

(** What [n] edges reach, at most, from some statuses. *)
Fixpoint reach (l : Lifecycle) (n : nat) (from : list jstr) : list jstr :=
  match n with
  | O => from
  | S n' => reach l n' (remove_dups (from ++ (from ≫= targets (table l))))
  end.

Lemma reach_sound l n from t :
  t ∈ reach l n from → ∃ s, s ∈ from ∧ rtc (edge l) s t.
Proof.
  revert from. induction n as [|n IH]; intros from; cbn [reach]; [by exists t; split|].
  intros (s & Hs & Hst)%IH. apply elem_of_remove_dups, elem_of_app in Hs as [Hs|Hs]; [by exists s|].
  apply list_elem_of_bind in Hs as (s0 & Hs & Hs0). exists s0. split; [done|]. by eapply rtc_l.
Qed.

Definition subset (l k : list jstr) : bool := forallb (λ x, bool_decide (x ∈ k)) l.

Lemma subset_spec l k : subset l k = true ↔ ∀ x, x ∈ l → x ∈ k.
Proof.
  unfold subset. rewrite forallb_forall. setoid_rewrite bool_decide_eq_true.
  setoid_rewrite <-list_elem_of_In. done.
Qed.

Definition typedb (l : Lifecycle) : bool :=
  subset (initialStatuses l) (statuses l)
  && forallb (λ '(s, ts), bool_decide (s ∈ statuses l) && subset ts (statuses l)) (table l)
  && subset (statuses l) (reach l (length (statuses l)) (initialStatuses l)).

Lemma typedb_sound l : typedb l = true → typed l.
Proof.
  intros H. apply andb_true_iff in H as [[Hi Ht]%andb_true_iff Hr]. rewrite subset_spec in Hi.
  rewrite subset_spec in Hr. rewrite forallb_forall in Ht. split; [done| |].
  - intros s t (ts & Hts%list_elem_of_In & Htt)%targets_elem. specialize (Ht _ Hts). cbn in Ht.
    apply andb_true_iff in Ht as [Hs%bool_decide_eq_true Hsub]. rewrite subset_spec in Hsub. auto.
  - intros s (i & Hi' & Hrtc)%Hr%reach_sound. eauto.
Qed.

Definition finishesb (l : Lifecycle) : bool :=
  let finals := terminalStatuses l ++ contextualStatuses l in
  forallb (λ s, match targets (table l) s with [] => true | _ => false end) (terminalStatuses l)
  && forallb (λ s, match targets (table l) s with [] => bool_decide (s ∈ finals) | _ => true end) (statuses l)
  && forallb (λ s, existsb (λ t, bool_decide (t ∈ finals)) (reach l (length (statuses l)) [s])) (statuses l).

Lemma finishesb_sound l : finishesb l = true → finishes l.
Proof.
  intros H. apply andb_true_iff in H as [[Ht Hd]%andb_true_iff Hl].
  rewrite forallb_forall in Ht. rewrite forallb_forall in Hd. rewrite forallb_forall in Hl. split.
  - intros s t Hs%list_elem_of_In%Ht He. unfold edge in He. destruct (targets (table l) s); [|done].
    by apply not_elem_of_nil in He.
  - intros s Hs%list_elem_of_In%Hd Hno. unfold edge in Hno. destruct (targets (table l) s) as [|t ts].
    + by apply bool_decide_eq_true in Hs.
    + destruct (Hno t). by left.
  - intros s (t & Ht'%list_elem_of_In & Hf%bool_decide_eq_true)%list_elem_of_In%Hl%existsb_exists.
    apply reach_sound in Ht' as (s' & ->%list_elem_of_singleton & Hrtc). eauto.
Qed.
End Lifecycles.

(** * Properties *)

(** C37: the eight transition tables are well typed: they start in and lead to
    statuses of their own union type only, and every status of the type can be
    reached from an initial one. *)
Theorem lifecycle_tables_typed l : l ∈ Lifecycles.lifecycles → Lifecycles.typed l.
Proof.
  intros Hl%list_elem_of_In. apply Lifecycles.typedb_sound.
  assert (forallb Lifecycles.typedb Lifecycles.lifecycles = true) as H by (vm_compute; reflexivity).
  rewrite forallb_forall in H. by apply H.
Qed.

Lemma lifecycle_tables_typed_witness :
  Lifecycles.typed (Lifecycles.mkLifecycle Lifecycles.ClaimStatus Lifecycles.claimInitial
    Lifecycles.claimTerminal [] Lifecycles.claimTransitions).
Proof. apply lifecycle_tables_typed. apply list_elem_of_In. cbn. tauto. Defined.

(** C36: no lifecycle gets stuck: the terminal statuses have no way out, the
    statuses without one are terminal (or terminal in some contexts), and from
    every status, however an aggregate got there, the table still leads to
    such a status. *)
Theorem lifecycles_can_finish l : l ∈ Lifecycles.lifecycles → Lifecycles.finishes l.
Proof.
  intros Hl%list_elem_of_In. apply Lifecycles.finishesb_sound.
  assert (forallb Lifecycles.finishesb Lifecycles.lifecycles = true) as H by (vm_compute; reflexivity).
  rewrite forallb_forall in H. by apply H.
Qed.

Lemma lifecycles_can_finish_witness :
  Lifecycles.finishes (Lifecycles.mkLifecycle Lifecycles.PaymentStatus Lifecycles.paymentInitial
    Lifecycles.paymentTerminal Lifecycles.paymentContextual Lifecycles.paymentTransitions).
Proof. apply lifecycles_can_finish. apply list_elem_of_In. cbn. tauto. Defined.
