(* ===== verification/QuoteRequest.v ===== *)
(** The lifecycle of a quote request (lifecycle/policies.ts): its policy with
    every guard it runs.  A guard's context is a record of values of type
    [unknown]; the wording of the error it throws is not part of the model. *)
From S2P Require Import Prelude Text Primitives Values Transition Guards Lifecycles.

Module QuoteRequest.
Import Transition.

(** ** Availability *)

Record IssuedQuote := mkIssuedQuote {
  id : jstr;
  quoteRequestId : jstr;
  issuedAt : Instant.t;
  expiresAt : Instant.t;
}.

Definition isQuoteAvailable (quote : IssuedQuote) (quoteRequestStatus : Status) (now : Instant.t) : bool :=
  str_eqb quoteRequestStatus (js "quoted")
  && (0 <=? Instant.compare now (issuedAt quote))
  && (Instant.compare now (expiresAt quote) <? 0).

Definition canAcceptQuote (quote : IssuedQuote) (quoteRequestStatus : Status) (now : Instant.t) : bool :=
  isQuoteAvailable quote quoteRequestStatus now.

(** [!(a instanceof Instant) || !(b instanceof Instant) || a.compare(b) >= 0] *)
Definition notBefore (a b : value) : bool :=
  match instant a, instant b with
  | Some i, Some j => 0 <=? Instant.compare i j
  | _, _ => true
  end.

(** ** Guards *)

(** The conjuncts both branches of the issuance guard share: the command is
    not for the exact expected request of a status. *)
Definition inexactRequest (command : TransitionCommand)
    (quoteRequestId previousResultId stateKey expectedRequest : value) (status : String.string) : bool :=
  negb (nonBlank previousResultId)
  || negb (nonBlank stateKey)
  || (optional (aggregateId command) !== quoteRequestId)
  || (optional (currentStateResultId command) !== previousResultId)
  || (optional (currentStateCommandKey command) !== stateKey)
  || (expectedRequest ?. "id" !== quoteRequestId)
  || (expectedRequest ?. "status" !== lit status)
  || (expectedRequest ?. "resultId" !== previousResultId)
  || (expectedRequest ?. "currentStateCommandKey" !== stateKey)
  || (expectedRequest ?. "immutable" !== Bool true).
Arguments inexactRequest _ _ _ _ _ _%_string.

Definition requireAtomicIssuedQuoteCreation (command : TransitionCommand) : result () :=
  let context := context command in
  let quoteRequestId := context ?. "quoteRequestId" in
  let issuedQuoteId := context ?. "issuedQuoteId" in
  let issuedAt := context ?. "issuedQuoteIssuedAt" in
  let expiresAt := context ?. "issuedQuoteExpiresAt" in
  let resultId := context ?. "quoteIssuanceResultId" in
  let requestPreviousResultId := context ?. "quoteIssuancePreviousQuoteRequestResultId" in
  let requestStateKey := context ?. "quoteIssuanceCurrentStateCommandKey" in
  let expectedRequest := record (context ?. "quoteIssuanceExpectedQuoteRequest") in
  let issuedQuote := record (context ?. "quoteIssuanceIssuedQuote") in
  let recordIssuedAt := issuedQuote ?. "issuedAt" in
  let recordExpiresAt := issuedQuote ?. "expiresAt" in
  let inexact := λ status,
    negb (nonBlank (optional (currentStateResultId command)))
    || inexactRequest command quoteRequestId requestPreviousResultId requestStateKey expectedRequest status in
  guard_when
    (negb (nonBlank quoteRequestId)
     || negb (nonBlank issuedQuoteId)
     || (context ?. "issuedQuoteRequestId" !== quoteRequestId)
     || notBefore issuedAt expiresAt
     || negb (nonBlank resultId)
     || (context ?. "quoteIssuanceQuoteRequestId" !== quoteRequestId)
     || ((context ?. "quoteIssuanceQuoteRequestPreviousStatus" !== lit "in_review")
         && (context ?. "quoteIssuanceQuoteRequestPreviousStatus" !== lit "quoted"))
     || (context ?. "quoteIssuanceQuoteRequestTargetStatus" !== lit "quoted")
     || (currentIs command "in_review" && targetIs command "quoted" && inexact "in_review"%string)
     || (currentIs command "quoted" && targetIs command "quoted"
         && ((context ?. "quoteIssuanceQuoteRequestPreviousStatus" !== lit "quoted")
             || inexact "quoted"%string))
     || (context ?. "quoteIssuanceIssuedQuoteId" !== issuedQuoteId)
     || (context ?. "quoteIssuanceIssuedQuoteRequestId" !== quoteRequestId)
     || (context ?. "quoteIssuanceRequestResultId" !== resultId)
     || (context ?. "quoteIssuanceQuoteResultId" !== resultId)
     || (issuedQuote ?. "id" !== issuedQuoteId)
     || (issuedQuote ?. "quoteRequestId" !== quoteRequestId)
     || (issuedQuote ?. "immutable" !== Bool true)
     || (issuedQuote ?. "resultId" !== resultId)
     || negb (sameInstant recordIssuedAt issuedAt)
     || negb (sameInstant recordExpiresAt expiresAt)
     || (context ?. "quoteIssuanceCompleted" !== Bool true)
     || (context ?. "quoteIssuanceAtomic" !== Bool true)).

(** [!(evaluatedAt instanceof Instant) || ... || !canAcceptQuote(...)], with
    the identities that have been checked to be strings. *)
Definition unavailable (issuedQuoteId quoteRequestId issuedAt expiresAt evaluatedAt : value) : bool :=
  match issuedQuoteId, quoteRequestId, instant issuedAt, instant expiresAt, instant evaluatedAt with
  | Str d, Str q, Some i, Some e, Some n => negb (canAcceptQuote (mkIssuedQuote d q i e) (js "quoted") n)
  | _, _, _, _, _ => true
  end.

Definition requireQuoteAcceptanceAvailability (command : TransitionCommand) : result () :=
  requireAtomicIssuedQuoteCreation command ;;
  let context := context command in
  let quoteRequestId := context ?. "quoteRequestId" in
  let issuedQuoteId := context ?. "issuedQuoteId" in
  let issuedAt := context ?. "issuedQuoteIssuedAt" in
  let expiresAt := context ?. "issuedQuoteExpiresAt" in
  let evaluatedAt := context ?. "quoteAcceptanceEvaluatedAt" in
  let resultId := context ?. "quoteAcceptanceResultId" in
  let requestPreviousResultId := context ?. "quoteAcceptancePreviousQuoteRequestResultId" in
  let requestStateKey := context ?. "quoteAcceptanceCurrentStateCommandKey" in
  let expectedRequest := record (context ?. "quoteAcceptanceExpectedQuoteRequest") in
  let issuedQuote := record (context ?. "quoteAcceptanceIssuedQuote") in
  let recordIssuedAt := issuedQuote ?. "issuedAt" in
  let recordExpiresAt := issuedQuote ?. "expiresAt" in
  let creationResultId := context ?. "quoteAcceptanceIssuedQuoteCreationResultId" in
  guard_when
    (negb (nonBlank quoteRequestId)
     || inexactRequest command quoteRequestId requestPreviousResultId requestStateKey expectedRequest "quoted"
     || negb (nonBlank issuedQuoteId)
     || (context ?. "issuedQuoteRequestId" !== quoteRequestId)
     || (context ?. "quoteAcceptanceQuoteRequestId" !== quoteRequestId)
     || (context ?. "quoteAcceptanceIssuedQuoteId" !== issuedQuoteId)
     || (context ?. "quoteAcceptanceIssuedQuoteRequestId" !== quoteRequestId)
     || (issuedQuote ?. "id" !== issuedQuoteId)
     || (issuedQuote ?. "quoteRequestId" !== quoteRequestId)
     || (issuedQuote ?. "immutable" !== Bool true)
     || negb (nonBlank creationResultId)
     || (creationResultId !== context ?. "quoteIssuanceResultId")
     || (issuedQuote ?. "resultId" !== creationResultId)
     || notBefore issuedAt expiresAt
     || negb (sameInstant recordIssuedAt issuedAt)
     || negb (sameInstant recordExpiresAt expiresAt)
     || negb (sameInstant (context ?. "quoteAcceptanceIssuedAt") issuedAt)
     || negb (sameInstant (context ?. "quoteAcceptanceExpiresAt") expiresAt)
     || negb (nonBlank resultId)
     || (context ?. "quoteAcceptanceAvailabilityResultId" !== resultId)
     || (context ?. "quoteAcceptanceOrderResultId" !== resultId)
     || (context ?. "quoteAcceptanceRequestResultId" !== resultId)
     || (context ?. "quoteAcceptanceQuoteRequestPreviousStatus" !== lit "quoted")
     || (context ?. "quoteAcceptanceQuoteRequestTargetStatus" !== lit "accepted")
     || unavailable issuedQuoteId quoteRequestId issuedAt expiresAt evaluatedAt).

Definition requireAcceptedQuoteOrderCreation (command : TransitionCommand) : result () :=
  let context := context command in
  let quoteRequestId := context ?. "quoteRequestId" in
  let issuedQuoteId := context ?. "issuedQuoteId" in
  let orderId := context ?. "orderId" in
  let acceptanceResultId := context ?. "quoteAcceptanceResultId" in
  guard_when
    (negb (nonBlank quoteRequestId)
     || (context ?. "issuedQuoteRequestId" !== quoteRequestId)
     || (context ?. "createdOrderQuoteRequestId" !== quoteRequestId)) ;;
  guard_when
    (negb (nonBlank issuedQuoteId) || (context ?. "createdOrderSourceQuoteId" !== issuedQuoteId)) ;;
  guard_when
    (negb (nonBlank orderId)
     || (context ?. "acceptedOrderId" !== orderId)
     || (context ?. "createdOrderStatus" !== lit "draft")) ;;
  guard_when
    (negb (nonBlank acceptanceResultId)
     || (context ?. "quoteAcceptanceOrderResultId" !== acceptanceResultId)
     || (context ?. "createdOrderResultId" !== acceptanceResultId)) ;;
  requireFlag command "orderCreated" ;;
  requireFlag command "quoteAcceptanceOrderCreationAtomic".

Definition requireQuoteExpirationReached (command : TransitionCommand) : result () :=
  requireAtomicIssuedQuoteCreation command ;;
  let context := context command in
  let quoteRequestId := context ?. "quoteRequestId" in
  let issuedQuoteId := context ?. "issuedQuoteId" in
  let expiresAt := context ?. "issuedQuoteExpiresAt" in
  let evaluatedAt := context ?. "quoteExpirationEvaluatedAt" in
  let previousResultId := context ?. "quoteExpirationPreviousQuoteRequestResultId" in
  let stateKey := context ?. "quoteExpirationCurrentStateCommandKey" in
  let expectedRequest := record (context ?. "quoteExpirationExpectedQuoteRequest") in
  guard_when
    (negb (nonBlank quoteRequestId)
     || (context ?. "issuedQuoteRequestId" !== quoteRequestId)
     || (context ?. "quoteExpirationQuoteRequestId" !== quoteRequestId)
     || negb (nonBlank issuedQuoteId)
     || (context ?. "quoteExpirationIssuedQuoteId" !== issuedQuoteId)
     || inexactRequest command quoteRequestId previousResultId stateKey expectedRequest "quoted") ;;
  guard_when
    match instant expiresAt, instant evaluatedAt with
    | Some e, Some n => Instant.compare n e <? 0
    | _, _ => true
    end.

(** [/^[A-Z][A-Z0-9_]{0,99}$/.test(s)] *)
Definition isReasonCode (s : jstr) : bool :=
  let upper := λ c, (65 <=? c) && (c <=? 90) in
  match s with
  | c :: rest =>
      upper c
      && forallb (λ c, upper c || ((48 <=? c) && (c <=? 57)) || (c =? 95)) rest
      && (length rest <=? 99)%nat
  | [] => false
  end.

(** The condition of the pre-offer decline. *)
Definition invalidDecline (command : TransitionCommand) : bool :=
  let reason := (context command) ?. "declineReason" in
  let reasonCode := (context command) ?. "declineReasonCode" in
  negb (nonBlank reason)
  || match reason with Str s => 1000 <? codePoints s | _ => true end
  || match reasonCode with Str s => negb (isReasonCode s) | _ => true end
  || ((context command) ?. "declineHasIssuedQuote" !== Bool false).

(** ** The policy *)

Definition reissue (command : TransitionCommand) : result bool :=
  if negb (currentIs command "quoted") || negb (targetIs command "quoted") then Ok false
  else requireAtomicIssuedQuoteCreation command ;; Ok true.

Definition checkGuards (command : TransitionCommand) : result () :=
  when ((currentIs command "new" || currentIs command "in_review") && targetIs command "rejected")
    (guard_when (invalidDecline command)) ;;
  when (currentIs command "in_review" && targetIs command "quoted")
    (requireAtomicIssuedQuoteCreation command) ;;
  when (currentIs command "quoted" && targetIs command "quoted")
    (requireAtomicIssuedQuoteCreation command) ;;
  when (currentIs command "quoted" && targetIs command "accepted")
    (requireQuoteAcceptanceAvailability command ;; requireAcceptedQuoteOrderCreation command) ;;
  when (currentIs command "quoted" && targetIs command "expired")
    (requireQuoteExpirationReached command).

Definition quoteRequestPolicy : TransitionPolicy :=
  mkPolicy (js "QuoteRequest") Lifecycles.quoteRequestInitial Lifecycles.quoteRequestTerminal None
    Lifecycles.quoteRequestTransitions (Some reissue) (Some checkGuards).

(** ** Specification *)

(** An acceptance of an issued quote: a command for the request that the quote
    was issued for, evaluated within the quote's window, that creates the
    draft order of exactly this quote in the same result. *)
Record acceptance (command : TransitionCommand) (i e n : Instant.t) : Prop := {
  ac_edge : current command = js "quoted" ∧ target command = js "accepted";
  ac_request : ∃ r, aggregateId command = Some r ∧ blank r = false
    ∧ (context command) ?. "quoteRequestId" = Str r
    ∧ (context command) ?. "issuedQuoteRequestId" = Str r
    ∧ (context command) ?. "createdOrderQuoteRequestId" = Str r;
  ac_quote : ∃ q, blank q = false ∧ (context command) ?. "issuedQuoteId" = Str q
    ∧ (context command) ?. "createdOrderSourceQuoteId" = Str q;
  ac_order : ∃ o, blank o = false ∧ (context command) ?. "orderId" = Str o
    ∧ (context command) ?. "acceptedOrderId" = Str o
    ∧ (context command) ?. "createdOrderStatus" = lit "draft"
    ∧ (context command) ?. "orderCreated" = Bool true;
  ac_result : ∃ a, blank a = false ∧ (context command) ?. "quoteAcceptanceResultId" = Str a
    ∧ (context command) ?. "createdOrderResultId" = Str a;
  ac_instants : instant ((context command) ?. "issuedQuoteIssuedAt") = Some i
    ∧ instant ((context command) ?. "issuedQuoteExpiresAt") = Some e
    ∧ instant ((context command) ?. "quoteAcceptanceEvaluatedAt") = Some n;
  ac_window : Instant.epochMilliseconds i ≤ Instant.epochMilliseconds n < Instant.epochMilliseconds e;
}.

(** ** Facts *)

Lemma compare_neg a b : Instant.compare a b < 0 ↔ Instant.epochMilliseconds a < Instant.epochMilliseconds b.
Proof.
  unfold Instant.compare. destruct (Z.eqb_spec (Instant.epochMilliseconds a) (Instant.epochMilliseconds b)),
    (Z.ltb_spec (Instant.epochMilliseconds a) (Instant.epochMilliseconds b)); lia.
Qed.

Lemma isQuoteAvailable_spec quote status now :
  isQuoteAvailable quote status now = true ↔
    status = js "quoted"
    ∧ Instant.epochMilliseconds (issuedAt quote) ≤ Instant.epochMilliseconds now
      < Instant.epochMilliseconds (expiresAt quote).
Proof.
  unfold isQuoteAvailable, str_eqb. rewrite !andb_true_iff, bool_decide_eq_true, Z.leb_le, Z.ltb_lt.
  pose proof (compare_neg now (issuedAt quote)). pose proof (compare_neg now (expiresAt quote)).
  destruct (Z.le_gt_cases 0 (Instant.compare now (issuedAt quote))); naive_solver lia.
Qed.

Lemma available_window d q i e n :
  unavailable d q i e n = false →
  ∃ i' e' n', instant i = Some i' ∧ instant e = Some e' ∧ instant n = Some n'
    ∧ Instant.epochMilliseconds i' ≤ Instant.epochMilliseconds n' < Instant.epochMilliseconds e'.
Proof.
  unfold unavailable. intros H. destruct d; try done. destruct q; try done.
  destruct (instant i) as [i'|], (instant e) as [e'|], (instant n) as [n'|]; try done.
  apply negb_false_iff, isQuoteAvailable_spec in H as [_ H]. by exists i', e', n'.
Qed.

(** The edges of the table, by target. *)
Lemma quote_request_edge c t :
  t ∈ targets Lifecycles.quoteRequestTransitions (current c) →
  (t = js "accepted" ∨ t = js "expired") → current c = js "quoted".
Proof.
  intros (ts & Hts & Hin)%targets_elem Ht. unfold Lifecycles.quoteRequestTransitions in Hts.
  rewrite !elem_of_cons in Hts.
  destruct Hts as [[= -> ->]|[[= -> ->]|[[= -> ->]|[]%not_elem_of_nil]]]; [..|done];
    destruct Ht as [-> | ->]; rewrite !elem_of_cons, elem_of_nil in Hin; by destruct_or? Hin.
Qed.

Lemma accepting_acceptance command p :
  transition quoteRequestPolicy command = Ok (changed p (js "accepted")) →
  ∃ i e n, acceptance command i e n.
Proof.
  intros (-> & Ht & _ & Hin & Hg)%transition_changed. symmetry in Ht.
  pose proof (quote_request_edge command _ Hin (or_introl eq_refl)) as Hc. clear Hin.
  specialize (Hg _ eq_refl). unfold checkGuards, currentIs, targetIs in Hg. rewrite Hc, Ht in Hg. literals Hg.
  run_in Hg. apply bind_Ok in Hg as ([] & Hg & _). apply bind_Ok in Hg as ([] & Ha & Ho).
  unfold requireQuoteAcceptanceAvailability in Ha. apply bind_Ok in Ha as ([] & _ & Ha). cbv zeta in Ha.
  guard_inv Ha.
  match goal with E : unavailable _ _ _ _ _ = false |- _ => apply available_window in E as (i & e & n & Hi & He & Hn & Hw) end.
  match goal with E : inexactRequest _ _ _ _ _ _ = false |- _ => unfold inexactRequest in E; bool_inv end.
  unfold requireAcceptedQuoteOrderCreation, requireFlag in Ho. cbv zeta in Ho.
  apply bind_Ok in Ho as ([] & Ho1 & Ho). apply bind_Ok in Ho as ([] & Ho2 & Ho).
  apply bind_Ok in Ho as ([] & Ho3 & Ho). apply bind_Ok in Ho as ([] & Ho4 & Ho).
  apply bind_Ok in Ho as ([] & Ho5 & _).
  guard_inv Ho1. guard_inv Ho2. guard_inv Ho3. guard_inv Ho4. guard_inv Ho5.
  identities. exists i, e, n. split; eauto 10.
Qed.

(** An expiration is evaluated at or after the end of the window. *)
Lemma expiring_after command p :
  transition quoteRequestPolicy command = Ok (changed p (js "expired")) →
  ∃ e n, instant ((context command) ?. "issuedQuoteExpiresAt") = Some e
    ∧ instant ((context command) ?. "quoteExpirationEvaluatedAt") = Some n
    ∧ Instant.epochMilliseconds e ≤ Instant.epochMilliseconds n.
Proof.
  intros (-> & Ht & _ & Hin & Hg)%transition_changed. symmetry in Ht.
  pose proof (quote_request_edge command _ Hin (or_intror eq_refl)) as Hc. clear Hin.
  specialize (Hg _ eq_refl). unfold checkGuards, currentIs, targetIs in Hg. rewrite Hc, Ht in Hg. literals Hg.
  run_in Hg. unfold requireQuoteExpirationReached in Hg. apply bind_Ok in Hg as ([] & _ & Hg). cbv zeta in Hg.
  apply bind_Ok in Hg as ([] & _ & Hg%guard_when_Ok).
  destruct (instant _) as [e|], (instant ((context command) ?. "quoteExpirationEvaluatedAt")) as [n|]; try done.
  exists e, n. split_and!; [done..|]. apply Z.ltb_ge in Hg. pose proof (compare_neg n e). lia.
Qed.

(** A history that ends accepted has an accepting command. *)
Lemma accepted_history s0 cs s :
  history quoteRequestPolicy s0 cs s →
  s0 = js "new"
  ∧ (s = js "accepted" → ∃ c i e n, c ∈ cs ∧ acceptance c i e n).
Proof.
  induction 1 as [s Hs|s0 cs s c r Hh [-> IH] <- Hr].
  - apply list_elem_of_singleton in Hs as ->. by split.
  - split; [done|]. intros Hacc. apply transition_Ok in Hr as Hr'. destruct Hr' as [_ Ha].
    destruct Ha as [Heq _|f Heq _ _ _|Hne _ _]; cbn in Hacc.
    1,2: destruct (IH Hacc) as (c' & i & e & n & Hc' & Hac); exists c', i, e, n; rewrite elem_of_app; auto.
    rewrite Hacc in Hr. apply accepting_acceptance in Hr as (i & e & n & Hac).
    exists c, i, e, n. rewrite elem_of_app, list_elem_of_singleton. auto.
Qed.
End QuoteRequest.

(** * Properties *)

Import Transition QuoteRequest.

(** *** A sample history *)

(** The facts of a quote for request [r], issued at 10 until 20 by result
    [issue], and of its acceptance at 19 that creates order [o]. *)
Definition sample_context : value :=
  let at_ n := InstantV n (Instant.mk n) in
  let quote address := RecordV address
    [(js "id", lit "q"); (js "quoteRequestId", lit "r"); (js "issuedAt", at_ 10); (js "expiresAt", at_ 20);
     (js "immutable", Bool true); (js "resultId", lit "issue")] in
  let request address status := RecordV address
    [(js "id", lit "r"); (js "status", lit status); (js "resultId", lit "previous");
     (js "currentStateCommandKey", lit "key"); (js "immutable", Bool true)] in
  RecordV 1
    [(js "quoteRequestId", lit "r"); (js "issuedQuoteId", lit "q"); (js "issuedQuoteRequestId", lit "r");
     (js "issuedQuoteIssuedAt", at_ 10); (js "issuedQuoteExpiresAt", at_ 20);
     (js "quoteIssuanceResultId", lit "issue"); (js "quoteIssuanceQuoteRequestId", lit "r");
     (js "quoteIssuancePreviousQuoteRequestResultId", lit "previous");
     (js "quoteIssuanceCurrentStateCommandKey", lit "key");
     (js "quoteIssuanceQuoteRequestPreviousStatus", lit "in_review");
     (js "quoteIssuanceQuoteRequestTargetStatus", lit "quoted");
     (js "quoteIssuanceExpectedQuoteRequest", request 2 "in_review"%string);
     (js "quoteIssuanceIssuedQuote", quote 3); (js "quoteIssuanceIssuedQuoteId", lit "q");
     (js "quoteIssuanceIssuedQuoteRequestId", lit "r"); (js "quoteIssuanceRequestResultId", lit "issue");
     (js "quoteIssuanceQuoteResultId", lit "issue"); (js "quoteIssuanceCompleted", Bool true);
     (js "quoteIssuanceAtomic", Bool true);
     (js "quoteAcceptanceEvaluatedAt", at_ 19); (js "quoteAcceptanceResultId", lit "accept");
     (js "quoteAcceptancePreviousQuoteRequestResultId", lit "previous");
     (js "quoteAcceptanceCurrentStateCommandKey", lit "key");
     (js "quoteAcceptanceExpectedQuoteRequest", request 4 "quoted"%string);
     (js "quoteAcceptanceIssuedQuote", quote 5);
     (js "quoteAcceptanceIssuedQuoteCreationResultId", lit "issue");
     (js "quoteAcceptanceQuoteRequestId", lit "r"); (js "quoteAcceptanceIssuedQuoteId", lit "q");
     (js "quoteAcceptanceIssuedQuoteRequestId", lit "r"); (js "quoteAcceptanceIssuedAt", at_ 10);
     (js "quoteAcceptanceExpiresAt", at_ 20); (js "quoteAcceptanceAvailabilityResultId", lit "accept");
     (js "quoteAcceptanceOrderResultId", lit "accept"); (js "quoteAcceptanceRequestResultId", lit "accept");
     (js "quoteAcceptanceQuoteRequestPreviousStatus", lit "quoted");
     (js "quoteAcceptanceQuoteRequestTargetStatus", lit "accepted");
     (js "createdOrderQuoteRequestId", lit "r"); (js "createdOrderSourceQuoteId", lit "q");
     (js "orderId", lit "o"); (js "acceptedOrderId", lit "o"); (js "createdOrderStatus", lit "draft");
     (js "createdOrderResultId", lit "accept"); (js "orderCreated", Bool true);
     (js "quoteAcceptanceOrderCreationAtomic", Bool true)].

Definition sample_command (from to : String.string) : TransitionCommand :=
  mkCommand (Some (js "r")) (js from) (js to) (js "now") (Some (js "key")) (Some (js "previous"))
    None None None None None sample_context.
Arguments sample_command _%_string _%_string.

(** C7: a quote request starts as new, and when its history has made it
    accepted, one command of that history accepted it: evaluated within the
    window of a quote issued for this request, and creating, in the same
    result, the draft order of exactly that quote.  An expiration that [transition]
    lets through with the same deadline is evaluated strictly later, so a quote
    is never both accepted and expired at one instant. *)
Theorem quote_request_accepted s0 commands :
  history quoteRequestPolicy s0 commands (js "accepted") →
  s0 = js "new"
  ∧ ∃ c i e n, c ∈ commands ∧ acceptance c i e n
    ∧ ∀ c' p e' n', transition quoteRequestPolicy c' = Ok (changed p (js "expired")) →
        instant ((context c') ?. "issuedQuoteExpiresAt") = Some e' →
        instant ((context c') ?. "quoteExpirationEvaluatedAt") = Some n' →
        Instant.epochMilliseconds e' = Instant.epochMilliseconds e →
        Instant.epochMilliseconds n < Instant.epochMilliseconds n'.
Proof.
  intros [Hs0 H]%accepted_history. split; [done|].
  destruct (H eq_refl) as (c & i & e & n & Hc & Hac). exists c, i, e, n. split_and!; [done..|].
  intros c' p e' n' (e'' & n'' & He & Hn & Hle)%expiring_after He' Hn' Heq.
  rewrite He in He'. rewrite Hn in Hn'. injection He' as ->. injection Hn' as ->.
  pose proof (ac_window _ _ _ _ Hac). lia.
Qed.

Lemma quote_request_accepted_witness :
  ∃ c i e n, c ∈ [sample_command "new" "in_review"; sample_command "in_review" "quoted";
                  sample_command "quoted" "accepted"] ∧ acceptance c i e n.
Proof.
  assert (history quoteRequestPolicy (js "new") [sample_command "new" "in_review";
    sample_command "in_review" "quoted"; sample_command "quoted" "accepted"] (js "accepted")) as H.
  { change (js "accepted") with (status_after (changed (js "quoted") (js "accepted"))).
    apply (history_step _ _ [_; _] (js "quoted")); [|reflexivity|vm_compute; reflexivity].
    change (js "quoted") with (status_after (changed (js "in_review") (js "quoted"))).
    apply (history_step _ _ [_] (js "in_review")); [|reflexivity|vm_compute; reflexivity].
    change (js "in_review") with (status_after (changed (js "new") (js "in_review"))).
    apply (history_step _ _ [] (js "new")); [|reflexivity|vm_compute; reflexivity].
    constructor. by left. }
  apply quote_request_accepted in H as (_ & c & i & e & n & Hc & Hac & _). by exists c, i, e, n.
Defined.
