(* ===== verification/Claims.v ===== *)
(** The lifecycle of a claim (lifecycle/policies.ts): the projection of its
    terminal status from the dispositions of its children, the ownership of
    the complete child set, whole-claim rejection and withdrawal, activation,
    and its policy. *)
From S2P Require Import Prelude Text Primitives Values Transition Guards Lifecycles.

Import Transition.

(** ** The terminal projection *)

Definition claimTerminalProjection : list (jstr * jstr) :=
  [(js "rejected", js "resolved_rejected");
   (js "delivered_reship", js "resolved_reship");
   (js "delivered_reprint", js "resolved_reprint");
   (js "refunded", js "resolved_refund");
   (js "withdrawn", js "withdrawn")].

Definition isClaimSlotResolutionTerminalStatus (status : value) : bool :=
  match status with
  | Str s => bool_decide (is_Some (assoc s claimTerminalProjection))
  | _ => false
  end.

Definition projectClaimTerminalStatus (statuses : value) : value :=
  let normalizedStatuses := elements statuses in
  if (zlength normalizedStatuses =? 0)
     || existsb (λ status, negb (isClaimSlotResolutionTerminalStatus status))
          normalizedStatuses then
    Undefined
  else
  let firstStatus := found (normalizedStatuses !! 0%nat) in
  if firstStatus === Undefined then Undefined
  else if negb (isClaimSlotResolutionTerminalStatus firstStatus) then Undefined
  else if forallb (λ status, status === firstStatus) normalizedStatuses then
    match firstStatus with Str s => optional (assoc s claimTerminalProjection) | _ => Undefined end
  else if existsb (λ status, (status === lit "rejected") || (status === lit "withdrawn"))
            normalizedStatuses then
    Undefined
  else lit "resolved_mixed".

(** ** Guards *)

Definition requireCompleteClaimResolutionSet (lifecycle : jstr) (command : TransitionCommand)
    : result value :=
  let claimId := (context command) ?. "claimId" in
  let ownershipSetId := (context command) ?. "claimResolutionOwnershipSetId" in
  let ownershipSetResultId := (context command) ?. "claimResolutionOwnershipSetResultId" in
  let ownershipSetValue := (context command) ?. "claimResolutionOwnershipSet" in
  let ownershipSet := record ownershipSetValue in
  let ownershipSnapshotId_ := (context command) ?. "claimResolutionOwnershipSnapshotId" in
  let ownershipPreviousClaimResultId :=
    (context command) ?. "claimResolutionOwnershipPreviousClaimResultId" in
  let ownershipSnapshotResultId_ :=
    (context command) ?. "claimResolutionOwnershipSnapshotResultId" in
  let ownershipSnapshotValue := (context command) ?. "claimResolutionOwnershipSnapshot" in
  let ownershipSnapshot := record ownershipSnapshotValue in
  let isExactIdArray := λ (value_ : value),
    is_array value_
    && (0 <? js_len value_)
    && forallb (λ id, nonBlank id) (elements value_)
    && (zlength (set_of (elements value_)) =? js_len value_) in
  let bindingKeys := λ (value_ : value),
    if negb (is_array value_) || (js_len value_ =? 0) then
      Undefined
    else
    let keys : list value := [] in
    for_return (λ keys entry,
      if negb (is_record entry) then
        Return Undefined
      else
      let binding := entry in
      if negb (nonBlank (binding ?. "resolutionId")) || negb (nonBlank (binding ?. "slotId")) then
        Return Undefined
      else
      let keys :=
        keys
        ++ [Str (text_of (binding ?. "resolutionId") ++ [0] ++ text_of (binding ?. "slotId"))] in
      Next keys) keys (elements value_) (λ keys,
          if zlength (set_of keys) =? zlength keys
          then ArrayV 0 (sort_strings keys)
          else Undefined) in
  let sameIdSet := λ (left : value) (right : value),
    if negb (isExactIdArray left) || negb (isExactIdArray right) then
      false
    else
    (js_len left =? js_len right)
    && forallb (λ id, includes (elements right) id) (elements left) in
  let sameBindingSet := λ (left : value) (right : value),
    let leftKeys := bindingKeys left in
    let rightKeys := bindingKeys right in
    (leftKeys !== Undefined)
    && (rightKeys !== Undefined)
    && (js_len leftKeys =? js_len rightKeys)
    && every_indexed (λ key index, key === item rightKeys index) (elements leftKeys) in
  let expectedIdsValue := (context command) ?. "expectedClaimSlotResolutionIds" in
  let expectedSlotIdsValue := (context command) ?. "expectedClaimSlotIds" in
  let expectedBindingsValue := (context command) ?. "expectedClaimResolutionSlots" in
  let resolutionsValue := (context command) ?. "claimSlotResolutions" in
  let expectedIds := array expectedIdsValue in
  let expectedSlotIds := array expectedSlotIdsValue in
  let expectedBindings := array expectedBindingsValue in
  let resolutions := array resolutionsValue in
  let expectedClaimStatus :=
    if str_eqb lifecycle (js "Claim")
    then Str (current command)
    else coalesce
           (coalesce ((context command) ?. "claimWithdrawalParentPreviousStatus")
              ((context command) ?. "claimRejectionParentPreviousStatus")) (lit "active") in
  guard_when
    (negb (nonBlank claimId)
     || (str_eqb lifecycle (js "Claim") && (optional (aggregateId command) !== claimId))
     || negb (nonBlank ownershipSetId)
     || negb (nonBlank ownershipSetResultId)
     || (ownershipSet ?. "id" !== ownershipSetId)
     || (ownershipSet ?. "claimId" !== claimId)
     || (ownershipSet ?. "resultId" !== ownershipSetResultId)
     || (ownershipSet ?. "immutable" !== Bool true)
     || negb (isExactIdArray (ownershipSet ?. "resolutionIds"))
     || negb (isExactIdArray (ownershipSet ?. "slotIds"))
     || negb (sameIdSet expectedIdsValue (ownershipSet ?. "resolutionIds"))
     || negb (sameIdSet expectedSlotIdsValue (ownershipSet ?. "slotIds"))
     || negb (sameBindingSet expectedBindingsValue (ownershipSet ?. "resolutionSlotBindings"))
     || negb (nonBlank ownershipSnapshotId_)
     || negb (nonBlank ownershipPreviousClaimResultId)
     || negb (nonBlank ownershipSnapshotResultId_)
     || (ownershipSnapshot ?. "id" !== ownershipSnapshotId_)
     || (ownershipSnapshot ?. "claimId" !== claimId)
     || (ownershipSnapshot ?. "aggregateId" !== claimId)
     || (ownershipSnapshot ?. "status" !== expectedClaimStatus)
     || (ownershipSnapshot ?. "previousResultId" !== ownershipPreviousClaimResultId)
     || (ownershipSnapshot ?. "resultId" !== ownershipSnapshotResultId_)
     || (ownershipSnapshot ?. "ownershipSetId" !== ownershipSetId)
     || (ownershipSnapshot ?. "ownershipSetResultId" !== ownershipSetResultId)
     || (ownershipSnapshot ?. "immutable" !== Bool true)
     || negb (sameIdSet (ownershipSnapshot ?. "resolutionIds") (ownershipSet ?. "resolutionIds"))
     || negb (sameIdSet (ownershipSnapshot ?. "slotIds") (ownershipSet ?. "slotIds"))
     || negb
          (sameBindingSet (ownershipSnapshot ?. "resolutionSlotBindings")
             (ownershipSet ?. "resolutionSlotBindings"))
     || (if str_eqb lifecycle (js "Claim")
         then negb (nonBlank (optional (currentStateCommandKey command)))
              || (optional (currentStateResultId command) !== ownershipPreviousClaimResultId)
              || (optional (ownershipSnapshotId command) !== ownershipSnapshotId_)
              || (optional (ownershipSnapshotResultId command) !== ownershipSnapshotResultId_)
              || (ownershipSnapshot ?. "currentStateCommandKey"
                    !== optional (currentStateCommandKey command))
         else (optional (parentAggregateId command) !== claimId)
              || negb (nonBlank (optional (parentCurrentStateCommandKey command)))
              || (optional (parentCurrentStateCommandKey command)
                    !== ownershipSnapshot ?. "currentStateCommandKey")
              || (optional (parentCurrentStateResultId command)
                    !== ownershipPreviousClaimResultId)
              || (optional (ownershipSnapshotId command) !== ownershipSnapshotId_)
              || (optional (ownershipSnapshotResultId command) !== ownershipSnapshotResultId_))
     || ((context command) ?. "claimResolutionSetClaimId" !== claimId)
     || (expectedIds === Undefined)
     || (js_len expectedIds =? 0)
     || existsb (λ id, negb (nonBlank id)) (elements expectedIds)
     || negb (zlength (set_of (elements expectedIds)) =? js_len expectedIds)
     || (expectedSlotIds === Undefined)
     || negb (js_len expectedSlotIds =? js_len expectedIds)
     || existsb (λ id, negb (nonBlank id)) (elements expectedSlotIds)
     || negb (zlength (set_of (elements expectedSlotIds)) =? js_len expectedSlotIds)
     || (expectedBindings === Undefined)
     || negb (js_len expectedBindings =? js_len expectedIds)
     || (resolutions === Undefined)
     || negb (js_len resolutions =? js_len expectedIds)) ;;
  let ownedIds := expectedIds in
  let ownedSlotIds := expectedSlotIds in
  let expectedSlotByResolution : list (value * value) := [] in
  let boundSlotIds : list value := [] in
  '(expectedSlotByResolution, boundSlotIds) ←
    foldM (λ '(expectedSlotByResolution, boundSlotIds) value_,
    guard_when (negb (is_record value_)) ;;
    let binding := value_ in
    let resolutionId := binding ?. "resolutionId" in
    let slotId := binding ?. "slotId" in
    guard_when
      (negb (is_string resolutionId)
       || negb (includes (elements ownedIds) resolutionId)
       || map_has expectedSlotByResolution resolutionId
       || negb (is_string slotId)
       || negb (includes (elements ownedSlotIds) slotId)
       || set_has boundSlotIds slotId) ;;
    let expectedSlotByResolution := map_set expectedSlotByResolution resolutionId slotId in
    let boundSlotIds := set_add boundSlotIds slotId in
    Ok (expectedSlotByResolution, boundSlotIds)) (expectedSlotByResolution, boundSlotIds)
      (elements expectedBindings);
  guard_when
    (existsb (λ id, negb (map_has expectedSlotByResolution id)) (elements ownedIds)
     || existsb (λ id, negb (set_has boundSlotIds id)) (elements ownedSlotIds)) ;;
  let projectedIds : list value := [] in
  let projectedSlotIds : list value := [] in
  let statuses : list value := [] in
  '(projectedIds, projectedSlotIds, statuses) ←
    foldM (λ '(projectedIds, projectedSlotIds, statuses) value_,
    guard_when (negb (is_record value_)) ;;
    let resolution := value_ in
    let id := resolution ?. "id" in
    let slotId := resolution ?. "slotId" in
    let status := resolution ?. "status" in
    guard_when
      (negb (nonBlank id)
       || set_has projectedIds id
       || negb (includes (elements ownedIds) id)
       || (resolution ?. "claimId" !== claimId)
       || negb (nonBlank slotId)
       || set_has projectedSlotIds slotId
       || negb (includes (elements ownedSlotIds) slotId)
       || (map_get expectedSlotByResolution id !== slotId)
       || (resolution ?. "activeClaimIdBefore" !== claimId)
       || (resolution ?. "activeClaimIdAfter" !== Null)
       || negb (is_string status)) ;;
    let projectedIds := set_add projectedIds id in
    let projectedSlotIds := set_add projectedSlotIds slotId in
    let statuses := statuses ++ [status] in
    Ok (projectedIds, projectedSlotIds, statuses)) (projectedIds, projectedSlotIds, statuses)
      (elements resolutions);
  guard_when
    (existsb (λ id, negb (set_has projectedIds id)) (elements ownedIds)
     || existsb (λ id, negb (set_has projectedSlotIds id)) (elements ownedSlotIds)) ;;
  requireFlag command "claimResolutionSetComplete" ;;
  requireFlag command "claimSlotOwnershipReleased" ;;
  let previousDeleteAfter := (context command) ?. "claimRetentionPreviousDeleteAfter" in
  let targetDeleteAfter := (context command) ?. "claimRetentionTargetDeleteAfter" in
  guard_when
    (((context command) ?. "claimRetentionClaimId" !== claimId)
     || ((context command) ?. "claimRetentionHoldPreviousStatus" !== lit "active_claim")
     || ((context command) ?. "claimRetentionHoldTargetStatus" !== lit "released")
     || negb (is_instant previousDeleteAfter)
     || negb (is_instant targetDeleteAfter)
     || (compareV targetDeleteAfter previousDeleteAfter <? 0)) ;;
  requireFlag command "claimRetentionDeadlineRecomputed" ;;
  requireFlag command "claimRetentionReleased" ;;
  requireFlag command "claimTerminalCleanupAtomic" ;;
  Ok (ArrayV 0 statuses).

Definition requireAtomicWholeClaimRejection (lifecycle : jstr) (command : TransitionCommand)
    : result () :=
  let context_ := context command in
  let claimId := context_ ?. "claimId" in
  let resolutionId := context_ ?. "claimSlotResolutionId" in
  let slotId := context_ ?. "claimSlotId" in
  let resultId := context_ ?. "claimRejectionResultId" in
  let resolutionPreviousResultId := context_ ?. "claimRejectionPreviousResolutionResultId" in
  let resolutionStateKey := context_ ?. "claimRejectionCurrentStateCommandKey" in
  let expectedResolutionValue := context_ ?. "claimRejectionExpectedResolution" in
  let expectedResolution := record expectedResolutionValue in
  let resolutions := array (context_ ?. "claimSlotResolutions") in
  let selected := when_defined resolutions (ArrayV 0 (List.filter (λ value_,
    if negb (is_record value_) then
      false
    else
    let resolution := value_ in
    (resolution ?. "id" === resolutionId)
    && (resolution ?. "slotId" === slotId)) (elements resolutions))) in
  let completeRejectionChildren := when_defined resolutions (Bool (forallb (λ value_,
    if negb (is_record value_) then
      false
    else
    let resolution := value_ in
    (resolution ?. "status" === lit "rejected")
    && (resolution ?. "statusBefore" === lit "pending")
    && (resolution ?. "statusAfter" === lit "rejected")
    && (resolution ?. "claimRejectionResultId" === resultId)) (elements resolutions))) in
  statuses ← requireCompleteClaimResolutionSet lifecycle command;
  guard_when
    ((js_len statuses =? 0)
     || existsb (λ status, status !== lit "rejected") (elements statuses)
     || negb (nonBlank claimId)
     || negb (nonBlank resolutionId)
     || negb (nonBlank slotId)
     || negb (nonBlank resultId)
     || (str_eqb lifecycle (js "ClaimSlotResolution")
         && (negb (nonBlank resolutionPreviousResultId)
             || negb (nonBlank resolutionStateKey)
             || (optional (aggregateId command) !== resolutionId)
             || (optional (currentStateCommandKey command) !== resolutionStateKey)
             || (optional (currentStateResultId command) !== resolutionPreviousResultId)
             || (expectedResolution ?. "id" !== resolutionId)
             || (expectedResolution ?. "claimId" !== claimId)
             || (expectedResolution ?. "slotId" !== slotId)
             || (expectedResolution ?. "status" !== lit "pending")
             || (expectedResolution ?. "activeClaimId" !== claimId)
             || (expectedResolution ?. "resultId" !== resolutionPreviousResultId)
             || (expectedResolution ?. "currentStateCommandKey" !== resolutionStateKey)
             || (expectedResolution ?. "ownershipSetId"
                   !== context_ ?. "claimResolutionOwnershipSetId")
             || (expectedResolution ?. "ownershipSetResultId"
                   !== context_ ?. "claimResolutionOwnershipSetResultId")
             || (expectedResolution ?. "ownershipSnapshotId"
                   !== context_ ?. "claimResolutionOwnershipSnapshotId")
             || (expectedResolution ?. "ownershipSnapshotResultId"
                   !== context_ ?. "claimResolutionOwnershipSnapshotResultId")
             || (expectedResolution ?. "claimPreviousResultId"
                   !== context_ ?. "claimResolutionOwnershipPreviousClaimResultId")
             || (expectedResolution ?. "immutable" !== Bool true)))
     || (context_ ?. "claimRejectionResultClaimId" !== claimId)
     || (context_ ?. "claimRejectionParentResultId" !== resultId)
     || (context_ ?. "claimRejectionChildSetResultId" !== resultId)
     || (context_ ?. "claimRejectionSlotOwnershipResultId" !== resultId)
     || (context_ ?. "claimRejectionRetentionResultId" !== resultId)
     || (context_ ?. "claimRejectionParentClaimId" !== claimId)
     || (context_ ?. "claimRejectionParentPreviousStatus" !== lit "investigating")
     || (context_ ?. "claimRejectionParentTargetStatus" !== lit "resolved_rejected")
     || (context_ ?. "claimRejectionChildResolutionId" !== resolutionId)
     || (context_ ?. "claimRejectionChildSlotId" !== slotId)
     || (context_ ?. "claimRejectionChildResultId" !== resultId)
     || (context_ ?. "claimRejectionChildStatusBefore" !== lit "pending")
     || (context_ ?. "claimRejectionChildStatusAfter" !== lit "rejected")
     || (completeRejectionChildren !== Bool true)
     || (selected === Undefined)
     || negb (js_len selected =? 1)
     || ((item selected 0) ?. "status" !== lit "rejected")
     || ((item selected 0) ?. "statusBefore" !== lit "pending")
     || ((item selected 0) ?. "statusAfter" !== lit "rejected")) ;;
  requireFlag command "claimRejectionSlotOwnershipReleased" ;;
  requireFlag command "claimRejectionRetentionCleanupCompleted" ;;
  requireFlag command "claimRejectionDeadlineRecomputed" ;;
  requireFlag command "claimRejectionResultAtomic".

Definition requireAtomicWholeClaimWithdrawal (lifecycle : jstr) (command : TransitionCommand)
    : result () :=
  let withdrawableChildSources :=
    [lit "pending"; lit "reship_pending"; lit "reprint_pending";
     lit "replacement_in_production"; lit "recovery_pending"] in
  let context_ := context command in
  let isParentTransition := str_eqb lifecycle (js "Claim") in
  let isSelectedChildTransition := str_eqb lifecycle (js "ClaimSlotResolution") in
  let claimId := context_ ?. "claimId" in
  let resolutionId := context_ ?. "claimSlotResolutionId" in
  let slotId := context_ ?. "claimSlotId" in
  let resultId := context_ ?. "claimWithdrawalResultId" in
  let resolutionPreviousResultId := context_ ?. "claimWithdrawalPreviousResolutionResultId" in
  let resolutionStateKey := context_ ?. "claimWithdrawalCurrentStateCommandKey" in
  let expectedResolutionValue := context_ ?. "claimWithdrawalExpectedResolution" in
  let expectedResolution := record expectedResolutionValue in
  let resolutions := array (context_ ?. "claimSlotResolutions") in
  let selected := when_defined resolutions (ArrayV 0 (List.filter (λ value_,
    if negb (is_record value_) then
      false
    else
    let resolution := value_ in
    (resolution ?. "id" === resolutionId)
    && (resolution ?. "slotId" === slotId)) (elements resolutions))) in
  let selectedRecord :=
    if (lengthV selected === Integral 1) && is_record (item selected 0)
    then item selected 0
    else Undefined in
  let selectedChildSource := selectedRecord ?. "statusBefore" in
  let completeWithdrawalChildren := when_defined resolutions (Bool (forallb (λ value_,
    if negb (is_record value_) then
      false
    else
    let resolution := value_ in
    (resolution ?. "status" === lit "withdrawn")
    && is_string (resolution ?. "statusBefore")
    && set_has withdrawableChildSources (resolution ?. "statusBefore")
    && (resolution ?. "statusAfter" === lit "withdrawn")
    && (resolution ?. "claimWithdrawalResultId" === resultId)) (elements resolutions))) in
  let needsCancellation := when_defined resolutions (Bool (existsb (λ value_,
    if negb (is_record value_) then
      false
    else
    let resolution := value_ in
    resolution ?. "statusBefore" !== lit "pending") (elements resolutions))) in
  statuses ← requireCompleteClaimResolutionSet lifecycle command;
  guard_when
    ((js_len statuses =? 0)
     || existsb (λ status, status !== lit "withdrawn") (elements statuses)
     || negb (nonBlank claimId)
     || negb (nonBlank resolutionId)
     || negb (nonBlank slotId)
     || negb (nonBlank resultId)
     || (isSelectedChildTransition
         && (negb (nonBlank resolutionPreviousResultId)
             || negb (nonBlank resolutionStateKey)
             || (optional (aggregateId command) !== resolutionId)
             || (optional (currentStateCommandKey command) !== resolutionStateKey)
             || (optional (currentStateResultId command) !== resolutionPreviousResultId)
             || (expectedResolution ?. "id" !== resolutionId)
             || (expectedResolution ?. "claimId" !== claimId)
             || (expectedResolution ?. "slotId" !== slotId)
             || (expectedResolution ?. "status" !== Str (current command))
             || (expectedResolution ?. "activeClaimId" !== claimId)
             || (expectedResolution ?. "resultId" !== resolutionPreviousResultId)
             || (expectedResolution ?. "currentStateCommandKey" !== resolutionStateKey)
             || (expectedResolution ?. "ownershipSetId"
                   !== context_ ?. "claimResolutionOwnershipSetId")
             || (expectedResolution ?. "ownershipSetResultId"
                   !== context_ ?. "claimResolutionOwnershipSetResultId")
             || (expectedResolution ?. "ownershipSnapshotId"
                   !== context_ ?. "claimResolutionOwnershipSnapshotId")
             || (expectedResolution ?. "ownershipSnapshotResultId"
                   !== context_ ?. "claimResolutionOwnershipSnapshotResultId")
             || (expectedResolution ?. "claimPreviousResultId"
                   !== context_ ?. "claimResolutionOwnershipPreviousClaimResultId")
             || (expectedResolution ?. "immutable" !== Bool true)))
     || (context_ ?. "claimWithdrawalResultClaimId" !== claimId)
     || (context_ ?. "claimWithdrawalParentResultId" !== resultId)
     || (context_ ?. "claimWithdrawalChildSetResultId" !== resultId)
     || (context_ ?. "claimWithdrawalSlotOwnershipResultId" !== resultId)
     || (context_ ?. "claimWithdrawalRetentionResultId" !== resultId)
     || (context_ ?. "claimWithdrawalParentClaimId" !== claimId)
     || (if isParentTransition
         then context_ ?. "claimWithdrawalParentPreviousStatus" !== Str (current command)
         else (context_ ?. "claimWithdrawalParentPreviousStatus" !== lit "opened")
              && (context_ ?. "claimWithdrawalParentPreviousStatus" !== lit "investigating")
              && (context_ ?. "claimWithdrawalParentPreviousStatus" !== lit "active"))
     || (context_ ?. "claimWithdrawalParentTargetStatus" !== lit "withdrawn")
     || (context_ ?. "claimWithdrawalChildResolutionId" !== resolutionId)
     || (context_ ?. "claimWithdrawalChildSlotId" !== slotId)
     || (context_ ?. "claimWithdrawalChildResultId" !== resultId)
     || (context_ ?. "claimWithdrawalChildStatusBefore" !== selectedChildSource)
     || (context_ ?. "claimWithdrawalChildStatusAfter" !== lit "withdrawn")
     || (completeWithdrawalChildren !== Bool true)
     || (selected === Undefined)
     || negb (js_len selected =? 1)
     || (selectedRecord ?. "status" !== lit "withdrawn")
     || (negb isParentTransition && (selectedChildSource !== Str (current command)))
     || (selectedRecord ?. "statusAfter" !== lit "withdrawn")) ;;
  requireFlag command "claimWithdrawalSlotOwnershipReleased" ;;
  requireFlag command "claimWithdrawalRetentionCleanupCompleted" ;;
  requireFlag command "claimWithdrawalDeadlineRecomputed" ;;
  if needsCancellation !== Bool true then
    requireFlag command "claimWithdrawalResultAtomic"
  else
  let cancellationResultId := context_ ?. "claimWithdrawalCancellationResultId" in
  let expectedResolutionIds := array (context_ ?. "expectedClaimSlotResolutionIds") in
  let expectedSlotIds := array (context_ ?. "expectedClaimSlotIds") in
  let cancellationResolutionIds :=
    array (context_ ?. "claimWithdrawalCancellationResolutionIds") in
  let cancellationSlotIds := array (context_ ?. "claimWithdrawalCancellationSlotIds") in
  let cancellationShipmentIds := array (context_ ?. "claimWithdrawalCancellationShipmentIds") in
  let cancellationShipments := array (context_ ?. "claimWithdrawalCancellationShipments") in
  let exactSet := λ (expected : value) (actual : value) (allowEmpty : bool),
    (expected !== Undefined)
    && (allowEmpty || (0 <? js_len expected))
    && (actual !== Undefined)
    && (js_len actual =? js_len expected)
    && forallb (λ id, nonBlank id) (elements expected)
    && (zlength (set_of (elements expected)) =? js_len expected)
    && forallb (λ id, nonBlank id && includes (elements expected) id) (elements actual)
    && (zlength (set_of (elements actual)) =? js_len actual) in
  let expectedResolutionToSlot : list (value * value) := [] in
  let expectedBindings := array (context_ ?. "expectedClaimResolutionSlots") in
  let expectedResolutionToSlot := if expectedBindings !== Undefined then
    let expectedResolutionToSlot := foldl (λ expectedResolutionToSlot value_,
      if negb (is_record value_) then
        expectedResolutionToSlot
      else
      let binding := value_ in
      let expectedResolutionToSlot :=
        if is_string (binding ?. "resolutionId") && is_string (binding ?. "slotId") then
        map_set expectedResolutionToSlot (binding ?. "resolutionId") (binding ?. "slotId")
      else
        expectedResolutionToSlot in
      expectedResolutionToSlot) expectedResolutionToSlot (elements expectedBindings) in
    expectedResolutionToSlot
  else
    expectedResolutionToSlot in
  let authoritativeShipmentIds :=
    array (context_ ?. "claimWithdrawalExpectedRemedyShipmentIds") in
  let authoritativeShipments := array (context_ ?. "claimWithdrawalExpectedRemedyShipments") in
  let authoritativeShipmentsById : list (value * value) := [] in
  let authoritativeResolutionIds : list value := [] in
  let authoritativeSlotIds : list value := [] in
  let authoritativeSetValid :=
    (authoritativeShipmentIds !== Undefined)
    && (authoritativeShipments !== Undefined)
    && (js_len authoritativeShipmentIds =? js_len authoritativeShipments) in
  let '(authoritativeSetValid, authoritativeShipmentsById, authoritativeResolutionIds,
        authoritativeSlotIds) :=
    if authoritativeSetValid then
    let '(authoritativeSetValid, authoritativeShipmentsById, authoritativeResolutionIds,
          authoritativeSlotIds) :=
      for_break
        (λ '(authoritativeSetValid, authoritativeShipmentsById, authoritativeResolutionIds,
             authoritativeSlotIds) value_,
      if negb (is_record value_) then
        let authoritativeSetValid := false in
        Break
          (authoritativeSetValid, authoritativeShipmentsById, authoritativeResolutionIds,
           authoritativeSlotIds)
      else
      let shipment := value_ in
      let shipmentId := shipment ?. "shipmentId" in
      let lineageLeafId := shipment ?. "lineageLeafId" in
      let currentStatus := shipment ?. "currentStatus" in
      let resolutionIds := array (shipment ?. "resolutionIds") in
      let slotIds := array (shipment ?. "slotIds") in
      let validResolutionIds :=
        (resolutionIds !== Undefined)
        && (0 <? js_len resolutionIds)
        && forallb (λ id,
               nonBlank id
               && (when_defined expectedResolutionIds
                     (Bool (includes (elements expectedResolutionIds) id))
                     === Bool true)
               && negb (set_has authoritativeResolutionIds id)) (elements resolutionIds)
        && (zlength (set_of (elements resolutionIds)) =? js_len resolutionIds) in
      let validSlotIds :=
        (slotIds !== Undefined)
        && (0 <? js_len slotIds)
        && forallb (λ id,
               nonBlank id
               && (when_defined expectedSlotIds (Bool (includes (elements expectedSlotIds) id))
                     === Bool true)
               && negb (set_has authoritativeSlotIds id)) (elements slotIds)
        && (zlength (set_of (elements slotIds)) =? js_len slotIds) in
      let exactMembership :=
        validResolutionIds
        && validSlotIds
        && forallb (λ resolutionId,
               (map_get expectedResolutionToSlot resolutionId !== Undefined)
               && includes (elements slotIds) (map_get expectedResolutionToSlot resolutionId))
             (elements resolutionIds)
        && forallb (λ slotId,
               existsb (λ resolutionId, map_get expectedResolutionToSlot resolutionId === slotId)
                 (elements resolutionIds)) (elements slotIds) in
      if negb (nonBlank shipmentId)
         || map_has authoritativeShipmentsById shipmentId
         || negb
              (truthy
                 (when_defined authoritativeShipmentIds
                    (Bool (includes (elements authoritativeShipmentIds) shipmentId))))
         || (lineageLeafId !== shipmentId)
         || (shipment ?. "claimId" !== claimId)
         || (shipment ?. "currentLineageLeaf" !== Bool true)
         || ((currentStatus !== lit "planned")
             && (currentStatus !== lit "label_created")
             && (currentStatus !== lit "cancellation_pending"))
         || negb exactMembership then
        let authoritativeSetValid := false in
        Break
          (authoritativeSetValid, authoritativeShipmentsById, authoritativeResolutionIds,
           authoritativeSlotIds)
      else
      let authoritativeShipmentsById := map_set authoritativeShipmentsById shipmentId shipment in
      let authoritativeResolutionIds :=
        foldl (λ authoritativeResolutionIds resolutionId,
            set_add authoritativeResolutionIds resolutionId) authoritativeResolutionIds
          (elements resolutionIds) in
      let authoritativeSlotIds :=
        foldl (λ authoritativeSlotIds slotId, set_add authoritativeSlotIds slotId)
          authoritativeSlotIds (elements slotIds) in
      Next
        (authoritativeSetValid, authoritativeShipmentsById, authoritativeResolutionIds,
         authoritativeSlotIds))
        (authoritativeSetValid, authoritativeShipmentsById, authoritativeResolutionIds,
         authoritativeSlotIds) (elements authoritativeShipments) in
    (authoritativeSetValid, authoritativeShipmentsById, authoritativeResolutionIds,
     authoritativeSlotIds)
  else
    (authoritativeSetValid, authoritativeShipmentsById, authoritativeResolutionIds,
     authoritativeSlotIds) in
  let coveredResolutionIds : list value := [] in
  let coveredSlotIds : list value := [] in
  let projectedShipmentIds : list value := [] in
  let shipmentEvidenceValid :=
    (cancellationShipments !== Undefined)
    && (cancellationShipmentIds !== Undefined)
    && (js_len cancellationShipments =? js_len cancellationShipmentIds) in
  let '(shipmentEvidenceValid, projectedShipmentIds, coveredResolutionIds, coveredSlotIds) :=
    if shipmentEvidenceValid then
    let '(shipmentEvidenceValid, projectedShipmentIds, coveredResolutionIds, coveredSlotIds) :=
      for_break
        (λ '(shipmentEvidenceValid, projectedShipmentIds, coveredResolutionIds, coveredSlotIds)
             value_,
      if negb (is_record value_) then
        let shipmentEvidenceValid := false in
        Break (shipmentEvidenceValid, projectedShipmentIds, coveredResolutionIds, coveredSlotIds)
      else
      let shipment := value_ in
      let shipmentId := shipment ?. "shipmentId" in
      let lineageLeafId := shipment ?. "lineageLeafId" in
      let resolutionIds := array (shipment ?. "resolutionIds") in
      let slotIds := array (shipment ?. "slotIds") in
      let authoritative :=
        if is_string shipmentId
        then map_get authoritativeShipmentsById shipmentId
        else Undefined in
      let authoritativeResolutionMembership := array (authoritative ?. "resolutionIds") in
      let authoritativeSlotMembership := array (authoritative ?. "slotIds") in
      let previousStatus := shipment ?. "previousStatus" in
      let providerVoidRequired :=
        (previousStatus === lit "label_created")
        || (previousStatus === lit "cancellation_pending") in
      let validPreviousStatus :=
        (previousStatus === lit "planned")
        || (previousStatus === lit "label_created")
        || (previousStatus === lit "cancellation_pending") in
      let validResolutionIds :=
        (resolutionIds !== Undefined)
        && (0 <? js_len resolutionIds)
        && forallb (λ id,
               nonBlank id
               && (when_defined expectedResolutionIds
                     (Bool (includes (elements expectedResolutionIds) id))
                     === Bool true)
               && negb (set_has coveredResolutionIds id)) (elements resolutionIds)
        && (zlength (set_of (elements resolutionIds)) =? js_len resolutionIds) in
      let validSlotIds :=
        (slotIds !== Undefined)
        && (0 <? js_len slotIds)
        && forallb (λ id,
               nonBlank id
               && (when_defined expectedSlotIds (Bool (includes (elements expectedSlotIds) id))
                     === Bool true)
               && negb (set_has coveredSlotIds id)) (elements slotIds)
        && (zlength (set_of (elements slotIds)) =? js_len slotIds) in
      let exactMembership :=
        validResolutionIds
        && validSlotIds
        && forallb (λ resolutionId,
               (map_get expectedResolutionToSlot resolutionId !== Undefined)
               && includes (elements slotIds) (map_get expectedResolutionToSlot resolutionId))
             (elements resolutionIds)
        && forallb (λ slotId,
        let resolutionId :=
          found
            (List.find (λ candidate, map_get expectedResolutionToSlot candidate === slotId)
               (elements resolutionIds)) in
        resolutionId !== Undefined) (elements slotIds) in
      if negb (nonBlank shipmentId)
         || set_has projectedShipmentIds shipmentId
         || (lineageLeafId !== shipmentId)
         || (shipment ?. "claimId" !== claimId)
         || (authoritative === Undefined)
         || (authoritative ?. "lineageLeafId" !== lineageLeafId)
         || (authoritative ?. "claimId" !== shipment ?. "claimId")
         || (authoritative ?. "currentLineageLeaf" !== shipment ?. "currentLineageLeaf")
         || (authoritative ?. "currentStatus" !== previousStatus)
         || negb (exactSet authoritativeResolutionMembership resolutionIds false)
         || negb (exactSet authoritativeSlotMembership slotIds false)
         || (shipment ?. "resultId" !== resultId)
         || (shipment ?. "currentLineageLeaf" !== Bool true)
         || negb validPreviousStatus
         || (shipment ?. "targetStatus" !== lit "cancelled")
         || (if providerVoidRequired
             then (shipment ?. "providerVoidStatus" !== lit "succeeded")
                  || (shipment ?. "providerVoidConfirmed" !== Bool true)
             else (shipment ?. "providerVoidStatus" !== lit "not_required")
                  || (shipment ?. "providerVoidConfirmed" !== Bool false))
         || negb exactMembership then
        let shipmentEvidenceValid := false in
        Break (shipmentEvidenceValid, projectedShipmentIds, coveredResolutionIds, coveredSlotIds)
      else
      let projectedShipmentIds := set_add projectedShipmentIds shipmentId in
      let coveredResolutionIds :=
        foldl (λ coveredResolutionIds resolutionId, set_add coveredResolutionIds resolutionId)
          coveredResolutionIds (elements resolutionIds) in
      let coveredSlotIds :=
        foldl (λ coveredSlotIds slotId, set_add coveredSlotIds slotId) coveredSlotIds
          (elements slotIds) in
      Next (shipmentEvidenceValid, projectedShipmentIds, coveredResolutionIds, coveredSlotIds))
        (shipmentEvidenceValid, projectedShipmentIds, coveredResolutionIds, coveredSlotIds)
        (elements cancellationShipments) in
    (shipmentEvidenceValid, projectedShipmentIds, coveredResolutionIds, coveredSlotIds)
  else
    (shipmentEvidenceValid, projectedShipmentIds, coveredResolutionIds, coveredSlotIds) in
  guard_when
    (negb (nonBlank cancellationResultId)
     || (cancellationResultId !== resultId)
     || (context_ ?. "claimWithdrawalCancellationClaimId" !== claimId)
     || negb authoritativeSetValid
     || negb (exactSet authoritativeShipmentIds cancellationShipmentIds true)
     || negb (exactSet authoritativeShipmentIds (ArrayV 0 projectedShipmentIds) true)
     || negb (exactSet cancellationResolutionIds (ArrayV 0 coveredResolutionIds) true)
     || negb (exactSet cancellationSlotIds (ArrayV 0 coveredSlotIds) true)
     || negb (exactSet cancellationShipmentIds (ArrayV 0 projectedShipmentIds) true)
     || negb shipmentEvidenceValid
     || (context_ ?. "claimWithdrawalCancellationShipmentResultId" !== resultId)
     || (context_ ?. "claimWithdrawalCancellationRequestResultId" !== resultId)
     || (context_ ?. "claimWithdrawalCancellationJobResultId" !== resultId)
     || (context_ ?. "claimWithdrawalCancellationAuthorizationResultId" !== resultId)
     || (context_ ?. "claimWithdrawalCancellationReservationResultId" !== resultId)) ;;
  requireFlag command "claimWithdrawalAllRemedyShipmentsCancelled" ;;
  requireFlag command "claimWithdrawalOpenRequestSetCancelled" ;;
  requireFlag command "claimWithdrawalJobsCancelled" ;;
  requireFlag command "claimWithdrawalAuthorizationsInvalidated" ;;
  requireFlag command "claimWithdrawalReservationsSettled" ;;
  requireFlag command "claimWithdrawalCancellationCompleted" ;;
  requireFlag command "claimWithdrawalCancellationAtomic" ;;
  requireFlag command "claimWithdrawalResultAtomic".

Definition requireExactClaimInvestigationSource (command : TransitionCommand) : result () :=
  let context_ := context command in
  let expectedValue := context_ ?. "claimInvestigationExpectedClaim" in
  let expected := record expectedValue in
  let claimId := context_ ?. "claimId" in
  let resultId := context_ ?. "claimInvestigationResultId" in
  let previousResultId := context_ ?. "claimInvestigationPreviousClaimResultId" in
  let stateKey := context_ ?. "claimInvestigationCurrentStateCommandKey" in
  guard_when
    (negb (nonBlank claimId)
     || negb (nonBlank resultId)
     || negb (nonBlank previousResultId)
     || negb (nonBlank stateKey)
     || (optional (aggregateId command) !== claimId)
     || (optional (currentStateResultId command) !== previousResultId)
     || (optional (currentStateCommandKey command) !== stateKey)
     || (expected ?. "id" !== claimId)
     || (expected ?. "status" !== lit "opened")
     || (expected ?. "resultId" !== previousResultId)
     || (expected ?. "currentStateCommandKey" !== stateKey)
     || (expected ?. "immutable" !== Bool true)
     || (context_ ?. "claimInvestigationClaimResultId" !== resultId)
     || (context_ ?. "claimInvestigationCompleted" !== Bool true)
     || (context_ ?. "claimInvestigationAtomic" !== Bool true)).

Definition requireAtomicClaimActivation (command : TransitionCommand) : result () :=
  let context_ := context command in
  let claimId := context_ ?. "claimId" in
  let previousResultId := context_ ?. "claimActivationPreviousClaimResultId" in
  let stateKey := context_ ?. "claimActivationCurrentStateCommandKey" in
  let expectedClaim := record (context_ ?. "claimActivationExpectedClaim") in
  let ownershipSetId := context_ ?. "claimActivationOwnershipSetId" in
  let ownershipSetResultId := context_ ?. "claimActivationOwnershipSetResultId" in
  let ownershipSet := record (context_ ?. "claimActivationOwnershipSet") in
  let expectedIds := context_ ?. "claimActivationExpectedResolutionIds" in
  let expectedSlots := context_ ?. "claimActivationExpectedSlotIds" in
  let expectedBindings := context_ ?. "claimActivationExpectedResolutionSlots" in
  let childrenValue := context_ ?. "claimActivationExpectedChildren" in
  let selectionsValue := context_ ?. "claimActivationSelections" in
  let children := array childrenValue in
  let selections := array selectionsValue in
  let resultId := context_ ?. "claimActivationResultId" in
  let validRemedies := [lit "reprint_pending"; lit "reship_pending"; lit "refund_pending"] in
  let exactIds := λ (value_ : value),
    is_array value_
    && (0 <? js_len value_)
    && forallb nonBlank (elements value_)
    && (zlength (set_of (elements value_)) =? js_len value_) in
  let sameSet := λ (left : value) (right : value),
    exactIds left
    && exactIds right
    && (js_len left =? js_len right)
    && forallb (λ id, includes (elements right) id) (elements left) in
  guard_when
    (negb (nonBlank claimId)
     || negb (nonBlank previousResultId)
     || negb (nonBlank stateKey)
     || negb (nonBlank ownershipSetId)
     || negb (nonBlank ownershipSetResultId)
     || negb (nonBlank resultId)
     || (optional (aggregateId command) !== claimId)
     || (optional (currentStateResultId command) !== previousResultId)
     || (optional (currentStateCommandKey command) !== stateKey)
     || (optional (ownershipSnapshotId command) !== ownershipSetId)
     || (optional (ownershipSnapshotResultId command) !== ownershipSetResultId)
     || (expectedClaim ?. "id" !== claimId)
     || (expectedClaim ?. "status" !== lit "investigating")
     || (expectedClaim ?. "resultId" !== previousResultId)
     || (expectedClaim ?. "currentStateCommandKey" !== stateKey)
     || (expectedClaim ?. "ownershipSetId" !== ownershipSetId)
     || (expectedClaim ?. "ownershipSetResultId" !== ownershipSetResultId)
     || (expectedClaim ?. "immutable" !== Bool true)
     || (ownershipSet ?. "id" !== ownershipSetId)
     || (ownershipSet ?. "claimId" !== claimId)
     || (ownershipSet ?. "resultId" !== ownershipSetResultId)
     || (ownershipSet ?. "immutable" !== Bool true)
     || negb (sameSet expectedIds (ownershipSet ?. "resolutionIds"))
     || negb (sameSet expectedSlots (ownershipSet ?. "slotIds"))
     || (lengthV expectedIds !== lengthV expectedSlots)
     || negb (is_array expectedBindings)
     || negb (is_array (ownershipSet ?. "resolutionSlotBindings"))
     || (Integral (js_len expectedBindings) !== lengthV expectedIds)
     || (children === Undefined)
     || (Integral (js_len children) !== lengthV expectedIds)
     || (selections === Undefined)
     || (js_len selections =? 0)
     || (context_ ?. "claimActivationClaimResultId" !== resultId)
     || (context_ ?. "claimActivationOwnershipResultId" !== resultId)
     || (context_ ?. "claimActivationChildResultId" !== resultId)
     || (context_ ?. "claimActivationCompleted" !== Bool true)
     || (context_ ?. "claimActivationAtomic" !== Bool true)) ;;
  let expectedSlotByResolution : list (value * value) := [] in
  expectedSlotByResolution ← foldM (λ expectedSlotByResolution value_,
    let binding := record value_ in
    let resolutionId := binding ?. "resolutionId" in
    let slotId := binding ?. "slotId" in
    guard_when
      (negb (nonBlank resolutionId)
       || negb (nonBlank slotId)
       || map_has expectedSlotByResolution resolutionId
       || negb (includes (elements expectedIds) resolutionId)
       || negb (includes (elements expectedSlots) slotId)) ;;
    Ok (map_set expectedSlotByResolution resolutionId slotId)) expectedSlotByResolution
      (elements expectedBindings);
  let ownershipBindingKeys : list value := [] in
  ownershipBindingKeys ← foldM (λ ownershipBindingKeys value_,
    let binding := record value_ in
    let resolutionId := binding ?. "resolutionId" in
    let slotId := binding ?. "slotId" in
    guard_when
      (negb (nonBlank resolutionId)
       || negb (nonBlank slotId)
       || set_has ownershipBindingKeys resolutionId
       || (map_get expectedSlotByResolution resolutionId !== slotId)) ;;
    Ok (set_add ownershipBindingKeys resolutionId)) ownershipBindingKeys
      (elements (ownershipSet ?. "resolutionSlotBindings"));
  guard_when (negb (zlength ownershipBindingKeys =? zlength expectedSlotByResolution)) ;;
  let childById : list (value * value) := [] in
  let sourceChildrenValue := ownershipSet ?. "sourceChildren" in
  let sourceChildren := array sourceChildrenValue in
  guard_when
    ((sourceChildren === Undefined)
     || negb (js_len sourceChildren =? zlength expectedSlotByResolution)) ;;
  let sourceById : list (value * value) := [] in
  sourceById ← foldM (λ sourceById value_,
    let source := record value_ in
    guard_when (source === Undefined) ;;
    let id := source ?. "id" in
    let slotId := source ?. "slotId" in
    guard_when
      (negb (nonBlank id)
       || negb (nonBlank slotId)
       || map_has sourceById id
       || (map_get expectedSlotByResolution id !== slotId)
       || (source ?. "claimId" !== claimId)
       || (source ?. "activeClaimId" !== claimId)
       || (source ?. "status" !== lit "pending")
       || negb (nonBlank (source ?. "resultId"))
       || negb (nonBlank (source ?. "currentStateCommandKey"))
       || (source ?. "immutable" !== Bool true)) ;;
    Ok (map_set sourceById id source)) sourceById (elements sourceChildren);
  let slots : list value := [] in
  '(childById, slots) ← foldM (λ '(childById, slots) value_,
    let child := record value_ in
    let id := child ?. "id" in
    let slotId := child ?. "slotId" in
    guard_when
      (negb (nonBlank id)
       || negb (nonBlank slotId)
       || map_has childById id
       || set_has slots slotId
       || negb (includes (elements expectedIds) id)
       || (map_get expectedSlotByResolution id !== slotId)
       || (child ?. "claimId" !== claimId)
       || (child ?. "status" !== lit "pending")
       || (child ?. "activeClaimId" !== claimId)
       || (child ?. "resultId" !== (map_get sourceById id) ?. "resultId")
       || (child ?. "currentStateCommandKey"
             !== (map_get sourceById id) ?. "currentStateCommandKey")
       || negb (nonBlank (child ?. "resultId"))
       || negb (nonBlank (child ?. "currentStateCommandKey"))
       || (child ?. "ownershipSetId" !== ownershipSetId)
       || (child ?. "ownershipSetResultId" !== ownershipSetResultId)
       || (child ?. "immutable" !== Bool true)) ;;
    let childById := map_set childById id child in
    let slots := set_add slots slotId in
    Ok (childById, slots)) (childById, slots) (elements children);
  let selectedIds : list value := [] in
  selectedIds ← foldM (λ selectedIds value_,
    let selection := record value_ in
    let id := selection ?. "resolutionId" in
    let slotId := selection ?. "slotId" in
    let child := if nonBlank id then map_get childById id else Undefined in
    guard_when
      ((selection === Undefined)
       || negb (nonBlank id)
       || negb (nonBlank slotId)
       || set_has selectedIds id
       || (child === Undefined)
       || (child ?. "slotId" !== slotId)
       || (selection ?. "claimId" !== claimId)
       || (selection ?. "activeClaimId" !== claimId)
       || (selection ?. "previousStatus" !== lit "pending")
       || (selection ?. "previousResultId" !== child ?. "resultId")
       || (selection ?. "currentStateCommandKey" !== child ?. "currentStateCommandKey")
       || (selection ?. "ownershipSetId" !== ownershipSetId)
       || (selection ?. "ownershipSetResultId" !== ownershipSetResultId)
       || negb (set_has validRemedies (selection ?. "targetStatus"))
       || (selection ?. "resultId" !== resultId)
       || (selection ?. "immutable" !== Bool true)) ;;
    Ok (set_add selectedIds id)) selectedIds (elements selections);
  Ok ().

(** ** The policy *)

Definition claimGuard (command : TransitionCommand) : result () :=
  when (currentIs command "opened" && targetIs command "investigating")
    (requireExactClaimInvestigationSource command) ;;
  when (currentIs command "investigating" && targetIs command "active")
    (requireAtomicClaimActivation command) ;;
  when (currentIs command "investigating" && targetIs command "resolved_rejected")
    (requireAtomicWholeClaimRejection (js "Claim") command) ;;
  when (targetIs command "withdrawn") (requireAtomicWholeClaimWithdrawal (js "Claim") command) ;;
  when (starts_with (target command) (js "resolved_") || targetIs command "withdrawn") (
    statuses ← requireCompleteClaimResolutionSet (js "Claim") command;
    let projected := projectClaimTerminalStatus statuses in
    guard_when (projected !== Str (target command))) ;;
  when (targetIs command "resolved_rejected" || targetIs command "withdrawn")
    (requireFlag command "cleanPostDeliveryQualityClaim").

Definition claimPolicy : TransitionPolicy :=
  mkPolicy (js "Claim") Lifecycles.claimInitial Lifecycles.claimTerminal None
    Lifecycles.claimTransitions None (Some claimGuard).

(** ** Its guards fail only as guards *)

#[global] Typeclasses Opaque
  requireCompleteClaimResolutionSet
  requireAtomicWholeClaimRejection
  requireAtomicWholeClaimWithdrawal
  requireExactClaimInvestigationSource
  requireAtomicClaimActivation.

#[export] Instance guard_only_requireCompleteClaimResolutionSet lifecycle command :
  GuardOnly (requireCompleteClaimResolutionSet lifecycle command).
Proof. cbv beta delta [requireCompleteClaimResolutionSet]. guard_only. Qed.

#[export] Instance guard_only_requireAtomicWholeClaimRejection lifecycle command :
  GuardOnly (requireAtomicWholeClaimRejection lifecycle command).
Proof. cbv beta delta [requireAtomicWholeClaimRejection]. guard_only. Qed.

#[export] Instance guard_only_requireAtomicWholeClaimWithdrawal lifecycle command :
  GuardOnly (requireAtomicWholeClaimWithdrawal lifecycle command).
Proof. cbv beta delta [requireAtomicWholeClaimWithdrawal]. guard_only. Qed.

#[export] Instance guard_only_requireExactClaimInvestigationSource command :
  GuardOnly (requireExactClaimInvestigationSource command).
Proof. cbv beta delta [requireExactClaimInvestigationSource]. guard_only. Qed.

#[export] Instance guard_only_requireAtomicClaimActivation command :
  GuardOnly (requireAtomicClaimActivation command).
Proof. cbv beta delta [requireAtomicClaimActivation]. guard_only. Qed.

#[export] Instance guard_only_claimGuard command : GuardOnly (claimGuard command).
Proof. cbv beta delta [claimGuard]. guard_only. Qed.

(** ** Specification *)

(** The terminal status that the dispositions of a claim's children give it:
    one disposition of all the children, or a mix of remedies. *)
Inductive projects : list jstr → jstr → Prop :=
| projects_uniform n d s :
    (d, s) ∈ claimTerminalProjection → projects (replicate (S n) d) s
| projects_mixed ds d e :
    (∀ x, x ∈ ds → x ∈ [js "delivered_reship"; js "delivered_reprint"; js "refunded"]) →
    d ∈ ds → e ∈ ds → d ≠ e → projects ds (js "resolved_mixed").

(** The children of a claim, as the command's context projects them. *)
Definition claimChildren (command : TransitionCommand) : list value :=
  elements ((context command) ?. "claimSlotResolutions").

(** The children are exactly the owned ones, each once, each of the claim, each
    released, with identities [ids], slots [slots] and dispositions [ds]. *)
Record complete_children (command : TransitionCommand) (ids slots ds : list jstr) : Prop := {
  cc_ids : (λ v, v ?. "id") <$> claimChildren command = Str <$> ids;
  cc_slots : (λ v, v ?. "slotId") <$> claimChildren command = Str <$> slots;
  cc_dispositions : (λ v, v ?. "status") <$> claimChildren command = Str <$> ds;
  cc_once : NoDup ids ∧ NoDup slots;
  cc_owned : ∀ v, v ∈ elements ((context command) ?. "expectedClaimSlotResolutionIds") ↔ v ∈ Str <$> ids;
  cc_released : ∀ v, v ∈ claimChildren command →
    v ?. "claimId" = (context command) ?. "claimId"
    ∧ v ?. "activeClaimIdBefore" = (context command) ?. "claimId"
    ∧ v ?. "activeClaimIdAfter" = Null;
}.

(** ** Facts *)

Lemma terminal_disposition v :
  isClaimSlotResolutionTerminalStatus v = true ↔ ∃ d s, v = Str d ∧ assoc d claimTerminalProjection = Some s.
Proof.
  destruct v; cbn -[assoc]; try by split; [|intros (? & ? & [=] & _)].
  rewrite bool_decide_eq_true. split; [intros [t Ht]; eauto|]. intros (d & t & [= ->] & Ht). eauto.
Qed.

Lemma terminal_dispositions vs :
  existsb (λ status, negb (isClaimSlotResolutionTerminalStatus status)) vs = false →
  ∃ ds, vs = Str <$> ds ∧ ∀ d, d ∈ ds → ∃ s, assoc d claimTerminalProjection = Some s.
Proof.
  rewrite existsb_negb_false. induction vs as [|v vs IH]; intros H.
  - exists []. split; [done|]. by intros d ?%not_elem_of_nil.
  - destruct IH as (ds & -> & Hds); [intros x Hx; apply H; by right|].
    destruct (proj1 (terminal_disposition v)) as (d & s & -> & Hs); [apply H; by left|].
    exists (d :: ds). split; [done|]. intros x [->|Hx]%elem_of_cons; eauto.
Qed.

Lemma projection_assoc d s : assoc d claimTerminalProjection = Some s ↔ (d, s) ∈ claimTerminalProjection.
Proof.
  split; [apply assoc_elem|]. unfold claimTerminalProjection. rewrite !elem_of_cons.
  intros [[= -> ->]|[[= -> ->]|[[= -> ->]|[[= -> ->]|[[= -> ->]|[]%not_elem_of_nil]]]]]; reflexivity.
Qed.

(** A disposition is a remedy or one of the two that do not mix. *)
Lemma remedy_disposition d s :
  (d, s) ∈ claimTerminalProjection → d ≠ js "rejected" → d ≠ js "withdrawn" →
  d ∈ [js "delivered_reship"; js "delivered_reprint"; js "refunded"].
Proof.
  unfold claimTerminalProjection. rewrite !elem_of_cons.
  intros [[= -> ->]|[[= -> ->]|[[= -> ->]|[[= -> ->]|[[= -> ->]|[]%not_elem_of_nil]]]]] ? ?; try done; tauto.
Qed.

Lemma uniform_dispositions d ds :
  forallb (λ status, status === Str d) (Str <$> d :: ds) = true → d :: ds = replicate (S (length ds)) d.
Proof.
  cbn [replicate]. rewrite forallb_forall. intros H. f_equal.
  symmetry. apply replicate_as_elem_of. split; [done|]. intros x Hx.
  assert (Str x ∈ (Str <$> d :: ds)) as Hin by (apply list_elem_of_fmap_2; by right).
  apply list_elem_of_In, H, strict_eq_Str in Hin. by injection Hin.
Qed.

(** The projection, once every child is disposed of. *)
Lemma projectClaimTerminalStatus_disposed a d ds s :
  (∀ x, x ∈ d :: ds → ∃ t, (x, t) ∈ claimTerminalProjection) → (d, s) ∈ claimTerminalProjection →
  projectClaimTerminalStatus (ArrayV a (Str <$> d :: ds)) =
    if forallb (λ v, v === Str d) (Str <$> d :: ds) then Str s
    else if existsb (λ v, (v === lit "rejected") || (v === lit "withdrawn")) (Str <$> d :: ds) then Undefined
    else lit "resolved_mixed".
Proof.
  intros Hds Hs%projection_assoc. unfold projectClaimTerminalStatus. cbn [elements].
  assert (existsb (λ v, negb (isClaimSlotResolutionTerminalStatus v)) (Str <$> d :: ds) = false) as ->.
  { apply existsb_negb_false. intros v (x & -> & [t Ht%projection_assoc]%Hds)%list_elem_of_fmap.
    apply terminal_disposition. eauto. }
  assert (isClaimSlotResolutionTerminalStatus (Str d) = true) as Hd by (apply terminal_disposition; eauto).
  change (found ((Str <$> d :: ds) !! 0%nat)) with (Str d). rewrite Hd. cbn [negb]. by rewrite Hs.
Qed.

Lemma has_disposition (e : jstr) ds :
  e ∈ ds → (e = js "rejected" ∨ e = js "withdrawn") →
  existsb (λ v, (v === lit "rejected") || (v === lit "withdrawn")) (Str <$> ds) = true.
Proof.
  intros He Hr. apply existsb_exists. exists (Str e). split.
  - apply list_elem_of_In. by apply list_elem_of_fmap_2.
  - destruct Hr as [-> | ->]; reflexivity.
Qed.

(** A child with another disposition than the first one. *)
Lemma not_uniform d ds :
  forallb (λ v, v === Str d) (Str <$> d :: ds) = false → ∃ e, e ∈ ds ∧ d ≠ e.
Proof.
  intros Hu. destruct (decide (Forall (λ e, e = d) ds)) as [Hall|Hex].
  - apply not_true_iff_false in Hu as []. apply forallb_forall. intros x Hx%list_elem_of_In.
    apply strict_eq_Str. apply list_elem_of_fmap in Hx as (y & -> & [->|Hy]%elem_of_cons); [done|].
    rewrite Forall_forall in Hall. by rewrite (Hall y).
  - apply not_Forall_Exists in Hex; [|intros ?; apply _]. apply Exists_exists in Hex as (e & ? & Hne).
    exists e. split; [done|]. intros <-. by apply Hne.
Qed.

Lemma projectClaimTerminalStatus_sound a vs s :
  projectClaimTerminalStatus (ArrayV a vs) = Str s → ∃ ds, vs = Str <$> ds ∧ projects ds s.
Proof.
  intros H. destruct (existsb (λ v, negb (isClaimSlotResolutionTerminalStatus v)) vs) eqn:Ht.
  { unfold projectClaimTerminalStatus in H. cbn [elements] in H. by rewrite Ht, orb_true_r in H. }
  apply terminal_dispositions in Ht as (ds & -> & Hds). setoid_rewrite projection_assoc in Hds.
  destruct ds as [|d ds]; [done|]. destruct (Hds d) as [t Ht]; [by left|].
  rewrite (projectClaimTerminalStatus_disposed a d ds t) in H by done. exists (d :: ds). split; [done|].
  destruct (forallb _ _) eqn:Hu.
  - injection H as <-. apply uniform_dispositions in Hu. rewrite Hu. by constructor.
  - destruct (existsb _ _) eqn:He; [done|]. injection H as <-. apply not_uniform in Hu as (e & He' & Hde).
    apply (projects_mixed _ d e); [|by left|by right|done].
    intros x Hx. destruct (Hds x Hx) as [u Hu]. apply not_true_iff_false in He.
    eapply remedy_disposition; [done|..]; intros Hr; apply He, (has_disposition x); auto.
Qed.

Lemma projectClaimTerminalStatus_complete a ds s :
  projects ds s → projectClaimTerminalStatus (ArrayV a (Str <$> ds)) = Str s.
Proof.
  intros [n d s' Hs|ds' d e Hr Hd He Hne].
  - cbn [replicate]. rewrite (projectClaimTerminalStatus_disposed a d _ s'); [|..|done].
    + rewrite (proj2 (forallb_forall _ _)); [done|]. intros v Hv%list_elem_of_In. apply strict_eq_Str.
      apply list_elem_of_fmap in Hv as (x & -> & [->|Hx%elem_of_replicate_inv]%elem_of_cons); congruence.
    + intros x [->|Hx%elem_of_replicate_inv]%elem_of_cons; [|subst x]; eauto.
  - assert (∀ x, x ∈ ds' → ∃ t, (x, t) ∈ claimTerminalProjection) as Hall.
    { intros x Hx%Hr. unfold claimTerminalProjection. rewrite !elem_of_cons in *.
      destruct Hx as [->|[->|[->|[]%not_elem_of_nil]]]; eexists; right;
        [left|right; left|right; right; left]; reflexivity. }
    destruct ds' as [|x ds0]; [by apply not_elem_of_nil in Hd|]. destruct (Hall x) as [t Ht]; [by left|].
    rewrite (projectClaimTerminalStatus_disposed a x ds0 t) by done.
    destruct (forallb _ _) eqn:Hu.
    { apply uniform_dispositions in Hu. rewrite Hu in Hd, He.
      apply elem_of_replicate_inv in Hd, He. congruence. }
    destruct (existsb _ _) eqn:Hx; [|done]. apply existsb_exists in Hx as (v & Hv%list_elem_of_In & Hv').
    apply list_elem_of_fmap in Hv as (y & -> & Hy%Hr). rewrite !elem_of_cons in Hy.
    by destruct Hy as [->|[->|[->|[]%not_elem_of_nil]]].
Qed.

Lemma projectClaimTerminalStatus_shape v :
  projectClaimTerminalStatus v = Undefined ∨ ∃ s, projectClaimTerminalStatus v = Str s.
Proof.
  unfold projectClaimTerminalStatus. cbv zeta. destruct (_ || _); [by left|].
  destruct (found _); cbn [strict_eq negb isClaimSlotResolutionTerminalStatus]; try (by left).
  destruct (bool_decide _) eqn:Hd; [|by left]. apply bool_decide_eq_true in Hd as [t Ht]. cbn [negb].
  destruct (forallb _ _); [rewrite Ht; right; by exists t|]. destruct (existsb _ _); [by left|right; by eexists].
Qed.

(** What the loop over the children has established after the children
    [pre]. *)
Record children_read (claimId : value) (owned : list value) (ids slots statuses pre : list value) : Prop := {
  cr_ids : ∃ l, ids = Str <$> l ∧ NoDup l ∧ (λ v, v ?. "id") <$> pre = ids;
  cr_slots : ∃ l, slots = Str <$> l ∧ NoDup l ∧ (λ v, v ?. "slotId") <$> pre = slots;
  cr_statuses : ∃ l, statuses = Str <$> l ∧ (λ v, v ?. "status") <$> pre = statuses;
  cr_owned : ∀ v, v ∈ ids → v ∈ owned;
  cr_released : ∀ v, v ∈ pre →
    v ?. "claimId" = claimId ∧ v ?. "activeClaimIdBefore" = claimId ∧ v ?. "activeClaimIdAfter" = Null;
}.

(** One more child. *)
Lemma child_read c owned ids slots statuses pre v x y z :
  children_read (Str c) owned ids slots statuses pre →
  v ?. "id" = Str x → v ?. "slotId" = Str y → v ?. "status" = Str z →
  set_has ids (Str x) = false → set_has slots (Str y) = false → includes owned (Str x) = true →
  v ?. "claimId" = Str c → v ?. "activeClaimIdBefore" = Str c → v ?. "activeClaimIdAfter" = Null →
  children_read (Str c) owned (set_add ids (Str x)) (set_add slots (Str y)) (statuses ++ [Str z]) (pre ++ [v]).
Proof.
  intros [(i & Hi & Hin & Hip) (s & Hs & Hsn & Hsp) (t & Ht & Htp) Ho Hr] Hx Hy Hz Hni Hns Hown Hc Hb Ha. split.
  - by eapply set_add_string.
  - by eapply (set_add_string (λ v, v ?. "slotId")).
  - exists (t ++ [z]). rewrite !fmap_app, Htp, Ht. cbn. by rewrite Hz.
  - rewrite set_add_new by done. apply includes_Str in Hown.
    intros w [Hw|Hw%list_elem_of_singleton]%elem_of_app; [auto|congruence].
  - intros w [Hw| ->%list_elem_of_singleton]%elem_of_app; auto.
Qed.

Lemma complete_set lifecycle command st :
  requireCompleteClaimResolutionSet lifecycle command = Ok st →
  ∃ ids slots ds, st = ArrayV 0 (Str <$> ds) ∧ complete_children command ids slots ds
    ∧ (lifecycle = js "Claim" → ∃ id, aggregateId command = Some id ∧ (context command) ?. "claimId" = Str id).
Proof.
  intros H. cbv beta delta [requireCompleteClaimResolutionSet] in H. guard_steps H. injection H as <-. bool_inv.
  match goal with E : nonBlank claimId = true |- _ => apply nonBlank_Str in E as (c & Hc & Hcb) end.
  lazymatch type of Hm0 with foldM ?f _ ?l = Ok ?z =>
    apply (foldM_prefix f
      (λ acc pre, children_read claimId (elements ownedIds) acc.1.1 acc.1.2 acc.2 pre) _ l z) in Hm0 end.
  2: { split; cbn; try (by exists []; repeat constructor); by intros v ?%not_elem_of_nil. }
  2: { clear -Hc. intros [[i s] t] pre v [[i' s'] t'] Hr Hv. cbn [fst snd] in *. guard_steps Hv.
    injection Hv as <- <- <-. bool_inv. rewrite Hc in *.
    repeat match goal with E : (_ === Str _) = true |- _ => apply strict_eq_Str in E
      | E : (_ === Null) = true |- _ => apply strict_eq_Null in E
      | E : nonBlank ?x = true |- _ => apply nonBlank_Str in E as (? & ? & ?)
      | E : is_string ?x = true |- _ => apply is_string_Str in E as (? & ?) end.
    repeat match goal with E : v ?. _ = Str _ |- _ => rewrite E in * end.
    by apply child_read. }
  cbn [fst snd] in Hm0. destruct Hm0 as [(i & -> & Hin & Hip) (s & -> & Hsn & Hsp) (t & -> & Htp) Ho Hr].
  exists i, s, t. split; [done|].
  assert (elements ownedIds = elements ((context command) ?. "expectedClaimSlotResolutionIds")) as Hown
    by (by apply array_elements).
  assert (elements resolutions = claimChildren command) as Hres by (by apply array_elements).
  rewrite Hres in *. rewrite Hown in *.
  split; [split; [done..| |done]|].
  - intros v. split; [|by apply Ho]. intros Hv. apply includes_strings.
    match goal with E : existsb (λ id, negb (set_has (Str <$> i) id)) _ = false |- _ =>
      exact (proj1 (existsb_negb_false _ _) E v Hv) end.
  - intros ->. exists c. split; [|done].
    match goal with E : str_eqb (js "Claim") (js "Claim") && _ = false |- _ =>
      apply negb_false_iff in E; rewrite Hc in E; by apply strict_eq_Str, optional_Str in E end.
Qed.

(** A terminal status is entered by a command whose children project to it. *)
Lemma claim_finished command p s :
  transition claimPolicy command = Ok (changed p s) → s ∈ Lifecycles.claimTerminal →
  ∃ ids slots ds id, aggregateId command = Some id ∧ (context command) ?. "claimId" = Str id
    ∧ complete_children command ids slots ds ∧ projects ds s.
Proof.
  intros (-> & -> & _ & _ & Hg)%transition_changed Hs. specialize (Hg _ eq_refl).
  assert (starts_with (target command) (js "resolved_") || targetIs command "withdrawn" = true) as Hr.
  { unfold targetIs. revert Hs. generalize (target command). intros s Hs. unfold Lifecycles.claimTerminal in Hs.
    rewrite !elem_of_cons, elem_of_nil in Hs. by destruct_or? Hs; subst. }
  unfold claimGuard in Hg. rewrite Hr in Hg. cbn [when] in Hg. guard_steps Hg.
  match goal with E : (_ ← requireCompleteClaimResolutionSet _ _; _) = Ok _ |- _ =>
    apply bind_Ok in E as (st & Hst & E); cbv zeta in E; apply guard_when_Ok in E; bool_inv;
    apply strict_eq_Str in E; rename E into Hp end.
  apply complete_set in Hst as (ids & slots & ds & -> & Hc & Hid). destruct (Hid eq_refl) as (id & Ha & Hcl).
  exists ids, slots, ds, id. split_and!; [done..|].
  apply projectClaimTerminalStatus_sound in Hp as (ds' & Heq & Hp).
  by apply (inj (fmap Str)) in Heq as ->.
Qed.

(** * Properties *)

(** The terminal status of a claim is the projection of the dispositions of
    its children, whatever the array holds: it exists exactly when there is a
    child and every child is disposed of, with one and the same disposition,
    whose status it then is, or with at least two different remedies; then it
    is the mixed one.  In every other case there is none. *)
Theorem claim_projection_exact address statuses :
  (∀ s, projectClaimTerminalStatus (ArrayV address statuses) = Str s
        ↔ ∃ ds, statuses = Str <$> ds ∧ projects ds s)
  ∧ (projectClaimTerminalStatus (ArrayV address statuses) = Undefined
     ∨ ∃ s, projectClaimTerminalStatus (ArrayV address statuses) = Str s).
Proof.
  split.
  - intros s. split; [apply projectClaimTerminalStatus_sound|].
    intros (ds & -> & Hp). by apply projectClaimTerminalStatus_complete.
  - apply projectClaimTerminalStatus_shape.
Qed.

(** C15: a claim starts as opened, and when its history has made it terminal, a
    command of that history for this claim entered the status with the
    complete set of the claim's children: every owned child exactly once, each
    in a slot of its own, each released, and the status is the projection of
    their dispositions. *)
Theorem claim_resolved s0 commands s :
  history claimPolicy s0 commands s → s ∈ Lifecycles.claimTerminal →
  s0 = js "opened"
  ∧ ∃ c ids slots ds id, c ∈ commands ∧ aggregateId c = Some id ∧ (context c) ?. "claimId" = Str id
      ∧ complete_children c ids slots ds ∧ projects ds s.
Proof.
  intros Hh Hs. split; [by apply history_reachable in Hh as [->%list_elem_of_singleton _]|].
  destruct (history_entered _ _ _ _ Hh) as [Hi|(c & p & Hc & Ht)].
  - apply list_elem_of_singleton in Hi as ->. unfold Lifecycles.claimTerminal in Hs.
    rewrite !elem_of_cons, elem_of_nil in Hs. by destruct_or? Hs.
  - destruct (claim_finished _ _ _ Ht Hs) as (ids & slots & ds & id & ?). exists c, ids, slots, ds, id. tauto.
Qed.

(** *** A sample history *)

(** The withdrawal [w] of an opened claim [c] with one pending child [x] in the
    slot [y]. *)
Definition withdrawal_context : value :=
  let flag k := (js k, Bool true) in
  let ids k v := (js k, ArrayV 2 [lit v]) in
  let bindings k := (js k, ArrayV 3 [RecordV 4 [(js "resolutionId", lit "x"); (js "slotId", lit "y")]]) in
  let text k v := (js k, lit v) in
  RecordV 1
    [text "claimId" "c"; text "claimResolutionOwnershipSetId" "set";
     text "claimResolutionOwnershipSetResultId" "setResult";
     (js "claimResolutionOwnershipSet", RecordV 5
       [text "id" "set"; text "claimId" "c"; text "resultId" "setResult"; flag "immutable";
        ids "resolutionIds" "x"; ids "slotIds" "y"; bindings "resolutionSlotBindings"]);
     text "claimResolutionOwnershipSnapshotId" "snapshot";
     text "claimResolutionOwnershipPreviousClaimResultId" "previous";
     text "claimResolutionOwnershipSnapshotResultId" "snapshotResult";
     (js "claimResolutionOwnershipSnapshot", RecordV 6
       [text "id" "snapshot"; text "claimId" "c"; text "aggregateId" "c"; text "status" "opened";
        text "previousResultId" "previous"; text "resultId" "snapshotResult"; text "ownershipSetId" "set";
        text "ownershipSetResultId" "setResult"; text "currentStateCommandKey" "key"; flag "immutable";
        ids "resolutionIds" "x"; ids "slotIds" "y"; bindings "resolutionSlotBindings"]);
     ids "expectedClaimSlotResolutionIds" "x"; ids "expectedClaimSlotIds" "y";
     bindings "expectedClaimResolutionSlots"; text "claimResolutionSetClaimId" "c";
     (js "claimSlotResolutions", ArrayV 7 [RecordV 8
       [text "id" "x"; text "slotId" "y"; text "claimId" "c"; text "status" "withdrawn";
        text "statusBefore" "pending"; text "statusAfter" "withdrawn"; text "activeClaimIdBefore" "c";
        (js "activeClaimIdAfter", Null); text "claimWithdrawalResultId" "w"]]);
     flag "claimResolutionSetComplete"; flag "claimSlotOwnershipReleased";
     text "claimRetentionClaimId" "c"; text "claimRetentionHoldPreviousStatus" "active_claim";
     text "claimRetentionHoldTargetStatus" "released";
     (js "claimRetentionPreviousDeleteAfter", InstantV 9 (Instant.mk 10));
     (js "claimRetentionTargetDeleteAfter", InstantV 10 (Instant.mk 20));
     flag "claimRetentionDeadlineRecomputed"; flag "claimRetentionReleased"; flag "claimTerminalCleanupAtomic";
     text "claimSlotResolutionId" "x"; text "claimSlotId" "y"; text "claimWithdrawalResultId" "w";
     text "claimWithdrawalResultClaimId" "c"; text "claimWithdrawalParentResultId" "w";
     text "claimWithdrawalChildSetResultId" "w"; text "claimWithdrawalSlotOwnershipResultId" "w";
     text "claimWithdrawalRetentionResultId" "w"; text "claimWithdrawalParentClaimId" "c";
     text "claimWithdrawalParentPreviousStatus" "opened"; text "claimWithdrawalParentTargetStatus" "withdrawn";
     text "claimWithdrawalChildResolutionId" "x"; text "claimWithdrawalChildSlotId" "y";
     text "claimWithdrawalChildResultId" "w"; text "claimWithdrawalChildStatusBefore" "pending";
     text "claimWithdrawalChildStatusAfter" "withdrawn"; flag "claimWithdrawalSlotOwnershipReleased";
     flag "claimWithdrawalRetentionCleanupCompleted"; flag "claimWithdrawalDeadlineRecomputed";
     flag "claimWithdrawalResultAtomic"; flag "cleanPostDeliveryQualityClaim"].

Definition withdrawal : TransitionCommand :=
  mkCommand (Some (js "c")) (js "opened") (js "withdrawn") (js "now") (Some (js "key")) (Some (js "previous"))
    None None None (Some (js "snapshot")) (Some (js "snapshotResult")) withdrawal_context.

Lemma claim_resolved_witness :
  ∃ c ids slots ds id, c ∈ [withdrawal] ∧ aggregateId c = Some id ∧ (context c) ?. "claimId" = Str id
    ∧ complete_children c ids slots ds ∧ projects ds (js "withdrawn").
Proof.
  assert (history claimPolicy (js "opened") [withdrawal] (js "withdrawn")) as H.
  { change (js "withdrawn") with (status_after (changed (js "opened") (js "withdrawn"))).
    apply (history_step _ _ [] (js "opened")); [|reflexivity|vm_compute; reflexivity].
    constructor. by left. }
  apply claim_resolved in H; [apply H|]. unfold Lifecycles.claimTerminal. rewrite !elem_of_cons. tauto.
Defined.
