(* ===== verification/Replacements.v ===== *)
(** The replacement remedy of a claim (lifecycle/policies.ts): the selection of
    a reprint, the required slots and the resources that produce them, the
    complete handoff of the replacement, and its recovery by cancellation. *)
From S2P Require Import Prelude Text Primitives Values Transition Guards.

Import Transition.

(** ** Guards *)

Definition replacementRecoveryJobStatuses : list value :=
  [lit "created"; lit "accepted"; lit "gcode_ready"; lit "printing"; lit "printed";
   lit "photo_submitted"; lit "qc_approved"; lit "packed"; lit "failed"].

Definition cancellableReplacementJobStatuses : list value :=
  set_of replacementRecoveryJobStatuses.

Definition requireExactReprintSelection (command : TransitionCommand) : result () :=
  let context_ := context command in
  let resolutionId := context_ ?. "claimSlotResolutionId" in
  let claimId := context_ ?. "claimId" in
  let slotId := context_ ?. "claimSlotId" in
  let orderId := context_ ?. "orderId" in
  let phaseId := context_ ?. "phaseId" in
  let artifactId := context_ ?. "reprintSelectionArtifactId" in
  let sourceJobId := context_ ?. "reprintSelectionSourceJobId" in
  let sourceShipmentId := context_ ?. "reprintSelectionSourceShipmentId" in
  let artifactVersionId := context_ ?. "reprintSelectionArtifactVersionId" in
  let configRevisionId := context_ ?. "reprintSelectionPrintConfigRevisionId" in
  let previousResultId := context_ ?. "reprintSelectionPreviousResolutionResultId" in
  let resultId := context_ ?. "reprintSelectionResultId" in
  let stateKey := context_ ?. "reprintSelectionCurrentStateCommandKey" in
  let expectedValue := context_ ?. "reprintSelectionExpectedResolution" in
  let expected := record expectedValue in
  let ownershipValue := context_ ?. "reprintSelectionSlotOwnership" in
  let ownership := record ownershipValue in
  let artifactValue := context_ ?. "reprintSelectionArtifact" in
  let artifact := record artifactValue in
  guard_when
    (negb (nonBlank resolutionId)
     || negb (nonBlank claimId)
     || negb (nonBlank slotId)
     || negb (nonBlank orderId)
     || negb (nonBlank phaseId)
     || negb (nonBlank artifactId)
     || negb (nonBlank sourceJobId)
     || negb (nonBlank sourceShipmentId)
     || negb (nonBlank artifactVersionId)
     || negb (nonBlank configRevisionId)
     || negb (nonBlank previousResultId)
     || negb (nonBlank resultId)
     || negb (nonBlank stateKey)
     || (optional (aggregateId command) !== resolutionId)
     || negb (nonBlank (optional (currentStateResultId command)))
     || (optional (currentStateResultId command) !== previousResultId)
     || (optional (currentStateCommandKey command) !== stateKey)
     || (context_ ?. "reprintSelectionPreviousStatus" !== Str (current command))
     || (context_ ?. "reprintSelectionTargetStatus" !== lit "reprint_pending")
     || (expected ?. "id" !== resolutionId)
     || (expected ?. "claimId" !== claimId)
     || (expected ?. "slotId" !== slotId)
     || (expected ?. "orderId" !== orderId)
     || (expected ?. "phaseId" !== phaseId)
     || (expected ?. "status" !== Str (current command))
     || (expected ?. "activeClaimId" !== claimId)
     || (expected ?. "canonicalDeliveredArtifactId" !== artifactId)
     || (expected ?. "canonicalDeliveredArtifactSourceJobId" !== sourceJobId)
     || (expected ?. "canonicalDeliveredArtifactSourceShipmentId" !== sourceShipmentId)
     || (expected ?. "canonicalDeliveredArtifactVersionId" !== artifactVersionId)
     || (expected ?. "canonicalDeliveredPrintConfigRevisionId" !== configRevisionId)
     || (expected ?. "resultId" !== previousResultId)
     || (expected ?. "currentStateCommandKey" !== stateKey)
     || (expected ?. "immutable" !== Bool true)
     || (ownership ?. "slotId" !== slotId)
     || (ownership ?. "claimId" !== claimId)
     || (ownership ?. "activeClaimId" !== claimId)
     || (ownership ?. "resolutionId" !== resolutionId)
     || (ownership ?. "orderId" !== orderId)
     || (ownership ?. "phaseId" !== phaseId)
     || (ownership ?. "immutable" !== Bool true)
     || (artifact ?. "id" !== artifactId)
     || (artifact ?. "sourceJobId" !== sourceJobId)
     || (artifact ?. "sourceShipmentId" !== sourceShipmentId)
     || (artifact ?. "claimId" !== claimId)
     || (artifact ?. "resolutionId" !== resolutionId)
     || (artifact ?. "orderId" !== orderId)
     || (artifact ?. "phaseId" !== phaseId)
     || (artifact ?. "slotId" !== slotId)
     || (artifact ?. "reproductionArtifactVersionId" !== artifactVersionId)
     || (artifact ?. "printConfigRevisionId" !== configRevisionId)
     || (artifact ?. "status" !== lit "sealed")
     || (artifact ?. "delivered" !== Bool true)
     || (artifact ?. "currentLineageLeaf" !== Bool true)
     || (artifact ?. "canonical" !== Bool true)
     || (artifact ?. "immutable" !== Bool true)
     || (artifact ?. "resultId" !== resultId)
     || (context_ ?. "reprintSelectionResolutionResultId" !== resultId)
     || (context_ ?. "reprintSelectionSlotResultId" !== resultId)
     || (context_ ?. "reprintSelectionArtifactResultId" !== resultId)
     || (context_ ?. "reprintSelectionConfigResultId" !== resultId)
     || (context_ ?. "reprintSelectionCompleted" !== Bool true)
     || (context_ ?. "reprintSelectionAtomic" !== Bool true)).

Definition requireExactReplacementResolutionSource (command : TransitionCommand)
    (sourceStatus : value) (sourceEvidence : value) : result () :=
  let context_ := context command in
  let snapshotValue :=
    if sourceEvidence === Undefined
    then context_ ?. "replacementLifecycleExpectedResolution"
    else sourceEvidence ?. "expectedResolution" in
  let snapshot := record snapshotValue in
  let resolutionId := context_ ?. "claimSlotResolutionId" in
  let claimId := context_ ?. "claimId" in
  let slotId := context_ ?. "claimSlotId" in
  let orderId := context_ ?. "orderId" in
  let phaseId := context_ ?. "phaseId" in
  let previousResultId :=
    if sourceEvidence === Undefined
    then context_ ?. "replacementLifecyclePreviousResolutionResultId"
    else sourceEvidence ?. "previousResultId" in
  let currentStateCommandKey_ :=
    if sourceEvidence === Undefined
    then context_ ?. "replacementLifecycleCurrentStateCommandKey"
    else sourceEvidence ?. "currentStateCommandKey" in
  guard_when
    (negb (nonBlank resolutionId)
     || negb (nonBlank claimId)
     || negb (nonBlank slotId)
     || negb (nonBlank orderId)
     || negb (nonBlank phaseId)
     || negb (nonBlank previousResultId)
     || negb (nonBlank currentStateCommandKey_)
     || (optional (aggregateId command) !== resolutionId)
     || (optional (currentStateResultId command) !== previousResultId)
     || (optional (currentStateCommandKey command) !== currentStateCommandKey_)
     || (snapshot ?. "id" !== resolutionId)
     || (snapshot ?. "claimId" !== claimId)
     || (snapshot ?. "slotId" !== slotId)
     || (snapshot ?. "orderId" !== orderId)
     || (snapshot ?. "phaseId" !== phaseId)
     || (snapshot ?. "status" !== sourceStatus)
     || (snapshot ?. "resultId" !== previousResultId)
     || (snapshot ?. "currentStateCommandKey" !== currentStateCommandKey_)
     || (snapshot ?. "immutable" !== Bool true)).

Definition requireIndependentReplacementResourceSet (command : TransitionCommand)
    (allowCurrentPreHandoffJobStatus : bool) : result () :=
  let context_ := context command in
  let claimId := context_ ?. "claimId" in
  let resolutionId := context_ ?. "claimSlotResolutionId" in
  let resolutionSlotId := context_ ?. "claimSlotId" in
  let replacementSetId := context_ ?. "replacementSetId" in
  let expected := array (context_ ?. "expectedReplacementRequiredSlotIds") in
  let exact := λ (expectedIds : value) (value_ : value),
    is_array value_
    && (js_len value_ =? js_len expectedIds)
    && forallb (λ id, nonBlank id && includes (elements expectedIds) id) (elements value_)
    && (zlength (set_of (elements value_)) =? js_len value_) in
  guard_when
    (negb (nonBlank claimId)
     || negb (nonBlank resolutionId)
     || negb (nonBlank resolutionSlotId)
     || negb (nonBlank replacementSetId)
     || (context_ ?. "replacementRequiredSetClaimId" !== claimId)
     || (context_ ?. "replacementRequiredSetResolutionId" !== resolutionId)
     || (context_ ?. "replacementRequiredSetId" !== replacementSetId)
     || negb (is_array expected)
     || (js_len expected =? 0)
     || negb (exact expected expected)
     || negb (includes (elements expected) resolutionSlotId)) ;;
  let expectedSlots := expected in
  let records := λ (collection : value) (requireLeaf : bool),
    guard_when (negb (is_array collection) || (js_len collection =? 0)) ;;
    let byId : list (value * value) := [] in
    let covered : list value := [] in
    '(byId, covered) ← foldM (λ '(byId, covered) value_,
      guard_when (negb (is_record value_)) ;;
      let record_ := value_ in
      let id := record_ ?. "id" in
      let slotIds := record_ ?. "slotIds" in
      guard_when
        (negb (nonBlank id)
         || map_has byId id
         || negb (is_array slotIds)
         || (js_len slotIds =? 0)
         || negb (exact slotIds slotIds)
         || negb
              (forallb (λ slotId,
                   includes (elements expectedSlots) slotId && negb (set_has covered slotId))
                 (elements slotIds))
         || (record_ ?. "claimId" !== claimId)
         || (record_ ?. "resolutionId" !== resolutionId)
         || (record_ ?. "replacementSetId" !== replacementSetId)
         || (requireLeaf
             && ((record_ ?. "currentReplacementJobLineageLeaf" !== Bool true)
                 || (if allowCurrentPreHandoffJobStatus
                     then negb
                            (set_has cancellableReplacementJobStatuses
                               (record_ ?. "currentReplacementJobStatus"))
                     else record_ ?. "currentReplacementJobStatus" !== lit "created")))) ;;
      let byId := map_set byId id record_ in
      let covered :=
        foldl (λ covered slotId, set_add covered slotId) covered (elements slotIds) in
      Ok (byId, covered)) (byId, covered) (elements collection);
    guard_when (existsb (λ slotId, negb (set_has covered slotId)) (elements expectedSlots)) ;;
    Ok byId in
  requests ← records (context_ ?. "replacementRequiredRequests") false;
  reservations ← records (context_ ?. "replacementRequiredReservations") false;
  shipments ← records (context_ ?. "replacementRequiredShipments") false;
  jobs ← records (context_ ?. "replacementRequiredJobs") true;
  let bindings := context_ ?. "replacementRequiredSlotBindings" in
  guard_when (negb (is_array bindings) || negb (js_len bindings =? js_len expectedSlots)) ;;
  let links : list (value * value) := [] in
  links ← foldM (λ links value_,
    guard_when (negb (is_record value_)) ;;
    let link := value_ in
    let slotId := link ?. "slotId" in
    let request := map_get requests (link ?. "replacementRequestId") in
    let reservation := map_get reservations (link ?. "replacementReservationId") in
    let shipment := map_get shipments (link ?. "replacementShipmentId") in
    let job := map_get jobs (link ?. "currentReplacementJobId") in
    guard_when
      (negb (nonBlank slotId)
       || map_has links slotId
       || negb (includes (elements expectedSlots) slotId)
       || (request === Undefined)
       || (reservation === Undefined)
       || (shipment === Undefined)
       || (job === Undefined)
       || negb
            (forallb (λ record_,
                 is_array (record_ ?. "slotIds")
                 && includes (elements (record_ ?. "slotIds")) slotId)
               [request; reservation; shipment; job])) ;;
    Ok (map_set links slotId link)) links (elements bindings);
  let linkedIds := λ (slotIds : value) (key : value),
    ArrayV 0
      (set_of
         (List.filter nonBlank
            (List.map (λ slotId, get_key (map_get links slotId) key) (elements slotIds)))) in
  let verifyRelations := λ (all : list (value * value)) (fields_ : value),
    foldM (λ _ '(id, record_),
      let slotIds := record_ ?. "slotIds" in
      foldM (λ _ field,
        let linkKey :=
          if field === lit "replacementRequestIds"
          then lit "replacementRequestId"
          else if field === lit "replacementReservationIds"
               then lit "replacementReservationId"
               else if field === lit "replacementShipmentIds"
                    then lit "replacementShipmentId"
                    else lit "currentReplacementJobId" in
        guard_when (negb (exact (linkedIds slotIds linkKey) (get_key record_ field)))) ()
          (elements fields_) ;;
      guard_when (negb (nonBlank id))) () all in
  verifyRelations requests
    (ArrayV 0 [lit "replacementReservationIds"; lit "currentReplacementJobIds"]) ;;
  verifyRelations reservations
    (ArrayV 0 [lit "replacementRequestIds"; lit "currentReplacementJobIds"]) ;;
  verifyRelations shipments
    (ArrayV 0
       [lit "replacementRequestIds"; lit "replacementReservationIds";
        lit "currentReplacementJobIds"]) ;;
  verifyRelations jobs
    (ArrayV 0
       [lit "replacementRequestIds"; lit "replacementReservationIds";
        lit "replacementShipmentIds"]) ;;
  foldM (λ _ reservation,
      guard_when
        (negb (is_array (reservation ?. "currentReplacementJobIds"))
         || negb (js_len (reservation ?. "currentReplacementJobIds") =? 1))) ()
    (map_values reservations) ;;
  foldM (λ _ job,
      guard_when
        (negb (is_array (job ?. "replacementReservationIds"))
         || negb (js_len (job ?. "replacementReservationIds") =? 1)
         || negb (is_array (job ?. "replacementShipmentIds"))
         || negb (js_len (job ?. "replacementShipmentIds") =? 1))) () (map_values jobs) ;;
  requireFlag command "replacementRequiredSlotSetComplete" ;;
  requireFlag command "replacementSetupAtomic".

Definition requireCompleteReplacementRequiredSlotSet (command : TransitionCommand)
    (allowCurrentPreHandoffJobStatus : bool) : result () :=
  if is_array ((context command) ?. "replacementRequiredRequests") then
    requireIndependentReplacementResourceSet command allowCurrentPreHandoffJobStatus
  else
  let resolutionId := (context command) ?. "claimSlotResolutionId" in
  let claimId := (context command) ?. "claimId" in
  let resolutionSlotId := (context command) ?. "claimSlotId" in
  let replacementSetId := (context command) ?. "replacementSetId" in
  let expectedSlotIdsValue := (context command) ?. "expectedReplacementRequiredSlotIds" in
  let bindingsValue := (context command) ?. "replacementRequiredSlotBindings" in
  let resourceGroupsValue := (context command) ?. "replacementRequiredResourceGroups" in
  let expectedSlotIds := array expectedSlotIdsValue in
  let bindings := array bindingsValue in
  let resourceGroups := array resourceGroupsValue in
  guard_when
    (negb (nonBlank resolutionId)
     || negb (nonBlank claimId)
     || negb (nonBlank resolutionSlotId)
     || negb (nonBlank replacementSetId)
     || ((context command) ?. "replacementRequiredSetClaimId" !== claimId)
     || ((context command) ?. "replacementRequiredSetResolutionId" !== resolutionId)
     || ((context command) ?. "replacementRequiredSetId" !== replacementSetId)
     || (expectedSlotIds === Undefined)
     || (js_len expectedSlotIds =? 0)
     || negb (includes (elements expectedSlotIds) resolutionSlotId)
     || existsb (λ slotId, negb (nonBlank slotId)) (elements expectedSlotIds)
     || negb (zlength (set_of (elements expectedSlotIds)) =? js_len expectedSlotIds)
     || (bindings === Undefined)
     || negb (js_len bindings =? js_len expectedSlotIds)
     || (resourceGroups === Undefined)
     || (js_len resourceGroups =? 0)) ;;
  let expectedSlots := expectedSlotIds in
  let isExactIdSet := λ (expected : value) (actual : value),
    is_array actual
    && (js_len actual =? js_len expected)
    && forallb (λ id, nonBlank id && includes (elements expected) id) (elements actual)
    && (zlength (set_of (elements actual)) =? js_len actual) in
  let resourceGroupIds : list value := [] in
  let requestIds : list value := [] in
  let reservationIds : list value := [] in
  let shipmentIds : list value := [] in
  let jobIds : list value := [] in
  let coveredSlotIds : list value := [] in
  let resourceGroupsById : list (value * value) := [] in
  '(resourceGroupIds, requestIds, reservationIds, shipmentIds, jobIds, coveredSlotIds, resourceGroupsById) ←
    foldM
      (λ '(resourceGroupIds, requestIds, reservationIds, shipmentIds, jobIds, coveredSlotIds,
           resourceGroupsById) value_,
    guard_when (negb (is_record value_)) ;;
    let group := value_ in
    let groupId := group ?. "id" in
    let slotIds := group ?. "slotIds" in
    let requestId := group ?. "replacementRequestId" in
    let reservationId := group ?. "replacementReservationId" in
    let shipmentId := group ?. "replacementShipmentId" in
    let jobId := group ?. "currentReplacementJobId" in
    guard_when
      (negb (nonBlank groupId)
       || set_has resourceGroupIds groupId
       || negb (is_array slotIds)
       || (js_len slotIds =? 0)
       || negb (isExactIdSet (array_or_empty slotIds) slotIds)
       || negb (forallb (λ slotId, includes (elements expectedSlots) slotId) (elements slotIds))
       || existsb (λ slotId, set_has coveredSlotIds slotId) (elements slotIds)
       || (group ?. "claimId" !== claimId)
       || (group ?. "resolutionId" !== resolutionId)
       || (group ?. "replacementSetId" !== replacementSetId)
       || negb (nonBlank requestId)
       || set_has requestIds requestId
       || (group ?. "replacementRequestClaimId" !== claimId)
       || (group ?. "replacementRequestResolutionId" !== resolutionId)
       || negb (isExactIdSet slotIds (group ?. "replacementRequestSlotIds"))
       || negb (nonBlank reservationId)
       || set_has reservationIds reservationId
       || (group ?. "replacementReservationRequestId" !== requestId)
       || negb (isExactIdSet slotIds (group ?. "replacementReservationSlotIds"))
       || negb (nonBlank shipmentId)
       || set_has shipmentIds shipmentId
       || (group ?. "replacementShipmentRequestId" !== requestId)
       || (group ?. "replacementShipmentReservationId" !== reservationId)
       || negb (isExactIdSet slotIds (group ?. "replacementShipmentSlotIds"))
       || negb (nonBlank jobId)
       || set_has jobIds jobId
       || (group ?. "currentReplacementJobRequestId" !== requestId)
       || (group ?. "currentReplacementJobReservationId" !== reservationId)
       || (group ?. "currentReplacementJobShipmentId" !== shipmentId)
       || negb (isExactIdSet slotIds (group ?. "currentReplacementJobSlotIds"))
       || (group ?. "currentReplacementJobLineageLeaf" !== Bool true)
       || (if allowCurrentPreHandoffJobStatus
           then negb
                  (set_has cancellableReplacementJobStatuses
                     (group ?. "currentReplacementJobStatus"))
           else group ?. "currentReplacementJobStatus" !== lit "created")) ;;
    let resourceGroupIds := set_add resourceGroupIds groupId in
    let requestIds := set_add requestIds requestId in
    let reservationIds := set_add reservationIds reservationId in
    let shipmentIds := set_add shipmentIds shipmentId in
    let jobIds := set_add jobIds jobId in
    let coveredSlotIds :=
      foldl (λ coveredSlotIds slotId, set_add coveredSlotIds slotId) coveredSlotIds
        (elements slotIds) in
    let resourceGroupsById := map_set resourceGroupsById groupId group in
    Ok
      (resourceGroupIds, requestIds, reservationIds, shipmentIds, jobIds, coveredSlotIds,
       resourceGroupsById))
      (resourceGroupIds, requestIds, reservationIds, shipmentIds, jobIds, coveredSlotIds,
       resourceGroupsById) (elements resourceGroups);
  guard_when
    (existsb (λ slotId, negb (set_has coveredSlotIds slotId)) (elements expectedSlots)) ;;
  let boundSlotIds : list value := [] in
  boundSlotIds ← foldM (λ boundSlotIds value_,
    guard_when (negb (is_record value_)) ;;
    let binding := value_ in
    let slotId := binding ?. "slotId" in
    let resourceGroupId := binding ?. "replacementResourceGroupId" in
    let group :=
      if is_string resourceGroupId
      then map_get resourceGroupsById resourceGroupId
      else Undefined in
    guard_when
      (negb (nonBlank slotId)
       || set_has boundSlotIds slotId
       || negb (includes (elements expectedSlots) slotId)
       || (group === Undefined)
       || negb (is_array (group ?. "slotIds"))
       || negb (includes (elements (group ?. "slotIds")) slotId)) ;;
    Ok (set_add boundSlotIds slotId)) boundSlotIds (elements bindings);
  guard_when (existsb (λ slotId, negb (set_has boundSlotIds slotId)) (elements expectedSlots)) ;;
  requireFlag command "replacementRequiredSlotSetComplete" ;;
  requireFlag command "replacementSetupAtomic".

Definition requireIndependentReplacementHandoff (command : TransitionCommand)
    (transitionShipmentId : value) (cancellationRace : bool)
    (cancellationRaceShipmentSourceStatus : value) : result () :=
  requireIndependentReplacementResourceSet command true ;;
  let context_ := context command in
  let exact := λ (expectedIds : value) (value_ : value),
    is_array value_
    && (js_len value_ =? js_len expectedIds)
    && forallb (λ id, nonBlank id && includes (elements expectedIds) id) (elements value_)
    && (zlength (set_of (elements value_)) =? js_len value_) in
  let claimId := context_ ?. "claimId" in
  let resolutionId := context_ ?. "claimSlotResolutionId" in
  let replacementSetId := context_ ?. "replacementSetId" in
  let authorizationId := context_ ?. "replacementFulfilmentAuthorizationId" in
  let selectedShipmentId := context_ ?. "replacementAuthorizationShipmentId" in
  let setupShipments := array_or_empty (context_ ?. "replacementRequiredShipments") in
  let setupJobs := array_or_empty (context_ ?. "replacementRequiredJobs") in
  let handoffShipments := array (context_ ?. "replacementHandoffShipments") in
  let handoffJobs := array (context_ ?. "replacementHandoffJobs") in
  let handoffLinks := array (context_ ?. "replacementHandoffSlotBindings") in
  let shipmentMap :=
    map_of
      (List.map (λ record_, ArrayV 0 [record_ ?. "id"; record_])
         (List.filter (λ value_, is_record value_) (elements setupShipments))) in
  let jobMap :=
    map_of
      (List.map (λ record_, ArrayV 0 [record_ ?. "id"; record_])
         (List.filter (λ value_, is_record value_) (elements setupJobs))) in
  let setupLinks :=
    map_of
      (List.map (λ link, ArrayV 0 [link ?. "slotId"; link])
         (List.filter (λ value_, is_record value_)
            (elements (context_ ?. "replacementRequiredSlotBindings")))) in
  let selectedShipment := map_get shipmentMap selectedShipmentId in
  let selectedSlots := array (selectedShipment ?. "slotIds") in
  let selectedJobIds :=
    if truthy selectedSlots
    then ArrayV 0
           (set_of
              (List.filter nonBlank
                 (List.map (λ slotId, (map_get setupLinks slotId) ?. "currentReplacementJobId")
                    (elements selectedSlots))))
    else Undefined in
  guard_when
    (negb (nonBlank claimId)
     || negb (nonBlank resolutionId)
     || negb (nonBlank replacementSetId)
     || negb (nonBlank authorizationId)
     || negb (nonBlank selectedShipmentId)
     || (context_ ?. "replacementHandoffShipmentId" !== selectedShipmentId)
     || (selectedSlots === Undefined)
     || (js_len selectedSlots =? 0)
     || (selectedJobIds === Undefined)
     || (js_len selectedJobIds =? 0)
     || (context_ ?. "replacementAuthorizationClaimId" !== claimId)
     || (context_ ?. "replacementAuthorizationResolutionId" !== resolutionId)
     || (context_ ?. "replacementAuthorizationSetId" !== replacementSetId)
     || (context_ ?. "replacementConsumedAuthorizationId" !== authorizationId)
     || (context_ ?. "replacementConsumedAuthorizationClaimId" !== claimId)
     || (context_ ?. "replacementConsumedAuthorizationResolutionId" !== resolutionId)
     || (context_ ?. "replacementConsumedAuthorizationSetId" !== replacementSetId)
     || (context_ ?. "replacementAuthorizationStatusBefore" !== lit "issued")
     || (context_ ?. "replacementAuthorizationStatusAfter" !== lit "consumed")
     || (context_ ?. "replacementHandoffAuthorizationId" !== authorizationId)
     || negb (exact selectedSlots (context_ ?. "replacementHandoffSlotIds"))
     || negb (exact selectedSlots (context_ ?. "replacementAuthorizationSlotIds"))
     || negb
          (exact (ArrayV 0 [selectedShipmentId])
             (context_ ?. "replacementAuthorizationShipmentIds"))
     || negb (is_array handoffShipments)
     || negb (is_array handoffJobs)
     || negb (is_array handoffLinks)
     || negb (js_len handoffLinks =? js_len selectedSlots)) ;;
  let verify :=
    λ (records : value) (setup : list (value * value)) (requiredIds : value)
      (requiredSlots : value) (job : bool),
    let ids : list value := [] in
    let covered : list value := [] in
    '(ids, covered) ← foldM (λ '(ids, covered) value_,
      guard_when (negb (is_record value_)) ;;
      let record_ := value_ in
      let id := record_ ?. "id" in
      let persisted := map_get setup id in
      let expectedPrevious :=
        if cancellationRace && (transitionShipmentId === id)
        then cancellationRaceShipmentSourceStatus
        else if job then lit "packed" else lit "label_created" in
      guard_when
        (negb (nonBlank id)
         || set_has ids id
         || (persisted === Undefined)
         || negb (exact (persisted ?. "slotIds") (record_ ?. "slotIds"))
         || (record_ ?. "claimId" !== claimId)
         || (record_ ?. "resolutionId" !== resolutionId)
         || (record_ ?. "replacementSetId" !== replacementSetId)
         || (record_ ?. "previousStatus" !== expectedPrevious)
         || (record_ ?. "targetStatus" !== lit "handed_over")
         || (job && (record_ ?. "currentReplacementJobLineageLeaf" !== Bool true))) ;;
      let ids := set_add ids id in
      let covered :=
        foldl (λ covered slotId, set_add covered slotId) covered
          (elements (record_ ?. "slotIds")) in
      Ok (ids, covered)) (ids, covered) (elements records);
    guard_when
      (negb (exact requiredIds (ArrayV 0 ids))
       || negb (exact requiredSlots (ArrayV 0 covered))) ;;
    Ok ids in
  shipmentIds ←
    verify handoffShipments shipmentMap (ArrayV 0 [selectedShipmentId]) selectedSlots false;
  handedOffJobIds ← verify handoffJobs jobMap selectedJobIds selectedSlots true;
  guard_when
    (negb (exact (ArrayV 0 shipmentIds) (context_ ?. "replacementAuthorizationShipmentIds"))
     || ((transitionShipmentId !== Undefined)
         && negb (set_has shipmentIds transitionShipmentId))) ;;
  let linked : list value := [] in
  linked ← foldM (λ linked value_,
    guard_when (negb (is_record value_)) ;;
    let link := value_ in
    let setup := map_get setupLinks (link ?. "slotId") in
    guard_when
      (negb (nonBlank (link ?. "slotId"))
       || set_has linked (link ?. "slotId")
       || negb (includes (elements selectedSlots) (link ?. "slotId"))
       || (setup === Undefined)
       || (setup ?. "replacementRequestId" !== link ?. "replacementRequestId")
       || (setup ?. "replacementReservationId" !== link ?. "replacementReservationId")
       || (setup ?. "replacementShipmentId" !== link ?. "replacementShipmentId")
       || (setup ?. "currentReplacementJobId" !== link ?. "currentReplacementJobId")
       || negb (set_has shipmentIds (link ?. "replacementShipmentId"))
       || negb (set_has handedOffJobIds (link ?. "currentReplacementJobId"))) ;;
    Ok (set_add linked (link ?. "slotId"))) linked (elements handoffLinks);
  guard_when (negb (exact selectedSlots (ArrayV 0 linked))) ;;
  requireFlag command "replacementHandoffSlotSetComplete" ;;
  requireFlag command "replacementHandoffAtomic".

Definition requireAtomicCompleteReplacementHandoff (lifecycle : jstr)
    (command : TransitionCommand) (selectedShipmentId : value) (cancellationRace : bool)
    (cancellationRaceShipmentSourceStatus : value) : result () :=
  when (str_eqb lifecycle (js "ClaimSlotResolution"))
    (requireExactReplacementResolutionSource command (lit "replacement_in_production")
       (RecordV 0
          [(js "previousResultId",
            (context command) ?. "replacementHandoffPreviousResolutionResultId");
           (js "currentStateCommandKey",
            (context command) ?. "replacementHandoffCurrentStateCommandKey");
           (js "expectedResolution",
            (context command) ?. "replacementHandoffExpectedResolution")])) ;;
  let resultId := (context command) ?. "replacementHandoffResultId" in
  let claimId := (context command) ?. "claimId" in
  let resolutionId := (context command) ?. "claimSlotResolutionId" in
  guard_when
    (negb (nonBlank resultId)
     || negb (nonBlank claimId)
     || negb (nonBlank resolutionId)
     || ((context command) ?. "replacementHandoffClaimId" !== claimId)
     || ((context command) ?. "replacementHandoffResolutionId" !== resolutionId)
     || ((context command) ?. "replacementHandoffResolutionPreviousStatus"
           !== lit "replacement_in_production")
     || ((context command) ?. "replacementHandoffResolutionTargetStatus"
           !== lit "replacement_shipped")
     || ((context command) ?. "replacementHandoffClaimResultId" !== resultId)
     || ((context command) ?. "replacementHandoffResolutionResultId" !== resultId)
     || ((context command) ?. "replacementHandoffAuthorizationResultId" !== resultId)
     || ((context command) ?. "replacementHandoffShipmentSetResultId" !== resultId)
     || ((context command) ?. "replacementHandoffJobSetResultId" !== resultId)
     || ((selectedShipmentId !== Undefined)
         && (((context command) ?. "replacementHandoffShipmentId" !== selectedShipmentId)
             || ((context command) ?. "replacementHandoffSelectedShipmentResultId"
                   !== resultId)))) ;;
  if is_array ((context command) ?. "replacementRequiredRequests") then
    requireIndependentReplacementHandoff command selectedShipmentId cancellationRace
      cancellationRaceShipmentSourceStatus
  else
  requireCompleteReplacementRequiredSlotSet command true ;;
  let resolutionSlotId := (context command) ?. "claimSlotId" in
  let replacementSetId := (context command) ?. "replacementSetId" in
  let authorizationId := (context command) ?. "replacementFulfilmentAuthorizationId" in
  let requiredSlotIdsValue := (context command) ?. "expectedReplacementRequiredSlotIds" in
  let handoffSlotIdsValue := (context command) ?. "replacementHandoffSlotIds" in
  let authorizationSlotIdsValue := (context command) ?. "replacementAuthorizationSlotIds" in
  let authorizationShipmentIdsValue :=
    (context command) ?. "replacementAuthorizationShipmentIds" in
  let bindingsValue := (context command) ?. "replacementHandoffSlotBindings" in
  let handoffGroupsValue := (context command) ?. "replacementHandoffResourceGroups" in
  let setupGroupsValue := (context command) ?. "replacementRequiredResourceGroups" in
  let requiredSlotIds := array requiredSlotIdsValue in
  let handoffSlotIds := array handoffSlotIdsValue in
  let authorizationSlotIds := array authorizationSlotIdsValue in
  let authorizationShipmentIds := array authorizationShipmentIdsValue in
  let bindings := array bindingsValue in
  let handoffGroups := array handoffGroupsValue in
  let setupGroups := array setupGroupsValue in
  let isExactIdArray := λ (expected : value) (actual : value),
    (expected !== Undefined)
    && (0 <? js_len expected)
    && (actual !== Undefined)
    && (js_len actual =? js_len expected)
    && forallb (λ id, nonBlank id) (elements expected)
    && (zlength (set_of (elements expected)) =? js_len expected)
    && forallb (λ id, nonBlank id && includes (elements expected) id) (elements actual)
    && (zlength (set_of (elements actual)) =? js_len actual) in
  guard_when
    (negb (nonBlank resolutionId)
     || negb (nonBlank claimId)
     || negb (nonBlank resolutionSlotId)
     || negb (nonBlank replacementSetId)
     || ((context command) ?. "replacementRequiredSetId" !== replacementSetId)
     || ((context command) ?. "replacementRequiredSetClaimId" !== claimId)
     || ((context command) ?. "replacementRequiredSetResolutionId" !== resolutionId)
     || negb (isExactIdArray requiredSlotIds handoffSlotIds)
     || negb (isExactIdArray requiredSlotIds authorizationSlotIds)
     || (requiredSlotIds === Undefined)
     || negb (includes (elements requiredSlotIds) resolutionSlotId)
     || negb (nonBlank authorizationId)
     || ((context command) ?. "replacementAuthorizationClaimId" !== claimId)
     || ((context command) ?. "replacementAuthorizationResolutionId" !== resolutionId)
     || ((context command) ?. "replacementAuthorizationSetId" !== replacementSetId)
     || (authorizationShipmentIds === Undefined)
     || (js_len authorizationShipmentIds =? 0)
     || existsb (λ id, negb (nonBlank id)) (elements authorizationShipmentIds)
     || negb
          (zlength (set_of (elements authorizationShipmentIds))
             =? js_len authorizationShipmentIds)
     || (bindings === Undefined)
     || negb (js_len bindings =? js_len requiredSlotIds)
     || (handoffGroups === Undefined)
     || (js_len handoffGroups =? 0)
     || (setupGroups === Undefined)
     || (js_len setupGroups =? 0)
     || ((context command) ?. "replacementConsumedAuthorizationId" !== authorizationId)
     || ((context command) ?. "replacementConsumedAuthorizationClaimId" !== claimId)
     || ((context command) ?. "replacementConsumedAuthorizationResolutionId" !== resolutionId)
     || ((context command) ?. "replacementConsumedAuthorizationSetId" !== replacementSetId)
     || ((context command) ?. "replacementAuthorizationStatusBefore" !== lit "issued")
     || ((context command) ?. "replacementAuthorizationStatusAfter" !== lit "consumed")
     || ((context command) ?. "replacementHandoffAuthorizationId" !== authorizationId)) ;;
  let expectedSlots := requiredSlotIds in
  let expectedShipments := authorizationShipmentIds in
  let isExactStringIdSet := λ (expected : value) (actual : value),
    is_array actual
    && (js_len actual =? js_len expected)
    && forallb (λ id, nonBlank id && includes (elements expected) id) (elements actual)
    && (zlength (set_of (elements actual)) =? js_len actual) in
  let setupGroupsById : list (value * value) := [] in
  setupGroupsById ← foldM (λ setupGroupsById value_,
    guard_when (negb (is_record value_)) ;;
    let setup := value_ in
    let setupGroupId := setup ?. "id" in
    guard_when (negb (nonBlank setupGroupId) || map_has setupGroupsById setupGroupId) ;;
    Ok (map_set setupGroupsById setupGroupId setup)) setupGroupsById (elements setupGroups);
  let handoffGroupsById : list (value * value) := [] in
  let handoffGroupSlotIds : list value := [] in
  let handoffShipmentIds : list value := [] in
  let handoffJobIds : list value := [] in
  '(handoffGroupsById, handoffShipmentIds, handoffJobIds, handoffGroupSlotIds) ←
    foldM (λ '(handoffGroupsById, handoffShipmentIds, handoffJobIds, handoffGroupSlotIds) value_,
    guard_when (negb (is_record value_)) ;;
    let group := value_ in
    let groupId := group ?. "id" in
    let setupGroupId := group ?. "setupResourceGroupId" in
    let slotIds := group ?. "slotIds" in
    let shipmentId := group ?. "replacementShipmentId" in
    let jobId := group ?. "currentReplacementJobId" in
    let setup :=
      if is_string setupGroupId then map_get setupGroupsById setupGroupId else Undefined in
    let expectedShipmentPreviousStatus :=
      if cancellationRace && (selectedShipmentId === shipmentId)
      then cancellationRaceShipmentSourceStatus
      else lit "label_created" in
    guard_when
      (negb (nonBlank groupId)
       || map_has handoffGroupsById groupId
       || negb (is_string setupGroupId)
       || (setupGroupId !== groupId)
       || (setup === Undefined)
       || negb (is_array (setup ?. "slotIds"))
       || negb (isExactStringIdSet (setup ?. "slotIds") slotIds)
       || existsb (λ slotId,
              negb (includes (elements expectedSlots) slotId)
              || set_has handoffGroupSlotIds slotId) (elements slotIds)
       || (group ?. "claimId" !== claimId)
       || (group ?. "resolutionId" !== resolutionId)
       || (group ?. "replacementSetId" !== replacementSetId)
       || negb (nonBlank shipmentId)
       || set_has handoffShipmentIds shipmentId
       || negb (includes (elements expectedShipments) shipmentId)
       || (group ?. "replacementShipmentClaimId" !== claimId)
       || (group ?. "replacementShipmentResolutionId" !== resolutionId)
       || (group ?. "replacementShipmentSetId" !== replacementSetId)
       || negb (isExactStringIdSet slotIds (group ?. "replacementShipmentSlotIds"))
       || (group ?. "replacementShipmentPreviousStatus" !== expectedShipmentPreviousStatus)
       || (group ?. "replacementShipmentTargetStatus" !== lit "handed_over")
       || (group ?. "replacementHandoffResultId" !== resultId)
       || (group ?. "replacementShipmentResultId" !== resultId)
       || (setup ?. "replacementShipmentId" !== shipmentId)
       || negb (nonBlank jobId)
       || set_has handoffJobIds jobId
       || (group ?. "currentReplacementJobClaimId" !== claimId)
       || (group ?. "currentReplacementJobResolutionId" !== resolutionId)
       || (group ?. "currentReplacementJobSetId" !== replacementSetId)
       || (group ?. "currentReplacementJobShipmentId" !== shipmentId)
       || negb (isExactStringIdSet slotIds (group ?. "currentReplacementJobSlotIds"))
       || (group ?. "currentReplacementJobLineageLeaf" !== Bool true)
       || (group ?. "currentReplacementJobPreviousStatus" !== lit "packed")
       || (group ?. "currentReplacementJobTargetStatus" !== lit "handed_over")
       || (group ?. "currentReplacementJobResultId" !== resultId)
       || (setup ?. "currentReplacementJobId" !== jobId)) ;;
    let handoffGroupsById := map_set handoffGroupsById groupId group in
    let handoffShipmentIds := set_add handoffShipmentIds shipmentId in
    let handoffJobIds := set_add handoffJobIds jobId in
    let handoffGroupSlotIds :=
      foldl (λ handoffGroupSlotIds slotId, set_add handoffGroupSlotIds slotId) handoffGroupSlotIds
        (elements slotIds) in
    Ok (handoffGroupsById, handoffShipmentIds, handoffJobIds, handoffGroupSlotIds))
      (handoffGroupsById, handoffShipmentIds, handoffJobIds, handoffGroupSlotIds)
      (elements handoffGroups);
  guard_when
    (negb (zlength setupGroupsById =? zlength handoffGroupsById)
     || existsb (λ groupId, negb (map_has handoffGroupsById groupId)) (map_keys setupGroupsById)
     || existsb (λ slotId, negb (set_has handoffGroupSlotIds slotId)) (elements expectedSlots)
     || negb (isExactStringIdSet expectedShipments (ArrayV 0 handoffShipmentIds))
     || ((selectedShipmentId !== Undefined)
         && negb (set_has handoffShipmentIds selectedShipmentId))) ;;
  let boundSlotIds : list value := [] in
  boundSlotIds ← foldM (λ boundSlotIds value_,
    guard_when (negb (is_record value_)) ;;
    let binding := value_ in
    let slotId := binding ?. "slotId" in
    let resourceGroupId := binding ?. "replacementResourceGroupId" in
    let group :=
      if is_string resourceGroupId
      then map_get handoffGroupsById resourceGroupId
      else Undefined in
    guard_when
      (negb (nonBlank slotId)
       || set_has boundSlotIds slotId
       || negb (includes (elements expectedSlots) slotId)
       || (group === Undefined)
       || negb (is_array (group ?. "slotIds"))
       || negb (includes (elements (group ?. "slotIds")) slotId)) ;;
    Ok (set_add boundSlotIds slotId)) boundSlotIds (elements bindings);
  guard_when
    (existsb (λ slotId, negb (set_has boundSlotIds slotId)) (elements expectedSlots)
     || existsb (λ slotId, negb (set_has handoffGroupSlotIds slotId)) (elements expectedSlots)) ;;
  requireFlag command "replacementHandoffSlotSetComplete" ;;
  requireFlag command "replacementHandoffAtomic".

Definition requireExactReplacementRecoveryCancellation (command : TransitionCommand)
    : result () :=
  requireExactReplacementResolutionSource command (lit "replacement_in_production") Undefined ;;
  requireCompleteReplacementRequiredSlotSet command true ;;
  let context_ := context command in
  let exact := λ (expected : value) (value_ : value),
    is_array value_
    && (js_len value_ =? js_len expected)
    && forallb (λ id, nonBlank id && includes (elements expected) id) (elements value_)
    && (zlength (set_of (elements value_)) =? js_len value_) in
  let claimId := context_ ?. "claimId" in
  let resolutionId := context_ ?. "claimSlotResolutionId" in
  let slotId := context_ ?. "claimSlotId" in
  let orderId := context_ ?. "orderId" in
  let phaseId := context_ ?. "phaseId" in
  let replacementSetId := context_ ?. "replacementSetId" in
  let resultId := context_ ?. "replacementRecoveryCancellationResultId" in
  let snapshotId := context_ ?. "replacementRecoveryCancellationExpectedSnapshotId" in
  let snapshotValue := context_ ?. "replacementRecoveryCancellationExpectedSnapshot" in
  let snapshot := record snapshotValue in
  guard_when
    (negb (nonBlank claimId)
     || negb (nonBlank resolutionId)
     || negb (nonBlank slotId)
     || negb (nonBlank orderId)
     || negb (nonBlank phaseId)
     || negb (nonBlank replacementSetId)
     || negb (nonBlank resultId)
     || negb (nonBlank snapshotId)
     || (snapshot ?. "id" !== snapshotId)
     || (snapshot ?. "immutable" !== Bool true)
     || (snapshot ?. "claimId" !== claimId)
     || (snapshot ?. "resolutionId" !== resolutionId)
     || (snapshot ?. "slotId" !== slotId)
     || (snapshot ?. "orderId" !== orderId)
     || (snapshot ?. "phaseId" !== phaseId)
     || (snapshot ?. "replacementSetId" !== replacementSetId)
     || (snapshot ?. "resolutionPreviousStatus" !== lit "replacement_in_production")
     || (snapshot ?. "resolutionTargetStatus" !== lit "recovery_pending")
     || (context_ ?. "replacementRecoveryCancellationClaimId" !== claimId)
     || (context_ ?. "replacementRecoveryCancellationResolutionId" !== resolutionId)
     || (context_ ?. "replacementRecoveryCancellationSlotId" !== slotId)
     || (context_ ?. "replacementRecoveryCancellationOrderId" !== orderId)
     || (context_ ?. "replacementRecoveryCancellationPhaseId" !== phaseId)
     || (context_ ?. "replacementRecoveryCancellationSetId" !== replacementSetId)
     || (context_ ?. "replacementRecoveryCancellationResolutionPreviousStatus"
           !== lit "replacement_in_production")
     || (context_ ?. "replacementRecoveryCancellationResolutionTargetStatus"
           !== lit "recovery_pending")
     || (context_ ?. "replacementRecoveryCancellationClaimResultId" !== resultId)
     || (context_ ?. "replacementRecoveryCancellationResolutionResultId" !== resultId)
     || (context_ ?. "replacementRecoveryCancellationRequestSetResultId" !== resultId)
     || (context_ ?. "replacementRecoveryCancellationReservationSetResultId" !== resultId)
     || (context_ ?. "replacementRecoveryCancellationShipmentSetResultId" !== resultId)
     || (context_ ?. "replacementRecoveryCancellationJobSetResultId" !== resultId)
     || (context_ ?. "replacementRecoveryCancellationAuthorizationResultId" !== resultId)
     || (context_ ?. "replacementRecoveryCancellationLabelSetResultId" !== resultId)) ;;
  let legacyGroups := array_or_empty (context_ ?. "replacementRequiredResourceGroups") in
  let legacyRecords := λ (kind : value),
    ArrayV 0 (List.map (λ value_,
      let group := value_ in
      if kind === lit "Request" then
        RecordV 0
          [(js "id", group ?. "replacementRequestId");
           (js "slotIds", group ?. "replacementRequestSlotIds")]
      else if kind === lit "Reservation" then
        RecordV 0
          [(js "id", group ?. "replacementReservationId");
           (js "slotIds", group ?. "replacementReservationSlotIds")]
      else if kind === lit "Shipment" then
        RecordV 0
          [(js "id", group ?. "replacementShipmentId");
           (js "slotIds", group ?. "replacementShipmentSlotIds")]
      else
      RecordV 0
        [(js "id", group ?. "currentReplacementJobId");
         (js "slotIds", group ?. "currentReplacementJobSlotIds");
         (js "currentReplacementJobStatus", group ?. "currentReplacementJobStatus")])
        (elements legacyGroups)) in
  let setupRecords := λ (independent : value) (kind : value),
    if is_array independent then independent else legacyRecords kind in
  let requests := setupRecords (context_ ?. "replacementRequiredRequests") (lit "Request") in
  let reservations :=
    setupRecords (context_ ?. "replacementRequiredReservations") (lit "Reservation") in
  let shipments := setupRecords (context_ ?. "replacementRequiredShipments") (lit "Shipment") in
  let jobs := setupRecords (context_ ?. "replacementRequiredJobs") (lit "Job") in
  let snapshotRequests := snapshot ?. "requests" in
  let snapshotReservations := snapshot ?. "reservations" in
  let snapshotShipments := snapshot ?. "shipments" in
  let snapshotJobs := snapshot ?. "jobs" in
  let verify :=
    λ (setup : value) (expectedSnapshot : value) (cancellations : value) (expectedIds : value)
      (allowedPreviousStatuses : value) (targetStatus : value) (requireCurrentLeaf : bool)
      (unchangedStatuses : value),
    let setupById : list (value * value) := [] in
    setupById ← foldM (λ setupById value_,
      guard_when (negb (is_record value_)) ;;
      let record_ := value_ in
      guard_when (negb (nonBlank (record_ ?. "id")) || map_has setupById (record_ ?. "id")) ;;
      Ok (map_set setupById (record_ ?. "id") record_)) setupById (elements setup);
    let ids := ArrayV 0 (map_keys setupById) in
    guard_when
      ((js_len ids =? 0)
       || negb (is_array expectedSnapshot)
       || negb (js_len expectedSnapshot =? js_len ids)) ;;
    let snapshotById : list (value * value) := [] in
    snapshotById ← foldM (λ snapshotById value_,
      guard_when (negb (is_record value_)) ;;
      let record_ := value_ in
      let persisted :=
        if nonBlank (record_ ?. "id") then map_get setupById (record_ ?. "id") else Undefined in
      guard_when
        (negb (nonBlank (record_ ?. "id"))
         || map_has snapshotById (record_ ?. "id")
         || (persisted === Undefined)
         || negb (is_array (persisted ?. "slotIds"))
         || negb (exact (persisted ?. "slotIds") (record_ ?. "slotIds"))
         || (record_ ?. "claimId" !== claimId)
         || (record_ ?. "resolutionId" !== resolutionId)
         || (record_ ?. "replacementSetId" !== replacementSetId)
         || negb (includes (elements allowedPreviousStatuses) (record_ ?. "status"))
         || (requireCurrentLeaf
             && ((record_ ?. "currentReplacementJobLineageLeaf" !== Bool true)
                 || (record_ ?. "status" !== persisted ?. "currentReplacementJobStatus")))) ;;
      Ok (map_set snapshotById (record_ ?. "id") record_)) snapshotById
        (elements expectedSnapshot);
    let transitionIds :=
      ArrayV 0
        (List.filter (λ id,
             negb (includes (elements unchangedStatuses) ((map_get snapshotById id) ?. "status")))
           (elements ids)) in
    guard_when
      (negb (exact transitionIds expectedIds)
       || negb (is_array cancellations)
       || negb (js_len cancellations =? js_len transitionIds)) ;;
    let transitionIdSet := set_of (elements transitionIds) in
    let seen : list value := [] in
    let verified : list value := [] in
    '(seen, verified) ← foldM (λ '(seen, verified) value_,
      guard_when (negb (is_record value_)) ;;
      let record_ := value_ in
      let id := record_ ?. "id" in
      let persisted := if nonBlank id then map_get snapshotById id else Undefined in
      guard_when
        (negb (nonBlank id)
         || set_has seen id
         || negb (set_has transitionIdSet id)
         || (persisted === Undefined)
         || negb (is_array (persisted ?. "slotIds"))
         || negb (exact (persisted ?. "slotIds") (record_ ?. "slotIds"))
         || (record_ ?. "claimId" !== claimId)
         || (record_ ?. "resolutionId" !== resolutionId)
         || (record_ ?. "replacementSetId" !== replacementSetId)
         || (record_ ?. "previousStatus" !== persisted ?. "status")
         || (record_ ?. "targetStatus" !== targetStatus)
         || (record_ ?. "resultId" !== resultId)
         || (requireCurrentLeaf
             && (record_ ?. "currentReplacementJobLineageLeaf" !== Bool true))) ;;
      let seen := set_add seen id in
      let verified := verified ++ [record_] in
      Ok (seen, verified)) (seen, verified) (elements cancellations);
    Ok (ArrayV 0 verified) in
  verify requests snapshotRequests (context_ ?. "replacementRecoveryCancellationRequests")
    (context_ ?. "replacementRecoveryCancellationRequestIds")
    (ArrayV 0 [lit "open"; lit "queued"; lit "in_progress"]) (lit "cancelled") false
    (ArrayV 0 []) ;;
  verify reservations snapshotReservations
    (context_ ?. "replacementRecoveryCancellationReservations")
    (context_ ?. "replacementRecoveryCancellationReservationIds")
    (ArrayV 0 [lit "active"; lit "consumed"]) (lit "released") false (ArrayV 0 []) ;;
  cancelledShipments ←
    verify shipments snapshotShipments (context_ ?. "replacementRecoveryCancellationShipments")
      (context_ ?. "replacementRecoveryCancellationShipmentIds")
      (ArrayV 0 [lit "planned"; lit "label_created"; lit "cancellation_pending"])
      (lit "cancelled") false (ArrayV 0 []);
  verify jobs snapshotJobs (context_ ?. "replacementRecoveryCancellationJobs")
    (context_ ?. "replacementRecoveryCancellationJobIds")
    (ArrayV 0 replacementRecoveryJobStatuses) (lit "cancelled") true (ArrayV 0 [lit "failed"]) ;;
  let snapshotAuthorizations := snapshot ?. "authorizations" in
  let authorizationIds := context_ ?. "replacementRecoveryCancellationAuthorizationIds" in
  let authorizations := context_ ?. "replacementRecoveryCancellationAuthorizations" in
  guard_when
    (negb (is_array snapshotAuthorizations)
     || (js_len snapshotAuthorizations =? 0)
     || negb (is_array authorizations)
     || negb (js_len authorizations =? js_len snapshotAuthorizations)) ;;
  let expectedAuthorizationIds : list value := [] in
  let expectedAuthorizationById : list (value * value) := [] in
  '(expectedAuthorizationIds, expectedAuthorizationById) ←
    foldM (λ '(expectedAuthorizationIds, expectedAuthorizationById) value_,
    guard_when (negb (is_record value_)) ;;
    let authorization := value_ in
    guard_when
      (negb (nonBlank (authorization ?. "id"))
       || set_has expectedAuthorizationIds (authorization ?. "id")
       || (authorization ?. "claimId" !== claimId)
       || (authorization ?. "resolutionId" !== resolutionId)
       || (authorization ?. "replacementSetId" !== replacementSetId)
       || (authorization ?. "status" !== lit "issued")
       || negb (is_array (authorization ?. "shipmentIds"))
       || negb (exact (authorization ?. "shipmentIds") (authorization ?. "shipmentIds"))) ;;
    let expectedAuthorizationIds := set_add expectedAuthorizationIds (authorization ?. "id") in
    let expectedAuthorizationById :=
      map_set expectedAuthorizationById (authorization ?. "id") authorization in
    Ok (expectedAuthorizationIds, expectedAuthorizationById))
      (expectedAuthorizationIds, expectedAuthorizationById) (elements snapshotAuthorizations);
  guard_when (negb (exact (ArrayV 0 expectedAuthorizationIds) authorizationIds)) ;;
  let invalidatedAuthorizationIds : list value := [] in
  invalidatedAuthorizationIds ← foldM (λ invalidatedAuthorizationIds value_,
    guard_when (negb (is_record value_)) ;;
    let authorization := value_ in
    let expected :=
      if nonBlank (authorization ?. "id")
      then map_get expectedAuthorizationById (authorization ?. "id")
      else Undefined in
    guard_when
      (negb (nonBlank (authorization ?. "id"))
       || set_has invalidatedAuthorizationIds (authorization ?. "id")
       || (expected === Undefined)
       || (authorization ?. "claimId" !== claimId)
       || (authorization ?. "resolutionId" !== resolutionId)
       || (authorization ?. "replacementSetId" !== replacementSetId)
       || negb (is_array (expected ?. "shipmentIds"))
       || negb (exact (expected ?. "shipmentIds") (authorization ?. "shipmentIds"))
       || (authorization ?. "previousStatus" !== expected ?. "status")
       || (authorization ?. "targetStatus" !== lit "invalidated")
       || (authorization ?. "resultId" !== resultId)) ;;
    Ok (set_add invalidatedAuthorizationIds (authorization ?. "id"))) invalidatedAuthorizationIds
      (elements authorizations);
  let shipmentIds :=
    ArrayV 0 (List.map (λ record_, record_ ?. "id") (elements cancelledShipments)) in
  let authorizedShipmentIds : list value := [] in
  authorizedShipmentIds ← foldM (λ authorizedShipmentIds authorization,
    authorizedShipmentIds ← foldM (λ authorizedShipmentIds shipmentId,
      guard_when (negb (includes (elements shipmentIds) shipmentId)) ;;
      Ok (set_add authorizedShipmentIds shipmentId)) authorizedShipmentIds
        (elements (authorization ?. "shipmentIds"));
    Ok authorizedShipmentIds) authorizedShipmentIds (map_values expectedAuthorizationById);
  guard_when (existsb (λ id, negb (set_has authorizedShipmentIds id)) (elements shipmentIds)) ;;
  let expectedShipmentById : list (value * value) := [] in
  let expectedShipmentById := foldl (λ expectedShipmentById value_,
    let shipment := value_ in
    map_set expectedShipmentById (shipment ?. "id") shipment) expectedShipmentById
      (elements snapshotShipments) in
  foldM (λ _ shipment,
    let expected := map_get expectedShipmentById (shipment ?. "id") in
    let labelled :=
      (expected ?. "status" === lit "label_created")
      || (expected ?. "status" === lit "cancellation_pending") in
    guard_when
      ((expected === Undefined)
       || (labelled
           && (negb (nonBlank (expected ?. "labelId"))
               || negb (nonBlank (expected ?. "providerTransactionId"))
               || (expected ?. "labelStatus" !== lit "created")
               || (shipment ?. "labelId" !== expected ?. "labelId")
               || (shipment ?. "providerTransactionId" !== expected ?. "providerTransactionId")
               || (shipment ?. "cancellationIntermediateStatus" !== lit "cancellation_pending")
               || (shipment ?. "providerVoidStatus" !== lit "succeeded")
               || (shipment ?. "providerVoidAuthenticated" !== Bool true)
               || (shipment ?. "providerVoidVerified" !== Bool true)
               || (shipment ?. "providerVoidResultId" !== resultId)))
       || (negb labelled
           && ((expected ?. "status" !== lit "planned")
               || (expected ?. "labelId" !== Null)
               || (expected ?. "providerTransactionId" !== Null)
               || (expected ?. "labelStatus" !== Null)
               || (shipment ?. "labelId" !== Null)
               || (shipment ?. "providerTransactionId" !== Null)
               || (shipment ?. "cancellationIntermediateStatus" !== Null)
               || (shipment ?. "providerVoidStatus" !== lit "not_required")
               || (shipment ?. "providerVoidAuthenticated" !== Bool false)
               || (shipment ?. "providerVoidVerified" !== Bool false)
               || (shipment ?. "providerVoidResultId" !== resultId))))) ()
      (elements cancelledShipments) ;;
  let labelIds := context_ ?. "replacementRecoveryCancellationLabelIds" in
  let labels := context_ ?. "replacementRecoveryCancellationLabels" in
  let expectedLabels :=
    ArrayV 0
      (List.filter (λ shipment, nonBlank (shipment ?. "labelId"))
         (map_values expectedShipmentById)) in
  let expectedLabelIds :=
    ArrayV 0 (List.map (λ shipment, shipment ?. "labelId") (elements expectedLabels)) in
  guard_when
    (negb (is_array labelIds)
     || negb (is_array labels)
     || negb (exact expectedLabelIds labelIds)
     || negb (js_len labels =? js_len expectedLabels)) ;;
  let labelledShipments : list value := [] in
  let usedLabelIds : list value := [] in
  '(usedLabelIds, labelledShipments) ← foldM (λ '(usedLabelIds, labelledShipments) value_,
    guard_when (negb (is_record value_)) ;;
    let label := value_ in
    guard_when
      (negb (nonBlank (label ?. "id"))
       || negb (includes (elements labelIds) (label ?. "id"))
       || set_has usedLabelIds (label ?. "id")
       || negb (nonBlank (label ?. "shipmentId"))
       || negb (includes (elements shipmentIds) (label ?. "shipmentId"))
       || set_has labelledShipments (label ?. "shipmentId")
       || ((map_get expectedShipmentById (label ?. "shipmentId")) ?. "labelId" !== label ?. "id")
       || (label ?. "claimId" !== claimId)
       || (label ?. "resolutionId" !== resolutionId)
       || (label ?. "replacementSetId" !== replacementSetId)
       || (label ?. "previousStatus"
             !== (map_get expectedShipmentById (label ?. "shipmentId")) ?. "labelStatus")
       || (label ?. "targetStatus" !== lit "invalidated")
       || (label ?. "resultId" !== resultId)) ;;
    let usedLabelIds := set_add usedLabelIds (label ?. "id") in
    let labelledShipments := set_add labelledShipments (label ?. "shipmentId") in
    Ok (usedLabelIds, labelledShipments)) (usedLabelIds, labelledShipments) (elements labels);
  guard_when
    (existsb (λ id, negb (nonBlank id) || negb (set_has usedLabelIds id)) (elements labelIds)
     || existsb (λ shipment,
            negb (nonBlank (shipment ?. "id"))
            || negb (set_has labelledShipments (shipment ?. "id"))) (elements expectedLabels)
     || existsb (λ id, negb (set_has invalidatedAuthorizationIds id)) expectedAuthorizationIds
     || (context_ ?. "replacementRecoveryCancellationCompleted" !== Bool true)
     || (context_ ?. "replacementRecoveryCancellationAtomic" !== Bool true)).

(** ** They fail only as guards *)

#[global] Typeclasses Opaque
  requireExactReprintSelection
  requireExactReplacementResolutionSource
  requireIndependentReplacementResourceSet
  requireCompleteReplacementRequiredSlotSet
  requireIndependentReplacementHandoff
  requireAtomicCompleteReplacementHandoff
  requireExactReplacementRecoveryCancellation.

#[export] Instance guard_only_requireExactReprintSelection command :
  GuardOnly (requireExactReprintSelection command).
Proof. cbv beta delta [requireExactReprintSelection]. guard_only. Qed.

#[export] Instance guard_only_requireExactReplacementResolutionSource command sourceStatus sourceEvidence :
  GuardOnly (requireExactReplacementResolutionSource command sourceStatus sourceEvidence).
Proof. cbv beta delta [requireExactReplacementResolutionSource]. guard_only. Qed.

#[export] Instance guard_only_requireIndependentReplacementResourceSet command allowCurrentPreHandoffJobStatus :
  GuardOnly (requireIndependentReplacementResourceSet command allowCurrentPreHandoffJobStatus).
Proof. cbv beta delta [requireIndependentReplacementResourceSet]. guard_only. Qed.

#[export] Instance guard_only_requireCompleteReplacementRequiredSlotSet command allowCurrentPreHandoffJobStatus :
  GuardOnly (requireCompleteReplacementRequiredSlotSet command allowCurrentPreHandoffJobStatus).
Proof. cbv beta delta [requireCompleteReplacementRequiredSlotSet]. guard_only. Qed.

#[export] Instance guard_only_requireIndependentReplacementHandoff command transitionShipmentId cancellationRace cancellationRaceShipmentSourceStatus :
  GuardOnly (requireIndependentReplacementHandoff command transitionShipmentId cancellationRace cancellationRaceShipmentSourceStatus).
Proof. cbv beta delta [requireIndependentReplacementHandoff]. guard_only. Qed.

#[export] Instance guard_only_requireAtomicCompleteReplacementHandoff lifecycle command selectedShipmentId cancellationRace cancellationRaceShipmentSourceStatus :
  GuardOnly (requireAtomicCompleteReplacementHandoff lifecycle command selectedShipmentId cancellationRace cancellationRaceShipmentSourceStatus).
Proof. cbv beta delta [requireAtomicCompleteReplacementHandoff]. guard_only. Qed.

#[export] Instance guard_only_requireExactReplacementRecoveryCancellation command :
  GuardOnly (requireExactReplacementRecoveryCancellation command).
Proof. cbv beta delta [requireExactReplacementRecoveryCancellation]. guard_only. Qed.
