(* ===== verification/ClaimSlots.v ===== *)
(** The lifecycle of a claim's slot resolution (lifecycle/policies.ts): the
    reshipment and refund remedies, the delivery and incidents of a remedy, and
    the policy, which also runs the guards of claims and replacements. *)
From S2P Require Import Prelude Text Primitives Values Transition Guards Lifecycles Claims Replacements.

Import Transition.

(** ** Guards *)

Definition requireExactReshipmentSetup (command : TransitionCommand) : result () :=
  let context_ := context command in
  let claimId := context_ ?. "claimId" in
  let resolutionId := context_ ?. "claimSlotResolutionId" in
  let slotId := context_ ?. "claimSlotId" in
  let orderId := context_ ?. "orderId" in
  let phaseId := context_ ?. "phaseId" in
  let originalShipmentId := context_ ?. "shipmentId" in
  let expectedClaimId := context_ ?. "reshipmentSetupExpectedClaimId" in
  let expectedResolutionId := context_ ?. "reshipmentSetupExpectedResolutionId" in
  let expectedSlotId := context_ ?. "reshipmentSetupExpectedSlotId" in
  let expectedOrderId := context_ ?. "reshipmentSetupExpectedOrderId" in
  let expectedPhaseId := context_ ?. "reshipmentSetupExpectedPhaseId" in
  let expectedOriginalShipmentId := context_ ?. "reshipmentSetupExpectedOriginalShipmentId" in
  let newShipmentId := context_ ?. "reshipmentShipmentId" in
  let authorizationId := context_ ?. "reshipmentAuthorizationId" in
  let setupResultId := context_ ?. "reshipmentSetupResultId" in
  let previousResolutionResultId := context_ ?. "reshipmentSetupPreviousResolutionResultId" in
  let stateKey := context_ ?. "reshipmentSetupCurrentStateCommandKey" in
  let expectedResolutionValue := context_ ?. "reshipmentSetupExpectedResolution" in
  let expectedResolution := record expectedResolutionValue in
  let allocationId := context_ ?. "reshipmentSetupAllocationId" in
  let shipmentStatus := context_ ?. "shipmentStatus" in
  let custodyConfirmedAt := context_ ?. "reshipmentSetupCustodyConfirmedAt" in
  let freshQcPassedAt := context_ ?. "reshipmentSetupFreshQcPassedAt" in
  guard_when
    (negb (nonBlank claimId)
     || negb (nonBlank resolutionId)
     || negb (nonBlank slotId)
     || negb (nonBlank orderId)
     || negb (nonBlank phaseId)
     || negb (nonBlank originalShipmentId)
     || negb (nonBlank expectedClaimId)
     || (claimId !== expectedClaimId)
     || negb (nonBlank expectedResolutionId)
     || (resolutionId !== expectedResolutionId)
     || negb (nonBlank expectedSlotId)
     || (slotId !== expectedSlotId)
     || negb (nonBlank expectedOrderId)
     || (orderId !== expectedOrderId)
     || negb (nonBlank expectedPhaseId)
     || (phaseId !== expectedPhaseId)
     || negb (nonBlank expectedOriginalShipmentId)
     || (originalShipmentId !== expectedOriginalShipmentId)
     || negb (nonBlank newShipmentId)
     || (originalShipmentId === newShipmentId)
     || negb (nonBlank authorizationId)
     || negb (nonBlank setupResultId)
     || negb (nonBlank previousResolutionResultId)
     || negb (nonBlank stateKey)
     || (optional (aggregateId command) !== resolutionId)
     || negb (nonBlank (optional (currentStateResultId command)))
     || (optional (currentStateCommandKey command) !== stateKey)
     || (optional (currentStateResultId command) !== previousResolutionResultId)
     || (expectedResolution ?. "id" !== resolutionId)
     || (expectedResolution ?. "claimId" !== claimId)
     || (expectedResolution ?. "slotId" !== slotId)
     || (expectedResolution ?. "orderId" !== orderId)
     || (expectedResolution ?. "phaseId" !== phaseId)
     || (expectedResolution ?. "status" !== Str (current command))
     || (expectedResolution ?. "resultId" !== previousResolutionResultId)
     || (expectedResolution ?. "currentStateCommandKey" !== stateKey)
     || (expectedResolution ?. "immutable" !== Bool true)
     || negb (nonBlank allocationId)
     || ((shipmentStatus !== lit "returned") && (shipmentStatus !== lit "recovered"))
     || negb (is_instant custodyConfirmedAt)
     || negb (is_instant freshQcPassedAt)
     || (compareV freshQcPassedAt custodyConfirmedAt <=? 0)
     || (context_ ?. "reshipmentSetupClaimId" !== claimId)
     || (context_ ?. "reshipmentSetupResolutionId" !== resolutionId)
     || (context_ ?. "reshipmentSetupSlotId" !== slotId)
     || (context_ ?. "reshipmentSetupOrderId" !== orderId)
     || (context_ ?. "reshipmentSetupPhaseId" !== phaseId)
     || (context_ ?. "reshipmentSetupResolutionPreviousStatus" !== Str (current command))
     || (context_ ?. "reshipmentSetupResolutionTargetStatus" !== lit "reship_pending")
     || (context_ ?. "reshipmentSetupOriginalShipmentId" !== originalShipmentId)
     || (context_ ?. "reshipmentSetupOriginalShipmentClaimId" !== claimId)
     || (context_ ?. "reshipmentSetupOriginalShipmentResolutionId" !== resolutionId)
     || (context_ ?. "reshipmentSetupOriginalShipmentSlotId" !== slotId)
     || (context_ ?. "reshipmentSetupOriginalShipmentOrderId" !== orderId)
     || (context_ ?. "reshipmentSetupOriginalShipmentPhaseId" !== phaseId)
     || (context_ ?. "reshipmentSetupOriginalShipmentStatus" !== shipmentStatus)
     || (context_ ?. "reshipmentSetupOriginalShipmentCurrentLineageLeaf" !== Bool true)
     || (context_ ?. "reshipmentSetupOriginalShipmentAllocationId" !== allocationId)
     || (context_ ?. "reshipmentSetupCustodyShipmentId" !== originalShipmentId)
     || (context_ ?. "reshipmentSetupCustodyClaimId" !== claimId)
     || (context_ ?. "reshipmentSetupCustodyResolutionId" !== resolutionId)
     || (context_ ?. "reshipmentSetupCustodyStatus" !== shipmentStatus)
     || (context_ ?. "reshipmentSetupQcShipmentId" !== originalShipmentId)
     || (context_ ?. "reshipmentSetupQcClaimId" !== claimId)
     || (context_ ?. "reshipmentSetupQcResolutionId" !== resolutionId)
     || (context_ ?. "reshipmentSetupNewShipmentId" !== newShipmentId)
     || (context_ ?. "reshipmentSetupNewShipmentClaimId" !== claimId)
     || (context_ ?. "reshipmentSetupNewShipmentResolutionId" !== resolutionId)
     || (context_ ?. "reshipmentSetupNewShipmentSlotId" !== slotId)
     || (context_ ?. "reshipmentSetupNewShipmentOrderId" !== orderId)
     || (context_ ?. "reshipmentSetupNewShipmentPhaseId" !== phaseId)
     || (context_ ?. "reshipmentSetupNewShipmentReplacesShipmentId" !== originalShipmentId)
     || (context_ ?. "reshipmentSetupNewShipmentAllocationId" !== allocationId)
     || (context_ ?. "reshipmentSetupNewShipmentOriginClaimId" !== claimId)
     || (context_ ?. "reshipmentSetupNewShipmentStatus" !== lit "planned")
     || (context_ ?. "reshipmentSetupNewShipmentCurrentLineageLeaf" !== Bool true)
     || (context_ ?. "reshipmentSetupAuthorizationId" !== authorizationId)
     || (context_ ?. "reshipmentCustodyAuthorizationId" !== authorizationId)
     || (context_ ?. "reshipmentSetupAuthorizationClaimId" !== claimId)
     || (context_ ?. "reshipmentSetupAuthorizationResolutionId" !== resolutionId)
     || (context_ ?. "reshipmentSetupAuthorizationSlotId" !== slotId)
     || (context_ ?. "reshipmentSetupAuthorizationOrderId" !== orderId)
     || (context_ ?. "reshipmentSetupAuthorizationPhaseId" !== phaseId)
     || (context_ ?. "reshipmentSetupAuthorizationOriginalShipmentId" !== originalShipmentId)
     || (context_ ?. "reshipmentSetupAuthorizationNewShipmentId" !== newShipmentId)
     || (context_ ?. "reshipmentSetupAuthorizationStatus" !== lit "issued")
     || (context_ ?. "reshipmentSetupAuthorizationAmountDueMinor" !== BigIntV 0)
     || (context_ ?. "reshipmentSetupAuthorizationResultId" !== setupResultId)
     || (context_ ?. "reshipmentSetupResolutionResultId" !== setupResultId)
     || (context_ ?. "reshipmentSetupNewShipmentResultId" !== setupResultId)
     || (context_ ?. "reshipmentSetupCustodyResultId" !== setupResultId)
     || (context_ ?. "reshipmentSetupQcResultId" !== setupResultId)) ;;
  requireFlag command "custodyConfirmed" ;;
  requireFlag command "freshQcPassed" ;;
  requireFlag command "reshipmentAuthorizationCreated" ;;
  requireFlag command "reshipmentAuthorizationSetupAtomic".

Definition requireExactReshipmentHandoff (lifecycle : jstr) (command : TransitionCommand)
    (selectedShipmentId : value) (cancellationRace : bool)
    (cancellationRaceShipmentSourceStatus : value) : result () :=
  let context_ := context command in
  let claimId := context_ ?. "claimId" in
  let resolutionId := context_ ?. "claimSlotResolutionId" in
  let slotId := context_ ?. "claimSlotId" in
  let orderId := context_ ?. "orderId" in
  let phaseId := context_ ?. "phaseId" in
  let currentShipmentId := context_ ?. "shipmentId" in
  let originalShipmentId := context_ ?. "reshipmentOriginalShipmentId" in
  let newShipmentId := context_ ?. "reshipmentShipmentId" in
  let authorizationId := context_ ?. "reshipmentAuthorizationId" in
  let consumedAuthorizationId := context_ ?. "reshipmentConsumedAuthorizationId" in
  let originalJobId := context_ ?. "reshipmentOriginalJobId" in
  let originalJobStatus := context_ ?. "reshipmentHandoffOriginalJobPreviousStatus" in
  let resultId := context_ ?. "reshipmentHandoffResultId" in
  let previousResolutionResultId := context_ ?. "reshipmentHandoffPreviousResolutionResultId" in
  let stateKey := context_ ?. "reshipmentHandoffCurrentStateCommandKey" in
  let expectedResolutionValue := context_ ?. "reshipmentHandoffExpectedResolution" in
  let expectedResolution := record expectedResolutionValue in
  guard_when
    (negb (nonBlank claimId)
     || negb (nonBlank resolutionId)
     || negb (nonBlank slotId)
     || negb (nonBlank orderId)
     || negb (nonBlank phaseId)
     || negb (nonBlank currentShipmentId)
     || negb (nonBlank originalShipmentId)
     || negb (nonBlank newShipmentId)
     || (originalShipmentId === newShipmentId)
     || negb (nonBlank authorizationId)
     || negb (nonBlank consumedAuthorizationId)
     || (authorizationId !== consumedAuthorizationId)
     || negb (nonBlank originalJobId)
     || negb (nonBlank resultId)
     || (if selectedShipmentId === Undefined
         then currentShipmentId !== originalShipmentId
         else (currentShipmentId !== selectedShipmentId)
              || (selectedShipmentId !== newShipmentId))
     || (context_ ?. "reshipmentHandoffClaimResultId" !== resultId)
     || (context_ ?. "reshipmentHandoffResolutionResultId" !== resultId)
     || (context_ ?. "reshipmentHandoffAuthorizationResultId" !== resultId)
     || (context_ ?. "reshipmentHandoffShipmentResultId" !== resultId)
     || (context_ ?. "reshipmentHandoffOriginalJobResultId" !== resultId)
     || (context_ ?. "reshipmentResolutionClaimId" !== claimId)
     || (context_ ?. "reshipmentResolutionId" !== resolutionId)
     || (context_ ?. "reshipmentResolutionSlotId" !== slotId)
     || (context_ ?. "reshipmentResolutionOrderId" !== orderId)
     || (context_ ?. "reshipmentResolutionPhaseId" !== phaseId)
     || (context_ ?. "reshipmentResolutionPreviousStatus" !== lit "reship_pending")
     || (context_ ?. "reshipmentResolutionTargetStatus" !== lit "reship_shipped")
     || (context_ ?. "reshipmentOriginalShipmentId" !== originalShipmentId)
     || (context_ ?. "reshipmentOriginalShipmentClaimId" !== claimId)
     || (context_ ?. "reshipmentOriginalShipmentResolutionId" !== resolutionId)
     || (context_ ?. "reshipmentOriginalShipmentSlotId" !== slotId)
     || (context_ ?. "reshipmentOriginalShipmentOrderId" !== orderId)
     || (context_ ?. "reshipmentOriginalShipmentPhaseId" !== phaseId)
     || (context_ ?. "reshipmentNewShipmentId" !== newShipmentId)
     || (context_ ?. "reshipmentNewShipmentClaimId" !== claimId)
     || (context_ ?. "reshipmentNewShipmentResolutionId" !== resolutionId)
     || (context_ ?. "reshipmentNewShipmentSlotId" !== slotId)
     || (context_ ?. "reshipmentNewShipmentOrderId" !== orderId)
     || (context_ ?. "reshipmentNewShipmentPhaseId" !== phaseId)
     || (context_ ?. "reshipmentAuthorizationClaimId" !== claimId)
     || (context_ ?. "reshipmentAuthorizationResolutionId" !== resolutionId)
     || (context_ ?. "reshipmentAuthorizationSlotId" !== slotId)
     || (context_ ?. "reshipmentAuthorizationOrderId" !== orderId)
     || (context_ ?. "reshipmentAuthorizationPhaseId" !== phaseId)
     || (context_ ?. "reshipmentAuthorizationOriginalShipmentId" !== originalShipmentId)
     || (context_ ?. "reshipmentAuthorizationNewShipmentId" !== newShipmentId)
     || (context_ ?. "reshipmentCustodyAuthorizationId" !== authorizationId)
     || (context_ ?. "reshipmentConsumedAuthorizationClaimId" !== claimId)
     || (context_ ?. "reshipmentConsumedAuthorizationResolutionId" !== resolutionId)
     || (context_ ?. "reshipmentConsumedAuthorizationSlotId" !== slotId)
     || (context_ ?. "reshipmentConsumedAuthorizationOriginalShipmentId" !== originalShipmentId)
     || (context_ ?. "reshipmentConsumedAuthorizationNewShipmentId" !== newShipmentId)
     || (context_ ?. "reshipmentConsumedAuthorizationId" !== authorizationId)
     || (context_ ?. "reshipmentAuthorizationStatusBefore" !== lit "issued")
     || (context_ ?. "reshipmentAuthorizationStatusAfter" !== lit "consumed")
     || (context_ ?. "reshipmentHandoffClaimId" !== claimId)
     || (context_ ?. "reshipmentHandoffResolutionId" !== resolutionId)
     || (context_ ?. "reshipmentHandoffSlotId" !== slotId)
     || (context_ ?. "reshipmentHandoffOrderId" !== orderId)
     || (context_ ?. "reshipmentHandoffPhaseId" !== phaseId)
     || (context_ ?. "reshipmentHandoffOriginalShipmentId" !== originalShipmentId)
     || (context_ ?. "reshipmentHandoffNewShipmentId" !== newShipmentId)
     || (context_ ?. "reshipmentHandoffAuthorizationId" !== authorizationId)
     || (context_ ?. "reshipmentHandoffShipmentId" !== newShipmentId)
     || (context_ ?. "reshipmentHandoffShipmentPreviousStatus"
           !== if cancellationRace
               then cancellationRaceShipmentSourceStatus
               else lit "label_created")
     || (context_ ?. "reshipmentHandoffShipmentTargetStatus" !== lit "handed_over")
     || (context_ ?. "reshipmentHandoffOriginalJobId" !== originalJobId)
     || (context_ ?. "reshipmentHandoffOriginalJobShipmentId" !== originalShipmentId)
     || (context_ ?. "reshipmentHandoffOriginalJobClaimId" !== claimId)
     || (context_ ?. "reshipmentHandoffOriginalJobResolutionId" !== resolutionId)
     || (context_ ?. "reshipmentHandoffOriginalJobSlotId" !== slotId)
     || (context_ ?. "reshipmentHandoffOriginalJobOrderId" !== orderId)
     || (context_ ?. "reshipmentHandoffOriginalJobPhaseId" !== phaseId)
     || ((originalJobStatus !== lit "handed_over") && (originalJobStatus !== lit "settled"))
     || (context_ ?. "reshipmentHandoffOriginalJobTargetStatus" !== originalJobStatus)
     || (context_ ?. "reshipmentHandoffOriginalJobTransitioned" !== Bool false)
     || (context_ ?. "reshipmentHandoffShipmentOnly" !== Bool true)
     || (context_ ?. "reshipmentHandoffAtomic" !== Bool true)) ;;
  when (negb cancellationRace && str_eqb lifecycle (js "ClaimSlotResolution"))
    (guard_when
       (negb (nonBlank previousResolutionResultId)
        || negb (nonBlank stateKey)
        || (optional (aggregateId command) !== resolutionId)
        || (optional (currentStateResultId command) !== previousResolutionResultId)
        || (optional (currentStateCommandKey command) !== stateKey)
        || (expectedResolution ?. "id" !== resolutionId)
        || (expectedResolution ?. "claimId" !== claimId)
        || (expectedResolution ?. "slotId" !== slotId)
        || (expectedResolution ?. "orderId" !== orderId)
        || (expectedResolution ?. "phaseId" !== phaseId)
        || (expectedResolution ?. "status" !== lit "reship_pending")
        || (expectedResolution ?. "resultId" !== previousResolutionResultId)
        || (expectedResolution ?. "currentStateCommandKey" !== stateKey)
        || (expectedResolution ?. "immutable" !== Bool true))).

Definition requireExactClaimRefundScope (command : TransitionCommand) : result () :=
  let context_ := context command in
  let claimId := context_ ?. "claimId" in
  let resolutionId := context_ ?. "claimSlotResolutionId" in
  let slotId := context_ ?. "claimSlotId" in
  let orderId := context_ ?. "orderId" in
  let phaseId := context_ ?. "phaseId" in
  let paymentId := context_ ?. "paymentId" in
  let priceAdjustmentId := context_ ?. "priceAdjustmentId" in
  let refundTransactionId := context_ ?. "refundTransactionId" in
  let allocationId := context_ ?. "claimRefundAllocationId" in
  let amountMinor := context_ ?. "claimRefundAmountMinor" in
  let scopeId := context_ ?. "claimRefundScopeId" in
  let setupPreviousResultId := context_ ?. "claimRefundSetupPreviousResolutionResultId" in
  let setupStateKey := context_ ?. "claimRefundSetupCurrentStateCommandKey" in
  let setupExpectedValue := context_ ?. "claimRefundSetupExpectedResolution" in
  let setupExpected := record setupExpectedValue in
  let expectedResolutionIdsValue := context_ ?. "claimRefundScopeResolutionIds" in
  let expectedSlotIdsValue := context_ ?. "claimRefundScopeSlotIds" in
  let expectedBindingsValue := context_ ?. "claimRefundScopeResolutionSlots" in
  let allResolutionIdsValue := context_ ?. "claimRefundScopeAllResolutionIds" in
  let allSlotIdsValue := context_ ?. "claimRefundScopeAllSlotIds" in
  let allBindingsValue := context_ ?. "claimRefundScopeAllResolutionSlots" in
  let operationsValue := context_ ?. "claimRefundScopeChildOperations" in
  let childrenValue := context_ ?. "claimRefundScopeChildren" in
  let expectedResolutionIds := array expectedResolutionIdsValue in
  let expectedSlotIds := array expectedSlotIdsValue in
  let expectedBindings := array expectedBindingsValue in
  let allResolutionIds := array allResolutionIdsValue in
  let allSlotIds := array allSlotIdsValue in
  let allBindings := array allBindingsValue in
  let operations := array operationsValue in
  let children := array childrenValue in
  let validIdSet := λ (value_ : value),
    (value_ !== Undefined)
    && (0 <? js_len value_)
    && forallb (λ id, nonBlank id) (elements value_)
    && (zlength (set_of (elements value_)) =? js_len value_) in
  guard_when
    (negb (nonBlank claimId)
     || negb (nonBlank resolutionId)
     || negb (nonBlank slotId)
     || negb (nonBlank orderId)
     || negb (nonBlank phaseId)
     || negb (nonBlank paymentId)
     || negb (nonBlank priceAdjustmentId)
     || negb (nonBlank refundTransactionId)
     || negb (nonBlank allocationId)
     || negb (is_bigint amountMinor)
     || js_le amountMinor (BigIntV 0)
     || negb (nonBlank scopeId)
     || negb (nonBlank setupPreviousResultId)
     || negb (nonBlank setupStateKey)
     || (optional (aggregateId command) !== resolutionId)
     || (optional (currentStateResultId command) !== setupPreviousResultId)
     || (optional (currentStateCommandKey command) !== setupStateKey)
     || (setupExpected ?. "id" !== resolutionId)
     || (setupExpected ?. "claimId" !== claimId)
     || (setupExpected ?. "slotId" !== slotId)
     || (setupExpected ?. "orderId" !== orderId)
     || (setupExpected ?. "phaseId" !== phaseId)
     || (setupExpected ?. "status" !== Str (current command))
     || (setupExpected ?. "resultId" !== setupPreviousResultId)
     || (setupExpected ?. "currentStateCommandKey" !== setupStateKey)
     || (setupExpected ?. "immutable" !== Bool true)
     || (context_ ?. "claimRefundScopeClaimId" !== claimId)
     || (context_ ?. "claimRefundScopeOrderId" !== orderId)
     || (context_ ?. "claimRefundScopePhaseId" !== phaseId)
     || (context_ ?. "claimRefundScopePriceAdjustmentId" !== priceAdjustmentId)
     || (context_ ?. "claimRefundResolutionId" !== resolutionId)
     || (context_ ?. "claimRefundSlotId" !== slotId)
     || (context_ ?. "claimRefundPaymentId" !== paymentId)
     || (context_ ?. "claimRefundPriceAdjustmentId" !== priceAdjustmentId)
     || (context_ ?. "claimRefundTransactionId" !== refundTransactionId)
     || (context_ ?. "claimRefundExpectedAmountMinor" !== amountMinor)
     || (context_ ?. "claimRefundPriceAdjustmentScopeId" !== scopeId)
     || (context_ ?. "claimRefundPriceAdjustmentOrderId" !== orderId)
     || (context_ ?. "claimRefundPriceAdjustmentStatus" !== lit "active")
     || (context_ ?. "claimRefundTransactionPaymentId" !== paymentId)
     || (context_ ?. "claimRefundTransactionOrderId" !== orderId)
     || (context_ ?. "claimRefundTransactionPriceAdjustmentId" !== priceAdjustmentId)
     || (context_ ?. "claimRefundTransactionAmountMinor" !== amountMinor)
     || negb (validIdSet expectedResolutionIds)
     || negb (validIdSet expectedSlotIds)
     || (expectedBindings === Undefined)
     || negb (js_len expectedBindings =? js_len expectedResolutionIds)
     || negb (validIdSet allResolutionIds)
     || negb (validIdSet allSlotIds)
     || (allBindings === Undefined)
     || negb (js_len allBindings =? js_len allResolutionIds)
     || (operations === Undefined)
     || negb (js_len operations =? js_len expectedResolutionIds)
     || negb (js_len expectedResolutionIds =? js_len expectedSlotIds)
     || negb (js_len allResolutionIds =? js_len allSlotIds)
     || (Integral (js_len allResolutionIds) !== lengthV children)
     || negb (includes (elements allResolutionIds) resolutionId)
     || negb (includes (elements expectedResolutionIds) resolutionId)
     || (context_ ?. "claimRefundScopeComplete" !== Bool true)
     || (context_ ?. "claimRefundScopeAtomic" !== Bool true)) ;;
  let targetResolutionIds := set_of (elements expectedResolutionIds) in
  let targetSlotIds := set_of (elements expectedSlotIds) in
  let expectedSlotByResolution : list (value * value) := [] in
  let expectedBoundSlotIds : list value := [] in
  '(expectedSlotByResolution, expectedBoundSlotIds) ←
    foldM (λ '(expectedSlotByResolution, expectedBoundSlotIds) value_,
    guard_when (negb (is_record value_)) ;;
    let binding := value_ in
    let bindingResolutionId := binding ?. "resolutionId" in
    let bindingSlotId := binding ?. "slotId" in
    guard_when
      (negb (is_string bindingResolutionId)
       || negb (set_has targetResolutionIds bindingResolutionId)
       || map_has expectedSlotByResolution bindingResolutionId
       || negb (is_string bindingSlotId)
       || negb (set_has targetSlotIds bindingSlotId)
       || set_has expectedBoundSlotIds bindingSlotId) ;;
    let expectedSlotByResolution :=
      map_set expectedSlotByResolution bindingResolutionId bindingSlotId in
    let expectedBoundSlotIds := set_add expectedBoundSlotIds bindingSlotId in
    Ok (expectedSlotByResolution, expectedBoundSlotIds))
      (expectedSlotByResolution, expectedBoundSlotIds) (elements expectedBindings);
  guard_when
    (existsb (λ id, negb (map_has expectedSlotByResolution id)) (elements expectedResolutionIds)
     || existsb (λ id, negb (set_has expectedBoundSlotIds id)) (elements expectedSlotIds)) ;;
  let authoritativeSlotByResolution : list (value * value) := [] in
  let authoritativeBoundSlotIds : list value := [] in
  '(authoritativeSlotByResolution, authoritativeBoundSlotIds) ←
    foldM (λ '(authoritativeSlotByResolution, authoritativeBoundSlotIds) value_,
    guard_when (negb (is_record value_)) ;;
    let binding := value_ in
    let bindingResolutionId := binding ?. "resolutionId" in
    let bindingSlotId := binding ?. "slotId" in
    guard_when
      (negb (is_string bindingResolutionId)
       || negb (includes (elements allResolutionIds) bindingResolutionId)
       || map_has authoritativeSlotByResolution bindingResolutionId
       || negb (is_string bindingSlotId)
       || negb (includes (elements allSlotIds) bindingSlotId)
       || set_has authoritativeBoundSlotIds bindingSlotId) ;;
    let authoritativeSlotByResolution :=
      map_set authoritativeSlotByResolution bindingResolutionId bindingSlotId in
    let authoritativeBoundSlotIds := set_add authoritativeBoundSlotIds bindingSlotId in
    Ok (authoritativeSlotByResolution, authoritativeBoundSlotIds))
      (authoritativeSlotByResolution, authoritativeBoundSlotIds) (elements allBindings);
  guard_when
    (existsb (λ id, negb (map_has authoritativeSlotByResolution id)) (elements allResolutionIds)
     || existsb (λ id, negb (set_has authoritativeBoundSlotIds id)) (elements allSlotIds)
     || existsb (λ id,
            map_get authoritativeSlotByResolution id !== map_get expectedSlotByResolution id)
          (elements expectedResolutionIds)) ;;
  let operationByResolution : list (value * value) := [] in
  let operationSlotIds : list value := [] in
  let operationAllocationIds : list value := [] in
  let operationRefundTransactionIds : list value := [] in
  '(operationByResolution, operationSlotIds, operationAllocationIds, operationRefundTransactionIds) ←
    foldM
      (λ '(operationByResolution, operationSlotIds, operationAllocationIds,
           operationRefundTransactionIds) value_,
    guard_when (negb (is_record value_)) ;;
    let operation := value_ in
    let operationResolutionId := operation ?. "resolutionId" in
    let operationSlotId := operation ?. "slotId" in
    let operationPaymentId := operation ?. "paymentId" in
    let operationAllocationId := operation ?. "allocationId" in
    let operationRefundTransactionId := operation ?. "refundTransactionId" in
    let operationAmountMinor := operation ?. "amountMinor" in
    guard_when
      (negb (is_string operationResolutionId)
       || negb (set_has targetResolutionIds operationResolutionId)
       || map_has operationByResolution operationResolutionId
       || negb (is_string operationSlotId)
       || (map_get expectedSlotByResolution operationResolutionId !== operationSlotId)
       || set_has operationSlotIds operationSlotId
       || negb (nonBlank operationPaymentId)
       || (operation ?. "priceAdjustmentId" !== priceAdjustmentId)
       || negb (nonBlank operationAllocationId)
       || set_has operationAllocationIds operationAllocationId
       || negb (nonBlank operationRefundTransactionId)
       || set_has operationRefundTransactionIds operationRefundTransactionId
       || negb (is_bigint operationAmountMinor)
       || js_le operationAmountMinor (BigIntV 0)) ;;
    let operationByResolution := map_set operationByResolution operationResolutionId operation in
    let operationSlotIds := set_add operationSlotIds operationSlotId in
    let operationAllocationIds := set_add operationAllocationIds operationAllocationId in
    let operationRefundTransactionIds :=
      set_add operationRefundTransactionIds operationRefundTransactionId in
    Ok
      (operationByResolution, operationSlotIds, operationAllocationIds,
       operationRefundTransactionIds))
      (operationByResolution, operationSlotIds, operationAllocationIds,
       operationRefundTransactionIds) (elements operations);
  guard_when
    (existsb (λ id, negb (map_has operationByResolution id)) (elements expectedResolutionIds)
     || existsb (λ id, negb (set_has operationSlotIds id)) (elements expectedSlotIds)) ;;
  let projectedResolutionIds : list value := [] in
  let projectedSlotIds : list value := [] in
  let projectedRefundTransactionIds : list value := [] in
  let scopeAmountMinor := BigIntV 0 in
  let includedCount := 0 in
  '(projectedResolutionIds, projectedSlotIds, projectedRefundTransactionIds, scopeAmountMinor, includedCount) ←
    foldM
      (λ '(projectedResolutionIds, projectedSlotIds, projectedRefundTransactionIds,
           scopeAmountMinor, includedCount) value_,
    guard_when (negb (is_record value_)) ;;
    let child := value_ in
    let childResolutionId := child ?. "resolutionId" in
    let childSlotId := child ?. "slotId" in
    let includedInRefund := child ?. "includedInRefund" in
    let statusBefore := child ?. "statusBefore" in
    let statusAfter := child ?. "statusAfter" in
    guard_when
      (negb (nonBlank childResolutionId)
       || set_has projectedResolutionIds childResolutionId
       || negb (includes (elements allResolutionIds) childResolutionId)
       || negb (nonBlank childSlotId)
       || set_has projectedSlotIds childSlotId
       || negb (includes (elements allSlotIds) childSlotId)
       || (child ?. "claimId" !== claimId)
       || (child ?. "orderId" !== orderId)
       || (child ?. "phaseId" !== phaseId)
       || (map_get authoritativeSlotByResolution childResolutionId !== childSlotId)
       || (truthy includedInRefund
           && (map_get expectedSlotByResolution childResolutionId !== childSlotId))
       || negb (is_boolean includedInRefund)
       || negb (is_string statusBefore)
       || negb (is_string statusAfter)
       || (if truthy includedInRefund
           then negb (set_has targetResolutionIds childResolutionId)
                || negb (set_has targetSlotIds childSlotId)
                || (statusAfter !== lit "refund_pending")
                || negb
                     (includes
                        [lit "pending"; lit "reship_pending"; lit "reprint_pending";
                         lit "replacement_in_production"; lit "recovery_pending"] statusBefore)
           else (statusAfter !== statusBefore)
                || set_has targetResolutionIds childResolutionId)) ;;
    let projectedResolutionIds := set_add projectedResolutionIds childResolutionId in
    let projectedSlotIds := set_add projectedSlotIds childSlotId in
    if negb (truthy includedInRefund) then
      Ok
        (projectedResolutionIds, projectedSlotIds, projectedRefundTransactionIds,
         scopeAmountMinor, includedCount)
    else
    let childPaymentId := child ?. "paymentId" in
    let childPriceAdjustmentId := child ?. "priceAdjustmentId" in
    let childAllocationId := child ?. "allocationId" in
    let childRefundTransactionId := child ?. "refundTransactionId" in
    let childAmountMinor := child ?. "amountMinor" in
    let operation := map_get operationByResolution childResolutionId in
    guard_when
      ((operation === Undefined)
       || negb (nonBlank childPaymentId)
       || (childPriceAdjustmentId !== priceAdjustmentId)
       || negb (nonBlank childAllocationId)
       || negb (nonBlank childRefundTransactionId)
       || set_has projectedRefundTransactionIds childRefundTransactionId
       || negb (is_bigint childAmountMinor)
       || js_le childAmountMinor (BigIntV 0)
       || (operation ?. "slotId" !== childSlotId)
       || (operation ?. "paymentId" !== childPaymentId)
       || (operation ?. "priceAdjustmentId" !== childPriceAdjustmentId)
       || (operation ?. "allocationId" !== childAllocationId)
       || (operation ?. "refundTransactionId" !== childRefundTransactionId)
       || (operation ?. "amountMinor" !== childAmountMinor)) ;;
    let projectedRefundTransactionIds :=
      set_add projectedRefundTransactionIds childRefundTransactionId in
    let scopeAmountMinor := js_add scopeAmountMinor childAmountMinor in
    let includedCount := includedCount + 1 in
    guard_when
      ((childResolutionId === resolutionId)
       && ((childSlotId !== slotId)
           || (childPaymentId !== paymentId)
           || (childAllocationId !== allocationId)
           || (childRefundTransactionId !== refundTransactionId)
           || (childAmountMinor !== amountMinor)
           || (statusBefore !== Str (current command)))) ;;
    Ok
      (projectedResolutionIds, projectedSlotIds, projectedRefundTransactionIds, scopeAmountMinor,
       includedCount))
      (projectedResolutionIds, projectedSlotIds, projectedRefundTransactionIds, scopeAmountMinor,
       includedCount) (elements children);
  guard_when
    (negb (zlength projectedResolutionIds =? js_len allResolutionIds)
     || negb (zlength projectedSlotIds =? js_len allSlotIds)
     || negb (includedCount =? js_len expectedResolutionIds)
     || existsb (λ id, negb (set_has projectedResolutionIds id)) (elements expectedResolutionIds)
     || existsb (λ id, negb (set_has projectedSlotIds id)) (elements expectedSlotIds)
     || (scopeAmountMinor !== context_ ?. "claimRefundScopeAmountMinor")
     || (context_ ?. "claimRefundPriceAdjustmentAmountMinor" !== scopeAmountMinor)).

Definition requireExactClaimRefundCompletion (command : TransitionCommand) : result () :=
  let context_ := context command in
  let resolutionId := context_ ?. "claimSlotResolutionId" in
  let claimId := context_ ?. "claimId" in
  let slotId := context_ ?. "claimSlotId" in
  let orderId := context_ ?. "orderId" in
  let phaseId := context_ ?. "phaseId" in
  let paymentId := context_ ?. "paymentId" in
  let refundTransactionId := context_ ?. "refundTransactionId" in
  let providerEventId := context_ ?. "refundProviderEventId" in
  let refundAmountMinor := context_ ?. "refundWebhookAmountMinor" in
  let previousResultId := context_ ?. "claimRefundPreviousResolutionResultId" in
  let resultId := context_ ?. "claimRefundCompletionResultId" in
  let stateKey := context_ ?. "claimRefundCurrentStateCommandKey" in
  let currentStateResultId_ := optional (currentStateResultId command) in
  let expectedValue := context_ ?. "claimRefundExpectedResolution" in
  let expected := record expectedValue in
  let transactionValue := context_ ?. "claimRefundCompletionTransaction" in
  let transaction := record transactionValue in
  let eventValue := context_ ?. "claimRefundCompletionProviderEvent" in
  let event := record eventValue in
  guard_when
    (negb (nonBlank resolutionId)
     || negb (nonBlank claimId)
     || negb (nonBlank slotId)
     || negb (nonBlank orderId)
     || negb (nonBlank phaseId)
     || negb (nonBlank paymentId)
     || negb (nonBlank refundTransactionId)
     || negb (nonBlank providerEventId)
     || negb (nonBlank previousResultId)
     || negb (nonBlank resultId)
     || negb (nonBlank stateKey)
     || (optional (aggregateId command) !== resolutionId)
     || (currentStateResultId_ !== previousResultId)
     || (optional (currentStateCommandKey command) !== stateKey)
     || (context_ ?. "claimRefundResolutionId" !== resolutionId)
     || (context_ ?. "claimRefundClaimId" !== claimId)
     || (context_ ?. "claimRefundSlotId" !== slotId)
     || (context_ ?. "claimRefundPaymentId" !== paymentId)
     || (context_ ?. "refundWebhookPaymentId" !== paymentId)
     || (context_ ?. "claimRefundTransactionId" !== refundTransactionId)
     || (context_ ?. "refundWebhookRefundTransactionId" !== refundTransactionId)
     || (context_ ?. "claimRefundProviderEventId" !== providerEventId)
     || negb (is_bigint refundAmountMinor)
     || js_le refundAmountMinor (BigIntV 0)
     || (context_ ?. "claimRefundExpectedAmountMinor" !== refundAmountMinor)
     || (expected ?. "id" !== resolutionId)
     || (expected ?. "claimId" !== claimId)
     || (expected ?. "slotId" !== slotId)
     || (expected ?. "orderId" !== orderId)
     || (expected ?. "phaseId" !== phaseId)
     || (expected ?. "status" !== lit "refund_pending")
     || (expected ?. "activeClaimId" !== claimId)
     || (expected ?. "paymentId" !== paymentId)
     || (expected ?. "refundTransactionId" !== refundTransactionId)
     || (expected ?. "amountMinor" !== refundAmountMinor)
     || (expected ?. "resultId" !== previousResultId)
     || (expected ?. "currentStateCommandKey" !== stateKey)
     || (expected ?. "immutable" !== Bool true)
     || (transaction ?. "id" !== refundTransactionId)
     || (transaction ?. "resolutionId" !== resolutionId)
     || (transaction ?. "claimId" !== claimId)
     || (transaction ?. "slotId" !== slotId)
     || (transaction ?. "orderId" !== orderId)
     || (transaction ?. "phaseId" !== phaseId)
     || (transaction ?. "paymentId" !== paymentId)
     || (transaction ?. "amountMinor" !== refundAmountMinor)
     || (transaction ?. "status" !== lit "succeeded")
     || (transaction ?. "providerEventId" !== providerEventId)
     || (transaction ?. "resultId" !== resultId)
     || (transaction ?. "immutable" !== Bool true)
     || (event ?. "id" !== providerEventId)
     || (event ?. "resolutionId" !== resolutionId)
     || (event ?. "refundTransactionId" !== refundTransactionId)
     || (event ?. "paymentId" !== paymentId)
     || (event ?. "amountMinor" !== refundAmountMinor)
     || (event ?. "status" !== lit "succeeded")
     || (event ?. "projectedTarget" !== Str (target command))
     || (event ?. "authenticated" !== Bool true)
     || (event ?. "verified" !== Bool true)
     || (event ?. "resultId" !== resultId)
     || (event ?. "immutable" !== Bool true)
     || (context_ ?. "claimRefundCompletionResolutionResultId" !== resultId)
     || (context_ ?. "claimRefundCompletionTransactionResultId" !== resultId)
     || (context_ ?. "claimRefundCompletionProviderEventResultId" !== resultId)
     || (context_ ?. "claimRefundCompletionPaymentResultId" !== resultId)
     || (context_ ?. "claimRefundCompletionCompleted" !== Bool true)) ;;
  requireFlag command "refundWebhookAuthenticated" ;;
  requireFlag command "refundWebhookVerified" ;;
  guard_when
    (((context command) ?. "refundWebhookStatus" !== lit "succeeded")
     || ((context command) ?. "refundWebhookProjectedTarget" !== Str (target command))) ;;
  requireFlag command "scopedRefundTransactionSucceeded" ;;
  requireFlag command "refundPaymentWebhookVerified" ;;
  requireFlag command "claimRefundCompletionAtomic".

Definition requireVerifiedCurrentRemedyDelivery (command : TransitionCommand) : result () :=
  let context_ := context command in
  let claimId := context_ ?. "claimId" in
  let resolutionId := context_ ?. "claimSlotResolutionId" in
  let slotId := context_ ?. "claimSlotId" in
  let orderId := context_ ?. "orderId" in
  let phaseId := context_ ?. "phaseId" in
  let currentLeafId := context_ ?. "currentRemedyShipmentLineageLeafId" in
  let eventShipmentId := context_ ?. "providerEventShipmentId" in
  let providerEventId := context_ ?. "providerEventId" in
  let resultId := context_ ?. "remedyDeliveryResultId" in
  let previousResolutionResultId := context_ ?. "remedyDeliveryPreviousResolutionResultId" in
  let stateKey := context_ ?. "remedyDeliveryCurrentStateCommandKey" in
  let expectedResolutionValue := context_ ?. "remedyDeliveryExpectedResolution" in
  let expectedResolution := record expectedResolutionValue in
  let expectedKind :=
    if currentIs command "reship_shipped" && targetIs command "delivered_reship"
    then lit "reship"
    else if currentIs command "replacement_shipped" && targetIs command "delivered_reprint"
         then lit "reprint"
         else Undefined in
  guard_when
    ((expectedKind === Undefined)
     || negb (nonBlank claimId)
     || negb (nonBlank resolutionId)
     || negb (nonBlank slotId)
     || negb (nonBlank orderId)
     || negb (nonBlank phaseId)
     || negb (nonBlank currentLeafId)
     || negb (nonBlank providerEventId)
     || negb (nonBlank resultId)
     || negb (nonBlank previousResolutionResultId)
     || negb (nonBlank stateKey)
     || (optional (aggregateId command) !== resolutionId)
     || (optional (currentStateResultId command) !== previousResolutionResultId)
     || (optional (currentStateCommandKey command) !== stateKey)
     || (expectedResolution ?. "id" !== resolutionId)
     || (expectedResolution ?. "claimId" !== claimId)
     || (expectedResolution ?. "slotId" !== slotId)
     || (expectedResolution ?. "orderId" !== orderId)
     || (expectedResolution ?. "phaseId" !== phaseId)
     || (expectedResolution ?. "status" !== Str (current command))
     || (expectedResolution ?. "resultId" !== previousResolutionResultId)
     || (expectedResolution ?. "currentStateCommandKey" !== stateKey)
     || (expectedResolution ?. "immutable" !== Bool true)
     || (eventShipmentId !== currentLeafId)
     || (context_ ?. "remedyDeliveryKind" !== expectedKind)
     || (context_ ?. "remedyDeliveryClaimId" !== claimId)
     || (context_ ?. "remedyDeliveryResolutionId" !== resolutionId)
     || (context_ ?. "remedyDeliverySlotId" !== slotId)
     || (context_ ?. "remedyDeliveryOrderId" !== orderId)
     || (context_ ?. "remedyDeliveryPhaseId" !== phaseId)
     || (context_ ?. "remedyDeliveryResolutionPreviousStatus" !== Str (current command))
     || (context_ ?. "remedyDeliveryResolutionTargetStatus" !== Str (target command))
     || (context_ ?. "remedyDeliveryShipmentId" !== currentLeafId)
     || (context_ ?. "remedyDeliveryLineageLeafId" !== currentLeafId)
     || (context_ ?. "remedyDeliveryShipmentClaimId" !== claimId)
     || (context_ ?. "remedyDeliveryShipmentResolutionId" !== resolutionId)
     || (context_ ?. "remedyDeliveryShipmentSlotId" !== slotId)
     || (context_ ?. "remedyDeliveryShipmentOrderId" !== orderId)
     || (context_ ?. "remedyDeliveryShipmentPhaseId" !== phaseId)
     || (context_ ?. "remedyDeliveryCurrentLineageLeaf" !== Bool true)
     || (context_ ?. "remedyDeliveryShipmentPreviousStatus" !== lit "in_transit")
     || (context_ ?. "remedyDeliveryShipmentTargetStatus" !== lit "delivered")
     || (context_ ?. "remedyDeliveryProviderEventId" !== providerEventId)
     || (context_ ?. "remedyDeliveryProviderEventShipmentId" !== currentLeafId)
     || (context_ ?. "remedyDeliveryClaimResultId" !== resultId)
     || (context_ ?. "remedyDeliveryResolutionResultId" !== resultId)
     || (context_ ?. "remedyDeliveryShipmentResultId" !== resultId)
     || (context_ ?. "remedyDeliveryLineageResultId" !== resultId)
     || (context_ ?. "remedyDeliveryProviderEventResultId" !== resultId)
     || (context_ ?. "remedyDeliveryCompleted" !== Bool true)
     || (context_ ?. "remedyDeliveryAtomic" !== Bool true)) ;;
  guard_when (context_ ?. "currentRemedyShipmentLineageLeafStatus" !== lit "delivered") ;;
  requireFlag command "providerEventAuthenticated" ;;
  requireFlag command "providerEventVerified" ;;
  guard_when (context_ ?. "providerEventStatus" !== lit "delivered").

Definition requireVerifiedCurrentRemedyIncident (command : TransitionCommand) : result () :=
  let context_ := context command in
  let claimId := context_ ?. "claimId" in
  let resolutionId := context_ ?. "claimSlotResolutionId" in
  let slotId := context_ ?. "claimSlotId" in
  let orderId := context_ ?. "orderId" in
  let phaseId := context_ ?. "phaseId" in
  let currentLeafId := context_ ?. "currentRemedyShipmentLineageLeafId" in
  let eventShipmentId := context_ ?. "providerEventShipmentId" in
  let providerEventId := context_ ?. "providerEventId" in
  let providerTransactionId := context_ ?. "shipmentProviderTransactionId" in
  let resultId := context_ ?. "remedyIncidentResultId" in
  let previousResolutionResultId := context_ ?. "remedyIncidentPreviousResolutionResultId" in
  let stateKey := context_ ?. "remedyIncidentCurrentStateCommandKey" in
  let expectedResolutionValue := context_ ?. "remedyIncidentExpectedResolution" in
  let expectedResolution := record expectedResolutionValue in
  let eventStatus := context_ ?. "providerEventStatus" in
  let expectedKind :=
    if currentIs command "reship_shipped" && targetIs command "recovery_pending"
    then lit "reship"
    else if currentIs command "replacement_shipped" && targetIs command "recovery_pending"
         then lit "reprint"
         else Undefined in
  guard_when
    ((expectedKind === Undefined)
     || negb (nonBlank claimId)
     || negb (nonBlank resolutionId)
     || negb (nonBlank slotId)
     || negb (nonBlank orderId)
     || negb (nonBlank phaseId)
     || negb (nonBlank currentLeafId)
     || negb (nonBlank providerEventId)
     || negb (nonBlank providerTransactionId)
     || negb (nonBlank resultId)
     || negb (nonBlank previousResolutionResultId)
     || negb (nonBlank stateKey)
     || (optional (aggregateId command) !== resolutionId)
     || negb (nonBlank (optional (currentStateResultId command)))
     || (optional (currentStateResultId command) !== previousResolutionResultId)
     || (optional (currentStateCommandKey command) !== stateKey)
     || (expectedResolution ?. "id" !== resolutionId)
     || (expectedResolution ?. "claimId" !== claimId)
     || (expectedResolution ?. "slotId" !== slotId)
     || (expectedResolution ?. "orderId" !== orderId)
     || (expectedResolution ?. "phaseId" !== phaseId)
     || (expectedResolution ?. "status" !== Str (current command))
     || (expectedResolution ?. "resultId" !== previousResolutionResultId)
     || (expectedResolution ?. "currentStateCommandKey" !== stateKey)
     || (expectedResolution ?. "immutable" !== Bool true)
     || ((eventStatus !== lit "lost") && (eventStatus !== lit "returned"))
     || (eventShipmentId !== currentLeafId)
     || (context_ ?. "providerEventTransactionId" !== providerTransactionId)
     || (context_ ?. "remedyIncidentKind" !== expectedKind)
     || (context_ ?. "remedyIncidentClaimId" !== claimId)
     || (context_ ?. "remedyIncidentResolutionId" !== resolutionId)
     || (context_ ?. "remedyIncidentSlotId" !== slotId)
     || (context_ ?. "remedyIncidentOrderId" !== orderId)
     || (context_ ?. "remedyIncidentPhaseId" !== phaseId)
     || (context_ ?. "remedyIncidentResolutionPreviousStatus" !== Str (current command))
     || (context_ ?. "remedyIncidentResolutionTargetStatus" !== lit "recovery_pending")
     || (context_ ?. "remedyIncidentShipmentId" !== currentLeafId)
     || (context_ ?. "remedyIncidentLineageLeafId" !== currentLeafId)
     || (context_ ?. "remedyIncidentShipmentClaimId" !== claimId)
     || (context_ ?. "remedyIncidentShipmentResolutionId" !== resolutionId)
     || (context_ ?. "remedyIncidentShipmentSlotId" !== slotId)
     || (context_ ?. "remedyIncidentShipmentOrderId" !== orderId)
     || (context_ ?. "remedyIncidentShipmentPhaseId" !== phaseId)
     || (context_ ?. "remedyIncidentCurrentLineageLeaf" !== Bool true)
     || (context_ ?. "remedyIncidentShipmentPreviousStatus" !== lit "in_transit")
     || (context_ ?. "remedyIncidentShipmentTargetStatus" !== eventStatus)
     || (context_ ?. "remedyIncidentProviderEventId" !== providerEventId)
     || (context_ ?. "remedyIncidentProviderEventShipmentId" !== currentLeafId)
     || (context_ ?. "remedyIncidentProviderTransactionId" !== providerTransactionId)
     || (context_ ?. "remedyIncidentClaimResultId" !== resultId)
     || (context_ ?. "remedyIncidentResolutionResultId" !== resultId)
     || (context_ ?. "remedyIncidentShipmentResultId" !== resultId)
     || (context_ ?. "remedyIncidentLineageResultId" !== resultId)
     || (context_ ?. "remedyIncidentProviderEventResultId" !== resultId)
     || (context_ ?. "remedyIncidentProviderTransactionResultId" !== resultId)
     || (context_ ?. "remedyIncidentCompleted" !== Bool true)
     || (context_ ?. "remedyIncidentAtomic" !== Bool true)) ;;
  requireFlag command "providerEventAuthenticated" ;;
  requireFlag command "providerEventVerified" ;;
  guard_when (context_ ?. "currentRemedyShipmentLineageLeafStatus" !== eventStatus).

(** ** The policy *)

Definition claimSlotResolutionGuard (command : TransitionCommand) : result () :=
  when
    ((currentIs command "pending" || currentIs command "recovery_pending")
     && targetIs command "reprint_pending") (requireExactReprintSelection command) ;;
  when (currentIs command "pending" && targetIs command "rejected") (
    requireAtomicWholeClaimRejection (js "ClaimSlotResolution") command ;;
    requireFlag command "cleanPostDeliveryQualityClaim") ;;
  when (currentIs command "reship_pending" && targetIs command "reship_shipped") (
    requireExactReshipmentHandoff (js "ClaimSlotResolution") command Undefined false
      (lit "cancellation_pending") ;;
    requireFlag command "reshipmentAuthorizationConsumed" ;;
    requireFlag command "reshipmentHandoffCompleted") ;;
  when (currentIs command "reprint_pending" && targetIs command "replacement_in_production") (
    requireExactReplacementResolutionSource command (lit "reprint_pending") Undefined ;;
    requireFlag command "replacementSetProjected" ;;
    requireFlag command "replacementResourcePlanProjected" ;;
    requireFlag command "replacementReservationsCreated" ;;
    requireFlag command "replacementShipmentsCreated" ;;
    requireFlag command "replacementJobLineageCreated" ;;
    requireCompleteReplacementRequiredSlotSet command false) ;;
  when (currentIs command "replacement_in_production" && targetIs command "replacement_shipped") (
    requireFlag command "replacementFulfilmentAuthorizationConsumed" ;;
    requireFlag command "replacementFulfilmentHandoffCompleted" ;;
    requireAtomicCompleteReplacementHandoff (js "ClaimSlotResolution") command Undefined false
      (lit "cancellation_pending")) ;;
  when (targetIs command "refund_pending") (
    requireExactClaimRefundScope command ;;
    requireFlag command "claimCreditScopeCreated" ;;
    requireFlag command "claimSlotCreditActivated") ;;
  when
    (targetIs command "refund_pending"
     && negb (currentIs command "pending")
     && negb (currentIs command "recovery_pending"))
    (requireFlag command "remedyCancellationCompleted") ;;
  when (currentIs command "refund_pending" && targetIs command "refunded")
    (requireExactClaimRefundCompletion command) ;;
  when (currentIs command "replacement_in_production" && targetIs command "recovery_pending")
    (requireExactReplacementRecoveryCancellation command) ;;
  when
    ((currentIs command "replacement_shipped" || currentIs command "reship_shipped")
     && targetIs command "recovery_pending") (requireVerifiedCurrentRemedyIncident command) ;;
  when
    ((currentIs command "reship_shipped" && targetIs command "delivered_reship")
     || (currentIs command "replacement_shipped" && targetIs command "delivered_reprint"))
    (requireVerifiedCurrentRemedyDelivery command) ;;
  when
    ((currentIs command "pending" || currentIs command "recovery_pending")
     && targetIs command "reship_pending") (requireExactReshipmentSetup command) ;;
  when (targetIs command "withdrawn") (
    requireAtomicWholeClaimWithdrawal (js "ClaimSlotResolution") command ;;
    requireFlag command "cleanPostDeliveryQualityClaim").

Definition claimSlotResolutionPolicy : TransitionPolicy :=
  mkPolicy (js "ClaimSlotResolution") Lifecycles.claimSlotResolutionInitial
    Lifecycles.claimSlotResolutionTerminal None Lifecycles.claimSlotResolutionTransitions None
    (Some claimSlotResolutionGuard).

(** ** They fail only as guards *)

#[global] Typeclasses Opaque
  requireExactReshipmentSetup
  requireExactReshipmentHandoff
  requireExactClaimRefundScope
  requireExactClaimRefundCompletion
  requireVerifiedCurrentRemedyDelivery
  requireVerifiedCurrentRemedyIncident.

#[export] Instance guard_only_requireExactReshipmentSetup command :
  GuardOnly (requireExactReshipmentSetup command).
Proof. cbv beta delta [requireExactReshipmentSetup]. guard_only. Qed.

#[export] Instance guard_only_requireExactReshipmentHandoff lifecycle command selectedShipmentId cancellationRace cancellationRaceShipmentSourceStatus :
  GuardOnly (requireExactReshipmentHandoff lifecycle command selectedShipmentId cancellationRace cancellationRaceShipmentSourceStatus).
Proof. cbv beta delta [requireExactReshipmentHandoff]. guard_only. Qed.

#[export] Instance guard_only_requireExactClaimRefundScope command :
  GuardOnly (requireExactClaimRefundScope command).
Proof. cbv beta delta [requireExactClaimRefundScope]. guard_only. Qed.

#[export] Instance guard_only_requireExactClaimRefundCompletion command :
  GuardOnly (requireExactClaimRefundCompletion command).
Proof. cbv beta delta [requireExactClaimRefundCompletion]. guard_only. Qed.

#[export] Instance guard_only_requireVerifiedCurrentRemedyDelivery command :
  GuardOnly (requireVerifiedCurrentRemedyDelivery command).
Proof. cbv beta delta [requireVerifiedCurrentRemedyDelivery]. guard_only. Qed.

#[export] Instance guard_only_requireVerifiedCurrentRemedyIncident command :
  GuardOnly (requireVerifiedCurrentRemedyIncident command).
Proof. cbv beta delta [requireVerifiedCurrentRemedyIncident]. guard_only. Qed.

#[export] Instance guard_only_claimSlotResolutionGuard command :
  GuardOnly (claimSlotResolutionGuard command).
Proof. cbv beta delta [claimSlotResolutionGuard]. guard_only. Qed.

(** ** Specification *)

(** The children that the refund scope of a command's context includes. *)
Definition refundedChildren (command : TransitionCommand) : list value :=
  List.filter (λ v, v ?. "includedInRefund" === Bool true)
    (elements ((context command) ?. "claimRefundScopeChildren")).

(** The scope of a claim refund is balanced: its children are the target ones,
    each once and with its own refund transaction, for positive amounts
    [amounts] that add up to the amount of the scope and of the claim's price
    adjustment; this resolution [id] is one of them, with the amount of its
    own operation. *)
Record balanced_refund (command : TransitionCommand) (id : jstr) (amounts : list Z) : Prop := {
  br_targets : ∃ ids, (λ v, v ?. "resolutionId") <$> refundedChildren command = Str <$> ids ∧ NoDup ids
    ∧ elements ((context command) ?. "claimRefundScopeResolutionIds") ≡ₚ Str <$> ids;
  br_transactions : ∃ ts, (λ v, v ?. "refundTransactionId") <$> refundedChildren command = Str <$> ts ∧ NoDup ts;
  br_amounts : (λ v, v ?. "amountMinor") <$> refundedChildren command = BigIntV <$> amounts;
  br_positive : ∀ z, z ∈ amounts → 0 < z;
  br_scope : (context command) ?. "claimRefundScopeAmountMinor" = BigIntV (sum_by (λ z, z) amounts);
  br_adjustment : (context command) ?. "claimRefundPriceAdjustmentAmountMinor"
    = BigIntV (sum_by (λ z, z) amounts);
  br_own : ∃ v, v ∈ refundedChildren command ∧ v ?. "resolutionId" = Str id
    ∧ v ?. "refundTransactionId" = (context command) ?. "refundTransactionId"
    ∧ v ?. "amountMinor" = (context command) ?. "claimRefundAmountMinor";
}.

(** ** Facts *)

(** The included ones of some children. *)
Definition included (pre : list value) : list value :=
  List.filter (λ v, v ?. "includedInRefund" === Bool true) pre.

(** What the loop over the children has established after the children
    [pre], of a command for the resolution [id]. *)
Record refund_read (command : TransitionCommand) (id : jstr) (targets : list value)
    (pre ids ts : list value) (amount : value) (count : Z) : Prop := {
  rr_ids : ∃ l, ids = Str <$> l ∧ NoDup l ∧ (λ v, v ?. "resolutionId") <$> pre = ids;
  rr_targets : ∀ v, v ∈ included pre → v ?. "resolutionId" ∈ targets;
  rr_transactions : ∃ l, ts = Str <$> l ∧ NoDup l ∧ (λ v, v ?. "refundTransactionId") <$> included pre = ts;
  rr_amounts : ∃ l, amount = BigIntV (sum_by (λ z, z) l) ∧ (∀ z, z ∈ l → 0 < z)
    ∧ (λ v, v ?. "amountMinor") <$> included pre = BigIntV <$> l;
  rr_count : count = zlength (included pre);
  rr_own : ∀ v, v ∈ included pre → v ?. "resolutionId" = Str id →
    v ?. "refundTransactionId" = (context command) ?. "refundTransactionId"
    ∧ v ?. "amountMinor" = (context command) ?. "claimRefundAmountMinor";
}.

Lemma included_snoc pre v :
  included (pre ++ [v]) = included pre ++ (if v ?. "includedInRefund" === Bool true then [v] else []).
Proof. unfold included. rewrite List.filter_app. cbn. by destruct (_ === _). Qed.

(** One more child that the refund does not include. *)
Lemma child_excluded command id targets pre ids ts amount count v x :
  refund_read command id targets pre ids ts amount count →
  v ?. "resolutionId" = Str x → set_has ids (Str x) = false → v ?. "includedInRefund" = Bool false →
  refund_read command id targets (pre ++ [v]) (set_add ids (Str x)) ts amount count.
Proof.
  intros [(i & Hi & Hin & Hip) Ht Htx Ha Hc Ho] Hx Hni Hinc.
  split; rewrite ?included_snoc, ?Hinc; cbn [strict_eq Bool.eqb]; rewrite ?app_nil_r; try done.
  by eapply set_add_string.
Qed.

(** One more child that the refund includes. *)
Lemma child_included command id targets pre ids ts amount count v x t z :
  refund_read command id targets pre ids ts amount count →
  v ?. "resolutionId" = Str x → set_has ids (Str x) = false → v ?. "includedInRefund" = Bool true →
  Str x ∈ targets → v ?. "refundTransactionId" = Str t → set_has ts (Str t) = false →
  v ?. "amountMinor" = BigIntV z → 0 < z →
  (x = id → Str t = (context command) ?. "refundTransactionId"
    ∧ BigIntV z = (context command) ?. "claimRefundAmountMinor") →
  refund_read command id targets (pre ++ [v]) (set_add ids (Str x)) (set_add ts (Str t))
    (js_add amount (BigIntV z)) (count + 1).
Proof.
  intros [(i & Hi & Hin & Hip) Ht (l & Hl & Hln & Hlp) (zs & -> & Hpos & Hzs) -> Ho] Hx Hni Hinc Htgt Htx Hnt Hz Hzp Hown.
  split; rewrite ?included_snoc, ?Hinc; cbn [strict_eq Bool.eqb].
  - by eapply set_add_string.
  - intros w [Hw| ->%list_elem_of_singleton]%elem_of_app; [by apply Ht|by rewrite Hx].
  - by eapply (set_add_string (λ v, v ?. "refundTransactionId")).
  - exists (zs ++ [z]). rewrite sum_by_app, !fmap_app, Hzs. cbn. rewrite Hz. split_and!; [done| |done].
    intros y [Hy| ->%list_elem_of_singleton]%elem_of_app; auto.
  - unfold zlength. rewrite length_app. cbn. lia.
  - intros w [Hw| ->%list_elem_of_singleton]%elem_of_app; [by apply Ho|].
    rewrite Hx, Htx, Hz. intros [= ->]. by apply Hown.
Qed.

(** The strings of the elements that a filter keeps. *)
Lemma filter_strings (f : value → value) (b : value → bool) l ss :
  f <$> l = Str <$> ss → ∃ k, f <$> List.filter b l = Str <$> k ∧ k `sublist_of` ss.
Proof.
  revert ss. induction l as [|v l IH]; intros [|x ss] H; try done; [by exists []|].
  injection H as Hv H. destruct (IH ss H) as (k & Hk & Hs). cbn [List.filter]. destruct (b v).
  - exists (x :: k). cbn. rewrite Hv, Hk. split; [done|by constructor].
  - exists k. split; [done|by constructor].
Qed.

(** The loop's result, once it has visited every child. *)
Lemma refund_read_balanced command id ids ts amount count expected :
  refund_read command id (Str <$> expected) (elements ((context command) ?. "claimRefundScopeChildren"))
    ids ts amount count →
  elements ((context command) ?. "claimRefundScopeResolutionIds") = Str <$> expected → NoDup expected →
  count = zlength expected → id ∈ expected →
  (amount === (context command) ?. "claimRefundScopeAmountMinor") = true →
  ((context command) ?. "claimRefundPriceAdjustmentAmountMinor" === amount) = true →
  ∃ amounts, balanced_refund command id amounts.
Proof.
  intros [(i & Hi & Hin & Hip) Ht (l & Hl & Hln & Hlp) (zs & -> & Hpos & Hzs) Hcount Ho] Hexp Hnd Hlen Hid Hs Ha.
  apply strict_eq_BigIntV in Ha. rewrite strict_eq_sym in Hs. apply strict_eq_BigIntV in Hs.
  destruct (filter_strings (λ v, v ?. "resolutionId") (λ v, v ?. "includedInRefund" === Bool true)
    (elements ((context command) ?. "claimRefundScopeChildren")) i) as (k & Hk & Hki); [by rewrite Hip|].
  change (List.filter _ _) with (refundedChildren command) in Hk.
  change (included _) with (refundedChildren command) in *.
  assert (NoDup k) as Hkn by (by apply (sublist_NoDup k i)).
  assert (k ≡ₚ expected) as Hperm.
  { apply submseteq_length_Permutation.
    - apply NoDup_submseteq; [done|]. intros x Hx%(list_elem_of_fmap_2 Str). rewrite <-Hk in Hx.
      apply list_elem_of_fmap in Hx as (v & Hv & Hin'). apply Ht in Hin'. rewrite <-Hv in Hin'.
      apply list_elem_of_fmap in Hin' as (y & [= ->] & ?). done.
    - assert (length (refundedChildren command) = length k) as Hlk.
      { apply (f_equal length) in Hk. by rewrite !length_fmap in Hk. }
      unfold zlength in *. lia. }
  exists zs. split; [|by exists l; rewrite Hlp|done|done|done|done|].
  - exists k. split_and!; [done..|]. by rewrite Hexp, Hperm.
  - rewrite <-Hperm in Hid. apply (list_elem_of_fmap_2 Str) in Hid. rewrite <-Hk in Hid.
    apply list_elem_of_fmap in Hid as (v & Hv & Hin'). exists v. symmetry in Hv.
    destruct (Ho v Hin' Hv) as [??]. done.
Qed.

(** A valid set of identities: its elements are distinct strings. *)
Lemma valid_ids v :
  (array v === Undefined) = false → forallb (λ id, nonBlank id) (elements (array v)) = true →
  zlength (set_of (elements (array v))) = js_len (array v) →
  ∃ ids, elements v = Str <$> ids ∧ NoDup ids ∧ set_of (elements (array v)) = Str <$> ids.
Proof.
  intros Hv. rewrite array_elements, js_len_array by done. intros (ids & ->)%nonBlank_strings Hl.
  exists ids. split_and!; [done|by apply set_of_distinct|]. apply set_of_distinct in Hl.
  clear Hv. induction ids as [|x ids IH] using rev_ind; [done|].
  apply NoDup_app in Hl as (Hn & Hd & _). unfold set_of in *. rewrite fmap_app, foldl_app, (IH Hn). cbn.
  apply set_add_new, includes_Str_false. intros (y & [= <-] & Hy)%list_elem_of_fmap.
  apply (Hd x Hy). by left.
Qed.

Lemma refund_scope command :
  requireExactClaimRefundScope command = Ok () →
  ∃ id amounts, aggregateId command = Some id ∧ balanced_refund command id amounts.
Proof.
  intros H. cbv beta delta [requireExactClaimRefundScope] in H. guard_steps H. apply guard_when_Ok in H.
  bool_inv.
  match goal with E : nonBlank resolutionId = true |- _ => apply nonBlank_Str in E as (c & Hc & Hcb) end.
  match goal with E : validIdSet expectedResolutionIds = true |- _ => unfold validIdSet in E; bool_inv end.
  destruct (valid_ids expectedResolutionIdsValue) as (expected & Hexp & Hnd & Hset); [done..|].
  lazymatch type of Hm2 with foldM ?f _ ?l = Ok ?z =>
    apply (foldM_prefix f (λ '(ids, _, ts, amount, count) pre,
      refund_read command c (Str <$> expected) pre ids ts amount count) _ l z) in Hm2 end.
  2: { split.
    - exists []. split_and!; [done|constructor|done].
    - by intros ? ?%not_elem_of_nil.
    - exists []. split_and!; [done|constructor|done].
    - exists []. split_and!; [done| |done]. by intros ? ?%not_elem_of_nil.
    - done.
    - by intros ? ?%not_elem_of_nil. }
  2: { clear -Hc Hset. intros [[[[ids slots] ts] amount] count] pre v [[[[ids' slots'] ts'] amount'] count'] Hr Hv.
    guard_steps Hv. bool_inv.
    match goal with E : nonBlank childResolutionId = true |- _ => apply nonBlank_Str in E as (x & Hx & _) end.
    match goal with E : is_boolean _ = true |- _ => apply is_boolean_Bool in E as (b & Hb) end.
    rewrite Hb in *. destruct b; change (truthy (Bool true)) with true in *; change (truthy (Bool false)) with false in *; change (negb true) with false in Hv; change (negb false) with true in Hv; cbv iota in *.
    - bool_inv. guard_steps Hv. bool_inv. injection Hv as <- <- <- <- <-.
      match goal with E : nonBlank childRefundTransactionId = true |- _ => apply nonBlank_Str in E as (t & Ht & _) end.
      match goal with E : is_bigint _ = true |- _ => apply is_bigint_BigIntV in E as (z & Hz) end.
      subst_lets. rewrite Hx, Ht, Hz in *. apply child_included with (v := v); try done.
      + apply includes_Str. by rewrite <-Hset.
      + by match goal with E : js_le _ _ = false |- _ => apply Z.leb_gt in E end.
      + intros ->. match goal with E : (Str c === _) && _ = false |- _ => rewrite Hc in E;
          rewrite (proj2 (strict_eq_Str (Str c) c) eq_refl) in E; cbn [andb] in E; bool_inv end.
        split; [by symmetry; apply strict_eq_Str; rewrite strict_eq_sym|].
        by symmetry; apply strict_eq_BigIntV; rewrite strict_eq_sym.
    - injection Hv as <- <- <- <- <-. subst_lets. rewrite Hx in *. by apply child_excluded. }
  assert (aggregateId command = Some c) as Hid.
  { match goal with E : (optional (aggregateId command) === resolutionId) = true |- _ =>
      rewrite Hc in E; by apply strict_eq_Str, optional_Str in E end. }
  assert (c ∈ expected) as Hin.
  { match goal with E : includes (elements expectedResolutionIds) resolutionId = true |- _ =>
      rewrite Hc in E; apply includes_Str in E; unfold expectedResolutionIds in E;
      rewrite array_elements in E by done; rewrite Hexp in E;
      apply list_elem_of_fmap in E as (y & [= <-] & Hy); done end. }
  assert (elements children = elements ((context command) ?. "claimRefundScopeChildren")) as Hch.
  { apply array_elements. destruct (children === Undefined) eqn:E; [|done]. apply strict_eq_Undefined in E.
    match goal with H : (Integral _ === lengthV children) = true |- _ => by rewrite E in H end. }
  rewrite Hch in Hm2. eapply refund_read_balanced in Hm2 as [amounts Hb]; [by exists c, amounts|try done..].
  match goal with E : z = js_len expectedResolutionIds |- _ => rewrite E end.
  unfold expectedResolutionIds. rewrite js_len_array, Hexp by done. unfold zlength. by rewrite length_fmap.
Qed.

(** A refund is set up with a balanced scope. *)
Lemma refund_set_up command p :
  transition claimSlotResolutionPolicy command = Ok (changed p (js "refund_pending")) →
  ∃ id amounts, aggregateId command = Some id ∧ balanced_refund command id amounts.
Proof.
  intros (_ & Ht & _ & _ & Hg)%transition_changed. specialize (Hg _ eq_refl).
  assert (targetIs command "refund_pending" = true) as Hr by (unfold targetIs; by rewrite <-Ht).
  unfold claimSlotResolutionGuard in Hg. rewrite Hr in Hg. cbn [when] in Hg. guard_steps Hg.
  match goal with E : (requireExactClaimRefundScope _ ;; _) = Ok _ |- _ =>
    apply bind_Ok in E as ([] & Hs & _) end.
  by apply refund_scope.
Qed.

(** The only way to be refunded is from a refund that is pending. *)
Lemma refunded_edge c :
  js "refunded" ∈ targets Lifecycles.claimSlotResolutionTransitions c → c = js "refund_pending".
Proof. by intros H%targets_sources%list_elem_of_singleton. Qed.

Lemma refunded_history s0 cs s :
  history claimSlotResolutionPolicy s0 cs s → s = js "refund_pending" ∨ s = js "refunded" →
  ∃ c id amounts, c ∈ cs ∧ aggregateId c = Some id ∧ balanced_refund c id amounts.
Proof.
  induction 1 as [s Hs|s0 cs s c r Hh IH <- Hr]; intros Hst.
  - apply list_elem_of_singleton in Hs as ->. by destruct Hst.
  - assert ((current c = js "refund_pending" ∨ current c = js "refunded") →
      ∃ c' id amounts, c' ∈ cs ++ [c] ∧ aggregateId c' = Some id ∧ balanced_refund c' id amounts) as Hold.
    { intros (c' & id & amounts & Hc & H)%IH. exists c', id, amounts. by rewrite elem_of_app; auto. }
    apply transition_Ok in Hr as Hr'. destruct Hr' as [_ Ha].
    destruct Ha as [Heq _|f Heq _ _ _|Hne Hin _]; cbn [status_after] in Hst; [by apply Hold..|].
    destruct Hst as [Ht|Ht]; rewrite Ht in *.
    + destruct (refund_set_up _ _ Hr) as (id & amounts & H). exists c, id, amounts.
      by rewrite elem_of_app, list_elem_of_singleton; auto.
    + apply Hold. left. by apply refunded_edge.
Qed.

(** * Properties *)

(** C13: a slot resolution whose refund is pending or done was set up by a
    command of its history with a balanced scope: the children that the scope
    includes are exactly its target ones, each once and with a refund
    transaction of its own, for positive amounts that add up to the amount of
    the scope and of the claim's price adjustment, and this resolution is one
    of them, for the amount of its own transaction. *)
Theorem claim_refund_balanced s0 commands s :
  history claimSlotResolutionPolicy s0 commands s → s = js "refund_pending" ∨ s = js "refunded" →
  ∃ c id amounts, c ∈ commands ∧ aggregateId c = Some id ∧ balanced_refund c id amounts.
Proof. apply refunded_history. Qed.

(** *** A sample history *)

(** The refund [t] of one child [x] in slot [y] of the claim [c], 700 of an
    adjustment of 700; the child [x2] is not refunded. *)
Definition refund_context : value :=
  let flag k := (js k, Bool true) in
  let text k v := (js k, lit v) in
  let amount k := (js k, BigIntV 700) in
  let array k l := (js k, ArrayV 2 l) in
  let binding r s := RecordV 3 [text "resolutionId" r; text "slotId" s] in
  RecordV 1
    [text "claimId" "c"; text "claimSlotResolutionId" "x"; text "claimSlotId" "y"; text "orderId" "o";
     text "phaseId" "p"; text "paymentId" "pay"; text "priceAdjustmentId" "a"; text "refundTransactionId" "t";
     text "claimRefundAllocationId" "l"; amount "claimRefundAmountMinor"; text "claimRefundScopeId" "scope";
     text "claimRefundSetupPreviousResolutionResultId" "previous";
     text "claimRefundSetupCurrentStateCommandKey" "key";
     (js "claimRefundSetupExpectedResolution", RecordV 4
       [text "id" "x"; text "claimId" "c"; text "slotId" "y"; text "orderId" "o"; text "phaseId" "p";
        text "status" "pending"; text "resultId" "previous"; text "currentStateCommandKey" "key";
        flag "immutable"]);
     text "claimRefundScopeClaimId" "c"; text "claimRefundScopeOrderId" "o"; text "claimRefundScopePhaseId" "p";
     text "claimRefundScopePriceAdjustmentId" "a"; text "claimRefundResolutionId" "x";
     text "claimRefundSlotId" "y"; text "claimRefundPaymentId" "pay"; text "claimRefundPriceAdjustmentId" "a";
     text "claimRefundTransactionId" "t"; amount "claimRefundExpectedAmountMinor";
     text "claimRefundPriceAdjustmentScopeId" "scope"; text "claimRefundPriceAdjustmentOrderId" "o";
     text "claimRefundPriceAdjustmentStatus" "active"; text "claimRefundTransactionPaymentId" "pay";
     text "claimRefundTransactionOrderId" "o"; text "claimRefundTransactionPriceAdjustmentId" "a";
     amount "claimRefundTransactionAmountMinor";
     array "claimRefundScopeResolutionIds" [lit "x"]; array "claimRefundScopeSlotIds" [lit "y"];
     array "claimRefundScopeResolutionSlots" [binding "x" "y"];
     array "claimRefundScopeAllResolutionIds" [lit "x"; lit "x2"];
     array "claimRefundScopeAllSlotIds" [lit "y"; lit "y2"];
     array "claimRefundScopeAllResolutionSlots" [binding "x" "y"; binding "x2" "y2"];
     array "claimRefundScopeChildOperations" [RecordV 5
       [text "resolutionId" "x"; text "slotId" "y"; text "paymentId" "pay"; text "priceAdjustmentId" "a";
        text "allocationId" "l"; text "refundTransactionId" "t"; amount "amountMinor"]];
     array "claimRefundScopeChildren"
       [RecordV 6 [text "resolutionId" "x"; text "slotId" "y"; text "claimId" "c"; text "orderId" "o";
          text "phaseId" "p"; flag "includedInRefund"; text "statusBefore" "pending";
          text "statusAfter" "refund_pending"; text "paymentId" "pay"; text "priceAdjustmentId" "a";
          text "allocationId" "l"; text "refundTransactionId" "t"; amount "amountMinor"];
        RecordV 7 [text "resolutionId" "x2"; text "slotId" "y2"; text "claimId" "c"; text "orderId" "o";
          text "phaseId" "p"; (js "includedInRefund", Bool false); text "statusBefore" "pending";
          text "statusAfter" "pending"]];
     flag "claimRefundScopeComplete"; flag "claimRefundScopeAtomic"; amount "claimRefundScopeAmountMinor";
     amount "claimRefundPriceAdjustmentAmountMinor"; flag "claimCreditScopeCreated";
     flag "claimSlotCreditActivated"].

Definition refund_command : TransitionCommand :=
  mkCommand (Some (js "x")) (js "pending") (js "refund_pending") (js "now") (Some (js "key"))
    (Some (js "previous")) None None None None None refund_context.

Lemma claim_refund_balanced_witness :
  ∃ c id amounts, c ∈ [refund_command] ∧ aggregateId c = Some id ∧ balanced_refund c id amounts.
Proof.
  assert (history claimSlotResolutionPolicy (js "pending") [refund_command] (js "refund_pending")) as H.
  { change (js "refund_pending") with (status_after (changed (js "pending") (js "refund_pending"))).
    apply (history_step _ _ [] (js "pending")); [|reflexivity|vm_compute; reflexivity].
    constructor. by left. }
  apply claim_refund_balanced in H; [apply H|by left].
Defined.
