(* ===== verification/Handoffs.v ===== *)
(** The handoff of a shipment to its carrier (lifecycle/policies.ts), as the
    guards of shipments, jobs, phases and orders check it: the ordinary handoff
    of a complete selected aggregate, and the handoff that a scan proves while
    a cancellation was under way, with its settlement. *)
From S2P Require Import Prelude Text Primitives Values Transition Guards Replacements ClaimSlots.

Import Transition.

(** ** Guards *)

Definition hasExactRefundedCancellationRecoveryMarker (context_ : value) : bool :=
  let reconciliation := record (context_ ?. "handoffRefundedReconciliation") in
  let settlement := record (context_ ?. "handoffRefundedSettlement") in
  let reconciliationId := context_ ?. "handoffReconciliationId" in
  let settlementId := context_ ?. "handoffSettlementId" in
  (context_ ?. "cancellationRaceRefundedAggregate" === Bool true)
  && (context_ ?. "cancellationRaceHandoffKind" === lit "unauthorized_reconciliation")
  && (context_ ?. "cancellationRaceResultKind" === lit "unauthorized_reconciliation")
  && (context_ ?. "handoffReconciliation" === Bool true)
  && (context_ ?. "handoffSettlementCompleted" === Bool true)
  && (context_ ?. "handoffReconciliationAtomic" === Bool true)
  && (context_ ?. "handoffSettlementImmutable" === Bool true)
  && nonBlank reconciliationId
  && nonBlank settlementId
  && (reconciliation ?. "id" === reconciliationId)
  && (reconciliation ?. "orderSettlementId" === settlementId)
  && (reconciliation ?. "status" === lit "completed")
  && (reconciliation ?. "immutable" === Bool true)
  && (settlement ?. "id" === settlementId)
  && (settlement ?. "kind" === lit "unauthorized_handoff")
  && (settlement ?. "immutable" === Bool true).

Definition hasExactRecoverableProviderVoidCancellationRace (context_ : value) : bool :=
  let shipmentId := context_ ?. "shipmentId" in
  let carrierLabelId := context_ ?. "carrierLabelId" in
  let providerEventId := context_ ?. "providerEventId" in
  let providerTransactionId := context_ ?. "shipmentProviderTransactionId" in
  let resultId := context_ ?. "cancellationRaceHandoffResultId" in
  let expectedShipment := record (context_ ?. "cancellationRaceExpectedShipment") in
  let acceptanceEvent := record (context_ ?. "cancellationRaceAcceptanceEvent") in
  let voidEvent := record (context_ ?. "cancellationRaceSelectedVoidEvent") in
  let resultShipment := record (context_ ?. "cancellationRaceResultShipment") in
  let acceptanceOccurredAt := acceptanceEvent ?. "occurredAt" in
  let acceptanceVerifiedAt := acceptanceEvent ?. "verifiedAt" in
  let voidOccurredAt := voidEvent ?. "occurredAt" in
  let voidVerifiedAt := voidEvent ?. "verifiedAt" in
  let handedOverAt := resultShipment ?. "handedOverAt" in
  let providerVoidedAt := expectedShipment ?. "providerVoidedAt" in
  let cancelledAt := expectedShipment ?. "cancelledAt" in
  let voidEventId := voidEvent ?. "id" in
  let carrier := resultShipment ?. "carrier" in
  nonBlank shipmentId
  && nonBlank carrierLabelId
  && nonBlank providerEventId
  && nonBlank providerTransactionId
  && nonBlank resultId
  && nonBlank voidEventId
  && nonBlank carrier
  && (context_ ?. "providerEventShipmentId" === shipmentId)
  && (context_ ?. "providerEventTransactionId" === providerTransactionId)
  && (context_ ?. "shipmentProviderScanEventId" === providerEventId)
  && (context_ ?. "providerEventKind" === lit "acceptance_scan")
  && (context_ ?. "providerEventStatus" === lit "handed_over")
  && (context_ ?. "providerEventAuthenticated" === Bool true)
  && (context_ ?. "providerEventVerified" === Bool true)
  && (context_ ?. "verifiedProviderScan" === Bool true)
  && (expectedShipment ?. "id" === shipmentId)
  && (expectedShipment ?. "status" === lit "cancelled")
  && (expectedShipment ?. "providerVoidId" === voidEventId)
  && is_instant providerVoidedAt
  && is_instant cancelledAt
  && (expectedShipment ?. "immutable" === Bool true)
  && (resultShipment ?. "id" === shipmentId)
  && (resultShipment ?. "previousStatus" === lit "cancelled")
  && (resultShipment ?. "targetStatus" === lit "handed_over")
  && (resultShipment ?. "carrierLabelId" === carrierLabelId)
  && (resultShipment ?. "providerAcceptanceScanId" === providerEventId)
  && is_instant handedOverAt
  && (resultShipment ?. "resultId" === resultId)
  && (resultShipment ?. "immutable" === Bool true)
  && (acceptanceEvent ?. "id" === providerEventId)
  && (acceptanceEvent ?. "shipmentId" === shipmentId)
  && (acceptanceEvent ?. "carrier" === carrier)
  && (acceptanceEvent ?. "carrierLabelId" === carrierLabelId)
  && (acceptanceEvent ?. "transactionId" === providerTransactionId)
  && (acceptanceEvent ?. "kind" === lit "acceptance_scan")
  && (acceptanceEvent ?. "authenticated" === Bool true)
  && (acceptanceEvent ?. "verified" === Bool true)
  && (acceptanceEvent ?. "immutable" === Bool true)
  && is_instant acceptanceOccurredAt
  && is_instant acceptanceVerifiedAt
  && (voidEvent ?. "shipmentId" === shipmentId)
  && (voidEvent ?. "carrier" === carrier)
  && (voidEvent ?. "carrierLabelId" === carrierLabelId)
  && (voidEvent ?. "kind" === lit "label_voided")
  && (voidEvent ?. "authenticated" === Bool true)
  && (voidEvent ?. "verified" === Bool true)
  && (voidEvent ?. "immutable" === Bool true)
  && is_instant voidOccurredAt
  && is_instant voidVerifiedAt
  && sameInstant handedOverAt acceptanceVerifiedAt
  && (compareV acceptanceOccurredAt voidOccurredAt <? 0)
  && sameInstant providerVoidedAt voidVerifiedAt
  && js_le (js_sub (voidVerifiedAt ?. "epochMilliseconds") (Integral 5000))
       (cancelledAt ?. "epochMilliseconds").

Definition requireVerifiedMatchingCancellationRaceScan (command : TransitionCommand)
    : result () :=
  let shipmentId := (context command) ?. "shipmentId" in
  let providerTransactionId := (context command) ?. "shipmentProviderTransactionId" in
  let providerEventId := (context command) ?. "providerEventId" in
  let expectedShipment := record ((context command) ?. "cancellationRaceExpectedShipment") in
  guard_when
    (negb (nonBlank shipmentId)
     || ((context command) ?. "providerEventShipmentId" !== shipmentId)
     || negb (nonBlank providerTransactionId)
     || ((context command) ?. "providerEventTransactionId" !== providerTransactionId)
     || negb (nonBlank providerEventId)
     || ((context command) ?. "shipmentProviderScanEventId" !== providerEventId)
     || ((context command) ?. "providerEventKind" !== lit "acceptance_scan")
     || ((context command) ?. "providerEventStatus" !== lit "handed_over")) ;;
  requireFlag command "providerEventAuthenticated" ;;
  requireFlag command "providerEventVerified" ;;
  requireFlag command "verifiedProviderScan" ;;
  guard_when
    ((expectedShipment ?. "status" === lit "cancelled")
     && negb (hasExactRecoverableProviderVoidCancellationRace (context command))).

Definition requireAtomicOrdinaryHandoff (lifecycle : jstr) (command : TransitionCommand)
    (expectedStatuses : value) : result () :=
  let context_ := context command in
  let shipmentId := context_ ?. "shipmentId" in
  let orderId := context_ ?. "orderId" in
  let phaseId := context_ ?. "phaseId" in
  let expectedSlotIdsValue := context_ ?. "handoffSlotIds" in
  let slotsValue := context_ ?. "handoffSlots" in
  let expectedJobIdsValue := context_ ?. "handoffJobIds" in
  let jobsValue := context_ ?. "handoffJobs" in
  let expectedSlotIds := array expectedSlotIdsValue in
  let slots := array slotsValue in
  let expectedJobIds := array expectedJobIdsValue in
  let jobs := array jobsValue in
  let jobPrevious := coalesce (expectedStatuses ?. "jobPrevious") (lit "packed") in
  let slotPrevious :=
    coalesce (expectedStatuses ?. "slotPrevious")
      (if jobPrevious === lit "cancelled" then lit "cancelled" else Undefined) in
  let orderTarget := coalesce (expectedStatuses ?. "orderTarget") (lit "shipped") in
  let phaseTarget := coalesce (expectedStatuses ?. "phaseTarget") (lit "shipped") in
  let firstParcelStatusesMatch :=
    (context_ ?. "handoffOrderPreviousStatus" === expectedStatuses ?. "orderPrevious")
    && (context_ ?. "handoffOrderTargetStatus" === orderTarget)
    && (context_ ?. "handoffPhasePreviousStatus" === expectedStatuses ?. "phasePrevious")
    && (context_ ?. "handoffPhaseTargetStatus" === phaseTarget) in
  let laterParcelStatusesMatch :=
    (expectedStatuses ?. "allowLaterParcel" === Bool true)
    && (context_ ?. "handoffOrderPreviousStatus" === lit "shipped")
    && (context_ ?. "handoffOrderTargetStatus" === lit "shipped")
    && (context_ ?. "handoffPhasePreviousStatus" === lit "shipped")
    && (context_ ?. "handoffPhaseTargetStatus" === lit "shipped") in
  let orderPrevious :=
    if laterParcelStatusesMatch then lit "shipped" else expectedStatuses ?. "orderPrevious" in
  let phasePrevious :=
    if laterParcelStatusesMatch then lit "shipped" else expectedStatuses ?. "phasePrevious" in
  guard_when
    (negb (nonBlank shipmentId)
     || (context_ ?. "handoffShipmentId" !== shipmentId)
     || negb (nonBlank orderId)
     || (context_ ?. "handoffOrderId" !== orderId)
     || (context_ ?. "handoffPhaseOrderId" !== orderId)
     || negb (nonBlank phaseId)
     || (context_ ?. "handoffPhaseId" !== phaseId)
     || (context_ ?. "phaseKind" !== lit "single")
     || (negb firstParcelStatusesMatch && negb laterParcelStatusesMatch)
     || (context_ ?. "handoffShipmentPreviousStatus" !== expectedStatuses ?. "shipmentPrevious")
     || (context_ ?. "handoffShipmentTargetStatus" !== lit "handed_over")
     || (context_ ?. "handoffJobPreviousStatus" !== jobPrevious)
     || (context_ ?. "handoffJobTargetStatus" !== lit "handed_over")
     || (expectedSlotIds === Undefined)
     || (js_len expectedSlotIds =? 0)
     || existsb (λ id, negb (nonBlank id)) (elements expectedSlotIds)
     || negb (zlength (set_of (elements expectedSlotIds)) =? js_len expectedSlotIds)
     || (slots === Undefined)
     || negb (js_len slots =? js_len expectedSlotIds)
     || (expectedJobIds === Undefined)
     || (js_len expectedJobIds =? 0)
     || existsb (λ id, negb (nonBlank id)) (elements expectedJobIds)
     || negb (zlength (set_of (elements expectedJobIds)) =? js_len expectedJobIds)
     || (jobs === Undefined)
     || negb (js_len jobs =? js_len expectedJobIds)) ;;
  when (expectedStatuses ?. "resultProof" !== lit "cancellation_race") (
    let selectedAggregate :=
      if str_eqb lifecycle (js "Order")
      then RecordV 0
             [(js "id", orderId);
              (js "previousResultId", context_ ?. "handoffOrderPreviousResultId");
              (js "stateKey", context_ ?. "handoffOrderCurrentStateCommandKey");
              (js "expected", record (context_ ?. "handoffExpectedOrder"));
              (js "previousStatus", orderPrevious)]
      else if str_eqb lifecycle (js "OrderPhase(single)")
           then RecordV 0
                  [(js "id", phaseId);
                   (js "previousResultId", context_ ?. "handoffPhasePreviousResultId");
                   (js "stateKey", context_ ?. "handoffPhaseCurrentStateCommandKey");
                   (js "expected", record (context_ ?. "handoffExpectedPhase"));
                   (js "previousStatus", phasePrevious)]
           else if str_eqb lifecycle (js "Shipment")
                then RecordV 0
                       [(js "id", shipmentId);
                        (js "previousResultId", context_ ?. "handoffShipmentPreviousResultId");
                        (js "stateKey", context_ ?. "handoffShipmentCurrentStateCommandKey");
                        (js "expected", record (context_ ?. "handoffExpectedShipment"));
                        (js "previousStatus", expectedStatuses ?. "shipmentPrevious")]
                else Undefined in
    guard_when
      ((selectedAggregate !== Undefined)
       && (negb (nonBlank (selectedAggregate ?. "id"))
           || negb (nonBlank (selectedAggregate ?. "previousResultId"))
           || negb (nonBlank (selectedAggregate ?. "stateKey"))
           || (optional (aggregateId command) !== selectedAggregate ?. "id")
           || (optional (currentStateResultId command)
                 !== selectedAggregate ?. "previousResultId")
           || (optional (currentStateCommandKey command) !== selectedAggregate ?. "stateKey")
           || ((selectedAggregate ?. "expected") ?. "id" !== selectedAggregate ?. "id")
           || ((selectedAggregate ?. "expected") ?. "status"
                 !== selectedAggregate ?. "previousStatus")
           || ((selectedAggregate ?. "expected") ?. "resultId"
                 !== selectedAggregate ?. "previousResultId")
           || ((selectedAggregate ?. "expected") ?. "currentStateCommandKey"
                 !== selectedAggregate ?. "stateKey")
           || ((selectedAggregate ?. "expected") ?. "immutable" !== Bool true)
           || (str_eqb lifecycle (js "Order")
               && ((selectedAggregate ?. "expected") ?. "phaseId" !== phaseId))
           || (str_eqb lifecycle (js "OrderPhase(single)")
               && ((selectedAggregate ?. "expected") ?. "orderId" !== orderId))
           || (str_eqb lifecycle (js "Shipment")
               && (((selectedAggregate ?. "expected") ?. "orderId" !== orderId)
                   || ((selectedAggregate ?. "expected") ?. "phaseId" !== phaseId)))))) ;;
  guard_when
    (negb
       (hasSameNonEmptyStringSet ((context command) ?. "shipmentFulfilmentSlotIds")
          expectedSlotIds)) ;;
  let authoritativeSlotIds := expectedSlotIds in
  let authoritativeJobIds := expectedJobIds in
  let projectedSlotIds : list value := [] in
  let contributingJobIds : list value := [] in
  '(projectedSlotIds, contributingJobIds) ←
    foldM (λ '(projectedSlotIds, contributingJobIds) value_,
    guard_when (negb (is_record value_)) ;;
    let slot := value_ in
    let id := slot ?. "id" in
    let slotJobId := slot ?. "jobId" in
    guard_when
      (negb (nonBlank id)
       || set_has projectedSlotIds id
       || negb (includes (elements authoritativeSlotIds) id)
       || (slot ?. "shipmentId" !== shipmentId)
       || (slot ?. "orderId" !== orderId)
       || (slot ?. "phaseId" !== phaseId)
       || negb (nonBlank slotJobId)
       || negb (includes (elements authoritativeJobIds) slotJobId)
       || ((slotPrevious !== Undefined)
           && ((slot ?. "previousOutcome" !== slotPrevious)
               || (slot ?. "targetOutcome" !== lit "pending")))) ;;
    let projectedSlotIds := set_add projectedSlotIds id in
    let contributingJobIds := set_add contributingJobIds slotJobId in
    Ok (projectedSlotIds, contributingJobIds)) (projectedSlotIds, contributingJobIds)
      (elements slots);
  guard_when
    (existsb (λ id, negb (set_has projectedSlotIds id)) (elements authoritativeSlotIds)) ;;
  guard_when
    (negb (zlength contributingJobIds =? js_len authoritativeJobIds)
     || existsb (λ id, negb (set_has contributingJobIds id)) (elements authoritativeJobIds)) ;;
  let projectedJobIds : list value := [] in
  projectedJobIds ← foldM (λ projectedJobIds value_,
    guard_when (negb (is_record value_)) ;;
    let job := value_ in
    let id := job ?. "id" in
    guard_when
      (negb (nonBlank id)
       || set_has projectedJobIds id
       || negb (includes (elements authoritativeJobIds) id)
       || (job ?. "shipmentId" !== shipmentId)
       || (job ?. "orderId" !== orderId)
       || (job ?. "phaseId" !== phaseId)
       || (job ?. "previousStatus" !== jobPrevious)
       || (job ?. "targetStatus" !== lit "handed_over")) ;;
    Ok (set_add projectedJobIds id)) projectedJobIds (elements jobs);
  guard_when (existsb (λ id, negb (set_has projectedJobIds id)) (elements authoritativeJobIds)) ;;
  when (expectedStatuses ?. "resultProof" === lit "cancellation_race") (
    let resultId := (context command) ?. "cancellationRaceHandoffResultId" in
    guard_when
      (negb (nonBlank resultId)
       || ((context command) ?. "cancellationRaceShipmentResultId" !== resultId)
       || ((context command) ?. "cancellationRaceSlotSetResultId" !== resultId)
       || ((context command) ?. "cancellationRaceJobResultId" !== resultId)
       || negb
            (hasSameNonEmptyStringSet ((context command) ?. "cancellationRaceResultSlotIds")
               expectedSlotIds)
       || negb
            (hasSameNonEmptyStringSet ((context command) ?. "cancellationRaceResultJobIds")
               expectedJobIds))) ;;
  when (expectedStatuses ?. "resultProof" !== lit "cancellation_race") (
    let resultId := (context command) ?. "handoffResultId" in
    let resultSlotIds := (context command) ?. "handoffResultSlotIds" in
    let resultJobIds := (context command) ?. "handoffResultJobIds" in
    let scanId := (context command) ?. "handoffResultProviderScanId" in
    let scanTransactionId := (context command) ?. "handoffResultProviderTransactionId" in
    let aggregateSourceMatches :=
      if str_eqb lifecycle (js "Order")
      then (context command) ?. "handoffOrderPreviousStatus" === Str (current command)
      else if str_eqb lifecycle (js "OrderPhase(single)")
           then (context command) ?. "handoffPhasePreviousStatus" === Str (current command)
           else true in
    guard_when
      (negb (nonBlank resultId)
       || ((context command) ?. "handoffResultShipmentResultId" !== resultId)
       || ((context command) ?. "handoffResultOrderResultId" !== resultId)
       || ((context command) ?. "handoffResultPhaseResultId" !== resultId)
       || ((context command) ?. "handoffResultSlotSetResultId" !== resultId)
       || ((context command) ?. "handoffResultJobSetResultId" !== resultId)
       || ((context command) ?. "handoffResultProviderScanResultId" !== resultId)
       || ((context command) ?. "handoffResultCustodyResultId" !== resultId)
       || negb (nonBlank scanId)
       || negb (nonBlank scanTransactionId)
       || negb aggregateSourceMatches
       || ((context command) ?. "handoffResultShipmentId" !== shipmentId)
       || ((context command) ?. "handoffResultOrderId" !== orderId)
       || ((context command) ?. "handoffResultPhaseId" !== phaseId)
       || negb (hasSameNonEmptyStringSet resultSlotIds expectedSlotIds)
       || negb (hasSameNonEmptyStringSet resultJobIds expectedJobIds)
       || ((context command) ?. "handoffResultOrderPreviousStatus" !== orderPrevious)
       || ((context command) ?. "handoffResultOrderTargetStatus" !== lit "shipped")
       || ((context command) ?. "handoffResultPhasePreviousStatus" !== phasePrevious)
       || ((context command) ?. "handoffResultPhaseTargetStatus" !== lit "shipped")
       || ((context command) ?. "handoffResultShipmentPreviousStatus"
             !== expectedStatuses ?. "shipmentPrevious")
       || ((context command) ?. "handoffResultShipmentTargetStatus" !== lit "handed_over")
       || ((context command) ?. "handoffResultJobPreviousStatus" !== lit "packed")
       || ((context command) ?. "handoffResultJobTargetStatus" !== lit "handed_over")
       || ((context command) ?. "handoffResultProviderScanId" !== scanId)
       || ((context command) ?. "handoffResultProviderScanShipmentId" !== shipmentId)
       || ((context command) ?. "handoffResultProviderScanOrderId" !== orderId)
       || ((context command) ?. "handoffResultProviderScanPhaseId" !== phaseId)
       || ((context command) ?. "handoffResultProviderTransactionId" !== scanTransactionId)
       || ((context command) ?. "handoffResultProviderScanStatus" !== lit "accepted")
       || ((context command) ?. "handoffResultProviderScanAuthenticated" !== Bool true)
       || ((context command) ?. "handoffResultProviderScanVerified" !== Bool true)
       || ((context command) ?. "handoffResultCustodyConfirmed" !== Bool true)
       || ((context command) ?. "handoffResultCompleted" !== Bool true)
       || ((context command) ?. "handoffResultAtomic" !== Bool true))) ;;
  guard_when
    (str_eqb lifecycle (js "Job")
     && (negb (nonBlank ((context command) ?. "jobId"))
         || negb (includes (elements authoritativeJobIds) ((context command) ?. "jobId")))).

Definition cancellationRaceHandoffKinds : list value :=
  [lit "ordinary"; lit "replacement"; lit "reship"; lit "unauthorized_reconciliation"].

Definition requireExactHandoffShipmentOrigin (command : TransitionCommand) (expectedKind : value)
    : result () :=
  let context_ := context command in
  let claimId := context_ ?. "claimId" in
  let resolutionId := context_ ?. "claimSlotResolutionId" in
  guard_when
    ((context_ ?. "labelledHandoffShipmentKind" !== expectedKind)
     || (if expectedKind === lit "ordinary"
         then (context_ ?. "labelledHandoffShipmentOriginClaimId" !== Null)
              || (context_ ?. "labelledHandoffShipmentOriginResolutionId" !== Null)
         else negb (nonBlank claimId)
              || negb (nonBlank resolutionId)
              || (context_ ?. "labelledHandoffShipmentOriginClaimId" !== claimId)
              || (context_ ?. "labelledHandoffShipmentOriginResolutionId" !== resolutionId))).

Definition requireExactRefundedHandoffFinancialProof (command : TransitionCommand) : result () :=
  let context_ := context command in
  let reconciliation := record (context_ ?. "handoffRefundedReconciliation") in
  let settlement := record (context_ ?. "handoffRefundedSettlement") in
  let payment := record (context_ ?. "handoffRefundedPayment") in
  let refund := record (context_ ?. "handoffRefundedRefund") in
  let refundEvent := record (context_ ?. "handoffRefundedProviderEvent") in
  let priorReconciliation := record (context_ ?. "handoffRefundedPriorReconciliation") in
  let laterRefundedParcel := context_ ?. "cancellationRaceLaterRefundedParcel" === Bool true in
  let payments :=
    if is_array (context_ ?. "handoffSettlementOrderPayments")
    then ArrayV 0 (List.map record (elements (context_ ?. "handoffSettlementOrderPayments")))
    else ArrayV 0 [] in
  let refunds :=
    if is_array (context_ ?. "handoffSettlementOrderRefunds")
    then ArrayV 0 (List.map record (elements (context_ ?. "handoffSettlementOrderRefunds")))
    else ArrayV 0 [] in
  let authoritativePaymentIds := array_or_empty (context_ ?. "handoffSettlementPaymentIds") in
  let authoritativeRefundIds := array_or_empty (context_ ?. "handoffSettlementRefundIds") in
  let orderId := context_ ?. "orderId" in
  let phaseId := context_ ?. "phaseId" in
  let shipmentId := context_ ?. "shipmentId" in
  let resultId := context_ ?. "cancellationRaceHandoffResultId" in
  let reconciliationId := context_ ?. "handoffReconciliationId" in
  let settlementId := context_ ?. "handoffSettlementId" in
  let paymentId := payment ?. "id" in
  let refundId := refund ?. "id" in
  let refundEventId := refundEvent ?. "id" in
  let currency := settlement ?. "currency" in
  let settlementResultId := settlement ?. "resultId" in
  let contractTotal := settlement ?. "contractTotalMinor" in
  let capturedTotal := settlement ?. "capturedTotalMinor" in
  let refundAmount := settlement ?. "refundAmountMinor" in
  let cutoffAt := settlement ?. "cutoffAt" in
  let settledAt := settlement ?. "settledAt" in
  let capturedAt := payment ?. "capturedAt" in
  let refundCompletedAt := refund ?. "completedAt" in
  let refundVerifiedAt := refundEvent ?. "verifiedAt" in
  let exactPaymentCount :=
    js_len
      (ArrayV 0
         (List.filter (λ candidate, candidate ?. "id" === paymentId) (elements payments))) in
  let exactRefundCount :=
    js_len
      (ArrayV 0 (List.filter (λ candidate, candidate ?. "id" === refundId) (elements refunds))) in
  let omittedCapturedPayment := existsb (λ candidate,
    let amount := candidate ?. "capturedAmountMinor" in
    let at_ := candidate ?. "capturedAt" in
    (candidate ?. "id" !== paymentId)
    && is_bigint amount
    && js_lt (BigIntV 0) amount
    && is_instant at_
    && is_instant cutoffAt
    && (compareV at_ cutoffAt <? 0)) (elements payments) in
  let pendingRefund :=
    existsb (λ candidate, candidate ?. "status" === lit "pending") (elements refunds) in
  let invalidPaymentRow := existsb (λ candidate,
    let amount := candidate ?. "capturedAmountMinor" in
    (candidate === Undefined)
    || negb (nonBlank (candidate ?. "id"))
    || (candidate ?. "orderId" !== orderId)
    || negb (is_bigint amount)
    || js_lt amount (BigIntV 0)
    || (js_lt (BigIntV 0) amount && negb (is_instant (candidate ?. "capturedAt")))
    || (candidate ?. "immutable" !== Bool true)) (elements payments) in
  let invalidRefundRow :=
    existsb (λ candidate,
        (candidate === Undefined)
        || negb (nonBlank (candidate ?. "id"))
        || negb (nonBlank (candidate ?. "paymentId"))
        || negb (includes (elements authoritativePaymentIds) (candidate ?. "paymentId"))
        || ((candidate ?. "status" !== lit "pending")
            && (candidate ?. "status" !== lit "succeeded")
            && (candidate ?. "status" !== lit "failed"))
        || negb (is_bigint (candidate ?. "amountMinor"))
        || js_lt (candidate ?. "amountMinor") (BigIntV 0)
        || (candidate ?. "immutable" !== Bool true)) (elements refunds) in
  guard_when
    (negb (nonBlank orderId)
     || negb (nonBlank phaseId)
     || negb (nonBlank shipmentId)
     || negb (nonBlank resultId)
     || negb (nonBlank reconciliationId)
     || negb (nonBlank settlementId)
     || negb (nonBlank paymentId)
     || negb (nonBlank refundId)
     || negb (nonBlank refundEventId)
     || (reconciliation ?. "id" !== reconciliationId)
     || (reconciliation ?. "orderId" !== orderId)
     || (reconciliation ?. "phaseId" !== phaseId)
     || (reconciliation ?. "shipmentId" !== shipmentId)
     || (reconciliation ?. "providerEventId" !== context_ ?. "providerEventId")
     || (reconciliation ?. "providerTransactionId"
           !== context_ ?. "shipmentProviderTransactionId")
     || (reconciliation ?. "orderSettlementId" !== settlementId)
     || (reconciliation ?. "paymentId" !== paymentId)
     || (reconciliation ?. "refundTransactionId" !== refundId)
     || (reconciliation ?. "refundProviderEventId" !== refundEventId)
     || (reconciliation ?. "status" !== lit "completed")
     || (reconciliation ?. "resultId" !== resultId)
     || (reconciliation ?. "immutable" !== Bool true)
     || (laterRefundedParcel
         && (negb (nonBlank (priorReconciliation ?. "id"))
             || (priorReconciliation ?. "id" === reconciliationId)
             || (priorReconciliation ?. "orderId" !== orderId)
             || (priorReconciliation ?. "phaseId" !== phaseId)
             || negb (nonBlank (priorReconciliation ?. "shipmentId"))
             || (priorReconciliation ?. "shipmentId" === shipmentId)
             || (priorReconciliation ?. "orderSettlementId" !== settlementId)
             || negb (nonBlank (priorReconciliation ?. "resultId"))
             || (priorReconciliation ?. "resultId" !== settlementResultId)
             || (priorReconciliation ?. "status" !== lit "completed")
             || (priorReconciliation ?. "immutable" !== Bool true)))
     || (settlement ?. "id" !== settlementId)
     || (settlement ?. "orderId" !== orderId)
     || (settlement ?. "phaseId" !== phaseId)
     || negb (nonBlank (settlement ?. "orderPriceBindingId"))
     || negb (nonBlank (settlement ?. "priceSnapshotId"))
     || (settlement ?. "paymentId" !== paymentId)
     || (settlement ?. "refundTransactionId" !== refundId)
     || (settlement ?. "kind" !== lit "unauthorized_handoff")
     || negb (nonBlank currency)
     || negb (is_bigint contractTotal)
     || js_le contractTotal (BigIntV 0)
     || negb (is_bigint capturedTotal)
     || js_le capturedTotal (BigIntV 0)
     || js_lt capturedTotal contractTotal
     || (settlement ?. "earnedAmountMinor" !== BigIntV 0)
     || (settlement ?. "retainedAmountMinor" !== BigIntV 0)
     || (refundAmount !== capturedTotal)
     || (settlement ?. "writtenOffAmountMinor" !== BigIntV 0)
     || (settlement ?. "unearnedCancelledAmountMinor" !== contractTotal)
     || (settlement ?. "amountDueMinor" !== BigIntV 0)
     || (settlement ?. "refundableBalanceMinor" !== BigIntV 0)
     || negb (is_instant cutoffAt)
     || negb (is_instant settledAt)
     || negb (compareV cutoffAt settledAt =? 0)
     || negb (nonBlank settlementResultId)
     || (if laterRefundedParcel
         then settlementResultId === resultId
         else settlementResultId !== resultId)
     || (settlement ?. "immutable" !== Bool true)
     || (payment ?. "orderId" !== orderId)
     || (payment ?. "orderPriceBindingId" !== settlement ?. "orderPriceBindingId")
     || (payment ?. "priceSnapshotId" !== settlement ?. "priceSnapshotId")
     || (payment ?. "status" !== lit "refunded")
     || (payment ?. "currency" !== currency)
     || (payment ?. "capturedAmountMinor" !== capturedTotal)
     || (payment ?. "captureAuthorized" !== Bool false)
     || negb (is_instant capturedAt)
     || (0 <=? compareV capturedAt cutoffAt)
     || negb (is_instant (payment ?. "captureCutoffAt"))
     || negb (compareV (payment ?. "captureCutoffAt") cutoffAt =? 0)
     || (payment ?. "immutable" !== Bool true)
     || (refund ?. "paymentId" !== paymentId)
     || (refund ?. "reason" !== lit "customer_cancellation")
     || (refund ?. "status" !== lit "succeeded")
     || (refund ?. "amountMinor" !== refundAmount)
     || negb (nonBlank (refund ?. "provider"))
     || negb (nonBlank (refund ?. "providerRefundId"))
     || negb (is_instant refundCompletedAt)
     || (0 <? compareV refundCompletedAt settledAt)
     || (refund ?. "immutable" !== Bool true)
     || (refundEvent ?. "paymentId" !== paymentId)
     || (refundEvent ?. "refundTransactionId" !== refundId)
     || (refundEvent ?. "kind" !== lit "refund_succeeded")
     || (refundEvent ?. "provider" !== refund ?. "provider")
     || (refundEvent ?. "providerTransactionId" !== refund ?. "providerRefundId")
     || (refundEvent ?. "amountMinor" !== refundAmount)
     || (refundEvent ?. "currency" !== currency)
     || negb (is_instant refundVerifiedAt)
     || negb (compareV refundVerifiedAt refundCompletedAt =? 0)
     || (refundEvent ?. "immutable" !== Bool true)
     || (context_ ?. "handoffSettlementPaymentSetComplete" !== Bool true)
     || (context_ ?. "handoffSettlementRefundSetComplete" !== Bool true)
     || (js_len authoritativePaymentIds =? 0)
     || (js_len authoritativeRefundIds =? 0)
     || existsb (λ id, negb (nonBlank id)) (elements authoritativePaymentIds)
     || existsb (λ id, negb (nonBlank id)) (elements authoritativeRefundIds)
     || negb
          (zlength (set_of (elements authoritativePaymentIds)) =? js_len authoritativePaymentIds)
     || negb (zlength (set_of (elements authoritativeRefundIds)) =? js_len authoritativeRefundIds)
     || invalidPaymentRow
     || invalidRefundRow
     || negb
          (hasSameNonEmptyStringSet authoritativePaymentIds
             (ArrayV 0 (List.map (λ candidate, candidate ?. "id") (elements payments))))
     || negb
          (hasSameNonEmptyStringSet authoritativeRefundIds
             (ArrayV 0 (List.map (λ candidate, candidate ?. "id") (elements refunds))))
     || negb (exactPaymentCount =? 1)
     || negb (exactRefundCount =? 1)
     || omittedCapturedPayment
     || pendingRefund).

Definition requireExactCancellationRaceHandoffResult (lifecycle : jstr)
    (command : TransitionCommand) : result () :=
  let context_ := context command in
  let kind := context_ ?. "cancellationRaceHandoffKind" in
  let expectedShipmentOriginKind :=
    if (kind === lit "replacement") || (kind === lit "reship") then kind else lit "ordinary" in
  let resultId := context_ ?. "cancellationRaceHandoffResultId" in
  let shipmentId := context_ ?. "shipmentId" in
  let orderId := context_ ?. "orderId" in
  let phaseId := context_ ?. "phaseId" in
  let providerEventId := context_ ?. "providerEventId" in
  let providerTransactionId := context_ ?. "shipmentProviderTransactionId" in
  let previousShipmentResultId := context_ ?. "cancellationRacePreviousShipmentResultId" in
  let stateKey := context_ ?. "cancellationRaceCurrentStateCommandKey" in
  let expectedShipment := record (context_ ?. "cancellationRaceExpectedShipment") in
  let previousOrderResultId := context_ ?. "cancellationRacePreviousOrderResultId" in
  let orderStateKey := context_ ?. "cancellationRaceCurrentOrderStateCommandKey" in
  let expectedOrder := record (context_ ?. "cancellationRaceExpectedOrder") in
  let previousPhaseResultId := context_ ?. "handoffPhasePreviousResultId" in
  let phaseStateKey := context_ ?. "handoffPhaseCurrentStateCommandKey" in
  let expectedPhase := record (context_ ?. "handoffExpectedPhase") in
  let cancellationRequestId := context_ ?. "shipmentCancellationRequestId" in
  let cancellationRequest := record (context_ ?. "shipmentCancellationRequest") in
  let carrierLabelId := context_ ?. "carrierLabelId" in
  let sourceStatusValue := expectedShipment ?. "status" in
  let sourceStatus :=
    if (sourceStatusValue === lit "cancelled")
       || (sourceStatusValue === lit "cancellation_pending")
    then sourceStatusValue
    else Undefined in
  let committedCancellation :=
    context_ ?. "cancellationRaceCommittedCancellation" === Bool true in
  let refundedAggregate := context_ ?. "cancellationRaceRefundedAggregate" === Bool true in
  let laterRefundedParcel := context_ ?. "cancellationRaceLaterRefundedParcel" === Bool true in
  let expectedOrderStatus :=
    if kind === lit "unauthorized_reconciliation"
    then if refundedAggregate
         then if laterRefundedParcel then lit "shipped" else lit "refunded"
         else lit "awaiting_balance"
    else if committedCancellation then lit "cancelled" else lit "ready_to_ship" in
  let expectedPhaseStatus :=
    if refundedAggregate
    then if laterRefundedParcel then lit "shipped" else lit "cancelled_refunded"
    else if committedCancellation then lit "cancelled" else lit "qc_passed" in
  guard_when
    (negb (is_string kind)
     || negb (set_has cancellationRaceHandoffKinds kind)
     || negb (nonBlank resultId)
     || negb (nonBlank shipmentId)
     || negb (nonBlank orderId)
     || negb (nonBlank phaseId)
     || negb (nonBlank providerEventId)
     || negb (nonBlank providerTransactionId)
     || negb (nonBlank carrierLabelId)
     || (sourceStatus === Undefined)
     || (committedCancellation
         && ((sourceStatus !== lit "cancelled") || (kind !== lit "ordinary")))
     || (refundedAggregate
         && ((sourceStatus !== lit "cancelled") || (kind !== lit "unauthorized_reconciliation")))
     || (laterRefundedParcel
         && (negb refundedAggregate
             || (negb (str_eqb lifecycle (js "Shipment"))
                 && negb (str_eqb lifecycle (js "Job")))))
     || negb (nonBlank previousShipmentResultId)
     || negb (nonBlank stateKey)
     || (expectedShipment ?. "id" !== shipmentId)
     || (expectedShipment ?. "orderId" !== orderId)
     || (expectedShipment ?. "phaseId" !== phaseId)
     || (expectedShipment ?. "status" !== sourceStatus)
     || (expectedShipment ?. "originKind" !== expectedShipmentOriginKind)
     || (expectedShipment ?. "resultId" !== previousShipmentResultId)
     || (expectedShipment ?. "currentStateCommandKey" !== stateKey)
     || (expectedShipment ?. "immutable" !== Bool true)
     || negb (nonBlank cancellationRequestId)
     || (cancellationRequest ?. "id" !== cancellationRequestId)
     || (cancellationRequest ?. "shipmentId" !== shipmentId)
     || (cancellationRequest ?. "carrierLabelId" !== carrierLabelId)
     || (cancellationRequest ?. "previousStatus" !== lit "label_created")
     || (cancellationRequest ?. "targetStatus" !== lit "cancellation_pending")
     || negb (nonBlank (cancellationRequest ?. "resultId"))
     || (cancellationRequest ?. "immutable" !== Bool true)
     || (context_ ?. "cancellationRaceCancellationRequestId" !== cancellationRequestId)
     || (context_ ?. "cancellationRaceCancellationRequestShipmentId" !== shipmentId)
     || (context_ ?. "cancellationRaceCancellationRequestResultId"
           !== cancellationRequest ?. "resultId")
     || (context_ ?. "shipmentProviderScanCancellationRequestId" !== cancellationRequestId)
     || (str_eqb lifecycle (js "Shipment")
         && ((optional (aggregateId command) !== shipmentId)
             || (optional (currentStateResultId command) !== previousShipmentResultId)
             || (optional (currentStateCommandKey command) !== stateKey)))
     || (str_eqb lifecycle (js "Order")
         && (negb (nonBlank previousOrderResultId)
             || negb (nonBlank orderStateKey)
             || (Str (current command) !== expectedOrderStatus)
             || (optional (aggregateId command) !== orderId)
             || (optional (currentStateResultId command) !== previousOrderResultId)
             || (optional (currentStateCommandKey command) !== orderStateKey)
             || (expectedOrder ?. "id" !== orderId)
             || (expectedOrder ?. "phaseId" !== phaseId)
             || (expectedOrder ?. "status" !== Str (current command))
             || (expectedOrder ?. "resultId" !== previousOrderResultId)
             || (expectedOrder ?. "currentStateCommandKey" !== orderStateKey)
             || (expectedOrder ?. "immutable" !== Bool true)))
     || (str_eqb lifecycle (js "OrderPhase(single)")
         && (negb (nonBlank previousPhaseResultId)
             || negb (nonBlank phaseStateKey)
             || (Str (current command) !== expectedPhaseStatus)
             || (optional (aggregateId command) !== phaseId)
             || (optional (currentStateResultId command) !== previousPhaseResultId)
             || (optional (currentStateCommandKey command) !== phaseStateKey)
             || (expectedPhase ?. "id" !== phaseId)
             || (expectedPhase ?. "orderId" !== orderId)
             || (expectedPhase ?. "status" !== Str (current command))
             || (expectedPhase ?. "resultId" !== previousPhaseResultId)
             || (expectedPhase ?. "currentStateCommandKey" !== phaseStateKey)
             || (expectedPhase ?. "immutable" !== Bool true)))
     || (context_ ?. "cancellationRaceResultKind" !== kind)
     || (context_ ?. "cancellationRaceResultShipmentId" !== shipmentId)
     || (context_ ?. "cancellationRaceResultOrderId" !== orderId)
     || (context_ ?. "cancellationRaceResultPhaseId" !== phaseId)
     || (context_ ?. "cancellationRaceResultProviderEventId" !== providerEventId)
     || (context_ ?. "cancellationRaceResultProviderTransactionId" !== providerTransactionId)
     || (context_ ?. "cancellationRaceResultShipmentPreviousStatus" !== sourceStatus)
     || (context_ ?. "cancellationRaceResultShipmentTargetStatus" !== lit "handed_over")
     || (context_ ?. "cancellationRaceAggregateResultId" !== resultId)
     || (context_ ?. "cancellationRaceShipmentResultId" !== resultId)
     || (context_ ?. "cancellationRaceFinancialResultId" !== resultId)
     || (context_ ?. "cancellationRaceAuthorizationResultId" !== resultId)
     || (context_ ?. "cancellationRaceJobResultId" !== resultId)
     || (context_ ?. "cancellationRaceBarrierResultId" !== resultId)
     || (context_ ?. "cancellationRaceBarrierResultStatus" !== lit "scan_won_reconciled")) ;;
  requireExactHandoffShipmentOrigin command
    (if (kind === lit "replacement") || (kind === lit "reship") then kind else lit "ordinary") ;;
  requireFlag command "cancellationRaceAggregateCompleted" ;;
  requireFlag command "cancellationRaceFinancialCompleted" ;;
  requireFlag command "cancellationRaceAuthorizationCompleted" ;;
  requireFlag command "cancellationRaceJobCompleted" ;;
  requireFlag command "cancellationRaceResultCompleted" ;;
  requireFlag command "cancellationRaceResultAtomic" ;;
  if kind === lit "ordinary" then
    guard_when
      ((context_ ?. "cancellationRaceAggregateResultStatus" !== lit "order_phase_shipped")
       || (context_ ?. "cancellationRaceFinancialResultStatus" !== lit "balances_zero")
       || (context_ ?. "cancellationRaceAuthorizationResultStatus"
             !== lit "ordinary_handoff_authorized")
       || (context_ ?. "cancellationRaceJobResultStatus"
             !== lit "complete_job_set_handed_over")) ;;
    requireFlag command "shipmentHandoffAuthorized" ;;
    requireZeroBalances command ;;
    requireAtomicOrdinaryHandoff lifecycle command
      (RecordV 0
         [(js "shipmentPrevious", sourceStatus);
          (js "orderPrevious",
           if refundedAggregate
           then lit "refunded"
           else if committedCancellation then lit "cancelled" else lit "ready_to_ship");
          (js "phasePrevious",
           if refundedAggregate
           then lit "cancelled_refunded"
           else if committedCancellation then lit "cancelled" else lit "qc_passed");
          (js "jobPrevious", if committedCancellation
           || refundedAggregate then lit "cancelled" else lit "packed");
          (js "orderTarget", lit "shipped"); (js "phaseTarget", lit "shipped");
          (js "resultProof", lit "cancellation_race")])
  else if kind === lit "unauthorized_reconciliation" then
    let reconciliationId := context_ ?. "handoffReconciliationId" in
    let settlementId := context_ ?. "handoffSettlementId" in
    let refundedSettlement := record (context_ ?. "handoffRefundedSettlement") in
    guard_when
      ((context_ ?. "cancellationRaceAggregateResultStatus" !== lit "order_phase_shipped")
       || (context_ ?. "cancellationRaceFinancialResultStatus"
             !== lit "unauthorized_handoff_settled")
       || (context_ ?. "cancellationRaceAuthorizationResultStatus"
             !== lit "unauthorized_reconciliation")
       || (context_ ?. "cancellationRaceJobResultStatus" !== lit "complete_job_set_handed_over")
       || negb (nonBlank reconciliationId)
       || (context_ ?. "handoffReconciliationResultId" !== resultId)
       || (context_ ?. "handoffReconciliationShipmentId" !== shipmentId)
       || (context_ ?. "handoffReconciliationOrderId" !== orderId)
       || (context_ ?. "handoffReconciliationPhaseId" !== phaseId)
       || (context_ ?. "handoffReconciliationProviderEventId" !== providerEventId)
       || (context_ ?. "handoffReconciliationProviderTransactionId" !== providerTransactionId)
       || (context_ ?. "handoffReconciliationStatus" !== lit "completed")
       || (context_ ?. "handoffReconciliationAtomic" !== Bool true)
       || negb (nonBlank settlementId)
       || (negb refundedAggregate && (context_ ?. "handoffSettlementShipmentId" !== shipmentId))
       || (context_ ?. "handoffSettlementOrderId" !== orderId)
       || (context_ ?. "handoffSettlementPhaseId" !== phaseId)
       || (context_ ?. "handoffSettlementKind" !== lit "handoff_reconciliation")
       || (context_ ?. "handoffSettlementImmutable" !== Bool true)
       || (context_ ?. "handoffSettlementResultId"
             !== if refundedAggregate then refundedSettlement ?. "resultId" else resultId)) ;;
    requireFlag command "handoffReconciliation" ;;
    requireFlag command "handoffSettlementCompleted" ;;
    when (refundedAggregate) (requireExactRefundedHandoffFinancialProof command) ;;
    requireZeroAmountDue command ;;
    requireReconciliationRefundAllocation command ;;
    requireAtomicOrdinaryHandoff lifecycle command
      (RecordV 0
         ([(js "shipmentPrevious", sourceStatus);
           (js "orderPrevious",
            if refundedAggregate then lit "refunded" else lit "awaiting_balance");
           (js "phasePrevious",
            if refundedAggregate then lit "cancelled_refunded" else lit "qc_passed");
           (js "jobPrevious", if refundedAggregate then lit "cancelled" else lit "packed")]
          ++ fields
               (if refundedAggregate
                then RecordV 0 [(js "slotPrevious", lit "cancelled_refunded")]
                else RecordV 0 [])
          ++ [(js "allowLaterParcel", Bool laterRefundedParcel);
              (js "resultProof", lit "cancellation_race")]))
  else if kind === lit "replacement" then
    guard_when
      ((context_ ?. "cancellationRaceAggregateResultStatus" !== lit "replacement_child_shipped")
       || (context_ ?. "cancellationRaceFinancialResultStatus" !== lit "claim_remedy_no_charge")
       || (context_ ?. "cancellationRaceAuthorizationResultStatus"
             !== lit "replacement_authorization_consumed")
       || (context_ ?. "cancellationRaceJobResultStatus"
             !== lit "complete_replacement_job_set_handed_over")) ;;
    requireFlag command "replacementFulfilmentAuthorizationConsumed" ;;
    requireFlag command "replacementFulfilmentHandoffCompleted" ;;
    requireAtomicCompleteReplacementHandoff lifecycle command shipmentId true sourceStatus
  else
  guard_when
    ((context_ ?. "cancellationRaceAggregateResultStatus" !== lit "reship_child_shipped")
     || (context_ ?. "cancellationRaceFinancialResultStatus" !== lit "claim_remedy_no_charge")
     || (context_ ?. "cancellationRaceAuthorizationResultStatus"
           !== lit "reship_authorization_consumed")
     || (context_ ?. "cancellationRaceJobResultStatus" !== lit "original_job_unchanged")) ;;
  requireFlag command "reshipmentAuthorizationConsumed" ;;
  requireFlag command "reshipmentHandoffCompleted" ;;
  requireExactReshipmentHandoff lifecycle command shipmentId true sourceStatus.

(** ** They fail only as guards *)

#[global] Typeclasses Opaque
  requireVerifiedMatchingCancellationRaceScan
  requireAtomicOrdinaryHandoff
  requireExactHandoffShipmentOrigin
  requireExactRefundedHandoffFinancialProof
  requireExactCancellationRaceHandoffResult.

#[export] Instance guard_only_requireVerifiedMatchingCancellationRaceScan command :
  GuardOnly (requireVerifiedMatchingCancellationRaceScan command).
Proof. cbv beta delta [requireVerifiedMatchingCancellationRaceScan]. guard_only. Qed.

#[export] Instance guard_only_requireAtomicOrdinaryHandoff lifecycle command expectedStatuses :
  GuardOnly (requireAtomicOrdinaryHandoff lifecycle command expectedStatuses).
Proof. cbv beta delta [requireAtomicOrdinaryHandoff]. guard_only. Qed.

#[export] Instance guard_only_requireExactHandoffShipmentOrigin command expectedKind :
  GuardOnly (requireExactHandoffShipmentOrigin command expectedKind).
Proof. cbv beta delta [requireExactHandoffShipmentOrigin]. guard_only. Qed.

#[export] Instance guard_only_requireExactRefundedHandoffFinancialProof command :
  GuardOnly (requireExactRefundedHandoffFinancialProof command).
Proof. cbv beta delta [requireExactRefundedHandoffFinancialProof]. guard_only. Qed.

#[export] Instance guard_only_requireExactCancellationRaceHandoffResult lifecycle command :
  GuardOnly (requireExactCancellationRaceHandoffResult lifecycle command).
Proof. cbv beta delta [requireExactCancellationRaceHandoffResult]. guard_only. Qed.
