(* ===== verification/Shipments.v ===== *)
(** The lifecycle of a shipment (lifecycle/policies.ts): its label, its
    cancellation and the provider's void, the provider's outcomes and
    incidents, and its policy. *)
From S2P Require Import Prelude Text Primitives Values Transition Guards Lifecycles Replacements ClaimSlots Handoffs.

Import Transition.

(** ** Guards *)

Definition requireAtomicPlannedShipmentCancellation (command : TransitionCommand) : result () :=
  let context_ := context command in
  let shipmentId := context_ ?. "shipmentId" in
  let orderId := context_ ?. "orderId" in
  let phaseId := context_ ?. "phaseId" in
  let resultId := context_ ?. "plannedShipmentCancellationResultId" in
  let previousShipmentResultId :=
    context_ ?. "plannedShipmentCancellationPreviousShipmentResultId" in
  let stateKey := context_ ?. "plannedShipmentCancellationCurrentStateCommandKey" in
  let shipmentValue := context_ ?. "plannedShipmentCancellationShipment" in
  let shipment := record shipmentValue in
  let expectedShipmentValue := context_ ?. "plannedShipmentCancellationExpectedShipment" in
  let expectedShipment := record expectedShipmentValue in
  let resourceSetId := context_ ?. "plannedShipmentCancellationAuthoritativeResourceSetId" in
  let resourceSetValue := context_ ?. "plannedShipmentCancellationAuthoritativeResourceSet" in
  let resourceSet := record resourceSetValue in
  let jobIdsValue := resourceSet ?. "jobIds" in
  let reservationIdsValue := resourceSet ?. "reservationIds" in
  let jobIds := array jobIdsValue in
  let reservationIds := array reservationIdsValue in
  let jobsValue := context_ ?. "plannedShipmentCancellationJobs" in
  let reservationsValue := context_ ?. "plannedShipmentCancellationReservations" in
  let jobs := array jobsValue in
  let reservations := array reservationsValue in
  let barrierValue := context_ ?. "plannedShipmentCancellationParentBarrier" in
  let barrier := record barrierValue in
  guard_when
    (negb (nonBlank shipmentId)
     || negb (nonBlank orderId)
     || negb (nonBlank phaseId)
     || negb (nonBlank resultId)
     || (optional (aggregateId command) !== shipmentId)
     || negb (nonBlank (optional (currentStateCommandKey command)))
     || (optional (currentStateCommandKey command) !== stateKey)
     || negb (nonBlank (optional (currentStateResultId command)))
     || (optional (currentStateResultId command) !== previousShipmentResultId)
     || (context_ ?. "plannedShipmentCancellationExpectedShipmentId" !== shipmentId)
     || (context_ ?. "plannedShipmentCancellationExpectedOrderId" !== orderId)
     || (context_ ?. "plannedShipmentCancellationExpectedPhaseId" !== phaseId)
     || (shipment ?. "id" !== shipmentId)
     || (shipment ?. "orderId" !== orderId)
     || (shipment ?. "phaseId" !== phaseId)
     || (shipment ?. "previousStatus" !== lit "planned")
     || (shipment ?. "targetStatus" !== lit "cancelled")
     || (shipment ?. "resultId" !== resultId)
     || (expectedShipment ?. "id" !== shipmentId)
     || (expectedShipment ?. "orderId" !== orderId)
     || (expectedShipment ?. "phaseId" !== phaseId)
     || (expectedShipment ?. "status" !== lit "planned")
     || (expectedShipment ?. "resultId" !== previousShipmentResultId)
     || (expectedShipment ?. "currentStateCommandKey" !== stateKey)
     || (expectedShipment ?. "immutable" !== Bool true)
     || negb (nonBlank resourceSetId)
     || (context_ ?. "plannedShipmentCancellationExpectedResourceSetId" !== resourceSetId)
     || (resourceSet ?. "id" !== resourceSetId)
     || (resourceSet ?. "shipmentId" !== shipmentId)
     || (resourceSet ?. "orderId" !== orderId)
     || (resourceSet ?. "phaseId" !== phaseId)
     || (resourceSet ?. "immutable" !== Bool true)
     || (resourceSet ?. "resultId" !== resultId)
     || (jobIds === Undefined)
     || (js_len jobIds =? 0)
     || negb (forallb nonBlank (elements jobIds))
     || negb (zlength (set_of (elements jobIds)) =? js_len jobIds)
     || (reservationIds === Undefined)
     || negb (js_len reservationIds =? js_len jobIds)
     || negb (forallb nonBlank (elements reservationIds))
     || negb (zlength (set_of (elements reservationIds)) =? js_len reservationIds)
     || (jobs === Undefined)
     || negb (js_len jobs =? js_len jobIds)
     || (reservations === Undefined)
     || negb (js_len reservations =? js_len reservationIds)
     || (barrier ?. "shipmentId" !== shipmentId)
     || (barrier ?. "orderId" !== orderId)
     || (barrier ?. "phaseId" !== phaseId)
     || (barrier ?. "previousStatus" !== lit "open")
     || (barrier ?. "targetStatus" !== lit "released")
     || (barrier ?. "resultId" !== resultId)
     || (context_ ?. "plannedShipmentCancellationCompleted" !== Bool true)
     || (context_ ?. "plannedShipmentCancellationAtomic" !== Bool true)) ;;
  let cancellableJobStatuses :=
    [lit "created"; lit "accepted"; lit "gcode_ready"; lit "printing"; lit "printed";
     lit "photo_submitted"; lit "qc_approved"; lit "packed"] in
  let releasableReservationStatuses :=
    [lit "held"; lit "allocated"; lit "scheduled"; lit "printing"] in
  let jobByReservationId : list (value * value) := [] in
  let projectedJobIds : list value := [] in
  '(projectedJobIds, jobByReservationId) ← foldM (λ '(projectedJobIds, jobByReservationId) value_,
    guard_when (negb (is_record value_)) ;;
    let job := value_ in
    let id := job ?. "id" in
    let reservationId := job ?. "reservationId" in
    guard_when
      (negb (nonBlank id)
       || set_has projectedJobIds id
       || negb (includes (elements jobIds) id)
       || negb (nonBlank reservationId)
       || negb (includes (elements reservationIds) reservationId)
       || map_has jobByReservationId reservationId
       || (job ?. "shipmentId" !== shipmentId)
       || (job ?. "orderId" !== orderId)
       || (job ?. "phaseId" !== phaseId)
       || negb (set_has cancellableJobStatuses (job ?. "previousStatus"))
       || (job ?. "targetStatus" !== lit "cancelled")
       || (job ?. "resultId" !== resultId)) ;;
    let projectedJobIds := set_add projectedJobIds id in
    let jobByReservationId := map_set jobByReservationId reservationId id in
    Ok (projectedJobIds, jobByReservationId)) (projectedJobIds, jobByReservationId)
      (elements jobs);
  guard_when (existsb (λ id, negb (set_has projectedJobIds id)) (elements jobIds)) ;;
  let projectedReservationIds : list value := [] in
  projectedReservationIds ← foldM (λ projectedReservationIds value_,
    guard_when (negb (is_record value_)) ;;
    let reservation := value_ in
    let id := reservation ?. "id" in
    guard_when
      (negb (nonBlank id)
       || set_has projectedReservationIds id
       || negb (includes (elements reservationIds) id)
       || (reservation ?. "jobId" !== map_get jobByReservationId id)
       || (reservation ?. "shipmentId" !== shipmentId)
       || (reservation ?. "orderId" !== orderId)
       || (reservation ?. "phaseId" !== phaseId)
       || negb (set_has releasableReservationStatuses (reservation ?. "previousStatus"))
       || ((reservation ?. "targetStatus" !== lit "released")
           && (reservation ?. "targetStatus" !== lit "settled"))
       || (reservation ?. "resultId" !== resultId)) ;;
    Ok (set_add projectedReservationIds id)) projectedReservationIds (elements reservations);
  guard_when
    (existsb (λ id, negb (set_has projectedReservationIds id)) (elements reservationIds)).

Definition requireShipmentCancellationReleased (command : TransitionCommand) : result () :=
  requireFlag command "shipmentJobsAndReservationsReleased" ;;
  requireFlag command "parentCancellationBarrierReleased".

Definition requireExactVerifiedProviderVoid (command : TransitionCommand) : result () :=
  let context_ := context command in
  let shipmentId := context_ ?. "shipmentId" in
  let labelId := context_ ?. "carrierLabelId" in
  let expectedShipmentId := context_ ?. "shipmentCancellationExpectedShipmentId" in
  let expectedLabelId := context_ ?. "shipmentCancellationExpectedCarrierLabelId" in
  let outboxId := context_ ?. "providerVoidOutboxId" in
  let eventId := context_ ?. "providerVoidEventId" in
  let transactionId := context_ ?. "providerVoidTransactionId" in
  let cancellationResultId := context_ ?. "shipmentCancellationResultId" in
  let previousShipmentResultId :=
    context_ ?. "shipmentCancellationCompletionPreviousShipmentResultId" in
  let stateKey := context_ ?. "shipmentCancellationCompletionCurrentStateCommandKey" in
  let expectedShipmentValue := context_ ?. "shipmentCancellationCompletionExpectedShipment" in
  let expectedShipment := record expectedShipmentValue in
  let requestValue := context_ ?. "shipmentCancellationRequest" in
  let request := record requestValue in
  let requestId := context_ ?. "shipmentCancellationRequestId" in
  let payload := context_ ?. "providerVoidOutboxPayload" in
  let payloadRecord := record payload in
  let expectedIdempotencyKey :=
    if nonBlank expectedShipmentId && nonBlank expectedLabelId
    then Str
           (js "void_carrier_label:"
            ++ text_of expectedShipmentId
            ++ js ":"
            ++ text_of expectedLabelId)
    else Undefined in
  guard_when
    (negb (nonBlank shipmentId)
     || negb (nonBlank labelId)
     || negb (nonBlank expectedShipmentId)
     || negb (nonBlank expectedLabelId)
     || (shipmentId !== expectedShipmentId)
     || (labelId !== expectedLabelId)
     || negb (nonBlank previousShipmentResultId)
     || negb (nonBlank stateKey)
     || (optional (aggregateId command) !== shipmentId)
     || (optional (currentStateResultId command) !== previousShipmentResultId)
     || (optional (currentStateCommandKey command) !== stateKey)
     || (expectedShipment ?. "id" !== shipmentId)
     || (expectedShipment ?. "status" !== lit "cancellation_pending")
     || (expectedShipment ?. "resultId" !== previousShipmentResultId)
     || (expectedShipment ?. "currentStateCommandKey" !== stateKey)
     || (expectedShipment ?. "immutable" !== Bool true)
     || negb (nonBlank requestId)
     || (request ?. "id" !== requestId)
     || (request ?. "shipmentId" !== shipmentId)
     || (request ?. "carrierLabelId" !== labelId)
     || (request ?. "previousStatus" !== lit "label_created")
     || (request ?. "targetStatus" !== lit "cancellation_pending")
     || (request ?. "resultId" !== cancellationResultId)
     || (request ?. "immutable" !== Bool true)
     || negb (nonBlank outboxId)
     || negb (nonBlank eventId)
     || negb (nonBlank transactionId)
     || negb (nonBlank cancellationResultId)
     || (context_ ?. "providerVoidOutboxResultId" !== cancellationResultId)
     || (context_ ?. "providerVoidOutboxIdempotencyKey" !== expectedIdempotencyKey)
     || (context_ ?. "providerVoidOutboxLabelId" !== expectedLabelId)
     || (context_ ?. "providerVoidOutboxPayloadShipmentId" !== expectedShipmentId)
     || (context_ ?. "providerVoidOutboxPayloadCarrierLabelId" !== expectedLabelId)
     || (context_ ?. "providerVoidOutboxPayloadAction" !== lit "void_carrier_label")
     || (payloadRecord ?. "shipmentId" !== expectedShipmentId)
     || (payloadRecord ?. "carrierLabelId" !== expectedLabelId)
     || (payloadRecord ?. "action" !== lit "void_carrier_label")
     || (context_ ?. "providerVoidOutboxShipmentId" !== shipmentId)
     || (context_ ?. "providerVoidOutboxCarrierLabelId" !== labelId)
     || (context_ ?. "providerVoidOutboxLabelId" !== labelId)
     || (context_ ?. "providerVoidOutboxCancellationRequestId" !== requestId)
     || (context_ ?. "providerVoidEventShipmentId" !== shipmentId)
     || (context_ ?. "providerVoidEventLabelId" !== labelId)
     || (context_ ?. "providerVoidEventOutboxId" !== outboxId)
     || (context_ ?. "providerVoidEventCancellationRequestId" !== requestId)
     || (context_ ?. "providerVoidTransactionShipmentId" !== shipmentId)
     || (context_ ?. "providerVoidTransactionLabelId" !== labelId)
     || (context_ ?. "providerVoidTransactionOutboxId" !== outboxId)
     || (context_ ?. "providerVoidTransactionCancellationRequestId" !== requestId)
     || (context_ ?. "providerVoidEventTransactionId" !== transactionId)
     || (context_ ?. "providerVoidOutboxPreviousStatus" !== lit "pending")
     || (context_ ?. "providerVoidOutboxTargetStatus" !== lit "succeeded")
     || (context_ ?. "providerVoidEventStatus" !== lit "succeeded")
     || (context_ ?. "providerVoidTransactionStatus" !== lit "succeeded")
     || (context_ ?. "providerVoidEventAuthenticated" !== Bool true)
     || (context_ ?. "providerVoidResultVerified" !== Bool true)
     || (context_ ?. "shipmentCancellationReleaseAtomic" !== Bool true)).

Definition requireExactShipmentProviderOutcome (command : TransitionCommand) : result () :=
  let context_ := context command in
  let shipmentId := context_ ?. "shipmentId" in
  let orderId := context_ ?. "orderId" in
  let phaseId := context_ ?. "phaseId" in
  let labelId := context_ ?. "carrierLabelId" in
  let providerEventId := context_ ?. "providerEventId" in
  let providerTransactionId := context_ ?. "shipmentProviderTransactionId" in
  let previousResultId := context_ ?. "shipmentProviderOutcomePreviousResultId" in
  let resultId := context_ ?. "shipmentProviderOutcomeResultId" in
  let stateKey := context_ ?. "shipmentProviderOutcomeCurrentStateCommandKey" in
  let expectedValue := context_ ?. "shipmentProviderOutcomeExpectedShipment" in
  let expected := record expectedValue in
  let eventValue := context_ ?. "shipmentProviderOutcomeEvent" in
  let event := record eventValue in
  let transactionValue := context_ ?. "shipmentProviderOutcomeTransaction" in
  let transaction := record transactionValue in
  guard_when
    (negb (nonBlank shipmentId)
     || negb (nonBlank orderId)
     || negb (nonBlank phaseId)
     || negb (nonBlank labelId)
     || negb (nonBlank providerEventId)
     || negb (nonBlank providerTransactionId)
     || negb (nonBlank previousResultId)
     || negb (nonBlank resultId)
     || negb (nonBlank stateKey)
     || (optional (aggregateId command) !== shipmentId)
     || negb (nonBlank (optional (currentStateResultId command)))
     || (optional (currentStateResultId command) !== previousResultId)
     || (optional (currentStateCommandKey command) !== stateKey)
     || (context_ ?. "providerEventShipmentId" !== shipmentId)
     || (context_ ?. "providerEventTransactionId" !== providerTransactionId)
     || (context_ ?. "providerEventStatus" !== Str (target command))
     || (context_ ?. "providerEventAuthenticated" !== Bool true)
     || (context_ ?. "providerEventVerified" !== Bool true)
     || (expected ?. "id" !== shipmentId)
     || (expected ?. "orderId" !== orderId)
     || (expected ?. "phaseId" !== phaseId)
     || (expected ?. "carrierLabelId" !== labelId)
     || (expected ?. "status" !== Str (current command))
     || (expected ?. "resultId" !== previousResultId)
     || (expected ?. "currentStateCommandKey" !== stateKey)
     || (expected ?. "immutable" !== Bool true)
     || (event ?. "id" !== providerEventId)
     || (event ?. "shipmentId" !== shipmentId)
     || (event ?. "carrierLabelId" !== labelId)
     || (event ?. "transactionId" !== providerTransactionId)
     || (event ?. "previousStatus" !== Str (current command))
     || (event ?. "targetStatus" !== Str (target command))
     || (event ?. "status" !== Str (target command))
     || (event ?. "authenticated" !== Bool true)
     || (event ?. "verified" !== Bool true)
     || (event ?. "resultId" !== resultId)
     || (event ?. "immutable" !== Bool true)
     || (transaction ?. "id" !== providerTransactionId)
     || (transaction ?. "shipmentId" !== shipmentId)
     || (transaction ?. "carrierLabelId" !== labelId)
     || (transaction ?. "eventId" !== providerEventId)
     || (transaction ?. "status" !== lit "succeeded")
     || (transaction ?. "resultId" !== resultId)
     || (transaction ?. "immutable" !== Bool true)
     || (context_ ?. "shipmentProviderOutcomeShipmentResultId" !== resultId)
     || (context_ ?. "shipmentProviderOutcomeEventResultId" !== resultId)
     || (context_ ?. "shipmentProviderOutcomeTransactionResultId" !== resultId)
     || (context_ ?. "shipmentProviderOutcomeCompleted" !== Bool true)
     || (context_ ?. "shipmentProviderOutcomeAtomic" !== Bool true)).

Definition requireAtomicShipmentLabelCreation (command : TransitionCommand) : result () :=
  let context_ := context command in
  let shipmentId := context_ ?. "shipmentId" in
  let orderId := context_ ?. "orderId" in
  let phaseId := context_ ?. "phaseId" in
  let planId := context_ ?. "shipmentPlanId" in
  let labelId := context_ ?. "carrierLabelId" in
  let resultId := context_ ?. "shipmentLabelCreationResultId" in
  let shipmentPreviousResultId := context_ ?. "shipmentLabelCreationPreviousShipmentResultId" in
  let shipmentStateKey := context_ ?. "shipmentLabelCreationCurrentStateCommandKey" in
  let providerEventId := context_ ?. "shipmentLabelCreationProviderEventId" in
  let providerTransactionId := context_ ?. "shipmentLabelCreationProviderTransactionId" in
  let expectedValue := context_ ?. "shipmentLabelCreationExpectedShipment" in
  let expected := record expectedValue in
  let labelValue := context_ ?. "shipmentLabelCreationCarrierLabel" in
  let label := record labelValue in
  let outboxValue := context_ ?. "shipmentLabelCreationOutbox" in
  let outbox := record outboxValue in
  let eventValue := context_ ?. "shipmentLabelCreationProviderEvent" in
  let event := record eventValue in
  let expectedKey :=
    if nonBlank shipmentId && nonBlank planId
    then Str (js "create_carrier_label:" ++ text_of shipmentId ++ js ":" ++ text_of planId)
    else Undefined in
  guard_when
    (negb (nonBlank shipmentId)
     || negb (nonBlank orderId)
     || negb (nonBlank phaseId)
     || negb (nonBlank planId)
     || negb (nonBlank labelId)
     || negb (nonBlank resultId)
     || negb (nonBlank shipmentPreviousResultId)
     || negb (nonBlank shipmentStateKey)
     || negb (nonBlank providerEventId)
     || negb (nonBlank providerTransactionId)
     || (optional (aggregateId command) !== shipmentId)
     || negb (nonBlank (optional (currentStateResultId command)))
     || (optional (currentStateResultId command) !== shipmentPreviousResultId)
     || (optional (currentStateCommandKey command) !== shipmentStateKey)
     || (expected ?. "id" !== shipmentId)
     || (expected ?. "orderId" !== orderId)
     || (expected ?. "phaseId" !== phaseId)
     || (expected ?. "planId" !== planId)
     || (expected ?. "status" !== lit "planned")
     || (expected ?. "resultId" !== shipmentPreviousResultId)
     || (expected ?. "currentStateCommandKey" !== shipmentStateKey)
     || (expected ?. "immutable" !== Bool true)
     || (context_ ?. "shipmentLabelCreationShipmentId" !== shipmentId)
     || (context_ ?. "shipmentLabelCreationOrderId" !== orderId)
     || (context_ ?. "shipmentLabelCreationPhaseId" !== phaseId)
     || (context_ ?. "shipmentLabelCreationPlanId" !== planId)
     || (context_ ?. "shipmentLabelCreationPreviousStatus" !== lit "planned")
     || (context_ ?. "shipmentLabelCreationTargetStatus" !== lit "label_created")
     || (context_ ?. "shipmentLabelCreationCarrierLabelId" !== labelId)
     || (label ?. "id" !== labelId)
     || (label ?. "shipmentId" !== shipmentId)
     || (label ?. "orderId" !== orderId)
     || (label ?. "phaseId" !== phaseId)
     || (label ?. "planId" !== planId)
     || negb (nonBlank (label ?. "carrierId"))
     || (label ?. "status" !== lit "usable")
     || (label ?. "immutable" !== Bool true)
     || (label ?. "resultId" !== resultId)
     || negb (nonBlank (outbox ?. "id"))
     || (outbox ?. "shipmentId" !== shipmentId)
     || (outbox ?. "planId" !== planId)
     || (outbox ?. "carrierLabelId" !== labelId)
     || (outbox ?. "idempotencyKey" !== expectedKey)
     || (outbox ?. "action" !== lit "create_carrier_label")
     || (outbox ?. "previousStatus" !== lit "pending")
     || (outbox ?. "targetStatus" !== lit "succeeded")
     || (outbox ?. "resultId" !== resultId)
     || (event ?. "id" !== providerEventId)
     || (event ?. "outboxId" !== outbox ?. "id")
     || (event ?. "shipmentId" !== shipmentId)
     || (event ?. "carrierLabelId" !== labelId)
     || (event ?. "transactionId" !== providerTransactionId)
     || (event ?. "status" !== lit "succeeded")
     || (event ?. "authenticated" !== Bool true)
     || (event ?. "verified" !== Bool true)
     || (event ?. "resultId" !== resultId)
     || (context_ ?. "shipmentLabelCreationShipmentResultId" !== resultId)
     || (context_ ?. "shipmentLabelCreationLabelResultId" !== resultId)
     || (context_ ?. "shipmentLabelCreationOutboxResultId" !== resultId)
     || (context_ ?. "shipmentLabelCreationProviderEventResultId" !== resultId)
     || (context_ ?. "shipmentLabelCreationCompleted" !== Bool true)
     || (context_ ?. "shipmentLabelCreationAtomic" !== Bool true)).

Definition requireAtomicShipmentIncidentRouting (command : TransitionCommand) : result () :=
  let shipmentId := (context command) ?. "shipmentId" in
  let orderId := (context command) ?. "orderId" in
  let phaseId := (context command) ?. "phaseId" in
  let previousResultId := (context command) ?. "shipmentProviderOutcomePreviousResultId" in
  let stateKey := (context command) ?. "shipmentProviderOutcomeCurrentStateCommandKey" in
  let resultId := (context command) ?. "shipmentIncidentRoutingResultId" in
  let expectedValue := (context command) ?. "shipmentProviderOutcomeExpectedShipment" in
  let expected := record expectedValue in
  let slotSetId := (context command) ?. "shipmentIncidentAuthoritativeSlotSetId" in
  let slotSetResultId := (context command) ?. "shipmentIncidentAuthoritativeSlotSetResultId" in
  let slotSetValue := (context command) ?. "shipmentIncidentAuthoritativeSlotSet" in
  let slotSet := record slotSetValue in
  let authoritativeSlotIdsValue := slotSet ?. "slotIds" in
  let authoritativeSlotIds := array authoritativeSlotIdsValue in
  let ownershipSourcesValue := slotSet ?. "slotOwnershipSources" in
  let ownershipSources := array ownershipSourcesValue in
  let originClaimIdValue := (context command) ?. "shipmentOriginClaimId" in
  guard_when
    (negb (nonBlank shipmentId)
     || ((context command) ?. "incidentShipmentId" !== shipmentId)
     || negb (nonBlank orderId)
     || ((context command) ?. "incidentOrderId" !== orderId)
     || negb (nonBlank phaseId)
     || ((context command) ?. "incidentPhaseId" !== phaseId)
     || negb (nonBlank previousResultId)
     || negb (nonBlank stateKey)
     || negb (nonBlank resultId)
     || (resultId !== (context command) ?. "shipmentProviderOutcomeResultId")
     || negb (nonBlank slotSetId)
     || negb (nonBlank slotSetResultId)
     || (optional (ownershipSnapshotId command) !== slotSetId)
     || (optional (ownershipSnapshotResultId command) !== slotSetResultId)
     || ((context command) ?. "shipmentIncidentExpectedSlotSetId" !== slotSetId)
     || (expected ?. "incidentSlotSetId" !== slotSetId)
     || (expected ?. "incidentSlotSetResultId" !== slotSetResultId)
     || (expected ?. "incidentOriginClaimId" !== originClaimIdValue)
     || (slotSet ?. "id" !== slotSetId)
     || (slotSet ?. "shipmentId" !== shipmentId)
     || (slotSet ?. "orderId" !== orderId)
     || (slotSet ?. "phaseId" !== phaseId)
     || (slotSet ?. "status" !== Str (current command))
     || (slotSet ?. "targetStatus" !== Str (target command))
     || (slotSet ?. "previousShipmentResultId" !== previousResultId)
     || (slotSet ?. "currentStateCommandKey" !== stateKey)
     || (slotSet ?. "resultId" !== slotSetResultId)
     || (slotSet ?. "routingResultId" !== resultId)
     || (slotSet ?. "originClaimId" !== originClaimIdValue)
     || (slotSet ?. "immutable" !== Bool true)
     || (authoritativeSlotIds === Undefined)
     || (ownershipSources === Undefined)
     || negb (js_len ownershipSources =? js_len authoritativeSlotIds)) ;;
  let shipmentSlotIdsValue := (context command) ?. "shipmentFulfilmentSlotIds" in
  let affectedSlotIdsValue := (context command) ?. "incidentAffectedSlotIds" in
  let ownershipsValue := (context command) ?. "shipmentIncidentSlotOwnerships" in
  let routesValue := (context command) ?. "shipmentIncidentSlotRoutes" in
  let shipmentSlotIds := array shipmentSlotIdsValue in
  let affectedSlotIds := array affectedSlotIdsValue in
  let ownerships := array ownershipsValue in
  let routes := array routesValue in
  guard_when
    ((shipmentSlotIds === Undefined)
     || (js_len shipmentSlotIds =? 0)
     || existsb (λ id, negb (nonBlank id)) (elements shipmentSlotIds)
     || negb (zlength (set_of (elements shipmentSlotIds)) =? js_len shipmentSlotIds)
     || (affectedSlotIds === Undefined)
     || negb (js_len affectedSlotIds =? js_len shipmentSlotIds)
     || existsb (λ id, negb (nonBlank id)) (elements affectedSlotIds)
     || negb (zlength (set_of (elements affectedSlotIds)) =? js_len affectedSlotIds)
     || (ownerships === Undefined)
     || negb (js_len ownerships =? js_len shipmentSlotIds)
     || (routes === Undefined)
     || negb (js_len routes =? js_len shipmentSlotIds)) ;;
  let authoritativeSlotIdList := authoritativeSlotIds in
  guard_when
    (negb (hasSameNonEmptyStringSet shipmentSlotIds authoritativeSlotIdList)
     || negb (hasSameNonEmptyStringSet affectedSlotIds authoritativeSlotIdList)) ;;
  let authoritativeOwnershipBySlotId : list (value * value) := [] in
  authoritativeOwnershipBySlotId ← foldM (λ authoritativeOwnershipBySlotId value_,
    guard_when (negb (is_record value_)) ;;
    let source := value_ in
    let slotId := source ?. "slotId" in
    let activeClaimId := source ?. "activeClaimId" in
    guard_when
      (negb (nonBlank slotId)
       || negb (includes (elements authoritativeSlotIdList) slotId)
       || map_has authoritativeOwnershipBySlotId slotId
       || (source ?. "slotSetId" !== slotSetId)
       || (source ?. "shipmentId" !== shipmentId)
       || (source ?. "orderId" !== orderId)
       || (source ?. "phaseId" !== phaseId)
       || (source ?. "status" !== Str (current command))
       || negb (nonBlank (source ?. "resultId"))
       || negb (nonBlank (source ?. "currentStateCommandKey"))
       || (source ?. "immutable" !== Bool true)
       || ((activeClaimId !== Null) && negb (nonBlank activeClaimId))) ;;
    Ok (map_set authoritativeOwnershipBySlotId slotId source)) authoritativeOwnershipBySlotId
      (elements ownershipSources);
  guard_when (negb (zlength authoritativeOwnershipBySlotId =? js_len authoritativeSlotIdList)) ;;
  let affectedIds := affectedSlotIds in
  guard_when
    (existsb (λ id, negb (includes (elements affectedIds) id)) (elements authoritativeSlotIdList)
     || existsb (λ id, negb (includes (elements authoritativeSlotIdList) id))
          (elements affectedIds)) ;;
  let activeClaimBySlotId : list (value * value) := [] in
  activeClaimBySlotId ← foldM (λ activeClaimBySlotId value_,
    guard_when (negb (is_record value_)) ;;
    let ownership := value_ in
    let slotId := ownership ?. "slotId" in
    let activeClaimId := ownership ?. "activeClaimId" in
    let source :=
      if is_string slotId then map_get authoritativeOwnershipBySlotId slotId else Undefined in
    guard_when
      (negb (is_string slotId)
       || negb (includes (elements affectedIds) slotId)
       || map_has activeClaimBySlotId slotId
       || (source === Undefined)
       || (ownership ?. "slotSetId" !== slotSetId)
       || (ownership ?. "shipmentId" !== shipmentId)
       || (ownership ?. "orderId" !== orderId)
       || (ownership ?. "phaseId" !== phaseId)
       || (ownership ?. "sourceResultId" !== source ?. "resultId")
       || (ownership ?. "sourceCurrentStateCommandKey" !== source ?. "currentStateCommandKey")
       || (activeClaimId !== source ?. "activeClaimId")
       || (ownership ?. "immutable" !== Bool true)
       || ((activeClaimId !== Null) && negb (nonBlank activeClaimId))) ;;
    Ok (map_set activeClaimBySlotId slotId activeClaimId)) activeClaimBySlotId
      (elements ownerships);
  guard_when (existsb (λ id, negb (map_has activeClaimBySlotId id)) (elements affectedIds)) ;;
  let originClaimId := if nonBlank originClaimIdValue then originClaimIdValue else Undefined in
  guard_when ((originClaimIdValue !== Null) && (originClaimId === Undefined)) ;;
  let newClaimValue := (context command) ?. "shipmentIncidentNewClaim" in
  let newClaim := record newClaimValue in
  let newClaimId := newClaim ?. "id" in
  let routedSlotIds : list value := [] in
  let incidentRecordIds : list value := [] in
  let childResolutionIds : list value := [] in
  let unownedSlotCount := 0 in
  '(unownedSlotCount, routedSlotIds, incidentRecordIds, childResolutionIds) ←
    foldM (λ '(unownedSlotCount, routedSlotIds, incidentRecordIds, childResolutionIds) value_,
    guard_when (negb (is_record value_)) ;;
    let route := value_ in
    let slotId := route ?. "slotId" in
    let ownerClaimId := route ?. "ownerClaimId" in
    let routedClaimId := route ?. "routedClaimId" in
    let incidentRecordId := route ?. "incidentRecordId" in
    let childResolutionId := route ?. "childResolutionId" in
    guard_when
      (negb (is_string slotId)
       || negb (includes (elements affectedIds) slotId)
       || set_has routedSlotIds slotId
       || (ownerClaimId !== map_get activeClaimBySlotId slotId)
       || ((ownerClaimId !== Null) && negb (nonBlank ownerClaimId))
       || negb (nonBlank routedClaimId)
       || negb (nonBlank incidentRecordId)
       || set_has incidentRecordIds incidentRecordId
       || (route ?. "incidentRecordShipmentId" !== shipmentId)
       || (route ?. "incidentRecordClaimId" !== routedClaimId)
       || (route ?. "incidentRecordSlotId" !== slotId)
       || negb (nonBlank childResolutionId)
       || set_has childResolutionIds childResolutionId
       || (route ?. "childResolutionClaimId" !== routedClaimId)
       || (route ?. "childResolutionSlotId" !== slotId)
       || (route ?. "childResolutionShipmentId" !== shipmentId)
       || (route ?. "childResolutionStatus" !== lit "recovery_pending")
       || (route ?. "claimStatus" !== lit "active")
       || (route ?. "claimRetentionHoldActive" !== Bool true)
       || (route ?. "slotSetId" !== slotSetId)
       || (route ?. "sourceResultId"
             !== (map_get authoritativeOwnershipBySlotId slotId) ?. "resultId")
       || (route ?. "sourceCurrentStateCommandKey"
             !== (map_get authoritativeOwnershipBySlotId slotId) ?. "currentStateCommandKey")
       || (route ?. "incidentRecordResultId" !== resultId)
       || (route ?. "childResolutionResultId" !== resultId)
       || (route ?. "resultId" !== resultId)) ;;
    unownedSlotCount ← (if originClaimId !== Undefined then
      guard_when
        (((ownerClaimId !== Null) && (ownerClaimId !== originClaimId))
         || (routedClaimId !== originClaimId)
         || (route ?. "createdNewClaim" !== Bool false)) ;;
      Ok unownedSlotCount
    else
      unownedSlotCount ← (if ownerClaimId === Null then
        let unownedSlotCount := unownedSlotCount + 1 in
        guard_when
          ((routedClaimId !== newClaimId) || (route ?. "createdNewClaim" !== Bool true)) ;;
        Ok unownedSlotCount
      else
        guard_when
          ((routedClaimId !== ownerClaimId) || (route ?. "createdNewClaim" !== Bool false)) ;;
        Ok unownedSlotCount);
      Ok unownedSlotCount);
    let routedSlotIds := set_add routedSlotIds slotId in
    let incidentRecordIds := set_add incidentRecordIds incidentRecordId in
    let childResolutionIds := set_add childResolutionIds childResolutionId in
    Ok (unownedSlotCount, routedSlotIds, incidentRecordIds, childResolutionIds))
      (unownedSlotCount, routedSlotIds, incidentRecordIds, childResolutionIds) (elements routes);
  guard_when (existsb (λ id, negb (set_has routedSlotIds id)) (elements affectedIds)) ;;
  (if (originClaimId !== Undefined) || (unownedSlotCount =? 0) then
    guard_when (newClaimValue !== Null)
  else
    guard_when
      (negb (nonBlank newClaimId)
       || (newClaim ?. "origin" !== lit "shipment_incident")
       || (newClaim ?. "shipmentId" !== shipmentId)
       || (newClaim ?. "orderId" !== orderId)
       || (newClaim ?. "phaseId" !== phaseId)
       || (newClaim ?. "status" !== lit "active")
       || (newClaim ?. "retentionHoldActive" !== Bool true)
       || (newClaim ?. "resultId" !== resultId))) ;;
  guard_when
    (((context command) ?. "shipmentIncidentShipmentResultId" !== resultId)
     || ((context command) ?. "shipmentIncidentRouteResultId" !== resultId)) ;;
  requireFlag command "shipmentIncidentRouted" ;;
  requireFlag command "shipmentIncidentRoutingAtomic".

Definition requireExactShipmentCancellationRequest (command : TransitionCommand) : result () :=
  let context_ := context command in
  let shipmentId := context_ ?. "shipmentId" in
  let carrierLabelId := context_ ?. "carrierLabelId" in
  let expectedShipmentId := context_ ?. "shipmentCancellationExpectedShipmentId" in
  let expectedCarrierLabelId := context_ ?. "shipmentCancellationExpectedCarrierLabelId" in
  let expectedIdempotencyKey :=
    if is_string shipmentId && is_string carrierLabelId
    then Str (js "void_carrier_label:" ++ text_of shipmentId ++ js ":" ++ text_of carrierLabelId)
    else Undefined in
  let payload := context_ ?. "providerVoidOutboxPayload" in
  let payloadRecord := record payload in
  let cancellationResultId := context_ ?. "shipmentCancellationResultId" in
  let previousShipmentResultId :=
    context_ ?. "shipmentCancellationRequestPreviousShipmentResultId" in
  let stateKey := context_ ?. "shipmentCancellationRequestCurrentStateCommandKey" in
  let expectedShipmentValue := context_ ?. "shipmentCancellationRequestExpectedShipment" in
  let expectedShipment := record expectedShipmentValue in
  let requestValue := context_ ?. "shipmentCancellationRequest" in
  let request := record requestValue in
  let requestId := context_ ?. "shipmentCancellationRequestId" in
  guard_when
    (negb (nonBlank shipmentId)
     || negb (nonBlank expectedShipmentId)
     || (shipmentId !== expectedShipmentId)
     || (context_ ?. "shipmentCancellationShipmentId" !== shipmentId)
     || negb (nonBlank carrierLabelId)
     || negb (nonBlank expectedCarrierLabelId)
     || (carrierLabelId !== expectedCarrierLabelId)
     || negb (nonBlank previousShipmentResultId)
     || negb (nonBlank stateKey)
     || (optional (aggregateId command) !== shipmentId)
     || (optional (currentStateResultId command) !== previousShipmentResultId)
     || (optional (currentStateCommandKey command) !== stateKey)
     || (expectedShipment ?. "id" !== shipmentId)
     || (expectedShipment ?. "status" !== lit "label_created")
     || (expectedShipment ?. "resultId" !== previousShipmentResultId)
     || (expectedShipment ?. "currentStateCommandKey" !== stateKey)
     || (expectedShipment ?. "immutable" !== Bool true)
     || negb (nonBlank requestId)
     || (request ?. "id" !== requestId)
     || (request ?. "shipmentId" !== shipmentId)
     || (request ?. "carrierLabelId" !== carrierLabelId)
     || (request ?. "previousStatus" !== lit "label_created")
     || (request ?. "targetStatus" !== lit "cancellation_pending")
     || (request ?. "resultId" !== cancellationResultId)
     || (request ?. "immutable" !== Bool true)
     || negb (nonBlank cancellationResultId)
     || (context_ ?. "shipmentCarrierLabelId" !== carrierLabelId)
     || (context_ ?. "carrierLabelInvalidationShipmentId" !== shipmentId)
     || (context_ ?. "carrierLabelInvalidationLabelId" !== carrierLabelId)
     || (context_ ?. "carrierLabelInvalidationStatusBefore" !== lit "usable")
     || (context_ ?. "carrierLabelInvalidationStatusAfter" !== lit "invalidated")
     || (context_ ?. "carrierLabelInvalidationResultId" !== cancellationResultId)
     || (context_ ?. "providerVoidOutboxId" === Undefined)
     || negb (nonBlank (context_ ?. "providerVoidOutboxId"))
     || (context_ ?. "providerVoidOutboxShipmentId" !== shipmentId)
     || (context_ ?. "providerVoidOutboxCarrierLabelId" !== carrierLabelId)
     || (context_ ?. "providerVoidOutboxLabelId" !== carrierLabelId)
     || (context_ ?. "providerVoidOutboxCancellationRequestId" !== requestId)
     || (context_ ?. "providerVoidOutboxIdempotencyKey" !== expectedIdempotencyKey)
     || (context_ ?. "providerVoidOutboxStatus" !== lit "pending")
     || (context_ ?. "providerVoidOutboxPayloadShipmentId" !== shipmentId)
     || (context_ ?. "providerVoidOutboxPayloadCarrierLabelId" !== carrierLabelId)
     || (context_ ?. "providerVoidOutboxPayloadAction" !== lit "void_carrier_label")
     || (payloadRecord ?. "shipmentId" !== shipmentId)
     || (payloadRecord ?. "carrierLabelId" !== carrierLabelId)
     || (payloadRecord ?. "action" !== lit "void_carrier_label")
     || (context_ ?. "providerVoidOutboxResultId" !== cancellationResultId)
     || (context_ ?. "shipmentCancellationAtomic" !== Bool true)).

Definition requireExactSelectedLabelledShipmentAggregate (lifecycle : jstr)
    (command : TransitionCommand) (kind : value) : result () :=
  if negb (str_eqb lifecycle (js "Shipment")) then
    Ok ()
  else
  let context_ := context command in
  let shipmentId := context_ ?. "shipmentId" in
  let orderId := context_ ?. "orderId" in
  let phaseId := context_ ?. "phaseId" in
  let claimId := context_ ?. "claimId" in
  let resolutionId := context_ ?. "claimSlotResolutionId" in
  let slotId := context_ ?. "claimSlotId" in
  let previousResultId :=
    if kind === lit "replacement"
    then context_ ?. "replacementHandoffShipmentPreviousResultId"
    else context_ ?. "reshipmentHandoffShipmentPreviousResultId" in
  let stateKey :=
    if kind === lit "replacement"
    then context_ ?. "replacementHandoffShipmentCurrentStateCommandKey"
    else context_ ?. "reshipmentHandoffShipmentCurrentStateCommandKey" in
  let expectedValue :=
    if kind === lit "replacement"
    then context_ ?. "replacementHandoffExpectedShipment"
    else context_ ?. "reshipmentHandoffExpectedShipment" in
  let expected := record expectedValue in
  guard_when
    (negb (nonBlank shipmentId)
     || negb (nonBlank orderId)
     || negb (nonBlank phaseId)
     || negb (nonBlank claimId)
     || negb (nonBlank resolutionId)
     || negb (nonBlank slotId)
     || negb (nonBlank previousResultId)
     || negb (nonBlank stateKey)
     || (optional (aggregateId command) !== shipmentId)
     || negb (nonBlank (optional (currentStateResultId command)))
     || (optional (currentStateResultId command) !== previousResultId)
     || (optional (currentStateCommandKey command) !== stateKey)
     || (expected ?. "id" !== shipmentId)
     || (expected ?. "orderId" !== orderId)
     || (expected ?. "phaseId" !== phaseId)
     || (expected ?. "claimId" !== claimId)
     || (expected ?. "resolutionId" !== resolutionId)
     || (expected ?. "slotId" !== slotId)
     || (expected ?. "originClaimId" !== claimId)
     || (expected ?. "originResolutionId" !== resolutionId)
     || (expected ?. "originKind" !== kind)
     || (expected ?. "status" !== lit "label_created")
     || (expected ?. "resultId" !== previousResultId)
     || (expected ?. "currentStateCommandKey" !== stateKey)
     || (expected ?. "immutable" !== Bool true)).

Definition requireExactLabelledShipmentHandoff (lifecycle : jstr) (command : TransitionCommand)
    : result () :=
  let context_ := context command in
  let kind := context_ ?. "labelledHandoffKind" in
  let shipmentId := context_ ?. "shipmentId" in
  let resultId := context_ ?. "labelledHandoffResultId" in
  let expectedResultId :=
    if kind === lit "ordinary"
    then context_ ?. "handoffResultId"
    else if kind === lit "replacement"
         then context_ ?. "replacementHandoffResultId"
         else if kind === lit "reship"
              then context_ ?. "reshipmentHandoffResultId"
              else Undefined in
  guard_when
    (((kind !== lit "ordinary") && (kind !== lit "replacement") && (kind !== lit "reship"))
     || negb (nonBlank shipmentId)
     || negb (nonBlank resultId)
     || (resultId !== expectedResultId)
     || (context_ ?. "labelledHandoffResultKind" !== kind)
     || (context_ ?. "labelledHandoffShipmentId" !== shipmentId)
     || (context_ ?. "labelledHandoffShipmentKind" !== kind)
     || (context_ ?. "labelledHandoffShipmentResultId" !== resultId)
     || (context_ ?. "labelledHandoffShipmentPreviousStatus" !== lit "label_created")
     || (context_ ?. "labelledHandoffShipmentTargetStatus" !== lit "handed_over")
     || (context_ ?. "labelledHandoffCompleted" !== Bool true)
     || (context_ ?. "labelledHandoffAtomic" !== Bool true)) ;;
  requireExactHandoffShipmentOrigin command kind ;;
  when ((kind === lit "replacement") || (kind === lit "reship"))
    (requireExactSelectedLabelledShipmentAggregate lifecycle command kind) ;;
  if kind === lit "ordinary" then
    requireAtomicOrdinaryHandoff lifecycle command
      (RecordV 0
         [(js "shipmentPrevious", lit "label_created");
          (js "orderPrevious", lit "ready_to_ship"); (js "phasePrevious", lit "qc_passed");
          (js "allowLaterParcel", Bool true)])
  else if kind === lit "replacement" then
    requireFlag command "replacementFulfilmentAuthorizationConsumed" ;;
    requireFlag command "replacementFulfilmentHandoffCompleted" ;;
    requireAtomicCompleteReplacementHandoff lifecycle command shipmentId false
      (lit "cancellation_pending")
  else
  requireFlag command "reshipmentAuthorizationConsumed" ;;
  requireFlag command "reshipmentHandoffCompleted" ;;
  requireExactReshipmentHandoff lifecycle command shipmentId false (lit "cancellation_pending").

(** ** The policy *)

Definition shipmentGuard (command : TransitionCommand) : result () :=
  when (currentIs command "planned" && targetIs command "label_created")
    (requireAtomicShipmentLabelCreation command) ;;
  when (currentIs command "planned" && targetIs command "cancelled")
    (requireAtomicPlannedShipmentCancellation command) ;;
  when (currentIs command "label_created" && targetIs command "cancellation_pending")
    (requireExactShipmentCancellationRequest command) ;;
  when (currentIs command "label_created" && targetIs command "handed_over")
    (requireExactLabelledShipmentHandoff (js "Shipment") command) ;;
  when
    ((currentIs command "cancellation_pending" || currentIs command "cancelled")
     && targetIs command "handed_over") (
    requireVerifiedMatchingCancellationRaceScan command ;;
    requireExactCancellationRaceHandoffResult (js "Shipment") command) ;;
  when (currentIs command "cancellation_pending" && targetIs command "cancelled") (
    requireExactVerifiedProviderVoid command ;;
    requireShipmentCancellationReleased command) ;;
  when
    (currentIs command "handed_over"
     && (targetIs command "in_transit" || targetIs command "delivered")) (
    requireVerifiedMatchingProviderShipmentEvent command ;;
    requireExactShipmentProviderOutcome command) ;;
  when
    (currentIs command "in_transit"
     && (targetIs command "delivered" || targetIs command "lost" || targetIs command "returned"))
    (
    requireVerifiedMatchingProviderShipmentEvent command ;;
    requireExactShipmentProviderOutcome command ;;
    when (targetIs command "lost" || targetIs command "returned")
      (requireAtomicShipmentIncidentRouting command)) ;;
  when (currentIs command "lost" && targetIs command "recovered") (
    requireVerifiedMatchingProviderShipmentEvent command ;;
    requireExactShipmentProviderOutcome command ;;
    requireFlag command "custodyConfirmed").

Definition shipmentContextualTerminal (state : Status) (context : value) : result bool :=
  Ok (str_eqb state (js "cancelled") && negb (hasExactRecoverableProviderVoidCancellationRace context)).

Definition shipmentPolicy : TransitionPolicy :=
  mkPolicy (js "Shipment") Lifecycles.shipmentInitial Lifecycles.shipmentTerminal
    (Some shipmentContextualTerminal) Lifecycles.shipmentTransitions None (Some shipmentGuard).

(** ** They fail only as guards *)

#[global] Typeclasses Opaque
  requireAtomicPlannedShipmentCancellation
  requireShipmentCancellationReleased
  requireExactVerifiedProviderVoid
  requireExactShipmentProviderOutcome
  requireAtomicShipmentLabelCreation
  requireAtomicShipmentIncidentRouting
  requireExactShipmentCancellationRequest
  requireExactSelectedLabelledShipmentAggregate
  requireExactLabelledShipmentHandoff.

#[export] Instance guard_only_requireAtomicPlannedShipmentCancellation command :
  GuardOnly (requireAtomicPlannedShipmentCancellation command).
Proof. cbv beta delta [requireAtomicPlannedShipmentCancellation]. guard_only. Qed.

#[export] Instance guard_only_requireShipmentCancellationReleased command :
  GuardOnly (requireShipmentCancellationReleased command).
Proof. cbv beta delta [requireShipmentCancellationReleased]. guard_only. Qed.

#[export] Instance guard_only_requireExactVerifiedProviderVoid command :
  GuardOnly (requireExactVerifiedProviderVoid command).
Proof. cbv beta delta [requireExactVerifiedProviderVoid]. guard_only. Qed.

#[export] Instance guard_only_requireExactShipmentProviderOutcome command :
  GuardOnly (requireExactShipmentProviderOutcome command).
Proof. cbv beta delta [requireExactShipmentProviderOutcome]. guard_only. Qed.

#[export] Instance guard_only_requireAtomicShipmentLabelCreation command :
  GuardOnly (requireAtomicShipmentLabelCreation command).
Proof. cbv beta delta [requireAtomicShipmentLabelCreation]. guard_only. Qed.

#[export] Instance guard_only_requireAtomicShipmentIncidentRouting command :
  GuardOnly (requireAtomicShipmentIncidentRouting command).
Proof. cbv beta delta [requireAtomicShipmentIncidentRouting]. guard_only. Qed.

#[export] Instance guard_only_requireExactShipmentCancellationRequest command :
  GuardOnly (requireExactShipmentCancellationRequest command).
Proof. cbv beta delta [requireExactShipmentCancellationRequest]. guard_only. Qed.

#[export] Instance guard_only_requireExactSelectedLabelledShipmentAggregate lifecycle command kind :
  GuardOnly (requireExactSelectedLabelledShipmentAggregate lifecycle command kind).
Proof. cbv beta delta [requireExactSelectedLabelledShipmentAggregate]. guard_only. Qed.

#[export] Instance guard_only_requireExactLabelledShipmentHandoff lifecycle command :
  GuardOnly (requireExactLabelledShipmentHandoff lifecycle command).
Proof. cbv beta delta [requireExactLabelledShipmentHandoff]. guard_only. Qed.

#[export] Instance guard_only_shipmentGuard command : GuardOnly (shipmentGuard command).
Proof. cbv beta delta [shipmentGuard]. guard_only. Qed.

(** ** Specification *)

(** The statuses that the carrier reports. *)
Definition reported : list jstr :=
  [js "in_transit"; js "delivered"; js "lost"; js "returned"; js "recovered"].

(** A command for the shipment [id] reports [s] from an authenticated and
    verified event of the carrier for this shipment and its label, which leads
    from the shipment's own status to [s], and from the succeeded transaction
    that the event belongs to. *)
Record verified_report (command : TransitionCommand) (id s : jstr) : Prop := {
  vr_shipment : aggregateId command = Some id ∧ (context command) ?. "shipmentId" = Str id;
  vr_event : ∃ event, event = record ((context command) ?. "shipmentProviderOutcomeEvent")
    ∧ event ?. "shipmentId" = Str id
    ∧ event ?. "carrierLabelId" = (context command) ?. "carrierLabelId"
    ∧ event ?. "previousStatus" = Str (current command) ∧ event ?. "status" = Str s
    ∧ event ?. "authenticated" = Bool true ∧ event ?. "verified" = Bool true;
  vr_transaction : ∃ t, t = record ((context command) ?. "shipmentProviderOutcomeTransaction")
    ∧ t ?. "shipmentId" = Str id ∧ t ?. "status" = lit "succeeded"
    ∧ t ?. "eventId" = (context command) ?. "providerEventId"
    ∧ t ?. "id" = (context command) ?. "shipmentProviderTransactionId";
}.

(** ** Facts *)

Lemma provider_outcome command :
  requireExactShipmentProviderOutcome command = Ok () → ∃ id, verified_report command id (target command).
Proof.
  intros H. cbv beta delta [requireExactShipmentProviderOutcome] in H. guard_steps H.
  apply guard_when_Ok in H. guard_facts. eexists. split.
  - by split.
  - eexists. split; [done|]. split_and!; congruence.
  - eexists. split; [done|]. split_and!; congruence.
Qed.

(** The edges into the reported statuses. *)
Lemma reported_edge p s :
  s ∈ targets Lifecycles.shipmentTransitions p → s ∈ reported →
  (p = js "handed_over" ∧ (s = js "in_transit" ∨ s = js "delivered"))
  ∨ (p = js "in_transit" ∧ (s = js "delivered" ∨ s = js "lost" ∨ s = js "returned"))
  ∨ (p = js "lost" ∧ s = js "recovered").
Proof.
  intros (ts & Hts & Hin)%targets_elem Hs. unfold Lifecycles.shipmentTransitions in Hts.
  unfold reported in Hs. rewrite !elem_of_cons, elem_of_nil in Hts. rewrite !elem_of_cons, elem_of_nil in Hs.
  destruct_or? Hts; try injection Hts as -> ->; try done;
    rewrite !elem_of_cons, elem_of_nil in Hin; destruct_or? Hin; subst; try tauto;
    exfalso; clear -Hs; by destruct_or? Hs.
Qed.

Lemma reporting command p s :
  transition shipmentPolicy command = Ok (changed p s) → s ∈ reported →
  (p = js "handed_over" ∨ p ∈ reported) ∧ ∃ id, verified_report command id s.
Proof.
  intros (-> & -> & _ & Hin & Hg)%transition_changed Hs. specialize (Hg _ eq_refl).
  pose proof (reported_edge _ _ Hin Hs) as He. clear Hin Hs. split.
  { unfold reported. rewrite !elem_of_cons, elem_of_nil. naive_solver. }
  apply provider_outcome. unfold shipmentGuard, currentIs, targetIs in Hg.
  destruct He as [[Hc Ht]|[[Hc Ht]|[Hc Ht]]]; destruct_or? Ht; rewrite Hc, Ht in Hg; literals Hg; run_in Hg;
    guard_steps Hg; try done;
    match goal with E : (_ ;; _) = Ok _ |- _ => by guard_steps E end.
Qed.

Lemma reported_history s0 cs s :
  history shipmentPolicy s0 cs s → s ∈ reported →
  (∃ c p, c ∈ cs ∧ transition shipmentPolicy c = Ok (changed p (js "handed_over")))
  ∧ ∃ c id, c ∈ cs ∧ verified_report c id s.
Proof.
  intros Hh. induction Hh as [s Hs|s0 cs s c r Hh IH <- Hr]; intros Hrep.
  - apply list_elem_of_singleton in Hs as ->. exfalso. clear -Hrep. unfold reported in Hrep.
    rewrite !elem_of_cons, elem_of_nil in Hrep. by destruct_or? Hrep.
  - assert (current c ∈ reported → (∃ c' p, c' ∈ cs ++ [c] ∧ transition shipmentPolicy c' = Ok (changed p (js "handed_over")))
      ∧ ∃ c' id, c' ∈ cs ++ [c] ∧ verified_report c' id (current c)) as Hold.
    { intros [(c1 & p & Hc1 & ?) (c2 & id & Hc2 & ?)]%IH.
      split; [exists c1, p|exists c2, id]; rewrite elem_of_app; auto. }
    apply transition_Ok in Hr as Hr'. destruct Hr' as [_ Ha]. destruct Ha; cbn [status_after] in *; [by apply Hold..|].
    destruct (reporting _ _ _ Hr Hrep) as [Hp (id & Hv)]. split.
    + destruct Hp as [Hp|Hp]; [|by apply Hold].
      destruct (history_entered _ _ _ _ Hh) as [Hi|(c' & p & Hc' & Ht)].
      * apply list_elem_of_singleton in Hi. by rewrite Hi in Hp.
      * exists c', p. rewrite elem_of_app, <-Hp. auto.
    + exists c, id. rewrite elem_of_app, list_elem_of_singleton. auto.
Qed.

(** * Properties *)

(** C14: a shipment starts as planned, and a status that only its carrier can
    report, from in transit to delivered, lost, returned or recovered, is never
    entered on anybody else's word: its history has handed the shipment over,
    and has a command for this shipment that reports the status from an
    authenticated and verified event of the carrier, about this shipment and
    its label, which leads from the shipment's own status, within a succeeded
    transaction. *)
Theorem shipment_report_verified s0 commands s :
  history shipmentPolicy s0 commands s → s ∈ reported →
  s0 = js "planned"
  ∧ (∃ c p, c ∈ commands ∧ transition shipmentPolicy c = Ok (changed p (js "handed_over")))
  ∧ ∃ c id, c ∈ commands ∧ verified_report c id s.
Proof.
  intros Hh Hs. split; [|by eapply reported_history].
  by apply history_reachable in Hh as [->%list_elem_of_singleton _].
Qed.

(** *** A sample history *)

(** The shipment [s] is planned, labelled, handed over with one slot of one
    job, and reported in transit, by its carrier. *)
Definition shipment_context : value :=
  let flag k := (js k, Bool true) in
  let text k v := (js k, lit v) in
  let ids k l := (js k, ArrayV 2 l) in
  let rows k l := (js k, ArrayV 3 l) in
  RecordV 1
    [text "shipmentId" "s"; text "orderId" "o"; text "phaseId" "p"; text "phaseKind" "single";
     text "shipmentPlanId" "plan"; text "carrierLabelId" "l"; text "shipmentLabelCreationResultId" "r1";
     text "shipmentLabelCreationPreviousShipmentResultId" "r0";
     text "shipmentLabelCreationCurrentStateCommandKey" "k0";
     text "shipmentLabelCreationProviderEventId" "e1"; text "shipmentLabelCreationProviderTransactionId" "t1";
     (js "shipmentLabelCreationExpectedShipment", RecordV 4
       [text "id" "s"; text "orderId" "o"; text "phaseId" "p"; text "planId" "plan"; text "status" "planned";
        text "resultId" "r0"; text "currentStateCommandKey" "k0"; flag "immutable"]);
     (js "shipmentLabelCreationCarrierLabel", RecordV 5
       [text "id" "l"; text "shipmentId" "s"; text "orderId" "o"; text "phaseId" "p"; text "planId" "plan";
        text "carrierId" "c"; text "status" "usable"; flag "immutable"; text "resultId" "r1"]);
     (js "shipmentLabelCreationOutbox", RecordV 6
       [text "id" "b"; text "shipmentId" "s"; text "planId" "plan"; text "carrierLabelId" "l";
        text "idempotencyKey" "create_carrier_label:s:plan"; text "action" "create_carrier_label";
        text "previousStatus" "pending"; text "targetStatus" "succeeded"; text "resultId" "r1"]);
     (js "shipmentLabelCreationProviderEvent", RecordV 7
       [text "id" "e1"; text "outboxId" "b"; text "shipmentId" "s"; text "carrierLabelId" "l";
        text "transactionId" "t1"; text "status" "succeeded"; flag "authenticated"; flag "verified";
        text "resultId" "r1"]);
     text "shipmentLabelCreationShipmentId" "s"; text "shipmentLabelCreationOrderId" "o";
     text "shipmentLabelCreationPhaseId" "p"; text "shipmentLabelCreationPlanId" "plan";
     text "shipmentLabelCreationPreviousStatus" "planned"; text "shipmentLabelCreationTargetStatus" "label_created";
     text "shipmentLabelCreationCarrierLabelId" "l"; text "shipmentLabelCreationShipmentResultId" "r1";
     text "shipmentLabelCreationLabelResultId" "r1"; text "shipmentLabelCreationOutboxResultId" "r1";
     text "shipmentLabelCreationProviderEventResultId" "r1"; flag "shipmentLabelCreationCompleted";
     flag "shipmentLabelCreationAtomic";
     text "labelledHandoffKind" "ordinary"; text "labelledHandoffResultId" "r2"; text "handoffResultId" "r2";
     text "labelledHandoffResultKind" "ordinary"; text "labelledHandoffShipmentId" "s";
     text "labelledHandoffShipmentKind" "ordinary"; text "labelledHandoffShipmentResultId" "r2";
     text "labelledHandoffShipmentPreviousStatus" "label_created";
     text "labelledHandoffShipmentTargetStatus" "handed_over"; flag "labelledHandoffCompleted";
     flag "labelledHandoffAtomic"; (js "labelledHandoffShipmentOriginClaimId", Null);
     (js "labelledHandoffShipmentOriginResolutionId", Null);
     text "handoffShipmentId" "s"; text "handoffOrderId" "o"; text "handoffPhaseOrderId" "o";
     text "handoffPhaseId" "p"; text "handoffOrderPreviousStatus" "ready_to_ship";
     text "handoffOrderTargetStatus" "shipped"; text "handoffPhasePreviousStatus" "qc_passed";
     text "handoffPhaseTargetStatus" "shipped"; text "handoffShipmentPreviousStatus" "label_created";
     text "handoffShipmentTargetStatus" "handed_over"; text "handoffJobPreviousStatus" "packed";
     text "handoffJobTargetStatus" "handed_over"; ids "handoffSlotIds" [lit "y"]; ids "handoffJobIds" [lit "j"];
     rows "handoffSlots" [RecordV 8
       [text "id" "y"; text "jobId" "j"; text "shipmentId" "s"; text "orderId" "o"; text "phaseId" "p"]];
     rows "handoffJobs" [RecordV 9
       [text "id" "j"; text "shipmentId" "s"; text "orderId" "o"; text "phaseId" "p";
        text "previousStatus" "packed"; text "targetStatus" "handed_over"]];
     text "handoffShipmentPreviousResultId" "r1"; text "handoffShipmentCurrentStateCommandKey" "k1";
     (js "handoffExpectedShipment", RecordV 10
       [text "id" "s"; text "orderId" "o"; text "phaseId" "p"; text "status" "label_created";
        text "resultId" "r1"; text "currentStateCommandKey" "k1"; flag "immutable"]);
     ids "shipmentFulfilmentSlotIds" [lit "y"];
     text "handoffResultShipmentResultId" "r2"; text "handoffResultOrderResultId" "r2";
     text "handoffResultPhaseResultId" "r2"; text "handoffResultSlotSetResultId" "r2";
     text "handoffResultJobSetResultId" "r2"; text "handoffResultProviderScanResultId" "r2";
     text "handoffResultCustodyResultId" "r2"; text "handoffResultProviderScanId" "scan";
     text "handoffResultProviderTransactionId" "t2"; text "handoffResultShipmentId" "s";
     text "handoffResultOrderId" "o"; text "handoffResultPhaseId" "p"; ids "handoffResultSlotIds" [lit "y"];
     ids "handoffResultJobIds" [lit "j"]; text "handoffResultOrderPreviousStatus" "ready_to_ship";
     text "handoffResultOrderTargetStatus" "shipped"; text "handoffResultPhasePreviousStatus" "qc_passed";
     text "handoffResultPhaseTargetStatus" "shipped"; text "handoffResultShipmentPreviousStatus" "label_created";
     text "handoffResultShipmentTargetStatus" "handed_over"; text "handoffResultJobPreviousStatus" "packed";
     text "handoffResultJobTargetStatus" "handed_over"; text "handoffResultProviderScanShipmentId" "s";
     text "handoffResultProviderScanOrderId" "o"; text "handoffResultProviderScanPhaseId" "p";
     text "handoffResultProviderScanStatus" "accepted"; flag "handoffResultProviderScanAuthenticated";
     flag "handoffResultProviderScanVerified"; flag "handoffResultCustodyConfirmed";
     flag "handoffResultCompleted"; flag "handoffResultAtomic";
     text "providerEventId" "e3"; text "shipmentProviderTransactionId" "t3";
     text "shipmentProviderOutcomePreviousResultId" "r2"; text "shipmentProviderOutcomeResultId" "r3";
     text "shipmentProviderOutcomeCurrentStateCommandKey" "k2"; text "providerEventShipmentId" "s";
     text "providerEventTransactionId" "t3"; text "providerEventStatus" "in_transit";
     flag "providerEventAuthenticated"; flag "providerEventVerified";
     (js "shipmentProviderOutcomeExpectedShipment", RecordV 11
       [text "id" "s"; text "orderId" "o"; text "phaseId" "p"; text "carrierLabelId" "l";
        text "status" "handed_over"; text "resultId" "r2"; text "currentStateCommandKey" "k2"; flag "immutable"]);
     (js "shipmentProviderOutcomeEvent", RecordV 12
       [text "id" "e3"; text "shipmentId" "s"; text "carrierLabelId" "l"; text "transactionId" "t3";
        text "previousStatus" "handed_over"; text "targetStatus" "in_transit"; text "status" "in_transit";
        flag "authenticated"; flag "verified"; text "resultId" "r3"; flag "immutable"]);
     (js "shipmentProviderOutcomeTransaction", RecordV 13
       [text "id" "t3"; text "shipmentId" "s"; text "carrierLabelId" "l"; text "eventId" "e3";
        text "status" "succeeded"; text "resultId" "r3"; flag "immutable"]);
     text "shipmentProviderOutcomeShipmentResultId" "r3"; text "shipmentProviderOutcomeEventResultId" "r3";
     text "shipmentProviderOutcomeTransactionResultId" "r3"; flag "shipmentProviderOutcomeCompleted";
     flag "shipmentProviderOutcomeAtomic"].

Definition shipment_command (from to key previous new : string) : TransitionCommand :=
  mkCommand (Some (js "s")) (js from) (js to) (js new) (Some (js key)) (Some (js previous))
    None None None None None shipment_context.

Definition shipment_commands : list TransitionCommand :=
  [shipment_command "planned" "label_created" "k0" "r0" "k1";
   shipment_command "label_created" "handed_over" "k1" "r1" "k2";
   shipment_command "handed_over" "in_transit" "k2" "r2" "k3"].

Lemma shipment_report_verified_witness :
  js "planned" = js "planned"
  ∧ (∃ c p, c ∈ shipment_commands ∧ transition shipmentPolicy c = Ok (changed p (js "handed_over")))
  ∧ ∃ c id, c ∈ shipment_commands ∧ verified_report c id (js "in_transit").
Proof.
  apply shipment_report_verified; [|by left].
  apply (history_step _ _ (take 2 shipment_commands) (js "handed_over") _
    (changed (js "handed_over") (js "in_transit"))); [|reflexivity|vm_compute; reflexivity].
  apply (history_step _ _ (take 1 shipment_commands) (js "label_created") _
    (changed (js "label_created") (js "handed_over"))); [|reflexivity|vm_compute; reflexivity].
  apply (history_step _ _ [] (js "planned") _
    (changed (js "planned") (js "label_created"))); [|reflexivity|vm_compute; reflexivity].
  constructor. by left.
Defined.
