(* ===== verification/Jobs.v ===== *)
(** The lifecycle of a production job (lifecycle/policies.ts): its acceptance,
    production and quality control, its cancellation and failure with the
    settlement of its resources, its handoff, and its policy. *)
From S2P Require Import Prelude Text Primitives Values Transition Guards Lifecycles Replacements Handoffs.

Import Transition.

(** ** Guards *)

Definition isCreatedJobCancellationReason (value_ : value) : bool :=
  (value_ === lit "routing_exhausted") || (value_ === lit "order_cancelled").

Definition isPostAcceptanceJobCancellationReason (value_ : value) : bool :=
  (value_ === lit "order_cancelled")
  || (value_ === lit "phase_cancelled")
  || (value_ === lit "claim_withdrawn").

Definition requireJobResourceSettlement (command : TransitionCommand) : result () :=
  let jobId := (context command) ?. "jobId" in
  let productionReservationId := (context command) ?. "productionReservationId" in
  guard_when
    (negb (is_string jobId)
     || (js_len jobId =? 0)
     || ((context command) ?. "productionReservationJobId" !== jobId)
     || ((context command) ?. "jobResourceSettlementJobId" !== jobId)) ;;
  guard_when
    (negb (is_string productionReservationId)
     || (js_len productionReservationId =? 0)
     || ((context command) ?. "jobResourceSettlementProductionReservationId"
           !== productionReservationId)) ;;
  let expectedConsumptionMode :=
    if currentIs command "accepted" || currentIs command "gcode_ready"
    then lit "zero_pre_print"
    else lit "actual_recorded" in
  guard_when ((context command) ?. "materialConsumptionMode" !== expectedConsumptionMode) ;;
  requireFlag command "materialConsumptionSettled" ;;
  requireFlag command "inventoryReservationReleased" ;;
  requireFlag command "capacityReservationReleased" ;;
  requireFlag command "jobResourceSettlementAtomic".

Definition isJobFailureStageForCurrent (current_ : value) (value_ : value) : bool :=
  if (current_ === lit "accepted") || (current_ === lit "gcode_ready") then
    (value_ === lit "preparation") || (value_ === lit "gcode") || (value_ === lit "machine")
  else if current_ === lit "printing" then
    value_ === lit "printing"
  else if (current_ === lit "printed") || (current_ === lit "photo_submitted") then
    value_ === lit "post_print"
  else if current_ === lit "qc_approved" then
    value_ === lit "post_qc"
  else if current_ === lit "packed" then
    value_ === lit "packing"
  else
  false.

Definition requireAtomicJobFailureSettlement (lifecycle : jstr) (command : TransitionCommand)
    : result () :=
  let context_ := context command in
  let jobId := context_ ?. "jobId" in
  let reservationId := context_ ?. "productionReservationId" in
  let orderId := context_ ?. "orderId" in
  let phaseId := context_ ?. "phaseId" in
  let resultId := context_ ?. "jobFailureResultId" in
  let previousJobResultId := context_ ?. "jobFailurePreviousJobResultId" in
  let stateKey := context_ ?. "jobFailureCurrentStateCommandKey" in
  let replacementRequestId := context_ ?. "jobFailureReplacementRequestId" in
  let expectedJob := record (context_ ?. "jobFailureExpectedJob") in
  let expectedReservation := record (context_ ?. "jobFailureExpectedReservation") in
  let expectedReplacement := record (context_ ?. "jobFailureExpectedReplacement") in
  let expectedReservationStatus :=
    if currentIs command "accepted" || currentIs command "gcode_ready"
    then lit "scheduled"
    else lit "printing" in
  let expectedStage :=
    isJobFailureStageForCurrent (Str (current command)) (context_ ?. "failureStage") in
  guard_when
    (negb (str_eqb lifecycle (js "Job"))
     || negb (nonBlank jobId)
     || negb (nonBlank reservationId)
     || negb (nonBlank orderId)
     || negb (nonBlank phaseId)
     || negb (nonBlank resultId)
     || negb (nonBlank previousJobResultId)
     || negb (nonBlank stateKey)
     || negb (nonBlank replacementRequestId)
     || (optional (aggregateId command) !== jobId)
     || (optional (currentStateCommandKey command) !== stateKey)
     || (optional (currentStateResultId command) !== previousJobResultId)
     || (context_ ?. "jobFailureJobId" !== jobId)
     || (context_ ?. "jobFailureProductionReservationId" !== reservationId)
     || (context_ ?. "jobFailureOrderId" !== orderId)
     || (context_ ?. "jobFailurePhaseId" !== phaseId)
     || (context_ ?. "jobFailurePreviousStatus" !== Str (current command))
     || (context_ ?. "jobFailureTargetStatus" !== lit "failed")
     || (context_ ?. "jobFailureFailureStage" !== context_ ?. "failureStage")
     || negb expectedStage
     || negb (nonBlank (context_ ?. "failureReason"))
     || (context_ ?. "jobFailureFailureReason" !== context_ ?. "failureReason")
     || (expectedJob ?. "id" !== jobId)
     || (expectedJob ?. "orderId" !== orderId)
     || (expectedJob ?. "phaseId" !== phaseId)
     || (expectedJob ?. "productionReservationId" !== reservationId)
     || (expectedJob ?. "status" !== Str (current command))
     || (expectedJob ?. "resultId" !== previousJobResultId)
     || (expectedJob ?. "currentStateCommandKey" !== stateKey)
     || (expectedJob ?. "immutable" !== Bool true)
     || (expectedReservation ?. "id" !== reservationId)
     || (expectedReservation ?. "jobId" !== jobId)
     || (expectedReservation ?. "orderId" !== orderId)
     || (expectedReservation ?. "phaseId" !== phaseId)
     || (expectedReservation ?. "status" !== expectedReservationStatus)
     || (expectedReservation ?. "resultId" !== resultId)
     || (expectedReservation ?. "immutable" !== Bool true)
     || (expectedReplacement ?. "id" !== replacementRequestId)
     || (expectedReplacement ?. "jobId" !== jobId)
     || (expectedReplacement ?. "orderId" !== orderId)
     || (expectedReplacement ?. "phaseId" !== phaseId)
     || (expectedReplacement ?. "resultId" !== resultId)
     || (expectedReplacement ?. "immutable" !== Bool true)
     || (context_ ?. "jobFailureJobResultId" !== resultId)
     || (context_ ?. "jobFailureResourceSettlementResultId" !== resultId)
     || (context_ ?. "jobFailureReplacementResultId" !== resultId)
     || (context_ ?. "jobFailureCompleted" !== Bool true)
     || (context_ ?. "jobFailureAtomic" !== Bool true)).

Definition requireExactPostAcceptanceJobCancellation (command : TransitionCommand) : result () :=
  let context_ := context command in
  let exactStringSet := λ (actual : value) (expected : value),
    if negb (is_array actual) || negb (is_array expected) then
      false
    else
    let left := ArrayV 0 (List.filter nonBlank (elements actual)) in
    let right := ArrayV 0 (List.filter nonBlank (elements expected)) in
    (js_len left =? js_len actual)
    && (js_len right =? js_len expected)
    && (zlength (set_of (elements left)) =? js_len left)
    && (zlength (set_of (elements right)) =? js_len right)
    && (js_len left =? js_len right)
    && forallb (λ id, includes (elements right) id) (elements left) in
  let jobId := context_ ?. "jobId" in
  let orderId := context_ ?. "orderId" in
  let phaseId := context_ ?. "phaseId" in
  let reservationId := context_ ?. "productionReservationId" in
  let resultId := context_ ?. "jobCancellationResultId" in
  let previousJobResultId := context_ ?. "jobCancellationPreviousJobResultId" in
  let previousReservationResultId := context_ ?. "jobCancellationPreviousReservationResultId" in
  let currentStateCommandKey_ := optional (currentStateCommandKey command) in
  let scopeId := context_ ?. "jobCancellationAuthoritativeScopeId" in
  let scopeResultId := context_ ?. "jobCancellationScopeResultId" in
  let expectedJob := record (context_ ?. "jobCancellationExpectedJob") in
  let expectedReservation := record (context_ ?. "jobCancellationExpectedReservation") in
  let scope := record (context_ ?. "jobCancellationAuthoritativeScope") in
  guard_when
    (negb (nonBlank jobId)
     || negb (nonBlank orderId)
     || negb (nonBlank phaseId)
     || negb (nonBlank reservationId)
     || negb (nonBlank resultId)
     || negb (nonBlank previousJobResultId)
     || negb (nonBlank previousReservationResultId)
     || negb (nonBlank currentStateCommandKey_)
     || negb (nonBlank scopeId)
     || negb (nonBlank scopeResultId)
     || (optional (aggregateId command) !== jobId)
     || negb (nonBlank (optional (currentStateResultId command)))
     || (optional (currentStateResultId command) !== previousJobResultId)
     || (context_ ?. "jobCancellationCurrentStateCommandKey" !== currentStateCommandKey_)
     || (context_ ?. "jobCancellationJobId" !== jobId)
     || (context_ ?. "jobCancellationOrderId" !== orderId)
     || (context_ ?. "jobCancellationPhaseId" !== phaseId)
     || (context_ ?. "jobCancellationProductionReservationId" !== reservationId)
     || (context_ ?. "jobCancellationPreviousStatus" !== Str (current command))
     || (context_ ?. "jobCancellationTargetStatus" !== lit "cancelled")
     || (context_ ?. "jobCancellationReason" !== context_ ?. "cancellationReason")
     || (expectedJob ?. "id" !== jobId)
     || (expectedJob ?. "orderId" !== orderId)
     || (expectedJob ?. "phaseId" !== phaseId)
     || (expectedJob ?. "productionReservationId" !== reservationId)
     || (expectedJob ?. "shipmentScopeId" !== scopeId)
     || (expectedJob ?. "status" !== Str (current command))
     || (expectedJob ?. "resultId" !== previousJobResultId)
     || (expectedJob ?. "currentStateCommandKey" !== currentStateCommandKey_)
     || (expectedJob ?. "immutable" !== Bool true)) ;;
  let zeroPrePrint := currentIs command "accepted" || currentIs command "gcode_ready" in
  let expectedReservationStatus := if zeroPrePrint then lit "scheduled" else lit "printing" in
  let expectedReservationTarget := if zeroPrePrint then lit "released" else lit "settled" in
  guard_when
    ((context_ ?. "jobCancellationReservationId" !== reservationId)
     || (context_ ?. "jobCancellationReservationPreviousStatus" !== expectedReservationStatus)
     || (context_ ?. "jobCancellationReservationTargetStatus" !== expectedReservationTarget)
     || (expectedReservation ?. "id" !== reservationId)
     || (expectedReservation ?. "jobId" !== jobId)
     || (expectedReservation ?. "orderId" !== orderId)
     || (expectedReservation ?. "phaseId" !== phaseId)
     || (expectedReservation ?. "status" !== expectedReservationStatus)
     || (expectedReservation ?. "resultId" !== previousReservationResultId)
     || (expectedReservation ?. "immutable" !== Bool true)
     || (context_ ?. "jobCancellationReservationResultId" !== resultId)) ;;
  let expectedShipmentIds := context_ ?. "jobCancellationExpectedShipmentIds" in
  let expectedLabelIds := context_ ?. "jobCancellationExpectedCarrierLabelIds" in
  let expectedContributorJobIds := context_ ?. "jobCancellationExpectedContributorJobIds" in
  let expectedContributorReservationIds :=
    context_ ?. "jobCancellationExpectedContributorReservationIds" in
  let scopeShipments := scope ?. "shipments" in
  let scopeLabels := scope ?. "carrierLabels" in
  guard_when
    ((context_ ?. "jobCancellationExpectedScopeId" !== scopeId)
     || (scope ?. "id" !== scopeId)
     || (scope ?. "jobId" !== jobId)
     || (scope ?. "orderId" !== orderId)
     || (scope ?. "phaseId" !== phaseId)
     || (scope ?. "productionReservationId" !== reservationId)
     || (scope ?. "resultId" !== scopeResultId)
     || (scope ?. "immutable" !== Bool true)
     || negb (exactStringSet (scope ?. "shipmentIds") expectedShipmentIds)
     || negb (exactStringSet (scope ?. "carrierLabelIds") expectedLabelIds)
     || negb (exactStringSet (scope ?. "contributorJobIds") expectedContributorJobIds)
     || negb
          (exactStringSet (scope ?. "contributorReservationIds")
             expectedContributorReservationIds)
     || negb (is_array scopeShipments)
     || (js_len scopeShipments =? 0)
     || negb (is_array scopeLabels)
     || negb (js_len scopeLabels =? js_len expectedLabelIds)) ;;
  let scopedShipments : list (value * value) := [] in
  let scopedShipmentLabelIds : list value := [] in
  let scopedContributors : list (value * value) := [] in
  '(scopedContributors, scopedShipments, scopedShipmentLabelIds) ←
    foldM (λ '(scopedContributors, scopedShipments, scopedShipmentLabelIds) value_,
    let shipment := record value_ in
    let contributorLinks := shipment ?. "contributorLinks" in
    guard_when
      ((shipment === Undefined)
       || negb (nonBlank (shipment ?. "id"))
       || map_has scopedShipments (shipment ?. "id")
       || negb (includes (elements expectedShipmentIds) (shipment ?. "id"))
       || (shipment ?. "orderId" !== orderId)
       || (shipment ?. "phaseId" !== phaseId)
       || (shipment ?. "currentLineageLeaf" !== Bool true)
       || ((shipment ?. "status" !== lit "planned")
           && (shipment ?. "status" !== lit "label_created")
           && (shipment ?. "status" !== lit "cancellation_pending"))
       || (shipment ?. "immutable" !== Bool true)
       || negb (is_array (shipment ?. "carrierLabelIds"))
       || negb (exactStringSet (shipment ?. "carrierLabelIds") (shipment ?. "carrierLabelIds"))
       || (if shipment ?. "status" === lit "planned"
           then negb (js_len (shipment ?. "carrierLabelIds") =? 0)
           else js_len (shipment ?. "carrierLabelIds") =? 0)
       || negb (is_array contributorLinks)
       || (js_len contributorLinks =? 0)) ;;
    let selectedContributorCount := 0 in
    let shipmentContributorJobIds : list value := [] in
    '(shipmentContributorJobIds, selectedContributorCount, scopedContributors) ←
      foldM (λ '(shipmentContributorJobIds, selectedContributorCount, scopedContributors) value_,
      let contributor := record value_ in
      guard_when
        ((contributor === Undefined)
         || negb (nonBlank (contributor ?. "jobId"))
         || negb (nonBlank (contributor ?. "productionReservationId"))
         || set_has shipmentContributorJobIds (contributor ?. "jobId")
         || map_has scopedContributors (contributor ?. "jobId")
         || (contributor ?. "orderId" !== orderId)
         || (contributor ?. "phaseId" !== phaseId)
         || (contributor ?. "currentJobLineageLeaf" !== Bool true)
         || (contributor ?. "immutable" !== Bool true)) ;;
      let shipmentContributorJobIds :=
        set_add shipmentContributorJobIds (contributor ?. "jobId") in
      selectedContributorCount ← (if contributor ?. "jobId" === jobId then
        guard_when (contributor ?. "productionReservationId" !== reservationId) ;;
        Ok (selectedContributorCount + 1)
      else
        Ok selectedContributorCount);
      let scopedContributors :=
        map_set scopedContributors (contributor ?. "jobId")
          (contributor ?. "productionReservationId") in
      Ok (shipmentContributorJobIds, selectedContributorCount, scopedContributors))
        (shipmentContributorJobIds, selectedContributorCount, scopedContributors)
        (elements contributorLinks);
    guard_when (negb (selectedContributorCount =? 1)) ;;
    let scopedShipments := map_set scopedShipments (shipment ?. "id") shipment in
    scopedShipmentLabelIds ← foldM (λ scopedShipmentLabelIds labelId,
      guard_when (set_has scopedShipmentLabelIds labelId) ;;
      Ok (set_add scopedShipmentLabelIds labelId)) scopedShipmentLabelIds
        (elements (shipment ?. "carrierLabelIds"));
    Ok (scopedContributors, scopedShipments, scopedShipmentLabelIds))
      (scopedContributors, scopedShipments, scopedShipmentLabelIds) (elements scopeShipments);
  guard_when
    (negb (zlength scopedShipments =? js_len expectedShipmentIds)
     || negb (exactStringSet (ArrayV 0 scopedShipmentLabelIds) expectedLabelIds)
     || negb (exactStringSet (ArrayV 0 (map_keys scopedContributors)) expectedContributorJobIds)
     || negb
          (exactStringSet (ArrayV 0 (map_values scopedContributors))
             expectedContributorReservationIds)) ;;
  let scopedLabels : list (value * value) := [] in
  scopedLabels ← foldM (λ scopedLabels value_,
    let label := record value_ in
    let shipment :=
      if (label !== Undefined) && nonBlank (label ?. "shipmentId")
      then map_get scopedShipments (label ?. "shipmentId")
      else Undefined in
    guard_when
      ((label === Undefined)
       || negb (nonBlank (label ?. "id"))
       || map_has scopedLabels (label ?. "id")
       || negb (includes (elements expectedLabelIds) (label ?. "id"))
       || (shipment === Undefined)
       || (label ?. "orderId" !== orderId)
       || (label ?. "phaseId" !== phaseId)
       || (label ?. "status" !== lit "usable")
       || (label ?. "immutable" !== Bool true)
       || negb (is_array (shipment ?. "carrierLabelIds"))
       || negb (includes (elements (shipment ?. "carrierLabelIds")) (label ?. "id"))) ;;
    Ok (map_set scopedLabels (label ?. "id") label)) scopedLabels (elements scopeLabels);
  let shipmentCancellations := context_ ?. "jobCancellationShipments" in
  let labelCancellations := context_ ?. "jobCancellationCarrierLabels" in
  guard_when
    (negb (is_array shipmentCancellations)
     || negb (js_len shipmentCancellations =? zlength scopedShipments)
     || negb (is_array labelCancellations)
     || negb (js_len labelCancellations =? zlength scopedLabels)) ;;
  let cancelledShipmentIds : list value := [] in
  cancelledShipmentIds ← foldM (λ cancelledShipmentIds value_,
    let cancellation := record value_ in
    let expected :=
      if (cancellation !== Undefined) && nonBlank (cancellation ?. "id")
      then map_get scopedShipments (cancellation ?. "id")
      else Undefined in
    let contributorLinks := array_or_empty (expected ?. "contributorLinks") in
    let contributorJobIds :=
      ArrayV 0 (List.map (λ value_, js_String (value_ ?. "jobId")) (elements contributorLinks)) in
    let contributorReservationIds :=
      ArrayV 0
        (List.map (λ value_, js_String (value_ ?. "productionReservationId"))
           (elements contributorLinks)) in
    let remainingContributorJobIds :=
      ArrayV 0 (List.filter (λ id, id !== jobId) (elements contributorJobIds)) in
    let remainingContributorReservationIds :=
      ArrayV 0
        (List.map (λ value_, js_String (value_ ?. "productionReservationId"))
           (List.filter (λ value_, value_ ?. "jobId" !== jobId) (elements contributorLinks))) in
    let sharedShipment := 0 <? js_len remainingContributorJobIds in
    guard_when
      ((cancellation === Undefined)
       || (expected === Undefined)
       || set_has cancelledShipmentIds (cancellation ?. "id")
       || (cancellation ?. "jobId" !== jobId)
       || (cancellation ?. "productionReservationId" !== reservationId)
       || (cancellation ?. "orderId" !== orderId)
       || (cancellation ?. "phaseId" !== phaseId)
       || (cancellation ?. "previousStatus" !== expected ?. "status")
       || (cancellation ?. "targetStatus"
             !== if sharedShipment then expected ?. "status" else lit "cancelled")
       || (cancellation ?. "barrierOutcome"
             !== if sharedShipment then lit "preserved_for_siblings" else lit "cancelled")
       || (cancellation ?. "currentLineageLeaf" !== Bool true)
       || negb (exactStringSet (cancellation ?. "contributorJobIds") contributorJobIds)
       || negb
            (exactStringSet (cancellation ?. "contributorReservationIds")
               contributorReservationIds)
       || negb
            (exactStringSet (cancellation ?. "remainingContributorJobIds")
               remainingContributorJobIds)
       || negb
            (exactStringSet (cancellation ?. "remainingContributorReservationIds")
               remainingContributorReservationIds)
       || negb
            (exactStringSet (cancellation ?. "carrierLabelIds") (expected ?. "carrierLabelIds"))
       || (cancellation ?. "resultId" !== resultId)) ;;
    Ok (set_add cancelledShipmentIds (cancellation ?. "id"))) cancelledShipmentIds
      (elements shipmentCancellations);
  let cancelledLabelIds : list value := [] in
  cancelledLabelIds ← foldM (λ cancelledLabelIds value_,
    let cancellation := record value_ in
    let expected :=
      if (cancellation !== Undefined) && nonBlank (cancellation ?. "id")
      then map_get scopedLabels (cancellation ?. "id")
      else Undefined in
    let expectedShipment :=
      if (expected !== Undefined) && nonBlank (expected ?. "shipmentId")
      then map_get scopedShipments (expected ?. "shipmentId")
      else Undefined in
    let contributorLinks := array_or_empty (expectedShipment ?. "contributorLinks") in
    let sharedShipment :=
      0
        <? js_len
             (ArrayV 0
                (List.filter (λ value_, value_ ?. "jobId" !== jobId)
                   (elements contributorLinks))) in
    let providerOutcomeValid :=
      if sharedShipment
      then (cancellation ?. "barrierOutcome" === lit "preserved_for_siblings")
           && (cancellation ?. "targetStatus" === lit "usable")
           && (cancellation ?. "providerVoidOutboxId" === Null)
           && (cancellation ?. "providerVoidOutboxShipmentId" === Null)
           && (cancellation ?. "providerVoidOutboxLabelId" === Null)
           && (cancellation ?. "providerVoidIdempotencyKey" === Null)
           && (cancellation ?. "providerVoidAction" === Null)
           && (cancellation ?. "providerVoidOutboxPreviousStatus" === Null)
           && (cancellation ?. "providerVoidOutboxTargetStatus" === Null)
           && (cancellation ?. "providerVoidOutboxResultId" === Null)
           && (cancellation ?. "providerEventId" === Null)
           && (cancellation ?. "providerEventOutboxId" === Null)
           && (cancellation ?. "providerEventShipmentId" === Null)
           && (cancellation ?. "providerEventLabelId" === Null)
           && (cancellation ?. "providerEventTransactionId" === Null)
           && (cancellation ?. "providerEventResultId" === Null)
           && (cancellation ?. "providerTransactionId" === Null)
           && (cancellation ?. "providerTransactionShipmentId" === Null)
           && (cancellation ?. "providerTransactionLabelId" === Null)
           && (cancellation ?. "providerTransactionOutboxId" === Null)
           && (cancellation ?. "providerTransactionResultId" === Null)
           && (cancellation ?. "providerEventStatus" === Null)
           && (cancellation ?. "providerTransactionStatus" === Null)
           && (cancellation ?. "providerEventAuthenticated" === Bool false)
           && (cancellation ?. "providerEventVerified" === Bool false)
           && (cancellation ?. "providerVoidStatus" === lit "not_required")
      else (cancellation ?. "barrierOutcome" === lit "invalidated")
           && (cancellation ?. "targetStatus" === lit "invalidated")
           && nonBlank (cancellation ?. "providerVoidOutboxId")
           && (cancellation ?. "providerVoidOutboxShipmentId" === expected ?. "shipmentId")
           && (cancellation ?. "providerVoidOutboxLabelId" === cancellation ?. "id")
           && (cancellation ?. "providerVoidIdempotencyKey"
                 === Str
                       (js "void_carrier_label:"
                        ++ text_of (js_String (expected ?. "shipmentId"))
                        ++ js ":"
                        ++ text_of (js_String (cancellation ?. "id"))))
           && (cancellation ?. "providerVoidAction" === lit "void_carrier_label")
           && (cancellation ?. "providerVoidOutboxPreviousStatus" === lit "pending")
           && (cancellation ?. "providerVoidOutboxTargetStatus" === lit "succeeded")
           && (cancellation ?. "providerVoidOutboxResultId" === cancellation ?. "resultId")
           && nonBlank (cancellation ?. "providerEventId")
           && (cancellation ?. "providerEventOutboxId" === cancellation ?. "providerVoidOutboxId")
           && (cancellation ?. "providerEventShipmentId" === expected ?. "shipmentId")
           && (cancellation ?. "providerEventLabelId" === cancellation ?. "id")
           && nonBlank (cancellation ?. "providerTransactionId")
           && (cancellation ?. "providerEventTransactionId"
                 === cancellation ?. "providerTransactionId")
           && (cancellation ?. "providerEventResultId" === cancellation ?. "resultId")
           && (cancellation ?. "providerTransactionShipmentId" === expected ?. "shipmentId")
           && (cancellation ?. "providerTransactionLabelId" === cancellation ?. "id")
           && (cancellation ?. "providerTransactionOutboxId"
                 === cancellation ?. "providerVoidOutboxId")
           && (cancellation ?. "providerTransactionResultId" === cancellation ?. "resultId")
           && (cancellation ?. "providerEventStatus" === lit "succeeded")
           && (cancellation ?. "providerTransactionStatus" === lit "succeeded")
           && (cancellation ?. "providerEventAuthenticated" === Bool true)
           && (cancellation ?. "providerEventVerified" === Bool true)
           && (cancellation ?. "providerVoidStatus" === lit "succeeded") in
    guard_when
      ((cancellation === Undefined)
       || (expected === Undefined)
       || (expectedShipment === Undefined)
       || set_has cancelledLabelIds (cancellation ?. "id")
       || (cancellation ?. "shipmentId" !== expected ?. "shipmentId")
       || (cancellation ?. "jobId" !== jobId)
       || (cancellation ?. "productionReservationId" !== reservationId)
       || (cancellation ?. "orderId" !== orderId)
       || (cancellation ?. "phaseId" !== phaseId)
       || (cancellation ?. "previousStatus" !== lit "usable")
       || negb providerOutcomeValid
       || (cancellation ?. "resultId" !== resultId)) ;;
    Ok (set_add cancelledLabelIds (cancellation ?. "id"))) cancelledLabelIds
      (elements labelCancellations);
  guard_when
    (negb (zlength cancelledShipmentIds =? zlength scopedShipments)
     || negb (zlength cancelledLabelIds =? zlength scopedLabels)
     || (context_ ?. "jobCancellationJobResultId" !== resultId)
     || (context_ ?. "jobCancellationResourceSettlementResultId" !== resultId)
     || (context_ ?. "jobCancellationShipmentResultId" !== resultId)
     || (context_ ?. "jobCancellationCarrierLabelResultId" !== resultId)
     || (context_ ?. "jobCancellationBarrierResultId" !== resultId)
     || (context_ ?. "jobCancellationCompleted" !== Bool true)
     || (context_ ?. "jobCancellationAtomic" !== Bool true)).

Definition requirePrintingReservationCommit (command : TransitionCommand) : result () :=
  let context_ := context command in
  let jobId := context_ ?. "jobId" in
  let productionReservationId := context_ ?. "productionReservationId" in
  let orderItemId := context_ ?. "orderItemId" in
  let phaseId := context_ ?. "phaseId" in
  let previousJobResultId := context_ ?. "printingPreviousJobResultId" in
  let previousReservationResultId := context_ ?. "printingPreviousReservationResultId" in
  let stateKey := context_ ?. "printingCurrentStateCommandKey" in
  let resultId := context_ ?. "printingResultId" in
  let expectedJob := record (context_ ?. "printingExpectedJob") in
  let expectedReservation := record (context_ ?. "printingExpectedReservation") in
  guard_when
    (negb (nonBlank jobId)
     || negb (nonBlank productionReservationId)
     || negb (nonBlank orderItemId)
     || negb (nonBlank phaseId)
     || negb (nonBlank previousJobResultId)
     || negb (nonBlank previousReservationResultId)
     || negb (nonBlank stateKey)
     || negb (nonBlank resultId)
     || (optional (aggregateId command) !== jobId)
     || (optional (currentStateCommandKey command) !== stateKey)
     || (context_ ?. "productionReservationJobId" !== jobId)
     || (context_ ?. "printingReservationJobId" !== jobId)
     || (context_ ?. "printingJobId" !== jobId)
     || (context_ ?. "printingReservationId" !== productionReservationId)
     || (context_ ?. "printingJobPreviousStatus" !== lit "gcode_ready")
     || (context_ ?. "printingJobTargetStatus" !== lit "printing")
     || (expectedJob ?. "id" !== jobId)
     || (expectedJob ?. "productionReservationId" !== productionReservationId)
     || (expectedJob ?. "orderItemId" !== orderItemId)
     || (expectedJob ?. "phaseId" !== phaseId)
     || (expectedJob ?. "status" !== lit "gcode_ready")
     || (expectedJob ?. "resultId" !== previousJobResultId)
     || (expectedJob ?. "currentStateCommandKey" !== stateKey)
     || (expectedJob ?. "immutable" !== Bool true)) ;;
  guard_when
    ((context_ ?. "printingReservationProductionReservationId" !== productionReservationId)
     || (context_ ?. "printingReservationPreviousStatus" !== lit "scheduled")
     || (context_ ?. "printingReservationTargetStatus" !== lit "printing")
     || (expectedReservation ?. "id" !== productionReservationId)
     || (expectedReservation ?. "jobId" !== jobId)
     || (expectedReservation ?. "orderItemId" !== orderItemId)
     || (expectedReservation ?. "phaseId" !== phaseId)
     || (expectedReservation ?. "status" !== lit "scheduled")
     || (expectedReservation ?. "resultId" !== previousReservationResultId)
     || (expectedReservation ?. "immutable" !== Bool true)) ;;
  guard_when
    ((context_ ?. "printingReservationState" !== lit "printing")
     || (context_ ?. "materialConsumptionMode" !== lit "actual_recorded")
     || (context_ ?. "printingJobResultId" !== resultId)
     || (context_ ?. "printingReservationResultId" !== resultId)
     || (context_ ?. "printingCompleted" !== Bool true)
     || (context_ ?. "printingAtomic" !== Bool true)) ;;
  requireFlag command "printingReservationCommitAtomic".

Definition requireJobAcceptanceOwnership (command : TransitionCommand) : result () :=
  let jobId := (context command) ?. "jobId" in
  let productionReservationId := (context command) ?. "productionReservationId" in
  let orderItemId := (context command) ?. "orderItemId" in
  let phaseId := (context command) ?. "phaseId" in
  let artifactVersionId := (context command) ?. "reproductionArtifactVersionId" in
  let previousResultId := (context command) ?. "acceptancePreviousJobResultId" in
  let stateKey := (context command) ?. "acceptanceCurrentStateCommandKey" in
  let expectedValue := (context command) ?. "acceptanceExpectedJob" in
  let expected := record expectedValue in
  guard_when
    (negb (nonBlank jobId)
     || (optional (aggregateId command) !== jobId)
     || negb (nonBlank previousResultId)
     || negb (nonBlank stateKey)
     || negb (nonBlank (optional (currentStateResultId command)))
     || (optional (currentStateResultId command) !== previousResultId)
     || (optional (currentStateCommandKey command) !== stateKey)
     || ((context command) ?. "productionReservationJobId" !== jobId)
     || ((context command) ?. "acceptanceReservationJobId" !== jobId)
     || ((context command) ?. "reproductionArtifactVersionJobId" !== jobId)
     || (expected ?. "id" !== jobId)
     || (expected ?. "productionReservationId" !== productionReservationId)
     || (expected ?. "orderItemId" !== orderItemId)
     || (expected ?. "phaseId" !== phaseId)
     || (expected ?. "status" !== lit "created")
     || (expected ?. "resultId" !== previousResultId)
     || (expected ?. "currentStateCommandKey" !== stateKey)
     || (expected ?. "immutable" !== Bool true)) ;;
  guard_when
    (negb (nonBlank productionReservationId)
     || ((context command) ?. "acceptanceProductionReservationId" !== productionReservationId)
     || ((context command) ?. "reproductionArtifactVersionProductionReservationId"
           !== productionReservationId)) ;;
  guard_when
    (((context command) ?. "acceptanceMaterialPreviousState" !== lit "held")
     || ((context command) ?. "acceptanceMaterialTargetState" !== lit "allocated")
     || ((context command) ?. "acceptanceCapacityPreviousState" !== lit "held")
     || ((context command) ?. "acceptanceCapacityTargetState" !== lit "scheduled")) ;;
  guard_when
    (negb (nonBlank artifactVersionId)
     || ((context command) ?. "acceptanceArtifactVersionId" !== artifactVersionId)
     || ((context command) ?. "reproductionArtifactVersionStatus" !== lit "draft")
     || negb (nonBlank orderItemId)
     || ((context command) ?. "reproductionArtifactVersionOrderItemId" !== orderItemId)
     || negb (nonBlank phaseId)
     || ((context command) ?. "reproductionArtifactVersionPhaseId" !== phaseId)) ;;
  foldM (λ _ '(reservationField, artifactField),
    let reservationSnapshotId := (context command) ?. reservationField in
    guard_when
      (negb (nonBlank reservationSnapshotId)
       || ((context command) ?. artifactField !== reservationSnapshotId))) ()
      [("productionReservationCandidateResourceEstimateId",
        "reproductionArtifactVersionCandidateResourceEstimateId");
       ("productionReservationMachineProfileId",
        "reproductionArtifactVersionMachineProfileId");
       ("productionReservationMachineCalibrationId",
        "reproductionArtifactVersionMachineCalibrationId");
       ("productionReservationPrintConfigRevisionId",
        "reproductionArtifactVersionPrintConfigRevisionId")]%string ;;
  requireFlag command "acceptanceArtifactCreated" ;;
  requireFlag command "jobAcceptanceAtomic".

Definition requireCreatedJobCancellationOwnership (command : TransitionCommand) : result () :=
  let context_ := context command in
  let exactSet := λ (actual : value) (expected : value),
    if negb (is_array actual) || negb (is_array expected) then
      false
    else
    let left := ArrayV 0 (List.filter nonBlank (elements actual)) in
    let right := ArrayV 0 (List.filter nonBlank (elements expected)) in
    (js_len left =? js_len actual)
    && (js_len right =? js_len expected)
    && (js_len left =? js_len right)
    && (zlength (set_of (elements left)) =? js_len left)
    && (zlength (set_of (elements right)) =? js_len right)
    && forallb (λ id, includes (elements right) id) (elements left) in
  let jobId := context_ ?. "jobId" in
  let orderId := context_ ?. "orderId" in
  let orderItemId := context_ ?. "orderItemId" in
  let phaseId := context_ ?. "phaseId" in
  let reservationId := context_ ?. "productionReservationId" in
  let resultId := context_ ?. "createdCancellationResultId" in
  let previousJobResultId := context_ ?. "createdCancellationPreviousJobResultId" in
  let previousReservationResultId :=
    context_ ?. "createdCancellationPreviousReservationResultId" in
  let stateKey := context_ ?. "createdCancellationCurrentStateCommandKey" in
  let expectedJob := record (context_ ?. "createdCancellationExpectedJob") in
  let expectedReservation := record (context_ ?. "createdCancellationExpectedReservation") in
  let offerSet := record (context_ ?. "createdCancellationOfferSet") in
  let expectedOfferIds := context_ ?. "createdCancellationExpectedOfferIds" in
  let offers := context_ ?. "createdCancellationOffers" in
  guard_when
    (negb (nonBlank jobId)
     || negb (nonBlank orderId)
     || negb (nonBlank orderItemId)
     || negb (nonBlank phaseId)
     || negb (nonBlank reservationId)
     || negb (nonBlank resultId)
     || negb (nonBlank previousJobResultId)
     || negb (nonBlank previousReservationResultId)
     || negb (nonBlank stateKey)
     || (optional (aggregateId command) !== jobId)
     || negb (nonBlank (optional (currentStateResultId command)))
     || (optional (currentStateResultId command) !== previousJobResultId)
     || (optional (currentStateCommandKey command) !== stateKey)
     || (context_ ?. "createdCancellationJobId" !== jobId)
     || (context_ ?. "createdCancellationOrderId" !== orderId)
     || (context_ ?. "createdCancellationPhaseId" !== phaseId)
     || (context_ ?. "createdCancellationReservationId" !== reservationId)
     || (context_ ?. "createdCancellationPreviousStatus" !== lit "created")
     || (context_ ?. "createdCancellationTargetStatus" !== lit "cancelled")
     || (expectedJob ?. "id" !== jobId)
     || (expectedJob ?. "orderId" !== orderId)
     || (expectedJob ?. "orderItemId" !== orderItemId)
     || (expectedJob ?. "phaseId" !== phaseId)
     || (expectedJob ?. "productionReservationId" !== reservationId)
     || (expectedJob ?. "status" !== lit "created")
     || (expectedJob ?. "resultId" !== previousJobResultId)
     || (expectedJob ?. "currentStateCommandKey" !== stateKey)
     || (expectedJob ?. "immutable" !== Bool true)
     || (context_ ?. "createdCancellationOfferSetId" !== offerSet ?. "id")
     || negb (nonBlank (context_ ?. "createdCancellationOfferSetId"))
     || negb (nonBlank (context_ ?. "createdCancellationOfferSetResultId"))
     || (offerSet ?. "id" !== context_ ?. "createdCancellationOfferSetId")
     || (offerSet ?. "jobId" !== jobId)
     || (offerSet ?. "orderId" !== orderId)
     || (offerSet ?. "orderItemId" !== orderItemId)
     || (offerSet ?. "phaseId" !== phaseId)
     || (offerSet ?. "productionReservationId" !== reservationId)
     || (offerSet ?. "resultId" !== context_ ?. "createdCancellationOfferSetResultId")
     || (offerSet ?. "immutable" !== Bool true)
     || negb (exactSet (offerSet ?. "offerIds") expectedOfferIds)
     || negb (is_array offers)
     || negb (js_len offers =? js_len expectedOfferIds)) ;;
  guard_when
    (negb (nonBlank (context_ ?. "createdCancellationJobResultId"))
     || negb (nonBlank (context_ ?. "createdCancellationReservationResultId"))
     || (context_ ?. "createdCancellationJobResultId" !== resultId)
     || (context_ ?. "createdCancellationReservationResultId" !== resultId)
     || (context_ ?. "createdCancellationOffersResultId" !== resultId)
     || (context_ ?. "createdCancellationCompleted" !== Bool true)
     || (context_ ?. "createdCancellationAtomic" !== Bool true)
     || (context_ ?. "offersClosed" !== Bool true)
     || (context_ ?. "productionReservationReleased" !== Bool true)
     || (context_ ?. "createdCancellationReservationPreviousStatus" !== lit "held")
     || (context_ ?. "createdCancellationReservationTargetStatus" !== lit "released")
     || (expectedReservation ?. "id" !== reservationId)
     || (expectedReservation ?. "jobId" !== jobId)
     || (expectedReservation ?. "orderId" !== orderId)
     || (expectedReservation ?. "orderItemId" !== orderItemId)
     || (expectedReservation ?. "phaseId" !== phaseId)
     || (expectedReservation ?. "status" !== lit "held")
     || (expectedReservation ?. "resultId" !== previousReservationResultId)
     || (expectedReservation ?. "immutable" !== Bool true)) ;;
  let offerIds : list value := [] in
  offerIds ← foldM (λ offerIds value_,
    let offer := record value_ in
    guard_when
      ((offer === Undefined)
       || negb (nonBlank (offer ?. "id"))
       || set_has offerIds (offer ?. "id")
       || negb (includes (elements expectedOfferIds) (offer ?. "id"))
       || (offer ?. "jobId" !== jobId)
       || (offer ?. "productionReservationId" !== reservationId)
       || (offer ?. "orderItemId" !== orderItemId)
       || (offer ?. "orderId" !== orderId)
       || (offer ?. "phaseId" !== phaseId)
       || (offer ?. "previousStatus" !== lit "open")
       || (offer ?. "targetStatus" !== lit "closed")
       || (offer ?. "resultId" !== resultId)
       || (offer ?. "immutable" !== Bool true)) ;;
    Ok (set_add offerIds (offer ?. "id"))) offerIds (elements offers);
  guard_when (negb (exactSet (ArrayV 0 offerIds) expectedOfferIds)).

Definition requireAtomicGcodeReadyProduction (command : TransitionCommand) : result () :=
  let context_ := context command in
  let jobId := context_ ?. "jobId" in
  let reservationId := context_ ?. "productionReservationId" in
  let artifactVersionId := context_ ?. "reproductionArtifactVersionId" in
  let orderItemId := context_ ?. "orderItemId" in
  let phaseId := context_ ?. "phaseId" in
  let resultId := context_ ?. "gcodeReadyResultId" in
  let productionSliceId := context_ ?. "productionSliceId" in
  let outputDigest := context_ ?. "productionSliceOutputDigest" in
  let acceptedResultId := context_ ?. "gcodeReadyAcceptedJobResultId" in
  let currentStateCommandKey_ := optional (currentStateCommandKey command) in
  let expectedJob := record (context_ ?. "gcodeReadyExpectedJob") in
  let expectedReservation := record (context_ ?. "gcodeReadyExpectedReservationSnapshot") in
  let expectedArtifact := record (context_ ?. "gcodeReadyExpectedArtifactVersion") in
  let productionSlice := record (context_ ?. "gcodeReadyProductionSlice") in
  guard_when
    (negb (nonBlank jobId)
     || negb (nonBlank reservationId)
     || negb (nonBlank artifactVersionId)
     || negb (nonBlank orderItemId)
     || negb (nonBlank phaseId)
     || negb (nonBlank resultId)
     || negb (nonBlank productionSliceId)
     || negb (nonBlank outputDigest)
     || negb (nonBlank acceptedResultId)
     || negb (nonBlank currentStateCommandKey_)
     || (optional (aggregateId command) !== jobId)
     || (context_ ?. "gcodeReadyAcceptedStateCommandKey" !== currentStateCommandKey_)
     || (context_ ?. "gcodeReadyJobId" !== jobId)
     || (context_ ?. "gcodeReadyReservationId" !== reservationId)
     || (context_ ?. "gcodeReadyArtifactVersionId" !== artifactVersionId)
     || (context_ ?. "gcodeReadyOrderItemId" !== orderItemId)
     || (context_ ?. "gcodeReadyPhaseId" !== phaseId)
     || (context_ ?. "gcodeReadyJobPreviousStatus" !== lit "accepted")
     || (context_ ?. "gcodeReadyJobTargetStatus" !== lit "gcode_ready")
     || (expectedJob ?. "id" !== jobId)
     || (expectedJob ?. "productionReservationId" !== reservationId)
     || (expectedJob ?. "reproductionArtifactVersionId" !== artifactVersionId)
     || (expectedJob ?. "orderItemId" !== orderItemId)
     || (expectedJob ?. "phaseId" !== phaseId)
     || (expectedJob ?. "status" !== lit "accepted")
     || (expectedJob ?. "resultId" !== acceptedResultId)
     || (expectedJob ?. "currentStateCommandKey" !== currentStateCommandKey_)
     || (expectedJob ?. "immutable" !== Bool true)) ;;
  let candidateResourceEstimateId :=
    context_ ?. "productionReservationCandidateResourceEstimateId" in
  let machineProfileId := context_ ?. "productionReservationMachineProfileId" in
  let machineCalibrationId := context_ ?. "productionReservationMachineCalibrationId" in
  let printConfigRevisionId := context_ ?. "productionReservationPrintConfigRevisionId" in
  guard_when
    (negb (nonBlank candidateResourceEstimateId)
     || negb (nonBlank machineProfileId)
     || negb (nonBlank machineCalibrationId)
     || negb (nonBlank printConfigRevisionId)
     || (expectedReservation ?. "id" !== reservationId)
     || (expectedReservation ?. "jobId" !== jobId)
     || (expectedReservation ?. "orderItemId" !== orderItemId)
     || (expectedReservation ?. "phaseId" !== phaseId)
     || (expectedReservation ?. "status" !== lit "scheduled")
     || (expectedReservation ?. "candidateResourceEstimateId" !== candidateResourceEstimateId)
     || (expectedReservation ?. "machineProfileId" !== machineProfileId)
     || (expectedReservation ?. "machineCalibrationId" !== machineCalibrationId)
     || (expectedReservation ?. "printConfigRevisionId" !== printConfigRevisionId)
     || (expectedReservation ?. "resultId" !== acceptedResultId)
     || (expectedReservation ?. "immutable" !== Bool true)
     || (expectedArtifact ?. "id" !== artifactVersionId)
     || (expectedArtifact ?. "jobId" !== jobId)
     || (expectedArtifact ?. "productionReservationId" !== reservationId)
     || (expectedArtifact ?. "orderItemId" !== orderItemId)
     || (expectedArtifact ?. "phaseId" !== phaseId)
     || (expectedArtifact ?. "status" !== lit "draft")
     || (expectedArtifact ?. "candidateResourceEstimateId" !== candidateResourceEstimateId)
     || (expectedArtifact ?. "machineProfileId" !== machineProfileId)
     || (expectedArtifact ?. "machineCalibrationId" !== machineCalibrationId)
     || (expectedArtifact ?. "printConfigRevisionId" !== printConfigRevisionId)
     || (expectedArtifact ?. "resultId" !== acceptedResultId)
     || (expectedArtifact ?. "immutable" !== Bool true)) ;;
  guard_when
    ((productionSlice ?. "id" !== productionSliceId)
     || (productionSlice ?. "jobId" !== jobId)
     || (productionSlice ?. "productionReservationId" !== reservationId)
     || (productionSlice ?. "reproductionArtifactVersionId" !== artifactVersionId)
     || (productionSlice ?. "orderItemId" !== orderItemId)
     || (productionSlice ?. "phaseId" !== phaseId)
     || (productionSlice ?. "previousStatus" !== lit "pending")
     || (productionSlice ?. "targetStatus" !== lit "completed")
     || (productionSlice ?. "candidateResourceEstimateId" !== candidateResourceEstimateId)
     || (productionSlice ?. "machineProfileId" !== machineProfileId)
     || (productionSlice ?. "machineCalibrationId" !== machineCalibrationId)
     || (productionSlice ?. "printConfigRevisionId" !== printConfigRevisionId)
     || (productionSlice ?. "outputDigest" !== outputDigest)
     || (productionSlice ?. "resultId" !== resultId)
     || (productionSlice ?. "sourceStateCommandKey" !== currentStateCommandKey_)
     || (productionSlice ?. "immutable" !== Bool true)
     || (context_ ?. "gcodeReadyArtifactPreviousStatus" !== lit "draft")
     || (context_ ?. "gcodeReadyArtifactTargetStatus" !== lit "sealed")
     || (context_ ?. "gcodeReadyArtifactOutputDigest" !== outputDigest)
     || (context_ ?. "gcodeReadyJobResultId" !== resultId)
     || (context_ ?. "gcodeReadyReservationResultId" !== resultId)
     || (context_ ?. "gcodeReadyArtifactResultId" !== resultId)
     || (context_ ?. "gcodeReadyProductionSliceResultId" !== resultId)
     || (context_ ?. "gcodeReadyCompleted" !== Bool true)
     || (context_ ?. "gcodeReadyAtomic" !== Bool true)).

Definition requireAtomicQcPhotoSubmission (command : TransitionCommand) : result () :=
  let context_ := context command in
  let jobId := context_ ?. "jobId" in
  let orderId := context_ ?. "orderId" in
  let phaseId := context_ ?. "phaseId" in
  let reservationId := context_ ?. "productionReservationId" in
  let photoAssetId := context_ ?. "qcPhotoAssetId" in
  let resultId := context_ ?. "qcPhotoSubmissionResultId" in
  let printedResultId := context_ ?. "qcPhotoSubmissionPrintedJobResultId" in
  let retentionDeadlineAt := context_ ?. "qcPhotoRetentionDeadlineAt" in
  let currentStateCommandKey_ := optional (currentStateCommandKey command) in
  let expectedJob := record (context_ ?. "qcPhotoSubmissionExpectedJob") in
  let photoAsset := record (context_ ?. "qcPhotoSubmissionPhotoAsset") in
  guard_when
    (negb (nonBlank jobId)
     || negb (nonBlank orderId)
     || negb (nonBlank phaseId)
     || negb (nonBlank reservationId)
     || negb (nonBlank photoAssetId)
     || negb (nonBlank resultId)
     || negb (nonBlank printedResultId)
     || negb (is_instant retentionDeadlineAt)
     || negb (nonBlank currentStateCommandKey_)
     || (optional (aggregateId command) !== jobId)
     || (context_ ?. "qcPhotoSubmissionPrintedStateCommandKey" !== currentStateCommandKey_)
     || (context_ ?. "qcPhotoSubmissionJobId" !== jobId)
     || (context_ ?. "qcPhotoSubmissionOrderId" !== orderId)
     || (context_ ?. "qcPhotoSubmissionPhaseId" !== phaseId)
     || (context_ ?. "qcPhotoSubmissionReservationId" !== reservationId)
     || (context_ ?. "qcPhotoSubmissionPhotoAssetId" !== photoAssetId)
     || (context_ ?. "qcPhotoSubmissionJobPreviousStatus" !== lit "printed")
     || (context_ ?. "qcPhotoSubmissionJobTargetStatus" !== lit "photo_submitted")
     || (expectedJob ?. "id" !== jobId)
     || (expectedJob ?. "orderId" !== orderId)
     || (expectedJob ?. "phaseId" !== phaseId)
     || (expectedJob ?. "productionReservationId" !== reservationId)
     || (expectedJob ?. "status" !== lit "printed")
     || (expectedJob ?. "resultId" !== printedResultId)
     || (expectedJob ?. "currentStateCommandKey" !== currentStateCommandKey_)
     || (expectedJob ?. "immutable" !== Bool true)) ;;
  guard_when
    ((photoAsset ?. "id" !== photoAssetId)
     || (photoAsset ?. "jobId" !== jobId)
     || (photoAsset ?. "orderId" !== orderId)
     || (photoAsset ?. "phaseId" !== phaseId)
     || (photoAsset ?. "previousStatus" !== lit "pending")
     || (photoAsset ?. "targetStatus" !== lit "stored")
     || negb (is_instant (photoAsset ?. "retentionDeadlineAt"))
     || negb (sameInstant (photoAsset ?. "retentionDeadlineAt") retentionDeadlineAt)
     || (photoAsset ?. "resultId" !== resultId)
     || (photoAsset ?. "submissionResultId" !== resultId)
     || (photoAsset ?. "immutable" !== Bool true)
     || (context_ ?. "qcPhotoSubmissionJobResultId" !== resultId)
     || (context_ ?. "qcPhotoSubmissionPhotoAssetResultId" !== resultId)
     || (context_ ?. "qcPhotoSubmissionRetentionResultId" !== resultId)
     || (context_ ?. "qcPhotoSubmissionCompleted" !== Bool true)
     || (context_ ?. "qcPhotoSubmissionAtomic" !== Bool true)).

Definition requireExactQcDecision (command : TransitionCommand) (outcome : value) : result () :=
  let context_ := context command in
  let jobId := context_ ?. "jobId" in
  let orderId := context_ ?. "orderId" in
  let phaseId := context_ ?. "phaseId" in
  let reservationId := context_ ?. "productionReservationId" in
  let photoAssetId := context_ ?. "qcPhotoAssetId" in
  let reviewerId := context_ ?. "qcDecisionReviewerId" in
  let decisionId := context_ ?. "qcDecisionId" in
  let resultId := context_ ?. "qcDecisionResultId" in
  let submittedResultId := context_ ?. "qcDecisionSubmittedJobResultId" in
  let currentStateCommandKey_ := optional (currentStateCommandKey command) in
  let currentStateResultId_ := optional (currentStateResultId command) in
  let targetStatus :=
    if outcome === lit "approved" then lit "qc_approved" else lit "qc_rejected" in
  let expectedJob := record (context_ ?. "qcDecisionExpectedJob") in
  let photoAsset := record (context_ ?. "qcDecisionPhotoAsset") in
  let reviewer := record (context_ ?. "qcDecisionReviewer") in
  let decision := record (context_ ?. "qcDecision") in
  guard_when
    (negb (nonBlank jobId)
     || negb (nonBlank orderId)
     || negb (nonBlank phaseId)
     || negb (nonBlank reservationId)
     || negb (nonBlank photoAssetId)
     || negb (nonBlank reviewerId)
     || negb (nonBlank decisionId)
     || negb (nonBlank resultId)
     || negb (nonBlank submittedResultId)
     || negb (nonBlank currentStateCommandKey_)
     || negb (nonBlank currentStateResultId_)
     || (optional (aggregateId command) !== jobId)
     || (currentStateResultId_ !== submittedResultId)
     || (context_ ?. "qcDecisionSubmittedStateCommandKey" !== currentStateCommandKey_)
     || (context_ ?. "qcDecisionJobId" !== jobId)
     || (context_ ?. "qcDecisionOrderId" !== orderId)
     || (context_ ?. "qcDecisionPhaseId" !== phaseId)
     || (context_ ?. "qcDecisionReservationId" !== reservationId)
     || (context_ ?. "qcDecisionPhotoAssetId" !== photoAssetId)
     || (context_ ?. "qcDecisionPreviousJobStatus" !== lit "photo_submitted")
     || (context_ ?. "qcDecisionTargetJobStatus" !== targetStatus)
     || (expectedJob ?. "id" !== jobId)
     || (expectedJob ?. "orderId" !== orderId)
     || (expectedJob ?. "phaseId" !== phaseId)
     || (expectedJob ?. "productionReservationId" !== reservationId)
     || (expectedJob ?. "photoAssetId" !== photoAssetId)
     || (expectedJob ?. "status" !== lit "photo_submitted")
     || (expectedJob ?. "resultId" !== submittedResultId)
     || (expectedJob ?. "currentStateCommandKey" !== currentStateCommandKey_)
     || (expectedJob ?. "immutable" !== Bool true)) ;;
  guard_when
    ((photoAsset ?. "id" !== photoAssetId)
     || (photoAsset ?. "jobId" !== jobId)
     || (photoAsset ?. "orderId" !== orderId)
     || (photoAsset ?. "phaseId" !== phaseId)
     || (photoAsset ?. "status" !== lit "stored")
     || negb (is_instant (photoAsset ?. "retentionDeadlineAt"))
     || (photoAsset ?. "submissionResultId" !== submittedResultId)
     || (photoAsset ?. "resultId" !== submittedResultId)
     || (photoAsset ?. "immutable" !== Bool true)
     || (reviewer ?. "id" !== reviewerId)
     || (reviewer ?. "active" !== Bool true)
     || (reviewer ?. "authorized" !== Bool true)) ;;
  guard_when
    ((decision ?. "id" !== decisionId)
     || (decision ?. "jobId" !== jobId)
     || (decision ?. "orderId" !== orderId)
     || (decision ?. "phaseId" !== phaseId)
     || (decision ?. "productionReservationId" !== reservationId)
     || (decision ?. "photoAssetId" !== photoAssetId)
     || (decision ?. "reviewerId" !== reviewerId)
     || (decision ?. "outcome" !== outcome)
     || (decision ?. "previousJobStatus" !== lit "photo_submitted")
     || (decision ?. "targetJobStatus" !== targetStatus)
     || (decision ?. "resultId" !== resultId)
     || (decision ?. "sourceStateCommandKey" !== currentStateCommandKey_)
     || ((outcome === lit "rejected")
         && (decision ?. "replacementRequestId"
               !== context_ ?. "qcRejectionReplacementRequestId"))
     || (decision ?. "immutable" !== Bool true)
     || (context_ ?. "qcDecisionJobResultId" !== resultId)
     || (context_ ?. "qcDecisionPhotoAssetResultId" !== submittedResultId)
     || (context_ ?. "qcDecisionReviewerResultId" !== resultId)
     || (context_ ?. "qcDecisionRecordResultId" !== resultId)
     || (context_ ?. "qcDecisionCompleted" !== Bool true)
     || (context_ ?. "qcDecisionAtomic" !== Bool true)).

Definition requireExactQcRejectionReplacement (command : TransitionCommand) : result () :=
  let context_ := context command in
  let value_ := context_ ?. "qcRejectionReplacementRequest" in
  let request := record value_ in
  let jobId := context_ ?. "jobId" in
  let orderId := context_ ?. "orderId" in
  let phaseId := context_ ?. "phaseId" in
  let reservationId := context_ ?. "productionReservationId" in
  let decisionId := context_ ?. "qcDecisionId" in
  let resultId := context_ ?. "qcDecisionResultId" in
  let requestId := context_ ?. "qcRejectionReplacementRequestId" in
  let sourceResultId := context_ ?. "qcDecisionSubmittedJobResultId" in
  let sourceStateCommandKey := optional (currentStateCommandKey command) in
  let createdAt := context_ ?. "qcRejectionReplacementCreatedAt" in
  let deadlineAt := context_ ?. "qcRejectionReplacementDeadlineAt" in
  guard_when
    (negb (currentIs command "photo_submitted")
     || negb (targetIs command "qc_rejected")
     || negb (nonBlank jobId)
     || negb (nonBlank orderId)
     || negb (nonBlank phaseId)
     || negb (nonBlank reservationId)
     || negb (nonBlank decisionId)
     || negb (nonBlank resultId)
     || negb (nonBlank requestId)
     || negb (nonBlank sourceResultId)
     || negb (nonBlank sourceStateCommandKey)
     || negb (is_instant createdAt)
     || negb (is_instant deadlineAt)
     || (compareV deadlineAt createdAt <=? 0)
     || (request ?. "id" !== requestId)
     || (request ?. "jobId" !== jobId)
     || (request ?. "orderId" !== orderId)
     || (request ?. "phaseId" !== phaseId)
     || (request ?. "productionReservationId" !== reservationId)
     || (request ?. "qcDecisionId" !== decisionId)
     || (request ?. "previousJobStatus" !== lit "photo_submitted")
     || (request ?. "targetJobStatus" !== lit "qc_rejected")
     || (request ?. "status" !== lit "open")
     || negb (is_instant (request ?. "createdAt"))
     || negb (sameInstant (request ?. "createdAt") createdAt)
     || negb (is_instant (request ?. "deadlineAt"))
     || negb (sameInstant (request ?. "deadlineAt") deadlineAt)
     || (request ?. "sourceJobResultId" !== sourceResultId)
     || (request ?. "sourceStateCommandKey" !== sourceStateCommandKey)
     || (request ?. "resultId" !== resultId)
     || (request ?. "immutable" !== Bool true)
     || (context_ ?. "qcRejectionReplacementJobResultId" !== resultId)
     || (context_ ?. "qcRejectionResourceSettlementResultId" !== resultId)
     || (context_ ?. "qcRejectionLabelBarrierResultId" !== resultId)
     || (context_ ?. "qcRejectionReplacementRequestResultId" !== resultId)
     || (context_ ?. "qcRejectionReplacementDeadlineResultId" !== resultId)
     || (context_ ?. "qcRejectionReplacementCompleted" !== Bool true)
     || (context_ ?. "qcRejectionReplacementAtomic" !== Bool true)).

Definition requirePostQcJobFailureResolution (lifecycle : jstr) (command : TransitionCommand)
    : result () :=
  let jobId := (context command) ?. "jobId" in
  let phaseId := (context command) ?. "phaseId" in
  let phaseKind := (context command) ?. "phaseKind" in
  let orderId := (context command) ?. "orderId" in
  let orderPreviousResultId := (context command) ?. "postQcFailureOrderPreviousResultId" in
  let orderStateKey := (context command) ?. "postQcFailureOrderCurrentStateCommandKey" in
  let expectedOrderValue := (context command) ?. "postQcFailureExpectedOrder" in
  let expectedOrder := record expectedOrderValue in
  let phasePreviousResultId := (context command) ?. "postQcFailurePhasePreviousResultId" in
  let phaseStateKey := (context command) ?. "postQcFailurePhaseCurrentStateCommandKey" in
  let expectedPhaseValue := (context command) ?. "postQcFailureExpectedPhase" in
  let expectedPhase := record expectedPhaseValue in
  let resultId := (context command) ?. "postQcFailureResultId" in
  let jobPreviousStatus := (context command) ?. "postQcFailureJobPreviousStatus" in
  let failureStage := (context command) ?. "postQcFailureFailureStage" in
  guard_when
    (negb (is_string jobId)
     || (js_len jobId =? 0)
     || ((context command) ?. "postQcFailureJobId" !== jobId)
     || negb (is_string phaseId)
     || (js_len phaseId =? 0)
     || ((context command) ?. "postQcFailurePhaseId" !== phaseId)
     || (phaseKind !== lit "single")
     || ((context command) ?. "postQcFailurePhaseKind" !== phaseKind)
     || negb (is_string orderId)
     || (js_len orderId =? 0)
     || ((context command) ?. "postQcFailureOrderId" !== orderId)
     || negb (nonBlank resultId)
     || negb (is_string jobPreviousStatus)
     || negb (isJobFailureStageForCurrent jobPreviousStatus failureStage)
     || ((context command) ?. "postQcFailureJobTargetStatus" !== lit "failed")
     || negb (nonBlank ((context command) ?. "postQcFailureFailureReason"))
     || ((context command) ?. "postQcFailureJobResultId" !== resultId)
     || ((context command) ?. "postQcFailurePhaseResultId" !== resultId)
     || ((context command) ?. "postQcFailureOrderResultId" !== resultId)
     || ((context command) ?. "postQcFailureVerificationResultId" !== resultId)
     || ((context command) ?. "postQcFailureReplacementResultId" !== resultId)
     || ((context command) ?. "verifiedPostQcFailure" !== Bool true)
     || ((context command) ?. "replacementRequestCreated" !== Bool true)
     || ((context command) ?. "replacementDeadlineSet" !== Bool true)
     || ((context command) ?. "postQcFailureResolutionCompleted" !== Bool true)
     || (str_eqb lifecycle (js "Order")
         && (negb (nonBlank orderPreviousResultId)
             || negb (nonBlank orderStateKey)
             || (optional (aggregateId command) !== orderId)
             || (optional (currentStateResultId command) !== orderPreviousResultId)
             || (optional (currentStateCommandKey command) !== orderStateKey)
             || (expectedOrder ?. "id" !== orderId)
             || (expectedOrder ?. "phaseId" !== phaseId)
             || (expectedOrder ?. "status" !== Str (current command))
             || (expectedOrder ?. "resultId" !== orderPreviousResultId)
             || (expectedOrder ?. "currentStateCommandKey" !== orderStateKey)
             || (expectedOrder ?. "immutable" !== Bool true)))
     || (str_eqb lifecycle (js "OrderPhase(single)")
         && (negb (nonBlank phasePreviousResultId)
             || negb (nonBlank phaseStateKey)
             || (optional (aggregateId command) !== phaseId)
             || (optional (currentStateResultId command) !== phasePreviousResultId)
             || (optional (currentStateCommandKey command) !== phaseStateKey)
             || (expectedPhase ?. "id" !== phaseId)
             || (expectedPhase ?. "orderId" !== orderId)
             || (expectedPhase ?. "status" !== Str (current command))
             || (expectedPhase ?. "resultId" !== phasePreviousResultId)
             || (expectedPhase ?. "currentStateCommandKey" !== phaseStateKey)
             || (expectedPhase ?. "immutable" !== Bool true)))
     || (str_eqb lifecycle (js "Job")
         && ((Str (current command) !== jobPreviousStatus)
             || negb (targetIs command "failed")
             || ((context command) ?. "failureReason"
                   !== (context command) ?. "postQcFailureFailureReason")))
     || (str_eqb lifecycle (js "Order")
         && (((context command) ?. "postQcFailureOrderPreviousStatus" !== Str (current command))
             || negb (targetIs command "recovery_pending")))
     || (str_eqb lifecycle (js "OrderPhase(single)")
         && (((context command) ?. "postQcFailurePhasePreviousStatus" !== Str (current command))
             || negb (targetIs command "recovery_pending")))) ;;
  requireFlag command "postQcFailureResolutionAtomic" ;;
  let kind := (context command) ?. "postQcFailureResolutionKind" in
  if kind === lit "pre_handoff_recovery" then
    guard_when
      (((context command) ?. "phaseHasPriorHandoff" !== Bool false)
       || (((context command) ?. "postQcFailurePhasePreviousStatus" !== lit "in_production")
           && ((context command) ?. "postQcFailurePhasePreviousStatus" !== lit "qc_passed"))
       || ((context command) ?. "postQcFailurePhaseTargetStatus" !== lit "recovery_pending")
       || ((context command) ?. "postQcFailureOrderTargetStatus" !== lit "recovery_pending")
       || ((context command) ?. "postQcFailureShipmentPlanId" !== Undefined)
       || ((context command) ?. "postQcFailureSlotIds" !== Undefined)
       || ((context command) ?. "postQcFailureSlotRecoveryBlocked" !== Undefined)) ;;
    let previousOrderStatus := (context command) ?. "postQcFailureOrderPreviousStatus" in
    guard_when
      ((previousOrderStatus !== lit "in_production")
       && (previousOrderStatus !== lit "qc_passed")
       && (previousOrderStatus !== lit "awaiting_balance")
       && (previousOrderStatus !== lit "ready_to_ship")) ;;
    let expectedBalanceDeadlineResult :=
      if previousOrderStatus === lit "awaiting_balance"
      then lit "invalidated"
      else lit "not_active" in
    guard_when
      ((context command) ?. "postQcFailureBalanceDeadlineResult"
         !== expectedBalanceDeadlineResult)
  else if kind === lit "post_handoff_slot_block" then
    let shipmentPlanId := (context command) ?. "jobShipmentPlanId" in
    guard_when
      (((context command) ?. "phaseHasPriorHandoff" !== Bool true)
       || ((context command) ?. "postQcFailurePhasePreviousStatus" !== lit "shipped")
       || ((context command) ?. "postQcFailurePhaseTargetStatus" !== lit "shipped")
       || ((context command) ?. "postQcFailureOrderTargetStatus" !== lit "shipped")
       || ((context command) ?. "postQcFailureOrderPreviousStatus"
             !== (context command) ?. "postQcFailureOrderTargetStatus")
       || ((context command) ?. "postQcFailureBalanceDeadlineResult" !== lit "not_active")
       || ((context command) ?. "postQcFailureSlotRecoveryBlocked" !== Bool true)
       || negb (is_string shipmentPlanId)
       || (js_len shipmentPlanId =? 0)
       || ((context command) ?. "postQcFailureShipmentPlanId" !== shipmentPlanId)
       || negb
            (hasSameNonEmptyStringSet ((context command) ?. "postQcFailureSlotIds")
               ((context command) ?. "jobFulfilmentSlotIds")))
  else
  Throw TransitionGuardError.

Definition requireJobReplacementObligation (command : TransitionCommand) : result () :=
  requireFlag command "replacementRequestCreated" ;;
  requireFlag command "replacementDeadlineSet" ;;
  when (currentIs command "photo_submitted" && targetIs command "qc_rejected")
    (requireExactQcRejectionReplacement command).

Definition terminalClaimStatuses : list value :=
  [lit "resolved_rejected"; lit "resolved_reprint"; lit "resolved_reship";
   lit "resolved_refund"; lit "resolved_mixed"; lit "withdrawn"].

Definition requireDeliveredJobSettlement (command : TransitionCommand) : result () :=
  let jobId := (context command) ?. "jobId" in
  let shipmentId := (context command) ?. "shipmentId" in
  let orderId := (context command) ?. "orderId" in
  let phaseId := (context command) ?. "phaseId" in
  let lineageLeafId := (context command) ?. "currentJobShipmentLineageLeafId" in
  let evaluatedAt := (context command) ?. "jobSettlementEvaluatedAt" in
  let previousResultId := (context command) ?. "jobSettlementPreviousJobResultId" in
  let resultId := (context command) ?. "jobSettlementResultId" in
  let stateKey := (context command) ?. "jobSettlementCurrentStateCommandKey" in
  let expectedValue := (context command) ?. "jobSettlementExpectedJob" in
  let expected := record expectedValue in
  let slotSetId := (context command) ?. "jobSettlementAuthoritativeSlotSetId" in
  let slotSetResultId := (context command) ?. "jobSettlementAuthoritativeSlotSetResultId" in
  let slotSetValue := (context command) ?. "jobSettlementAuthoritativeSlotSet" in
  let slotSet := record slotSetValue in
  let authoritativeSlotIdsValue := slotSet ?. "slotIds" in
  let authoritativeSlotIds := array authoritativeSlotIdsValue in
  let authoritativeSlotsValue := slotSet ?. "slotSnapshots" in
  let authoritativeSlots := array authoritativeSlotsValue in
  let expectedSlotIdsValue := (context command) ?. "expectedJobSettlementSlotIds" in
  let slotsValue := (context command) ?. "jobSettlementSlots" in
  let expectedSlotIds := array expectedSlotIdsValue in
  let slots := array slotsValue in
  guard_when
    (negb (nonBlank jobId)
     || negb (nonBlank previousResultId)
     || negb (nonBlank resultId)
     || negb (nonBlank stateKey)
     || (optional (aggregateId command) !== jobId)
     || negb (nonBlank (optional (currentStateResultId command)))
     || (optional (currentStateResultId command) !== previousResultId)
     || (optional (currentStateCommandKey command) !== stateKey)
     || ((context command) ?. "jobSettlementJobId" !== jobId)
     || ((context command) ?. "jobSettlementPreviousStatus" !== lit "handed_over")
     || ((context command) ?. "jobSettlementTargetStatus" !== lit "settled")
     || negb (nonBlank shipmentId)
     || ((context command) ?. "jobSettlementShipmentId" !== shipmentId)
     || ((context command) ?. "jobSettlementShipmentJobId" !== jobId)
     || negb (nonBlank orderId)
     || ((context command) ?. "jobSettlementOrderId" !== orderId)
     || negb (nonBlank phaseId)
     || ((context command) ?. "jobSettlementPhaseId" !== phaseId)
     || negb (nonBlank lineageLeafId)
     || ((context command) ?. "jobSettlementLineageLeafId" !== lineageLeafId)
     || ((context command) ?. "jobSettlementLineageShipmentId" !== shipmentId)
     || ((context command) ?. "jobSettlementLineageOrderId" !== orderId)
     || ((context command) ?. "jobSettlementLineagePhaseId" !== phaseId)
     || ((context command) ?. "jobSettlementLineageStatus" !== lit "delivered")
     || (expected ?. "id" !== jobId)
     || (expected ?. "shipmentId" !== shipmentId)
     || (expected ?. "orderId" !== orderId)
     || (expected ?. "phaseId" !== phaseId)
     || (expected ?. "status" !== lit "handed_over")
     || (expected ?. "resultId" !== previousResultId)
     || (expected ?. "currentStateCommandKey" !== stateKey)
     || (expected ?. "currentLineageLeaf" !== Bool true)
     || (expected ?. "immutable" !== Bool true)
     || negb (nonBlank slotSetId)
     || negb (nonBlank slotSetResultId)
     || (optional (ownershipSnapshotId command) !== slotSetId)
     || (optional (ownershipSnapshotResultId command) !== slotSetResultId)
     || ((context command) ?. "jobSettlementExpectedSlotSetId" !== slotSetId)
     || (expected ?. "slotSetId" !== slotSetId)
     || (expected ?. "slotSetResultId" !== slotSetResultId)
     || (slotSet ?. "id" !== slotSetId)
     || (slotSet ?. "jobId" !== jobId)
     || (slotSet ?. "shipmentId" !== shipmentId)
     || (slotSet ?. "orderId" !== orderId)
     || (slotSet ?. "phaseId" !== phaseId)
     || (slotSet ?. "previousJobResultId" !== previousResultId)
     || (slotSet ?. "currentStateCommandKey" !== stateKey)
     || (slotSet ?. "resultId" !== slotSetResultId)
     || (slotSet ?. "immutable" !== Bool true)
     || (authoritativeSlotIds === Undefined)
     || (authoritativeSlots === Undefined)
     || negb (js_len authoritativeSlots =? js_len authoritativeSlotIds)
     || ((context command) ?. "jobSettlementJobResultId" !== resultId)
     || ((context command) ?. "jobSettlementShipmentResultId" !== resultId)
     || ((context command) ?. "jobSettlementLineageResultId" !== resultId)
     || ((context command) ?. "jobSettlementSlotSetResultId" !== resultId)
     || negb (is_instant evaluatedAt)
     || (expectedSlotIds === Undefined)
     || negb (hasSameNonEmptyStringSet expectedSlotIds authoritativeSlotIds)
     || (slots === Undefined)
     || negb (js_len slots =? js_len authoritativeSlotIds)) ;;
  let authoritativeSlotIdList := authoritativeSlotIds in
  let authoritativeSlotById : list (value * value) := [] in
  authoritativeSlotById ← foldM (λ authoritativeSlotById value_,
    guard_when (negb (is_record value_)) ;;
    let slot := value_ in
    let id := slot ?. "id" in
    guard_when
      (negb (nonBlank id)
       || negb (includes (elements authoritativeSlotIdList) id)
       || map_has authoritativeSlotById id
       || (slot ?. "slotSetId" !== slotSetId)
       || (slot ?. "jobId" !== jobId)
       || (slot ?. "shipmentId" !== shipmentId)
       || (slot ?. "orderId" !== orderId)
       || (slot ?. "phaseId" !== phaseId)
       || (slot ?. "status" !== lit "delivered")
       || negb (nonBlank (slot ?. "resultId"))
       || negb (nonBlank (slot ?. "currentStateCommandKey"))
       || negb (is_instant (slot ?. "claimUntil"))
       || (slot ?. "immutable" !== Bool true)) ;;
    Ok (map_set authoritativeSlotById id slot)) authoritativeSlotById
      (elements authoritativeSlots);
  guard_when (negb (zlength authoritativeSlotById =? js_len authoritativeSlotIdList)) ;;
  let projectedSlotIds : list value := [] in
  projectedSlotIds ← foldM (λ projectedSlotIds value_,
    guard_when (negb (is_record value_)) ;;
    let slot := value_ in
    let id := slot ?. "id" in
    let claimUntil := slot ?. "claimUntil" in
    let resolvedClaimId := slot ?. "resolvedClaimId" in
    let resolvedClaimStatus := slot ?. "resolvedClaimStatus" in
    let source := if is_string id then map_get authoritativeSlotById id else Undefined in
    let sourceClaimUntil := source ?. "claimUntil" in
    let claimWindowElapsed := is_instant claimUntil && (0 <=? compareV evaluatedAt claimUntil) in
    let claimResolved :=
      nonBlank resolvedClaimId
      && set_has terminalClaimStatuses resolvedClaimStatus
      && (slot ?. "resolvedClaimSlotId" === id)
      && (slot ?. "resolvedClaimShipmentId" === shipmentId)
      && (slot ?. "resolvedClaimOrderId" === orderId)
      && (slot ?. "resolvedClaimPhaseId" === phaseId)
      && (slot ?. "resolvedClaimPreviousActiveClaimId" === resolvedClaimId)
      && (slot ?. "resolvedClaimTargetActiveClaimId" === Null) in
    let noClaim :=
      (resolvedClaimId === Null)
      && (resolvedClaimStatus === Null)
      && (slot ?. "resolvedClaimSlotId" === Null)
      && (slot ?. "resolvedClaimShipmentId" === Null)
      && (slot ?. "resolvedClaimOrderId" === Null)
      && (slot ?. "resolvedClaimPhaseId" === Null)
      && (slot ?. "resolvedClaimPreviousActiveClaimId" === Null)
      && (slot ?. "resolvedClaimTargetActiveClaimId" === Null) in
    guard_when
      (negb (nonBlank id)
       || set_has projectedSlotIds id
       || (source === Undefined)
       || (slot ?. "jobId" !== jobId)
       || (slot ?. "shipmentId" !== shipmentId)
       || (slot ?. "orderId" !== orderId)
       || (slot ?. "phaseId" !== phaseId)
       || (slot ?. "slotSetId" !== slotSetId)
       || (slot ?. "status" !== source ?. "status")
       || (slot ?. "resultId" !== resultId)
       || (slot ?. "currentStateCommandKey" !== source ?. "currentStateCommandKey")
       || (slot ?. "immutable" !== Bool true)
       || negb (is_instant claimUntil)
       || negb (is_instant sourceClaimUntil)
       || negb (compareV claimUntil sourceClaimUntil =? 0)
       || (slot ?. "sourceResultId" !== source ?. "resultId")
       || (slot ?. "sourceCurrentStateCommandKey" !== source ?. "currentStateCommandKey")
       || (slot ?. "settlementResultId" !== resultId)
       || (slot ?. "resolvedClaimId" !== source ?. "resolvedClaimId")
       || (slot ?. "resolvedClaimStatus" !== source ?. "resolvedClaimStatus")
       || (slot ?. "resolvedClaimSlotId" !== source ?. "resolvedClaimSlotId")
       || (slot ?. "resolvedClaimShipmentId" !== source ?. "resolvedClaimShipmentId")
       || (slot ?. "resolvedClaimOrderId" !== source ?. "resolvedClaimOrderId")
       || (slot ?. "resolvedClaimPhaseId" !== source ?. "resolvedClaimPhaseId")
       || (slot ?. "resolvedClaimPreviousActiveClaimId"
             !== source ?. "resolvedClaimPreviousActiveClaimId")
       || (slot ?. "resolvedClaimTargetActiveClaimId"
             !== source ?. "resolvedClaimTargetActiveClaimId")
       || (slot ?. "activeClaimId" !== source ?. "activeClaimId")
       || (slot ?. "claimRetentionHoldReleased" !== source ?. "claimRetentionHoldReleased")
       || (negb claimWindowElapsed && negb claimResolved)
       || (negb noClaim && negb claimResolved)
       || (slot ?. "activeClaimId" !== Null)
       || (slot ?. "claimRetentionHoldReleased" !== Bool true)) ;;
    Ok (set_add projectedSlotIds id)) projectedSlotIds (elements slots);
  guard_when
    (existsb (λ id, negb (set_has projectedSlotIds id)) (elements authoritativeSlotIdList)) ;;
  requireFlag command "jobSettlementSlotSetComplete" ;;
  requireFlag command "jobSettlementCompleted" ;;
  requireFlag command "jobSettlementAtomic".

Definition requireExactJobHandoff (lifecycle : jstr) (command : TransitionCommand) : result () :=
  let context_ := context command in
  let kind := context_ ?. "jobHandoffKind" in
  let jobId := context_ ?. "jobId" in
  let cancelledSourceRecovery :=
    (context_ ?. "cancellationRaceCommittedCancellation" === Bool true)
    || (context_ ?. "cancellationRaceRefundedAggregate" === Bool true) in
  let expectedJobStatus := if cancelledSourceRecovery then lit "cancelled" else lit "packed" in
  let expectedValue := context_ ?. "jobHandoffExpectedJob" in
  let expected := record expectedValue in
  let expectedShipmentValue := context_ ?. "cancellationRaceExpectedShipment" in
  let expectedShipment := record expectedShipmentValue in
  let jobCancelledAt := expected ?. "cancelledAt" in
  let shipmentCancelledAt := expectedShipment ?. "cancelledAt" in
  guard_when
    (negb (nonBlank jobId)
     || (Str (current command) !== expectedJobStatus)
     || (expected ?. "id" !== jobId)
     || (expected ?. "kind" !== kind)
     || (expected ?. "status" !== expectedJobStatus)
     || (cancelledSourceRecovery
         && (negb (is_instant jobCancelledAt)
             || (expected ?. "cancellationReason" !== lit "order_cancelled")
             || negb (is_instant shipmentCancelledAt)
             || (compareV jobCancelledAt shipmentCancelledAt <? 0)))
     || (expected ?. "currentLineageLeaf" !== Bool true)
     || (expected ?. "immutable" !== Bool true)
     || (context_ ?. "jobHandoffJobId" !== jobId)
     || (context_ ?. "jobHandoffPreviousStatus" !== expectedJobStatus)
     || (context_ ?. "jobHandoffTargetStatus" !== lit "handed_over")
     || (context_ ?. "jobHandoffCompleted" !== Bool true)
     || (context_ ?. "jobHandoffAtomic" !== Bool true)) ;;
  if kind === lit "ordinary" then
    let raceKind := context_ ?. "cancellationRaceHandoffKind" in
    if raceKind !== Undefined then
      let raceResultId := context_ ?. "cancellationRaceHandoffResultId" in
      let stateKey := context_ ?. "jobHandoffCurrentStateCommandKey" in
      let previousResultId := context_ ?. "jobHandoffPreviousResultId" in
      guard_when
        (((raceKind !== lit "ordinary") && (raceKind !== lit "unauthorized_reconciliation"))
         || negb (nonBlank raceResultId)
         || negb (nonBlank stateKey)
         || negb (nonBlank previousResultId)
         || (optional (aggregateId command) !== jobId)
         || (optional (currentStateResultId command) !== previousResultId)
         || (optional (currentStateCommandKey command) !== stateKey)
         || (expected ?. "currentStateCommandKey" !== stateKey)
         || (expected ?. "resultId" !== previousResultId)
         || (expected ?. "shipmentId" !== context_ ?. "shipmentId")
         || (expected ?. "claimId" !== Null)
         || (expected ?. "resolutionId" !== Null)
         || (expected ?. "replacementSetId" !== Null)
         || (context_ ?. "jobHandoffShipmentId" !== context_ ?. "shipmentId")
         || (context_ ?. "jobHandoffClaimId" !== Null)
         || (context_ ?. "jobHandoffResolutionId" !== Null)
         || (context_ ?. "jobHandoffReplacementSetId" !== Null)
         || (context_ ?. "jobHandoffResultId" !== raceResultId)
         || (context_ ?. "jobHandoffJobResultId" !== raceResultId)) ;;
      requireVerifiedMatchingCancellationRaceScan command ;;
      requireExactCancellationRaceHandoffResult lifecycle command
    else
    guard_when
      ((expected ?. "shipmentId" !== context_ ?. "shipmentId")
       || (expected ?. "claimId" !== Null)
       || (expected ?. "resolutionId" !== Null)
       || (expected ?. "replacementSetId" !== Null)
       || (context_ ?. "jobHandoffClaimId" !== Null)
       || (context_ ?. "jobHandoffResolutionId" !== Null)
       || (context_ ?. "jobHandoffReplacementSetId" !== Null)
       || (context_ ?. "jobHandoffResultId" !== context_ ?. "handoffResultId")
       || (context_ ?. "jobHandoffJobResultId" !== context_ ?. "handoffResultId")) ;;
    let stateKey := context_ ?. "jobHandoffCurrentStateCommandKey" in
    let previousResultId := context_ ?. "jobHandoffPreviousResultId" in
    guard_when
      (negb (nonBlank stateKey)
       || negb (nonBlank previousResultId)
       || (optional (aggregateId command) !== jobId)
       || (optional (currentStateCommandKey command) !== stateKey)
       || (optional (currentStateResultId command) !== previousResultId)
       || (expected ?. "orderId" !== context_ ?. "orderId")
       || (expected ?. "phaseId" !== context_ ?. "phaseId")
       || (expected ?. "resultId" !== previousResultId)
       || (expected ?. "currentStateCommandKey" !== stateKey)) ;;
    requireAtomicOrdinaryHandoff lifecycle command
      (RecordV 0
         [(js "shipmentPrevious", lit "label_created");
          (js "orderPrevious", lit "ready_to_ship"); (js "phasePrevious", lit "qc_passed");
          (js "allowLaterParcel", Bool true)])
  else
  let claimId := context_ ?. "claimId" in
  let resolutionId := context_ ?. "claimSlotResolutionId" in
  let replacementSetId := context_ ?. "replacementSetId" in
  let shipmentId := context_ ?. "jobHandoffShipmentId" in
  let resultId := context_ ?. "replacementHandoffResultId" in
  let stateKey := context_ ?. "jobHandoffCurrentStateCommandKey" in
  let previousResultId := context_ ?. "jobHandoffPreviousResultId" in
  guard_when
    ((kind !== lit "replacement")
     || negb (nonBlank claimId)
     || negb (nonBlank resolutionId)
     || negb (nonBlank replacementSetId)
     || negb (nonBlank shipmentId)
     || negb (nonBlank resultId)
     || negb (nonBlank stateKey)
     || negb (nonBlank previousResultId)
     || (optional (aggregateId command) !== jobId)
     || (optional (currentStateCommandKey command) !== stateKey)
     || (optional (currentStateResultId command) !== previousResultId)
     || (expected ?. "orderId" !== context_ ?. "orderId")
     || (expected ?. "phaseId" !== context_ ?. "phaseId")
     || (expected ?. "resultId" !== previousResultId)
     || (expected ?. "currentStateCommandKey" !== stateKey)
     || (context_ ?. "jobHandoffClaimId" !== claimId)
     || (context_ ?. "jobHandoffResolutionId" !== resolutionId)
     || (context_ ?. "jobHandoffReplacementSetId" !== replacementSetId)
     || (context_ ?. "jobHandoffResultId" !== resultId)
     || (context_ ?. "jobHandoffJobResultId" !== resultId)
     || (expected ?. "shipmentId" !== shipmentId)
     || (expected ?. "claimId" !== claimId)
     || (expected ?. "resolutionId" !== resolutionId)
     || (expected ?. "replacementSetId" !== replacementSetId)) ;;
  requireAtomicCompleteReplacementHandoff lifecycle command Undefined false
    (lit "cancellation_pending") ;;
  let independentTopology := is_array (context_ ?. "replacementRequiredRequests") in
  let authoritativeJobs :=
    if independentTopology
    then array_or_empty (context_ ?. "replacementHandoffJobs")
    else array_or_empty (context_ ?. "replacementHandoffResourceGroups") in
  let selected := ArrayV 0 (List.filter (λ value_,
    if negb (is_record value_) then
      false
    else
    let record_ := value_ in
    (record_ ?. "currentReplacementJobId" === jobId)
    || (record_ ?. "id" === jobId)) (elements authoritativeJobs)) in
  guard_when (negb (js_len selected =? 1)) ;;
  let record_ := item selected 0 in
  let groupedRecord := record_ ?. "currentReplacementJobId" === jobId in
  guard_when
    ((if groupedRecord
      then (record_ ?. "currentReplacementJobClaimId" !== claimId)
           || (record_ ?. "currentReplacementJobResolutionId" !== resolutionId)
           || (record_ ?. "currentReplacementJobSetId" !== replacementSetId)
           || (record_ ?. "currentReplacementJobShipmentId" !== shipmentId)
           || (record_ ?. "currentReplacementJobPreviousStatus" !== lit "packed")
           || (record_ ?. "currentReplacementJobTargetStatus" !== lit "handed_over")
           || (record_ ?. "currentReplacementJobResultId" !== resultId)
      else (record_ ?. "claimId" !== claimId)
           || (record_ ?. "resolutionId" !== resolutionId)
           || (record_ ?. "replacementSetId" !== replacementSetId)
           || negb (is_array (record_ ?. "replacementShipmentIds"))
           || negb (includes (elements (record_ ?. "replacementShipmentIds")) shipmentId)
           || (record_ ?. "previousStatus" !== lit "packed")
           || (record_ ?. "targetStatus" !== lit "handed_over")
           || (record_ ?. "resultId" !== resultId))
     || (record_ ?. "currentReplacementJobLineageLeaf" !== Bool true)).

(** ** The policy *)

Definition jobGuard (command : TransitionCommand) : result () :=
  when (targetIs command "cancelled") (
    let cancellationReason := (context command) ?. "cancellationReason" in
    let validReason :=
      if currentIs command "created"
      then isCreatedJobCancellationReason cancellationReason
      else isPostAcceptanceJobCancellationReason cancellationReason in
    guard_when (negb validReason) ;;
    (if currentIs command "created" then
      requireFlag command "offersClosed" ;;
      requireFlag command "productionReservationReleased" ;;
      requireCreatedJobCancellationOwnership command
    else
      requireJobResourceSettlement command ;;
      requireFlag command "labelCancellationBarrierCompleted" ;;
      requireExactPostAcceptanceJobCancellation command)) ;;
  when (currentIs command "created" && targetIs command "accepted") (
    requireFlag command "nodeAssigned" ;;
    requireJobAcceptanceOwnership command) ;;
  when (currentIs command "accepted" && targetIs command "gcode_ready") (
    requireFlag command "productionSliceFromReservationSnapshot" ;;
    requireFlag command "reproductionArtifactSealed" ;;
    requireAtomicGcodeReadyProduction command) ;;
  when (currentIs command "gcode_ready" && targetIs command "printing")
    (requirePrintingReservationCommit command) ;;
  when (currentIs command "printed" && targetIs command "photo_submitted") (
    requireFlag command "qcPhotoAssetStored" ;;
    requireFlag command "photoRetentionDeadlineSet" ;;
    requireAtomicQcPhotoSubmission command) ;;
  when (currentIs command "photo_submitted" && targetIs command "qc_approved") (
    requireFlag command "qcApprovalVerified" ;;
    requireExactQcDecision command (lit "approved")) ;;
  when (currentIs command "photo_submitted" && targetIs command "qc_rejected") (
    requireFlag command "qcRejectionVerified" ;;
    requireExactQcDecision command (lit "rejected") ;;
    requireJobResourceSettlement command ;;
    requireFlag command "labelCancellationBarrierCompleted" ;;
    requireJobReplacementObligation command) ;;
  when (targetIs command "failed") (
    guard_when
      (negb
         (isJobFailureStageForCurrent (Str (current command))
            ((context command) ?. "failureStage"))) ;;
    let failureReason := (context command) ?. "failureReason" in
    guard_when (negb (nonBlank failureReason)) ;;
    requireAtomicJobFailureSettlement (js "Job") command ;;
    requireJobResourceSettlement command ;;
    requireFlag command "labelCancellationBarrierCompleted" ;;
    when (currentIs command "qc_approved" || currentIs command "packed")
      (requirePostQcJobFailureResolution (js "Job") command) ;;
    requireJobReplacementObligation command) ;;
  when
    ((currentIs command "packed" || currentIs command "cancelled")
     && targetIs command "handed_over") (requireExactJobHandoff (js "Job") command) ;;
  when (currentIs command "handed_over" && targetIs command "settled")
    (requireDeliveredJobSettlement command).

Definition jobContextualTerminal (state : Status) (context : value) : result bool :=
  Ok (str_eqb state (js "cancelled")
      && (context ?. "cancellationRaceCommittedCancellation" !== Bool true)
      && negb (hasExactRefundedCancellationRecoveryMarker context)).

Definition jobPolicy : TransitionPolicy :=
  mkPolicy (js "Job") Lifecycles.jobInitial Lifecycles.jobTerminal
    (Some jobContextualTerminal) Lifecycles.jobTransitions None (Some jobGuard).

(** ** They fail only as guards *)

#[global] Typeclasses Opaque
  requireJobResourceSettlement
  requireAtomicJobFailureSettlement
  requireExactPostAcceptanceJobCancellation
  requirePrintingReservationCommit
  requireJobAcceptanceOwnership
  requireCreatedJobCancellationOwnership
  requireAtomicGcodeReadyProduction
  requireAtomicQcPhotoSubmission
  requireExactQcDecision
  requireExactQcRejectionReplacement
  requirePostQcJobFailureResolution
  requireJobReplacementObligation
  requireDeliveredJobSettlement
  requireExactJobHandoff.

#[export] Instance guard_only_requireJobResourceSettlement command :
  GuardOnly (requireJobResourceSettlement command).
Proof. cbv beta delta [requireJobResourceSettlement]. guard_only. Qed.

#[export] Instance guard_only_requireAtomicJobFailureSettlement lifecycle command :
  GuardOnly (requireAtomicJobFailureSettlement lifecycle command).
Proof. cbv beta delta [requireAtomicJobFailureSettlement]. guard_only. Qed.

#[export] Instance guard_only_requireExactPostAcceptanceJobCancellation command :
  GuardOnly (requireExactPostAcceptanceJobCancellation command).
Proof. cbv beta delta [requireExactPostAcceptanceJobCancellation]. guard_only. Qed.

#[export] Instance guard_only_requirePrintingReservationCommit command :
  GuardOnly (requirePrintingReservationCommit command).
Proof. cbv beta delta [requirePrintingReservationCommit]. guard_only. Qed.

#[export] Instance guard_only_requireJobAcceptanceOwnership command :
  GuardOnly (requireJobAcceptanceOwnership command).
Proof. cbv beta delta [requireJobAcceptanceOwnership]. guard_only. Qed.

#[export] Instance guard_only_requireCreatedJobCancellationOwnership command :
  GuardOnly (requireCreatedJobCancellationOwnership command).
Proof. cbv beta delta [requireCreatedJobCancellationOwnership]. guard_only. Qed.

#[export] Instance guard_only_requireAtomicGcodeReadyProduction command :
  GuardOnly (requireAtomicGcodeReadyProduction command).
Proof. cbv beta delta [requireAtomicGcodeReadyProduction]. guard_only. Qed.

#[export] Instance guard_only_requireAtomicQcPhotoSubmission command :
  GuardOnly (requireAtomicQcPhotoSubmission command).
Proof. cbv beta delta [requireAtomicQcPhotoSubmission]. guard_only. Qed.

#[export] Instance guard_only_requireExactQcDecision command outcome :
  GuardOnly (requireExactQcDecision command outcome).
Proof. cbv beta delta [requireExactQcDecision]. guard_only. Qed.

#[export] Instance guard_only_requireExactQcRejectionReplacement command :
  GuardOnly (requireExactQcRejectionReplacement command).
Proof. cbv beta delta [requireExactQcRejectionReplacement]. guard_only. Qed.

#[export] Instance guard_only_requirePostQcJobFailureResolution lifecycle command :
  GuardOnly (requirePostQcJobFailureResolution lifecycle command).
Proof. cbv beta delta [requirePostQcJobFailureResolution]. guard_only. Qed.

#[export] Instance guard_only_requireJobReplacementObligation command :
  GuardOnly (requireJobReplacementObligation command).
Proof. cbv beta delta [requireJobReplacementObligation]. guard_only. Qed.

#[export] Instance guard_only_requireDeliveredJobSettlement command :
  GuardOnly (requireDeliveredJobSettlement command).
Proof. cbv beta delta [requireDeliveredJobSettlement]. guard_only. Qed.

#[export] Instance guard_only_requireExactJobHandoff lifecycle command :
  GuardOnly (requireExactJobHandoff lifecycle command).
Proof. cbv beta delta [requireExactJobHandoff]. guard_only. Qed.

#[export] Instance guard_only_jobGuard command : GuardOnly (jobGuard command).
Proof. cbv beta delta [jobGuard]. guard_only. Qed.

(** ** Specification of a settlement *)

(** A slot that a settlement at [now] may leave behind: nobody can claim it
    any more, since its claim window has elapsed or a claim of it is resolved,
    and it has no active claim and no retention hold. *)
Record settled_slot (now : Instant.t) (slot : value) : Prop := {
  ss_window : ∃ until, instant (slot ?. "claimUntil") = Some until
    ∧ (0 <= Instant.compare now until ∨ slot ?. "resolvedClaimStatus" ∈ terminalClaimStatuses);
  ss_claim : slot ?. "activeClaimId" = Null;
  ss_hold : slot ?. "claimRetentionHoldReleased" = Bool true;
}.

(** The settlement of the job [id] is complete: its slots are exactly those of
    the job's authoritative slot set, each once and settled. *)
Record settlement (command : TransitionCommand) (id : jstr) : Prop := {
  st_job : aggregateId command = Some id;
  st_slots : ∃ ids, identified (elements ((context command) ?. "jobSettlementSlots")) ids
    ∧ elements ((record ((context command) ?. "jobSettlementAuthoritativeSlotSet")) ?. "slotIds") ≡ₚ Str <$> ids;
  st_settled : ∃ now, instant ((context command) ?. "jobSettlementEvaluatedAt") = Some now
    ∧ Forall (settled_slot now) (elements ((context command) ?. "jobSettlementSlots"));
}.

(** A reviewer who is active and authorized has approved the quality of the job
    [id], in an immutable decision about the stored photo of this job. *)
Record approved (command : TransitionCommand) (id : jstr) : Prop := {
  dc_job : aggregateId command = Some id;
  dc_decision : ∃ d, d = record ((context command) ?. "qcDecision") ∧ d ?. "jobId" = Str id
    ∧ d ?. "outcome" = lit "approved" ∧ d ?. "immutable" = Bool true
    ∧ d ?. "reviewerId" = (context command) ?. "qcDecisionReviewerId"
    ∧ d ?. "photoAssetId" = (context command) ?. "qcPhotoAssetId";
  dc_reviewer : ∃ r, r = record ((context command) ?. "qcDecisionReviewer")
    ∧ r ?. "id" = (context command) ?. "qcDecisionReviewerId"
    ∧ r ?. "active" = Bool true ∧ r ?. "authorized" = Bool true;
  dc_photo : ∃ a, a = record ((context command) ?. "qcDecisionPhotoAsset") ∧ a ?. "jobId" = Str id
    ∧ a ?. "id" = (context command) ?. "qcPhotoAssetId" ∧ a ?. "status" = lit "stored";
}.

(** ** Facts *)

Lemma delivered_settlement command :
  requireDeliveredJobSettlement command = Ok () → ∃ id, settlement command id.
Proof.
  intros H. cbv beta delta [requireDeliveredJobSettlement] in H. guard_steps H. apply guard_when_Ok in H.
  bool_inv.
  match goal with E : is_instant evaluatedAt = true |- _ => apply is_instant_instant in E as (now & Hnow) end.
  match goal with E : nonBlank jobId = true |- _ => apply nonBlank_Str in E as (id & Hid & _) end.
  destruct (same_strings _ _ H3) as (ls & rs & _ & Hrs & _ & Hnd & _).
  apply (foldM_rows _ (settled_slot now)) in Hm0 as (ids & -> & Hids & Hset).
  2: { clear -Hnow. intros t v t' Hv. guard_steps Hv. injection Hv as <-. bool_inv. split_and!; [done..|].
    match goal with E : is_instant claimUntil = true |- _ => apply is_instant_instant in E as (until & Hu) end.
    split; [exists until; split; [done|]|by apply strict_eq_Null|by apply strict_eq_Bool].
    assert (claimWindowElapsed = true ∨ claimResolved = true) as [He|He].
    { destruct claimWindowElapsed, claimResolved; auto. }
    - left. subst claimWindowElapsed. bool_inv. by unfold compareV in *; rewrite Hu, Hnow in *.
    - right. subst claimResolved. bool_inv. by apply (includes_strings [_;_;_;_;_;_]). }
  exists id. split.
  - rewrite Hid in *. by match goal with E : (optional (aggregateId command) === Str id) = true |- _ =>
      apply strict_eq_Str, optional_Str in E end.
  - exists ids. unfold slots in Hids. rewrite array_elements in Hids by done. split; [done|].
    change (elements authoritativeSlotIdsValue ≡ₚ Str <$> ids). unfold authoritativeSlotIds in Hrs.
    rewrite array_elements in Hrs by done. rewrite Hrs. apply fmap_Permutation, covers_Permutation; [done| |].
    + destruct Hids as [Hids _]. apply (f_equal length) in Hids. rewrite !length_fmap in Hids.
      match goal with E : js_len slots = js_len authoritativeSlotIds |- _ => rename E into Hl end.
      unfold slots, authoritativeSlotIds in Hl. rewrite !js_len_array, Hrs in Hl by done. unfold zlength in Hl. rewrite length_fmap in Hl. lia.
    + intros x Hx. rewrite existsb_negb_false in Hg1. unfold authoritativeSlotIdList, authoritativeSlotIds in Hg1.
      rewrite array_elements, Hrs in Hg1 by done.
      apply (list_elem_of_fmap_2 Str), Hg1, includes_Str, list_elem_of_fmap in Hx. by destruct Hx as (y & [= ->] & ?).
  - exists now. split; [done|]. unfold slots in Hset. by rewrite array_elements in Hset.
Qed.

(** A job is settled from its handoff only. *)
Lemma settled_edge c : js "settled" ∈ targets Lifecycles.jobTransitions c → c = js "handed_over".
Proof. by intros H%targets_sources%list_elem_of_singleton. Qed.

Lemma settling command p :
  transition jobPolicy command = Ok (changed p (js "settled")) →
  p = js "handed_over" ∧ ∃ id, settlement command id.
Proof.
  intros (-> & Ht & _ & Hin & Hg)%transition_changed. specialize (Hg _ eq_refl).
  apply settled_edge in Hin. split; [done|]. apply delivered_settlement.
  unfold jobGuard, currentIs, targetIs in Hg. rewrite Hin, <-Ht in Hg. literals Hg. by run_in Hg.
Qed.

(** The edges to the handoff. *)
Lemma handoff_edge c :
  js "handed_over" ∈ targets Lifecycles.jobTransitions c → c = js "packed" ∨ c = js "cancelled".
Proof. intros H%targets_sources. change (sources _ _) with [js "packed"; js "cancelled"] in H. set_solver. Qed.

Lemma packed_edge c : js "packed" ∈ targets Lifecycles.jobTransitions c → c = js "qc_approved".
Proof. by intros H%targets_sources%list_elem_of_singleton. Qed.

Lemma approved_edge c : js "qc_approved" ∈ targets Lifecycles.jobTransitions c → c = js "photo_submitted".
Proof. by intros H%targets_sources%list_elem_of_singleton. Qed.

Lemma qc_decision command :
  requireExactQcDecision command (lit "approved") = Ok () → ∃ id, approved command id.
Proof.
  intros H. cbv beta delta [requireExactQcDecision] in H. guard_steps H. apply guard_when_Ok in H. guard_facts.
  eexists. split; [done|..]; eexists; (split; [done|]); split_and!; congruence.
Qed.

Lemma approving command p :
  transition jobPolicy command = Ok (changed p (js "qc_approved")) → ∃ id, approved command id.
Proof.
  intros (-> & Ht & _ & Hin & Hg)%transition_changed. specialize (Hg _ eq_refl). apply qc_decision.
  apply approved_edge in Hin. unfold jobGuard, currentIs, targetIs in Hg. rewrite Hin, <-Ht in Hg. literals Hg.
  run_in Hg. guard_steps Hg. by guard_steps Hm.
Qed.

(** How a handed-over job got there. *)
Lemma handed_over_history s0 cs :
  history jobPolicy s0 cs (js "handed_over") →
  (∃ c id, c ∈ cs ∧ approved c id) ∨ ∃ c p, c ∈ cs ∧ transition jobPolicy c = Ok (changed p (js "cancelled")).
Proof.
  assert (∀ s, s ∈ initial jobPolicy → s = js "created") as Hi by (by intros s ?%list_elem_of_singleton).
  assert (∀ cs s p, s ≠ js "created" → (∀ c, s ∈ targets Lifecycles.jobTransitions c → c = p) →
    history jobPolicy s0 cs s → ∃ pre, pre ⊆ cs ∧ history jobPolicy s0 pre p) as Hback.
  { intros cs' s p Hs Hp [?%Hi|(pre & c & post & -> & Hh & Ht)]%history_entered_from; [done|].
    apply transition_changed in Ht as (_ & _ & _ & Hin & _). rewrite (Hp _ Hin) in Hh. exists pre. split; [|done].
    set_solver. }
  intros [?%Hi|(pre & c & post & -> & Hh & Ht)]%history_entered_from; [done|].
  apply transition_changed in Ht as (_ & _ & _ & [Hc|Hc]%handoff_edge & _); rewrite Hc in Hh.
  - left. destruct (Hback pre (js "packed") (js "qc_approved")) as (pre' & Hsub & Hq);
      [done|apply packed_edge|done|].
    apply history_entered in Hq as [?%Hi|(c' & p & Hin & [id Ha]%approving)]; [done|].
    exists c', id. split; [set_solver|done].
  - right. apply history_entered in Hh as [?%Hi|(c' & p & Hin & Ht)]; [done|]. exists c', p. split; [set_solver|done].
Qed.

(** ** Specification of a cancellation *)

(** Another job than [id] contributes to a shipment. *)
Definition shared (id : jstr) (shipment : value) : bool :=
  existsb (λ link, link ?. "jobId" !== Str id) (elements (shipment ?. "contributorLinks")).

(** The shipments and the labels in the scope of a cancellation, and what it
    does to each. *)
Definition scopeOf (command : TransitionCommand) : value :=
  record ((context command) ?. "jobCancellationAuthoritativeScope").
Definition shipmentsOf (command : TransitionCommand) : list value := elements ((scopeOf command) ?. "shipments").
Definition labelsOf (command : TransitionCommand) : list value := elements ((scopeOf command) ?. "carrierLabels").
Definition shipmentOutcomes (command : TransitionCommand) : list value :=
  elements ((context command) ?. "jobCancellationShipments").
Definition labelOutcomes (command : TransitionCommand) : list value :=
  elements ((context command) ?. "jobCancellationCarrierLabels").

(** The outcome [c] of a shipment [s]: one that other jobs contribute to keeps
    its status. *)
Definition shipment_spared (id : jstr) (s c : value) : Prop :=
  c ?. "previousStatus" = s ?. "status"
  ∧ c ?. "targetStatus" = if shared id s then s ?. "status" else lit "cancelled".

(** The outcome [c] of a label of the shipment [s]: the provider is asked to
    void it, and has, exactly when no other job contributes to the shipment. *)
Definition label_spared (id : jstr) (s c : value) : Prop :=
  c ?. "previousStatus" = lit "usable"
  ∧ if shared id s
    then c ?. "targetStatus" = lit "usable" ∧ c ?. "providerVoidOutboxId" = Null
    else c ?. "targetStatus" = lit "invalidated" ∧ c ?. "providerVoidStatus" = lit "succeeded"
      ∧ c ?. "providerEventVerified" = Bool true.

(** The cancellation of the job [id] disposes of the one shipment that it
    contributes to and of each of its labels, once, and of nothing else, and
    spares its siblings. *)
Record spares_siblings (command : TransitionCommand) (id : jstr) : Prop := {
  sp_job : aggregateId command = Some id;
  sp_shipment : ∃ s c, shipmentsOf command = [s] ∧ shipmentOutcomes command = [c] ∧ c ?. "id" = s ?. "id"
    ∧ (∃ link, link ∈ elements (s ?. "contributorLinks") ∧ link ?. "jobId" = Str id)
    ∧ shipment_spared id s c;
  sp_labels : ∃ ids ids', identified (labelsOf command) ids ∧ identified (labelOutcomes command) ids' ∧ ids' ≡ₚ ids;
  sp_label s c : s ∈ shipmentsOf command → c ∈ labelOutcomes command → label_spared id s c;
}.

(** ** Facts *)

(** A shipment of the scope, as the loop over them has read it. *)
Definition scoped_shipment (s : value) : Prop :=
  (∃ x, s ?. "id" = Str x) ∧ (∃ x, s ?. "status" = Str x) ∧ is_array (s ?. "contributorLinks") = true
  ∧ Forall (λ link, ∃ j, link ?. "jobId" = Str j) (elements (s ?. "contributorLinks")).

Lemma elements_array_or_empty v : elements (array_or_empty v) = elements v.
Proof. by destruct v. Qed.

(** [defined && nonBlank(k) ? rowById.get(k) : undefined], when defined. *)
Lemma looked_up rows (b : bool) k :
  ((if b && nonBlank k then map_get (by_id rows) k else Undefined) === Undefined) = false →
  nonBlank k = true ∧ ∃ v, (if b && nonBlank k then map_get (by_id rows) k else Undefined) = v
    ∧ v ∈ rows ∧ v ?. "id" = k.
Proof.
  destruct b; [|done]. cbn [andb]. destruct (nonBlank k) eqn:Hk; [|done]. intros H. split; [done|].
  apply nonBlank_Str in Hk as (x & -> & _). eexists. split; [done|]. by apply map_get_by_id.
Qed.

Lemma filter_nonempty {A} (f : A → bool) l : (0 <? zlength (List.filter f l)) = existsb f l.
Proof.
  induction l as [|x l IH]; [done|]. cbn. destruct (f x); [|done]. unfold zlength. cbn [length]. by apply Z.ltb_lt; lia.
Qed.

Lemma existsb_map {A B} (f : B → bool) (g : A → B) l : existsb f (map g l) = existsb (λ x, f (g x)) l.
Proof. induction l as [|x l IH]; cbn; congruence. Qed.

(** Both ways in which the guard finds out whether a shipment is shared. *)
Lemma shared_links id s : Forall (λ link, ∃ j, link ?. "jobId" = Str j) (elements (s ?. "contributorLinks")) →
  existsb (λ v, v !== Str id) (map (λ v, js_String (v ?. "jobId")) (elements (s ?. "contributorLinks"))) = shared id s.
Proof.
  intros H. rewrite existsb_map. unfold shared. induction H as [|v l (j & Hj) _ IH]; [done|]. cbn [existsb]. by rewrite IH, Hj.
Qed.

(** The contributors of one shipment, as the loop over them has read the links
    [pre], when the jobs of the shipments before were those of [m0]. *)
Definition contributors_read (job : jstr) (m0 m : list (value * value)) (count : Z) (pre : list value) : Prop :=
  Forall (λ link, ∃ j, link ?. "jobId" = Str j) pre
  ∧ (count = 0 ∨ map_has m0 (Str job) = false ∧ map_has m (Str job) = true
     ∧ ∃ link, link ∈ pre ∧ link ?. "jobId" = Str job)
  ∧ (map_has m0 (Str job) = true → map_has m (Str job) = true).

Lemma map_has_app m m' k : map_has (m ++ m') k = map_has m k || map_has m' k.
Proof. unfold map_has, includes. by rewrite map_app, existsb_app. Qed.

Lemma contributors_read_snoc job m0 m count pre link x (own : bool) v :
  contributors_read job m0 m count pre → link ?. "jobId" = Str x → map_has m (Str x) = false →
  own = (Str x === Str job) →
  contributors_read job m0 (map_set m (Str x) v) (if own then count + 1 else count) (pre ++ [link]).
Proof.
  intros (HF & Hc & Hm) Hx Hnew Hown. rewrite map_set_new by done. split_and!.
  - apply Forall_app. rewrite Forall_singleton. eauto.
  - destruct own; symmetry in Hown.
    + apply strict_eq_Str in Hown as [= ->]. destruct Hc as [_|(_ & Hm' & _)]; [|by rewrite Hnew in Hm'].
      right. rewrite map_has_app. split_and!.
      * destruct (map_has m0 (Str job)); [|done]. by rewrite Hm in Hnew.
      * rewrite Hnew. unfold map_has, includes. cbn. unfold str_eqb. by rewrite bool_decide_eq_true_2.
      * exists link. split; [set_solver|done].
    + destruct Hc as [->|(H0 & H1 & l & Hl & Hlj)]; [by left|right]. rewrite map_has_app, H1.
      split_and!; [done..|]. exists l. split; [set_solver|done].
  - intros H. rewrite map_has_app. by rewrite Hm.
Qed.

(** What the loops of the cancellation's guard have established. *)
Record disposed (command : TransitionCommand) (id : jstr) : Prop := {
  di_job : aggregateId command = Some id;
  di_plan : ∃ s, shipmentsOf command = [s]
    ∧ ∃ link, link ∈ elements (s ?. "contributorLinks") ∧ link ?. "jobId" = Str id;
  di_labels : ∃ ids, identified (labelsOf command) ids;
  di_shipment_outcomes : length (shipmentOutcomes command) = 1%nat
    ∧ Forall (λ c, ∃ s, s ∈ shipmentsOf command ∧ s ?. "id" = c ?. "id" ∧ shipment_spared id s c)
        (shipmentOutcomes command);
  di_label_outcomes : ∃ ids, identified (labelOutcomes command) ids
    ∧ zlength (Str <$> ids) = zlength (by_id (labelsOf command))
    ∧ Forall (λ c, ∃ l s, l ∈ labelsOf command ∧ l ?. "id" = c ?. "id"
        ∧ s ∈ shipmentsOf command ∧ s ?. "id" = l ?. "shipmentId" ∧ label_spared id s c) (labelOutcomes command);
}.

Lemma disposed_spares command id : disposed command id → spares_siblings command id.
Proof.
  intros [Hjob (s & Hs & Hown) (lids & Hlids) [Hlen Hspared] (clids & Hclids & Hcount & Hclabels)]. rewrite Hs in *.
  split; [done|..].
  - destruct (shipmentOutcomes command) as [|c [|]] eqn:Hc; [done| |done].
    apply Forall_singleton in Hspared as (s' & ->%list_elem_of_singleton & ? & ?). by exists s, c.
  - exists lids, clids. split_and!; [done..|]. eapply identified_Permutation; [done..|].
    eapply Forall_impl; [done|]. intros c (l' & s' & Hl & Hlid & _). by exists l'.
  - intros s' c Hs' Hc. rewrite Hs in Hs'. apply list_elem_of_singleton in Hs' as ->. rewrite Forall_forall in Hclabels.
    by destruct (Hclabels c Hc) as (l1 & s' & _ & _ & ->%list_elem_of_singleton & _ & ?).
Qed.

Lemma job_cancellation command :
  requireExactPostAcceptanceJobCancellation command = Ok () → ∃ id, disposed command id.
Proof.
  intros H. cbv beta delta [requireExactPostAcceptanceJobCancellation] in H. guard_steps H. apply guard_when_Ok in H.
  bool_inv.
  match goal with E : nonBlank jobId = true |- _ => apply nonBlank_Str in E as (id & Hid & _) end.
  assert (aggregateId command = Some id) as Hjob.
  { match goal with E : (optional (aggregateId command) === jobId) = true |- _ =>
      rewrite Hid in E; by apply strict_eq_Str, optional_Str in E end. }
  lazymatch goal with E : foldM ?f _ _ = Ok (_, _, _) |- _ =>
    apply (foldM_prefix f (λ '(cs, m, _) pre,
      (∃ ids, m = by_id pre ∧ identified pre ids ∧ Forall scoped_shipment pre)
      ∧ (pre = [] ∨ map_has cs (Str id) = true ∧ ∃ s, pre = [s]
         ∧ ∃ link, link ∈ elements (s ?. "contributorLinks") ∧ link ?. "jobId" = Str id))) in E;
      [destruct E as ((ids & -> & Hids & Hscoped) & Hplan)| |] end.
  2: { split; [|by left]. exists []. split_and!; [done|split; [done|constructor]|done]. }
  2: { clear -Hid. intros [[cs m] ls] pre v [[cs' m'] ls'] [(ids & -> & Hids & HQ) Hplan] Hv. guard_steps Hv. bool_inv.
    assert (shipment = v) as Hs by (by apply record_defined). rewrite Hs in *.
    assert (contributorLinks = v ?. "contributorLinks") as Hlinks by (unfold contributorLinks; by rewrite Hs).
    rewrite Hlinks in *. injection Hv as <- <- <-. unfold scopedShipments. rewrite Hs.
    match goal with E : foldM ?f _ _ = Ok (_, z, _) |- _ =>
      apply (foldM_prefix f (λ '(_, count, m) pre, contributors_read id cs m count pre)) in E;
        [destruct E as (HF & Hc & _)|by split_and!; [|left|]|] end.
    2: { clear -Hid. intros [[a b] c] pre link [[a' b'] c'] HR Hv. guard_steps Hv. bool_inv.
      assert (contributor = link) as Hl by (by apply record_defined). rewrite Hl in *.
      match goal with E : nonBlank (link ?. "jobId") = true |- _ => apply nonBlank_Str in E as (x & Hx & _) end.
      injection Hv as <- <- <-. unfold scopedContributors. rewrite Hl, Hx in *.
      assert (st = if Str x === jobId then b + 1 else b) as ->.
      { destruct (Str x === jobId); [by guard_steps Hm; injection Hm|by injection Hm]. }
      rewrite Hid. by apply contributors_read_snoc. }
    split.
    + apply (by_id_snoc scoped_shipment pre ids); try done. split_and!; [| |done|done].
      * match goal with E : nonBlank (v ?. "id") = true |- _ => apply nonBlank_Str in E as (x & -> & _) end. by exists x.
      * match goal with E : _ && _ && _ = false |- _ => apply andb_false_iff in E as [[E|E]%andb_false_iff|E] end;
          bool_inv; eexists; by apply strict_eq_lit.
    + destruct Hc as [->|(Hcs & Hl & link & Hlink & Hj)]; [done|]. right. split; [done|].
      destruct Hplan as [->|[H' _]]; [|by rewrite H' in Hcs]. exists v. eauto. }
  lazymatch goal with E : foldM ?f _ (elements scopeLabels) = Ok _ |- _ =>
    apply (foldM_by_id f (λ l, ∃ s, s ∈ elements scopeShipments ∧ s ?. "id" = l ?. "shipmentId")) in E;
      [destruct E as (lids & -> & Hlids & Hlabels)|] end.
  2: { clear. intros m v m' Hv. guard_steps Hv. bool_inv.
    assert (label = v) as Hs by (by apply record_defined). rewrite Hs in *. injection Hv as <-.
    split_and!; [done..|]. unfold shipment in *. rewrite Hs in *.
    match goal with E : ((if _ then _ else _) === Undefined) = false |- _ => apply looked_up in E as (_ & s & _ & ?) end.
    by exists s. }
  lazymatch goal with E : foldM ?f _ (elements shipmentCancellations) = Ok _ |- _ =>
    apply (foldM_rows f (λ c, ∃ s, s ∈ elements scopeShipments ∧ s ?. "id" = c ?. "id" ∧ shipment_spared id s c)) in E;
      [destruct E as (sids & -> & Hsids & Hspared)|] end.
  2: { clear -Hid Hscoped. intros t v t' Hv. guard_steps Hv. bool_inv.
    assert (cancellation = v) as Hs by (by apply record_defined). rewrite Hs in *. injection Hv as <-.
    match goal with E : (expected === Undefined) = false |- _ =>
      unfold expected in E; rewrite Hs in E; apply looked_up in E as (Hnb & s & Hsv & Hin & Hsid) end.
    assert (expected = s) as Hexp by (unfold expected; by rewrite Hs). rewrite Hexp in *.
    split_and!; [done..|]. exists s. split_and!; [done..|].
    rewrite Forall_forall in Hscoped. destruct (Hscoped s Hin) as (_ & (x & Hx) & _ & Hlinks).
    assert (sharedShipment = shared id s) as Hsh.
    { unfold sharedShipment, remainingContributorJobIds, contributorJobIds, contributorLinks. cbn [elements].
      change (js_len (ArrayV 0 ?l)) with (zlength l). rewrite filter_nonempty, Hexp, elements_array_or_empty, Hid.
      by apply shared_links. }
    rewrite Hsh, Hx in *. split; rewrite Hx; [|destruct (shared id s)]; by apply strict_eq_Str. }
  lazymatch goal with E : foldM ?f _ (elements labelCancellations) = Ok _ |- _ =>
    apply (foldM_rows f (λ c, ∃ l s, l ∈ elements scopeLabels ∧ l ?. "id" = c ?. "id"
      ∧ s ∈ elements scopeShipments ∧ s ?. "id" = l ?. "shipmentId" ∧ label_spared id s c)) in E;
      [destruct E as (clids & -> & Hclids & Hclabels)|] end.
  2: { clear -Hid Hscoped. intros t v t' Hv. guard_steps Hv. bool_inv.
    assert (cancellation = v) as Hs by (by apply record_defined). rewrite Hs in *. injection Hv as <-.
    match goal with E : (expected === Undefined) = false |- _ =>
      unfold expected in E; rewrite Hs in E; apply looked_up in E as (Hnb & l & Hlv & Hlin & Hlid) end.
    assert (expected = l) as Hexp by (unfold expected; by rewrite Hs). rewrite Hexp in *.
    match goal with E : (expectedShipment === Undefined) = false |- _ =>
      unfold expectedShipment in E; rewrite Hexp in E; apply looked_up in E as (_ & s & Hsv & Hsin & Hsid) end.
    assert (expectedShipment = s) as Hship by (unfold expectedShipment; by rewrite Hexp).
    split_and!; [done..|]. exists l, s. split_and!; [done..|].
    assert (sharedShipment = shared id s) as Hsh.
    { unfold sharedShipment, contributorLinks. change (js_len (ArrayV 0 ?k)) with (zlength k).
      by rewrite filter_nonempty, Hship, elements_array_or_empty, Hid. }
    split; [by apply strict_eq_lit|]. unfold providerOutcomeValid in *. rewrite Hsh, Hs in *.
    destruct (shared id s); bool_inv;
      split_and!; (by apply strict_eq_lit) || (by apply strict_eq_Null) || (by apply strict_eq_Bool). }
  assert (∃ s, elements scopeShipments = [s] ∧ ∃ link, link ∈ elements (s ?. "contributorLinks") ∧ link ?. "jobId" = Str id)
    as (s & Hs & Hown).
  { destruct Hplan as [Hnil|(_ & s & Hs & Hown)]; [|by exists s].
    match goal with E : js_len scopeShipments ≠ 0 |- _ => rewrite js_len_elements, Hnil in E; done end. }
  exists id. split; [done|by exists s|by exists lids| |by exists clids]. split; [|done].
  match goal with E : js_len shipmentCancellations = _ |- _ => rewrite js_len_elements, Hs in E by done end.
  by apply (inj Z.of_nat).
Qed.

(** A cancellation after the job's acceptance. *)
Lemma cancelling command p :
  transition jobPolicy command = Ok (changed p (js "cancelled")) → p ≠ js "created" →
  ∃ id, spares_siblings command id.
Proof.
  intros (-> & Ht & _ & _ & Hg)%transition_changed Hp. specialize (Hg _ eq_refl).
  cut (∃ id, disposed command id); [intros [id H]; exists id; by apply disposed_spares|]. apply job_cancellation.
  assert (currentIs command "created" = false) as Hc.
  { unfold currentIs, str_eqb. by apply bool_decide_eq_false. }
  unfold jobGuard in Hg. assert (targetIs command "cancelled" = true) as Htt by (unfold targetIs; by rewrite <-Ht).
  rewrite Htt in Hg. cbn [when] in Hg. guard_steps Hg. rewrite Hc in Hm. by guard_steps Hm.
Qed.

(** * Properties *)


(** C9: cancelling a job after its acceptance spares its siblings: it disposes
    of every shipment and carrier label of the job's scope, each once, and of
    nothing else; it cancels a shipment, and has its provider void its label,
    when no other job contributes to the shipment, and leaves both as they are
    when one does. *)
Theorem job_cancellation_spares_siblings command p :
  transition jobPolicy command = Ok (changed p (js "cancelled")) → p ≠ js "created" →
  ∃ id, spares_siblings command id.
Proof. apply cancelling. Qed.

(** *** A sample history

    The job [j] is accepted, printed, approved from its photo, packed, handed
    over with the slot [y], and settled after the slot's claim window. *)

Import Sample.

Definition job_commands : list TransitionCommand :=
  [command "j" "created" "accepted" "k0" "r0" "k1"
     [flag "nodeAssigned"; text "jobId" "j"; text "productionReservationId" "r"; text "orderItemId" "i";
      text "phaseId" "p"; text "reproductionArtifactVersionId" "a"; text "acceptancePreviousJobResultId" "r0";
      text "acceptanceCurrentStateCommandKey" "k0"; field "acceptanceExpectedJob" (RecordV 1 [text "id" "j";
      text "productionReservationId" "r"; text "orderItemId" "i"; text "phaseId" "p"; text "status" "created";
      text "resultId" "r0"; text "currentStateCommandKey" "k0"; flag "immutable"]);
      text "productionReservationJobId" "j"; text "acceptanceReservationJobId" "j";
      text "reproductionArtifactVersionJobId" "j"; text "acceptanceProductionReservationId" "r";
      text "reproductionArtifactVersionProductionReservationId" "r";
      text "acceptanceMaterialPreviousState" "held"; text "acceptanceMaterialTargetState" "allocated";
      text "acceptanceCapacityPreviousState" "held"; text "acceptanceCapacityTargetState" "scheduled";
      text "acceptanceArtifactVersionId" "a"; text "reproductionArtifactVersionStatus" "draft";
      text "reproductionArtifactVersionOrderItemId" "i"; text "reproductionArtifactVersionPhaseId" "p";
      text "productionReservationCandidateResourceEstimateId" "candidate-resource-estimate";
      text "reproductionArtifactVersionCandidateResourceEstimateId" "candidate-resource-estimate";
      text "productionReservationMachineProfileId" "reservation-machine-profile";
      text "reproductionArtifactVersionMachineProfileId" "reservation-machine-profile";
      text "productionReservationMachineCalibrationId" "reservation-machine-calibration";
      text "reproductionArtifactVersionMachineCalibrationId" "reservation-machine-calibration";
      text "productionReservationPrintConfigRevisionId" "print-config-revision";
      text "reproductionArtifactVersionPrintConfigRevisionId" "print-config-revision";
      flag "acceptanceArtifactCreated"; flag "jobAcceptanceAtomic"];
   command "j" "accepted" "gcode_ready" "k1" "r1" "k2"
     [flag "productionSliceFromReservationSnapshot"; flag "reproductionArtifactSealed"; text "jobId" "j";
      text "productionReservationId" "r"; text "reproductionArtifactVersionId" "a"; text "orderItemId" "i";
      text "phaseId" "p"; text "gcodeReadyResultId" "r2"; text "productionSliceId" "production-slice";
      text "productionSliceOutputDigest" "slice-output-digest";
      text "gcodeReadyAcceptedJobResultId" "accepted-job-result";
      field "gcodeReadyExpectedJob" (RecordV 1 [text "id" "j"; text "productionReservationId" "r";
      text "reproductionArtifactVersionId" "a"; text "orderItemId" "i"; text "phaseId" "p";
      text "status" "accepted"; text "resultId" "accepted-job-result"; text "currentStateCommandKey" "k1";
      flag "immutable"]); field "gcodeReadyExpectedReservationSnapshot" (RecordV 2 [text "id" "r";
      text "jobId" "j"; text "orderItemId" "i"; text "phaseId" "p"; text "status" "scheduled";
      text "candidateResourceEstimateId" "candidate-resource-estimate";
      text "machineProfileId" "reservation-machine-profile";
      text "machineCalibrationId" "reservation-machine-calibration";
      text "printConfigRevisionId" "print-config-revision"; text "resultId" "accepted-job-result";
      flag "immutable"]); field "gcodeReadyExpectedArtifactVersion" (RecordV 3 [text "id" "a"; text "jobId" "j";
      text "productionReservationId" "r"; text "orderItemId" "i"; text "phaseId" "p"; text "status" "draft";
      text "candidateResourceEstimateId" "candidate-resource-estimate";
      text "machineProfileId" "reservation-machine-profile";
      text "machineCalibrationId" "reservation-machine-calibration";
      text "printConfigRevisionId" "print-config-revision"; text "resultId" "accepted-job-result";
      flag "immutable"]); field "gcodeReadyProductionSlice" (RecordV 4 [text "id" "production-slice";
      text "jobId" "j"; text "productionReservationId" "r"; text "reproductionArtifactVersionId" "a";
      text "orderItemId" "i"; text "phaseId" "p"; text "previousStatus" "pending";
      text "targetStatus" "completed"; text "candidateResourceEstimateId" "candidate-resource-estimate";
      text "machineProfileId" "reservation-machine-profile";
      text "machineCalibrationId" "reservation-machine-calibration";
      text "printConfigRevisionId" "print-config-revision"; text "outputDigest" "slice-output-digest";
      text "resultId" "r2"; text "sourceStateCommandKey" "k1"; flag "immutable"]);
      text "gcodeReadyAcceptedStateCommandKey" "k1"; text "gcodeReadyJobId" "j";
      text "gcodeReadyReservationId" "r"; text "gcodeReadyArtifactVersionId" "a";
      text "gcodeReadyOrderItemId" "i"; text "gcodeReadyPhaseId" "p";
      text "gcodeReadyJobPreviousStatus" "accepted"; text "gcodeReadyJobTargetStatus" "gcode_ready";
      text "productionReservationCandidateResourceEstimateId" "candidate-resource-estimate";
      text "productionReservationMachineProfileId" "reservation-machine-profile";
      text "productionReservationMachineCalibrationId" "reservation-machine-calibration";
      text "productionReservationPrintConfigRevisionId" "print-config-revision";
      text "gcodeReadyArtifactPreviousStatus" "draft"; text "gcodeReadyArtifactTargetStatus" "sealed";
      text "gcodeReadyArtifactOutputDigest" "slice-output-digest"; text "gcodeReadyJobResultId" "r2";
      text "gcodeReadyReservationResultId" "r2"; text "gcodeReadyArtifactResultId" "r2";
      text "gcodeReadyProductionSliceResultId" "r2"; flag "gcodeReadyCompleted"; flag "gcodeReadyAtomic"];
   command "j" "gcode_ready" "printing" "k2" "r2" "k3"
     [text "jobId" "j"; text "productionReservationId" "r"; text "orderItemId" "i"; text "phaseId" "p";
      text "printingPreviousJobResultId" "previous-job-result";
      text "printingPreviousReservationResultId" "previous-reservation-result";
      text "printingCurrentStateCommandKey" "k2"; text "printingResultId" "r3";
      field "printingExpectedJob" (RecordV 1 [text "id" "j"; text "productionReservationId" "r";
      text "orderItemId" "i"; text "phaseId" "p"; text "status" "gcode_ready";
      text "resultId" "previous-job-result"; text "currentStateCommandKey" "k2"; flag "immutable"]);
      field "printingExpectedReservation" (RecordV 2 [text "id" "r"; text "jobId" "j"; text "orderItemId" "i";
      text "phaseId" "p"; text "status" "scheduled"; text "resultId" "previous-reservation-result";
      flag "immutable"]); text "productionReservationJobId" "j"; text "printingReservationJobId" "j";
      text "printingJobId" "j"; text "printingReservationId" "r";
      text "printingJobPreviousStatus" "gcode_ready"; text "printingJobTargetStatus" "printing";
      text "printingReservationProductionReservationId" "r";
      text "printingReservationPreviousStatus" "scheduled"; text "printingReservationTargetStatus" "printing";
      text "printingReservationState" "printing"; text "materialConsumptionMode" "actual_recorded";
      text "printingJobResultId" "r3"; text "printingReservationResultId" "r3"; flag "printingCompleted";
      flag "printingAtomic"; flag "printingReservationCommitAtomic"];
   command "j" "printing" "printed" "k3" "r3" "k4"
     [];
   command "j" "printed" "photo_submitted" "k4" "r4" "k5"
     [flag "qcPhotoAssetStored"; flag "photoRetentionDeadlineSet"; text "jobId" "j"; text "orderId" "o";
      text "phaseId" "p"; text "productionReservationId" "r"; text "qcPhotoAssetId" "photo";
      text "qcPhotoSubmissionResultId" "r5"; text "qcPhotoSubmissionPrintedJobResultId" "printed-job-result";
      at_ "qcPhotoRetentionDeadlineAt" 1000; field "qcPhotoSubmissionExpectedJob" (RecordV 1 [text "id" "j";
      text "orderId" "o"; text "phaseId" "p"; text "productionReservationId" "r"; text "status" "printed";
      text "resultId" "printed-job-result"; text "currentStateCommandKey" "k4"; flag "immutable"]);
      field "qcPhotoSubmissionPhotoAsset" (RecordV 2 [text "id" "photo"; text "jobId" "j"; text "orderId" "o";
      text "phaseId" "p"; text "previousStatus" "pending"; text "targetStatus" "stored";
      at_ "retentionDeadlineAt" 1000; text "resultId" "r5"; text "submissionResultId" "r5"; flag "immutable"]);
      text "qcPhotoSubmissionPrintedStateCommandKey" "k4"; text "qcPhotoSubmissionJobId" "j";
      text "qcPhotoSubmissionOrderId" "o"; text "qcPhotoSubmissionPhaseId" "p";
      text "qcPhotoSubmissionReservationId" "r"; text "qcPhotoSubmissionPhotoAssetId" "photo";
      text "qcPhotoSubmissionJobPreviousStatus" "printed";
      text "qcPhotoSubmissionJobTargetStatus" "photo_submitted"; text "qcPhotoSubmissionJobResultId" "r5";
      text "qcPhotoSubmissionPhotoAssetResultId" "r5"; text "qcPhotoSubmissionRetentionResultId" "r5";
      flag "qcPhotoSubmissionCompleted"; flag "qcPhotoSubmissionAtomic"];
   command "j" "photo_submitted" "qc_approved" "k5" "r5" "k6"
     [flag "qcApprovalVerified"; text "jobId" "j"; text "orderId" "o"; text "phaseId" "p";
      text "productionReservationId" "r"; text "qcPhotoAssetId" "photo"; text "qcDecisionReviewerId" "reviewer";
      text "qcDecisionId" "decision"; text "qcDecisionResultId" "r6";
      text "qcDecisionSubmittedJobResultId" "r5"; field "qcDecisionExpectedJob" (RecordV 1 [text "id" "j";
      text "orderId" "o"; text "phaseId" "p"; text "productionReservationId" "r"; text "photoAssetId" "photo";
      text "status" "photo_submitted"; text "resultId" "r5"; text "currentStateCommandKey" "k5";
      flag "immutable"]); field "qcDecisionPhotoAsset" (RecordV 2 [text "id" "photo"; text "jobId" "j";
      text "orderId" "o"; text "phaseId" "p"; text "status" "stored"; at_ "retentionDeadlineAt" 1000;
      text "submissionResultId" "r5"; text "resultId" "r5"; flag "immutable"]);
      field "qcDecisionReviewer" (RecordV 3 [text "id" "reviewer"; flag "active"; flag "authorized"]);
      field "qcDecision" (RecordV 4 [text "id" "decision"; text "jobId" "j"; text "orderId" "o";
      text "phaseId" "p"; text "productionReservationId" "r"; text "photoAssetId" "photo";
      text "reviewerId" "reviewer"; text "outcome" "approved"; text "previousJobStatus" "photo_submitted";
      text "targetJobStatus" "qc_approved"; text "resultId" "r6"; text "sourceStateCommandKey" "k5";
      flag "immutable"]); text "qcDecisionSubmittedStateCommandKey" "k5"; text "qcDecisionJobId" "j";
      text "qcDecisionOrderId" "o"; text "qcDecisionPhaseId" "p"; text "qcDecisionReservationId" "r";
      text "qcDecisionPhotoAssetId" "photo"; text "qcDecisionPreviousJobStatus" "photo_submitted";
      text "qcDecisionTargetJobStatus" "qc_approved"; text "qcDecisionJobResultId" "r6";
      text "qcDecisionPhotoAssetResultId" "r5"; text "qcDecisionReviewerResultId" "r6";
      text "qcDecisionRecordResultId" "r6"; flag "qcDecisionCompleted"; flag "qcDecisionAtomic"];
   command "j" "qc_approved" "packed" "k6" "r6" "k7"
     [];
   command "j" "packed" "handed_over" "k7" "r7" "k8"
     [text "jobHandoffKind" "ordinary"; text "jobId" "j";
      field "jobHandoffExpectedJob" (RecordV 1 [text "id" "j"; text "kind" "ordinary"; text "status" "packed";
      flag "currentLineageLeaf"; flag "immutable"; text "shipmentId" "s"; none "claimId"; none "resolutionId";
      none "replacementSetId"; text "orderId" "o"; text "phaseId" "p"; text "resultId" "r7";
      text "currentStateCommandKey" "k7"]); text "jobHandoffJobId" "j";
      text "jobHandoffPreviousStatus" "packed"; text "jobHandoffTargetStatus" "handed_over";
      flag "jobHandoffCompleted"; flag "jobHandoffAtomic"; text "shipmentId" "s"; none "jobHandoffClaimId";
      none "jobHandoffResolutionId"; none "jobHandoffReplacementSetId"; text "jobHandoffResultId" "r8";
      text "handoffResultId" "r8"; text "jobHandoffJobResultId" "r8";
      text "jobHandoffCurrentStateCommandKey" "k7"; text "jobHandoffPreviousResultId" "r7"; text "orderId" "o";
      text "phaseId" "p"; field "handoffSlotIds" (ArrayV 3 [lit "y"]);
      field "handoffSlots" (ArrayV 4 [RecordV 5 [text "id" "y"; text "jobId" "j"; text "shipmentId" "s";
      text "orderId" "o"; text "phaseId" "p"]]); field "handoffJobIds" (ArrayV 6 [lit "j"]);
      field "handoffJobs" (ArrayV 7 [RecordV 8 [text "id" "j"; text "shipmentId" "s"; text "orderId" "o";
      text "phaseId" "p"; text "previousStatus" "packed"; text "targetStatus" "handed_over"]]);
      text "handoffOrderPreviousStatus" "ready_to_ship"; text "handoffOrderTargetStatus" "shipped";
      text "handoffShipmentId" "s"; text "handoffOrderId" "o"; text "handoffPhaseOrderId" "o";
      text "handoffPhaseId" "p"; text "phaseKind" "single"; text "handoffPhasePreviousStatus" "qc_passed";
      text "handoffPhaseTargetStatus" "shipped"; text "handoffShipmentPreviousStatus" "label_created";
      text "handoffShipmentTargetStatus" "handed_over"; text "handoffJobPreviousStatus" "packed";
      text "handoffJobTargetStatus" "handed_over"; field "shipmentFulfilmentSlotIds" (ArrayV 9 [lit "y"]);
      field "handoffResultSlotIds" (ArrayV 10 [lit "y"]); field "handoffResultJobIds" (ArrayV 11 [lit "j"]);
      text "handoffResultProviderScanId" "result-provider-scan";
      text "handoffResultProviderTransactionId" "result-provider-transaction";
      text "handoffResultShipmentResultId" "r8"; text "handoffResultOrderResultId" "r8";
      text "handoffResultPhaseResultId" "r8"; text "handoffResultSlotSetResultId" "r8";
      text "handoffResultJobSetResultId" "r8"; text "handoffResultProviderScanResultId" "r8";
      text "handoffResultCustodyResultId" "r8"; text "handoffResultShipmentId" "s";
      text "handoffResultOrderId" "o"; text "handoffResultPhaseId" "p";
      text "handoffResultOrderPreviousStatus" "ready_to_ship"; text "handoffResultOrderTargetStatus" "shipped";
      text "handoffResultPhasePreviousStatus" "qc_passed"; text "handoffResultPhaseTargetStatus" "shipped";
      text "handoffResultShipmentPreviousStatus" "label_created";
      text "handoffResultShipmentTargetStatus" "handed_over"; text "handoffResultJobPreviousStatus" "packed";
      text "handoffResultJobTargetStatus" "handed_over"; text "handoffResultProviderScanShipmentId" "s";
      text "handoffResultProviderScanOrderId" "o"; text "handoffResultProviderScanPhaseId" "p";
      text "handoffResultProviderScanStatus" "accepted"; flag "handoffResultProviderScanAuthenticated";
      flag "handoffResultProviderScanVerified"; flag "handoffResultCustodyConfirmed";
      flag "handoffResultCompleted"; flag "handoffResultAtomic"];
   with_snapshot "authoritative-slot-set" "slot-set-result" (command "j" "handed_over" "settled" "k8" "r8" "k9"
     [text "jobId" "j"; text "shipmentId" "s"; text "orderId" "o"; text "phaseId" "p";
      text "currentJobShipmentLineageLeafId" "shipment-lineage-leaf"; at_ "jobSettlementEvaluatedAt" 1000;
      text "jobSettlementPreviousJobResultId" "r8"; text "jobSettlementResultId" "r9";
      text "jobSettlementCurrentStateCommandKey" "k8";
      field "jobSettlementExpectedJob" (RecordV 1 [text "id" "j"; text "shipmentId" "s"; text "orderId" "o";
      text "phaseId" "p"; text "status" "handed_over"; text "resultId" "r8"; text "currentStateCommandKey" "k8";
      flag "currentLineageLeaf"; flag "immutable"; text "slotSetId" "authoritative-slot-set";
      text "slotSetResultId" "slot-set-result"]);
      text "jobSettlementAuthoritativeSlotSetId" "authoritative-slot-set";
      text "jobSettlementAuthoritativeSlotSetResultId" "slot-set-result";
      field "jobSettlementAuthoritativeSlotSet" (RecordV 2 [field "slotIds" (ArrayV 3 [lit "y"]);
      field "slotSnapshots" (ArrayV 4 [RecordV 5 [text "id" "y"; text "slotSetId" "authoritative-slot-set";
      text "jobId" "j"; text "shipmentId" "s"; text "orderId" "o"; text "phaseId" "p";
      text "status" "delivered"; text "resultId" "result"; text "currentStateCommandKey" "state-command-key";
      at_ "claimUntil" 1000; flag "immutable"; none "resolvedClaimId"; none "resolvedClaimStatus";
      none "resolvedClaimSlotId"; none "resolvedClaimShipmentId"; none "resolvedClaimOrderId";
      none "resolvedClaimPhaseId"; none "resolvedClaimPreviousActiveClaimId";
      none "resolvedClaimTargetActiveClaimId"; none "activeClaimId"; flag "claimRetentionHoldReleased"]]);
      text "id" "authoritative-slot-set"; text "jobId" "j"; text "shipmentId" "s"; text "orderId" "o";
      text "phaseId" "p"; text "previousJobResultId" "r8"; text "currentStateCommandKey" "k8";
      text "resultId" "slot-set-result"; flag "immutable"]);
      field "expectedJobSettlementSlotIds" (ArrayV 6 [lit "y"]);
      field "jobSettlementSlots" (ArrayV 7 [RecordV 8 [text "id" "y"; at_ "claimUntil" 1000;
      none "resolvedClaimId"; none "resolvedClaimStatus"; text "jobId" "j"; text "shipmentId" "s";
      text "orderId" "o"; text "phaseId" "p"; text "slotSetId" "authoritative-slot-set";
      text "status" "delivered"; text "resultId" "r9"; text "currentStateCommandKey" "state-command-key";
      flag "immutable"; text "sourceResultId" "result"; text "sourceCurrentStateCommandKey" "state-command-key";
      text "settlementResultId" "r9"; none "resolvedClaimSlotId"; none "resolvedClaimShipmentId";
      none "resolvedClaimOrderId"; none "resolvedClaimPhaseId"; none "resolvedClaimPreviousActiveClaimId";
      none "resolvedClaimTargetActiveClaimId"; none "activeClaimId"; flag "claimRetentionHoldReleased"]]);
      text "jobSettlementJobId" "j"; text "jobSettlementPreviousStatus" "handed_over";
      text "jobSettlementTargetStatus" "settled"; text "jobSettlementShipmentId" "s";
      text "jobSettlementShipmentJobId" "j"; text "jobSettlementOrderId" "o"; text "jobSettlementPhaseId" "p";
      text "jobSettlementLineageLeafId" "shipment-lineage-leaf"; text "jobSettlementLineageShipmentId" "s";
      text "jobSettlementLineageOrderId" "o"; text "jobSettlementLineagePhaseId" "p";
      text "jobSettlementLineageStatus" "delivered";
      text "jobSettlementExpectedSlotSetId" "authoritative-slot-set"; text "jobSettlementJobResultId" "r9";
      text "jobSettlementShipmentResultId" "r9"; text "jobSettlementLineageResultId" "r9";
      text "jobSettlementSlotSetResultId" "r9"; flag "jobSettlementSlotSetComplete";
      flag "jobSettlementCompleted"; flag "jobSettlementAtomic"])].


(** The accepted job [j] is cancelled; the job [j2] contributes to its shipment
    [s] with the label [l], too. *)
Definition cancellation_command : TransitionCommand :=
  command "j" "accepted" "cancelled" "k1" "r1" "k2"
    [text "cancellationReason" "order_cancelled"; text "jobId" "j"; text "productionReservationId" "r";
     text "productionReservationJobId" "j"; text "jobResourceSettlementJobId" "j";
     text "jobResourceSettlementProductionReservationId" "r"; text "materialConsumptionMode" "zero_pre_print";
     flag "materialConsumptionSettled"; flag "inventoryReservationReleased"; flag "capacityReservationReleased";
     flag "jobResourceSettlementAtomic"; flag "labelCancellationBarrierCompleted"; text "orderId" "o";
     text "phaseId" "p"; text "jobCancellationResultId" "r2"; text "jobCancellationPreviousJobResultId" "r1";
     text "jobCancellationPreviousReservationResultId" "previous-reservation-result";
     text "jobCancellationAuthoritativeScopeId" "scope";
     text "jobCancellationScopeResultId" "cancellation-scope-result";
     field "jobCancellationExpectedJob" (RecordV 1 [text "id" "j"; text "orderId" "o"; text "phaseId" "p";
     text "productionReservationId" "r"; text "shipmentScopeId" "scope"; text "status" "accepted";
     text "resultId" "r1"; text "currentStateCommandKey" "k1"; flag "immutable"]);
     field "jobCancellationExpectedReservation" (RecordV 2 [text "id" "r"; text "jobId" "j"; text "orderId" "o";
     text "phaseId" "p"; text "status" "scheduled"; text "resultId" "previous-reservation-result";
     flag "immutable"]); field "jobCancellationAuthoritativeScope" (RecordV 3 [field "shipments" (ArrayV 4 [
     RecordV 5 [field "contributorLinks" (ArrayV 6 [RecordV 7 [text "jobId" "j";
     text "productionReservationId" "r"; text "orderId" "o"; text "phaseId" "p"; flag "currentJobLineageLeaf";
     flag "immutable"]; RecordV 8 [text "jobId" "j2"; text "productionReservationId" "r2"; text "orderId" "o";
     text "phaseId" "p"; flag "currentJobLineageLeaf"; flag "immutable"]]); text "id" "s"; text "orderId" "o";
     text "phaseId" "p"; flag "currentLineageLeaf"; text "status" "label_created"; flag "immutable";
     field "carrierLabelIds" (ArrayV 9 [lit "l"])]]);
     field "carrierLabels" (ArrayV 10 [RecordV 11 [text "shipmentId" "s"; text "id" "l"; text "orderId" "o";
     text "phaseId" "p"; text "status" "usable"; flag "immutable"]]); text "id" "scope"; text "jobId" "j";
     text "orderId" "o"; text "phaseId" "p"; text "productionReservationId" "r";
     text "resultId" "cancellation-scope-result"; flag "immutable"; field "shipmentIds" (ArrayV 12 [lit "s"]);
     field "carrierLabelIds" (ArrayV 13 [lit "l"]); field "contributorJobIds" (ArrayV 14 [lit "j"; lit "j2"]);
     field "contributorReservationIds" (ArrayV 15 [lit "r"; lit "r2"])]);
     text "jobCancellationCurrentStateCommandKey" "k1"; text "jobCancellationJobId" "j";
     text "jobCancellationOrderId" "o"; text "jobCancellationPhaseId" "p";
     text "jobCancellationProductionReservationId" "r"; text "jobCancellationPreviousStatus" "accepted";
     text "jobCancellationTargetStatus" "cancelled"; text "jobCancellationReason" "order_cancelled";
     text "jobCancellationReservationId" "r"; text "jobCancellationReservationPreviousStatus" "scheduled";
     text "jobCancellationReservationTargetStatus" "released"; text "jobCancellationReservationResultId" "r2";
     field "jobCancellationExpectedShipmentIds" (ArrayV 16 [lit "s"]);
     field "jobCancellationExpectedCarrierLabelIds" (ArrayV 17 [lit "l"]);
     field "jobCancellationExpectedContributorJobIds" (ArrayV 18 [lit "j"; lit "j2"]);
     field "jobCancellationExpectedContributorReservationIds" (ArrayV 19 [lit "r"; lit "r2"]);
     text "jobCancellationExpectedScopeId" "scope";
     field "jobCancellationShipments" (ArrayV 20 [RecordV 21 [text "id" "s"; text "jobId" "j";
     text "productionReservationId" "r"; text "orderId" "o"; text "phaseId" "p";
     text "previousStatus" "label_created"; text "targetStatus" "label_created";
     text "barrierOutcome" "preserved_for_siblings"; flag "currentLineageLeaf";
     field "contributorJobIds" (ArrayV 22 [lit "j"; lit "j2"]);
     field "contributorReservationIds" (ArrayV 23 [lit "r"; lit "r2"]);
     field "remainingContributorJobIds" (ArrayV 24 [lit "j2"]);
     field "remainingContributorReservationIds" (ArrayV 25 [lit "r2"]);
     field "carrierLabelIds" (ArrayV 26 [lit "l"]); text "resultId" "r2"]]);
     field "jobCancellationCarrierLabels" (ArrayV 27 [RecordV 28 [text "id" "l";
     text "barrierOutcome" "preserved_for_siblings"; text "shipmentId" "s"; text "jobId" "j";
     text "productionReservationId" "r"; text "orderId" "o"; text "phaseId" "p"; text "previousStatus" "usable";
     text "targetStatus" "usable"; none "providerVoidOutboxId"; none "providerVoidOutboxShipmentId";
     none "providerVoidOutboxLabelId"; none "providerVoidIdempotencyKey"; none "providerVoidAction";
     none "providerVoidOutboxPreviousStatus"; none "providerVoidOutboxTargetStatus";
     none "providerVoidOutboxResultId"; none "providerEventId"; none "providerEventOutboxId";
     none "providerEventShipmentId"; none "providerEventLabelId"; none "providerEventTransactionId";
     none "providerEventResultId"; none "providerTransactionId"; none "providerTransactionShipmentId";
     none "providerTransactionLabelId"; none "providerTransactionOutboxId"; none "providerTransactionResultId";
     none "providerEventStatus"; none "providerTransactionStatus";
     field "providerEventAuthenticated" (Bool false); field "providerEventVerified" (Bool false);
     text "providerVoidStatus" "not_required"; text "resultId" "r2"]]); text "jobCancellationJobResultId" "r2";
     text "jobCancellationResourceSettlementResultId" "r2"; text "jobCancellationShipmentResultId" "r2";
     text "jobCancellationCarrierLabelResultId" "r2"; text "jobCancellationBarrierResultId" "r2";
     flag "jobCancellationCompleted"; flag "jobCancellationAtomic"].

Lemma job_cancellation_spares_siblings_witness :
  js "accepted" ≠ js "created" ∧ ∃ id, spares_siblings cancellation_command id.
Proof.
  split; [done|]. apply (job_cancellation_spares_siblings _ (js "accepted")); [|done]. vm_compute. reflexivity.
Defined.
