(* ===== verification/Refunds.v ===== *)
(** Refunds of a payment (lifecycle/policies.ts): the completion of a refund,
    its failure and rollback, and the reconciliation of a provider's word that
    comes late, when the refund or its failure is already recorded. *)
From S2P Require Import Prelude Text Primitives Values Transition Guards.

Import Transition.

(** [s.localeCompare(t)]: the collation of the host's locale, which the
    language leaves open. *)
Class Collation := localeCompare : jstr → jstr → Z.

Ltac let_pose :=
  lazymatch goal with |- (let x := ?a in @?m x) = ?r => let v := fresh x in pose (v := a); change (m v = r); cbv beta end.
Ltac let_step :=
  lazymatch goal with |- (let x := ?a in @?m x) = ?r => change (m a = r); cbv beta end.
Ltac let_abstract :=
  lazymatch goal with |- (let x := ?a in @?m x) = ?r => change (m a = r); generalize a; intros ?; cbv beta end.

Section Refunds.

Context {collation : Collation}.

(** ** Guards *)

Definition parseFailureRefundSet (paymentId : value) (value_ : value) (expectedId : value)
    (expectedResultId : value) : value :=
  let snapshot := record value_ in
  let refundIds := snapshot ?. "refundIds" in
  let refunds := snapshot ?. "refundSnapshots" in
  if negb (nonBlank expectedId)
     || negb (nonBlank expectedResultId)
     || (snapshot ?. "id" !== expectedId)
     || (snapshot ?. "paymentId" !== paymentId)
     || (snapshot ?. "resultId" !== expectedResultId)
     || (snapshot ?. "authoritative" !== Bool true)
     || (snapshot ?. "complete" !== Bool true)
     || (snapshot ?. "immutable" !== Bool true)
     || negb (is_array refundIds)
     || negb (is_array refunds)
     || negb (js_len refundIds =? js_len refunds)
     || existsb (λ id, negb (nonBlank id)) (elements refundIds)
     || negb (zlength (set_of (elements refundIds)) =? js_len refundIds) then
    Undefined
  else
  let rows : list (value * value) := [] in
  let attemptKeys : list value := [] in
  let succeededAmountMinor := BigIntV 0 in
  let pendingCount := 0 in
  for_return (λ '(rows, attemptKeys, succeededAmountMinor, pendingCount) value_,
    let row := record value_ in
    let id := row ?. "id" in
    let status := row ?. "status" in
    let rowAmountMinor := row ?. "amountMinor" in
    let rowAttemptKey := row ?. "idempotencyKey" in
    if (row === Undefined)
       || negb (nonBlank id)
       || negb (includes (elements refundIds) id)
       || map_has rows id
       || (row ?. "paymentId" !== paymentId)
       || ((status !== lit "pending")
           && (status !== lit "succeeded")
           && (status !== lit "failed"))
       || negb (is_bigint rowAmountMinor)
       || js_le rowAmountMinor (BigIntV 0)
       || negb (nonBlank rowAttemptKey)
       || set_has attemptKeys rowAttemptKey
       || negb (nonBlank (row ?. "resultId"))
       || (row ?. "immutable" !== Bool true) then
      Return Undefined
    else
    let rows := map_set rows id row in
    let attemptKeys := set_add attemptKeys rowAttemptKey in
    let succeededAmountMinor := if status === lit "succeeded" then
      js_add succeededAmountMinor rowAmountMinor
    else
      succeededAmountMinor in
    let pendingCount := if status === lit "pending" then
      pendingCount + 1
    else
      pendingCount in
    Next (rows, attemptKeys, succeededAmountMinor, pendingCount))
      (rows, attemptKeys, succeededAmountMinor, pendingCount) (elements refunds)
      (λ '(rows, attemptKeys, succeededAmountMinor, pendingCount),
         if existsb (λ id, negb (map_has rows id)) (elements refundIds)
         then Undefined
         else RecordV 0
                [(js "pendingCount", Integral pendingCount); (js "rows", MapV 0 rows);
                 (js "succeededAmountMinor", succeededAmountMinor)]).

Definition exactEventProjection (projection : value) (authoritative : value) : bool :=
  (projection !== Undefined)
  && (projection ?. "id" === authoritative ?. "id")
  && (projection ?. "paymentId" === authoritative ?. "paymentId")
  && (projection ?. "refundTransactionId" === authoritative ?. "refundTransactionId")
  && (projection ?. "provider" === authoritative ?. "provider")
  && (projection ?. "providerTransactionId" === authoritative ?. "providerTransactionId")
  && (projection ?. "kind" === authoritative ?. "kind")
  && (projection ?. "amountMinor" === authoritative ?. "amountMinor")
  && (projection ?. "currency" === authoritative ?. "currency")
  && is_instant (projection ?. "occurredAt")
  && is_instant (authoritative ?. "occurredAt")
  && sameInstant (projection ?. "occurredAt") (authoritative ?. "occurredAt")
  && is_instant (projection ?. "authenticatedAt")
  && is_instant (authoritative ?. "authenticatedAt")
  && sameInstant (projection ?. "authenticatedAt") (authoritative ?. "authenticatedAt")
  && is_instant (projection ?. "verifiedAt")
  && is_instant (authoritative ?. "verifiedAt")
  && sameInstant (projection ?. "verifiedAt") (authoritative ?. "verifiedAt")
  && (projection ?. "authenticated" === Bool true)
  && (projection ?. "verified" === Bool true)
  && (projection ?. "resultId" === authoritative ?. "resultId")
  && (projection ?. "immutable" === Bool true).

Definition parseOrderPaymentSet (orderId : value) (phaseId : value) (value_ : value)
    (expectedId : value) (expectedResultId : value) (phase : value) : value :=
  let snapshot := record value_ in
  let paymentIds := snapshot ?. "paymentIds" in
  let payments := snapshot ?. "paymentSnapshots" in
  if negb (nonBlank expectedId)
     || negb (nonBlank expectedResultId)
     || (snapshot ?. "id" !== expectedId)
     || (snapshot ?. "orderId" !== orderId)
     || (snapshot ?. "phaseId" !== phaseId)
     || (snapshot ?. "resultId" !== expectedResultId)
     || (snapshot ?. "authoritative" !== Bool true)
     || (snapshot ?. "complete" !== Bool true)
     || (snapshot ?. "immutable" !== Bool true)
     || negb (is_array paymentIds)
     || negb (is_array payments)
     || (js_len paymentIds =? 0)
     || negb (js_len paymentIds =? js_len payments)
     || existsb (λ id, negb (nonBlank id)) (elements paymentIds)
     || negb (zlength (set_of (elements paymentIds)) =? js_len paymentIds) then
    Undefined
  else
  let rows : list (value * value) := [] in
  for_return (λ rows value_,
    let row := record value_ in
    let id := row ?. "id" in
    if (row === Undefined)
       || negb (nonBlank id)
       || negb (includes (elements paymentIds) id)
       || map_has rows id
       || (row ?. "orderId" !== orderId)
       || (row ?. "phaseId" !== phaseId)
       || ((row ?. "role" !== lit "full")
           && (row ?. "role" !== lit "deposit")
           && (row ?. "role" !== lit "balance"))
       || negb (nonBlank (row ?. "provider"))
       || negb (nonBlank (row ?. "currency"))
       || negb (is_bigint (row ?. "capturedAmountMinor"))
       || js_le (row ?. "capturedAmountMinor") (BigIntV 0)
       || negb (is_bigint (row ?. "succeededRefundAmountMinor"))
       || js_lt (row ?. "succeededRefundAmountMinor") (BigIntV 0)
       || negb (nonBlank (row ?. "authoritativeRefundSetId"))
       || negb (nonBlank (row ?. "authoritativeRefundSetResultId"))
       || (if phase === lit "before"
           then negb (nonBlank (row ?. "status")) || negb (nonBlank (row ?. "resultId"))
           else negb (nonBlank (row ?. "previousStatus"))
                || negb (nonBlank (row ?. "targetStatus"))
                || negb (nonBlank (row ?. "previousResultId"))
                || negb (nonBlank (row ?. "resultId")))
       || (row ?. "immutable" !== Bool true) then
      Return Undefined
    else
    let rows := map_set rows id row in
    Next rows) rows (elements payments) (λ rows,
        if existsb (λ id, negb (map_has rows id)) (elements paymentIds)
        then Undefined
        else MapV 0 rows).

Definition parseSlotSet (orderId : value) (phaseId : value) (value_ : value) (expectedId : value)
    (expectedResultId : value) (expectedOutcome : value) : value :=
  let snapshot := record value_ in
  let slotIds := snapshot ?. "slotIds" in
  let slots := snapshot ?. "slotSnapshots" in
  if negb (nonBlank expectedId)
     || negb (nonBlank expectedResultId)
     || (snapshot ?. "id" !== expectedId)
     || (snapshot ?. "orderId" !== orderId)
     || (snapshot ?. "phaseId" !== phaseId)
     || (snapshot ?. "resultId" !== expectedResultId)
     || (snapshot ?. "authoritative" !== Bool true)
     || (snapshot ?. "complete" !== Bool true)
     || (snapshot ?. "immutable" !== Bool true)
     || negb (is_array slotIds)
     || negb (is_array slots)
     || (js_len slotIds =? 0)
     || negb (js_len slotIds =? js_len slots)
     || existsb (λ id, negb (nonBlank id)) (elements slotIds)
     || negb (zlength (set_of (elements slotIds)) =? js_len slotIds) then
    Undefined
  else
  let rows : list (value * value) := [] in
  for_return (λ rows value_,
    let row := record value_ in
    let id := row ?. "id" in
    if (row === Undefined)
       || negb (nonBlank id)
       || negb (includes (elements slotIds) id)
       || map_has rows id
       || (row ?. "orderId" !== orderId)
       || (row ?. "phaseId" !== phaseId)
       || (row ?. "outcome" !== expectedOutcome)
       || negb (nonBlank (row ?. "resultId"))
       || (row ?. "immutable" !== Bool true) then
      Return Undefined
    else
    let rows := map_set rows id row in
    Next rows) rows (elements slots) (λ rows,
        if existsb (λ id, negb (map_has rows id)) (elements slotIds)
        then Undefined
        else MapV 0 rows).

Definition readExactLateRefundFailureProof (context_ : value) : value :=
  if (context_ ?. "paymentCaptureKind" !== lit "late_refund_failure")
     || (context_ ?. "lateRefundFailureCompleted" !== Bool true)
     || (context_ ?. "lateRefundFailureAtomic" !== Bool true) then
    Undefined
  else
  let paymentId := context_ ?. "paymentId" in
  let orderId := context_ ?. "orderId" in
  let phaseId := context_ ?. "phaseId" in
  let role := context_ ?. "paymentRole" in
  let refundId := context_ ?. "refundTransactionId" in
  let provider := context_ ?. "lateRefundFailureProvider" in
  let providerTransactionId := context_ ?. "lateRefundFailureProviderTransactionId" in
  let amountMinor := context_ ?. "lateRefundFailureAmountMinor" in
  let currency := context_ ?. "lateRefundFailureCurrency" in
  let reason := context_ ?. "lateRefundFailureReason" in
  let attemptKey := context_ ?. "lateRefundFailureAttemptKey" in
  let capturedAmountMinor := context_ ?. "lateRefundFailureCapturedAmountMinor" in
  let resultId := context_ ?. "lateRefundFailureResultId" in
  let successEventId := context_ ?. "lateRefundFailureSuccessProviderEventId" in
  let failureEventId := context_ ?. "lateRefundFailureProviderEventId" in
  let previousPaymentResultId := context_ ?. "lateRefundFailurePreviousPaymentResultId" in
  let paymentStateKey := context_ ?. "lateRefundFailureCurrentPaymentStateCommandKey" in
  let sourceOrderResultId := context_ ?. "lateRefundFailureSourceOrderResultId" in
  let sourceOrderStateKey := context_ ?. "lateRefundFailureCurrentOrderStateCommandKey" in
  let sourcePhaseResultId := context_ ?. "lateRefundFailureSourcePhaseResultId" in
  let sourcePhaseStateKey := context_ ?. "lateRefundFailureCurrentPhaseStateCommandKey" in
  if negb (nonBlank paymentId)
     || negb (nonBlank orderId)
     || negb (nonBlank phaseId)
     || ((role !== lit "full") && (role !== lit "deposit") && (role !== lit "balance"))
     || negb (nonBlank refundId)
     || negb (nonBlank provider)
     || negb (nonBlank providerTransactionId)
     || negb (nonBlank currency)
     || negb (nonBlank reason)
     || negb (nonBlank attemptKey)
     || negb (nonBlank resultId)
     || negb (nonBlank previousPaymentResultId)
     || negb (nonBlank paymentStateKey)
     || negb (nonBlank sourceOrderResultId)
     || negb (nonBlank sourceOrderStateKey)
     || negb (nonBlank sourcePhaseResultId)
     || negb (nonBlank sourcePhaseStateKey)
     || negb (is_bigint amountMinor)
     || js_le amountMinor (BigIntV 0)
     || negb (is_bigint capturedAmountMinor)
     || js_le capturedAmountMinor (BigIntV 0) then
    Undefined
  else
  let beforeSetId := context_ ?. "lateRefundFailureRefundSetBeforeId" in
  let beforeSetResultId := context_ ?. "lateRefundFailureRefundSetBeforeResultId" in
  let afterSetId := context_ ?. "lateRefundFailureRefundSetAfterId" in
  let afterSetResultId := context_ ?. "lateRefundFailureRefundSetAfterResultId" in
  let before :=
    parseFailureRefundSet paymentId (context_ ?. "lateRefundFailureRefundSetBefore") beforeSetId
      beforeSetResultId in
  let after :=
    parseFailureRefundSet paymentId (context_ ?. "lateRefundFailureRefundSetAfter") afterSetId
      afterSetResultId in
  if (before === Undefined)
     || (after === Undefined)
     || (negb (zlength (entries (after ?. "rows")) =? zlength (entries (before ?. "rows")))
         && negb
              (zlength (entries (after ?. "rows")) =? zlength (entries (before ?. "rows")) + 1))
     || (beforeSetId === afterSetId)
     || (beforeSetResultId === afterSetResultId) then
    Undefined
  else
  for_return (λ _ '(id, source),
    let target_ := map_get (entries (after ?. "rows")) id in
    if (target_ === Undefined)
       || (target_ ?. "paymentId" !== source ?. "paymentId")
       || (target_ ?. "amountMinor" !== source ?. "amountMinor")
       || (target_ ?. "idempotencyKey" !== source ?. "idempotencyKey")
       || (target_ ?. "replacesRefundTransactionId" !== source ?. "replacesRefundTransactionId")
       || (target_ ?. "replacesFailureProviderEventId"
             !== source ?. "replacesFailureProviderEventId")
       || (target_ ?. "immutable" !== Bool true)
       || (if id === refundId
           then (source ?. "status" !== lit "succeeded")
                || (source ?. "amountMinor" !== amountMinor)
                || (source ?. "resultId"
                      !== context_ ?. "lateRefundFailureSuccessProviderEventResultId")
                || (target_ ?. "status" !== lit "failed")
                || (target_ ?. "resultId" !== resultId)
           else (target_ ?. "status" !== source ?. "status")
                || (target_ ?. "resultId" !== source ?. "resultId")) then
      Return Undefined
    else
    Next ()) () (entries (before ?. "rows")) (λ _,
    let succeededBefore := before ?. "succeededAmountMinor" in
    let succeededAfter := after ?. "succeededAmountMinor" in
    let addedRefunds := ArrayV 0 (List.filter (λ entry,
      let id := item entry 0 in
      negb (map_has (entries (before ?. "rows")) id)) (map_entries (entries (after ?. "rows")))
        ) in
    let expectedSource :=
      if before ?. "pendingCount" !== Integral 0
      then lit "refund_pending"
      else if succeededBefore === capturedAmountMinor
           then lit "refunded"
           else lit "partially_refunded" in
    let expectedTarget :=
      if after ?. "pendingCount" !== Integral 0
      then lit "refund_pending"
      else if succeededAfter === BigIntV 0 then lit "captured" else lit "partially_refunded" in
    let stableRefundPendingReconciliation :=
      (expectedSource === lit "refund_pending")
      && (expectedTarget === lit "refund_pending")
      && js_lt (Integral 0) (before ?. "pendingCount") in
    let stableRefundPendingRetry :=
      stableRefundPendingReconciliation
      && (after ?. "pendingCount" === js_add (before ?. "pendingCount") (Integral 1)) in
    let stableRefundPendingWithoutRetry :=
      stableRefundPendingReconciliation
      && (after ?. "pendingCount" === before ?. "pendingCount")
      && (js_len addedRefunds =? 0) in
    let retryRefundId := context_ ?. "lateRefundFailureRetryRefundTransactionId" in
    let retryAttemptKey := context_ ?. "lateRefundFailureRetryAttemptKey" in
    let retryRefund := record (context_ ?. "lateRefundFailureRetryRefundTransaction") in
    let retryRequestedAt := retryRefund ?. "requestedAt" in
    let retryCreatedAt := retryRefund ?. "createdAt" in
    let addedRetry := item (item addedRefunds 0) 1 in
    let exactRetryCreated :=
      stableRefundPendingRetry
      && (js_len addedRefunds =? 1)
      && nonBlank retryRefundId
      && nonBlank retryAttemptKey
      && (item (item addedRefunds 0) 0 === retryRefundId)
      && (addedRetry ?. "paymentId" === paymentId)
      && (addedRetry ?. "status" === lit "pending")
      && (addedRetry ?. "amountMinor" === amountMinor)
      && (addedRetry ?. "provider" === provider)
      && (addedRetry ?. "reason" === reason)
      && (addedRetry ?. "idempotencyKey" === retryAttemptKey)
      && (addedRetry ?. "replacesRefundTransactionId" === refundId)
      && (addedRetry ?. "replacesFailureProviderEventId" === failureEventId)
      && (addedRetry ?. "resultId" === resultId)
      && (addedRetry ?. "immutable" === Bool true)
      && (retryRefund ?. "id" === retryRefundId)
      && (retryRefund ?. "paymentId" === paymentId)
      && (retryRefund ?. "orderId" === orderId)
      && (retryRefund ?. "phaseId" === phaseId)
      && (retryRefund ?. "status" === lit "pending")
      && (retryRefund ?. "amountMinor" === amountMinor)
      && (retryRefund ?. "currency" === currency)
      && (retryRefund ?. "provider" === provider)
      && (retryRefund ?. "reason" === reason)
      && (retryRefund ?. "idempotencyKey" === retryAttemptKey)
      && (retryRefund ?. "replacesRefundTransactionId" === refundId)
      && (retryRefund ?. "replacesFailureProviderEventId" === failureEventId)
      && is_instant retryRequestedAt
      && is_instant retryCreatedAt
      && js_le (js_sub (retryRequestedAt ?. "epochMilliseconds") (Integral 5000))
           (retryCreatedAt ?. "epochMilliseconds")
      && (retryRefund ?. "providerEventId" === Null)
      && (retryRefund ?. "completedAt" === Null)
      && (retryRefund ?. "resultId" === resultId)
      && (retryRefund ?. "immutable" === Bool true)
      && (context_ ?. "lateRefundFailureRetryCreated" === Bool true) in
    if (succeededAfter !== js_sub succeededBefore amountMinor)
       || js_lt succeededAfter (BigIntV 0)
       || js_lt capturedAmountMinor succeededBefore
       || (if stableRefundPendingReconciliation
           then negb stableRefundPendingWithoutRetry && negb exactRetryCreated
           else negb (js_len addedRefunds =? 0)
                || (before ?. "pendingCount" !== after ?. "pendingCount"))
       || ((expectedSource === expectedTarget) && negb stableRefundPendingReconciliation) then
      Undefined
    else
    let latestPriorEventId := context_ ?. "lateRefundFailureLatestPriorProviderEventId" in
    let eventSetId := context_ ?. "lateRefundFailureProviderEventSetId" in
    let eventSetResultId := context_ ?. "lateRefundFailureProviderEventSetResultId" in
    let eventSet := record (context_ ?. "lateRefundFailureProviderEventSet") in
    let eventIds := eventSet ?. "providerEventIds" in
    let events := eventSet ?. "providerEvents" in
    if negb (nonBlank successEventId)
       || negb (nonBlank failureEventId)
       || negb (nonBlank latestPriorEventId)
       || negb (nonBlank eventSetId)
       || negb (nonBlank eventSetResultId)
       || (eventSet ?. "id" !== eventSetId)
       || (eventSet ?. "paymentId" !== paymentId)
       || (eventSet ?. "refundTransactionId" !== refundId)
       || (eventSet ?. "resultId" !== eventSetResultId)
       || (eventSet ?. "authoritative" !== Bool true)
       || (eventSet ?. "complete" !== Bool true)
       || (eventSet ?. "immutable" !== Bool true)
       || negb (is_array eventIds)
       || negb (is_array events)
       || (js_len eventIds <? 2)
       || negb (js_len eventIds =? js_len events)
       || existsb (λ id, negb (nonBlank id)) (elements eventIds)
       || negb (zlength (set_of (elements eventIds)) =? js_len eventIds) then
      Undefined
    else
    let eventRows : list (value * value) := [] in
    for_return (λ eventRows value_,
      let event := record value_ in
      let id := event ?. "id" in
      let occurredAt := event ?. "occurredAt" in
      let authenticatedAt := event ?. "authenticatedAt" in
      let verifiedAt := event ?. "verifiedAt" in
      if (event === Undefined)
         || negb (nonBlank id)
         || negb (includes (elements eventIds) id)
         || map_has eventRows id
         || (event ?. "paymentId" !== paymentId)
         || (event ?. "refundTransactionId" !== refundId)
         || (event ?. "provider" !== provider)
         || (event ?. "providerTransactionId" !== providerTransactionId)
         || ((event ?. "kind" !== lit "refund_succeeded")
             && (event ?. "kind" !== lit "refund_failed"))
         || (event ?. "amountMinor" !== amountMinor)
         || (event ?. "currency" !== currency)
         || (event ?. "authenticated" !== Bool true)
         || (event ?. "verified" !== Bool true)
         || negb (nonBlank (event ?. "resultId"))
         || (event ?. "immutable" !== Bool true)
         || negb (is_instant occurredAt)
         || negb (is_instant authenticatedAt)
         || negb (is_instant verifiedAt)
         || js_lt (authenticatedAt ?. "epochMilliseconds")
              (js_sub (occurredAt ?. "epochMilliseconds") (Integral 5000))
         || (compareV verifiedAt authenticatedAt <? 0) then
        Return Undefined
      else
      let eventRows := map_set eventRows id event in
      Next eventRows) eventRows (elements events) (λ eventRows,
      if existsb (λ id, negb (map_has eventRows id)) (elements eventIds) then
        Undefined
      else
      let failure := map_get eventRows failureEventId in
      let failureOccurredAt := failure ?. "occurredAt" in
      let priorEvents :=
        ArrayV 0
          (List.filter (λ event, event ?. "id" !== failureEventId) (map_values eventRows)) in
      if (failure ?. "kind" !== lit "refund_failed")
         || (failure ?. "resultId" !== resultId)
         || negb (is_instant failureOccurredAt)
         || (stableRefundPendingRetry
             && (negb (is_instant (failure ?. "verifiedAt"))
                 || negb (is_instant retryRequestedAt)
                 || js_lt (retryRequestedAt ?. "epochMilliseconds")
                      (js_sub ((failure ?. "verifiedAt") ?. "epochMilliseconds")
                         (Integral 5000))))
         || existsb (λ event, 0 <=? compareV (event ?. "occurredAt") failureOccurredAt)
              (elements priorEvents) then
        Undefined
      else
      let latestOccurredAt :=
        js_max_of
          (List.map (λ event, (event ?. "occurredAt") ?. "epochMilliseconds")
             (elements priorEvents)) in
      let latestPriorCandidates :=
        ArrayV 0
          (List.filter (λ event,
               (event ?. "occurredAt") ?. "epochMilliseconds" === latestOccurredAt)
             (elements priorEvents)) in
      let latestPrior :=
        found
          (last
             (elements
                (ArrayV 0
                   (js_sort (λ left right,
                        localeCompare (text_of (left ?. "id")) (text_of (right ?. "id")))
                      (elements latestPriorCandidates))))) in
      let success := map_get eventRows successEventId in
      if (latestPrior ?. "id" !== latestPriorEventId)
         || (latestPrior ?. "kind" !== lit "refund_succeeded")
         || (success ?. "kind" !== lit "refund_succeeded")
         || (context_ ?. "lateRefundFailureSuccessProviderEventResultId"
               !== success ?. "resultId")
         || (context_ ?. "lateRefundFailureLatestPriorProviderEventResultId"
               !== latestPrior ?. "resultId")
         || (context_ ?. "lateRefundFailureProviderEventResultId" !== failure ?. "resultId")
         || (eventSetResultId !== resultId) then
        Undefined
      else if negb
        (exactEventProjection (record (context_ ?. "lateRefundFailureSuccessProviderEvent"))
           success)
      || negb
           (exactEventProjection (record (context_ ?. "lateRefundFailureProviderEvent")) failure)
      || negb
           (exactEventProjection
              (record (context_ ?. "lateRefundFailureLatestPriorProviderEvent")) latestPrior) then
        Undefined
      else
      let sourceRefund := record (context_ ?. "lateRefundFailureSourceRefundTransaction") in
      let reconciledRefund := record (context_ ?. "lateRefundFailureRefundTransaction") in
      let requestedAt := sourceRefund ?. "requestedAt" in
      let sourceCompletedAt := sourceRefund ?. "completedAt" in
      if (sourceRefund ?. "id" !== refundId)
         || (sourceRefund ?. "paymentId" !== paymentId)
         || (sourceRefund ?. "orderId" !== orderId)
         || (sourceRefund ?. "phaseId" !== phaseId)
         || (sourceRefund ?. "status" !== lit "succeeded")
         || (sourceRefund ?. "provider" !== provider)
         || (sourceRefund ?. "providerTransactionId" !== providerTransactionId)
         || (sourceRefund ?. "amountMinor" !== amountMinor)
         || (sourceRefund ?. "currency" !== currency)
         || (sourceRefund ?. "reason" !== reason)
         || (sourceRefund ?. "idempotencyKey" !== attemptKey)
         || (sourceRefund ?. "providerEventId" !== successEventId)
         || negb (is_instant requestedAt)
         || negb (is_instant sourceCompletedAt)
         || negb (is_instant (success ?. "verifiedAt"))
         || js_lt (sourceCompletedAt ?. "epochMilliseconds")
              (js_sub (requestedAt ?. "epochMilliseconds") (Integral 5000))
         || existsb (λ event,
                js_lt ((event ?. "occurredAt") ?. "epochMilliseconds")
                  (js_sub (requestedAt ?. "epochMilliseconds") (Integral 5000)))
              (map_values eventRows)
         || negb (sameInstant sourceCompletedAt (success ?. "verifiedAt"))
         || (sourceRefund ?. "resultId"
               !== context_ ?. "lateRefundFailureSourceRefundTransactionResultId")
         || (sourceRefund ?. "resultId" !== success ?. "resultId")
         || (sourceRefund ?. "immutable" !== Bool true)
         || (reconciledRefund ?. "id" !== refundId)
         || (reconciledRefund ?. "paymentId" !== paymentId)
         || (reconciledRefund ?. "orderId" !== orderId)
         || (reconciledRefund ?. "phaseId" !== phaseId)
         || (reconciledRefund ?. "previousStatus" !== lit "succeeded")
         || (reconciledRefund ?. "targetStatus" !== lit "failed")
         || (reconciledRefund ?. "status" !== lit "failed")
         || (reconciledRefund ?. "provider" !== provider)
         || (reconciledRefund ?. "providerTransactionId" !== providerTransactionId)
         || (reconciledRefund ?. "amountMinor" !== amountMinor)
         || (reconciledRefund ?. "currency" !== currency)
         || (reconciledRefund ?. "reason" !== reason)
         || (reconciledRefund ?. "idempotencyKey" !== attemptKey)
         || (reconciledRefund ?. "previousProviderEventId" !== successEventId)
         || (reconciledRefund ?. "providerEventId" !== failureEventId)
         || negb (is_instant (reconciledRefund ?. "requestedAt"))
         || negb (sameInstant (reconciledRefund ?. "requestedAt") requestedAt)
         || (reconciledRefund ?. "completedAt" !== Null)
         || (reconciledRefund ?. "resultId" !== resultId)
         || (reconciledRefund ?. "immutable" !== Bool true) then
        Undefined
      else
      let sourcePayment := record (context_ ?. "lateRefundFailureSourcePayment") in
      let reconciledPayment := record (context_ ?. "lateRefundFailureReconciledPayment") in
      if (sourcePayment ?. "id" !== paymentId)
         || (sourcePayment ?. "orderId" !== orderId)
         || (sourcePayment ?. "phaseId" !== phaseId)
         || (sourcePayment ?. "role" !== role)
         || (sourcePayment ?. "provider" !== provider)
         || (sourcePayment ?. "currency" !== currency)
         || (sourcePayment ?. "status" !== expectedSource)
         || (sourcePayment ?. "capturedAmountMinor" !== capturedAmountMinor)
         || (sourcePayment ?. "succeededRefundAmountMinor" !== succeededBefore)
         || (sourcePayment ?. "authoritativeRefundSetId" !== beforeSetId)
         || (sourcePayment ?. "authoritativeRefundSetResultId" !== beforeSetResultId)
         || (sourcePayment ?. "resultId" !== previousPaymentResultId)
         || (sourcePayment ?. "currentStateCommandKey" !== paymentStateKey)
         || (sourcePayment ?. "immutable" !== Bool true)
         || (reconciledPayment ?. "id" !== paymentId)
         || (reconciledPayment ?. "orderId" !== orderId)
         || (reconciledPayment ?. "phaseId" !== phaseId)
         || (reconciledPayment ?. "role" !== role)
         || (reconciledPayment ?. "provider" !== provider)
         || (reconciledPayment ?. "currency" !== currency)
         || (reconciledPayment ?. "previousStatus" !== expectedSource)
         || (reconciledPayment ?. "targetStatus" !== expectedTarget)
         || (reconciledPayment ?. "capturedAmountMinor" !== capturedAmountMinor)
         || (reconciledPayment ?. "succeededRefundAmountMinor" !== succeededAfter)
         || (reconciledPayment ?. "refundTransactionId" !== refundId)
         || (reconciledPayment ?. "authoritativeRefundSetId" !== afterSetId)
         || (reconciledPayment ?. "authoritativeRefundSetResultId" !== afterSetResultId)
         || (reconciledPayment ?. "resultId" !== resultId)
         || (reconciledPayment ?. "immutable" !== Bool true)
         || (stableRefundPendingRetry
             && ((reconciledPayment ?. "retryRefundTransactionId" !== retryRefundId)
                 || (reconciledPayment ?. "previousStateCommandKey" !== paymentStateKey)
                 || negb (nonBlank (reconciledPayment ?. "currentStateCommandKey"))))
         || (context_ ?. "lateRefundFailurePaymentResultId" !== resultId)
         || (context_ ?. "lateRefundFailureRefundTransactionResultId" !== resultId) then
        Undefined
      else if expectedSource === lit "refunded" then
        let sourceOrder := record (context_ ?. "lateRefundFailureSourceOrder") in
        let reopenedOrder := record (context_ ?. "lateRefundFailureReopenedOrder") in
        let sourcePhase := record (context_ ?. "lateRefundFailureSourcePhase") in
        let reopenedPhase := record (context_ ?. "lateRefundFailureReopenedPhase") in
        let beforePaymentSetId := context_ ?. "lateRefundFailureOrderPaymentSetBeforeId" in
        let beforePaymentSetResultId :=
          context_ ?. "lateRefundFailureOrderPaymentSetBeforeResultId" in
        let afterPaymentSetId := context_ ?. "lateRefundFailureOrderPaymentSetAfterId" in
        let afterPaymentSetResultId :=
          context_ ?. "lateRefundFailureOrderPaymentSetAfterResultId" in
        let beforePayments :=
          parseOrderPaymentSet orderId phaseId
            (context_ ?. "lateRefundFailureOrderPaymentSetBefore") beforePaymentSetId
            beforePaymentSetResultId (lit "before") in
        let afterPayments :=
          parseOrderPaymentSet orderId phaseId
            (context_ ?. "lateRefundFailureOrderPaymentSetAfter") afterPaymentSetId
            afterPaymentSetResultId (lit "after") in
        let beforeSlotSetId := context_ ?. "lateRefundFailureSlotSetBeforeId" in
        let beforeSlotSetResultId := context_ ?. "lateRefundFailureSlotSetBeforeResultId" in
        let afterSlotSetId := context_ ?. "lateRefundFailureSlotSetAfterId" in
        let afterSlotSetResultId := context_ ?. "lateRefundFailureSlotSetAfterResultId" in
        let beforeSlots :=
          parseSlotSet orderId phaseId (context_ ?. "lateRefundFailureSlotSetBefore")
            beforeSlotSetId beforeSlotSetResultId (lit "cancelled_refunded") in
        let afterSlots :=
          parseSlotSet orderId phaseId (context_ ?. "lateRefundFailureSlotSetAfter")
            afterSlotSetId afterSlotSetResultId (lit "cancelled") in
        if (beforePayments === Undefined)
        || (afterPayments === Undefined)
        || negb (zlength (entries beforePayments) =? zlength (entries afterPayments))
        || (beforePaymentSetId === afterPaymentSetId)
        || (beforePaymentSetResultId === afterPaymentSetResultId)
        || (afterPaymentSetResultId !== resultId)
        || existsb (λ entry,
          let id := item entry 0 in
          let source := item entry 1 in
          let target_ := map_get (entries afterPayments) id in
          if target_ === Undefined then
            true
          else
          let selected := id === paymentId in
          (target_ ?. "orderId" !== source ?. "orderId")
          || (target_ ?. "phaseId" !== source ?. "phaseId")
          || (target_ ?. "role" !== source ?. "role")
          || (target_ ?. "provider" !== source ?. "provider")
          || (target_ ?. "currency" !== source ?. "currency")
          || (target_ ?. "capturedAmountMinor" !== source ?. "capturedAmountMinor")
          || (target_ ?. "previousStatus" !== source ?. "status")
          || (target_ ?. "previousResultId" !== source ?. "resultId")
          || (if selected
              then (source ?. "status" !== expectedSource)
                   || (source ?. "provider" !== provider)
                   || (source ?. "currency" !== currency)
                   || (source ?. "capturedAmountMinor" !== capturedAmountMinor)
                   || (source ?. "succeededRefundAmountMinor" !== succeededBefore)
                   || (source ?. "authoritativeRefundSetId" !== beforeSetId)
                   || (source ?. "authoritativeRefundSetResultId" !== beforeSetResultId)
                   || (source ?. "resultId" !== previousPaymentResultId)
                   || (target_ ?. "targetStatus" !== expectedTarget)
                   || (target_ ?. "succeededRefundAmountMinor" !== succeededAfter)
                   || (target_ ?. "authoritativeRefundSetId" !== afterSetId)
                   || (target_ ?. "authoritativeRefundSetResultId" !== afterSetResultId)
                   || (target_ ?. "resultId" !== resultId)
              else (target_ ?. "targetStatus" !== source ?. "status")
                   || (target_ ?. "succeededRefundAmountMinor"
                         !== source ?. "succeededRefundAmountMinor")
                   || (target_ ?. "authoritativeRefundSetId"
                         !== source ?. "authoritativeRefundSetId")
                   || (target_ ?. "authoritativeRefundSetResultId"
                         !== source ?. "authoritativeRefundSetResultId")
                   || (target_ ?. "resultId" !== source ?. "resultId")))
               (map_entries (entries beforePayments))
          || (beforeSlots === Undefined)
          || (afterSlots === Undefined)
          || negb (zlength (entries beforeSlots) =? zlength (entries afterSlots))
          || (beforeSlotSetId === afterSlotSetId)
          || (beforeSlotSetResultId === afterSlotSetResultId)
          || (afterSlotSetResultId !== resultId)
          || existsb (λ entry,
          let id := item entry 0 in
          let source := item entry 1 in
          let target_ := map_get (entries afterSlots) id in
          (target_ === Undefined)
          || (target_ ?. "previousOutcome" !== lit "cancelled_refunded")
          || (target_ ?. "previousResultId" !== source ?. "resultId")
          || (target_ ?. "resultId" !== resultId)) (map_entries (entries beforeSlots))
          || (sourceOrder ?. "id" !== orderId)
          || (sourceOrder ?. "phaseId" !== phaseId)
          || (sourceOrder ?. "paymentId" !== paymentId)
          || (sourceOrder ?. "status" !== lit "refunded")
          || (sourceOrder ?. "authoritativePaymentSetId" !== beforePaymentSetId)
          || (sourceOrder ?. "authoritativePaymentSetResultId" !== beforePaymentSetResultId)
          || (sourceOrder ?. "authoritativeSlotSetId" !== beforeSlotSetId)
          || (sourceOrder ?. "authoritativeSlotSetResultId" !== beforeSlotSetResultId)
          || (sourceOrder ?. "phaseResultId" !== sourcePhaseResultId)
          || (sourceOrder ?. "resultId" !== sourceOrderResultId)
          || (sourceOrder ?. "currentStateCommandKey" !== sourceOrderStateKey)
          || (sourceOrder ?. "immutable" !== Bool true)
          || (reopenedOrder ?. "id" !== orderId)
          || (reopenedOrder ?. "phaseId" !== phaseId)
          || (reopenedOrder ?. "paymentId" !== paymentId)
          || (reopenedOrder ?. "previousStatus" !== lit "refunded")
          || (reopenedOrder ?. "targetStatus" !== lit "cancelled")
          || (reopenedOrder ?. "authoritativePaymentSetId" !== afterPaymentSetId)
          || (reopenedOrder ?. "authoritativePaymentSetResultId" !== afterPaymentSetResultId)
          || (reopenedOrder ?. "authoritativeSlotSetId" !== afterSlotSetId)
          || (reopenedOrder ?. "authoritativeSlotSetResultId" !== afterSlotSetResultId)
          || (reopenedOrder ?. "phaseResultId" !== resultId)
          || (reopenedOrder ?. "resultId" !== resultId)
          || (reopenedOrder ?. "immutable" !== Bool true)
          || (sourcePhase ?. "id" !== phaseId)
          || (sourcePhase ?. "orderId" !== orderId)
          || (sourcePhase ?. "status" !== lit "cancelled_refunded")
          || (sourcePhase ?. "authoritativePaymentSetId" !== beforePaymentSetId)
          || (sourcePhase ?. "authoritativePaymentSetResultId" !== beforePaymentSetResultId)
          || (sourcePhase ?. "authoritativeSlotSetId" !== beforeSlotSetId)
          || (sourcePhase ?. "authoritativeSlotSetResultId" !== beforeSlotSetResultId)
          || (sourcePhase ?. "orderResultId" !== sourceOrderResultId)
          || (sourcePhase ?. "resultId" !== sourcePhaseResultId)
          || (sourcePhase ?. "currentStateCommandKey" !== sourcePhaseStateKey)
          || (sourcePhase ?. "immutable" !== Bool true)
          || (reopenedPhase ?. "id" !== phaseId)
          || (reopenedPhase ?. "orderId" !== orderId)
          || (reopenedPhase ?. "previousStatus" !== lit "cancelled_refunded")
          || (reopenedPhase ?. "targetStatus" !== lit "cancelled")
          || (reopenedPhase ?. "authoritativePaymentSetId" !== afterPaymentSetId)
          || (reopenedPhase ?. "authoritativePaymentSetResultId" !== afterPaymentSetResultId)
          || (reopenedPhase ?. "authoritativeSlotSetId" !== afterSlotSetId)
          || (reopenedPhase ?. "authoritativeSlotSetResultId" !== afterSlotSetResultId)
          || (reopenedPhase ?. "orderResultId" !== resultId)
          || (reopenedPhase ?. "resultId" !== resultId)
          || (reopenedPhase ?. "immutable" !== Bool true) then
          Undefined
        else
        RecordV 0
          [(js "expectedSource", expectedSource); (js "expectedTarget", expectedTarget);
           (js "orderId", orderId); (js "paymentId", paymentId);
           (js "paymentStateKey", paymentStateKey); (js "phaseId", phaseId);
           (js "previousPaymentResultId", previousPaymentResultId); (js "resultId", resultId);
           (js "sourceOrderResultId", sourceOrderResultId);
           (js "sourceOrderStateKey", sourceOrderStateKey);
           (js "sourcePhaseResultId", sourcePhaseResultId);
           (js "sourcePhaseStateKey", sourcePhaseStateKey)]
      else
      RecordV 0
        [(js "expectedSource", expectedSource); (js "expectedTarget", expectedTarget);
         (js "orderId", orderId); (js "paymentId", paymentId);
         (js "paymentStateKey", paymentStateKey); (js "phaseId", phaseId);
         (js "previousPaymentResultId", previousPaymentResultId); (js "resultId", resultId);
         (js "sourceOrderResultId", sourceOrderResultId);
         (js "sourceOrderStateKey", sourceOrderStateKey);
         (js "sourcePhaseResultId", sourcePhaseResultId);
         (js "sourcePhaseStateKey", sourcePhaseStateKey)])).

Definition hasExactLateRefundFailureMarker (context_ : value) : bool :=
  (readExactLateRefundFailureProof context_) ?. "expectedSource" === lit "refunded".

Definition hasLateRefundSuccessRetryReconciliation (context_ : value) : bool :=
  let retryId :=
    coalesce (context_ ?. "lateRefundSuccessReconciledRetryRefundTransactionId")
      (context_ ?. "lateRefundSuccessSupersededRetryRefundTransactionId") in
  nonBlank retryId.

Definition hasExactNoIntentPaymentTerminalSnapshot (state : value) (context_ : value) : bool :=
  if (state !== lit "failed") && (state !== lit "voided") then
    false
  else
  let snapshotValue := context_ ?. "paymentTerminalSnapshot" in
  let snapshot := record snapshotValue in
  let paymentId := context_ ?. "paymentId" in
  let resultId := context_ ?. "paymentTerminalSnapshotResultId" in
  let stateKey := context_ ?. "paymentTerminalSnapshotCurrentStateCommandKey" in
  nonBlank paymentId
  && nonBlank resultId
  && nonBlank stateKey
  && (snapshot ?. "id" === paymentId)
  && (snapshot ?. "status" === state)
  && (snapshot ?. "providerIntentId" === Null)
  && (snapshot ?. "captureAuthorized" === Bool false)
  && is_instant (snapshot ?. "captureCutoffAt")
  && (snapshot ?. "resultId" === resultId)
  && (snapshot ?. "currentStateCommandKey" === stateKey)
  && (snapshot ?. "immutable" === Bool true).

Definition requireExactLateRefundFailureReconciliation (command : TransitionCommand)
    (scope : value) : result () :=
  let context_ := context command in
  let exactProof := readExactLateRefundFailureProof context_ in
  let paymentId := context_ ?. "paymentId" in
  let orderId := context_ ?. "orderId" in
  let phaseId := context_ ?. "phaseId" in
  let role := context_ ?. "paymentRole" in
  let refundId := context_ ?. "refundTransactionId" in
  let successEventId := context_ ?. "lateRefundFailureSuccessProviderEventId" in
  let failureEventId := context_ ?. "lateRefundFailureProviderEventId" in
  let provider := context_ ?. "lateRefundFailureProvider" in
  let providerTransactionId := context_ ?. "lateRefundFailureProviderTransactionId" in
  let amountMinor := context_ ?. "lateRefundFailureAmountMinor" in
  let currency := context_ ?. "lateRefundFailureCurrency" in
  let attemptKey := context_ ?. "lateRefundFailureAttemptKey" in
  let capturedAmountMinor := context_ ?. "lateRefundFailureCapturedAmountMinor" in
  let beforeSetId := context_ ?. "lateRefundFailureRefundSetBeforeId" in
  let beforeSetResultId := context_ ?. "lateRefundFailureRefundSetBeforeResultId" in
  let afterSetId := context_ ?. "lateRefundFailureRefundSetAfterId" in
  let afterSetResultId := context_ ?. "lateRefundFailureRefundSetAfterResultId" in
  let previousPaymentResultId := context_ ?. "lateRefundFailurePreviousPaymentResultId" in
  let paymentStateKey := context_ ?. "lateRefundFailureCurrentPaymentStateCommandKey" in
  let resultId := context_ ?. "lateRefundFailureResultId" in
  let sourcePayment := record (context_ ?. "lateRefundFailureSourcePayment") in
  let reconciledPayment := record (context_ ?. "lateRefundFailureReconciledPayment") in
  let refund := record (context_ ?. "lateRefundFailureRefundTransaction") in
  let success := record (context_ ?. "lateRefundFailureSuccessProviderEvent") in
  let failure := record (context_ ?. "lateRefundFailureProviderEvent") in
  let latestPriorEventId := context_ ?. "lateRefundFailureLatestPriorProviderEventId" in
  let latestPrior := record (context_ ?. "lateRefundFailureLatestPriorProviderEvent") in
  let sourceOrder := record (context_ ?. "lateRefundFailureSourceOrder") in
  let reopenedOrder := record (context_ ?. "lateRefundFailureReopenedOrder") in
  let sourcePhase := record (context_ ?. "lateRefundFailureSourcePhase") in
  let reopenedPhase := record (context_ ?. "lateRefundFailureReopenedPhase") in
  if exactProof !== Undefined then
    let paymentBindingValid :=
      (scope !== lit "payment")
      || ((optional (aggregateId command) === exactProof ?. "paymentId")
          && (Str (current command) === exactProof ?. "expectedSource")
          && (Str (target command) === exactProof ?. "expectedTarget")
          && (optional (currentStateResultId command) === exactProof ?. "previousPaymentResultId")
          && (optional (currentStateCommandKey command) === exactProof ?. "paymentStateKey")
          && ((exactProof ?. "expectedSource" !== exactProof ?. "expectedTarget")
              || ((reconciledPayment ?. "previousStateCommandKey"
                     === exactProof ?. "paymentStateKey")
                  && (reconciledPayment ?. "currentStateCommandKey"
                        === Str (idempotencyKey command))))) in
    let orderBindingValid :=
      (scope !== lit "order")
      || ((exactProof ?. "expectedSource" === lit "refunded")
          && (optional (aggregateId command) === exactProof ?. "orderId")
          && currentIs command "refunded"
          && targetIs command "cancelled"
          && (optional (currentStateResultId command) === exactProof ?. "sourceOrderResultId")
          && (optional (currentStateCommandKey command)
                === exactProof ?. "sourceOrderStateKey")) in
    let phaseBindingValid :=
      (scope !== lit "phase")
      || ((exactProof ?. "expectedSource" === lit "refunded")
          && (optional (aggregateId command) === exactProof ?. "phaseId")
          && currentIs command "cancelled_refunded"
          && targetIs command "cancelled"
          && (optional (currentStateResultId command) === exactProof ?. "sourcePhaseResultId")
          && (optional (currentStateCommandKey command)
                === exactProof ?. "sourcePhaseStateKey")) in
    if paymentBindingValid && orderBindingValid && phaseBindingValid then
      Ok ()
    else
    Throw TransitionGuardError
  else
  let parseRefundSet := λ (value_ : value) (expectedId : value) (expectedResultId : value),
    let snapshot := record value_ in
    let refundIds := snapshot ?. "refundIds" in
    let refunds := snapshot ?. "refundSnapshots" in
    if negb (nonBlank expectedId)
       || negb (nonBlank expectedResultId)
       || (snapshot ?. "id" !== expectedId)
       || (snapshot ?. "paymentId" !== paymentId)
       || (snapshot ?. "resultId" !== expectedResultId)
       || (snapshot ?. "immutable" !== Bool true)
       || negb (is_array refundIds)
       || negb (is_array refunds)
       || negb (js_len refundIds =? js_len refunds)
       || existsb (λ id, negb (nonBlank id)) (elements refundIds)
       || negb (zlength (set_of (elements refundIds)) =? js_len refundIds) then
      Undefined
    else
    let rows : list (value * value) := [] in
    let succeededAmountMinor := BigIntV 0 in
    let pendingCount := 0 in
    for_return (λ '(rows, succeededAmountMinor, pendingCount) value_,
      let row := record value_ in
      let id := row ?. "id" in
      let status := row ?. "status" in
      let rowAmountMinor := row ?. "amountMinor" in
      if (row === Undefined)
         || negb (nonBlank id)
         || negb (includes (elements refundIds) id)
         || map_has rows id
         || (row ?. "paymentId" !== paymentId)
         || ((status !== lit "pending")
             && (status !== lit "succeeded")
             && (status !== lit "failed"))
         || negb (is_bigint rowAmountMinor)
         || js_le rowAmountMinor (BigIntV 0)
         || negb (nonBlank (row ?. "resultId"))
         || (row ?. "immutable" !== Bool true) then
        Return Undefined
      else
      let rows := map_set rows id row in
      let succeededAmountMinor := if status === lit "succeeded" then
        js_add succeededAmountMinor rowAmountMinor
      else
        succeededAmountMinor in
      let pendingCount := if status === lit "pending" then
        pendingCount + 1
      else
        pendingCount in
      Next (rows, succeededAmountMinor, pendingCount)) (rows, succeededAmountMinor, pendingCount)
        (elements refunds) (λ '(rows, succeededAmountMinor, pendingCount),
      if existsb (λ id, negb (map_has rows id)) (elements refundIds) then
        Undefined
      else
      RecordV 0
        [(js "pendingCount", Integral pendingCount); (js "rows", MapV 0 rows);
         (js "succeededAmountMinor", succeededAmountMinor)]) in
  let before :=
    parseRefundSet (context_ ?. "lateRefundFailureRefundSetBefore") beforeSetId
      beforeSetResultId in
  let after :=
    parseRefundSet (context_ ?. "lateRefundFailureRefundSetAfter") afterSetId afterSetResultId in
  let exactRefundSetTransition := false in
  let exactRefundSetTransition :=
    if (before !== Undefined)
    && (after !== Undefined)
    && (zlength (entries (before ?. "rows")) =? zlength (entries (after ?. "rows")))
    && map_has (entries (before ?. "rows")) refundId
    && map_has (entries (after ?. "rows")) refundId then
    let exactRefundSetTransition := true in
    let exactRefundSetTransition := for_break (λ exactRefundSetTransition '(id, beforeRow),
      let afterRow := map_get (entries (after ?. "rows")) id in
      if (afterRow === Undefined)
         || (afterRow ?. "paymentId" !== beforeRow ?. "paymentId")
         || (afterRow ?. "amountMinor" !== beforeRow ?. "amountMinor")
         || (afterRow ?. "immutable" !== Bool true)
         || (if id === refundId
             then (beforeRow ?. "status" !== lit "succeeded")
                  || (beforeRow ?. "amountMinor" !== amountMinor)
                  || (beforeRow ?. "resultId"
                        !== context_ ?. "lateRefundFailureSuccessProviderEventResultId")
                  || (afterRow ?. "status" !== lit "failed")
                  || (afterRow ?. "resultId" !== resultId)
             else (afterRow ?. "status" !== beforeRow ?. "status")
                  || (afterRow ?. "resultId" !== beforeRow ?. "resultId")) then
        let exactRefundSetTransition := false in
        Break exactRefundSetTransition
      else
      Next exactRefundSetTransition) exactRefundSetTransition (entries (before ?. "rows")) in
    exactRefundSetTransition
  else
    exactRefundSetTransition in
  let succeededBefore := before ?. "succeededAmountMinor" in
  let succeededAfter := after ?. "succeededAmountMinor" in
  let expectedSource :=
    if before ?. "pendingCount" !== Integral 0
    then lit "refund_pending"
    else if succeededBefore === capturedAmountMinor
         then lit "refunded"
         else lit "partially_refunded" in
  let expectedTarget :=
    if after ?. "pendingCount" !== Integral 0
    then lit "refund_pending"
    else if succeededAfter === BigIntV 0 then lit "captured" else lit "partially_refunded" in
  let successOccurredAt := success ?. "occurredAt" in
  let successVerifiedAt := success ?. "verifiedAt" in
  let failureOccurredAt := failure ?. "occurredAt" in
  let failureVerifiedAt := failure ?. "verifiedAt" in
  let latestPriorOccurredAt := latestPrior ?. "occurredAt" in
  let sourceOrderResultId := context_ ?. "lateRefundFailureSourceOrderResultId" in
  let sourceOrderStateKey := context_ ?. "lateRefundFailureCurrentOrderStateCommandKey" in
  let sourcePhaseResultId := context_ ?. "lateRefundFailureSourcePhaseResultId" in
  let sourcePhaseStateKey := context_ ?. "lateRefundFailureCurrentPhaseStateCommandKey" in
  let paymentBindingValid :=
    (scope !== lit "payment")
    || ((optional (aggregateId command) === paymentId)
        && (Str (current command) === expectedSource)
        && (Str (target command) === expectedTarget)
        && (optional (currentStateResultId command) === previousPaymentResultId)
        && (optional (currentStateCommandKey command) === paymentStateKey)
        && ((expectedSource !== expectedTarget)
            || ((expectedSource === lit "refund_pending")
                && (reconciledPayment ?. "previousStateCommandKey" === paymentStateKey)
                && (reconciledPayment ?. "currentStateCommandKey"
                      === Str (idempotencyKey command))))) in
  let orderBindingValid :=
    (scope !== lit "order")
    || ((optional (aggregateId command) === orderId)
        && currentIs command "refunded"
        && targetIs command "cancelled"
        && (optional (currentStateResultId command) === sourceOrderResultId)
        && (optional (currentStateCommandKey command) === sourceOrderStateKey)
        && (expectedSource === lit "refunded")
        && (sourceOrder !== Undefined)
        && (sourceOrder ?. "id" === orderId)
        && (sourceOrder ?. "phaseId" === phaseId)
        && (sourceOrder ?. "paymentId" === paymentId)
        && (sourceOrder ?. "status" === lit "refunded")
        && (sourceOrder ?. "resultId" === sourceOrderResultId)
        && (sourceOrder ?. "currentStateCommandKey" === sourceOrderStateKey)
        && (sourceOrder ?. "immutable" === Bool true)
        && (reopenedOrder !== Undefined)
        && (reopenedOrder ?. "id" === orderId)
        && (reopenedOrder ?. "phaseId" === phaseId)
        && (reopenedOrder ?. "paymentId" === paymentId)
        && (reopenedOrder ?. "previousStatus" === lit "refunded")
        && (reopenedOrder ?. "targetStatus" === lit "cancelled")
        && (reopenedOrder ?. "resultId" === resultId)
        && (reopenedOrder ?. "immutable" === Bool true)) in
  let phaseBindingValid :=
    (scope !== lit "phase")
    || ((optional (aggregateId command) === phaseId)
        && currentIs command "cancelled_refunded"
        && targetIs command "cancelled"
        && (optional (currentStateResultId command) === sourcePhaseResultId)
        && (optional (currentStateCommandKey command) === sourcePhaseStateKey)
        && (expectedSource === lit "refunded")
        && (sourcePhase !== Undefined)
        && (sourcePhase ?. "id" === phaseId)
        && (sourcePhase ?. "orderId" === orderId)
        && (sourcePhase ?. "status" === lit "cancelled_refunded")
        && (sourcePhase ?. "resultId" === sourcePhaseResultId)
        && (sourcePhase ?. "currentStateCommandKey" === sourcePhaseStateKey)
        && (sourcePhase ?. "immutable" === Bool true)
        && (reopenedPhase !== Undefined)
        && (reopenedPhase ?. "id" === phaseId)
        && (reopenedPhase ?. "orderId" === orderId)
        && (reopenedPhase ?. "previousStatus" === lit "cancelled_refunded")
        && (reopenedPhase ?. "targetStatus" === lit "cancelled")
        && (reopenedPhase ?. "resultId" === resultId)
        && (reopenedPhase ?. "immutable" === Bool true)) in
  guard_when
    ((exactProof === Undefined)
     || negb (nonBlank paymentId)
     || negb (nonBlank orderId)
     || negb (nonBlank phaseId)
     || ((role !== lit "full") && (role !== lit "deposit") && (role !== lit "balance"))
     || negb (nonBlank refundId)
     || negb (nonBlank successEventId)
     || negb (nonBlank failureEventId)
     || negb (nonBlank latestPriorEventId)
     || negb (nonBlank provider)
     || negb (nonBlank providerTransactionId)
     || negb (nonBlank currency)
     || negb (nonBlank attemptKey)
     || negb (nonBlank beforeSetId)
     || negb (nonBlank beforeSetResultId)
     || negb (nonBlank afterSetId)
     || negb (nonBlank afterSetResultId)
     || negb (nonBlank previousPaymentResultId)
     || negb (nonBlank paymentStateKey)
     || negb (nonBlank resultId)
     || negb (is_bigint amountMinor)
     || js_le amountMinor (BigIntV 0)
     || negb (is_bigint capturedAmountMinor)
     || js_le capturedAmountMinor (BigIntV 0)
     || negb exactRefundSetTransition
     || (succeededBefore === Undefined)
     || (succeededAfter === Undefined)
     || (succeededAfter !== js_sub succeededBefore amountMinor)
     || js_lt succeededAfter (BigIntV 0)
     || js_lt capturedAmountMinor succeededBefore
     || (before ?. "pendingCount" !== after ?. "pendingCount")
     || (beforeSetId === afterSetId)
     || (beforeSetResultId === afterSetResultId)
     || negb paymentBindingValid
     || negb orderBindingValid
     || negb phaseBindingValid
     || (sourcePayment ?. "id" !== paymentId)
     || (sourcePayment ?. "orderId" !== orderId)
     || (sourcePayment ?. "phaseId" !== phaseId)
     || (sourcePayment ?. "role" !== role)
     || (sourcePayment ?. "status" !== expectedSource)
     || (sourcePayment ?. "capturedAmountMinor" !== capturedAmountMinor)
     || (sourcePayment ?. "succeededRefundAmountMinor" !== succeededBefore)
     || (sourcePayment ?. "authoritativeRefundSetId" !== beforeSetId)
     || (sourcePayment ?. "authoritativeRefundSetResultId" !== beforeSetResultId)
     || (sourcePayment ?. "resultId" !== previousPaymentResultId)
     || (sourcePayment ?. "currentStateCommandKey" !== paymentStateKey)
     || (sourcePayment ?. "immutable" !== Bool true)
     || (reconciledPayment ?. "id" !== paymentId)
     || (reconciledPayment ?. "orderId" !== orderId)
     || (reconciledPayment ?. "phaseId" !== phaseId)
     || (reconciledPayment ?. "role" !== role)
     || (reconciledPayment ?. "previousStatus" !== expectedSource)
     || (reconciledPayment ?. "targetStatus" !== expectedTarget)
     || (reconciledPayment ?. "capturedAmountMinor" !== capturedAmountMinor)
     || (reconciledPayment ?. "succeededRefundAmountMinor" !== succeededAfter)
     || (reconciledPayment ?. "refundTransactionId" !== refundId)
     || (reconciledPayment ?. "authoritativeRefundSetId" !== afterSetId)
     || (reconciledPayment ?. "authoritativeRefundSetResultId" !== afterSetResultId)
     || (reconciledPayment ?. "resultId" !== resultId)
     || (reconciledPayment ?. "immutable" !== Bool true)
     || (refund ?. "id" !== refundId)
     || (refund ?. "paymentId" !== paymentId)
     || (refund ?. "orderId" !== orderId)
     || (refund ?. "phaseId" !== phaseId)
     || (refund ?. "previousStatus" !== lit "succeeded")
     || (refund ?. "targetStatus" !== lit "failed")
     || (refund ?. "status" !== lit "failed")
     || (refund ?. "provider" !== provider)
     || (refund ?. "providerTransactionId" !== providerTransactionId)
     || (refund ?. "amountMinor" !== amountMinor)
     || (refund ?. "currency" !== currency)
     || (refund ?. "idempotencyKey" !== attemptKey)
     || (refund ?. "previousProviderEventId" !== successEventId)
     || (refund ?. "providerEventId" !== failureEventId)
     || (refund ?. "completedAt" !== Null)
     || (refund ?. "resultId" !== resultId)
     || (refund ?. "immutable" !== Bool true)
     || (success ?. "paymentId" !== paymentId)
     || (success ?. "refundTransactionId" !== refundId)
     || (success ?. "provider" !== provider)
     || (success ?. "providerTransactionId" !== providerTransactionId)
     || (success ?. "amountMinor" !== amountMinor)
     || (success ?. "currency" !== currency)
     || negb (is_instant successOccurredAt)
     || negb (is_instant successVerifiedAt)
     || (failure ?. "paymentId" !== paymentId)
     || (failure ?. "refundTransactionId" !== refundId)
     || (failure ?. "provider" !== provider)
     || (failure ?. "providerTransactionId" !== providerTransactionId)
     || (failure ?. "amountMinor" !== amountMinor)
     || (failure ?. "currency" !== currency)
     || negb (is_instant failureOccurredAt)
     || negb (is_instant failureVerifiedAt)
     || (latestPrior ?. "id" !== latestPriorEventId)
     || (latestPrior ?. "paymentId" !== paymentId)
     || (latestPrior ?. "refundTransactionId" !== refundId)
     || (latestPrior ?. "provider" !== provider)
     || (latestPrior ?. "providerTransactionId" !== providerTransactionId)
     || (latestPrior ?. "kind" !== lit "refund_succeeded")
     || (latestPrior ?. "amountMinor" !== amountMinor)
     || (latestPrior ?. "currency" !== currency)
     || (latestPrior ?. "authenticated" !== Bool true)
     || (latestPrior ?. "verified" !== Bool true)
     || (latestPrior ?. "immutable" !== Bool true)
     || negb (is_instant latestPriorOccurredAt)
     || (0 <? compareV successOccurredAt latestPriorOccurredAt)
     || (0 <=? compareV latestPriorOccurredAt failureOccurredAt)
     || (context_ ?. "lateRefundFailurePaymentResultId" !== resultId)
     || (context_ ?. "lateRefundFailureRefundTransactionResultId" !== resultId)
     || (context_ ?. "lateRefundFailureProviderEventResultId" !== resultId)).

Definition exactProjection (projection : value) (authoritative : value) : bool :=
  (projection !== Undefined)
  && (authoritative !== Undefined)
  && (projection ?. "id" === authoritative ?. "id")
  && (projection ?. "paymentId" === authoritative ?. "paymentId")
  && (projection ?. "refundTransactionId" === authoritative ?. "refundTransactionId")
  && (projection ?. "provider" === authoritative ?. "provider")
  && (projection ?. "providerTransactionId" === authoritative ?. "providerTransactionId")
  && (projection ?. "kind" === authoritative ?. "kind")
  && (projection ?. "amountMinor" === authoritative ?. "amountMinor")
  && (projection ?. "currency" === authoritative ?. "currency")
  && is_instant (projection ?. "occurredAt")
  && is_instant (authoritative ?. "occurredAt")
  && sameInstant (projection ?. "occurredAt") (authoritative ?. "occurredAt")
  && is_instant (projection ?. "authenticatedAt")
  && is_instant (authoritative ?. "authenticatedAt")
  && sameInstant (projection ?. "authenticatedAt") (authoritative ?. "authenticatedAt")
  && is_instant (projection ?. "verifiedAt")
  && is_instant (authoritative ?. "verifiedAt")
  && sameInstant (projection ?. "verifiedAt") (authoritative ?. "verifiedAt")
  && (projection ?. "authenticated" === Bool true)
  && (projection ?. "verified" === Bool true)
  && (projection ?. "resultId" === authoritative ?. "resultId")
  && (projection ?. "immutable" === Bool true).

Definition parseSuccessRefundSet (paymentId : value) (value_ : value) (expectedId : value)
    (expectedResultId : value) : value :=
  let snapshot := record value_ in
  let refundIds := snapshot ?. "refundIds" in
  let refunds := snapshot ?. "refundSnapshots" in
  if negb (nonBlank expectedId)
     || negb (nonBlank expectedResultId)
     || (snapshot ?. "id" !== expectedId)
     || (snapshot ?. "paymentId" !== paymentId)
     || (snapshot ?. "resultId" !== expectedResultId)
     || (snapshot ?. "authoritative" !== Bool true)
     || (snapshot ?. "complete" !== Bool true)
     || (snapshot ?. "immutable" !== Bool true)
     || negb (is_array refundIds)
     || negb (is_array refunds)
     || negb (js_len refundIds =? js_len refunds)
     || existsb (λ id, negb (nonBlank id)) (elements refundIds)
     || negb (zlength (set_of (elements refundIds)) =? js_len refundIds) then
    Undefined
  else
  let rows : list (value * value) := [] in
  let succeededAmountMinor := BigIntV 0 in
  let pendingAmountMinor := BigIntV 0 in
  let pendingCount := 0 in
  for_return (λ '(rows, succeededAmountMinor, pendingAmountMinor, pendingCount) value_,
    let row := record value_ in
    let id := row ?. "id" in
    let status := row ?. "status" in
    let rowAmountMinor := row ?. "amountMinor" in
    if (row === Undefined)
       || negb (nonBlank id)
       || negb (includes (elements refundIds) id)
       || map_has rows id
       || (row ?. "paymentId" !== paymentId)
       || ((status !== lit "pending")
           && (status !== lit "succeeded")
           && (status !== lit "failed")
           && (status !== lit "superseded")
           && (status !== lit "suspended"))
       || negb (is_bigint rowAmountMinor)
       || js_le rowAmountMinor (BigIntV 0)
       || negb (nonBlank (row ?. "resultId"))
       || (row ?. "immutable" !== Bool true) then
      Return Undefined
    else
    let rows := map_set rows id row in
    let succeededAmountMinor := if status === lit "succeeded" then
      js_add succeededAmountMinor rowAmountMinor
    else
      succeededAmountMinor in
    let '(pendingAmountMinor, pendingCount) :=
      if (status === lit "pending") || (status === lit "suspended") then
      let pendingAmountMinor := js_add pendingAmountMinor rowAmountMinor in
      let pendingCount := pendingCount + 1 in
      (pendingAmountMinor, pendingCount)
    else
      (pendingAmountMinor, pendingCount) in
    Next (rows, succeededAmountMinor, pendingAmountMinor, pendingCount))
      (rows, succeededAmountMinor, pendingAmountMinor, pendingCount) (elements refunds)
      (λ '(rows, succeededAmountMinor, pendingAmountMinor, pendingCount),
    if existsb (λ id, negb (map_has rows id)) (elements refundIds) then
      Undefined
    else
    RecordV 0
      [(js "pendingAmountMinor", pendingAmountMinor); (js "pendingCount", Integral pendingCount);
       (js "rows", MapV 0 rows); (js "succeededAmountMinor", succeededAmountMinor)]).

Definition sameImmutableProjection (before : value) (after : value) : bool :=
  let keys := set_of ((object_keys before) ++ (object_keys after)) in
  forallb (λ key,
    let beforeValue := get_key before key in
    let afterValue := get_key after key in
    if is_instant beforeValue && is_instant afterValue then
      sameInstant beforeValue afterValue
    else
    same_value beforeValue afterValue) keys.

Definition requireExactLateRefundSuccessReconciliation (command : TransitionCommand)
    (phase : value) : result () :=
  let context_ := context command in
  let paymentId := context_ ?. "paymentId" in
  let orderId := context_ ?. "orderId" in
  let phaseId := context_ ?. "phaseId" in
  let role := context_ ?. "paymentRole" in
  let refundId := context_ ?. "refundTransactionId" in
  let failureEventId := context_ ?. "lateRefundSuccessFailureProviderEventId" in
  let successEventId := context_ ?. "refundCompletionProviderEventId" in
  let provider := context_ ?. "lateRefundSuccessProvider" in
  let providerTransactionId := context_ ?. "lateRefundSuccessProviderTransactionId" in
  let amountMinor := context_ ?. "lateRefundSuccessAmountMinor" in
  let currency := context_ ?. "lateRefundSuccessCurrency" in
  let attemptKey := context_ ?. "lateRefundSuccessAttemptKey" in
  let legacySupersededRetryId :=
    context_ ?. "lateRefundSuccessSupersededRetryRefundTransactionId" in
  let reconciledRetryId :=
    coalesce (context_ ?. "lateRefundSuccessReconciledRetryRefundTransactionId")
      legacySupersededRetryId in
  let retryReconciliationKind :=
    coalesce (context_ ?. "lateRefundSuccessRetryReconciliationKind")
      (if nonBlank legacySupersededRetryId then lit "supersede_undispatched" else Undefined) in
  let capturedAmountMinor := context_ ?. "lateRefundSuccessCapturedAmountMinor" in
  let succeededBefore := context_ ?. "lateRefundSuccessSucceededBeforeMinor" in
  let succeededAfter := context_ ?. "lateRefundSuccessSucceededAfterMinor" in
  let refundSetBeforeId := context_ ?. "lateRefundSuccessRefundSetBeforeId" in
  let refundSetBeforeResultId := context_ ?. "lateRefundSuccessRefundSetBeforeResultId" in
  let refundSetAfterId := context_ ?. "lateRefundSuccessRefundSetAfterId" in
  let refundSetAfterResultId := context_ ?. "lateRefundSuccessRefundSetAfterResultId" in
  let sourceResultId := context_ ?. "lateRefundSuccessSourcePaymentResultId" in
  let sourceStateKey := context_ ?. "lateRefundSuccessSourceCurrentStateCommandKey" in
  let interimResultId := context_ ?. "refundCompletionPreviousPaymentResultId" in
  let interimStateKey := context_ ?. "refundCompletionCurrentStateCommandKey" in
  let finalResultId := context_ ?. "refundCompletionResultId" in
  let sourcePayment := record (context_ ?. "lateRefundSuccessSourcePayment") in
  let interimPayment := record (context_ ?. "refundCompletionExpectedPayment") in
  let refund := record (context_ ?. "refundCompletionRefundTransaction") in
  let reconciledRetry :=
    record
      (coalesce (context_ ?. "lateRefundSuccessReconciledRetryRefundTransaction")
         (context_ ?. "lateRefundSuccessSupersededRetryRefundTransaction")) in
  let sourceRefund := record (context_ ?. "lateRefundSuccessSourceRefundTransaction") in
  let failureEvent := record (context_ ?. "lateRefundSuccessFailureProviderEvent") in
  let successEvent := record (context_ ?. "refundCompletionProviderEvent") in
  let reconciledPayment := record (context_ ?. "lateRefundSuccessReconciledPayment") in
  let providerEventSetId := context_ ?. "lateRefundSuccessProviderEventSetId" in
  let providerEventSetResultId := context_ ?. "lateRefundSuccessProviderEventSetResultId" in
  let providerEventSet := record (context_ ?. "lateRefundSuccessProviderEventSet") in
  let providerEventIds := providerEventSet ?. "providerEventIds" in
  let providerEvents := providerEventSet ?. "providerEvents" in
  let exactProviderEventSet := false in
  let exactProviderEventSet :=
    if nonBlank providerEventSetId
    && nonBlank providerEventSetResultId
    && (providerEventSet ?. "id" === providerEventSetId)
    && (providerEventSet ?. "paymentId" === paymentId)
    && (providerEventSet ?. "refundTransactionId" === refundId)
    && (providerEventSet ?. "resultId" === providerEventSetResultId)
    && (providerEventSet ?. "authoritative" === Bool true)
    && (providerEventSet ?. "complete" === Bool true)
    && (providerEventSet ?. "immutable" === Bool true)
    && is_array providerEventIds
    && is_array providerEvents
    && (2 <=? js_len providerEventIds)
    && (js_len providerEventIds =? js_len providerEvents)
    && forallb (λ id, nonBlank id) (elements providerEventIds)
    && (zlength (set_of (elements providerEventIds)) =? js_len providerEventIds) then
    let rows : list (value * value) := [] in
    let rows := for_break (λ rows value_,
      let event := record value_ in
      let id := event ?. "id" in
      let occurredAt := event ?. "occurredAt" in
      let authenticatedAt := event ?. "authenticatedAt" in
      let verifiedAt := event ?. "verifiedAt" in
      if (event === Undefined)
         || negb (nonBlank id)
         || negb (includes (elements providerEventIds) id)
         || map_has rows id
         || (event ?. "paymentId" !== paymentId)
         || (event ?. "refundTransactionId" !== refundId)
         || (event ?. "provider" !== provider)
         || (event ?. "providerTransactionId" !== providerTransactionId)
         || ((event ?. "kind" !== lit "refund_succeeded")
             && (event ?. "kind" !== lit "refund_failed"))
         || (event ?. "amountMinor" !== amountMinor)
         || (event ?. "currency" !== currency)
         || (event ?. "authenticated" !== Bool true)
         || (event ?. "verified" !== Bool true)
         || negb (nonBlank (event ?. "resultId"))
         || (event ?. "immutable" !== Bool true)
         || negb (is_instant occurredAt)
         || negb (is_instant authenticatedAt)
         || negb (is_instant verifiedAt)
         || js_lt (authenticatedAt ?. "epochMilliseconds")
              (js_sub (occurredAt ?. "epochMilliseconds") (Integral 5000))
         || (compareV verifiedAt authenticatedAt <? 0) then
        let rows := [] in
        Break rows
      else
      let rows := map_set rows id event in
      Next rows) rows (elements providerEvents) in
    let authoritativeFailure := map_get rows failureEventId in
    let authoritativeSuccess := map_get rows successEventId in
    let priorRows :=
      ArrayV 0 (List.filter (λ event, event ?. "id" !== successEventId) (map_values rows)) in
    let latestOccurredAt :=
      if zlength rows =? 0
      then Undefined
      else js_max_of
             (List.map (λ event, (event ?. "occurredAt") ?. "epochMilliseconds")
                (map_values rows)) in
    let latestRows :=
      ArrayV 0
        (List.filter (λ event,
             (event ?. "occurredAt") ?. "epochMilliseconds" === latestOccurredAt)
           (map_values rows)) in
    (zlength rows =? js_len providerEventIds)
    && forallb (λ id, map_has rows id) (elements providerEventIds)
    && (providerEventSetResultId === finalResultId)
    && (1 <=? js_len priorRows)
    && (authoritativeFailure ?. "kind" === lit "refund_failed")
    && (authoritativeSuccess ?. "kind" === lit "refund_succeeded")
    && (js_len latestRows =? 1)
    && ((item latestRows 0) ?. "id" === successEventId)
    && exactProjection failureEvent authoritativeFailure
    && exactProjection successEvent authoritativeSuccess
  else
    exactProviderEventSet in
  let retrySuccessEventId := context_ ?. "lateRefundSuccessRetryProviderEventId" in
  let retrySuccessEvent := record (context_ ?. "lateRefundSuccessRetryProviderEvent") in
  let retryProviderEventSetId := context_ ?. "lateRefundSuccessRetryProviderEventSetId" in
  let retryProviderEventSetResultId :=
    context_ ?. "lateRefundSuccessRetryProviderEventSetResultId" in
  let retryProviderEventSet := record (context_ ?. "lateRefundSuccessRetryProviderEventSet") in
  let retryProviderEventIds := retryProviderEventSet ?. "providerEventIds" in
  let retryProviderEvents := retryProviderEventSet ?. "providerEvents" in
  let exactRetrySuccessEventSet := retryReconciliationKind !== lit "suspend_succeeded" in
  let exactRetrySuccessEventSet :=
    if (retryReconciliationKind === lit "suspend_succeeded")
    && nonBlank reconciledRetryId
    && nonBlank retrySuccessEventId
    && nonBlank retryProviderEventSetId
    && nonBlank retryProviderEventSetResultId
    && (retryProviderEventSet ?. "id" === retryProviderEventSetId)
    && (retryProviderEventSet ?. "paymentId" === paymentId)
    && (retryProviderEventSet ?. "refundTransactionId" === reconciledRetryId)
    && (retryProviderEventSet ?. "resultId" === retryProviderEventSetResultId)
    && (retryProviderEventSet ?. "authoritative" === Bool true)
    && (retryProviderEventSet ?. "complete" === Bool true)
    && (retryProviderEventSet ?. "immutable" === Bool true)
    && is_array retryProviderEventIds
    && is_array retryProviderEvents
    && (1 <=? js_len retryProviderEventIds)
    && (js_len retryProviderEventIds =? js_len retryProviderEvents)
    && forallb (λ id, nonBlank id) (elements retryProviderEventIds)
    && (zlength (set_of (elements retryProviderEventIds)) =? js_len retryProviderEventIds) then
    let rows : list (value * value) := [] in
    let rows := for_break (λ rows value_,
      let event := record value_ in
      let id := event ?. "id" in
      let occurredAt := event ?. "occurredAt" in
      let authenticatedAt := event ?. "authenticatedAt" in
      let verifiedAt := event ?. "verifiedAt" in
      if (event === Undefined)
         || negb (nonBlank id)
         || negb (includes (elements retryProviderEventIds) id)
         || map_has rows id
         || (event ?. "paymentId" !== paymentId)
         || (event ?. "refundTransactionId" !== reconciledRetryId)
         || (event ?. "provider" !== provider)
         || negb (nonBlank (event ?. "providerTransactionId"))
         || ((event ?. "kind" !== lit "refund_succeeded")
             && (event ?. "kind" !== lit "refund_failed"))
         || (event ?. "amountMinor" !== amountMinor)
         || (event ?. "currency" !== currency)
         || (event ?. "authenticated" !== Bool true)
         || (event ?. "verified" !== Bool true)
         || negb (nonBlank (event ?. "resultId"))
         || (event ?. "immutable" !== Bool true)
         || negb (is_instant occurredAt)
         || negb (is_instant authenticatedAt)
         || negb (is_instant verifiedAt)
         || js_lt (authenticatedAt ?. "epochMilliseconds")
              (js_sub (occurredAt ?. "epochMilliseconds") (Integral 5000))
         || (compareV verifiedAt authenticatedAt <? 0) then
        let rows := [] in
        Break rows
      else
      let rows := map_set rows id event in
      Next rows) rows (elements retryProviderEvents) in
    let authoritativeSuccess := map_get rows retrySuccessEventId in
    let latestOccurredAt :=
      if zlength rows =? 0
      then Undefined
      else js_max_of
             (List.map (λ event, (event ?. "occurredAt") ?. "epochMilliseconds")
                (map_values rows)) in
    let latestRows :=
      ArrayV 0
        (List.filter (λ event,
             (event ?. "occurredAt") ?. "epochMilliseconds" === latestOccurredAt)
           (map_values rows)) in
    (zlength rows =? js_len retryProviderEventIds)
    && forallb (λ id, map_has rows id) (elements retryProviderEventIds)
    && (authoritativeSuccess ?. "kind" === lit "refund_succeeded")
    && (retryProviderEventSetResultId === authoritativeSuccess ?. "resultId")
    && (js_len latestRows =? 1)
    && ((item latestRows 0) ?. "id" === retrySuccessEventId)
    && (retrySuccessEvent !== Undefined)
    && (authoritativeSuccess !== Undefined)
    && (retrySuccessEvent ?. "id" === authoritativeSuccess ?. "id")
    && (retrySuccessEvent ?. "paymentId" === authoritativeSuccess ?. "paymentId")
    && (retrySuccessEvent ?. "refundTransactionId"
          === authoritativeSuccess ?. "refundTransactionId")
    && (retrySuccessEvent ?. "provider" === authoritativeSuccess ?. "provider")
    && (retrySuccessEvent ?. "providerTransactionId"
          === authoritativeSuccess ?. "providerTransactionId")
    && (retrySuccessEvent ?. "kind" === authoritativeSuccess ?. "kind")
    && (retrySuccessEvent ?. "amountMinor" === authoritativeSuccess ?. "amountMinor")
    && (retrySuccessEvent ?. "currency" === authoritativeSuccess ?. "currency")
    && is_instant (retrySuccessEvent ?. "occurredAt")
    && is_instant (authoritativeSuccess ?. "occurredAt")
    && sameInstant (retrySuccessEvent ?. "occurredAt") (authoritativeSuccess ?. "occurredAt")
    && is_instant (retrySuccessEvent ?. "authenticatedAt")
    && is_instant (authoritativeSuccess ?. "authenticatedAt")
    && sameInstant (retrySuccessEvent ?. "authenticatedAt")
         (authoritativeSuccess ?. "authenticatedAt")
    && is_instant (retrySuccessEvent ?. "verifiedAt")
    && is_instant (authoritativeSuccess ?. "verifiedAt")
    && sameInstant (retrySuccessEvent ?. "verifiedAt") (authoritativeSuccess ?. "verifiedAt")
    && (retrySuccessEvent ?. "authenticated" === Bool true)
    && (retrySuccessEvent ?. "verified" === Bool true)
    && (retrySuccessEvent ?. "resultId" === authoritativeSuccess ?. "resultId")
    && (retrySuccessEvent ?. "immutable" === Bool true)
  else
    exactRetrySuccessEventSet in
  let refundSetBefore :=
    parseSuccessRefundSet paymentId (context_ ?. "lateRefundSuccessRefundSetBefore")
      refundSetBeforeId refundSetBeforeResultId in
  let refundSetAfter :=
    parseSuccessRefundSet paymentId (context_ ?. "lateRefundSuccessRefundSetAfter")
      refundSetAfterId refundSetAfterResultId in
  let failureVerifiedAt := failureEvent ?. "verifiedAt" in
  let successVerifiedAt := successEvent ?. "verifiedAt" in
  let failureOccurredAt := failureEvent ?. "occurredAt" in
  let successOccurredAt := successEvent ?. "occurredAt" in
  let refundCompletedAt := refund ?. "completedAt" in
  let retryReconciliationRequested :=
    (reconciledRetry !== Undefined) || nonBlank reconciledRetryId in
  let retryReconciliationKindValid :=
    if retryReconciliationRequested
    then (retryReconciliationKind === lit "supersede_undispatched")
         || (retryReconciliationKind === lit "suspend_claimed")
         || (retryReconciliationKind === lit "suspend_succeeded")
    else retryReconciliationKind === Undefined in
  let supersedeUndispatchedRetry := retryReconciliationKind === lit "supersede_undispatched" in
  let suspendClaimedRetry := retryReconciliationKind === lit "suspend_claimed" in
  let suspendSucceededRetry := retryReconciliationKind === lit "suspend_succeeded" in
  let suspendRetry := suspendClaimedRetry || suspendSucceededRetry in
  let projectsSourceSuccess := negb suspendRetry in
  let selectedSourceRefund := if suspendRetry then sourceRefund else refund in
  let exactRetryTransition := negb retryReconciliationRequested in
  let exactRefundSetTransition := false in
  let '(exactRefundSetTransition, exactRetryTransition) :=
    if (refundSetBefore !== Undefined)
    && (refundSetAfter !== Undefined)
    && (zlength (entries (refundSetBefore ?. "rows"))
          =? zlength (entries (refundSetAfter ?. "rows")))
    && map_has (entries (refundSetBefore ?. "rows")) refundId
    && map_has (entries (refundSetAfter ?. "rows")) refundId then
    let exactRefundSetTransition := true in
    let '(exactRefundSetTransition, exactRetryTransition) :=
      for_break (λ '(exactRefundSetTransition, exactRetryTransition) '(id, before),
      let after := map_get (entries (refundSetAfter ?. "rows")) id in
      let isReconciledRetry := id === reconciledRetryId in
      if (after === Undefined)
         || (after ?. "paymentId" !== before ?. "paymentId")
         || (after ?. "amountMinor" !== before ?. "amountMinor")
         || (after ?. "immutable" !== Bool true)
         || (if id === refundId
             then if projectsSourceSuccess
                  then (before ?. "status" !== lit "failed")
                       || (before ?. "amountMinor" !== amountMinor)
                       || (before ?. "resultId" !== failureEventId)
                       || (after ?. "status" !== lit "succeeded")
                       || (after ?. "resultId" !== finalResultId)
                  else negb suspendRetry
                       || (sourceRefund === Undefined)
                       || negb (sameImmutableProjection before sourceRefund)
                       || negb (sameImmutableProjection after sourceRefund)
             else if isReconciledRetry
                  then (before ?. "provider" !== provider)
                       || (before ?. "amountMinor" !== amountMinor)
                       || (before ?. "currency" !== currency)
                       || (before ?. "reason" !== selectedSourceRefund ?. "reason")
                       || negb (nonBlank (before ?. "idempotencyKey"))
                       || (before ?. "replacesRefundTransactionId" !== refundId)
                       || (before ?. "replacesFailureProviderEventId" !== failureEventId)
                       || (before ?. "sourceSuccessProviderEventId" !== Null)
                       || (before ?. "reconciliationStartedAt" !== Null)
                       || (if supersedeUndispatchedRetry
                           then (before ?. "status" !== lit "pending")
                                || (before ?. "providerTransactionId" !== Null)
                                || (before ?. "providerEventId" !== Null)
                                || (before ?. "dispatchClaimedAt" !== Null)
                                || (before ?. "completedAt" !== Null)
                                || (after ?. "status" !== lit "superseded")
                                || (after ?. "providerTransactionId" !== Null)
                                || (after ?. "providerEventId" !== Null)
                                || (after ?. "dispatchClaimedAt" !== Null)
                                || (after ?. "completedAt" !== Null)
                           else if suspendClaimedRetry
                                then (before ?. "status" !== lit "pending")
                                     || ((before ?. "providerTransactionId" !== Null)
                                         && negb (nonBlank (before ?. "providerTransactionId")))
                                     || (before ?. "providerEventId" !== Null)
                                     || negb (is_instant (before ?. "dispatchClaimedAt"))
                                     || (before ?. "completedAt" !== Null)
                                     || (after ?. "status" !== lit "suspended")
                                     || (after ?. "providerTransactionId"
                                           !== before ?. "providerTransactionId")
                                     || (after ?. "providerEventId" !== Null)
                                     || negb (is_instant (after ?. "dispatchClaimedAt"))
                                     || negb
                                          (sameInstant (after ?. "dispatchClaimedAt")
                                             (before ?. "dispatchClaimedAt"))
                                     || (after ?. "completedAt" !== Null)
                                else if suspendSucceededRetry
                                     then (before ?. "status" !== lit "succeeded")
                                          || negb (nonBlank (before ?. "providerTransactionId"))
                                          || (before ?. "providerEventId" !== retrySuccessEventId)
                                          || (before ?. "resultId"
                                                !== retrySuccessEvent ?. "resultId")
                                          || negb (is_instant (before ?. "dispatchClaimedAt"))
                                          || negb (is_instant (before ?. "completedAt"))
                                          || (retrySuccessEvent ?. "providerTransactionId"
                                                !== before ?. "providerTransactionId")
                                          || negb (is_instant (retrySuccessEvent ?. "verifiedAt"))
                                          || negb
                                               (sameInstant (before ?. "completedAt")
                                                  (retrySuccessEvent ?. "verifiedAt"))
                                          || (after ?. "status" !== lit "suspended")
                                          || (after ?. "providerTransactionId"
                                                !== before ?. "providerTransactionId")
                                          || (after ?. "providerEventId"
                                                !== before ?. "providerEventId")
                                          || negb (is_instant (after ?. "dispatchClaimedAt"))
                                          || negb
                                               (sameInstant (after ?. "dispatchClaimedAt")
                                                  (before ?. "dispatchClaimedAt"))
                                          || (after ?. "completedAt" !== Null)
                                     else true)
                       || (after ?. "provider" !== before ?. "provider")
                       || (after ?. "amountMinor" !== before ?. "amountMinor")
                       || (after ?. "currency" !== before ?. "currency")
                       || (after ?. "reason" !== before ?. "reason")
                       || (after ?. "idempotencyKey" !== before ?. "idempotencyKey")
                       || (after ?. "replacesRefundTransactionId" !== refundId)
                       || (after ?. "replacesFailureProviderEventId" !== failureEventId)
                       || (after ?. "sourceSuccessProviderEventId" !== successEventId)
                       || negb (is_instant (after ?. "reconciliationStartedAt"))
                       || negb (is_instant successVerifiedAt)
                       || negb
                            (sameInstant (after ?. "reconciliationStartedAt") successVerifiedAt)
                       || (after ?. "resultId" !== finalResultId)
                  else negb (sameImmutableProjection before after)) then
        let exactRefundSetTransition := false in
        Break (exactRefundSetTransition, exactRetryTransition)
      else
      let exactRetryTransition := if isReconciledRetry then
        true
      else
        exactRetryTransition in
      Next (exactRefundSetTransition, exactRetryTransition))
        (exactRefundSetTransition, exactRetryTransition) (entries (refundSetBefore ?. "rows")) in
    (exactRefundSetTransition, exactRetryTransition)
  else
    (exactRefundSetTransition, exactRetryTransition) in
  let derivedSucceededBefore := refundSetBefore ?. "succeededAmountMinor" in
  let derivedSucceededAfter := refundSetAfter ?. "succeededAmountMinor" in
  let expectedSource :=
    if js_lt (Integral 0) (coalesce (refundSetBefore ?. "pendingCount") (Integral 0))
    then lit "refund_pending"
    else if derivedSucceededBefore === BigIntV 0
         then lit "captured"
         else if derivedSucceededBefore === capturedAmountMinor
              then lit "refunded"
              else lit "partially_refunded" in
  let expectedTarget :=
    if js_lt (Integral 0) (coalesce (refundSetAfter ?. "pendingCount") (Integral 0))
    then lit "refund_pending"
    else if derivedSucceededAfter === capturedAmountMinor
         then lit "refunded"
         else lit "partially_refunded" in
  let sourceRefundProjectionValid :=
    if projectsSourceSuccess
    then (refund !== Undefined)
         && (refund ?. "id" === refundId)
         && (refund ?. "paymentId" === paymentId)
         && (refund ?. "orderId" === orderId)
         && (refund ?. "phaseId" === phaseId)
         && (refund ?. "previousStatus" === lit "failed")
         && (refund ?. "targetStatus" === lit "succeeded")
         && (refund ?. "status" === lit "succeeded")
         && (refund ?. "provider" === provider)
         && (refund ?. "providerTransactionId" === providerTransactionId)
         && (refund ?. "amountMinor" === amountMinor)
         && (refund ?. "currency" === currency)
         && (refund ?. "idempotencyKey" === attemptKey)
         && (refund ?. "failureProviderEventId" === failureEventId)
         && (refund ?. "providerEventId" === successEventId)
         && is_instant refundCompletedAt
         && (refund ?. "resultId" === finalResultId)
         && (refund ?. "immutable" === Bool true)
    else if suspendRetry
         then (sourceRefund !== Undefined)
              && (sourceRefund ?. "id" === refundId)
              && (sourceRefund ?. "paymentId" === paymentId)
              && (sourceRefund ?. "orderId" === orderId)
              && (sourceRefund ?. "phaseId" === phaseId)
              && (sourceRefund ?. "status" === lit "failed")
              && (sourceRefund ?. "provider" === provider)
              && (sourceRefund ?. "providerTransactionId" === providerTransactionId)
              && (sourceRefund ?. "amountMinor" === amountMinor)
              && (sourceRefund ?. "currency" === currency)
              && (sourceRefund ?. "idempotencyKey" === attemptKey)
              && (sourceRefund ?. "providerEventId" === failureEventId)
              && (sourceRefund ?. "completedAt" === Null)
              && (sourceRefund ?. "resultId" === failureEventId)
              && (sourceRefund ?. "immutable" === Bool true)
         else refund ?. "id" === refundId in
  let beforeRetry :=
    if nonBlank reconciledRetryId
    then map_get (entries (refundSetBefore ?. "rows")) reconciledRetryId
    else Undefined in
  let reconciledRetryProjectionValid :=
    if negb retryReconciliationRequested
    then true
    else (reconciledRetry !== Undefined)
         && (reconciledRetry ?. "id" === reconciledRetryId)
         && (reconciledRetry ?. "paymentId" === paymentId)
         && (reconciledRetry ?. "orderId" === orderId)
         && (reconciledRetry ?. "phaseId" === phaseId)
         && (reconciledRetry ?. "previousStatus" === beforeRetry ?. "status")
         && (reconciledRetry ?. "targetStatus"
               === if supersedeUndispatchedRetry then lit "superseded" else lit "suspended")
         && (reconciledRetry ?. "status"
               === if supersedeUndispatchedRetry then lit "superseded" else lit "suspended")
         && (reconciledRetry ?. "provider" === provider)
         && (reconciledRetry ?. "providerTransactionId"
               === beforeRetry ?. "providerTransactionId")
         && (reconciledRetry ?. "providerEventId" === beforeRetry ?. "providerEventId")
         && (reconciledRetry ?. "amountMinor" === amountMinor)
         && (reconciledRetry ?. "currency" === currency)
         && (reconciledRetry ?. "reason" === selectedSourceRefund ?. "reason")
         && nonBlank (reconciledRetry ?. "idempotencyKey")
         && (reconciledRetry ?. "idempotencyKey" === beforeRetry ?. "idempotencyKey")
         && (reconciledRetry ?. "replacesRefundTransactionId" === refundId)
         && (reconciledRetry ?. "replacesFailureProviderEventId" === failureEventId)
         && (if supersedeUndispatchedRetry
             then reconciledRetry ?. "dispatchClaimedAt" === Null
             else is_instant (reconciledRetry ?. "dispatchClaimedAt")
                  && is_instant (beforeRetry ?. "dispatchClaimedAt")
                  && sameInstant (reconciledRetry ?. "dispatchClaimedAt")
                       (beforeRetry ?. "dispatchClaimedAt"))
         && (reconciledRetry ?. "sourceSuccessProviderEventId" === successEventId)
         && is_instant (reconciledRetry ?. "reconciliationStartedAt")
         && is_instant successVerifiedAt
         && sameInstant (reconciledRetry ?. "reconciliationStartedAt") successVerifiedAt
         && (reconciledRetry ?. "completedAt" === Null)
         && (reconciledRetry ?. "resultId" === finalResultId)
         && (reconciledRetry ?. "immutable" === Bool true) in
  guard_when
    ((context_ ?. "paymentCaptureKind" !== lit "late_refund_success")
     || negb (nonBlank paymentId)
     || negb (nonBlank orderId)
     || negb (nonBlank phaseId)
     || ((role !== lit "full") && (role !== lit "deposit") && (role !== lit "balance"))
     || negb (nonBlank refundId)
     || negb (nonBlank failureEventId)
     || negb (nonBlank successEventId)
     || (failureEventId === successEventId)
     || negb (nonBlank provider)
     || negb (nonBlank providerTransactionId)
     || negb (is_bigint amountMinor)
     || js_le amountMinor (BigIntV 0)
     || negb (nonBlank currency)
     || negb (nonBlank attemptKey)
     || negb (is_bigint capturedAmountMinor)
     || js_le capturedAmountMinor (BigIntV 0)
     || negb exactRefundSetTransition
     || negb exactRetryTransition
     || negb exactRetrySuccessEventSet
     || negb retryReconciliationKindValid
     || negb (Bool.eqb retryReconciliationRequested (phase === lit "reconcile_pending_retry"))
     || (if retryReconciliationRequested
         then (refundSetBefore === Undefined)
              || (refundSetAfter === Undefined)
              || (if supersedeUndispatchedRetry
                  then js_lt (refundSetBefore ?. "pendingCount") (Integral 1)
                       || (refundSetAfter ?. "pendingCount"
                             !== js_sub (refundSetBefore ?. "pendingCount") (Integral 1))
                  else if suspendClaimedRetry
                       then js_lt (refundSetBefore ?. "pendingCount") (Integral 1)
                            || (refundSetAfter ?. "pendingCount"
                                  !== refundSetBefore ?. "pendingCount")
                       else if suspendSucceededRetry
                            then refundSetAfter ?. "pendingCount"
                                   !== js_add (refundSetBefore ?. "pendingCount") (Integral 1)
                            else true)
         else (refundSetBefore ?. "pendingCount" !== Integral 0)
              || (refundSetAfter ?. "pendingCount" !== Integral 0))
     || (derivedSucceededBefore === Undefined)
     || js_lt derivedSucceededBefore (BigIntV 0)
     || (derivedSucceededAfter === Undefined)
     || (derivedSucceededAfter
           !== js_add derivedSucceededBefore
                 (if projectsSourceSuccess
                  then amountMinor
                  else if suspendSucceededRetry
                       then js_sub (BigIntV 0) amountMinor
                       else BigIntV 0))
     || js_lt capturedAmountMinor derivedSucceededAfter
     || (refundSetBefore === Undefined)
     || js_lt capturedAmountMinor
          (js_add (refundSetBefore ?. "succeededAmountMinor")
             (refundSetBefore ?. "pendingAmountMinor"))
     || (refundSetAfter === Undefined)
     || js_lt capturedAmountMinor
          (js_add (refundSetAfter ?. "succeededAmountMinor")
             (refundSetAfter ?. "pendingAmountMinor"))
     || negb (is_bigint succeededBefore)
     || (succeededBefore !== derivedSucceededBefore)
     || negb (is_bigint succeededAfter)
     || (succeededAfter !== derivedSucceededAfter)
     || negb exactProviderEventSet
     || negb (nonBlank refundSetBeforeId)
     || negb (nonBlank refundSetBeforeResultId)
     || negb (nonBlank refundSetAfterId)
     || negb (nonBlank refundSetAfterResultId)
     || (refundSetBeforeId === refundSetAfterId)
     || (refundSetBeforeResultId === refundSetAfterResultId)
     || negb (nonBlank sourceResultId)
     || negb (nonBlank sourceStateKey)
     || ((phase !== lit "reconcile_pending_retry")
         && (negb (nonBlank interimResultId) || negb (nonBlank interimStateKey)))
     || negb (nonBlank finalResultId)
     || (optional (aggregateId command) !== paymentId)
     || ((phase === lit "start")
         && ((Str (current command) !== expectedSource)
             || negb (targetIs command "refund_pending")
             || (optional (currentStateResultId command) !== sourceResultId)
             || (optional (currentStateCommandKey command) !== sourceStateKey)))
     || ((phase === lit "complete")
         && (negb (currentIs command "refund_pending")
             || (Str (target command) !== expectedTarget)
             || (optional (currentStateResultId command) !== interimResultId)
             || (optional (currentStateCommandKey command) !== interimStateKey)))
     || ((phase === lit "reconcile_pending_retry")
         && ((Str (current command) !== expectedSource)
             || (Str (target command) !== expectedTarget)
             || (optional (currentStateResultId command) !== sourceResultId)
             || (optional (currentStateCommandKey command) !== sourceStateKey)))
     || (sourcePayment ?. "id" !== paymentId)
     || (sourcePayment ?. "orderId" !== orderId)
     || (sourcePayment ?. "phaseId" !== phaseId)
     || (sourcePayment ?. "role" !== role)
     || (sourcePayment ?. "status" !== expectedSource)
     || (sourcePayment ?. "capturedAmountMinor" !== capturedAmountMinor)
     || (sourcePayment ?. "succeededRefundAmountMinor" !== succeededBefore)
     || (sourcePayment ?. "failedRefundTransactionId" !== refundId)
     || (if supersedeUndispatchedRetry || suspendClaimedRetry
         then sourcePayment ?. "activeRefundTransactionId" !== reconciledRetryId
         else if suspendSucceededRetry
              then sourcePayment ?. "succeededRefundTransactionId" !== reconciledRetryId
              else false)
     || (sourcePayment ?. "authoritativeRefundSetId" !== refundSetBeforeId)
     || (sourcePayment ?. "authoritativeRefundSetResultId" !== refundSetBeforeResultId)
     || (sourcePayment ?. "resultId" !== sourceResultId)
     || (sourcePayment ?. "currentStateCommandKey" !== sourceStateKey)
     || (sourcePayment ?. "immutable" !== Bool true)
     || ((phase !== lit "reconcile_pending_retry")
         && ((interimPayment ?. "id" !== paymentId)
             || (interimPayment ?. "orderId" !== orderId)
             || (interimPayment ?. "phaseId" !== phaseId)
             || (interimPayment ?. "role" !== role)
             || (interimPayment ?. "status" !== lit "refund_pending")
             || (interimPayment ?. "activeRefundTransactionId" !== refundId)
             || (interimPayment ?. "capturedAmountMinor" !== capturedAmountMinor)
             || (interimPayment ?. "succeededRefundAmountMinor" !== succeededAfter)
             || (interimPayment ?. "authoritativeRefundSetId" !== refundSetAfterId)
             || (interimPayment ?. "authoritativeRefundSetResultId" !== refundSetAfterResultId)
             || (interimPayment ?. "resultId" !== interimResultId)
             || (interimPayment ?. "currentStateCommandKey" !== interimStateKey)
             || (interimPayment ?. "immutable" !== Bool true)))
     || negb sourceRefundProjectionValid
     || negb reconciledRetryProjectionValid
     || (failureEvent ?. "id" !== failureEventId)
     || (failureEvent ?. "paymentId" !== paymentId)
     || (failureEvent ?. "refundTransactionId" !== refundId)
     || (failureEvent ?. "provider" !== provider)
     || (failureEvent ?. "providerTransactionId" !== providerTransactionId)
     || (failureEvent ?. "kind" !== lit "refund_failed")
     || (failureEvent ?. "amountMinor" !== amountMinor)
     || (failureEvent ?. "currency" !== currency)
     || (failureEvent ?. "authenticated" !== Bool true)
     || (failureEvent ?. "verified" !== Bool true)
     || negb (is_instant failureOccurredAt)
     || negb (is_instant failureVerifiedAt)
     || (failureEvent ?. "immutable" !== Bool true)
     || (successEvent ?. "id" !== successEventId)
     || (successEvent ?. "paymentId" !== paymentId)
     || (successEvent ?. "refundTransactionId" !== refundId)
     || (successEvent ?. "provider" !== provider)
     || (successEvent ?. "providerTransactionId" !== providerTransactionId)
     || (successEvent ?. "kind" !== lit "refund_succeeded")
     || (successEvent ?. "amountMinor" !== amountMinor)
     || (successEvent ?. "currency" !== currency)
     || (successEvent ?. "status" !== lit "succeeded")
     || (successEvent ?. "projectedTarget" !== expectedTarget)
     || (successEvent ?. "authenticated" !== Bool true)
     || (successEvent ?. "verified" !== Bool true)
     || negb (is_instant successOccurredAt)
     || negb (is_instant successVerifiedAt)
     || (successEvent ?. "resultId" !== finalResultId)
     || (successEvent ?. "immutable" !== Bool true)
     || (0 <=? compareV failureOccurredAt successOccurredAt)
     || (projectsSourceSuccess
         && (negb (is_instant refundCompletedAt)
             || negb (sameInstant refundCompletedAt successVerifiedAt)))
     || (reconciledPayment ?. "id" !== paymentId)
     || (reconciledPayment ?. "orderId" !== orderId)
     || (reconciledPayment ?. "phaseId" !== phaseId)
     || (reconciledPayment ?. "role" !== role)
     || (reconciledPayment ?. "previousStatus" !== expectedSource)
     || (reconciledPayment ?. "intermediateStatus" !== lit "refund_pending")
     || (reconciledPayment ?. "targetStatus" !== expectedTarget)
     || (reconciledPayment ?. "capturedAmountMinor" !== capturedAmountMinor)
     || (reconciledPayment ?. "succeededRefundAmountMinor" !== succeededAfter)
     || (reconciledPayment ?. "refundTransactionId"
           !== if suspendRetry then reconciledRetryId else refundId)
     || (suspendRetry && (reconciledPayment ?. "sourceRefundTransactionId" !== refundId))
     || (suspendRetry
         && (reconciledPayment ?. "suspendedRefundTransactionId" !== reconciledRetryId))
     || (reconciledPayment ?. "authoritativeRefundSetId" !== refundSetAfterId)
     || (reconciledPayment ?. "authoritativeRefundSetResultId" !== refundSetAfterResultId)
     || (reconciledPayment ?. "resultId" !== finalResultId)
     || (reconciledPayment ?. "immutable" !== Bool true)
     || (context_ ?. "lateRefundSuccessPaymentResultId" !== finalResultId)
     || (if suspendRetry
         then (context_ ?. "lateRefundSuccessReconciledRetryResultId" !== finalResultId)
              || (context_ ?. "lateRefundSuccessSuspended" !== Bool true)
         else context_ ?. "lateRefundSuccessRefundTransactionResultId" !== finalResultId)
     || (context_ ?. "lateRefundSuccessProviderEventResultId" !== finalResultId)
     || (context_ ?. "lateRefundSuccessCompleted" !== Bool true)
     || (context_ ?. "lateRefundSuccessAtomic" !== Bool true)).

Definition parseCompletionRefundSet (paymentId : value) (value_ : value) (expectedId : value)
    (expectedResultId : value) : value :=
  let snapshot := record value_ in
  let refundIds := snapshot ?. "refundIds" in
  let refunds := snapshot ?. "refundSnapshots" in
  if negb (nonBlank expectedId)
     || negb (nonBlank expectedResultId)
     || (snapshot ?. "id" !== expectedId)
     || (snapshot ?. "paymentId" !== paymentId)
     || (snapshot ?. "resultId" !== expectedResultId)
     || (snapshot ?. "immutable" !== Bool true)
     || negb (is_array refundIds)
     || negb (is_array refunds)
     || negb (js_len refundIds =? js_len refunds)
     || existsb (λ id, negb (nonBlank id)) (elements refundIds)
     || negb (zlength (set_of (elements refundIds)) =? js_len refundIds) then
    Undefined
  else
  let rows : list (value * value) := [] in
  let succeededAmountMinor := BigIntV 0 in
  let pendingCount := 0 in
  for_return (λ '(rows, succeededAmountMinor, pendingCount) value_,
    let row := record value_ in
    let id := row ?. "id" in
    let status := row ?. "status" in
    let amountMinor := row ?. "amountMinor" in
    if (row === Undefined)
       || negb (nonBlank id)
       || negb (includes (elements refundIds) id)
       || map_has rows id
       || (row ?. "paymentId" !== paymentId)
       || ((status !== lit "pending")
           && (status !== lit "succeeded")
           && (status !== lit "failed"))
       || negb (is_bigint amountMinor)
       || js_le amountMinor (BigIntV 0)
       || negb (nonBlank (row ?. "resultId"))
       || (row ?. "immutable" !== Bool true) then
      Return Undefined
    else
    let rows := map_set rows id row in
    let succeededAmountMinor := if status === lit "succeeded" then
      js_add succeededAmountMinor amountMinor
    else
      succeededAmountMinor in
    let pendingCount := if status === lit "pending" then
      pendingCount + 1
    else
      pendingCount in
    Next (rows, succeededAmountMinor, pendingCount)) (rows, succeededAmountMinor, pendingCount)
      (elements refunds) (λ '(rows, succeededAmountMinor, pendingCount),
    if existsb (λ id, negb (map_has rows id)) (elements refundIds) then
      Undefined
    else
    RecordV 0
      [(js "pendingCount", Integral pendingCount); (js "rows", MapV 0 rows);
       (js "succeededAmountMinor", succeededAmountMinor)]).

Definition requireExactPaymentRefundCompletion (command : TransitionCommand) : result () :=
  let context_ := context command in
  let paymentId := context_ ?. "paymentId" in
  let orderId := context_ ?. "orderId" in
  let phaseId := context_ ?. "phaseId" in
  let role := context_ ?. "paymentRole" in
  let refundTransactionId := context_ ?. "refundTransactionId" in
  let providerEventId := context_ ?. "refundCompletionProviderEventId" in
  let previousResultId := context_ ?. "refundCompletionPreviousPaymentResultId" in
  let resultId := context_ ?. "refundCompletionResultId" in
  let stateKey := context_ ?. "refundCompletionCurrentStateCommandKey" in
  let refundSetBeforeId := context_ ?. "refundCompletionRefundSetBeforeId" in
  let refundSetBeforeResultId := context_ ?. "refundCompletionRefundSetBeforeResultId" in
  let refundSetAfterId := context_ ?. "refundCompletionRefundSetAfterId" in
  let refundSetAfterResultId := context_ ?. "refundCompletionRefundSetAfterResultId" in
  let expected := record (context_ ?. "refundCompletionExpectedPayment") in
  let reconciled := record (context_ ?. "refundCompletionReconciledPayment") in
  let refund := record (context_ ?. "refundCompletionRefundTransaction") in
  let event := record (context_ ?. "refundCompletionProviderEvent") in
  let lateSuccess := context_ ?. "paymentCaptureKind" === lit "late_refund_success" in
  if lateSuccess then
    requireExactLateRefundSuccessReconciliation command (lit "complete")
  else
  let refundSetBefore :=
    parseCompletionRefundSet paymentId (context_ ?. "refundCompletionRefundSetBefore")
      refundSetBeforeId refundSetBeforeResultId in
  let refundSetAfter :=
    parseCompletionRefundSet paymentId (context_ ?. "refundCompletionRefundSetAfter")
      refundSetAfterId refundSetAfterResultId in
  let refundAmountMinor := refund ?. "amountMinor" in
  let refundPreviousResultId := refund ?. "previousResultId" in
  let exactRefundSetTransition := false in
  let exactRefundSetTransition :=
    if (refundSetBefore !== Undefined)
    && (refundSetAfter !== Undefined)
    && (zlength (entries (refundSetBefore ?. "rows"))
          =? zlength (entries (refundSetAfter ?. "rows")))
    && nonBlank refundTransactionId
    && map_has (entries (refundSetBefore ?. "rows")) refundTransactionId
    && map_has (entries (refundSetAfter ?. "rows")) refundTransactionId then
    let exactRefundSetTransition := true in
    let exactRefundSetTransition := for_break (λ exactRefundSetTransition '(id, before),
      let after := map_get (entries (refundSetAfter ?. "rows")) id in
      if (after === Undefined)
         || (after ?. "paymentId" !== before ?. "paymentId")
         || (after ?. "amountMinor" !== before ?. "amountMinor")
         || (after ?. "immutable" !== Bool true)
         || (if id === refundTransactionId
             then (before ?. "status" !== lit "pending")
                  || (before ?. "amountMinor" !== refundAmountMinor)
                  || (before ?. "resultId" !== refundPreviousResultId)
                  || (after ?. "status" !== lit "succeeded")
                  || (after ?. "resultId" !== resultId)
             else (after ?. "status" !== before ?. "status")
                  || (after ?. "resultId" !== before ?. "resultId")) then
        let exactRefundSetTransition := false in
        Break exactRefundSetTransition
      else
      Next exactRefundSetTransition) exactRefundSetTransition
        (entries (refundSetBefore ?. "rows")) in
    exactRefundSetTransition
  else
    exactRefundSetTransition in
  let capturedAmountMinor := expected ?. "capturedAmountMinor" in
  let succeededBefore := refundSetBefore ?. "succeededAmountMinor" in
  let succeededAfter := refundSetAfter ?. "succeededAmountMinor" in
  let expectedTarget :=
    if is_bigint capturedAmountMinor && (succeededAfter === capturedAmountMinor)
    then lit "refunded"
    else if is_bigint capturedAmountMinor
            && (succeededAfter !== Undefined)
            && js_lt (BigIntV 0) succeededAfter
            && js_lt succeededAfter capturedAmountMinor
         then lit "partially_refunded"
         else Undefined in
  let provider := expected ?. "provider" in
  let currency := expected ?. "currency" in
  let providerTransactionId := refund ?. "providerTransactionId" in
  let requestedAt := refund ?. "requestedAt" in
  let completedAt := refund ?. "completedAt" in
  let occurredAt := event ?. "occurredAt" in
  let authenticatedAt := event ?. "authenticatedAt" in
  let verifiedAt := event ?. "verifiedAt" in
  guard_when
    (negb (nonBlank paymentId)
     || negb (nonBlank orderId)
     || negb (nonBlank phaseId)
     || ((role !== lit "full") && (role !== lit "deposit") && (role !== lit "balance"))
     || negb (nonBlank refundTransactionId)
     || negb (nonBlank providerEventId)
     || negb (nonBlank previousResultId)
     || negb (nonBlank resultId)
     || negb (nonBlank stateKey)
     || negb (nonBlank provider)
     || negb (nonBlank providerTransactionId)
     || negb (is_string currency)
     || negb (isCurrencyCode currency)
     || negb (is_bigint refundAmountMinor)
     || js_le refundAmountMinor (BigIntV 0)
     || negb (nonBlank refundPreviousResultId)
     || negb (is_bigint capturedAmountMinor)
     || js_le capturedAmountMinor (BigIntV 0)
     || negb exactRefundSetTransition
     || (refundSetBefore ?. "pendingCount" !== Integral 1)
     || (refundSetAfter ?. "pendingCount" !== Integral 0)
     || (succeededBefore === Undefined)
     || js_lt succeededBefore (BigIntV 0)
     || (succeededAfter === Undefined)
     || (succeededAfter !== js_add succeededBefore refundAmountMinor)
     || js_lt capturedAmountMinor succeededAfter
     || (expectedTarget === Undefined)
     || negb (nonBlank refundSetBeforeId)
     || negb (nonBlank refundSetBeforeResultId)
     || negb (nonBlank refundSetAfterId)
     || negb (nonBlank refundSetAfterResultId)
     || (refundSetBeforeId === refundSetAfterId)
     || (refundSetBeforeResultId === refundSetAfterResultId)
     || (optional (aggregateId command) !== paymentId)
     || negb (nonBlank (optional (currentStateResultId command)))
     || (optional (currentStateResultId command) !== previousResultId)
     || (optional (currentStateCommandKey command) !== stateKey)
     || (context_ ?. "refundWebhookPaymentId" !== paymentId)
     || (context_ ?. "refundWebhookRefundTransactionId" !== refundTransactionId)
     || (context_ ?. "refundWebhookStatus" !== lit "succeeded")
     || (context_ ?. "refundWebhookProjectedTarget" !== expectedTarget)
     || (context_ ?. "refundWebhookAuthenticated" !== Bool true)
     || (context_ ?. "refundWebhookVerified" !== Bool true)
     || (expected ?. "id" !== paymentId)
     || (expected ?. "orderId" !== orderId)
     || (expected ?. "phaseId" !== phaseId)
     || (expected ?. "role" !== role)
     || (expected ?. "provider" !== provider)
     || (expected ?. "currency" !== currency)
     || (expected ?. "status" !== lit "refund_pending")
     || (expected ?. "activeRefundTransactionId" !== refundTransactionId)
     || (expected ?. "succeededRefundAmountMinor" !== succeededBefore)
     || (expected ?. "authoritativeRefundSetId" !== refundSetBeforeId)
     || (expected ?. "authoritativeRefundSetResultId" !== refundSetBeforeResultId)
     || (expected ?. "resultId" !== previousResultId)
     || (expected ?. "currentStateCommandKey" !== stateKey)
     || (expected ?. "immutable" !== Bool true)
     || (reconciled ?. "id" !== paymentId)
     || (reconciled ?. "orderId" !== orderId)
     || (reconciled ?. "phaseId" !== phaseId)
     || (reconciled ?. "role" !== role)
     || (reconciled ?. "provider" !== provider)
     || (reconciled ?. "currency" !== currency)
     || (reconciled ?. "previousStatus" !== lit "refund_pending")
     || (reconciled ?. "targetStatus" !== expectedTarget)
     || (reconciled ?. "activeRefundTransactionId" !== Null)
     || (reconciled ?. "capturedAmountMinor" !== capturedAmountMinor)
     || (reconciled ?. "succeededRefundAmountMinor" !== succeededAfter)
     || (reconciled ?. "refundTransactionId" !== refundTransactionId)
     || (reconciled ?. "authoritativeRefundSetId" !== refundSetAfterId)
     || (reconciled ?. "authoritativeRefundSetResultId" !== refundSetAfterResultId)
     || (reconciled ?. "resultId" !== resultId)
     || (reconciled ?. "immutable" !== Bool true)
     || (refund ?. "id" !== refundTransactionId)
     || (refund ?. "paymentId" !== paymentId)
     || (refund ?. "orderId" !== orderId)
     || (refund ?. "phaseId" !== phaseId)
     || (refund ?. "previousStatus" !== lit "pending")
     || (refund ?. "targetStatus" !== lit "succeeded")
     || (refund ?. "status" !== lit "succeeded")
     || (refund ?. "provider" !== provider)
     || (refund ?. "currency" !== currency)
     || (refund ?. "providerEventId" !== providerEventId)
     || negb (is_instant requestedAt)
     || negb (is_instant completedAt)
     || js_lt (completedAt ?. "epochMilliseconds")
          (js_sub (requestedAt ?. "epochMilliseconds") (Integral 5000))
     || (refund ?. "resultId" !== resultId)
     || (refund ?. "immutable" !== Bool true)
     || (event ?. "id" !== providerEventId)
     || (event ?. "paymentId" !== paymentId)
     || (event ?. "refundTransactionId" !== refundTransactionId)
     || (event ?. "provider" !== provider)
     || (event ?. "providerTransactionId" !== providerTransactionId)
     || (event ?. "kind" !== lit "refund_succeeded")
     || (event ?. "amountMinor" !== refundAmountMinor)
     || (event ?. "currency" !== currency)
     || (event ?. "status" !== lit "succeeded")
     || (event ?. "projectedTarget" !== expectedTarget)
     || (event ?. "authenticated" !== Bool true)
     || (event ?. "verified" !== Bool true)
     || negb (is_instant occurredAt)
     || negb (is_instant authenticatedAt)
     || negb (is_instant verifiedAt)
     || js_lt (occurredAt ?. "epochMilliseconds")
          (js_sub (requestedAt ?. "epochMilliseconds") (Integral 5000))
     || js_lt (authenticatedAt ?. "epochMilliseconds")
          (js_sub (occurredAt ?. "epochMilliseconds") (Integral 5000))
     || (compareV verifiedAt authenticatedAt <? 0)
     || negb (sameInstant completedAt verifiedAt)
     || (event ?. "resultId" !== resultId)
     || (event ?. "immutable" !== Bool true)
     || (Str (target command) !== expectedTarget)
     || (context_ ?. "refundCompletionPaymentResultId" !== resultId)
     || (context_ ?. "refundCompletionRefundTransactionResultId" !== resultId)
     || (context_ ?. "refundCompletionProviderEventResultId" !== resultId)
     || (context_ ?. "refundCompletionCompleted" !== Bool true)
     || (context_ ?. "refundCompletionAtomic" !== Bool true)).

Definition requireExactRefundFailureRollback (command : TransitionCommand) : result () :=
  let context_ := context command in
  let paymentId := context_ ?. "paymentId" in
  let orderId := context_ ?. "orderId" in
  let phaseId := context_ ?. "phaseId" in
  let role := context_ ?. "paymentRole" in
  let refundTransactionId := context_ ?. "refundFailureTransactionId" in
  let providerEventId := context_ ?. "refundFailureProviderEventId" in
  let provider := context_ ?. "refundFailureProvider" in
  let providerTransactionId := context_ ?. "refundFailureProviderTransactionId" in
  let amountMinor := context_ ?. "refundFailureAmountMinor" in
  let currency := context_ ?. "refundFailureCurrency" in
  let previousResultId := context_ ?. "refundFailureRollbackPreviousPaymentResultId" in
  let stateKey := context_ ?. "refundFailureRollbackCurrentStateCommandKey" in
  let resultId := context_ ?. "refundFailureRollbackResultId" in
  let attemptKey := context_ ?. "refundFailureAttemptKey" in
  let capturedAmountMinor := context_ ?. "refundFailureCapturedAmountMinor" in
  let succeededAmountMinor := context_ ?. "refundFailureSucceededAmountMinor" in
  let expectedTarget :=
    if is_bigint succeededAmountMinor && (succeededAmountMinor === BigIntV 0)
    then lit "captured"
    else lit "partially_refunded" in
  let expectedPayment := record (context_ ?. "refundFailureRollbackExpectedPayment") in
  let restoredPayment := record (context_ ?. "refundFailureRollbackRestoredPayment") in
  let refundTransaction := record (context_ ?. "refundFailureRollbackRefundTransaction") in
  let failure := record (context_ ?. "refundFailureProviderEvidence") in
  let compensationOrigin := record (context_ ?. "refundFailureCompensationOrigin") in
  let captureEvent := record (compensationOrigin ?. "captureEvent") in
  let priorFailure := record (compensationOrigin ?. "priorFailureEvent") in
  when (targetIs command "captured" && nonBlank (expectedPayment ?. "providerFailureEventId")) (
    let cutoff := compensationOrigin ?. "captureCutoffAt" in
    let capturedAt := compensationOrigin ?. "capturedAt" in
    guard_when
      (negb (truthy compensationOrigin)
       || negb (truthy captureEvent)
       || negb (truthy priorFailure)
       || (compensationOrigin ?. "paymentId" !== paymentId)
       || (compensationOrigin ?. "provider" !== provider)
       || (compensationOrigin ?. "providerIntentId" !== expectedPayment ?. "providerIntentId")
       || negb (nonBlank (compensationOrigin ?. "providerIntentId"))
       || (compensationOrigin ?. "providerCaptureId" !== compensationOrigin ?. "providerIntentId")
       || (compensationOrigin ?. "currency" !== currency)
       || (compensationOrigin ?. "capturedAmountMinor" !== capturedAmountMinor)
       || (compensationOrigin ?. "captureAuthorized" !== Bool false)
       || negb (is_instant cutoff)
       || negb (is_instant capturedAt)
       || (compareV capturedAt cutoff <? 0)
       || (compensationOrigin ?. "fullCompensationRootId" === Undefined)
       || negb (nonBlank (compensationOrigin ?. "fullCompensationRootId"))
       || (compensationOrigin ?. "fullCompensationAmountMinor" !== capturedAmountMinor)
       || (compensationOrigin ?. "failedAttemptId" !== refundTransactionId)
       || (refundTransaction ?. "reason" !== lit "LATE_CAPTURE_COMPENSATION")
       || ((refundTransaction ?. "replacesRefundTransactionId" !== Null)
           && (refundTransaction ?. "replacesRefundTransactionId"
                 !== compensationOrigin ?. "fullCompensationRootId"))
       || ((refundTransaction ?. "replacesRefundTransactionId" === Null)
           && (refundTransactionId !== compensationOrigin ?. "fullCompensationRootId"))
       || (compensationOrigin ?. "noActiveOrSuccessfulRefunds" !== Bool true)
       || (captureEvent ?. "paymentId" !== paymentId)
       || (captureEvent ?. "provider" !== provider)
       || (captureEvent ?. "providerTransactionId" !== compensationOrigin ?. "providerCaptureId")
       || (captureEvent ?. "kind" !== lit "PAYMENT_CAPTURED")
       || (captureEvent ?. "refundTransactionId" !== Null)
       || (captureEvent ?. "amountMinor" !== capturedAmountMinor)
       || (captureEvent ?. "currency" !== currency)
       || negb (is_instant (captureEvent ?. "verifiedAt"))
       || negb (sameInstant (captureEvent ?. "verifiedAt") capturedAt)
       || (captureEvent ?. "authenticated" !== Bool true)
       || (captureEvent ?. "verified" !== Bool true)
       || (captureEvent ?. "immutable" !== Bool true)
       || (priorFailure ?. "id" !== expectedPayment ?. "providerFailureEventId")
       || (priorFailure ?. "paymentId" !== paymentId)
       || (priorFailure ?. "provider" !== provider)
       || (priorFailure ?. "providerTransactionId" !== compensationOrigin ?. "providerIntentId")
       || (priorFailure ?. "kind" !== lit "PAYMENT_FAILED")
       || (priorFailure ?. "refundTransactionId" !== Null)
       || (priorFailure ?. "amountMinor" !== capturedAmountMinor)
       || (priorFailure ?. "currency" !== currency)
       || negb (is_instant (priorFailure ?. "verifiedAt"))
       || negb (sameInstant (priorFailure ?. "verifiedAt") cutoff)
       || (priorFailure ?. "authenticated" !== Bool true)
       || (priorFailure ?. "verified" !== Bool true)
       || (priorFailure ?. "immutable" !== Bool true))) ;;
  guard_when
    ((context_ ?. "paymentCaptureKind" !== lit "refund_failure_rollback")
     || negb (nonBlank paymentId)
     || negb (nonBlank orderId)
     || negb (nonBlank phaseId)
     || ((role !== lit "full") && (role !== lit "deposit") && (role !== lit "balance"))
     || negb (nonBlank refundTransactionId)
     || negb (nonBlank providerEventId)
     || negb (nonBlank provider)
     || negb (nonBlank providerTransactionId)
     || negb (is_bigint amountMinor)
     || js_le amountMinor (BigIntV 0)
     || negb (nonBlank currency)
     || negb (nonBlank previousResultId)
     || negb (nonBlank stateKey)
     || negb (nonBlank resultId)
     || negb (nonBlank attemptKey)
     || negb (is_bigint capturedAmountMinor)
     || js_le capturedAmountMinor (BigIntV 0)
     || negb (is_bigint succeededAmountMinor)
     || js_lt succeededAmountMinor (BigIntV 0)
     || js_le capturedAmountMinor succeededAmountMinor
     || (negb (targetIs command "captured") && negb (targetIs command "partially_refunded"))
     || (Str (target command) !== expectedTarget)
     || (context_ ?. "refundFailureRollbackTargetStatus" !== expectedTarget)
     || (optional (aggregateId command) !== paymentId)
     || (optional (currentStateResultId command) !== previousResultId)
     || (optional (currentStateCommandKey command) !== stateKey)
     || (expectedPayment ?. "id" !== paymentId)
     || negb (has_property expectedPayment "providerFailureEventId")
     || ((expectedPayment ?. "providerFailureEventId" !== Null)
         && negb (nonBlank (expectedPayment ?. "providerFailureEventId")))
     || (expectedPayment ?. "orderId" !== orderId)
     || (expectedPayment ?. "phaseId" !== phaseId)
     || (expectedPayment ?. "role" !== role)
     || (expectedPayment ?. "provider" !== provider)
     || (expectedPayment ?. "currency" !== currency)
     || (expectedPayment ?. "status" !== lit "refund_pending")
     || (expectedPayment ?. "activeRefundTransactionId" !== refundTransactionId)
     || (expectedPayment ?. "capturedAmountMinor" !== capturedAmountMinor)
     || (expectedPayment ?. "succeededRefundAmountMinor" !== succeededAmountMinor)
     || (expectedPayment ?. "resultId" !== previousResultId)
     || (expectedPayment ?. "currentStateCommandKey" !== stateKey)
     || (expectedPayment ?. "immutable" !== Bool true)
     || (restoredPayment ?. "id" !== paymentId)
     || negb (has_property restoredPayment "providerFailureEventId")
     || (restoredPayment ?. "providerFailureEventId"
           !== expectedPayment ?. "providerFailureEventId")
     || (restoredPayment ?. "orderId" !== orderId)
     || (restoredPayment ?. "phaseId" !== phaseId)
     || (restoredPayment ?. "role" !== role)
     || (restoredPayment ?. "provider" !== provider)
     || (restoredPayment ?. "currency" !== currency)
     || (restoredPayment ?. "previousStatus" !== lit "refund_pending")
     || (restoredPayment ?. "targetStatus" !== expectedTarget)
     || (restoredPayment ?. "capturedAmountMinor" !== capturedAmountMinor)
     || (restoredPayment ?. "succeededRefundAmountMinor" !== succeededAmountMinor)
     || (restoredPayment ?. "resultId" !== resultId)
     || (restoredPayment ?. "immutable" !== Bool true)
     || (refundTransaction ?. "id" !== refundTransactionId)
     || (refundTransaction ?. "paymentId" !== paymentId)
     || (refundTransaction ?. "provider" !== provider)
     || (refundTransaction ?. "providerRefundId" !== providerTransactionId)
     || (refundTransaction ?. "amountMinor" !== amountMinor)
     || (refundTransaction ?. "status" !== lit "failed")
     || (refundTransaction ?. "idempotencyKey" !== attemptKey)
     || (refundTransaction ?. "resultId" !== resultId)
     || (refundTransaction ?. "immutable" !== Bool true)
     || (failure ?. "id" !== providerEventId)
     || (failure ?. "paymentId" !== paymentId)
     || (failure ?. "refundTransactionId" !== refundTransactionId)
     || (failure ?. "provider" !== provider)
     || (failure ?. "providerTransactionId" !== providerTransactionId)
     || (failure ?. "kind" !== lit "REFUND_FAILED")
     || (failure ?. "amountMinor" !== amountMinor)
     || (failure ?. "currency" !== currency)
     || (failure ?. "attemptKey" !== attemptKey)
     || (failure ?. "outcome" !== lit "failed")
     || (failure ?. "authenticated" !== Bool true)
     || (failure ?. "verified" !== Bool true)
     || (failure ?. "resultId" !== resultId)
     || (failure ?. "immutable" !== Bool true)
     || (context_ ?. "refundFailureRollbackPaymentResultId" !== resultId)
     || (context_ ?. "refundFailureRollbackTransactionResultId" !== resultId)
     || (context_ ?. "refundFailureRollbackEvidenceResultId" !== resultId)
     || (context_ ?. "refundFailureLatestTransactionId" !== refundTransactionId)
     || (context_ ?. "refundFailureSucceededRefundSetComplete" !== Bool true)
     || (context_ ?. "refundFailureNoPendingRefunds" !== Bool true)
     || (context_ ?. "refundFailureNoSuccessfulRefunds"
           !== Bool (succeededAmountMinor === BigIntV 0))
     || (context_ ?. "refundFailureRollbackCompleted" !== Bool true)
     || (context_ ?. "refundFailureRollbackAtomic" !== Bool true)).

(** The command under which the marker tries the reconciliation; its three
    strings have been tested. *)
Definition suspension_command (context_ : value) : TransitionCommand :=
  let text v := match v with Str s => s | _ => [] end in
  let paymentId := context_ ?. "paymentId" in
  let sourceResultId := context_ ?. "lateRefundSuccessSourcePaymentResultId" in
  let sourceStateKey := context_ ?. "lateRefundSuccessSourceCurrentStateCommandKey" in
  mkCommand (Some (text paymentId)) (js "refunded") (js "refund_pending") (text sourceStateKey)
    (Some (text sourceStateKey)) (Some (text sourceResultId)) None None None None None context_.

(** The only error of the reconciliation is the one that is caught, as
    [GuardOnly] shows. *)
Definition hasExactLateRefundSuccessSuspensionMarker (context_ : value) : bool :=
  let paymentId := context_ ?. "paymentId" in
  let sourceResultId := context_ ?. "lateRefundSuccessSourcePaymentResultId" in
  let sourceStateKey := context_ ?. "lateRefundSuccessSourceCurrentStateCommandKey" in
  if (context_ ?. "lateRefundSuccessRetryReconciliationKind" !== lit "suspend_succeeded")
     || negb (nonBlank paymentId)
     || negb (nonBlank sourceResultId)
     || negb (nonBlank sourceStateKey) then
    false
  else
    match
      requireExactLateRefundSuccessReconciliation (suspension_command context_)
        (lit "reconcile_pending_retry")
    with
    | Ok _ => true
    | Throw _ => false
    end.

(** ** They fail only as guards *)

#[global] Typeclasses Opaque
  requireExactLateRefundFailureReconciliation
  requireExactLateRefundSuccessReconciliation
  requireExactPaymentRefundCompletion
  requireExactRefundFailureRollback.

#[export] Instance guard_only_requireExactLateRefundFailureReconciliation command scope :
  GuardOnly (requireExactLateRefundFailureReconciliation command scope).
Proof. cbv beta delta [requireExactLateRefundFailureReconciliation]. guard_only. Qed.

#[export] Instance guard_only_requireExactLateRefundSuccessReconciliation command phase :
  GuardOnly (requireExactLateRefundSuccessReconciliation command phase).
Proof. cbv beta delta [requireExactLateRefundSuccessReconciliation]. guard_only. Qed.

#[export] Instance guard_only_requireExactPaymentRefundCompletion command :
  GuardOnly (requireExactPaymentRefundCompletion command).
Proof. cbv beta delta [requireExactPaymentRefundCompletion]. guard_only. Qed.

#[export] Instance guard_only_requireExactRefundFailureRollback command :
  GuardOnly (requireExactRefundFailureRollback command).
Proof. cbv beta delta [requireExactRefundFailureRollback]. guard_only. Qed.

(** ** Specification *)

Definition amount_of (r : value) : Z := default 0 (numeric (r ?. "amountMinor")).
Definition has_status (statuses : list String.string) (r : value) : bool :=
  existsb (λ s, r ?. "status" === lit s) statuses.

(** The refunds of a payment as a complete set lists them: each is [open] or
    [closed], and the amounts of those that succeeded and the number of those
    that are open add up. *)
Record refund_ledger (paymentId : value) (open closed : list String.string) (refunds : list value)
    (succeeded pending : Z) : Prop := {
  rl_ids : ∃ ids, identified refunds ids;
  rl_rows : Forall (λ r, (r ?. "paymentId" === paymentId) = true ∧ 0 < amount_of r
    ∧ has_status (open ++ closed) r = true) refunds;
  rl_succeeded : succeeded = sum_by amount_of (List.filter (has_status ["succeeded"%string]) refunds);
  rl_pending : pending = zlength (List.filter (has_status open) refunds);
}.

(** What a reader of a refund set makes of the value [v]. *)
Record refund_set (paymentId : value) (open closed : list String.string) (v set : value) : Prop := {
  rs_payment : ((record v) ?. "paymentId" === paymentId) = true;
  rs_rows : entries (set ?. "rows") = by_id (elements ((record v) ?. "refundSnapshots"));
  rs_ledger : ∃ succeeded pending,
    refund_ledger paymentId open closed (elements ((record v) ?. "refundSnapshots")) succeeded pending
    ∧ set ?. "succeededAmountMinor" = BigIntV succeeded ∧ set ?. "pendingCount" = Integral pending;
}.

(** The refund set and the payment that the completion of a refund records. *)
Definition refund_set_after (context : value) : value :=
  if context ?. "paymentCaptureKind" === lit "late_refund_success"
  then context ?. "lateRefundSuccessRefundSetAfter"
  else context ?. "refundCompletionRefundSetAfter".
Definition recorded_refunds (context : value) : list value :=
  elements ((record (refund_set_after context)) ?. "refundSnapshots").
Definition recorded_payment (context : value) : value :=
  record
    (if context ?. "paymentCaptureKind" === lit "late_refund_success"
     then context ?. "lateRefundSuccessReconciledPayment"
     else context ?. "refundCompletionReconciledPayment").

(** The payment is refunded in full: the refunds that succeeded make up what
    was captured of it, and the others are closed. *)
Record refunded_in_full (command : TransitionCommand) (id : jstr) : Prop := {
  rf_command : aggregateId command = Some id;
  rf_payment : (recorded_payment (context command)) ?. "id" = Str id
    ∧ (recorded_payment (context command)) ?. "targetStatus" = lit "refunded";
  rf_ids : ∃ ids, identified (recorded_refunds (context command)) ids;
  rf_rows : Forall (λ r, r ?. "paymentId" = Str id ∧ 0 < amount_of r
    ∧ has_status ["succeeded"; "failed"; "superseded"]%string r = true) (recorded_refunds (context command));
  rf_total : (recorded_payment (context command)) ?. "capturedAmountMinor" =
    BigIntV (sum_by amount_of (List.filter (has_status ["succeeded"%string]) (recorded_refunds (context command))));
}.

(** What the reconciliation of a late failure asks of the command, given the
    proof that the context carries: the command is about the aggregate that
    the proof names, of the kind [scope], in the state the proof starts from. *)
Definition late_failure_bound (command : TransitionCommand) (scope proof : value) : bool :=
  let reconciledPayment := record ((context command) ?. "lateRefundFailureReconciledPayment") in
  negb (proof === Undefined)
  && ((scope !== lit "payment")
      || ((optional (aggregateId command) === proof ?. "paymentId")
          && (Str (current command) === proof ?. "expectedSource")
          && (Str (target command) === proof ?. "expectedTarget")
          && (optional (currentStateResultId command) === proof ?. "previousPaymentResultId")
          && (optional (currentStateCommandKey command) === proof ?. "paymentStateKey")
          && ((proof ?. "expectedSource" !== proof ?. "expectedTarget")
              || ((reconciledPayment ?. "previousStateCommandKey" === proof ?. "paymentStateKey")
                  && (reconciledPayment ?. "currentStateCommandKey" === Str (idempotencyKey command))))))
  && ((scope !== lit "order")
      || ((proof ?. "expectedSource" === lit "refunded")
          && (optional (aggregateId command) === proof ?. "orderId")
          && currentIs command "refunded" && targetIs command "cancelled"
          && (optional (currentStateResultId command) === proof ?. "sourceOrderResultId")
          && (optional (currentStateCommandKey command) === proof ?. "sourceOrderStateKey")))
  && ((scope !== lit "phase")
      || ((proof ?. "expectedSource" === lit "refunded")
          && (optional (aggregateId command) === proof ?. "phaseId")
          && currentIs command "cancelled_refunded" && targetIs command "cancelled"
          && (optional (currentStateResultId command) === proof ?. "sourcePhaseResultId")
          && (optional (currentStateCommandKey command) === proof ?. "sourcePhaseStateKey"))).

(** ** The reconciliation of a late failure *)

(** The reconciliation of a late refund failure accepts a command exactly
    when the context carries a complete proof and the proof is bound to the
    command's aggregate; the checks that the function goes on to make without
    a proof decide nothing. *)
Theorem late_failure_exact command scope :
  requireExactLateRefundFailureReconciliation command scope =
  guard_when (negb (late_failure_bound command scope (readExactLateRefundFailureProof (context command)))).
Proof.
  cbv beta delta [requireExactLateRefundFailureReconciliation].
  let_step; let_step. unfold late_failure_bound.
  generalize (readExactLateRefundFailureProof (context command)). intros proof.
  repeat let_pose. destruct (proof === Undefined).
  - lazymatch goal with |- (if _ then _ else ?m) = ?r => change (m = r) end. repeat let_abstract. reflexivity.
  - lazymatch goal with |- (if _ then ?m else _) = ?r => change (m = r) end. repeat let_step.
    match goal with |- (if ?b then _ else _) = _ => change (negb false && _ && _ && _) with b; by destruct b end.
Qed.

(** ** What a recorded refund adds up to *)


Lemma has_status_1 s r : has_status [s] r = (r ?. "status" === lit s).
Proof. apply orb_false_r. Qed.

Lemma has_status_2 s t r : has_status [s; t] r = (r ?. "status" === lit s) || (r ?. "status" === lit t).
Proof. cbn. by rewrite orb_false_r. Qed.

Lemma has_status_app l k r : has_status (l ++ k) r = has_status l r || has_status k r.
Proof. apply existsb_app. Qed.

Lemma refund_ledger_nil paymentId open closed : refund_ledger paymentId open closed [] 0 0.
Proof. split; [exists []; split; [done|constructor]|constructor|done|done]. Qed.

Lemma refund_ledger_snoc paymentId open closed refunds succeeded pending r :
  refund_ledger paymentId open closed refunds succeeded pending →
  nonBlank (r ?. "id") = true → map_has (by_id refunds) (r ?. "id") = false →
  (r ?. "paymentId" === paymentId) = true → is_bigint (r ?. "amountMinor") = true →
  js_le (r ?. "amountMinor") (BigIntV 0) = false → has_status (open ++ closed) r = true →
  map_set (by_id refunds) (r ?. "id") r = by_id (refunds ++ [r])
  ∧ ∃ succeeded',
    (if r ?. "status" === lit "succeeded" then js_add (BigIntV succeeded) (r ?. "amountMinor") else BigIntV succeeded)
    = BigIntV succeeded'
  ∧ refund_ledger paymentId open closed (refunds ++ [r]) succeeded' (if has_status open r then pending + 1 else pending).
Proof.
  intros [[ids Hids] Hrows -> ->] Hs Hn Hp (z & Hz)%is_bigint_BigIntV Hpos Hst.
  assert (amount_of r = z) as Hr by (unfold amount_of; by rewrite Hz).
  assert (0 < amount_of r) by (rewrite Hr, Hz in *; cbn in *; lia).
  destruct (by_id_snoc _ refunds ids r Hids Hrows Hs Hn (conj Hp (conj H Hst))) as (ids' & Hm & Hi & HF).
  split; [done|]. eexists (if r ?. "status" === lit "succeeded" then _ + z else _).
  split; [rewrite Hz; by destruct (r ?. "status" === _)|].
  split; [by exists ids'|done| |]; rewrite List.filter_app; cbn [List.filter].
  - rewrite sum_by_app, has_status_1.
    destruct (r ?. "status" === _); rewrite ?sum_by_cons, ?sum_by_nil; lia.
  - unfold zlength. rewrite length_app. destruct (has_status open r); cbn [length]; lia.
Qed.

Lemma completion_refund_set paymentId v i r s :
  parseCompletionRefundSet paymentId v i r = s → (s === Undefined) = false →
  refund_set paymentId ["pending"%string] ["succeeded"; "failed"]%string v s.
Proof.
  cbv beta delta [parseCompletionRefundSet]. intros H Hs. guard_steps H.
  assert (s ≠ Undefined) as Hu by (by intros ->).
  lazymatch type of H with (if ?b then _ else _) = _ => destruct b eqn:Hb; [by subst|] end. guard_steps H.
  apply (for_return_prefix _ (λ '(rows, z, n) pre, rows = by_id pre
    ∧ ∃ succeeded, z = BigIntV succeeded ∧ refund_ledger paymentId ["pending"%string] ["succeeded"; "failed"]%string pre succeeded n) Undefined)
    in H as (t & Ht & H); [| | |done].
  - destruct t as [[rows' ?] n], Ht as (-> & succeeded & -> & Hl).
    destruct (existsb (λ id, negb (map_has _ id)) _); [by destruct Hu|]. subst s. bool_inv. split; [done..|].
    by do 2 eexists.
  - split; [done|]. exists 0. split; [done|apply refund_ledger_nil].
  - intros [[? ?] n] pre x (-> & succeeded' & -> & Hl). cbv zeta.
    lazymatch goal with |- match (if ?b then _ else _) with _ => _ end => destruct b eqn:Hx; [done|] end.
    bool_inv. rewrite record_defined in * by done.
    destruct (refund_ledger_snoc _ _ _ _ _ _ x Hl) as (Hm & z & Ha & Hl'); [try done..|].
    2: { rewrite has_status_1 in Hl'. rewrite Hm, Ha. split; [done|]. by exists z. }
    cbn. by repeat destruct (_ ?. "status" === _).
Qed.

Lemma success_refund_set paymentId v i r s :
  parseSuccessRefundSet paymentId v i r = s → (s === Undefined) = false →
  refund_set paymentId ["pending"; "suspended"]%string ["succeeded"; "failed"; "superseded"]%string v s.
Proof.
  cbv beta delta [parseSuccessRefundSet]. intros H Hs. guard_steps H.
  assert (s ≠ Undefined) as Hu by (by intros ->).
  lazymatch type of H with (if ?b then _ else _) = _ => destruct b eqn:Hb; [by subst|] end. guard_steps H.
  apply (for_return_prefix _ (λ '(rows, z, _, n) pre, rows = by_id pre
    ∧ ∃ succeeded, z = BigIntV succeeded ∧ refund_ledger paymentId ["pending"; "suspended"]%string ["succeeded"; "failed"; "superseded"]%string pre succeeded n) Undefined)
    in H as (t & Ht & H); [| | |done].
  - destruct t as [[[rows' ?] ?] n], Ht as (-> & succeeded & -> & Hl).
    destruct (existsb (λ id, negb (map_has _ id)) _); [by destruct Hu|]. subst s. bool_inv. split; [done..|].
    by do 2 eexists.
  - split; [done|]. exists 0. split; [done|apply refund_ledger_nil].
  - intros [[[? ?] ?] n] pre x (-> & succeeded' & -> & Hl). cbv zeta.
    lazymatch goal with |- match (if ?b then _ else _) with _ => _ end => destruct b eqn:Hx; [done|] end.
    bool_inv. rewrite record_defined in * by done.
    destruct (refund_ledger_snoc _ _ _ _ _ _ x Hl) as (Hm & z & Ha & Hl'); [try done..|].
    2: { rewrite Hm, Ha. rewrite has_status_2 in Hl'.
      destruct ((_ === lit "pending") || _); (split; [done|]; by exists z). }
    cbn. by repeat destruct (_ ?. "status" === _).
Qed.

(** A set without open refunds whose sum is what was captured. *)
Lemma full_refund command paymentId v set open closed captured :
  nonBlank paymentId = true → refund_set_after (context command) = v →
  refund_set paymentId open closed v set →
  (optional (aggregateId command) === paymentId) = true →
  ((recorded_payment (context command)) ?. "id" === paymentId) = true →
  (recorded_payment (context command)) ?. "targetStatus" = lit "refunded" →
  ((recorded_payment (context command)) ?. "capturedAmountMinor" === captured) = true →
  (set ?. "succeededAmountMinor" === captured) = true → js_lt (Integral 0) (set ?. "pendingCount") = false →
  (∀ r, has_status closed r = true → has_status ["succeeded"; "failed"; "superseded"]%string r = true) →
  ∃ id, refunded_in_full command id.
Proof.
  intros (id & -> & _)%nonBlank_Str <- [_ _ (succeeded & pending & [Hids Hrows -> ->] & Hs & Hp)]
    Ha%strict_eq_Str%optional_Str Hi%strict_eq_Str Ht Hc Hz Hn Hclosed.
  rewrite Hp in Hn. cbn in Hn. rewrite Hs, strict_eq_sym, strict_eq_BigIntV in Hz. subst captured.
  apply strict_eq_BigIntV in Hc. exists id. split; [done..| |done].
  assert (List.filter (has_status open) (recorded_refunds (context command)) = []) as Hopen.
  { apply length_zero_iff_nil. unfold zlength in Hn. unfold recorded_refunds. lia. }
  apply Forall_forall. intros r Hr. rewrite Forall_forall in Hrows.
  destruct (Hrows r Hr) as (Hid%strict_eq_Str & Hpos & Hst). split_and!; [done..|]. apply Hclosed.
  rewrite has_status_app in Hst. apply orb_true_iff in Hst as [Hst|]; [|done].
  assert (In r (List.filter (has_status open) (recorded_refunds (context command)))) as Hin
    by (by apply filter_In; split; [apply list_elem_of_In|]).
  by rewrite Hopen in Hin.
Qed.

Lemma reconciled_refund command phase :
  requireExactLateRefundSuccessReconciliation command phase = Ok () → target command = js "refunded" →
  phase = lit "complete" ∨ phase = lit "reconcile_pending_retry" →
  ∃ id, refunded_in_full command id.
Proof.
  intros H Ht Hp. cbv beta delta [requireExactLateRefundSuccessReconciliation] in H. guard_steps H.
  apply guard_when_Ok in H. bool_inv.
  match goal with E : (context_ ?. "paymentCaptureKind" === _) = true |- _ =>
    pose proof (E : ((context command) ?. "paymentCaptureKind" === _) = true) as Hk end.
  assert (recorded_payment (context command) = reconciledPayment) as Hr by (unfold recorded_payment; by rewrite Hk).
  assert ((Str (target command) === expectedTarget) = true) as Htarget.
  { assert (∀ a b c d, a || negb b || c || d = false → b = true) as Ho by (by intros [] [] [] []).
    destruct Hp as [-> | ->]; [
      match goal with E : (lit "complete" === lit "complete") && _ = false |- _ => revert E end|
      match goal with E : (lit "reconcile_pending_retry" === lit "reconcile_pending_retry") && _ = false |- _ =>
        revert E end];
      rewrite (proj2 (strict_eq_lit _ _) eq_refl); apply Ho. }
  rewrite strict_eq_sym, Ht in Htarget. apply strict_eq_Str in Htarget.
  assert (js_lt (Integral 0) (refundSetAfter ?. "pendingCount") = false
    ∧ (derivedSucceededAfter === capturedAmountMinor) = true) as [Hn Hfull].
  { unfold expectedTarget in Htarget. clear -Htarget. revert Htarget.
    destruct (refundSetAfter ?. "pendingCount"); cbn [coalesce]; destruct (js_lt _ _); try done;
      destruct (_ === capturedAmountMinor); done. }
  apply (full_refund _ paymentId (context_ ?. "lateRefundSuccessRefundSetAfter") refundSetAfter
    ["pending"; "suspended"]%string ["succeeded"; "failed"; "superseded"]%string capturedAmountMinor);
    rewrite ?Hr; try done.
  - unfold refund_set_after. by rewrite Hk.
  - by apply (success_refund_set _ _ _ _ _ eq_refl).
  - unfold lit. rewrite <-Htarget. by apply strict_eq_nonBlank; [rewrite Htarget|].
Qed.

Lemma completed_refund command :
  requireExactPaymentRefundCompletion command = Ok () → target command = js "refunded" →
  ∃ id, refunded_in_full command id.
Proof.
  intros H Ht. cbv beta delta [requireExactPaymentRefundCompletion] in H. guard_steps H.
  destruct lateSuccess eqn:Hl; [by apply (reconciled_refund _ (lit "complete")); [| |left]|].
  pose proof (Hl : ((context command) ?. "paymentCaptureKind" === _) = false) as Hk. guard_steps H. apply guard_when_Ok in H. bool_inv.
  match goal with E : exactRefundSetTransition0 = true |- _ => unfold exactRefundSetTransition0 in E;
    lazymatch type of E with (if ?b then _ else _) = _ => destruct b eqn:Hset; [clear E|done] end end.
  bool_inv.
  match goal with E : (Str (target command) === expectedTarget) = true |- _ =>
    rewrite strict_eq_sym, Ht in E; apply strict_eq_Str in E as Htarget end.
  assert (recorded_payment (context command) = reconciled0) as Hr by (unfold recorded_payment; by rewrite Hk).
  apply (full_refund _ paymentId (context_ ?. "refundCompletionRefundSetAfter") refundSetAfter
    ["pending"%string] ["succeeded"; "failed"]%string capturedAmountMinor); rewrite ?Hr; try done.
  - unfold refund_set_after. by rewrite Hk.
  - by apply (completion_refund_set _ _ _ _ _ eq_refl).
  - unfold lit. rewrite <-Htarget. by apply strict_eq_nonBlank; [rewrite Htarget|].
  - unfold expectedTarget in Htarget. destruct (is_bigint capturedAmountMinor && _) eqn:E; [by bool_inv|].
    clear E. by destruct (_ && _).
  - match goal with E : (refundSetAfter ?. "pendingCount" === Integral 0) = true |- _ => revert E end.
    destruct (refundSetAfter ?. "pendingCount"); try done. cbn. lia.
  - intros r. cbn. intros [->|[->|?]%orb_true_iff]%orb_true_iff; cbn; rewrite ?orb_true_r; done.
Qed.

End Refunds.
