(* ===== verification/Checkout.v ===== *)
(** What the lifecycles of an order, of its phase and of a payment share
    (lifecycle/policies.ts): the activation of a confirmed order, the source
    of a checkout and the refund of a capture that found no capacity, and the
    deadline of a balance payment. *)
From S2P Require Import Prelude Text Primitives Values Transition Guards.

Import Transition.

(** ** Guards *)

Definition requireCompleteConfirmationJobLinks (command : TransitionCommand) (orderId : value)
    (phaseId : value) (phaseReservationSetId : value) : result () :=
  let expectedKeysValue := (context command) ?. "phaseReservationSetPlannedJobKeys" in
  let linksValue := (context command) ?. "confirmationReservationJobLinks" in
  let expectedKeys := array expectedKeysValue in
  let links := array linksValue in
  guard_when
    ((expectedKeys === Undefined)
     || (js_len expectedKeys =? 0)
     || existsb (λ key, negb (nonBlank key)) (elements expectedKeys)
     || negb (zlength (set_of (elements expectedKeys)) =? js_len expectedKeys)
     || (links === Undefined)
     || negb (js_len links =? js_len expectedKeys)) ;;
  let plannedJobKeys := expectedKeys in
  let linkedKeys : list value := [] in
  let reservationIds : list value := [] in
  let jobIds : list value := [] in
  '(linkedKeys, reservationIds, jobIds) ← foldM (λ '(linkedKeys, reservationIds, jobIds) value_,
    guard_when (negb (is_record value_)) ;;
    let link := value_ in
    let plannedJobKey := link ?. "plannedJobKey" in
    let productionReservationId := link ?. "productionReservationId" in
    let jobId := link ?. "jobId" in
    guard_when
      (negb (nonBlank plannedJobKey)
       || negb (nonBlank productionReservationId)
       || negb (nonBlank jobId)
       || (link ?. "reservationOrderId" !== orderId)
       || (link ?. "reservationPhaseId" !== phaseId)
       || (link ?. "reservationSetId" !== phaseReservationSetId)
       || (link ?. "reservationPlannedJobKey" !== plannedJobKey)
       || (link ?. "reservationJobId" !== jobId)
       || (link ?. "jobOrderId" !== orderId)
       || (link ?. "jobPhaseId" !== phaseId)
       || (link ?. "jobProductionReservationId" !== productionReservationId)
       || (link ?. "jobPlannedJobKey" !== plannedJobKey)
       || (link ?. "jobStatus" !== lit "created")
       || set_has linkedKeys plannedJobKey
       || set_has reservationIds productionReservationId
       || set_has jobIds jobId) ;;
    let linkedKeys := set_add linkedKeys plannedJobKey in
    let reservationIds := set_add reservationIds productionReservationId in
    let jobIds := set_add jobIds jobId in
    Ok (linkedKeys, reservationIds, jobIds)) (linkedKeys, reservationIds, jobIds)
      (elements links);
  guard_when
    (existsb (λ key, negb (set_has linkedKeys key)) (elements plannedJobKeys)
     || existsb (λ key, negb (includes (elements plannedJobKeys) key)) linkedKeys) ;;
  requireFlag command "confirmationJobsCreated" ;;
  requireFlag command "confirmationJobCreationAtomic".

Definition requireAtomicConfirmationActivation (lifecycle : jstr) (command : TransitionCommand)
    : result () :=
  let paymentId := (context command) ?. "paymentId" in
  let paymentRole := (context command) ?. "paymentRole" in
  let providerTransactionId := (context command) ?. "providerPaymentTransactionId" in
  let orderId := (context command) ?. "orderId" in
  let phaseId := (context command) ?. "phaseId" in
  let phaseReservationSetId := (context command) ?. "phaseReservationSetId" in
  let orderPreviousResultId := (context command) ?. "confirmationOrderPreviousResultId" in
  let phasePreviousResultId := (context command) ?. "confirmationPhasePreviousResultId" in
  let orderStateKey := (context command) ?. "confirmationOrderCurrentStateCommandKey" in
  let phaseStateKey := (context command) ?. "confirmationPhaseCurrentStateCommandKey" in
  let expectedOrderValue := (context command) ?. "confirmationExpectedOrder" in
  let expectedOrder := record expectedOrderValue in
  let expectedPhaseValue := (context command) ?. "confirmationExpectedPhase" in
  let expectedPhase := record expectedPhaseValue in
  guard_when
    ((str_eqb lifecycle (js "Order") && (optional (aggregateId command) !== orderId))
     || (str_eqb lifecycle (js "OrderPhase(single)")
         && (optional (aggregateId command) !== phaseId))
     || negb (nonBlank paymentId)
     || ((context command) ?. "confirmationActivationPaymentId" !== paymentId)
     || ((paymentRole !== lit "full") && (paymentRole !== lit "deposit"))
     || ((context command) ?. "initialPaymentRole" !== paymentRole)
     || ((context command) ?. "initialPaymentId" !== paymentId)
     || negb (nonBlank providerTransactionId)
     || ((context command) ?. "confirmationActivationProviderTransactionId"
           !== providerTransactionId)
     || negb (nonBlank orderId)
     || ((context command) ?. "initialPaymentOrderId" !== orderId)
     || ((context command) ?. "confirmationActivationOrderId" !== orderId)
     || negb (nonBlank phaseId)
     || ((context command) ?. "confirmationActivationPhaseId" !== phaseId)
     || negb (nonBlank phaseReservationSetId)
     || ((context command) ?. "confirmationActivationPhaseReservationSetId"
           !== phaseReservationSetId)
     || negb (nonBlank orderPreviousResultId)
     || negb (nonBlank phasePreviousResultId)
     || negb (nonBlank orderStateKey)
     || negb (nonBlank phaseStateKey)
     || (str_eqb lifecycle (js "Order")
         && ((optional (currentStateResultId command) !== orderPreviousResultId)
             || (optional (currentStateCommandKey command) !== orderStateKey)))
     || (str_eqb lifecycle (js "OrderPhase(single)")
         && ((optional (currentStateResultId command) !== phasePreviousResultId)
             || (optional (currentStateCommandKey command) !== phaseStateKey)))
     || (expectedOrder ?. "id" !== orderId)
     || (expectedOrder ?. "phaseId" !== phaseId)
     || (expectedOrder ?. "status" !== lit "quoted")
     || (expectedOrder ?. "resultId" !== orderPreviousResultId)
     || (expectedOrder ?. "currentStateCommandKey" !== orderStateKey)
     || (expectedOrder ?. "immutable" !== Bool true)
     || (expectedPhase ?. "id" !== phaseId)
     || (expectedPhase ?. "orderId" !== orderId)
     || (expectedPhase ?. "status" !== lit "quoted")
     || (expectedPhase ?. "resultId" !== phasePreviousResultId)
     || (expectedPhase ?. "currentStateCommandKey" !== phaseStateKey)
     || (expectedPhase ?. "immutable" !== Bool true)) ;;
  guard_when
    (((context command) ?. "phaseKind" !== lit "single")
     || ((context command) ?. "confirmationOrderPreviousStatus" !== lit "quoted")
     || ((context command) ?. "confirmationOrderTargetStatus" !== lit "confirmed")
     || ((context command) ?. "confirmationPhasePreviousStatus" !== lit "quoted")
     || ((context command) ?. "confirmationPhaseTargetStatus" !== lit "active")) ;;
  requireFlag command "completeReservationCaptured" ;;
  requireFlag command "confirmationActivationAtomic" ;;
  requireCompleteConfirmationJobLinks command orderId phaseId phaseReservationSetId.

Definition requireInitialSettlementCaptureActivation (lifecycle : jstr)
    (command : TransitionCommand) : result () :=
  let paymentRole := (context command) ?. "paymentRole" in
  if paymentRole === lit "balance" then
    guard_when ((context command) ?. "balancePaymentRole" !== lit "balance")
  else
  guard_when ((paymentRole !== lit "full") && (paymentRole !== lit "deposit")) ;;
  let paymentId := (context command) ?. "paymentId" in
  let orderId := (context command) ?. "orderId" in
  guard_when
    (((context command) ?. "initialPaymentRole" !== paymentRole)
     || negb (nonBlank paymentId)
     || ((context command) ?. "initialPaymentId" !== paymentId)
     || negb (nonBlank orderId)
     || ((context command) ?. "initialPaymentOrderId" !== orderId)) ;;
  requireAtomicConfirmationActivation lifecycle command ;;
  requireFlag command "initialCaptureConfirmationAtomic".

Definition requireBalancePaymentDeadlineSetup (command : TransitionCommand)
    (bindCommandToOrder : bool) : result () :=
  let context_ := context command in
  let orderId := context_ ?. "orderId" in
  let phaseId := context_ ?. "phaseId" in
  let paymentId := context_ ?. "balancePaymentId" in
  let scheduleId := context_ ?. "balanceDeadlineSetupScheduleId" in
  let resultId := context_ ?. "balanceDeadlineSetupResultId" in
  let createdAt := context_ ?. "balanceDeadlineSetupCreatedAt" in
  let qcApprovedAt := context_ ?. "balanceDeadlineSetupQcApprovedAt" in
  let paymentDays := context_ ?. "balanceDeadlineSetupPaymentDays" in
  let balanceDueAt := context_ ?. "balanceDueAt" in
  let orderValue := context_ ?. "balanceDeadlineSetupOrder" in
  let order := record orderValue in
  let previousOrderResultId := context_ ?. "balanceDeadlineSetupPreviousOrderResultId" in
  let orderStateKey := context_ ?. "balanceDeadlineSetupCurrentStateCommandKey" in
  let expectedOrderValue := context_ ?. "balanceDeadlineSetupExpectedOrder" in
  let expectedOrder := record expectedOrderValue in
  let phaseValue := context_ ?. "balanceDeadlineSetupPhase" in
  let phase := record phaseValue in
  let paymentValue := context_ ?. "balanceDeadlineSetupPayment" in
  let payment := record paymentValue in
  let scheduleValue := context_ ?. "balanceDeadlineSetupSchedule" in
  let schedule := record scheduleValue in
  let deadlineValue := context_ ?. "balanceDeadlineSetupDeadline" in
  let deadline := record deadlineValue in
  let scheduleDueAt := schedule ?. "dueAt" in
  let deadlineDueAt := deadline ?. "dueAt" in
  guard_when
    (negb (nonBlank orderId)
     || (bindCommandToOrder && (optional (aggregateId command) !== orderId))
     || (bindCommandToOrder
         && (negb (nonBlank previousOrderResultId)
             || negb (nonBlank orderStateKey)
             || (optional (currentStateResultId command) !== previousOrderResultId)
             || (optional (currentStateCommandKey command) !== orderStateKey)
             || (expectedOrder ?. "id" !== orderId)
             || (expectedOrder ?. "phaseId" !== phaseId)
             || (expectedOrder ?. "status" !== lit "qc_passed")
             || (expectedOrder ?. "resultId" !== previousOrderResultId)
             || (expectedOrder ?. "currentStateCommandKey" !== orderStateKey)
             || (expectedOrder ?. "immutable" !== Bool true)))
     || negb (nonBlank phaseId)
     || negb (nonBlank paymentId)
     || negb (nonBlank scheduleId)
     || negb (nonBlank resultId)
     || negb (is_instant createdAt)
     || negb (is_instant qcApprovedAt)
     || negb (is_number paymentDays)
     || negb (is_safe_integer paymentDays)
     || js_le paymentDays (Integral 0)
     || negb (is_instant balanceDueAt)
     || (0 <=? compareV createdAt balanceDueAt)
     || (js_add (qcApprovedAt ?. "epochMilliseconds") (js_mul paymentDays (Integral 86400000))
           !== balanceDueAt ?. "epochMilliseconds")
     || (context_ ?. "balanceDeadlineSetupOrderId" !== orderId)
     || (context_ ?. "balanceDeadlineSetupPhaseId" !== phaseId)
     || (context_ ?. "balanceDeadlineSetupPaymentId" !== paymentId)
     || (context_ ?. "balanceDeadlineSetupOrderPreviousStatus" !== lit "qc_passed")
     || (context_ ?. "balanceDeadlineSetupOrderTargetStatus" !== lit "awaiting_balance")
     || (context_ ?. "balanceDeadlineSetupPhasePreviousStatus" !== lit "qc_passed")
     || (context_ ?. "balanceDeadlineSetupPhaseTargetStatus" !== lit "qc_passed")
     || (context_ ?. "balanceDeadlineSetupOrderResultId" !== resultId)
     || (context_ ?. "balanceDeadlineSetupPhaseResultId" !== resultId)
     || (context_ ?. "balanceDeadlineSetupPaymentResultId" !== resultId)
     || (context_ ?. "balanceDeadlineSetupScheduleResultId" !== resultId)
     || (context_ ?. "balanceDeadlineSetupDeadlineResultId" !== resultId)
     || (order ?. "id" !== orderId)
     || (order ?. "phaseId" !== phaseId)
     || (order ?. "balancePaymentId" !== paymentId)
     || (order ?. "balanceDeadlineScheduleId" !== scheduleId)
     || negb (is_instant (order ?. "qcApprovedAt"))
     || negb (sameInstant (order ?. "qcApprovedAt") qcApprovedAt)
     || (order ?. "balancePaymentDays" !== paymentDays)
     || (order ?. "previousStatus" !== lit "qc_passed")
     || (order ?. "targetStatus" !== lit "awaiting_balance")
     || (order ?. "resultId" !== resultId)
     || (phase ?. "id" !== phaseId)
     || (phase ?. "orderId" !== orderId)
     || (phase ?. "previousStatus" !== lit "qc_passed")
     || (phase ?. "targetStatus" !== lit "qc_passed")
     || (phase ?. "resultId" !== resultId)
     || (payment ?. "id" !== paymentId)
     || (payment ?. "orderId" !== orderId)
     || (payment ?. "phaseId" !== phaseId)
     || (payment ?. "role" !== lit "balance")
     || (payment ?. "status" !== lit "pending")
     || (payment ?. "resultId" !== resultId)
     || (schedule ?. "id" !== scheduleId)
     || (schedule ?. "paymentId" !== paymentId)
     || (schedule ?. "orderId" !== orderId)
     || (schedule ?. "phaseId" !== phaseId)
     || (schedule ?. "status" !== lit "scheduled")
     || (schedule ?. "immutable" !== Bool true)
     || (schedule ?. "resultId" !== resultId)
     || negb (is_instant scheduleDueAt)
     || negb (sameInstant scheduleDueAt balanceDueAt)
     || (deadline ?. "orderId" !== orderId)
     || (deadline ?. "phaseId" !== phaseId)
     || (deadline ?. "paymentId" !== paymentId)
     || (deadline ?. "scheduleId" !== scheduleId)
     || (deadline ?. "resultId" !== resultId)
     || negb (is_instant deadlineDueAt)
     || negb (sameInstant deadlineDueAt balanceDueAt)
     || (context_ ?. "balanceDeadlineSetupCompleted" !== Bool true)
     || (context_ ?. "balanceDeadlineSetupAtomic" !== Bool true)).

Definition requireExactQuotedCheckoutOrderSource (lifecycle : jstr) (command : TransitionCommand)
    (sourceEvidence : value) : result () :=
  if negb (str_eqb lifecycle (js "Order")) then
    Ok ()
  else
  let orderId := (context command) ?. "orderId" in
  let expected := record (sourceEvidence ?. "expectedOrder") in
  guard_when
    (negb (nonBlank orderId)
     || negb (nonBlank (sourceEvidence ?. "previousResultId"))
     || negb (nonBlank (sourceEvidence ?. "currentStateCommandKey"))
     || (optional (aggregateId command) !== orderId)
     || (optional (currentStateResultId command) !== sourceEvidence ?. "previousResultId")
     || (optional (currentStateCommandKey command) !== sourceEvidence ?. "currentStateCommandKey")
     || (expected ?. "id" !== orderId)
     || (expected ?. "status" !== lit "quoted")
     || (expected ?. "resultId" !== sourceEvidence ?. "previousResultId")
     || (expected ?. "currentStateCommandKey" !== sourceEvidence ?. "currentStateCommandKey")
     || (expected ?. "immutable" !== Bool true)).

Definition requireExactPendingCapacityCapturePaymentSource (lifecycle : jstr)
    (command : TransitionCommand) : result () :=
  if negb (str_eqb lifecycle (js "Payment"))
     || negb (currentIs command "pending")
     || negb (targetIs command "refund_pending") then
    Ok ()
  else
  let context_ := context command in
  let paymentId := context_ ?. "paymentId" in
  let orderId := context_ ?. "orderId" in
  let phaseId := context_ ?. "phaseId" in
  let role := context_ ?. "initialPaymentRole" in
  let providerTransactionId := context_ ?. "providerPaymentTransactionId" in
  let captureWindowId := context_ ?. "paymentCaptureWindowId" in
  let captureWindowResultId := context_ ?. "paymentCaptureWindowResultId" in
  let previousResultId := context_ ?. "capacityCapturePreviousPaymentResultId" in
  let stateKey := context_ ?. "capacityCapturePaymentCurrentStateCommandKey" in
  let expectedValue := context_ ?. "capacityCaptureExpectedPayment" in
  let expected := record expectedValue in
  let resultId := context_ ?. "capacityCaptureResultId" in
  guard_when
    (negb (nonBlank paymentId)
     || negb (nonBlank orderId)
     || negb (nonBlank phaseId)
     || ((role !== lit "full") && (role !== lit "deposit"))
     || negb (nonBlank providerTransactionId)
     || negb (nonBlank captureWindowId)
     || negb (nonBlank captureWindowResultId)
     || negb (nonBlank previousResultId)
     || negb (nonBlank stateKey)
     || negb (nonBlank resultId)
     || (optional (aggregateId command) !== paymentId)
     || (optional (currentStateResultId command) !== previousResultId)
     || (optional (currentStateCommandKey command) !== stateKey)
     || (expected ?. "id" !== paymentId)
     || (expected ?. "orderId" !== orderId)
     || (expected ?. "phaseId" !== phaseId)
     || (expected ?. "role" !== role)
     || (expected ?. "status" !== lit "pending")
     || (expected ?. "providerTransactionId" !== providerTransactionId)
     || (expected ?. "captureWindowId" !== captureWindowId)
     || (expected ?. "captureWindowResultId" !== captureWindowResultId)
     || (expected ?. "captureKind" !== lit "initial_checkout_capacity")
     || (expected ?. "resultId" !== previousResultId)
     || (expected ?. "currentStateCommandKey" !== stateKey)
     || (expected ?. "immutable" !== Bool true)
     || (context_ ?. "capacityCaptureCompensationResultId" !== resultId)
     || (context_ ?. "capacityCaptureRefundTransactionResultId" !== resultId)
     || (context_ ?. "capacityCapturePaymentResultId" !== resultId)).

Definition requireInitialCapacityCaptureCompensation (lifecycle : jstr)
    (command : TransitionCommand) : result () :=
  guard_when ((context command) ?. "paymentCaptureKind" !== lit "initial_checkout_capacity") ;;
  let paymentId := (context command) ?. "paymentId" in
  let orderId := (context command) ?. "orderId" in
  let phaseId := (context command) ?. "phaseId" in
  let phaseReservationSetId := (context command) ?. "phaseReservationSetId" in
  let providerTransactionId := (context command) ?. "providerPaymentTransactionId" in
  let refundTransactionId := (context command) ?. "refundTransactionId" in
  requireExactPendingCapacityCapturePaymentSource lifecycle command ;;
  requireExactQuotedCheckoutOrderSource lifecycle command
    (RecordV 0
       [(js "previousResultId", (context command) ?. "capacityCapturePreviousOrderResultId");
        (js "currentStateCommandKey",
         (context command) ?. "capacityCaptureOrderCurrentStateCommandKey");
        (js "expectedOrder", (context command) ?. "capacityCaptureExpectedOrder")]) ;;
  guard_when
    (negb (is_string paymentId)
     || (js_len paymentId =? 0)
     || ((context command) ?. "providerEventPaymentId" !== paymentId)
     || ((context command) ?. "initialPaymentId" !== paymentId)
     || ((context command) ?. "capacityCaptureCompensationPaymentId" !== paymentId)
     || ((context command) ?. "capacityCaptureRefundTransactionPaymentId" !== paymentId)) ;;
  guard_when
    (negb (is_string orderId)
     || (js_len orderId =? 0)
     || ((context command) ?. "initialPaymentOrderId" !== orderId)
     || ((context command) ?. "initialCapacityReacquisitionOrderId" !== orderId)
     || negb (is_string phaseId)
     || (js_len phaseId =? 0)
     || ((context command) ?. "initialCapacityReacquisitionPhaseId" !== phaseId)) ;;
  guard_when
    (negb (is_string phaseReservationSetId)
     || (js_len phaseReservationSetId =? 0)
     || ((context command) ?. "initialCapacityReacquisitionReservationSetId"
           !== phaseReservationSetId)) ;;
  guard_when
    (negb (is_string providerTransactionId)
     || (js_len providerTransactionId =? 0)
     || ((context command) ?. "capacityCaptureCompensationProviderTransactionId"
           !== providerTransactionId)
     || ((context command) ?. "capacityCaptureRefundTransactionProviderTransactionId"
           !== providerTransactionId)
     || negb (is_string refundTransactionId)
     || (js_len refundTransactionId =? 0)
     || ((context command) ?. "capacityCaptureCompensationRefundTransactionId"
           !== refundTransactionId)) ;;
  guard_when
    (((context command) ?. "initialPaymentRole" !== lit "full")
     && ((context command) ?. "initialPaymentRole" !== lit "deposit")) ;;
  requireFlag command "captureAuthorized" ;;
  requireFlag command "initialCaptureBeforeCutoff" ;;
  requireFlag command "providerPaymentEventAuthenticated" ;;
  requireFlag command "providerPaymentEventVerified" ;;
  guard_when ((context command) ?. "providerPaymentEventStatus" !== lit "captured") ;;
  foldM (λ _ flag, requireFlag command flag) ()
    ["initialCapacityReacquisitionAttempted"; "initialCapacityReacquisitionWholeSet";
     "initialCapacityReacquisitionFailed"; "capacityCaptureCompensationCreated";
     "scopedRefundTransactionCreated"; "capacityCaptureRefundIsFull";
     "capacityCaptureRefundIdempotencyKeyValid";
     "capacityCaptureExcludedFromSettlement"; "capacityCaptureActivationSuppressed";
     "initialCapacityCaptureWindowClosed"; "initialCapacityCaptureCutoffSet";
     "preCapturePhaseCancelled"; "preCaptureFulfilmentSlotsCancelled";
     "preCaptureReservationsReleased"; "capacityCaptureCompensationAtomic"]%string ;;
  guard_when
    (((context command) ?. "capacityCaptureCompensationKind" !== lit "initial_checkout_capacity")
     || ((context command) ?. "capacityCaptureOrderTargetStatus" !== lit "cancelled")
     || ((context command) ?. "capacityCapturePhaseTargetStatus" !== lit "cancelled")
     || ((context command) ?. "capacityCaptureJobsCreated" !== Bool false)).

Definition requireInitialCaptureWindowClosed (lifecycle : jstr) (command : TransitionCommand)
    : result () :=
  let orderId := (context command) ?. "orderId" in
  let initialPaymentId := (context command) ?. "initialPaymentId" in
  requireExactQuotedCheckoutOrderSource lifecycle command
    (RecordV 0
       [(js "previousResultId",
         (context command) ?. "initialCaptureClosePreviousOrderResultId");
        (js "currentStateCommandKey",
         (context command) ?. "initialCaptureCloseOrderCurrentStateCommandKey");
        (js "expectedOrder", (context command) ?. "initialCaptureCloseExpectedOrder")]) ;;
  guard_when
    (negb (is_string orderId)
     || (js_len orderId =? 0)
     || ((context command) ?. "initialPaymentOrderId" !== orderId)
     || ((context command) ?. "initialCaptureCloseOrderId" !== orderId)) ;;
  guard_when
    (negb (is_string initialPaymentId)
     || (js_len initialPaymentId =? 0)
     || ((context command) ?. "initialCaptureClosePaymentId" !== initialPaymentId)) ;;
  guard_when
    (((context command) ?. "initialPaymentRole" !== lit "full")
     && ((context command) ?. "initialPaymentRole" !== lit "deposit")) ;;
  guard_when ((context command) ?. "initialPaymentStatus" !== lit "voided") ;;
  requireFlag command "initialCaptureWindowClosed" ;;
  requireFlag command "initialCaptureCutoffSet" ;;
  requireFlag command "initialPaymentVoidOutboxCreated" ;;
  requireFlag command "preCapturePhaseCancelled" ;;
  requireFlag command "preCaptureFulfilmentSlotsCancelled" ;;
  requireFlag command "preCaptureReservationsReleased" ;;
  requireFlag command "initialCaptureCloseAtomic" ;;
  let expectedReason :=
    if targetIs command "expired" then lit "checkout_expired" else lit "checkout_cancelled" in
  guard_when ((context command) ?. "initialCaptureCloseReason" !== expectedReason).

(** ** They fail only as guards *)

#[global] Typeclasses Opaque
  requireCompleteConfirmationJobLinks
  requireAtomicConfirmationActivation
  requireInitialSettlementCaptureActivation
  requireBalancePaymentDeadlineSetup
  requireExactQuotedCheckoutOrderSource
  requireExactPendingCapacityCapturePaymentSource
  requireInitialCapacityCaptureCompensation
  requireInitialCaptureWindowClosed.

#[export] Instance guard_only_requireCompleteConfirmationJobLinks command orderId phaseId phaseReservationSetId :
  GuardOnly (requireCompleteConfirmationJobLinks command orderId phaseId phaseReservationSetId).
Proof. cbv beta delta [requireCompleteConfirmationJobLinks]. guard_only. Qed.

#[export] Instance guard_only_requireAtomicConfirmationActivation lifecycle command :
  GuardOnly (requireAtomicConfirmationActivation lifecycle command).
Proof. cbv beta delta [requireAtomicConfirmationActivation]. guard_only. Qed.

#[export] Instance guard_only_requireInitialSettlementCaptureActivation lifecycle command :
  GuardOnly (requireInitialSettlementCaptureActivation lifecycle command).
Proof. cbv beta delta [requireInitialSettlementCaptureActivation]. guard_only. Qed.

#[export] Instance guard_only_requireBalancePaymentDeadlineSetup command bindCommandToOrder :
  GuardOnly (requireBalancePaymentDeadlineSetup command bindCommandToOrder).
Proof. cbv beta delta [requireBalancePaymentDeadlineSetup]. guard_only. Qed.

#[export] Instance guard_only_requireExactQuotedCheckoutOrderSource lifecycle command sourceEvidence :
  GuardOnly (requireExactQuotedCheckoutOrderSource lifecycle command sourceEvidence).
Proof. cbv beta delta [requireExactQuotedCheckoutOrderSource]. guard_only. Qed.

#[export] Instance guard_only_requireExactPendingCapacityCapturePaymentSource lifecycle command :
  GuardOnly (requireExactPendingCapacityCapturePaymentSource lifecycle command).
Proof. cbv beta delta [requireExactPendingCapacityCapturePaymentSource]. guard_only. Qed.

#[export] Instance guard_only_requireInitialCapacityCaptureCompensation lifecycle command :
  GuardOnly (requireInitialCapacityCaptureCompensation lifecycle command).
Proof. cbv beta delta [requireInitialCapacityCaptureCompensation]. guard_only. Qed.

#[export] Instance guard_only_requireInitialCaptureWindowClosed lifecycle command :
  GuardOnly (requireInitialCaptureWindowClosed lifecycle command).
Proof. cbv beta delta [requireInitialCaptureWindowClosed]. guard_only. Qed.
