(* ===== verification/Payments.v ===== *)
(** The lifecycle of a payment (lifecycle/policies.ts): its intent, its
    capture, its failure and void, its refunds, and its policy. *)
From S2P Require Import Prelude Text Primitives Values Transition Guards Lifecycles Refunds Checkout.

Import Transition.

Section Payments.

Context {collation : Collation}.

(** ** Guards *)

Definition requireExactPaymentIntentSetup (command : TransitionCommand) : result () :=
  let context_ := context command in
  let paymentId := context_ ?. "paymentId" in
  let orderId := context_ ?. "orderId" in
  let phaseId := context_ ?. "phaseId" in
  let role := context_ ?. "paymentRole" in
  let providerTransactionId := context_ ?. "paymentIntentSetupProviderTransactionId" in
  let authorizationId := context_ ?. "paymentIntentSetupAuthorizationId" in
  let captureWindowId := context_ ?. "paymentIntentSetupCaptureWindowId" in
  let previousPaymentResultId := context_ ?. "paymentIntentSetupPreviousPaymentResultId" in
  let stateKey := context_ ?. "paymentIntentSetupCurrentStateCommandKey" in
  let resultId := context_ ?. "paymentIntentSetupResultId" in
  let expectedPayment := record (context_ ?. "paymentIntentSetupExpectedPayment") in
  let activatedPayment := record (context_ ?. "paymentIntentSetupActivatedPayment") in
  let providerTransaction := record (context_ ?. "paymentIntentSetupProviderTransaction") in
  let authorization := record (context_ ?. "paymentIntentSetupAuthorization") in
  let captureWindow := record (context_ ?. "paymentIntentSetupCaptureWindow") in
  let order := record (context_ ?. "paymentIntentSetupOrder") in
  let phase := record (context_ ?. "paymentIntentSetupPhase") in
  let captureExpiresAt := context_ ?. "paymentIntentSetupCaptureExpiresAt" in
  let persistedCaptureExpiresAt :=
    if role === lit "balance"
    then context_ ?. "balanceDueAt"
    else context_ ?. "checkoutCaptureExpiresAt" in
  let expectedWindowKind :=
    if role === lit "balance" then lit "balance_deadline" else lit "checkout" in
  let expectedOrderStatus :=
    if role === lit "balance" then lit "awaiting_balance" else lit "quoted" in
  let expectedPhaseStatus := if role === lit "balance" then lit "qc_passed" else lit "quoted" in
  guard_when
    (negb (nonBlank paymentId)
     || negb (nonBlank orderId)
     || negb (nonBlank phaseId)
     || ((role !== lit "full") && (role !== lit "deposit") && (role !== lit "balance"))
     || negb (nonBlank providerTransactionId)
     || negb (nonBlank authorizationId)
     || negb (nonBlank captureWindowId)
     || negb (nonBlank previousPaymentResultId)
     || negb (nonBlank stateKey)
     || negb (nonBlank resultId)
     || negb (is_instant captureExpiresAt)
     || negb (is_instant persistedCaptureExpiresAt)
     || negb (sameInstant captureExpiresAt persistedCaptureExpiresAt)
     || (optional (aggregateId command) !== paymentId)
     || negb (nonBlank (optional (currentStateResultId command)))
     || (optional (currentStateResultId command) !== previousPaymentResultId)
     || (optional (currentStateCommandKey command) !== stateKey)
     || (expectedPayment ?. "id" !== paymentId)
     || (expectedPayment ?. "orderId" !== orderId)
     || (expectedPayment ?. "phaseId" !== phaseId)
     || (expectedPayment ?. "role" !== role)
     || (expectedPayment ?. "status" !== lit "created")
     || (expectedPayment ?. "providerTransactionId" !== providerTransactionId)
     || (expectedPayment ?. "authorizationId" !== authorizationId)
     || (expectedPayment ?. "captureWindowId" !== captureWindowId)
     || negb (is_instant (expectedPayment ?. "captureExpiresAt"))
     || negb (sameInstant (expectedPayment ?. "captureExpiresAt") captureExpiresAt)
     || (expectedPayment ?. "resultId" !== previousPaymentResultId)
     || (expectedPayment ?. "currentStateCommandKey" !== stateKey)
     || (expectedPayment ?. "immutable" !== Bool true)
     || (activatedPayment ?. "id" !== paymentId)
     || (activatedPayment ?. "orderId" !== orderId)
     || (activatedPayment ?. "phaseId" !== phaseId)
     || (activatedPayment ?. "role" !== role)
     || (activatedPayment ?. "previousStatus" !== lit "created")
     || (activatedPayment ?. "targetStatus" !== lit "pending")
     || (activatedPayment ?. "providerTransactionId" !== providerTransactionId)
     || (activatedPayment ?. "authorizationId" !== authorizationId)
     || (activatedPayment ?. "captureWindowId" !== captureWindowId)
     || (activatedPayment ?. "resultId" !== resultId)
     || (activatedPayment ?. "immutable" !== Bool true)) ;;
  guard_when
    ((providerTransaction ?. "id" !== providerTransactionId)
     || (providerTransaction ?. "paymentId" !== paymentId)
     || (providerTransaction ?. "orderId" !== orderId)
     || (providerTransaction ?. "phaseId" !== phaseId)
     || (providerTransaction ?. "role" !== role)
     || (providerTransaction ?. "status" !== lit "intent_created")
     || (providerTransaction ?. "authorizationId" !== authorizationId)
     || (providerTransaction ?. "resultId" !== resultId)
     || (providerTransaction ?. "immutable" !== Bool true)
     || (authorization ?. "id" !== authorizationId)
     || (authorization ?. "paymentId" !== paymentId)
     || (authorization ?. "providerTransactionId" !== providerTransactionId)
     || (authorization ?. "status" !== lit "authorized")
     || (authorization ?. "captureCutoffAt" !== Null)
     || (authorization ?. "resultId" !== resultId)
     || (authorization ?. "immutable" !== Bool true)
     || (captureWindow ?. "id" !== captureWindowId)
     || (captureWindow ?. "paymentId" !== paymentId)
     || (captureWindow ?. "orderId" !== orderId)
     || (captureWindow ?. "phaseId" !== phaseId)
     || (captureWindow ?. "role" !== role)
     || (captureWindow ?. "kind" !== expectedWindowKind)
     || (captureWindow ?. "status" !== lit "open")
     || (captureWindow ?. "authorizationId" !== authorizationId)
     || negb (is_instant (captureWindow ?. "cutoffAt"))
     || negb (sameInstant (captureWindow ?. "cutoffAt") captureExpiresAt)
     || (captureWindow ?. "resultId" !== resultId)
     || (captureWindow ?. "immutable" !== Bool true)) ;;
  guard_when
    ((order ?. "id" !== orderId)
     || (order ?. "phaseId" !== phaseId)
     || (order ?. "status" !== expectedOrderStatus)
     || (order ?. "resultId" !== resultId)
     || (order ?. "immutable" !== Bool true)
     || (phase ?. "id" !== phaseId)
     || (phase ?. "orderId" !== orderId)
     || (phase ?. "kind" !== lit "single")
     || (phase ?. "status" !== expectedPhaseStatus)
     || (phase ?. "resultId" !== resultId)
     || (phase ?. "immutable" !== Bool true)
     || (context_ ?. "paymentIntentSetupPaymentResultId" !== resultId)
     || (context_ ?. "paymentIntentSetupProviderTransactionResultId" !== resultId)
     || (context_ ?. "paymentIntentSetupAuthorizationResultId" !== resultId)
     || (context_ ?. "paymentIntentSetupCaptureWindowResultId" !== resultId)
     || (context_ ?. "paymentIntentSetupOrderResultId" !== resultId)
     || (context_ ?. "paymentIntentSetupPhaseResultId" !== resultId)
     || (context_ ?. "paymentIntentSetupCompleted" !== Bool true)
     || (context_ ?. "paymentIntentSetupAtomic" !== Bool true)).

Definition requireExactPaymentIntentCreationFailure (command : TransitionCommand) : result () :=
  let context_ := context command in
  let paymentId := context_ ?. "paymentId" in
  let orderId := context_ ?. "orderId" in
  let phaseId := context_ ?. "phaseId" in
  let role := context_ ?. "paymentRole" in
  let previousResultId := context_ ?. "paymentIntentFailurePreviousPaymentResultId" in
  let stateKey := context_ ?. "paymentIntentFailureCurrentStateCommandKey" in
  let resultId := context_ ?. "paymentIntentFailureResultId" in
  let attemptKey := context_ ?. "paymentIntentFailureAttemptKey" in
  let failureId := context_ ?. "paymentIntentFailureEvidenceId" in
  let provider := context_ ?. "paymentIntentFailureProvider" in
  let expectedPayment := record (context_ ?. "paymentIntentFailureExpectedPayment") in
  let failedPayment := record (context_ ?. "paymentIntentFailureFailedPayment") in
  let failure := record (context_ ?. "paymentIntentFailureEvidence") in
  let captureCutoffAt := failedPayment ?. "captureCutoffAt" in
  let failedAt := failure ?. "failedAt" in
  guard_when
    (negb (nonBlank paymentId)
     || negb (nonBlank orderId)
     || negb (nonBlank phaseId)
     || ((role !== lit "full") && (role !== lit "deposit") && (role !== lit "balance"))
     || negb (nonBlank previousResultId)
     || negb (nonBlank stateKey)
     || negb (nonBlank resultId)
     || negb (nonBlank attemptKey)
     || negb (nonBlank failureId)
     || negb (nonBlank provider)
     || (optional (aggregateId command) !== paymentId)
     || (optional (currentStateResultId command) !== previousResultId)
     || (optional (currentStateCommandKey command) !== stateKey)
     || (expectedPayment ?. "id" !== paymentId)
     || (expectedPayment ?. "orderId" !== orderId)
     || (expectedPayment ?. "phaseId" !== phaseId)
     || (expectedPayment ?. "role" !== role)
     || (expectedPayment ?. "provider" !== provider)
     || (expectedPayment ?. "status" !== lit "created")
     || (expectedPayment ?. "providerIntentId" !== Null)
     || (expectedPayment ?. "resultId" !== previousResultId)
     || (expectedPayment ?. "currentStateCommandKey" !== stateKey)
     || (expectedPayment ?. "immutable" !== Bool true)
     || (failedPayment ?. "id" !== paymentId)
     || (failedPayment ?. "orderId" !== orderId)
     || (failedPayment ?. "phaseId" !== phaseId)
     || (failedPayment ?. "role" !== role)
     || (failedPayment ?. "provider" !== provider)
     || (failedPayment ?. "previousStatus" !== lit "created")
     || (failedPayment ?. "targetStatus" !== lit "failed")
     || (failedPayment ?. "providerIntentId" !== Null)
     || (failedPayment ?. "intentCreationFailureResultId" !== failureId)
     || (failedPayment ?. "captureAuthorized" !== Bool false)
     || negb (is_instant captureCutoffAt)
     || (failedPayment ?. "resultId" !== resultId)
     || (failedPayment ?. "immutable" !== Bool true)
     || (failure ?. "id" !== failureId)
     || (failure ?. "paymentId" !== paymentId)
     || (failure ?. "provider" !== provider)
     || (failure ?. "attemptKey" !== attemptKey)
     || (failure ?. "outcome" !== lit "failed")
     || (failure ?. "providerIntentId" !== Null)
     || negb (is_instant failedAt)
     || negb (is_instant captureCutoffAt && sameInstant captureCutoffAt failedAt)
     || (failure ?. "resultId" !== resultId)
     || (failure ?. "immutable" !== Bool true)
     || (context_ ?. "paymentIntentFailurePaymentResultId" !== resultId)
     || (context_ ?. "paymentIntentFailureEvidenceResultId" !== resultId)
     || (context_ ?. "paymentIntentFailureCompleted" !== Bool true)
     || (context_ ?. "paymentIntentFailureAtomic" !== Bool true)).

Definition requireCreatedPaymentVoidClosure (command : TransitionCommand) : result () :=
  let context_ := context command in
  let paymentId := context_ ?. "paymentId" in
  let orderId := context_ ?. "orderId" in
  let phaseId := context_ ?. "phaseId" in
  let role := context_ ?. "paymentRole" in
  let previousPaymentResultId := context_ ?. "createdPaymentVoidPreviousPaymentResultId" in
  let paymentStateKey := context_ ?. "createdPaymentVoidCurrentStateCommandKey" in
  let previousOrderResultId := context_ ?. "initialCaptureClosePreviousOrderResultId" in
  let orderStateKey := context_ ?. "initialCaptureCloseOrderCurrentStateCommandKey" in
  let previousPhaseResultId := context_ ?. "createdPaymentVoidPreviousPhaseResultId" in
  let phaseStateKey := context_ ?. "createdPaymentVoidPhaseCurrentStateCommandKey" in
  let resultId := context_ ?. "createdPaymentVoidResultId" in
  let reservationSetId := context_ ?. "phaseReservationSetId" in
  let orderTarget := context_ ?. "initialCaptureCloseOrderTargetStatus" in
  let expectedReason :=
    if orderTarget === lit "expired" then lit "checkout_expired" else lit "checkout_cancelled" in
  let expectedPayment := record (context_ ?. "createdPaymentVoidExpectedPayment") in
  let voidedPayment := record (context_ ?. "createdPaymentVoidVoidedPayment") in
  let expectedOrder := record (context_ ?. "initialCaptureCloseExpectedOrder") in
  let expectedPhase := record (context_ ?. "createdPaymentVoidExpectedPhase") in
  guard_when
    (negb (nonBlank paymentId)
     || negb (nonBlank orderId)
     || negb (nonBlank phaseId)
     || ((role !== lit "full") && (role !== lit "deposit"))
     || negb (nonBlank previousPaymentResultId)
     || negb (nonBlank paymentStateKey)
     || negb (nonBlank previousOrderResultId)
     || negb (nonBlank orderStateKey)
     || negb (nonBlank previousPhaseResultId)
     || negb (nonBlank phaseStateKey)
     || negb (nonBlank resultId)
     || negb (nonBlank reservationSetId)
     || (optional (aggregateId command) !== paymentId)
     || (optional (currentStateResultId command) !== previousPaymentResultId)
     || (optional (currentStateCommandKey command) !== paymentStateKey)
     || (expectedPayment ?. "id" !== paymentId)
     || (expectedPayment ?. "orderId" !== orderId)
     || (expectedPayment ?. "phaseId" !== phaseId)
     || (expectedPayment ?. "role" !== role)
     || (expectedPayment ?. "status" !== lit "created")
     || (expectedPayment ?. "providerIntentId" !== Null)
     || (expectedPayment ?. "resultId" !== previousPaymentResultId)
     || (expectedPayment ?. "currentStateCommandKey" !== paymentStateKey)
     || (expectedPayment ?. "immutable" !== Bool true)
     || (voidedPayment ?. "id" !== paymentId)
     || (voidedPayment ?. "orderId" !== orderId)
     || (voidedPayment ?. "phaseId" !== phaseId)
     || (voidedPayment ?. "role" !== role)
     || (voidedPayment ?. "previousStatus" !== lit "created")
     || (voidedPayment ?. "targetStatus" !== lit "voided")
     || (voidedPayment ?. "providerIntentId" !== Null)
     || (voidedPayment ?. "captureAuthorized" !== Bool false)
     || negb (is_instant (voidedPayment ?. "captureCutoffAt"))
     || (voidedPayment ?. "resultId" !== resultId)
     || (voidedPayment ?. "immutable" !== Bool true)
     || (expectedOrder ?. "id" !== orderId)
     || (expectedOrder ?. "status" !== lit "quoted")
     || (expectedOrder ?. "resultId" !== previousOrderResultId)
     || (expectedOrder ?. "currentStateCommandKey" !== orderStateKey)
     || (expectedOrder ?. "immutable" !== Bool true)
     || (expectedPhase ?. "id" !== phaseId)
     || (expectedPhase ?. "orderId" !== orderId)
     || (expectedPhase ?. "kind" !== lit "single")
     || (expectedPhase ?. "status" !== lit "quoted")
     || (expectedPhase ?. "resultId" !== previousPhaseResultId)
     || (expectedPhase ?. "currentStateCommandKey" !== phaseStateKey)
     || (expectedPhase ?. "immutable" !== Bool true)
     || (context_ ?. "createdPaymentVoidProviderIntentAbsent" !== Bool true)
     || (context_ ?. "createdPaymentVoidProviderTransactionAbsent" !== Bool true)
     || (context_ ?. "createdPaymentVoidProviderVoidOutboxAbsent" !== Bool true)
     || (context_ ?. "initialPaymentRole" !== role)
     || (context_ ?. "initialPaymentId" !== paymentId)
     || (context_ ?. "initialPaymentOrderId" !== orderId)
     || (context_ ?. "initialPaymentStatus" !== lit "voided")
     || (context_ ?. "initialCaptureClosePaymentId" !== paymentId)
     || (context_ ?. "initialCaptureCloseOrderId" !== orderId)
     || (context_ ?. "initialCaptureClosePhaseId" !== phaseId)
     || (context_ ?. "initialCaptureClosePhaseOrderId" !== orderId)
     || (context_ ?. "phaseKind" !== lit "single")
     || (context_ ?. "initialCaptureCloseReservationSetId" !== reservationSetId)
     || (context_ ?. "initialCaptureCloseReservationSetOrderId" !== orderId)
     || (context_ ?. "initialCaptureCloseReservationSetPhaseId" !== phaseId)
     || (context_ ?. "initialCaptureCloseOrderPreviousStatus" !== lit "quoted")
     || ((orderTarget !== lit "expired") && (orderTarget !== lit "cancelled"))
     || (context_ ?. "initialCaptureClosePhasePreviousStatus" !== lit "quoted")
     || (context_ ?. "initialCaptureClosePhaseTargetStatus" !== lit "cancelled")
     || (context_ ?. "initialCaptureCloseReason" !== expectedReason)
     || (context_ ?. "createdPaymentVoidPaymentResultId" !== resultId)
     || (context_ ?. "createdPaymentVoidOrderResultId" !== resultId)
     || (context_ ?. "createdPaymentVoidPhaseResultId" !== resultId)
     || (context_ ?. "createdPaymentVoidReservationResultId" !== resultId)
     || (context_ ?. "createdPaymentVoidCompleted" !== Bool true)
     || (context_ ?. "createdPaymentVoidAtomic" !== Bool true)) ;;
  foldM (λ _ flag, requireFlag command flag) ()
    ["captureAuthorizationDisabled"; "captureWindowClosed"; "captureCutoffSet";
     "initialCaptureWindowClosed"; "initialCaptureCutoffSet"; "preCapturePhaseCancelled";
     "preCaptureFulfilmentSlotsCancelled"; "preCaptureReservationsReleased";
     "initialCaptureCloseAtomic"]%string.

Definition requireExactPendingPaymentFailure (command : TransitionCommand) : result () :=
  let context_ := context command in
  let paymentId := context_ ?. "paymentId" in
  let orderId := context_ ?. "orderId" in
  let phaseId := context_ ?. "phaseId" in
  let role := context_ ?. "paymentRole" in
  let providerEventId := context_ ?. "paymentFailureProviderEventId" in
  let providerTransactionId := context_ ?. "providerPaymentTransactionId" in
  let previousResultId := context_ ?. "paymentFailurePreviousPaymentResultId" in
  let resultId := context_ ?. "paymentFailureResultId" in
  let stateKey := context_ ?. "paymentFailureCurrentStateCommandKey" in
  let expectedValue := context_ ?. "paymentFailureExpectedPayment" in
  let expected := record expectedValue in
  let failedValue := context_ ?. "paymentFailureFailedPayment" in
  let failed := record failedValue in
  let eventValue := context_ ?. "paymentFailureProviderEvent" in
  let event := record eventValue in
  let transactionValue := context_ ?. "paymentFailureProviderTransaction" in
  let transaction := record transactionValue in
  let eventOccurredAt := event ?. "occurredAt" in
  let eventVerifiedAt := event ?. "verifiedAt" in
  let captureCutoffAt := failed ?. "captureCutoffAt" in
  guard_when
    (negb (nonBlank paymentId)
     || negb (nonBlank orderId)
     || negb (nonBlank phaseId)
     || ((role !== lit "full") && (role !== lit "deposit") && (role !== lit "balance"))
     || negb (nonBlank providerEventId)
     || negb (nonBlank providerTransactionId)
     || negb (nonBlank previousResultId)
     || negb (nonBlank resultId)
     || negb (nonBlank stateKey)
     || (optional (aggregateId command) !== paymentId)
     || negb (nonBlank (optional (currentStateResultId command)))
     || (optional (currentStateResultId command) !== previousResultId)
     || (optional (currentStateCommandKey command) !== stateKey)
     || (context_ ?. "providerEventPaymentId" !== paymentId)
     || (context_ ?. "providerPaymentEventStatus" !== lit "failed")
     || (context_ ?. "providerPaymentEventAuthenticated" !== Bool true)
     || (context_ ?. "providerPaymentEventVerified" !== Bool true)
     || (expected ?. "id" !== paymentId)
     || (expected ?. "orderId" !== orderId)
     || (expected ?. "phaseId" !== phaseId)
     || (expected ?. "role" !== role)
     || (expected ?. "status" !== lit "pending")
     || negb (nonBlank (expected ?. "provider"))
     || (expected ?. "provider" !== event ?. "provider")
     || (expected ?. "providerIntentId" !== providerTransactionId)
     || negb (is_bigint (expected ?. "requestedAmountMinor"))
     || js_le (expected ?. "requestedAmountMinor") (BigIntV 0)
     || negb (nonBlank (expected ?. "currency"))
     || (expected ?. "captureAuthorized" !== Bool true)
     || (expected ?. "captureCutoffAt" !== Null)
     || (expected ?. "resultId" !== previousResultId)
     || (expected ?. "currentStateCommandKey" !== stateKey)
     || (expected ?. "immutable" !== Bool true)
     || (failed ?. "id" !== paymentId)
     || (failed ?. "orderId" !== orderId)
     || (failed ?. "phaseId" !== phaseId)
     || (failed ?. "role" !== role)
     || (failed ?. "previousStatus" !== lit "pending")
     || (failed ?. "targetStatus" !== lit "failed")
     || (failed ?. "provider" !== expected ?. "provider")
     || (failed ?. "providerIntentId" !== providerTransactionId)
     || (failed ?. "requestedAmountMinor" !== expected ?. "requestedAmountMinor")
     || (failed ?. "currency" !== expected ?. "currency")
     || (failed ?. "captureAuthorized" !== Bool false)
     || negb (is_instant captureCutoffAt)
     || (failed ?. "resultId" !== resultId)
     || (failed ?. "immutable" !== Bool true)
     || (event ?. "id" !== providerEventId)
     || (event ?. "paymentId" !== paymentId)
     || (event ?. "provider" !== expected ?. "provider")
     || (event ?. "transactionId" !== providerTransactionId)
     || (event ?. "kind" !== lit "PAYMENT_FAILED")
     || (event ?. "amountMinor" !== expected ?. "requestedAmountMinor")
     || (event ?. "currency" !== expected ?. "currency")
     || (event ?. "status" !== lit "failed")
     || (event ?. "authenticated" !== Bool true)
     || (event ?. "verified" !== Bool true)
     || negb (is_instant eventOccurredAt)
     || negb (is_instant eventVerifiedAt)
     || negb (is_instant captureCutoffAt && sameInstant captureCutoffAt eventVerifiedAt)
     || (event ?. "resultId" !== resultId)
     || (event ?. "immutable" !== Bool true)
     || (transaction ?. "id" !== providerTransactionId)
     || (transaction ?. "paymentId" !== paymentId)
     || (transaction ?. "eventId" !== providerEventId)
     || (transaction ?. "status" !== lit "failed")
     || (transaction ?. "resultId" !== resultId)
     || (transaction ?. "immutable" !== Bool true)
     || (context_ ?. "paymentFailurePaymentResultId" !== resultId)
     || (context_ ?. "paymentFailureProviderEventResultId" !== resultId)
     || (context_ ?. "paymentFailureProviderTransactionResultId" !== resultId)
     || (context_ ?. "paymentFailureCompleted" !== Bool true)
     || (context_ ?. "paymentFailureAtomic" !== Bool true)).

Definition requireExactPendingCaptureWindow (command : TransitionCommand)
    (expectedOutcome : value) : result () :=
  let context_ := context command in
  let paymentId := context_ ?. "paymentId" in
  let orderId := context_ ?. "orderId" in
  let phaseId := context_ ?. "phaseId" in
  let role := context_ ?. "paymentRole" in
  let windowId := context_ ?. "paymentCaptureWindowId" in
  let windowResultId := context_ ?. "paymentCaptureWindowResultId" in
  let evaluationResultId := context_ ?. "captureEvaluationResultId" in
  let previousPaymentResultId := context_ ?. "captureEvaluationPreviousPaymentResultId" in
  let stateKey := context_ ?. "captureEvaluationCurrentStateCommandKey" in
  let evaluatedAt := context_ ?. "captureEvaluatedAt" in
  let expectedPaymentValue := context_ ?. "captureEvaluationExpectedPayment" in
  let expectedPayment := record expectedPaymentValue in
  let windowValue := context_ ?. "paymentCaptureWindow" in
  let window := record windowValue in
  let eventValue := context_ ?. "captureProviderEvent" in
  let event := record eventValue in
  let opensAt := window ?. "opensAt" in
  let cutoffAt := window ?. "cutoffAt" in
  let verifiedAt := event ?. "verifiedAt" in
  let providerEventId := context_ ?. "captureProviderEventId" in
  let providerTransactionId := context_ ?. "providerPaymentTransactionId" in
  let windowKind := if role === lit "balance" then lit "balance_deadline" else lit "checkout" in
  let persistedCutoff :=
    if role === lit "balance"
    then context_ ?. "balanceDueAt"
    else context_ ?. "checkoutCaptureExpiresAt" in
  let inWindow :=
    is_instant opensAt
    && is_instant cutoffAt
    && is_instant evaluatedAt
    && (0 <=? compareV evaluatedAt opensAt)
    && (compareV evaluatedAt cutoffAt <? 0) in
  let expired :=
    is_instant cutoffAt && is_instant evaluatedAt && (0 <=? compareV evaluatedAt cutoffAt) in
  guard_when
    (negb (nonBlank paymentId)
     || negb (nonBlank orderId)
     || negb (nonBlank phaseId)
     || ((role !== lit "full") && (role !== lit "deposit") && (role !== lit "balance"))
     || negb (nonBlank windowId)
     || negb (nonBlank windowResultId)
     || negb (nonBlank evaluationResultId)
     || negb (nonBlank previousPaymentResultId)
     || negb (nonBlank stateKey)
     || negb (nonBlank providerEventId)
     || negb (nonBlank providerTransactionId)
     || negb (is_instant opensAt)
     || negb (is_instant cutoffAt)
     || negb (is_instant evaluatedAt)
     || negb (is_instant persistedCutoff)
     || (0 <=? compareV opensAt cutoffAt)
     || negb (sameInstant cutoffAt persistedCutoff)
     || (optional (aggregateId command) !== paymentId)
     || negb (nonBlank (optional (currentStateResultId command)))
     || (optional (currentStateResultId command) !== previousPaymentResultId)
     || (optional (currentStateCommandKey command) !== stateKey)
     || (expectedPayment ?. "id" !== paymentId)
     || (expectedPayment ?. "orderId" !== orderId)
     || (expectedPayment ?. "phaseId" !== phaseId)
     || (expectedPayment ?. "role" !== role)
     || (expectedPayment ?. "status" !== lit "pending")
     || negb (nonBlank (expectedPayment ?. "provider"))
     || negb (is_bigint (expectedPayment ?. "requestedAmountMinor"))
     || js_le (expectedPayment ?. "requestedAmountMinor") (BigIntV 0)
     || negb (nonBlank (expectedPayment ?. "currency"))
     || (expectedPayment ?. "resultId" !== previousPaymentResultId)
     || (expectedPayment ?. "currentStateCommandKey" !== stateKey)
     || (expectedPayment ?. "immutable" !== Bool true)
     || (window ?. "id" !== windowId)
     || (window ?. "paymentId" !== paymentId)
     || (window ?. "orderId" !== orderId)
     || (window ?. "phaseId" !== phaseId)
     || (window ?. "role" !== role)
     || (window ?. "kind" !== windowKind)
     || (window ?. "immutable" !== Bool true)
     || (window ?. "resultId" !== windowResultId)
     || (context_ ?. "captureEvaluationPaymentId" !== paymentId)
     || (context_ ?. "captureEvaluationOrderId" !== orderId)
     || (context_ ?. "captureEvaluationPhaseId" !== phaseId)
     || (context_ ?. "captureEvaluationWindowId" !== windowId)
     || (context_ ?. "captureEvaluationWindowResultId" !== windowResultId)
     || (context_ ?. "captureEvaluationOutcome" !== expectedOutcome)
     || (event ?. "id" !== providerEventId)
     || (event ?. "paymentId" !== paymentId)
     || (event ?. "provider" !== expectedPayment ?. "provider")
     || (event ?. "transactionId" !== providerTransactionId)
     || (event ?. "kind" !== lit "PAYMENT_CAPTURED")
     || (event ?. "amountMinor" !== expectedPayment ?. "requestedAmountMinor")
     || (event ?. "currency" !== expectedPayment ?. "currency")
     || (event ?. "status" !== lit "captured")
     || negb (is_instant (event ?. "occurredAt"))
     || negb (is_instant verifiedAt)
     || negb (sameInstant verifiedAt evaluatedAt)
     || (event ?. "authenticated" !== Bool true)
     || (event ?. "verified" !== Bool true)
     || (event ?. "immutable" !== Bool true)
     || (event ?. "resultId" !== evaluationResultId)
     || (context_ ?. "captureEvaluationPaymentResultId" !== evaluationResultId)
     || (context_ ?. "captureEvaluationProviderEventResultId" !== evaluationResultId)
     || (context_ ?. "captureEvaluationActivationResultId" !== evaluationResultId)
     || (context_ ?. "captureEvaluationCompleted" !== Bool true)
     || (context_ ?. "captureEvaluationAtomic" !== Bool true)
     || (if expectedOutcome === lit "within_window" then negb inWindow else negb expired)) ;;
  when (role === lit "balance") (requireBalancePaymentDeadlineSetup command false).

Definition requireVerifiedLateCaptureCompensation (command : TransitionCommand) : result () :=
  guard_when ((context command) ?. "paymentCaptureKind" !== lit "late_capture") ;;
  let paymentId := (context command) ?. "paymentId" in
  let previousResultId := (context command) ?. "lateCaptureCompensationPreviousPaymentResultId" in
  let stateKey := (context command) ?. "lateCaptureCompensationCurrentStateCommandKey" in
  let expectedValue := (context command) ?. "lateCaptureCompensationExpectedPayment" in
  let expected := record expectedValue in
  let providerTransactionId := (context command) ?. "providerPaymentTransactionId" in
  let refundTransactionId := (context command) ?. "refundTransactionId" in
  let failureEventValue := (context command) ?. "paymentFailureProviderEvent" in
  let failureEvent := record failureEventValue in
  let captureCutoffAt := expected ?. "captureCutoffAt" in
  let failureVerifiedAt := failureEvent ?. "verifiedAt" in
  let captureEventValue := (context command) ?. "captureProviderEvent" in
  let captureEvent := record captureEventValue in
  let captureEventId := (context command) ?. "lateCaptureProviderEventId" in
  let captureResultId := (context command) ?. "lateCaptureCompensationResultId" in
  let capturedAt := (context command) ?. "lateCaptureCapturedAt" in
  let captureOccurredAt := captureEvent ?. "occurredAt" in
  let captureVerifiedAt := captureEvent ?. "verifiedAt" in
  guard_when
    ((currentIs command "voided" || currentIs command "failed")
     && targetIs command "refund_pending"
     && (negb (nonBlank paymentId)
         || negb (nonBlank previousResultId)
         || negb (nonBlank stateKey)
         || (optional (aggregateId command) !== paymentId)
         || (optional (currentStateCommandKey command) !== stateKey)
         || (optional (currentStateResultId command) !== previousResultId)
         || (expected ?. "id" !== paymentId)
         || (expected ?. "orderId" !== (context command) ?. "orderId")
         || (expected ?. "phaseId" !== (context command) ?. "phaseId")
         || (expected ?. "role" !== (context command) ?. "paymentRole")
         || (expected ?. "status" !== Str (current command))
         || (expected ?. "resultId" !== previousResultId)
         || (expected ?. "currentStateCommandKey" !== stateKey)
         || (expected ?. "immutable" !== Bool true)
         || ((context command) ?. "providerEventPaymentId" !== paymentId)
         || ((context command) ?. "lateCaptureCompensationPaymentId" !== paymentId)
         || ((context command) ?. "lateCaptureRefundTransactionPaymentId" !== paymentId))) ;;
  guard_when
    ((currentIs command "voided" || currentIs command "failed")
     && targetIs command "refund_pending"
     && (negb (nonBlank (expected ?. "provider"))
         || negb (is_bigint (expected ?. "requestedAmountMinor"))
         || js_le (expected ?. "requestedAmountMinor") (BigIntV 0)
         || negb (nonBlank (expected ?. "currency"))
         || (expected ?. "captureAuthorized" !== Bool false)
         || negb (is_instant captureCutoffAt)
         || negb (nonBlank captureEventId)
         || negb (nonBlank captureResultId)
         || ((context command) ?. "captureProviderEventId" !== captureEventId)
         || (captureEvent ?. "id" !== captureEventId)
         || (captureEvent ?. "paymentId" !== paymentId)
         || (captureEvent ?. "provider" !== expected ?. "provider")
         || (captureEvent ?. "transactionId" !== providerTransactionId)
         || (captureEvent ?. "kind" !== lit "PAYMENT_CAPTURED")
         || (captureEvent ?. "amountMinor" !== expected ?. "requestedAmountMinor")
         || (captureEvent ?. "currency" !== expected ?. "currency")
         || (captureEvent ?. "status" !== lit "captured")
         || (captureEvent ?. "authenticated" !== Bool true)
         || (captureEvent ?. "verified" !== Bool true)
         || negb (is_instant captureOccurredAt)
         || negb (is_instant captureVerifiedAt)
         || negb (is_instant capturedAt)
         || negb (sameInstant captureVerifiedAt capturedAt)
         || (compareV captureVerifiedAt captureCutoffAt <? 0)
         || (captureEvent ?. "resultId" !== captureResultId)
         || ((context command) ?. "lateCaptureProviderEventResultId" !== captureResultId)
         || (captureEvent ?. "immutable" !== Bool true))) ;;
  guard_when
    (currentIs command "failed"
     && (negb (nonBlank (expected ?. "providerIntentId"))
         || negb (nonBlank (expected ?. "providerFailureEventId"))
         || ((context command) ?. "paymentFailureProviderEventId"
               !== expected ?. "providerFailureEventId")
         || ((context command) ?. "paymentFailureResultId" !== previousResultId)
         || (failureEvent ?. "id" !== expected ?. "providerFailureEventId")
         || (failureEvent ?. "paymentId" !== paymentId)
         || (failureEvent ?. "transactionId" !== expected ?. "providerIntentId")
         || (failureEvent ?. "provider" !== expected ?. "provider")
         || (failureEvent ?. "amountMinor" !== expected ?. "requestedAmountMinor")
         || (failureEvent ?. "currency" !== expected ?. "currency")
         || (failureEvent ?. "status" !== lit "failed")
         || (failureEvent ?. "authenticated" !== Bool true)
         || (failureEvent ?. "verified" !== Bool true)
         || negb (is_instant failureVerifiedAt)
         || negb (is_instant captureCutoffAt)
         || negb (sameInstant failureVerifiedAt captureCutoffAt)
         || (failureEvent ?. "resultId" !== previousResultId)
         || (failureEvent ?. "immutable" !== Bool true))) ;;
  guard_when
    (negb (nonBlank providerTransactionId)
     || ((context command) ?. "lateCaptureCompensationProviderTransactionId"
           !== providerTransactionId)
     || ((context command) ?. "lateCaptureRefundTransactionProviderTransactionId"
           !== providerTransactionId)) ;;
  guard_when
    (negb (nonBlank refundTransactionId)
     || ((context command) ?. "lateCaptureCompensationRefundTransactionId"
           !== refundTransactionId)) ;;
  requireFlag command "verifiedLateCapture" ;;
  requireFlag command "providerPaymentEventAuthenticated" ;;
  requireFlag command "providerPaymentEventVerified" ;;
  guard_when ((context command) ?. "providerPaymentEventStatus" !== lit "captured") ;;
  requireFlag command "lateCaptureCompensationCreated" ;;
  requireFlag command "scopedRefundTransactionCreated" ;;
  requireFlag command "lateCaptureRefundIsFull" ;;
  requireFlag command "lateCaptureRefundIdempotencyKeyValid" ;;
  requireFlag command "lateCaptureExcludedFromSettlement" ;;
  requireFlag command "lateCaptureCompensationAtomic".

Definition requireExactPartiallyRefundedPaymentSource (lifecycle : jstr)
    (command : TransitionCommand) : result () :=
  if negb (str_eqb lifecycle (js "Payment"))
     || negb (currentIs command "partially_refunded")
     || negb (targetIs command "refund_pending") then
    Ok ()
  else
  let context_ := context command in
  let paymentId := context_ ?. "paymentId" in
  let orderId := context_ ?. "orderId" in
  let phaseId := context_ ?. "phaseId" in
  let role := context_ ?. "paymentRole" in
  let kind := context_ ?. "compensationRefundRetryKind" in
  let previousResultId := context_ ?. "compensationRefundRetryPreviousPaymentResultId" in
  let stateKey := context_ ?. "compensationRefundRetryCurrentStateCommandKey" in
  let expectedValue := context_ ?. "compensationRefundRetryExpectedPayment" in
  let expected := record expectedValue in
  guard_when
    (((kind !== lit "initial_checkout_capacity") && (kind !== lit "late_capture"))
     || negb (nonBlank paymentId)
     || negb (nonBlank orderId)
     || negb (nonBlank phaseId)
     || ((role !== lit "full") && (role !== lit "deposit") && (role !== lit "balance"))
     || negb (nonBlank previousResultId)
     || negb (nonBlank stateKey)
     || negb (nonBlank (optional (aggregateId command)))
     || (optional (aggregateId command) !== paymentId)
     || negb (nonBlank (optional (currentStateResultId command)))
     || (optional (currentStateResultId command) !== previousResultId)
     || (optional (currentStateCommandKey command) !== stateKey)
     || (context_ ?. "compensationRefundRetryPaymentId" !== paymentId)
     || (context_ ?. "compensationRefundRetryPreviousStatus" !== lit "partially_refunded")
     || (context_ ?. "compensationRefundRetryTargetStatus" !== lit "refund_pending")
     || (expected ?. "id" !== paymentId)
     || (expected ?. "orderId" !== orderId)
     || (expected ?. "phaseId" !== phaseId)
     || (expected ?. "role" !== role)
     || (expected ?. "status" !== lit "partially_refunded")
     || (expected ?. "resultId" !== previousResultId)
     || (expected ?. "currentStateCommandKey" !== stateKey)
     || (expected ?. "immutable" !== Bool true)).

Definition requireCompensationRefundRetry (lifecycle : jstr) (command : TransitionCommand)
    : result () :=
  requireExactPartiallyRefundedPaymentSource lifecycle command ;;
  let kind := (context command) ?. "compensationRefundRetryKind" in
  (if kind === lit "initial_checkout_capacity" then
    requireInitialCapacityCaptureCompensation lifecycle command
  else
    if kind === lit "late_capture" then
      requireVerifiedLateCaptureCompensation command
    else
    Throw TransitionGuardError) ;;
  requireFlag command "compensationRefundOutstanding" ;;
  requireFlag command "compensationRefundRetryAtomic".

Definition requireRoleSpecificPaymentVoidClosure (command : TransitionCommand) : result () :=
  let paymentId := (context command) ?. "paymentId" in
  let paymentRole := (context command) ?. "paymentRole" in
  let orderId := (context command) ?. "orderId" in
  let phaseId := (context command) ?. "phaseId" in
  let providerTransactionId := (context command) ?. "providerPaymentTransactionId" in
  let previousResultId := (context command) ?. "paymentVoidPreviousPaymentResultId" in
  let stateKey := (context command) ?. "paymentVoidCurrentStateCommandKey" in
  let expectedValue := (context command) ?. "paymentVoidExpectedPayment" in
  let expected := record expectedValue in
  guard_when
    (negb (nonBlank paymentId)
     || (optional (aggregateId command) !== paymentId)
     || negb (nonBlank previousResultId)
     || negb (nonBlank stateKey)
     || negb (nonBlank (optional (currentStateResultId command)))
     || (optional (currentStateResultId command) !== previousResultId)
     || (optional (currentStateCommandKey command) !== stateKey)
     || ((context command) ?. "paymentVoidPaymentId" !== paymentId)
     || negb (nonBlank orderId)
     || negb (nonBlank phaseId)
     || negb (nonBlank providerTransactionId)
     || ((context command) ?. "paymentVoidProviderTransactionId" !== providerTransactionId)
     || ((context command) ?. "providerVoidOutboxPaymentId" !== paymentId)
     || ((context command) ?. "providerVoidOutboxProviderTransactionId" !== providerTransactionId)
     || ((context command) ?. "paymentVoidPreviousStatus" !== lit "pending")
     || ((context command) ?. "paymentVoidTargetStatus" !== lit "voided")
     || (expected ?. "id" !== paymentId)
     || (expected ?. "orderId" !== orderId)
     || (expected ?. "phaseId" !== phaseId)
     || (expected ?. "role" !== paymentRole)
     || (expected ?. "status" !== lit "pending")
     || (expected ?. "resultId" !== previousResultId)
     || (expected ?. "currentStateCommandKey" !== stateKey)
     || (expected ?. "immutable" !== Bool true)) ;;
  requireFlag command "captureAuthorizationDisabled" ;;
  requireFlag command "captureWindowClosed" ;;
  requireFlag command "captureCutoffSet" ;;
  requireFlag command "providerVoidOutboxCreated" ;;
  if (paymentRole === lit "full") || (paymentRole === lit "deposit") then
    let phaseReservationSetId := (context command) ?. "phaseReservationSetId" in
    let orderTarget := (context command) ?. "initialCaptureCloseOrderTargetStatus" in
    let expectedReason :=
      if orderTarget === lit "expired"
      then lit "checkout_expired"
      else lit "checkout_cancelled" in
    guard_when
      (((context command) ?. "initialPaymentRole" !== paymentRole)
       || ((context command) ?. "initialPaymentId" !== paymentId)
       || ((context command) ?. "initialPaymentOrderId" !== orderId)
       || ((context command) ?. "initialCaptureClosePaymentId" !== paymentId)
       || ((context command) ?. "initialCaptureCloseOrderId" !== orderId)
       || ((context command) ?. "initialCaptureClosePhaseId" !== phaseId)
       || ((context command) ?. "initialCaptureClosePhaseOrderId" !== orderId)
       || ((context command) ?. "phaseKind" !== lit "single")
       || negb (nonBlank phaseReservationSetId)
       || ((context command) ?. "initialCaptureCloseReservationSetId" !== phaseReservationSetId)
       || ((context command) ?. "initialCaptureCloseReservationSetOrderId" !== orderId)
       || ((context command) ?. "initialCaptureCloseReservationSetPhaseId" !== phaseId)
       || ((context command) ?. "initialPaymentStatus" !== lit "voided")
       || ((context command) ?. "initialCaptureCloseOrderPreviousStatus" !== lit "quoted")
       || ((orderTarget !== lit "expired") && (orderTarget !== lit "cancelled"))
       || ((context command) ?. "initialCaptureClosePhasePreviousStatus" !== lit "quoted")
       || ((context command) ?. "initialCaptureClosePhaseTargetStatus" !== lit "cancelled")
       || ((context command) ?. "initialCaptureCloseReason" !== expectedReason)) ;;
    foldM (λ _ flag, requireFlag command flag) ()
      ["initialCaptureWindowClosed"; "initialCaptureCutoffSet";
       "initialPaymentVoidOutboxCreated"; "preCapturePhaseCancelled";
       "preCaptureFulfilmentSlotsCancelled"; "preCaptureReservationsReleased";
       "initialCaptureCloseAtomic"]%string
  else if paymentRole === lit "balance" then
    let orderSettlementId := (context command) ?. "orderSettlementId" in
    guard_when
      (((context command) ?. "balancePaymentRole" !== lit "balance")
       || ((context command) ?. "balancePaymentId" !== paymentId)
       || ((context command) ?. "balancePaymentOrderId" !== orderId)
       || ((context command) ?. "balancePaymentPhaseId" !== phaseId)
       || ((context command) ?. "balancePaymentPhaseOrderId" !== orderId)
       || ((context command) ?. "phaseKind" !== lit "single")
       || ((context command) ?. "balancePaymentVoidOrderPreviousStatus"
             !== lit "awaiting_balance")
       || ((context command) ?. "balancePaymentVoidOrderTargetStatus" !== lit "cancelled_settled")
       || ((context command) ?. "balancePaymentVoidPhasePreviousStatus" !== lit "qc_passed")
       || ((context command) ?. "balancePaymentVoidPhaseIntermediateStatus" !== lit "cancelled")
       || ((context command) ?. "balancePaymentVoidPhaseTargetStatus" !== lit "cancelled_settled")
       || ((context command) ?. "balancePaymentSettlementPaymentId" !== paymentId)
       || ((context command) ?. "balancePaymentSettlementOrderId" !== orderId)
       || negb (nonBlank orderSettlementId)
       || ((context command) ?. "balancePaymentSettlementId" !== orderSettlementId)
       || ((context command) ?. "balancePaymentSettlementKind" !== lit "balance_timeout")) ;;
    requireFlag command "balancePaymentSettlementCreated" ;;
    requireFlag command "balancePaymentSettlementImmutable" ;;
    requireFlag command "preHandoffShipmentCancellationsCompleted" ;;
    requireFlag command "balancePaymentVoidPhaseCancellationCompleted" ;;
    requireFlag command "balancePaymentVoidTerminalPhaseCompleted" ;;
    requireFlag command "balancePaymentVoidTerminalPhaseAtomic" ;;
    requireFlag command "balancePaymentVoidAtomic"
  else
  Throw TransitionGuardError.

Definition requireExactOrdinaryRefundSetup (command : TransitionCommand) : result () :=
  let paymentId := (context command) ?. "paymentId" in
  let orderId := (context command) ?. "orderId" in
  let phaseId := (context command) ?. "phaseId" in
  let paymentRole := (context command) ?. "paymentRole" in
  let providerTransactionId := (context command) ?. "providerPaymentTransactionId" in
  let priceAdjustmentId := (context command) ?. "priceAdjustmentId" in
  let refundTransactionId := (context command) ?. "refundTransactionId" in
  let amountMinor := (context command) ?. "ordinaryRefundAmountMinor" in
  let previousResultId := (context command) ?. "ordinaryRefundPreviousPaymentResultId" in
  let stateKey := (context command) ?. "ordinaryRefundCurrentStateCommandKey" in
  let expectedValue := (context command) ?. "ordinaryRefundExpectedPayment" in
  let expected := record expectedValue in
  guard_when
    (negb (nonBlank paymentId)
     || (optional (aggregateId command) !== paymentId)
     || negb (nonBlank previousResultId)
     || negb (nonBlank stateKey)
     || (optional (currentStateCommandKey command) !== stateKey)
     || ((context command) ?. "ordinaryRefundPaymentId" !== paymentId)
     || negb (nonBlank orderId)
     || ((context command) ?. "ordinaryRefundOrderId" !== orderId)
     || negb (nonBlank phaseId)
     || ((paymentRole !== lit "full")
         && (paymentRole !== lit "deposit")
         && (paymentRole !== lit "balance"))
     || (negb (currentIs command "captured") && negb (currentIs command "partially_refunded"))
     || negb (nonBlank (optional (currentStateResultId command)))
     || (optional (currentStateResultId command) !== previousResultId)
     || (expected ?. "id" !== paymentId)
     || (expected ?. "orderId" !== orderId)
     || (expected ?. "phaseId" !== phaseId)
     || (expected ?. "role" !== paymentRole)
     || (expected ?. "status" !== Str (current command))
     || (expected ?. "resultId" !== previousResultId)
     || (expected ?. "currentStateCommandKey" !== stateKey)
     || (expected ?. "immutable" !== Bool true)
     || negb (nonBlank providerTransactionId)
     || ((context command) ?. "ordinaryRefundCaptureTransactionId" !== providerTransactionId)
     || negb (nonBlank priceAdjustmentId)
     || ((context command) ?. "ordinaryRefundPriceAdjustmentId" !== priceAdjustmentId)
     || ((context command) ?. "priceAdjustmentOrderId" !== orderId)
     || ((context command) ?. "priceAdjustmentPaymentId" !== paymentId)
     || ((context command) ?. "priceAdjustmentStatus" !== lit "active")
     || negb (nonBlank refundTransactionId)
     || ((context command) ?. "ordinaryRefundTransactionId" !== refundTransactionId)
     || ((context command) ?. "refundTransactionPaymentId" !== paymentId)
     || ((context command) ?. "refundTransactionOrderId" !== orderId)
     || ((context command) ?. "refundTransactionPriceAdjustmentId" !== priceAdjustmentId)
     || negb (is_bigint amountMinor)
     || js_le amountMinor (BigIntV 0)
     || ((context command) ?. "priceAdjustmentRefundAmountMinor" !== amountMinor)
     || ((context command) ?. "refundTransactionAmountMinor" !== amountMinor)) ;;
  requireFlag command "scopedRefundTransactionCreated" ;;
  requireFlag command "refundPriceAdjustmentActivated" ;;
  requireFlag command "ordinaryRefundAtomic".

(** ** The policy *)

Definition paymentGuard (command : TransitionCommand) : result () :=
  when (currentIs command "created" && targetIs command "pending")
    (requireExactPaymentIntentSetup command) ;;
  when (currentIs command "created" && targetIs command "failed")
    (requireExactPaymentIntentCreationFailure command) ;;
  when (currentIs command "created" && targetIs command "voided")
    (requireCreatedPaymentVoidClosure command) ;;
  when (currentIs command "pending" && targetIs command "captured") (
    guard_when ((context command) ?. "paymentCaptureKind" !== lit "settlement") ;;
    requireExactPendingCaptureWindow command (lit "within_window") ;;
    requireFlag command "captureAuthorized" ;;
    requireVerifiedMatchingProviderPaymentEvent command ;;
    requireInitialSettlementCaptureActivation (js "Payment") command) ;;
  when (currentIs command "pending" && targetIs command "refund_pending") (
    (if (context command) ?. "paymentCaptureKind" === lit "late_capture" then
      requireExactPendingCaptureWindow command (lit "expired") ;;
      requireVerifiedLateCaptureCompensation command
    else
      guard_when ((context command) ?. "initialPaymentStatus" !== lit "refund_pending") ;;
      requireInitialCapacityCaptureCompensation (js "Payment") command)) ;;
  when (currentIs command "voided" && targetIs command "refund_pending")
    (requireVerifiedLateCaptureCompensation command) ;;
  when (currentIs command "failed" && targetIs command "refund_pending")
    (requireVerifiedLateCaptureCompensation command) ;;
  when (currentIs command "pending" && targetIs command "failed") (
    requireVerifiedMatchingProviderPaymentEvent command ;;
    requireExactPendingPaymentFailure command) ;;
  when (currentIs command "pending" && targetIs command "voided")
    (requireRoleSpecificPaymentVoidClosure command) ;;
  when (currentIs command "captured" && targetIs command "refund_pending") (
    (if (context command) ?. "paymentCaptureKind" === lit "late_refund_success" then
      requireExactLateRefundSuccessReconciliation command (lit "start")
    else
      if (context command) ?. "paymentCaptureKind" !== lit "settlement" then
        Throw TransitionGuardError
      else
      requireExactOrdinaryRefundSetup command)) ;;
  when (currentIs command "partially_refunded" && targetIs command "refund_pending") (
    let captureKind := (context command) ?. "paymentCaptureKind" in
    (if (captureKind === lit "initial_checkout_capacity")
        || (captureKind === lit "late_capture") then
      guard_when ((context command) ?. "compensationRefundRetryKind" !== captureKind) ;;
      requireCompensationRefundRetry (js "Payment") command
    else
      (if captureKind === lit "late_refund_success" then
        requireExactLateRefundSuccessReconciliation command
          (if hasLateRefundSuccessRetryReconciliation (context command)
           then lit "reconcile_pending_retry"
           else lit "start")
      else
        (if captureKind === lit "late_refund_failure" then
          requireExactLateRefundFailureReconciliation command (lit "payment")
        else
          if captureKind === lit "settlement" then
            requireExactOrdinaryRefundSetup command
          else
          Throw TransitionGuardError)))) ;;
  (if currentIs command "refund_pending"
      && targetIs command "partially_refunded"
      && ((context command) ?. "paymentCaptureKind" === lit "refund_failure_rollback") then
    requireExactRefundFailureRollback command
  else
    when
      (currentIs command "refund_pending"
       && (targetIs command "partially_refunded" || targetIs command "refunded")) (
      (if ((context command) ?. "paymentCaptureKind" === lit "late_refund_success")
          && hasLateRefundSuccessRetryReconciliation (context command) then
        requireExactLateRefundSuccessReconciliation command (lit "reconcile_pending_retry")
      else
        requireExactPaymentRefundCompletion command))) ;;
  when (currentIs command "refund_pending" && targetIs command "captured")
    (requireExactRefundFailureRollback command) ;;
  when
    (currentIs command "refunded"
     && targetIs command "refund_pending"
     && ((context command) ?. "paymentCaptureKind" === lit "late_refund_success")) (
    guard_when (negb (hasLateRefundSuccessRetryReconciliation (context command))) ;;
    requireExactLateRefundSuccessReconciliation command (lit "reconcile_pending_retry")) ;;
  let lateRefundFailureEdge :=
    (currentIs command "refunded"
     && (targetIs command "captured"
         || targetIs command "partially_refunded"
         || (targetIs command "refund_pending"
             && ((context command) ?. "paymentCaptureKind" !== lit "late_refund_success"))))
    || (currentIs command "partially_refunded"
        && (targetIs command "captured"
            || (targetIs command "refund_pending"
                && ((context command) ?. "paymentCaptureKind" === lit "late_refund_failure")))) in
  when (lateRefundFailureEdge)
    (requireExactLateRefundFailureReconciliation command (lit "payment")).

Definition paymentReconciliation (command : TransitionCommand) : result bool :=
  if negb (currentIs command "refund_pending") || negb (targetIs command "refund_pending") then
    Ok false
  else if (context command) ?. "paymentCaptureKind" === lit "late_refund_failure" then
    requireExactLateRefundFailureReconciliation command (lit "payment") ;;
    Ok true
  else if (context command) ?. "paymentCaptureKind" === lit "late_refund_success" then
    requireExactLateRefundSuccessReconciliation command (lit "reconcile_pending_retry") ;;
    Ok true
  else
  Ok false.

Definition paymentContextualTerminal (state : Status) (context : value) : result bool :=
  Ok ((str_eqb state (js "refunded")
       && negb (hasExactLateRefundFailureMarker context)
       && negb (hasExactLateRefundSuccessSuspensionMarker context))
      || hasExactNoIntentPaymentTerminalSnapshot (Str state) context).

Definition paymentPolicy : TransitionPolicy :=
  mkPolicy (js "Payment") Lifecycles.paymentInitial Lifecycles.paymentTerminal
    (Some paymentContextualTerminal) Lifecycles.paymentTransitions (Some paymentReconciliation)
    (Some paymentGuard).

(** ** They fail only as guards *)

#[global] Typeclasses Opaque
  requireExactPaymentIntentSetup
  requireExactPaymentIntentCreationFailure
  requireCreatedPaymentVoidClosure
  requireExactPendingPaymentFailure
  requireExactPendingCaptureWindow
  requireVerifiedLateCaptureCompensation
  requireExactPartiallyRefundedPaymentSource
  requireCompensationRefundRetry
  requireRoleSpecificPaymentVoidClosure
  requireExactOrdinaryRefundSetup.

#[export] Instance guard_only_requireExactPaymentIntentSetup command :
  GuardOnly (requireExactPaymentIntentSetup command).
Proof. cbv beta delta [requireExactPaymentIntentSetup]. guard_only. Qed.

#[export] Instance guard_only_requireExactPaymentIntentCreationFailure command :
  GuardOnly (requireExactPaymentIntentCreationFailure command).
Proof. cbv beta delta [requireExactPaymentIntentCreationFailure]. guard_only. Qed.

#[export] Instance guard_only_requireCreatedPaymentVoidClosure command :
  GuardOnly (requireCreatedPaymentVoidClosure command).
Proof. cbv beta delta [requireCreatedPaymentVoidClosure]. guard_only. Qed.

#[export] Instance guard_only_requireExactPendingPaymentFailure command :
  GuardOnly (requireExactPendingPaymentFailure command).
Proof. cbv beta delta [requireExactPendingPaymentFailure]. guard_only. Qed.

#[export] Instance guard_only_requireExactPendingCaptureWindow command expectedOutcome :
  GuardOnly (requireExactPendingCaptureWindow command expectedOutcome).
Proof. cbv beta delta [requireExactPendingCaptureWindow]. guard_only. Qed.

#[export] Instance guard_only_requireVerifiedLateCaptureCompensation command :
  GuardOnly (requireVerifiedLateCaptureCompensation command).
Proof. cbv beta delta [requireVerifiedLateCaptureCompensation]. guard_only. Qed.

#[export] Instance guard_only_requireExactPartiallyRefundedPaymentSource lifecycle command :
  GuardOnly (requireExactPartiallyRefundedPaymentSource lifecycle command).
Proof. cbv beta delta [requireExactPartiallyRefundedPaymentSource]. guard_only. Qed.

#[export] Instance guard_only_requireCompensationRefundRetry lifecycle command :
  GuardOnly (requireCompensationRefundRetry lifecycle command).
Proof. cbv beta delta [requireCompensationRefundRetry]. guard_only. Qed.

#[export] Instance guard_only_requireRoleSpecificPaymentVoidClosure command :
  GuardOnly (requireRoleSpecificPaymentVoidClosure command).
Proof. cbv beta delta [requireRoleSpecificPaymentVoidClosure]. guard_only. Qed.

#[export] Instance guard_only_requireExactOrdinaryRefundSetup command :
  GuardOnly (requireExactOrdinaryRefundSetup command).
Proof. cbv beta delta [requireExactOrdinaryRefundSetup]. guard_only. Qed.

#[export] Instance guard_only_paymentGuard command : GuardOnly (paymentGuard command).
Proof. cbv beta delta [paymentGuard]. guard_only. Qed.

#[export] Instance guard_only_paymentReconciliation command : GuardOnly (paymentReconciliation command).
Proof. cbv beta delta [paymentReconciliation]. guard_only. Qed.

(** ** A refunded payment *)

Lemma payment_refunded_edge c : js "refunded" ∈ targets Lifecycles.paymentTransitions c → c = js "refund_pending".
Proof. by intros H%targets_sources%list_elem_of_singleton. Qed.

Lemma refunding command p :
  transition paymentPolicy command = Ok (changed p (js "refunded")) → ∃ id, refunded_in_full command id.
Proof.
  intros (-> & Ht & _ & Hin & Hg)%transition_changed. specialize (Hg _ eq_refl).
  apply payment_refunded_edge in Hin. unfold paymentGuard, currentIs, targetIs in Hg. rewrite Hin, <-Ht in Hg.
  literals Hg. symmetry in Ht. run_in Hg.
  destruct (_ && hasLateRefundSuccessRetryReconciliation _); guard_steps Hg.
  - by apply (reconciled_refund _ (lit "reconcile_pending_retry")); [| |right].
  - by apply completed_refund.
Qed.

(** C12: A payment that is refunded was refunded in full: some command recorded
    a complete set of its refunds, each its own and positive, none of them
    open, of which those that succeeded add up to exactly the captured
    amount. *)
Theorem payment_refunded_in_full s0 cs :
  history paymentPolicy s0 cs (js "refunded") →
  ∃ c p id, c ∈ cs ∧ transition paymentPolicy c = Ok (changed p (js "refunded")) ∧ refunded_in_full c id.
Proof.
  intros [[=]%list_elem_of_singleton|(pre & c & post & -> & _ & Hc)]%history_entered_from.
  destruct (refunding _ _ Hc) as [id Hid]. exists c, (current c), id. split_and!; [set_solver|done..].
Qed.

End Payments.

(** ** A sample history *)

Section Samples.

Import Sample.

#[local] Instance code_unit_collation : Collation := compareStrings.

(** The payment [pay] of the order [o] is captured, and refunded with [refund]. *)
Definition payment_commands : list TransitionCommand :=
  [command "pay" "created" "pending" "k0" "r0" "k1"
     [text "paymentId" "pay"; text "orderId" "o"; text "phaseId" "p"; text "paymentRole" "full";
      text "paymentIntentSetupProviderTransactionId" "setup-provider-transaction";
      text "paymentIntentSetupAuthorizationId" "intent-setup-authorization";
      text "paymentIntentSetupCaptureWindowId" "setup-capture-window";
      text "paymentIntentSetupPreviousPaymentResultId" "r0";
      text "paymentIntentSetupCurrentStateCommandKey" "k0"; text "paymentIntentSetupResultId" "r1";
      field "paymentIntentSetupExpectedPayment" (RecordV 1 [text "id" "pay"; text "orderId" "o";
      text "phaseId" "p"; text "role" "full"; text "status" "created";
      text "providerTransactionId" "setup-provider-transaction";
      text "authorizationId" "intent-setup-authorization"; text "captureWindowId" "setup-capture-window";
      at_ "captureExpiresAt" 1000; text "resultId" "r0"; text "currentStateCommandKey" "k0"; flag "immutable"]);
      field "paymentIntentSetupActivatedPayment" (RecordV 2 [text "id" "pay"; text "orderId" "o";
      text "phaseId" "p"; text "role" "full"; text "previousStatus" "created"; text "targetStatus" "pending";
      text "providerTransactionId" "setup-provider-transaction";
      text "authorizationId" "intent-setup-authorization"; text "captureWindowId" "setup-capture-window";
      text "resultId" "r1"; flag "immutable"]); field "paymentIntentSetupProviderTransaction" (
      RecordV 3 [text "id" "setup-provider-transaction"; text "paymentId" "pay"; text "orderId" "o";
      text "phaseId" "p"; text "role" "full"; text "status" "intent_created";
      text "authorizationId" "intent-setup-authorization"; text "resultId" "r1"; flag "immutable"]);
      field "paymentIntentSetupAuthorization" (RecordV 4 [text "id" "intent-setup-authorization";
      text "paymentId" "pay"; text "providerTransactionId" "setup-provider-transaction";
      text "status" "authorized"; none "captureCutoffAt"; text "resultId" "r1"; flag "immutable"]);
      field "paymentIntentSetupCaptureWindow" (RecordV 5 [text "id" "setup-capture-window";
      text "paymentId" "pay"; text "orderId" "o"; text "phaseId" "p"; text "role" "full";
      text "kind" "checkout"; text "status" "open"; text "authorizationId" "intent-setup-authorization";
      at_ "cutoffAt" 1000; text "resultId" "r1"; flag "immutable"]);
      field "paymentIntentSetupOrder" (RecordV 6 [text "id" "o"; text "phaseId" "p"; text "status" "quoted";
      text "resultId" "r1"; flag "immutable"]); field "paymentIntentSetupPhase" (RecordV 7 [text "id" "p";
      text "orderId" "o"; text "kind" "single"; text "status" "quoted"; text "resultId" "r1";
      flag "immutable"]); at_ "paymentIntentSetupCaptureExpiresAt" 1000; at_ "checkoutCaptureExpiresAt" 1000;
      text "paymentIntentSetupPaymentResultId" "r1"; text "paymentIntentSetupProviderTransactionResultId" "r1";
      text "paymentIntentSetupAuthorizationResultId" "r1"; text "paymentIntentSetupCaptureWindowResultId" "r1";
      text "paymentIntentSetupOrderResultId" "r1"; text "paymentIntentSetupPhaseResultId" "r1";
      flag "paymentIntentSetupCompleted"; flag "paymentIntentSetupAtomic"];
   command "pay" "pending" "captured" "k1" "r1" "k2"
     [text "paymentCaptureKind" "settlement"; text "paymentId" "pay"; text "orderId" "o"; text "phaseId" "p";
      text "paymentRole" "full"; text "paymentCaptureWindowId" "payment-capture-window";
      text "paymentCaptureWindowResultId" "capture-window-result";
      text "captureEvaluationResultId" "capture-evaluation-result";
      text "captureEvaluationPreviousPaymentResultId" "r1"; text "captureEvaluationCurrentStateCommandKey" "k1";
      at_ "captureEvaluatedAt" 1000; field "captureEvaluationExpectedPayment" (RecordV 1 [text "id" "pay";
      text "orderId" "o"; text "phaseId" "p"; text "role" "full"; text "status" "pending";
      text "provider" "provider"; amount "requestedAmountMinor" 700; text "currency" "currency";
      text "resultId" "r1"; text "currentStateCommandKey" "k1"; flag "immutable"]);
      field "paymentCaptureWindow" (RecordV 2 [at_ "opensAt" 500; at_ "cutoffAt" 2000;
      text "id" "payment-capture-window"; text "paymentId" "pay"; text "orderId" "o"; text "phaseId" "p";
      text "role" "full"; text "kind" "checkout"; flag "immutable"; text "resultId" "capture-window-result"]);
      field "captureProviderEvent" (RecordV 3 [at_ "verifiedAt" 1000; text "id" "capture-provider-event";
      text "paymentId" "pay"; text "provider" "provider"; text "transactionId" "provider-payment-transaction";
      text "kind" "PAYMENT_CAPTURED"; amount "amountMinor" 700; text "currency" "currency";
      text "status" "captured"; at_ "occurredAt" 1000; flag "authenticated"; flag "verified"; flag "immutable";
      text "resultId" "capture-evaluation-result"]); text "captureProviderEventId" "capture-provider-event";
      text "providerPaymentTransactionId" "provider-payment-transaction"; at_ "checkoutCaptureExpiresAt" 2000;
      text "captureEvaluationPaymentId" "pay"; text "captureEvaluationOrderId" "o";
      text "captureEvaluationPhaseId" "p"; text "captureEvaluationWindowId" "payment-capture-window";
      text "captureEvaluationWindowResultId" "capture-window-result";
      text "captureEvaluationOutcome" "within_window";
      text "captureEvaluationPaymentResultId" "capture-evaluation-result";
      text "captureEvaluationProviderEventResultId" "capture-evaluation-result";
      text "captureEvaluationActivationResultId" "capture-evaluation-result"; flag "captureEvaluationCompleted";
      flag "captureEvaluationAtomic"; flag "captureAuthorized"; text "providerEventPaymentId" "pay";
      flag "providerPaymentEventAuthenticated"; flag "providerPaymentEventVerified";
      text "providerPaymentEventStatus" "captured"; text "initialPaymentRole" "full";
      text "initialPaymentId" "pay"; text "initialPaymentOrderId" "o";
      text "phaseReservationSetId" "phase-reservation-set";
      text "confirmationOrderPreviousResultId" "order-previous-result";
      text "confirmationPhasePreviousResultId" "phase-previous-result";
      text "confirmationOrderCurrentStateCommandKey" "state-command-key";
      text "confirmationPhaseCurrentStateCommandKey" "state-command-key-2";
      field "confirmationExpectedOrder" (RecordV 4 [text "id" "o"; text "phaseId" "p"; text "status" "quoted";
      text "resultId" "order-previous-result"; text "currentStateCommandKey" "state-command-key";
      flag "immutable"]); field "confirmationExpectedPhase" (RecordV 5 [text "id" "p"; text "orderId" "o";
      text "status" "quoted"; text "resultId" "phase-previous-result";
      text "currentStateCommandKey" "state-command-key-2"; flag "immutable"]);
      text "confirmationActivationPaymentId" "pay";
      text "confirmationActivationProviderTransactionId" "provider-payment-transaction";
      text "confirmationActivationOrderId" "o"; text "confirmationActivationPhaseId" "p";
      text "confirmationActivationPhaseReservationSetId" "phase-reservation-set"; text "phaseKind" "single";
      text "confirmationOrderPreviousStatus" "quoted"; text "confirmationOrderTargetStatus" "confirmed";
      text "confirmationPhasePreviousStatus" "quoted"; text "confirmationPhaseTargetStatus" "active";
      flag "completeReservationCaptured"; flag "confirmationActivationAtomic";
      field "phaseReservationSetPlannedJobKeys" (ArrayV 6 [lit "key"]);
      field "confirmationReservationJobLinks" (ArrayV 7 [RecordV 8 [text "plannedJobKey" "key";
      text "productionReservationId" "production-reservation"; text "jobId" "job";
      text "reservationOrderId" "o"; text "reservationPhaseId" "p";
      text "reservationSetId" "phase-reservation-set"; text "reservationPlannedJobKey" "key";
      text "reservationJobId" "job"; text "jobOrderId" "o"; text "jobPhaseId" "p";
      text "jobProductionReservationId" "production-reservation"; text "jobPlannedJobKey" "key";
      text "jobStatus" "created"]]); flag "confirmationJobsCreated"; flag "confirmationJobCreationAtomic";
      flag "initialCaptureConfirmationAtomic"];
   command "pay" "captured" "refund_pending" "k2" "r2" "k3"
     [text "paymentCaptureKind" "settlement"; text "paymentId" "pay"; text "orderId" "o"; text "phaseId" "p";
      text "paymentRole" "full"; text "providerPaymentTransactionId" "provider-payment-transaction";
      text "priceAdjustmentId" "price-adjustment"; text "refundTransactionId" "refund-transaction";
      amount "ordinaryRefundAmountMinor" 1200; text "ordinaryRefundPreviousPaymentResultId" "r2";
      text "ordinaryRefundCurrentStateCommandKey" "k2";
      field "ordinaryRefundExpectedPayment" (RecordV 1 [text "id" "pay"; text "orderId" "o"; text "phaseId" "p";
      text "role" "full"; text "status" "captured"; text "resultId" "r2"; text "currentStateCommandKey" "k2";
      flag "immutable"]); text "ordinaryRefundPaymentId" "pay"; text "ordinaryRefundOrderId" "o";
      text "ordinaryRefundCaptureTransactionId" "provider-payment-transaction";
      text "ordinaryRefundPriceAdjustmentId" "price-adjustment"; text "priceAdjustmentOrderId" "o";
      text "priceAdjustmentPaymentId" "pay"; text "priceAdjustmentStatus" "active";
      text "ordinaryRefundTransactionId" "refund-transaction"; text "refundTransactionPaymentId" "pay";
      text "refundTransactionOrderId" "o"; text "refundTransactionPriceAdjustmentId" "price-adjustment";
      amount "priceAdjustmentRefundAmountMinor" 1200; amount "refundTransactionAmountMinor" 1200;
      flag "scopedRefundTransactionCreated"; flag "refundPriceAdjustmentActivated"; flag "ordinaryRefundAtomic"];
   command "pay" "refund_pending" "refunded" "k3" "r3" "k4"
     [text "paymentId" "pay"; text "orderId" "o"; text "phaseId" "p"; text "paymentRole" "full";
      text "refundTransactionId" "refund"; text "refundCompletionProviderEventId" "completion-provider-event";
      text "refundCompletionPreviousPaymentResultId" "r3"; text "refundCompletionResultId" "r4";
      text "refundCompletionCurrentStateCommandKey" "k3";
      text "refundCompletionRefundSetBeforeId" "refund-set-before";
      text "refundCompletionRefundSetBeforeResultId" "set-before-result";
      text "refundCompletionRefundSetAfterId" "refund-set-after";
      text "refundCompletionRefundSetAfterResultId" "set-after-result";
      field "refundCompletionExpectedPayment" (RecordV 1 [amount "capturedAmountMinor" 1200;
      text "provider" "provider"; text "currency" "CZK"; text "id" "pay"; text "orderId" "o";
      text "phaseId" "p"; text "role" "full"; text "status" "refund_pending";
      text "activeRefundTransactionId" "refund"; amount "succeededRefundAmountMinor" 0;
      text "authoritativeRefundSetId" "refund-set-before";
      text "authoritativeRefundSetResultId" "set-before-result"; text "resultId" "r3";
      text "currentStateCommandKey" "k3"; flag "immutable"]);
      field "refundCompletionReconciledPayment" (RecordV 2 [text "id" "pay"; text "orderId" "o";
      text "phaseId" "p"; text "role" "full"; text "provider" "provider"; text "currency" "CZK";
      text "previousStatus" "refund_pending"; text "targetStatus" "refunded"; none "activeRefundTransactionId";
      amount "capturedAmountMinor" 1200; amount "succeededRefundAmountMinor" 1200;
      text "refundTransactionId" "refund"; text "authoritativeRefundSetId" "refund-set-after";
      text "authoritativeRefundSetResultId" "set-after-result"; text "resultId" "r4"; flag "immutable"]);
      field "refundCompletionRefundTransaction" (RecordV 3 [amount "amountMinor" 1200;
      text "previousResultId" "previous-result"; text "providerTransactionId" "provider-transaction";
      at_ "requestedAt" 1000; at_ "completedAt" 1100; text "id" "refund"; text "paymentId" "pay";
      text "orderId" "o"; text "phaseId" "p"; text "previousStatus" "pending"; text "targetStatus" "succeeded";
      text "status" "succeeded"; text "provider" "provider"; text "currency" "CZK";
      text "providerEventId" "completion-provider-event"; text "resultId" "r4"; flag "immutable"]);
      field "refundCompletionProviderEvent" (RecordV 4 [at_ "occurredAt" 1000; at_ "authenticatedAt" 1100;
      at_ "verifiedAt" 1100; text "id" "completion-provider-event"; text "paymentId" "pay";
      text "refundTransactionId" "refund"; text "provider" "provider";
      text "providerTransactionId" "provider-transaction"; text "kind" "refund_succeeded";
      amount "amountMinor" 1200; text "currency" "CZK"; text "status" "succeeded";
      text "projectedTarget" "refunded"; flag "authenticated"; flag "verified"; text "resultId" "r4";
      flag "immutable"]); field "refundCompletionRefundSetBefore" (
      RecordV 5 [field "refundIds" (ArrayV 6 [lit "refund"]);
      field "refundSnapshots" (ArrayV 7 [RecordV 8 [text "id" "refund"; text "status" "pending";
      amount "amountMinor" 1200; text "paymentId" "pay"; text "resultId" "previous-result"; flag "immutable"]]);
      text "id" "refund-set-before"; text "paymentId" "pay"; text "resultId" "set-before-result";
      flag "immutable"]); field "refundCompletionRefundSetAfter" (
      RecordV 9 [field "refundIds" (ArrayV 10 [lit "refund"]);
      field "refundSnapshots" (ArrayV 11 [RecordV 12 [text "id" "refund"; text "status" "succeeded";
      amount "amountMinor" 1200; text "paymentId" "pay"; text "resultId" "r4"; flag "immutable"]]);
      text "id" "refund-set-after"; text "paymentId" "pay"; text "resultId" "set-after-result";
      flag "immutable"]); text "refundWebhookPaymentId" "pay"; text "refundWebhookRefundTransactionId" "refund";
      text "refundWebhookStatus" "succeeded"; text "refundWebhookProjectedTarget" "refunded";
      flag "refundWebhookAuthenticated"; flag "refundWebhookVerified";
      text "refundCompletionPaymentResultId" "r4"; text "refundCompletionRefundTransactionResultId" "r4";
      text "refundCompletionProviderEventResultId" "r4"; flag "refundCompletionCompleted";
      flag "refundCompletionAtomic"]].

Lemma payment_refunded_in_full_witness :
  ∃ c p id, c ∈ payment_commands ∧ transition paymentPolicy c = Ok (changed p (js "refunded"))
    ∧ refunded_in_full c id.
Proof.
  apply (payment_refunded_in_full (js "created")). apply replay_history; [by left|]. vm_compute. reflexivity.
Defined.

End Samples.
