(* ===== verification/Phases.v ===== *)
(** What an order and its one phase have in common (lifecycle/policies.ts):
    production and quality control, delivery, cancellation, and the projected
    completion of their slots; and the policy of the phase. *)
From S2P Require Import Prelude Text Primitives Values Transition Guards Lifecycles Replacements Handoffs Jobs Refunds Checkout.

Import Transition.

Section Phases.

Context {collation : Collation}.

(** ** Guards *)

Definition requireProjectedFinancialTerminalTarget (command : TransitionCommand) : result () :=
  guard_when ((context command) ?. "financialTerminalTarget" !== Str (target command)).

Definition requireProjectedCompletionTarget (lifecycle : jstr) (command : TransitionCommand)
    : result () :=
  let context_ := context command in
  let selectedAggregateId :=
    if str_eqb lifecycle (js "Order") then context_ ?. "orderId" else context_ ?. "phaseId" in
  let selectedAggregateStateKey :=
    if str_eqb lifecycle (js "Order")
    then context_ ?. "completionOrderCurrentStateCommandKey"
    else context_ ?. "completionPhaseCurrentStateCommandKey" in
  let expectedAggregateValue :=
    if str_eqb lifecycle (js "Order")
    then context_ ?. "completionExpectedOrder"
    else context_ ?. "completionExpectedPhase" in
  let expectedAggregate := record expectedAggregateValue in
  let expected := context_ ?. "expectedCompletionFulfilmentSlotIds" in
  let outcomes := context_ ?. "completionFulfilmentSlotOutcomes" in
  let topologyId := context_ ?. "completionAuthoritativePhaseTopologyId" in
  let expectedTopologyId := context_ ?. "completionExpectedPhaseTopologyId" in
  let topologyValue := context_ ?. "completionExpectedPhaseTopology" in
  let topology := record topologyValue in
  let setId := context_ ?. "completionAuthoritativeFulfilmentSlotSetId" in
  let expectedSetId := context_ ?. "completionExpectedFulfilmentSlotSetId" in
  let setResultId := context_ ?. "completionAuthoritativeFulfilmentSlotSetResultId" in
  let authoritativeValue := context_ ?. "completionAuthoritativeFulfilmentSlotSet" in
  let authoritative := record authoritativeValue in
  let authoritativeIdsValue := authoritative ?. "slotIds" in
  let authoritativeIds := array authoritativeIdsValue in
  let authoritativeSlotsValue := authoritative ?. "slotSnapshots" in
  let authoritativeSlots := array authoritativeSlotsValue in
  let completionResultId := context_ ?. "completionResultId" in
  let expectedStatus :=
    if targetIs command "completed"
    then lit "delivered"
    else if targetIs command "partially_fulfilled"
         then lit "mixed"
         else if targetIs command "refunded" || targetIs command "cancelled_refunded"
              then lit "cancelled_refunded"
              else lit "cancelled_settled" in
  let expectedTopologyStatus :=
    if str_eqb lifecycle (js "Order")
       && currentIs command "awaiting_balance"
       && targetIs command "cancelled_settled"
    then lit "qc_passed"
    else Str (current command) in
  let expectedAggregateStatus :=
    if str_eqb lifecycle (js "OrderPhase(single)")
    then expectedTopologyStatus
    else Str (current command) in
  let authoritativeSlotById : list (value * value) := [] in
  let '(authoritativeSlotSetValidChecked, authoritativeSlotById) :=
    if authoritativeSlots !== Undefined then
    every_with (λ authoritativeSlotById value_,
      if negb (is_record value_) then
        (false, authoritativeSlotById)
      else
      let slot := value_ in
      if negb (nonBlank (slot ?. "id"))
         || map_has authoritativeSlotById (slot ?. "id")
         || negb
              (truthy
                 (when_defined authoritativeIds
                    (Bool (includes (elements authoritativeIds) (slot ?. "id")))))
         || (slot ?. "orderId" !== context_ ?. "orderId")
         || (slot ?. "phaseId" !== context_ ?. "phaseId")
         || negb (nonBlank (slot ?. "sourceResultId"))
         || negb (nonBlank (slot ?. "sourceCurrentStateCommandKey"))
         || (slot ?. "immutable" !== Bool true) then
        (false, authoritativeSlotById)
      else
      let authoritativeSlotById := map_set authoritativeSlotById (slot ?. "id") slot in
      (true, authoritativeSlotById)) authoritativeSlotById (elements authoritativeSlots)
  else (false, authoritativeSlotById) in
  let authoritativeSlotSetValid :=
    authoritativeSlotSetValidChecked
    && (Integral (zlength authoritativeSlotById) === lengthV authoritativeIds) in
  let ids : list value := [] in
  let hasDeliveredOutcome := false in
  let hasCancelledRefundedOutcome := false in
  let '(validChecked, (hasDeliveredOutcome, hasCancelledRefundedOutcome, ids)) :=
    if
      ((str_eqb lifecycle (js "Order")
        && (optional (aggregateId command) === context_ ?. "orderId"))
       || (str_eqb lifecycle (js "OrderPhase(single)")
           && (optional (aggregateId command) === context_ ?. "phaseId")))
    && nonBlank selectedAggregateId
    && nonBlank selectedAggregateStateKey
    && nonBlank (expectedAggregate ?. "resultId")
    && (optional (currentStateResultId command) === expectedAggregate ?. "resultId")
    && (optional (currentStateCommandKey command) === selectedAggregateStateKey)
    && (expectedAggregate ?. "id" === selectedAggregateId)
    && (expectedAggregate ?. "orderId" === context_ ?. "orderId")
    && (expectedAggregate ?. "phaseId" === context_ ?. "phaseId")
    && (expectedAggregate ?. "status" === expectedAggregateStatus)
    && (expectedAggregate ?. "currentStateCommandKey" === selectedAggregateStateKey)
    && (expectedAggregate ?. "phaseTopologyId" === topologyId)
    && (expectedAggregate ?. "fulfilmentSlotSetId" === setId)
    && (expectedAggregate ?. "fulfilmentSlotSetResultId" === setResultId)
    && (expectedAggregate ?. "immutable" === Bool true)
    && nonBlank topologyId
    && (topologyId === context_ ?. "phaseId")
    && (expectedTopologyId === topologyId)
    && (topology ?. "id" === topologyId)
    && (topology ?. "orderId" === context_ ?. "orderId")
    && (topology ?. "kind" === lit "single")
    && (topology ?. "status" === expectedTopologyStatus)
    && (topology ?. "authoritativeFulfilmentSlotSetId" === setId)
    && (topology ?. "authoritativeFulfilmentSlotSetResultId" === setResultId)
    && (topology ?. "immutable" === Bool true)
    && nonBlank setId
    && (expectedSetId === setId)
    && nonBlank setResultId
    && nonBlank (optional (ownershipSnapshotId command))
    && (optional (ownershipSnapshotId command) === setId)
    && nonBlank (optional (ownershipSnapshotResultId command))
    && (optional (ownershipSnapshotResultId command) === setResultId)
    && (authoritative ?. "id" === setId)
    && (authoritative ?. "orderId" === context_ ?. "orderId")
    && (authoritative ?. "phaseId" === context_ ?. "phaseId")
    && (authoritative ?. "phaseTopologyId" === topologyId)
    && (authoritative ?. "resultId" === setResultId)
    && (authoritative ?. "completionResultId" === completionResultId)
    && (authoritative ?. "completionTarget" === Str (target command))
    && (authoritative ?. "sourceStatus" === Str (current command))
    && (authoritative ?. "immutable" === Bool true)
    && (context_ ?. "completionSlotSetOrderId" === context_ ?. "orderId")
    && (context_ ?. "completionSlotSetPhaseId" === context_ ?. "phaseId")
    && (context_ ?. "completionSlotSetPhaseTopologyId" === topologyId)
    && (authoritativeIds !== Undefined)
    && (0 <? js_len authoritativeIds)
    && forallb nonBlank (elements authoritativeIds)
    && (zlength (set_of (elements authoritativeIds)) =? js_len authoritativeIds)
    && (authoritativeSlots !== Undefined)
    && (js_len authoritativeSlots =? js_len authoritativeIds)
    && authoritativeSlotSetValid
    && nonBlank completionResultId
    && (context_ ?. "completionResultAtomic" === Bool true)
    && is_array expected
    && (0 <? js_len expected)
    && (zlength (set_of (elements expected)) =? js_len expected)
    && forallb nonBlank (elements expected)
    && hasSameNonEmptyStringSet expected authoritativeIds
    && is_array outcomes
    && (js_len outcomes =? js_len expected) then
    every_with (λ '(hasDeliveredOutcome, hasCancelledRefundedOutcome, ids) value_,
      if negb (is_record value_) then
        (false, (hasDeliveredOutcome, hasCancelledRefundedOutcome, ids))
      else
      let outcome := value_ in
      let status := outcome ?. "status" in
      let hasDeliveredOutcome := if status === lit "delivered" then
        true
      else
        hasDeliveredOutcome in
      let hasCancelledRefundedOutcome := if status === lit "cancelled_refunded" then
        true
      else
        hasCancelledRefundedOutcome in
      let source :=
        if nonBlank (outcome ?. "slotId")
        then map_get authoritativeSlotById (outcome ?. "slotId")
        else Undefined in
      if nonBlank (outcome ?. "slotId")
         && (source !== Undefined)
         && (source ?. "status" === status)
         && (source ?. "sourceResultId" === outcome ?. "sourceResultId")
         && (source ?. "sourceCurrentStateCommandKey"
               === outcome ?. "sourceCurrentStateCommandKey")
         && nonBlank (outcome ?. "sourceResultId")
         && nonBlank (outcome ?. "sourceCurrentStateCommandKey")
         && (outcome ?. "resultId" === completionResultId)
         && (outcome ?. "completionTarget" === Str (target command))
         && (outcome ?. "immutable" === Bool true)
         && negb (set_has ids (outcome ?. "slotId"))
         && includes (elements expected) (outcome ?. "slotId")
         && (outcome ?. "orderId" === context_ ?. "orderId")
         && (outcome ?. "phaseId" === context_ ?. "phaseId")
         && (if expectedStatus === lit "mixed"
             then (status === lit "delivered") || (status === lit "cancelled_refunded")
             else status === expectedStatus)
      then (true,
            (hasDeliveredOutcome, hasCancelledRefundedOutcome, set_add ids (outcome ?. "slotId")))
      else (false, (hasDeliveredOutcome, hasCancelledRefundedOutcome, ids)))
             (hasDeliveredOutcome, hasCancelledRefundedOutcome, ids) (elements outcomes)
  else (false, (hasDeliveredOutcome, hasCancelledRefundedOutcome, ids)) in
  let valid :=
    validChecked
    && forallb (λ id, set_has ids id) (elements expected)
    && ((expectedStatus !== lit "mixed")
        || (hasDeliveredOutcome && hasCancelledRefundedOutcome)) in
  guard_when ((context_ ?. "completionProjectedTarget" !== Str (target command)) || negb valid).

Definition expectedOrderCancellationPhaseDisposition (orderStatus : value) : value :=
  if orderStatus === lit "quoted" then
    RecordV 0
      [(js "orderPreviousStatuses", ArrayV 0 [lit "quoted"]); (js "previous", lit "quoted");
       (js "target", lit "cancelled")]
  else if orderStatus === lit "confirmed" then
    RecordV 0
      [(js "orderPreviousStatuses", ArrayV 0 [lit "confirmed"]); (js "previous", lit "active");
       (js "target", lit "cancelled")]
  else if orderStatus === lit "in_production" then
    RecordV 0
      [(js "orderPreviousStatuses", ArrayV 0 [lit "in_production"]);
       (js "previous", lit "in_production"); (js "target", lit "cancelled")]
  else if (orderStatus === lit "qc_passed")
  || (orderStatus === lit "awaiting_balance")
  || (orderStatus === lit "ready_to_ship") then
    RecordV 0
      [(js "orderPreviousStatuses", ArrayV 0 [orderStatus]); (js "previous", lit "qc_passed");
       (js "target", lit "cancelled")]
  else if orderStatus === lit "shipped" then
    RecordV 0
      [(js "orderPreviousStatuses", ArrayV 0 [lit "shipped"]); (js "previous", lit "shipped");
       (js "target", lit "cancelled_refunded")]
  else if orderStatus === lit "recovery_pending" then
    RecordV 0
      [(js "orderPreviousStatuses", ArrayV 0 [lit "recovery_pending"]);
       (js "previous", lit "recovery_pending"); (js "target", lit "cancelled_refunded")]
  else
  Undefined.

Definition expectedSinglePhaseCancellationDisposition (phaseStatus : value) : value :=
  if phaseStatus === lit "quoted" then
    RecordV 0
      [(js "orderPreviousStatuses", ArrayV 0 [lit "quoted"]); (js "previous", lit "quoted");
       (js "target", lit "cancelled")]
  else if phaseStatus === lit "active" then
    RecordV 0
      [(js "orderPreviousStatuses", ArrayV 0 [lit "confirmed"]); (js "previous", lit "active");
       (js "target", lit "cancelled")]
  else if phaseStatus === lit "in_production" then
    RecordV 0
      [(js "orderPreviousStatuses", ArrayV 0 [lit "in_production"]);
       (js "previous", lit "in_production"); (js "target", lit "cancelled")]
  else if phaseStatus === lit "qc_passed" then
    RecordV 0
      [(js "orderPreviousStatuses",
        ArrayV 0 [lit "qc_passed"; lit "awaiting_balance"; lit "ready_to_ship"]);
       (js "previous", lit "qc_passed"); (js "target", lit "cancelled")]
  else
  Undefined.

Definition requireAtomicOrderPhaseCancellation (lifecycle : jstr) (command : TransitionCommand)
    : result () :=
  let isPhaseEntry := str_eqb lifecycle (js "OrderPhase(single)") in
  let expectedPhaseDisposition :=
    if isPhaseEntry
    then expectedSinglePhaseCancellationDisposition (Str (current command))
    else expectedOrderCancellationPhaseDisposition (Str (current command)) in
  if expectedPhaseDisposition === Undefined then
    Ok ()
  else
  let context_ := context command in
  let orderId := context_ ?. "orderId" in
  let phaseId := context_ ?. "phaseId" in
  let orderPreviousResultId := context_ ?. "phaseCancellationOrderPreviousResultId" in
  let phasePreviousResultId := context_ ?. "phaseCancellationPhasePreviousResultId" in
  let orderStateKey := context_ ?. "phaseCancellationOrderCurrentStateCommandKey" in
  let phaseStateKey := context_ ?. "phaseCancellationPhaseCurrentStateCommandKey" in
  let expectedOrderValue := context_ ?. "phaseCancellationExpectedOrder" in
  let expectedOrder := record expectedOrderValue in
  let expectedPhaseValue := context_ ?. "phaseCancellationExpectedPhase" in
  let expectedPhase := record expectedPhaseValue in
  let selectedAggregateId := if isPhaseEntry then phaseId else orderId in
  let selectedPreviousResultId :=
    if isPhaseEntry then phasePreviousResultId else orderPreviousResultId in
  let selectedStateKey := if isPhaseEntry then phaseStateKey else orderStateKey in
  guard_when
    (negb (nonBlank orderId)
     || ((context command) ?. "phaseCancellationOrderId" !== orderId)
     || ((context command) ?. "phaseCancellationPhaseOrderId" !== orderId)
     || negb (nonBlank phaseId)
     || ((context command) ?. "phaseCancellationPhaseId" !== phaseId)
     || negb (nonBlank orderPreviousResultId)
     || negb (nonBlank phasePreviousResultId)
     || negb (nonBlank orderStateKey)
     || negb (nonBlank phaseStateKey)
     || (optional (aggregateId command) !== selectedAggregateId)
     || (optional (currentStateResultId command) !== selectedPreviousResultId)
     || (optional (currentStateCommandKey command) !== selectedStateKey)
     || (expectedOrder ?. "id" !== orderId)
     || (expectedOrder ?. "phaseId" !== phaseId)
     || (expectedOrder ?. "status" !== context_ ?. "phaseCancellationOrderPreviousStatus")
     || (expectedOrder ?. "resultId" !== orderPreviousResultId)
     || (expectedOrder ?. "currentStateCommandKey" !== orderStateKey)
     || (expectedOrder ?. "immutable" !== Bool true)
     || (expectedPhase ?. "id" !== phaseId)
     || (expectedPhase ?. "orderId" !== orderId)
     || (expectedPhase ?. "status" !== expectedPhaseDisposition ?. "previous")
     || (expectedPhase ?. "resultId" !== phasePreviousResultId)
     || (expectedPhase ?. "currentStateCommandKey" !== phaseStateKey)
     || (expectedPhase ?. "immutable" !== Bool true)) ;;
  guard_when
    (((context command) ?. "phaseKind" !== lit "single")
     || negb
          (includes (elements (expectedPhaseDisposition ?. "orderPreviousStatuses"))
             ((context command) ?. "phaseCancellationOrderPreviousStatus"))
     || ((context command) ?. "phaseCancellationOrderTargetStatus" !== lit "cancelled")
     || ((context command) ?. "phaseCancellationPhasePreviousStatus"
           !== expectedPhaseDisposition ?. "previous")
     || ((context command) ?. "phaseCancellationPhaseTargetStatus"
           !== expectedPhaseDisposition ?. "target")) ;;
  requireFlag command "phaseCancellationCompleted" ;;
  requireFlag command "phaseCancellationAtomic" ;;
  when (expectedPhaseDisposition ?. "target" === lit "cancelled_refunded")
    (requireZeroBalances command).

Definition requireAtomicOrderPhaseCompletion (lifecycle : jstr) (command : TransitionCommand)
    : result () :=
  let context_ := context command in
  let orderId := context_ ?. "orderId" in
  let phaseId := context_ ?. "phaseId" in
  let orderStateKey := context_ ?. "completionOrderCurrentStateCommandKey" in
  let phaseStateKey := context_ ?. "completionPhaseCurrentStateCommandKey" in
  let expectedOrderValue := context_ ?. "completionExpectedOrder" in
  let expectedOrder := record expectedOrderValue in
  let expectedPhaseValue := context_ ?. "completionExpectedPhase" in
  let expectedPhase := record expectedPhaseValue in
  let selectedStateKey :=
    if str_eqb lifecycle (js "Order") then orderStateKey else phaseStateKey in
  let selectedExpected :=
    if str_eqb lifecycle (js "Order") then expectedOrder else expectedPhase in
  guard_when
    (negb (nonBlank orderId)
     || (str_eqb lifecycle (js "Order") && (optional (aggregateId command) !== orderId))
     || (str_eqb lifecycle (js "OrderPhase(single)")
         && (optional (aggregateId command) !== phaseId))
     || (context_ ?. "orderCompletionOrderId" !== orderId)
     || (context_ ?. "orderCompletionPhaseOrderId" !== orderId)
     || negb (nonBlank phaseId)
     || (context_ ?. "orderCompletionPhaseId" !== phaseId)
     || negb (nonBlank selectedStateKey)
     || negb (nonBlank (selectedExpected ?. "resultId"))
     || (optional (currentStateCommandKey command) !== selectedStateKey)
     || (optional (currentStateResultId command) !== selectedExpected ?. "resultId")
     || (expectedOrder ?. "id" !== orderId)
     || (expectedOrder ?. "phaseId" !== phaseId)
     || (expectedOrder ?. "status" !== lit "delivered")
     || (expectedOrder ?. "currentStateCommandKey" !== orderStateKey)
     || negb (nonBlank (expectedOrder ?. "resultId"))
     || (expectedOrder ?. "immutable" !== Bool true)
     || (expectedPhase ?. "id" !== phaseId)
     || (expectedPhase ?. "orderId" !== orderId)
     || (expectedPhase ?. "status" !== lit "delivered")
     || (expectedPhase ?. "currentStateCommandKey" !== phaseStateKey)
     || negb (nonBlank (expectedPhase ?. "resultId"))
     || (expectedPhase ?. "immutable" !== Bool true)
     || (context_ ?. "completionAuthoritativePhaseTopologyId" !== phaseId)
     || (expectedOrder ?. "phaseTopologyId"
           !== context_ ?. "completionAuthoritativePhaseTopologyId")
     || (expectedPhase ?. "phaseTopologyId"
           !== context_ ?. "completionAuthoritativePhaseTopologyId")) ;;
  guard_when
    (((context command) ?. "phaseKind" !== lit "single")
     || ((context command) ?. "orderCompletionOrderPreviousStatus" !== lit "delivered")
     || ((context command) ?. "orderCompletionOrderTargetStatus" !== lit "completed")
     || ((context command) ?. "orderCompletionPhasePreviousStatus" !== lit "delivered")
     || ((context command) ?. "orderCompletionPhaseTargetStatus" !== lit "completed")) ;;
  requireFlag command "phaseCompletionCompleted" ;;
  requireFlag command "orderPhaseCompletionAtomic".

Definition requireAtomicOrderPhaseProductionStart (lifecycle : jstr) (command : TransitionCommand)
    : result () :=
  let context_ := context command in
  let orderId := context_ ?. "orderId" in
  let phaseId := context_ ?. "phaseId" in
  let orderPreviousResultId := context_ ?. "productionStartOrderPreviousResultId" in
  let phasePreviousResultId := context_ ?. "productionStartPhasePreviousResultId" in
  let orderStateKey := context_ ?. "productionStartOrderCurrentStateCommandKey" in
  let phaseStateKey := context_ ?. "productionStartPhaseCurrentStateCommandKey" in
  let expectedOrderValue := context_ ?. "productionStartExpectedOrder" in
  let expectedOrder := record expectedOrderValue in
  let expectedPhaseValue := context_ ?. "productionStartExpectedPhase" in
  let expectedPhase := record expectedPhaseValue in
  let isPhaseEntry := str_eqb lifecycle (js "OrderPhase(single)") in
  let selectedAggregateId := if isPhaseEntry then phaseId else orderId in
  let selectedPreviousResultId :=
    if isPhaseEntry then phasePreviousResultId else orderPreviousResultId in
  let selectedStateKey := if isPhaseEntry then phaseStateKey else orderStateKey in
  guard_when
    (negb (nonBlank orderId)
     || ((context command) ?. "productionStartOrderId" !== orderId)
     || ((context command) ?. "productionStartPhaseOrderId" !== orderId)
     || negb (nonBlank phaseId)
     || ((context command) ?. "productionStartPhaseId" !== phaseId)
     || negb (nonBlank orderPreviousResultId)
     || negb (nonBlank phasePreviousResultId)
     || negb (nonBlank orderStateKey)
     || negb (nonBlank phaseStateKey)
     || (optional (aggregateId command) !== selectedAggregateId)
     || (optional (currentStateResultId command) !== selectedPreviousResultId)
     || (optional (currentStateCommandKey command) !== selectedStateKey)
     || (expectedOrder ?. "id" !== orderId)
     || (expectedOrder ?. "phaseId" !== phaseId)
     || (expectedOrder ?. "status" !== lit "confirmed")
     || (expectedOrder ?. "resultId" !== orderPreviousResultId)
     || (expectedOrder ?. "currentStateCommandKey" !== orderStateKey)
     || (expectedOrder ?. "immutable" !== Bool true)
     || (expectedPhase ?. "id" !== phaseId)
     || (expectedPhase ?. "orderId" !== orderId)
     || (expectedPhase ?. "status" !== lit "active")
     || (expectedPhase ?. "resultId" !== phasePreviousResultId)
     || (expectedPhase ?. "currentStateCommandKey" !== phaseStateKey)
     || (expectedPhase ?. "immutable" !== Bool true)) ;;
  guard_when
    (((context command) ?. "phaseKind" !== lit "single")
     || ((context command) ?. "productionStartOrderPreviousStatus" !== lit "confirmed")
     || ((context command) ?. "productionStartOrderTargetStatus" !== lit "in_production")
     || ((context command) ?. "productionStartPhasePreviousStatus" !== lit "active")
     || ((context command) ?. "productionStartPhaseTargetStatus" !== lit "in_production")) ;;
  requireFlag command "productionStartCompleted" ;;
  requireFlag command "productionStartAtomic".

Definition qcReadyJobStatuses : list value :=
  [lit "qc_approved"; lit "packed"; lit "handed_over"; lit "settled"].

Definition requireCompleteQcSlotSet (command : TransitionCommand) (orderId : value)
    (phaseId : value) : result () :=
  let context_ := context command in
  let topologyId := (context command) ?. "qcAuthoritativePhaseTopologyId" in
  let expectedTopologyId := (context command) ?. "qcExpectedPhaseTopologyId" in
  let topologyValue := (context command) ?. "qcExpectedPhaseTopology" in
  let topology := record topologyValue in
  let setId := (context command) ?. "qcAuthoritativeFulfilmentSlotSetId" in
  let expectedSetId := (context command) ?. "qcExpectedFulfilmentSlotSetId" in
  let setResultId := (context command) ?. "qcAuthoritativeFulfilmentSlotSetResultId" in
  let authoritativeValue := (context command) ?. "qcAuthoritativeFulfilmentSlotSet" in
  let authoritative := record authoritativeValue in
  let authoritativeIdsValue := authoritative ?. "slotIds" in
  let authoritativeIds := array authoritativeIdsValue in
  let expectedIdsValue := (context command) ?. "expectedQcFulfilmentSlotIds" in
  let slotsValue := (context command) ?. "qcFulfilmentSlots" in
  let expectedIds := array expectedIdsValue in
  let slots := array slotsValue in
  let currentJobSourcesValue := authoritative ?. "currentJobSources" in
  let currentJobSources := array currentJobSourcesValue in
  let resultId := context_ ?. "qcCompletionResultId" in
  guard_when
    (negb (nonBlank topologyId)
     || (topologyId !== phaseId)
     || (expectedTopologyId !== topologyId)
     || (topology ?. "id" !== topologyId)
     || (topology ?. "orderId" !== orderId)
     || (topology ?. "kind" !== lit "single")
     || (topology ?. "status" !== Str (current command))
     || (topology ?. "authoritativeFulfilmentSlotSetId" !== setId)
     || (topology ?. "authoritativeFulfilmentSlotSetResultId" !== setResultId)
     || (topology ?. "immutable" !== Bool true)
     || negb (nonBlank setId)
     || (expectedSetId !== setId)
     || negb (nonBlank setResultId)
     || (authoritative ?. "id" !== setId)
     || (authoritative ?. "orderId" !== orderId)
     || (authoritative ?. "phaseId" !== phaseId)
     || (authoritative ?. "phaseTopologyId" !== topologyId)
     || (authoritative ?. "resultId" !== setResultId)
     || (authoritative ?. "immutable" !== Bool true)
     || (optional (ownershipSnapshotId command) !== setId)
     || (optional (ownershipSnapshotResultId command) !== setResultId)
     || (authoritativeIds === Undefined)
     || (js_len authoritativeIds =? 0)
     || existsb (λ id, negb (nonBlank id)) (elements authoritativeIds)
     || negb (zlength (set_of (elements authoritativeIds)) =? js_len authoritativeIds)
     || ((context command) ?. "qcSlotSetOrderId" !== orderId)
     || ((context command) ?. "qcSlotSetPhaseId" !== phaseId)
     || ((context command) ?. "qcSlotSetPhaseTopologyId" !== topologyId)
     || (expectedIds === Undefined)
     || (js_len expectedIds =? 0)
     || existsb (λ id, negb (nonBlank id)) (elements expectedIds)
     || negb (zlength (set_of (elements expectedIds)) =? js_len expectedIds)
     || negb (hasSameNonEmptyStringSet expectedIds authoritativeIds)
     || (slots === Undefined)
     || negb (js_len slots =? js_len expectedIds)
     || negb (nonBlank resultId)
     || (context_ ?. "qcCompletionOrderResultId" !== resultId)
     || (context_ ?. "qcCompletionPhaseResultId" !== resultId)
     || (currentJobSources === Undefined)
     || negb (js_len currentJobSources =? js_len authoritativeIds)) ;;
  let sourceBySlotId : list (value * value) := [] in
  sourceBySlotId ← foldM (λ sourceBySlotId value_,
    let source := record value_ in
    let slotId := source ?. "slotId" in
    let jobId := source ?. "jobId" in
    guard_when
      ((source === Undefined)
       || negb (nonBlank slotId)
       || negb (nonBlank jobId)
       || map_has sourceBySlotId slotId
       || negb (includes (elements authoritativeIds) slotId)
       || (source ?. "orderId" !== orderId)
       || (source ?. "phaseId" !== phaseId)
       || (source ?. "currentJobSlotId" !== slotId)
       || (source ?. "currentJobLineageLeaf" !== Bool true)
       || negb (set_has qcReadyJobStatuses (source ?. "status"))
       || negb (nonBlank (source ?. "resultId"))
       || negb (nonBlank (source ?. "currentStateCommandKey"))
       || (source ?. "openReplacementRequestId" !== Null)
       || (source ?. "recoveryBlocked" !== Bool false)
       || (source ?. "immutable" !== Bool true)) ;;
    Ok (map_set sourceBySlotId slotId source)) sourceBySlotId (elements currentJobSources);
  let projectedIds : list value := [] in
  projectedIds ← foldM (λ projectedIds value_,
    guard_when (negb (is_record value_)) ;;
    let slot := value_ in
    let id := slot ?. "id" in
    let currentJobId := slot ?. "currentJobId" in
    let source := if is_string id then map_get sourceBySlotId id else Undefined in
    guard_when
      (negb (nonBlank id)
       || set_has projectedIds id
       || negb (includes (elements authoritativeIds) id)
       || (slot ?. "authoritativeFulfilmentSlotSetId" !== setId)
       || (slot ?. "authoritativePhaseTopologyId" !== topologyId)
       || (slot ?. "orderId" !== orderId)
       || (slot ?. "phaseId" !== phaseId)
       || negb (nonBlank currentJobId)
       || (source === Undefined)
       || (source ?. "jobId" !== currentJobId)
       || (slot ?. "currentJobSourceResultId" !== source ?. "resultId")
       || (slot ?. "currentJobSourceCommandKey" !== source ?. "currentStateCommandKey")
       || (slot ?. "currentJobImmutable" !== Bool true)
       || (slot ?. "qcCompletionResultId" !== resultId)
       || (slot ?. "currentJobOrderId" !== orderId)
       || (slot ?. "currentJobPhaseId" !== phaseId)
       || (slot ?. "currentJobSlotId" !== id)
       || (slot ?. "currentJobLineageLeaf" !== Bool true)
       || (slot ?. "currentJobStatus" !== source ?. "status")
       || (slot ?. "openReplacementRequestId" !== Null)
       || (slot ?. "recoveryBlocked" !== Bool false)) ;;
    Ok (set_add projectedIds id)) projectedIds (elements slots);
  guard_when
    (existsb (λ id, negb (set_has projectedIds id) || negb (map_has sourceBySlotId id))
       (elements authoritativeIds)) ;;
  requireFlag command "qcSlotSetComplete".

Definition requireAtomicOrderPhaseQcCompletion (lifecycle : jstr) (command : TransitionCommand)
    : result () :=
  let previousStatus := current command in
  let context_ := context command in
  let orderId := context_ ?. "orderId" in
  let phaseId := context_ ?. "phaseId" in
  let orderPreviousResultId := context_ ?. "qcCompletionOrderPreviousResultId" in
  let phasePreviousResultId := context_ ?. "qcCompletionPhasePreviousResultId" in
  let orderStateKey := context_ ?. "qcCompletionOrderCurrentStateCommandKey" in
  let phaseStateKey := context_ ?. "qcCompletionPhaseCurrentStateCommandKey" in
  let expectedOrderValue := context_ ?. "qcCompletionExpectedOrder" in
  let expectedOrder := record expectedOrderValue in
  let expectedPhaseValue := context_ ?. "qcCompletionExpectedPhase" in
  let expectedPhase := record expectedPhaseValue in
  let isPhaseEntry := str_eqb lifecycle (js "OrderPhase(single)") in
  let selectedAggregateId := if isPhaseEntry then phaseId else orderId in
  let selectedPreviousResultId :=
    if isPhaseEntry then phasePreviousResultId else orderPreviousResultId in
  let selectedStateKey := if isPhaseEntry then phaseStateKey else orderStateKey in
  guard_when
    ((optional (aggregateId command) !== selectedAggregateId)
     || negb (nonBlank orderId)
     || (context_ ?. "qcCompletionOrderId" !== orderId)
     || (context_ ?. "qcCompletionPhaseOrderId" !== orderId)
     || negb (nonBlank phaseId)
     || (context_ ?. "qcCompletionPhaseId" !== phaseId)
     || negb (nonBlank orderPreviousResultId)
     || negb (nonBlank phasePreviousResultId)
     || negb (nonBlank orderStateKey)
     || negb (nonBlank phaseStateKey)
     || (optional (currentStateResultId command) !== selectedPreviousResultId)
     || (optional (currentStateCommandKey command) !== selectedStateKey)
     || (expectedOrder ?. "id" !== orderId)
     || (expectedOrder ?. "phaseId" !== phaseId)
     || (expectedOrder ?. "status" !== Str previousStatus)
     || (expectedOrder ?. "resultId" !== orderPreviousResultId)
     || (expectedOrder ?. "currentStateCommandKey" !== orderStateKey)
     || (expectedOrder ?. "phaseTopologyId" !== phaseId)
     || (expectedOrder ?. "immutable" !== Bool true)
     || (expectedPhase ?. "id" !== phaseId)
     || (expectedPhase ?. "orderId" !== orderId)
     || (expectedPhase ?. "status" !== Str previousStatus)
     || (expectedPhase ?. "resultId" !== phasePreviousResultId)
     || (expectedPhase ?. "currentStateCommandKey" !== phaseStateKey)
     || (expectedPhase ?. "phaseTopologyId" !== phaseId)
     || (expectedPhase ?. "immutable" !== Bool true)) ;;
  guard_when
    ((negb (str_eqb previousStatus (js "in_production"))
      && negb (str_eqb previousStatus (js "recovery_pending")))
     || ((context command) ?. "phaseKind" !== lit "single")
     || ((context command) ?. "qcCompletionOrderPreviousStatus" !== Str previousStatus)
     || ((context command) ?. "qcCompletionOrderTargetStatus" !== lit "qc_passed")
     || ((context command) ?. "qcCompletionPhasePreviousStatus" !== Str previousStatus)
     || ((context command) ?. "qcCompletionPhaseTargetStatus" !== lit "qc_passed")) ;;
  requireFlag command "verifiedQcReadiness" ;;
  requireCompleteQcSlotSet command orderId phaseId ;;
  requireFlag command "qcCompletionCompleted" ;;
  requireFlag command "qcCompletionAtomic".

Definition requireAllShipmentLineageLeavesDelivered (lifecycle : jstr)
    (command : TransitionCommand) : result () :=
  let orderId := (context command) ?. "orderId" in
  let phaseId := (context command) ?. "phaseId" in
  let orderPreviousResultId := (context command) ?. "shipmentLineageOrderPreviousResultId" in
  let orderStateKey := (context command) ?. "shipmentLineageOrderCurrentStateCommandKey" in
  let expectedOrderValue := (context command) ?. "shipmentLineageExpectedOrder" in
  let expectedOrder := record expectedOrderValue in
  let phasePreviousResultId := (context command) ?. "shipmentLineagePhasePreviousResultId" in
  let phaseStateKey := (context command) ?. "shipmentLineagePhaseCurrentStateCommandKey" in
  let expectedPhaseValue := (context command) ?. "shipmentLineageExpectedPhase" in
  let expectedPhase := record expectedPhaseValue in
  let isPhaseEntry := str_eqb lifecycle (js "OrderPhase(single)") in
  let setId := (context command) ?. "shipmentLineageAuthoritativeSetId" in
  let setResultId := (context command) ?. "shipmentLineageAuthoritativeSetResultId" in
  let setValue := (context command) ?. "shipmentLineageAuthoritativeSet" in
  let set := record setValue in
  let shipmentIdsValue := set ?. "shipmentIds" in
  let authoritativeIdsValue := set ?. "lineageLeafIds" in
  let shipmentIds := array shipmentIdsValue in
  let authoritativeIds := array authoritativeIdsValue in
  let authoritativeLeavesValue := (context command) ?. "shipmentLineageAuthoritativeLeaves" in
  let authoritativeLeaves := array authoritativeLeavesValue in
  let expectedIdsValue := (context command) ?. "expectedShipmentLineageLeafIds" in
  let leavesValue := (context command) ?. "shipmentLineageLeaves" in
  let expectedIds := array expectedIdsValue in
  let leaves := array leavesValue in
  guard_when
    (negb (nonBlank orderId)
     || ((context command) ?. "shipmentLineageSetOrderId" !== orderId)
     || negb (nonBlank phaseId)
     || ((context command) ?. "shipmentLineageSetPhaseId" !== phaseId)
     || ((context command) ?. "phaseKind" !== lit "single")
     || (if isPhaseEntry
         then negb (nonBlank phasePreviousResultId)
              || negb (nonBlank phaseStateKey)
              || (optional (aggregateId command) !== phaseId)
              || (optional (currentStateResultId command) !== phasePreviousResultId)
              || (optional (currentStateCommandKey command) !== phaseStateKey)
              || (expectedPhase ?. "id" !== phaseId)
              || (expectedPhase ?. "orderId" !== orderId)
              || (expectedPhase ?. "status" !== Str (current command))
              || (expectedPhase ?. "resultId" !== phasePreviousResultId)
              || (expectedPhase ?. "currentStateCommandKey" !== phaseStateKey)
              || (expectedPhase ?. "immutable" !== Bool true)
         else negb (nonBlank orderPreviousResultId)
              || negb (nonBlank orderStateKey)
              || (optional (aggregateId command) !== orderId)
              || (optional (currentStateResultId command) !== orderPreviousResultId)
              || (optional (currentStateCommandKey command) !== orderStateKey)
              || (expectedOrder ?. "id" !== orderId)
              || (expectedOrder ?. "phaseId" !== phaseId)
              || (expectedOrder ?. "status" !== Str (current command))
              || (expectedOrder ?. "resultId" !== orderPreviousResultId)
              || (expectedOrder ?. "currentStateCommandKey" !== orderStateKey)
              || (expectedOrder ?. "immutable" !== Bool true))
     || negb (nonBlank setId)
     || negb (nonBlank setResultId)
     || (set ?. "id" !== setId)
     || (set ?. "orderId" !== orderId)
     || (set ?. "phaseId" !== phaseId)
     || (set ?. "resultId" !== setResultId)
     || (set ?. "immutable" !== Bool true)
     || (shipmentIds === Undefined)
     || (authoritativeIds === Undefined)
     || (js_len shipmentIds =? 0)
     || negb (js_len shipmentIds =? js_len authoritativeIds)
     || existsb (λ id, negb (nonBlank id)) (elements shipmentIds)
     || existsb (λ id, negb (nonBlank id)) (elements authoritativeIds)
     || negb (zlength (set_of (elements shipmentIds)) =? js_len shipmentIds)
     || negb (zlength (set_of (elements authoritativeIds)) =? js_len authoritativeIds)
     || (authoritativeLeaves === Undefined)
     || negb (js_len authoritativeLeaves =? js_len authoritativeIds)
     || (expectedIds === Undefined)
     || (js_len expectedIds =? 0)
     || existsb (λ id, negb (nonBlank id)) (elements expectedIds)
     || negb (zlength (set_of (elements expectedIds)) =? js_len expectedIds)
     || negb (hasSameNonEmptyStringSet expectedIds authoritativeIds)
     || (leaves === Undefined)
     || negb (js_len leaves =? js_len expectedIds)) ;;
  let authoritativeShipmentByLeafId : list (value * value) := [] in
  let projectedAuthoritativeShipmentIds : list value := [] in
  '(projectedAuthoritativeShipmentIds, authoritativeShipmentByLeafId) ←
    foldM (λ '(projectedAuthoritativeShipmentIds, authoritativeShipmentByLeafId) value_,
    guard_when (negb (is_record value_)) ;;
    let leaf := value_ in
    let shipmentId := leaf ?. "shipmentId" in
    let lineageLeafId := leaf ?. "lineageLeafId" in
    guard_when
      (negb (is_string shipmentId)
       || negb (includes (elements shipmentIds) shipmentId)
       || set_has projectedAuthoritativeShipmentIds shipmentId
       || negb (is_string lineageLeafId)
       || negb (includes (elements authoritativeIds) lineageLeafId)
       || map_has authoritativeShipmentByLeafId lineageLeafId
       || (leaf ?. "orderId" !== orderId)
       || (leaf ?. "phaseId" !== phaseId)
       || (leaf ?. "status" !== lit "delivered")
       || (leaf ?. "currentLineageLeaf" !== Bool true)
       || (leaf ?. "resultId" !== setResultId)
       || (leaf ?. "immutable" !== Bool true)) ;;
    let projectedAuthoritativeShipmentIds :=
      set_add projectedAuthoritativeShipmentIds shipmentId in
    let authoritativeShipmentByLeafId :=
      map_set authoritativeShipmentByLeafId lineageLeafId shipmentId in
    Ok (projectedAuthoritativeShipmentIds, authoritativeShipmentByLeafId))
      (projectedAuthoritativeShipmentIds, authoritativeShipmentByLeafId)
      (elements authoritativeLeaves);
  guard_when
    (existsb (λ id, negb (set_has projectedAuthoritativeShipmentIds id)) (elements shipmentIds)
     || existsb (λ id, negb (map_has authoritativeShipmentByLeafId id))
          (elements authoritativeIds)) ;;
  let projectedIds : list value := [] in
  projectedIds ← foldM (λ projectedIds value_,
    guard_when (negb (is_record value_)) ;;
    let leaf := value_ in
    let id := leaf ?. "id" in
    guard_when
      (negb (nonBlank id)
       || set_has projectedIds id
       || negb (includes (elements authoritativeIds) id)
       || (leaf ?. "shipmentId" !== map_get authoritativeShipmentByLeafId id)
       || (leaf ?. "orderId" !== orderId)
       || (leaf ?. "phaseId" !== phaseId)
       || (leaf ?. "status" !== lit "delivered")
       || (leaf ?. "currentLineageLeaf" !== Bool true)) ;;
    Ok (set_add projectedIds id)) projectedIds (elements leaves);
  guard_when (existsb (λ id, negb (set_has projectedIds id)) (elements authoritativeIds)) ;;
  requireFlag command "shipmentLineageLeafSetComplete".

(** ** The policy of a phase *)

Definition singleOrderPhaseGuard (command : TransitionCommand) : result () :=
  when (currentIs command "quoted" && targetIs command "active")
    (requireAtomicConfirmationActivation (js "OrderPhase(single)") command) ;;
  when (currentIs command "active" && targetIs command "in_production")
    (requireAtomicOrderPhaseProductionStart (js "OrderPhase(single)") command) ;;
  when
    ((currentIs command "in_production" || currentIs command "recovery_pending")
     && targetIs command "qc_passed")
    (requireAtomicOrderPhaseQcCompletion (js "OrderPhase(single)") command) ;;
  when
    ((currentIs command "in_production" || currentIs command "qc_passed")
     && targetIs command "recovery_pending")
    (requirePostQcJobFailureResolution (js "OrderPhase(single)") command) ;;
  when (currentIs command "qc_passed" && targetIs command "shipped") (
    requireAtomicOrdinaryHandoff (js "OrderPhase(single)") command
      (RecordV 0
         [(js "shipmentPrevious", lit "label_created");
          (js "orderPrevious", lit "ready_to_ship"); (js "phasePrevious", lit "qc_passed")]) ;;
    requireZeroBalances command) ;;
  when (currentIs command "cancelled" && targetIs command "shipped") (
    requireVerifiedMatchingCancellationRaceScan command ;;
    requireExactCancellationRaceHandoffResult (js "OrderPhase(single)") command) ;;
  when (currentIs command "cancelled_refunded" && targetIs command "shipped") (
    requireVerifiedMatchingCancellationRaceScan command ;;
    requireExactCancellationRaceHandoffResult (js "OrderPhase(single)") command) ;;
  when (currentIs command "cancelled_refunded" && targetIs command "cancelled")
    (requireExactLateRefundFailureReconciliation command (lit "phase")) ;;
  when (currentIs command "shipped" && targetIs command "delivered")
    (requireAllShipmentLineageLeavesDelivered (js "OrderPhase(single)") command) ;;
  when (currentIs command "delivered" && targetIs command "completed")
    (requireAtomicOrderPhaseCompletion (js "OrderPhase(single)") command) ;;
  when
    (targetIs command "cancelled"
     || ((currentIs command "shipped" || currentIs command "recovery_pending")
         && targetIs command "cancelled_refunded"))
    (requireFlag command "preHandoffShipmentCancellationsCompleted") ;;
  when (targetIs command "cancelled")
    (requireAtomicOrderPhaseCancellation (js "OrderPhase(single)") command) ;;
  when
    ((currentIs command "shipped" || currentIs command "recovery_pending")
     && targetIs command "cancelled_refunded")
    (requireFlag command "recoveryFinancialSettlementCompleted") ;;
  when
    (targetIs command "completed"
     || targetIs command "partially_fulfilled"
     || targetIs command "cancelled_refunded"
     || targetIs command "cancelled_settled") (
    requireFlag command "completionProjected" ;;
    requireProjectedCompletionTarget (js "OrderPhase(single)") command ;;
    requireZeroBalances command) ;;
  when
    (currentIs command "cancelled"
     && (targetIs command "cancelled_refunded" || targetIs command "cancelled_settled"))
    (requireProjectedFinancialTerminalTarget command).

Definition singleOrderPhaseContextualTerminal (state : Status) (context : value) : result bool :=
  Ok ((str_eqb state (js "cancelled_refunded")
       && negb (hasExactRefundedCancellationRecoveryMarker context)
       && negb (hasExactLateRefundFailureMarker context))
      || (str_eqb state (js "cancelled") && (context ?. "paymentStatus" === lit "unpaid"))).

Definition singleOrderPhasePolicy : TransitionPolicy :=
  mkPolicy (js "OrderPhase(single)") Lifecycles.singleOrderPhaseInitial
    Lifecycles.singleOrderPhaseTerminal (Some singleOrderPhaseContextualTerminal)
    Lifecycles.singleOrderPhaseTransitions None (Some singleOrderPhaseGuard).

(** ** Completion *)

(** The slots of a completion and their outcomes. *)
Definition completion_slots (command : TransitionCommand) : list value :=
  elements ((record ((context command) ?. "completionAuthoritativeFulfilmentSlotSet")) ?. "slotSnapshots").
Definition completion_outcomes (command : TransitionCommand) : list value :=
  elements ((context command) ?. "completionFulfilmentSlotOutcomes").

(** The outcomes of slots that a status allows. *)
Definition outcomes_for (status : jstr) : list String.string :=
  if str_eqb status (js "completed") then ["delivered"%string]
  else if str_eqb status (js "partially_fulfilled") then ["delivered"; "cancelled_refunded"]%string
  else if str_eqb status (js "refunded") || str_eqb status (js "cancelled_refunded") then ["cancelled_refunded"%string]
  else ["cancelled_settled"%string].

(** An outcome of one of the slots, which has the same status. *)
Definition outcome_of (slots : list value) (statuses : list String.string) (o : value) : Prop :=
  ∃ s status, s ∈ slots ∧ s ?. "id" = o ?. "slotId" ∧ status ∈ statuses
    ∧ s ?. "status" = lit status ∧ o ?. "status" = lit status.

(** A completion: every slot of the authoritative set has one outcome, of its
    own status and one that the target allows, and a partial fulfilment has
    both a delivered and a refunded one. *)
Record completion (command : TransitionCommand) : Prop := {
  cp_slots : ∃ ids, identified (completion_slots command) ids ∧ ids ≠ [];
  cp_outcomes : (λ o, o ?. "slotId") <$> completion_outcomes command
    ≡ₚ (λ s, s ?. "id") <$> completion_slots command;
  cp_agree : Forall (outcome_of (completion_slots command) (outcomes_for (target command)))
    (completion_outcomes command);
  cp_mixed : target command = js "partially_fulfilled" →
    Forall (λ s, ∃ o, o ∈ completion_outcomes command ∧ o ?. "status" = lit s) (outcomes_for (target command));
}.

(** ** They fail only as guards *)

#[global] Typeclasses Opaque
  requireProjectedFinancialTerminalTarget
  requireProjectedCompletionTarget
  requireAtomicOrderPhaseCancellation
  requireAtomicOrderPhaseCompletion
  requireAtomicOrderPhaseProductionStart
  requireCompleteQcSlotSet
  requireAtomicOrderPhaseQcCompletion
  requireAllShipmentLineageLeavesDelivered.

#[export] Instance guard_only_requireProjectedFinancialTerminalTarget command :
  GuardOnly (requireProjectedFinancialTerminalTarget command).
Proof. cbv beta delta [requireProjectedFinancialTerminalTarget]. guard_only. Qed.

#[export] Instance guard_only_requireProjectedCompletionTarget lifecycle command :
  GuardOnly (requireProjectedCompletionTarget lifecycle command).
Proof. cbv beta delta [requireProjectedCompletionTarget]. guard_only. Qed.

#[export] Instance guard_only_requireAtomicOrderPhaseCancellation lifecycle command :
  GuardOnly (requireAtomicOrderPhaseCancellation lifecycle command).
Proof. cbv beta delta [requireAtomicOrderPhaseCancellation]. guard_only. Qed.

#[export] Instance guard_only_requireAtomicOrderPhaseCompletion lifecycle command :
  GuardOnly (requireAtomicOrderPhaseCompletion lifecycle command).
Proof. cbv beta delta [requireAtomicOrderPhaseCompletion]. guard_only. Qed.

#[export] Instance guard_only_requireAtomicOrderPhaseProductionStart lifecycle command :
  GuardOnly (requireAtomicOrderPhaseProductionStart lifecycle command).
Proof. cbv beta delta [requireAtomicOrderPhaseProductionStart]. guard_only. Qed.

#[export] Instance guard_only_requireCompleteQcSlotSet command orderId phaseId :
  GuardOnly (requireCompleteQcSlotSet command orderId phaseId).
Proof. cbv beta delta [requireCompleteQcSlotSet]. guard_only. Qed.

#[export] Instance guard_only_requireAtomicOrderPhaseQcCompletion lifecycle command :
  GuardOnly (requireAtomicOrderPhaseQcCompletion lifecycle command).
Proof. cbv beta delta [requireAtomicOrderPhaseQcCompletion]. guard_only. Qed.

#[export] Instance guard_only_requireAllShipmentLineageLeavesDelivered lifecycle command :
  GuardOnly (requireAllShipmentLineageLeavesDelivered lifecycle command).
Proof. cbv beta delta [requireAllShipmentLineageLeavesDelivered]. guard_only. Qed.

#[export] Instance guard_only_singleOrderPhaseGuard command :
  GuardOnly (singleOrderPhaseGuard command).
Proof. cbv beta delta [singleOrderPhaseGuard]. guard_only. Qed.

(** ** What a completion has checked *)

Lemma outcomes_read (f : bool * bool * list value → value → bool * (bool * bool * list value))
    slots statuses outcomes d c ids :
  (∀ d c t o d' c' t', f (d, c, t) o = (true, (d', c', t')) →
    nonBlank (o ?. "slotId") = true ∧ set_has t (o ?. "slotId") = false ∧ t' = set_add t (o ?. "slotId")
    ∧ d' = (if o ?. "status" === lit "delivered" then true else d)
    ∧ c' = (if o ?. "status" === lit "cancelled_refunded" then true else c) ∧ outcome_of slots statuses o) →
  every_with f (false, false, []) outcomes = (true, (d, c, ids)) →
  ∃ ks, ids = Str <$> ks ∧ NoDup ks ∧ (λ o, o ?. "slotId") <$> outcomes = ids
    ∧ Forall (outcome_of slots statuses) outcomes
    ∧ (d = true → ∃ o, o ∈ outcomes ∧ o ?. "status" = lit "delivered")
    ∧ (c = true → ∃ o, o ∈ outcomes ∧ o ?. "status" = lit "cancelled_refunded").
Proof.
  intros Hf. set (P := λ (t : bool * bool * list value) pre, ∃ ks, t.2 = Str <$> ks ∧ NoDup ks
    ∧ (λ o, o ?. "slotId") <$> pre = t.2 ∧ Forall (outcome_of slots statuses) pre
    ∧ (t.1.1 = true → ∃ o, o ∈ pre ∧ o ?. "status" = lit "delivered")
    ∧ (t.1.2 = true → ∃ o, o ∈ pre ∧ o ?. "status" = lit "cancelled_refunded")).
  apply (every_with_prefix f P).
  { exists []. split_and!; done || constructor. }
  clear d c ids. intros [[d c] t] pre o [[d' c'] t'] (ks & Ht & Hn & Hp & HF & Hd & Hc) Hs. cbn in Ht, Hp, Hd, Hc.
  apply Hf in Hs as ((s & Hs & _)%nonBlank_Str & Hnew & -> & -> & -> & Ho). rewrite Hs in *.
  destruct (set_add_string (λ o, o ?. "slotId") ks pre t o s) as (ks' & Hks & Hn' & Hp'); [done..|].
  exists ks'. unfold outcome_of in *. split_and!; [done..| | |]; cbn.
  - apply Forall_app. by rewrite Forall_singleton.
  - destruct (_ === _) eqn:E; setoid_rewrite elem_of_app.
    + intros _. exists o. split; [right; by left|]. by apply strict_eq_lit.
    + intros (o' & ? & ?)%Hd. eauto.
  - destruct (_ === lit "cancelled_refunded") eqn:E; setoid_rewrite elem_of_app.
    + intros _. exists o. split; [right; by left|]. by apply strict_eq_lit.
    + intros (o' & ? & ?)%Hc. eauto.
Qed.

(** The statuses that the guard admits are those of the target. *)
Lemma expected_outcome (command : TransitionCommand) v :
  let expectedStatus := if targetIs command "completed" then lit "delivered"
    else if targetIs command "partially_fulfilled" then lit "mixed"
    else if targetIs command "refunded" || targetIs command "cancelled_refunded"
    then lit "cancelled_refunded" else lit "cancelled_settled" in
  (if expectedStatus === lit "mixed"
   then (v === lit "delivered") || (v === lit "cancelled_refunded") else v === expectedStatus) = true →
  ∃ status, status ∈ outcomes_for (target command) ∧ v = lit status.
Proof.
  unfold outcomes_for, targetIs. cbv zeta. repeat destruct (str_eqb _ _); cbn [orb andb];
  match goal with |- (if ?b then _ else _) = _ → _ => let c := eval vm_compute in b in change b with c end; cbn match;
  try (intros Hv%strict_eq_lit; eexists; split; [by left|done]).
  intros [Hv|Hv]%orb_true_iff; apply strict_eq_lit in Hv; eexists; (split; [|done]); [by left|right; by left].
Qed.

(** Slots that are as many as the identities of a set and among them, and keys
    that are as many as the same set's and cover it. *)
Lemma set_covered slots sids ks expected ids :
  identified slots sids → Forall (λ s, includes (elements ids) (s ?. "id") = true) slots →
  zlength slots = zlength (elements ids) → hasSameNonEmptyStringSet expected ids = true →
  zlength ks = zlength (elements expected) →
  forallb (λ id, set_has (Str <$> ks) id) (elements expected) = true →
  Str <$> ks ≡ₚ (λ s, s ?. "id") <$> slots.
Proof.
  intros [Hs Hn] HQ Hls (l & r & He & Hr & Hl & Hrn & Hlr)%same_strings Hlk Hcov. rewrite Hs.
  apply fmap_Permutation. rewrite He, Hr in *. unfold zlength in *. rewrite length_fmap in *.
  pose proof (f_equal length Hs) as Hsl. rewrite !length_fmap in Hsl.
  assert (l ≡ₚ ks) as <-.
  { apply covers_Permutation; [done|lia|]. intros x Hx. rewrite forallb_forall in Hcov.
    apply (list_elem_of_fmap_2 Str), list_elem_of_In, Hcov, includes_Str, list_elem_of_fmap in Hx.
    by destruct Hx as (y & [= ->] & ?). }
  rewrite Hlr. symmetry. apply covers_Permutation; [done|lia|]. intros x Hx.
  apply (list_elem_of_fmap_2 Str) in Hx. rewrite <-Hs in Hx. apply list_elem_of_fmap in Hx as (s & Hx & Hin).
  rewrite Forall_forall in HQ. apply HQ in Hin. rewrite <-Hx in Hin.
  apply includes_Str, list_elem_of_fmap in Hin. by destruct Hin as (y & [= ->] & ?).
Qed.

Lemma projected_completion lifecycle command :
  requireProjectedCompletionTarget lifecycle command = Ok () → completion command.
Proof.
  intros H. cbv beta delta [requireProjectedCompletionTarget] in H.
  guard_steps_with ltac:(fun p => destruct p eqn:?) H.
  apply guard_when_Ok in H. unfold valid, authoritativeSlotSetValid in *. bool_inv.
  match goal with E : b0 = true |- _ => rewrite E in * end. subst p p0.
  match goal with E : (if ?b then _ else _) = (true, _) |- _ => destruct b eqn:Hb; [|done] end.
  bool_inv.
  assert ((authoritativeSlots !== Undefined) = true) as Hdef by (by apply negb_true_iff).
  rewrite Hdef in *. rename Heqp into Hslots, Heqp0 into Houts.
  match goal with E : b = true |- _ => rewrite E in * end.
  apply (every_with_by_id _ (λ s, includes (elements authoritativeIds) (s ?. "id") = true)) in Hslots
    as (sids & -> & Hsids & HsQ).
  2: { intros t v t'. cbv zeta. destruct (negb (is_record v)); [done|].
    match goal with |- (if ?b then _ else _) = _ → _ => destruct b eqn:E; [done|] end.
    intros [= <-]. bool_inv. split_and!; [done..|]. unfold when_defined in *. by destruct authoritativeIds. }
  assert (Hse : elements authoritativeSlots = completion_slots command)
    by (by apply (array_elements authoritativeSlotsValue)).
  rewrite Hse in *.
  apply (outcomes_read _ (completion_slots command) (outcomes_for (target command))) in Houts
    as (ks & -> & Hks & Hkeys & Hagree & Hd & Hc).
  2: { clear. intros d c t o d' c' t'. cbv zeta. destruct (negb (is_record o)); [done|].
    match goal with |- (if ?b then _ else _) = _ → _ => destruct b eqn:E; [|done] end.
    bool_inv. match goal with E : nonBlank (o ?. "slotId") = true |- _ => pose proof E as (s & Hs & _)%nonBlank_Str;
      rewrite E in *; rewrite Hs in * end.
    intros [= <- <- <-]. split_and!; [done..|].
    match goal with E : context [if expectedStatus === _ then _ else _] |- _ =>
      apply expected_outcome in E as (status & Hin & Hst) end.
    match goal with E : (map_get _ _ === Undefined) = false |- _ => apply map_get_by_id in E as [Hm Hid] end.
    match goal with E : (_ ?. "status" === _) = true |- _ => rewrite Hst in E; apply strict_eq_lit in E; rename E into He end.
    eexists _, status. split_and!; [exact Hm|congruence|done..]. }
  assert (Str <$> ks ≡ₚ (λ s, s ?. "id") <$> completion_slots command) as Hcover.
  { apply (set_covered _ sids _ expected authoritativeIds); [exact Hsids|exact HsQ| |done| |done].
    - rewrite <-Hse. unfold authoritativeSlots, authoritativeIds. by rewrite <-!array_length.
    - rewrite <-js_len_elements by done. rewrite <-H4, js_len_elements by done.
      apply (f_equal length) in Hkeys. rewrite !length_fmap in Hkeys. unfold zlength. lia. }
  split.
  - exists sids. split; [done|]. intros ->. destruct Hsids as [Hi _].
    apply fmap_nil_inv in Hi. rewrite <-Hse in Hi. unfold authoritativeSlots in *. rewrite array_length, Hi in *.
    unfold zlength in *. cbn in *. lia.
  - by rewrite <-Hcover, <-Hkeys.
  - done.
  - intros Ht. rewrite Ht. change (outcomes_for _) with ["delivered"; "cancelled_refunded"]%string.
    assert (expectedStatus = lit "mixed") as Hm by (unfold expectedStatus, targetIs; by rewrite Ht).
    match goal with E : (expectedStatus !== _) || _ = true |- _ => rewrite Hm in E; change (b1 && b2 = true) in E end.
    bool_inv. apply Forall_cons_2; [by apply Hd|apply Forall_cons_2; [by apply Hc|apply Forall_nil_2]].
Qed.

End Phases.
