(* ===== verification/Orders.v ===== *)
(** The lifecycle of an order (lifecycle/policies.ts): its topology when it is
    quoted, its readiness to ship, the disposition of its phase, and its
    policy. *)
From S2P Require Import Prelude Text Primitives Values Transition Guards Lifecycles Replacements Handoffs Jobs Refunds Checkout Phases.

Import Transition.

Section Orders.

Context {collation : Collation}.

(** ** Guards *)

Definition requireCompleteShipmentReadiness (command : TransitionCommand) : result () :=
  let context_ := context command in
  let orderId := context_ ?. "orderId" in
  let phaseId := context_ ?. "phaseId" in
  let resultId := context_ ?. "shipmentReadinessResultId" in
  let previousOrderResultId := context_ ?. "shipmentReadinessPreviousOrderResultId" in
  let orderStateKey := context_ ?. "shipmentReadinessCurrentStateCommandKey" in
  let expectedOrderValue := context_ ?. "shipmentReadinessExpectedOrder" in
  let expectedOrder := record expectedOrderValue in
  let authoritativeSetId := context_ ?. "shipmentReadinessAuthoritativeShipmentSetId" in
  let authoritativeSetValue := context_ ?. "shipmentReadinessAuthoritativeShipmentSet" in
  let authoritativeSet := record authoritativeSetValue in
  let shipmentIdsValue := authoritativeSet ?. "shipmentIds" in
  let shipmentIds := array shipmentIdsValue in
  let shipmentsValue := context_ ?. "shipmentReadinessShipments" in
  let shipments := array shipmentsValue in
  guard_when
    (negb (nonBlank orderId)
     || negb (nonBlank phaseId)
     || negb (nonBlank resultId)
     || (optional (aggregateId command) !== orderId)
     || negb (nonBlank previousOrderResultId)
     || negb (nonBlank orderStateKey)
     || (optional (currentStateResultId command) !== previousOrderResultId)
     || (optional (currentStateCommandKey command) !== orderStateKey)
     || (expectedOrder ?. "id" !== orderId)
     || (expectedOrder ?. "phaseId" !== phaseId)
     || (expectedOrder ?. "status" !== Str (current command))
     || (expectedOrder ?. "resultId" !== previousOrderResultId)
     || (expectedOrder ?. "currentStateCommandKey" !== orderStateKey)
     || (expectedOrder ?. "immutable" !== Bool true)
     || (context_ ?. "shipmentReadinessOrderId" !== orderId)
     || (context_ ?. "shipmentReadinessPhaseId" !== phaseId)
     || (context_ ?. "shipmentReadinessOrderResultId" !== resultId)
     || (context_ ?. "shipmentReadinessOrderPreviousStatus" !== Str (current command))
     || (context_ ?. "shipmentReadinessOrderTargetStatus" !== lit "ready_to_ship")
     || negb (nonBlank authoritativeSetId)
     || (context_ ?. "shipmentReadinessExpectedShipmentSetId" !== authoritativeSetId)
     || (authoritativeSet ?. "id" !== authoritativeSetId)
     || (authoritativeSet ?. "orderId" !== orderId)
     || (authoritativeSet ?. "phaseId" !== phaseId)
     || (authoritativeSet ?. "immutable" !== Bool true)
     || (authoritativeSet ?. "resultId" !== resultId)
     || (shipmentIds === Undefined)
     || (js_len shipmentIds =? 0)
     || negb (forallb nonBlank (elements shipmentIds))
     || negb (zlength (set_of (elements shipmentIds)) =? js_len shipmentIds)
     || (shipments === Undefined)
     || negb (js_len shipments =? js_len shipmentIds)
     || (context_ ?. "shipmentReadinessCompleted" !== Bool true)
     || (context_ ?. "shipmentReadinessAtomic" !== Bool true)) ;;
  let projectedIds : list value := [] in
  projectedIds ← foldM (λ projectedIds value_,
    guard_when (negb (is_record value_)) ;;
    let shipment := value_ in
    let id := shipment ?. "id" in
    guard_when
      (negb (nonBlank id)
       || set_has projectedIds id
       || negb (includes (elements shipmentIds) id)
       || (shipment ?. "orderId" !== orderId)
       || (shipment ?. "phaseId" !== phaseId)
       || (shipment ?. "currentLineageLeaf" !== Bool true)
       || (shipment ?. "status" !== lit "label_created")
       || (shipment ?. "readyForHandoff" !== Bool true)
       || (shipment ?. "allJobsPacked" !== Bool true)
       || (shipment ?. "labelUsable" !== Bool true)
       || (shipment ?. "resultId" !== resultId)) ;;
    Ok (set_add projectedIds id)) projectedIds (elements shipments);
  guard_when (existsb (λ id, negb (set_has projectedIds id)) (elements shipmentIds)).

Definition requireAtomicQuotedOrderTopology (command : TransitionCommand) : result () :=
  let context_ := context command in
  let orderId := context_ ?. "orderId" in
  let phaseId := context_ ?. "phaseId" in
  let resultId := context_ ?. "quotedTopologyResultId" in
  let orderPreviousResultId := context_ ?. "quotedTopologyOrderPreviousResultId" in
  let orderStateKey := context_ ?. "quotedTopologyOrderCurrentStateCommandKey" in
  let expectedOrderValue := context_ ?. "quotedTopologyExpectedOrder" in
  let phaseIdsValue := context_ ?. "quotedTopologyPhaseIds" in
  let phasesValue := context_ ?. "quotedTopologyPhases" in
  let slotIdsValue := context_ ?. "quotedTopologyExpectedSlotIds" in
  let slotsValue := context_ ?. "quotedTopologySlots" in
  let authoritativeSlotSetId := context_ ?. "quotedTopologyAuthoritativeSlotSetId" in
  let authoritativeSlotSetValue := context_ ?. "quotedTopologyAuthoritativeSlotSet" in
  let phaseIds := array phaseIdsValue in
  let phases := array phasesValue in
  let slotIds := array slotIdsValue in
  let slots := array slotsValue in
  let authoritativeSlotSet := record authoritativeSlotSetValue in
  let expectedOrder := record expectedOrderValue in
  let authoritativeSlotIdsValue := authoritativeSlotSet ?. "slotIds" in
  let authoritativeSlotIds := array authoritativeSlotIdsValue in
  guard_when
    (negb (nonBlank orderId)
     || negb (nonBlank phaseId)
     || negb (nonBlank resultId)
     || negb (nonBlank orderPreviousResultId)
     || negb (nonBlank orderStateKey)
     || (optional (aggregateId command) !== orderId)
     || (optional (currentStateResultId command) !== orderPreviousResultId)
     || (optional (currentStateCommandKey command) !== orderStateKey)
     || (expectedOrder ?. "id" !== orderId)
     || (expectedOrder ?. "status" !== lit "draft")
     || (expectedOrder ?. "resultId" !== orderPreviousResultId)
     || (expectedOrder ?. "currentStateCommandKey" !== orderStateKey)
     || (expectedOrder ?. "immutable" !== Bool true)
     || (context_ ?. "quotedTopologyOrderId" !== orderId)
     || (context_ ?. "quotedTopologyOrderPreviousStatus" !== lit "draft")
     || (context_ ?. "quotedTopologyOrderTargetStatus" !== lit "quoted")
     || (context_ ?. "quotedTopologyOrderResultId" !== resultId)
     || (context_ ?. "quotedTopologyPhaseSetResultId" !== resultId)
     || (context_ ?. "quotedTopologySlotSetResultId" !== resultId)
     || (phaseIds === Undefined)
     || negb (js_len phaseIds =? 1)
     || (item phaseIds 0 !== phaseId)
     || (phases === Undefined)
     || negb (js_len phases =? 1)
     || negb (nonBlank authoritativeSlotSetId)
     || (context_ ?. "quotedTopologyExpectedSlotSetId" !== authoritativeSlotSetId)
     || (authoritativeSlotSet ?. "id" !== authoritativeSlotSetId)
     || (authoritativeSlotSet ?. "orderId" !== orderId)
     || (authoritativeSlotSet ?. "phaseId" !== phaseId)
     || (authoritativeSlotSet ?. "immutable" !== Bool true)
     || (authoritativeSlotSet ?. "resultId" !== resultId)
     || (authoritativeSlotIds === Undefined)
     || (js_len authoritativeSlotIds =? 0)
     || negb (forallb nonBlank (elements authoritativeSlotIds))
     || negb (zlength (set_of (elements authoritativeSlotIds)) =? js_len authoritativeSlotIds)
     || (slotIds === Undefined)
     || (js_len slotIds =? 0)
     || negb (forallb nonBlank (elements slotIds))
     || negb (zlength (set_of (elements slotIds)) =? js_len slotIds)
     || negb (hasSameNonEmptyStringSet slotIds authoritativeSlotIds)
     || (slots === Undefined)
     || negb (js_len slots =? js_len slotIds)
     || (context_ ?. "quotedTopologyCompleted" !== Bool true)
     || (context_ ?. "quotedTopologyAtomic" !== Bool true)) ;;
  let phase := item phases 0 in
  guard_when
    (negb (is_record phase)
     || (phase ?. "id" !== phaseId)
     || (phase ?. "orderId" !== orderId)
     || (phase ?. "kind" !== lit "single")
     || (phase ?. "status" !== lit "quoted")
     || (phase ?. "resultId" !== resultId)) ;;
  let projectedSlotIds : list value := [] in
  projectedSlotIds ← foldM (λ projectedSlotIds value_,
    guard_when (negb (is_record value_)) ;;
    let slot := value_ in
    let id := slot ?. "id" in
    guard_when
      (negb (nonBlank id)
       || set_has projectedSlotIds id
       || negb (includes (elements slotIds) id)
       || (slot ?. "orderId" !== orderId)
       || (slot ?. "phaseId" !== phaseId)
       || (slot ?. "immutable" !== Bool true)
       || (slot ?. "resultId" !== resultId)) ;;
    Ok (set_add projectedSlotIds id)) projectedSlotIds (elements slots);
  guard_when (existsb (λ id, negb (set_has projectedSlotIds id)) (elements slotIds)).

Definition expectedOrderTerminalPhaseDisposition (orderPrevious : value) (orderTarget : value)
    : value :=
  if orderTarget === lit "partially_fulfilled" then
    if orderPrevious === lit "shipped" then
      RecordV 0
        [(js "phasePrevious", lit "shipped"); (js "phaseTarget", lit "partially_fulfilled")]
    else if orderPrevious === lit "recovery_pending" then
      RecordV 0
        [(js "phasePrevious", lit "recovery_pending");
         (js "phaseTarget", lit "partially_fulfilled")]
    else if (orderPrevious === lit "cancelled") && (orderTarget === lit "refunded") then
      RecordV 0
        [(js "phasePrevious", lit "cancelled"); (js "phaseTarget", lit "cancelled_refunded")]
    else if (orderPrevious === lit "cancelled") && (orderTarget === lit "cancelled_settled") then
      RecordV 0
        [(js "phasePrevious", lit "cancelled"); (js "phaseTarget", lit "cancelled_settled")]
    else if (orderPrevious === lit "awaiting_balance")
    && (orderTarget === lit "cancelled_settled") then
      RecordV 0
        [(js "phasePrevious", lit "qc_passed"); (js "phaseIntermediate", lit "cancelled");
         (js "phaseTarget", lit "cancelled_settled")]
    else
    Undefined
  else if (orderPrevious === lit "cancelled") && (orderTarget === lit "refunded") then
    RecordV 0
      [(js "phasePrevious", lit "cancelled"); (js "phaseTarget", lit "cancelled_refunded")]
  else if (orderPrevious === lit "cancelled") && (orderTarget === lit "cancelled_settled") then
    RecordV 0 [(js "phasePrevious", lit "cancelled"); (js "phaseTarget", lit "cancelled_settled")]
  else if (orderPrevious === lit "awaiting_balance")
  && (orderTarget === lit "cancelled_settled") then
    RecordV 0
      [(js "phasePrevious", lit "qc_passed"); (js "phaseIntermediate", lit "cancelled");
       (js "phaseTarget", lit "cancelled_settled")]
  else
  Undefined.

Definition requireAtomicOrderTerminalPhaseDisposition (command : TransitionCommand) : result () :=
  let expected :=
    expectedOrderTerminalPhaseDisposition (Str (current command)) (Str (target command)) in
  if expected === Undefined then
    Ok ()
  else
  let orderId := (context command) ?. "orderId" in
  let phaseId := (context command) ?. "phaseId" in
  let actualPhasePrevious := (context command) ?. "orderTerminalPhasePreviousStatus" in
  let phaseAlreadyTerminal := actualPhasePrevious === expected ?. "phaseTarget" in
  guard_when
    (negb (nonBlank orderId)
     || ((context command) ?. "orderTerminalPhaseOrderId" !== orderId)
     || ((context command) ?. "orderTerminalPhaseOwnerOrderId" !== orderId)
     || negb (nonBlank phaseId)
     || ((context command) ?. "orderTerminalPhaseId" !== phaseId)) ;;
  guard_when
    (((context command) ?. "phaseKind" !== lit "single")
     || ((context command) ?. "orderTerminalPhaseOrderPreviousStatus" !== Str (current command))
     || ((context command) ?. "orderTerminalPhaseOrderTargetStatus" !== Str (target command))
     || ((actualPhasePrevious !== expected ?. "phasePrevious") && negb phaseAlreadyTerminal)
     || ((context command) ?. "orderTerminalPhaseTargetStatus" !== expected ?. "phaseTarget")
     || ((context command) ?. "orderTerminalPhaseIntermediateStatus"
           !== if phaseAlreadyTerminal then Undefined else expected ?. "phaseIntermediate")) ;;
  when (expected ?. "phaseIntermediate" !== Undefined) (
    when (negb phaseAlreadyTerminal)
      (requireFlag command "orderTerminalPhaseCancellationCompleted") ;;
    requireFlag command "preHandoffShipmentCancellationsCompleted") ;;
  requireFlag command "orderTerminalPhaseCompleted" ;;
  requireFlag command
    (if phaseAlreadyTerminal
     then "orderTerminalPhaseCommittedBeforeOrder"
     else "orderTerminalPhaseAtomic")%string.

(** ** The policy *)

Definition orderGuard (command : TransitionCommand) : result () :=
  when (currentIs command "draft" && targetIs command "quoted")
    (requireAtomicQuotedOrderTopology command) ;;
  when (currentIs command "quoted" && targetIs command "confirmed")
    (requireAtomicConfirmationActivation (js "Order") command) ;;
  when (currentIs command "confirmed" && targetIs command "in_production")
    (requireAtomicOrderPhaseProductionStart (js "Order") command) ;;
  when
    (currentIs command "quoted" && (targetIs command "expired" || targetIs command "cancelled")) (
    (if ((context command) ?. "initialPaymentStatus" === lit "refund_pending")
        || ((context command) ?. "initialPaymentStatus" === lit "refunded") then
      requireInitialCapacityCaptureCompensation (js "Order") command ;;
      guard_when
        (negb (targetIs command "cancelled")
         || ((context command) ?. "capacityCaptureOrderTargetStatus" !== Str (target command)))
    else
      requireInitialCaptureWindowClosed (js "Order") command)) ;;
  when
    ((currentIs command "in_production" || currentIs command "recovery_pending")
     && targetIs command "qc_passed")
    (requireAtomicOrderPhaseQcCompletion (js "Order") command) ;;
  when (currentIs command "qc_passed" && targetIs command "awaiting_balance")
    (requireBalancePaymentDeadlineSetup command true) ;;
  when
    ((currentIs command "in_production"
      || currentIs command "qc_passed"
      || currentIs command "awaiting_balance"
      || currentIs command "ready_to_ship")
     && targetIs command "recovery_pending")
    (requirePostQcJobFailureResolution (js "Order") command) ;;
  when (currentIs command "ready_to_ship" && targetIs command "shipped") (
    requireAtomicOrdinaryHandoff (js "Order") command
      (RecordV 0
         [(js "shipmentPrevious", lit "label_created");
          (js "orderPrevious", lit "ready_to_ship"); (js "phasePrevious", lit "qc_passed")]) ;;
    requireZeroBalances command) ;;
  when (currentIs command "cancelled" && targetIs command "shipped") (
    requireVerifiedMatchingCancellationRaceScan command ;;
    requireExactCancellationRaceHandoffResult (js "Order") command) ;;
  when (currentIs command "refunded" && targetIs command "shipped") (
    requireVerifiedMatchingCancellationRaceScan command ;;
    requireExactCancellationRaceHandoffResult (js "Order") command) ;;
  when (currentIs command "refunded" && targetIs command "cancelled")
    (requireExactLateRefundFailureReconciliation command (lit "order")) ;;
  when (currentIs command "awaiting_balance" && targetIs command "shipped") (
    guard_when
      ((context command) ?. "cancellationRaceHandoffKind"
         !== lit "unauthorized_reconciliation") ;;
    requireVerifiedMatchingCancellationRaceScan command ;;
    requireExactCancellationRaceHandoffResult (js "Order") command) ;;
  when (currentIs command "awaiting_balance" && targetIs command "ready_to_ship") (
    requireZeroBalances command ;;
    requireCompleteShipmentReadiness command) ;;
  when (currentIs command "qc_passed" && targetIs command "ready_to_ship") (
    requireZeroBalances command ;;
    requireCompleteShipmentReadiness command) ;;
  when (currentIs command "shipped" && targetIs command "delivered")
    (requireAllShipmentLineageLeavesDelivered (js "Order") command) ;;
  when (currentIs command "delivered" && targetIs command "completed")
    (requireAtomicOrderPhaseCompletion (js "Order") command) ;;
  requireAtomicOrderTerminalPhaseDisposition command ;;
  when (targetIs command "cancelled") (
    requireFlag command "preHandoffShipmentCancellationsCompleted" ;;
    requireAtomicOrderPhaseCancellation (js "Order") command ;;
    when (currentIs command "shipped" || currentIs command "recovery_pending")
      (requireFlag command "recoveryFinancialSettlementCompleted")) ;;
  when
    (targetIs command "completed"
     || targetIs command "partially_fulfilled"
     || targetIs command "refunded"
     || targetIs command "cancelled_settled") (
    requireFlag command "completionProjected" ;;
    requireProjectedCompletionTarget (js "Order") command ;;
    requireZeroBalances command) ;;
  when
    (currentIs command "cancelled"
     && (targetIs command "refunded" || targetIs command "cancelled_settled"))
    (requireProjectedFinancialTerminalTarget command) ;;
  when (currentIs command "awaiting_balance" && targetIs command "cancelled_settled") (
    requireFlag command "balanceCaptureClosed" ;;
    requireFlag command "immutableOrderSettlementCompleted").

Definition orderContextualTerminal (state : Status) (context : value) : result bool :=
  Ok ((str_eqb state (js "refunded")
       && negb (hasExactRefundedCancellationRecoveryMarker context)
       && negb (hasExactLateRefundFailureMarker context))
      || (str_eqb state (js "cancelled") && (context ?. "paymentStatus" === lit "unpaid"))).

Definition orderPolicy : TransitionPolicy :=
  mkPolicy (js "Order") Lifecycles.orderInitial Lifecycles.orderTerminal
    (Some orderContextualTerminal) Lifecycles.orderTransitions None (Some orderGuard).

(** ** An order and its phase *)

(** The commands of an order and of its phase in one transaction: they carry
    the same context, and each starts from the state that the context records
    for its aggregate under [prefix]. *)
Record in_step (prefix : String.string) (order phase : TransitionCommand) : Prop := {
  is_key : blank (idempotencyKey phase) = blank (idempotencyKey order);
  is_context : context phase = context order;
  is_snapshot : ownershipSnapshotId phase = ownershipSnapshotId order
    ∧ ownershipSnapshotResultId phase = ownershipSnapshotResultId order;
  is_order : optional (aggregateId order) = (context order) ?. "orderId"
    ∧ optional (currentStateResultId order) = (context order) ?. (prefix ++ "OrderPreviousResultId")
    ∧ optional (currentStateCommandKey order) = (context order) ?. (prefix ++ "OrderCurrentStateCommandKey");
  is_phase : optional (aggregateId phase) = (context order) ?. "phaseId"
    ∧ optional (currentStateResultId phase) = (context order) ?. (prefix ++ "PhasePreviousResultId")
    ∧ optional (currentStateCommandKey phase) = (context order) ?. (prefix ++ "PhaseCurrentStateCommandKey");
}.

(** The changes that an order and its phase make together, with the prefix of
    the context's fields that record their sources. *)
Definition atomic_steps : list (String.string * (String.string * String.string) * (String.string * String.string)) :=
  [("confirmation", ("quoted", "confirmed"), ("quoted", "active"));
   ("productionStart", ("confirmed", "in_production"), ("active", "in_production"));
   ("qcCompletion", ("in_production", "qc_passed"), ("in_production", "qc_passed"));
   ("qcCompletion", ("recovery_pending", "qc_passed"), ("recovery_pending", "qc_passed"))]%string.

Definition moves (command : TransitionCommand) (edge : String.string * String.string) : Prop :=
  current command = js edge.1 ∧ target command = js edge.2.

(** The check that both policies make of such a change. *)
Definition atomic_guard (prefix : String.string) (lifecycle : jstr) (command : TransitionCommand) : result () :=
  if bool_decide (prefix = "confirmation"%string) then requireAtomicConfirmationActivation lifecycle command
  else if bool_decide (prefix = "productionStart"%string) then requireAtomicOrderPhaseProductionStart lifecycle command
  else requireAtomicOrderPhaseQcCompletion lifecycle command.

(** The statuses that finish an order, and those that finish a phase. *)
Definition finishing : list (TransitionPolicy * list jstr) :=
  [(orderPolicy, [js "completed"; js "partially_fulfilled"; js "refunded"; js "cancelled_settled"]);
   (singleOrderPhasePolicy,
    [js "completed"; js "partially_fulfilled"; js "cancelled_refunded"; js "cancelled_settled"])].

(** ** They fail only as guards *)

#[global] Typeclasses Opaque
  requireCompleteShipmentReadiness
  requireAtomicQuotedOrderTopology
  requireAtomicOrderTerminalPhaseDisposition.

#[export] Instance guard_only_requireCompleteShipmentReadiness command :
  GuardOnly (requireCompleteShipmentReadiness command).
Proof. cbv beta delta [requireCompleteShipmentReadiness]. guard_only. Qed.

#[export] Instance guard_only_requireAtomicQuotedOrderTopology command :
  GuardOnly (requireAtomicQuotedOrderTopology command).
Proof. cbv beta delta [requireAtomicQuotedOrderTopology]. guard_only. Qed.

#[export] Instance guard_only_requireAtomicOrderTerminalPhaseDisposition command :
  GuardOnly (requireAtomicOrderTerminalPhaseDisposition command).
Proof. cbv beta delta [requireAtomicOrderTerminalPhaseDisposition]. guard_only. Qed.

#[export] Instance guard_only_orderGuard command : GuardOnly (orderGuard command).
Proof. cbv beta delta [orderGuard]. guard_only. Qed.

(** ** In step *)

(** The identities that two commands in step have, as equations; the goal's
    tests of them against the context's hold. *)
Ltac in_step_rewrite H :=
  let Hc := fresh in let Hi := fresh in let Hr := fresh in let Ho := fresh in let Hor := fresh in
  let Hok := fresh in let Hp := fresh in let Hpr := fresh in let Hpk := fresh in
  destruct H as [_ Hc [Hi Hr] (Ho & Hor & Hok) (Hp & Hpr & Hpk)];
  repeat match goal with E : context [String.append ?a ?b] |- _ =>
    let k := eval vm_compute in (String.append a b) in change (String.append a b) with k in E end;
  rewrite ?Hc, ?Hi, ?Hr, <-?Ho, <-?Hor, <-?Hok, <-?Hp, <-?Hpr, <-?Hpk, ?optional_refl;
  literal_tests;
  cbn [negb andb orb]; rewrite ?orb_false_r.

Lemma confirmation_in_step order phase : in_step "confirmation" order phase →
  requireAtomicConfirmationActivation (js "Order") order =
  requireAtomicConfirmationActivation (js "OrderPhase(single)") phase.
Proof.
  intros H. cbv beta delta [requireAtomicConfirmationActivation].
  unfold requireCompleteConfirmationJobLinks, requireFlag. cbv zeta. in_step_rewrite H. reflexivity.
Qed.

Lemma production_start_in_step order phase : in_step "productionStart" order phase →
  requireAtomicOrderPhaseProductionStart (js "Order") order =
  requireAtomicOrderPhaseProductionStart (js "OrderPhase(single)") phase.
Proof.
  intros H. cbv beta delta [requireAtomicOrderPhaseProductionStart].
  unfold requireFlag. cbv zeta. in_step_rewrite H. reflexivity.
Qed.

Lemma qc_completion_in_step order phase : in_step "qcCompletion" order phase → current order = current phase →
  requireAtomicOrderPhaseQcCompletion (js "Order") order =
  requireAtomicOrderPhaseQcCompletion (js "OrderPhase(single)") phase.
Proof.
  intros H Hc. cbv beta delta [requireAtomicOrderPhaseQcCompletion].
  unfold requireCompleteQcSlotSet, requireFlag. cbv zeta. rewrite Hc. in_step_rewrite H. reflexivity.
Qed.

Ltac atomic_cases Hin :=
  unfold atomic_steps in Hin; repeat (apply elem_of_cons in Hin as [[= -> -> ->]|Hin]);
  [..|by apply not_elem_of_nil in Hin]; cbn [fst snd] in *.

Lemma order_guard_steps order prefix edge edge' :
  (prefix, edge, edge') ∈ atomic_steps → moves order edge →
  orderGuard order = atomic_guard prefix (js "Order") order.
Proof.
  intros Hin [Hc Ht]. unfold orderGuard, currentIs, targetIs, requireAtomicOrderTerminalPhaseDisposition.
  rewrite Hc, Ht. clear Hc Ht. atomic_cases Hin; literal_tests; cbn [negb andb orb when];
  match goal with |- context [expectedOrderTerminalPhaseDisposition ?a ?b === Undefined] =>
    change (expectedOrderTerminalPhaseDisposition a b === Undefined) with true end;
  cbn [mbind result_bind]; by rewrite ?bind_tt.
Qed.

Lemma phase_guard_steps phase prefix edge edge' :
  (prefix, edge, edge') ∈ atomic_steps → moves phase edge' →
  singleOrderPhaseGuard phase = atomic_guard prefix (js "OrderPhase(single)") phase.
Proof.
  intros Hin [Hc Ht]. unfold singleOrderPhaseGuard, currentIs, targetIs.
  rewrite Hc, Ht. clear Hc Ht. atomic_cases Hin; literal_tests; cbn [negb andb orb when mbind result_bind];
  by rewrite ?bind_tt.
Qed.

Lemma atomic_guard_in_step order phase prefix edge edge' :
  (prefix, edge, edge') ∈ atomic_steps → moves order edge → moves phase edge' → in_step prefix order phase →
  atomic_guard prefix (js "Order") order = atomic_guard prefix (js "OrderPhase(single)") phase.
Proof.
  intros Hin [Ho _] [Hp _] H. atomic_cases Hin.
  - by apply confirmation_in_step.
  - by apply production_start_in_step.
  - apply qc_completion_in_step; congruence.
  - apply qc_completion_in_step; congruence.
Qed.

Lemma atomic_edges prefix edge edge' : (prefix, edge, edge') ∈ atomic_steps →
  (js edge.1 ≠ js edge.2 ∧ js edge.2 ∈ targets Lifecycles.orderTransitions (js edge.1))
  ∧ js edge'.1 ≠ js edge'.2 ∧ js edge'.2 ∈ targets Lifecycles.singleOrderPhaseTransitions (js edge'.1).
Proof. intros Hin. atomic_cases Hin; apply (bool_decide_unpack _); vm_compute; exact I. Qed.

(** A change that the table has, as far as the guard lets it. *)
Lemma transition_step policy f command edge :
  guard policy = Some f → moves command edge → js edge.1 ≠ js edge.2 →
  js edge.2 ∈ targets (transitions policy) (js edge.1) →
  transition policy command =
    (throw_when (blank (idempotencyKey command)) TypeError ;; f command ;; Ok (changed (js edge.1) (js edge.2))).
Proof.
  intros Hf [Hc Ht] Hne Hin. unfold transition. rewrite Hf, Hc, Ht.
  unfold str_eqb. by rewrite bool_decide_eq_false_2, bool_decide_eq_true_2.
Qed.

(** C11: An order and its phase move together: of a confirmation, a start of
    production and an approval of quality, the policy of the order accepts its
    command exactly when the policy of the phase accepts the phase's command of
    the same transaction, and they throw the same error. *)
Theorem order_and_phase_in_step prefix edge edge' order phase :
  (prefix, edge, edge') ∈ atomic_steps → moves order edge → moves phase edge' → in_step prefix order phase →
  (transition orderPolicy order = Ok (changed (js edge.1) (js edge.2))
   ↔ transition singleOrderPhasePolicy phase = Ok (changed (js edge'.1) (js edge'.2)))
  ∧ ∀ e, transition orderPolicy order = Throw e ↔ transition singleOrderPhasePolicy phase = Throw e.
Proof.
  intros Hin Ho Hp H.
  destruct (atomic_edges _ _ _ Hin) as [[? ?] [? ?]].
  rewrite (transition_step orderPolicy orderGuard order edge),
    (transition_step singleOrderPhasePolicy singleOrderPhaseGuard phase edge') by done.
  rewrite (order_guard_steps _ _ _ _ Hin Ho), (phase_guard_steps _ _ _ _ Hin Hp), (atomic_guard_in_step _ _ _ _ _ Hin Ho Hp H).
  rewrite (is_key _ _ _ H). destruct (throw_when _ _); cbn [mbind result_bind]; [|naive_solver].
  destruct (atomic_guard _ _ _); cbn [mbind result_bind]; naive_solver.
Qed.

(** ** What a finished order has checked *)

(** The last checks of a guard towards one of the statuses that finish. *)
Ltac finishing_guard H Hin :=
  guard_steps H;
  match goal with E : when (targetIs _ "completed" || _ || _ || _) _ = _ |- _ =>
    unfold targetIs in E;
    repeat (let Ht := fresh in apply elem_of_cons in Hin as [Ht|Hin]; [rewrite Ht in E; literals E; by guard_steps E|]);
    by apply not_elem_of_nil in Hin
  end.

Lemma order_finished command : orderGuard command = Ok () →
  target command ∈ [js "completed"; js "partially_fulfilled"; js "refunded"; js "cancelled_settled"] →
  requireProjectedCompletionTarget (js "Order") command = Ok () ∧ requireZeroBalances command = Ok ().
Proof. intros H Hin. cbv beta delta [orderGuard] in H. finishing_guard H Hin. Qed.

Lemma phase_finished command : singleOrderPhaseGuard command = Ok () →
  target command ∈ [js "completed"; js "partially_fulfilled"; js "cancelled_refunded"; js "cancelled_settled"] →
  requireProjectedCompletionTarget (js "OrderPhase(single)") command = Ok () ∧ requireZeroBalances command = Ok ().
Proof. intros H Hin. cbv beta delta [singleOrderPhaseGuard] in H. finishing_guard H Hin. Qed.

(** C10: A command that finishes an order or a phase accounts for every slot of
    its authoritative set exactly once, with the outcome that the slot has and
    that the status reached allows, and leaves nothing due and nothing to
    refund. *)
Theorem finished_when_complete policy statuses command p status :
  (policy, statuses) ∈ finishing → status ∈ statuses → transition policy command = Ok (changed p status) →
  completion command
  ∧ (context command) ?. "amountDueMinor" = BigIntV 0 ∧ (context command) ?. "refundableBalanceMinor" = BigIntV 0.
Proof.
  intros Hin Hs (_ & -> & _ & _ & Hg)%transition_changed.
  assert (∃ lifecycle, requireProjectedCompletionTarget lifecycle command = Ok () ∧ requireZeroBalances command = Ok ())
    as (lifecycle & Hcomp & Hbal).
  { apply elem_of_cons in Hin as [[= -> ->]|[= -> ->]%list_elem_of_singleton]; specialize (Hg _ eq_refl); eexists;
    [by apply order_finished|by apply phase_finished]. }
  split; [by eapply projected_completion|]. apply guard_when_Ok in Hbal. bool_inv.
  by split; apply strict_eq_BigIntV.
Qed.

End Orders.

(** ** Sample commands *)

Section Samples.

Import Sample.

#[local] Instance code_unit_collation : Collation := compareStrings.

(** The order [o] and its phase [p] start production. *)
Definition start_context : list (jstr * value) :=
  [text "orderId" "o"; text "phaseId" "p"; text "phaseKind" "single"; text "productionStartOrderId" "o";
   text "productionStartPhaseOrderId" "o"; text "productionStartPhaseId" "p";
   text "productionStartOrderPreviousResultId" "ro"; text "productionStartPhasePreviousResultId" "rp";
   text "productionStartOrderCurrentStateCommandKey" "ko"; text "productionStartPhaseCurrentStateCommandKey" "kp";
   field "productionStartExpectedOrder" (RecordV 2 [text "id" "o"; text "phaseId" "p"; text "status" "confirmed";
     text "resultId" "ro"; text "currentStateCommandKey" "ko"; flag "immutable"]);
   field "productionStartExpectedPhase" (RecordV 3 [text "id" "p"; text "orderId" "o"; text "status" "active";
     text "resultId" "rp"; text "currentStateCommandKey" "kp"; flag "immutable"]);
   text "productionStartOrderPreviousStatus" "confirmed"; text "productionStartOrderTargetStatus" "in_production";
   text "productionStartPhasePreviousStatus" "active"; text "productionStartPhaseTargetStatus" "in_production";
   flag "productionStartCompleted"; flag "productionStartAtomic"].

Definition order_start : TransitionCommand := command "o" "confirmed" "in_production" "ko" "ro" "k" start_context.
Definition phase_start : TransitionCommand := command "p" "active" "in_production" "kp" "rp" "k" start_context.

Lemma order_and_phase_in_step_witness :
  transition orderPolicy order_start = Ok (changed (js "confirmed") (js "in_production"))
  ∧ transition singleOrderPhasePolicy phase_start = Ok (changed (js "active") (js "in_production")).
Proof.
  assert (transition orderPolicy order_start = Ok (changed (js "confirmed") (js "in_production"))) as H
    by (vm_compute; reflexivity).
  split; [exact H|].
  refine (proj1 (proj1 (order_and_phase_in_step "productionStart" ("confirmed", "in_production")
    ("active", "in_production") order_start phase_start _ _ _ _)) H).
  - right; left.
  - by split.
  - by split.
  - by split.
Defined.

(** The phase [p] is partially fulfilled: the slot [x] was delivered, [y]
    cancelled and refunded. *)
Definition fulfilment_command : TransitionCommand :=
   with_snapshot "fulfilment-slot-set" "slot-set-result" (command "p" "shipped" "partially_fulfilled" "k1" "r1" "k2"
     [flag "completionProjected"; text "phaseId" "p"; text "completionPhaseCurrentStateCommandKey" "k1";
      field "completionExpectedPhase" (RecordV 1 [text "resultId" "r1"; text "id" "p"; text "orderId" "o";
      text "phaseId" "p"; text "status" "shipped"; text "currentStateCommandKey" "k1";
      text "phaseTopologyId" "p"; text "fulfilmentSlotSetId" "fulfilment-slot-set";
      text "fulfilmentSlotSetResultId" "slot-set-result"; flag "immutable"]);
      field "expectedCompletionFulfilmentSlotIds" (ArrayV 2 [lit "x"; lit "y"]);
      field "completionFulfilmentSlotOutcomes" (ArrayV 3 [RecordV 4 [text "status" "delivered";
      text "slotId" "x"; text "sourceResultId" "source-result";
      text "sourceCurrentStateCommandKey" "state-command-key"; text "resultId" "completion-result";
      text "completionTarget" "partially_fulfilled"; flag "immutable"; text "orderId" "o"; text "phaseId" "p"];
      RecordV 5 [text "status" "cancelled_refunded"; text "slotId" "y";
      text "sourceResultId" "source-result-1"; text "sourceCurrentStateCommandKey" "state-command-key-1";
      text "resultId" "completion-result"; text "completionTarget" "partially_fulfilled"; flag "immutable";
      text "orderId" "o"; text "phaseId" "p"]]); text "completionAuthoritativePhaseTopologyId" "p";
      text "completionExpectedPhaseTopologyId" "p";
      field "completionExpectedPhaseTopology" (RecordV 6 [text "id" "p"; text "orderId" "o";
      text "kind" "single"; text "status" "shipped";
      text "authoritativeFulfilmentSlotSetId" "fulfilment-slot-set";
      text "authoritativeFulfilmentSlotSetResultId" "slot-set-result"; flag "immutable"]);
      text "completionAuthoritativeFulfilmentSlotSetId" "fulfilment-slot-set";
      text "completionExpectedFulfilmentSlotSetId" "fulfilment-slot-set";
      text "completionAuthoritativeFulfilmentSlotSetResultId" "slot-set-result";
      field "completionAuthoritativeFulfilmentSlotSet" (RecordV 7 [field "slotIds" (ArrayV 8 [lit "x";
      lit "y"]); field "slotSnapshots" (ArrayV 9 [RecordV 10 [text "id" "x"; text "orderId" "o";
      text "phaseId" "p"; text "sourceResultId" "source-result";
      text "sourceCurrentStateCommandKey" "state-command-key"; flag "immutable"; text "status" "delivered"];
      RecordV 11 [text "id" "y"; text "orderId" "o"; text "phaseId" "p";
      text "sourceResultId" "source-result-1"; text "sourceCurrentStateCommandKey" "state-command-key-1";
      flag "immutable"; text "status" "cancelled_refunded"]]); text "id" "fulfilment-slot-set";
      text "orderId" "o"; text "phaseId" "p"; text "phaseTopologyId" "p"; text "resultId" "slot-set-result";
      text "completionResultId" "completion-result"; text "completionTarget" "partially_fulfilled";
      text "sourceStatus" "shipped"; flag "immutable"]); text "completionResultId" "completion-result";
      text "orderId" "o"; text "completionSlotSetOrderId" "o"; text "completionSlotSetPhaseId" "p";
      text "completionSlotSetPhaseTopologyId" "p"; flag "completionResultAtomic";
      text "completionProjectedTarget" "partially_fulfilled"; amount "amountDueMinor" 0;
      amount "refundableBalanceMinor" 0]).

Lemma finished_when_complete_witness :
  completion fulfilment_command
  ∧ (context fulfilment_command) ?. "amountDueMinor" = BigIntV 0
  ∧ (context fulfilment_command) ?. "refundableBalanceMinor" = BigIntV 0.
Proof.
  apply (finished_when_complete singleOrderPhasePolicy _ fulfilment_command (js "shipped") (js "partially_fulfilled")
    ltac:(right; by left)).
  - right. by left.
  - vm_compute. reflexivity.
Defined.

End Samples.
