(* ===== verification/Archive.v ===== *)
(** The inspection of an uploaded 3MF archive
    (apps/backend/src/modules/storage/upload-validation.ts): the end record, the
    central directory and the local headers of a ZIP file over the bytes of
    the file, and the signatures of the other formats.  File names below are
    relative to apps/backend/src/modules/storage.  A number that is read from
    the bytes is below 2^32, and every sum of such numbers is far below 2^53,
    so it is a [Z] here and no sum can lose precision. *)
From S2P Require Import Prelude Text Digest.

Module Archive.

Definition MAX_3MF_ENTRIES : Z := 1024.
Definition MAX_3MF_TOTAL_SIZE : Z := 512 * 1024 * 1024.
Definition MAX_3MF_ENTRY_SIZE : Z := 128 * 1024 * 1024.
Definition MAX_3MF_CENTRAL_DIRECTORY_SIZE : Z := 8 * 1024 * 1024.
Definition MAX_ZIP_END_RECORD_SIZE : Z := 65557.

Definition fail {A} (code : UploadValidationCode) : result A := Throw (UploadValidationError code).
Definition fail_when (b : bool) (code : UploadValidationCode) : result () :=
  throw_when b (UploadValidationError code).

(** ** Bytes *)

(** [bytes.byteLength] *)
Definition byteLength (bytes : list Z) : Z := Z.of_nat (length bytes).

(** [bytes[offset] ?? 0] *)
Definition byteAt (bytes : list Z) (offset : Z) : Z :=
  if offset <? 0 then 0 else default 0 (bytes !! Z.to_nat offset).

(** [bytes.subarray(start, stop)] and [bytes.slice(start, stop)], of offsets
    that are not negative. *)
Definition subarray (bytes : list Z) (start stop : Z) : list Z :=
  take (Z.to_nat (stop - start)) (drop (Z.to_nat start) bytes).

Definition u16 (bytes : list Z) (offset : Z) : Z :=
  bit_or (byteAt bytes offset) (bit_shl (byteAt bytes (offset + 1)) 8).

Definition u32 (bytes : list Z) (offset : Z) : Z :=
  bit_ushr
    (bit_or
       (bit_or (bit_or (byteAt bytes offset) (bit_shl (byteAt bytes (offset + 1)) 8))
          (bit_shl (byteAt bytes (offset + 2)) 16))
       (byteAt bytes (offset + 3) * 0x1000000)) 0.

(** ** [new TextDecoder("utf-8", { fatal: true }).decode(bytes)]: the decoder of
    the Encoding Standard, which drops one byte order mark at the start *)

Definition continuation (b : Z) : bool := (128 <=? b) && (b <=? 191).

(** The UTF-16 code units of a code point. *)
Definition code_units (c : Z) : jstr :=
  if c <? 65536 then [c] else [55296 + (c - 65536) / 1024; 56320 + (c - 65536) `mod` 1024].

Fixpoint utf8_units (bytes : list Z) : option jstr :=
  match bytes with
  | [] => Some []
  | b0 :: rest0 =>
      if b0 <? 128 then (cons b0) <$> utf8_units rest0
      else match rest0 with
      | [] => None
      | b1 :: rest1 =>
          if (194 <=? b0) && (b0 <=? 223) then
            if continuation b1
            then (app (code_units ((b0 - 192) * 64 + (b1 - 128)))) <$> utf8_units rest1
            else None
          else match rest1 with
          | [] => None
          | b2 :: rest2 =>
              if (224 <=? b0) && (b0 <=? 239) then
                if ((if b0 =? 224 then 160 else 128) <=? b1)
                   && (b1 <=? (if b0 =? 237 then 159 else 191)) && continuation b2
                then (app (code_units ((b0 - 224) * 4096 + (b1 - 128) * 64 + (b2 - 128)))) <$> utf8_units rest2
                else None
              else match rest2 with
              | [] => None
              | b3 :: rest3 =>
                  if (240 <=? b0) && (b0 <=? 244) then
                    if ((if b0 =? 240 then 144 else 128) <=? b1)
                       && (b1 <=? (if b0 =? 244 then 143 else 191)) && continuation b2 && continuation b3
                    then (app (code_units ((b0 - 240) * 262144 + (b1 - 128) * 4096 + (b2 - 128) * 64 + (b3 - 128))))
                           <$> utf8_units rest3
                    else None
                  else None
              end
          end
      end
  end.

Definition TextDecoder_decode (bytes : list Z) : option jstr :=
  match bytes with
  | 239 :: 187 :: 191 :: rest => utf8_units rest
  | _ => utf8_units bytes
  end.

(** ** Names *)

Definition starts_with (s prefix : jstr) : bool := str_eqb (take (length prefix) s) prefix.
Definition ends_with (s suffix : jstr) : bool := str_eqb (drop (length s - length suffix) s) suffix.
Definition is_slash (c : Z) : bool := (c =? 47) || (c =? 92).
Definition is_ascii_letter (c : Z) : bool := ((65 <=? c) && (c <=? 90)) || ((97 <=? c) && (c <=? 122)).

(** [s.split(/[\\/]/u)] *)
Fixpoint split_slashes (s : jstr) : list jstr :=
  match s with
  | [] => [[]]
  | c :: rest =>
      if is_slash c then [] :: split_slashes rest
      else match split_slashes rest with
           | [] => [[c]]
           | part :: parts => (c :: part) :: parts
           end
  end.

(** [/^[A-Za-z]:[\\/]/u.test(name)] *)
Definition has_drive (name : jstr) : bool :=
  match name with
  | letter :: 58 :: c :: _ => is_ascii_letter letter && is_slash c
  | _ => false
  end.

(** The test of an entry's name for a path that could leave the archive. *)
Definition unsafe_path (name : jstr) : bool :=
  (js_length name =? 0) || existsb (Z.eqb 0) name || starts_with name (js "/")
  || starts_with name [92] || existsb (Z.eqb 92) name || has_drive name
  || existsb (λ part, str_eqb part (js "..")) (split_slashes name).

(** [/^3D\/[^/]+\.model$/u.test(name)] *)
Definition is_model_name (name : jstr) : bool :=
  let rest := drop 3 name in
  starts_with name (js "3D/") && forallb (λ c, negb (c =? 47)) rest
  && ends_with rest (js ".model") && (7 <=? js_length rest).

(** ** The end record *)

Record ThreeMfEndRecord := mkEndRecord {
  end_entries : Z;
  centralDirectoryOffset : Z;
  centralDirectorySize : Z;
}.

(** The comparison of a [number] with an integer; a fraction compares like
    [NaN] here, since the test for a safe integer that follows rejects it with
    the same code. *)
Definition number_lt (n : jsnumber) (z : Z) : bool :=
  match n with IntNum m => m <? z | InfNum negative => negative | _ => false end.

Definition is_end_record (bytes : list Z) (i : Z) : bool :=
  (u32 bytes i =? 0x06054b50) && (i + 22 <=? byteLength bytes)
  && (i + 22 + u16 bytes (i + 20) =? byteLength bytes).

(** The loop that looks for the end record from [i] downwards through [n]
    offsets. *)
Fixpoint find_end_record (bytes : list Z) (i : Z) (n : nat) : Z :=
  match n with
  | O => -1
  | S n => if is_end_record bytes i then i else find_end_record bytes (i - 1) n
  end.

(** The fields of the end record at [eocd], and their checks. *)
Definition readEndRecord (bytes : list Z) (inputOffset eocd : Z) : result ThreeMfEndRecord :=
  let disk := u16 bytes (eocd + 4) in
  let cdDisk := u16 bytes (eocd + 6) in
  let diskEntries := u16 bytes (eocd + 8) in
  let entries := u16 bytes (eocd + 10) in
  let cdSize := u32 bytes (eocd + 12) in
  let cdOffset := u32 bytes (eocd + 16) in
  let commentLength := u16 bytes (eocd + 20) in
  fail_when (entries =? 0) MALFORMED_ARCHIVE ;;
  fail_when
    (negb (disk =? 0) || negb (cdDisk =? 0) || negb (diskEntries =? entries)
     || (entries =? 0xffff) || (cdSize =? 0xffffffff) || (cdOffset =? 0xffffffff)
     || (MAX_3MF_CENTRAL_DIRECTORY_SIZE <? cdSize) || (MAX_3MF_ENTRIES <? entries))
    ARCHIVE_LIMIT_EXCEEDED ;;
  fail_when
    (negb (cdOffset + cdSize =? inputOffset + eocd)
     || negb (eocd + 22 + commentLength =? byteLength bytes) || (cdSize <? entries * 46))
    MALFORMED_ARCHIVE ;;
  Ok (mkEndRecord entries cdOffset cdSize).

Definition inspect3mfEndRecord (bytes : list Z) (archiveSize inputOffset : jsnumber)
    : result ThreeMfEndRecord :=
  fail_when (number_lt archiveSize 22 || (byteLength bytes <? 22)) MALFORMED_ARCHIVE ;;
  fail_when
    (negb (isSafeInteger archiveSize) || negb (isSafeInteger inputOffset)
     || number_lt inputOffset 0
     || negb (num inputOffset + byteLength bytes =? num archiveSize)) MALFORMED_ARCHIVE ;;
  let start := Z.max 0 (byteLength bytes - MAX_ZIP_END_RECORD_SIZE) in
  let eocd :=
    find_end_record bytes (byteLength bytes - 22) (Z.to_nat (byteLength bytes - 22 - start + 1)) in
  fail_when ((eocd <? 0) || (byteLength bytes <? eocd + 22)) MALFORMED_ARCHIVE ;;
  readEndRecord bytes (num inputOffset) eocd.

(** ** The central directory *)

Record ThreeMfEntry := mkEntry {
  entry_name : jstr;
  nameBytes : list Z;
  entry_flags : Z;
  compressionMethod : Z;
  entry_crc32 : Z;
  compressedSize : Z;
  expandedSize : Z;
  localHeaderOffset : Z;
}.

Record ThreeMfDirectoryInspection := mkDirectory {
  dir_entries : Z;
  dir_expandedBytes : Z;
  localEntries : list ThreeMfEntry;
}.

(** [validateZipExtraFields]: every turn of the loop consumes a field header of
    four bytes, so [fuel] turns are enough for as many bytes. *)
Fixpoint extra_fields (bytes : list Z) (offset : Z) (fuel : nat) : result () :=
  if offset <? byteLength bytes then
    match fuel with
    | O => fail MALFORMED_ARCHIVE
    | S fuel =>
        fail_when (byteLength bytes <? offset + 4) MALFORMED_ARCHIVE ;;
        let fieldId := u16 bytes offset in
        let fieldLength := u16 bytes (offset + 2) in
        let offset := offset + 4 in
        fail_when (byteLength bytes <? offset + fieldLength) MALFORMED_ARCHIVE ;;
        fail_when ((fieldId =? 0x0001) || (fieldId =? 0x7075)) MALFORMED_ARCHIVE ;;
        extra_fields bytes (offset + fieldLength) fuel
    end
  else Ok ().

Definition validateZipExtraFields (bytes : list Z) : result () := extra_fields bytes 0 (length bytes).

(** The variables of the loop over the directory. *)
Record directory_state := mkState {
  st_offset : Z;
  st_expandedBytes : Z;
  hasContentTypes : bool;
  hasModel : bool;
  names : gset jstr;
  st_localEntries : list ThreeMfEntry;
}.

Definition inspectEntry (bytes : list Z) (cdOffset : option Z) (st : directory_state)
    : result directory_state :=
  let offset := st_offset st in
  let expandedBytes := st_expandedBytes st in
  fail_when ((byteLength bytes <? offset + 46) || negb (u32 bytes offset =? 0x02014b50)) MALFORMED_ARCHIVE ;;
  let flags := u16 bytes (offset + 8) in
  let method := u16 bytes (offset + 10) in
  let crc32 := u32 bytes (offset + 16) in
  let compressed := u32 bytes (offset + 20) in
  let expanded := u32 bytes (offset + 24) in
  let nameLength := u16 bytes (offset + 28) in
  let extraLength := u16 bytes (offset + 30) in
  let commentLength := u16 bytes (offset + 32) in
  let diskStart := u16 bytes (offset + 34) in
  let headerOffset := u32 bytes (offset + 42) in
  let end_ := offset + 46 + nameLength + extraLength + commentLength in
  fail_when
    ((byteLength bytes <? end_) || negb (bit_and flags 1 =? 0) || (compressed =? 0xffffffff)
     || (expanded =? 0xffffffff) || (headerOffset =? 0xffffffff) || (MAX_3MF_ENTRY_SIZE <? expanded)
     || (MAX_3MF_TOTAL_SIZE - expanded <? expandedBytes)) ARCHIVE_LIMIT_EXCEEDED ;;
  fail_when
    (negb (diskStart =? 0) || negb (existsb (Z.eqb method) [0; 8])
     || match cdOffset with Some o => o <? headerOffset + 30 | None => false end) MALFORMED_ARCHIVE ;;
  let nameBytes := subarray bytes (offset + 46) (offset + 46 + nameLength) in
  name ← match TextDecoder_decode nameBytes with
         | Some name => Ok name
         | None => fail ARCHIVE_UNSAFE_PATH
         end;
  fail_when (unsafe_path name) ARCHIVE_UNSAFE_PATH ;;
  fail_when (bool_decide (name ∈ names st)) MALFORMED_ARCHIVE ;;
  validateZipExtraFields
    (subarray bytes (offset + 46 + nameLength) (offset + 46 + nameLength + extraLength)) ;;
  fail_when ((method =? 0) && negb (compressed =? expanded)) MALFORMED_ARCHIVE ;;
  (* the quotient of two integers below 2^32 exceeds 100 as a double exactly
     when it does as a rational *)
  fail_when
    (((compressed =? 0) && (0 <? expanded)) || ((0 <? compressed) && (100 * compressed <? expanded)))
    ARCHIVE_LIMIT_EXCEEDED ;;
  Ok (mkState end_ (expandedBytes + expanded)
        (hasContentTypes st || str_eqb name (js "[Content_Types].xml"))
        (hasModel st || is_model_name name) ({[name]} ∪ names st)
        (st_localEntries st
           ++ [mkEntry name nameBytes flags method crc32 compressed expanded headerOffset])).

(** The loop over [n] entries. *)
Fixpoint inspectEntries (bytes : list Z) (cdOffset : option Z) (n : nat) (st : directory_state)
    : result directory_state :=
  match n with
  | O => Ok st
  | S n => st ← inspectEntry bytes cdOffset st; inspectEntries bytes cdOffset n st
  end.

Definition inspect3mfCentralDirectory (bytes : list Z) (entries : jsnumber) (cdOffset : option Z)
    : result ThreeMfDirectoryInspection :=
  fail_when
    (negb (isSafeInteger entries) || number_lt entries 1 || (MAX_3MF_ENTRIES <? num entries)
     || (MAX_3MF_CENTRAL_DIRECTORY_SIZE <? byteLength bytes)) ARCHIVE_LIMIT_EXCEEDED ;;
  st ← inspectEntries bytes cdOffset (Z.to_nat (num entries)) (mkState 0 0 false false ∅ []);
  fail_when (negb (st_offset st =? byteLength bytes)) MALFORMED_ARCHIVE ;;
  fail_when (negb (hasContentTypes st) || negb (hasModel st)) MALFORMED_ARCHIVE ;;
  Ok (mkDirectory (num entries) (st_expandedBytes st) (st_localEntries st)).

(** ** The local headers *)

Record ThreeMfLocalEntryInspection := mkLocal {
  local_start : Z;
  dataOffset : Z;
  dataEnd : Z;
  usesDataDescriptor : bool;
}.

Definition threeMfLocalHeaderSize (bytes : list Z) : result Z :=
  fail_when (negb (byteLength bytes =? 30) || negb (u32 bytes 0 =? 0x04034b50)) MALFORMED_ARCHIVE ;;
  Ok (30 + u16 bytes 26 + u16 bytes 28).

Definition inspect3mfLocalEntryHeader (bytes : list Z) (expected : ThreeMfEntry) (cdOffset : Z)
    : result ThreeMfLocalEntryInspection :=
  headerSize ← threeMfLocalHeaderSize (subarray bytes 0 30);
  fail_when (negb (byteLength bytes =? headerSize)) MALFORMED_ARCHIVE ;;
  let flags := u16 bytes 6 in
  let method := u16 bytes 8 in
  let crc32 := u32 bytes 14 in
  let compressed := u32 bytes 18 in
  let expanded := u32 bytes 22 in
  let nameLength := u16 bytes 26 in
  let localName := subarray bytes 30 (30 + nameLength) in
  let extraBytes := drop (Z.to_nat (30 + nameLength)) bytes in
  fail_when
    (negb (flags =? entry_flags expected) || negb (method =? compressionMethod expected)
     || negb (bool_decide (localName = nameBytes expected))) MALFORMED_ARCHIVE ;;
  validateZipExtraFields extraBytes ;;
  let uses := negb (bit_and flags 0x0008 =? 0) in
  (if uses then
     fail_when
       (negb (existsb (Z.eqb crc32) [0; entry_crc32 expected])
        || negb (existsb (Z.eqb compressed) [0; compressedSize expected])
        || negb (existsb (Z.eqb expanded) [0; expandedSize expected])) MALFORMED_ARCHIVE
   else
     fail_when
       (negb (crc32 =? entry_crc32 expected) || negb (compressed =? compressedSize expected)
        || negb (expanded =? expandedSize expected)) MALFORMED_ARCHIVE) ;;
  let offset := localHeaderOffset expected + headerSize in
  let end_ := offset + compressedSize expected in
  fail_when (negb (safe_int end_) || (cdOffset <? offset) || (cdOffset <? end_)) MALFORMED_ARCHIVE ;;
  Ok (mkLocal (localHeaderOffset expected) offset end_ uses).

Definition inspect3mfDataDescriptor (bytes : list Z) (expected : ThreeMfEntry) : result Z :=
  let hasSignature := (4 <=? byteLength bytes) && (u32 bytes 0 =? 0x08074b50) in
  let descriptorSize := if hasSignature then 16 else 12 in
  let valueOffset := if hasSignature then 4 else 0 in
  fail_when
    ((byteLength bytes <? descriptorSize) || negb (u32 bytes valueOffset =? entry_crc32 expected)
     || negb (u32 bytes (valueOffset + 4) =? compressedSize expected)
     || negb (u32 bytes (valueOffset + 8) =? expandedSize expected)) MALFORMED_ARCHIVE ;;
  Ok descriptorSize.

(** ** The ranges of the entries *)

Record range := mkRange { range_start : Z; range_end : Z }.

Definition compareRanges (left right : range) : Z :=
  js_or (range_start left - range_start right) (range_end left - range_end right).

(** The loop over the neighbours of the sorted ranges. *)
Fixpoint neighbours_disjoint (ordered : list range) : result () :=
  match ordered with
  | previous :: (current :: _) as rest =>
      fail_when (range_start current <? range_end previous) MALFORMED_ARCHIVE ;;
      neighbours_disjoint rest
  | _ => Ok ()
  end.

Definition validate3mfLocalEntryRanges (ranges : list range) : result () :=
  neighbours_disjoint (js_sort compareRanges ranges).

(** ** The archive *)

Record ThreeMfInspection := mkInspection { entries : Z; expandedBytes : Z }.

(** The body of the loop over the entries. *)
Definition inspectLocal (bytes : list Z) (cdOffset : Z) (entry : ThreeMfEntry) : result range :=
  let fixed := subarray bytes (localHeaderOffset entry) (localHeaderOffset entry + 30) in
  headerSize ← threeMfLocalHeaderSize fixed;
  let header := subarray bytes (localHeaderOffset entry) (localHeaderOffset entry + headerSize) in
  local ← inspect3mfLocalEntryHeader header entry cdOffset;
  let rangeEnd := dataEnd local in
  rangeEnd ←
    (if usesDataDescriptor local then
       let available := Z.min 16 (cdOffset - rangeEnd) in
       size ← inspect3mfDataDescriptor (subarray bytes rangeEnd (rangeEnd + available)) entry;
       Ok (rangeEnd + size)
     else Ok rangeEnd);
  Ok (mkRange (local_start local) rangeEnd).

Definition inspect3mfArchive (bytes : list Z) : result ThreeMfInspection :=
  end_ ← inspect3mfEndRecord bytes (IntNum (byteLength bytes)) (IntNum 0);
  directory ←
    inspect3mfCentralDirectory
      (subarray bytes (centralDirectoryOffset end_)
         (centralDirectoryOffset end_ + centralDirectorySize end_))
      (IntNum (end_entries end_)) (Some (centralDirectoryOffset end_));
  ranges ← traverse (inspectLocal bytes (centralDirectoryOffset end_)) (localEntries directory);
  validate3mfLocalEntryRanges ranges ;;
  Ok (mkInspection (dir_entries directory) (dir_expandedBytes directory)).


(** ** Specification *)

Definition is_bytes (bytes : list Z) : Prop := Forall (λ b, 0 ≤ b < 256) bytes.

(** The slash-separated segments of a name: [x] is one when the name splits
    around it at slashes or at its ends. *)
Definition segment (x name : jstr) : Prop :=
  ∃ before after, name = before ++ x ++ after
    ∧ (before = [] ∨ ∃ s, before = s ++ [47]) ∧ (after = [] ∨ ∃ s, after = 47 :: s).

(** A relative path that stays below the directory it is resolved in. *)
Record safe_path (name : jstr) : Prop := {
  sp_nonempty : name ≠ [];
  sp_relative : ¬ ∃ rest, name = 47 :: rest;
  sp_drive : ¬ ∃ letter rest, (65 ≤ letter ≤ 90 ∨ 97 ≤ letter ≤ 122) ∧ name = letter :: 58 :: 47 :: rest;
  sp_characters : 0 ∉ name ∧ 92 ∉ name;
  sp_parent : ¬ segment (js "..") name;
}.

(** The little-endian number in the [n] bytes at [o]. *)
Fixpoint le (bytes : list Z) (o : Z) (n : nat) : Z :=
  match n with
  | O => 0
  | S n => default 0 (bytes !! Z.to_nat o) + 256 * le bytes (o + 1) n
  end.

(** An entry of the directory that may be unpacked. *)
Record safe_entry (e : ThreeMfEntry) : Prop := {
  se_name : TextDecoder_decode (nameBytes e) = Some (entry_name e);
  se_path : safe_path (entry_name e);
  se_plain : Z.testbit (entry_flags e) 0 = false;
  se_method : compressionMethod e = 0 ∧ compressedSize e = expandedSize e ∨ compressionMethod e = 8;
  se_sizes : 0 ≤ compressedSize e ∧ 0 ≤ expandedSize e ≤ 134217728;
  se_ratio : expandedSize e ≤ 100 * compressedSize e;
}.

(** The bytes from [o] to [stop] are extra fields, none of which replaces the
    sizes (ZIP64) or the name (Unicode path). *)
Inductive extra_records (bytes : list Z) : Z → Z → Prop :=
  | no_fields o : extra_records bytes o o
  | next_field o stop :
      le bytes o 2 ≠ 0x0001 → le bytes o 2 ≠ 0x7075 →
      extra_records bytes (o + 4 + le bytes (o + 2) 2) stop → extra_records bytes o stop.

(** The bytes from [o] to [next] are the directory's record of an entry, with
    its fields where the format has them. *)
Record directory_record (bytes : list Z) (o : Z) (e : ThreeMfEntry) (next : Z) : Prop := {
  dr_signature : le bytes o 4 = 0x02014b50;
  dr_flags : entry_flags e = le bytes (o + 8) 2;
  dr_method : compressionMethod e = le bytes (o + 10) 2;
  dr_crc32 : entry_crc32 e = le bytes (o + 16) 4;
  dr_compressed : compressedSize e = le bytes (o + 20) 4;
  dr_expanded : expandedSize e = le bytes (o + 24) 4;
  dr_name : nameBytes e = subarray bytes (o + 46) (o + 46 + le bytes (o + 28) 2);
  dr_extra : extra_records bytes (o + 46 + le bytes (o + 28) 2) (o + 46 + le bytes (o + 28) 2 + le bytes (o + 30) 2);
  dr_disk : le bytes (o + 34) 2 = 0;
  dr_header : localHeaderOffset e = le bytes (o + 42) 4;
  dr_next : next = o + 46 + le bytes (o + 28) 2 + le bytes (o + 30) 2 + le bytes (o + 32) 2;
}.

(** The bytes from [o] to [stop] are the records of the entries, one after the
    other and nothing else. *)
Inductive directory_records (bytes : list Z) : Z → list ThreeMfEntry → Z → Prop :=
  | no_records o : directory_records bytes o [] o
  | next_record o e next es stop :
      directory_record bytes o e next → directory_records bytes next es stop →
      directory_records bytes o (e :: es) stop.

(** The end record at [eocd], of a directory with [n] entries that starts at
    [cdOffset] and ends there; its comment ends the file. *)
Record end_record (bytes : list Z) (eocd cdOffset n : Z) : Prop := {
  en_signature : le bytes eocd 4 = 0x06054b50;
  en_disks : le bytes (eocd + 4) 2 = 0 ∧ le bytes (eocd + 6) 2 = 0 ∧ le bytes (eocd + 8) 2 = n;
  en_entries : le bytes (eocd + 10) 2 = n;
  en_size : le bytes (eocd + 12) 4 = eocd - cdOffset ∧ eocd - cdOffset ≤ 8388608;
  en_offset : le bytes (eocd + 16) 4 = cdOffset;
  en_comment : eocd + 22 + le bytes (eocd + 20) 2 = byteLength bytes;
}.

(** Where the data of an entry ends: after its local header, which says how long
    the name and the extra field in it are. *)
Definition data_end (bytes : list Z) (e : ThreeMfEntry) : Z :=
  localHeaderOffset e + 30 + le bytes (localHeaderOffset e + 26) 2
  + le bytes (localHeaderOffset e + 28) 2 + compressedSize e.

(** The bytes at [o] are the checksum and the sizes of an entry. *)
Definition sizes_at (bytes : list Z) (o : Z) (e : ThreeMfEntry) : Prop :=
  le bytes o 4 = entry_crc32 e ∧ le bytes (o + 4) 4 = compressedSize e ∧ le bytes (o + 8) 4 = expandedSize e.

(** Where a descriptor follows the data, they may be left at 0. *)
Definition sizes_or_zero_at (bytes : list Z) (o : Z) (e : ThreeMfEntry) : Prop :=
  le bytes o 4 ∈ [0; entry_crc32 e] ∧ le bytes (o + 4) 4 ∈ [0; compressedSize e]
  ∧ le bytes (o + 8) 4 ∈ [0; expandedSize e].

(** The bytes of an entry: a local header that repeats what the directory says,
    then its data and, where bit 3 of the flags announces one, the descriptor
    that repeats the sizes; all before the central directory. *)
Record entry_range (bytes : list Z) (cdOffset : Z) (e : ThreeMfEntry) (r : range) : Prop := {
  er_start : range_start r = localHeaderOffset e ∧ 0 ≤ localHeaderOffset e;
  er_signature : le bytes (localHeaderOffset e) 4 = 0x04034b50;
  er_flags : le bytes (localHeaderOffset e + 6) 2 = entry_flags e;
  er_method : le bytes (localHeaderOffset e + 8) 2 = compressionMethod e;
  er_name : le bytes (localHeaderOffset e + 26) 2 = byteLength (nameBytes e)
    ∧ subarray bytes (localHeaderOffset e + 30) (localHeaderOffset e + 30 + byteLength (nameBytes e)) = nameBytes e;
  er_extra : extra_records bytes (localHeaderOffset e + 30 + byteLength (nameBytes e))
    (localHeaderOffset e + 30 + byteLength (nameBytes e) + le bytes (localHeaderOffset e + 28) 2);
  er_data :
    if Z.testbit (entry_flags e) 3 then
      sizes_or_zero_at bytes (localHeaderOffset e + 14) e ∧ ∃ o, (o = data_end bytes e ∨ o = data_end bytes e + 4 ∧ le bytes (data_end bytes e) 4 = 0x08074b50)
        ∧ sizes_at bytes o e ∧ range_end r = o + 12
    else sizes_at bytes (localHeaderOffset e + 14) e ∧ range_end r = data_end bytes e;
  er_end : range_end r ≤ cdOffset;
}.

Definition disjoint_ranges (r s : range) : Prop := range_end r ≤ range_start s ∨ range_end s ≤ range_start r.

(** What the inspection of an archive promises: its end record leads to a
    directory that consists of the records of at most 1024 entries that may be
    unpacked, under different names and from bytes of their own before the
    directory; their sizes add up to the reported one, at most 512 MiB; a model
    and the content types are among them. *)
Record safe_archive (bytes : list Z) (info : ThreeMfInspection) (eocd cdOffset : Z)
    (es : list ThreeMfEntry) (rs : list range) : Prop := {
  sa_count : entries info = Z.of_nat (length es) ∧ 1 ≤ entries info ≤ 1024;
  sa_end : end_record bytes eocd cdOffset (Z.of_nat (length es));
  sa_directory : directory_records bytes cdOffset es eocd;
  sa_entries : Forall safe_entry es;
  sa_names : NoDup (entry_name <$> es);
  sa_total : expandedBytes info = sum_by expandedSize es ∧ expandedBytes info ≤ 536870912;
  sa_model : js "[Content_Types].xml" ∈ entry_name <$> es
    ∧ ∃ e part, e ∈ es ∧ entry_name e = js "3D/" ++ part ++ js ".model" ∧ part ≠ [] ∧ 47 ∉ part;
  sa_ranges : Forall2 (entry_range bytes cdOffset) es rs;
  sa_disjoint : ∀ i j r s, i ≠ j → rs !! i = Some r → rs !! j = Some s → disjoint_ranges r s;
}.

(** ** Bytes *)

Lemma fail_when_Ok b c u : fail_when b c = Ok u ↔ b = false.
Proof. apply throw_when_Ok. Qed.

Lemma fail_Ok {A} c (a : A) : fail c = Ok a ↔ False.
Proof. by split. Qed.

(** [ok_inv] for the checks of this file. *)
Ltac checked :=
  repeat (ok_step || match goal with
  | H : fail_when _ _ = Ok _ |- _ => apply fail_when_Ok in H
  | H : fail _ = Ok _ |- _ => by apply fail_Ok in H
  end); subst; bool_inv.

Lemma byteAt_range bytes o : is_bytes bytes → 0 ≤ byteAt bytes o < 256.
Proof.
  intros H. unfold byteAt. destruct (o <? 0); [lia|]. destruct (_ !! _) eqn:E; cbn; [|lia].
  by eapply (Forall_lookup_1 _ _ _ _ H E).
Qed.

Lemma toInt32_small z : 0 ≤ z < 2147483648 → toInt32 z = z.
Proof.
  intros H. unfold toInt32. rewrite toUint32_id by (unfold Digest.u32, W32; lia).
  by rewrite (proj2 (Z.ltb_lt _ _)) by lia.
Qed.

Lemma u16_range bytes o : is_bytes bytes → 0 ≤ u16 bytes o < 65536.
Proof.
  intros H. unfold u16, bit_or, bit_shl. pose proof (byteAt_range bytes o H). pose proof (byteAt_range bytes (o + 1) H).
  rewrite (toInt32_small (byteAt bytes (o + 1))), Z.shiftl_mul_pow2 by lia.
  rewrite (toInt32_small (_ * _)), !toInt32_small by (change (2 ^ 8) with 256; lia).
  rewrite Z.lor_comm, lor_add_shift by (change (2 ^ 8) with 256; lia). change (2 ^ 8) with 256. lia.
Qed.

Lemma u32_range bytes o : 0 ≤ u32 bytes o < W32.
Proof. unfold u32, bit_ushr. rewrite Z.shiftr_0_r. apply toUint32_u32. Qed.

Lemma byteAt_lookup bytes o : 0 ≤ o → byteAt bytes o = default 0 (bytes !! Z.to_nat o).
Proof. intros H. unfold byteAt. by rewrite (proj2 (Z.ltb_ge _ _)) by lia. Qed.

(** The highest byte of four may set the sign of the 32-bit integer. *)
Lemma toInt32_high b : 0 ≤ b < 256 → ∃ k, toInt32 (b * 0x1000000) = k * 2 ^ 24 ∧ (k = b ∨ k = b - 256).
Proof.
  intros H. unfold toInt32. rewrite toUint32_id by (unfold Digest.u32, W32; lia).
  destruct (_ <? _); [exists b|exists (b - 256)]; (split; [|lia]); change (2 ^ 24) with 16777216; unfold W32; lia.
Qed.

Lemma bit_or_shl a b n : 0 ≤ n ≤ 16 → 0 ≤ a < 2 ^ n → 0 ≤ b < 256 → bit_or a (bit_shl b n) = a + b * 2 ^ n.
Proof.
  intros Hn Ha Hb. pose proof (Z.pow_le_mono_r 2 n 16 ltac:(lia) ltac:(lia)). change (2 ^ 16) with 65536 in *.
  unfold bit_or, bit_shl. rewrite (toInt32_small b), Z.shiftl_mul_pow2 by lia.
  rewrite (toInt32_small (b * 2 ^ n)) by nia. rewrite (toInt32_small (b * 2 ^ n)), toInt32_small by nia.
  rewrite Z.lor_comm, lor_add_shift by lia. lia.
Qed.

Lemma u16_le bytes o : is_bytes bytes → 0 ≤ o → u16 bytes o = le bytes o 2.
Proof.
  intros H Ho. cbn [le]. rewrite <-!byteAt_lookup by lia. unfold u16.
  pose proof (byteAt_range bytes o H). pose proof (byteAt_range bytes (o + 1) H).
  rewrite bit_or_shl by (change (2 ^ 8) with 256; lia). change (2 ^ 8) with 256. lia.
Qed.

Lemma u32_le bytes o : is_bytes bytes → 0 ≤ o → u32 bytes o = le bytes o 4.
Proof.
  intros H Ho. cbn [le]. rewrite !Z.add_0_r, <-!Z.add_assoc, <-!byteAt_lookup by lia.
  change (1 + 1) with 2. change (1 + (2)) with 3. unfold u32.
  set (b0 := byteAt bytes o). set (b1 := byteAt bytes (o + 1)). set (b2 := byteAt bytes (o + 2)). set (b3 := byteAt bytes (o + 3)).
  assert (0 ≤ b0 < 256 ∧ 0 ≤ b1 < 256 ∧ 0 ≤ b2 < 256 ∧ 0 ≤ b3 < 256) as (?&?&?&?) by (split_and!; by apply byteAt_range).
  rewrite !bit_or_shl by (rewrite ?bit_or_shl; change (2 ^ 8) with 256; change (2 ^ 16) with 65536; lia).
  change (2 ^ 8) with 256. change (2 ^ 16) with 65536. destruct (toInt32_high b3) as (k & Hk & Hkb); [done|].
  unfold bit_or, bit_ushr. rewrite Hk, toInt32_small by lia.
  rewrite Z.lor_comm, lor_add_shift by (change (2 ^ 24) with 16777216; lia). rewrite Z.shiftr_0_r.
  change (2 ^ 24) with 16777216. unfold toUint32.
  destruct Hkb as [-> | ->].
  - rewrite Z.mod_small by (unfold W32; lia). lia.
  - symmetry. apply (Z.mod_unique_pos _ _ (-1)); unfold W32; lia.
Qed.

Lemma le_nonneg bytes o n : is_bytes bytes → 0 ≤ le bytes o n.
Proof.
  intros H. revert o. induction n as [|n IH]; intros o; cbn [le]; [lia|]. specialize (IH (o + 1)).
  destruct (bytes !! Z.to_nat o) eqn:E; cbn; [|lia]. pose proof (Forall_lookup_1 _ _ _ _ H E). cbn in *. lia.
Qed.

Lemma byteLength_nonneg bytes : 0 ≤ byteLength bytes.
Proof. unfold byteLength. lia. Qed.

Lemma subarray_length bytes s e : 0 ≤ s → s ≤ e → e ≤ byteLength bytes → byteLength (subarray bytes s e) = e - s.
Proof. unfold byteLength, subarray. intros. rewrite length_take, length_drop. lia. Qed.

Lemma subarray_length_le bytes s e : s ≤ e → byteLength (subarray bytes s e) ≤ e - s.
Proof. unfold byteLength, subarray. intros. rewrite length_take, length_drop. lia. Qed.

Lemma subarray_within bytes s e : 0 ≤ s → s < e → byteLength (subarray bytes s e) = e - s → e ≤ byteLength bytes.
Proof. unfold byteLength, subarray. intros Hs He. rewrite length_take, length_drop. lia. Qed.

Lemma subarray_subarray bytes s e s' e' : 0 ≤ s → 0 ≤ s' → s' ≤ e' → e' ≤ e - s →
  subarray (subarray bytes s e) s' e' = subarray bytes (s + s') (s + e').
Proof.
  intros. unfold subarray. rewrite skipn_firstn_comm, take_take, drop_drop.
  f_equal; [lia|f_equal; lia].
Qed.

Lemma byteAt_subarray bytes s e o : 0 ≤ s → 0 ≤ o < e - s → byteAt (subarray bytes s e) o = byteAt bytes (s + o).
Proof.
  intros Hs Ho. unfold byteAt, subarray. rewrite !(proj2 (Z.ltb_ge _ _)) by lia.
  rewrite lookup_take_lt, lookup_drop by lia. by rewrite Z2Nat.inj_add by lia.
Qed.

Lemma u16_subarray bytes s e o : 0 ≤ s → 0 ≤ o → o + 1 < e - s → u16 (subarray bytes s e) o = u16 bytes (s + o).
Proof. intros. unfold u16. rewrite !byteAt_subarray by lia. by rewrite Z.add_assoc. Qed.

Lemma subarray_app bytes a b c : 0 ≤ a → a ≤ b → b ≤ c → subarray bytes a b ++ subarray bytes b c = subarray bytes a c.
Proof.
  intros. unfold subarray. replace (Z.to_nat (c - a)) with (Z.to_nat (b - a) + Z.to_nat (c - b))%nat by lia.
  rewrite <-take_take_drop, drop_drop. do 3 f_equal. lia.
Qed.

Lemma is_bytes_subarray bytes s e : is_bytes bytes → is_bytes (subarray bytes s e).
Proof. intros H. by apply Forall_take, Forall_drop. Qed.


(** ** Names *)

Lemma split_slashes_nonempty s : split_slashes s ≠ [].
Proof. destruct s as [|c s]; [done|]. cbn. destruct (is_slash c); [done|]. by destruct (split_slashes s). Qed.

Lemma split_slashes_word x after : existsb is_slash x = false → (after = [] ∨ ∃ s, after = 47 :: s) →
  x ∈ split_slashes (x ++ after).
Proof.
  intros Hx Ha. cut (∃ parts, split_slashes (x ++ after) = x :: parts).
  { intros [parts ->]. apply elem_of_cons. by left. }
  induction x as [|c x IH]; cbn in *.
  - destruct Ha as [->|[s ->]]; cbn; by eexists.
  - bool_inv. destruct IH as [parts ->]; [done|]. replace (is_slash c) with false by done. eauto.
Qed.

Lemma split_slashes_app s t x : x ∈ split_slashes t → x ∈ split_slashes (s ++ 47 :: t).
Proof.
  intros Hx. cut (∃ p, split_slashes (s ++ 47 :: t) = p ++ split_slashes t ∧ p ≠ []).
  { intros (p & -> & _). apply elem_of_app. by right. }
  induction s as [|c s (p & IH & Hp)]; cbn.
  - by exists [[]].
  - rewrite IH. destruct (is_slash c); [by exists ([] :: p)|]. destruct p as [|w p]; [done|].
    by exists ((c :: w) :: p).
Qed.

Lemma segment_split x name : existsb is_slash x = false → segment x name → x ∈ split_slashes name.
Proof.
  intros Hx (before & after & -> & [->|[s ->]] & Ha); [by apply (split_slashes_word x)|].
  rewrite <-app_assoc. by apply split_slashes_app, (split_slashes_word x).
Qed.

Lemma existsb_eqb_notin c s : existsb (Z.eqb c) s = false → c ∉ s.
Proof.
  intros H Hc. apply not_true_iff_false in H. apply H, existsb_exists. exists c.
  rewrite <-list_elem_of_In. split; [done|]. apply Z.eqb_refl.
Qed.

Lemma model_name name : is_model_name name = true →
  ∃ part, name = js "3D/" ++ part ++ js ".model" ∧ part ≠ [] ∧ 47 ∉ part.
Proof.
  unfold is_model_name, starts_with, ends_with, str_eqb, js_length. change (length (js "3D/")) with 3%nat.
  change (length (js ".model")) with 6%nat. intros H. bool_inv.
  assert (name = js "3D/" ++ drop 3 name) as Hname by (rewrite <-(take_drop 3 name) at 1; by f_equal).
  set (rest := drop 3 name) in *. clearbody rest. subst name.
  exists (take (length rest - 6) rest). split_and!.
  - f_equal. rewrite <-(take_drop (length rest - 6) rest) at 1. by f_equal.
  - intros Ht. apply (f_equal length) in Ht. rewrite length_take in Ht. cbn in Ht. lia.
  - intros Hin. apply elem_of_take in Hin as (i & Hi & _). apply list_elem_of_lookup_2 in Hi.
    match goal with E : forallb _ _ = true |- _ => rewrite forallb_forall in E; specialize (E 47) end.
    rewrite <-list_elem_of_In in *. naive_solver.
Qed.

Lemma existsb_eqb_in c s : existsb (Z.eqb c) s = true → c ∈ s.
Proof. intros (x & Hx & ->%Z.eqb_eq)%existsb_exists. by apply list_elem_of_In. Qed.

Lemma safe_path_unsafe name : unsafe_path name = false → safe_path name.
Proof.
  unfold unsafe_path. intros H. bool_inv. split.
  - by intros ->.
  - intros [rest ->]. by match goal with E : starts_with _ (js "/") = false |- _ => vm_compute in E end.
  - intros (letter & rest & Hl & ->). match goal with E : has_drive _ = false |- _ => cbn in E end.
    assert (is_ascii_letter letter = true) as Hletter.
    { unfold is_ascii_letter. apply orb_true_iff. rewrite !andb_true_iff, !Z.leb_le. lia. }
    by rewrite Hletter in *.
  - split; by apply existsb_eqb_notin.
  - intros Hs%segment_split; [|done].
    match goal with E : existsb _ (split_slashes _) = false |- _ => apply not_true_iff_false in E; apply E end.
    apply existsb_exists. exists (js ".."). rewrite <-list_elem_of_In. split; [done|]. by vm_compute.
Qed.

(** ** The directory *)

Lemma le_subarray bytes s e o n : 0 ≤ s → 0 ≤ o → o + Z.of_nat n ≤ e - s →
  le (subarray bytes s e) o n = le bytes (s + o) n.
Proof.
  intros Hs. revert o. induction n as [|n IH]; intros o Ho Hn; cbn [le]; [done|].
  rewrite IH, <-!byteAt_lookup, byteAt_subarray, Z.add_assoc by lia. done.
Qed.

Lemma extra_next bytes o stop : is_bytes bytes → extra_records bytes o stop → o ≤ stop.
Proof. intros Hb H. induction H as [|o stop _ _ _ IH]; [lia|]. pose proof (le_nonneg bytes (o + 2) 2 Hb). lia. Qed.

Lemma extra_subarray bytes s e o stop : is_bytes bytes → 0 ≤ s → 0 ≤ o → stop ≤ e - s →
  extra_records (subarray bytes s e) o stop → extra_records bytes (s + o) (s + stop).
Proof.
  intros Hb Hs Ho He H. pose proof (is_bytes_subarray bytes s e Hb) as Hsub.
  induction H as [|o stop H1 H2 Hrest IH]; [constructor|].
  pose proof (le_nonneg _ (o + 2) 2 Hsub). pose proof (extra_next _ _ _ Hsub Hrest).
  specialize (IH ltac:(lia) ltac:(lia)). 
  rewrite (le_subarray bytes s e o 2) in H1, H2 by lia.
  rewrite (le_subarray bytes s e (o + 2) 2), !Z.add_assoc in IH by lia. by apply next_field.
Qed.

Lemma extra_fields_records bytes o fuel : is_bytes bytes → 0 ≤ o ≤ byteLength bytes →
  extra_fields bytes o fuel = Ok () → extra_records bytes o (byteLength bytes).
Proof.
  intros Hb. revert o. induction fuel as [|fuel IH]; intros o Ho H; cbn [extra_fields] in H;
    (destruct (Z.ltb_spec o (byteLength bytes)); [|replace o with (byteLength bytes) by lia; constructor]); [done|].
  checked. rewrite !u16_le in * by (done || lia). pose proof (le_nonneg bytes (o + 2) 2 Hb).
  apply next_field; [done..|]. apply IH; (done || lia).
Qed.

Lemma extra_checked bytes s e : is_bytes bytes → 0 ≤ s → s ≤ e → e ≤ byteLength bytes →
  validateZipExtraFields (subarray bytes s e) = Ok () → extra_records bytes s e.
Proof.
  intros Hb Hs He Hl H. pose proof (is_bytes_subarray bytes s e Hb) as Hsub. pose proof (byteLength_nonneg (subarray bytes s e)).
  apply extra_fields_records in H; [|done|lia]. rewrite subarray_length in H by done.
  apply extra_subarray in H; [|done|lia..]. by rewrite Z.add_0_r, Zplus_minus in H.
Qed.

Lemma record_next bytes o e next : is_bytes bytes → directory_record bytes o e next → o + 46 ≤ next.
Proof.
  intros Hb H. rewrite (dr_next _ _ _ _ H). pose proof (le_nonneg bytes (o + 28) 2 Hb).
  pose proof (le_nonneg bytes (o + 30) 2 Hb). pose proof (le_nonneg bytes (o + 32) 2 Hb). lia.
Qed.

Lemma records_next bytes o es stop : is_bytes bytes → directory_records bytes o es stop → o ≤ stop.
Proof. intros Hb H. induction H as [|o e next es stop H _ IH]; [lia|]. apply record_next in H; [lia|done]. Qed.

(** The records of a part of the file are records of the file. *)
Lemma record_subarray bytes s e o x next : is_bytes bytes → 0 ≤ s → 0 ≤ o → next ≤ e - s →
  directory_record (subarray bytes s e) o x next → directory_record bytes (s + o) x (s + next).
Proof.
  intros Hb Hs Ho He H. pose proof (is_bytes_subarray bytes s e Hb) as Hsub.
  pose proof (record_next _ _ _ _ Hsub H). destruct H as [H1 H2 H3 H4 H5 H6 H7 Hx H8 H9 H10].
  pose proof (le_nonneg _ (o + 28) 2 Hsub). pose proof (le_nonneg _ (o + 30) 2 Hsub). pose proof (le_nonneg _ (o + 32) 2 Hsub).
  rewrite subarray_subarray in H7 by lia. apply extra_subarray in Hx; [|done|lia..].
  rewrite !le_subarray, ?Z.add_assoc in * by lia. split; (done || lia).
Qed.

Lemma records_subarray bytes s e o es stop : is_bytes bytes → 0 ≤ s → 0 ≤ o → stop ≤ e - s →
  directory_records (subarray bytes s e) o es stop → directory_records bytes (s + o) es (s + stop).
Proof.
  intros Hb Hs Ho He H. pose proof (is_bytes_subarray bytes s e Hb) as Hsub.
  induction H as [|o x next es stop H Hrest IH]; [constructor|].
  pose proof (record_next _ _ _ _ Hsub H). pose proof (records_next _ _ _ _ Hsub Hrest).
  econstructor; [|apply IH; lia]. apply (record_subarray _ _ e); (done || lia).
Qed.

(** What the loop over the directory maintains. *)
Record directory_invariant (cdOffset : option Z) (st : directory_state) : Prop := {
  di_offset : 0 ≤ st_offset st;
  di_entries : Forall (λ e, safe_entry e ∧ 0 ≤ localHeaderOffset e
    ∧ ∀ o, cdOffset = Some o → localHeaderOffset e + 30 ≤ o) (st_localEntries st);
  di_total : st_expandedBytes st = sum_by expandedSize (st_localEntries st) ∧ st_expandedBytes st ≤ MAX_3MF_TOTAL_SIZE;
  di_names : NoDup (entry_name <$> st_localEntries st) ∧ (∀ x, x ∈ names st ↔ x ∈ entry_name <$> st_localEntries st);
  di_types : hasContentTypes st = true → js "[Content_Types].xml" ∈ entry_name <$> st_localEntries st;
  di_model : hasModel st = true → Exists (λ e, is_model_name (entry_name e) = true) (st_localEntries st);
}.

Lemma bit0_clear flags : 0 ≤ flags < 65536 → bit_and flags 1 = 0 → Z.testbit flags 0 = false.
Proof.
  intros Hf H. unfold bit_and in H. rewrite !toInt32_small in H by lia.
  apply (f_equal (λ z, Z.testbit z 0)) in H. rewrite Z.land_spec, Z.bits_0 in H. change (Z.testbit 1 0) with true in H.
  by rewrite andb_true_r in H.
Qed.

(** What the checks of an entry establish of it. *)
Lemma safe_entry_checked name bytes flags method crc32 compressed expanded o :
  TextDecoder_decode bytes = Some name → unsafe_path name = false →
  0 ≤ flags < 65536 → bit_and flags 1 = 0 →
  existsb (Z.eqb method) [0; 8] = true → (method =? 0) && negb (compressed =? expanded) = false →
  0 ≤ compressed → 0 ≤ expanded ≤ MAX_3MF_ENTRY_SIZE → (compressed =? 0) && (0 <? expanded) = false →
  (0 <? compressed) && (100 * compressed <? expanded) = false →
  safe_entry (mkEntry name bytes flags method crc32 compressed expanded o).
Proof.
  intros Hd Hp Hf Hb Hm Hs Hc He Hz Hr. split; cbn [entry_name nameBytes entry_flags compressionMethod compressedSize expandedSize].
  - done.
  - by apply safe_path_unsafe.
  - by apply bit0_clear.
  - cbn in Hm. rewrite orb_false_r in Hm. apply orb_true_iff in Hm as [Hm|Hm]; bool_inv; [|by right]. subst method.
    left. split; [done|]. cbn in Hs. by bool_inv.
  - by unfold MAX_3MF_ENTRY_SIZE in He.
  - destruct (0 <? compressed) eqn:E; cbn in Hr; bool_inv; [lia|].
    replace (compressed =? 0) with true in Hz by (symmetry; apply Z.eqb_eq; lia). cbn in Hz. bool_inv. lia.
Qed.

Lemma inspectEntry_invariant bytes cdOffset st st' : is_bytes bytes →
  inspectEntry bytes cdOffset st = Ok st' → directory_invariant cdOffset st →
  directory_invariant cdOffset st' ∧ length (st_localEntries st') = S (length (st_localEntries st)).
Proof.
  intros Hb H [Hoff Hes [Ht Hmax] [Hn Hns] Htypes Hmodel]. unfold inspectEntry in H. cbv zeta in H. checked.
  destruct (TextDecoder_decode _) as [name|] eqn:Hd; checked.
  pose proof (u16_range bytes (st_offset st + 8) Hb). pose proof (u16_range bytes (st_offset st + 28) Hb).
  pose proof (u16_range bytes (st_offset st + 30) Hb). pose proof (u16_range bytes (st_offset st + 32) Hb).
  pose proof (u32_range bytes (st_offset st + 20)). pose proof (u32_range bytes (st_offset st + 24)).
  pose proof (u32_range bytes (st_offset st + 42)).
  cbn [st_localEntries]. rewrite length_app. split; [|cbn; lia].
  split; cbn [st_offset st_expandedBytes hasContentTypes hasModel names st_localEntries]; rewrite ?fmap_app; cbn [fmap list_fmap entry_name].
  - lia.
  - apply Forall_app. split; [done|]. apply Forall_singleton. split; [apply safe_entry_checked; (done || lia)|].
    split; [cbn; lia|]. cbn. intros o ->. bool_inv. lia.
  - rewrite sum_by_app, sum_by_cons, sum_by_nil. cbn. lia.
  - split.
    + apply NoDup_app. split_and!; [done| |apply NoDup_singleton]. intros x Hx ->%list_elem_of_singleton.
      by apply Hns in Hx.
    + intros y. rewrite elem_of_app, list_elem_of_singleton. set_solver.
  - intros [Hc|Hc]%orb_true_iff; apply elem_of_app; [left; auto|right]. unfold str_eqb in Hc. bool_inv. subst.
    by apply list_elem_of_singleton.
  - intros [Hc|Hc]%orb_true_iff; apply Exists_app; [left; auto|right]. by apply Exists_cons_hd.
Qed.

Lemma inspectEntries_invariant bytes cdOffset n st st' : is_bytes bytes →
  inspectEntries bytes cdOffset n st = Ok st' → directory_invariant cdOffset st →
  directory_invariant cdOffset st' ∧ length (st_localEntries st') = (n + length (st_localEntries st))%nat.
Proof.
  intros Hb. revert st. induction n as [|n IH]; intros st H Hi; cbn in H; checked; [done|].
  match goal with E : inspectEntry _ _ _ = _ |- _ => destruct (inspectEntry_invariant _ _ _ _ Hb E Hi) as [Hi' Hl] end.
  destruct (IH _ H0 Hi') as [Hf Hfl]. split; [done|lia].
Qed.

(** An entry is the record at the offset of the loop. *)
Lemma inspectEntry_record bytes cdOffset st st' : is_bytes bytes → 0 ≤ st_offset st →
  inspectEntry bytes cdOffset st = Ok st' →
  ∃ e, st_localEntries st' = st_localEntries st ++ [e] ∧ directory_record bytes (st_offset st) e (st_offset st').
Proof.
  intros Hb Ho H. unfold inspectEntry in H. rewrite !u32_le, !u16_le in H by (done || lia).
  cbv zeta in H. checked. destruct (TextDecoder_decode _); checked.
  pose proof (le_nonneg bytes (st_offset st + 28) 2 Hb). pose proof (le_nonneg bytes (st_offset st + 30) 2 Hb).
  pose proof (le_nonneg bytes (st_offset st + 32) 2 Hb).
  eexists. split; [reflexivity|]. split; try done. apply extra_checked; (done || lia).
Qed.

Lemma inspectEntries_records bytes cdOffset n st st' : is_bytes bytes → 0 ≤ st_offset st →
  inspectEntries bytes cdOffset n st = Ok st' →
  ∃ es, st_localEntries st' = st_localEntries st ++ es ∧ directory_records bytes (st_offset st) es (st_offset st').
Proof.
  intros Hb. revert st. induction n as [|n IH]; intros st Ho H; cbn in H; checked.
  { exists []. rewrite app_nil_r. split; [done|constructor]. }
  match goal with E : inspectEntry _ _ _ = _ |- _ => destruct (inspectEntry_record _ _ _ _ Hb Ho E) as (e & He & Hr) end.
  pose proof (record_next _ _ _ _ Hb Hr).
  match goal with E : inspectEntries _ _ _ _ = _ |- _ => apply IH in E as (es & Hes & Hrs); [|lia] end.
  exists (e :: es). rewrite Hes, He, <-app_assoc. split; [done|]. by econstructor.
Qed.

(** What the inspection of a directory establishes. *)
Lemma directory_checked bytes n cdOffset directory : is_bytes bytes →
  inspect3mfCentralDirectory bytes (IntNum n) (Some cdOffset) = Ok directory →
  ∃ st, directory_invariant (Some cdOffset) st ∧ directory = mkDirectory n (st_expandedBytes st) (st_localEntries st)
    ∧ n = Z.of_nat (length (st_localEntries st)) ∧ 1 ≤ n ≤ MAX_3MF_ENTRIES
    ∧ hasContentTypes st = true ∧ hasModel st = true
    ∧ directory_records bytes 0 (st_localEntries st) (byteLength bytes)
    ∧ byteLength bytes ≤ MAX_3MF_CENTRAL_DIRECTORY_SIZE.
Proof.
  intros Hb H. unfold inspect3mfCentralDirectory in H. cbn [num number_lt isSafeInteger] in H. checked.
  match goal with E : inspectEntries _ _ _ _ = Ok ?s |- _ =>
    exists s; pose proof E as (es & Hes & Hrs)%inspectEntries_records; [|done|cbn; lia];
    apply inspectEntries_invariant in E as [Hi Hl]; [|done|] end.
  - cbn in Hl, Hes, Hrs. rewrite <-Hes in Hrs. split_and!; try done; try lia. congruence.
  - split; cbn [st_offset st_expandedBytes hasContentTypes hasModel names st_localEntries fmap list_fmap]; try done.
    split; [constructor|]. set_solver.
Qed.


(** ** The local headers *)

Lemma header_size_checked bytes size : is_bytes bytes → threeMfLocalHeaderSize bytes = Ok size →
  byteLength bytes = 30 ∧ size = 30 + u16 bytes 26 + u16 bytes 28 ∧ u32 bytes 0 = 0x04034b50.
Proof. intros Hb H. unfold threeMfLocalHeaderSize in H. by checked. Qed.

(** What the checks of a local header establish. *)
Lemma header_checked header e cdOffset local : is_bytes header →
  inspect3mfLocalEntryHeader header e cdOffset = Ok local →
  local_start local = localHeaderOffset e ∧ 30 + le header 26 2 + le header 28 2 = byteLength header
  ∧ dataEnd local = localHeaderOffset e + byteLength header + compressedSize e ∧ dataEnd local ≤ cdOffset
  ∧ le header 0 4 = 0x04034b50 ∧ le header 6 2 = entry_flags e ∧ le header 8 2 = compressionMethod e
  ∧ subarray header 30 (30 + le header 26 2) = nameBytes e
  ∧ extra_records header (30 + le header 26 2) (byteLength header)
  ∧ usesDataDescriptor local = negb (bit_and (entry_flags e) 8 =? 0)
  ∧ (if usesDataDescriptor local then sizes_or_zero_at header 14 e else sizes_at header 14 e).
Proof.
  intros Hb H. pose proof (le_nonneg header 26 2 Hb). pose proof (le_nonneg header 28 2 Hb).
  unfold inspect3mfLocalEntryHeader in H. cbv zeta in H. checked.
  match goal with E : threeMfLocalHeaderSize _ = _ |- _ => apply header_size_checked in E as (Hl & Hs & Hg); [|by apply is_bytes_subarray] end.
  pose proof (subarray_within header 0 30 ltac:(lia) ltac:(lia) Hl).
  rewrite !u16_le, !le_subarray in Hs by (try apply is_bytes_subarray; (done || lia)).
  rewrite u32_le, le_subarray in Hg by (try apply is_bytes_subarray; (done || lia)).
  rewrite !u16_le in * by (done || lia). rewrite !u32_le in * by (done || lia).
  rewrite !Z.add_0_l in *. cbn [local_start dataEnd usesDataDescriptor]. split_and!; try (done || lia || congruence).
  - apply extra_checked; (done || lia || idtac). unfold subarray. rewrite take_ge; [done|].
    unfold byteLength in *. rewrite length_drop. lia.
  - destruct (negb (bit_and (le header 6 2) 8 =? 0)); checked; [|by split_and!].
    split_and!; by apply existsb_eqb_in.
Qed.

Lemma descriptor_checked bytes e size : is_bytes bytes → inspect3mfDataDescriptor bytes e = Ok size →
  0 ≤ size ≤ byteLength bytes
  ∧ ∃ o, (o = 0 ∨ o = 4 ∧ le bytes 0 4 = 0x08074b50) ∧ sizes_at bytes o e ∧ size = o + 12.
Proof.
  intros Hb H. unfold inspect3mfDataDescriptor in H. cbv zeta in H.
  destruct ((4 <=? _) && _) eqn:E; rewrite !u32_le in * by (done || lia); checked; (split; [lia|]); [exists 4|exists 0];
    (split; [auto|]; split; [by split_and!|done]).
Qed.

Lemma bit3_clear flags : 0 ≤ flags < 65536 → negb (bit_and flags 8 =? 0) = Z.testbit flags 3.
Proof.
  intros H. unfold bit_and. rewrite !toInt32_small by lia.
  destruct (Z.testbit flags 3) eqn:E; [apply negb_true_iff, Z.eqb_neq|apply negb_false_iff, Z.eqb_eq].
  - intros Hl. apply (f_equal (λ z, Z.testbit z 3)) in Hl. by rewrite Z.land_spec, E in Hl.
  - apply Z.bits_inj'. intros i Hi. rewrite Z.land_spec, Z.bits_0. destruct (Z.eq_dec i 3) as [->|Hne]; [by rewrite E|].
    change 8 with (2 ^ 3). rewrite Z.pow2_bits_false by done. apply andb_false_r.
Qed.

Lemma local_checked bytes cdOffset e r : is_bytes bytes → 0 ≤ localHeaderOffset e → 0 ≤ compressedSize e →
  cdOffset ≤ byteLength bytes →
  inspectLocal bytes cdOffset e = Ok r → entry_range bytes cdOffset e r.
Proof.
  intros Hb Ho Hc Hcdl H. unfold inspectLocal in H. cbv zeta in H. checked.
  match goal with E : threeMfLocalHeaderSize _ = Ok ?s |- _ => rename s into size;
    apply header_size_checked in E as (Hl & Hs & _); [|by apply is_bytes_subarray] end.
  rewrite !u16_le, !le_subarray in Hs by (try apply is_bytes_subarray; (done || lia)).
  pose proof (le_nonneg bytes (localHeaderOffset e + 26) 2 Hb). pose proof (le_nonneg bytes (localHeaderOffset e + 28) 2 Hb).
  match goal with E : inspect3mfLocalEntryHeader _ _ _ = Ok ?l |- _ => rename l into local;
    apply header_checked in E as (Hst & Hln & Hde & Hcd & Hsig & Hfl & Hme & Hnm & Hx & Hud & Hsz); [|by apply is_bytes_subarray] end.
  rewrite !le_subarray in * by lia. rewrite Z.add_0_r in Hsig.
  assert (dataEnd local = data_end bytes e) as Hdata by (unfold data_end; lia).
  assert (byteLength (nameBytes e) = le bytes (localHeaderOffset e + 26) 2) as Hname.
  { rewrite <-Hnm. rewrite subarray_subarray, subarray_length by lia. lia. }
  rewrite subarray_subarray in Hnm by lia.
  rewrite bit3_clear in Hud by (rewrite <-Hfl, <-u16_le by (done || lia); by apply u16_range).
  split; cbn [range_start range_end]; try (done || lia).
  - split; [done|]. rewrite Hname. etrans; [|exact Hnm]. f_equal; lia.
  - rewrite Hname. apply extra_subarray in Hx; [|done|lia..]. by rewrite <-Hln, !Z.add_assoc in Hx.
  - rewrite <-Hud. destruct (usesDataDescriptor local) eqn:Huses; checked.
    + match goal with E : inspect3mfDataDescriptor _ _ = _ |- _ =>
        apply descriptor_checked in E as (Hsize & o & Hoff & Hat & ->); [|by apply is_bytes_subarray] end.
      match type of Hsize with _ ∧ _ ≤ byteLength (subarray _ ?a ?b) => pose proof (subarray_length_le bytes a b ltac:(lia)) end.
      unfold sizes_or_zero_at in Hsz. rewrite !le_subarray, !Z.add_assoc in Hsz by lia. split; [done|].
      exists (dataEnd local + o). unfold sizes_at in *. rewrite !le_subarray in * by lia.
      rewrite <-Hdata, <-!Z.add_assoc. split; [|by split; [|lia]].
      destruct Hoff as [->|[-> Hmark]]; [left; lia|right]. split; [done|]. by rewrite Z.add_0_r in Hmark.
    + split; [|done]. unfold sizes_at in *. by rewrite !le_subarray, !Z.add_assoc in Hsz by lia.
  - destruct (usesDataDescriptor local) eqn:Huses; checked; [|lia].
    match goal with E : inspect3mfDataDescriptor _ _ = _ |- _ =>
      apply descriptor_checked in E as [Hsize _]; [|by apply is_bytes_subarray] end.
    match type of Hsize with _ ∧ _ ≤ byteLength (subarray _ ?a ?b) => pose proof (subarray_length_le bytes a b ltac:(lia)) end. lia.
Qed.

Lemma range_data bytes cdOffset e r : entry_range bytes cdOffset e r → data_end bytes e ≤ range_end r.
Proof.
  intros Hr. pose proof (er_data _ _ _ _ Hr) as Hd.
  destruct (Z.testbit _ _); [destruct Hd as (_ & o & Hoff & _ & ->)|destruct Hd as [_ ->]]; lia.
Qed.

Lemma range_ordered bytes cdOffset e r : is_bytes bytes → safe_entry e → entry_range bytes cdOffset e r →
  range_start r ≤ range_end r.
Proof.
  intros Hb He Hr. destruct (er_start _ _ _ _ Hr) as [-> Ho]. pose proof (range_data _ _ _ _ Hr) as Hd.
  pose proof (se_sizes _ He). pose proof (le_nonneg bytes (localHeaderOffset e + 26) 2 Hb).
  pose proof (le_nonneg bytes (localHeaderOffset e + 28) 2 Hb). unfold data_end in *. lia.
Qed.

(** ** Ranges *)

Lemma Forall2_with_l {A B} (P : A → B → Prop) (Q : A → Prop) l k :
  Forall Q l → Forall2 P l k → Forall2 (λ x y, Q x ∧ P x y) l k.
Proof. intros HQ HP. induction HP; [done|]. apply Forall_cons in HQ as [? ?]. constructor; auto. Qed.

#[local] Instance compareRanges_comparator : Comparator compareRanges.
Proof. apply (js_or_comparator (λ l r, range_start l - range_start r) (λ l r, range_end l - range_end r)). Qed.

Lemma neighbours_sorted l : StronglySorted (λ a b, compareRanges a b ≤ 0) l →
  Forall (λ r, range_start r ≤ range_end r) l → neighbours_disjoint l = Ok () →
  StronglySorted (λ r s, range_end r ≤ range_start s) l.
Proof.
  intros Hs Hf. induction Hs as [|r l Hs IH Hr]; [constructor|]. apply Forall_cons in Hf as [Hrr Hf].
  intros H. destruct l as [|s l]; [repeat constructor|]. cbn [neighbours_disjoint] in H. checked.
  specialize (IH Hf H0). constructor; [done|]. constructor; [lia|].
  apply StronglySorted_inv in IH as [_ IH]. apply Forall_cons in Hf as [Hss Hf].
  eapply Forall_impl; [exact IH|]. cbn. intros. lia.
Qed.

Lemma StronglySorted_Permutation {A} (R : A → A → Prop) l k :
  (∀ x y, R x y → R y x) → l ≡ₚ k → StronglySorted R l → StronglySorted R k.
Proof.
  intros HR Hp. induction Hp as [|x l k Hp IH|x y l|l k m _ IH1 _ IH2]; intros Hs; [done| | |auto].
  - apply StronglySorted_inv in Hs as [Hs Hx]. constructor; [auto|]. by rewrite <-Hp.
  - apply StronglySorted_inv in Hs as [Hs Hx]. apply StronglySorted_inv in Hs as [Hs Hy].
    apply Forall_cons in Hx as [Hxy Hx]. by repeat constructor; auto.
Qed.

Lemma StronglySorted_lookup {A} (R : A → A → Prop) l i j x y :
  (∀ x y, R x y → R y x) → StronglySorted R l → i ≠ j → l !! i = Some x → l !! j = Some y → R x y.
Proof.
  intros HR Hs. revert i j. induction Hs as [|z l Hs IH Hz]; intros i j Hij Hi Hj; [done|].
  rewrite Forall_forall in Hz. destruct i as [|i], j as [|j]; cbn in *.
  - done.
  - injection Hi as ->. apply Hz. by eapply list_elem_of_lookup_2.
  - injection Hj as ->. apply HR, Hz. by eapply list_elem_of_lookup_2.
  - apply (IH i j); [congruence|done..].
Qed.

Lemma ranges_checked rs : Forall (λ r, range_start r ≤ range_end r) rs → validate3mfLocalEntryRanges rs = Ok () →
  ∀ i j r s, i ≠ j → rs !! i = Some r → rs !! j = Some s → disjoint_ranges r s.
Proof.
  intros Hf H i j r s. apply StronglySorted_lookup; [unfold disjoint_ranges; tauto|].
  apply (StronglySorted_Permutation _ (js_sort compareRanges rs)); [unfold disjoint_ranges; tauto|apply js_sort_perm|].
  unfold validate3mfLocalEntryRanges in H. apply neighbours_sorted in H.
  - eapply sorted_mono; [|exact H]. intros. by left.
  - by apply js_sort_sorted, _.
  - by rewrite js_sort_perm.
Qed.

(** ** The archive *)

Lemma end_record_checked bytes size offset end_ : is_bytes bytes →
  inspect3mfEndRecord bytes size offset = Ok end_ →
  0 ≤ centralDirectoryOffset end_ ∧ 46 ≤ centralDirectorySize end_ ∧ 22 ≤ byteLength bytes
  ∧ centralDirectoryOffset end_ + centralDirectorySize end_ + 22 ≤ num size.
Proof.
  intros Hb H. unfold inspect3mfEndRecord, readEndRecord in H. cbv zeta in H. checked.
  set (i := find_end_record _ _ _) in *.
  pose proof (u16_range bytes (i + 10) Hb). pose proof (u32_range bytes (i + 12)). pose proof (u32_range bytes (i + 16)).
  cbn [centralDirectoryOffset centralDirectorySize]. lia.
Qed.

Lemma find_end_record_found bytes i n : 0 ≤ find_end_record bytes i n →
  is_end_record bytes (find_end_record bytes i n) = true.
Proof.
  revert i. induction n as [|n IH]; intros i H; cbn [find_end_record] in *; [lia|].
  destruct (is_end_record bytes i) eqn:E; auto.
Qed.

(** The fields of the end record of a whole file. *)
Lemma end_record_fields bytes end_ : is_bytes bytes →
  inspect3mfEndRecord bytes (IntNum (byteLength bytes)) (IntNum 0) = Ok end_ →
  end_record bytes (centralDirectoryOffset end_ + centralDirectorySize end_) (centralDirectoryOffset end_) (end_entries end_).
Proof.
  intros Hb H. unfold inspect3mfEndRecord, readEndRecord in H. cbv zeta in H. checked.
  match goal with E : 0 ≤ find_end_record _ _ _ |- _ => pose proof (find_end_record_found _ _ _ E) as Hfound end.
  set (i := find_end_record _ _ _) in *. unfold is_end_record in Hfound. bool_inv.
  rewrite !u16_le in * by (done || lia). rewrite !u32_le in * by (done || lia). cbn [num] in *.
  cbn [centralDirectoryOffset centralDirectorySize end_entries].
  match goal with E : _ + _ = 0 + i |- _ => rewrite E, Z.add_0_l in * end.
  unfold MAX_3MF_CENTRAL_DIRECTORY_SIZE in *. split; (done || lia).
Qed.

(** The entries of the directory that the inspection reads make the archive
    safe. *)
Lemma inspected_safe bytes info end_ directory : is_bytes bytes →
  inspect3mfArchive bytes = Ok info → inspect3mfEndRecord bytes (IntNum (byteLength bytes)) (IntNum 0) = Ok end_ →
  inspect3mfCentralDirectory
    (subarray bytes (centralDirectoryOffset end_) (centralDirectoryOffset end_ + centralDirectorySize end_))
    (IntNum (end_entries end_)) (Some (centralDirectoryOffset end_)) = Ok directory →
  ∃ rs, safe_archive bytes info (centralDirectoryOffset end_ + centralDirectorySize end_) (centralDirectoryOffset end_)
    (localEntries directory) rs.
Proof.
  intros Hb H E Hdir. unfold inspect3mfArchive in H. rewrite E in H. revert H. run. rewrite Hdir. run. intros H. checked.
  pose proof (end_record_fields _ _ Hb E) as Hfields. apply end_record_checked in E as (Hcd & Hsize & Hlen & Hcde); [|done].
  match goal with E : inspect3mfCentralDirectory _ _ _ = _ |- _ =>
    apply directory_checked in E as (st & [_ Hes [Ht Hmax] [Hn _] Htypes Hmodel] & -> & Hc & Hcount & Hct & Hhm & Hrecords & _);
    [|by apply is_bytes_subarray] end.
  match goal with E : traverse _ _ = Ok ?l |- _ => rename l into rs; apply traverse_Ok in E; rename E into Hrs end.
  cbn [localEntries dir_entries dir_expandedBytes num] in *.
  rewrite subarray_length in Hrecords by lia. apply records_subarray in Hrecords; [|done|lia..].
  assert (Forall2 (entry_range bytes (centralDirectoryOffset end_)) (st_localEntries st) rs) as Hranges.
  { eapply Forall2_impl; [exact (Forall2_with_l _ _ _ _ Hes Hrs)|]. cbn. intros e r [([_ _ _ _ [? _] _] & ? & _) ?].
    apply local_checked; (done || lia). }
  exists rs.
  split; cbn [entries expandedBytes]; rewrite <-?Hc; try done.
  - rewrite Z.add_0_r in Hrecords. revert Hrecords. by rewrite Zplus_minus.
  - eapply Forall_impl; [exact Hes|]. by intros e [? _].
  - split; [auto|]. apply Exists_exists in Hmodel as (e & He & (part & ? & ? & ?)%model_name); [|done]. eauto 7.
  - apply ranges_checked; [|done].
    eapply Forall2_Forall_r; [exact (Forall2_with_l _ _ _ _ Hes Hranges)|]. apply Forall_true. intros e r [[He _] Hr].
    by eapply range_ordered.
Qed.

(** C16: An archive that the inspection accepts is safe to unpack.  Its end
    record is where the format has it and leads to a directory that consists of
    the records of the entries, each field at its place, and of nothing else.
    Every entry has a path that stays below its directory, plain and bounded
    contents and a name of its own, and its local header repeats what the
    directory says; the entries' bytes lie apart, before the directory; their
    sizes add up to the reported one, which is within the limit; and a model
    and the content types are among them. *)
Theorem archive_safe bytes info : is_bytes bytes → inspect3mfArchive bytes = Ok info →
  ∃ eocd cdOffset es rs, safe_archive bytes info eocd cdOffset es rs.
Proof.
  intros Hb H. pose proof H as Hi. unfold inspect3mfArchive in H. checked. do 3 eexists. by eapply inspected_safe.
Qed.


(** ** A sample archive *)

(** Two entries: [[Content_Types].xml], which is stored, and [3D/a.model], which is
    compressed into one block of DEFLATE. *)
Definition sample_archive : list Z :=
  [80; 75; 3; 4; 20; 0; 0; 0; 0; 0; 0; 0; 33; 0; 48; 137; 48; 89; 5; 0; 0; 0; 5; 0; 0; 0; 19; 0;
   0; 0; 91; 67; 111; 110; 116; 101; 110; 116; 95; 84; 121; 112; 101; 115; 93; 46; 120; 109; 108;
   116; 121; 112; 101; 115; 80; 75; 3; 4; 20; 0; 0; 0; 8; 0; 0; 0; 33; 0; 217; 114; 149; 215; 10;
   0; 0; 0; 5; 0; 0; 0; 10; 0; 0; 0; 51; 68; 47; 97; 46; 109; 111; 100; 101; 108; 1; 5; 0; 250;
   255; 109; 111; 100; 101; 108; 80; 75; 1; 2; 20; 0; 20; 0; 0; 0; 0; 0; 0; 0; 33; 0; 48; 137;
   48; 89; 5; 0; 0; 0; 5; 0; 0; 0; 19; 0; 0; 0; 0; 0; 0; 0; 0; 0; 0; 0; 128; 1; 0; 0; 0; 0; 91;
   67; 111; 110; 116; 101; 110; 116; 95; 84; 121; 112; 101; 115; 93; 46; 120; 109; 108; 80; 75;
   1; 2; 20; 0; 20; 0; 0; 0; 8; 0; 0; 0; 33; 0; 217; 114; 149; 215; 10; 0; 0; 0; 5; 0; 0; 0; 10;
   0; 0; 0; 0; 0; 0; 0; 0; 0; 0; 0; 128; 1; 54; 0; 0; 0; 51; 68; 47; 97; 46; 109; 111; 100; 101;
   108; 80; 75; 5; 6; 0; 0; 0; 0; 2; 0; 2; 0; 121; 0; 0; 0; 104; 0; 0; 0; 0; 0].

Lemma sample_bytes : is_bytes sample_archive.
Proof. apply (bool_decide_unpack _). vm_compute. exact I. Qed.

Lemma archive_safe_witness :
  ∃ eocd cdOffset es rs, safe_archive sample_archive (mkInspection 2 10) eocd cdOffset es rs.
Proof. apply archive_safe; [exact sample_bytes|vm_compute; reflexivity]. Defined.
End Archive.
