(* ===== verification/Upload.v ===== *)
(** The validation of uploads
    (apps/backend/src/modules/storage/upload-validation.ts): the metadata that a
    client declares, the signature of the content, and, of
    modules/storage/upload.service.ts, the inspection of a stored archive
    through range reads.  The archive itself is in Archive.v.  A field of the
    metadata whose type the code tests is a [value].  The tables of Unicode
    behind [toLowerCase] and [toUpperCase] are the parameter [Casing]; the range
    reads of the object store and the streams and the checksum of node:zlib are
    the parameter [Storage], whose laws are [StorageLaws]. *)
From S2P Require Import Prelude Text Digest Values Archive.

Import Archive.

Class Casing := { toLowerCase : jstr → jstr; toUpperCase : jstr → jstr }.

Module Upload.
Section Upload.
Context {casing : Casing}.

(** ** Formats *)

Definition MAX_MODEL_SIZE_BYTES : Z := 100 * 1024 * 1024.
Definition MAX_PHOTO_SIZE_BYTES : Z := 20 * 1024 * 1024.

Inductive UploadKind := model | photo.
Inductive UploadFormat := STL | STEP | ThreeMF | JPEG | PNG | WEBP.

#[global] Instance UploadFormat_eq_dec : EqDecision UploadFormat.
Proof. solve_decision. Defined.

Definition format_name (f : UploadFormat) : jstr :=
  match f with
  | STL => js "STL" | STEP => js "STEP" | ThreeMF => js "3MF"
  | JPEG => js "JPEG" | PNG => js "PNG" | WEBP => js "WEBP"
  end.

Record FormatSpec := mkSpec { spec_format : UploadFormat; contentTypes : list jstr }.

Definition MODEL_FORMATS : list (jstr * FormatSpec) :=
  [(js "stl", mkSpec STL [js "model/stl"; js "application/sla"; js "application/octet-stream"]);
   (js "step", mkSpec STEP [js "model/step"; js "application/step"; js "application/octet-stream"]);
   (js "stp", mkSpec STEP [js "model/step"; js "application/step"; js "application/octet-stream"]);
   (js "3mf", mkSpec ThreeMF
      [js "model/3mf"; js "model/3mf+zip";
       js "application/vnd.ms-package.3dmanufacturing-3dmodel+xml"; js "application/zip"])].

Definition PHOTO_FORMATS : list (jstr * FormatSpec) :=
  [(js "jpg", mkSpec JPEG [js "image/jpeg"]); (js "jpeg", mkSpec JPEG [js "image/jpeg"]);
   (js "png", mkSpec PNG [js "image/png"]); (js "webp", mkSpec WEBP [js "image/webp"])].

(** What a property of an object literal can be: a format, nothing, or a
    property that every object inherits, which is an object without
    [contentTypes]. *)
Inductive spec_property := own_spec (spec : FormatSpec) | no_spec | inherited_property.

(** The properties of [Object.prototype]. *)
Definition inherited_names : list jstr :=
  [js "constructor"; js "__defineGetter__"; js "__defineSetter__"; js "hasOwnProperty";
   js "__lookupGetter__"; js "__lookupSetter__"; js "isPrototypeOf"; js "propertyIsEnumerable";
   js "toString"; js "valueOf"; js "__proto__"; js "toLocaleString"].

Definition spec_of (formats : list (jstr * FormatSpec)) (extension : jstr) : spec_property :=
  match List.find (λ p, str_eqb p.1 extension) formats with
  | Some p => own_spec p.2
  | None => if existsb (str_eqb extension) inherited_names then inherited_property else no_spec
  end.

(** ** Metadata *)

Record UploadMetadataInput := mkInput {
  in_scopeId : value;
  in_extension : value;
  in_format : value;
  in_contentType : value;
  in_sha256 : value;
  in_sizeBytes : value;
  in_displayFilename : value;
}.

Record ValidatedUploadMetadata := mkMetadata {
  scopeId : jstr;
  extension : jstr;
  format : UploadFormat;
  contentType : jstr;
  sha256 : jstr;
  sizeBytes : Z;
  displayFilename : jstr;
  kind : UploadKind;
  maxSizeBytes : Z;
}.

(** [value.replace(/^\./, "")] *)
Definition drop_dot (s : jstr) : jstr := match s with 46 :: rest => rest | _ => s end.

Definition normalizeExtension (extension : jstr) : jstr := drop_dot (toLowerCase (js_trim extension)).

Definition is_lower_hex (c : Z) : bool := ((48 <=? c) && (c <=? 57)) || ((97 <=? c) && (c <=? 102)).
Definition is_hex (c : Z) : bool := is_lower_hex c || ((65 <=? c) && (c <=? 70)).

(** [/^[0-9a-f]{8}-[0-9a-f]{4}-[0-9a-f]{4}-[0-9a-f]{4}-[0-9a-f]{12}$/i.test(s)] *)
Definition is_uuid (s : jstr) : bool :=
  (js_length s =? 36)
  && forallb (λ p, if existsb (Z.eqb (Z.of_nat p.1)) [8; 13; 18; 23] then p.2 =? 45 else is_hex p.2)
       (imap pair s).

Definition validateScopeId (v : value) : result jstr :=
  match v with
  | Str s => fail_when (negb (is_uuid s)) INVALID_SCOPE_ID ;; Ok (toLowerCase s)
  | _ => fail INVALID_SCOPE_ID
  end.

(** A control character; a code point above U+FFFF is none, and neither is a
    surrogate, so the code units tell as much as the code points. *)
Definition is_control (c : Z) : bool := (c <=? 0x1f) || ((0x7f <=? c) && (c <=? 0x9f)).

Definition validateDisplayFilename (v : value) : result jstr :=
  match v with
  | Str filename =>
      fail_when
        ((js_length filename =? 0) || (255 <? js_length filename)
         || str_eqb filename (js ".") || str_eqb filename (js "..")) UNSAFE_FILENAME ;;
      fail_when
        (existsb is_slash filename || existsb is_control filename
         || existsb (λ part, str_eqb part (js "..")) (split_slashes filename)) UNSAFE_FILENAME ;;
      Ok filename
  | _ => fail UNSAFE_FILENAME
  end.

(** [value.split(";", 1)[0]] *)
Fixpoint before_semicolon (s : jstr) : jstr :=
  match s with
  | [] => []
  | c :: rest => if c =? 59 then [] else c :: before_semicolon rest
  end.

Definition string_of (v : value) (code : UploadValidationCode) : result jstr :=
  match v with Str s => Ok s | _ => fail code end.

Definition validateUploadMetadata (input : UploadMetadataInput) (kind : UploadKind)
    : result ValidatedUploadMetadata :=
  scopeId ← validateScopeId (in_scopeId input);
  declared ← string_of (in_extension input) UNSUPPORTED_FORMAT;
  let extension := normalizeExtension declared in
  let property := spec_of (match kind with model => MODEL_FORMATS | photo => PHOTO_FORMATS end) extension in
  fail_when (match property with no_spec => true | _ => false end) UNSUPPORTED_FORMAT ;;
  declared ← string_of (in_contentType input) CONTENT_TYPE_MISMATCH;
  let contentType := before_semicolon (toLowerCase (js_trim declared)) in
  spec ← match property with own_spec spec => Ok spec | _ => Throw TypeError end;
  fail_when (negb (existsb (str_eqb contentType) (contentTypes spec))) CONTENT_TYPE_MISMATCH ;;
  let sha256 := match in_sha256 input with Str s => s | _ => [] end in
  fail_when (negb ((js_length sha256 =? 64) && forallb is_lower_hex sha256)) INVALID_SHA256 ;;
  let maxSizeBytes := match kind with model => MAX_MODEL_SIZE_BYTES | photo => MAX_PHOTO_SIZE_BYTES end in
  sizeBytes ← match in_sizeBytes input with
              | Integral n => fail_when (negb (safe_int n) || (n <=? 0)) INVALID_SIZE ;; Ok n
              | _ => fail INVALID_SIZE
              end;
  fail_when (maxSizeBytes <? sizeBytes) SIZE_LIMIT_EXCEEDED ;;
  displayFilename ← validateDisplayFilename (in_displayFilename input);
  match in_format input with
  | Undefined => Ok ()
  | Str declared =>
      fail_when
        (negb (str_eqb (normalizeExtension declared) extension)
         && negb (str_eqb (toUpperCase declared) (format_name (spec_format spec)))) UNSUPPORTED_FORMAT
  | _ => fail UNSUPPORTED_FORMAT
  end ;;
  Ok (mkMetadata scopeId extension (spec_format spec) contentType sha256 sizeBytes
        displayFilename kind maxSizeBytes).

Definition validateModelUploadMetadata (input : UploadMetadataInput) : result ValidatedUploadMetadata :=
  validateUploadMetadata input model.
Definition validatePhotoUploadMetadata (input : UploadMetadataInput) : result ValidatedUploadMetadata :=
  validateUploadMetadata input photo.

(** ** Content *)

(** [Buffer.from(bytes).toString("ascii")], which drops the highest bit. *)
Definition ascii_text (bytes : list Z) : jstr := (λ b, b `mod` 128) <$> bytes.

(** [/^\s*solid(?:\s|$)/u.test(text)] *)
Definition starts_solid (text : jstr) : bool :=
  let rest := trim_start text in
  starts_with rest (js "solid")
  && match drop 5 rest with [] => true | c :: _ => is_js_space c end.

Definition format_of (name : jstr) : option UploadFormat :=
  List.find (λ f, str_eqb (format_name f) name) [STL; STEP; ThreeMF; JPEG; PNG; WEBP].

Definition validateFileSignature (format : jstr) (bytes : list Z) (totalSize : Z) : result () :=
  valid ←
    match format_of (toUpperCase format) with
    | Some JPEG =>
        Ok ((3 <=? byteLength bytes) && (byteAt bytes 0 =? 0xff) && (byteAt bytes 1 =? 0xd8)
            && (byteAt bytes 2 =? 0xff))
    | Some PNG =>
        Ok ((8 <=? byteLength bytes)
            && bool_decide (subarray bytes 0 8 = [137; 80; 78; 71; 13; 10; 26; 10]))
    | Some WEBP =>
        Ok ((12 <=? byteLength bytes) && str_eqb (ascii_text (subarray bytes 0 4)) (js "RIFF")
            && str_eqb (ascii_text (subarray bytes 8 12)) (js "WEBP"))
    | Some STEP => Ok (starts_with (ascii_text (subarray bytes 0 21)) (js "ISO-10303-21;"))
    | Some STL =>
        Ok (((84 <=? byteLength bytes) && (84 + u32 bytes 80 * 50 =? totalSize))
            || starts_solid (ascii_text (subarray bytes 0 512)))
    | Some ThreeMF =>
        match inspect3mfArchive bytes with
        | Ok _ => Ok true
        | Throw (UploadValidationError code) => fail code
        | Throw _ => Ok false
        end
    | None => Ok false
    end;
  fail_when (negb valid) INVALID_SIGNATURE.

Definition validateUploadContent (metadata : ValidatedUploadMetadata) (bytes : list Z) : result () :=
  fail_when (negb (byteLength bytes =? sizeBytes metadata)) INVALID_SIZE ;;
  validateFileSignature (format_name (format metadata)) bytes (byteLength bytes).

(** ** The upload service: what an intent keeps of the metadata *)

(** [s.lastIndexOf(c)], of a code unit. *)
Fixpoint lastIndexOf (s : jstr) (c : Z) : Z :=
  match s with
  | [] => -1
  | x :: rest => let i := lastIndexOf rest c in if 0 <=? i then i + 1 else if x =? c then 0 else -1
  end.

Definition extensionOf (filename : value) : jstr :=
  match filename with
  | Str s => let index := lastIndexOf s 46 in if index <? 0 then [] else drop (Z.to_nat (index + 1)) s
  | _ => []
  end.

Inductive ModelFileFormat := FILE_STL | FILE_STEP | FILE_THREE_MF.

Definition toModelFileFormat (format : jstr) : result ModelFileFormat :=
  if str_eqb format (js "STL") then Ok FILE_STL
  else if str_eqb format (js "STEP") then Ok FILE_STEP
  else if str_eqb format (js "3MF") then Ok FILE_THREE_MF
  else Throw (BadRequestException None).

Definition fromModelFileFormat (format : option ModelFileFormat) : result jstr :=
  match format with
  | Some FILE_STL => Ok (js "STL")
  | Some FILE_STEP => Ok (js "STEP")
  | Some FILE_THREE_MF => Ok (js "3MF")
  | None => fail UNSUPPORTED_FORMAT
  end.

Definition validationException (error : js_error) : js_error :=
  match error with
  | UploadValidationError code => BadRequestException (Some code)
  | BadRequestException code => BadRequestException code
  | _ => BadRequestException None
  end.

(** [try { return m; } catch (error) { throw validationException(error); }] *)
Definition validating {A} (m : result A) : result A :=
  match m with Ok a => Ok a | Throw error => Throw (validationException error) end.

(** The fields that a client sends; the decorators of the transfer objects
    describe them and check nothing. *)
Record InitiateUploadDto := mkDto {
  dto_originalFilename : value;
  dto_format : value;
  dto_contentType : value;
  dto_sizeBytes : value;
  dto_sha256 : value;
  dto_scopeId : value;
}.

Definition validateModelInput (input : InitiateUploadDto) (uploadId : jstr) : result ValidatedUploadMetadata :=
  validating
    (validateModelUploadMetadata
       (mkInput (Str uploadId) (Str (extensionOf (dto_originalFilename input))) (dto_format input)
          (dto_contentType input) (dto_sha256 input) (dto_sizeBytes input) (dto_originalFilename input))).

Definition validatePhotoInput (input : InitiateUploadDto) : result ValidatedUploadMetadata :=
  validating
    (validatePhotoUploadMetadata
       (mkInput (dto_scopeId input) (Str (extensionOf (dto_originalFilename input))) Undefined
          (dto_contentType input) (dto_sha256 input) (dto_sizeBytes input) (dto_originalFilename input))).

(** The columns of an upload intent that hold the metadata. *)
Record UploadIntent := mkIntent {
  intent_id : jstr;
  assetKind : UploadKind;
  originalFilename : option jstr;
  modelFormat : option ModelFileFormat;
  photoScopeId : option jstr;
  expectedContentType : jstr;
  expectedSizeBytes : Z;
  expectedContentHash : jstr;
}.

(** The intents that the two operations create. *)
Definition modelIntent (uploadId : jstr) (metadata : ValidatedUploadMetadata) : result UploadIntent :=
  format ← toModelFileFormat (format_name (format metadata));
  Ok (mkIntent uploadId model (Some (displayFilename metadata)) (Some format) None
        (contentType metadata) (sizeBytes metadata) (sha256 metadata)).

Definition photoIntent (uploadId : jstr) (metadata : ValidatedUploadMetadata) : UploadIntent :=
  mkIntent uploadId photo (Some (displayFilename metadata)) None (Some (scopeId metadata))
    (contentType metadata) (sizeBytes metadata) (sha256 metadata).

(** [Number(intent.expectedSizeBytes)] is the integer where it is safe; where it
    is not, the number is not safe either. *)
Definition metadataFromIntent (intent : UploadIntent) : result ValidatedUploadMetadata :=
  match originalFilename intent with
  | None | Some [] => fail UNSAFE_FILENAME
  | Some filename =>
      let input format :=
        mkInput (Str (default (intent_id intent) (photoScopeId intent))) (Str (extensionOf (Str filename)))
          format (Str (expectedContentType intent)) (Str (expectedContentHash intent))
          (Integral (expectedSizeBytes intent)) (Str filename) in
      match assetKind intent with
      | model =>
          format ← fromModelFileFormat (modelFormat intent);
          validateModelUploadMetadata (input (Str format))
      | photo => validatePhotoUploadMetadata (input Undefined)
      end
  end.

(** ** A stored archive *)

Definition MAX_SIGNATURE_PREFIX_BYTES : Z := 512.
Definition MAX_3MF_LOCAL_HEADER_BYTES : Z := 8 * 1024 * 1024.

Definition MAX_3MF_COMPRESSED_CHUNK_BYTES : Z := 8 * 1024 * 1024.

(** A stream of chunks and how it ends: completely, with an error of zlib, or
    with another error. *)
Inductive stream_end := ended | zlib_error | stream_failed (e : js_error).

Record stream := mkStream { chunks : list (list Z); ending : stream_end }.

(** What the code takes from the object store and from Node: a range of the
    object that is being validated; what a [PassThrough] and a decompressor of
    [createInflateRaw] deliver of the stream that is piped into them; and
    [zlib.crc32] of a chunk, continuing from a value. *)
Class Storage := {
  readObjectRange : Z → Z → result (list Z);
  PassThrough : stream → stream;
  createInflateRaw : stream → stream;
  crc32 : list Z → Z → Z;
}.

Context {storage : Storage}.

Record payload := mkPayload { payload_entry : ThreeMfEntry; payload_offset : Z }.

(** The variables of the loop over the entries. *)
Record stored_state := mkStored {
  inspectedLocalHeaderBytes : Z;
  stored_ranges : list range;
  payloads : list payload;
}.

Definition inspectStoredEntry (cdOffset : Z) (st : stored_state) (entry : ThreeMfEntry)
    : result stored_state :=
  fixed ← readObjectRange (localHeaderOffset entry) 30;
  headerSize ← threeMfLocalHeaderSize fixed;
  fail_when (cdOffset <? localHeaderOffset entry + headerSize) MALFORMED_ARCHIVE ;;
  let inspected := inspectedLocalHeaderBytes st + headerSize in
  fail_when (MAX_3MF_LOCAL_HEADER_BYTES <? inspected) ARCHIVE_LIMIT_EXCEEDED ;;
  header ←
    (if headerSize =? byteLength fixed then Ok fixed
     else readObjectRange (localHeaderOffset entry) headerSize);
  local ← inspect3mfLocalEntryHeader header entry cdOffset;
  let rangeEnd := dataEnd local in
  rangeEnd ←
    (if usesDataDescriptor local then
       let descriptorBytes := Z.min 16 (cdOffset - rangeEnd) in
       fail_when (descriptorBytes <? 12) MALFORMED_ARCHIVE ;;
       descriptor ← readObjectRange rangeEnd descriptorBytes;
       size ← inspect3mfDataDescriptor descriptor entry;
       Ok (rangeEnd + size)
     else Ok rangeEnd);
  Ok (mkStored inspected (stored_ranges st ++ [mkRange (local_start local) rangeEnd])
        (payloads st ++ [mkPayload entry (dataOffset local)])).

(** The inspection of the archive's structure, with the contents left to read. *)
Definition inspectStoredArchive (objectSize : Z) : result (list payload) :=
  let tailSize := Z.min objectSize MAX_ZIP_END_RECORD_SIZE in
  let tailOffset := objectSize - tailSize in
  tail ← readObjectRange tailOffset tailSize;
  end_ ← inspect3mfEndRecord tail (IntNum objectSize) (IntNum tailOffset);
  fail_when (MAX_3MF_CENTRAL_DIRECTORY_SIZE <? centralDirectorySize end_) ARCHIVE_LIMIT_EXCEEDED ;;
  directoryBytes ← readObjectRange (centralDirectoryOffset end_) (centralDirectorySize end_);
  directory ←
    inspect3mfCentralDirectory directoryBytes (IntNum (end_entries end_))
      (Some (centralDirectoryOffset end_));
  st ← foldM (inspectStoredEntry (centralDirectoryOffset end_)) (mkStored 0 [] [])
         (localEntries directory);
  validate3mfLocalEntryRanges (stored_ranges st) ;;
  Ok (payloads st).

(** The loop of the generator; every turn but the last reads a whole chunk, so
    as many turns as chunks begin within [length] are enough. *)
Fixpoint range_chunks (offset length consumed : Z) (fuel : nat) : stream :=
  match fuel with
  | O => mkStream [] ended
  | S fuel =>
      if consumed <? length then
        let chunkLength := Z.min MAX_3MF_COMPRESSED_CHUNK_BYTES (length - consumed) in
        match readObjectRange (offset + consumed) chunkLength with
        | Ok chunk =>
            let rest := range_chunks offset length (consumed + chunkLength) fuel in
            mkStream (chunk :: chunks rest) (ending rest)
        | Throw e => mkStream [] (stream_failed e)
        end
      else mkStream [] ended
  end.

Definition readObjectRangeChunks (offset length : Z) : stream :=
  range_chunks offset length 0 (Z.to_nat (length / MAX_3MF_COMPRESSED_CHUNK_BYTES + 1)).

(** A chunk of the content is counted, and its checksum continued. *)
Definition countChunk (entry : ThreeMfEntry) (expandedArchiveBytes : Z) (counted : Z * Z) (bytes : list Z)
    : result (Z * Z) :=
  let '(expandedEntryBytes, actualCrc32) := counted in
  fail_when
    ((MAX_3MF_ENTRY_SIZE - expandedEntryBytes <? byteLength bytes)
     || (expandedSize entry - expandedEntryBytes <? byteLength bytes)
     || (MAX_3MF_TOTAL_SIZE - expandedArchiveBytes - expandedEntryBytes <? byteLength bytes))
    ARCHIVE_LIMIT_EXCEEDED ;;
  Ok (expandedEntryBytes + byteLength bytes, crc32 bytes actualCrc32).

(** The pipeline of the range reads, the decoder and the loop over its chunks.
    A stream that fails does so here after the chunks before the failure; Node
    may drop chunks that are still buffered then, which can only change the
    error that is thrown. *)
Definition verify3mfEntryPayload (entry : ThreeMfEntry) (dataOffset expandedArchiveBytes : Z) : result Z :=
  let compressed := readObjectRangeChunks dataOffset (compressedSize entry) in
  let payload := (if compressionMethod entry =? 8 then createInflateRaw else PassThrough) compressed in
  '(expandedEntryBytes, actualCrc32) ← foldM (countChunk entry expandedArchiveBytes) (0, 0) (chunks payload);
  match ending payload with
  | ended => Ok ()
  | zlib_error => fail MALFORMED_ARCHIVE
  | stream_failed e => Throw e
  end ;;
  fail_when
    (negb (expandedEntryBytes =? expandedSize entry) || negb (actualCrc32 =? entry_crc32 entry))
    MALFORMED_ARCHIVE ;;
  Ok (expandedArchiveBytes + expandedEntryBytes).

(** The validation from the test of the metadata's format on. *)
Definition validateStoredContent (format : jstr) (objectSize : Z) : result () :=
  if negb (str_eqb format (js "3MF")) then
    prefix ← readObjectRange 0 (Z.min objectSize MAX_SIGNATURE_PREFIX_BYTES);
    validateFileSignature format prefix objectSize
  else
    payloads ← inspectStoredArchive objectSize;
    _ ← foldM (λ expandedArchiveBytes payload,
          verify3mfEntryPayload (payload_entry payload) (payload_offset payload) expandedArchiveBytes)
          0 payloads;
    Ok ().

Definition validateStoredSignature (intent : UploadIntent) : result () :=
  metadata ← metadataFromIntent intent;
  validateStoredContent (format_name (format metadata)) (expectedSizeBytes intent).

(** ** Specification *)

(** The documented behaviour of Node, where [inflate] is the raw DEFLATE
    decoding of complete data: a [PassThrough] delivers the bytes it is given
    and the decompressor what they decode to, both in chunks of their own, or
    else an error; the checksum of a chunk continues that of the bytes before
    it. *)
Class StorageLaws (inflate : list Z → option (list Z)) : Prop := {
  PassThrough_bytes input :
    ending (PassThrough (mkStream input ended)) = ended
    ∧ concat (chunks (PassThrough (mkStream input ended))) = concat input;
  createInflateRaw_bytes input data : inflate (concat input) = Some data →
    ending (createInflateRaw (mkStream input ended)) = ended
    ∧ concat (chunks (createInflateRaw (mkStream input ended))) = data;
  createInflateRaw_error input : inflate (concat input) = None →
    ending (createInflateRaw (mkStream input ended)) = zlib_error;
  crc32_nil crc : crc32 [] crc = crc;
  crc32_app bytes more crc : crc32 (bytes ++ more) crc = crc32 more (crc32 bytes crc);
}.

(** A range of the object is what the store delivers for it. *)
Definition serves (object : list Z) : Prop := ∀ offset size,
  0 ≤ offset → 1 ≤ size → offset + size ≤ byteLength object →
  readObjectRange offset size = Ok (subarray object offset (offset + size)).

(** The entries that an archive's directory lists, and the size of the local
    header of one. *)
Definition archive_entries (bytes : list Z) : result (list ThreeMfEntry) :=
  end_ ← inspect3mfEndRecord bytes (IntNum (byteLength bytes)) (IntNum 0);
  directory ←
    inspect3mfCentralDirectory
      (subarray bytes (centralDirectoryOffset end_)
         (centralDirectoryOffset end_ + centralDirectorySize end_))
      (IntNum (end_entries end_)) (Some (centralDirectoryOffset end_));
  Ok (localEntries directory).

Definition header_size (bytes : list Z) (e : ThreeMfEntry) : Z :=
  30 + le bytes (localHeaderOffset e + 26) 2 + le bytes (localHeaderOffset e + 28) 2.

Definition payload_of (bytes : list Z) (e : ThreeMfEntry) : payload :=
  mkPayload e (localHeaderOffset e + header_size bytes e).

(** The stored bytes of an entry, and its content: these bytes, or what they
    decompress to. *)
Definition stored_bytes (object : list Z) (e : ThreeMfEntry) : list Z :=
  let start := localHeaderOffset e + header_size object e in subarray object start (start + compressedSize e).

(** The content of an entry is as long and has the checksum that the directory
    says. *)
Definition content_matches (inflate : list Z → option (list Z)) (object : list Z) (e : ThreeMfEntry) : Prop :=
  ∃ data,
    (compressionMethod e = 0 ∧ data = stored_bytes object e
     ∨ compressionMethod e = 8 ∧ inflate (stored_bytes object e) = Some data)
    ∧ byteLength data = expandedSize e ∧ crc32 data 0 = entry_crc32 e.

(** ** The end record of a tail *)

Lemma byteAt_drop bytes k o : 0 ≤ k → 0 ≤ o → byteAt (drop (Z.to_nat k) bytes) o = byteAt bytes (k + o).
Proof.
  intros. unfold byteAt. rewrite !(proj2 (Z.ltb_ge _ _)) by lia.
  rewrite lookup_drop. by rewrite Z2Nat.inj_add by lia.
Qed.

Lemma u16_drop bytes k o : 0 ≤ k → 0 ≤ o → u16 (drop (Z.to_nat k) bytes) o = u16 bytes (k + o).
Proof. intros. unfold u16. by rewrite !byteAt_drop, Z.add_assoc by lia. Qed.

Lemma u32_drop bytes k o : 0 ≤ k → 0 ≤ o → u32 (drop (Z.to_nat k) bytes) o = u32 bytes (k + o).
Proof. intros. unfold u32. by rewrite !byteAt_drop, !Z.add_assoc by lia. Qed.

Lemma byteLength_drop bytes k : 0 ≤ k ≤ byteLength bytes → byteLength (drop (Z.to_nat k) bytes) = byteLength bytes - k.
Proof. unfold byteLength. rewrite length_drop. lia. Qed.

Lemma find_end_record_drop bytes k n i : 0 ≤ k ≤ byteLength bytes → 0 ≤ i - Z.of_nat n + 1 →
  find_end_record bytes (k + i) n =
    (let found := find_end_record (drop (Z.to_nat k) bytes) i n in if found <? 0 then found else k + found).
Proof.
  intros Hk. revert i. induction n as [|n IH]; intros i Hi; [done|]. cbn [find_end_record].
  assert (is_end_record (drop (Z.to_nat k) bytes) i = is_end_record bytes (k + i)) as ->.
  { unfold is_end_record. rewrite u32_drop, u16_drop, byteLength_drop, !Z.add_assoc by lia.
    f_equal; [f_equal|]; apply eq_true_iff_eq; rewrite ?Z.leb_le, ?Z.eqb_eq; lia. }
  destruct (is_end_record _ _) eqn:E; [cbn; destruct (i <? 0) eqn:?; bool_inv; lia|].
  replace (k + i - 1) with (k + (i - 1)) by lia. apply IH. lia.
Qed.

Lemma find_end_record_bounds bytes i n : 0 ≤ i - Z.of_nat n + 1 →
  find_end_record bytes i n = -1 ∨ 0 ≤ find_end_record bytes i n ≤ i.
Proof.
  revert i. induction n as [|n IH]; intros i Hi; cbn [find_end_record]; [by left|].
  destruct (is_end_record _ _); [right; lia|]. destruct (IH (i - 1)); lia.
Qed.

Lemma readEndRecord_drop bytes k eocd : 0 ≤ k ≤ byteLength bytes → 0 ≤ eocd →
  readEndRecord (drop (Z.to_nat k) bytes) k eocd = readEndRecord bytes 0 (k + eocd).
Proof.
  intros Hk He. unfold readEndRecord. rewrite !u16_drop, !u32_drop, byteLength_drop, !Z.add_assoc by lia. cbv zeta.
  replace (eocd + 22 + u16 bytes (k + eocd + 20) =? byteLength bytes - k)
    with (k + eocd + 22 + u16 bytes (k + eocd + 20) =? byteLength bytes)
    by (apply eq_true_iff_eq; rewrite !Z.eqb_eq; lia). done.
Qed.

(** The tail that the service reads has the end record that the whole file
    has. *)
Lemma end_record_tail bytes :
  let tailOffset := byteLength bytes - Z.min (byteLength bytes) MAX_ZIP_END_RECORD_SIZE in
  inspect3mfEndRecord (drop (Z.to_nat tailOffset) bytes) (IntNum (byteLength bytes)) (IntNum tailOffset)
  = inspect3mfEndRecord bytes (IntNum (byteLength bytes)) (IntNum 0).
Proof.
  intros k. pose proof (byteLength_nonneg bytes). assert (0 ≤ k ≤ byteLength bytes) as Hk by (unfold k, MAX_ZIP_END_RECORD_SIZE; lia).
  unfold inspect3mfEndRecord. cbn [num number_lt isSafeInteger]. rewrite byteLength_drop by done.
  destruct (Z.ltb_spec (byteLength bytes) 22) as [?|Hlen]; [done|]. cbn [orb].
  rewrite (proj2 (Z.ltb_ge (byteLength bytes - k) 22)) by (unfold k, MAX_ZIP_END_RECORD_SIZE; lia). cbn [fail_when throw_when].
  destruct (safe_int (byteLength bytes)) eqn:Hsafe; [|done].
  assert (safe_int k = true) as ->.
  { unfold safe_int, MIN_SAFE_INTEGER in *. bool_inv. apply andb_true_iff. rewrite !Z.leb_le. lia. }
  change (safe_int 0) with true. cbn [negb orb].
  rewrite (proj2 (Z.ltb_ge k 0)), (proj2 (Z.eqb_eq (k + _) _)), Z.eqb_refl by lia. cbn [negb orb].
  change (0 <? 0) with false. cbn [orb]. change (fail_when false MALFORMED_ARCHIVE) with (Ok (A:=()) ()). run.
  set (n := Z.to_nat (byteLength bytes - k - 22 - _ + 1)). set (i := byteLength bytes - k - 22).
  assert (Z.to_nat (byteLength bytes - 22 - Z.max 0 (byteLength bytes - MAX_ZIP_END_RECORD_SIZE) + 1) = n) as ->
    by (unfold n, k, MAX_ZIP_END_RECORD_SIZE; lia).
  replace (byteLength bytes - 22) with (k + i) by (unfold i; lia).
  assert (0 ≤ i - Z.of_nat n + 1) by (unfold i, n, k, MAX_ZIP_END_RECORD_SIZE; lia).
  rewrite find_end_record_drop by done. cbv zeta.
  destruct (find_end_record_bounds (drop (Z.to_nat k) bytes) i n) as [->|Hf]; [done..|].
  set (e := find_end_record (drop (Z.to_nat k) bytes) i n) in *.
  rewrite (proj2 (Z.ltb_ge e 0)), (proj2 (Z.ltb_ge (k + e) 0)), readEndRecord_drop by lia. cbn [orb].
  replace (byteLength bytes - k <? e + 22) with (byteLength bytes <? k + e + 22)
    by (apply eq_true_iff_eq; rewrite !Z.ltb_lt; lia). done.
Qed.

(** ** The entries of a stored archive *)

Lemma header_read object offset size fixed : serves object → 0 ≤ offset → 30 ≤ size →
  offset + size ≤ byteLength object → fixed = subarray object offset (offset + 30) →
  (if size =? byteLength fixed then Ok fixed else readObjectRange offset size)
  = Ok (subarray object offset (offset + size)).
Proof.
  intros Hs Ho H30 Hlen ->. rewrite subarray_length by lia.
  destruct (Z.eqb_spec size (offset + 30 - offset)) as [->|]; [|apply Hs; lia].
  do 2 f_equal. lia.
Qed.

Lemma stored_end (uses : bool) object stop cdOffset e x :
  serves object → 0 ≤ stop ≤ cdOffset → cdOffset ≤ byteLength object →
  (if uses then
     fail_when (Z.min 16 (cdOffset - stop) <? 12) MALFORMED_ARCHIVE ;;
     descriptor ← readObjectRange stop (Z.min 16 (cdOffset - stop));
     size ← inspect3mfDataDescriptor descriptor e;
     Ok (stop + size)
   else Ok stop) = Ok x ↔
  (if uses then
     size ← inspect3mfDataDescriptor (subarray object stop (stop + Z.min 16 (cdOffset - stop))) e;
     Ok (stop + size)
   else Ok stop) = Ok x.
Proof.
  intros Hs Hstop Hcd. destruct uses; [|done]. set (d := Z.min 16 (cdOffset - stop)).
  destruct (Z.ltb_spec d 12) as [Hd|Hd].
  - split; intros H; [done|]. exfalso. checked.
    match goal with E : inspect3mfDataDescriptor _ _ = _ |- _ => unfold inspect3mfDataDescriptor in E; cbv zeta in E;
      rewrite subarray_length in E by (unfold d in *; lia); destruct ((4 <=? _) && _); checked; lia end.
  - change (fail_when false MALFORMED_ARCHIVE) with (Ok (A:=()) ()). rewrite Hs by (unfold d in *; lia). done.
Qed.

Lemma header_size_nonneg object e : is_bytes object → 30 ≤ header_size object e.
Proof.
  intros Hb. unfold header_size. pose proof (le_nonneg object (localHeaderOffset e + 26) 2 Hb).
  pose proof (le_nonneg object (localHeaderOffset e + 28) 2 Hb). lia.
Qed.

Lemma header_size_read object e size : is_bytes object → 0 ≤ localHeaderOffset e →
  threeMfLocalHeaderSize (subarray object (localHeaderOffset e) (localHeaderOffset e + 30)) = Ok size →
  size = header_size object e.
Proof.
  intros Hb Ho (_ & -> & _)%header_size_checked; [|by apply is_bytes_subarray].
  unfold header_size. by rewrite !u16_subarray, !u16_le by (done || lia).
Qed.

Lemma local_offset object e cdOffset local : is_bytes object → 0 ≤ localHeaderOffset e →
  inspect3mfLocalEntryHeader
    (subarray object (localHeaderOffset e) (localHeaderOffset e + header_size object e)) e cdOffset = Ok local →
  local_start local = localHeaderOffset e ∧ dataOffset local = localHeaderOffset e + header_size object e
  ∧ dataEnd local = dataOffset local + compressedSize e
  ∧ dataOffset local ≤ cdOffset ∧ dataEnd local ≤ cdOffset.
Proof.
  intros Hb Ho H. pose proof (header_size_nonneg object e Hb). unfold inspect3mfLocalEntryHeader in H. cbv zeta in H. checked.
  match goal with E : threeMfLocalHeaderSize _ = _ |- _ =>
    rewrite subarray_subarray, Z.add_0_r in E by lia; apply header_size_read in E as ->; [|done..] end.
  cbn [local_start dataOffset dataEnd]. lia.
Qed.

(** An entry of a stored archive is inspected as it is in memory, and its header
    counted. *)
Lemma stored_entry_exact object cdOffset st e st' :
  is_bytes object → serves object → cdOffset ≤ byteLength object →
  0 ≤ localHeaderOffset e → localHeaderOffset e + 30 ≤ cdOffset → 0 ≤ compressedSize e →
  inspectStoredEntry cdOffset st e = Ok st' ↔
  ∃ r, inspectLocal object cdOffset e = Ok r
    ∧ inspectedLocalHeaderBytes st + header_size object e ≤ MAX_3MF_LOCAL_HEADER_BYTES
    ∧ st' = mkStored (inspectedLocalHeaderBytes st + header_size object e) (stored_ranges st ++ [r])
              (payloads st ++ [payload_of object e]).
Proof.
  intros Hb Hs Hcd Ho H30 Hc. unfold inspectStoredEntry, inspectLocal. rewrite Hs by lia. run.
  destruct (threeMfLocalHeaderSize _) as [size|err] eqn:Hsize; run; [|naive_solver].
  apply header_size_read in Hsize as ->; [|done..]. pose proof (header_size_nonneg object e Hb).
  destruct (Z.ltb_spec cdOffset (localHeaderOffset e + header_size object e)) as [Hlt|Hle].
  { split; [done|]. intros (r & H' & _). exfalso. checked.
    match goal with E : inspect3mfLocalEntryHeader _ _ _ = Ok _ |- _ => apply local_offset in E; [lia|done..] end. }
  rewrite (header_read object) by (done || lia). change (fail_when false MALFORMED_ARCHIVE) with (Ok (A:=()) ()). run.
  destruct (inspect3mfLocalEntryHeader _ _ _) as [local|err] eqn:Hlocal; run; [|split; [|naive_solver]; intros; by checked].
  apply local_offset in Hlocal as (Hst & Hdo & Hde & Hdc & Hec); [|done..].
  pose proof (λ x, stored_end (usesDataDescriptor local) object (dataEnd local) cdOffset e x Hs ltac:(lia) Hcd) as Hend.
  revert Hend. cbv zeta. generalize (if usesDataDescriptor local then
     size ← inspect3mfDataDescriptor (subarray object (dataEnd local) (dataEnd local + Z.min 16 (cdOffset - dataEnd local))) e;
     Ok (dataEnd local + size) else Ok (dataEnd local)). intros m Hend.
  rewrite Hst, Hdo. split.
  - intros H'. checked. match goal with E : (if _ then _ else _) = Ok _ |- _ => apply Hend in E as -> end.
    by eexists.
  - intros (r & H' & Hmax & ->). checked. rewrite (proj2 (Z.ltb_ge MAX_3MF_LOCAL_HEADER_BYTES _)) by done.
    change (fail_when false ARCHIVE_LIMIT_EXCEEDED) with (Ok (A:=()) ()). run.
    by rewrite (proj2 (Hend _) eq_refl).
Qed.

(** What the loop needs of an entry. *)
Definition placed (cdOffset : Z) (e : ThreeMfEntry) : Prop :=
  safe_entry e ∧ 0 ≤ localHeaderOffset e ∧ localHeaderOffset e + 30 ≤ cdOffset.

Lemma stored_entries_exact object cdOffset es st st' :
  is_bytes object → serves object → cdOffset ≤ byteLength object →
  Forall (placed cdOffset) es → inspectedLocalHeaderBytes st ≤ MAX_3MF_LOCAL_HEADER_BYTES →
  foldM (inspectStoredEntry cdOffset) st es = Ok st' ↔
  ∃ rs, traverse (inspectLocal object cdOffset) es = Ok rs
    ∧ inspectedLocalHeaderBytes st + sum_by (header_size object) es ≤ MAX_3MF_LOCAL_HEADER_BYTES
    ∧ st' = mkStored (inspectedLocalHeaderBytes st + sum_by (header_size object) es) (stored_ranges st ++ rs)
              (payloads st ++ (payload_of object <$> es)).
Proof.
  intros Hb Hs Hcd Hes. revert st. induction Hes as [|e es (He & Ho & H30) Hes IH]; intros st Hst.
  - cbn [foldM traverse fmap list_fmap]. rewrite sum_by_nil. split.
    + intros [= <-]. exists []. rewrite !app_nil_r, Z.add_0_r. destruct st. by split_and!.
    + intros (rs & [= <-] & _ & ->). rewrite !app_nil_r, Z.add_0_r. by destruct st.
  - assert (0 ≤ sum_by (header_size object) es) as Hpos.
    { apply sum_by_nonneg. intros x _. pose proof (header_size_nonneg object x Hb). lia. }
    cbn [foldM traverse]. rewrite bind_Ok, sum_by_cons. pose proof (se_sizes _ He) as [Hc _].
    setoid_rewrite (stored_entry_exact object cdOffset st e _ Hb Hs Hcd Ho H30 Hc). split.
    + intros (s1 & (r & Hr & Hmax & ->) & H). apply IH in H as (rs & Hrs & Hsum & ->); [|done].
      cbn [inspectedLocalHeaderBytes stored_ranges payloads] in *. exists (r :: rs).
      rewrite Hr. run. rewrite Hrs. rewrite <-!app_assoc, !Z.add_assoc. split_and!; [done|lia|done].
    + intros (rs & H & Hsum & ->). checked. eexists. split; [eexists; split_and!; [done|lia|done]|].
      apply IH; [cbn; lia|]. eexists. cbn [inspectedLocalHeaderBytes stored_ranges payloads].
      rewrite <-!app_assoc, !Z.add_assoc. split_and!; [done|lia|done].
Qed.

(** ** The structure of a stored archive *)

Lemma end_record_limit bytes size offset end_ : inspect3mfEndRecord bytes size offset = Ok end_ →
  centralDirectorySize end_ ≤ MAX_3MF_CENTRAL_DIRECTORY_SIZE.
Proof. intros H. unfold inspect3mfEndRecord, readEndRecord in H. cbv zeta in H. checked. cbn. lia. Qed.

Lemma directory_placed bytes n cdOffset directory : is_bytes bytes →
  inspect3mfCentralDirectory bytes (IntNum n) (Some cdOffset) = Ok directory →
  Forall (placed cdOffset) (localEntries directory)
  ∧ sum_by expandedSize (localEntries directory) ≤ MAX_3MF_TOTAL_SIZE.
Proof.
  intros Hb H. apply directory_checked in H as (st & [_ Hes [Ht Hmax] _ _ _] & -> & _); [|done].
  cbn [localEntries]. split; [|lia]. eapply Forall_impl; [exact Hes|]. intros e (? & ? & H). split; auto.
Qed.

Lemma stored_tail object : serves object → 22 ≤ byteLength object →
  let tailOffset := byteLength object - Z.min (byteLength object) MAX_ZIP_END_RECORD_SIZE in
  readObjectRange tailOffset (Z.min (byteLength object) MAX_ZIP_END_RECORD_SIZE)
  = Ok (drop (Z.to_nat tailOffset) object).
Proof.
  intros Hs Hl k. rewrite Hs by (unfold k, MAX_ZIP_END_RECORD_SIZE; lia). f_equal. unfold subarray.
  apply take_ge. rewrite length_drop. unfold byteLength in *. lia.
Qed.

(** The inspection through ranges accepts the structure of the archives that the
    inspection in memory accepts, up to its own limit on the local headers. *)
Lemma stored_archive_structure object ps : is_bytes object → serves object →
  inspectStoredArchive (byteLength object) = Ok ps ↔
  ∃ info es, inspect3mfArchive object = Ok info ∧ archive_entries object = Ok es
    ∧ sum_by (header_size object) es ≤ MAX_3MF_LOCAL_HEADER_BYTES ∧ ps = payload_of object <$> es.
Proof.
  intros Hb Hs. unfold inspectStoredArchive, inspect3mfArchive, archive_entries. cbv zeta.
  destruct (Z.ltb_spec (byteLength object) 22) as [Hlt|Hge].
  { assert (∀ bytes o, ∃ err, inspect3mfEndRecord bytes (IntNum (byteLength object)) o = Throw err) as Hfail.
    { intros. unfold inspect3mfEndRecord. cbn [number_lt]. rewrite (proj2 (Z.ltb_lt _ _) Hlt). by eexists. }
    destruct (Hfail object (IntNum 0)) as [err ->]. split; [|naive_solver]. intros H. checked.
    match goal with E : inspect3mfEndRecord ?b _ ?o = _ |- _ => destruct (Hfail b o); congruence end. }
  rewrite stored_tail by done. run. rewrite end_record_tail.
  destruct (inspect3mfEndRecord object _ _) as [end_|err] eqn:Hend; run; [|naive_solver].
  pose proof (end_record_limit _ _ _ _ Hend) as Hlimit. apply end_record_checked in Hend as (Hcd & Hsize & _ & Hcde); [|done].
  cbn [num] in Hcde. rewrite (proj2 (Z.ltb_ge _ _) Hlimit). change (fail_when false ARCHIVE_LIMIT_EXCEEDED) with (Ok (A:=()) ()). run.
  rewrite Hs by lia. run.
  destruct (inspect3mfCentralDirectory _ _ _) as [directory|err] eqn:Hdir; run; [|naive_solver].
  apply directory_placed in Hdir as [Hplaced _]; [|by apply is_bytes_subarray].
  rewrite bind_Ok. setoid_rewrite (stored_entries_exact object _ _ _ _ Hb Hs); [|lia|done|done].
  cbn [inspectedLocalHeaderBytes stored_ranges payloads app]. rewrite Z.add_0_l. split.
  - intros (st & (rs & Hrs & Hmax & ->) & H). cbn [stored_ranges payloads] in H. checked.
    rewrite Hrs. run. match goal with E : validate3mfLocalEntryRanges _ = _ |- _ => rewrite E end. eauto 10.
  - intros (info & es & H & [= <-] & Hmax & ->). checked. eexists. split; [eauto|].
    cbn [stored_ranges payloads]. match goal with E : validate3mfLocalEntryRanges _ = _ |- _ => by rewrite E end.
Qed.

(** ** The contents of a stored archive *)

Lemma byteLength_concat l : sum_by byteLength l = byteLength (concat l).
Proof.
  induction l as [|x l IH]; [done|]. rewrite sum_by_cons, IH. cbn. unfold byteLength. rewrite length_app. lia.
Qed.

(** The ranges that the generator reads make up the whole range. *)
Lemma range_chunks_bytes object offset length consumed fuel : serves object →
  0 ≤ offset → 0 ≤ consumed ≤ length → offset + length ≤ byteLength object →
  length - consumed < Z.of_nat fuel * MAX_3MF_COMPRESSED_CHUNK_BYTES →
  ending (range_chunks offset length consumed fuel) = ended
  ∧ concat (chunks (range_chunks offset length consumed fuel)) = subarray object (offset + consumed) (offset + length).
Proof.
  intros Hs Ho. revert consumed. induction fuel as [|fuel IH]; intros consumed Hc Hl Hf; [unfold MAX_3MF_COMPRESSED_CHUNK_BYTES in *; lia|].
  cbn [range_chunks]. destruct (Z.ltb_spec consumed length) as [Hlt|Hge].
  - set (n := Z.min _ _). assert (1 ≤ n ≤ length - consumed) by (unfold n, MAX_3MF_COMPRESSED_CHUNK_BYTES; lia).
    rewrite Hs by lia. cbn [ending chunks concat].
    destruct (Z.eq_dec n (length - consumed)) as [Hn|Hn].
    + assert (range_chunks offset length (consumed + n) fuel = mkStream [] ended) as ->.
      { destruct fuel; [done|]. cbn [range_chunks]. by rewrite (proj2 (Z.ltb_ge _ _)) by lia. }
      cbn. rewrite app_nil_r. split; [done|]. f_equal. lia.
    + destruct (IH (consumed + n)) as [-> ->]; [lia|done|unfold n in *; lia|]. split; [done|].
      rewrite Z.add_assoc. apply subarray_app; lia.
  - split; [done|]. replace consumed with length by lia. unfold subarray. by rewrite Z.sub_diag.
Qed.

Lemma readObjectRangeChunks_bytes object offset length : serves object →
  0 ≤ offset → 0 ≤ length → offset + length ≤ byteLength object →
  ∃ input, readObjectRangeChunks offset length = mkStream input ended
    ∧ concat input = subarray object offset (offset + length).
Proof.
  intros Hs Ho Hl Hb. unfold readObjectRangeChunks.
  destruct (range_chunks_bytes object offset length 0 (Z.to_nat (length / MAX_3MF_COMPRESSED_CHUNK_BYTES + 1)) Hs Ho) as [He Hc];
    [lia|done| |].
  - assert (0 ≤ length / MAX_3MF_COMPRESSED_CHUNK_BYTES) by (apply Z.div_pos; [done|]; by vm_compute).
    pose proof (Z.mul_succ_div_gt length MAX_3MF_COMPRESSED_CHUNK_BYTES ltac:(by vm_compute)). rewrite Z2Nat.id by lia. lia.
  - rewrite Z.add_0_r in Hc. destruct (range_chunks _ _ _ _) as [input e]. cbn in *. subst. by exists input.
Qed.

(** What the decoder delivers of an entry. *)
Lemma decoded_payload inflate `{!StorageLaws inflate} e input : compressionMethod e = 0 ∨ compressionMethod e = 8 →
  let payload := (if compressionMethod e =? 8 then createInflateRaw else PassThrough) (mkStream input ended) in
  ending payload = ended ↔
  ∃ data, (compressionMethod e = 0 ∧ data = concat input ∨ compressionMethod e = 8 ∧ inflate (concat input) = Some data)
    ∧ concat (chunks payload) = data ∧ ending payload = ended.
Proof.
  intros Hm payload. split; [|by intros (data & _ & _ & ?)]. unfold payload. destruct Hm as [Hm|Hm]; rewrite Hm; cbn; intros He.
  - destruct (PassThrough_bytes input) as [? ?]. eauto 8.
  - destruct (inflate (concat input)) as [data|] eqn:E.
    + destruct (createInflateRaw_bytes input data E). eauto 8.
    + by rewrite createInflateRaw_error in He.
Qed.

(** The loop over an entry's chunks counts them up to the size in the
    directory, which is the tightest of its limits. *)
Lemma chunks_counted inflate `{!StorageLaws inflate} e total input n crc st :
  0 ≤ expandedSize e ≤ MAX_3MF_ENTRY_SIZE → total + expandedSize e ≤ MAX_3MF_TOTAL_SIZE → n ≤ expandedSize e →
  foldM (countChunk e total) (n, crc) input = Ok st ↔
  n + byteLength (concat input) ≤ expandedSize e ∧ st = (n + byteLength (concat input), crc32 (concat input) crc).
Proof.
  intros He Ht. rewrite <-byteLength_concat. revert n crc. induction input as [|bytes input IH]; intros n crc Hn.
  - cbn [foldM concat]. rewrite sum_by_nil, Z.add_0_r, crc32_nil. split; [by intros [= <-]|by intros [_ ->]].
  - cbn [foldM concat]. rewrite sum_by_cons, crc32_app. pose proof (byteLength_nonneg (concat input)) as Hpos.
    rewrite <-byteLength_concat in Hpos. rewrite bind_Ok. split.
    + intros (s & Hstep & Hrest). unfold countChunk in Hstep. checked. apply IH in Hrest as [? ->]; [|lia].
      rewrite !Z.add_assoc. split; [lia|done].
    + intros [Hsum ->]. pose proof (byteLength_nonneg bytes). eexists. split.
      * unfold countChunk. rewrite !(proj2 (Z.ltb_ge _ _)) by lia. reflexivity.
      * apply IH; [lia|]. rewrite !Z.add_assoc. split; [lia|done].
Qed.

(** The content of an entry is verified exactly when it is what the directory
    says. *)
Lemma payload_exact inflate `{!StorageLaws inflate} object e total n : serves object → is_bytes object → safe_entry e →
  0 ≤ localHeaderOffset e → localHeaderOffset e + header_size object e + compressedSize e ≤ byteLength object →
  total + expandedSize e ≤ MAX_3MF_TOTAL_SIZE →
  verify3mfEntryPayload e (localHeaderOffset e + header_size object e) total = Ok n ↔
  content_matches inflate object e ∧ n = total + expandedSize e.
Proof.
  intros Hs Hb He Ho Hend Ht. destruct (se_sizes _ He) as [Hc Hx]. pose proof (header_size_nonneg object e Hb).
  unfold verify3mfEntryPayload, content_matches, stored_bytes. cbv zeta.
  destruct (readObjectRangeChunks_bytes object (localHeaderOffset e + header_size object e) (compressedSize e))
    as (input & -> & Hinput); [done|lia..|]. rewrite <-Hinput.
  pose proof (decoded_payload inflate e input) as Hdec. cbv zeta in Hdec.
  set (payload := (if _ =? _ then _ else _) _) in *. rewrite bind_Ok.
  setoid_rewrite (chunks_counted inflate); [|by unfold MAX_3MF_ENTRY_SIZE|done|lia]. rewrite Z.add_0_l. split.
  - intros (st & [Hsum ->] & H'). destruct (ending payload) eqn:E; checked.
    destruct (proj1 (Hdec ltac:(destruct (se_method _ He) as [[? _]|?]; auto)) eq_refl) as (data & Hdata & <- & _).
    split; [|lia]. eexists. split; [exact Hdata|]. split; (done || lia).
  - intros [(data & Hdata & Hlen & Hcrc) ->].
    assert (ending payload = ended ∧ concat (chunks payload) = data) as [Hp Hpd].
    { unfold payload. destruct Hdata as [[-> ->]|[-> Hi]]; cbn; [apply PassThrough_bytes|by apply createInflateRaw_bytes]. }
    rewrite Hp, Hpd, Hlen. eexists. split; [split; [lia|done]|]. rewrite Hcrc. run. by rewrite !Z.eqb_refl.
Qed.

(** An entry whose data lies in the object. *)
Definition contained (object : list Z) (e : ThreeMfEntry) : Prop :=
  safe_entry e ∧ 0 ≤ localHeaderOffset e
  ∧ localHeaderOffset e + header_size object e + compressedSize e ≤ byteLength object.

Lemma payloads_exact inflate `{!StorageLaws inflate} object es total n : serves object → is_bytes object →
  Forall (contained object) es → total + sum_by expandedSize es ≤ MAX_3MF_TOTAL_SIZE →
  foldM (λ expandedArchiveBytes payload,
    verify3mfEntryPayload (payload_entry payload) (payload_offset payload) expandedArchiveBytes)
    total (payload_of object <$> es) = Ok n ↔
  Forall (content_matches inflate object) es ∧ n = total + sum_by expandedSize es.
Proof.
  intros Hs Hb Hes. revert total. induction Hes as [|e es (He & Ho & Hend) Hes IH]; intros total Ht.
  - cbn. rewrite Z.add_0_r. split; [by intros [= <-]|by intros [_ ->]].
  - rewrite sum_by_cons in *. pose proof (se_sizes _ He) as [_ Hsize].
    assert (0 ≤ sum_by expandedSize es).
    { apply sum_by_nonneg. rewrite Forall_forall in Hes. intros x Hx. destruct (Hes _ Hx) as [Hx' _].
      by destruct (se_sizes _ Hx') as [_ [? _]]. }
    rewrite fmap_cons, Forall_cons. cbn [foldM payload_of payload_entry payload_offset]. rewrite bind_Ok.
    setoid_rewrite (payload_exact inflate); [|done..|lia]. split.
    + intros (m & [Hm ->] & Hn%IH); [|lia]. destruct Hn as [? ->]. rewrite Z.add_assoc. by split_and!.
    + intros [[Hm Hrest] ->]. eexists. split; [done|]. apply IH; [lia|]. rewrite Z.add_assoc. by split.
Qed.

(** The data of the entries of an archive that the inspection accepts lies in
    the archive. *)
Lemma archive_contained object info es : is_bytes object → inspect3mfArchive object = Ok info →
  archive_entries object = Ok es → Forall (contained object) es ∧ 0 + sum_by expandedSize es ≤ MAX_3MF_TOTAL_SIZE.
Proof.
  intros Hb Hi Hes. unfold archive_entries in Hes. unfold inspect3mfArchive in Hi. checked.
  match goal with E1 : inspect3mfEndRecord object _ _ = Ok ?e1, E2 : inspect3mfEndRecord object _ _ = Ok ?e2 |- _ =>
    assert (e2 = e1) as -> by congruence; apply end_record_checked in E1 as (Hcd & Hsize & _ & Hcde); [|done]; clear E2 end.
  match goal with E1 : inspect3mfCentralDirectory _ _ _ = Ok ?d1, E2 : inspect3mfCentralDirectory _ _ _ = Ok ?d2 |- _ =>
    assert (d2 = d1) as -> by congruence; apply directory_placed in E1 as [Hp Hsum]; [|by apply is_bytes_subarray]; clear E2 end.
  match goal with E : traverse _ _ = Ok _ |- _ => apply traverse_Ok in E; rename E into Hrs end. cbn [num] in Hcde.
  split; [|lia]. eapply Forall2_Forall_l; [exact (Forall2_with_l _ _ _ _ Hp Hrs)|]. apply Forall_true.
  intros r e [(He & Ho & _) Hr]. split; [done|]. split; [done|]. pose proof (se_sizes _ He) as [Hc _].
  apply local_checked in Hr; [|done|done|done|lia]. pose proof (range_data _ _ _ _ Hr) as Hdata.
  pose proof (er_end _ _ _ _ Hr). unfold data_end in Hdata. unfold header_size. lia.
Qed.

Lemma archive_entries_safe object info es : is_bytes object → inspect3mfArchive object = Ok info →
  archive_entries object = Ok es → ∃ eocd cdOffset rs, safe_archive object info eocd cdOffset es rs.
Proof. intros Hb Hi Hes. unfold archive_entries in Hes. checked. do 2 eexists. by eapply inspected_safe. Qed.

(** C17: The stored object of an intent for a 3MF model passes the validation
    through range reads exactly when the inspection in memory accepts the same
    bytes, its local headers take at most 8 MiB, and the content of every entry
    of its directory has the size and the checksum that the directory says:
    the [compressedSize] bytes behind the entry's local header, as they are
    stored (method 0) or as they decompress (method 8).  These entries are those
    of the records that the directory consists of. *)
Theorem stored_archive_exact inflate `{!StorageLaws inflate} object intent metadata : is_bytes object → serves object →
  metadataFromIntent intent = Ok metadata → format metadata = ThreeMF → expectedSizeBytes intent = byteLength object →
  (validateStoredSignature intent = Ok () ↔
   ∃ info es, inspect3mfArchive object = Ok info ∧ archive_entries object = Ok es
     ∧ sum_by (header_size object) es ≤ 8388608
     ∧ Forall (content_matches inflate object) es)
  ∧ ∀ info es, inspect3mfArchive object = Ok info → archive_entries object = Ok es →
      ∃ eocd cdOffset rs, safe_archive object info eocd cdOffset es rs.
Proof.
  intros Hb Hs Hm Hf Hsize. split; [|intros info es; by apply archive_entries_safe]. unfold validateStoredSignature. rewrite Hm. run. rewrite Hf, Hsize. unfold validateStoredContent.
  cbn [format_name]. change (negb (str_eqb (js "3MF") (js "3MF"))) with false. rewrite bind_Ok.
  setoid_rewrite stored_archive_structure; [|done..]. change MAX_3MF_LOCAL_HEADER_BYTES with 8388608. split.
  - intros (ps & (info & es & Hi & Hes & Hmax & ->) & H). destruct (archive_contained object info es Hb Hi Hes) as [Hc Hsum]. checked.
    match goal with E : foldM _ _ _ = _ |- _ => apply (payloads_exact inflate) in E as [? _]; [|done..] end. eauto 10.
  - intros (info & es & Hi & Hes & Hmax & Hm'). destruct (archive_contained object info es Hb Hi Hes) as [Hc Hsum].
    eexists. split; [eauto 10|].
    by rewrite (proj2 (payloads_exact inflate object es 0 _ Hs Hb Hc Hsum) (conj Hm' eq_refl)).
Qed.

(** ** Metadata *)

Definition is_ascii (c : Z) : bool := (0 <=? c) && (c <? 128).
Definition ascii_lower (c : Z) : Z := if (65 <=? c) && (c <=? 90) then c + 32 else c.
Definition ascii_upper (c : Z) : Z := if (97 <=? c) && (c <=? 122) then c - 32 else c.

(** The tables of Unicode extend the ones of ASCII. *)
Class CasingLaws := {
  lower_ascii : ∀ s, forallb is_ascii s = true → toLowerCase s = ascii_lower <$> s;
  upper_ascii : ∀ s, forallb is_ascii s = true → toUpperCase s = ascii_upper <$> s;
}.

(** A string that normalizing leaves alone. *)
Definition plain (s : jstr) : bool :=
  forallb (λ c, is_ascii c && (ascii_lower c =? c) && negb (is_js_space c) && negb (c =? 59)) s.

Lemma forallb_impl {A} (p q : A → bool) l : (∀ x, p x = true → q x = true) → forallb p l = true → forallb q l = true.
Proof. intros H. rewrite !forallb_forall. auto. Qed.

Lemma map_id_forallb (f : Z → Z) s : forallb (λ c, f c =? c) s = true → f <$> s = s.
Proof.
  induction s as [|c s IH]; intros H; cbn in *; [done|]. bool_inv. rewrite IH by done. congruence.
Qed.

Lemma trim_start_plain s : forallb (λ c, negb (is_js_space c)) s = true → trim_start s = s.
Proof. destruct s as [|c s]; cbn; [done|]. intros H. bool_inv. by match goal with E : is_js_space _ = _ |- _ => rewrite E end. Qed.

Lemma js_trim_plain s : forallb (λ c, negb (is_js_space c)) s = true → js_trim s = s.
Proof.
  intros H. unfold js_trim. rewrite !trim_start_plain; [apply reverse_involutive|done|].
  rewrite trim_start_plain by done. rewrite forallb_forall in *. intros x Hx. apply H.
  rewrite <-list_elem_of_In in *. by apply elem_of_reverse.
Qed.

Lemma before_semicolon_plain s : forallb (λ c, negb (c =? 59)) s = true → before_semicolon s = s.
Proof.
  induction s as [|c s IH]; intros H; cbn in *; [done|]. bool_inv. rewrite IH by done.
  by match goal with E : (_ =? _) = _ |- _ => rewrite E | E : _ ≠ 59 |- _ => rewrite (proj2 (Z.eqb_neq _ _) E) end.
Qed.

Ltac plain_part := eapply forallb_impl; [|eassumption]; cbn; intros; bool_inv; rewrite ?andb_true_iff, ?negb_true_iff, ?Z.eqb_neq, ?Z.eqb_eq; auto.

Lemma content_plain `{CasingLaws} s : plain s = true → before_semicolon (toLowerCase (js_trim s)) = s.
Proof.
  intros Hs. unfold plain in Hs. rewrite js_trim_plain by plain_part. rewrite lower_ascii by plain_part.
  rewrite map_id_forallb by plain_part. apply before_semicolon_plain. plain_part.
Qed.

(** The content types of the tables are plain. *)
Lemma tables_plain kind : forallb (λ p : jstr * FormatSpec, forallb plain (contentTypes p.2))
  (match kind with model => MODEL_FORMATS | photo => PHOTO_FORMATS end) = true.
Proof. destruct kind; vm_compute; reflexivity. Qed.

Lemma spec_of_member formats name spec : spec_of formats name = own_spec spec → ∃ key, (key, spec) ∈ formats.
Proof.
  unfold spec_of. destruct (List.find _ formats) as [[key s]|] eqn:E; [|by destruct (existsb _ _)].
  intros [= <-]. apply find_some in E as [E _]. exists key. by apply list_elem_of_In.
Qed.

Lemma table_content `{CasingLaws} kind name spec contentType :
  spec_of (match kind with model => MODEL_FORMATS | photo => PHOTO_FORMATS end) name = own_spec spec →
  existsb (str_eqb contentType) (contentTypes spec) = true →
  before_semicolon (toLowerCase (js_trim contentType)) = contentType.
Proof.
  intros [key Hkey]%spec_of_member Hc. pose proof (tables_plain kind) as Ht. rewrite forallb_forall in Ht.
  apply list_elem_of_In in Hkey. specialize (Ht _ Hkey). cbn in Ht. rewrite forallb_forall in Ht.
  apply existsb_exists in Hc as (s & Hs & Heq). unfold str_eqb in Heq. bool_inv. subst. by apply content_plain, Ht.
Qed.

Lemma format_name_upper `{CasingLaws} f : str_eqb (toUpperCase (format_name f)) (format_name f) = true.
Proof. rewrite upper_ascii by (by destruct f). by destruct f. Qed.

Lemma forallb_imap {A B} (f : nat → A → B) p s :
  forallb p (imap f s) = true ↔ ∀ i c, s !! i = Some c → p (f i c) = true.
Proof.
  revert f. induction s as [|c s IH]; intros f; cbn; [naive_solver|]. rewrite andb_true_iff, IH. split.
  - intros [Hc Hs] [|i] x Hx; cbn in Hx; [congruence|]. by apply Hs.
  - intros H. split; [by apply (H 0%nat)|]. intros i x Hx. by apply (H (S i)).
Qed.

Lemma is_hex_lower c : is_hex c = true → is_ascii c = true ∧ is_hex (ascii_lower c) = true.
Proof.
  unfold is_hex, is_lower_hex, is_ascii, ascii_lower. destruct ((65 <=? c) && (c <=? 90)) eqn:E;
    [apply andb_true_iff in E|apply andb_false_iff in E]; rewrite ?Z.leb_le, ?Z.leb_gt in E;
    rewrite !orb_true_iff, !andb_true_iff, !Z.leb_le, Z.ltb_lt; lia.
Qed.

Lemma ascii_lower_idem c : ascii_lower (ascii_lower c) = ascii_lower c.
Proof.
  unfold ascii_lower. destruct ((65 <=? c) && (c <=? 90)) eqn:E; [|by rewrite E].
  bool_inv. by replace (65 <=? c + 32) with true by (symmetry; apply Z.leb_le; lia);
    replace (c + 32 <=? 90) with false by (symmetry; apply Z.leb_gt; lia).
Qed.

(** The identity of the scope, in lower case, is valid and stays. *)
Lemma scope_idem `{CasingLaws} s t : validateScopeId (Str s) = Ok t → validateScopeId (Str t) = Ok t.
Proof.
  unfold validateScopeId. intros Hs. checked. unfold is_uuid in *. bool_inv.
  match goal with E : forallb _ _ = true |- _ => rewrite forallb_imap in E; rename E into Hc end.
  assert (forallb is_ascii s = true) as Hascii.
  { apply forallb_forall. intros c Hin%list_elem_of_In. apply list_elem_of_lookup in Hin as [i Hi].
    specialize (Hc i c Hi). cbn in Hc. destruct (_ || _); [|by apply is_hex_lower]. bool_inv. by subst. }
  rewrite (lower_ascii s Hascii).
  assert ((js_length (ascii_lower <$> s) =? 36) = true) as -> by (unfold js_length in *; rewrite length_fmap; by apply Z.eqb_eq).
  cbn [andb]. match goal with |- context [forallb ?p (imap ?f ?l)] => assert (forallb p (imap f l) = true) as -> end.
  { apply forallb_imap. intros i c Hi. apply list_lookup_fmap_Some in Hi as (x & -> & Hx). specialize (Hc i x Hx).
    cbn in Hc |- *. destruct (_ || _); [bool_inv; by subst|]. by apply is_hex_lower. }
  cbn [negb]. change (fail_when false INVALID_SCOPE_ID) with (Ok (A:=()) ()). run.
  rewrite lower_ascii.
  - f_equal. rewrite <-list_fmap_compose. apply list_fmap_ext. intros. apply ascii_lower_idem.
  - apply forallb_forall. intros c Hin%list_elem_of_In. apply list_elem_of_fmap in Hin as (x & -> & Hx).
    rewrite forallb_forall in Hascii. apply list_elem_of_In, Hascii in Hx. unfold is_ascii, ascii_lower in *. bool_inv.
    destruct ((65 <=? x) && (x <=? 90)) eqn:E; apply andb_true_iff; rewrite Z.leb_le, Z.ltb_lt; bool_inv; lia.
Qed.

Definition formats_of (kind : UploadKind) : list (jstr * FormatSpec) :=
  match kind with model => MODEL_FORMATS | photo => PHOTO_FORMATS end.
Definition max_size (kind : UploadKind) : Z :=
  match kind with model => MAX_MODEL_SIZE_BYTES | photo => MAX_PHOTO_SIZE_BYTES end.

(** What the validation of metadata accepts, and the result. *)
Record accepted (input : UploadMetadataInput) (kind : UploadKind) (m : ValidatedUploadMetadata) : Prop := {
  ac_scope : validateScopeId (in_scopeId input) = Ok (scopeId m);
  ac_extension : ∃ name, in_extension input = Str name ∧ extension m = normalizeExtension name;
  ac_contentType : ∃ c, in_contentType input = Str c ∧ contentType m = before_semicolon (toLowerCase (js_trim c));
  ac_format : ∃ spec, spec_of (formats_of kind) (extension m) = own_spec spec ∧ format m = spec_format spec
    ∧ existsb (str_eqb (contentType m)) (contentTypes spec) = true;
  ac_sha256 : in_sha256 input = Str (sha256 m) ∧ js_length (sha256 m) = 64 ∧ forallb is_lower_hex (sha256 m) = true;
  ac_size : in_sizeBytes input = Integral (sizeBytes m) ∧ 0 < sizeBytes m ≤ max_size kind;
  ac_filename : validateDisplayFilename (in_displayFilename input) = Ok (displayFilename m);
  ac_declared : in_format input = Undefined ∨ ∃ d, in_format input = Str d
    ∧ (normalizeExtension d = extension m ∨ toUpperCase d = format_name (format m));
  ac_kind : Upload.kind m = kind ∧ maxSizeBytes m = max_size kind;
}.

Lemma str_eqb_eq a b : str_eqb a b = true ↔ a = b.
Proof. unfold str_eqb. by rewrite bool_decide_eq_true. Qed.

Lemma string_of_Ok v code s : string_of v code = Ok s → v = Str s.
Proof. by destruct v; cbn; intros; checked. Qed.

Lemma declared_format v e f : 
  match v with
  | Undefined => Ok ()
  | Str d => fail_when (negb (str_eqb (normalizeExtension d) e) && negb (str_eqb (toUpperCase d) (format_name f)))
               UNSUPPORTED_FORMAT
  | _ => fail UNSUPPORTED_FORMAT
  end = Ok () ↔
  v = Undefined ∨ ∃ d, v = Str d ∧ (normalizeExtension d = e ∨ toUpperCase d = format_name f).
Proof.
  destruct v; cycle 8; [|split; [first [by left|by intros ?%fail_Ok]|naive_solver]..].
  rewrite fail_when_Ok, andb_false_iff, !negb_false_iff, !str_eqb_eq.
  naive_solver.
Qed.

(** The validation of metadata accepts what [accepted] says, and nothing else. *)
Lemma validate_exact input kind m : validateUploadMetadata input kind = Ok m ↔ accepted input kind m.
Proof.
  unfold validateUploadMetadata. cbv zeta. fold (formats_of kind) (max_size kind). split.
  - intros H. checked. repeat match goal with E : string_of _ _ = Ok _ |- _ => apply string_of_Ok in E end.
    destruct (spec_of _ _) as [spec| |] eqn:Hspec; checked.
    destruct (in_sizeBytes input) eqn:Hsize; checked.
    match goal with E : _ = Ok () |- _ => apply declared_format in E end.
    split; cbn [scopeId extension format contentType sha256 sizeBytes displayFilename Upload.kind maxSizeBytes]; eauto.
    destruct (in_sha256 input); by split_and!.
  - intros [Hid (name & Hn & He) (c & Hc & Hct) (spec & Hspec & Hf & Hcs) (Hh & Hhl & Hhx) (Hs & Hs0 & Hsm) Hd Hdec [Hk Hmax]].
    assert (safe_int (sizeBytes m) = true) as Hsafe.
    { unfold safe_int, MIN_SAFE_INTEGER, MAX_SAFE_INTEGER. apply andb_true_iff. rewrite !Z.leb_le.
      destruct kind; unfold max_size, MAX_MODEL_SIZE_BYTES, MAX_PHOTO_SIZE_BYTES in Hsm; lia. }
    assert (∀ c, fail_when false c = Ok ()) as Hpass by done.
    rewrite Hid, Hn, Hc, Hs, Hh. run. cbn [string_of]. run. rewrite <-He, <-Hct, Hspec, Hpass. run.
    rewrite Hcs, Hpass. run. rewrite Hhx, (proj2 (Z.eqb_eq _ 64) Hhl), Hpass. run.
    rewrite Hsafe, (proj2 (Z.leb_gt _ _) Hs0), Hpass. run. rewrite (proj2 (Z.ltb_ge _ _) Hsm), Hpass. run. rewrite Hd. run.
    apply (declared_format _ (extension m) (format m)) in Hdec. rewrite <-Hf, Hdec. run. rewrite <-Hmax, <-Hk. by destruct m.
Qed.

(** Validated metadata is valid, and validating it changes nothing. *)
Lemma metadata_idem `{CasingLaws} input kind m id form name : validateUploadMetadata input kind = Ok m →
  in_extension input = Str name → in_displayFilename input = Str (displayFilename m) →
  validateScopeId id = Ok (scopeId m) → form = Undefined ∨ form = Str (format_name (format m)) →
  validateUploadMetadata
    (mkInput id (Str name) form (Str (contentType m)) (Str (sha256 m)) (Integral (sizeBytes m))
       (Str (displayFilename m))) kind = Ok m.
Proof.
  rewrite !validate_exact. intros [_ Hext _ (spec & Hspec & Hf & Hct) [_ Hsha] [_ Hsize] Hname _ Hkind] Hn Hd Hid Hform.
  split; cbn [in_scopeId in_extension in_format in_contentType in_sha256 in_sizeBytes in_displayFilename]; eauto.
  - destruct Hext as (n & Hn' & ?). exists name. split; [done|]. congruence.
  - exists (contentType m). split; [done|]. symmetry. by eapply (table_content kind).
  - congruence.
  - destruct Hform as [->| ->]; [by left|right]. eexists. split; [done|]. right. apply str_eqb_eq, format_name_upper.
Qed.

Lemma filename_kept v s : validateDisplayFilename v = Ok s → v = Str s ∧ s ≠ [].
Proof.
  destruct v; cbn; intros H; try by apply fail_Ok in H. checked. split; [done|]. by intros ->.
Qed.

Lemma validating_Ok {A} (m : result A) a : validating m = Ok a ↔ m = Ok a.
Proof. by destruct m. Qed.

(** The format of a model survives its column. *)
Lemma model_format_kept input m : accepted input model m →
  ∃ f, toModelFileFormat (format_name (format m)) = Ok f ∧ fromModelFileFormat (Some f) = Ok (format_name (format m)).
Proof.
  intros [_ _ _ (spec & Hspec & -> & _) _ _ _ _ _]. apply spec_of_member in Hspec as [key Hkey].
  assert (Forall (λ p : jstr * FormatSpec, ∃ f, toModelFileFormat (format_name (spec_format p.2)) = Ok f
    ∧ fromModelFileFormat (Some f) = Ok (format_name (spec_format p.2))) MODEL_FORMATS) as Hall.
  { forall_list; eexists; split; reflexivity. }
  rewrite Forall_forall in Hall. exact (Hall _ Hkey).
Qed.

(** C18: The metadata that an upload intent was created from is the metadata that
    its confirmation reads back: the extension, the format, the media type, the
    hash, the size and the name that the first validation settled are what the
    second one, over the columns of the intent, settles again, for models and
    for photos. *)
Theorem intent_revalidates `{CasingLaws} input uploadId m :
  (validateModelInput input uploadId = Ok m →
   ∃ intent, modelIntent uploadId m = Ok intent ∧ metadataFromIntent intent = Ok m)
  ∧ (validatePhotoInput input = Ok m → metadataFromIntent (photoIntent uploadId m) = Ok m).
Proof.
  unfold validateModelInput, validatePhotoInput, validateModelUploadMetadata, validatePhotoUploadMetadata. rewrite !validating_Ok.
  split; intros Hm; pose proof (proj1 (validate_exact _ _ _) Hm) as Hacc; pose proof (ac_scope _ _ _ Hacc) as Hscope;
    destruct (filename_kept _ _ (ac_filename _ _ _ Hacc)) as [Hname Hne];
    cbn [in_scopeId in_displayFilename] in Hscope, Hname; rewrite Hname in Hm.
  - destruct (model_format_kept _ _ Hacc) as (f & Hto & Hfrom). unfold modelIntent. rewrite Hto. run. eexists. split; [done|].
    unfold metadataFromIntent. cbn [originalFilename assetKind modelFormat photoScopeId intent_id expectedContentType
      expectedSizeBytes expectedContentHash from_option]. rewrite Hfrom. run.
    destruct (displayFilename m) eqn:E; [done|]. rewrite <-E in *. eapply metadata_idem; eauto.
  - unfold metadataFromIntent, photoIntent. cbn [originalFilename assetKind modelFormat photoScopeId intent_id
      expectedContentType expectedSizeBytes expectedContentHash from_option].
    destruct (displayFilename m) eqn:E; [done|]. rewrite <-E in *.
    eapply metadata_idem; eauto. destruct (dto_scopeId input); try by apply fail_Ok in Hscope.
    by eapply scope_idem.
Qed.

(** ** Rejections *)

(** A rejection with a code of the validation, or else with a [TypeError]
    for a reason. *)
Definition coded {A} (reason : Prop) (m : result A) : Prop :=
  ∀ e, m = Throw e → (∃ code, e = UploadValidationError code) ∨ e = TypeError ∧ reason.

Section coded.
Context {reason : Prop}.

Lemma coded_fail_when b c : coded reason (fail_when b c).
Proof. intros e. destruct b; [|done]. intros [= <-]. eauto. Qed.

Lemma coded_fail {A} c : coded (A:=A) reason (fail c).
Proof. intros e [= <-]. eauto. Qed.

Lemma coded_Ok {A} (a : A) : coded reason (Ok a).
Proof. by intros e. Qed.

Lemma coded_bind {A B} (m : result A) (f : A → result B) :
  coded reason m → (∀ a, m = Ok a → coded reason (f a)) → coded reason (m ≫= f).
Proof. intros Hm Hf e. destruct m as [a|e']; run; [by apply Hf|]. intros [= <-]. by apply Hm. Qed.
End coded.

#[local] Hint Resolve coded_fail_when coded_fail coded_Ok coded_bind : coded.

(** C19: A rejection of the metadata of an upload has one of the codes of the
    validation, unless the extension is the name of a property that every
    object inherits, such as [constructor]: that makes the lookup in the table
    of formats succeed, and the validation end with a [TypeError]. *)
Theorem upload_rejection_coded input kind e : validateUploadMetadata input kind = Throw e →
  (∃ code, e = UploadValidationError code)
  ∨ e = TypeError ∧ ∃ name, in_extension input = Str name
    ∧ spec_of (formats_of kind) (normalizeExtension name) = inherited_property.
Proof.
  revert e. match goal with |- ∀ e, ?m = Throw e → _ ∨ _ ∧ ?P => change (coded P m) end.
  unfold validateUploadMetadata. cbv zeta. apply coded_bind.
  { destruct (in_scopeId input); cbn; eauto with coded. }
  intros id _. apply coded_bind; [destruct (in_extension input); cbn; eauto with coded|].
  intros name Hname%string_of_Ok. apply coded_bind; [auto with coded|]. fold (formats_of kind).
  intros u Hspec%fail_when_Ok. apply coded_bind; [destruct (in_contentType input); cbn; eauto with coded|].
  intros c _. apply coded_bind.
  { intros e. destruct (spec_of _ _) eqn:E; [done|done|]. intros [= <-]. eauto. }
  intros spec _. apply coded_bind; [auto with coded|]. intros _ _. apply coded_bind; [auto with coded|].
  intros _ _. apply coded_bind; [destruct (in_sizeBytes input); eauto with coded|].
  intros size _. apply coded_bind; [auto with coded|]. intros _ _. apply coded_bind.
  { destruct (in_displayFilename input); cbn; eauto 6 with coded. }
  intros filename _. apply coded_bind; [|auto with coded]. destruct (in_format input); eauto with coded.
Qed.

End Upload.

(** ** A sample *)

(** The tables of ASCII. *)
Definition ascii_casing : Casing := {| toLowerCase := fmap ascii_lower; toUpperCase := fmap ascii_upper |}.

#[global] Instance ascii_casing_laws : CasingLaws (casing:=ascii_casing).
Proof. by split. Qed.

(** The checksum of zlib. *)
Definition crc_step (crc : Z) : Z :=
  if Z.odd crc then Z.lxor 0xedb88320 (Z.shiftr crc 1) else Z.shiftr crc 1.
Definition crc_byte (crc b : Z) : Z := Nat.iter 8 crc_step (Z.lxor crc b).
Definition sample_crc32 (bytes : list Z) (crc : Z) : Z :=
  Z.lxor (foldl crc_byte (Z.lxor crc 0xffffffff) bytes) 0xffffffff.

(** The decoding of data that is one block without compression: its header, the
    length and its complement, and the bytes. *)
Definition sample_inflate (bytes : list Z) : option (list Z) :=
  match bytes with
  | 1 :: l0 :: l1 :: n0 :: n1 :: data =>
      if (byteLength data =? l0 + 256 * l1) && (n0 =? 255 - l0) && (n1 =? 255 - l1) then Some data else None
  | _ => None
  end.

(** A store with the sample archive. *)
Definition sample_storage : Storage := {|
  readObjectRange offset size :=
    if (0 <=? offset) && (1 <=? size) && (offset + size <=? byteLength sample_archive)
    then Ok (subarray sample_archive offset (offset + size)) else Throw RangeError;
  PassThrough input := input;
  createInflateRaw input :=
    match ending input, sample_inflate (concat (chunks input)) with
    | ended, Some data => mkStream [data] ended
    | ended, None => mkStream [] zlib_error
    | _, _ => input
    end;
  crc32 := sample_crc32;
|}.

Lemma sample_laws : StorageLaws (storage:=sample_storage) sample_inflate.
Proof.
  split.
  - done.
  - intros input data H. cbn. rewrite H. cbn. by rewrite app_nil_r.
  - intros input H. cbn. by rewrite H.
  - intros crc. cbn. unfold sample_crc32. cbn. by rewrite Z.lxor_assoc, Z.lxor_nilpotent, Z.lxor_0_r.
  - intros bytes more crc. cbn. unfold sample_crc32.
    by rewrite foldl_app, Z.lxor_assoc, Z.lxor_nilpotent, Z.lxor_0_r.
Qed.

Lemma sample_serves : serves (storage:=sample_storage) sample_archive.
Proof.
  intros offset size Ho Hs Hl. cbn [readObjectRange sample_storage].
  by rewrite (proj2 (Z.leb_le _ _) Ho), (proj2 (Z.leb_le _ _) Hs), (proj2 (Z.leb_le _ _) Hl).
Qed.

(** A photo upload of a client. *)
Definition sample_scope : jstr := js "0195E0C4-7B1A-7C2D-8E3F-0123456789AB".
Definition sample_hash : jstr := js "abcdef0123456789abcdef0123456789abcdef0123456789abcdef0123456789".

Definition sample_upload (filename contentType : jstr) (format : value) : InitiateUploadDto :=
  mkDto (Str filename) format (Str contentType) (Integral 2048) (Str sample_hash) (Str sample_scope).

Definition sample_photo : InitiateUploadDto := sample_upload (js "Bracket.v2.JPG") (js " Image/JPEG; q=1") Undefined.
Definition sample_model : InitiateUploadDto := sample_upload (js "Bracket.STP") (js "model/step") (Str (js "step")).

Definition or_empty (m : result ValidatedUploadMetadata) : ValidatedUploadMetadata :=
  match m with Ok a => a | Throw _ => mkMetadata [] [] STL [] [] 0 [] model 0 end.

Definition sample_metadata : ValidatedUploadMetadata :=
  or_empty (validatePhotoInput (casing:=ascii_casing) sample_photo).
Definition sample_model_metadata : ValidatedUploadMetadata :=
  or_empty (validateModelInput (casing:=ascii_casing) sample_model sample_scope).

(** The intent of the sample archive. *)
Definition sample_intent : UploadIntent :=
  mkIntent sample_scope model (Some (js "part.3mf")) (Some FILE_THREE_MF) None (js "model/3mf") 247 sample_hash.

Lemma stored_archive_exact_witness :
  validateStoredSignature (casing:=ascii_casing) (storage:=sample_storage) sample_intent = Ok ().
Proof.
  pose proof sample_laws.
  apply (proj2 (proj1 (stored_archive_exact (casing:=ascii_casing) (storage:=sample_storage) sample_inflate sample_archive sample_intent
    (or_empty (metadataFromIntent (casing:=ascii_casing) sample_intent)) sample_bytes sample_serves
    ltac:(vm_compute; reflexivity) ltac:(vm_compute; reflexivity) ltac:(vm_compute; reflexivity)))).
  eexists _, _. split; [vm_compute; reflexivity|]. split; [vm_compute; reflexivity|]. split.
  - apply Z.leb_le. vm_compute. reflexivity.
  - repeat constructor.
    + eexists. split; [left; split; [vm_compute; reflexivity|reflexivity]|]. split; vm_compute; reflexivity.
    + eexists. split; [right; split; vm_compute; reflexivity|]. split; vm_compute; reflexivity.
Defined.

Lemma intent_revalidates_witness :
  (∃ intent, modelIntent sample_scope sample_model_metadata = Ok intent
    ∧ metadataFromIntent (casing:=ascii_casing) intent = Ok sample_model_metadata)
  ∧ metadataFromIntent (casing:=ascii_casing) (photoIntent sample_scope sample_metadata) = Ok sample_metadata.
Proof.
  split.
  - apply (intent_revalidates (casing:=ascii_casing) sample_model). vm_compute. reflexivity.
  - apply (intent_revalidates (casing:=ascii_casing) sample_photo). vm_compute. reflexivity.
Defined.

Lemma upload_rejection_coded_witness :
  (∃ code, TypeError = UploadValidationError code)
  ∨ TypeError = TypeError ∧ ∃ name, Str (js "constructor") = Str name
    ∧ spec_of (formats_of model) (normalizeExtension (casing:=ascii_casing) name) = inherited_property.
Proof.
  apply (upload_rejection_coded (casing:=ascii_casing)
    (mkInput (Str sample_scope) (Str (js "constructor")) Undefined (Str (js "model/stl")) (Str sample_hash)
       (Integral 2048) (Str (js "part.constructor"))) model TypeError).
  vm_compute. reflexivity.
Defined.

(** A file whose extension is [constructor] is refused without a code. *)
Lemma constructor_refused_uncoded :
  validateModelInput (casing:=ascii_casing)
    (sample_upload (js "part.constructor") (js "model/stl") (Str (js "STL"))) sample_scope
  = Throw (BadRequestException None).
Proof. vm_compute. reflexivity. Qed.

End Upload.
