(* ===== verification/Json.v ===== *)
(** JSON text: [JSON.stringify] of a value, and the canonical text that the
    contracts between the backend and the slicer worker hash
    (packages/slicer-contracts/src/contracts.ts), which determines the contents
    of a value. *)
From S2P Require Import Prelude Text Language Primitives Digest Values.

(** The text of a [number] that is not a safe integer. *)
Class NumberText := { numberText : value → jstr }.

(** [JSON.stringify(v)], of a value that JSON has. *)
Fixpoint jsonText `{NumberText} (v : value) : jstr :=
  match v with
  | Bool b => if b then js "true" else js "false"
  | Str s => jsonQuote s
  | Integral z => if safe_int z then toString10 z else numberText v
  | NonIntegral _ => numberText v
  | ArrayV _ l => js "[" ++ join (js ",") (List.map jsonText l) ++ js "]"
  | RecordV _ fields =>
      js "{" ++ join (js ",") (List.map (λ p, jsonQuote p.1 ++ js ":" ++ jsonText p.2) fields) ++ js "}"
  | _ => js "null"
  end.

(** ** The canonical text *)

(** [`[${parts.join(",")}]`] and [`{${parts.join(",")}}`] *)
Definition bracketed (parts : list jstr) : jstr := 91 :: join (js ",") parts ++ [93].
Definition braced (parts : list jstr) : jstr := 123 :: join (js ",") parts ++ [125].

(** [([left], [right]) => (left < right ? -1 : left > right ? 1 : 0)] *)
Definition compareEntries {A} (left right : jstr * A) : Z := compareStrings left.1 right.1.

(** [`${JSON.stringify(key)}:${canonicalJson(item)}`] *)
Definition entryText (entry : jstr * jstr) : jstr := jsonQuote entry.1 ++ 58 :: entry.2.

(** The entries of an object are sorted after their texts are computed here: the
    order of these computations matters to nothing, since all that they throw is
    a [TypeError].  An [Instant] has one property and a [Map] none. *)
Fixpoint canonicalJson (v : value) : result jstr :=
  match v with
  | Null => Ok (js "null")
  | Bool b => Ok (if b then js "true" else js "false")
  | Str s => Ok (jsonQuote s)
  | Integral z => throw_when (negb (safe_int z)) TypeError ;; Ok (toString10 z)
  | ArrayV _ l =>
      texts ← (fix texts l :=
                 match l with
                 | [] => Ok []
                 | x :: l' => t ← canonicalJson x; ts ← texts l'; Ok (t :: ts)
                 end) l;
      Ok (bracketed texts)
  | RecordV _ fields =>
      texts ← (fix texts fields :=
                 match fields with
                 | [] => Ok []
                 | (k, x) :: fields' => t ← canonicalJson x; ts ← texts fields'; Ok ((k, t) :: ts)
                 end) fields;
      Ok (braced (entryText <$> js_sort compareEntries texts))
  | MapV _ _ => Ok (braced [])
  | InstantV _ i =>
      let z := Instant.epochMilliseconds i in
      throw_when (negb (safe_int z)) TypeError ;;
      Ok (braced [entryText (js "epochMilliseconds", toString10 z)])
  | _ => Throw TypeError
  end.

(** ** Contents

    What a value is without its addresses and without the order of its
    properties: the reference for what a canonical text identifies. *)

Inductive json :=
| JNull
| JBool (b : bool)
| JNumber (z : Z)
| JString (s : jstr)
| JArray (elements : list json)
| JObject (fields : list (jstr * json)).

Fixpoint contents (v : value) : option json :=
  match v with
  | Null => Some JNull
  | Bool b => Some (JBool b)
  | Str s => Some (JString s)
  | Integral z => if safe_int z then Some (JNumber z) else None
  | ArrayV _ l =>
      JArray <$> (fix all l :=
                    match l with
                    | [] => Some []
                    | x :: l' => j ← contents x; js ← all l'; Some (j :: js)
                    end) l
  | RecordV _ fields =>
      (λ entries, JObject (js_sort compareEntries entries)) <$>
        (fix all fields :=
           match fields with
           | [] => Some []
           | (k, x) :: fields' => j ← contents x; js ← all fields'; Some ((k, j) :: js)
           end) fields
  | MapV _ _ => Some (JObject [])
  | InstantV _ i =>
      let z := Instant.epochMilliseconds i in
      if safe_int z then Some (JObject [(js "epochMilliseconds", JNumber z)]) else None
  | _ => None
  end.

(** [v[k]], of contents. *)
Definition field (j : json) (k : jstr) : option json :=
  match j with JObject fields => assoc k fields | _ => None end.

Fixpoint render (j : json) : jstr :=
  match j with
  | JNull => js "null"
  | JBool b => if b then js "true" else js "false"
  | JNumber z => toString10 z
  | JString s => jsonQuote s
  | JArray l => bracketed (List.map render l)
  | JObject fields => braced (List.map (λ '(k, x), entryText (k, render x)) fields)
  end.

(** Induction that goes through the lists. *)
Lemma value_rect_nested (P : value → Prop) :
  (∀ v, match v with
        | ArrayV _ l => Forall P l
        | RecordV _ fields => Forall (λ p, P p.2) fields
        | _ => True
        end → P v) → ∀ v, P v.
Proof.
  intros H. fix IH 1. intros v. apply H. destruct v as [| | | | | | | | | |a l|a fields|]; try exact I.
  - induction l as [|x l IHl]; constructor; [apply IH|exact IHl].
  - induction fields as [|[k x] fields IHl]; constructor; [apply IH|exact IHl].
Qed.

Lemma json_ind_nested (P : json → Prop) :
  (∀ j, match j with
        | JArray l => Forall P l
        | JObject fields => Forall (λ p, P p.2) fields
        | _ => True
        end → P j) → ∀ j, P j.
Proof.
  intros H. fix IH 1. intros j. apply H. destruct j as [| | | |l|fields]; try exact I.
  - induction l as [|x l IHl]; constructor; [apply IH|exact IHl].
  - induction fields as [|[k x] fields IHl]; constructor; [apply IH|exact IHl].
Qed.

(** *** Sorting *)

Lemma js_sort_fmap {A B} (f : A → B) cmp cmp' l :
  (∀ x y, cmp' (f x) (f y) = cmp x y) → js_sort cmp' (f <$> l) = f <$> js_sort cmp l.
Proof.
  intros Hf. induction l as [|x l IH]; [done|]. cbn [fmap list_fmap js_sort foldr]. fold (js_sort cmp l).
  fold (js_sort cmp' (f <$> l)). rewrite IH. generalize (js_sort cmp l) as k. clear IH l.
  induction k as [|y k IH]; [done|]. cbn. rewrite Hf. case_match; cbn; [done|by rewrite IH].
Qed.

Lemma assoc_js_sort {A} k (l : list (jstr * A)) : assoc k (js_sort compareEntries l) = assoc k l.
Proof.
  induction l as [|[k' a] l IH]; [done|]. cbn [js_sort foldr]. fold (js_sort compareEntries l).
  change (assoc k ((k', a) :: l)) with (if str_eqb k' k then Some a else assoc k l). rewrite <-IH.
  generalize (js_sort compareEntries l) as m. clear IH l. induction m as [|[k'' b] m IH]; [done|]. cbn.
  unfold compareEntries at 1. cbn. destruct (compareStrings k' k'' <=? 0) eqn:E; [done|]. cbn. rewrite IH.
  unfold str_eqb. destruct (decide (k'' = k)) as [->|Hne].
  - rewrite (bool_decide_eq_true_2 (k = k)) by done. case_bool_decide as Hk; [|done]. subst k'. exfalso.
    rewrite (proj2 (compareStrings_0 k k) eq_refl) in E. done.
  - by rewrite (bool_decide_eq_false_2 (k'' = k)).
Qed.

(** *** The canonical text is the one of the contents *)

Lemma entries_texts (fields : list (jstr * value)) :
  Forall (λ p, canonicalJson p.2 = match contents p.2 with Some j => Ok (render j) | None => Throw TypeError end) fields →
  (fix texts fields :=
     match fields with
     | [] => Ok []
     | (k, x) :: fields' => t ← canonicalJson x; ts ← texts fields'; Ok ((k, t) :: ts)
     end) fields
  = match (fix all fields :=
             match fields with
             | [] => Some []
             | (k, x) :: fields' => j ← contents x; js ← all fields'; Some ((k, j) :: js)
             end) fields with
    | Some js => Ok ((λ p, (p.1, render p.2)) <$> js)
    | None => Throw TypeError
    end.
Proof.
  induction 1 as [|[k x] fields Hx _ IH]; [done|]. cbn in Hx. rewrite Hx, IH.
  destruct (contents x) as [j|]; cbn; [|done]. by case_match.
Qed.

Lemma elements_texts (l : list value) :
  Forall (λ x, canonicalJson x = match contents x with Some j => Ok (render j) | None => Throw TypeError end) l →
  (fix texts l :=
     match l with
     | [] => Ok []
     | x :: l' => t ← canonicalJson x; ts ← texts l'; Ok (t :: ts)
     end) l
  = match (fix all l :=
             match l with
             | [] => Some []
             | x :: l' => j ← contents x; js ← all l'; Some (j :: js)
             end) l with
    | Some js => Ok (render <$> js)
    | None => Throw TypeError
    end.
Proof.
  induction 1 as [|x l Hx _ IH]; [done|]. rewrite Hx, IH.
  destruct (contents x) as [j|]; cbn; [|done]. by case_match.
Qed.

Lemma canonicalJson_contents v :
  canonicalJson v = match contents v with Some j => Ok (render j) | None => Throw TypeError end.
Proof.
  induction v as [v Hv] using value_rect_nested. destruct v as [| |[]|z| | | | | |a i|a l|a fields|]; try done.
  - cbn. by destruct (safe_int z).
  - cbn [canonicalJson contents]. cbv zeta. destruct (safe_int (Instant.epochMilliseconds i)); reflexivity.
  - cbn [canonicalJson contents]. rewrite elements_texts by done. by case_match.
  - cbn [canonicalJson contents]. rewrite entries_texts by done. case_match; [|done]. rename l into js.
    cbn [fmap option_fmap option_map]. change (Ok ?x ≫= ?f) with (f x). cbv beta. cbn [render]. do 2 f_equal.
    rewrite (js_sort_fmap _ compareEntries) by done. rewrite <-list_fmap_compose.
    change (List.map ?f ?l) with (f <$> l). apply list_fmap_ext. by intros i [k j] _.
Qed.

(** *** The text determines the contents *)

(** What can follow a text in a canonical text: its end, or a delimiter. *)
Definition delimiter (c : Z) : Prop := c = 44 ∨ c = 93 ∨ c = 125.
Definition closed (r : jstr) : Prop := match r with [] => True | c :: _ => delimiter c end.
Definition opens (s : jstr) : Prop := match s with [] => False | c :: _ => ¬ delimiter c end.

(** The text of [x] is read off the start of any text. *)
Definition cuts {A} (f : A → jstr) (x : A) : Prop :=
  ∀ y r r', closed r → closed r' → f x ++ r = f y ++ r' → x = y ∧ r = r'.

Lemma prefix_unique (P : Z → Prop) (s s' r r' : jstr) :
  Forall P s → Forall P s' → match r with [] => True | c :: _ => ¬ P c end →
  match r' with [] => True | c :: _ => ¬ P c end → s ++ r = s' ++ r' → s = s' ∧ r = r'.
Proof.
  intros H. revert s'. induction H as [|c s Hc _ IH]; intros s' H' Hr Hr' Heq.
  - destruct H' as [|c' s' Hc' _]; [done|]. cbn in Heq. by subst r.
  - destruct H' as [|c' s' Hc' Hs']; cbn in Heq; [by subst r'|]. injection Heq as -> Heq.
    by destruct (IH s' Hs' Hr Hr' Heq) as [-> ->].
Qed.

Definition number_char (c : Z) : Prop := c = 45 ∨ is_digit c.

Lemma toString10_chars z : Forall number_char (toString10 z).
Proof.
  destruct (Z_lt_le_dec z 0) as [Hz|Hz].
  - assert (toString10 z = 45 :: toString10 (- z)) as ->.
    { unfold toString10, toString. by rewrite (proj2 (Z.ltb_lt z 0)), (proj2 (Z.ltb_ge (- z) 0)) by lia. }
    constructor; [by left|]. eapply Forall_impl; [apply toString10_digits; lia|]. by right.
  - eapply Forall_impl; [by apply toString10_digits|]. by right.
Qed.

Lemma toString10_head z : ∃ c s, toString10 z = c :: s ∧ number_char c.
Proof.
  pose proof (toString10_chars z) as H. pose proof (toString10_nonempty z). destruct (toString10 z) as [|c s]; [done|].
  apply Forall_cons in H as [? _]. eauto.
Qed.

Lemma toString10_cuts z : cuts toString10 z.
Proof.
  intros y r r' Hr Hr' H. apply (prefix_unique number_char) in H as [H ->]; [|apply toString10_chars..| |].
  - by apply (inj toString10) in H.
  - destruct r as [|c r]; [done|]. intros [->|Hc]; [|unfold is_digit in Hc]; destruct Hr as [?|[?|?]]; lia.
  - destruct r' as [|c r']; [done|]. intros [->|Hc]; [|unfold is_digit in Hc]; destruct Hr' as [?|[?|?]]; lia.
Qed.

(** A list of texts between commas and a terminator. *)
Lemma join_cuts {A} (f : A → jstr) t l l' r r' :
  delimiter t → t ≠ 44 → (∀ x, opens (f x)) → Forall (cuts f) l →
  join (js ",") (f <$> l) ++ t :: r = join (js ",") (f <$> l') ++ t :: r' → l = l' ∧ r = r'.
Proof.
  intros Ht Hne Hopen H. revert l'. induction H as [|x l Hx Hl IH]; intros l' Heq.
  - destruct l' as [|y l']; [by injection Heq|]. exfalso. specialize (Hopen y). cbn in Heq.
    destruct (f y) as [|c s] eqn:E; [done|]. destruct (f <$> l'); injection Heq as -> _; done.
  - destruct l' as [|y l'].
    { exfalso. specialize (Hopen x). cbn in Heq. destruct (f x) as [|c s] eqn:E; [done|].
      destruct (f <$> l); injection Heq as -> _; done. }
    assert (∀ k (m : list A) u, join (js ",") (f <$> k :: m) ++ t :: u
      = f k ++ match m with [] => t :: u | _ => 44 :: join (js ",") (f <$> m) ++ t :: u end) as Hjoin.
    { intros k [|k' m] u; [done|]. cbn [fmap list_fmap join]. by rewrite <-!app_assoc. }
    rewrite !Hjoin in Heq. apply Hx in Heq as [-> Heq].
    + destruct l as [|z l], l' as [|z' l']; simplify_eq; [done|]. by destruct (IH _ Heq) as [-> ->].
    + destruct l; [done|by left].
    + destruct l'; [done|by left].
Qed.

Lemma render_opens j : opens (render j).
Proof.
  unfold opens, delimiter. destruct j as [|[]|z| | |]; cbn; try lia.
  destruct (toString10_head z) as (c & s & -> & [->|Hc]); [lia|]. unfold is_digit in Hc. lia.
Qed.

(** The first characters of the kinds of values are different. *)
Definition first_char (j : json) (c : Z) : Prop :=
  match j with
  | JNull => c = 110
  | JBool b => c = if b then 116 else 102
  | JNumber _ => number_char c
  | JString _ => c = 34
  | JArray _ => c = 91
  | JObject _ => c = 123
  end.

Lemma render_first j : ∃ c s, render j = c :: s ∧ first_char j c.
Proof. destruct j as [|[]|z| | |]; try by do 2 eexists. apply toString10_head. Qed.

Definition renderEntry (p : jstr * json) : jstr := entryText (p.1, render p.2).

Lemma render_cuts j : cuts render j.
Proof.
  induction j as [j Hj] using json_ind_nested. intros k r r' Hr Hr' Heq.
  assert (∃ c, first_char j c ∧ first_char k c) as (c & Hc & Hc').
  { destruct (render_first j) as (c & s & Hs & Hc), (render_first k) as (c' & s' & Hs' & Hc').
    rewrite Hs, Hs' in Heq. injection Heq as -> _. eauto. }
  destruct j as [|b|z|s|l|fields], k as [|b'|z'|s'|l'|fields']; cbn [first_char] in Hc, Hc';
    try (exfalso; clear Heq Hj; subst; unfold number_char, is_digit in *; repeat case_match; lia).
  - cbn in Heq. by simplify_eq.
  - destruct b, b'; cbn in Heq; by simplify_eq.
  - cbn in Heq. by apply toString10_cuts in Heq as [-> ->].
  - cbn [render] in Heq. by apply jsonQuote_cut in Heq as [-> ->].
  - cbn [render] in Heq. unfold bracketed in Heq. cbn [app] in Heq. rewrite <-!app_assoc in Heq. injection Heq as Heq.
    apply (join_cuts render 93) in Heq as [-> ->]; try done; [by right; left|apply render_opens].
  - cbn [render] in Heq. unfold braced in Heq. cbn [app] in Heq. rewrite <-!app_assoc in Heq. injection Heq as Heq.
    assert (∀ l : list (jstr * json), List.map (λ '(k, x), entryText (k, render x)) l = renderEntry <$> l) as Hmap.
    { intros m. apply (list_fmap_ext _ renderEntry). by intros i [k x] _. }
    rewrite !Hmap in Heq. apply (join_cuts renderEntry 125) in Heq as [-> ->]; try done; [by right; right|..].
    + intros [k x]. unfold opens, delimiter. cbn. lia.
    + eapply Forall_impl; [exact Hj|]. intros [k x] Hx [k' x'] u u' Hu Hu' He. cbn in Hx.
      unfold renderEntry, entryText in He. cbn [fst snd] in He. rewrite <-!app_assoc in He.
      apply jsonQuote_cut in He as [-> He]. injection He as He. by apply Hx in He as [-> ->].
Qed.

#[export] Instance render_inj : Inj (=) (=) render.
Proof. intros j k H. apply (render_cuts j k [] []); [done..|]. by rewrite !app_nil_r. Qed.

Lemma canonicalJson_Ok v s : canonicalJson v = Ok s ↔ ∃ j, contents v = Some j ∧ s = render j.
Proof. rewrite canonicalJson_contents. destruct (contents v); naive_solver. Qed.

(** The contents of a record, by its properties. *)
Lemma contents_field v k j : is_Some (assoc k (fields v)) → contents v = Some j →
  ∃ x, contents (property v k) = Some x ∧ field j k = Some x.
Proof.
  destruct v as [| | | | | | | | | | |a l|]; try by intros [? ?].
  intros Hk H. cbn [contents] in H. cbn [property fields] in *.
  apply fmap_Some in H as (es & Hes & ->). unfold field. rewrite assoc_js_sort.
  revert es Hes Hk. induction l as [|[k' x] l IH]; intros es Hes Hk; [by destruct Hk|].
  apply bind_Some in Hes as (j & Hj & Hes). apply bind_Some in Hes as (es' & Hes' & Hes). injection Hes as <-.
  cbn [assoc] in Hk |- *. destruct (str_eqb k' k); [by exists j|]. by apply IH.
Qed.
