(* ===== verification/Hash.v ===== *)
(** [createHash("sha256").update(text).digest("hex")] of node:crypto, and what a
    digest identifies: a text without lone surrogates is determined by its UTF-8
    bytes, so two such texts with one digest are equal or a collision. *)
From S2P Require Import Prelude Text Language Primitives Digest Values Json.

(** The SHA-256 digest of FIPS 180-4, of the UTF-8 bytes. *)
Definition sha256Hex (text : jstr) : jstr := FIPS.hex_text (FIPS.sha256 (TextEncoder_encode text)).

(** The texts have different bytes and one digest. *)
Definition digest_collision (s t : jstr) : Prop :=
  TextEncoder_encode s ≠ TextEncoder_encode t ∧ sha256Hex s = sha256Hex t.

(** A text of code units whose surrogates are in pairs. *)
Inductive well_formed : jstr → Prop :=
| wf_nil : well_formed []
| wf_unit c s : code_unit c → is_high_surrogate c = false → is_low_surrogate c = false →
    well_formed s → well_formed (c :: s)
| wf_pair c d s : is_high_surrogate c = true → is_low_surrogate d = true →
    well_formed s → well_formed (c :: d :: s).

Lemma well_formed_app s t : well_formed s → well_formed t → well_formed (s ++ t).
Proof. intros H Ht. induction H; cbn; [done|by apply wf_unit|by apply wf_pair]. Qed.

Lemma well_formed_ascii s : Forall (λ c, 0 ≤ c < 128) s → well_formed s.
Proof.
  induction 1 as [|c s Hc _ IH]; [constructor|]. apply wf_unit; [|..|done]; unfold code_unit, is_high_surrogate, is_low_surrogate; lia.
Qed.

(** *** UTF-8 *)

Lemma utf8_cut a b r r' : 0 ≤ a < 1114112 → 0 ≤ b < 1114112 →
  utf8_code_point a ++ r = utf8_code_point b ++ r' → a = b ∧ r = r'.
Proof.
  intros Ha Hb. unfold utf8_code_point.
  destruct (Z.ltb_spec a 128), (Z.ltb_spec b 128); try destruct (Z.ltb_spec a 2048); try destruct (Z.ltb_spec b 2048);
    try destruct (Z.ltb_spec a 65536); try destruct (Z.ltb_spec b 65536); try lia;
    cbn [app]; intros [=]; first [exfalso; Z.to_euclidean_division_equations; lia|
      split; [Z.to_euclidean_division_equations; lia|done]].
Qed.

(** The code points of a well-formed text. *)
Definition pair_point (c d : Z) : Z := 65536 + (c - 55296) * 1024 + (d - 56320).

Lemma encode_unit c s : is_high_surrogate c = false → is_low_surrogate c = false →
  TextEncoder_encode (c :: s) = utf8_code_point c ++ TextEncoder_encode s.
Proof. intros H1 H2. cbn [TextEncoder_encode]. by rewrite H1, H2. Qed.

Lemma encode_pair c d s : is_high_surrogate c = true → is_low_surrogate d = true →
  TextEncoder_encode (c :: d :: s) = utf8_code_point (pair_point c d) ++ TextEncoder_encode s.
Proof. intros H1 H2. cbn [TextEncoder_encode]. by rewrite H1, H2. Qed.

Lemma utf8_nonempty c r : utf8_code_point c ++ r ≠ [].
Proof. unfold utf8_code_point. by repeat case_match. Qed.

Lemma TextEncoder_inj s t : well_formed s → well_formed t → TextEncoder_encode s = TextEncoder_encode t → s = t.
Proof.
  intros Hs. revert t. induction Hs as [|c s Hc H1 H2 _ IH|c d s H1 H2 _ IH]; intros t Ht Heq.
  - destruct Ht as [|c' t Hc' H1' H2' _|c' d' t H1' H2' _]; [done|..]; symmetry in Heq;
      [rewrite encode_unit in Heq by done|rewrite encode_pair in Heq by done]; by apply utf8_nonempty in Heq.
  - rewrite encode_unit in Heq by done. destruct Ht as [|c' t Hc' H1' H2' Ht|c' d' t H1' H2' Ht].
    + by apply utf8_nonempty in Heq.
    + rewrite encode_unit in Heq by done. unfold code_unit in *. apply utf8_cut in Heq as [-> Heq]; [|lia..].
      by rewrite (IH t Ht Heq).
    + rewrite encode_pair in Heq by done. unfold code_unit, is_high_surrogate, is_low_surrogate, pair_point in *.
      apply utf8_cut in Heq as [-> _]; lia.
  - rewrite encode_pair in Heq by done. destruct Ht as [|c' t Hc' H1' H2' Ht|c' d' t H1' H2' Ht].
    + by apply utf8_nonempty in Heq.
    + rewrite encode_unit in Heq by done. unfold code_unit, is_high_surrogate, is_low_surrogate, pair_point in *.
      apply utf8_cut in Heq as [Heq _]; lia.
    + rewrite encode_pair in Heq by done. unfold is_high_surrogate, is_low_surrogate, pair_point in *.
      apply utf8_cut in Heq as [Hp Heq]; [|lia..]. assert (c = c') as -> by lia. assert (d = d') as -> by lia.
      by rewrite (IH t Ht Heq).
Qed.

Lemma sha256Hex_identifies s t : well_formed s → well_formed t → sha256Hex s = sha256Hex t →
  s = t ∨ digest_collision s t.
Proof.
  intros Hs Ht Heq. destruct (decide (TextEncoder_encode s = TextEncoder_encode t)) as [He|Hne]; [left|by right].
  by apply TextEncoder_inj.
Qed.

(** *** Canonical texts are well formed *)

Lemma json_unit_wf c : code_unit c → well_formed (json_unit c).
Proof.
  intros Hc. unfold json_unit. destruct (short_escape c) as [e|] eqn:He.
  - apply well_formed_ascii. unfold short_escape in He. repeat case_match; simplify_eq; repeat constructor; lia.
  - destruct (_ || _ || _) eqn:Hs.
    + apply well_formed_ascii. unfold code_unit in Hc. unfold unicode_escape. constructor; [lia|]. constructor; [lia|].
      apply Forall_fmap. assert (∀ d, 0 ≤ d < 16 → 0 ≤ radix_char d < 128) as Hr.
      { intros d Hd. unfold radix_char. destruct (Z.ltb_spec d 10); lia. }
      rewrite !Forall_cons, Forall_nil. split_and!; try done; apply Hr; try (apply Z.mod_pos_bound; lia).
      split; [apply Z.div_pos; lia|apply Z.div_lt_upper_bound; lia].
    + apply wf_unit; [done|..|constructor]; unfold is_high_surrogate, is_low_surrogate, is_lead_surrogate, is_trail_surrogate in *; lia.
Qed.

Lemma json_body_wf s : Forall code_unit s → well_formed (json_body s).
Proof.
  induction s as [s IH] using (induction_ltof1 _ (@length Z)). unfold ltof in IH. intros H.
  destruct H as [|c s Hc Hs]; [constructor|]. destruct Hs as [|d s Hd Hs]; [by apply json_unit_wf|].
  cbn [json_body]. destruct (is_lead_surrogate c && is_trail_surrogate d) eqn:Hp.
  - apply andb_prop in Hp as [? ?]. apply wf_pair; [done..|]. apply IH; [cbn; lia|done].
  - apply well_formed_app; [by apply json_unit_wf|]. apply (IH (d :: s)); [cbn; lia|by constructor].
Qed.

Lemma jsonQuote_wf s : Forall code_unit s → well_formed (jsonQuote s).
Proof.
  intros H. unfold jsonQuote. apply (well_formed_app [34]); [apply well_formed_ascii; repeat constructor; lia|].
  apply well_formed_app; [by apply json_body_wf|apply well_formed_ascii; repeat constructor; lia].
Qed.

(** The texts of a value are of code units, as those of the language are. *)
Fixpoint texts_ok (j : json) : Prop :=
  match j with
  | JString s => Forall code_unit s
  | JArray l => foldr (λ x P, texts_ok x ∧ P) True l
  | JObject fields => foldr (λ '(k, x) P, Forall code_unit k ∧ texts_ok x ∧ P) True fields
  | _ => True
  end.

Lemma join_wf l : Forall well_formed l → well_formed (join (js ",") l).
Proof.
  induction 1 as [|s l Hs Hl IH]; [constructor|]. destruct l as [|t l]; [done|]. cbn [join].
  apply well_formed_app; [done|]. apply well_formed_app; [apply well_formed_ascii; repeat constructor; cbn; lia|done].
Qed.

Lemma enclosed_wf c d s : 0 ≤ c < 128 → 0 ≤ d < 128 → well_formed s → well_formed (c :: s ++ [d]).
Proof.
  intros Hc Hd Hs. apply (well_formed_app [c]); [by apply well_formed_ascii; repeat constructor; lia|].
  apply well_formed_app; [done|apply well_formed_ascii; repeat constructor; lia].
Qed.

Lemma render_wf j : texts_ok j → well_formed (render j).
Proof.
  induction j as [j Hj] using json_ind_nested. intros H. destruct j as [|[]|z|s|l|fields]; cbn [render texts_ok] in *.
  1-3: apply well_formed_ascii; repeat constructor; cbn; lia.
  - apply well_formed_ascii. eapply Forall_impl; [apply toString10_chars|]. intros c. unfold number_char, is_digit. cbn. lia.
  - by apply jsonQuote_wf.
  - apply enclosed_wf; [lia..|]. apply join_wf. induction Hj as [|x l Hx _ IH]; [constructor|].
    destruct H as [H1 H2]. constructor; [by apply Hx|by apply IH].
  - apply enclosed_wf; [lia..|]. apply join_wf. induction Hj as [|[k x] l Hx _ IH]; [constructor|].
    destruct H as (H1 & H2 & H3). constructor; [|by apply IH]. unfold entryText. cbn [fst snd].
    apply well_formed_app; [by apply jsonQuote_wf|].
    apply (well_formed_app [58]); [apply well_formed_ascii; repeat constructor; lia|by apply Hx].
Qed.

(** The digests of two canonical texts identify the contents. *)
Lemma render_digest j k : texts_ok j → texts_ok k → sha256Hex (render j) = sha256Hex (render k) →
  j = k ∨ digest_collision (render j) (render k).
Proof.
  intros Hj Hk H. apply sha256Hex_identifies in H as [H|H]; [left|by right|by apply render_wf..]. by apply (inj render).
Qed.

Example sha256Hex_abc :
  sha256Hex (js "abc") = js "ba7816bf8f01cfea414140de5dae2223b00361a396177a9cb410ff61f20015ad".
Proof. vm_compute. reflexivity. Qed.

(** The texts and the keys of a value are of code units: they are, in the
    language. *)
Fixpoint units_ok (v : value) : Prop :=
  match v with
  | Str s => Forall code_unit s
  | ArrayV _ l => foldr (λ x P, units_ok x ∧ P) True l
  | RecordV _ fields => foldr (λ '(k, x) P, Forall code_unit k ∧ units_ok x ∧ P) True fields
  | _ => True
  end.

Lemma texts_ok_JObject fields :
  texts_ok (JObject fields) ↔ Forall (λ p, Forall code_unit p.1 ∧ texts_ok p.2) fields.
Proof.
  cbn [texts_ok]. induction fields as [|[k x] fields IH]; cbn [foldr]; [by rewrite Forall_nil|].
  rewrite Forall_cons, IH. cbn. tauto.
Qed.

Lemma units_ok_RecordV a fields :
  units_ok (RecordV a fields) ↔ Forall (λ p, Forall code_unit p.1 ∧ units_ok p.2) fields.
Proof.
  cbn [units_ok]. induction fields as [|[k x] fields IH]; cbn [foldr]; [by rewrite Forall_nil|].
  rewrite Forall_cons, IH. cbn. tauto.
Qed.

Lemma units_ok_property v k : units_ok v → units_ok (property v k).
Proof.
  intros H. destruct v as [| | | | | | | | | |a' l|a fields|]; try exact I.
  - cbn [property]. destruct (str_eqb _ _); exact I.
  - apply units_ok_RecordV in H. cbn [property]. destruct (assoc k fields) as [x|] eqn:E; [|exact I].
    apply assoc_elem in E. rewrite Forall_forall in H. by apply H in E as [_ E].
Qed.

Lemma contents_texts_ok v j : units_ok v → contents v = Some j → texts_ok j.
Proof.
  revert j. induction v as [v Hv] using value_rect_nested. intros j Hu H.
  destruct v as [| |b|z| | | | |s|a i|a l|a fields|]; cbn [contents] in H; try done; try (simplify_eq; exact I).
  - destruct (safe_int z); simplify_eq; exact I.
  - injection H as <-. exact Hu.
  - cbv zeta in H. destruct (safe_int _); simplify_eq. cbn. split_and!; [|done..].
    repeat constructor; unfold code_unit; lia.
  - apply fmap_Some in H as (js & Hjs & ->). cbn [texts_ok]. revert js Hjs. induction Hv as [|x l Hx _ IH]; intros js Hjs.
    { by injection Hjs as <-. }
    apply bind_Some in Hjs as (j & Hj & Hjs). apply bind_Some in Hjs as (js' & Hjs' & Hjs). injection Hjs as <-.
    destruct Hu as [H1 H2]. split; [by apply Hx|by apply IH].
  - apply fmap_Some in H as (js & Hjs & ->). rewrite texts_ok_JObject, js_sort_perm. apply units_ok_RecordV in Hu.
    revert js Hjs. induction Hv as [|[k x] l Hx _ IH]; intros js Hjs.
    { injection Hjs as <-. constructor. }
    apply bind_Some in Hjs as (j & Hj & Hjs). apply bind_Some in Hjs as (js' & Hjs' & Hjs). injection Hjs as <-.
    apply Forall_cons in Hu as [[H1 H2] Hu]. constructor; [split; [done|by apply Hx]|by apply IH].
Qed.

(** What two values with one canonical digest are. *)
Definition canonicalSha256 (v : value) : result jstr := sha256Hex <$> canonicalJson v.

Definition same_contents (v w : value) : Prop := ∃ j, contents v = Some j ∧ contents w = Some j.

Definition canonical_collision (v w : value) : Prop :=
  ∃ s t, canonicalJson v = Ok s ∧ canonicalJson w = Ok t ∧ digest_collision s t.

Lemma canonicalSha256_Ok v d : canonicalSha256 v = Ok d ↔ ∃ j, contents v = Some j ∧ d = sha256Hex (render j).
Proof. unfold canonicalSha256. rewrite canonicalJson_contents. destruct (contents v); cbn; naive_solver. Qed.

Lemma canonicalSha256_identifies v w d : units_ok v → units_ok w →
  canonicalSha256 v = Ok d → canonicalSha256 w = Ok d → same_contents v w ∨ canonical_collision v w.
Proof.
  intros Hv Hw (j & Hj & ->)%canonicalSha256_Ok (k & Hk & H)%canonicalSha256_Ok.
  apply render_digest in H as [->|H]; [left; by exists k|right| |];
    [|by eapply contents_texts_ok; [|exact Hj]|by eapply contents_texts_ok; [|exact Hk]].
  exists (render j), (render k). rewrite !canonicalJson_Ok. split_and!; [by exists j|by exists k|done].
Qed.

Lemma same_contents_digest v w d : same_contents v w → canonicalSha256 v = Ok d → canonicalSha256 w = Ok d.
Proof. intros (j & Hj & Hk). rewrite !canonicalSha256_Ok. intros (j' & Hj' & ->). exists j'. by simplify_eq. Qed.

Lemma same_contents_property v w k : is_Some (assoc k (fields v)) → is_Some (assoc k (fields w)) →
  same_contents v w → same_contents (property v k) (property w k).
Proof.
  intros Hv Hw (j & Hj & Hk). destruct (contents_field v k j Hv Hj) as (x & Hx & Hf), (contents_field w k j Hw Hk) as (y & Hy & Hg).
  exists x. split; [done|]. by simplify_eq.
Qed.

(** Two objects both have a property, with the same contents, or both lack it. *)
Definition same_property (v w : value) (k : jstr) : Prop :=
  match assoc k (fields v), assoc k (fields w) with
  | Some x, Some y => same_contents x y
  | None, None => True
  | _, _ => False
  end.

(** An object as JavaScript has them, with no key twice. *)
Definition unique_keys (v : value) : Prop := ∃ a l, v = RecordV a l ∧ NoDup l.*1.

Lemma assoc_NoDup {A} (l : list (jstr * A)) k x : NoDup l.*1 → (k, x) ∈ l ↔ assoc k l = Some x.
Proof.
  induction l as [|[k' y] l IH]; cbn; [by rewrite elem_of_nil|]. intros [Hk HN]%NoDup_cons. rewrite elem_of_cons.
  unfold str_eqb. case_bool_decide as E.
  - subst k'. split; [|by intros [= ->]; left]. intros [[= ->]|Hin]; [done|]. destruct Hk. by apply (list_elem_of_fmap_2 fst) in Hin.
  - rewrite IH by done. split; [intros [[= -> ->]|?]; [done|done]|by right].
Qed.

(** The contents of an object, property by property. *)
Lemma record_contents a l j : contents (RecordV a l) = Some j →
  ∃ es, j = JObject (js_sort compareEntries es) ∧ es.*1 = l.*1 ∧ ∀ k, assoc k es = (assoc k l ≫= contents).
Proof.
  cbn [contents]. intros (es & Hes & ->)%fmap_Some. exists es. split; [done|].
  revert es Hes. induction l as [|[k' x] l IH]; intros es Hes; [by injection Hes as <-|].
  apply bind_Some in Hes as (j & Hj & Hes). apply bind_Some in Hes as (es' & Hes' & Hes). injection Hes as <-.
  destruct (IH es' Hes') as [Hk Ha]. cbn. split; [by rewrite Hk|]. intros k. destruct (str_eqb k' k); [done|apply Ha].
Qed.

Lemma record_same_property v w j k : contents v = Some j → contents w = Some j →
  unique_keys v → unique_keys w → same_property v w k.
Proof.
  intros Hv Hw (a & l & -> & _) (b & m & -> & _). unfold same_property. cbn [fields].
  destruct (record_contents _ _ _ Hv) as (es & -> & Hes & Hl), (record_contents _ _ _ Hw) as (gs & Hj & Hgs & Hm).
  injection Hj as Hj. apply (f_equal (assoc k)) in Hj. rewrite !assoc_js_sort, Hl, Hm in Hj.
  assert (∀ x es l, es.*1 = l.*1 → assoc k l = Some x → assoc k es = (assoc k l ≫= contents) → is_Some (contents x)) as Hsome.
  { clear. intros x es l Hk Hx He. revert es Hk He. induction l as [|[k' y] l IH]; intros es Hk He; [done|].
    destruct es as [|[k'' z] es]; [done|]. injection Hk as -> Hk. cbn in *. destruct (str_eqb k' k); [|by eapply IH].
    injection Hx as ->. cbn in He. by exists z. }
  destruct (assoc k l) as [x|] eqn:Hx, (assoc k m) as [y|] eqn:Hy; cbn in Hj; try done.
  - destruct (Hsome x es l Hes Hx (Hl k)) as [X HX]. exists X. split; [done|congruence].
  - destruct (Hsome x es l Hes Hx (Hl k)); congruence.
  - destruct (Hsome y gs m Hgs Hy (Hm k)); congruence.
Qed.

(** Objects whose properties have the same contents have the same contents. *)
Lemma same_properties v w j : unique_keys v → unique_keys w → (∀ k, same_property v w k) →
  contents v = Some j → ∀ j', contents w = Some j' → j' = j.
Proof.
  intros (a & l & -> & HNl) (b & m & -> & HNm) Hs Hv j' Hw.
  destruct (record_contents _ _ _ Hv) as (es & -> & Hes & Hl), (record_contents _ _ _ Hw) as (gs & -> & Hgs & Hm).
  f_equal. symmetry. apply js_sort_unique; [apply _| |].
  - intros [f x] [g y] Hx Hy Hfg. unfold compareEntries in Hfg. cbn in Hfg. apply compareStrings_0 in Hfg as ->.
    rewrite <-Hes in HNl. apply assoc_NoDup in Hx, Hy; [|done..]. congruence.
  - rewrite <-Hes in HNl. rewrite <-Hgs in HNm. apply NoDup_Permutation; [by eapply NoDup_fmap_1..|].
    intros [f x]. rewrite !assoc_NoDup, Hl, Hm by done. specialize (Hs f). unfold same_property in Hs. cbn [fields] in Hs.
    destruct (assoc f l) as [y|], (assoc f m) as [z|]; try done. destruct Hs as (X & HX & HY). cbn. by rewrite HX, HY.
Qed.

Definition code_unitsb (s : jstr) : bool := forallb (λ c, (0 <=? c) && (c <? 65536)) s.

Fixpoint units_okb (v : value) : bool :=
  match v with
  | Str s => code_unitsb s
  | ArrayV _ l => forallb units_okb l
  | RecordV _ fields => forallb (λ p, code_unitsb p.1 && units_okb p.2) fields
  | _ => true
  end.

Lemma code_unitsb_spec s : code_unitsb s = true → Forall code_unit s.
Proof.
  intros H. apply Forall_forall. intros c Hc%list_elem_of_In. unfold code_unitsb in H. rewrite forallb_forall in H.
  specialize (H c Hc). unfold code_unit. lia.
Qed.

Lemma units_okb_spec v : units_okb v = true → units_ok v.
Proof.
  induction v as [v Hv] using value_rect_nested. intros H. destruct v as [| | | | | | | |s| |a l|a fields|]; try exact I.
  - by apply code_unitsb_spec.
  - cbn [units_okb] in H. induction Hv as [|x l Hx _ IH]; [exact I|]. cbn in H. apply andb_prop in H as [H1 H2].
    split; [by apply Hx|by apply IH].
  - apply units_ok_RecordV. cbn [units_okb] in H. induction Hv as [|[k x] l Hx _ IH]; [constructor|].
    cbn in H. apply andb_prop in H as [H1 H2]. apply andb_prop in H1 as [Hk H1].
    constructor; [split; [by apply code_unitsb_spec|by apply Hx]|by apply IH].
Qed.
