(* ===== verification/Zod.v ===== *)
(** The schema library that the contracts are written with: what they use of
    it, as an interface whose laws are its documented behaviour, and an instance
    of the interface. *)
From S2P Require Import Prelude Text Language Primitives Values.

(** A schema and its combinators; [accepts s v] is whether [s.safeParse(v)]
    succeeds.  [refine s f] adds a check to a schema ([min], [max], [regex],
    [refine] and [superRefine]): the value passes when [f] adds no issue and does
    not throw. *)
Class Zod := {
  schema : Type;
  accepts : schema → value → bool;
  z_string : schema;
  z_boolean : schema;
  z_null : schema;
  z_int : schema;
  z_literal : value → schema;
  z_enum : list jstr → schema;
  z_array : schema → schema;
  nullable : schema → schema;
  z_strictObject : list (jstr * schema) → schema;
  z_union : list schema → schema;
  z_discriminatedUnion : jstr → list schema → schema;
  refine : schema → (value → result bool) → schema;
}.

Definition is_Null (v : value) : bool := match v with Null => true | _ => false end.
Definition own_keys (v : value) : list jstr := match v with RecordV _ fields => fields.*1 | _ => [] end.
Definition key_in (keys : list jstr) (k : jstr) : bool := existsb (str_eqb k) keys.
Definition is_plain_object (v : value) : bool := match v with RecordV _ _ => true | _ => false end.

(** A strict object has the keys of its shape and no others; what a
    discriminated union accepts, one of its options does. *)
Class ZodLaws (Z : Zod) : Prop := {
  accepts_string v : accepts z_string v = is_string v;
  accepts_boolean v : accepts z_boolean v = is_boolean v;
  accepts_null v : accepts z_null v = is_Null v;
  accepts_int v : accepts z_int v = is_safe_integer v;
  accepts_literal l v : accepts (z_literal l) v = (v === l);
  accepts_enum names v : accepts (z_enum names) v = match v with Str s => key_in names s | _ => false end;
  accepts_array s v : accepts (z_array s) v = is_array v && forallb (accepts s) (elements v);
  accepts_nullable s v : accepts (nullable s) v = is_Null v || accepts s v;
  accepts_strictObject shape v :
    accepts (z_strictObject shape) v
    = is_plain_object v && forallb (key_in shape.*1) (own_keys v)
      && forallb (λ p, key_in (own_keys v) p.1 && accepts p.2 (property v p.1)) shape;
  accepts_union ss v : accepts (z_union ss) v = existsb (λ s, accepts s v) ss;
  accepts_discriminatedUnion k ss v :
    accepts (z_discriminatedUnion k ss) v = true → existsb (λ s, accepts s v) ss = true;
  accepts_refine s f v : accepts (refine s f) v = accepts s v && bool_decide (f v = Ok true);
}.

Section Zod.
Context {Z : Zod} {laws : ZodLaws Z}.

(** [s.parse(v)]: what it returns has the contents of [v], and nothing that
    follows looks at the identity or at the order of its properties. *)
Definition parse (s : schema) (v : value) : result value :=
  if accepts s v then Ok v else Throw ZodError.

(** A check that does not throw. *)
Definition check (s : schema) (f : value → bool) : schema := refine s (λ v, Ok (f v)).

Lemma accepts_check s f v : accepts (check s f) v = accepts s v && f v.
Proof. unfold check. rewrite accepts_refine. f_equal. destruct (f v); [by apply bool_decide_eq_true_2|by apply bool_decide_eq_false_2]. Qed.

Lemma refined s f v : accepts (refine s f) v = true → accepts s v = true ∧ f v = Ok true.
Proof. rewrite accepts_refine, andb_true_iff, bool_decide_eq_true. done. Qed.

Lemma checked s f v : accepts (check s f) v = true → accepts s v = true ∧ f v = true.
Proof. rewrite accepts_check. apply andb_prop. Qed.

Lemma z_parse_Ok s v w : parse s v = Ok w → w = v ∧ accepts s v = true.
Proof. unfold parse. destruct (accepts s v); [by intros [= ->]|done]. Qed.

(** What a strict object that is accepted has. *)
Lemma strict_record shape v : accepts (z_strictObject shape) v = true → ∃ a l, v = RecordV a l.
Proof. rewrite accepts_strictObject. destruct v; try done. eauto. Qed.

Lemma strict_property shape v k s : accepts (z_strictObject shape) v = true → (k, s) ∈ shape →
  accepts s (property v k) = true ∧ is_Some (assoc k (fields v)).
Proof.
  rewrite accepts_strictObject. intros H Hin. apply andb_prop in H as [H Hshape]. apply andb_prop in H as [Hrec _].
  rewrite forallb_forall in Hshape. apply list_elem_of_In in Hin. specialize (Hshape _ Hin). cbn in Hshape.
  apply andb_prop in Hshape as [Hk Hs]. split; [done|]. destruct v as [| | | | | | | | | | |a l|]; try done.
  cbn [own_keys fields] in *. clear -Hk. unfold key_in in Hk. induction l as [|[k' x] l IH]; [done|].
  cbn in Hk |- *. unfold str_eqb in *. destruct (decide (k' = k)) as [->|Hne]; [by rewrite bool_decide_eq_true_2|].
  rewrite bool_decide_eq_false_2 by done. apply orb_prop in Hk as [Hk|Hk]; [|by apply IH].
  apply bool_decide_eq_true in Hk. congruence.
Qed.

Lemma z_array_elements s v : accepts (z_array s) v = true →
  is_array v = true ∧ Forall (λ x, accepts s x = true) (elements v).
Proof.
  rewrite accepts_array. intros [Ha Hf]%andb_prop. split; [done|]. apply Forall_forall. intros x Hx.
  rewrite forallb_forall in Hf. by apply Hf, list_elem_of_In.
Qed.

Lemma union_option ss v : accepts (z_union ss) v = true → ∃ s, s ∈ ss ∧ accepts s v = true.
Proof. rewrite accepts_union. intros (s & Hs & Ha)%existsb_exists. exists s. by rewrite list_elem_of_In. Qed.

Lemma discriminated_option k ss v : accepts (z_discriminatedUnion k ss) v = true → ∃ s, s ∈ ss ∧ accepts s v = true.
Proof. intros H%accepts_discriminatedUnion. apply existsb_exists in H as (s & Hs & Ha). exists s. by rewrite list_elem_of_In. Qed.
End Zod.

(** ** An instance

    A schema is the test that it makes. *)

Definition predicates : Zod := {|
  schema := value → bool;
  accepts s v := s v;
  z_string := is_string;
  z_boolean := is_boolean;
  z_null := is_Null;
  z_int := is_safe_integer;
  z_literal l v := v === l;
  z_enum names v := match v with Str s => key_in names s | _ => false end;
  z_array s v := is_array v && forallb s (elements v);
  nullable s v := is_Null v || s v;
  z_strictObject shape v :=
    is_plain_object v && forallb (key_in shape.*1) (own_keys v)
    && forallb (λ p, key_in (own_keys v) p.1 && p.2 (property v p.1)) shape;
  z_union ss v := existsb (λ s, s v) ss;
  z_discriminatedUnion k ss v := existsb (λ s, s v) ss;
  refine s f v := s v && bool_decide (f v = Ok true);
|}.

Lemma predicates_laws : ZodLaws predicates.
Proof. by split. Qed.
