(* ===== verification/Plates.v ===== *)
(** The reference for what is printed on plates of a fixed occupancy: full plates
    first, and at most one last plate that is not. *)
From S2P Require Import Prelude.

Definition pieces (q n : Z) : list Z :=
  replicate (Z.to_nat (q / n)) n ++ (if q `mod` n =? 0 then [] else [q `mod` n]).

Lemma pieces_division q n : 0 < q → 0 < n →
  q = n * (q / n) + q `mod` n ∧ 0 ≤ q `mod` n < n ∧ 0 ≤ q / n
  ∧ - (- q / n) = if q `mod` n =? 0 then q / n else q / n + 1.
Proof.
  intros Hq Hn. pose proof (Z.div_mod q n). pose proof (Z.mod_pos_bound q n Hn). pose proof (Z.div_pos q n).
  split_and!; try lia. destruct (Z.eqb_spec (q `mod` n) 0) as [Hz|Hz].
  - rewrite Z.div_opp_l_z by lia. lia.
  - rewrite Z.div_opp_l_nz by lia. lia.
Qed.

Lemma sum_by_replicate {A} (f : A → Z) n x : sum_by f (replicate n x) = Z.of_nat n * f x.
Proof. induction n as [|n IH]; [done|]. cbn [replicate]. rewrite sum_by_cons, IH. lia. Qed.

Lemma pieces_sum q n : 0 < q → 0 < n → sum_by (λ p, p) (pieces q n) = q.
Proof.
  intros Hq Hn. destruct (pieces_division q n Hq Hn) as (Hd & Hm & Hp & _). unfold pieces.
  rewrite sum_by_app, sum_by_replicate, Z2Nat.id by done.
  destruct (Z.eqb_spec (q `mod` n) 0); rewrite ?sum_by_cons, sum_by_nil; lia.
Qed.
