(* ===== verification/Patterns.v ===== *)
(** The regular expressions of the contracts
    (packages/slicer-contracts/src/contracts.ts), as functions on texts. *)
From S2P Require Import Prelude Text Language.

Module Patterns.

(** A pattern without repetition is the list of its classes. *)

Definition in_range (lo hi c : Z) : bool := (lo <=? c) && (c <=? hi).
Definition is_char (c d : Z) : bool := c =? d.
Definition lower (c : Z) : bool := in_range 97 122 c.
Definition digit (c : Z) : bool := in_range 48 57 c.
Definition lower_hex (c : Z) : bool := digit c || in_range 97 102 c.
Definition one_of (s : String.string) (c : Z) : bool := existsb (Z.eqb c) (js s).
Arguments one_of _%_string _.

Fixpoint matches_classes (classes : list (Z → bool)) (s : jstr) : bool :=
  match classes, s with
  | [], [] => true
  | f :: classes', c :: s' => f c && matches_classes classes' s'
  | _, _ => false
  end.

Definition LOWERCASE_UUID_PATTERN (s : jstr) : bool :=
  matches_classes
    (replicate 8 lower_hex ++ [is_char 45] ++ replicate 4 lower_hex ++ [is_char 45]
     ++ [in_range 49 56] ++ replicate 3 lower_hex ++ [is_char 45]
     ++ [one_of "89ab"] ++ replicate 3 lower_hex ++ [is_char 45] ++ replicate 12 lower_hex) s.

(** [/^[a-f0-9]{64}$/] *)
Definition SHA256_PATTERN (s : jstr) : bool := matches_classes (replicate 64 lower_hex) s.

(** [/^(?:0|[1-9][0-9]{0,18})$/] *)
Definition INT64_PATTERN (s : jstr) : bool :=
  match s with
  | [] => false
  | c :: s' => (is_char 48 c && bool_decide (s' = [])) || (in_range 49 57 c && forallb digit s' && (length s' <=? 18)%nat)
  end.

(** A first character of one class, and others of another. *)
Definition head_then (head rest : Z → bool) (s : jstr) : bool :=
  match s with [] => false | c :: s' => head c && forallb rest s' end.

Definition alphanumeric (c : Z) : bool := lower c || digit c.
Definition SAFE_IDENTIFIER_PATTERN : jstr → bool := head_then alphanumeric (λ c, alphanumeric c || one_of "._:-" c).

(** [s.split("/")] *)
Fixpoint split_slash (s : jstr) : list jstr :=
  match s with
  | [] => [[]]
  | c :: rest =>
      if c =? 47 then [] :: split_slash rest
      else match split_slash rest with
           | [] => [[c]]
           | part :: parts => (c :: part) :: parts
           end
  end.

Definition NAMESPACES : list jstr :=
  js <$> ["models"%string; "geometries"%string; "reference-slices"%string; "slice-metrics"%string; "gcode"%string].

Definition plain_segment : jstr → bool := head_then alphanumeric (λ c, alphanumeric c || one_of ":-" c).

Definition GENERATED_OBJECT_KEY_PATTERN (s : jstr) : bool :=
  match split_slash s with
  | namespace :: first :: rest =>
      existsb (str_eqb namespace) NAMESPACES && plain_segment first && forallb SAFE_IDENTIFIER_PATTERN rest
  | _ => false
  end.

(** *** Regular expressions *)

Inductive regex :=
| Nothing
| Epsilon
| Class_ (f : Z → bool)
| Seq (a b : regex)
| Alt (a b : regex)
| Many (a : regex).

Fixpoint nullable_re (r : regex) : bool :=
  match r with
  | Nothing | Class_ _ => false
  | Epsilon | Many _ => true
  | Seq a b => nullable_re a && nullable_re b
  | Alt a b => nullable_re a || nullable_re b
  end.

(** What is left of a pattern after a character, without the alternatives that
    cannot match any more. *)
Definition seq_ (a b : regex) : regex :=
  match a, b with Nothing, _ | _, Nothing => Nothing | Epsilon, _ => b | _, _ => Seq a b end.
Definition alt_ (a b : regex) : regex :=
  match a, b with Nothing, _ => b | _, Nothing => a | _, _ => Alt a b end.

Fixpoint derivative (c : Z) (r : regex) : regex :=
  match r with
  | Nothing | Epsilon => Nothing
  | Class_ f => if f c then Epsilon else Nothing
  | Seq a b =>
      if nullable_re a then alt_ (seq_ (derivative c a) b) (derivative c b) else seq_ (derivative c a) b
  | Alt a b => alt_ (derivative c a) (derivative c b)
  | Many a => seq_ (derivative c a) r
  end.

(** The whole text is of the pattern. *)
Definition matches (r : regex) (s : jstr) : bool := nullable_re (foldl (λ r c, derivative c r) r s).

Definition anything : regex := Many (Class_ (λ _, true)).
Definition char (f : Z → bool) : regex := Class_ f.
Definition one (s : String.string) : regex := Class_ (one_of s).
Arguments one _%_string.
Definition text_re (s : String.string) : regex := foldr (λ c r, Seq (Class_ (is_char c)) r) Epsilon (js s).
Arguments text_re _%_string.
Definition maybe (r : regex) : regex := Alt r Epsilon.
Definition some_of (r : regex) : regex := Seq r (Many r).
Definition sequence (l : list regex) : regex := foldr Seq Epsilon l.
Definition any_of (l : list regex) : regex := foldr Alt Nothing l.

(** The case folding of the flags [iu], as far as it meets ASCII: U+017F and
    U+212A fold to s and k. *)
Definition fold_case (c : Z) : Z :=
  if in_range 65 90 c then c + 32 else if c =? 0x17f then 115 else if c =? 0x212a then 107 else c.

Definition word_char (c : Z) : bool := alphanumeric c || (c =? 95).
Definition is_line_terminator (c : Z) : bool := (c =? 10) || (c =? 13) || (c =? 0x2028) || (c =? 0x2029).

(** What the lookahead of [SAFE_FAILURE_MESSAGE_PATTERN] excludes. *)
Definition UNSAFE_MESSAGE : regex :=
  any_of
    [sequence [anything; char lower; Many (char (λ c, alphanumeric c || one_of "+.-" c)); text_re "://"; anything];
     sequence [Alt Epsilon (Seq anything (char is_js_space));
               Alt (one "/") (Seq (char lower) (text_re ":\")); anything];
     sequence [Alt Epsilon (Seq anything (char (λ c, negb (word_char c))));
               any_of [text_re "authorization"; text_re "bearer"; text_re "password"; text_re "secret"; text_re "token"];
               Alt Epsilon (Seq (char (λ c, negb (word_char c))) anything)]].

Definition SAFE_FAILURE_MESSAGE_PATTERN (s : jstr) : bool :=
  negb (bool_decide (s = [])) && forallb (λ c, negb (is_line_terminator c)) s
  && negb (matches UNSAFE_MESSAGE (fold_case <$> s)).

Definition CREDENTIAL_ASSIGNMENT_PATTERN (s : jstr) : bool :=
  let quote := maybe (Class_ (λ c, (c =? 34) || (c =? 39))) in
  let prefix := maybe (Seq (some_of (char alphanumeric)) (one "_-")) in
  let sep := maybe (one "_ -") in
  let name :=
    any_of
      [sequence [prefix; maybe (Seq (any_of [text_re "auth"; text_re "access"; text_re "refresh";
                                               text_re "session"; text_re "id"]) sep); text_re "token"];
       sequence [prefix; maybe (Seq (text_re "client") sep); text_re "secret"];
       sequence [text_re "api"; sep; text_re "key"];
       sequence [text_re "access"; sep; text_re "key"; maybe (Seq sep (text_re "id"))];
       sequence [text_re "secret"; sep; text_re "access"; sep; text_re "key"];
       sequence [text_re "private"; sep; text_re "key"];
       Seq (text_re "credential") (maybe (text_re "s"));
       text_re "password"; text_re "passwd"] in
  matches (sequence [anything; quote; name; quote; Many (char is_js_space); one ":="; anything]) (fold_case <$> s).

(** A code point below U+0100 is its code unit, and surrogates are no control
    characters. *)
Definition hasNoControlCharacters (s : jstr) : bool :=
  forallb (λ c, (32 <=? c) && negb (in_range 127 159 c)) s.

(** [s.includes(t)] *)
Fixpoint includes_text (s t : jstr) : bool :=
  bool_decide (take (length t) s = t)
  || match s with [] => false | _ :: s' => includes_text s' t end.

(** ** Facts *)

Lemma split_slash_app a b : Forall (.≠ 47) a → split_slash (a ++ 47 :: b) = a :: split_slash b.
Proof.
  induction 1 as [|c a Hc _ IH]; [done|]. cbn [app split_slash]. rewrite (proj2 (Z.eqb_neq c 47) Hc), IH. done.
Qed.

Lemma split_slash_last a : Forall (.≠ 47) a → split_slash a = [a].
Proof. induction 1 as [|c a Hc _ IH]; [done|]. cbn [split_slash]. by rewrite (proj2 (Z.eqb_neq c 47) Hc), IH. Qed.

(** A text that starts with a character that [s] does not have occurs in
    [s ++ t] only where it occurs in [t]. *)
Lemma includes_text_skip s t c u : Forall (.≠ c) s → includes_text (s ++ t) (c :: u) = includes_text t (c :: u).
Proof.
  induction 1 as [|d s Hd _ IH]; [done|]. cbn [app includes_text]. rewrite IH, bool_decide_eq_false_2; [done|]. cbn. congruence.
Qed.

Lemma includes_text_false s c : includes_text s [c] = false ↔ c ∉ s.
Proof.
  induction s as [|d s IH]; cbn [includes_text]; [split; [intros _; apply not_elem_of_nil|done]|].
  rewrite orb_false_iff, IH, bool_decide_eq_false, not_elem_of_cons. cbn. rewrite take_0. split; intros []; split; congruence || naive_solver.
Qed.

Lemma matches_classes_Forall classes s (P : Z → Prop) :
  Forall (λ f, ∀ c, f c = true → P c) classes → matches_classes classes s = true → Forall P s ∧ length s = length classes.
Proof.
  intros H. revert s. induction H as [|f classes Hf _ IH]; intros [|c s] Hm; try done.
  cbn in Hm. apply andb_prop in Hm as [Hc Hm]. destruct (IH s Hm). split; [constructor; auto|cbn; congruence].
Qed.

Definition hex_dash (c : Z) : Prop := is_char 45 c = true ∨ lower_hex c = true.

Lemma uuid_chars s : LOWERCASE_UUID_PATTERN s = true → Forall hex_dash s ∧ length s = 36%nat.
Proof.
  intros H. apply matches_classes_Forall with (P := hex_dash) in H; [exact H|]. unfold hex_dash.
  repeat (apply Forall_cons; split); try apply Forall_nil; try done; intros c Hc; try (by right); try (by left); right;
    try (change (existsb (Z.eqb c) [56; 57; 97; 98] = true) in Hc; cbn [existsb] in Hc); unfold lower_hex, digit, in_range in *; lia.
Qed.

End Patterns.
