(* ===== verification/Limits.v ===== *)
(** Rate limits: the reservations that anonymous quotes and verifications of
    payment webhooks take from counters in the database
    (quotes/anonymous-quote-limit.ts and payments/payment-webhook-limit.ts of the
    backend), and the fixed windows that they implement.

    A reservation runs in a transaction.  It locks its counters before it reads
    them and the same counter first, so that reservations which share it take
    effect one after the other; a reservation that throws is rolled back. *)
From S2P Require Import Prelude Text Language Keys Digest Hash Patterns.
From Stdlib Require Import Sorted.

Module Limits.

(** ** The table of counters *)

(** A row of [anonymous_quote_limits] or [payment_webhook_limits].  Times are
    milliseconds. *)
Record LimitRow := mkRow {
  subject_hash : jstr;
  window_started_at : Z;
  window_expires_at : Z;
  issued_count : Z;
}.

Abbreviation LimitTable := (gmap jstr LimitRow).

(** The order of texts in the database, which its collation fixes. *)
Class DatabaseCollation := compareText : jstr → jstr → Z.

(** [INSERT ... ON CONFLICT (subject_hash) DO NOTHING], then
    [SELECT ... WHERE subject_hash = ... FOR UPDATE]. *)
Definition insertLimit (table : LimitTable) (subjectHash : jstr) (windowStartedAt windowExpiresAt : Z) : LimitTable :=
  match table !! subjectHash with
  | Some _ => table
  | None => <[subjectHash := mkRow subjectHash windowStartedAt windowExpiresAt 0]> table
  end.

Definition lockLimit (table : LimitTable) (subjectHash : jstr) (windowStartedAt windowExpiresAt : Z)
    : result (LimitTable * LimitRow) :=
  let table := insertLimit table subjectHash windowStartedAt windowExpiresAt in
  match table !! subjectHash with
  | None => Throw PlainError
  | Some row => Ok (table, row)
  end.

(** [update({ where: { subjectHash }, data })], which throws without the row. *)
Definition updateLimit (table : LimitTable) (subjectHash : jstr) (data : LimitRow → LimitRow) : result LimitTable :=
  match table !! subjectHash with
  | None => Throw PlainError
  | Some row => Ok (<[subjectHash := data row]> table)
  end.

Definition opened (observedAt windowExpiresAt : Z) (row : LimitRow) : LimitRow :=
  mkRow (subject_hash row) observedAt windowExpiresAt 0.

Definition resetExpiredLimit (table : LimitTable) (row : LimitRow) (observedAt windowExpiresAt : Z)
    : result (LimitTable * LimitRow) :=
  if observedAt <? window_expires_at row then Ok (table, row)
  else
    table ← updateLimit table (subject_hash row) (opened observedAt windowExpiresAt);
    Ok (table, opened observedAt windowExpiresAt row).

Definition issued (row : LimitRow) : LimitRow :=
  mkRow (subject_hash row) (window_started_at row) (window_expires_at row) (issued_count row + 1).

Definition incrementLimit (table : LimitTable) (subjectHash : jstr) : result LimitTable :=
  updateLimit table subjectHash issued.

(** [ORDER BY window_expires_at, subject_hash] *)
Definition compareRows `{DatabaseCollation} (left right : LimitRow) : Z :=
  js_or (compareBigInt (window_expires_at left) (window_expires_at right))
    (compareText (subject_hash left) (subject_hash right)).

(** The rows that a cleanup may delete: those that expired, that are not kept,
    and that no other transaction has locked. *)
Definition expiredRows `{DatabaseCollation} (table : LimitTable) (kept skipped : jstr → bool) (observedAt : Z)
    : list LimitRow :=
  js_sort compareRows
    (List.filter (λ row, negb (kept (subject_hash row)) && negb (skipped (subject_hash row))
                         && (window_expires_at row <=? observedAt))
       (map_to_list table).*2).

Definition LIMIT_CLEANUP_BATCH : nat := 100.

Definition cleanup `{DatabaseCollation} (table : LimitTable) (kept skipped : jstr → bool) (observedAt : Z) : LimitTable :=
  foldl (λ table row, delete (subject_hash row) table) table
    (take LIMIT_CLEANUP_BATCH (expiredRows table kept skipped observedAt)).

Definition TOO_MANY_REQUESTS : Z := 429.

(** ** Anonymous quotes *)

Definition ANONYMOUS_QUOTE_WINDOW_MILLISECONDS : Z := 15 * 60 * 1000.
Definition ANONYMOUS_QUOTE_CLIENT_MAX_ISSUED : Z := 5.
Definition ANONYMOUS_QUOTE_GLOBAL_MAX_ISSUED : Z := 100.
Definition ANONYMOUS_QUOTE_GLOBAL_SUBJECT : jstr := js "global".
Definition ANONYMOUS_QUOTE_LIMIT_SUBJECT_MAX_LENGTH : Z := 64.

Record Subjects := mkSubjects { global : jstr; client : jstr }.

(** [/^[a-z0-9-]{1,64}$/] *)
Definition NAMESPACE_PATTERN (s : jstr) : bool :=
  forallb (λ c, Patterns.alphanumeric c || (c =? 45)) s && (1 <=? js_length s) && (js_length s <=? 64).

Definition anonymousQuoteLimitSubjects (subjectHash : jstr) (namespace : option jstr) : result Subjects :=
  match namespace with
  | None | Some [] => Ok (mkSubjects ANONYMOUS_QUOTE_GLOBAL_SUBJECT subjectHash)
  | Some namespace =>
      throw_when (negb (NAMESPACE_PATTERN namespace)) PlainError ;;
      let clientPrefix := namespace ++ js ":client:" in
      let clientSubjectLength := ANONYMOUS_QUOTE_LIMIT_SUBJECT_MAX_LENGTH - js_length clientPrefix in
      throw_when (clientSubjectLength <? 16) PlainError ;;
      Ok (mkSubjects (namespace ++ js ":global") (clientPrefix ++ take (Z.to_nat clientSubjectLength) subjectHash))
  end.

(** [subject_hash NOT LIKE '%:global'], negated. *)
Definition like_global (s : jstr) : bool := str_eqb (drop (length s - 7) s) (js ":global").

Definition keptQuoteLimit (subjectHash : jstr) : bool :=
  str_eqb subjectHash ANONYMOUS_QUOTE_GLOBAL_SUBJECT || like_global subjectHash.

(** A call, with the clock of the database and the rows that other transactions
    have locked when it cleans up. *)
Record QuoteCall := mkQuoteCall {
  quote_observedAt : Z;
  quote_skipped : jstr → bool;
  subjectHash : jstr;
  namespace : option jstr;
}.

Definition reserveAnonymousQuote `{DatabaseCollation} (call : QuoteCall) (table : LimitTable) : result LimitTable :=
  subjects ← anonymousQuoteLimitSubjects (subjectHash call) (namespace call);
  let observedAt := quote_observedAt call in
  let windowExpiresAt := observedAt + ANONYMOUS_QUOTE_WINDOW_MILLISECONDS in
  '(table, globalRow) ← lockLimit table (global subjects) observedAt windowExpiresAt;
  '(table, subjectRow) ← lockLimit table (client subjects) observedAt windowExpiresAt;
  '(table, currentGlobal) ← resetExpiredLimit table globalRow observedAt windowExpiresAt;
  '(table, currentSubject) ← resetExpiredLimit table subjectRow observedAt windowExpiresAt;
  throw_when ((ANONYMOUS_QUOTE_GLOBAL_MAX_ISSUED <=? issued_count currentGlobal)
              || (ANONYMOUS_QUOTE_CLIENT_MAX_ISSUED <=? issued_count currentSubject))
    (HttpException TOO_MANY_REQUESTS) ;;
  table ← incrementLimit table (global subjects);
  table ← incrementLimit table (client subjects);
  Ok (cleanup table keptQuoteLimit (quote_skipped call) observedAt).

(** ** Payment webhooks *)

Definition PAYMENT_WEBHOOK_WINDOW_MILLISECONDS : Z := 60 * 1000.
Definition PAYMENT_WEBHOOK_GLOBAL_MAX_VERIFICATIONS : Z := 300.
Definition PAYMENT_WEBHOOK_SOURCE_MAX_VERIFICATIONS : Z := 120.
Definition PAYMENT_WEBHOOK_PAYMENT_MAX_VERIFICATIONS : Z := 12.

Record Limit := mkLimit { limit_subjectHash : jstr; maximum : Z }.

Record WebhookCall := mkWebhookCall {
  webhook_observedAt : Z;
  webhook_skipped : jstr → bool;
  provider : jstr;
  clientAddress : jstr;
  paymentId : jstr;
}.

Definition webhookSubjectText (scope : jstr) (values : list jstr) : jstr :=
  join [0] (js "payment-webhook-limit-v1" :: scope :: values).
Definition webhookSubjectHash (scope : jstr) (values : list jstr) : jstr := sha256Hex (webhookSubjectText scope values).

Definition globalLimit (provider : jstr) : Limit :=
  mkLimit (webhookSubjectHash (js "global") [provider]) PAYMENT_WEBHOOK_GLOBAL_MAX_VERIFICATIONS.
Definition sourceLimit (provider clientAddress : jstr) : Limit :=
  mkLimit (webhookSubjectHash (js "source") [provider; clientAddress]) PAYMENT_WEBHOOK_SOURCE_MAX_VERIFICATIONS.
Definition paymentLimit (provider paymentId : jstr) : Limit :=
  mkLimit (webhookSubjectHash (js "payment") [provider; paymentId]) PAYMENT_WEBHOOK_PAYMENT_MAX_VERIFICATIONS.

Definition webhookLimits `{Collation} (call : WebhookCall) : list Limit :=
  js_sort (λ left right, localeCompare (limit_subjectHash left) (limit_subjectHash right))
    [globalLimit (provider call); sourceLimit (provider call) (clientAddress call);
     paymentLimit (provider call) (paymentId call)].

(** The body of the first loop. *)
Definition openLimit (observedAt windowExpiresAt : Z) (state : LimitTable * list (Limit * LimitRow)) (limit : Limit)
    : result (LimitTable * list (Limit * LimitRow)) :=
  let '(table, current) := state in
  '(table, locked) ← lockLimit table (limit_subjectHash limit) observedAt windowExpiresAt;
  '(table, row) ← resetExpiredLimit table locked observedAt windowExpiresAt;
  Ok (table, current ++ [(limit, row)]).

Definition reservePaymentWebhookVerification `{Collation} `{DatabaseCollation} (call : WebhookCall) (table : LimitTable)
    : result LimitTable :=
  let observedAt := webhook_observedAt call in
  let windowExpiresAt := observedAt + PAYMENT_WEBHOOK_WINDOW_MILLISECONDS in
  let limits := webhookLimits call in
  '(table, current) ← foldM (openLimit observedAt windowExpiresAt) (table, []) limits;
  throw_when (existsb (λ entry, maximum entry.1 <=? issued_count entry.2) current) (HttpException TOO_MANY_REQUESTS) ;;
  table ← foldM (λ table limit, incrementLimit table (limit_subjectHash limit)) table limits;
  Ok (cleanup table (λ _, false) (webhook_skipped call) observedAt).

(** ** Histories *)

Section History.
Context {S C : Type} (serve : C → S → result S).

(** A transaction that throws leaves the state as it was. *)
Definition attempt (s : S) (c : C) : S := match serve c s with Ok s' => s' | Throw _ => s end.

Fixpoint outcomes (s : S) (calls : list C) : list (result ()) :=
  match calls with
  | [] => []
  | c :: calls' => ((λ _, ()) <$> serve c s) :: outcomes (attempt s c) calls'
  end.

(** The calls that were served. *)
Fixpoint served (s : S) (calls : list C) : list C :=
  match calls with
  | [] => []
  | c :: calls' => match serve c s with Ok s' => c :: served s' calls' | Throw _ => served s calls' end
  end.
End History.

(** ** Fixed windows

    The reference: all that is kept is which subject was charged when.  A window
    of a subject opens with the first charge after the window before it is over. *)

Section Windows.
Context (W : Z).

Definition charge (window : option (Z * Z)) (t : Z) : option (Z * Z) :=
  match window with
  | Some (start, n) => if t <? start + W then Some (start, n + 1) else Some (t, 1)
  | None => Some (t, 1)
  end.

Definition windowOf (times : list Z) : option (Z * Z) := foldl charge None times.

(** The window at a time: the one that is open, or a fresh one. *)
Definition current (window : option (Z * Z)) (t : Z) : Z * Z :=
  match window with
  | Some (start, n) => if t <? start + W then (start, n) else (t, 0)
  | None => (t, 0)
  end.

Definition ChargeLog : Type := list (jstr * Z).

Definition timesOf (log : ChargeLog) (subject : jstr) : list Z :=
  snd <$> List.filter (λ entry, str_eqb entry.1 subject) log.

(** How often a subject was charged in the window that is open at [t]. *)
Definition used (log : ChargeLog) (subject : jstr) (t : Z) : Z := (current (windowOf (timesOf log subject)) t).2.

Definition chargeLimits (t : Z) (limits : list Limit) (log : ChargeLog) : result ChargeLog :=
  throw_when (existsb (λ limit, maximum limit <=? used log (limit_subjectHash limit) t) limits)
    (HttpException TOO_MANY_REQUESTS) ;;
  Ok (log ++ ((λ limit, (limit_subjectHash limit, t)) <$> limits)).

(** How many of the times are in the interval of a window's length from [a]. *)
Definition within (a : Z) (times : list Z) : Z :=
  sum_by (λ t, if (a <=? t) && (t <? a + W) then 1 else 0) times.
End Windows.

Definition quoteLimits (subjects : Subjects) : list Limit :=
  [mkLimit (global subjects) ANONYMOUS_QUOTE_GLOBAL_MAX_ISSUED; mkLimit (client subjects) ANONYMOUS_QUOTE_CLIENT_MAX_ISSUED].

Definition chargeQuote (call : QuoteCall) (log : ChargeLog) : result ChargeLog :=
  subjects ← anonymousQuoteLimitSubjects (subjectHash call) (namespace call);
  chargeLimits ANONYMOUS_QUOTE_WINDOW_MILLISECONDS (quote_observedAt call) (quoteLimits subjects) log.

Definition chargeWebhook `{Collation} (call : WebhookCall) (log : ChargeLog) : result ChargeLog :=
  chargeLimits PAYMENT_WEBHOOK_WINDOW_MILLISECONDS (webhook_observedAt call) (webhookLimits call) log.

(** ** Facts about the reference *)

Section WindowFacts.
Context (W : Z) (W_pos : 0 < W).

Lemma current_idem w t t' : t ≤ t' → current W (charge W w t) t' = current W (Some ((current W w t).1, (current W w t).2 + 1)) t'.
Proof using W_pos. intros. destruct w as [[s n]|]; cbn; [destruct (t <? s + W) eqn:E; cbn; [done|]|done]. reflexivity. Qed.

Lemma charge_current w t : charge W w t = Some ((current W w t).1, (current W w t).2 + 1).
Proof using. destruct w as [[s n]|]; [|done]. cbn. by destruct (t <? s + W). Qed.

Lemma current_open w t : t < (current W w t).1 + W.
Proof using W_pos. destruct w as [[s n]|]; cbn; [|lia]. destruct (Z.ltb_spec t (s + W)); cbn; lia. Qed.

Lemma current_charge w t : current W (charge W w t) t = ((current W w t).1, (current W w t).2 + 1).
Proof using W_pos. rewrite charge_current. cbn. pose proof (current_open w t). by destruct (Z.ltb_spec t ((current W w t).1 + W)); [|lia]. Qed.

Lemma windowOf_snoc ts t : windowOf W (ts ++ [t]) = charge W (windowOf W ts) t.
Proof using. unfold windowOf. by rewrite foldl_app. Qed.

Lemma within_snoc a ts t : within W a (ts ++ [t]) = within W a ts + (if (a <=? t) && (t <? a + W) then 1 else 0).
Proof using. unfold within. by rewrite sum_by_app, sum_by_cons, sum_by_nil, Z.add_0_r. Qed.

(** The charges of the windows: all those since the start of the last one are in
    it, and those of a window's length before it are in the one before it. *)
Record windowed (max : Z) (ts : list Z) (w : option (Z * Z)) : Prop := {
  w_none : w = None → ts = [];
  w_last s n : w = Some (s, n) → n ≤ max ∧ within W s ts = n ∧ Forall (λ t, t < s + W) ts;
  w_before s n : w = Some (s, n) → within W (s - W) ts ≤ max;
  w_any a : within W a ts ≤ 2 * max;
}.

Lemma within_le_of a b ts : (∀ t, t ∈ ts → a ≤ t < a + W → b ≤ t < b + W) → within W a ts ≤ within W b ts.
Proof using.
  induction ts as [|t ts IH]; intros H; [unfold within; rewrite !sum_by_nil; lia|].
  unfold within in *. rewrite !sum_by_cons. specialize (IH (λ t' Ht, H t' (list_elem_of_further _ _ _ Ht))).
  specialize (H t (list_elem_of_here _ _)).
  destruct (Z.leb_spec a t), (Z.leb_spec b t), (Z.ltb_spec t (a + W)), (Z.ltb_spec t (b + W)); cbn [andb] in *; lia.
Qed.

Lemma within_split a b c ts : (∀ t, t ∈ ts → a ≤ t < a + W → b ≤ t < b + W ∨ c ≤ t < c + W) →
  within W a ts ≤ within W b ts + within W c ts.
Proof using.
  induction ts as [|t ts IH]; intros H; [unfold within; rewrite !sum_by_nil; lia|].
  unfold within in *. rewrite !sum_by_cons. specialize (IH (λ t' Ht, H t' (list_elem_of_further _ _ _ Ht))).
  specialize (H t (list_elem_of_here _ _)).
  destruct (Z.leb_spec a t), (Z.leb_spec b t), (Z.leb_spec c t), (Z.ltb_spec t (a + W)), (Z.ltb_spec t (b + W)), (Z.ltb_spec t (c + W));
    cbn [andb] in *; lia.
Qed.

Lemma within_none a ts : (∀ t, t ∈ ts → ¬ a ≤ t < a + W) → within W a ts = 0.
Proof using.
  intros H. induction ts as [|t ts IH]; [done|]. unfold within in *. rewrite sum_by_cons, IH by (intros; apply H; by right).
  specialize (H t (list_elem_of_here _ _)). destruct (Z.leb_spec a t), (Z.ltb_spec t (a + W)); cbn [andb]; lia.
Qed.

(** A charge that the limit allows, at a time that is not before the others. *)
Lemma windowed_snoc max ts t : windowed max ts (windowOf W ts) → (∀ t', t' ∈ ts → t' ≤ t) →
  (∀ s n, windowOf W ts = Some (s, n) → s ≤ t) → (current W (windowOf W ts) t).2 < max →
  windowed max (ts ++ [t]) (windowOf W (ts ++ [t])).
Proof using W_pos.
  intros H Hle Hs Hmax. rewrite windowOf_snoc. destruct (windowOf W ts) as [[s n]|] eqn:Ew; cbn in Hmax.
  2:{ rewrite (w_none _ _ _ H eq_refl) in *. cbn in *.
      split; [done|..]; intros; simplify_eq; unfold within; rewrite ?sum_by_cons, ?sum_by_nil;
        repeat split; repeat case_match; try lia; repeat constructor; lia. }
  destruct (w_last _ _ _ H s n eq_refl) as (Hn & Hc & Hlt). pose proof (w_before _ _ _ H s n eq_refl) as Hb.
  specialize (Hs s n eq_refl). rewrite Forall_forall in Hlt. cbn. destruct (Z.ltb_spec t (s + W)) as [Hin|Hin]; cbn in Hmax.
  - split; [done| | |].
    + intros ? ? [= <- <-]. rewrite within_snoc, Hc. split_and!; [lia| |apply Forall_app; split; [by apply Forall_forall|repeat constructor; lia]].
      destruct (Z.leb_spec s t), (Z.ltb_spec t (s + W)); cbn; lia.
    + intros ? ? [= <- <-]. rewrite within_snoc. destruct (Z.leb_spec (s - W) t), (Z.ltb_spec t (s - W + W)); cbn; lia.
    + intros a. rewrite within_snoc. pose proof (w_any _ _ _ H a).
      destruct (Z.leb_spec a t), (Z.ltb_spec t (a + W)); cbn; try lia.
      assert (within W a ts ≤ within W (s - W) ts + within W s ts); [|lia].
      apply within_split. intros t' Ht' ?. specialize (Hle t' Ht'). specialize (Hlt t' Ht'). lia.
  - assert (Hnew : within W (t - W) ts ≤ max).
    { transitivity (within W s ts); [|lia]. apply within_le_of. intros t' Ht' ?. specialize (Hlt t' Ht'). lia. }
    split; [done| | |].
    + intros ? ? [= <- <-]. rewrite within_snoc, within_none by (intros t' Ht'; specialize (Hlt t' Ht'); lia).
      split_and!; [lia| |apply Forall_app; split; [apply Forall_forall; intros t' Ht'; specialize (Hle t' Ht'); lia|repeat constructor; lia]].
      destruct (Z.leb_spec t t), (Z.ltb_spec t (t + W)); cbn; lia.
    + intros ? ? [= <- <-]. rewrite within_snoc. destruct (Z.ltb_spec t (t - W + W)); [lia|]. rewrite andb_false_r. lia.
    + intros a. rewrite within_snoc. pose proof (w_any _ _ _ H a).
      destruct (Z.leb_spec a t), (Z.ltb_spec t (a + W)); cbn; try lia.
      assert (within W a ts ≤ within W s ts); [|lia].
      apply within_le_of. intros t' Ht' ?. specialize (Hlt t' Ht'). lia.
Qed.
End WindowFacts.

Lemma windowOf_start W ts s n : windowOf W ts = Some (s, n) → s ∈ ts.
Proof.
  revert s n. induction ts as [|t ts IH] using rev_ind; intros s n; [done|]. rewrite windowOf_snoc, elem_of_app, list_elem_of_singleton.
  destruct (windowOf W ts) as [[s' n']|]; cbn; [destruct (t <? s' + W)|]; intros [= <- <-]; [left; by eapply IH|by right|by right].
Qed.

(** ** The table implements the windows *)

Lemma timesOf_app log log' k : timesOf (log ++ log') k = timesOf log k ++ timesOf log' k.
Proof. unfold timesOf. by rewrite List.filter_app, fmap_app. Qed.

Lemma timesOf_one k k' t : timesOf [(k, t)] k' = if str_eqb k k' then [t] else [].
Proof. unfold timesOf. cbn. by destruct (str_eqb k k'). Qed.

Definition charges (t : Z) (ks : list jstr) : ChargeLog := (λ k, (k, t)) <$> ks.

Lemma timesOf_charges t ks k : k ∈ ks → ∃ n, timesOf (charges t ks) k = replicate n t ++ [t].
Proof.
  assert (H : ∀ ks, ∃ n, timesOf (charges t ks) k = replicate n t ∧ (k ∈ ks → n ≠ O)).
  { clear. intros ks. induction ks as [|k' ks (n & IH & Hn)]; [by exists O; split; [|intros ?%elem_of_nil]|].
    change (charges t (k' :: ks)) with ([(k', t)] ++ charges t ks). rewrite timesOf_app, IH, timesOf_one. unfold str_eqb.
    case_bool_decide; [by exists (S n)|]. exists n. split; [done|]. rewrite elem_of_cons. naive_solver. }
  intros Hk. destruct (H ks) as (n & -> & Hn). specialize (Hn Hk). destruct n as [|n]; [done|]. exists n. by rewrite <- replicate_S_end.
Qed.

Lemma foldl_delete_lookup (rows : list LimitRow) (table : LimitTable) k :
  foldl (λ table row, delete (subject_hash row) table) table rows !! k
  = if decide (k ∈ subject_hash <$> rows) then None else table !! k.
Proof.
  revert table. induction rows as [|row rows IH]; intros table; cbn [foldl]; [by rewrite decide_False by apply not_elem_of_nil|].
  rewrite IH, fmap_cons. destruct (decide (k = subject_hash row)) as [->|Hne].
  - rewrite lookup_delete_eq. rewrite (decide_True _ _ (P := subject_hash row ∈ subject_hash row :: _)) by by left. by case_decide.
  - rewrite lookup_delete_ne by done. repeat case_decide; set_solver.
Qed.

Section Refinement.
Context (W : Z) (W_pos : 0 < W).

(** The window that the row of a subject stands for at a time. *)
Definition rowWindow (row : option LimitRow) (t : Z) : Z * Z :=
  match row with
  | Some row => if t <? window_expires_at row then (window_started_at row, issued_count row) else (t, 0)
  | None => (t, 0)
  end.

(** The row of a subject, if any, stands for its charges from [now] on. *)
Definition implementsAt (now : Z) (k : jstr) (row : option LimitRow) (times : list Z) : Prop :=
  (∀ r, row = Some r → subject_hash r = k ∧ window_expires_at r = window_started_at r + W)
  ∧ ∀ t, now ≤ t → rowWindow row t = current W (windowOf W times) t.

Definition implements (now : Z) (table : LimitTable) (log : ChargeLog) : Prop :=
  ∀ k, implementsAt now k (table !! k) (timesOf log k).

Lemma implements_mono now now' table log : now ≤ now' → implements now table log → implements now' table log.
Proof using. intros Hle H k. destruct (H k) as [Hr Hw]. split; [done|]. intros t Ht. apply Hw. lia. Qed.

Lemma implements_empty now : implements now ∅ [].
Proof using. intros k. rewrite lookup_empty. by split. Qed.

(** The row of a subject that a reservation at [t] has opened. *)
Definition openRow (t : Z) (k : jstr) (log : ChargeLog) : LimitRow :=
  let window := current W (windowOf W (timesOf log k)) t in mkRow k window.1 (window.1 + W) window.2.

(** A reservation at [t] has opened some rows. *)
Definition opening (t : Z) (log : ChargeLog) (ks : list jstr) (table : LimitTable) : Prop :=
  ∀ k, (k ∈ ks → table !! k = Some (openRow t k log)) ∧ (k ∉ ks → implementsAt t k (table !! k) (timesOf log k)).

Lemma opening_nil t table log : implements t table log → opening t log [] table.
Proof using. intros H k. split; [by intros ?%elem_of_nil|intros _; apply H]. Qed.

Definition fresh (t : Z) (k : jstr) : LimitRow := mkRow k t (t + W) 0.

Lemma lock_spec table k t : lockLimit table k t (t + W) = Ok (insertLimit table k t (t + W), default (fresh t k) (table !! k)).
Proof using.
  unfold lockLimit, insertLimit. destruct (table !! k) as [row|] eqn:E; [by rewrite E|]. by rewrite lookup_insert_eq.
Qed.

Lemma insertLimit_lookup table k k' t : insertLimit table k t (t + W) !! k' = if decide (k = k') then Some (default (fresh t k) (table !! k)) else table !! k'.
Proof using.
  unfold insertLimit. destruct (decide (k = k')) as [<-|Hne]; destruct (table !! k) eqn:E; try done.
  - by rewrite lookup_insert_eq.
  - by rewrite lookup_insert_ne.
Qed.

(** Resetting a row opens it, and once more does nothing. *)
Lemma reset_spec t log k (row : option LimitRow) table now :
  implementsAt t k row (timesOf log k) → table !! k = Some now → now = default (fresh t k) row ∨ now = openRow t k log →
  resetExpiredLimit table (default (fresh t k) row) t (t + W) = Ok (<[k := openRow t k log]> table, openRow t k log).
Proof using W_pos.
  intros [Hrow Hw] Hk Hnow. specialize (Hw t (Z.le_refl t)). unfold openRow in *. rewrite <- Hw in *. clear Hw log.
  unfold resetExpiredLimit, updateLimit. destruct row as [r|]; cbn in *.
  - destruct (Hrow r eq_refl) as [Hs He]. rewrite Hs. destruct (Z.ltb_spec t (window_expires_at r)); cbn in *.
    + assert (Hr : mkRow k (window_started_at r) (window_started_at r + W) (issued_count r) = r) by (destruct r; cbn in *; by subst).
      rewrite Hr in *. rewrite insert_id; [done|]. by destruct Hnow as [->| ->].
    + rewrite Hk. run. unfold opened. destruct Hnow as [->| ->]; cbn; by rewrite Hs.
  - destruct (Z.ltb_spec t (t + W)); [|lia]. unfold fresh in *. rewrite insert_id; [done|]. by destruct Hnow as [->| ->].
Qed.

Lemma reset_open t log k table : table !! k = Some (openRow t k log) →
  resetExpiredLimit table (openRow t k log) t (t + W) = Ok (table, openRow t k log).
Proof using W_pos.
  intros _. unfold resetExpiredLimit. pose proof (current_open W W_pos (windowOf W (timesOf log k)) t) as H.
  cbn. by destruct (Z.ltb_spec t ((current W (windowOf W (timesOf log k)) t).1 + W)); [|lia].
Qed.

Lemma opening_insert t log ks k table table' : opening t log ks table →
  (∀ k', k' ≠ k → table' !! k' = table !! k') → table' !! k = Some (openRow t k log) → opening t log (k :: ks) table'.
Proof using.
  intros H Hne Hk k'. rewrite elem_of_cons. destruct (decide (k' = k)) as [->|Hk']; [split; [done|naive_solver]|].
  rewrite Hne by done. destruct (H k'). naive_solver.
Qed.

(** Locking and resetting one after the other opens a row. *)
Lemma open_spec t log ks table k : opening t log ks table →
  ∃ table', ('(table, row) ← lockLimit table k t (t + W); resetExpiredLimit table row t (t + W)) = Ok (table', openRow t k log)
    ∧ opening t log (k :: ks) table'.
Proof using W_pos.
  intros H. rewrite lock_spec. run. destruct (decide (k ∈ ks)) as [Hin|Hin].
  - assert (Hk : table !! k = Some (openRow t k log)) by by apply H.
    exists table. rewrite Hk. cbn. unfold insertLimit. rewrite Hk, reset_open by done. split; [done|]. by eapply opening_insert.
  - eexists. rewrite (reset_spec t log k (table !! k) _ (default (fresh t k) (table !! k)));
      [split; [done|]|by apply H|by rewrite insertLimit_lookup, decide_True by done|by left].
    apply (opening_insert t log ks k table); [done| |apply lookup_insert_eq].
    intros k' Hne. by rewrite lookup_insert_ne, insertLimit_lookup, decide_False by done.
Qed.

(** A charge of an open row. *)
Lemma charge_spec t log ks table k : opening t log ks table → k ∈ ks →
  ∃ table', incrementLimit table k = Ok table' ∧ opening t (log ++ charges t [k]) ks table'.
Proof using W_pos.
  intros H Hin. assert (Hk : table !! k = Some (openRow t k log)) by by apply H.
  unfold incrementLimit, updateLimit. rewrite Hk. eexists. split; [done|]. intros k'. change (charges t [k]) with [(k, t)].
  unfold openRow. rewrite timesOf_app, timesOf_one. unfold str_eqb. case_bool_decide as Heq.
  - subst k'. split; [intros _|done]. rewrite lookup_insert_eq. unfold issued, openRow. cbn.
    by rewrite windowOf_snoc, current_charge.
  - rewrite app_nil_r, lookup_insert_ne by done. apply H.
Qed.

Lemma charges_spec t ks' log ks table : opening t log ks table → ks' ⊆ ks →
  ∃ table', foldM incrementLimit table ks' = Ok table' ∧ opening t (log ++ charges t ks') ks table'.
Proof using W_pos.
  revert log table. induction ks' as [|k ks' IH]; intros log table H Hsub; [exists table; by rewrite app_nil_r|].
  destruct (charge_spec t log ks table k H) as (table1 & H1 & Ho); [apply Hsub; by left|].
  destruct (IH _ _ Ho) as (table2 & H2 & Ho2); [intros x Hx; apply Hsub; by right|].
  exists table2. cbn [foldM]. rewrite H1. run. split; [done|]. by rewrite <- app_assoc in Ho2.
Qed.

(** When all the rows that were opened have been charged, the table stands for
    the charges again. *)
Lemma opening_charged t log ks table : opening t (log ++ charges t ks) ks table → implements t table (log ++ charges t ks).
Proof using W_pos.
  intros H k. destruct (H k) as [Hin Hout]. destruct (decide (k ∈ ks)) as [Hk|Hk]; [|by apply Hout].
  rewrite Hin by done. unfold openRow. rewrite timesOf_app. destruct (timesOf_charges t ks k Hk) as [n ->].
  unfold implementsAt. rewrite (assoc_L (++)), !windowOf_snoc. set (w := windowOf W _).
  rewrite current_charge by done. split; [naive_solver|]. intros t' _. by rewrite charge_current.
Qed.

Lemma cleanup_spec `{DatabaseCollation} t table log kept skipped :
  implements t table log → implements t (cleanup table kept skipped t) log.
Proof using.
  intros Hi k. unfold cleanup. rewrite foldl_delete_lookup. case_decide as Hk; [|apply Hi].
  apply list_elem_of_fmap in Hk as (row & -> & Hrow). apply (subseteq_take _ _ _) in Hrow.
  unfold expiredRows in Hrow. rewrite js_sort_perm in Hrow. apply list_elem_of_In, filter_In in Hrow as [Hin Hb].
  apply list_elem_of_In, list_elem_of_fmap in Hin as ([k' row'] & -> & Hin%elem_of_map_to_list). cbn in *.
  destruct (Hi k') as [Hr Hw]. destruct (Hr _ Hin) as [<- _]. rewrite Hin in Hw.
  split; [done|]. intros t' Ht'. rewrite <- Hw by done. cbn. destruct (Z.ltb_spec t' (window_expires_at row')); [|done].
  apply andb_true_iff in Hb as [_ Hb%Z.leb_le]. lia.
Qed.
End Refinement.

(** ** Both reservations follow the windows *)

(** The outcomes of a reservation and of its reference agree. *)
Definition agrees (W t : Z) (r : result LimitTable) (r' : result ChargeLog) : Prop :=
  match r, r' with
  | Ok table, Ok log => implements W t table log
  | Throw e, Throw e' => e = e'
  | _, _ => False
  end.

Lemma opening_iff W t log ks ks' table : (∀ k, k ∈ ks' ↔ k ∈ ks) → opening W t log ks table → opening W t log ks' table.
Proof. intros Hiff H k. specialize (Hiff k). destruct (H k). split; naive_solver. Qed.

Lemma foldM_fmap {S A B} (f : S → B → result S) (g : A → B) s l : foldM (λ s x, f s (g x)) s l = foldM f s (g <$> l).
Proof. revert s. induction l as [|x l IH]; intros s; cbn; [done|]. by destruct (f s (g x)); cbn. Qed.

Definition keys (limits : list Limit) : list jstr := limit_subjectHash <$> limits.

Lemma chargeLimits_charges W t limits log :
  chargeLimits W t limits log =
    (throw_when (existsb (λ limit, maximum limit <=? used W log (limit_subjectHash limit) t) limits) (HttpException TOO_MANY_REQUESTS) ;;
     Ok (log ++ charges t (keys limits))).
Proof. unfold chargeLimits, charges, keys. by rewrite <- list_fmap_compose. Qed.

(** What follows when the rows are open. *)
Lemma charge_agrees `{DatabaseCollation} W t log limits (rows : list (Limit * LimitRow)) table kept skipped : 0 < W →
  opening W t log (keys limits) table →
  (existsb (λ entry, maximum entry.1 <=? issued_count entry.2) rows
   = existsb (λ limit, maximum limit <=? used W log (limit_subjectHash limit) t) limits) →
  agrees W t
    (throw_when (existsb (λ entry, maximum entry.1 <=? issued_count entry.2) rows) (HttpException TOO_MANY_REQUESTS) ;;
     table ← foldM incrementLimit table (keys limits);
     Ok (cleanup table kept skipped t))
    (chargeLimits W t limits log).
Proof.
  intros HW Ho Hrows. rewrite chargeLimits_charges, Hrows. destruct (existsb _ limits); run; cbn; [done|].
  destruct (charges_spec W HW t (keys limits) log (keys limits) table Ho) as (table' & -> & Ho'); [done|].
  cbn. by apply cleanup_spec, opening_charged.
Qed.

Lemma openLimits_spec W t log limits ks table rows : 0 < W → opening W t log ks table →
  ∃ table', foldM (openLimit t (t + W)) (table, rows) limits
              = Ok (table', rows ++ ((λ limit, (limit, openRow W t (limit_subjectHash limit) log)) <$> limits))
    ∧ opening W t log (keys limits ++ ks) table'.
Proof.
  intros HW. revert ks table rows. induction limits as [|limit limits IH]; intros ks table rows Ho;
    [exists table; by rewrite app_nil_r|].
  destruct (open_spec W HW t log ks table (limit_subjectHash limit) Ho) as (table1 & H1 & Ho1).
  destruct (IH _ _ (rows ++ [(limit, openRow W t (limit_subjectHash limit) log)]) Ho1) as (table2 & H2 & Ho2).
  exists table2. cbn [foldM openLimit]. destruct (lockLimit table _ t (t + W)) as [[table0 row0]|]; run_in H1; [|done]. run.
  rewrite H1. run. rewrite H2, <- app_assoc. split; [done|]. eapply opening_iff; [|exact Ho2].
  intros k. cbn. rewrite elem_of_cons, !elem_of_app, elem_of_cons. tauto.
Qed.

Lemma webhook_agrees `{Collation} `{DatabaseCollation} call now table log : now ≤ webhook_observedAt call →
  implements PAYMENT_WEBHOOK_WINDOW_MILLISECONDS now table log →
  agrees PAYMENT_WEBHOOK_WINDOW_MILLISECONDS (webhook_observedAt call)
    (reservePaymentWebhookVerification call table) (chargeWebhook call log).
Proof.
  set (W := PAYMENT_WEBHOOK_WINDOW_MILLISECONDS). assert (HW : 0 < W) by done. intros Hnow Hi.
  unfold reservePaymentWebhookVerification, chargeWebhook. fold W. generalize (webhookLimits call) as limits; intros limits.
  apply (implements_mono W now (webhook_observedAt call)) in Hi; [|done].
  destruct (openLimits_spec W (webhook_observedAt call) log limits [] table [] HW (opening_nil _ _ _ _ Hi)) as (table' & -> & Ho).
  rewrite app_nil_r in Ho. run. rewrite foldM_fmap. apply charge_agrees; [done|done|].
  apply (existsb_fmap (λ entry : Limit * LimitRow, maximum entry.1 <=? issued_count entry.2)
    (λ limit, (limit, openRow W (webhook_observedAt call) (limit_subjectHash limit) log))).
Qed.

(** Locking both rows before either is reset opens them as well. *)
Lemma open_both W t log table g c : 0 < W → implements W t table log →
  ∃ table', ('(table, globalRow) ← lockLimit table g t (t + W);
             '(table, subjectRow) ← lockLimit table c t (t + W);
             '(table, currentGlobal) ← resetExpiredLimit table globalRow t (t + W);
             '(table, currentSubject) ← resetExpiredLimit table subjectRow t (t + W);
             Ok (table, (currentGlobal, currentSubject)))
            = Ok (table', (openRow W t g log, openRow W t c log))
    ∧ opening W t log [g; c] table'.
Proof.
  intros HW Hi. rewrite lock_spec. run. rewrite lock_spec. run.
  set (table1 := insertLimit table g t (t + W)). set (table2 := insertLimit table1 c t (t + W)).
  assert (H1 : ∀ k, table1 !! k = if decide (g = k) then Some (default (fresh W t g) (table !! g)) else table !! k)
    by (intros; apply insertLimit_lookup).
  assert (H2 : ∀ k, table2 !! k = if decide (c = k) then Some (default (fresh W t c) (table1 !! c)) else table1 !! k)
    by (intros; apply insertLimit_lookup).
  assert (Hg : table2 !! g = Some (default (fresh W t g) (table !! g))).
  { rewrite H2. case_decide as E; [subst c|]; by rewrite H1, decide_True by done. }
  assert (Hc : default (fresh W t c) (table1 !! c) = default (fresh W t c) (table !! c)).
  { rewrite H1. by case_decide as E; [subst c|]. }
  rewrite (reset_spec W HW t log g (table !! g) table2 _ (Hi g) Hg) by by left. run. rewrite Hc.
  rewrite (reset_spec W HW t log c (table !! c) (<[g := openRow W t g log]> table2)
             (if decide (g = c) then openRow W t c log else default (fresh W t c) (table !! c)) (Hi c)).
  - run. eexists. split; [done|]. eapply (opening_iff W t log [c; g]); [set_solver|].
    apply (opening_insert W t log [g] c (<[g := openRow W t g log]> table)); [|intros k Hk|by rewrite lookup_insert_eq].
    + apply (opening_insert W t log [] g table); [by apply opening_nil|intros k Hk; by rewrite lookup_insert_ne|by rewrite lookup_insert_eq].
    + rewrite lookup_insert_ne by done. destruct (decide (k = g)) as [->|Hkg]; [by rewrite !lookup_insert_eq|].
      rewrite !lookup_insert_ne, H2, decide_False, H1, decide_False by done. done.
  - case_decide as E; [subst c; by rewrite lookup_insert_eq|]. by rewrite lookup_insert_ne, H2, decide_True, Hc by done.
  - case_decide; [by right|by left].
Qed.

Lemma quote_agrees `{DatabaseCollation} call now table log : now ≤ quote_observedAt call →
  implements ANONYMOUS_QUOTE_WINDOW_MILLISECONDS now table log →
  agrees ANONYMOUS_QUOTE_WINDOW_MILLISECONDS (quote_observedAt call) (reserveAnonymousQuote call table) (chargeQuote call log).
Proof.
  set (W := ANONYMOUS_QUOTE_WINDOW_MILLISECONDS). assert (HW : 0 < W) by done. intros Hnow Hi.
  unfold reserveAnonymousQuote, chargeQuote. fold W. destruct (anonymousQuoteLimitSubjects _ _) as [[g c]|]; run; [|done].
  apply (implements_mono W now (quote_observedAt call)) in Hi; [|done]. cbn [global client].
  destruct (open_both W (quote_observedAt call) log table g c HW Hi) as (table' & Hopen & Ho).
  pose proof (charge_agrees W (quote_observedAt call) log (quoteLimits (mkSubjects g c))
    ((λ limit, (limit, openRow W (quote_observedAt call) (limit_subjectHash limit) log)) <$> quoteLimits (mkSubjects g c))
    table' keptQuoteLimit (quote_skipped call) HW Ho) as Hc.
  rewrite existsb_fmap in Hc. specialize (Hc eq_refl). cbn [existsb quoteLimits keys fmap list_fmap limit_subjectHash maximum global client snd fst foldM] in Hc.
  rewrite orb_false_r in Hc.
  destruct (lockLimit table g _ _) as [[table1 r1]|]; run_in Hopen; run; [|done].
  destruct (lockLimit table1 c _ _) as [[table2 r2]|]; run_in Hopen; run; [|done].
  destruct (resetExpiredLimit table2 r1 _ _) as [[table3 r3]|]; run_in Hopen; run; [|done].
  destruct (resetExpiredLimit table3 r2 _ _) as [[table4 r4]|]; run_in Hopen; run; [|done].
  injection Hopen as -> -> ->. revert Hc. destruct (throw_when _ _); run; [|done].
  destruct (incrementLimit table' g) as [table5|]; run; [|done]. by destruct (incrementLimit table5 c).
Qed.

(** A reservation whose outcomes agree with its reference has the history of the
    reference. *)
Section Simulation.
Context {C : Type} (W : Z) (time : C → Z) (serve : C → LimitTable → result LimitTable) (spec : C → ChargeLog → result ChargeLog).
Hypothesis step_agrees : ∀ c now table log, now ≤ time c → implements W now table log → agrees W (time c) (serve c table) (spec c log).

Lemma history_agrees now table log calls : StronglySorted Z.le (now :: (time <$> calls)) → implements W now table log →
  outcomes serve table calls = outcomes spec log calls ∧ served serve table calls = served spec log calls.
Proof using step_agrees.
  revert now table log. induction calls as [|c calls IH]; intros now table log Hs Hi; [done|].
  apply StronglySorted_inv in Hs as [Hs Hle]. rewrite fmap_cons, Forall_cons in Hle. rewrite fmap_cons in Hs. destruct Hle as [Hle _].
  pose proof (step_agrees c now table log Hle Hi) as Hc. cbn [outcomes served]. unfold attempt.
  destruct (serve c table) as [table'|e], (spec c log) as [log'|e']; cbn in Hc; try done.
  - destruct (IH _ _ _ Hs Hc) as [Ho Hv]. by rewrite Ho, Hv.
  - subst e'. destruct (IH _ _ _ Hs (implements_mono _ _ _ _ _ Hle Hi)) as [Ho Hv]. by rewrite Ho.
Qed.

Lemma history_from_empty calls : Sorted Z.le (time <$> calls) →
  outcomes serve ∅ calls = outcomes spec [] calls ∧ served serve ∅ calls = served spec [] calls.
Proof using step_agrees.
  intros Hs. apply Sorted_StronglySorted in Hs; [|intros x y z; lia].
  destruct calls as [|c calls]; [done|]. apply (history_agrees (time c)); [|apply implements_empty].
  constructor; [done|]. rewrite fmap_cons in *. apply StronglySorted_inv in Hs as [_ Hs]. by constructor.
Qed.
End Simulation.

Lemma quote_agrees_history `{DatabaseCollation} calls : Sorted Z.le (quote_observedAt <$> calls) →
  outcomes reserveAnonymousQuote ∅ calls = outcomes chargeQuote [] calls
  ∧ served reserveAnonymousQuote ∅ calls = served chargeQuote [] calls.
Proof. intros Hs. apply (history_from_empty ANONYMOUS_QUOTE_WINDOW_MILLISECONDS quote_observedAt); [|done]. apply quote_agrees. Qed.

(** Anonymous quotes are served exactly as two fixed windows say.  Of
    calls in the order of the clock, each is served when fewer than 100 of those
    served before it are in the open window of its namespace, and fewer than 5 of
    them in the open window of its client, and is refused with status 429
    otherwise; the cleanups of expired rows, whichever rows are locked, change no
    outcome. *)
Theorem quote_limit_exact `{DatabaseCollation} calls : Sorted Z.le (quote_observedAt <$> calls) →
  outcomes reserveAnonymousQuote ∅ calls = outcomes chargeQuote [] calls
  ∧ served reserveAnonymousQuote ∅ calls = served chargeQuote [] calls.
Proof. apply quote_agrees_history. Qed.

Lemma webhook_limit_exact `{Collation} `{DatabaseCollation} calls : Sorted Z.le (webhook_observedAt <$> calls) →
  outcomes reservePaymentWebhookVerification ∅ calls = outcomes chargeWebhook [] calls
  ∧ served reservePaymentWebhookVerification ∅ calls = served chargeWebhook [] calls.
Proof. intros Hs. apply (history_from_empty PAYMENT_WEBHOOK_WINDOW_MILLISECONDS webhook_observedAt); [|done]. apply webhook_agrees. Qed.

(** ** How much is served in an interval *)

Lemma within_app W a ts us : within W a (ts ++ us) = within W a ts + within W a us.
Proof. apply sum_by_app. Qed.

Lemma within_nonneg W a ts : 0 ≤ within W a ts.
Proof. apply sum_by_nonneg. intros t _. by case_match. Qed.

Lemma within_filter {C} W a (time : C → Z) (f g : C → bool) l : (∀ c, c ∈ l → f c = true → g c = true) →
  within W a (time <$> List.filter f l) ≤ within W a (time <$> List.filter g l).
Proof.
  induction l as [|c l IH]; intros H; [done|]. specialize (IH (λ c' Hc, H c' (list_elem_of_further _ _ _ Hc))).
  specialize (H c (list_elem_of_here _ _)). cbn [List.filter]. unfold within in *.
  destruct (f c) eqn:Ef; [rewrite (H eq_refl)|destruct (g c)]; rewrite ?fmap_cons, ?sum_by_cons; [lia| |done]. case_match; lia.
Qed.

Section Bound.
Context {C : Type} (W : Z) (W_pos : 0 < W) (time : C → Z) (limitsOf : C → result (list Limit)) (spec : C → ChargeLog → result ChargeLog).
Hypothesis spec_limits : ∀ c log, spec c log = (limits ← limitsOf c; chargeLimits W (time c) limits log).

(** The call charges the subject. *)
Definition chargesTo (k : jstr) (c : C) : bool :=
  match limitsOf c with Ok limits => bool_decide (k ∈ keys limits) | Throw _ => false end.

(** A call charges the subject once at most, and under the same maximum. *)
Definition consistent (k : jstr) (max : Z) (c : C) : Prop :=
  ∀ limits, limitsOf c = Ok limits →
    timesOf (charges (time c) (keys limits)) k = (if bool_decide (k ∈ keys limits) then [time c] else [])
    ∧ ∀ limit, limit ∈ limits → limit_subjectHash limit = k → maximum limit = max.

Lemma served_windowed k max log calls now : StronglySorted Z.le (now :: (time <$> calls)) → Forall (consistent k max) calls →
  windowed W max (timesOf log k) (windowOf W (timesOf log k)) → (∀ t, t ∈ timesOf log k → t ≤ now) →
  ∀ a, within W a (timesOf log k ++ (time <$> List.filter (chargesTo k) (served spec log calls))) ≤ 2 * max.
Proof using spec_limits W_pos.
  revert log now. induction calls as [|c calls IH]; intros log now Hs Hc Hw Hle a; cbn [served].
  { cbn. rewrite app_nil_r. apply (w_any _ _ _ _ Hw). }
  apply Forall_cons in Hc as [Hc Hcs]. apply StronglySorted_inv in Hs as [Hs Hnow]. rewrite fmap_cons, Forall_cons in Hnow.
  rewrite fmap_cons in Hs. destruct Hnow as [Hnow _].
  assert (Hmono : StronglySorted Z.le (now :: (time <$> calls))).
  { apply StronglySorted_inv in Hs as [Hs Hf]. constructor; [done|]. eapply Forall_impl; [exact Hf|]. intros t Ht. cbn in *. lia. }
  rewrite spec_limits. unfold consistent in Hc. unfold chargesTo at 1. destruct (limitsOf c) as [limits|e] eqn:El; run; [|by apply (IH log now)].
  rewrite chargeLimits_charges. destruct (existsb _ limits) eqn:Ex; run; cbn [throw_when]; run; [by apply (IH log now)|].
  destruct (Hc _ eq_refl) as [Hk Hmax]. cbn [List.filter]. rewrite El.
  specialize (IH (log ++ charges (time c) (keys limits)) (time c) Hs Hcs). rewrite timesOf_app, Hk in IH.
  case_bool_decide as Hin.
  - rewrite fmap_cons, cons_middle, (assoc_L (++)). apply IH.
    + apply windowed_snoc; [done|done|intros; etransitivity; [by apply Hle|done]| |].
      * intros s n Hwin. apply windowOf_start in Hwin. etransitivity; [by apply Hle|done].
      * apply list_elem_of_fmap in Hin as (limit & -> & Hl). rewrite existsb_false in Ex.
        specialize (Ex limit Hl). rewrite (Hmax limit Hl eq_refl) in Ex. apply Z.leb_gt in Ex. exact Ex.
    + intros t. rewrite elem_of_app, list_elem_of_singleton. intros [Ht| ->]; [|done]. etransitivity; [by apply Hle|done].
  - rewrite app_nil_r in IH. apply IH; [done|]. intros t Ht. etransitivity; [by apply Hle|done].
Qed.

Lemma served_bounded k max calls : 0 ≤ max → Sorted Z.le (time <$> calls) → Forall (consistent k max) calls →
  ∀ a, within W a (time <$> List.filter (chargesTo k) (served spec [] calls)) ≤ 2 * max.
Proof using spec_limits W_pos.
  intros Hmax Hs Hc a. destruct calls as [|c calls]; [cbn; change (within W a []) with 0; lia|].
  apply Sorted_StronglySorted in Hs; [|intros x y z; lia].
  apply (served_windowed k max [] (c :: calls) (time c)); [|done| |intros t []%elem_of_nil].
  - constructor; [done|]. rewrite fmap_cons in *. apply StronglySorted_inv in Hs as [_ Hs]. by constructor.
  - split; [done|done|done|]. intros b. change (0 ≤ 2 * max). lia.
Qed.
End Bound.

(** Distinct subjects are charged once each. *)
Lemma timesOf_distinct t ks k : NoDup ks → timesOf (charges t ks) k = if bool_decide (k ∈ ks) then [t] else [].
Proof.
  induction 1 as [|k' ks Hk' Hnd IH]; [by rewrite bool_decide_false by apply not_elem_of_nil|].
  change (charges t (k' :: ks)) with ([(k', t)] ++ charges t ks). rewrite timesOf_app, timesOf_one, IH. unfold str_eqb.
  destruct (decide (k' = k)) as [->|Hne]; [|rewrite (bool_decide_false _ Hne); cbn; repeat case_bool_decide; set_solver].
  rewrite (bool_decide_true _ eq_refl), (bool_decide_false _ Hk'), bool_decide_true by by left. done.
Qed.

(** *** Webhooks *)

(** The texts whose digests are the subjects of a call. *)
Definition subjectTexts (provider clientAddress paymentId : jstr) : list jstr :=
  [webhookSubjectText (js "global") [provider]; webhookSubjectText (js "source") [provider; clientAddress];
   webhookSubjectText (js "payment") [provider; paymentId]].
Definition callTexts (call : WebhookCall) : list jstr := subjectTexts (provider call) (clientAddress call) (paymentId call).

Lemma collision_or_none (texts : list jstr) :
  (∃ s t, s ∈ texts ∧ t ∈ texts ∧ digest_collision s t)
  ∨ ∀ s t, s ∈ texts → t ∈ texts → sha256Hex s = sha256Hex t → TextEncoder_encode s = TextEncoder_encode t.
Proof.
  destruct (decide (Exists (λ s, Exists (λ t, TextEncoder_encode s ≠ TextEncoder_encode t ∧ sha256Hex s = sha256Hex t) texts) texts)) as [H|H].
  - left. apply Exists_exists in H as (s & Hs & (t & Ht & Hd)%Exists_exists). by exists s, t.
  - right. intros s t Hs Ht Heq. destruct (decide (TextEncoder_encode s = TextEncoder_encode t)) as [|Hne]; [done|].
    destruct H. apply Exists_exists. exists s. split; [done|]. apply Exists_exists. by exists t.
Qed.

Lemma encode_ascii p s : forallb (λ c, (0 <=? c) && (c <? 128)) p = true → TextEncoder_encode (p ++ s) = p ++ TextEncoder_encode s.
Proof.
  induction p as [|c p IH]; [done|]. cbn [forallb]. rewrite andb_true_iff, andb_true_iff. intros ((Hl%Z.leb_le & Hh%Z.ltb_lt) & Hp).
  change ((c :: p) ++ s) with (c :: (p ++ s)). rewrite encode_unit; [|unfold is_high_surrogate; lia|unfold is_low_surrogate; lia].
  unfold utf8_code_point. rewrite (proj2 (Z.ltb_lt c 128) Hh), IH by done. done.
Qed.

(** The scopes are told apart by their first letter. *)
Lemma scope_differs p s t c d :
  forallb (λ c, (0 <=? c) && (c <? 128)) (p ++ [c]) = true → forallb (λ c, (0 <=? c) && (c <? 128)) (p ++ [d]) = true → c ≠ d →
  TextEncoder_encode (p ++ c :: s) ≠ TextEncoder_encode (p ++ d :: t).
Proof.
  intros Hc Hd Hne. rewrite (cons_middle c), (cons_middle d), !(assoc_L (++)), !encode_ascii by done.
  rewrite <- !(assoc_L (++)). intros H%(inj (p ++.)). by injection H.
Qed.

Lemma scopes_differ scope scope' values values' : values ≠ [] → values' ≠ [] →
  (scope, scope') ∈ [(js "global", js "source"); (js "global", js "payment"); (js "source", js "payment")] →
  TextEncoder_encode (webhookSubjectText scope values) ≠ TextEncoder_encode (webhookSubjectText scope' values').
Proof.
  set (prefix := js "payment-webhook-limit-v1" ++ [0]).
  assert (Ht : ∀ scope values, values ≠ [] → webhookSubjectText scope values = prefix ++ scope ++ [0] ++ join [0] values).
  { intros sc vs Hv. unfold webhookSubjectText. by rewrite !CanonicalKey.join_cons. }
  intros Hv Hv'. rewrite !Ht by done. rewrite !elem_of_cons, elem_of_nil. intros [[= -> ->]|[[= -> ->]|[[= -> ->]|[]]]];
    (apply (scope_differs prefix); [vm_compute; reflexivity|vm_compute; reflexivity|discriminate]).
Qed.

Section Webhooks.
Context `{Collation} `{DatabaseCollation}.

Lemma webhookLimits_perm call : webhookLimits call ≡ₚ [globalLimit (provider call); sourceLimit (provider call) (clientAddress call);
  paymentLimit (provider call) (paymentId call)].
Proof using. apply js_sort_perm. Qed.

Ltac by_scope H :=
  apply H; [discriminate|discriminate|rewrite !elem_of_cons; tauto|set_solver|set_solver].

(** Without a collision among the subjects, each is charged in one role. *)
Lemma webhook_consistent texts limit call : (∀ s t, s ∈ texts → t ∈ texts → sha256Hex s = sha256Hex t → TextEncoder_encode s = TextEncoder_encode t) →
  callTexts call ⊆ texts → ∀ p a i, subjectTexts p a i ⊆ texts → limit ∈ [globalLimit p; sourceLimit p a; paymentLimit p i] →
  consistent webhook_observedAt (λ call, Ok (webhookLimits call)) (limit_subjectHash limit) (maximum limit) call.
Proof using.
  intros Hno Hcall p a i Htexts Hlimit limits [= <-].
  assert (Hdiff : ∀ scope scope' values values', values ≠ [] → values' ≠ [] →
    (scope, scope') ∈ [(js "global", js "source"); (js "global", js "payment"); (js "source", js "payment")] →
    webhookSubjectText scope values ∈ texts → webhookSubjectText scope' values' ∈ texts →
    webhookSubjectHash scope values ≠ webhookSubjectHash scope' values').
  { intros sc sc' vs vs' Hv Hv' Hin Hs Ht Heq. eapply scopes_differ; [exact Hv|exact Hv'|exact Hin|]. by apply Hno. }
  unfold callTexts, subjectTexts in *. split.
  - apply timesOf_distinct. unfold keys. rewrite webhookLimits_perm.
    rewrite !fmap_cons, fmap_nil. cbn [limit_subjectHash globalLimit sourceLimit paymentLimit].
    rewrite !NoDup_cons, !not_elem_of_cons. pose proof (NoDup_nil_2 (A := jstr)). split_and!; try assumption; rewrite ?not_elem_of_cons; try apply not_elem_of_nil;
      by_scope Hdiff.
  - intros limit'. rewrite webhookLimits_perm. rewrite !elem_of_cons in *. intros Hl' Heq.
    destruct Hl' as [->|[->|[->|[]%elem_of_nil]]], Hlimit as [->|[->|[->|[]%elem_of_nil]]]; try reflexivity; exfalso; revert Heq;
      cbn [limit_subjectHash globalLimit sourceLimit paymentLimit];
      first [by_scope Hdiff|apply not_eq_sym; by_scope Hdiff].
Qed.

Lemma chargeWebhook_limits call log :
  chargeWebhook call log = (limits ← Ok (webhookLimits call); chargeLimits PAYMENT_WEBHOOK_WINDOW_MILLISECONDS (webhook_observedAt call) limits log).
Proof using. done. Qed.

(** The calls that charge a subject are verified twice its maximum at most. *)
Lemma verified_bounded texts limit calls p a i (charged : WebhookCall → bool) from :
  (∀ s t, s ∈ texts → t ∈ texts → sha256Hex s = sha256Hex t → TextEncoder_encode s = TextEncoder_encode t) →
  (∀ call, call ∈ calls → callTexts call ⊆ texts) → subjectTexts p a i ⊆ texts → 0 ≤ maximum limit →
  limit ∈ [globalLimit p; sourceLimit p a; paymentLimit p i] →
  (∀ call, charged call = true → limit_subjectHash limit ∈ keys (webhookLimits call)) →
  Sorted Z.le (webhook_observedAt <$> calls) →
  within PAYMENT_WEBHOOK_WINDOW_MILLISECONDS from
    (webhook_observedAt <$> List.filter charged (served reservePaymentWebhookVerification ∅ calls)) ≤ 2 * maximum limit.
Proof using.
  intros Hno Hcalls Htexts Hmax Hlimit Hcharged Hs. destruct (webhook_limit_exact calls Hs) as [_ ->].
  etransitivity; [|apply (served_bounded PAYMENT_WEBHOOK_WINDOW_MILLISECONDS eq_refl webhook_observedAt (λ call, Ok (webhookLimits call))
    chargeWebhook chargeWebhook_limits (limit_subjectHash limit) (maximum limit) calls); [done|done|]].
  - apply within_filter. intros call _ Hc. unfold chargesTo. by apply bool_decide_eq_true, Hcharged.
  - apply Forall_forall. intros call Hc. by apply (webhook_consistent texts limit call Hno (Hcalls call Hc) p a i).
Qed.

Lemma webhookLimits_keys call limit : limit ∈ [globalLimit (provider call); sourceLimit (provider call) (clientAddress call);
  paymentLimit (provider call) (paymentId call)] → limit_subjectHash limit ∈ keys (webhookLimits call).
Proof using. intros Hin. unfold keys. apply list_elem_of_fmap_2. by rewrite webhookLimits_perm. Qed.

(** Verifications of webhooks are bounded.  Of calls in the order of the
    clock, those that are verified in an interval of a minute are at most twice the
    maximum of a window: 600 for a provider, 240 for a source and 24 for a payment
    of it; unless the digests of two subjects are a collision. *)
Theorem webhook_verifications_bounded calls p a i from : Sorted Z.le (webhook_observedAt <$> calls) →
  let verified f := within PAYMENT_WEBHOOK_WINDOW_MILLISECONDS from
    (webhook_observedAt <$> List.filter f (served reservePaymentWebhookVerification ∅ calls)) in
  let texts := subjectTexts p a i ++ (calls ≫= callTexts) in
  (verified (λ call, str_eqb (provider call) p) ≤ 600
   ∧ verified (λ call, str_eqb (provider call) p && str_eqb (clientAddress call) a) ≤ 240
   ∧ verified (λ call, str_eqb (provider call) p && str_eqb (paymentId call) i) ≤ 24)
  ∨ ∃ s t, s ∈ texts ∧ t ∈ texts ∧ digest_collision s t.
Proof using.
  intros Hs verified texts. destruct (collision_or_none texts) as [Hc|Hno]; [by right|left].
  assert (Hcalls : ∀ call, call ∈ calls → callTexts call ⊆ texts).
  { intros call Hcall t Ht. apply elem_of_app. right. apply list_elem_of_bind. by exists call. }
  assert (Htexts : subjectTexts p a i ⊆ texts) by (intros t Ht; apply elem_of_app; by left).
  assert (Hb : ∀ limit charged, limit ∈ [globalLimit p; sourceLimit p a; paymentLimit p i] → 0 ≤ maximum limit →
    (∀ call, charged call = true → limit_subjectHash limit ∈ keys (webhookLimits call)) → verified charged ≤ 2 * maximum limit)
    by (intros; by apply (verified_bounded texts limit calls p a i)).
  split_and!; [apply (Hb (globalLimit p))|apply (Hb (sourceLimit p a))|apply (Hb (paymentLimit p i))];
    [rewrite !elem_of_cons; tauto|discriminate| |rewrite !elem_of_cons; tauto|discriminate| |rewrite !elem_of_cons; tauto|discriminate|];
    intros call; unfold str_eqb; rewrite ?andb_true_iff, !bool_decide_eq_true;
    [intros <-|intros [<- <-]|intros [<- <-]]; apply webhookLimits_keys; rewrite !elem_of_cons; tauto.
Qed.
End Webhooks.

(** *** Quotes *)

(** A client's subject ends in a digit of its digest, and a global one does not. *)
Lemma subjects_ends call subjects : Patterns.SHA256_PATTERN (subjectHash call) = true →
  anonymousQuoteLimitSubjects (subjectHash call) (namespace call) = Ok subjects →
  last (global subjects) = Some 108 ∧ ∃ c, last (client subjects) = Some c ∧ Patterns.lower_hex c = true.
Proof.
  intros Hp. apply Patterns.matches_classes_Forall with (P := λ c, Patterns.lower_hex c = true) in Hp as [Hhex Hlen];
    [|apply Forall_replicate; intros c Hc; exact Hc].
  rewrite length_replicate in Hlen.
  assert (Hlast : ∀ s, s ≠ [] → s ⊆ subjectHash call → ∃ c, last s = Some c ∧ Patterns.lower_hex c = true).
  { intros s Hne Hsub. destruct (last s) as [c|] eqn:El; [|by apply last_None in El]. exists c. split; [done|].
    rewrite Forall_forall in Hhex. apply Hhex, Hsub. by apply last_Some_elem_of. }
  unfold anonymousQuoteLimitSubjects. destruct (namespace call) as [[|d ns]|]; intros H; ok_inv; cbn [global client].
  1,3: split; [done|]; apply Hlast; [by intros H; rewrite H in Hlen|done].
  match goal with H : (?x <? 16) = false |- _ => apply Z.ltb_ge in H; set (len := x) in * end.
  split; [by rewrite app_comm_cons, last_app|].
  change (∃ c, last (((d :: ns) ++ js ":client:") ++ take (Z.to_nat len) (subjectHash call)) = Some c ∧ Patterns.lower_hex c = true).
  set (n := Z.to_nat len). destruct (Hlast (take n (subjectHash call))) as (c & Hc & Hx);
    [|apply subseteq_take|exists c; split; [by rewrite last_app, Hc|done]].
  intros Ht. apply (f_equal length) in Ht. rewrite length_take, Hlen in Ht. subst n. cbn in Ht. lia.
Qed.

(** What anonymous quotes are bounded by: of the calls that are served in an
    interval of a window's length, twice the maximum at most are of a namespace, and
    of a client of it. *)
Lemma quotes_bounded `{DatabaseCollation} calls call subjects from : Sorted Z.le (quote_observedAt <$> calls) →
  Forall (λ call, Patterns.SHA256_PATTERN (subjectHash call) = true) (call :: calls) →
  anonymousQuoteLimitSubjects (subjectHash call) (namespace call) = Ok subjects →
  let issued_to k := within ANONYMOUS_QUOTE_WINDOW_MILLISECONDS from (quote_observedAt <$>
    List.filter (chargesTo (λ call, quoteLimits <$> anonymousQuoteLimitSubjects (subjectHash call) (namespace call)) k)
      (served reserveAnonymousQuote ∅ calls)) in
  issued_to (global subjects) ≤ 200 ∧ issued_to (client subjects) ≤ 10.
Proof.
  intros Hs Hp Hsub issued_to. apply Forall_cons in Hp as [Hp Hps]. destruct (subjects_ends call subjects Hp Hsub) as (Hg & c & Hc & Hx).
  unfold issued_to. destruct (quote_agrees_history calls Hs) as [_ ->].
  assert (Hb : ∀ k max, 0 ≤ max → (k = global subjects ∧ max = ANONYMOUS_QUOTE_GLOBAL_MAX_ISSUED ∨ k = client subjects ∧ max = ANONYMOUS_QUOTE_CLIENT_MAX_ISSUED) →
    within ANONYMOUS_QUOTE_WINDOW_MILLISECONDS from (quote_observedAt <$>
      List.filter (chargesTo (λ call, quoteLimits <$> anonymousQuoteLimitSubjects (subjectHash call) (namespace call)) k)
        (served chargeQuote [] calls)) ≤ 2 * max).
  { intros k max Hmax Hk. apply served_bounded; [done| |done|done|].
    - intros call' log. unfold chargeQuote. by destruct (anonymousQuoteLimitSubjects (subjectHash call') (namespace call')).
    - rewrite Forall_forall in Hps |- *. intros call' Hin limits Hl. apply fmap_Ok in Hl as (subjects' & Hsub' & ->).
      destruct (subjects_ends call' subjects' (Hps _ Hin) Hsub') as (Hg' & c' & Hc' & Hx').
      assert (Hne : ∀ s s', last s = Some 108 → (∃ c, last s' = Some c ∧ Patterns.lower_hex c = true) → s ≠ s')
        by (intros s s' H1 (c0 & H2 & H3) ->; by simplify_eq).
      split.
      + apply timesOf_distinct, NoDup_cons. split; [|apply NoDup_singleton]. apply not_elem_of_cons. split; [|apply not_elem_of_nil].
        apply Hne; eauto.
      + intros limit. unfold quoteLimits. rewrite !elem_of_cons. intros [->|[->|[]%elem_of_nil]]; cbn; destruct Hk as [[-> ->]|[-> ->]]; try done;
          intros He; exfalso; revert He; [|apply not_eq_sym]; apply Hne; eauto. }
  split; [apply (Hb _ 100)|apply (Hb _ 5)]; [done|by left|done|by right].
Qed.

(** ** A sample history *)

Section Sample.
#[local] Instance sample_collation : Collation := compareStrings.
#[local] Instance sample_database : DatabaseCollation := compareStrings.

Definition sample_client : jstr := replicate 64 97.
Definition sample_quote (t : Z) (namespace : option jstr) : QuoteCall := mkQuoteCall t (λ _, false) sample_client namespace.

(** Five quotes are served and a sixth is refused; another namespace and the
    next window have counters of their own. *)
Definition sample_quotes : list QuoteCall :=
  ((λ t, sample_quote t None) <$> [0; 1; 2; 3; 4; 899999])
  ++ [sample_quote 899999 (Some (js "automatic-quote-estimate")); sample_quote 900000 None].

Lemma quote_limit_exact_witness :
  outcomes reserveAnonymousQuote ∅ sample_quotes = outcomes chargeQuote [] sample_quotes
  ∧ outcomes chargeQuote [] sample_quotes
    = [Ok (); Ok (); Ok (); Ok (); Ok (); Throw (HttpException 429); Ok (); Ok ()].
Proof.
  split; [|vm_compute; reflexivity]. apply (quote_limit_exact sample_quotes). repeat constructor; cbn; lia.
Defined.

Definition sample_webhooks : list WebhookCall :=
  (λ n, mkWebhookCall (Z.of_nat n) (λ _, false) (js "comgate") (js "192.0.2.1") (js "payment-1")) <$> seq 0 2.

Lemma webhook_verifications_bounded_witness :
  length (served reservePaymentWebhookVerification ∅ sample_webhooks) = 2%nat
  ∧ (let texts := subjectTexts (js "comgate") (js "192.0.2.1") (js "payment-1") ++ (sample_webhooks ≫= callTexts) in
     (within PAYMENT_WEBHOOK_WINDOW_MILLISECONDS 0 (webhook_observedAt <$>
        List.filter (λ call, str_eqb (provider call) (js "comgate") && str_eqb (paymentId call) (js "payment-1"))
          (served reservePaymentWebhookVerification ∅ sample_webhooks)) ≤ 24)
     ∨ ∃ s t, s ∈ texts ∧ t ∈ texts ∧ digest_collision s t).
Proof.
  split; [vm_compute; reflexivity|].
  destruct (webhook_verifications_bounded sample_webhooks (js "comgate") (js "192.0.2.1") (js "payment-1") 0) as [(_ & _ & H)|H];
    [repeat constructor; cbn; lia|by left|by right].
Defined.
End Sample.
End Limits.
