(* ===== verification/Dates.v ===== *)
(** Dates as texts: the calendar of the language's [Date], the format of
    [Date.prototype.toISOString], what [Date.parse] reads of that format, and
    with them the text form of an [Instant] (primitives/time.ts). *)
From S2P Require Import Prelude Text Primitives Language.

(** ** The calendar

    Days are counted from 1970-01-01, months from 1 to 12. *)

Definition DayFromYear (y : Z) : Z :=
  365 * (y - 1970) + (y - 1969) / 4 - (y - 1901) / 100 + (y - 1601) / 400.

Definition leap (y : Z) : bool := (y `mod` 4 =? 0) && (negb (y `mod` 100 =? 0) || (y `mod` 400 =? 0)).

Definition days_in_month (y m : Z) : Z :=
  if m =? 2 then (if leap y then 29 else 28)
  else if (m =? 4) || (m =? 6) || (m =? 9) || (m =? 11) then 30 else 31.

(** The day of the year, from 0, on which a month starts. *)
Definition month_start (is_leap : bool) (m : Z) : Z :=
  nth (Z.to_nat (m - 1)) [0; 31; 59; 90; 120; 151; 181; 212; 243; 273; 304; 334] 0
  + (if is_leap && (2 <? m) then 1 else 0).

(** The day of a date; a month out of range moves the year, and a day out of
    range moves the date on. *)
Definition MakeDay (y m d : Z) : Z :=
  let year := y + (m - 1) / 12 in
  DayFromYear year + month_start (leap year) ((m - 1) `mod` 12 + 1) + (d - 1).

(** The year of a day: an estimate that is wrong by one at most. *)
Definition YearFromDay (day : Z) : Z :=
  let y := 1970 + 400 * day / 146097 in
  if day <? DayFromYear y then y - 1 else if DayFromYear (y + 1) <=? day then y + 1 else y.

(** The month of a day of the year. *)
Definition month_of (is_leap : bool) (doy : Z) : Z :=
  sum_by (λ m, if month_start is_leap m <=? doy then 1 else 0) [1; 2; 3; 4; 5; 6; 7; 8; 9; 10; 11; 12].

Record civil := mkCivil { year : Z; month : Z; day : Z }.
#[global] Instance civil_eq_dec : EqDecision civil.
Proof. solve_decision. Defined.

Definition civil_of (n : Z) : civil :=
  let y := YearFromDay n in
  let doy := n - DayFromYear y in
  let m := month_of (leap y) doy in
  mkCivil y m (doy - month_start (leap y) m + 1).

Definition valid_civil (c : civil) : Prop :=
  1 ≤ month c ≤ 12 ∧ 1 ≤ day c ≤ days_in_month (year c) (month c).

Definition valid_civilb (c : civil) : bool :=
  (1 <=? month c) && (month c <=? 12) && (1 <=? day c) && (day c <=? days_in_month (year c) (month c)).

Definition msPerDay : Z := 86400000.

(** ** The text *)

(** [n] digits, with zeros in front. *)
Fixpoint fixed (n : nat) (z : Z) : jstr :=
  match n with O => [] | S n' => fixed n' (z / 10) ++ [48 + z `mod` 10] end.

Definition year_text (y : Z) : jstr :=
  if (0 <=? y) && (y <=? 9999) then fixed 4 y
  else if y <? 0 then 45 :: fixed 6 (- y) else 43 :: fixed 6 y.

(** What follows the year. *)
Definition rest_text (c : civil) (ms : Z) : jstr :=
  45 :: fixed 2 (month c) ++ 45 :: fixed 2 (day c) ++ 84 :: fixed 2 (ms / 3600000)
  ++ 58 :: fixed 2 ((ms / 60000) `mod` 60) ++ 58 :: fixed 2 ((ms / 1000) `mod` 60)
  ++ 46 :: fixed 3 (ms `mod` 1000) ++ [90].

(** [new Date(t).toISOString()], of a time that a date can have. *)
Definition toISOString (t : Z) : jstr :=
  let c := civil_of (t / msPerDay) in year_text (year c) ++ rest_text c (t `mod` msPerDay).

(** ** Reading it *)

(** [n] digits, and what follows them. *)
Fixpoint digits (n : nat) (acc : Z) (s : jstr) : option (Z * jstr) :=
  match n with
  | O => Some (acc, s)
  | S n' =>
      match s with
      | c :: s' => if (48 <=? c) && (c <=? 57) then digits n' (acc * 10 + (c - 48)) s' else None
      | [] => None
      end
  end.

(** A character, and then [n] digits. *)
Definition after (c : Z) (n : nat) (s : jstr) : option (Z * jstr) :=
  match s with d :: s' => if d =? c then digits n 0 s' else None | [] => None end.

Fixpoint span_digits (s : jstr) : jstr * jstr :=
  match s with
  | c :: s' => if (48 <=? c) && (c <=? 57) then (c :: (span_digits s').1, (span_digits s').2) else ([], s)
  | [] => ([], [])
  end.

(** The milliseconds of an optional fraction of one to nine digits, of which
    the first three count. *)
Definition fraction (s : jstr) : option (Z * jstr) :=
  match s with
  | 46 :: s' =>
      let '(ds, rest) := span_digits s' in
      if (1 <=? length ds)%nat && (length ds <=? 9)%nat
      then (λ p, (p.1, rest)) <$> digits 3 0 (take 3 (ds ++ [48; 48]))
      else None
  | _ => Some (0, s)
  end.

(** The offset from UTC: the sign with hours and minutes, or nothing. *)
Definition zone (s : jstr) : option (Z * Z * Z) :=
  match s with
  | [90] => Some (1, 0, 0)
  | c :: s' =>
      if (c =? 43) || (c =? 45) then
        match digits 2 0 s' with
        | Some (h, s'') => match after 58 2 s'' with Some (m, []) => Some (if c =? 43 then 1 else -1, h, m) | _ => None end
        | None => None
        end
      else None
  | [] => None
  end.

Record instant_parts := mkParts {
  date : civil;
  hour : Z;
  minute : Z;
  second : Z;
  millisecond : Z;
  offsetSign : Z;
  offsetHour : Z;
  offsetMinute : Z;
}.

(** [-MM-DDTHH:mm:ss], an optional fraction, and [Z] or an offset. *)
Definition read_rest (y : Z) (s : jstr) : option instant_parts :=
  m ← after 45 2 s; d ← after 45 2 m.2; h ← after 84 2 d.2; mi ← after 58 2 h.2; sec ← after 58 2 mi.2;
  ms ← fraction sec.2; z ← zone ms.2;
  Some (mkParts (mkCivil y m.1 d.1) h.1 mi.1 sec.1 ms.1 z.1.1 z.1.2 z.2).

(** A year of four digits. *)
Definition read_instant (s : jstr) : option instant_parts :=
  y ← digits 4 0 s; read_rest y.1 y.2.

(** The same with a signed year of six digits. *)
Definition read_date_time (s : jstr) : option instant_parts :=
  match s with
  | 43 :: s' => y ← digits 6 0 s'; read_rest y.1 y.2
  | 45 :: s' => y ← digits 6 0 s'; if y.1 =? 0 then None else read_rest (- y.1) y.2
  | _ => read_instant s
  end.

Definition valid_parts (p : instant_parts) : bool :=
  valid_civilb (date p) && (hour p <=? 23) && (minute p <=? 59) && (second p <=? 59)
  && (offsetHour p <=? 23) && (offsetMinute p <=? 59).

(** The time of the parts. *)
Definition local_ms (p : instant_parts) : Z :=
  ((hour p * 60 + minute p) * 60 + second p) * 1000 + millisecond p.
Definition time_of (p : instant_parts) : Z :=
  MakeDay (year (date p)) (month (date p)) (day (date p)) * msPerDay + local_ms p
  - offsetSign p * (offsetHour p * 60 + offsetMinute p) * 60000.

Definition date_range (t : Z) : bool :=
  (Instant.MIN_DATE_EPOCH_MILLISECONDS <=? t) && (t <=? Instant.MAX_DATE_EPOCH_MILLISECONDS).

Definition iso_time (s : jstr) : option Z :=
  match read_date_time s with
  | Some p => if valid_parts p && date_range (time_of p) then Some (time_of p) else None
  | None => None
  end.

(** [Date.parse], which the language fixes on the format of its dates only.
    A fraction that has not three digits is an extension of it, which keeps the
    milliseconds and drops the rest. *)
Class DateParsing := Date_parse : jstr → jsdate.
Class DateParsingLaws `{DateParsing} : Prop := Date_parse_iso s t : iso_time s = Some t → Date_parse s = Some t.

Definition iso_dates : DateParsing := iso_time.
Lemma iso_dates_laws : @DateParsingLaws iso_dates.
Proof. by intros s t. Qed.

Module InstantText.
Section InstantText.
Context `{DateParsing}.

Definition parse (isoTimestamp : jstr) : result Instant.t :=
  match Date_parse isoTimestamp with
  | None => Throw (DomainError INVALID_INSTANT)
  | Some t =>
      throw_when (negb (str_eqb (toISOString t) isoTimestamp)) (DomainError INVALID_INSTANT) ;;
      Instant.fromEpochMilliseconds (IntNum t)
  end.
End InstantText.

Definition toISOString (i : Instant.t) : jstr := toISOString (Instant.epochMilliseconds i).
End InstantText.

Example dates :
  toISOString <$> [0; 951782400123; -62198755200001; 253402300800000; -1]
  = [js "1970-01-01T00:00:00.000Z"; js "2000-02-29T00:00:00.123Z"; js "-000002-12-31T23:59:59.999Z";
     js "+010000-01-01T00:00:00.000Z"; js "1969-12-31T23:59:59.999Z"]
  ∧ iso_time <$> [js "2000-02-29T01:30:00.5+01:30"; js "2001-02-29T00:00:00Z"; js "1970-01-01T00:00:00.1239Z"]
  = [Some 951782400500; None; Some 123].
Proof. vm_compute. done. Qed.

(** ** Facts *)

Section Facts.
#[local] Ltac Zify.zify_post_hook ::= Z.to_euclidean_division_equations.

Lemma leap_spec y : leap y = true ↔ y `mod` 4 = 0 ∧ (y `mod` 100 ≠ 0 ∨ y `mod` 400 = 0).
Proof. unfold leap. rewrite andb_true_iff, orb_true_iff, negb_true_iff, !Z.eqb_eq, Z.eqb_neq. done. Qed.

Definition year_length (y : Z) : Z := if leap y then 366 else 365.

Lemma DayFromYear_next y : DayFromYear (y + 1) = DayFromYear y + year_length y.
Proof.
  unfold DayFromYear, year_length. destruct (leap y) eqn:H; [apply leap_spec in H; lia|].
  assert (¬ (y `mod` 4 = 0 ∧ (y `mod` 100 ≠ 0 ∨ y `mod` 400 = 0))) by (rewrite <-leap_spec; congruence). lia.
Qed.

Lemma DayFromYear_lt y y' : y < y' → DayFromYear y + 365 ≤ DayFromYear y'.
Proof. unfold DayFromYear. lia. Qed.

Lemma YearFromDay_spec n : DayFromYear (YearFromDay n) ≤ n < DayFromYear (YearFromDay n + 1).
Proof.
  unfold YearFromDay. cbv zeta. set (y := 1970 + 400 * n / 146097).
  assert (DayFromYear (y - 1) ≤ n < DayFromYear (y + 2)) as Hy by (unfold DayFromYear, y; lia). clearbody y.
  replace (y + 1 + 1) with (y + 2) by lia.
  destruct (Z.ltb_spec n (DayFromYear y)); [replace (y - 1 + 1) with y by lia; lia|].
  destruct (Z.leb_spec (DayFromYear (y + 1)) n); [replace (y + 1 + 1) with (y + 2) by lia|]; lia.
Qed.

Lemma YearFromDay_unique n y : DayFromYear y ≤ n < DayFromYear (y + 1) → YearFromDay n = y.
Proof.
  intros H. pose proof (YearFromDay_spec n) as H'. destruct (Z.lt_trichotomy (YearFromDay n) y) as [Hy|[?|Hy]]; [|done|].
  - assert (YearFromDay n + 1 ≤ y) as [Hl|<-]%Z.lt_eq_cases by lia; [apply DayFromYear_lt in Hl|]; lia.
  - assert (y + 1 ≤ YearFromDay n) as [Hl|Hl]%Z.lt_eq_cases by lia; [apply DayFromYear_lt in Hl; lia|]. rewrite Hl in H. lia.
Qed.
End Facts.

(** The months, checked one date after another. *)
Definition month_days (b : bool) (m : Z) : Z := days_in_month (if b then 2000 else 2001) m.

Lemma days_in_month_leap y m : days_in_month y m = month_days (leap y) m.
Proof. unfold month_days, days_in_month. by destruct (leap y). Qed.

Definition range (lo : Z) (n : nat) : list Z := (λ i, lo + Z.of_nat i) <$> seq 0 n.

Lemma elem_of_range lo n z : lo ≤ z < lo + Z.of_nat n → z ∈ range lo n.
Proof.
  intros H. apply list_elem_of_fmap. exists (Z.to_nat (z - lo)). split; [lia|]. apply elem_of_seq. lia.
Qed.

Lemma month_of_start b m d : 1 ≤ m ≤ 12 → 1 ≤ d ≤ month_days b m →
  month_of b (month_start b m + (d - 1)) = m ∧ 0 ≤ month_start b m + (d - 1) < (if b then 366 else 365).
Proof.
  intros Hm Hd.
  set (test := λ (b : bool) (m d : Z), implb (d <=? month_days b m)
    ((month_of b (month_start b m + (d - 1)) =? m) && (0 <=? month_start b m + (d - 1))
     && (month_start b m + (d - 1) <? if b then 366 else 365))).
  assert (forallb (λ m, forallb (test b m) (range 1 31)) (range 1 12) = true) as H by (destruct b; vm_compute; reflexivity).
  rewrite forallb_forall in H. specialize (H m (proj1 (list_elem_of_In _ _) (elem_of_range 1 12 m ltac:(lia)))).
  assert (d ≤ 31) as Hd' by (unfold month_days, days_in_month in Hd; repeat case_match; lia).
  rewrite forallb_forall in H. specialize (H d (proj1 (list_elem_of_In _ _) (elem_of_range 1 31 d ltac:(lia)))).
  unfold test in H. rewrite (proj2 (Z.leb_le _ _) (proj2 Hd)) in H. cbn [implb] in H. bool_inv. lia.
Qed.

Lemma month_of_valid (b : bool) doy : 0 ≤ doy < (if b then 366 else 365) →
  1 ≤ month_of b doy ≤ 12 ∧ 1 ≤ doy - month_start b (month_of b doy) + 1 ≤ month_days b (month_of b doy).
Proof.
  intros H.
  set (test := λ (b : bool) (doy : Z), (1 <=? month_of b doy) && (month_of b doy <=? 12) && (1 <=? doy - month_start b (month_of b doy) + 1)
    && (doy - month_start b (month_of b doy) + 1 <=? month_days b (month_of b doy))).
  assert (forallb (test b) (range 0 (if b then 366 else 365)) = true) as Ht by (destruct b; vm_compute; reflexivity).
  rewrite forallb_forall in Ht. assert (In doy (range 0 (if b then 366 else 365))) as Hin by (apply list_elem_of_In, elem_of_range; destruct b; lia).
  specialize (Ht doy Hin). unfold test in Ht. bool_inv. lia.
Qed.

Lemma MakeDay_month y m d : 1 ≤ m ≤ 12 → MakeDay y m d = DayFromYear y + month_start (leap y) m + (d - 1).
Proof.
  intros Hm. unfold MakeDay. cbv zeta. rewrite Z.div_small, Z.mod_small by lia.
  by replace (y + 0) with y by lia; replace (m - 1 + 1) with m by lia.
Qed.

Lemma valid_civil_spec c : valid_civilb c = true ↔ valid_civil c.
Proof. unfold valid_civilb, valid_civil. rewrite !andb_true_iff, !Z.leb_le. tauto. Qed.

Lemma civil_of_MakeDay c : valid_civil c → civil_of (MakeDay (year c) (month c) (day c)) = c.
Proof.
  destruct c as [y m d]. intros [Hm Hd]. cbn in *. rewrite days_in_month_leap in Hd. rewrite MakeDay_month by done.
  destruct (month_of_start (leap y) m d Hm Hd) as [Hmonth Hdoy]. unfold civil_of. cbv zeta.
  assert (YearFromDay (DayFromYear y + month_start (leap y) m + (d - 1)) = y) as ->.
  { apply YearFromDay_unique. rewrite DayFromYear_next. unfold year_length. lia. }
  replace (DayFromYear y + month_start (leap y) m + (d - 1) - DayFromYear y) with (month_start (leap y) m + (d - 1)) by lia.
  rewrite Hmonth. f_equal. lia.
Qed.

Lemma civil_of_valid n : valid_civil (civil_of n) ∧ MakeDay (year (civil_of n)) (month (civil_of n)) (day (civil_of n)) = n.
Proof.
  pose proof (YearFromDay_spec n) as Hy. rewrite DayFromYear_next in Hy. unfold year_length in Hy.
  unfold civil_of, valid_civil. cbv zeta. cbn [year month day]. set (y := YearFromDay n) in *.
  destruct (month_of_valid (leap y) (n - DayFromYear y)) as [Hm Hd]; [lia|].
  split; [split; [done|by rewrite days_in_month_leap]|]. rewrite MakeDay_month by done. lia.
Qed.

(** *** The text is read back *)

Lemma digits_app n acc z s : 0 ≤ z < 10 ^ Z.of_nat n → digits n acc (fixed n z ++ s) = Some (acc * 10 ^ Z.of_nat n + z, s).
Proof.
  assert (∀ n k acc z s, 0 ≤ z < 10 ^ Z.of_nat n →
    digits (n + k) acc (fixed n z ++ s) = digits k (acc * 10 ^ Z.of_nat n + z) s) as H.
  { clear. induction n as [|n IH]; intros k acc z s Hz; cbn [fixed].
    - cbn in Hz. cbn [app Nat.add]. f_equal. cbn. lia.
    - rewrite Nat2Z.inj_succ, Z.pow_succ_r in * by lia. rewrite <-app_assoc, Nat.add_succ_comm, IH.
      + cbn [app digits]. pose proof (Z.mod_pos_bound z 10 ltac:(lia)).
        destruct (Z.leb_spec 48 (48 + z `mod` 10)); [|lia]. destruct (Z.leb_spec (48 + z `mod` 10) 57); [|lia]. cbn [andb].
        f_equal. pose proof (Z.div_mod z 10 ltac:(lia)). nia.
      + split; [apply Z.div_pos; lia|apply Z.div_lt_upper_bound; lia]. }
  intros Hz. rewrite <-(Nat.add_0_r n) at 1. by rewrite H.
Qed.

Lemma after_app c n z s : 0 ≤ z < 10 ^ Z.of_nat n → after c n (c :: fixed n z ++ s) = Some (z, s).
Proof. intros Hz. cbn [after]. rewrite Z.eqb_refl, digits_app by done. by rewrite Z.mul_0_l. Qed.

Lemma fraction_app z : 0 ≤ z < 1000 → fraction (46 :: fixed 3 z ++ [90]) = Some (z, [90]).
Proof.
  intros Hz. unfold fraction. assert (span_digits (fixed 3 z ++ [90]) = (fixed 3 z, [90])) as ->.
  { assert (∀ n z, span_digits (fixed n z ++ [90]) = (fixed n z, [90])) as H; [|apply H].
    intros n. assert (∀ z s, span_digits (fixed n z ++ s) = (fixed n z ++ (span_digits s).1, (span_digits s).2)) as H.
    { induction n as [|n IH]; intros w s; cbn [fixed]; [cbn [app]; by destruct (span_digits s)|]. rewrite <-app_assoc, IH. cbn [app span_digits].
      pose proof (Z.mod_pos_bound w 10 ltac:(lia)). destruct (Z.leb_spec 48 (48 + w `mod` 10)); [|lia].
      destruct (Z.leb_spec (48 + w `mod` 10) 57); [|lia]. cbn [andb fst snd]. by rewrite <-app_assoc. }
    intros w. rewrite H. cbn. by rewrite app_nil_r. }
  assert (length (fixed 3 z) = 3%nat) as Hl by done. rewrite Hl. cbn [Nat.leb andb].
  rewrite take_app_length' by done. rewrite <-(app_nil_r (fixed 3 z)), digits_app by (cbn; lia). done.
Qed.

Lemma read_rest_text y c ms : valid_civil c → 0 ≤ ms < msPerDay →
  read_rest y (rest_text c ms)
  = Some (mkParts (mkCivil y (month c) (day c)) (ms / 3600000) ((ms / 60000) `mod` 60) ((ms / 1000) `mod` 60) (ms `mod` 1000) 1 0 0).
Proof.
  intros [Hm Hd] Hms. unfold msPerDay in Hms. unfold read_rest, rest_text. cbv zeta.
  assert (days_in_month (year c) (month c) ≤ 31) by (unfold days_in_month; repeat case_match; lia).
  assert (0 ≤ ms / 3600000 < 24) by (split; [apply Z.div_pos; lia|apply Z.div_lt_upper_bound; lia]).
  pose proof (Z.mod_pos_bound (ms / 60000) 60 ltac:(lia)). pose proof (Z.mod_pos_bound (ms / 1000) 60 ltac:(lia)).
  pose proof (Z.mod_pos_bound ms 1000 ltac:(lia)).
  do 5 (rewrite after_app by (change (10 ^ Z.of_nat 2) with 100; lia); cbn [mbind option_bind fst snd]).
  rewrite fraction_app by done. done.
Qed.

Lemma local_ms_split ms : 0 ≤ ms < msPerDay →
  ((ms / 3600000 * 60 + (ms / 60000) `mod` 60) * 60 + (ms / 1000) `mod` 60) * 1000 + ms `mod` 1000 = ms.
Proof.
  intros _. replace 3600000 with (1000 * 60 * 60) by done. replace 60000 with (1000 * 60) by done. rewrite <-!Z.div_div by lia.
  pose proof (Z.div_mod ms 1000 ltac:(lia)). pose proof (Z.div_mod (ms / 1000) 60 ltac:(lia)).
  pose proof (Z.div_mod (ms / 1000 / 60) 60 ltac:(lia)). lia.
Qed.

(** The years of the time values are far from the ones that six digits do not
    have. *)
Lemma civil_year_bounds t : date_range t = true → -271821 ≤ year (civil_of (t / msPerDay)) ≤ 275760.
Proof.
  unfold date_range, Instant.MIN_DATE_EPOCH_MILLISECONDS, Instant.MAX_DATE_EPOCH_MILLISECONDS. intros H. bool_inv.
  cbn [year civil_of]. pose proof (YearFromDay_spec (t / msPerDay)) as Hy.
  assert (-100000000 ≤ t / msPerDay ≤ 100000000) as Hd.
  { unfold msPerDay. split; [apply Z.div_le_lower_bound; lia|apply Z.div_le_upper_bound; lia]. }
  unfold civil_of. cbv zeta. cbn [year]. set (y := YearFromDay (t / msPerDay)) in *.
  split; apply Z.nlt_ge; intros Hlt.
  - assert (y + 1 ≤ -271821) as [Hl|Hl]%Z.lt_eq_cases by lia; [apply DayFromYear_lt in Hl|rewrite Hl in Hy];
      change (DayFromYear (-271821)) with (-100000109) in *; lia.
  - apply DayFromYear_lt in Hlt. change (DayFromYear 275760) with 99999744 in Hlt. lia.
Qed.

Lemma year_text_read c ms : valid_civil c → 0 ≤ ms < msPerDay → -999999 ≤ year c ≤ 999999 →
  read_date_time (year_text (year c) ++ rest_text c ms)
  = Some (mkParts c (ms / 3600000) ((ms / 60000) `mod` 60) ((ms / 1000) `mod` 60) (ms `mod` 1000) 1 0 0)
  ∧ (0 ≤ year c ≤ 9999 → read_instant (year_text (year c) ++ rest_text c ms) = read_date_time (year_text (year c) ++ rest_text c ms)).
Proof.
  intros Hc Hms Hy. pose proof (read_rest_text (year c) c ms Hc Hms) as Hrest.
  assert (mkCivil (year c) (month c) (day c) = c) as Heq by (by destruct c). rewrite Heq in Hrest. unfold year_text.
  destruct (Z.leb_spec 0 (year c)); [destruct (Z.leb_spec (year c) 9999)|]; cbn [andb].
  - assert (read_instant (fixed 4 (year c) ++ rest_text c ms)
      = Some (mkParts c (ms / 3600000) ((ms / 60000) `mod` 60) ((ms / 1000) `mod` 60) (ms `mod` 1000) 1 0 0)) as Hr.
    { unfold read_instant. rewrite digits_app by (change (10 ^ Z.of_nat 4) with 10000; lia). cbn [mbind option_bind fst snd]. by rewrite Z.mul_0_l. }
    assert (read_date_time (fixed 4 (year c) ++ rest_text c ms) = read_instant (fixed 4 (year c) ++ rest_text c ms)) as Hd.
    { unfold read_date_time. cbn [fixed app]. set (d := (year c / 10 / 10 / 10) `mod` 10).
      assert (0 ≤ d < 10) as Hd by (apply Z.mod_pos_bound; lia).
      destruct (decide (d = 0 ∨ d = 1 ∨ d = 2 ∨ d = 3 ∨ d = 4)) as [H'|H']; [by destruct H' as [->|[->|[->|[->| ->]]]]|].
      assert (d = 5 ∨ d = 6 ∨ d = 7 ∨ d = 8 ∨ d = 9) as H'' by lia. by destruct H'' as [->|[->|[->|[->| ->]]]]. }
    rewrite Hd, Hr. done.
  - rewrite (proj2 (Z.ltb_ge _ _)) by done. split; [|lia]. cbn [app read_date_time].
    rewrite digits_app by (change (10 ^ Z.of_nat 6) with 1000000; lia). cbn [mbind option_bind fst snd]. by rewrite Z.mul_0_l.
  - rewrite (proj2 (Z.ltb_lt _ _)) by done. split; [|lia]. cbn [app read_date_time].
    rewrite digits_app by (change (10 ^ Z.of_nat 6) with 1000000; lia). cbn [mbind option_bind fst snd]. rewrite Z.mul_0_l.
    rewrite (proj2 (Z.eqb_neq _ _)) by lia. by replace (- (0 + - year c)) with (year c) by lia.
Qed.

(** What a canonical text is read as. *)
Definition parts_of (t : Z) : instant_parts :=
  let ms := t `mod` msPerDay in
  mkParts (civil_of (t / msPerDay)) (ms / 3600000) ((ms / 60000) `mod` 60) ((ms / 1000) `mod` 60) (ms `mod` 1000) 1 0 0.

Lemma parts_of_valid t : valid_parts (parts_of t) = true ∧ time_of (parts_of t) = t.
Proof.
  destruct (civil_of_valid (t / msPerDay)) as [Hv Hd]. pose proof (Z.mod_pos_bound t msPerDay ltac:(done)) as Hms.
  unfold parts_of, valid_parts, time_of, local_ms. cbv zeta. cbn [date hour minute second millisecond offsetSign offsetHour offsetMinute].
  split.
  - rewrite (proj2 (valid_civil_spec _) Hv). unfold msPerDay in *. repeat apply andb_true_intro, conj; try done; apply Z.leb_le;
      [apply Z.lt_succ_r, Z.div_lt_upper_bound; lia|apply Z.lt_succ_r, Z.mod_pos_bound; lia..].
  - rewrite Hd, local_ms_split by done. pose proof (Z.div_mod t msPerDay ltac:(done)). lia.
Qed.

Lemma read_toISOString t : date_range t = true → read_date_time (toISOString t) = Some (parts_of t).
Proof.
  intros Ht. unfold toISOString. cbv zeta. apply year_text_read; [apply civil_of_valid|by apply Z.mod_pos_bound|].
  pose proof (civil_year_bounds t Ht). lia.
Qed.

Lemma iso_time_toISOString t : date_range t = true → iso_time (toISOString t) = Some t.
Proof.
  intros Ht. unfold iso_time. rewrite read_toISOString by done. destruct (parts_of_valid t) as [-> ->]. by rewrite Ht.
Qed.

(** ** The text form of an instant *)

Lemma wf_date_range i : Instant.wf i ↔ date_range (Instant.epochMilliseconds i) = true.
Proof. unfold Instant.wf, date_range. rewrite andb_true_iff, !Z.leb_le. done. Qed.

(** An instant is parsed from its own text and from no other: whatever the
    language makes of a text that is not in its format, the comparison with the
    canonical text refuses it. *)
Theorem instant_text_exact `{DateParsingLaws} s i :
  InstantText.parse s = Ok i ↔ Instant.wf i ∧ s = InstantText.toISOString i.
Proof.
  unfold InstantText.parse, InstantText.toISOString. split.
  - destruct (Date_parse s) as [t|]; [|done]. intros (? & Heq%throw_when_Ok & Hi)%bind_Ok. apply negb_false_iff in Heq.
    unfold str_eqb in Heq. apply bool_decide_eq_true in Heq as <-. by apply Instant.fromEpochMilliseconds_Ok in Hi as [-> ?].
  - intros [Hwf ->]. pose proof (proj1 (wf_date_range i) Hwf) as Ht.
    rewrite (Date_parse_iso _ _ (iso_time_toISOString _ Ht)). unfold str_eqb. rewrite bool_decide_eq_true_2 by done. run.
    apply Instant.fromEpochMilliseconds_Ok. by destruct i.
Qed.
