(* ===== verification/PriceParameters.v ===== *)
(** The parameters of a price list: how they are read
    (modules/automatic-quotes/automatic-quote-pricing.ts and
    pricing/seller-tax-policy.ts of the backend) and what a publication requires
    of them (modules/resources/price-list-validation.ts).  The parameters are
    JSON, a [value] here. *)
From S2P Require Import Prelude Text Language Primitives Arithmetic Payment Values.

Module PriceParameters.

(** ** Reading JSON *)

(** [throw new Error(...)] *)
Definition fail {A} : result A := Throw PlainError.
Definition fail_when (b : bool) : result () := throw_when b PlainError.

Definition record (v : value) : result value := fail_when (negb (is_record v)) ;; Ok v.

Definition array (v : value) : result (list value) :=
  match v with ArrayV _ l => Ok l | _ => fail end.

(** [/^\d+$/.test(s)] *)
Definition all_digits (s : jstr) : bool :=
  negb (bool_decide (s = [])) && forallb (λ c, (48 <=? c) && (c <=? 57)) s.

(** A string of digits always is the text of a [bigint]. *)
Definition integer (v : value) : result Z :=
  match v with
  | Str s =>
      fail_when (negb (all_digits s)) ;;
      match BigInt_of_string s with Some z => Ok z | None => fail end
  | _ => fail
  end.

Definition positiveInteger (v : value) : result Z :=
  parsed ← integer v;
  fail_when (parsed <=? 0) ;;
  Ok parsed.

Definition optionalPositiveInteger (v : value) : result (option Z) :=
  match v with Undefined => Ok None | _ => Some <$> positiveInteger v end.

Definition optionalRecord (v : value) : result value :=
  match v with Undefined => Ok Undefined | _ => record v end.

Definition numberInteger (v : value) : result jsnumber :=
  match v with
  | Integral z => fail_when (negb (safe_int z) || (z <? 0)) ;; Ok (IntNum z)
  | _ => fail
  end.

Definition stringArray (v : value) : result (list jstr) :=
  values ← array v;
  fail_when (existsb (λ entry, negb (nonBlank entry)) values) ;;
  traverse (λ entry, match entry with Str s => Ok s | _ => fail end) values.

Definition text (v : value) : result jstr :=
  match v with Str s => fail_when (blank s) ;; Ok (js_trim s) | _ => fail end.

Definition rational (v : value) : result Rational :=
  parsed ← record v;
  numerator ← integer (parsed ?. "numerator");
  denominator ← positiveInteger (parsed ?. "denominator");
  Ok (mkRational numerator denominator).

(** ** The seller's tax policy *)

Definition basisPoints (v : value) : result Z :=
  match v with
  | Integral z => fail_when (negb (safe_int z) || (z <? 0) || (10000 <? z)) ;; Ok z
  | _ => fail
  end.

Definition parseSellerTaxPolicy (parameters : value) : result Tax.SellerTaxPolicy :=
  root ← record parameters;
  configured ← record (root ?. "sellerTaxPolicy");
  let regime := configured ?. "regime" in
  vatRateBasisPoints ← basisPoints (configured ?. "vatRateBasisPoints");
  if (regime === lit "NON_VAT_PAYER") && (vatRateBasisPoints =? 0)
  then Ok (Tax.mkPolicy Tax.NON_VAT_PAYER (IntNum vatRateBasisPoints))
  else if (regime === lit "VAT_PAYER") && (0 <? vatRateBasisPoints)
  then Ok (Tax.mkPolicy Tax.VAT_PAYER (IntNum vatRateBasisPoints))
  else fail.

(** ** The parameters *)

Inductive Material := PLA | PETG.

Record MaterialRates := mkMaterialRates { rate_PLA : Rational; rate_PETG : Rational }.
Record InfillRatios := mkInfillRatios {
  ratio_DECORATIVE : Rational;
  ratio_STANDARD : Rational;
  ratio_STRONG : Rational;
}.

(** [rates[material]] *)
Definition rateOf (rates : MaterialRates) (m : Material) : Rational :=
  match m with PLA => rate_PLA rates | PETG => rate_PETG rates end.

Record ShipmentCategoryParameters := mkCategory {
  id : jstr;
  maxXMicrometers : Z;
  maxYMicrometers : Z;
  maxZMicrometers : Z;
  maxDimensionSumMicrometers : Z;
  maxWeightMilligrams : Z;
  maxParcelVolumeCubicMicrometers : Z;
  carrierCostMinor : Z;
  customerShippingRateMinor : Z;
  packagingCostMinor : Z;
}.

Record AutomaticQuotePricingParameters := mkParameters {
  taxPolicy : Tax.SellerTaxPolicy;
  machineRateMinorPerSecond : Rational;
  laborRateMinorPerSecond : Rational;
  amortizationRateMinorPerSecond : Rational;
  reprintRate : Rational;
  marginRate : Rational;
  materialRateMinorPerMilligram : MaterialRates;
  roughMaterialDensityMilligramsPerCubicMillimeter : MaterialRates;
  roughMaterialVolumeRatioByInfillPreset : InfillRatios;
  roughExtrusionMilligramsPerSecond : Rational;
  handlingOrderFixedSeconds : Z;
  handlingPlateSeconds : Z;
  handlingPieceSeconds : Z;
  handlingPackSeconds : Z;
  shippingTripSeconds : Z;
  shippingTripPricingDivisor : Z;
  minimumPrintPriceMinor : Z;
  smallOrderWeightThresholdMilligrams : Z;
  smallOrderSurchargeMinor : Z;
  freeShippingPrintThresholdMinor : Z;
  expressMultiplier : Rational;
  expressMaximumPlateCount : Z;
  expressAvailableProductionWindowSeconds : Z;
  expressPackagingBufferSeconds : Z;
  maximumAutomaticQuantity : Z;
  maximumAutomaticAmountMinor : Z;
  packingPaddingMicrometers : Z;
  fillCoefficient : Rational;
  packagingWeightMilligrams : Z;
  paymentFeeRateBasisPoints : jsnumber;
  paymentFeeFixedMinor : Z;
  paymentProviderConfig : value;
  shipmentCategories : list ShipmentCategoryParameters;
}.

Definition materialRationals (v : value) : result MaterialRates :=
  values ← record v;
  pla ← rational (values ?. "PLA");
  petg ← rational (values ?. "PETG");
  Ok (mkMaterialRates pla petg).

Definition infillRationals (v : value) : result InfillRatios :=
  values ← record v;
  decorative ← rational (values ?. "DECORATIVE");
  standard ← rational (values ?. "STANDARD");
  strong ← rational (values ?. "STRONG");
  Ok (mkInfillRatios decorative standard strong).

Definition parseCategory (entry : value) : result ShipmentCategoryParameters :=
  category ← record entry;
  id ← text (category ?. "id");
  maxX ← integer (category ?. "maxXMicrometers");
  maxY ← integer (category ?. "maxYMicrometers");
  maxZ ← integer (category ?. "maxZMicrometers");
  maxSum ← integer (category ?. "maxDimensionSumMicrometers");
  maxWeight ← integer (category ?. "maxWeightMilligrams");
  maxVolume ← integer (category ?. "maxParcelVolumeCubicMicrometers");
  carrierCost ← integer (category ?. "carrierCostMinor");
  shippingRate ← integer (category ?. "customerShippingRateMinor");
  packagingCost ← integer (category ?. "packagingCostMinor");
  Ok (mkCategory id maxX maxY maxZ maxSum maxWeight maxVolume carrierCost shippingRate packagingCost).

Definition parseAutomaticQuotePricingParameters (v : value) : result AutomaticQuotePricingParameters :=
  root ← record v;
  automatic ← record (root ?. "automaticQuote");
  materialRates ← record (automatic ?. "materialRateMinorPerMilligram");
  entries ← array (automatic ?. "shipmentCategories");
  categories ← traverse parseCategory entries;
  fail_when (bool_decide (categories = [])) ;;
  taxPolicy ← parseSellerTaxPolicy v;
  machineRate ← rational (automatic ?. "machineRateMinorPerSecond");
  laborRate ← rational (automatic ?. "laborRateMinorPerSecond");
  amortizationRate ← rational (automatic ?. "amortizationRateMinorPerSecond");
  reprintRate ← rational (automatic ?. "reprintRate");
  marginRate ← rational (automatic ?. "marginRate");
  pla ← rational (materialRates ?. "PLA");
  petg ← rational (materialRates ?. "PETG");
  density ← materialRationals (automatic ?. "roughMaterialDensityMilligramsPerCubicMillimeter");
  volumeRatio ← infillRationals (automatic ?. "roughMaterialVolumeRatioByInfillPreset");
  extrusion ← rational (automatic ?. "roughExtrusionMilligramsPerSecond");
  orderFixed ← integer (automatic ?. "handlingOrderFixedSeconds");
  plate ← integer (automatic ?. "handlingPlateSeconds");
  piece ← integer (automatic ?. "handlingPieceSeconds");
  pack ← integer (automatic ?. "handlingPackSeconds");
  trip ← integer (automatic ?. "shippingTripSeconds");
  tripDivisor ← positiveInteger (automatic ?. "shippingTripPricingDivisor");
  minimumPrintPrice ← integer (automatic ?. "minimumPrintPriceMinor");
  smallOrderWeight ← integer (automatic ?. "smallOrderWeightThresholdMilligrams");
  smallOrderSurcharge ← integer (automatic ?. "smallOrderSurchargeMinor");
  freeShipping ← integer (automatic ?. "freeShippingPrintThresholdMinor");
  expressMultiplier ← rational (automatic ?. "expressMultiplier");
  expressPlates ← positiveInteger (automatic ?. "expressMaximumPlateCount");
  expressWindow ← positiveInteger (automatic ?. "expressAvailableProductionWindowSeconds");
  expressBuffer ← integer (automatic ?. "expressPackagingBufferSeconds");
  maximumQuantity ← positiveInteger (automatic ?. "maximumAutomaticQuantity");
  maximumAmount ← positiveInteger (automatic ?. "maximumAutomaticAmountMinor");
  padding ← integer (automatic ?. "packingPaddingMicrometers");
  fillCoefficient ← rational (automatic ?. "fillCoefficient");
  packagingWeight ← integer (automatic ?. "packagingWeightMilligrams");
  feeRate ← numberInteger (automatic ?. "paymentFeeRateBasisPoints");
  feeFixed ← integer (automatic ?. "paymentFeeFixedMinor");
  providerConfig ← record (automatic ?. "paymentProviderConfig");
  Ok (mkParameters taxPolicy machineRate laborRate amortizationRate reprintRate marginRate
        (mkMaterialRates pla petg) density volumeRatio extrusion orderFixed plate piece pack trip
        tripDivisor minimumPrintPrice smallOrderWeight smallOrderSurcharge freeShipping
        expressMultiplier expressPlates expressWindow expressBuffer maximumQuantity maximumAmount
        padding fillCoefficient packagingWeight feeRate feeFixed providerConfig categories).

(** ** Publication *)

Definition MAX_INT64 : Z := 9223372036854775807.
Definition MAX_API_MINOR : Z := MAX_SAFE_INTEGER.
Definition MAX_PUBLIC_QUANTITY : Z := 256000.

Definition BALANCE_EARNED_COMPONENT_KINDS : list jstr :=
  js <$> ["ITEM_PRODUCTION"%string; "ITEM_QUANTITY"%string; "ITEM_POSTPROCESSING"%string;
          "ORDER_MIN_PRINT"%string; "ORDER_SMALL_SURCHARGE"%string; "SHIPMENT"%string;
          "EXPRESS"%string; "PAYMENT_FEE"%string; "VAT"%string].

Record IndividualPaymentPolicy := mkPaymentPolicy {
  balancePaymentDays : Z;
  earnedComponentKinds : list jstr;
}.

Definition string_in (allowed : list jstr) (v : value) : bool :=
  match v with Str s => existsb (str_eqb s) allowed | _ => false end.

(** [new Set(kinds).size !== kinds.length], of strings. *)
Definition has_duplicates (l : list value) : bool :=
  negb (size (list_to_set ((λ v, match v with Str s => s | _ => [] end) <$> l) : gset jstr)
        =? length l)%nat.

Definition parseIndividualPaymentPolicy (v : value) : option IndividualPaymentPolicy :=
  if negb (is_record v) then None
  else
    match v ?. "balance_payment_days", v ?. "balance_timeout_earned_component_kinds" with
    | Integral days, ArrayV _ kinds =>
        if (days <? 1) || (36500 <? days) || bool_decide (kinds = [])
           || existsb (λ kind, negb (string_in BALANCE_EARNED_COMPONENT_KINDS kind)) kinds
           || has_duplicates kinds
        then None
        else Some (mkPaymentPolicy days ((λ v, match v with Str s => s | _ => [] end) <$> kinds))
    | _, _ => None
    end.

Definition RATIONAL_FIELDS : list jstr :=
  js <$> ["machineRateMinorPerSecond"%string; "laborRateMinorPerSecond"%string;
          "amortizationRateMinorPerSecond"%string; "reprintRate"%string; "marginRate"%string;
          "roughExtrusionMilligramsPerSecond"%string; "expressMultiplier"%string;
          "fillCoefficient"%string].

Definition AUTOMATIC_FIELDS : list jstr :=
  js <$> ["machineRateMinorPerSecond"%string; "laborRateMinorPerSecond"%string;
          "amortizationRateMinorPerSecond"%string; "reprintRate"%string; "marginRate"%string;
          "materialRateMinorPerMilligram"%string;
          "roughMaterialDensityMilligramsPerCubicMillimeter"%string;
          "roughMaterialVolumeRatioByInfillPreset"%string;
          "roughExtrusionMilligramsPerSecond"%string; "handlingOrderFixedSeconds"%string;
          "handlingPlateSeconds"%string; "handlingPieceSeconds"%string; "handlingPackSeconds"%string;
          "shippingTripSeconds"%string; "shippingTripPricingDivisor"%string;
          "minimumPrintPriceMinor"%string; "smallOrderWeightThresholdMilligrams"%string;
          "smallOrderSurchargeMinor"%string; "freeShippingPrintThresholdMinor"%string;
          "expressMultiplier"%string; "expressMaximumPlateCount"%string;
          "expressAvailableProductionWindowSeconds"%string; "expressPackagingBufferSeconds"%string;
          "maximumAutomaticQuantity"%string; "maximumAutomaticAmountMinor"%string;
          "packingPaddingMicrometers"%string; "fillCoefficient"%string;
          "packagingWeightMilligrams"%string; "paymentFeeRateBasisPoints"%string;
          "paymentFeeFixedMinor"%string; "paymentProviderConfig"%string;
          "shipmentCategories"%string].

Definition CATEGORY_FIELDS : list jstr :=
  js <$> ["id"%string; "maxXMicrometers"%string; "maxYMicrometers"%string;
          "maxZMicrometers"%string; "maxDimensionSumMicrometers"%string;
          "maxWeightMilligrams"%string; "maxParcelVolumeCubicMicrometers"%string;
          "carrierCostMinor"%string; "customerShippingRateMinor"%string;
          "packagingCostMinor"%string].

(** [throw new BadRequestException(...)] *)
Definition bad_when (b : bool) : result () := throw_when b (BadRequestException None).

(** [Object.keys(v)] *)
Definition keys (v : value) : list jstr := match v with RecordV _ fields => fst <$> fields | _ => [] end.

Definition requestRecord (v : value) : result value := bad_when (negb (is_record v)) ;; Ok v.

(** [if (s)], of the result of [find] on strings. *)
Definition truthy_string (s : option jstr) : bool := match s with None | Some [] => false | Some _ => true end.

(** No key of [required] is the name of a property that every object
    inherits, so [in] tests the own properties. *)
Definition exactKeys (v : value) (required : list jstr) : result () :=
  bad_when (truthy_string (List.find (λ key, negb (existsb (str_eqb key) required)) (keys v))) ;;
  bad_when (truthy_string (List.find (λ key, negb (existsb (str_eqb key) (keys v))) required)).

Definition rationalKeys (v : value) : result () :=
  r ← requestRecord v;
  exactKeys r [js "numerator"; js "denominator"].

Definition rationalGroup (v : value) (names : list jstr) : result () :=
  group ← requestRecord v;
  exactKeys group names ;;
  _ ← traverse (λ key, rationalKeys (property group key)) names;
  Ok ().

Definition checkedInteger (z : Z) (positive : bool) : result () :=
  bad_when ((MAX_INT64 <? z) || (positive && (z =? 0))).

Definition checkedMoney (z : Z) : result () := bad_when (MAX_API_MINOR <? z).

Definition checkedRate (r : Rational) : result () :=
  checkedInteger (numerator r) false ;; checkedInteger (denominator r) true.

(** [(numerator + denominator - 1n) / denominator] *)
Definition ceilDiv (numerator denominator : Z) : result Z :=
  throw_when (denominator =? 0) RangeError ;;
  Ok (Z.quot (numerator + denominator - 1) denominator).

Definition rationalFieldsOf (p : AutomaticQuotePricingParameters) : list Rational :=
  [machineRateMinorPerSecond p; laborRateMinorPerSecond p; amortizationRateMinorPerSecond p;
   reprintRate p; marginRate p; roughExtrusionMilligramsPerSecond p; expressMultiplier p;
   fillCoefficient p].

Definition materialRatesOf (r : MaterialRates) : list Rational := [rate_PLA r; rate_PETG r].
Definition infillRatiosOf (r : InfillRatios) : list Rational :=
  [ratio_DECORATIVE r; ratio_STANDARD r; ratio_STRONG r].

Definition integerFieldsOf (p : AutomaticQuotePricingParameters) : list Z :=
  [handlingOrderFixedSeconds p; handlingPlateSeconds p; handlingPieceSeconds p;
   handlingPackSeconds p; shippingTripSeconds p; shippingTripPricingDivisor p;
   minimumPrintPriceMinor p; smallOrderWeightThresholdMilligrams p; smallOrderSurchargeMinor p;
   freeShippingPrintThresholdMinor p; expressMaximumPlateCount p;
   expressAvailableProductionWindowSeconds p; expressPackagingBufferSeconds p;
   maximumAutomaticQuantity p; maximumAutomaticAmountMinor p; packingPaddingMicrometers p;
   packagingWeightMilligrams p; paymentFeeFixedMinor p].

Definition moneyFieldsOf (p : AutomaticQuotePricingParameters) : list Z :=
  [minimumPrintPriceMinor p; smallOrderSurchargeMinor p; freeShippingPrintThresholdMinor p;
   maximumAutomaticAmountMinor p; paymentFeeFixedMinor p].

(** The body of the loop over the categories. *)
Definition checkedCategory (categoryIds : gset jstr) (category : ShipmentCategoryParameters)
    : result (gset jstr) :=
  bad_when ((100 <? js_length (id category)) || bool_decide (id category ∈ categoryIds)) ;;
  traverse (λ z, checkedInteger z true)
    [maxXMicrometers category; maxYMicrometers category; maxZMicrometers category;
     maxDimensionSumMicrometers category; maxWeightMilligrams category;
     maxParcelVolumeCubicMicrometers category] ;;
  traverse (λ z, checkedInteger z false ;; checkedMoney z)
    [carrierCostMinor category; customerShippingRateMinor category; packagingCostMinor category] ;;
  Ok ({[id category]} ∪ categoryIds).

(** The shape of the JSON, before it is parsed. *)
Definition checkedShape (v : value) : result () :=
  root ← requestRecord v;
  exactKeys root [js "sellerTaxPolicy"; js "automaticQuote"; js "balance_payment_days";
                  js "balance_timeout_earned_component_kinds"] ;;
  bad_when (negb (bool_decide (is_Some (parseIndividualPaymentPolicy root)))) ;;
  policy ← requestRecord (root ?. "sellerTaxPolicy");
  exactKeys policy [js "regime"; js "vatRateBasisPoints"] ;;
  automatic ← requestRecord (root ?. "automaticQuote");
  exactKeys automatic AUTOMATIC_FIELDS ;;
  traverse (λ field, rationalKeys (property automatic field)) RATIONAL_FIELDS ;;
  rationalGroup (automatic ?. "materialRateMinorPerMilligram") [js "PLA"; js "PETG"] ;;
  rationalGroup (automatic ?. "roughMaterialDensityMilligramsPerCubicMillimeter")
    [js "PLA"; js "PETG"] ;;
  rationalGroup (automatic ?. "roughMaterialVolumeRatioByInfillPreset")
    [js "DECORATIVE"; js "STANDARD"; js "STRONG"] ;;
  let categories := automatic ?. "shipmentCategories" in
  bad_when (negb (is_array categories) || bool_decide (elements categories = [])) ;;
  traverse (λ category, r ← requestRecord category; exactKeys r CATEGORY_FIELDS) (elements categories) ;;
  Ok ().

(** The ranges of the parsed parameters. *)
Definition checkedRanges (parsed : AutomaticQuotePricingParameters) : result () :=
  traverse checkedRate (rationalFieldsOf parsed) ;;
  traverse checkedRate
    (materialRatesOf (materialRateMinorPerMilligram parsed)
     ++ materialRatesOf (roughMaterialDensityMilligramsPerCubicMillimeter parsed)
     ++ infillRatiosOf (roughMaterialVolumeRatioByInfillPreset parsed)) ;;
  bad_when ((numerator (fillCoefficient parsed) =? 0)
    || (denominator (fillCoefficient parsed) <? numerator (fillCoefficient parsed))) ;;
  bad_when (numerator (expressMultiplier parsed) <? denominator (expressMultiplier parsed)) ;;
  bad_when (numerator (roughExtrusionMilligramsPerSecond parsed) =? 0) ;;
  traverse (λ rate, bad_when (numerator rate =? 0))
    (materialRatesOf (roughMaterialDensityMilligramsPerCubicMillimeter parsed)
     ++ infillRatiosOf (roughMaterialVolumeRatioByInfillPreset parsed)) ;;
  traverse (λ z, checkedInteger z false) (integerFieldsOf parsed) ;;
  traverse checkedMoney (moneyFieldsOf parsed) ;;
  bad_when (2 <? expressMaximumPlateCount parsed) ;;
  bad_when (10000 <=? num (paymentFeeRateBasisPoints parsed)) ;;
  _ ← foldM checkedCategory ∅ (shipmentCategories parsed);
  Ok ().

(** The greatest net price that the fixed parts of the parameters make. *)
Definition maximumConfiguredNet (parsed : AutomaticQuotePricingParameters) : result Z :=
  let parcelCount :=
    if maximumAutomaticQuantity parsed <? MAX_PUBLIC_QUANTITY
    then maximumAutomaticQuantity parsed else MAX_PUBLIC_QUANTITY in
  let labor := laborRateMinorPerSecond parsed in
  fixedHandling ← ceilDiv (handlingOrderFixedSeconds parsed * numerator labor) (denominator labor);
  pack ← ceilDiv (handlingPackSeconds parsed * numerator labor) (denominator labor);
  trip ← ceilDiv (shippingTripSeconds parsed * numerator labor)
           (denominator labor * shippingTripPricingDivisor parsed);
  let parcelHandling := pack + trip in
  let maximumCategoryCost :=
    foldl (λ maximum category,
      let cost := carrierCostMinor category + packagingCostMinor category in
      if maximum <? cost then cost else maximum) 0 (shipmentCategories parsed) in
  let maximumShippingRate :=
    foldl (λ maximum category,
      if maximum <? customerShippingRateMinor category
      then customerShippingRateMinor category else maximum) 0 (shipmentCategories parsed) in
  let fixedProductionCost := fixedHandling + parcelCount * (parcelHandling + maximumCategoryCost) in
  let margin := marginRate parsed in
  fixedPrintPrice ← ceilDiv (fixedProductionCost * (denominator margin + numerator margin)) (denominator margin);
  let minimumBasePrice :=
    if minimumPrintPriceMinor parsed <? fixedPrintPrice then fixedPrintPrice
    else minimumPrintPriceMinor parsed in
  base ← ceilDiv (minimumBasePrice * numerator (expressMultiplier parsed))
           (denominator (expressMultiplier parsed));
  Ok (base + smallOrderSurchargeMinor parsed + parcelCount * maximumShippingRate).

(** The single payment of an automatic quote. *)
Definition fullPayment (rate : jsnumber) (feeFixed : Money.t) : list Payment.PaymentScheduleCapture :=
  [Payment.mkCapture (js "automatic-full-payment") (IntNum 0) Payment.FULL (IntNum 10000) rate feeFixed].

(** [try { ... } catch (error) { throw new BadRequestException(...); }], where
    a [BadRequestException] passes as it is. *)
Definition requesting {A} (m : result A) : result A :=
  match m with
  | Ok a => Ok a
  | Throw (BadRequestException code) => Throw (BadRequestException code)
  | Throw _ => Throw (BadRequestException None)
  end.

Definition validatePriceListParameters (v : value) : result () :=
  checkedShape v ;;
  parsed ← match parseAutomaticQuotePricingParameters v with
           | Ok parsed => Ok parsed
           | Throw _ => Throw (BadRequestException None)
           end;
  checkedRanges parsed ;;
  net ← maximumConfiguredNet parsed;
  requesting
    (m ← Money.of_ (BigIntIn net) (js "CZK");
     feeFixed ← Money.of_ (BigIntIn (paymentFeeFixedMinor parsed)) (js "CZK");
     configured ← Payment.grossUpPaymentSchedule m
       (fullPayment (paymentFeeRateBasisPoints parsed) feeFixed) (taxPolicy parsed);
     checkedMoney (Money.minorUnits (Payment.contractTotal configured)) ;;
     checkedMoney (Money.minorUnits (Payment.paymentFee configured))) ;;
  fee ← ceilDiv (maximumAutomaticAmountMinor parsed * num (paymentFeeRateBasisPoints parsed)) 10000;
  checkedMoney (fee + paymentFeeFixedMinor parsed).

End PriceParameters.
