(* ===== verification/AutomaticQuote.v ===== *)
(** The automatic quote
    (modules/automatic-quotes/automatic-quote-pricing.ts of the backend): from a
    price list's parameters and the items of a quote to the input of
    [prepareOrderQuote] of the core package (Prepare.v), and the limit on the
    amount of an automatic quote. *)
From S2P Require Import Prelude Text Language Primitives Arithmetic Allocations Payment Digest ShipmentPlan Quote Prepare Values Json Plates PriceParameters.

Module AutomaticQuote.
Import PriceParameters.

(** ** Data *)

Record SliceMetrics := mkMetrics {
  estimatedPrintSeconds : Z;
  estimatedMaterialMilligrams : Z;
}.

(** [quantity] and [referencePartsPerPlate] are 32-bit integers, so the floor of
    their quotient is exact; a slot is its [packingUnitKey]. *)
Record AutomaticQuotePricingItem := mkItem {
  item_id : jstr;
  referenceProfileId : jstr;
  material : Material;
  quantity : Z;
  referencePartsPerPlate : Z;
  primary : SliceMetrics;
  tail : option SliceMetrics;
  boundsXMicrometers : Z;
  boundsYMicrometers : Z;
  boundsZMicrometers : Z;
  fulfilmentSlots : list jstr;
}.

(** The [id] of a price list is not read. *)
Record PriceListInput := mkPriceListInput {
  pl_revision : jstr;
  pl_termsRevision : jstr;
  pl_currency : jstr;
  pl_parameters : value;
}.

Record AutomaticQuotePreparationInput := mkPreparation {
  priceList : PriceListInput;
  items : list AutomaticQuotePricingItem;
  expressRequested : bool;
  materialAndColorAvailable : bool;
  withinBuildLimits : bool;
  riskAcknowledgementsComplete : bool;
  hasBlockingPreflightFinding : bool;
  deliveryDestination : option (jstr * value);
  shipmentPlanIdForOrdinal : option (Z → jstr);
}.

(** ** Plates *)

(** [BigInt(Math.max(1, Math.floor(quantity / partsPerPlate)))]: a quotient by
    zero is an infinity or [NaN], which is no [bigint] unless it is negative. *)
Definition primaryMultiplier (item : AutomaticQuotePricingItem) : result Z :=
  if referencePartsPerPlate item =? 0
  then (if quantity item <? 0 then Ok 1 else Throw RangeError)
  else Ok (Z.max 1 (quantity item / referencePartsPerPlate item)).

(** [remainder > 0 && quantity > partsPerPlate] *)
Definition hasTail (item : AutomaticQuotePricingItem) : bool :=
  negb (referencePartsPerPlate item =? 0)
  && (0 <? Z.rem (quantity item) (referencePartsPerPlate item))
  && (referencePartsPerPlate item <? quantity item).

(** [item.tail?.metric ?? 0n] *)
Definition tailMetric (metric : SliceMetrics → Z) (item : AutomaticQuotePricingItem) : Z :=
  if hasTail item then from_option metric 0 (tail item) else 0.

Record ProductionResult := mkProduction {
  plateCount : Z;
  base : Quote.ProductionMetrics;
  quantityEffect : Quote.ProductionMetrics;
}.

Definition productionMetrics (item : AutomaticQuotePricingItem)
    (parameters : AutomaticQuotePricingParameters) : result ProductionResult :=
  multiplier ← primaryMultiplier item;
  let totalPrintSeconds :=
    estimatedPrintSeconds (primary item) * multiplier + tailMetric estimatedPrintSeconds item in
  let totalMaterial :=
    estimatedMaterialMilligrams (primary item) * multiplier
    + tailMetric estimatedMaterialMilligrams item in
  let plateCount := multiplier + (if hasTail item then 1 else 0) in
  let basePieces := Z.min (quantity item) (referencePartsPerPlate item) in
  let base :=
    Quote.mkMetrics (estimatedMaterialMilligrams (primary item)) (estimatedPrintSeconds (primary item))
      1 (basePieces * handlingPieceSeconds parameters) in
  Ok (mkProduction plateCount base
        (Quote.mkMetrics (totalMaterial - Quote.materialWeightMilligrams base)
           (totalPrintSeconds - Quote.machineSeconds base) (plateCount - 1)
           ((quantity item - basePieces) * handlingPieceSeconds parameters))).

Definition perUnitWeight (item : AutomaticQuotePricingItem) : result Z :=
  multiplier ← primaryMultiplier item;
  let total :=
    estimatedMaterialMilligrams (primary item) * multiplier
    + tailMetric estimatedMaterialMilligrams item in
  throw_when (quantity item =? 0) RangeError ;;
  Ok (Z.quot (total + quantity item - 1) (quantity item)).

Definition perUnitBasis (item : AutomaticQuotePricingItem) : result Z :=
  weight ← perUnitWeight item;
  Ok (weight + 1).

(** The box of an item with its padding. *)
Definition paddedBox (parameters : AutomaticQuotePricingParameters) (item : AutomaticQuotePricingItem)
    : ShipmentPlan.ShipmentBox :=
  let padding := packingPaddingMicrometers parameters * 2 in
  ShipmentPlan.mkBox (boundsXMicrometers item + padding) (boundsYMicrometers item + padding)
    (boundsZMicrometers item + padding).

(** [xs.flatMap((x) => x.fulfilmentSlots.map(...))], where the element can
    throw. *)
Definition flatMapSlots {A} (f : AutomaticQuotePricingItem → jstr → result A)
    (items : list AutomaticQuotePricingItem) : result (list A) :=
  @concat A <$> traverse (λ item, traverse (f item) (fulfilmentSlots item)) items.

Definition deliveryValidationParcels (items : list AutomaticQuotePricingItem)
    (parameters : AutomaticQuotePricingParameters) : result (list (Z * ShipmentPlan.ShipmentBox)) :=
  flatMapSlots (λ item _, weight ← perUnitWeight item; Ok (weight, paddedBox parameters item)) items.

(** ** The identity of a capability snapshot *)

Section AutomaticQuote.
Context {numbers : NumberText}.

(** [Math.imul(a, b)] *)
Definition imul (a b : Z) : Z := toInt32 (toInt32 a * toInt32 b).

Definition capabilitySnapshotIdentity (v : value) : jstr :=
  let hash := foldl (λ hash c, imul (bit_xor hash c) 16777619) 2166136261 (jsonText v) in
  js "delivery-capability-" ++ toString 16 (bit_ushr hash 0).

(** ** The preparation *)

(** [[...new Set(xs)]] *)
Definition unique (l : list jstr) : list jstr :=
  foldl (λ seen x, if existsb (str_eqb x) seen then seen else seen ++ [x]) [] l.

(** [map.set(k, v)], of a map by its entries. *)
Fixpoint map_put {A} (m : list (jsnumber * A)) (k : jsnumber) (v : A) : list (jsnumber * A) :=
  match m with
  | [] => [(k, v)]
  | (k', v') :: m' => if bool_decide (k' = k) then (k', v) :: m' else (k', v') :: map_put m' k v
  end.

Definition pricedItem (parameters : AutomaticQuotePricingParameters) (item : AutomaticQuotePricingItem)
    : result Quote.OrderItemPricingInput :=
  metrics ← productionMetrics item parameters;
  packingUnits ← traverse (λ key, basis ← perUnitBasis item; Ok (Allocations.mkTarget key basis))
                   (fulfilmentSlots item);
  Ok (Quote.mkItem (item_id item) (quantity item)
        (rateOf (materialRateMinorPerMilligram parameters) (material item))
        (base metrics) (quantityEffect metrics) 0 packingUnits).

Definition provisionalPricing (input : AutomaticQuotePreparationInput)
    (parameters : AutomaticQuotePricingParameters) : result Prepare.PricingInput :=
  let currency := pl_currency (priceList input) in
  let money z := Money.of_ (BigIntIn z) currency in
  minimumPrintPrice ← money (minimumPrintPriceMinor parameters);
  smallOrderSurcharge ← money (smallOrderSurchargeMinor parameters);
  freeShippingPrintThreshold ← money (freeShippingPrintThresholdMinor parameters);
  items' ← traverse (pricedItem parameters) (items input);
  feeFixed ← money (paymentFeeFixedMinor parameters);
  Ok (Prepare.mkPricing
    (Quote.mkPriceList (pl_revision (priceList input)) (pl_termsRevision (priceList input)) currency
       (taxPolicy parameters) (machineRateMinorPerSecond parameters)
       (laborRateMinorPerSecond parameters) (amortizationRateMinorPerSecond parameters)
       (reprintRate parameters) (marginRate parameters) (handlingOrderFixedSeconds parameters)
       (handlingPlateSeconds parameters) (handlingPackSeconds parameters)
       (shippingTripSeconds parameters) (shippingTripPricingDivisor parameters)
       minimumPrintPrice (smallOrderWeightThresholdMilligrams parameters) smallOrderSurcharge
       freeShippingPrintThreshold (expressMultiplier parameters))
    (js_sort compareStrings (unique (referenceProfileId <$> items input)))
    items' (expressRequested input)
    (fullPayment (paymentFeeRateBasisPoints parameters) feeFixed)).

Definition totalQuantity (input : AutomaticQuotePreparationInput) : Z := sum_by quantity (items input).

Definition quoteFacts (input : AutomaticQuotePreparationInput)
    (parameters : AutomaticQuotePricingParameters) (withinAmount : bool) : Prepare.AutomaticQuoteFacts :=
  Prepare.mkFacts true true (hasBlockingPreflightFinding input) (riskAcknowledgementsComplete input)
    (totalQuantity input <=? maximumAutomaticQuantity parameters) withinAmount (withinBuildLimits input).

Definition quoteExpress (input : AutomaticQuotePreparationInput)
    (parameters : AutomaticQuotePricingParameters) : Gates.ExpressEligibilityInput :=
  Gates.mkExpress Gates.SINGLE 0 (expressMaximumPlateCount parameters)
    (materialAndColorAvailable input) false 0 (expressAvailableProductionWindowSeconds parameters)
    (expressPackagingBufferSeconds parameters).

(** [price.customerTotal] *)
Definition customerTotal (p : Quote.OrderPriceCalculation) : Money.t :=
  match p with
  | Quote.provisional _ total _ _ => total
  | Quote.binding _ _ _ _ total _ _ _ _ _ => total
  end.

(** A category as the planner takes it: an endpoint narrows its weight. *)
Definition plannerCategory (endpointMaxWeight : option Z) (category : ShipmentCategoryParameters)
    : ShipmentPlan.ShipmentCategory :=
  ShipmentPlan.mkCategory (id category) (maxXMicrometers category) (maxYMicrometers category)
    (maxZMicrometers category) (maxDimensionSumMicrometers category)
    (match endpointMaxWeight with
     | Some w => if w <? maxWeightMilligrams category then w else maxWeightMilligrams category
     | None => maxWeightMilligrams category
     end)
    (maxParcelVolumeCubicMicrometers category).

Definition categoryPrice (currency : jstr) (category : ShipmentCategoryParameters)
    : result Prepare.ShipmentCategoryPricing :=
  carrierCost ← Money.of_ (BigIntIn (carrierCostMinor category)) currency;
  customerShippingRate ← Money.of_ (BigIntIn (customerShippingRateMinor category)) currency;
  packagingCost ← Money.of_ (BigIntIn (packagingCostMinor category)) currency;
  Ok (Prepare.mkCategoryPricing (id category) carrierCost customerShippingRate packagingCost).

(** The weight limit of the delivery endpoint, when its facts have one. *)
Definition endpointMaxWeightOf (capabilitySnapshot : value) : result (option Z) :=
  constraints ← optionalRecord (capabilitySnapshot ?. "endpointConstraints");
  optionalPositiveInteger (constraints ?. "maxWeightMilligrams").

Definition plannerInputOf (input : AutomaticQuotePreparationInput)
    (parameters : AutomaticQuotePricingParameters) (capabilitySnapshot : value)
    : result ShipmentPlan.ShipmentPlannerInput :=
  supportedCategoryIds ← stringArray (capabilitySnapshot ?. "supportedCategoryIds");
  endpointMaxWeight ← endpointMaxWeightOf capabilitySnapshot;
  units ← flatMapSlots (λ item key,
            weight ← perUnitWeight item;
            Ok (ShipmentPlan.mkUnit key (paddedBox parameters item) weight)) (items input);
  Ok (ShipmentPlan.mkInput units (plannerCategory endpointMaxWeight <$> shipmentCategories parameters)
        (list_to_set supportedCategoryIds) (numerator (fillCoefficient parameters))
        (denominator (fillCoefficient parameters)) (packagingWeightMilligrams parameters)).

(** The plan identities of the planned parcels. *)
Definition planIds (planIdForOrdinal : Z → jstr) (planned : ShipmentPlan.ShipmentPlanResult)
    : list (jsnumber * jstr) :=
  match planned with
  | ShipmentPlan.planned parcels =>
      foldl (λ m parcel,
        map_put m (IntNum (ShipmentPlan.ordinal parcel)) (planIdForOrdinal (ShipmentPlan.ordinal parcel)))
        [] parcels
  | ShipmentPlan.no_fit _ _ => []
  end.

Definition destinationShipmentOf (input : AutomaticQuotePreparationInput)
    (parameters : AutomaticQuotePricingParameters) (destination : jstr * value)
    (planIdForOrdinal : Z → jstr) : result Prepare.DestinationShipmentPreparation :=
  capabilitySnapshot ← record destination.2;
  plannerInput ← plannerInputOf input parameters capabilitySnapshot;
  planned ← ShipmentPlan.planShipment plannerInput;
  categoryPricing ← traverse (categoryPrice (pl_currency (priceList input))) (shipmentCategories parameters);
  Ok (Prepare.mkDestination destination.1 (capabilitySnapshotIdentity destination.2) plannerInput
        categoryPricing (planIds planIdForOrdinal planned)).

(** [bindingCandidate.kind !== "binding_quote" || contractTotal <= maximum] *)
Definition withinAmount (parameters : AutomaticQuotePricingParameters)
    (candidate : Prepare.PreparedOrderQuote) : bool :=
  match candidate with
  | Prepare.prepared_binding_quote _ _ (Quote.binding _ _ _ _ _ _ contractTotal _ _ _) =>
      Money.minorUnits contractTotal <=? maximumAutomaticAmountMinor parameters
  | _ => true
  end.

Definition prepareAutomaticQuote (input : AutomaticQuotePreparationInput)
    : result (Prepare.PreparedOrderQuote * AutomaticQuotePricingParameters) :=
  parameters ← parseAutomaticQuotePricingParameters (pl_parameters (priceList input));
  pricing ← provisionalPricing input parameters;
  let prepare within destination :=
    Prepare.prepareOrderQuote
      (Prepare.mkPrepare pricing (quoteFacts input parameters within) (quoteExpress input parameters) destination) in
  provisional ← prepare true None;
  let provisionalAmount := Money.minorUnits (customerTotal (Prepare.priceOf provisional)) in
  let within := provisionalAmount <=? maximumAutomaticAmountMinor parameters in
  match deliveryDestination input, shipmentPlanIdForOrdinal input with
  | Some destination, Some planIdForOrdinal =>
      shipment ← destinationShipmentOf input parameters destination planIdForOrdinal;
      bindingCandidate ← prepare within (Some shipment);
      prepared ←
        (if withinAmount parameters bindingCandidate then Ok bindingCandidate
         else prepare false (Some shipment));
      Ok (prepared, parameters)
  | _, _ => prepared ← prepare within None; Ok (prepared, parameters)
  end.

(** ** Facts *)

(** A binding quote passed every gate, and its price is the one of its plan. *)
Lemma prepare_binding p express parcels price :
  Prepare.prepareOrderQuote p = Ok (Prepare.prepared_binding_quote express parcels price) →
  let facts := Prepare.automaticQuoteFacts p in
  (Prepare.hasBlockingPreflightFinding facts = false ∧ Prepare.riskAcknowledgementsComplete facts = true
   ∧ Prepare.withinAutomaticQuantityLimit facts = true ∧ Prepare.withinBuildLimits facts = true
   ∧ Prepare.withinAutomaticAmountLimit facts = true)
  ∧ ∃ d prices s, Prepare.destinationShipment p = Some d
    ∧ ShipmentPlan.planShipment (Prepare.plannerInput d) = Ok (ShipmentPlan.planned parcels)
    ∧ Prepare.categoryPricingById (Prepare.categoryPricing d)
        (Quote.currency (Quote.priceList (Prepare.pricingWith (Prepare.pricing p) None false false))) = Ok prices
    ∧ Prepare.bindingShipmentForPlan d parcels prices = Ok s
    ∧ Quote.calculateOrderPrice (Prepare.pricingWith (Prepare.pricing p) (Some s)
        (Prepare.expressRequested (Prepare.pricing p)) (Gates.eligible express)) = Ok price.
Proof.
  unfold Prepare.prepareOrderQuote. intros H. apply bind_Ok in H as (e & _ & H). apply bind_Ok in H as (q & _ & H).
  destruct (Prepare.destinationShipment p) as [d|]; [|by destruct (Gates.evaluateQuoteGates _)].
  apply bind_Ok in H as (plan & Hplan & H). destruct plan as [ps|]; [|done].
  destruct (Gates.evaluateQuoteGates _) eqn:Hg; [done..|]. pose proof (Prepare.decides_binding _ Hg) as Hno.
  apply bind_Ok in H as (prices & Hprices & H). apply bind_Ok in H as (s & Hs & H). apply bind_Ok in H as (c & Hc & H).
  destruct c; [done|]. injection H as <- <- <-. split; [|by exists d, prices, s].
  pose proof (Hno Gates.BLOCKING_PREFLIGHT_FINDING) as H1. pose proof (Hno Gates.RISK_ACKNOWLEDGEMENT_REQUIRED) as H2.
  pose proof (Hno Gates.AUTOMATIC_QUANTITY_LIMIT_EXCEEDED) as H3. pose proof (Hno Gates.BUILD_LIMIT_EXCEEDED) as H4.
  pose proof (Hno Gates.AUTOMATIC_AMOUNT_LIMIT_EXCEEDED) as H5. cbn in H1, H2, H3, H4, H5.
  split_and!; [by apply not_true_iff_false|by apply not_false_iff_true..].
Qed.

(** A binding quote has a single capture, of the whole total. *)
Lemma full_payment_fee m rate fixed policy g :
  Money.wf m → Money.wf fixed → Payment.grossUpPaymentSchedule m (fullPayment rate fixed) policy = Ok g →
  Money.minorUnits (Payment.paymentFee g)
  = Arith.cdiv (Money.minorUnits (Payment.contractTotal g) * num rate) 10000 + Money.minorUnits fixed
  ∧ 0 ≤ Money.minorUnits (Payment.contractTotal g) ∧ 0 ≤ num rate
  ∧ Forall (λ c, 0 ≤ Money.minorUnits (Payment.gross c) ≤ Money.minorUnits (Payment.contractTotal g)
      ∧ 0 ≤ Money.minorUnits (Payment.fee c) ≤ Money.minorUnits (Payment.paymentFee g)) (Payment.captures g).
Proof.
  intros Hm Hf H. assert (Forall (λ c, Money.wf (Payment.feeFixed c)) (fullPayment rate fixed)) as Hfs by by constructor.
  destruct (Payment.grossUp_Ok _ _ _ _ Hm Hfs H) as (r & T & Hr & Hok & _ & HT & _ & _ & ->).
  unfold Payment.grossUpAt. cbn [Payment.paymentFee Payment.contractTotal Payment.captures Money.minorUnits].
  unfold Payment.evaluated, Payment.feesOf, fullPayment. rewrite Payment.allocateGrossMinor_single by (done || lia).
  pose proof (Payment.so_rate _ Hok) as Hrate. apply Forall_cons in Hrate as [Hrate _].
  unfold Payment.rt in Hrate. cbn [Payment.feeRateBasisPoints] in Hrate.
  assert (0 ≤ Arith.cdiv (T * num rate) 10000) by (apply Arith.cdiv_nonneg; [apply Z.mul_nonneg_nonneg; done|done]).
  destruct Hf as [Hf _]. rewrite sum_by_cons, sum_by_nil, Z.add_0_r.
  cbn [fmap list_fmap js_sort foldr sort_insert]. unfold Payment.rt, Payment.fx, Payment.SHARE_BASIS_POINTS.
  cbn [fst snd Payment.feeRateBasisPoints Payment.feeFixed]. split_and!; [done|done|done|]. apply Forall_singleton.
  cbn [Payment.gross Payment.fee Payment.asGrossedUp Money.minorUnits Payment.grossMinor Payment.feeMinor fst snd
       Payment.feeRateBasisPoints Payment.feeFixed]. lia.
Qed.

(** ** The money of an automatic quote *)

Lemma categoryPricing_elem values currency prices k v :
  Prepare.categoryPricingById values currency = Ok prices → prices !! k = Some v → v ∈ values.
Proof.
  intros H. cut (∀ k v, prices !! k = Some v → v ∈ values); [naive_solver|].
  unfold Prepare.categoryPricingById in H. revert H.
  apply (foldM_inv _ (λ m : gmap jstr _, ∀ k v, m !! k = Some v → v ∈ values)); [|naive_solver].
  intros m x m' Hx Hm Hadd j w Hj. unfold Prepare.addCategoryPricing in Hadd. ok_inv.
  apply lookup_insert_Some in Hj as [[_ <-]|[_ Hj]]; [done|by eapply Hm].
Qed.

Lemma categoryPrice_money currency c p : categoryPrice currency c = Ok p →
  Prepare.categoryId p = id c
  ∧ Money.wf (Prepare.carrierCost p) ∧ Money.wf (Prepare.customerShippingRate p) ∧ Money.wf (Prepare.packagingCost p).
Proof.
  unfold categoryPrice. intros H. ok_inv. repeat match goal with E : Money.of_ _ _ = Ok _ |- _ => apply Money.of__Ok in E as [? ?] end.
  by split_and!.
Qed.

Lemma provisionalPricing_Ok input parameters p : provisionalPricing input parameters = Ok p →
  Money.wf (Quote.minimumPrintPrice (Prepare.priceList p))
  ∧ Money.wf (Quote.smallOrderSurcharge (Prepare.priceList p))
  ∧ Money.wf (Quote.freeShippingPrintThreshold (Prepare.priceList p))
  ∧ Quote.taxPolicy (Prepare.priceList p) = taxPolicy parameters
  ∧ Quote.currency (Prepare.priceList p) = pl_currency (priceList input)
  ∧ traverse (pricedItem parameters) (items input) = Ok (Prepare.items p)
  ∧ Prepare.paymentSchedule p = fullPayment (paymentFeeRateBasisPoints parameters)
      (Money.mk (paymentFeeFixedMinor parameters) (pl_currency (priceList input)))
  ∧ Money.wf (Money.mk (paymentFeeFixedMinor parameters) (pl_currency (priceList input))).
Proof.
  unfold provisionalPricing. cbv zeta. intros H. ok_inv.
  repeat match goal with E : Money.of_ _ _ = Ok _ |- _ => apply Money.of__Ok in E as [? ?] end. subst.
  cbn. by split_and!.
Qed.

(** The price of a binding quote: its total is the one that the customer sees,
    and its fee is the one of a single payment of the total. *)
Lemma binding_amounts input parameters p d prices parcels s requested eligible price :
  provisionalPricing input parameters = Ok p →
  traverse (categoryPrice (pl_currency (priceList input))) (shipmentCategories parameters)
    = Ok (Prepare.categoryPricing d) →
  Prepare.categoryPricingById (Prepare.categoryPricing d) (Quote.currency (Prepare.priceList p)) = Ok prices →
  Prepare.bindingShipmentForPlan d parcels prices = Ok s →
  Quote.calculateOrderPrice (Prepare.pricingWith p (Some s) requested eligible) = Ok price →
  ∃ common plans destination snapshot tax total fee captures components,
    price = Quote.binding common plans destination snapshot total tax total fee captures components
    ∧ Money.minorUnits fee = Arith.cdiv (Money.minorUnits total * num (paymentFeeRateBasisPoints parameters)) 10000
        + paymentFeeFixedMinor parameters
    ∧ 0 ≤ Money.minorUnits total ∧ 0 ≤ num (paymentFeeRateBasisPoints parameters)
    ∧ Forall (λ c, 0 ≤ Money.minorUnits (Payment.gross c) ≤ Money.minorUnits total
        ∧ 0 ≤ Money.minorUnits (Payment.fee c) ≤ Money.minorUnits fee) captures.
Proof.
  intros Hp Hcats Hprices Hs Hprice. apply provisionalPricing_Ok in Hp as (Hmin & Hsur & Hfree & Htax & Hcur & _ & Hsched & Hfee).
  assert (Quote.input_wf (Prepare.pricingWith p (Some s) requested eligible)) as Hwf.
  { split; cbn [Prepare.pricingWith Quote.priceList Quote.shipment Quote.paymentSchedule]; try done.
    - intros s' [= <-]. apply Prepare.bindingShipment_Ok in Hs as (_ & _ & Hps). apply traverse_Ok in Hcats.
      eapply Forall2_Forall_r; [exact Hps|]. apply Forall_true. intros parcel q (_ & _ & pr & Hpr & Hc & Hr & Hk).
      apply (categoryPricing_elem _ _ _ _ _ Hprices), list_elem_of_lookup in Hpr as [i Hi].
      destruct (Forall2_lookup_r _ _ _ _ _ Hcats Hi) as (c & _ & Hcp). apply categoryPrice_money in Hcp as (_ & ? & ? & ?).
      unfold Quote.parcel_money. rewrite Hc, Hr, Hk. by split_and!.
    - rewrite Hsched. by constructor. }
  destruct (Quote.calculateOrderPrice_Ok _ _ Hwf Hprice) as (Hb & components & _ & _ & units & vat & g & fee & Hg & _ & _ & Heq).
  pose proof (Quote.bc_money _ _ _ Hb) as Hmoney. rewrite Forall_forall in Hmoney.
  destruct (Hmoney (Quote.bd_subtotal (Quote.breakdown (Quote.commonOf price)))) as [Hsub _].
  { by apply (list_elem_of_lookup_2 _ 6). }
  cbn [Prepare.pricingWith Quote.paymentSchedule] in Hg. rewrite Hsched in Hg.
  destruct (full_payment_fee _ _ _ _ _ Hsub Hfee Hg) as (? & ? & ? & ?). rewrite Heq. do 9 eexists. split; [reflexivity|]. done.
Qed.

(** ** The limits of an automatic quote *)

(** A value of a JSON document that is the text of an integer. *)
Definition integer_text (v : value) (z : Z) : Prop := ∃ text, v = Str text ∧ BigInt_of_string text = Some z.

Definition at_most (n : Z) (limit : value) : Prop := ∃ z, integer_text limit z ∧ n ≤ z.

(** A parcel has the identity of a category of the price list, as the JSON
    document has it, and is within each of its limits. *)
Record parcel_fits (category : value) (parcel : ShipmentPlan.ShipmentParcel) : Prop := {
  pf_id : ∃ name, category ?. "id" = Str name ∧ js_trim name = ShipmentPlan.categoryId parcel;
  pf_x : at_most (ShipmentPlan.xMicrometers (ShipmentPlan.packingBox parcel)) (category ?. "maxXMicrometers");
  pf_y : at_most (ShipmentPlan.yMicrometers (ShipmentPlan.packingBox parcel)) (category ?. "maxYMicrometers");
  pf_z : at_most (ShipmentPlan.zMicrometers (ShipmentPlan.packingBox parcel)) (category ?. "maxZMicrometers");
  pf_sum : at_most (ShipmentPlan.xMicrometers (ShipmentPlan.packingBox parcel)
      + ShipmentPlan.yMicrometers (ShipmentPlan.packingBox parcel)
      + ShipmentPlan.zMicrometers (ShipmentPlan.packingBox parcel)) (category ?. "maxDimensionSumMicrometers");
  pf_weight : at_most (ShipmentPlan.parcel_weightMilligrams parcel) (category ?. "maxWeightMilligrams");
  pf_volume : at_most (ShipmentPlan.volumeProxyCubicMicrometers parcel) (category ?. "maxParcelVolumeCubicMicrometers");
}.

(** What a binding automatic quote respects of the part [automatic] of its price
    list's JSON document. *)
Record within_limits (input : AutomaticQuotePreparationInput) (automatic : value)
    (parcels : list ShipmentPlan.ShipmentParcel) (price : Quote.OrderPriceCalculation) : Prop := {
  wl_quantity : at_most (sum_by quantity (items input)) (automatic ?. "maximumAutomaticQuantity");
  wl_amount : ∃ common plans destination snapshot total tax contractTotal fee captures components,
    price = Quote.binding common plans destination snapshot total tax contractTotal fee captures components
    ∧ total = contractTotal
    ∧ at_most (Money.minorUnits contractTotal) (automatic ?. "maximumAutomaticAmountMinor");
  wl_checks : hasBlockingPreflightFinding input = false ∧ riskAcknowledgementsComplete input = true
    ∧ withinBuildLimits input = true;
  wl_parcels : ∃ destination snapshot i supported j categories,
    deliveryDestination input = Some (destination, snapshot)
    ∧ snapshot ?. "supportedCategoryIds" = ArrayV i supported
    ∧ automatic ?. "shipmentCategories" = ArrayV j categories
    ∧ Forall (λ parcel, Str (ShipmentPlan.categoryId parcel) ∈ supported
        ∧ Exists (λ category, parcel_fits category parcel) categories
        ∧ ∀ w, integer_text (snapshot ?. "endpointConstraints" ?. "maxWeightMilligrams") w →
            ShipmentPlan.parcel_weightMilligrams parcel ≤ w) parcels;
}.

Lemma integer_Ok v z : integer v = Ok z → integer_text v z.
Proof.
  destruct v; cbn; try done. intros H. ok_inv. destruct (BigInt_of_string _) eqn:E; [|done]. ok_inv. by eexists.
Qed.

Lemma positiveInteger_Ok v z : positiveInteger v = Ok z → integer_text v z.
Proof. unfold positiveInteger. intros H. ok_inv. by apply integer_Ok. Qed.

Lemma integer_text_det v x y : integer_text v x → integer_text v y → x = y.
Proof. intros (s & -> & Hs) (t & [= <-] & Ht). congruence. Qed.

Lemma stringArray_Ok v l : stringArray v = Ok l → ∃ i, v = ArrayV i (Str <$> l).
Proof.
  unfold stringArray, array. intros H. ok_inv. destruct v; try done. ok_inv.
  match goal with E : traverse _ _ = _ |- _ => apply traverse_Ok in E; rename E into Hl end. eexists. f_equal.
  clear - Hl. induction Hl as [|x y xs ys Hx _ IH]; [done|]. cbn. destruct x; try done. injection Hx as ->. by rewrite <-IH.
Qed.

(** What a parsed category is read from. *)
Record category_read (entry : value) (c : ShipmentCategoryParameters) : Prop := {
  cr_id : ∃ name, entry ?. "id" = Str name ∧ js_trim name = id c;
  cr_x : integer_text (entry ?. "maxXMicrometers") (maxXMicrometers c);
  cr_y : integer_text (entry ?. "maxYMicrometers") (maxYMicrometers c);
  cr_z : integer_text (entry ?. "maxZMicrometers") (maxZMicrometers c);
  cr_sum : integer_text (entry ?. "maxDimensionSumMicrometers") (maxDimensionSumMicrometers c);
  cr_weight : integer_text (entry ?. "maxWeightMilligrams") (maxWeightMilligrams c);
  cr_volume : integer_text (entry ?. "maxParcelVolumeCubicMicrometers") (maxParcelVolumeCubicMicrometers c);
}.

Lemma parseCategory_read entry c : parseCategory entry = Ok c → category_read entry c.
Proof.
  unfold parseCategory, record. intros H. ok_inv.
  match goal with E : text ?v = Ok _ |- _ => unfold text in E; destruct v eqn:Hid; try done end. ok_inv.
  split; cbn [id maxXMicrometers maxYMicrometers maxZMicrometers maxDimensionSumMicrometers maxWeightMilligrams
    maxParcelVolumeCubicMicrometers]; [by eexists|by apply integer_Ok..].
Qed.

(** What the limits of the parsed parameters are read from. *)
Lemma parse_limits v p : parseAutomaticQuotePricingParameters v = Ok p →
  integer_text (v ?. "automaticQuote" ?. "maximumAutomaticQuantity") (maximumAutomaticQuantity p)
  ∧ integer_text (v ?. "automaticQuote" ?. "maximumAutomaticAmountMinor") (maximumAutomaticAmountMinor p)
  ∧ ∃ i entries, v ?. "automaticQuote" ?. "shipmentCategories" = ArrayV i entries
    ∧ Forall2 category_read entries (shipmentCategories p).
Proof.
  unfold parseAutomaticQuotePricingParameters, record. intros H. ok_inv.
  match goal with E : array ?v = Ok _ |- _ => unfold array in E; destruct v eqn:Hentries; try done end. ok_inv.
  cbn [maximumAutomaticQuantity maximumAutomaticAmountMinor shipmentCategories].
  split; [by apply positiveInteger_Ok|]. split; [by apply positiveInteger_Ok|]. eexists _, _. split; [done|].
  match goal with E : traverse _ _ = _ |- _ => apply traverse_Ok in E; eapply Forall2_impl; [exact E|apply parseCategory_read] end.
Qed.

(** The weight limit of the endpoint is read where the snapshot has it. *)
Lemma endpoint_read snapshot endpoint w : endpointMaxWeightOf snapshot = Ok endpoint →
  integer_text (snapshot ?. "endpointConstraints" ?. "maxWeightMilligrams") w → endpoint = Some w.
Proof.
  unfold endpointMaxWeightOf, optionalRecord, record. intros H Hw. ok_inv.
  assert (x = snapshot ?. "endpointConstraints") as -> by (destruct (snapshot ?. "endpointConstraints"); by ok_inv).
  destruct Hw as (text & Ht & Hz). rewrite Ht in *. cbn [optionalPositiveInteger] in *. ok_inv.
  match goal with E : positiveInteger _ = _ |- _ => apply positiveInteger_Ok in E as (? & [= <-] & ?) end. congruence.
Qed.

(** A parcel in the category that the planner took of the price list is within
    the category. *)
Lemma category_fits entry c endpoint parcel : category_read entry c → id c = ShipmentPlan.categoryId parcel →
  ShipmentPlan.fits (plannerCategory endpoint c) (ShipmentPlan.packingBox parcel)
    (ShipmentPlan.parcel_weightMilligrams parcel) (ShipmentPlan.volumeProxyCubicMicrometers parcel) = true →
  parcel_fits entry parcel ∧ ∀ w, endpoint = Some w → ShipmentPlan.parcel_weightMilligrams parcel ≤ w.
Proof.
  intros [(name & Hname & Htrim) ? ? ? ? ? ?] Hid Hfits. unfold ShipmentPlan.fits, plannerCategory in Hfits.
  cbn [ShipmentPlan.maxXMicrometers ShipmentPlan.maxYMicrometers ShipmentPlan.maxZMicrometers
    ShipmentPlan.maxDimensionSumMicrometers ShipmentPlan.maxWeightMilligrams ShipmentPlan.maxParcelVolumeCubicMicrometers] in Hfits.
  bool_inv.
  assert (ShipmentPlan.parcel_weightMilligrams parcel ≤ maxWeightMilligrams c
    ∧ ∀ w, endpoint = Some w → ShipmentPlan.parcel_weightMilligrams parcel ≤ w) as [? ?].
  { destruct endpoint as [w|]; [destruct (Z.ltb_spec w (maxWeightMilligrams c))|]; (split; [lia|intros ? [=]; lia]). }
  split; [|done]. split; [exists name; split; congruence| | | | | |]; by eexists.
Qed.

(** Each parcel of a plan fits a category that the endpoint supports. *)
Lemma planned_category input parameters snapshot planner parcels :
  plannerInputOf input parameters snapshot = Ok planner →
  ShipmentPlan.planShipment planner = Ok (ShipmentPlan.planned parcels) →
  ∃ supported endpoint, stringArray (snapshot ?. "supportedCategoryIds") = Ok supported
    ∧ endpointMaxWeightOf snapshot = Ok endpoint
    ∧ Forall (λ parcel, ShipmentPlan.categoryId parcel ∈ supported
        ∧ ∃ c, c ∈ shipmentCategories parameters ∧ id c = ShipmentPlan.categoryId parcel
          ∧ ShipmentPlan.fits (plannerCategory endpoint c) (ShipmentPlan.packingBox parcel)
              (ShipmentPlan.parcel_weightMilligrams parcel) (ShipmentPlan.volumeProxyCubicMicrometers parcel) = true) parcels.
Proof.
  unfold plannerInputOf. intros H Hplan. apply bind_Ok in H as (supported & Hsupported & H).
  apply bind_Ok in H as (endpoint & Hendpoint & H). apply bind_Ok in H as (units & _ & [= <-]).
  exists supported, endpoint. split; [done|]. split; [done|].
  apply ShipmentPlan.planShipment_Ok in Hplan as [Hwf Hps].
  destruct (ShipmentPlan.placeUnits_start _ Hwf) as [(ps & Hp & [(uss & Hv & _) _])|(u & Hu & _)]; [|by rewrite Hu in Hps].
  rewrite Hp in Hps. injection Hps as ->. eapply Forall2_Forall_r; [exact Hv|]. apply Forall_true.
  intros us parcel Hparcel. destruct (ShipmentPlan.pv_category _ _ _ Hparcel) as (c & Hc & Hid & Hfits).
  unfold ShipmentPlan.supportedCategories in Hc. apply list_elem_of_filter in Hc as [Hsup Hc].
  cbn [ShipmentPlan.supportedCategoryIds ShipmentPlan.categories] in Hsup, Hc. apply elem_of_list_to_set in Hsup.
  apply list_elem_of_fmap in Hc as (category & -> & Hin). cbn [plannerCategory ShipmentPlan.id] in *.
  split; [by rewrite <-Hid|]. by exists category.
Qed.

(** The parcels of a plan are within their categories, as the endpoint narrows
    them. *)
Lemma planned_within input parameters snapshot planner parcels entries :
  plannerInputOf input parameters snapshot = Ok planner →
  ShipmentPlan.planShipment planner = Ok (ShipmentPlan.planned parcels) →
  Forall2 category_read entries (shipmentCategories parameters) →
  ∃ i supported, snapshot ?. "supportedCategoryIds" = ArrayV i supported
    ∧ Forall (λ parcel, Str (ShipmentPlan.categoryId parcel) ∈ supported
        ∧ Exists (λ category, parcel_fits category parcel) entries
        ∧ ∀ w, integer_text (snapshot ?. "endpointConstraints" ?. "maxWeightMilligrams") w →
            ShipmentPlan.parcel_weightMilligrams parcel ≤ w) parcels.
Proof.
  intros Hplanner Hplan Hentries.
  destruct (planned_category _ _ _ _ _ Hplanner Hplan) as (supported & endpoint & Hsupported & Hendpoint & Hparcels).
  apply stringArray_Ok in Hsupported as [i Hsupported]. exists i, (Str <$> supported). split; [done|].
  eapply Forall_impl; [exact Hparcels|]. cbn. intros parcel (Hsup & c & [k Hk]%list_elem_of_lookup & Hid & Hfits).
  destruct (Forall2_lookup_r _ _ _ _ _ Hentries Hk) as (entry & Hentry & Hread).
  destruct (category_fits entry c endpoint parcel Hread Hid Hfits) as [Hin Hw].
  split; [by apply list_elem_of_fmap_2|]. split; [|intros w Hwt; by eapply Hw, endpoint_read].
  apply Exists_exists. exists entry. split; [by eapply list_elem_of_lookup_2|done].
Qed.

(** What a binding automatic quote comes from. *)
Lemma prepareAutomaticQuote_binding input express parcels price parameters :
  prepareAutomaticQuote input = Ok (Prepare.prepared_binding_quote express parcels price, parameters) →
  ∃ pricing destination planId shipment prices s,
    parseAutomaticQuotePricingParameters (pl_parameters (priceList input)) = Ok parameters
    ∧ provisionalPricing input parameters = Ok pricing
    ∧ deliveryDestination input = Some destination
    ∧ destinationShipmentOf input parameters destination planId = Ok shipment
    ∧ Prepare.prepareOrderQuote (Prepare.mkPrepare pricing (quoteFacts input parameters true)
        (quoteExpress input parameters) (Some shipment)) = Ok (Prepare.prepared_binding_quote express parcels price)
    ∧ withinAmount parameters (Prepare.prepared_binding_quote express parcels price) = true
    ∧ ShipmentPlan.planShipment (Prepare.plannerInput shipment) = Ok (ShipmentPlan.planned parcels)
    ∧ Prepare.categoryPricingById (Prepare.categoryPricing shipment) (Quote.currency (Prepare.priceList pricing)) = Ok prices
    ∧ Prepare.bindingShipmentForPlan shipment parcels prices = Ok s
    ∧ Quote.calculateOrderPrice (Prepare.pricingWith pricing (Some s)
        (Prepare.expressRequested pricing) (Gates.eligible express)) = Ok price.
Proof.
  unfold prepareAutomaticQuote. cbv zeta. intros H. apply bind_Ok in H as (ps & Hps & H).
  apply bind_Ok in H as (pricing & Hpricing & H). apply bind_Ok in H as (provisional & _ & H).
  set (within := _ <=? _) in H.
  destruct (deliveryDestination input) as [destination|], (shipmentPlanIdForOrdinal input) as [planId|].
  2-4: ok_inv; match goal with E : Prepare.prepareOrderQuote _ = _ |- _ =>
    by apply prepare_binding in E as (_ & d & _ & _ & Hd & _) end.
  apply bind_Ok in H as (shipment & Hshipment & H). apply bind_Ok in H as (candidate & Hcandidate & H).
  apply bind_Ok in H as (prepared & Hprepared & H). injection H as -> ->.
  destruct (withinAmount parameters candidate) eqn:Hwithin.
  2: { apply prepare_binding in Hprepared as ((_ & _ & _ & _ & Hno) & _). done. }
  injection Hprepared as ->. pose proof (prepare_binding _ _ _ _ Hcandidate) as ((_ & _ & _ & _ & Hw) & d & prices & s & Hd & Hrest).
  cbn [Prepare.automaticQuoteFacts quoteFacts Prepare.withinAutomaticAmountLimit] in Hw. rewrite Hw in Hcandidate.
  injection Hd as <-. destruct Hrest as (? & ? & ? & ?). by exists pricing, destination, planId, shipment, prices, s.
Qed.

Lemma destinationShipment_Ok input parameters destination planId d :
  destinationShipmentOf input parameters destination planId = Ok d →
  plannerInputOf input parameters destination.2 = Ok (Prepare.plannerInput d)
  ∧ traverse (categoryPrice (pl_currency (priceList input))) (shipmentCategories parameters)
    = Ok (Prepare.categoryPricing d)
  ∧ ∃ planned, ShipmentPlan.planShipment (Prepare.plannerInput d) = Ok planned
    ∧ Prepare.shipmentPlanIdsByOrdinal d = planIds planId planned.
Proof.
  unfold destinationShipmentOf, record. intros H. ok_inv. cbn. split_and!; [done|done|]. by eexists.
Qed.

(** C20: A binding automatic quote is within every limit that the JSON document
    of its price list sets: on the number of pieces, on the amount of the
    contract, fees and VAT included, and, of the category that each parcel is
    sent in, on the width, the depth, the height, the sum of the three, the
    weight and the volume.  Every parcel is in a category that the endpoint of
    the delivery supports and within the endpoint's weight, where it has one;
    and none of the findings that call for a person is open. *)
Theorem automatic_quote_within_limits input express parcels price parameters :
  prepareAutomaticQuote input = Ok (Prepare.prepared_binding_quote express parcels price, parameters) →
  parseAutomaticQuotePricingParameters (pl_parameters (priceList input)) = Ok parameters
  ∧ within_limits input ((pl_parameters (priceList input)) ?. "automaticQuote") parcels price.
Proof.
  intros H. apply prepareAutomaticQuote_binding in H
    as (pricing & [destination snapshot] & planId & d & prices & s & Hps & Hpricing & Hdest & Hd & Hprep & Hwithin & Hplan & Hprices & Hs & Hprice).
  split; [done|]. apply destinationShipment_Ok in Hd as (Hplanner & Hcats & _).
  apply prepare_binding in Hprep as ((Hblock & Hrisk & Hquantity & Hbuild & _) & _).
  cbn [Prepare.automaticQuoteFacts quoteFacts Prepare.hasBlockingPreflightFinding Prepare.riskAcknowledgementsComplete
    Prepare.withinAutomaticQuantityLimit Prepare.withinBuildLimits] in *. bool_inv.
  destruct (binding_amounts _ _ _ _ _ _ _ _ _ _ Hpricing Hcats Hprices Hs Hprice)
    as (common & plans & dest & snap & tax & total & fee & captures & components & -> & _).
  destruct (parse_limits _ _ Hps) as (Hmaxq & Hmaxa & j & categories & Hcategories & Hread).
  destruct (planned_within _ _ _ _ _ _ Hplanner Hplan Hread) as (i & supported & Hsup & Hparcels).
  cbn [withinAmount] in Hwithin. bool_inv. split.
  - by eexists.
  - do 10 eexists. split; [done|]. split; [done|]. by eexists.
  - done.
  - by exists destination, snapshot, i, supported, j, categories.
Qed.

(** The limits that a publication puts on the amounts. *)
Lemma published_amounts v parameters : validatePriceListParameters v = Ok () →
  parseAutomaticQuotePricingParameters v = Ok parameters →
  maximumAutomaticAmountMinor parameters ≤ MAX_SAFE_INTEGER
  ∧ (0 ≤ maximumAutomaticAmountMinor parameters → 0 ≤ num (paymentFeeRateBasisPoints parameters) →
     Arith.cdiv (maximumAutomaticAmountMinor parameters * num (paymentFeeRateBasisPoints parameters)) 10000
     + paymentFeeFixedMinor parameters ≤ MAX_SAFE_INTEGER).
Proof.
  intros H Hparse. unfold validatePriceListParameters in H. rewrite Hparse in H. run_in H.
  do 4 (apply bind_Ok in H as (? & ? & H)). apply bind_Ok in H as (fee & Hfee & H).
  assert (∀ z, checkedMoney z = Ok () → z ≤ MAX_SAFE_INTEGER) as Hmoney.
  { intros z Hz. unfold checkedMoney, bad_when, MAX_API_MINOR in Hz. ok_inv. bool_inv. done. }
  apply Hmoney in H. split.
  - match goal with E : checkedRanges _ = _ |- _ => unfold checkedRanges in E; do 7 (apply bind_Ok in E as (? & _ & E));
      apply bind_Ok in E as (us & Hus & _) end.
    apply traverse_Ok in Hus. apply Hmoney. destruct (Forall2_lookup_l _ _ _ 3 _ Hus eq_refl) as ([] & _ & Hz). exact Hz.
  - intros Ha Hr. unfold ceilDiv in Hfee. ok_inv. unfold Arith.cdiv. rewrite <-Z.quot_div_nonneg; [lia|nia|lia].
Qed.

(** C22: The amounts of a binding automatic quote fit in a [number]: when the
    parameters of its price list are ones that a publication accepts, the
    contract total, the payment fee, and the amount and the fee of the capture
    are safe integers. *)
Theorem published_quote_in_range input express parcels price parameters :
  validatePriceListParameters (pl_parameters (priceList input)) = Ok () →
  prepareAutomaticQuote input = Ok (Prepare.prepared_binding_quote express parcels price, parameters) →
  ∃ common plans destination snapshot tax total fee captures components,
    price = Quote.binding common plans destination snapshot total tax total fee captures components
    ∧ 0 ≤ Money.minorUnits total ≤ MAX_SAFE_INTEGER ∧ 0 ≤ Money.minorUnits fee ≤ MAX_SAFE_INTEGER
    ∧ Forall (λ c, 0 ≤ Money.minorUnits (Payment.gross c) ≤ MAX_SAFE_INTEGER
        ∧ 0 ≤ Money.minorUnits (Payment.fee c) ≤ MAX_SAFE_INTEGER) captures.
Proof.
  intros Hvalid H. apply prepareAutomaticQuote_binding in H
    as (pricing & destination & planId & d & prices & s & Hps & Hpricing & _ & Hd & _ & Hwithin & _ & Hprices & Hs & Hprice).
  apply destinationShipment_Ok in Hd as (_ & Hcats & _).
  destruct (binding_amounts _ _ _ _ _ _ _ _ _ _ Hpricing Hcats Hprices Hs Hprice)
    as (common & plans & dest & snap & tax & total & fee & captures & components & -> & Hfee & Htotal & Hrate & Hcs).
  destruct (published_amounts _ _ Hvalid Hps) as [Hmax Hmaxfee]. cbn [withinAmount] in Hwithin. bool_inv.
  specialize (Hmaxfee ltac:(lia) Hrate).
  pose proof (provisionalPricing_Ok _ _ _ Hpricing) as (_ & _ & _ & _ & _ & _ & _ & Hfixed). destruct Hfixed as [Hfixed _]. cbn in Hfixed.
  assert (0 ≤ Arith.cdiv (Money.minorUnits total * num (paymentFeeRateBasisPoints parameters)) 10000
    ≤ Arith.cdiv (maximumAutomaticAmountMinor parameters * num (paymentFeeRateBasisPoints parameters)) 10000).
  { split; [apply Arith.cdiv_nonneg; [by apply Z.mul_nonneg_nonneg|done]|]. apply Arith.cdiv_le_iff; [done|].
    pose proof (Arith.cdiv_bounds (maximumAutomaticAmountMinor parameters * num (paymentFeeRateBasisPoints parameters)) 10000 ltac:(lia)).
    nia. }
  do 9 eexists. split; [reflexivity|]. split; [lia|]. split; [lia|]. eapply Forall_impl; [exact Hcs|]. cbn. intros c. lia.
Qed.

(** ** Plates *)

(** The pieces of each plate of an item, and the metric of each plate, the
    tail's for a last plate that is not full. *)
Definition platePieces (item : AutomaticQuotePricingItem) : list Z :=
  pieces (quantity item) (referencePartsPerPlate item).

Definition plateMetric (metric : SliceMetrics → Z) (item : AutomaticQuotePricingItem) (pieces : Z) : Z :=
  if (pieces =? referencePartsPerPlate item) || (quantity item <? referencePartsPerPlate item)
  then metric (primary item) else from_option metric 0 (tail item).

(** Quotient and remainder of the pieces of an item. *)
Lemma plates_division item : 0 < quantity item → 0 < referencePartsPerPlate item →
  let q := quantity item in let n := referencePartsPerPlate item in
  q = n * (q / n) + q `mod` n ∧ 0 ≤ q `mod` n < n ∧ 0 ≤ q / n ∧ (q / n = 0 ↔ q < n)
  ∧ hasTail item = (negb (q `mod` n =? 0) && (n <? q)) ∧ primaryMultiplier item = Ok (Z.max 1 (q / n)).
Proof.
  intros Hq Hn q n. pose proof (Z.div_mod q n). pose proof (Z.mod_pos_bound q n Hn). pose proof (Z.div_pos q n).
  split_and!; try lia.
  - split; [nia|]. intros Hlt. apply Z.div_small. lia.
  - unfold hasTail. fold q n. rewrite (proj2 (Z.eqb_neq n 0)), Z.rem_mod_nonneg by lia. cbn [negb andb].
    destruct (Z.ltb_spec 0 (q `mod` n)), (Z.eqb_spec (q `mod` n) 0); try done; lia.
  - unfold primaryMultiplier. fold q n. by rewrite (proj2 (Z.eqb_neq n 0)) by lia.
Qed.

(** The code's total of a metric is the sum over the plates. *)
Lemma plates_total metric item : 0 < quantity item → 0 < referencePartsPerPlate item →
  metric (primary item) * Z.max 1 (quantity item / referencePartsPerPlate item) + tailMetric metric item
  = sum_by (plateMetric metric item) (platePieces item).
Proof.
  intros Hq Hn. destruct (plates_division item Hq Hn) as (Hdiv & Hmod & Hpos & Hsmall & Htail & _).
  unfold tailMetric, platePieces, pieces, plateMetric. rewrite Htail, sum_by_app, sum_by_replicate, Z2Nat.id, Z.eqb_refl by done.
  set (q := quantity item) in *. set (n := referencePartsPerPlate item) in *. cbn [orb].
  destruct (Z.eqb_spec (q `mod` n) 0) as [H0|H0]; cbn [negb andb].
  - rewrite sum_by_nil, (Z.max_r 1) by (destruct (Z.eq_dec (q / n) 0) as [Hk|]; [rewrite Hk in Hdiv|]; lia). lia.
  - rewrite sum_by_cons, sum_by_nil, (proj2 (Z.eqb_neq (q `mod` n) n)) by lia. cbn [orb].
    destruct (Z.ltb_spec n q), (Z.ltb_spec q n); [lia| | |].
    + assert (q / n ≠ 0) by (intros Hk%Hsmall; lia). rewrite (Z.max_r 1) by lia. lia.
    + rewrite (proj2 Hsmall), (Z.max_l 1 0) by lia. lia.
    + assert (q = n) as Heq by lia. exfalso. apply H0. rewrite Heq. apply Z.mod_same. lia.
Qed.

Lemma plates_count item : 0 < quantity item → 0 < referencePartsPerPlate item →
  Z.max 1 (quantity item / referencePartsPerPlate item) + (if hasTail item then 1 else 0)
  = Z.of_nat (length (platePieces item))
  ∧ sum_by (λ p, p) (platePieces item) = quantity item.
Proof.
  intros Hq Hn. destruct (plates_division item Hq Hn) as (Hdiv & Hmod & Hpos & Hsmall & Htail & _).
  unfold platePieces, pieces. rewrite Htail, length_app, length_replicate, sum_by_app, sum_by_replicate, Nat2Z.inj_add, Z2Nat.id by done.
  set (q := quantity item) in *. set (n := referencePartsPerPlate item) in *.
  destruct (Z.eqb_spec (q `mod` n) 0) as [H0|H0]; cbn [negb andb length]; rewrite ?sum_by_cons, sum_by_nil.
  - assert (q / n ≠ 0) by (intros Hk; rewrite Hk in Hdiv; lia). lia.
  - split; [|lia]. destruct (Z.ltb_spec n q) as [Hlt|Hge].
    { assert (q / n ≠ 0) by (intros Hk%Hsmall; lia). lia. }
    assert (q ≠ n) by (intros Heq; apply H0; rewrite Heq; apply Z.mod_same; lia). lia.
Qed.

(** The metrics that an item is priced with are those of its plates.  The
    pieces fill plates in order, and only the last may be part full; what the
    base and the effect of the quantity add up to, in material, in machine time,
    in plates and in handled pieces, is the sum over these plates, a last plate
    that is not full counting with the metrics of the tail; no part of the
    effect is negative; and the weight of a unit is the total one by the number
    of pieces, rounded up. *)
Theorem production_metrics_exact item parameters :
  0 < quantity item → 0 < referencePartsPerPlate item → 0 ≤ handlingPieceSeconds parameters →
  0 ≤ estimatedMaterialMilligrams (primary item) → 0 ≤ estimatedPrintSeconds (primary item) →
  (∀ t, tail item = Some t → 0 ≤ estimatedMaterialMilligrams t ∧ 0 ≤ estimatedPrintSeconds t) →
  ∃ r weight, productionMetrics item parameters = Ok r ∧ perUnitWeight item = Ok weight ∧
  let total field := field (base r) + field (quantityEffect r) in
  let plates := platePieces item in
  total Quote.materialWeightMilligrams = sum_by (plateMetric estimatedMaterialMilligrams item) plates
  ∧ total Quote.machineSeconds = sum_by (plateMetric estimatedPrintSeconds item) plates
  ∧ total Quote.plateCount = Z.of_nat (length plates) ∧ plateCount r = Z.of_nat (length plates)
  ∧ total Quote.pieceHandlingSeconds = sum_by (λ p, p * handlingPieceSeconds parameters) plates
  ∧ Forall (λ field, 0 ≤ field (quantityEffect r))
      [Quote.materialWeightMilligrams; Quote.machineSeconds; Quote.plateCount; Quote.pieceHandlingSeconds]
  ∧ weight = Arith.cdiv (sum_by (plateMetric estimatedMaterialMilligrams item) plates) (quantity item).
Proof.
  intros Hq Hn Hh Hm Hs Ht. destruct (plates_division item Hq Hn) as (_ & _ & _ & _ & _ & Hmult).
  destruct (plates_count item Hq Hn) as [Hcount Hpieces].
  pose proof (plates_total estimatedMaterialMilligrams item Hq Hn) as Hmat.
  pose proof (plates_total estimatedPrintSeconds item Hq Hn) as Hsec.
  assert (0 ≤ tailMetric estimatedMaterialMilligrams item ∧ 0 ≤ tailMetric estimatedPrintSeconds item) as [Htm Hts].
  { unfold tailMetric. destruct (hasTail item); [|done]. destruct (tail item) as [t|] eqn:E; [by apply Ht|done]. }
  unfold productionMetrics, perUnitWeight. rewrite Hmult. run.
  rewrite (proj2 (Z.eqb_neq _ 0)) by lia. cbn [throw_when]. run. do 2 eexists. split; [reflexivity|]. split; [reflexivity|].
  cbn [base quantityEffect plateCount Quote.materialWeightMilligrams Quote.machineSeconds Quote.plateCount Quote.pieceHandlingSeconds].
  rewrite <-Hmat, <-Hsec, <-Hcount. split_and!; [lia|lia|lia|lia| | |].
  - assert (∀ c l, sum_by (λ p, p * c) l = sum_by (λ p, p) l * c) as ->; [|lia].
    intros c l. induction l as [|x l IH]; [done|]. rewrite !sum_by_cons, IH. lia.
  - set (k := Z.max 1 _) in *. assert (1 ≤ k) by (unfold k; lia). forall_list;
      cbn [quantityEffect Quote.materialWeightMilligrams Quote.machineSeconds Quote.plateCount Quote.pieceHandlingSeconds];
      [nia|nia|destruct (hasTail item); lia|apply Z.mul_nonneg_nonneg; lia].
  - unfold Arith.cdiv. apply Z.quot_div_nonneg; nia.
Qed.

(** ** The shipment of a plan *)

Lemma trim_start_head s c rest : trim_start s = c :: rest → is_js_space c = false.
Proof. induction s as [|x s IH]; cbn; [done|]. destruct (is_js_space x) eqn:E; [done|]. by intros [= <- _]. Qed.

Lemma trim_start_spaces s : trim_start s = [] → Forall (λ c, is_js_space c = true) s.
Proof. induction s as [|x s IH]; cbn; [constructor|]. destruct (is_js_space x) eqn:E; [|done]. constructor; auto. Qed.

Lemma js_trim_spaces s : js_trim s = [] → Forall (λ c, is_js_space c = true) s.
Proof.
  unfold js_trim. intros H%(f_equal reverse). rewrite reverse_involutive in H. apply trim_start_spaces in H.
  destruct (trim_start s) as [|c rest] eqn:E; [by apply trim_start_spaces|]. apply trim_start_head in E.
  rewrite reverse_cons in H. apply Forall_app in H as [_ H]. apply Forall_inv in H. congruence.
Qed.

(** A trimmed text that is not blank stays so. *)
Lemma blank_js_trim s : blank s = false → blank (js_trim s) = false.
Proof.
  unfold blank, js_length. intros H. apply Z.eqb_neq. intros Hn. destruct (js_trim s) as [|x l] eqn:E; [done|].
  assert (js_trim (x :: l) = []) as Hnil%js_trim_spaces by (destruct (js_trim (x :: l)); [done|cbn in Hn; lia]).
  rewrite <-E in Hnil. unfold js_trim in Hnil, E. destruct (trim_start (reverse (trim_start s))) as [|c rest] eqn:Hc; [done|].
  apply trim_start_head in Hc. rewrite reverse_cons in Hnil. apply Forall_app in Hnil as [_ Hnil].
  apply Forall_inv in Hnil. congruence.
Qed.

Lemma parsed_categories v parameters : parseAutomaticQuotePricingParameters v = Ok parameters →
  Forall (λ c, blank (id c) = false) (shipmentCategories parameters).
Proof.
  unfold parseAutomaticQuotePricingParameters. intros H. do 3 (apply bind_Ok in H as (? & _ & H)).
  apply bind_Ok in H as (entries & _ & H). apply bind_Ok in H as (categories & Hc & H).
  repeat (apply bind_Ok in H as (? & _ & H)). injection H as <-. cbn [shipmentCategories].
  apply traverse_Ok in Hc. eapply Forall2_Forall_r; [exact Hc|]. apply Forall_true. intros entry c Hp.
  unfold parseCategory in Hp. apply bind_Ok in Hp as (? & _ & Hp). apply bind_Ok in Hp as (name & Hname & Hp).
  repeat (apply bind_Ok in Hp as (? & _ & Hp)). injection Hp as <-. cbn [id].
  unfold text in Hname. destruct (_ ?. _); try done. unfold fail_when in Hname. ok_inv. by apply blank_js_trim.
Qed.

Definition priced_in (currency : jstr) (v : Prepare.ShipmentCategoryPricing) : Prop :=
  Money.currency (Prepare.carrierCost v) = currency ∧ Money.currency (Prepare.customerShippingRate v) = currency
  ∧ Money.currency (Prepare.packagingCost v) = currency.

Lemma addCategoryPricing_new currency m v :
  blank (Prepare.categoryId v) = false → m !! Prepare.categoryId v = None → priced_in currency v →
  Prepare.addCategoryPricing currency m v = Ok (<[Prepare.categoryId v:=v]> m).
Proof.
  intros Hb Hm (H1 & H2 & H3). unfold Prepare.addCategoryPricing, Prepare.assertCurrency, str_eqb.
  rewrite Hb, Hm, H1, H2, H3, !bool_decide_eq_true_2, bool_decide_eq_false_2 by (done || by intros [? ?]). done.
Qed.

Lemma categoryPricing_total values currency : Forall (λ v, blank (Prepare.categoryId v) = false) values →
  NoDup (Prepare.categoryId <$> values) →
  Forall (priced_in currency) values →
  ∃ prices, Prepare.categoryPricingById values currency = Ok prices
    ∧ ∀ v, v ∈ values → prices !! Prepare.categoryId v = Some v.
Proof.
  intros Hb HN Hc. unfold Prepare.categoryPricingById.
  cut (∀ m : gmap jstr _, (∀ v, v ∈ values → m !! Prepare.categoryId v = None) →
    ∃ prices, foldM (Prepare.addCategoryPricing currency) m values = Ok prices
      ∧ (∀ k w, m !! k = Some w → prices !! k = Some w) ∧ ∀ v, v ∈ values → prices !! Prepare.categoryId v = Some v).
  { intros Hcut. destruct (Hcut ∅) as (prices & ? & _ & ?); [by intros|eauto]. }
  induction values as [|v values IH]; intros m Hm; [exists m; split_and!; [done|done|by intros v ?%not_elem_of_nil]|].
  apply Forall_cons in Hb as [Hbv Hb], Hc as [Hcv Hc]. rewrite fmap_cons in HN. apply NoDup_cons in HN as [Hv HN].
  cbn [foldM]. rewrite addCategoryPricing_new by (done || by apply Hm; left). cbn [mbind result_bind].
  destruct (IH Hb HN Hc (<[Prepare.categoryId v:=v]> m)) as (prices & Hp & Hkeep & Hnew).
  { intros w Hw. rewrite lookup_insert_ne; [by apply Hm; right|]. intros Heq. apply Hv. rewrite Heq.
    apply list_elem_of_fmap. eauto. }
  exists prices. split; [done|]. split.
  - intros k w Hk. apply Hkeep. rewrite lookup_insert_ne; [done|]. intros <-. rewrite Hm in Hk; [done|by left].
  - intros w [->|Hw]%elem_of_cons; [|by apply Hnew]. apply Hkeep, lookup_insert_eq.
Qed.

Lemma traverse_total {A B} (f : A → result B) (R : A → B → Prop) l :
  (∀ x, x ∈ l → ∃ y, f x = Ok y ∧ R x y) → ∃ k, traverse f l = Ok k ∧ Forall2 R l k.
Proof.
  induction l as [|x l IH]; intros H; [by exists []|]. destruct (H x) as (y & Hy & HR); [by left|].
  destruct IH as (k & Hk & HF); [intros z Hz; apply H; by right|]. exists (y :: k). cbn. rewrite Hy, Hk. split; [done|by constructor].
Qed.

Lemma map_put_fresh {A} (m : list (jsnumber * A)) k v : k ∉ m.*1 → map_put m k v = m ++ [(k, v)].
Proof.
  induction m as [|[k' v'] m IH]; [done|]. cbn. intros [Hk Hm]%not_elem_of_cons. rewrite bool_decide_eq_false_2 by done.
  by rewrite IH.
Qed.

Definition planIdEntry (planId : Z → jstr) (parcel : ShipmentPlan.ShipmentParcel) : jsnumber * jstr :=
  (IntNum (ShipmentPlan.ordinal parcel), planId (ShipmentPlan.ordinal parcel)).

Lemma planIds_entries planId parcels : NoDup (ShipmentPlan.ordinal <$> parcels) →
  planIds planId (ShipmentPlan.planned parcels) = planIdEntry planId <$> parcels.
Proof.
  unfold planIds. intros HN. change (planIdEntry planId <$> parcels) with ([] ++ (planIdEntry planId <$> parcels)).
  assert (∀ p, p ∈ parcels → IntNum (ShipmentPlan.ordinal p) ∉ ([] : list (jsnumber * jstr)).*1) as Hm by (intros ? _; apply not_elem_of_nil).
  revert Hm. generalize ([] : list (jsnumber * jstr)) as m. induction parcels as [|p ps IH]; intros m Hm; cbn [foldl fmap list_fmap].
  { by rewrite app_nil_r. }
  rewrite fmap_cons in HN. apply NoDup_cons in HN as [Hp HN]. rewrite map_put_fresh by (apply Hm; by left).
  rewrite IH; [by rewrite <-app_assoc|done|]. intros q Hq. rewrite fmap_app, not_elem_of_app. split; [apply Hm; by right|].
  cbn. intros [=Heq]%list_elem_of_singleton. apply Hp. rewrite <-Heq. by apply list_elem_of_fmap_2.
Qed.

Lemma planIdAt_entry planId parcels parcel : parcel ∈ parcels →
  Prepare.planIdAt (planIdEntry planId <$> parcels) (ShipmentPlan.ordinal parcel) = Some (planId (ShipmentPlan.ordinal parcel)).
Proof.
  unfold Prepare.planIdAt. induction parcels as [|p ps IH]; [by intros ?%not_elem_of_nil|]. cbn.
  destruct (decide (ShipmentPlan.ordinal p = ShipmentPlan.ordinal parcel)) as [Heq|Hne].
  - rewrite bool_decide_eq_true_2 by congruence. cbn. congruence.
  - rewrite bool_decide_eq_false_2 by congruence. intros [->|H]%elem_of_cons; [done|by apply IH].
Qed.

Lemma checked_planIds planId parcels : NoDup (planId <$> (ShipmentPlan.ordinal <$> parcels)) →
  Forall (λ n, 1 ≤ n ≤ MAX_SAFE_INTEGER ∧ blank (planId n) = false) (ShipmentPlan.ordinal <$> parcels) →
  ∃ seen, foldM (Prepare.checkPlanId (list_to_set (ShipmentPlan.ordinal <$> parcels))) ∅ (planIdEntry planId <$> parcels) = Ok seen.
Proof.
  intros HN HF. rewrite Forall_fmap in HF. eexists. apply (foldM_unique _ snd (λ entry, blank entry.2 = false
    ∧ ∃ n, entry.1 = IntNum n ∧ safe_int n = true ∧ n ∈ ShipmentPlan.ordinal <$> parcels)).
  - intros seen [k i] seen'. unfold Prepare.checkPlanId, Prepare.assertIdentity. cbn [fst snd]. split.
    + intros H. ok_inv. bool_inv. destruct k as [n| | |]; [|done..]. split; [|done]. split; [done|]. exists n. cbn [num] in *.
      rewrite elem_of_list_to_set in *. by split_and!.
    + intros ((Hb & n & -> & Hs & Hn) & Hi & ->). cbn [isSafeInteger num]. rewrite Hs, Hb.
      rewrite (bool_decide_eq_true_2 (n ∈ _)), (bool_decide_eq_false_2 (i ∈ seen)) by (done || by apply elem_of_list_to_set). done.
  - split_and!; [|by rewrite <-!list_fmap_compose in *|intros ? _; apply not_elem_of_empty|reflexivity].
    rewrite Forall_fmap. apply Forall_forall. intros p Hp. rewrite Forall_forall in HF. destruct (HF p Hp) as [Hr Hb].
    cbn in *. split; [done|]. eexists. split; [reflexivity|]. split; [|by apply list_elem_of_fmap_2].
    unfold safe_int, MIN_SAFE_INTEGER. apply andb_true_intro. split; apply Z.leb_le; unfold MAX_SAFE_INTEGER in *; lia.
Qed.

Lemma complete_planIds planId parcels : NoDup (ShipmentPlan.ordinal <$> parcels) →
  let expected : gset Z := list_to_set (ShipmentPlan.ordinal <$> parcels) in
  negb (length (planIdEntry planId <$> parcels) =? size expected)%nat
  || existsb (λ ordinal, negb (bool_decide (is_Some (Prepare.planIdAt (planIdEntry planId <$> parcels) ordinal)))) (base.elements expected)
  = false.
Proof.
  intros HN expected. unfold expected. rewrite size_list_to_set, !length_fmap, Nat.eqb_refl by done. cbn [negb orb].
  apply not_true_iff_false. intros (o & Ho & Hn)%existsb_exists. apply list_elem_of_In, elem_of_elements, elem_of_list_to_set in Ho.
  apply list_elem_of_fmap in Ho as (p & -> & Hp). rewrite planIdAt_entry, bool_decide_eq_true_2 in Hn by (done || by eexists). done.
Qed.

(** The identities that a caller gives the plans of a quote are of use: not
    blank, and distinct. *)
Definition plan_ids_usable (planId : Z → jstr) (n : nat) : Prop :=
  NoDup (planId <$> ((λ i, Z.of_nat i + 1) <$> seq 0 n))
  ∧ Forall (λ k, k ≤ MAX_SAFE_INTEGER ∧ blank (planId k) = false) ((λ i, Z.of_nat i + 1) <$> seq 0 n).

(** The parcel of an order's price for a parcel of the plan. *)
Definition charged (parameters : AutomaticQuotePricingParameters) (currency : jstr) (planId : Z → jstr)
    (parcel : ShipmentPlan.ShipmentParcel) (p : Quote.ParcelPricingInput) : Prop :=
  ∃ c, c ∈ shipmentCategories parameters ∧ id c = ShipmentPlan.categoryId parcel ∧
  p = Quote.mkParcel (planId (ShipmentPlan.ordinal parcel)) (id c)
        (ShipmentPlan.placed_packingUnitKey <$> ShipmentPlan.placements parcel)
        (Money.mk (carrierCostMinor c) currency) (Money.mk (customerShippingRateMinor c) currency)
        (Money.mk (packagingCostMinor c) currency).

Lemma categoryPrice_Ok currency c p : categoryPrice currency c = Ok p →
  p = Prepare.mkCategoryPricing (id c) (Money.mk (carrierCostMinor c) currency)
        (Money.mk (customerShippingRateMinor c) currency) (Money.mk (packagingCostMinor c) currency).
Proof.
  unfold categoryPrice. intros H. ok_inv.
  repeat match goal with E : Money.of_ _ _ = Ok _ |- _ => apply Money.of__Ok in E as [-> _] end. done.
Qed.

(** The prices of the categories of a price list, by their identities. *)
Lemma category_prices v parameters currency prices :
  parseAutomaticQuotePricingParameters v = Ok parameters → NoDup (id <$> shipmentCategories parameters) →
  traverse (categoryPrice currency) (shipmentCategories parameters) = Ok prices →
  ∃ byId, Prepare.categoryPricingById prices currency = Ok byId
    ∧ ∀ c, c ∈ shipmentCategories parameters → ∃ p, byId !! id c = Some p ∧ categoryPrice currency c = Ok p.
Proof.
  intros Hparse HN Hp. apply parsed_categories in Hparse. apply traverse_Ok in Hp.
  assert (Prepare.categoryId <$> prices = id <$> shipmentCategories parameters) as Hids.
  { clear HN Hparse. induction Hp as [|c p cs ps Hc _ IH]; [done|]. apply categoryPrice_Ok in Hc as ->. cbn. by f_equal. }
  destruct (categoryPricing_total prices currency) as (byId & Hby & Hlook).
  - apply (Forall_fmap _ (λ i, blank i = false)). rewrite Hids. by apply Forall_fmap.
  - by rewrite Hids.
  - eapply Forall2_Forall_r; [exact Hp|]. apply Forall_true. intros c p Hc. by apply categoryPrice_Ok in Hc as ->.
  - exists byId. split; [done|]. intros c [i Hi]%list_elem_of_lookup.
    destruct (Forall2_lookup_l _ _ _ _ _ Hp Hi) as (p & Hpi & Hc). exists p. split; [|done].
    rewrite <-(Hlook p) by by eapply list_elem_of_lookup_2. by apply categoryPrice_Ok in Hc as ->.
Qed.

(** The ordinals of a plan, each its own. *)
Lemma plan_ordinals planner parcels : ShipmentPlan.planShipment planner = Ok (ShipmentPlan.planned parcels) →
  ShipmentPlan.ordinal <$> parcels = (λ i, Z.of_nat i + 1) <$> seq 0 (length parcels)
  ∧ NoDup (ShipmentPlan.ordinal <$> parcels).
Proof.
  intros [Hwf Hps]%ShipmentPlan.planShipment_Ok.
  destruct (ShipmentPlan.placeUnits_start _ Hwf) as [(ps & Hp & [_ Hord])|(u & Hu & _)]; [|by rewrite Hu in Hps].
  rewrite Hp in Hps. injection Hps as ->. split; [done|]. rewrite Hord. apply NoDup_fmap_2; [intros ???; lia|]. apply NoDup_seq.
Qed.

Lemma planned_categories input parameters snapshot planner parcels :
  plannerInputOf input parameters snapshot = Ok planner →
  ShipmentPlan.planShipment planner = Ok (ShipmentPlan.planned parcels) →
  NoDup (id <$> shipmentCategories parameters).
Proof.
  unfold plannerInputOf. intros H [Hwf _]%ShipmentPlan.planShipment_Ok. ok_inv.
  apply ShipmentPlan.wf_categoryIds in Hwf as [_ HN]. cbn in HN. by rewrite <-list_fmap_compose in HN.
Qed.

(** C21: The shipment of an automatic quote resolves.  When its parcels are
    planned, and the caller's identities are not blank and are distinct, the
    checks of the categories and of the plan identities pass, and each parcel
    of the plan is charged the rates of its category of the price list, in the
    list's currency, under the identity of its ordinal and with the units
    placed in it. *)
Theorem destination_shipment_resolves input parameters destination planId d parcels :
  parseAutomaticQuotePricingParameters (pl_parameters (priceList input)) = Ok parameters →
  destinationShipmentOf input parameters destination planId = Ok d →
  ShipmentPlan.planShipment (Prepare.plannerInput d) = Ok (ShipmentPlan.planned parcels) →
  plan_ids_usable planId (length parcels) →
  ∃ prices s, Prepare.categoryPricingById (Prepare.categoryPricing d) (pl_currency (priceList input)) = Ok prices
    ∧ Prepare.bindingShipmentForPlan d parcels prices = Ok s
    ∧ Quote.deliveryDestinationId s = destination.1
    ∧ Forall2 (charged parameters (pl_currency (priceList input)) planId) parcels (Quote.parcels s).
Proof.
  intros Hparse Hd Hplan [HN HF]. pose proof (destinationShipment_Ok _ _ _ _ _ Hd) as (Hplanner & Hcats & planned & Hp & Hids).
  rewrite Hplan in Hp. injection Hp as <-.
  destruct (plan_ordinals _ _ Hplan) as [Hord HNo]. rewrite <-Hord in HN, HF.
  destruct (planned_category _ _ _ _ _ Hplanner Hplan) as (? & ? & _ & _ & Hwithin).
  destruct (category_prices _ _ _ _ Hparse (planned_categories _ _ _ _ _ Hplanner Hplan) Hcats) as (byId & Hby & Hlook).
  destruct (checked_planIds planId parcels HN) as [seen Hseen].
  { rewrite Hord in HF |- *. rewrite Forall_fmap in HF |- *. eapply Forall_impl; [exact HF|]. cbn. intros i [? ?]. split; [lia|done]. }
  rewrite planIds_entries in Hids by done.
  assert (∀ parcel, parcel ∈ parcels → ∃ p, Prepare.bindingParcel (planIdEntry planId <$> parcels) byId parcel = Ok p
    ∧ charged parameters (pl_currency (priceList input)) planId parcel p) as Hparcel.
  { intros parcel Hin. rewrite Forall_forall in Hwithin. destruct (Hwithin _ Hin) as (_ & c & Hc & Hid & _).
    destruct (Hlook c Hc) as (p & Hp & Hprice). apply categoryPrice_Ok in Hprice as ->.
    unfold Prepare.bindingParcel. rewrite <-Hid, Hp, planIdAt_entry by done. eexists. split; [reflexivity|]. by exists c. }
  exists byId. apply traverse_total in Hparcel as (ps & Hps & Hcharged). eexists. split; [done|]. unfold Prepare.bindingShipmentForPlan. cbv zeta.
  rewrite Hids, Hseen, complete_planIds by done. run. rewrite Hps. split; [reflexivity|].
  split; [|exact Hcharged]. unfold destinationShipmentOf in Hd. ok_inv. done.
Qed.

End AutomaticQuote.

(** ** A sample *)

Definition obj (fields : list (String.string * value)) : value := RecordV 0 ((λ p, (js p.1, p.2)) <$> fields).
Definition sample_ratio (n d : String.string) : value := obj [("numerator"%string, lit n); ("denominator"%string, lit d)].

Definition sample_category : value :=
  obj [("id"%string, lit "small"); ("maxXMicrometers"%string, lit "400000");
       ("maxYMicrometers"%string, lit "400000"); ("maxZMicrometers"%string, lit "400000");
       ("maxDimensionSumMicrometers"%string, lit "900000"); ("maxWeightMilligrams"%string, lit "5000000");
       ("maxParcelVolumeCubicMicrometers"%string, lit "64000000000000000");
       ("carrierCostMinor"%string, lit "8900"); ("customerShippingRateMinor"%string, lit "7900");
       ("packagingCostMinor"%string, lit "500")].

Definition sample_automatic : value :=
  let ratios names r := obj ((λ name, (name, r)) <$> names) in
  obj [("machineRateMinorPerSecond"%string, sample_ratio "1" "100"); ("laborRateMinorPerSecond"%string, sample_ratio "1" "60");
       ("amortizationRateMinorPerSecond"%string, sample_ratio "1" "1000"); ("reprintRate"%string, sample_ratio "5" "100");
       ("marginRate"%string, sample_ratio "30" "100");
       ("materialRateMinorPerMilligram"%string, ratios ["PLA"%string; "PETG"%string] (sample_ratio "3" "100"));
       ("roughMaterialDensityMilligramsPerCubicMillimeter"%string, ratios ["PLA"%string; "PETG"%string] (sample_ratio "124" "100"));
       ("roughMaterialVolumeRatioByInfillPreset"%string,
          ratios ["DECORATIVE"%string; "STANDARD"%string; "STRONG"%string] (sample_ratio "1" "2"));
       ("roughExtrusionMilligramsPerSecond"%string, sample_ratio "5" "1"); ("handlingOrderFixedSeconds"%string, lit "60");
       ("handlingPlateSeconds"%string, lit "30"); ("handlingPieceSeconds"%string, lit "10");
       ("handlingPackSeconds"%string, lit "20"); ("shippingTripSeconds"%string, lit "600");
       ("shippingTripPricingDivisor"%string, lit "4"); ("minimumPrintPriceMinor"%string, lit "5000");
       ("smallOrderWeightThresholdMilligrams"%string, lit "100000"); ("smallOrderSurchargeMinor"%string, lit "900");
       ("freeShippingPrintThresholdMinor"%string, lit "50000"); ("expressMultiplier"%string, sample_ratio "3" "2");
       ("expressMaximumPlateCount"%string, lit "2"); ("expressAvailableProductionWindowSeconds"%string, lit "86400");
       ("expressPackagingBufferSeconds"%string, lit "7200"); ("maximumAutomaticQuantity"%string, lit "100");
       ("maximumAutomaticAmountMinor"%string, lit "500000"); ("packingPaddingMicrometers"%string, lit "5000");
       ("fillCoefficient"%string, sample_ratio "4" "5"); ("packagingWeightMilligrams"%string, lit "100000");
       ("paymentFeeRateBasisPoints"%string, Integral 150); ("paymentFeeFixedMinor"%string, lit "100");
       ("paymentProviderConfig"%string, obj []); ("shipmentCategories"%string, ArrayV 0 [sample_category])].

Definition sample_parameters : value :=
  obj [("sellerTaxPolicy"%string, obj [("regime"%string, lit "VAT_PAYER"); ("vatRateBasisPoints"%string, Integral 2100)]);
       ("automaticQuote"%string, sample_automatic); ("balance_payment_days"%string, Integral 14);
       ("balance_timeout_earned_component_kinds"%string, ArrayV 0 [lit "ITEM_PRODUCTION"; lit "VAT"])].

(** Three pieces, two of them on a plate. *)
Definition sample_quote_item : AutomaticQuotePricingItem :=
  mkItem (js "item") (js "profile") PLA 3 2 (mkMetrics 3600 20000) (Some (mkMetrics 2000 10000))
    60000 40000 30000 [js "u1"; js "u2"; js "u3"].

Definition sample_capability : value :=
  obj [("supportedCategoryIds"%string, ArrayV 0 [lit "small"]);
       ("endpointConstraints"%string, obj [("maxWeightMilligrams"%string, lit "2000000")])].

Definition sample_quote_input : AutomaticQuotePreparationInput :=
  mkPreparation (mkPriceListInput (js "revision") (js "terms") (js "CZK") sample_parameters) [sample_quote_item]
    false true true true false (Some (js "destination", sample_capability)) (Some (λ n, js "plan-" ++ toString10 n)).

#[local] Instance sample_numbers : NumberText := {| numberText _ := [] |}.

(** The parts of a binding quote. *)
Definition binding_parts (r : result (Prepare.PreparedOrderQuote * AutomaticQuotePricingParameters)) :=
  match r with
  | Ok (Prepare.prepared_binding_quote express parcels price, parameters) => Some (express, parcels, price, parameters)
  | _ => None
  end.

Lemma binding_parts_Some r express parcels price parameters :
  binding_parts r = Some (express, parcels, price, parameters) →
  r = Ok (Prepare.prepared_binding_quote express parcels price, parameters).
Proof. destruct r as [[[] ?]|]; cbn; congruence. Qed.

(** The parts of the quote of the sample. *)
Ltac sample_quote :=
  destruct (binding_parts (prepareAutomaticQuote sample_quote_input)) as [[[[express parcels] price] parameters]|] eqn:H;
    [apply binding_parts_Some in H|vm_compute in H; discriminate H].

Lemma automatic_quote_within_limits_witness :
  ∃ express parcels price parameters,
    prepareAutomaticQuote sample_quote_input = Ok (Prepare.prepared_binding_quote express parcels price, parameters)
    ∧ within_limits sample_quote_input (sample_parameters ?. "automaticQuote") parcels price.
Proof. sample_quote. do 4 eexists. split; [exact H|]. exact (proj2 (automatic_quote_within_limits _ _ _ _ _ H)). Defined.

Lemma published_quote_in_range_witness :
  ∃ express parcels price parameters,
    validatePriceListParameters (pl_parameters (priceList sample_quote_input)) = Ok ()
    ∧ prepareAutomaticQuote sample_quote_input = Ok (Prepare.prepared_binding_quote express parcels price, parameters)
    ∧ 0 ≤ Money.minorUnits (customerTotal price) ≤ MAX_SAFE_INTEGER.
Proof.
  sample_quote. exists express, parcels, price, parameters.
  assert (validatePriceListParameters (pl_parameters (priceList sample_quote_input)) = Ok ()) as Hv by (vm_compute; reflexivity).
  split; [exact Hv|]. split; [exact H|].
  destruct (published_quote_in_range sample_quote_input express parcels price parameters Hv H) as (? & ? & ? & ? & ? & ? & ? & ? & ? & -> & Ht & _). exact Ht.
Defined.

(** Three pieces on plates of two: a full plate and one with a single piece. *)
Lemma production_metrics_exact_witness :
  ∃ parameters r weight, parseAutomaticQuotePricingParameters sample_parameters = Ok parameters
    ∧ platePieces sample_quote_item = [2; 1] ∧ productionMetrics sample_quote_item parameters = Ok r
    ∧ perUnitWeight sample_quote_item = Ok weight ∧ weight = 10000 ∧ plateCount r = 2.
Proof.
  destruct (parseAutomaticQuotePricingParameters sample_parameters) as [parameters|] eqn:H; [|vm_compute in H; discriminate H].
  destruct (production_metrics_exact sample_quote_item parameters) as (r & weight & Hr & Hw & Hrest);
    [reflexivity|reflexivity|vm_compute in H; injection H as <-; discriminate|discriminate|discriminate|intros t [= <-]; split; discriminate|].
  cbv zeta in Hrest. destruct Hrest as (_ & _ & _ & Hcount & _ & _ & Hweight).
  exists parameters, r, weight. split; [reflexivity|]. split; [reflexivity|]. split; [exact Hr|]. split; [exact Hw|].
  split; [rewrite Hweight; reflexivity|rewrite Hcount; reflexivity].
Defined.

Lemma destination_shipment_resolves_witness :
  ∃ parameters d parcels prices s,
    destinationShipmentOf sample_quote_input parameters (js "destination", sample_capability) (λ n, js "plan-" ++ toString10 n) = Ok d
    ∧ ShipmentPlan.planShipment (Prepare.plannerInput d) = Ok (ShipmentPlan.planned parcels)
    ∧ Prepare.categoryPricingById (Prepare.categoryPricing d) (js "CZK") = Ok prices
    ∧ Prepare.bindingShipmentForPlan d parcels prices = Ok s
    ∧ length (Quote.parcels s) = length parcels.
Proof.
  destruct (parseAutomaticQuotePricingParameters sample_parameters) as [parameters|] eqn:H; [|vm_compute in H; discriminate H].
  pose proof H as Heval. vm_compute in Heval. injection Heval as Heval.
  destruct (destinationShipmentOf sample_quote_input parameters (js "destination", sample_capability) (λ n, js "plan-" ++ toString10 n))
    as [d|] eqn:Hd; [|subst parameters; vm_compute in Hd; discriminate Hd].
  destruct (ShipmentPlan.planShipment (Prepare.plannerInput d)) as [[parcels|]|] eqn:Hp;
    try (subst parameters; vm_compute in Hd; injection Hd as <-; vm_compute in Hp; discriminate Hp).
  destruct (destination_shipment_resolves sample_quote_input parameters _ _ d parcels H Hd Hp) as (prices & s & ? & ? & _ & HF).
  - subst parameters. vm_compute in Hd. injection Hd as <-. vm_compute in Hp. injection Hp as <-.
    split; [apply NoDup_singleton|]. repeat constructor; discriminate.
  - exists parameters, d, parcels, prices, s. split; [exact Hd|]. split; [exact Hp|]. split; [done|]. split; [done|].
    symmetry. exact (Forall2_length _ _ _ HF).
Defined.

(** The key that [find] gives back is tested for truth, so a key that is the
    empty text counts as none, and hides one that is not supported. *)
Example exactKeys_empty_key :
  exactKeys (obj [("a"%string, Null); (""%string, Null); ("other"%string, Null)]) [js "a"] = Ok ()
  ∧ exactKeys (obj [("a"%string, Null); ("other"%string, Null)]) [js "a"] = Throw (BadRequestException None).
Proof. split; reflexivity. Qed.


End AutomaticQuote.
