(* ===== verification/Contracts.v ===== *)
(** The messages between the backend and the slicer worker
    (packages/slicer-contracts/src/contracts.ts): the schemas of jobs and of
    results, the identities that they carry, and the binding of a result to its
    job.  A name that is a number, a text or an object of the code is one here,
    as a [value] when a schema checks it. *)
From S2P Require Import Prelude Text Language Primitives Digest Keys Values Json Hash Zod Plates Patterns.

Module Contracts.
Import Patterns.

Definition SLICING_CONTRACT_VERSION : Z := 2.
Definition SLICING_MESSAGE_MAX_BYTES : Z := 64 * 1024.
Definition MAX_BODY_COUNT : Z := 256.
Definition MAX_FINDING_COUNT : Z := 256.
Definition MAX_PLATE_COUNT : Z := 36.
Definition MAX_QUANTITY : Z := 100000.
Definition MAX_SIGNED_BIGINT : Z := 9223372036854775807.

(** ** Basic schemas *)

Section Contracts.
Context {Z_ : Zod} {numbers : NumberText}.

(** What a check reads of a value that its schema has accepted. *)
Definition text (v : value) : jstr := match v with Str s => s | _ => [] end.
Definition integer (v : value) : Z := match v with Integral z => z | _ => 0 end.
Definition on_text (f : jstr → bool) (v : value) : bool := match v with Str s => f s | _ => false end.
Definition on_integer (f : Z → bool) (v : value) : bool := match v with Integral z => f z | _ => false end.

(** [BigInt(v)], of a text that the pattern of integers accepts. *)
Definition bigint (v : value) : Z := default 0 (BigInt_of_string (text v)).

Definition UuidSchema : schema := check z_string (on_text LOWERCASE_UUID_PATTERN).
Definition Sha256Schema : schema := check z_string (on_text SHA256_PATTERN).

Definition NonnegativeInt64StringSchema : schema :=
  check (check z_string (on_text INT64_PATTERN)) (λ v, bigint v <=? MAX_SIGNED_BIGINT).
Definition PositiveInt64StringSchema : schema := check NonnegativeInt64StringSchema (λ v, v !== lit "0").

Definition PRODUCTION_ARTIFACT_FORMATS : list jstr :=
  js <$> ["gcode_3mf"%string; "bgcode"%string; "gcode"%string].
Definition ProductionArtifactFormatSchema : schema := z_enum PRODUCTION_ARTIFACT_FORMATS.

(** [PRODUCTION_ARTIFACT_SUFFIX[format]], of a format. *)
Definition PRODUCTION_ARTIFACT_SUFFIX (format : jstr) : jstr :=
  if str_eqb format (js "gcode_3mf") then js "gcode.3mf" else format.

Definition z_text (minimum maximum : Z) : schema :=
  check z_string (on_text (λ s, (minimum <=? js_length s) && (js_length s <=? maximum))).

Definition StorageObjectKeySchema : schema :=
  check (check (z_text 1 512) (on_text GENERATED_OBJECT_KEY_PATTERN))
    (on_text (λ s, negb (includes_text s (js "..")) && negb (includes_text s [92])
                   && negb (bool_decide (take 1 s = js "/")))).

(** The segments of a key, by their patterns. *)
Definition key_pattern (patterns : list (jstr → bool)) (s : jstr) : bool :=
  let segments := split_slash s in
  (length segments =? length patterns)%nat && forallb (λ p, p.1 p.2) (zip patterns segments).

Definition hex_dashes (n : nat) (s : jstr) : bool :=
  (length s =? n)%nat && forallb (λ c, lower_hex c || is_char 45 c) s.

Definition ModelSourceObjectKeySchema : schema :=
  check StorageObjectKeySchema (on_text (key_pattern [str_eqb (js "models"); hex_dashes 36; str_eqb (js "source")])).
Definition GeometryObjectKeySchema : schema :=
  check StorageObjectKeySchema (on_text (key_pattern [str_eqb (js "geometries"); hex_dashes 36; str_eqb (js "canonical")])).
Definition ReferenceArtifactObjectKeySchema : schema :=
  check StorageObjectKeySchema
    (on_text (key_pattern [str_eqb (js "reference-slices"); plain_segment; SAFE_IDENTIFIER_PATTERN])).
Definition SliceMetricsObjectKeySchema : schema :=
  check StorageObjectKeySchema
    (on_text (key_pattern [str_eqb (js "slice-metrics"); SHA256_PATTERN; str_eqb (js "result.json")])).
Definition ProductionArtifactObjectKeySchema : schema :=
  check StorageObjectKeySchema
    (on_text (key_pattern [str_eqb (js "gcode"); hex_dashes 36;
       λ s, existsb (str_eqb s) (js <$> ["toolpaths.gcode.3mf"%string; "toolpaths.bgcode"%string; "toolpaths.gcode"%string])])).

Definition productionArtifactObjectKey (acceptedJobId format : value) : result jstr :=
  id ← parse UuidSchema acceptedJobId;
  f ← parse ProductionArtifactFormatSchema format;
  Ok (js "gcode/" ++ text id ++ js "/toolpaths." ++ PRODUCTION_ARTIFACT_SUFFIX (text f)).

Definition referenceArtifactObjectKey (inputFingerprintSha256 : value) : result jstr :=
  fingerprint ← parse Sha256Schema inputFingerprintSha256;
  Ok (js "reference-slices/" ++ text fingerprint ++ js "/toolpath.gcode").

Definition SafeIdentifierSchema : schema := check (z_text 1 128) (on_text SAFE_IDENTIFIER_PATTERN).
Definition RevisionNameSchema : schema := check SafeIdentifierSchema (on_text (λ s, js_length s <=? 64)).
(** [/^[a-z0-9][a-z0-9:|_-]*$/] *)
Definition IdempotencyKeySchema : schema :=
  check (z_text 1 255) (on_text (head_then alphanumeric (λ c, alphanumeric c || one_of ":|_-" c))).

Definition SafeFailureMessageSchema : schema :=
  check (check (check (check (check (z_text 1 512) (on_text SAFE_FAILURE_MESSAGE_PATTERN))
    (on_text hasNoControlCharacters))
    (on_text (λ s, negb (CREDENTIAL_ASSIGNMENT_PATTERN s))))
    (on_text (λ s, negb (includes_text s (js "/")) && negb (includes_text s [92]))))
    (on_text (λ s, str_eqb s (js_trim s))).

Definition boundedInteger (minimum maximum : Z) : schema :=
  check z_int (on_integer (λ z, (minimum <=? z) && (z <=? maximum))).
Definition boundedPositiveInteger (maximum : Z) : schema := boundedInteger 1 maximum.
Definition boundedNonnegativeInteger (maximum : Z) : schema := boundedInteger 0 maximum.

(** [new Set(values).size === values.length] and the canonical order, of
    texts. *)
Definition unique_texts (l : list jstr) : bool := (size (list_to_set l : gset jstr) =? length l)%nat.
Fixpoint ordered_texts (l : list jstr) : bool :=
  match l with
  | a :: l' => match l' with b :: _ => negb (str_ltb b a) | [] => true end && ordered_texts l'
  | [] => true
  end.

Definition z_bounded_array (s : schema) (minimum maximum : Z) : schema :=
  check (z_array s) (λ v, (minimum <=? zlength (elements v)) && (zlength (elements v) <=? maximum)).

Definition sortedUniqueIdentifiers (maximum minimum : Z) : schema :=
  check (z_bounded_array SafeIdentifierSchema minimum maximum)
    (λ v, unique_texts (text <$> elements v) && ordered_texts (text <$> elements v)).

(** ** Identities *)

(** [{ a: x, ... }] *)
Definition obj (fields : list (String.string * value)) : value := RecordV 0 ((λ p, (js p.1, p.2)) <$> fields).

Definition geometrySelectionSha256 (bodyIds : value) : result jstr :=
  canonicalBodyIds ← parse (sortedUniqueIdentifiers MAX_BODY_COUNT 1) bodyIds;
  canonicalSha256 (obj [("bodyIds"%string, canonicalBodyIds)]).

Definition slicingInputFingerprint (kind : value) (input : value) : result jstr :=
  canonicalSha256 (obj [("kind"%string, kind); ("input"%string, input)]).

Definition slicingDispatchAttemptKey (idempotencyKey attempt : value) : result jstr :=
  stableKey ← parse IdempotencyKeySchema idempotencyKey;
  attemptNumber ← parse (boundedPositiveInteger 100) attempt;
  digest ← canonicalSha256 (obj [("attempt"%string, attemptNumber); ("idempotencyKey"%string, stableKey)]);
  Ok (js "slicer-dispatch:v" ++ toString10 SLICING_CONTRACT_VERSION ++ js ":" ++ digest).

Definition machineOccupancyCacheIdentitySha256 (input : value) (partsPerPlate : Z) : result jstr :=
  geometryHash ← Sha256Digest.parse (text (input ?. "geometry" ?. "geometrySha256"));
  selectionHash ← Sha256Digest.parse (text (input ?. "geometry" ?. "selectionSha256"));
  machineProfile ← RevisionRef.create (js "machine-profile") (text (input ?. "machineProfile" ?. "revisionId"));
  machineCalibration ←
    RevisionRef.create (js "machine-calibration") (text (input ?. "machineCalibration" ?. "revisionId"));
  printConfig ← RevisionRef.create (js "print-config") (text (input ?. "printConfig" ?. "revisionId"));
  arrangement ← RevisionRef.create (js "arrangement") (text (input ?. "arrangementRevision" ?. "revisionId"));
  digest ← CacheKey.machineOccupancySliceIdentitySha256
    (CacheKey.mkMachineOccupancy
       (CacheKey.mkProductionSlice geometryHash machineProfile machineCalibration printConfig
          (NumberIn (IntNum partsPerPlate)))
       (text (input ?. "geometry" ?. "modelGeometryId")) selectionHash arrangement);
  Ok (Sha256Digest.hex digest).

(** ** Models, geometries and findings *)

(** [z.strictObject({ k: s, ... })], and a shape that others extend. *)
Definition shape_of (l : list (String.string * schema)) : list (jstr * schema) := (λ p, (js p.1, p.2)) <$> l.
Definition object (l : list (String.string * schema)) : schema := z_strictObject (shape_of l).

Definition enum (names : list String.string) : schema := z_enum (js <$> names).

Definition ModelFileIdentitySchema : schema :=
  check (object [("modelFileId"%string, UuidSchema); ("format"%string, enum ["stl"%string; "3mf"%string; "step"%string]);
                 ("objectKey"%string, ModelSourceObjectKeySchema); ("contentSha256"%string, Sha256Schema)])
    (λ v, v ?. "objectKey" === Str (js "models/" ++ text (v ?. "modelFileId") ++ js "/source")).

(** [value.selectionSha256 === geometrySelectionSha256(value.bodyIds)] *)
Definition ownedSelection (v : value) : result bool :=
  digest ← geometrySelectionSha256 (v ?. "bodyIds");
  Ok (v ?. "selectionSha256" === Str digest).

Definition requireOwnedGeometryKey (v : value) : bool :=
  v ?. "canonicalObjectKey" === Str (js "geometries/" ++ text (v ?. "modelGeometryId") ++ js "/canonical").

Definition GeometrySelectionSchema : schema :=
  refine (object [("sourceModelFileId"%string, UuidSchema); ("sourceContentSha256"%string, Sha256Schema);
                  ("modelGeometryId"%string, UuidSchema); ("canonicalObjectKey"%string, GeometryObjectKeySchema);
                  ("geometrySha256"%string, Sha256Schema);
                  ("bodyIds"%string, sortedUniqueIdentifiers MAX_BODY_COUNT 1);
                  ("selectionSha256"%string, Sha256Schema)])
    (λ v, owned ← ownedSelection v; Ok (requireOwnedGeometryKey v && owned)).

Definition RevisionSnapshotShape : list (String.string * schema) :=
  [("revisionId"%string, UuidSchema); ("contentSha256"%string, Sha256Schema)].
Definition RevisionSnapshotSchema : schema := object RevisionSnapshotShape.

Definition EngineVersionSchema : schema := check (z_text 1 100) (on_text (λ s, str_eqb s (js_trim s))).

Definition SlicerProfileSnapshotShape : list (String.string * schema) :=
  RevisionSnapshotShape ++ [("slicerEngine"%string, SafeIdentifierSchema); ("slicerVersion"%string, EngineVersionSchema)].
Definition SlicerProfileSnapshotSchema : schema := object SlicerProfileSnapshotShape.
Definition MachineSlicerProfileSnapshotSchema : schema :=
  object (SlicerProfileSnapshotShape ++ [("productionArtifactFormat"%string, ProductionArtifactFormatSchema)]).

Definition BoundingBoxSchema : schema :=
  object [("xMicrometers"%string, PositiveInt64StringSchema); ("yMicrometers"%string, PositiveInt64StringSchema);
          ("zMicrometers"%string, PositiveInt64StringSchema)].

Definition TopologyMetricsSchema : schema :=
  object [("watertight"%string, z_boolean); ("manifold"%string, z_boolean);
          ("normals"%string, enum ["consistent"%string; "inconsistent"%string; "unknown"%string])].

(** [/^[A-Z][A-Z0-9_]*$/] *)
Definition FINDING_CODE_PATTERN : jstr → bool :=
  head_then (in_range 65 90) (λ c, in_range 65 90 c || digit c || (c =? 95)).

Definition PreflightFindingSchema : schema :=
  check (object [("code"%string, check (z_text 1 64) (on_text FINDING_CODE_PATTERN));
                 ("severity"%string, enum ["info"%string; "warning"%string; "blocking"%string]);
                 ("phase"%string, enum ["inspection"%string; "reference_slice"%string]);
                 ("message"%string, SafeFailureMessageSchema);
                 ("acknowledgementKey"%string, nullable SafeIdentifierSchema)])
    (λ v, Bool.eqb (v ?. "severity" === lit "warning") (v ?. "acknowledgementKey" !== Null)).

(** No code is repeated. *)
Definition unique_codes (findings : value) : bool :=
  unique_texts ((λ finding, text (finding ?. "code")) <$> elements findings).

Definition FindingArraySchema : schema :=
  check (z_bounded_array PreflightFindingSchema 0 MAX_FINDING_COUNT) unique_codes.

Definition findingArrayForPhase (phase : value) : schema :=
  check FindingArraySchema (λ findings, forallb (λ finding, finding ?. "phase" === phase) (elements findings)).

Definition InspectionFindingArraySchema : schema := findingArrayForPhase (lit "inspection").
Definition ReferenceFindingArraySchema : schema := findingArrayForPhase (lit "reference_slice").

Definition EngineIdentitySchema : schema :=
  object [("name"%string, SafeIdentifierSchema); ("version"%string, EngineVersionSchema); ("imageSha256"%string, Sha256Schema)].

Definition ModelGeometryTargetShape : list (String.string * schema) :=
  [("modelGeometryId"%string, UuidSchema); ("canonicalObjectKey"%string, GeometryObjectKeySchema)].
Definition ModelGeometryTargetSchema : schema := check (object ModelGeometryTargetShape) requireOwnedGeometryKey.

Definition canonicalScaleFactorPpm (unit : jstr) : option Z :=
  if str_eqb unit (js "micron") then Some 1000
  else if str_eqb unit (js "millimeter") then Some 1000000
  else if str_eqb unit (js "centimeter") then Some 10000000
  else if str_eqb unit (js "inch") then Some 25400000
  else if str_eqb unit (js "foot") then Some 304800000
  else if str_eqb unit (js "meter") then Some 1000000000
  else None.

Definition ConfirmedUnitConversionSchema : schema :=
  check (object [("sourceUnit"%string, enum ["micron"%string; "millimeter"%string; "centimeter"%string; "inch"%string;
                                             "foot"%string; "meter"%string; "custom"%string]);
                 ("targetUnit"%string, z_literal (lit "millimeter"));
                 ("scaleFactorPpm"%string, boundedPositiveInteger 1000000000)])
    (λ v, (v ?. "sourceUnit" === lit "custom")
          || match canonicalScaleFactorPpm (text (v ?. "sourceUnit")) with
             | Some factor => v ?. "scaleFactorPpm" === Integral factor
             | None => false
             end).

Definition CanonicalGeometryArtifactSchema : schema :=
  refine (object (ModelGeometryTargetShape ++
                  [("geometrySha256"%string, Sha256Schema);
                   ("bodyIds"%string, sortedUniqueIdentifiers MAX_BODY_COUNT 1);
                   ("selectionSha256"%string, Sha256Schema);
                   ("appliedUnitConversion"%string, ConfirmedUnitConversionSchema)]))
    (λ v, owned ← ownedSelection v; Ok (requireOwnedGeometryKey v && owned)).

(** ** The inputs of jobs *)

Definition InspectionOperationSchema : schema :=
  z_discriminatedUnion (js "mode")
    [object [("mode"%string, z_literal (lit "inspect_source"))];
     refine (object [("mode"%string, z_literal (lit "canonicalize_selection"));
                     ("sourceInspectionFingerprintSha256"%string, Sha256Schema);
                     ("bodyIds"%string, sortedUniqueIdentifiers MAX_BODY_COUNT 1);
                     ("selectionSha256"%string, Sha256Schema);
                     ("confirmedUnitConversion"%string, ConfirmedUnitConversionSchema);
                     ("targetGeometry"%string, ModelGeometryTargetSchema)])
       ownedSelection].

(** [{ ...v, [k]: x }], of a [v] that has [k]. *)
Definition with_field (v : value) (k : String.string) (x : value) : value :=
  RecordV 0 ((λ p, if str_eqb p.1 (js k) then (p.1, x) else p) <$> fields v).
Arguments with_field _ _%_string _.

Definition discoveryFingerprint (v : value) : result bool :=
  let operation := v ?. "operation" in
  if operation ?. "mode" !== lit "canonicalize_selection" then Ok true
  else
    fingerprint ← slicingInputFingerprint (lit "model_inspection")
      (with_field v "operation" (obj [("mode"%string, lit "inspect_source")]));
    Ok (operation ?. "sourceInspectionFingerprintSha256" === Str fingerprint).

Definition InspectionInputSchema : schema :=
  refine (object [("source"%string, ModelFileIdentitySchema); ("operation"%string, InspectionOperationSchema);
                  ("inspectionRevision"%string, RevisionNameSchema); ("inspectionConfigSha256"%string, Sha256Schema);
                  ("canonicalizerRevision"%string, RevisionNameSchema);
                  ("canonicalizerConfigSha256"%string, Sha256Schema)])
    discoveryFingerprint.

Definition ReferenceSliceInputSchema : schema :=
  object [("geometry"%string, GeometrySelectionSchema); ("referenceProfile"%string, SlicerProfileSnapshotSchema);
          ("printConfig"%string, RevisionSnapshotSchema); ("partsPerPlate"%string, boundedPositiveInteger MAX_QUANTITY)].

Definition MachineSliceInputShape : list (String.string * schema) :=
  [("geometry"%string, GeometrySelectionSchema); ("machineId"%string, UuidSchema);
   ("machineProfile"%string, MachineSlicerProfileSnapshotSchema);
   ("machineCalibration"%string, RevisionSnapshotSchema); ("printConfig"%string, RevisionSnapshotSchema);
   ("partsPerPlate"%string, boundedPositiveInteger MAX_QUANTITY)].

(** [Math.ceil(quantity / partsPerPlate)], of positive integers below [2 ^ 17],
    whose quotient in floating point is on the same side of every integer. *)
Definition plates (v : value) : Z := - (- integer (v ?. "quantity") / integer (v ?. "partsPerPlate")).

Definition candidateOccupancies (quantity partsPerPlate : Z) : list Z :=
  (if 0 <? quantity / partsPerPlate then [partsPerPlate] else [])
  ++ (if 0 <? Z.rem quantity partsPerPlate then [Z.rem quantity partsPerPlate] else []).

Definition requireRepresentablePlateCount (v : value) : bool := plates v <=? MAX_PLATE_COUNT.

Definition requireExecutableCandidateArtifactPlan (v : value) : bool :=
  let format := v ?. "machineProfile" ?. "productionArtifactFormat" in
  negb (format === lit "bgcode") && negb ((format === lit "gcode") && (1 <? plates v)).

(** The checks of one target, at its index. *)
Definition occupancyTarget (v : value) (expected : list Z) (target : value) (index : nat) : result bool :=
  identity ← machineOccupancyCacheIdentitySha256 v (integer (target ?. "partsPerPlate"));
  Ok ((target ?. "partsPerPlate" === match expected !! index with Some n => Integral n | None => Undefined end)
      && (target ?. "cacheIdentitySha256" === Str identity)
      && (target ?. "analysisObjectKey"
          === Str (js "slice-metrics/" ++ text (target ?. "cacheIdentitySha256") ++ js "/result.json"))).

Definition occupancyTargets (v : value) : result bool :=
  let targets := elements (v ?. "occupancySliceTargets") in
  let expected := candidateOccupancies (integer (v ?. "quantity")) (integer (v ?. "partsPerPlate")) in
  checks ← traverse (λ p, occupancyTarget v expected p.2 p.1) (zip (seq 0 (length targets)) targets);
  Ok ((length targets =? length expected)%nat && forallb (λ b, b) checks).

Definition CandidateEstimateInputSchema : schema :=
  refine (object (MachineSliceInputShape ++
                  [("quantity"%string, boundedPositiveInteger MAX_QUANTITY); ("shipmentPlanId"%string, UuidSchema);
                   ("arrangementRevision"%string, RevisionSnapshotSchema);
                   ("occupancySliceTargets"%string,
                      z_bounded_array (object [("partsPerPlate"%string, boundedPositiveInteger MAX_QUANTITY);
                                               ("cacheIdentitySha256"%string, Sha256Schema);
                                               ("analysisObjectKey"%string, SliceMetricsObjectKeySchema)]) 1 2)]))
    (λ v, targets ← occupancyTargets v;
          Ok (requireRepresentablePlateCount v && requireExecutableCandidateArtifactPlan v && targets)).

Definition ProductionSliceInputSchema : schema :=
  check (object (MachineSliceInputShape ++
                 [("quantity"%string, boundedPositiveInteger MAX_QUANTITY); ("acceptedJobId"%string, UuidSchema);
                  ("productionReservationId"%string, UuidSchema);
                  ("arrangementRevision"%string, RevisionSnapshotSchema)]))
    requireRepresentablePlateCount.

(** ** Jobs *)

Definition JobEnvelopeShape : list (String.string * schema) :=
  [("contractVersion"%string, z_literal (Integral SLICING_CONTRACT_VERSION)); ("jobId"%string, UuidSchema);
   ("correlationId"%string, UuidSchema); ("inputFingerprintSha256"%string, Sha256Schema);
   ("idempotencyKey"%string, IdempotencyKeySchema); ("attempt"%string, boundedPositiveInteger 100)].

Definition expectedIdempotencyKey (v : value) : jstr :=
  js "slicer:v" ++ toString10 SLICING_CONTRACT_VERSION ++ js ":" ++ text (v ?. "kind") ++ js ":"
  ++ text (v ?. "jobId") ++ js ":" ++ text (v ?. "inputFingerprintSha256").

Definition requireCanonicalJobIdentity (v : value) : result bool :=
  fingerprint ← slicingInputFingerprint (v ?. "kind") (v ?. "input");
  Ok ((v ?. "inputFingerprintSha256" === Str fingerprint)
      && (v ?. "idempotencyKey" === Str (expectedIdempotencyKey v))).

Definition enforceMessageSize (v : value) : bool :=
  zlength (TextEncoder_encode (jsonText v)) <=? SLICING_MESSAGE_MAX_BYTES.

Definition requireAcceptedProductionJob (v : value) : bool := v ?. "input" ?. "acceptedJobId" === v ?. "jobId".

(** A base schema, for a kind and its input. *)
Definition jobBase (kind : String.string) (input : schema) : schema :=
  object (JobEnvelopeShape ++ [("kind"%string, z_literal (lit kind)); ("input"%string, input)]).
Arguments jobBase _%_string _.

Definition ModelInspectionJobBase : schema := jobBase "model_inspection" InspectionInputSchema.
Definition ReferenceSliceJobBase : schema := jobBase "reference_slice" ReferenceSliceInputSchema.
Definition CandidateEstimateJobBase : schema := jobBase "candidate_estimate" CandidateEstimateInputSchema.
Definition ProductionSliceJobBase : schema := jobBase "production_slice" ProductionSliceInputSchema.

(** The checks that every message ends with. *)
Definition identified (s : schema) : schema := check (refine s requireCanonicalJobIdentity) enforceMessageSize.

Definition ModelInspectionJobSchema : schema := identified ModelInspectionJobBase.
Definition ReferenceSliceJobSchema : schema := identified ReferenceSliceJobBase.
Definition CandidateEstimateJobSchema : schema := identified CandidateEstimateJobBase.
Definition ProductionSliceJobSchema : schema :=
  check (check (refine ProductionSliceJobBase requireCanonicalJobIdentity) requireAcceptedProductionJob) enforceMessageSize.

Definition SlicingJobSchema : schema :=
  refine (z_discriminatedUnion (js "kind")
            [ModelInspectionJobBase; ReferenceSliceJobBase; CandidateEstimateJobBase; ProductionSliceJobBase])
    (λ v, identity ← requireCanonicalJobIdentity v;
          Ok (identity && ((v ?. "kind" !== lit "production_slice") || requireAcceptedProductionJob v)
              && enforceMessageSize v)).

(** ** Results *)

Definition BodyInspectionSchema : schema :=
  object [("bodyId"%string, SafeIdentifierSchema); ("bodySha256"%string, Sha256Schema);
          ("boundingBox"%string, BoundingBoxSchema); ("volumeCubicMicrometers"%string, PositiveInt64StringSchema);
          ("triangleCount"%string, boundedNonnegativeInteger 1000000000); ("topology"%string, TopologyMetricsSchema);
          ("hasPaintAssignments"%string, z_boolean);
          ("materialAssignmentIds"%string, sortedUniqueIdentifiers MAX_BODY_COUNT 0);
          ("extruderAssignmentIds"%string, sortedUniqueIdentifiers MAX_BODY_COUNT 0)].

Definition InspectionMetricsSchema : schema :=
  object [("boundingBox"%string, BoundingBoxSchema); ("objectCount"%string, boundedPositiveInteger MAX_BODY_COUNT);
          ("bodyCount"%string, boundedPositiveInteger MAX_BODY_COUNT);
          ("unitHint"%string, enum ["micron"%string; "millimeter"%string; "centimeter"%string; "inch"%string;
                                    "foot"%string; "meter"%string; "unknown"%string]);
          ("scaleAssessment"%string, enum ["trusted"%string; "converted"%string; "confirmation_required"%string]);
          ("suggestedScaleFactorPpm"%string, nullable (boundedPositiveInteger 1000000000));
          ("thinWallFeatureCount"%string, boundedNonnegativeInteger 1000000); ("hasPaintAssignments"%string, z_boolean);
          ("materialAssignmentCount"%string, boundedNonnegativeInteger MAX_BODY_COUNT);
          ("extruderAssignmentCount"%string, boundedNonnegativeInteger MAX_BODY_COUNT)].

Definition SliceMetricsShape : list (String.string * schema) :=
  [("boundingBox"%string, BoundingBoxSchema); ("objectCount"%string, boundedPositiveInteger MAX_BODY_COUNT);
   ("bodyCount"%string, boundedPositiveInteger MAX_BODY_COUNT); ("topology"%string, TopologyMetricsSchema);
   ("thinWallFeatureCount"%string, boundedNonnegativeInteger 1000000);
   ("supportVolumeRatioPpm"%string, boundedNonnegativeInteger 1000000); ("hasPaintAssignments"%string, z_boolean);
   ("materialAssignmentCount"%string, boundedNonnegativeInteger MAX_BODY_COUNT);
   ("estimatedPrintSeconds"%string, PositiveInt64StringSchema);
   ("estimatedMaterialMilligrams"%string, PositiveInt64StringSchema)].
Definition SliceMetricsSchema : schema :=
  object (SliceMetricsShape ++ [("plateCount"%string, boundedPositiveInteger MAX_PLATE_COUNT)]).

(** A failure of a class. *)
Definition failureShape (failureClass : String.string) (codes : list String.string) (retryable : bool)
    (retryAfterMilliseconds : schema) : schema :=
  object [("status"%string, z_literal (lit "failed")); ("failureClass"%string, z_literal (lit failureClass));
          ("code"%string, enum codes); ("retryable"%string, z_literal (Bool retryable));
          ("message"%string, SafeFailureMessageSchema); ("retryAfterMilliseconds"%string, retryAfterMilliseconds)].
Arguments failureShape _%_string _ _ _.

Definition RetryableFailureSchema : schema :=
  failureShape "retryable_infrastructure"
    ["OBJECT_STORE_UNAVAILABLE"%string; "ENGINE_UNAVAILABLE"%string; "ENGINE_TIMEOUT"%string; "TEMPORARY_CAPACITY"%string]
    true (nullable (boundedPositiveInteger 86400000)).
Definition DeterministicFailureSchema : schema :=
  failureShape "deterministic_invalid"
    ["INVALID_MODEL"%string; "INVALID_GEOMETRY"%string; "INVALID_PROFILE"%string; "RESOURCE_LIMIT_EXCEEDED"%string]
    false z_null.
Definition UnsupportedFailureSchema : schema :=
  failureShape "unsupported_input"
    ["UNSUPPORTED_FORMAT"%string; "UNSUPPORTED_FEATURE"%string; "PAINTED_OR_MULTIMATERIAL"%string] false z_null.

Definition SlicingFailureSchema : schema :=
  z_discriminatedUnion (js "failureClass")
    [RetryableFailureSchema; DeterministicFailureSchema; UnsupportedFailureSchema].

(** [findings.some((f) => f.code === code && f.severity === "blocking" &&
    f.phase === "inspection")] *)
Definition blockingFinding (code : String.string) (findings : value) : bool :=
  existsb (λ finding, (finding ?. "code" === lit code) && (finding ?. "severity" === lit "blocking")
                      && (finding ?. "phase" === lit "inspection")) (elements findings).
Arguments blockingFinding _%_string _.

(** [new Set(bodies.flatMap((b) => b[k])).size], of texts. *)
Definition distinct_texts (k : String.string) (bodies : value) : Z :=
  zlength (base.elements (list_to_set (elements bodies ≫= λ body, text <$> elements (body ?. k)) : gset jstr)).
Arguments distinct_texts _%_string _.

Definition requiresCustomRequest (metrics : value) : bool :=
  (metrics ?. "hasPaintAssignments" === Bool true)
  || (1 <? integer (metrics ?. "materialAssignmentCount"))
  || (1 <? integer (metrics ?. "extruderAssignmentCount")).

Definition requiresTopologyReview (body : value) : bool :=
  let topology := body ?. "topology" in
  (topology ?. "watertight" !== Bool true) || (topology ?. "manifold" !== Bool true)
  || (topology ?. "normals" !== lit "consistent").

Definition inspectionReconciles (v : value) : bool :=
  let bodies := v ?. "bodies" in
  let metrics := v ?. "metrics" in
  let bodyIds := (λ body, text (body ?. "bodyId")) <$> elements bodies in
  unique_texts bodyIds && ordered_texts bodyIds
  && (metrics ?. "bodyCount" === Integral (zlength (elements bodies)))
  && (metrics ?. "materialAssignmentCount" === Integral (distinct_texts "materialAssignmentIds" bodies))
  && (metrics ?. "extruderAssignmentCount" === Integral (distinct_texts "extruderAssignmentIds" bodies))
  && (metrics ?. "hasPaintAssignments"
      === Bool (existsb (λ body, body ?. "hasPaintAssignments" === Bool true) (elements bodies)))
  && (negb (requiresCustomRequest metrics) || blockingFinding "PAINTED_OR_MULTIMATERIAL" (v ?. "findings"))
  && (negb (existsb requiresTopologyReview (elements bodies)) || blockingFinding "INVALID_TOPOLOGY" (v ?. "findings")).

Definition InspectionSuccessSchema : schema :=
  check (object [("status"%string, z_literal (lit "succeeded"));
                 ("canonicalGeometry"%string, nullable CanonicalGeometryArtifactSchema);
                 ("metrics"%string, InspectionMetricsSchema);
                 ("bodies"%string, z_bounded_array BodyInspectionSchema 1 MAX_BODY_COUNT);
                 ("findings"%string, InspectionFindingArraySchema)])
    inspectionReconciles.

Definition ReferenceSliceSuccessSchema : schema :=
  object [("status"%string, z_literal (lit "succeeded"));
          ("metrics"%string, object (SliceMetricsShape ++ [("plateCount"%string, z_literal (Integral 1))]));
          ("findings"%string, ReferenceFindingArraySchema);
          ("artifact"%string, object [("objectKey"%string, ReferenceArtifactObjectKeySchema); ("sha256"%string, Sha256Schema)])].

Definition PlateEstimateSchema : schema :=
  object [("plateOrdinal"%string, boundedPositiveInteger MAX_PLATE_COUNT);
          ("partsOnPlate"%string, boundedPositiveInteger MAX_QUANTITY);
          ("estimatedPrintSeconds"%string, PositiveInt64StringSchema);
          ("estimatedMaterialMilligrams"%string, PositiveInt64StringSchema)].

Definition CandidateOccupancySliceSchema : schema :=
  object [("partsPerPlate"%string, boundedPositiveInteger MAX_QUANTITY); ("cacheIdentitySha256"%string, Sha256Schema);
          ("estimatedPrintSeconds"%string, PositiveInt64StringSchema);
          ("estimatedMaterialMilligrams"%string, PositiveInt64StringSchema);
          ("artifact"%string, object [("objectKey"%string, SliceMetricsObjectKeySchema); ("sha256"%string, Sha256Schema)])].

(** The plates are numbered from one, and there are as many as the metrics
    say. *)
Definition completePlates (v : value) : bool :=
  let plates := elements (v ?. "plates") in
  forallb (λ p, p.2 ?. "plateOrdinal" === Integral (Z.of_nat p.1 + 1)) (zip (seq 0 (length plates)) plates)
  && (v ?. "metrics" ?. "plateCount" === Integral (zlength plates)).

Definition CandidateEstimateSuccessSchema : schema :=
  check (object [("status"%string, z_literal (lit "succeeded")); ("metrics"%string, SliceMetricsSchema);
                 ("plates"%string, z_bounded_array PlateEstimateSchema 1 MAX_PLATE_COUNT);
                 ("occupancySlices"%string, z_bounded_array CandidateOccupancySliceSchema 1 2)])
    completePlates.

Definition ProductionArtifactSchema : schema :=
  object [("format"%string, ProductionArtifactFormatSchema); ("objectKey"%string, ProductionArtifactObjectKeySchema);
          ("sha256"%string, Sha256Schema)].

Definition ProductionSliceSuccessSchema : schema :=
  check (object [("status"%string, z_literal (lit "succeeded")); ("metrics"%string, SliceMetricsSchema);
                 ("plates"%string, z_bounded_array PlateEstimateSchema 1 MAX_PLATE_COUNT);
                 ("artifact"%string, ProductionArtifactSchema)])
    completePlates.

Definition ResultEnvelopeShape : list (String.string * schema) :=
  JobEnvelopeShape ++ [("engine"%string, EngineIdentitySchema)].

Definition succeeded (v : value) : bool := v ?. "outcome" ?. "status" === lit "succeeded".

Definition requireSelectedBodyCount (v : value) : bool :=
  negb (succeeded v)
  || (v ?. "outcome" ?. "metrics" ?. "bodyCount"
      === Integral (zlength (elements (v ?. "input" ?. "geometry" ?. "bodyIds")))).

Definition requireExpectedProfileEngine (profile : String.string) (v : value) : bool :=
  (v ?. "engine" ?. "name" === v ?. "input" ?. profile ?. "slicerEngine")
  && (v ?. "engine" ?. "version" === v ?. "input" ?. profile ?. "slicerVersion").
Arguments requireExpectedProfileEngine _%_string _.

(** The slice for an occupancy: the last one, as the entries of a [Map] are
    overwritten. *)
Definition sliceFor (slices : list value) (occupancy : value) : option value :=
  List.find (λ slice, slice ?. "partsPerPlate" === occupancy) (rev slices).

Definition slicedTarget (slice : value) (target : option value) : bool :=
  match target with
  | None => false
  | Some target =>
      (slice ?. "partsPerPlate" === target ?. "partsPerPlate")
      && (slice ?. "cacheIdentitySha256" === target ?. "cacheIdentitySha256")
      && (slice ?. "artifact" ?. "objectKey" === target ?. "analysisObjectKey")
  end.

Definition slicedPlate (slices : list value) (plate : value) : bool :=
  match sliceFor slices (plate ?. "partsOnPlate") with
  | None => false
  | Some slice =>
      (plate ?. "estimatedPrintSeconds" === slice ?. "estimatedPrintSeconds")
      && (plate ?. "estimatedMaterialMilligrams" === slice ?. "estimatedMaterialMilligrams")
  end.

Definition requireCandidateOccupancySlices (v : value) : bool :=
  let targets := elements (v ?. "input" ?. "occupancySliceTargets") in
  let slices := elements (v ?. "outcome" ?. "occupancySlices") in
  negb (succeeded v)
  || ((length slices =? length targets)%nat
      && forallb (λ p, slicedTarget p.2 (targets !! p.1)) (zip (seq 0 (length slices)) slices)
      && forallb (slicedPlate slices) (elements (v ?. "outcome" ?. "plates"))).

Definition expectedParts (input : value) (index : nat) : Z :=
  let quantity := integer (input ?. "quantity") in
  let partsPerPlate := integer (input ?. "partsPerPlate") in
  if Z.of_nat index <? plates input - 1 then partsPerPlate
  else quantity - partsPerPlate * (plates input - 1).

Definition requireCanonicalPlatePlan (v : value) : bool :=
  let input := v ?. "input" in
  let metrics := v ?. "outcome" ?. "metrics" in
  let estimates := elements (v ?. "outcome" ?. "plates") in
  negb (succeeded v)
  || ((metrics ?. "plateCount" === Integral (plates input))
      && forallb (λ p, p.2 ?. "partsOnPlate" === Integral (expectedParts input p.1))
           (zip (seq 0 (length estimates)) estimates)
      && (sum_by (λ plate, bigint (plate ?. "estimatedPrintSeconds")) estimates
          =? bigint (metrics ?. "estimatedPrintSeconds"))
      && (sum_by (λ plate, bigint (plate ?. "estimatedMaterialMilligrams")) estimates
          =? bigint (metrics ?. "estimatedMaterialMilligrams"))).

(** [a.length === b.length && a.every((x, i) => x === b[i])], of arrays of
    texts. *)
Definition same_texts (a b : list jstr) : bool := bool_decide (a = b).
Definition texts_of (v : value) : list jstr := text <$> elements v.

Definition inspectionMatches (v : value) : bool :=
  let operation := v ?. "input" ?. "operation" in
  let geometry := v ?. "outcome" ?. "canonicalGeometry" in
  let target := operation ?. "targetGeometry" in
  let confirmed := operation ?. "confirmedUnitConversion" in
  let applied := geometry ?. "appliedUnitConversion" in
  negb (succeeded v)
  || (if operation ?. "mode" === lit "inspect_source" then geometry === Null
      else
        (geometry !== Null)
        && (geometry ?. "modelGeometryId" === target ?. "modelGeometryId")
        && (geometry ?. "canonicalObjectKey" === target ?. "canonicalObjectKey")
        && same_texts ((λ body, text (body ?. "bodyId")) <$> elements (v ?. "outcome" ?. "bodies"))
             (texts_of (operation ?. "bodyIds"))
        && (geometry ?. "selectionSha256" === operation ?. "selectionSha256")
        && (applied ?. "sourceUnit" === confirmed ?. "sourceUnit")
        && (applied ?. "targetUnit" === confirmed ?. "targetUnit")
        && (applied ?. "scaleFactorPpm" === confirmed ?. "scaleFactorPpm")
        && same_texts (texts_of (geometry ?. "bodyIds")) (texts_of (operation ?. "bodyIds"))).

Definition resultBase (kind : String.string) (input success : schema) : schema :=
  object (ResultEnvelopeShape ++ [("kind"%string, z_literal (lit kind)); ("input"%string, input);
                                  ("outcome"%string, z_union [success; SlicingFailureSchema])]).
Arguments resultBase _%_string _ _.

Definition ModelInspectionResultBase : schema :=
  check (resultBase "model_inspection" InspectionInputSchema InspectionSuccessSchema) inspectionMatches.

Definition referenceArtifactOwned (v : value) : result bool :=
  if succeeded v then
    key ← referenceArtifactObjectKey (v ?. "inputFingerprintSha256");
    Ok (v ?. "outcome" ?. "artifact" ?. "objectKey" === Str key)
  else Ok true.

Definition ReferenceSliceResultBase : schema :=
  refine (resultBase "reference_slice" ReferenceSliceInputSchema ReferenceSliceSuccessSchema)
    (λ v, owned ← referenceArtifactOwned v;
          Ok (requireSelectedBodyCount v && requireExpectedProfileEngine "referenceProfile" v && owned)).

Definition CandidateEstimateResultBase : schema :=
  check (resultBase "candidate_estimate" CandidateEstimateInputSchema CandidateEstimateSuccessSchema)
    (λ v, requireSelectedBodyCount v && requireExpectedProfileEngine "machineProfile" v
          && requireCanonicalPlatePlan v && requireCandidateOccupancySlices v).

Definition productionArtifactOwned (v : value) : result bool :=
  let expectedFormat := v ?. "input" ?. "machineProfile" ?. "productionArtifactFormat" in
  let artifact := v ?. "outcome" ?. "artifact" in
  if succeeded v then
    key ← productionArtifactObjectKey (v ?. "input" ?. "acceptedJobId") expectedFormat;
    Ok ((artifact ?. "format" === expectedFormat) && (artifact ?. "objectKey" === Str key))
  else Ok true.

Definition ProductionSliceResultBase : schema :=
  refine (resultBase "production_slice" ProductionSliceInputSchema ProductionSliceSuccessSchema)
    (λ v, owned ← productionArtifactOwned v;
          Ok (requireAcceptedProductionJob v && requireSelectedBodyCount v
              && requireExpectedProfileEngine "machineProfile" v && requireCanonicalPlatePlan v && owned)).

Definition ModelInspectionResultSchema : schema := identified ModelInspectionResultBase.
Definition ReferenceSliceResultSchema : schema := identified ReferenceSliceResultBase.
Definition CandidateEstimateResultSchema : schema := identified CandidateEstimateResultBase.
Definition ProductionSliceResultSchema : schema := identified ProductionSliceResultBase.

Definition SlicingResultSchema : schema :=
  check (z_union [ModelInspectionResultSchema; ReferenceSliceResultSchema; CandidateEstimateResultSchema;
                  ProductionSliceResultSchema]) enforceMessageSize.

(** [const { attempt, correlationId, ...effect } = job] *)
Definition effectOf (job : value) : value :=
  RecordV 0 (filter (λ p, p.1 ≠ js "attempt" ∧ p.1 ≠ js "correlationId") (fields job)).

Definition slicingJobEffectFingerprint (jobInput : value) : result jstr :=
  job ← parse SlicingJobSchema jobInput;
  canonicalSha256 (effectOf job).

Definition slicingResultFingerprint (result : value) : Prelude.result jstr :=
  parsed ← parse SlicingResultSchema result;
  canonicalSha256 parsed.

(** The binding of a result to its dispatch. *)
Definition matchesJob (job result : value) : Prelude.result bool :=
  let same k := result ?. k === job ?. k in
  let matchingEnvelope :=
    forallb same ["contractVersion"%string; "kind"%string; "jobId"%string; "correlationId"%string;
                  "inputFingerprintSha256"%string; "idempotencyKey"%string; "attempt"%string] in
  resultFingerprint ← slicingInputFingerprint (result ?. "kind") (result ?. "input");
  jobFingerprint ← slicingInputFingerprint (job ?. "kind") (job ?. "input");
  Ok (matchingEnvelope && str_eqb resultFingerprint jobFingerprint).

Definition slicingResultForJobSchema (jobInput : value) : Prelude.result schema :=
  job ← parse SlicingJobSchema jobInput;
  Ok (refine SlicingResultSchema (matchesJob job)).

(** ** Facts *)

Context {laws : ZodLaws Z_}.

Lemma object_property l v k s : accepts (object l) v = true → (k, s) ∈ l →
  accepts s (v ?. k) = true ∧ is_Some (assoc (js k) (fields v)).
Proof. intros H Hin. eapply strict_property; [exact H|]. apply (list_elem_of_fmap_2 (λ p : String.string * schema, (js p.1, p.2)) _ _ Hin). Qed.

Lemma accepts_text f v : accepts (check z_string (on_text f)) v = true → ∃ s, v = Str s ∧ f s = true.
Proof. intros [H Hf]%checked. rewrite accepts_string in H. destruct v; try done. eauto. Qed.

Lemma accepts_lit s v : accepts (z_literal (lit s)) v = true → v = lit s.
Proof. rewrite accepts_literal. apply strict_eq_lit. Qed.

Lemma accepts_bounded lo hi v : accepts (boundedInteger lo hi) v = true →
  ∃ z, v = Integral z ∧ safe_int z = true ∧ lo ≤ z ≤ hi.
Proof.
  intros [H Hf]%checked. rewrite accepts_int in H. destruct v as [| | |z| | | | | | | | |]; try done. cbn in H, Hf.
  bool_inv. eauto.
Qed.

Lemma accepts_key v : accepts IdempotencyKeySchema v = true → ∃ s, v = Str s.
Proof. intros [H _]%checked. apply accepts_text in H as (s & -> & _). eauto. Qed.

Lemma strict_eq_Integral v z : (v === Integral z) = true ↔ v = Integral z.
Proof. destruct v; cbn; try done. rewrite Z.eqb_eq. naive_solver. Qed.

Lemma Ok_true (b : bool) : Ok b = Ok true → b = true.
Proof. by intros [=]. Qed.

Ltac in_shape := repeat first [apply list_elem_of_here|apply list_elem_of_further].

(** What the fields of an envelope are. *)
Definition simple (v : value) : Prop := (∃ s, v = Str s) ∨ ∃ z, v = Integral z.

Lemma simple_eq v w : simple w → (v === w) = true → v = w.
Proof. intros [[s ->]|[z ->]]; [apply strict_eq_Str|apply strict_eq_Integral]. Qed.

Definition KINDS : list (String.string * schema) :=
  [("model_inspection"%string, InspectionInputSchema); ("reference_slice"%string, ReferenceSliceInputSchema);
   ("candidate_estimate"%string, CandidateEstimateInputSchema); ("production_slice"%string, ProductionSliceInputSchema)].

Definition ENVELOPE : list String.string :=
  ["contractVersion"%string; "kind"%string; "jobId"%string; "correlationId"%string; "inputFingerprintSha256"%string;
   "idempotencyKey"%string; "attempt"%string].

(** What an accepted job has. *)
Record job_ok (j : value) : Prop := {
  jo_kind : ∃ kind input, (kind, input) ∈ KINDS ∧ j ?. "kind" = lit kind ∧ accepts input (j ?. "input") = true;
  jo_jobId : ∃ s, j ?. "jobId" = Str s ∧ LOWERCASE_UUID_PATTERN s = true;
  jo_fingerprint : ∃ d, j ?. "inputFingerprintSha256" = Str d
    ∧ slicingInputFingerprint (j ?. "kind") (j ?. "input") = Ok d;
  jo_key : j ?. "idempotencyKey" = Str (expectedIdempotencyKey j);
  jo_envelope : Forall (λ k, simple (j ?. k) ∧ is_Some (assoc (js k) (fields j))) ENVELOPE;
  jo_input : is_Some (assoc (js "input") (fields j));
  jo_record : ∃ a l, j = RecordV a l;
}.

Lemma envelope_job j kind input :
  accepts (jobBase kind input) j = true → (kind, input) ∈ KINDS → requireCanonicalJobIdentity j = Ok true → job_ok j.
Proof.
  intros H Hin Hid. unfold requireCanonicalJobIdentity in Hid. apply bind_Ok in Hid as (d & Hd & Hid). injection Hid as Hid.
  apply andb_prop in Hid as [Hfp Hkey]. rewrite strict_eq_Str in Hfp, Hkey.
  pose proof (strict_record _ _ H) as Hrec. unfold jobBase in H.
  assert (∀ k s, (k, s) ∈ JobEnvelopeShape ++ [("kind"%string, z_literal (lit kind)); ("input"%string, input)] →
    accepts s (j ?. k) = true ∧ is_Some (assoc (js k) (fields j))) as Hp by (intros; by eapply object_property).
  cbn [JobEnvelopeShape app] in Hp.
  edestruct (Hp "contractVersion"%string) as [H1 H1']; [in_shape|]. edestruct (Hp "jobId"%string) as [H2 H2']; [in_shape|].
  edestruct (Hp "correlationId"%string) as [H3 H3']; [in_shape|].
  edestruct (Hp "inputFingerprintSha256"%string) as [_ H4']; [in_shape|].
  edestruct (Hp "idempotencyKey"%string) as [_ H5']; [in_shape|]. edestruct (Hp "attempt"%string) as [H6 H6']; [in_shape|].
  edestruct (Hp "kind"%string) as [H7 H7']; [in_shape|]. edestruct (Hp "input"%string) as [H8 H8']; [in_shape|].
  apply accepts_lit in H7. rewrite accepts_literal in H1. apply strict_eq_Integral in H1. apply accepts_text in H2, H3.
  apply accepts_bounded in H6. destruct H3 as (c & H3 & _), H6 as (a & H6 & _).
  split; [by exists kind, input|exact H2|by exists d|done| |done|done].
  destruct H2 as (i & H2 & _). unfold ENVELOPE.
  repeat (constructor; [split; [unfold simple; rewrite ?H1, ?H2, ?H3, ?Hfp, ?Hkey, ?H6, ?H7; eauto|done]|]). constructor.
Qed.

Lemma job_accepted j : accepts SlicingJobSchema j = true → job_ok j.
Proof.
  intros [H Hf]%refined. apply bind_Ok in Hf as (identity & Hid & Hf). injection Hf as Hf.
  apply andb_prop in Hf as [Hf _]. apply andb_prop in Hf as [-> _].
  apply discriminated_option in H as (s & Hs & H).
  do 4 (apply elem_of_cons in Hs as [->|Hs]; [eapply envelope_job; [exact H|unfold KINDS; in_shape|exact Hid]|]).
  by apply not_elem_of_nil in Hs.
Qed.

(** ** The binding of results to jobs *)

Definition identityOf (v : value) : value := obj [("kind"%string, v ?. "kind"); ("input"%string, v ?. "input")].

Lemma obj_property v : (identityOf v) ?. "input" = v ?. "input" ∧ is_Some (assoc (js "input") (fields (identityOf v)))
  ∧ (identityOf v) ?. "kind" = v ?. "kind" ∧ is_Some (assoc (js "kind") (fields (identityOf v))).
Proof. split_and!; [reflexivity|by eexists|reflexivity|by eexists]. Qed.

Lemma identityOf_units v : units_ok v → units_ok (identityOf v).
Proof.
  intros Hv. unfold identityOf, obj. apply units_ok_RecordV.
  repeat constructor; cbn; try (apply units_ok_property, Hv); unfold code_unit; lia.
Qed.

Lemma fingerprints_identify v w d : units_ok v → units_ok w →
  slicingInputFingerprint (v ?. "kind") (v ?. "input") = Ok d →
  slicingInputFingerprint (w ?. "kind") (w ?. "input") = Ok d →
  same_contents (v ?. "input") (w ?. "input") ∨ canonical_collision (identityOf v) (identityOf w).
Proof.
  intros Hv Hw H1 H2. destruct (canonicalSha256_identifies (identityOf v) (identityOf w) d) as [H|H];
    [by apply identityOf_units..|exact H1|exact H2|left|by right].
  destruct (obj_property v) as (<- & Hv' & _), (obj_property w) as (<- & Hw' & _). by apply same_contents_property.
Qed.

(** C23: A result is bound to its job.  What the schema for a job accepts is a
    result with the job's kind, identities and attempt, and its input has the
    contents of the job's input, unless the two are a collision of SHA-256:
    a stale or replayed result, or one of another geometry, is refused. *)
Theorem result_bound_to_job job result s :
  units_ok job → units_ok result →
  slicingResultForJobSchema job = Ok s → accepts s result = true →
  accepts SlicingResultSchema result = true ∧ accepts SlicingJobSchema job = true
  ∧ Forall (λ k, result ?. k = job ?. k) ENVELOPE
  ∧ (same_contents (result ?. "input") (job ?. "input") ∨ canonical_collision (identityOf result) (identityOf job)).
Proof.
  intros Hj Hr Hs Ha. unfold slicingResultForJobSchema in Hs. apply bind_Ok in Hs as (j & [-> Hjob]%z_parse_Ok & Hs). injection Hs as <-.
  apply refined in Ha as [Ha Hm]. split; [done|]. split; [done|]. pose proof (job_accepted _ Hjob) as Hok.
  unfold matchesJob in Hm. cbv zeta in Hm. apply bind_Ok in Hm as (d & Hd & Hm). apply bind_Ok in Hm as (e & He & Hm). apply Ok_true in Hm.
  apply andb_prop in Hm as [Henv Heq]. unfold str_eqb in Heq. apply bool_decide_eq_true in Heq as ->. split.
  - pose proof (jo_envelope _ Hok) as Hsimple. rewrite forallb_forall in Henv. rewrite Forall_forall in Hsimple |- *.
    intros k Hk. apply simple_eq; [by apply Hsimple|]. by apply Henv, list_elem_of_In.
  - by eapply fingerprints_identify.
Qed.

(** ** The effect of a job *)

Lemma effectOf_assoc j k : k ≠ js "attempt" → k ≠ js "correlationId" →
  assoc k (fields (effectOf j)) = assoc k (fields j).
Proof.
  intros H1 H2. unfold effectOf. cbn [fields]. generalize (fields j) as l. induction l as [|[k' x] l IH]; [done|].
  rewrite filter_cons. cbn [fst]. case_decide as Hd; cbn [assoc]; unfold str_eqb in *; [by rewrite IH|].
  rewrite IH, bool_decide_eq_false_2; [done|]. intros ->. by apply Hd.
Qed.

(** The fields that are compared: not those of an attempt. *)
Definition EFFECT : list String.string :=
  ["contractVersion"%string; "kind"%string; "jobId"%string; "inputFingerprintSha256"%string; "idempotencyKey"%string].

Lemma effectOf_property j k : k ∈ "input"%string :: EFFECT → (∃ a l, j = RecordV a l) →
  (effectOf j) ?. k = j ?. k ∧ assoc (js k) (fields (effectOf j)) = assoc (js k) (fields j).
Proof.
  intros Hk Hj. assert (js k ≠ js "attempt" ∧ js k ≠ js "correlationId") as [H1 H2].
  { unfold EFFECT in Hk. repeat (apply elem_of_cons in Hk as [->|Hk]; [split; discriminate|]). by apply not_elem_of_nil in Hk. }
  pose proof (effectOf_assoc j _ H1 H2) as Ha. split; [|done]. destruct Hj as (a & l & ->). unfold get, property.
  change (fields (effectOf (RecordV a l))) with (fields (RecordV 0 (filter (λ p, p.1 ≠ js "attempt" ∧ p.1 ≠ js "correlationId") l))) in Ha.
  cbn [fields] in Ha. unfold effectOf. cbn [fields]. by rewrite Ha.
Qed.

Lemma simple_contents v w : simple v → simple w → same_contents v w → v = w.
Proof.
  intros [[s ->]|[z ->]] [[t ->]|[y ->]] (j & Hj & Hk); cbn in Hj, Hk; repeat case_match; by simplify_eq.
Qed.

Lemma effectOf_units j : units_ok j → units_ok (effectOf j).
Proof.
  intros H. unfold effectOf. apply units_ok_RecordV. destruct j as [| | | | | | | | | | |a l|]; cbn [fields]; try constructor.
  apply units_ok_RecordV in H. apply Forall_forall. intros p Hp. apply list_elem_of_filter in Hp as [_ Hp].
  rewrite Forall_forall in H. by apply H.
Qed.

(** Accepted jobs with the same effect have the fields and the input of it in
    common. *)
Lemma effects_agree j k : accepts SlicingJobSchema j = true → accepts SlicingJobSchema k = true →
  same_contents (effectOf j) (effectOf k) →
  Forall (λ f, j ?. f = k ?. f) EFFECT ∧ same_contents (j ?. "input") (k ?. "input").
Proof.
  intros Ha%job_accepted Hb%job_accepted Hs. pose proof (jo_record _ Ha) as Hrj. pose proof (jo_record _ Hb) as Hrk.
  pose proof (jo_envelope _ Ha) as Hej. pose proof (jo_envelope _ Hb) as Hek. rewrite Forall_forall in Hej, Hek.
  assert (∀ f, f ∈ "input"%string :: EFFECT → is_Some (assoc (js f) (fields j)) → is_Some (assoc (js f) (fields k)) →
    same_contents (j ?. f) (k ?. f)) as Hfield.
  { intros f Hf Hfj Hfk. destruct (effectOf_property j f Hf Hrj) as [<- Hj'], (effectOf_property k f Hf Hrk) as [<- Hk'].
    apply same_contents_property; [by rewrite Hj'|by rewrite Hk'|done]. }
  split.
  - apply Forall_forall. intros f Hf. assert (f ∈ ENVELOPE) as He'.
    { unfold EFFECT, ENVELOPE in *. repeat (apply elem_of_cons in Hf as [->|Hf]; [in_shape|]). by apply not_elem_of_nil in Hf. }
    destruct (Hej f He') as [? ?], (Hek f He') as [? ?]. apply simple_contents; [done..|]. apply Hfield; [by right|done..].
  - apply Hfield; [by left|by apply jo_input..].
Qed.

(** An object without some of its properties, and two objects that agree on all
    the others. *)
Definition without (keys : list String.string) (v : value) : value :=
  RecordV 0 (filter (λ p, p.1 ∉ js <$> keys) (fields v)).

Definition agree_except (keys : list String.string) (v w : value) : Prop :=
  ∀ k, k ∉ js <$> keys → same_property v w k.

Lemma effectOf_without j : effectOf j = without ["attempt"%string; "correlationId"%string] j.
Proof.
  unfold effectOf, without. f_equal. apply list_filter_iff. intros p. cbn [fmap list_fmap].
  rewrite !not_elem_of_cons. split; [by intros [? ?]; split_and!; [..|apply not_elem_of_nil]|by intros (? & ? & _)].
Qed.

Lemma assoc_without keys v k :
  assoc k (fields (without keys v)) = if decide (k ∈ js <$> keys) then None else assoc k (fields v).
Proof.
  cbn [fields without]. generalize (fields v) as l. induction l as [|[k' x] l IH]; [by case_decide|].
  rewrite filter_cons. cbn [fst assoc]. unfold str_eqb. destruct (decide (k' = k)) as [->|Hne].
  - rewrite bool_decide_eq_true_2 by done. destruct (decide (k ∈ js <$> keys)) as [Hk|Hk].
    + by rewrite decide_False by auto.
    + rewrite decide_True by done. cbn. unfold str_eqb. by rewrite bool_decide_eq_true_2.
  - rewrite bool_decide_eq_false_2, <-IH by done. destruct (decide (k' ∉ js <$> keys)); [|done].
    cbn. unfold str_eqb. by rewrite bool_decide_eq_false_2.
Qed.

Lemma without_unique keys v : unique_keys v → unique_keys (without keys v).
Proof.
  intros (a & l & -> & HN). eexists _, _. split; [done|]. cbn [fields].
  eapply sublist_NoDup; [exact HN|]. apply fmap_sublist, sublist_filter.
Qed.

Lemma agree_without keys v w : agree_except keys v w ↔ ∀ k, same_property (without keys v) (without keys w) k.
Proof.
  unfold agree_except, same_property. split; intros H k; specialize (H k); rewrite !assoc_without in *; case_decide; tauto.
Qed.

(** C25: The effect of a job is what its fingerprint identifies.  Two accepted jobs
    whose properties agree but for [attempt] and [correlationId], and for
    nothing else, have one fingerprint, so a retry is recognised.  Two accepted
    jobs with one fingerprint agree on every property but these two; in
    particular they have the same kind, job identity and keys, and inputs with
    the same contents; unless they are a collision of SHA-256. *)
Theorem effect_fingerprint_exact j k d e :
  units_ok j → units_ok k → unique_keys j → unique_keys k →
  slicingJobEffectFingerprint j = Ok d → slicingJobEffectFingerprint k = Ok e →
  (agree_except ["attempt"%string; "correlationId"%string] j k → d = e)
  ∧ (d = e →
      agree_except ["attempt"%string; "correlationId"%string] j k
        ∧ Forall (λ f, j ?. f = k ?. f) EFFECT ∧ same_contents (j ?. "input") (k ?. "input")
      ∨ canonical_collision (without ["attempt"%string; "correlationId"%string] j)
          (without ["attempt"%string; "correlationId"%string] k)).
Proof.
  unfold slicingJobEffectFingerprint. intros Hj Hk Huj Huk Hd He.
  apply bind_Ok in Hd as (j' & [-> Ha]%z_parse_Ok & Hd). apply bind_Ok in He as (k' & [-> Hb]%z_parse_Ok & He).
  pose proof (effectOf_units _ Hj) as Hej. pose proof (effectOf_units _ Hk) as Hek. rewrite effectOf_without in *.
  pose proof (without_unique ["attempt"%string; "correlationId"%string] _ Huj) as Hwj.
  pose proof (without_unique ["attempt"%string; "correlationId"%string] _ Huk) as Hwk.
  split.
  - rewrite agree_without. intros Hs. apply canonicalSha256_Ok in Hd as (x & Hx & ->), He as (y & Hy & ->).
    by rewrite (same_properties _ _ _ Hwj Hwk Hs Hx _ Hy).
  - intros <-. destruct (canonicalSha256_identifies _ _ _ Hej Hek Hd He) as [Hs|Hc]; [left|by right].
    split.
    { apply agree_without. destruct Hs as (x & Hx & Hy). intros f. by eapply record_same_property. }
    by apply effects_agree; [| |rewrite !effectOf_without].
Qed.

(** ** Plates and occupancies *)

Lemma forallb_indexed {A} (f : nat * A → bool) l :
  forallb f (zip (seq 0 (length l)) l) = true ↔ ∀ i x, l !! i = Some x → f (i, x) = true.
Proof.
  rewrite forallb_forall. split.
  - intros H i x Hi. apply H, list_elem_of_In, list_elem_of_lookup. exists i.
    apply lookup_zip_Some. split; [|done]. cbn. apply lookup_seq. split; [lia|]. by eapply lookup_lt_Some.
  - intros H [i x] Hin%list_elem_of_In%list_elem_of_lookup. destruct Hin as [j Hj]. apply lookup_zip_Some in Hj as [H1 H2].
    cbn in H1, H2. apply lookup_seq in H1 as [-> _]. by apply H.
Qed.

Lemma strict_eq_text a b : (a === b) = true → text a = text b.
Proof. destruct a, b; cbn; try done. unfold str_eqb. by rewrite bool_decide_eq_true. Qed.

Lemma strict_eq_integer a b : (a === b) = true → integer a = integer b.
Proof. destruct a, b; cbn; try done. by rewrite Z.eqb_eq. Qed.

(** The expected pieces of the code are those of the reference. *)
Lemma expectedParts_pieces input (c : nat) :
  let q := integer (input ?. "quantity") in let n := integer (input ?. "partsPerPlate") in
  0 < q → 0 < n → Z.of_nat c = plates input → expectedParts input <$> seq 0 c = pieces q n.
Proof.
  cbv zeta. unfold expectedParts, plates. set (q := integer (input ?. "quantity")). set (n := integer (input ?. "partsPerPlate")).
  intros Hq Hn Hc. destruct (pieces_division q n Hq Hn) as (Hd & Hm & Hp & Hceil). rewrite Hceil in *. unfold pieces.
  assert (∀ k : nat, replicate k n = (λ _, n) <$> seq 0 k) as ->.
  { intros k. induction k as [|k IH]; [done|]. cbn [replicate seq fmap list_fmap]. f_equal. rewrite IH.
    rewrite <-seq_shift, <-list_fmap_compose. done. }
  revert Hc. destruct (Z.eqb_spec (q `mod` n) 0) as [Hz|Hz]; intros Hc.
  - assert (c = Z.to_nat (q / n)) as -> by lia. rewrite app_nil_r. apply list_fmap_ext. intros i x [_ Hx]%lookup_seq.
    destruct (Z.ltb_spec (Z.of_nat x) (q / n - 1)); [done|]. nia.
  - assert (c = S (Z.to_nat (q / n))) as -> by lia. rewrite seq_S, fmap_app. f_equal.
    + apply list_fmap_ext. intros i x [-> Hx]%lookup_seq.
      destruct (Z.ltb_spec (Z.of_nat (0 + i)) (q / n + 1 - 1)); [done|lia].
    + cbn [fmap list_fmap Nat.add]. destruct (Z.ltb_spec (Z.of_nat (Z.to_nat (q / n))) (q / n + 1 - 1)); [lia|]. f_equal. nia.
Qed.

Lemma candidateOccupancies_NoDup q n : 0 < q → 0 < n → NoDup (candidateOccupancies q n).
Proof.
  intros Hq Hn. destruct (pieces_division q n Hq Hn) as (_ & Hm & _). unfold candidateOccupancies.
  rewrite Z.rem_mod_nonneg by lia. destruct (Z.ltb_spec 0 (q / n)), (Z.ltb_spec 0 (q `mod` n)); cbn; try apply NoDup_nil_2; try apply NoDup_singleton.
  apply NoDup_cons. split; [|apply NoDup_singleton]. intros ?%list_elem_of_singleton. lia.
Qed.

(** What an accepted estimate or slice has of its plates. *)
Lemma plate_plan v : succeeded v = true → completePlates (v ?. "outcome") = true → requireCanonicalPlatePlan v = true →
  let input := v ?. "input" in let metrics := v ?. "outcome" ?. "metrics" in let estimates := elements (v ?. "outcome" ?. "plates") in
  let q := integer (input ?. "quantity") in let n := integer (input ?. "partsPerPlate") in
  0 < q → 0 < n →
  (λ plate, integer (plate ?. "partsOnPlate")) <$> estimates = pieces q n
  ∧ sum_by (λ plate, bigint (plate ?. "estimatedPrintSeconds")) estimates = bigint (metrics ?. "estimatedPrintSeconds")
  ∧ sum_by (λ plate, bigint (plate ?. "estimatedMaterialMilligrams")) estimates
    = bigint (metrics ?. "estimatedMaterialMilligrams").
Proof.
  cbv zeta. intros Hs Hc Hplan Hq Hn. unfold requireCanonicalPlatePlan in Hplan. cbv zeta in Hplan. rewrite Hs in Hplan. cbn [negb orb] in Hplan.
  apply andb_prop in Hplan as [Hplan H4]. apply andb_prop in Hplan as [Hplan H3]. apply andb_prop in Hplan as [H1 H2].
  apply Z.eqb_eq in H3, H4. split; [|done]. unfold completePlates in Hc. cbv zeta in Hc. apply andb_prop in Hc as [_ Hc].
  rewrite strict_eq_Integral in H1, Hc. rewrite H1 in Hc. injection Hc as Hc.
  rewrite <-(expectedParts_pieces _ _ Hq Hn (eq_sym Hc)). apply list_eq. intros i. rewrite !list_lookup_fmap.
  rewrite forallb_indexed in H2. destruct (elements (v ?. "outcome" ?. "plates") !! i) as [plate|] eqn:Hi.
  - specialize (H2 i plate Hi). cbn [fst snd] in H2. apply strict_eq_integer in H2. cbn in H2 |- *.
    rewrite (proj2 (lookup_seq _ _ _ _)) by (split; [done|by eapply lookup_lt_Some]). cbn. by rewrite H2.
  - cbn. apply lookup_ge_None in Hi. rewrite lookup_seq_ge by done. done.
Qed.

(** What the schema of a result says of one that succeeded. *)
Lemma identified_base s v : accepts (identified s) v = true → accepts s v = true.
Proof. by intros [[H _]%refined _]%checked. Qed.

Lemma result_succeeded kind input success v :
  accepts (resultBase kind input success) v = true → succeeded v = true →
  accepts input (v ?. "input") = true ∧ accepts success (v ?. "outcome") = true.
Proof.
  intros H Hs. unfold resultBase in H.
  edestruct (object_property _ _ "input"%string input H) as [Hi _]; [cbn [ResultEnvelopeShape JobEnvelopeShape app]; in_shape|].
  edestruct (object_property _ _ "outcome"%string (z_union [success; SlicingFailureSchema]) H) as [Ho _];
    [cbn [ResultEnvelopeShape JobEnvelopeShape app]; in_shape|].
  split; [done|]. apply union_option in Ho as (s & Hin & Ho). apply elem_of_cons in Hin as [->|Hin]; [done|].
  apply list_elem_of_singleton in Hin as ->. exfalso. apply discriminated_option in Ho as (s & Hin & Ho).
  assert (accepts (z_literal (lit "failed")) (v ?. "outcome" ?. "status") = true) as Hf%accepts_lit.
  { repeat (apply elem_of_cons in Hin as [->|Hin];
      [eapply object_property; [exact Ho|]; in_shape|]). by apply not_elem_of_nil in Hin. }
  unfold succeeded in Hs. by rewrite Hf in Hs.
Qed.

(** The numbers of an input of a machine slice. *)
Lemma bounded_field l v k m : accepts (object l) v = true → (k, boundedPositiveInteger m) ∈ l → 0 < integer (v ?. k) ≤ m.
Proof.
  intros H Hin. edestruct object_property as [Hk _]; [exact H|exact Hin|].
  apply accepts_bounded in Hk as (z & -> & _ & Hz). cbn. lia.
Qed.

(** The targets of an accepted input are the canonical occupancies, each with
    its identity. *)
Lemma occupancy_targets v : accepts CandidateEstimateInputSchema v = true →
  let q := integer (v ?. "quantity") in let n := integer (v ?. "partsPerPlate") in
  let targets := elements (v ?. "occupancySliceTargets") in
  0 < q ∧ 0 < n ∧ plates v ≤ MAX_PLATE_COUNT
  ∧ (λ target, integer (target ?. "partsPerPlate")) <$> targets = candidateOccupancies q n
  ∧ Forall (λ target, ∃ identity, target ?. "cacheIdentitySha256" = Str identity
      ∧ machineOccupancyCacheIdentitySha256 v (integer (target ?. "partsPerPlate")) = Ok identity) targets.
Proof.
  cbv zeta. intros [H Hf]%refined. apply bind_Ok in Hf as (b & Hb & Hf). apply Ok_true in Hf.
  apply andb_prop in Hf as [Hf ->]. apply andb_prop in Hf as [Hplates _]. apply Z.leb_le in Hplates.
  edestruct (bounded_field _ _ "quantity"%string MAX_QUANTITY H) as [Hq _]; [cbn [MachineSliceInputShape app]; in_shape|].
  edestruct (bounded_field _ _ "partsPerPlate"%string MAX_QUANTITY H) as [Hn _]; [cbn [MachineSliceInputShape app]; in_shape|].
  split; [done|]. split; [done|]. split; [done|]. unfold occupancyTargets in Hb. cbv zeta in Hb.
  apply bind_Ok in Hb as (checks & Hchecks & Hb). apply Ok_true, andb_prop in Hb as [Hlen Hall].
  apply Nat.eqb_eq in Hlen. apply traverse_Ok in Hchecks.
  assert (∀ i target, elements (v ?. "occupancySliceTargets") !! i = Some target →
    occupancyTarget v (candidateOccupancies (integer (v ?. "quantity")) (integer (v ?. "partsPerPlate"))) target i = Ok true) as Ht.
  { intros i target Hi. destruct (Forall2_lookup_l _ _ _ i (i, target) Hchecks) as (b & Hbi & Hbt).
    - apply lookup_zip_Some. split; [|done]. apply lookup_seq. split; [done|]. by eapply lookup_lt_Some.
    - cbn in Hbt. rewrite Hbt. f_equal. rewrite forallb_forall in Hall. apply Hall, list_elem_of_In. by eapply list_elem_of_lookup_2. }
  assert (∀ i target, elements (v ?. "occupancySliceTargets") !! i = Some target →
    candidateOccupancies (integer (v ?. "quantity")) (integer (v ?. "partsPerPlate")) !! i = Some (integer (target ?. "partsPerPlate"))
    ∧ ∃ identity, target ?. "cacheIdentitySha256" = Str identity
      ∧ machineOccupancyCacheIdentitySha256 v (integer (target ?. "partsPerPlate")) = Ok identity) as Hfacts.
  { intros i target Hi. specialize (Ht i target Hi). unfold occupancyTarget in Ht. apply bind_Ok in Ht as (identity & Hid & Ht).
    apply Ok_true in Ht. apply andb_prop in Ht as [Ht _]. apply andb_prop in Ht as [H1 H2]. apply strict_eq_Str in H2. split; [|eauto].
    destruct (_ !! i) as [m|] eqn:Hm; [by apply strict_eq_Integral in H1 as ->|]. apply lookup_ge_None in Hm.
    apply lookup_lt_Some in Hi. lia. }
  split.
  - apply list_eq. intros i. rewrite list_lookup_fmap. destruct (elements (v ?. "occupancySliceTargets") !! i) as [target|] eqn:Hi.
    + by destruct (Hfacts i target Hi) as [-> _].
    + symmetry. apply lookup_ge_None in Hi. apply lookup_ge_None. lia.
  - apply Forall_lookup. intros i target Hi. by apply Hfacts in Hi as [_ ?].
Qed.

(** The metric of the slice for an occupancy. *)
Definition sliceMetric (slices : list value) (k : String.string) (occupancy : Z) : Z :=
  match sliceFor slices (Integral occupancy) with Some slice => bigint (slice ?. k) | None => 0 end.
Arguments sliceMetric _ _%_string _.

Lemma sliceFor_unique slices slice :
  NoDup ((λ s, integer (s ?. "partsPerPlate")) <$> slices) → slice ∈ slices → (∃ z, slice ?. "partsPerPlate" = Integral z) →
  sliceFor slices (slice ?. "partsPerPlate") = Some slice.
Proof.
  intros HN Hin [z Hz]. unfold sliceFor. destruct (List.find _ (rev slices)) as [s|] eqn:E.
  - apply find_some in E as [Hs Heq]. apply (proj2 (in_rev _ _)), list_elem_of_In in Hs. apply strict_eq_integer in Heq.
    apply list_elem_of_lookup in Hin as [i Hi], Hs as [j Hj]. assert (i = j) as ->; [|by simplify_eq].
    eapply NoDup_lookup; [exact HN|by rewrite list_lookup_fmap, Hi|by rewrite list_lookup_fmap, Hj; cbn; f_equal].
  - exfalso. eapply find_none in E; [|apply (proj1 (in_rev _ _)), list_elem_of_In, Hin]. rewrite Hz in E. cbn in E. by rewrite Z.eqb_refl in E.
Qed.

Lemma plates_sum slices estimates k pieces :
  forallb (slicedPlate slices) estimates = true →
  Forall (λ plate, ∃ z, plate ?. "partsOnPlate" = Integral z) estimates →
  (λ plate, integer (plate ?. "partsOnPlate")) <$> estimates = pieces →
  k ∈ ["estimatedPrintSeconds"%string; "estimatedMaterialMilligrams"%string] →
  sum_by (λ plate, bigint (plate ?. k)) estimates = sum_by (sliceMetric slices k) pieces.
Proof.
  intros Hs Hz <- Hk. rewrite sum_by_fmap. apply sum_by_ext. intros plate Hin. rewrite forallb_forall in Hs.
  specialize (Hs plate (proj1 (list_elem_of_In _ _) Hin)). rewrite Forall_forall in Hz. destruct (Hz plate Hin) as [z Hp].
  unfold slicedPlate in Hs. unfold compose, sliceMetric. rewrite Hp in *. cbn [integer]. destruct (sliceFor slices (Integral z)) as [slice|]; [|done].
  apply andb_prop in Hs as [H1 H2]. apply strict_eq_text in H1, H2. unfold bigint. f_equal.
  apply elem_of_cons in Hk as [->|Hk]; [by rewrite H1|]. apply list_elem_of_singleton in Hk as ->. by rewrite H2.
Qed.

(** C24: An accepted estimate of a candidate adds up.  Its plates hold the pieces of
    the job, full plates first; there is one slice for each different occupancy,
    with the machine-occupancy identity of the input; and the print time and the
    material of the estimate are the sums, over the plates, of the figures of the
    slice for the occupancy of each. *)
Theorem candidate_result_exact v :
  accepts CandidateEstimateResultSchema v = true → succeeded v = true →
  let input := v ?. "input" in let metrics := v ?. "outcome" ?. "metrics" in
  let estimates := elements (v ?. "outcome" ?. "plates") in let slices := elements (v ?. "outcome" ?. "occupancySlices") in
  let q := integer (input ?. "quantity") in let n := integer (input ?. "partsPerPlate") in
  0 < q ∧ 0 < n
  ∧ (λ plate, integer (plate ?. "partsOnPlate")) <$> estimates = pieces q n ∧ sum_by (λ p, p) (pieces q n) = q
  ∧ (λ slice, integer (slice ?. "partsPerPlate")) <$> slices = candidateOccupancies q n
  ∧ Forall (λ slice, ∃ identity, slice ?. "cacheIdentitySha256" = Str identity
      ∧ machineOccupancyCacheIdentitySha256 input (integer (slice ?. "partsPerPlate")) = Ok identity
      ∧ sliceFor slices (slice ?. "partsPerPlate") = Some slice) slices
  ∧ Forall (λ k, bigint (metrics ?. k) = sum_by (sliceMetric slices k) (pieces q n))
      ["estimatedPrintSeconds"%string; "estimatedMaterialMilligrams"%string].
Proof.
  cbv zeta. intros H Hs. apply identified_base in H. apply checked in H as [H Hf]. apply andb_prop in Hf as [Hf Hslices].
  apply andb_prop in Hf as [_ Hplan]. apply result_succeeded in H as [Hinput Houtcome]; [|done].
  apply occupancy_targets in Hinput as (Hq & Hn & _ & Htargets & Hids). apply checked in Houtcome as [Ho Hc].
  destruct (plate_plan v Hs Hc Hplan Hq Hn) as (Hpieces & Hsec & Hmat).
  edestruct (object_property _ _ "plates"%string (z_bounded_array PlateEstimateSchema 1 MAX_PLATE_COUNT) Ho) as [Hpl _]; [in_shape|].
  edestruct (object_property _ _ "occupancySlices"%string (z_bounded_array CandidateOccupancySliceSchema 1 2) Ho) as [Hsl _]; [in_shape|].
  apply checked in Hpl as [Hpl _]. apply checked in Hsl as [Hsl _]. apply z_array_elements in Hpl as [_ Hpl], Hsl as [_ Hsl].
  unfold requireCandidateOccupancySlices in Hslices. cbv zeta in Hslices. rewrite Hs in Hslices. cbn [negb orb] in Hslices.
  apply andb_prop in Hslices as [Hslices Hsliced]. apply andb_prop in Hslices as [Hlen Hmatch]. apply Nat.eqb_eq in Hlen.
  rewrite forallb_indexed in Hmatch. set (slices := elements (v ?. "outcome" ?. "occupancySlices")) in *.
  set (targets := elements (v ?. "input" ?. "occupancySliceTargets")) in *.
  assert (∀ i slice, slices !! i = Some slice → ∃ target, targets !! i = Some target
    ∧ integer (slice ?. "partsPerPlate") = integer (target ?. "partsPerPlate")
    ∧ ∃ identity, slice ?. "cacheIdentitySha256" = Str identity ∧ target ?. "cacheIdentitySha256" = Str identity) as Hslice.
  { intros i slice Hi. specialize (Hmatch i slice Hi). cbn [fst snd] in Hmatch. destruct (targets !! i) as [target|] eqn:Ht; [|done].
    unfold slicedTarget in Hmatch. apply andb_prop in Hmatch as [Hmatch _]. apply andb_prop in Hmatch as [H1 H2].
    exists target. split; [done|]. split; [by apply strict_eq_integer|]. rewrite Forall_forall in Hids.
    destruct (Hids target) as (identity & Hid & _); [by eapply list_elem_of_lookup_2|]. rewrite Hid in H2. apply strict_eq_Str in H2. eauto. }
  assert ((λ slice, integer (slice ?. "partsPerPlate")) <$> slices = candidateOccupancies (integer (v ?. "input" ?. "quantity"))
    (integer (v ?. "input" ?. "partsPerPlate"))) as Hocc.
  { rewrite <-Htargets. apply list_eq. intros i. rewrite !list_lookup_fmap. destruct (slices !! i) as [slice|] eqn:Hi.
    - destruct (Hslice i slice Hi) as (target & -> & Heq & _). cbn. by rewrite Heq.
    - apply lookup_ge_None in Hi. rewrite Hlen in Hi. by rewrite (proj2 (lookup_ge_None targets i) Hi). }
  split; [done|]. split; [done|]. split; [done|]. split; [by apply pieces_sum|]. split; [done|]. split.
  - apply Forall_lookup. intros i slice Hi. destruct (Hslice i slice Hi) as (target & Ht & Heq & identity & Hid & Hid').
    exists identity. split; [done|]. rewrite Heq. rewrite Forall_forall in Hids.
    destruct (Hids target) as (identity' & Hid'' & Hm); [by eapply list_elem_of_lookup_2|]. split; [congruence|].
    apply sliceFor_unique; [rewrite Hocc; by apply candidateOccupancies_NoDup|by eapply list_elem_of_lookup_2|].
    rewrite Forall_forall in Hsl. specialize (Hsl slice ltac:(by eapply list_elem_of_lookup_2)).
    edestruct (object_property _ _ "partsPerPlate"%string (boundedPositiveInteger MAX_QUANTITY) Hsl) as [Hz _]; [in_shape|]. apply accepts_bounded in Hz as (z & Hz & _). eauto.
  - assert (Forall (λ plate, ∃ z, plate ?. "partsOnPlate" = Integral z) (elements (v ?. "outcome" ?. "plates"))) as Hz.
    { eapply Forall_impl; [exact Hpl|]. intros plate Hplate. edestruct (object_property _ _ "partsOnPlate"%string (boundedPositiveInteger MAX_QUANTITY) Hplate) as [Hz _]; [in_shape|].
      apply accepts_bounded in Hz as (z & Hz & _). eauto. }
    constructor; [rewrite <-Hsec|constructor; [rewrite <-Hmat|constructor]]; apply plates_sum; try done; in_shape.
Qed.

(** ** Inspections *)

(** The assignments of all bodies. *)
Definition assignments (k : String.string) (bodies : value) : list jstr :=
  elements bodies ≫= λ body, text <$> elements (body ?. k).
Arguments assignments _%_string _.

Lemma distinct_texts_le k bodies s t : distinct_texts k bodies ≤ 1 → s ∈ assignments k bodies → t ∈ assignments k bodies → s = t.
Proof.
  unfold distinct_texts, zlength. intros H Hs Ht. destruct (decide (s = t)) as [|Hne]; [done|]. exfalso.
  assert (({[s; t]} : gset jstr) ⊆ list_to_set (assignments k bodies)) as Hsub%subseteq_size.
  { intros x [Hx%elem_of_singleton|Hx%elem_of_singleton]%elem_of_union; subst x; by apply elem_of_list_to_set. }
  rewrite size_union, !size_singleton in Hsub by (apply disjoint_singleton_l; by rewrite elem_of_singleton).
  unfold size, set_size in Hsub. cbn in Hsub. fold (assignments k bodies) in H. lia.
Qed.

(** A body that one piece can be printed of, as far as its topology goes. *)
Definition sound_topology (body : value) : Prop :=
  body ?. "topology" ?. "watertight" = Bool true ∧ body ?. "topology" ?. "manifold" = Bool true
  ∧ body ?. "topology" ?. "normals" = lit "consistent".

(** A finding of the inspection blocks the request. *)
Definition blocked (code : String.string) (findings : value) : Prop :=
  ∃ finding, finding ∈ elements findings ∧ finding ?. "code" = lit code
    ∧ finding ?. "severity" = lit "blocking" ∧ finding ?. "phase" = lit "inspection".
Arguments blocked _%_string _.

(** The number of different assignments of the bodies. *)
Definition counts_assignments (k : String.string) (bodies count : value) : Prop :=
  ∃ ids, NoDup ids ∧ (∀ s, s ∈ ids ↔ s ∈ assignments k bodies) ∧ count = Integral (Z.of_nat (length ids)).
Arguments counts_assignments _%_string _ _.

(** The outcome of an inspection summarises its bodies, and hides none of their
    defects. *)
Record reconciled (outcome : value) : Prop := {
  rc_order : StronglySorted (λ s t, str_ltb s t = true) ((λ body, text (body ?. "bodyId")) <$> elements (outcome ?. "bodies"));
  rc_bodies : outcome ?. "metrics" ?. "bodyCount" = Integral (Z.of_nat (length (elements (outcome ?. "bodies"))));
  rc_materials : counts_assignments "materialAssignmentIds" (outcome ?. "bodies")
    (outcome ?. "metrics" ?. "materialAssignmentCount");
  rc_extruders : counts_assignments "extruderAssignmentIds" (outcome ?. "bodies")
    (outcome ?. "metrics" ?. "extruderAssignmentCount");
  rc_paint : outcome ?. "metrics" ?. "hasPaintAssignments" = Bool true
      ∧ Exists (λ body, body ?. "hasPaintAssignments" = Bool true) (elements (outcome ?. "bodies"))
    ∨ outcome ?. "metrics" ?. "hasPaintAssignments" = Bool false
      ∧ Forall (λ body, body ?. "hasPaintAssignments" = Bool false) (elements (outcome ?. "bodies"));
  rc_custom : blocked "PAINTED_OR_MULTIMATERIAL" (outcome ?. "findings")
    ∨ Forall (λ body, body ?. "hasPaintAssignments" = Bool false) (elements (outcome ?. "bodies"))
      ∧ Forall (λ k, ∀ s t, s ∈ assignments k (outcome ?. "bodies") → t ∈ assignments k (outcome ?. "bodies") → s = t)
          ["materialAssignmentIds"%string; "extruderAssignmentIds"%string];
  rc_topology : blocked "INVALID_TOPOLOGY" (outcome ?. "findings")
    ∨ Forall sound_topology (elements (outcome ?. "bodies"));
}.

Lemma unique_texts_NoDup l : unique_texts l = true → NoDup l.
Proof.
  unfold unique_texts. rewrite Nat.eqb_eq.
  assert (∀ l : list jstr, size (list_to_set l : gset jstr) ≤ length l)%nat as Hle.
  { clear l. intros l. induction l as [|x l IH]; [done|]. cbn.
    pose proof (size_union_alt {[x]} (list_to_set l : gset jstr)) as Hs. rewrite size_singleton in Hs.
    pose proof (subseteq_size (list_to_set l ∖ {[x]} : gset jstr) (list_to_set l) ltac:(set_solver)). lia. }
  induction l as [|x l IH]; intros H; [constructor|]. cbn in H. specialize (Hle l). apply NoDup_cons.
  destruct (decide (x ∈ l)) as [Hx|Hx].
  - exfalso. rewrite subseteq_union_1_L in H by (apply singleton_subseteq_l, elem_of_list_to_set, Hx). lia.
  - split; [done|]. apply IH. rewrite size_union, size_singleton in H; [lia|]. apply disjoint_singleton_l. by rewrite elem_of_list_to_set.
Qed.

Lemma ordered_texts_sorted l : NoDup l → ordered_texts l = true → StronglySorted (λ s t, str_ltb s t = true) l.
Proof.
  intros HN H. apply Sorted_StronglySorted; [intros x y z; apply str_ltb_trans|].
  induction l as [|a l IH]; [constructor|]. cbn [ordered_texts] in H. apply andb_prop in H as [H Hl]. apply NoDup_cons in HN as [Ha HN].
  constructor; [by apply IH|]. destruct l as [|b l]; constructor. apply negb_true_iff in H.
  destruct (str_ltb a b) eqn:E; [done|]. exfalso. apply Ha. rewrite (str_ltb_total a b E H). by left.
Qed.

Lemma distinct_texts_count k bodies count : (count === Integral (distinct_texts k bodies)) = true → counts_assignments k bodies count.
Proof.
  intros ->%strict_eq_Integral. exists (base.elements (list_to_set (assignments k bodies) : gset jstr)).
  split; [apply NoDup_elements|]. split; [|reflexivity].
  intros s. by rewrite elem_of_elements, elem_of_list_to_set.
Qed.

Lemma review_spec body : requiresTopologyReview body = false →
  body ?. "topology" ?. "watertight" = Bool true ∧ body ?. "topology" ?. "manifold" = Bool true
  ∧ body ?. "topology" ?. "normals" = lit "consistent".
Proof.
  unfold requiresTopologyReview. cbv zeta. intros H. apply orb_false_iff in H as [H H3]. apply orb_false_iff in H as [H1 H2].
  rewrite negb_false_iff in H1, H2, H3. by rewrite strict_eq_Bool in H1, H2; rewrite strict_eq_lit in H3.
Qed.

Lemma review_topology bodies : existsb requiresTopologyReview bodies = false → Forall sound_topology bodies.
Proof. intros H. apply Forall_forall. intros body Hin. by apply review_spec, (proj1 (existsb_false _ _) H). Qed.

Lemma blockingFinding_Some code findings : blockingFinding code findings = true → blocked code findings.
Proof.
  intros (finding & Hin & H)%existsb_exists. apply andb_prop in H as [H H3]. apply andb_prop in H as [H1 H2].
  rewrite strict_eq_lit in H1, H2, H3. exists finding. by rewrite list_elem_of_In.
Qed.

(** Bodies without paint, of which the schema makes the field a boolean. *)
Lemma unpainted outcome : accepts (z_bounded_array BodyInspectionSchema 1 MAX_BODY_COUNT) (outcome ?. "bodies") = true →
  existsb (λ body, body ?. "hasPaintAssignments" === Bool true) (elements (outcome ?. "bodies")) = false →
  Forall (λ body, body ?. "hasPaintAssignments" = Bool false) (elements (outcome ?. "bodies")).
Proof.
  intros [Hb _]%checked He. apply z_array_elements in Hb as [_ Hb]. rewrite Forall_forall in Hb |- *. intros body Hin.
  edestruct (object_property _ _ "hasPaintAssignments"%string z_boolean (Hb body Hin)) as [Hbool _]; [in_shape|].
  rewrite accepts_boolean in Hbool. apply is_boolean_Bool in Hbool as [b Hbool].
  apply (proj1 (existsb_false _ _) He) in Hin. rewrite Hbool in *. by destruct b.
Qed.

Lemma inspection_reconciled outcome :
  accepts (z_bounded_array BodyInspectionSchema 1 MAX_BODY_COUNT) (outcome ?. "bodies") = true →
  inspectionReconciles outcome = true → reconciled outcome.
Proof.
  intros Hb Hr. unfold inspectionReconciles in Hr. cbv zeta in Hr. apply andb_prop in Hr as [Hr Htopology]. apply andb_prop in Hr as [Hr Hcustom].
  apply andb_prop in Hr as [Hr Hpaint]. apply andb_prop in Hr as [Hr Hextruder]. apply andb_prop in Hr as [Hr Hmaterial].
  apply andb_prop in Hr as [Hr Hcount]. apply andb_prop in Hr as [Hunique Hordered].
  rewrite strict_eq_Bool in Hpaint. split.
  - apply ordered_texts_sorted; [by apply unique_texts_NoDup|done].
  - by apply strict_eq_Integral in Hcount.
  - by apply distinct_texts_count.
  - by apply distinct_texts_count.
  - rewrite Hpaint. destruct (existsb _ _) eqn:E; [left|right]; (split; [done|]); [|by apply unpainted].
    apply existsb_exists in E as (body & Hin & Hbody). rewrite strict_eq_Bool in Hbody. apply Exists_exists.
    exists body. by rewrite list_elem_of_In.
  - destruct (blockingFinding "PAINTED_OR_MULTIMATERIAL" _) eqn:E; [left; by apply blockingFinding_Some in E|right].
    rewrite orb_false_r, negb_true_iff in Hcustom. unfold requiresCustomRequest in Hcustom.
    rewrite strict_eq_Integral in Hmaterial, Hextruder. rewrite Hpaint, Hmaterial, Hextruder in Hcustom. cbn [integer] in Hcustom.
    apply orb_false_iff in Hcustom as [Hcustom He]. apply orb_false_iff in Hcustom as [Hp Hma]. apply Z.ltb_ge in He, Hma.
    split; [|repeat constructor; intros s t; by apply distinct_texts_le]. apply unpainted; [done|]. by destruct (existsb _ _).
  - destruct (blockingFinding "INVALID_TOPOLOGY" _) eqn:E; [left; by apply blockingFinding_Some in E|right].
    rewrite orb_false_r, negb_true_iff in Htopology. by apply review_topology.
Qed.


(** ** Object keys *)

Lemma hex_dash_neq c : hex_dash c → c ≠ 47 ∧ c ≠ 46 ∧ c ≠ 92.
Proof. unfold hex_dash, is_char, lower_hex, digit, in_range. lia. Qed.

Lemma Forall_hex_dash s c : Forall hex_dash s → c = 47 ∨ c = 46 ∨ c = 92 → Forall (.≠ c) s.
Proof. intros H Hc. eapply Forall_impl; [exact H|]. intros d Hd%hex_dash_neq ->. naive_solver. Qed.

Lemma accepts_z_text lo hi s : accepts (z_text lo hi) (Str s) = true ↔ lo ≤ js_length s ≤ hi.
Proof. unfold z_text. rewrite accepts_check, accepts_string. cbn. rewrite andb_true_iff, !Z.leb_le. done. Qed.

(** A generated key passes the schema of keys. *)
Lemma storage_key_accepted s : 1 ≤ js_length s ≤ 512 → GENERATED_OBJECT_KEY_PATTERN s = true →
  includes_text s (js "..") = false → includes_text s [92] = false → take 1 s ≠ js "/" →
  accepts StorageObjectKeySchema (Str s) = true.
Proof.
  intros H1 H2 H3 H4 H5. unfold StorageObjectKeySchema. rewrite !accepts_check, (proj2 (accepts_z_text _ _ _) H1).
  cbn [on_text andb]. by rewrite H2, H3, H4, (bool_decide_eq_false_2 _ H5).
Qed.

(** The suffix of a format determines it, and has no separator. *)
Lemma suffix_cases f : accepts ProductionArtifactFormatSchema f = true →
  f = lit "gcode_3mf" ∨ f = lit "bgcode" ∨ f = lit "gcode".
Proof.
  unfold ProductionArtifactFormatSchema. rewrite accepts_enum. destruct f; try done. unfold key_in. cbn [PRODUCTION_ARTIFACT_FORMATS fmap list_fmap existsb].
  unfold str_eqb. rewrite !orb_true_iff, !bool_decide_eq_true. naive_solver.
Qed.

Lemma productionArtifactObjectKey_Ok id f k : productionArtifactObjectKey id f = Ok k →
  ∃ s, id = Str s ∧ Forall hex_dash s ∧ length s = 36%nat ∧ LOWERCASE_UUID_PATTERN s = true
    ∧ (f = lit "gcode_3mf" ∨ f = lit "bgcode" ∨ f = lit "gcode")
    ∧ k = js "gcode" ++ 47 :: s ++ 47 :: js "toolpaths." ++ PRODUCTION_ARTIFACT_SUFFIX (text f).
Proof.
  unfold productionArtifactObjectKey. intros H. apply bind_Ok in H as (i & [-> Hi]%z_parse_Ok & H).
  apply bind_Ok in H as (g & [-> Hg]%z_parse_Ok & H). injection H as <-. apply accepts_text in Hi as (s & -> & Hs).
  pose proof (uuid_chars s Hs) as [Hc Hl]. apply suffix_cases in Hg. exists s. split_and!; try done.
Qed.

Lemma uuid_segment s : LOWERCASE_UUID_PATTERN s = true → plain_segment s = true ∧ hex_dashes 36 s = true.
Proof.
  intros H. pose proof (uuid_chars s H) as [Hc Hl]. split.
  - destruct s as [|c s]; [done|]. unfold LOWERCASE_UUID_PATTERN in H. cbn [replicate app matches_classes] in H.
    apply andb_prop in H as [H _]. apply Forall_cons in Hc as [_ Hc]. unfold plain_segment, head_then. apply andb_true_intro. split.
    + unfold alphanumeric, lower_hex, lower, digit, in_range in *. lia.
    + apply forallb_forall. intros d Hd%list_elem_of_In. rewrite Forall_forall in Hc. specialize (Hc d Hd).
      unfold hex_dash, is_char, alphanumeric, lower_hex, lower, digit, in_range in *.
      change (one_of ":-" d) with (existsb (Z.eqb d) [58; 45]). cbn [existsb]. lia.
  - unfold hex_dashes. rewrite Hl. cbn [Nat.eqb andb]. apply forallb_forall. intros d Hd%list_elem_of_In.
    rewrite Forall_forall in Hc. specialize (Hc d Hd). unfold hex_dash in Hc. rewrite orb_comm. by apply orb_true_iff.
Qed.

(** A segment that is a name: not empty, and no [.] or [..]. *)
Definition starts_alphanumeric (segment : jstr) : Prop := match segment with [] => False | c :: _ => alphanumeric c = true end.

Lemma head_then_alphanumeric rest s : head_then alphanumeric rest s = true → starts_alphanumeric s.
Proof. destruct s; [done|]. cbn. by intros [H _]%andb_prop. Qed.

Lemma accepted_key_segments s : accepts StorageObjectKeySchema (Str s) = true → Forall starts_alphanumeric (split_slash s).
Proof.
  intros [[_ H]%checked _]%checked. cbn [on_text] in H. unfold GENERATED_OBJECT_KEY_PATTERN in H.
  destruct (split_slash s) as [|namespace [|first rest]]; try done.
  apply andb_prop in H as [H Hrest]. apply andb_prop in H as [Hns Hfirst]. constructor; [|constructor].
  - apply existsb_exists in Hns as (x & Hx & Heq). unfold str_eqb in Heq. apply bool_decide_eq_true in Heq as ->.
    apply list_elem_of_In in Hx. unfold NAMESPACES in Hx. cbn [fmap list_fmap] in Hx.
    repeat (apply elem_of_cons in Hx as [->|Hx]; [done|]). by apply not_elem_of_nil in Hx.
  - by eapply head_then_alphanumeric.
  - apply Forall_forall. intros x Hx. rewrite forallb_forall in Hrest. eapply head_then_alphanumeric, Hrest, list_elem_of_In, Hx.
Qed.

(** The keys that are generated for production artifacts are the ones that
    results are accepted with, and they are safe.  A key for a job and a format
    passes the schema of such keys, and it determines the job and the format; and
    every segment of a key that is accepted anywhere starts with a letter or a
    digit, so that none is empty or leads out of its directory. *)
Theorem production_keys_accepted id f k :
  productionArtifactObjectKey id f = Ok k →
  accepts ProductionArtifactObjectKeySchema (Str k) = true
  ∧ (∀ id' f', productionArtifactObjectKey id' f' = Ok k → id' = id ∧ f' = f)
  ∧ ∀ key, accepts StorageObjectKeySchema (Str key) = true → Forall starts_alphanumeric (split_slash key).
Proof.
  intros H. pose proof (productionArtifactObjectKey_Ok _ _ _ H) as (s & -> & Hc & Hl & Hu & Hf & ->).
  set (suffix := js "toolpaths." ++ PRODUCTION_ARTIFACT_SUFFIX (text f)) in *.
  assert (Forall (.≠ 47) suffix) as Hsuffix by (unfold suffix; destruct Hf as [->|[->| ->]]; by apply (bool_decide_unpack _); vm_compute).
  assert (Forall (.≠ 47) s) as Hs by (apply Forall_hex_dash; naive_solver).
  assert (∀ t u, Forall (.≠ 47) t → Forall (.≠ 47) u →
    split_slash (js "gcode" ++ 47 :: t ++ 47 :: u) = [js "gcode"; t; u]) as Hsplit.
  { intros t u Ht Hu'. rewrite split_slash_app by (by apply (bool_decide_unpack _); vm_compute).
    by rewrite split_slash_app, split_slash_last. }
  destruct (uuid_segment s Hu) as [Hplain Hhex]. split_and!; [| |apply accepted_key_segments].
  - unfold ProductionArtifactObjectKeySchema. rewrite accepts_check, storage_key_accepted; cbn [on_text andb].
    + unfold key_pattern. cbv zeta. rewrite Hsplit by done. cbn [length Nat.eqb zip zip_with forallb fst snd andb]. rewrite Hhex.
      unfold suffix. destruct Hf as [->|[->| ->]]; vm_compute; done.
    + unfold js_length, suffix. rewrite !length_app. cbn [length]. rewrite !length_app. cbn [length]. rewrite length_app, Hl.
      destruct Hf as [->|[->| ->]]; vm_compute; split; discriminate.
    + unfold GENERATED_OBJECT_KEY_PATTERN. rewrite Hsplit by done. rewrite Hplain. cbn [forallb andb].
      unfold suffix. destruct Hf as [->|[->| ->]]; vm_compute; done.
    + change (js "gcode" ++ 47 :: s ++ 47 :: suffix) with ((js "gcode" ++ [47]) ++ s ++ 47 :: suffix).
      change (js "..") with [46; 46]. rewrite (includes_text_skip _ _ 46) by (by apply (bool_decide_unpack _); vm_compute).
      rewrite (includes_text_skip s _ 46) by (apply Forall_hex_dash; naive_solver).
      unfold suffix. destruct Hf as [->|[->| ->]]; vm_compute; done.
    + change (js "gcode" ++ 47 :: s ++ 47 :: suffix) with ((js "gcode" ++ [47]) ++ s ++ 47 :: suffix).
      rewrite (includes_text_skip _ _ 92) by (by apply (bool_decide_unpack _); vm_compute).
      rewrite (includes_text_skip s _ 92) by (apply Forall_hex_dash; naive_solver).
      unfold suffix. destruct Hf as [->|[->| ->]]; vm_compute; done.
    + discriminate.
  - intros id' f' H'. apply productionArtifactObjectKey_Ok in H' as (s' & -> & Hc' & _ & _ & Hf' & Heq).
    apply (f_equal split_slash) in Heq. rewrite !Hsplit in Heq; try done.
    + injection Heq as -> Heq. split; [done|]. unfold suffix in Heq.
      destruct Hf as [->|[->| ->]], Hf' as [->|[->| ->]]; try done; vm_compute in Heq; discriminate Heq.
    + apply Forall_hex_dash; naive_solver.
    + destruct Hf' as [->|[->| ->]]; by apply (bool_decide_unpack _); vm_compute.
Qed.

End Contracts.

(** ** A sample *)

Section Sample.
#[local] Instance sample_zod : Zod := predicates.
#[local] Instance sample_numbers : NumberText := {| numberText _ := [] |}.
#[local] Instance sample_laws : ZodLaws sample_zod := predicates_laws.

Definition texts (l : list String.string) : value := ArrayV 0 (lit <$> l).
Definition digest_of (r : result jstr) : value := match r with Ok s => Str s | Throw _ => Undefined end.
Definition is_ok {A} (r : result A) : bool := match r with Ok _ => true | Throw _ => false end.
Definition uuid (n : Z) : value := Str (js "00000000-0000-4000-8000-00000000000" ++ toString10 n).
Definition sha (n : Z) : value := Str (replicate 63 97 ++ toString10 n).
Definition revision (n : Z) : list (String.string * value) :=
  [("revisionId"%string, uuid n); ("contentSha256"%string, sha n)].

Definition sample_geometry : value := Eval vm_compute in
  obj [("sourceModelFileId"%string, uuid 1); ("sourceContentSha256"%string, sha 1); ("modelGeometryId"%string, uuid 2);
       ("canonicalObjectKey"%string, Str (js "geometries/" ++ text (uuid 2) ++ js "/canonical"));
       ("geometrySha256"%string, sha 2); ("bodyIds"%string, texts ["left"%string; "right"%string]);
       ("selectionSha256"%string, digest_of (geometrySelectionSha256 (texts ["left"%string; "right"%string])))].

(** Five pieces on plates of two. *)
Definition sample_fields : list (String.string * value) :=
  [("geometry"%string, sample_geometry); ("machineId"%string, uuid 3);
   ("machineProfile"%string, obj (revision 4 ++ [("slicerEngine"%string, lit "slicer"); ("slicerVersion"%string, lit "2.0");
                                                ("productionArtifactFormat"%string, lit "gcode_3mf")]));
   ("machineCalibration"%string, obj (revision 5)); ("printConfig"%string, obj (revision 6));
   ("partsPerPlate"%string, Integral 2); ("quantity"%string, Integral 5); ("shipmentPlanId"%string, uuid 7);
   ("arrangementRevision"%string, obj (revision 8))].

Definition full_identity : value := Eval vm_compute in digest_of (machineOccupancyCacheIdentitySha256 (obj sample_fields) 2).
Definition tail_identity : value := Eval vm_compute in digest_of (machineOccupancyCacheIdentitySha256 (obj sample_fields) 1).
Definition sample_identity (n : Z) : value := if n =? 2 then full_identity else tail_identity.
Definition sample_analysis (n : Z) : value := Str (js "slice-metrics/" ++ text (sample_identity n) ++ js "/result.json").

Definition sample_input : value :=
  obj (sample_fields ++
       [("occupancySliceTargets"%string, ArrayV 0 ((λ n, obj [("partsPerPlate"%string, Integral n);
          ("cacheIdentitySha256"%string, sample_identity n); ("analysisObjectKey"%string, sample_analysis n)]) <$> [2; 1]))]).

(** An envelope with the identities of its input. *)
Definition enveloped (kind : String.string) (input : value) (attempt : Z) (more : list (String.string * value)) : value :=
  let fingerprint := digest_of (slicingInputFingerprint (lit kind) input) in
  let fields := [("contractVersion"%string, Integral 2); ("jobId"%string, uuid 9); ("correlationId"%string, uuid attempt);
                 ("inputFingerprintSha256"%string, fingerprint); ("attempt"%string, Integral attempt);
                 ("kind"%string, lit kind); ("input"%string, input)] ++ more in
  obj (("idempotencyKey"%string, Str (expectedIdempotencyKey (obj fields))) :: fields).
Arguments enveloped _%_string _ _ _.

Definition engine : String.string * value :=
  ("engine"%string, obj [("name"%string, lit "slicer"); ("version"%string, lit "2.0"); ("imageSha256"%string, sha 0)]).

Definition sample_topology : value :=
  obj [("watertight"%string, Bool true); ("manifold"%string, Bool true); ("normals"%string, lit "consistent")].
Definition sample_box : value :=
  obj [("xMicrometers"%string, lit "1"); ("yMicrometers"%string, lit "1"); ("zMicrometers"%string, lit "1")].

Definition estimates (seconds milligrams : String.string) : list (String.string * value) :=
  [("estimatedPrintSeconds"%string, lit seconds); ("estimatedMaterialMilligrams"%string, lit milligrams)].

Definition sample_outcome : value :=
  let plate (ordinal n : Z) (s m : String.string) :=
    obj ([("plateOrdinal"%string, Integral ordinal); ("partsOnPlate"%string, Integral n)] ++ estimates s m) in
  let slice (n : Z) (s m : String.string) :=
    obj ([("partsPerPlate"%string, Integral n); ("cacheIdentitySha256"%string, sample_identity n);
          ("artifact"%string, obj [("objectKey"%string, sample_analysis n); ("sha256"%string, sha 3)])] ++ estimates s m) in
  obj [("status"%string, lit "succeeded");
       ("metrics"%string, obj ([("boundingBox"%string, sample_box); ("objectCount"%string, Integral 1);
          ("bodyCount"%string, Integral 2); ("topology"%string, sample_topology); ("thinWallFeatureCount"%string, Integral 0);
          ("supportVolumeRatioPpm"%string, Integral 0); ("hasPaintAssignments"%string, Bool false);
          ("materialAssignmentCount"%string, Integral 0); ("plateCount"%string, Integral 3)] ++ estimates "250" "25"));
       ("plates"%string, ArrayV 0 [plate 1 2 "100"%string "10"%string; plate 2 2 "100"%string "10"%string; plate 3 1 "50"%string "5"%string]);
       ("occupancySlices"%string, ArrayV 0 [slice 2 "100"%string "10"%string; slice 1 "50"%string "5"%string])].

Definition sample_result : value := Eval vm_compute in enveloped "candidate_estimate" sample_input 1 [engine; ("outcome"%string, sample_outcome)].

Definition sample_body : value :=
  obj [("bodyId"%string, lit "body"); ("bodySha256"%string, sha 1); ("boundingBox"%string, sample_box);
       ("volumeCubicMicrometers"%string, lit "1"); ("triangleCount"%string, Integral 12); ("topology"%string, sample_topology);
       ("hasPaintAssignments"%string, Bool false); ("materialAssignmentIds"%string, texts ["pla"%string]);
       ("extruderAssignmentIds"%string, texts [])].

(** The discovery of a source, at an attempt, and its result. *)
Definition discovery : value :=
  obj [("source"%string, obj [("modelFileId"%string, uuid 1); ("format"%string, lit "stl");
         ("objectKey"%string, Str (js "models/" ++ text (uuid 1) ++ js "/source")); ("contentSha256"%string, sha 1)]);
       ("operation"%string, obj [("mode"%string, lit "inspect_source")]); ("inspectionRevision"%string, lit "r1");
       ("inspectionConfigSha256"%string, sha 1); ("canonicalizerRevision"%string, lit "r1");
       ("canonicalizerConfigSha256"%string, sha 1)].

Definition sample_job (attempt : Z) : value := enveloped "model_inspection" discovery attempt [].
Definition sample_job_1 : value := Eval vm_compute in sample_job 1.
Definition sample_job_2 : value := Eval vm_compute in sample_job 2.

Definition sample_inspection : value :=
  Eval vm_compute in enveloped "model_inspection" discovery 1
    [engine;
     ("outcome"%string,
      obj [("status"%string, lit "succeeded"); ("canonicalGeometry"%string, Null);
           ("metrics"%string, obj [("boundingBox"%string, sample_box); ("objectCount"%string, Integral 1);
              ("bodyCount"%string, Integral 1); ("unitHint"%string, lit "millimeter"); ("scaleAssessment"%string, lit "trusted");
              ("suggestedScaleFactorPpm"%string, Null); ("thinWallFeatureCount"%string, Integral 0);
              ("hasPaintAssignments"%string, Bool false); ("materialAssignmentCount"%string, Integral 1);
              ("extruderAssignmentCount"%string, Integral 0)]);
           ("bodies"%string, ArrayV 0 [sample_body]);
           ("findings"%string, ArrayV 0 [obj [("code"%string, lit "THIN"); ("severity"%string, lit "info");
              ("phase"%string, lit "inspection"); ("message"%string, lit "Thin walls were found"); ("acknowledgementKey"%string, Null)]])])].

Example messages :
  SAFE_FAILURE_MESSAGE_PATTERN (js "The engine timed out") = true ∧ SAFE_FAILURE_MESSAGE_PATTERN (js "see HTTP://host") = false
  ∧ SAFE_FAILURE_MESSAGE_PATTERN (js "a Token here") = false ∧ SAFE_FAILURE_MESSAGE_PATTERN (js "tokens") = true
  ∧ CREDENTIAL_ASSIGNMENT_PATTERN (js "API-key : x") = true ∧ CREDENTIAL_ASSIGNMENT_PATTERN (js "keyboard: x") = false.
Proof. vm_compute. done. Qed.

Lemma result_bound_to_job_witness :
  ∃ s, slicingResultForJobSchema sample_job_1 = Ok s ∧ accepts s sample_inspection = true
    ∧ Forall (λ k, sample_inspection ?. k = sample_job_1 ?. k) ENVELOPE.
Proof.
  set (s := refine SlicingResultSchema (matchesJob sample_job_1)).
  assert (slicingResultForJobSchema sample_job_1 = Ok s) as Hs.
  { unfold slicingResultForJobSchema, parse.
    assert (accepts SlicingJobSchema sample_job_1 = true) as -> by (vm_compute; reflexivity). reflexivity. }
  assert (accepts s sample_inspection = true) as Ha by (unfold s; vm_compute; reflexivity).
  exists s. split; [exact Hs|]. split; [exact Ha|].
  apply (result_bound_to_job sample_job_1 sample_inspection s); [apply units_okb_spec; vm_compute; reflexivity..|exact Hs|exact Ha].
Defined.

Lemma effect_fingerprint_exact_witness :
  ∃ d, slicingJobEffectFingerprint sample_job_1 = Ok d ∧ slicingJobEffectFingerprint sample_job_2 = Ok d.
Proof.
  assert (is_ok (slicingJobEffectFingerprint sample_job_1) = true) as H1 by (vm_compute; reflexivity).
  assert (is_ok (slicingJobEffectFingerprint sample_job_2) = true) as H2 by (vm_compute; reflexivity).
  set (j1 := without ["attempt"%string; "correlationId"%string] sample_job_1).
  set (j2 := without ["attempt"%string; "correlationId"%string] sample_job_2).
  assert (match contents j1 with Some _ => true | None => false end = true) as H3 by (vm_compute; reflexivity).
  assert (contents j2 = contents j1) as H4 by (vm_compute; reflexivity).
  assert (unique_keys sample_job_1 ∧ unique_keys sample_job_2) as [U1 U2].
  { split; (eexists _, _; split; [reflexivity|]; apply (bool_decide_unpack _); vm_compute; exact I). }
  destruct (slicingJobEffectFingerprint sample_job_1) as [d|] eqn:Hd; [|discriminate H1].
  destruct (slicingJobEffectFingerprint sample_job_2) as [e|] eqn:He; [|discriminate H2].
  destruct (contents j1) as [j|] eqn:Hj; [|discriminate H3].
  exists d. split; [reflexivity|]. f_equal. symmetry.
  apply (effect_fingerprint_exact sample_job_1 sample_job_2 d e);
    [apply units_okb_spec; vm_compute; reflexivity..|exact U1|exact U2|exact Hd|exact He|].
  apply agree_without. intros f. exact (record_same_property _ _ j f Hj H4 (without_unique _ _ U1) (without_unique _ _ U2)).
Defined.

Lemma candidate_result_exact_witness :
  accepts CandidateEstimateResultSchema sample_result = true ∧ succeeded sample_result = true
  ∧ (λ plate, integer (plate ?. "partsOnPlate")) <$> elements (sample_result ?. "outcome" ?. "plates") = [2; 2; 1].
Proof.
  assert (accepts CandidateEstimateResultSchema sample_result = true) as H by (vm_compute; reflexivity).
  assert (succeeded sample_result = true) as Hs by (vm_compute; reflexivity).
  split; [exact H|]. split; [exact Hs|]. destruct (candidate_result_exact sample_result H Hs) as (_ & _ & -> & _). vm_compute. reflexivity.
Defined.


Lemma production_keys_accepted_witness :
  ∃ k, productionArtifactObjectKey (uuid 1) (lit "bgcode") = Ok k
    ∧ accepts ProductionArtifactObjectKeySchema (Str k) = true.
Proof.
  destruct (productionArtifactObjectKey (uuid 1) (lit "bgcode")) as [k|] eqn:H; [|vm_compute in H; discriminate H].
  exists k. split; [reflexivity|]. exact (proj1 (production_keys_accepted _ _ _ H)).
Defined.
End Sample.

End Contracts.
