(* ===== verification/Metrics.v ===== *)
(** The report of a period's metrics (metrics/metrics-report.service.ts of the
    backend): what an operator may ask for, and every figure that is computed
    from the rows of the database. *)
From S2P Require Import Prelude Text Language Primitives Arithmetic Values Dates.

(** [Intl.DateTimeFormat] in the time zone of Prague: the year and the month of
    a time. *)
Class PragueMonths := monthParts : Z → jstr * jstr.

Module Metrics.

Definition MAX_INTERVAL_MILLISECONDS : Z := 366 * 24 * 60 * 60 * 1000.
Definition DEFAULT_LIMIT : Z := 25.
Definition MAX_LIMIT : Z := 100.
Definition CHANNELS : list jstr :=
  js <$> ["direct"%string; "organic"%string; "paid"%string; "referral"%string; "unknown"%string].
Definition CURRENCIES : list jstr := [js "CZK"].

Definition includes (l : list jstr) (s : jstr) : bool := existsb (str_eqb s) l.
Definition unknown : jstr := js "unknown".

(** ** The rows

    A date of a row is valid: it is its time.  A status is its text. *)

Record MetricsQuery := mkQuery {
  from : Z;
  to : Z;
  channel : option jstr;
  currency : jstr;
  nodeId : jstr;
}.

Record PriceSnapshot := mkSnapshot {
  snapshot_contractTotalMinor : Z;
  snapshot_netAmountMinor : Z;
  snapshot_vatAmountMinor : Z;
  snapshot_currency : jstr;
  components : list jstr;
}.

Record ContractPriceRevision := mkRevision {
  contractTotalMinor : Z;
  netAmountMinor : Z;
  vatAmountMinor : Z;
  taxRegime : Tax.SellerTaxRegime;
  vatRateBasisPoints : Z;
  contract_currency : jstr;
}.

Record Refund := mkRefund { refund_amountMinor : Z; refund_status : jstr }.

Record Payment := mkPayment {
  capturedAmountMinor : option Z;
  payment_currency : jstr;
  payment_status : jstr;
  refunds : list Refund;
}.

Record ActualCost := mkCost {
  cost_amountMinor : Z;
  cost_currency : jstr;
  category : jstr;
  cost_successor : option jstr;
}.

Record HandlingAllocation := mkAllocation {
  allocatedCostMinor : Z;
  allocation_currency : jstr;
  lifecycle : jstr;
  voidedAt : option Z;
}.

Record Settlement := mkSettlement {
  settlement_kind : jstr;
  settlement_currency : jstr;
  settlement_contractTotalMinor : Z;
  capturedTotalMinor : Z;
  retainedAmountMinor : Z;
  refundAmountMinor : Z;
  amountDueMinor : Z;
}.

(** The origins and the customer of an order are read for their attribution. *)
Record ReportOrder := mkOrder {
  order_id : jstr;
  publicReference : jstr;
  order_status : jstr;
  confirmedAt : option Z;
  customerId : option jstr;
  firstAttribution : option value;
  automaticOrigin : option value;
  individualOrigin : option value;
  acceptedPriceBinding : option PriceSnapshot;
  activeContractPrice : option ContractPriceRevision;
  priceBindings : list (list Payment);
  actualCosts : list ActualCost;
  handlingAllocations : list HandlingAllocation;
  settlements : list Settlement;
  order_jobs : list jstr;
  phases : list (list jstr);
}.

Record OperationalJob := mkJob {
  replacesJobId : option jstr;
  job_status : jstr;
  failedAt : option Z;
  printingAt : option Z;
  printedAt : option Z;
  qcApprovedAt : option Z;
  qcRejectedAt : option Z;
}.

Record Event := mkEvent {
  eventType : jstr;
  quoteSessionId : option jstr;
  event_orderId : option jstr;
  payload : value;
}.

Record SpendFact := mkSpend {
  spend_channel : jstr;
  periodStart : Z;
  periodEnd : Z;
  spend_amountMinor : Z;
  spend_currency : jstr;
  spend_successor : option jstr;
}.

Definition is_None {A} (o : option A) : bool := match o with None => true | Some _ => false end.
Definition is_some {A} (o : option A) : bool := negb (is_None o).

(** ** Figures *)

Record MetricMoney := mkMoney { amountMinor : jstr; money_currency : jstr }.
Definition money (amount : Z) (cur : jstr) : MetricMoney := mkMoney (toString10 amount) cur.

(** The value of a ratio is the quotient itself, before it is rounded to a
    [number]. *)
Record MetricRatio := mkRatio { numerator : Z; denominator : Z; ratio_value : option (Z * Z) }.
Definition ratio (n d : Z) : MetricRatio := mkRatio n d (if d =? 0 then None else Some (n, d)).

Record MoneyRatio := mkMoneyRatio {
  total : MetricMoney;
  money_denominator : Z;
  money_value : option MetricMoney;
}.
Definition ratioMoney (t d : Z) (cur : jstr) : MoneyRatio :=
  mkMoneyRatio (money t cur) d (if d =? 0 then None else Some (money (Z.quot t d) cur)).

(** [sum(values)] and [values.filter((v): v is bigint => v !== null)] *)
Definition sum (values : list Z) : Z := sum_by (λ v, v) values.
Definition present {A} (values : list (option A)) : list A := omap id values.

(** [xs.filter(f)] and [xs.filter(f).length] *)
Definition select {A} (f : A → bool) (l : list A) : list A := List.filter f l.
Definition count_if {A} (f : A → bool) (l : list A) : Z := zlength (select f l).

(** [new Set(ids)] and its size *)
Definition set_of (ids : list jstr) : gset jstr := list_to_set ids.
Definition set_size (s : gset jstr) : Z := Z.of_nat (size s).

(** ** Channels *)

Definition attributionChannel (v : value) : jstr :=
  match v with
  | RecordV _ _ =>
      match v ?. "channel" with Str c => if includes CHANNELS c then c else unknown | _ => unknown end
  | _ => unknown
  end.

(** [a ?? b], of an optional chain. *)
Definition coalesce (a : option value) (b : value) : value :=
  match a with Some Undefined | Some Null | None => b | Some v => v end.

Definition orderChannel (order : ReportOrder) : jstr :=
  attributionChannel (coalesce (automaticOrigin order) (coalesce (individualOrigin order)
    (default Undefined (firstAttribution order)))).

Definition matchesChannel (v : jstr) (c : option jstr) : bool :=
  match c with None => true | Some c => str_eqb v c end.

Definition selectedCurrency (order : ReportOrder) (cur : jstr) : bool :=
  match acceptedPriceBinding order with Some snapshot => str_eqb (snapshot_currency snapshot) cur | None => false end.

Definition hasProvenOperationalScope (order : ReportOrder) (node : jstr) : bool :=
  let nodeIds := set_of (order_jobs order ++ concat (phases order)) in
  (set_size nodeIds =? 1) && bool_decide (node ∈ nodeIds).

(** [jsonString(v, field)] *)
Definition jsonString (v : value) (field : String.string) : option jstr :=
  match v with RecordV _ _ => match v ?. field with Str s => Some s | _ => None end | _ => None end.
Arguments jsonString _ _%_string.

(** ** Money of an order *)

Definition acceptedGrossMinor (order : ReportOrder) : Z :=
  match acceptedPriceBinding order with Some snapshot => snapshot_contractTotalMinor snapshot | None => 0 end.

Definition hasAcceptedExpress (order : ReportOrder) : bool :=
  match acceptedPriceBinding order with
  | Some snapshot => existsb (λ kind, str_eqb kind (js "EXPRESS")) (components snapshot)
  | None => false
  end.

Definition paymentsFor (order : ReportOrder) : list Payment := concat (priceBindings order).

Definition CAPTURED_STATUSES : list jstr :=
  js <$> ["CAPTURED"%string; "REFUND_PENDING"%string; "PARTIALLY_REFUNDED"%string; "REFUNDED"%string].

Definition capturedMinor (order : ReportOrder) (cur : jstr) : Z :=
  sum ((λ payment, default 0 (capturedAmountMinor payment)) <$>
    select (λ payment, str_eqb (payment_currency payment) cur && is_some (capturedAmountMinor payment)
                       && includes CAPTURED_STATUSES (payment_status payment)) (paymentsFor order)).

Definition refundedMinor (order : ReportOrder) (cur : jstr) : Z :=
  sum (refund_amountMinor <$>
    select (λ refund, str_eqb (refund_status refund) (js "SUCCEEDED"))
      (select (λ payment, str_eqb (payment_currency payment) cur) (paymentsFor order) ≫= refunds)).

Record Contract := mkContract { gross : Z; net : Z; vat : Z }.

Definition activeContract (order : ReportOrder) (cur : jstr) : Contract :=
  match activeContractPrice order with
  | Some contract =>
      if negb (str_eqb (contract_currency contract) cur) then mkContract 0 0 0
      else mkContract (contractTotalMinor contract) (netAmountMinor contract) (vatAmountMinor contract)
  | None => mkContract 0 0 0
  end.

Record ContractSums := mkContractSums { gross_sum : MetricMoney; net_sum : MetricMoney; vat_sum : MetricMoney }.
Definition sumsContract (contracts : list Contract) (cur : jstr) : ContractSums :=
  mkContractSums (money (sum (gross <$> contracts)) cur) (money (sum (net <$> contracts)) cur)
    (money (sum (vat <$> contracts)) cur).

Definition handlingMinor (order : ReportOrder) (cur : jstr) : Z :=
  sum (allocatedCostMinor <$>
    select (λ allocation, str_eqb (allocation_currency allocation) cur
                          && str_eqb (lifecycle allocation) (js "COMPLETED") && is_None (voidedAt allocation))
      (handlingAllocations order)).

Definition COST_CATEGORIES : list jstr :=
  js <$> ["MATERIAL"%string; "VARIABLE_MACHINE"%string; "CARRIER"%string; "PACKAGING"%string; "PAYMENT_FEE"%string].

(** [cost.successor === null && cost.currency === currency] *)
Definition leafCost (cur : jstr) (cost : ActualCost) : bool :=
  is_None (cost_successor cost) && str_eqb (cost_currency cost) cur.

(** The names of the categories are ASCII, of which the lower case is fixed. *)
Definition ascii_lower (s : jstr) : jstr := (λ c, if (65 <=? c) && (c <=? 90) then c + 32 else c) <$> s.

Definition costBreakdown (orders : list ReportOrder) (cur : jstr) : list (jstr * MetricMoney) :=
  (λ cat, (ascii_lower cat,
     money (sum (orders ≫= λ order, cost_amountMinor <$>
       select (λ cost, leafCost cur cost && str_eqb (category cost) cat) (actualCosts order))) cur))
  <$> COST_CATEGORIES.

Definition FINAL_STATUSES : list jstr :=
  js <$> ["COMPLETED"%string; "PARTIALLY_FULFILLED"%string; "REFUNDED"%string; "CANCELLED_SETTLED"%string].
Definition isFinalMarginTerminal (status : jstr) : bool := includes FINAL_STATUSES status.

Definition netFromGross (grossMinor rate : Z) : Z :=
  let d := 10000 + rate in
  grossMinor - Z.quot (grossMinor * rate + Z.quot d 2) d.

(** The required categories that no leaf cost of the currency has. *)
Definition hasExplicitMarginCoverage (order : ReportOrder) (cur : jstr) : bool :=
  let required :=
    foldl (λ required cost, if leafCost cur cost then required ∖ {[category cost]} else required)
      (set_of COST_CATEGORIES) (actualCosts order) in
  let completedAllocations :=
    select (λ allocation, str_eqb (allocation_currency allocation) cur
                          && str_eqb (lifecycle allocation) (js "COMPLETED") && is_None (voidedAt allocation))
      (handlingAllocations order) in
  (set_size required =? 0) && (0 <? zlength completedAllocations).

Definition balanceSettlement (order : ReportOrder) (cur : jstr) : option Settlement :=
  List.find (λ settlement, str_eqb (settlement_kind settlement) (js "BALANCE_SETTLEMENT")
                           && str_eqb (settlement_currency settlement) cur) (settlements order).

Definition finalMarginRevenue (order : ReportOrder) (cur : jstr) : option Z :=
  let netCash := capturedMinor order cur - refundedMinor order cur in
  if str_eqb (order_status order) (js "REFUNDED") then (if netCash =? 0 then Some 0 else None)
  else
    match activeContractPrice order with
    | None => None
    | Some contract =>
        if negb (str_eqb (contract_currency contract) cur) then None
        else if str_eqb (order_status order) (js "CANCELLED_SETTLED") then
          match balanceSettlement order cur with
          | None => None
          | Some settlement =>
              if negb (settlement_contractTotalMinor settlement =? contractTotalMinor contract)
                 || negb (capturedTotalMinor settlement - refundAmountMinor settlement =? retainedAmountMinor settlement)
                 || negb (netCash =? retainedAmountMinor settlement)
              then None
              else if (bool_decide (taxRegime contract = Tax.NON_VAT_PAYER) && negb (vatRateBasisPoints contract =? 0))
                      || (bool_decide (taxRegime contract = Tax.VAT_PAYER) && (vatRateBasisPoints contract =? 0))
              then None
              else Some (netFromGross (retainedAmountMinor settlement) (vatRateBasisPoints contract))
          end
        else if netCash =? contractTotalMinor contract then Some (netAmountMinor contract) else None
    end.

Definition UNRESOLVED_REFUNDS : list jstr := js <$> ["PENDING"%string; "SUSPENDED"%string].

Definition unresolvedRefunds (order : ReportOrder) : list Refund :=
  select (λ refund, includes UNRESOLVED_REFUNDS (refund_status refund)) (paymentsFor order ≫= refunds).

Definition finalContributionMargin (order : ReportOrder) (cur : jstr) : option Z :=
  match finalMarginRevenue order cur with
  | None => None
  | Some revenue =>
      if negb (isFinalMarginTerminal (order_status order)) || (0 <? zlength (unresolvedRefunds order))
         || negb (hasExplicitMarginCoverage order cur)
      then None
      else
        let costs := sum (cost_amountMinor <$> select (leafCost cur) (actualCosts order)) in
        Some (revenue - costs - handlingMinor order cur)
  end.

Definition outstandingGross (order : ReportOrder) (cur : jstr) : Z :=
  if includes [js "REFUNDED"; js "CANCELLED"] (order_status order) then 0
  else if str_eqb (order_status order) (js "CANCELLED_SETTLED") then
    match balanceSettlement order cur with Some settlement => amountDueMinor settlement | None => 0 end
  else
    let outstanding := gross (activeContract order cur) - capturedMinor order cur + refundedMinor order cur in
    if 0 <? outstanding then outstanding else 0.

(** ** Price bands *)

Inductive PriceBand := under_25000 | from_25000_to_49999 | from_50000_to_99999 | from_100000_to_199999 | from_200000.
#[global] Instance PriceBand_eq_dec : EqDecision PriceBand.
Proof. solve_decision. Defined.

Definition BANDS : list PriceBand :=
  [under_25000; from_25000_to_49999; from_50000_to_99999; from_100000_to_199999; from_200000].

Definition priceBandFor (v : Z) : PriceBand :=
  if v <? 25000 then under_25000
  else if v <? 50000 then from_25000_to_49999
  else if v <? 100000 then from_50000_to_99999
  else if v <? 200000 then from_100000_to_199999
  else from_200000.

(** An object with a property for each band is a function. *)
Definition priceBands (values : list Z) : PriceBand → Z :=
  foldl (λ (bands : PriceBand → Z) v band, if decide (band = priceBandFor v) then bands band + 1 else bands band)
    (λ _, 0) values.

(** ** Offers *)

Inductive BindingKind := automatic | individual.
#[global] Instance BindingKind_eq_dec : EqDecision BindingKind.
Proof. solve_decision. Defined.
Inductive Preflight := clean | warning | preflight_unknown.
#[global] Instance Preflight_eq_dec : EqDecision Preflight.
Proof. solve_decision. Defined.

Definition kind_text (k : BindingKind) : jstr := match k with automatic => js "automatic" | individual => js "individual" end.

Record BindingFact := mkBinding {
  bindingId : option jstr;
  kind : BindingKind;
  binding_channel : jstr;
  accepted : bool;
  grossMinor : option Z;
  preflight : Preflight;
  preflightAtIssuance : option Preflight;
}.

(** An order's binding, the decision on a risk and a quote, as the queries of
    [bindingFacts] return them. *)
Record OrderBindingRow := mkOrderBinding {
  binding_id : jstr;
  binding_orderId : jstr;
  binding_gross : Z;
  binding_currency : jstr;
  inputSnapshot : value;
  binding_confirmedAt : option Z;
}.

Record QuoteRow := mkQuote {
  quote_id : jstr;
  quote_attribution : value;
  quote_confirmedAt : option Z;
  quote_price : option (Z * jstr);
}.

Definition boundEvents (events : list Event) : list Event :=
  select (λ event, str_eqb (eventType event) (js "quote.bound")) events.

Definition orderBindingIds (events : list Event) : list jstr :=
  present ((λ event, jsonString (payload event) "bindingId") <$>
    select (λ event, is_some (event_orderId event)) (boundEvents events)).
Definition quoteIds (events : list Event) : list jstr :=
  present ((λ event, jsonString (payload event) "quoteId") <$>
    select (λ event, is_None (event_orderId event)) (boundEvents events)).

(** [new Map(rows.map((row) => [key(row), row]))] *)
Definition by_key {A} (key : A → jstr) (rows : list A) : gmap jstr A :=
  foldl (λ m row, <[key row := row]> m) ∅ rows.

(** The severities of the risks of each order. *)
Definition risksByOrder (riskDecisions : list (jstr * jstr)) : gmap jstr (list jstr) :=
  foldl (λ m risk, <[risk.1 := default [] (m !! risk.1) ++ [risk.2]]> m) ∅ riskDecisions.

Definition automaticPreflight (severities : option (list jstr)) : Preflight :=
  match severities with
  | None => clean
  | Some severities => if existsb (λ s, str_eqb s (js "BLOCKING")) severities then preflight_unknown else warning
  end.

Definition jsonRecord (v : value) : value := match v with RecordV _ _ => v | _ => Null end.

Definition issuancePreflight (input : value) : Preflight :=
  let automaticQuote := jsonRecord (jsonRecord input ?. "automaticQuote") in
  let summary := jsonRecord (automaticQuote ?. "preflightAtIssuance") in
  if summary ?. "schemaVersion" === Integral 1 then
    if summary ?. "classification" === lit "clean" then clean
    else if summary ?. "classification" === lit "warning" then warning else preflight_unknown
  else preflight_unknown.

(** A date of a row is an object, which is true. *)
Definition sessionChannel (sessionChannels : gmap jstr jstr) (session : option jstr) : jstr :=
  match session with None => unknown | Some id => default unknown (sessionChannels !! id) end.

Definition truthy_id (o : option jstr) : bool := match o with Some (_ :: _) => true | _ => false end.

Definition bindingFact (sessionChannels : gmap jstr jstr) (cur : jstr) (orderMap : gmap jstr OrderBindingRow)
    (riskByOrder : gmap jstr (list jstr)) (quoteMap : gmap jstr QuoteRow) (event : Event) : BindingFact :=
  if truthy_id (event_orderId event) then
    let binding := orderMap !! default [] (jsonString (payload event) "bindingId") in
    mkBinding (binding_id <$> binding) automatic (sessionChannel sessionChannels (quoteSessionId event))
      (match binding with Some b => is_some (binding_confirmedAt b) | None => false end)
      (match binding with Some b => if str_eqb (binding_currency b) cur then Some (binding_gross b) else None | None => None end)
      (automaticPreflight (riskByOrder !! default [] (binding_orderId <$> binding)))
      (Some (issuancePreflight (default Undefined (inputSnapshot <$> binding))))
  else
    let quote := quoteMap !! default [] (jsonString (payload event) "quoteId") in
    mkBinding (quote_id <$> quote) individual (attributionChannel (default Undefined (quote_attribution <$> quote)))
      (match quote with Some q => is_some (quote_confirmedAt q) | None => false end)
      (match quote ≫= quote_price with Some (amount, c) => if str_eqb c cur then Some amount else None | None => None end)
      preflight_unknown (Some preflight_unknown).

Definition bindingFacts (events : list Event) (sessionChannels : gmap jstr jstr) (cur : jstr)
    (orderBindings : list OrderBindingRow) (riskDecisions : list (jstr * jstr)) (quotes : list QuoteRow) : list BindingFact :=
  bindingFact sessionChannels cur (by_key binding_id orderBindings) (risksByOrder riskDecisions) (by_key quote_id quotes)
  <$> boundEvents events.

(** *** Conversion by price band *)

Record BandConversion := mkBandConversion { band_issued : Z; band_confirmedPaid : Z; band_conversion : MetricRatio }.

Record ConversionGroup := mkGroup {
  issued : Z;
  confirmedPaid : Z;
  conversion : MetricRatio;
  unavailableGross : Z;
  bands : PriceBand → BandConversion;
}.

Definition in_band (band : PriceBand) (binding : BindingFact) : bool :=
  match grossMinor binding with Some g => bool_decide (priceBandFor g = band) | None => false end.

Definition priceBandConversionGroup (bindings : list BindingFact) : ConversionGroup :=
  let confirmed := count_if accepted bindings in
  mkGroup (zlength bindings) confirmed (ratio confirmed (zlength bindings))
    (count_if (λ binding, is_None (grossMinor binding)) bindings)
    (λ band,
       let cohort := select (in_band band) bindings in
       let confirmedPaid := count_if accepted cohort in
       mkBandConversion (zlength cohort) confirmedPaid (ratio confirmedPaid (zlength cohort))).

(** [unique]: the first binding of each identity, and every one without. *)
Definition identity_text (binding : BindingFact) : jstr :=
  kind_text (kind binding) ++ 58 :: default [] (bindingId binding).

Fixpoint unique_from (seen : gset jstr) (bindings : list BindingFact) : list BindingFact :=
  match bindings with
  | [] => []
  | binding :: rest =>
      if negb (truthy_id (bindingId binding)) then binding :: unique_from seen rest
      else if bool_decide (identity_text binding ∈ seen) then unique_from seen rest
      else binding :: unique_from ({[identity_text binding]} ∪ seen) rest
  end.

Record OriginConversion := mkOrigin {
  origin_all : ConversionGroup;
  origin_clean : ConversionGroup;
  origin_warning : ConversionGroup;
  origin_unknown : ConversionGroup;
}.

Definition has_kind (k : BindingKind) (binding : BindingFact) : bool := bool_decide (kind binding = k).

Definition originConversion (unique : list BindingFact) (k : BindingKind) : OriginConversion :=
  let selected := select (has_kind k) unique in
  mkOrigin (priceBandConversionGroup selected)
    (priceBandConversionGroup (select (λ b, bool_decide (preflightAtIssuance b = Some clean)) selected))
    (priceBandConversionGroup (select (λ b, bool_decide (preflightAtIssuance b = Some warning)) selected))
    (priceBandConversionGroup (select (λ b, bool_decide (preflightAtIssuance b = Some preflight_unknown)
                                            || is_None (preflightAtIssuance b)) selected)).

Record PriceBandConversion := mkConversion {
  conversion_total : ConversionGroup;
  conversion_automatic : OriginConversion;
  conversion_individual : OriginConversion;
}.

Definition priceBandConversion (bindings : list BindingFact) : PriceBandConversion :=
  let unique := unique_from ∅ bindings in
  mkConversion (priceBandConversionGroup unique) (originConversion unique automatic) (originConversion unique individual).

(** *** The offers of a period *)

Definition acceptedGross (bindings : list BindingFact) : Z :=
  sum (present (grossMinor <$> select accepted bindings)).

Record Cohort := mkCohort {
  cohort_offersIssued : Z;
  cohort_acceptedBindings : Z;
  cohort_conversion : MetricRatio;
  cohort_acceptedGross : MetricMoney;
}.

Definition preflightCohort (bindings : list BindingFact) (p : Preflight) (cur : jstr) : Cohort :=
  let cohort := select (λ b, bool_decide (preflight b = p)) bindings in
  let accepted := select accepted cohort in
  mkCohort (zlength cohort) (zlength accepted) (ratio (zlength accepted) (zlength cohort))
    (money (sum (present (grossMinor <$> accepted))) cur).

Record Breakdown := mkBreakdown {
  breakdown_offersIssued : Z;
  breakdown_acceptedBindings : Z;
  breakdown_conversion : MetricRatio;
  breakdown_acceptedGross : MetricMoney;
  breakdown_preflight : Preflight → Z;
  preflightCohorts : Preflight → Cohort;
}.

Definition bindingBreakdown (bindings : list BindingFact) (cur : jstr) : Breakdown :=
  mkBreakdown (zlength bindings) (count_if accepted bindings) (ratio (count_if accepted bindings) (zlength bindings))
    (money (acceptedGross bindings) cur)
    (λ p, count_if (λ b, bool_decide (preflight b = p)) bindings) (λ p, preflightCohort bindings p cur).

Record QuoteMetrics := mkQuoteMetrics {
  offersIssued : Z;
  acceptedBindings : Z;
  offers_conversion : MetricRatio;
  offers_automatic : Breakdown;
  offers_individual : Breakdown;
  offers_acceptedGrossBands : PriceBand → Z;
  offers_priceBandConversion : PriceBandConversion;
}.

Definition quoteMetrics (bound : list BindingFact) (cur : jstr) (c : option jstr) : QuoteMetrics :=
  let scoped := select (λ binding, matchesChannel (binding_channel binding) c) bound in
  let accepted_ := select accepted scoped in
  mkQuoteMetrics (zlength scoped) (zlength accepted_) (ratio (zlength accepted_) (zlength scoped))
    (bindingBreakdown (select (has_kind automatic) scoped) cur)
    (bindingBreakdown (select (has_kind individual) scoped) cur)
    (priceBands (present (grossMinor <$> accepted_))) (priceBandConversion scoped).

(** ** Automatic uses of the uploaded files *)

Record AutomaticUse := mkUse {
  use_modelFileId : jstr;
  use_confirmedAt : option Z;
  acceptedOrderPriceBindingId : option jstr;
  use_origin : option value;
  sourceModelFileIds : list jstr;
}.

Record AutomaticHandoff := mkHandoff { handoff_modelFileIds : list jstr; handoff_attribution : value }.

Definition useChannel (use : AutomaticUse) : jstr := attributionChannel (default Undefined (use_origin use)).

Definition eligibleUses (uses : list AutomaticUse) (c : option jstr) : list AutomaticUse :=
  select (λ use, matchesChannel (useChannel use) c) uses.

Definition successfulUse (use : AutomaticUse) : bool :=
  is_some (use_confirmedAt use) && is_some (acceptedOrderPriceBindingId use)
  && includes (sourceModelFileIds use) (use_modelFileId use).

Definition successfulFiles (uses : list AutomaticUse) (c : option jstr) : gset jstr :=
  set_of (use_modelFileId <$> select successfulUse (eligibleUses uses c)).
Definition usedFiles (uses : list AutomaticUse) (c : option jstr) : gset jstr :=
  set_of (use_modelFileId <$> eligibleUses uses c).
Definition handoffFiles (handoffs : list AutomaticHandoff) (uploads : gset jstr) (c : option jstr) : gset jstr :=
  set_of (select (λ id, bool_decide (id ∈ uploads))
    (select (λ handoff, matchesChannel (attributionChannel (handoff_attribution handoff)) c) handoffs ≫= handoff_modelFileIds)).
Definition observedFiles (uses : list AutomaticUse) (handoffs : list AutomaticHandoff) (uploads : gset jstr)
    (c : option jstr) : gset jstr :=
  filter (λ id, c = None ∨ id ∈ usedFiles uses c ∨ id ∈ handoffFiles handoffs uploads c) uploads.

Record AutomationMetrics := mkAutomation {
  successfulAutomaticUses : Z;
  confirmedModelFiles : Z;
  automation_value : MetricRatio;
  unresolvedOrPending : Z;
  blockedOrHandoff : Z;
  evidenceUnavailable : Z;
}.

Definition automationMetrics (uses : list AutomaticUse) (handoffs : list AutomaticHandoff) (uploads : gset jstr)
    (c : option jstr) : AutomationMetrics :=
  let successful := successfulFiles uses c in
  let handoff := handoffFiles handoffs uploads c in
  let used := usedFiles uses c in
  let observed := observedFiles uses handoffs uploads c in
  mkAutomation (set_size successful) (set_size observed) (ratio (set_size successful) (set_size observed))
    (set_size (filter (λ id, (id ∉ successful) ∧ (id ∉ handoff)) used))
    (set_size (filter (λ id, id ∉ successful) handoff))
    (set_size (filter (λ id, (id ∉ used) ∧ (id ∉ handoff)) observed)).

Definition uploadCountForChannel (uploads : gset jstr) (uses : list AutomaticUse) (c : jstr) : Z :=
  set_size (set_of (select (λ id, bool_decide (id ∈ uploads)) (use_modelFileId <$> eligibleUses uses (Some c)))).

(** ** The service level of assisted requests *)

Record AssistedRequest := mkRequest {
  request_attribution : value;
  createdAt : Z;
  slaDueAt : Z;
  slaRespondedAt : option Z;
  request_status : jstr;
  request_quotes : list Z;
}.

Definition responseAt (request : AssistedRequest) : option Z :=
  match present [slaRespondedAt request; head (request_quotes request)] with
  | [] => None
  | t :: rest => Some (foldl (λ earliest candidate, if candidate <? earliest then candidate else earliest) t rest)
  end.

(** The answer, compared with the time it was due. *)
Definition respondedBy (request : AssistedRequest) : bool :=
  match responseAt request with Some t => t <=? slaDueAt request | None => false end.
Definition respondedAfter (request : AssistedRequest) : bool :=
  match responseAt request with Some t => slaDueAt request <? t | None => false end.

Record AssistedSla := mkSla {
  requests : Z;
  responded : Z;
  respondedOnTime : Z;
  respondedLate : Z;
  declined : Z;
  declinedOnTime : Z;
  declinedLate : Z;
  pendingOverdue : Z;
  responseRate : MetricRatio;
}.

Definition assistedSlaMetrics (all : list AssistedRequest) (generatedAt : Z) (c : option jstr) : AssistedSla :=
  let assisted := select (λ request, matchesChannel (attributionChannel (request_attribution request)) c) all in
  let responded := select (λ request, is_some (responseAt request)) assisted in
  let onTime := select respondedBy responded in
  let declined := select (λ request, str_eqb (request_status request) (js "REJECTED")
                                     && bool_decide (request_quotes request = [])) responded in
  mkSla (zlength assisted) (zlength responded) (zlength onTime) (count_if respondedAfter responded) (zlength declined)
    (count_if respondedBy declined) (count_if respondedAfter declined)
    (count_if (λ request, is_None (responseAt request) && (slaDueAt request <? generatedAt)) assisted)
    (ratio (zlength onTime) (zlength assisted)).

(** ** Acquisition *)

(** [item.channel.toLowerCase()], of the name of a channel. *)
Definition scopedSpend (query : MetricsQuery) (item : SpendFact) : bool :=
  is_None (spend_successor item) && str_eqb (spend_currency item) (currency query)
  && matchesChannel (ascii_lower (spend_channel item)) (channel query).

Definition wholeSpend (query : MetricsQuery) (item : SpendFact) : bool :=
  (from query <=? periodStart item) && (periodEnd item <=? to query).
Definition partialSpend (query : MetricsQuery) (item : SpendFact) : bool :=
  (periodStart item <? from query) || (to query <? periodEnd item).

Record Acquisition := mkAcquisition {
  acquisitionSpend : MetricMoney;
  partialPeriodSpendExcluded : Z;
  cac : MoneyRatio;
  firstOrderCustomers : Z;
  unknownCustomerOrAttribution : Z;
  repeatOrders : Z;
  repeatRate : MetricRatio;
}.

Definition acquisitionMetrics (orders firstOrder : list ReportOrder) (firstOrderIds : gset jstr) (spend : list SpendFact)
    (query : MetricsQuery) : Acquisition :=
  let scoped := select (scopedSpend query) spend in
  let spent := sum (spend_amountMinor <$> select (wholeSpend query) scoped) in
  let firstByCustomer := set_size (set_of (present (customerId <$> firstOrder))) in
  let repeated := count_if (λ order, truthy_id (customerId order) && negb (bool_decide (order_id order ∈ firstOrderIds))) orders in
  mkAcquisition (money spent (currency query)) (count_if (partialSpend query) scoped)
    (ratioMoney spent firstByCustomer (currency query)) firstByCustomer
    (count_if (λ order, negb (truthy_id (customerId order)) || str_eqb (orderChannel order) unknown) orders)
    repeated (ratio repeated (zlength orders)).

(** ** Coverage and completeness *)

Record SourceCoverage := mkCoverage { selectedCurrencyOrders : Z; excludedCurrencyOrders : Z }.

Definition sourceCoverage (orders : list ReportOrder) (cur : jstr) : SourceCoverage :=
  let selected := count_if (λ order, selectedCurrency order cur) orders in
  mkCoverage selected (zlength orders - selected).

Definition boundedCount (v : option Z) : Z :=
  match v with
  | None => 0
  | Some v => if v <? 0 then 0 else if MAX_SAFE_INTEGER <? v then MAX_SAFE_INTEGER else v
  end.

Inductive Completeness := completeness_unknown | completeness_warning.

(** The optional query is given with the spend facts of its period. *)
Definition completenessFor (coverage : SourceCoverage) (c : option jstr) (spend : option (list SpendFact * MetricsQuery))
    : Completeness * list jstr :=
  let flags :=
    [js "event_history_not_backfilled"]
    ++ (if 0 <? excludedCurrencyOrders coverage then [js "mixed_currency_excluded"] else [])
    ++ (if truthy_id c then [js "channel_attribution_unknown_excluded"] else [])
    ++ match spend with
       | Some (spend, query) =>
           if existsb (λ item, scopedSpend query item && partialSpend query item) spend
           then [js "partial_period_acquisition_spend_excluded"] else []
       | None => []
       end in
  (if zlength flags =? 1 then completeness_unknown else completeness_warning, flags).

(** ** Production *)

Definition original (jobs : list OperationalJob) : list OperationalJob := select (λ job, is_None (replacesJobId job)) jobs.
Definition cancelledStatus (job : OperationalJob) : bool := str_eqb (job_status job) (js "CANCELLED").

Definition firstPass (job : OperationalJob) : bool := is_some (qcApprovedAt job).
Definition terminalFailure (job : OperationalJob) : bool :=
  is_None (qcApprovedAt job) && (is_some (failedAt job) || is_some (qcRejectedAt job)).
Definition pendingJob (job : OperationalJob) : bool :=
  is_None (qcApprovedAt job) && is_None (failedAt job) && is_None (qcRejectedAt job) && negb (cancelledStatus job).
Definition cancelledEarly (job : OperationalJob) : bool :=
  cancelledStatus job && is_None (failedAt job) && is_None (printingAt job) && is_None (printedAt job)
  && is_None (qcApprovedAt job) && is_None (qcRejectedAt job).

Record Reservation := mkReservation { machineId : jstr; startsAt : Z; endsAt : Z }.

(** The seconds of a reservation that are left.  Their quotient in floating
    point is below the next integer, for times below [2 ^ 53]. *)
Definition remainingSeconds (generatedAt : Z) (reservation : Reservation) : Z :=
  Z.max 0 (endsAt reservation - Z.max (startsAt reservation) generatedAt) / 1000.

Definition queueByMachine (queue : list Reservation) (generatedAt : Z) : gmap jstr Z :=
  foldl (λ m reservation,
    <[machineId reservation := default 0 (m !! machineId reservation) + remainingSeconds generatedAt reservation]> m) ∅ queue.

Record FirstPassYield := mkYield {
  firstQcPasses : Z;
  originalTerminalFailures : Z;
  pending : Z;
  cancelledBeforeProduction : Z;
  yield_value : MetricRatio;
}.

Definition firstPassYield (jobs : list OperationalJob) : FirstPassYield :=
  let passed := count_if firstPass (original jobs) in
  let failed := count_if terminalFailure (original jobs) in
  mkYield passed failed (count_if pendingJob (original jobs)) (count_if cancelledEarly (original jobs))
    (ratio passed (passed + failed)).

Definition requiredConfirmedAt (order : ReportOrder) : result Z :=
  match confirmedAt order with None => Throw PlainError | Some t => Ok t end.

Record Turnover := mkTurnover { turnover_gross : Z; turnover_captured : Z; turnover_refunds : Z }.

Record MonthRow := mkMonth {
  row_month : jstr;
  confirmedOrderValue : MetricMoney;
  month_capturedCash : MetricMoney;
  month_succeededRefunds : MetricMoney;
  month_netReceipts : MetricMoney;
}.

Section Environment.
Context `{PragueMonths} `{Collation}.

Definition monthKey (order : ReportOrder) : result jstr :=
  t ← requiredConfirmedAt order; Ok ((monthParts t).1 ++ 45 :: (monthParts t).2).

(** [current] is the group of the order's month, which is changed in place. *)
Definition addTurnover (cur : jstr) (groups : list (jstr * Turnover)) (order : ReportOrder) : result (list (jstr * Turnover)) :=
  key ← monthKey order;
  let current := default (mkTurnover 0 0 0) (assoc key groups) in
  let next := mkTurnover (turnover_gross current + acceptedGrossMinor order)
                (turnover_captured current + capturedMinor order cur)
                (turnover_refunds current + refundedMinor order cur) in
  Ok (match assoc key groups with
      | Some _ => (λ p, if str_eqb p.1 key then (p.1, next) else p) <$> groups
      | None => groups ++ [(key, next)]
      end).

Definition monthRow (cur : jstr) (group : jstr * Turnover) : MonthRow :=
  mkMonth group.1 (money (turnover_gross group.2) cur) (money (turnover_captured group.2) cur)
    (money (turnover_refunds group.2) cur) (money (turnover_captured group.2 - turnover_refunds group.2) cur).

Definition monthlyTurnover (orders : list ReportOrder) (cur : jstr) : result (list MonthRow) :=
  groups ← foldM (addTurnover cur) [] orders;
  Ok (monthRow cur <$> js_sort (λ left right, localeCompare left.1 right.1) groups).

Record OperationalReport := mkOperational {
  operational_nodeId : jstr;
  operational_yield : FirstPassYield;
  machineCount : Z;
  scheduledRemainingSeconds : jstr;
  reservations : Z;
  operational_monthlyTurnover : list MonthRow;
}.

Definition operationalReport (orders : list ReportOrder) (jobs : list OperationalJob) (queue : list Reservation)
    (generatedAt : Z) (query : MetricsQuery) : result OperationalReport :=
  let queued := queueByMachine queue generatedAt in
  turnover ← monthlyTurnover orders (currency query);
  Ok (mkOperational (nodeId query) (firstPassYield jobs) (Z.of_nat (size queued))
        (toString10 (sum (map_to_list queued).*2)) (zlength queue) turnover).
End Environment.

(** ** The commercial report *)

Definition eventMatchesChannel (sessionChannels : gmap jstr jstr) (c : option jstr) (event : Event) : bool :=
  if str_eqb (eventType event) (js "upload.confirmed") then is_None c
  else matchesChannel (sessionChannel sessionChannels (quoteSessionId event)) c.

Definition count (events : list Event) (type : String.string) : Z :=
  count_if (λ event, str_eqb (eventType event) (js type)) events.
Arguments count _ _%_string.
Definition distinctEventSessions (events : list Event) (type : String.string) : Z :=
  set_size (set_of (present (quoteSessionId <$> select (λ event, str_eqb (eventType event) (js type)) events))).
Arguments distinctEventSessions _ _%_string.

Record Funnel := mkFunnel {
  uploads : Z;
  automaticBindingPriceQuoteViews : Z;
  checkoutStarts : Z;
  funnel_confirmedOrders : Z;
}.

Record OrdersReport := mkOrdersReport {
  confirmedOrders : Z;
  orders_acceptedGross : MetricMoney;
  averageOrderValue : MoneyRatio;
  acceptedGrossBands : PriceBand → Z;
  origins : Z * Z * Z;
  express : MetricRatio;
  orders_capturedCash : MetricMoney;
  orders_succeededRefunds : MetricMoney;
  orders_activeContract : ContractSums;
}.

(** The orders of automatic, of individual and of unknown origin. *)
Definition countOrigins (orders : list ReportOrder) : Z * Z * Z :=
  (count_if (λ order, is_some (automaticOrigin order)) orders,
   count_if (λ order, is_some (individualOrigin order)) orders,
   count_if (λ order, is_None (automaticOrigin order) && is_None (individualOrigin order)) orders).

Record CommercialTurnover := mkCommercialTurnover {
  turnover_confirmedOrderValue : MetricMoney;
  turnover_capturedCash : MetricMoney;
  turnover_succeededRefunds : MetricMoney;
  netReceipts : MetricMoney;
}.

Record MarginReport := mkMargin {
  handlingCost : MetricMoney;
  margin_actualCosts : list (jstr * MetricMoney);
  knownOrders : Z;
  provisionalOrders : Z;
  margin_value : option MetricMoney;
  completeOrders : Z;
  incompleteOrders : Z;
}.

Record CommercialReport := mkCommercial {
  funnel : Funnel;
  quoteToPaid : QuoteMetrics;
  commercial_orders : OrdersReport;
  commercialTurnover : CommercialTurnover;
  automationShare : AutomationMetrics;
  handlingAndContributionMargin : MarginReport;
  pendingOrSuspendedRefunds : Z;
  acquisitionAndRepeat : Acquisition;
  assistedSla : AssistedSla;
}.

Definition ordersReport (orders : list ReportOrder) (cur : jstr) : OrdersReport :=
  let gross := acceptedGrossMinor <$> orders in
  let expressOrders := count_if hasAcceptedExpress orders in
  mkOrdersReport (zlength orders) (money (sum gross) cur) (ratioMoney (sum gross) (zlength orders) cur) (priceBands gross)
    (countOrigins orders) (ratio expressOrders (zlength orders))
    (money (sum ((λ order, capturedMinor order cur) <$> orders)) cur)
    (money (sum ((λ order, refundedMinor order cur) <$> orders)) cur)
    (sumsContract ((λ order, activeContract order cur) <$> orders) cur).

Definition turnoverReport (orders : list ReportOrder) (cur : jstr) : CommercialTurnover :=
  let captured := sum ((λ order, capturedMinor order cur) <$> orders) in
  let refunds := sum ((λ order, refundedMinor order cur) <$> orders) in
  mkCommercialTurnover (money (sum (acceptedGrossMinor <$> orders)) cur) (money captured cur) (money refunds cur)
    (money (captured - refunds) cur).

Definition marginReport (orders : list ReportOrder) (cur : jstr) : MarginReport :=
  let finalMargin := (λ order, finalContributionMargin order cur) <$> orders in
  mkMargin (money (sum ((λ order, handlingMinor order cur) <$> orders)) cur) (costBreakdown orders cur)
    (count_if is_some finalMargin) (count_if is_None finalMargin)
    (if forallb is_some finalMargin then Some (money (sum (present finalMargin)) cur) else None)
    (count_if (λ order, hasExplicitMarginCoverage order cur) orders)
    (count_if (λ order, negb (hasExplicitMarginCoverage order cur)) orders).

Definition commercialReport (orders : list ReportOrder) (events : list Event) (sessionChannels : gmap jstr jstr)
    (bound : list BindingFact) (automaticUses : list AutomaticUse) (automaticHandoffs : list AutomaticHandoff)
    (uploadModelFileIds firstOrderIds : gset jstr) (spend : list SpendFact) (assisted : list AssistedRequest)
    (generatedAt : Z) (query : MetricsQuery) : CommercialReport :=
  let cur := currency query in
  let firstOrder := select (λ order, bool_decide (order_id order ∈ firstOrderIds)) orders in
  let attributedEvents := select (eventMatchesChannel sessionChannels (channel query)) events in
  mkCommercial
    (mkFunnel (match channel query with
               | None => count events "upload.confirmed"
               | Some c => uploadCountForChannel uploadModelFileIds automaticUses c
               end)
       (distinctEventSessions attributedEvents "quote.viewed") (distinctEventSessions attributedEvents "checkout.started")
       (zlength orders))
    (quoteMetrics bound cur (channel query)) (ordersReport orders cur) (turnoverReport orders cur)
    (automationMetrics automaticUses automaticHandoffs uploadModelFileIds (channel query))
    (marginReport orders cur)
    (foldl (λ n order, n + zlength (unresolvedRefunds order)) 0 orders)
    (acquisitionMetrics orders firstOrder firstOrderIds spend query)
    (assistedSlaMetrics assisted generatedAt (channel query)).

(** ** An order of the page *)

Record OrderDetail := mkDetail {
  detail_id : jstr;
  detail_publicReference : jstr;
  detail_confirmedAt : jstr;
  detail_status : jstr;
  detail_origin : jstr;
  detail_acceptedGross : MetricMoney;
  detail_activeContract : ContractSums;
  detail_capturedCash : MetricMoney;
  detail_succeededRefunds : MetricMoney;
  detail_outstandingGross : MetricMoney;
  detail_handlingCost : MetricMoney;
  detail_actualCosts : list (jstr * MetricMoney);
  detail_explicitMarginCoverage : bool;
  detail_finalContributionMargin : option MetricMoney;
}.

Definition orderDetail (order : ReportOrder) (cur : jstr) : result OrderDetail :=
  t ← requiredConfirmedAt order;
  Ok (mkDetail (order_id order) (publicReference order) (toISOString t) (order_status order)
        (if is_some (automaticOrigin order) then js "automatic"
         else if is_some (individualOrigin order) then js "individual" else unknown)
        (money (acceptedGrossMinor order) cur) (sumsContract [activeContract order cur] cur)
        (money (capturedMinor order cur) cur) (money (refundedMinor order cur) cur) (money (outstandingGross order cur) cur)
        (money (handlingMinor order cur) cur) (costBreakdown [order] cur) (hasExplicitMarginCoverage order cur)
        ((λ margin, money margin cur) <$> finalContributionMargin order cur)).

(** ** What may be asked for *)

(** [/^[0-9a-f]{8}-[0-9a-f]{4}-[1-5][0-9a-f]{3}-[89ab][0-9a-f]{3}-[0-9a-f]{12}$/i] *)
Definition hex_digit (c : Z) : bool :=
  ((48 <=? c) && (c <=? 57)) || ((97 <=? c) && (c <=? 102)) || ((65 <=? c) && (c <=? 70)).
Definition UUID_CLASSES : list (Z → bool) :=
  let dash := [λ c, c =? 45] in
  replicate 8 hex_digit ++ dash ++ replicate 4 hex_digit ++ dash ++ [λ c, (49 <=? c) && (c <=? 53)] ++ replicate 3 hex_digit
  ++ dash ++ [λ c, existsb (Z.eqb c) (js "89abAB")] ++ replicate 3 hex_digit ++ dash ++ replicate 12 hex_digit.
Definition UUID_PATTERN (s : jstr) : bool :=
  (length s =? length UUID_CLASSES)%nat && forallb (λ p, p.1 p.2) (zip UUID_CLASSES s).

Record MetricsValues := mkValues {
  values_from : option jstr;
  values_to : option jstr;
  values_channel : option jstr;
  values_currency : option jstr;
  values_nodeId : option jstr;
}.

Definition invalid {A} : result A := Throw (BadRequestException None).

Section Query.
Context `{DateParsing}.

(** The pattern of the parts is the one of [INSTANT_PATTERN].  The calendar is
    asked for the date that the parts name. *)
Definition parseInstant (v : option jstr) : result Z :=
  match v ≫= read_instant with
  | None => invalid
  | Some p =>
      let c := date p in
      if (month c <? 1) || (12 <? month c) || (23 <? hour p) || (59 <? minute p) || (59 <? second p)
         || (23 <? offsetHour p) || (59 <? offsetMinute p)
         || negb (bool_decide (civil_of (MakeDay (year c) (month c) (day c)) = c))
      then invalid
      else match v ≫= Date_parse with None => invalid | Some t => Ok t end
  end.

Definition defaultNode (nodeIds : list jstr) : result jstr :=
  match nodeIds with [(_ :: _) as node] => Ok node | _ => invalid end.

Definition parseMetricsQuery (values : MetricsValues) (nodeIds : list jstr) : result MetricsQuery :=
  from ← parseInstant (values_from values);
  to ← parseInstant (values_to values);
  throw_when (to <=? from) (BadRequestException None) ;;
  throw_when (MAX_INTERVAL_MILLISECONDS <? to - from) (BadRequestException None) ;;
  throw_when match values_channel values with Some c => negb (includes CHANNELS c) | None => false end
    (BadRequestException None) ;;
  let currency := default (js "CZK") (values_currency values) in
  throw_when (negb (includes CURRENCIES currency)) (BadRequestException None) ;;
  throw_when match values_nodeId values with Some node => negb (UUID_PATTERN node) | None => false end
    (BadRequestException None) ;;
  nodeId ← match values_nodeId values with Some node => Ok node | None => defaultNode nodeIds end;
  throw_when (negb (includes nodeIds nodeId)) NotFoundException ;;
  Ok (mkQuery from to (values_channel values) currency nodeId).
End Query.

Definition intervalDto (query : MetricsQuery) : MetricsValues :=
  mkValues (Some (toISOString (from query))) (Some (toISOString (to query))) (channel query) (Some (currency query))
    (Some (nodeId query)).

Record OperatorContext := mkOperator { role : jstr; permissions : list jstr; nodeIds : list jstr }.

Definition requireOperatorPermission (operator : OperatorContext) (permission : jstr) : result () :=
  throw_when (negb (includes (permissions operator) permission)) ForbiddenException.

Definition authorize (operator : OperatorContext) (node : jstr) : result () :=
  requireOperatorPermission operator (js "metrics:read") ;;
  throw_when (negb (str_eqb (role operator) (js "ADMIN"))) ForbiddenException ;;
  throw_when (negb (includes (nodeIds operator) node)) NotFoundException.

(** ** The report

    The rows that the queries of the report return, each for its arguments. *)

Class MetricsStore := {
  now : Z;
  confirmedOrderRows : Z → Z → list ReportOrder;
  eventRows : Z → Z → list Event;
  sessionRows : list jstr → list (jstr * value);
  orderBindingRows : list jstr → list OrderBindingRow;
  riskRows : list jstr → list (jstr * jstr);
  quoteRows : list jstr → list QuoteRow;
  useRows : list jstr → list AutomaticUse;
  handoffRows : list jstr → list AutomaticHandoff;
  firstOrderRows : Z → list jstr;
  jobRows : MetricsQuery → list OperationalJob;
  reservationRows : jstr → Z → list Reservation;
  requestRows : Z → Z → list AssistedRequest;
  spendRows : Z → Z → list SpendFact;
}.

Record MetricsReport := mkReport {
  report_generatedAt : jstr;
  report_interval : MetricsValues;
  report_coverage : SourceCoverage;
  report_completeness : Completeness * list jstr;
  commercial : CommercialReport;
  operational : OperationalReport;
}.

Section Report.
Context `{PragueMonths} `{Collation} `{MetricsStore}.

Definition uploadedFiles (events : list Event) : gset jstr :=
  set_of (present ((λ event, jsonString (payload event) "modelFileId") <$>
    select (λ event, str_eqb (eventType event) (js "upload.confirmed")) events)).

Definition boundFacts (events : list Event) (sessionChannels : gmap jstr jstr) (cur : jstr) : list BindingFact :=
  let orderBindings := orderBindingRows (orderBindingIds events) in
  bindingFacts events sessionChannels cur orderBindings (riskRows (binding_orderId <$> orderBindings)) (quoteRows (quoteIds events)).

Definition report (operator : OperatorContext) (query : MetricsQuery) : result MetricsReport :=
  authorize operator (nodeId query) ;;
  let orders := confirmedOrderRows (from query) (to query) in
  let filteredOrders := select (λ order, selectedCurrency order (currency query)
                                         && matchesChannel (orderChannel order) (channel query)) orders in
  let operationalOrders := select (λ order, hasProvenOperationalScope order (nodeId query)) filteredOrders in
  let events := eventRows (from query) (to query) in
  let sessionChannels : gmap jstr jstr :=
    attributionChannel ∘ snd <$> by_key fst (sessionRows (present (quoteSessionId <$> events))) in
  let uploads := uploadedFiles events in
  let handoffs := if set_size uploads =? 0 then [] else handoffRows (base.elements uploads) in
  let coverage := sourceCoverage orders (currency query) in
  let spend := spendRows (from query) (to query) in
  production ← operationalReport operationalOrders (jobRows query) (reservationRows (nodeId query) now) now query;
  Ok (mkReport (toISOString now) (intervalDto query) coverage (completenessFor coverage (channel query) (Some (spend, query)))
        (commercialReport filteredOrders events sessionChannels (boundFacts events sessionChannels (currency query))
           (useRows (base.elements uploads)) handoffs uploads (set_of (firstOrderRows (to query))) spend
           (requestRows (from query) (to query)) now query)
        production).
End Report.
End Metrics.
