(* ===== verification/MetricsFacts.v ===== *)
(** What the figures of a metrics report have in common with the rows that they
    are computed from: nothing is counted twice and nothing is left out. *)
From S2P Require Import Prelude Text Language Primitives Arithmetic Values Dates Metrics.

Module MetricsFacts.
Import Metrics.

(** ** Counting *)

Definition one_if (b : bool) : Z := if b then 1 else 0.

Lemma zlength_sum {A} (l : list A) : zlength l = sum_by (λ _, 1) l.
Proof. unfold zlength. rewrite sum_by_const. lia. Qed.

Lemma sum_by_select {A} (f : A → bool) (g : A → Z) l : sum_by g (select f l) = sum_by (λ x, if f x then g x else 0) l.
Proof.
  induction l as [|x l IH]; [done|]. cbn [select List.filter]. fold (select f l). rewrite sum_by_cons, <-IH.
  destruct (f x); [by rewrite sum_by_cons|lia].
Qed.

Lemma count_if_sum {A} (f : A → bool) l : count_if f l = sum_by (λ x, one_if (f x)) l.
Proof. unfold count_if. rewrite zlength_sum. apply sum_by_select. Qed.

Lemma sum_by_swap {A B} (f : A → B → Z) (l : list A) (k : list B) :
  sum_by (λ x, sum_by (f x) k) l = sum_by (λ y, sum_by (λ x, f x y) l) k.
Proof.
  induction l as [|x l IH].
  - rewrite sum_by_nil. symmetry. transitivity (sum_by (λ _ : B, 0) k); [by apply sum_by_ext|rewrite sum_by_const; lia].
  - rewrite sum_by_cons, IH, <-sum_by_add. apply sum_by_ext. intros y _. by rewrite sum_by_cons.
Qed.

(** Of classes one of which every element has, each counts its own. *)
Lemma count_classes {A} (fs : list (A → bool)) l :
  (∀ x, x ∈ l → sum_by (λ f : A → bool, one_if (f x)) fs = 1) → sum_by (λ f, count_if f l) fs = zlength l.
Proof.
  intros H. transitivity (sum_by (λ f : A → bool, sum_by (λ x, one_if (f x)) l) fs).
  { apply sum_by_ext. intros f _. apply count_if_sum. }
  rewrite <-sum_by_swap, zlength_sum. by apply sum_by_ext.
Qed.

Lemma elem_of_select {A} (f : A → bool) l x : x ∈ select f l ↔ f x = true ∧ x ∈ l.
Proof. unfold select. rewrite list_elem_of_In, filter_In, <-list_elem_of_In. tauto. Qed.

Lemma select_select {A} (f g : A → bool) l : select f (select g l) = select (λ x, g x && f x) l.
Proof.
  unfold select. induction l as [|x l IH]; [done|]. cbn [List.filter]. destruct (g x); cbn [List.filter andb]; [|done].
  destruct (f x); by rewrite IH.
Qed.

Lemma count_if_select {A} (f g : A → bool) l : count_if f (select g l) = count_if (λ x, g x && f x) l.
Proof. unfold count_if. by rewrite select_select. Qed.

Lemma count_if_le {A} (f : A → bool) l : 0 ≤ count_if f l ≤ zlength l.
Proof. unfold count_if, zlength, select. pose proof (filter_length_le f l). lia. Qed.

Lemma includes_spec l s : includes l s = true ↔ s ∈ l.
Proof.
  unfold includes. rewrite existsb_exists. unfold str_eqb. split.
  - intros (x & Hx & He). apply bool_decide_eq_true in He as ->. by apply list_elem_of_In.
  - intros H. exists s. split; [by apply list_elem_of_In|by apply bool_decide_eq_true_2].
Qed.

Lemma is_None_spec {A} (o : option A) : is_None o = true ↔ o = None.
Proof. by destruct o. Qed.

Lemma is_some_spec {A} (o : option A) : is_some o = true ↔ o ≠ None.
Proof. by destruct o. Qed.

Lemma zlength_pos {A} (l : list A) : 0 < zlength l ↔ ∃ x, x ∈ l.
Proof.
  unfold zlength. destruct l as [|x l]; cbn; [|split; [intros _; exists x; by left|lia]].
  split; [lia|intros [x Hx]; by apply not_elem_of_nil in Hx].
Qed.

Lemma str_eqb_spec s t : str_eqb s t = true ↔ s = t.
Proof. apply bool_decide_eq_true. Qed.

(** ** The final margin *)

(** What was captured of an order, and what of it was returned. *)
Definition captured_of (order : ReportOrder) (cur : jstr) : Z :=
  sum_by (λ payments, sum_by (λ payment,
      if decide (payment_currency payment = cur
        ∧ payment_status payment ∈ js <$> ["CAPTURED"%string; "REFUND_PENDING"%string; "PARTIALLY_REFUNDED"%string; "REFUNDED"%string])
      then default 0 (capturedAmountMinor payment) else 0) payments) (priceBindings order).

Definition refunded_of (order : ReportOrder) (cur : jstr) : Z :=
  sum_by (λ payments, sum_by (λ payment,
      if decide (payment_currency payment = cur)
      then sum_by (λ refund, if decide (refund_status refund = js "SUCCEEDED") then refund_amountMinor refund else 0)
             (refunds payment)
      else 0) payments) (priceBindings order).

(** The first settlement of the balance in a currency. *)
Definition is_balance (cur : jstr) (settlement : Settlement) : Prop :=
  settlement_kind settlement = js "BALANCE_SETTLEMENT" ∧ settlement_currency settlement = cur.

Definition first_balance (order : ReportOrder) (cur : jstr) (settlement : Settlement) : Prop :=
  ∃ before after, settlements order = before ++ settlement :: after
    ∧ is_balance cur settlement ∧ Forall (λ earlier, ¬ is_balance cur earlier) before.

(** The revenue of an order that is over: nothing when all of it was returned,
    what a cancellation retained less its VAT at the rate of the contract,
    rounded to the nearest unit, and else the net contract price once it was paid
    exactly. *)
Inductive margin_revenue (order : ReportOrder) (cur : jstr) : Z → Prop :=
| revenue_refunded :
    order_status order = js "REFUNDED" → captured_of order cur = refunded_of order cur →
    margin_revenue order cur 0
| revenue_settled contract settlement retained rate :
    order_status order = js "CANCELLED_SETTLED" →
    activeContractPrice order = Some contract → contract_currency contract = cur →
    first_balance order cur settlement →
    settlement_contractTotalMinor settlement = contractTotalMinor contract →
    retained = captured_of order cur - refunded_of order cur → retainedAmountMinor settlement = retained →
    capturedTotalMinor settlement - refundAmountMinor settlement = retained →
    rate = vatRateBasisPoints contract → (taxRegime contract = Tax.NON_VAT_PAYER ↔ rate = 0) →
    margin_revenue order cur (retained - Z.quot (retained * rate + Z.quot (10000 + rate) 2) (10000 + rate))
| revenue_contract contract :
    order_status order ≠ js "REFUNDED" → order_status order ≠ js "CANCELLED_SETTLED" →
    activeContractPrice order = Some contract → contract_currency contract = cur →
    captured_of order cur - refunded_of order cur = contractTotalMinor contract →
    margin_revenue order cur (netAmountMinor contract).

Lemma sum_by_concat {A} (f : A → Z) ls : sum_by f (concat ls) = sum_by (sum_by f) ls.
Proof. induction ls as [|l ls IH]; [done|]. cbn [concat]. by rewrite sum_by_app, sum_by_cons, IH. Qed.

Lemma sum_by_bind {A B} (f : B → Z) (g : A → list B) l : sum_by f (l ≫= g) = sum_by (λ x, sum_by f (g x)) l.
Proof. induction l as [|x l IH]; [done|]. rewrite bind_cons, sum_by_app, sum_by_cons. by rewrite IH. Qed.

(** A sum over the selected elements, as a sum of a case distinction. *)
Lemma sum_by_decide {A} (f : A → bool) (P : A → Prop) `{∀ x, Decision (P x)} (g : A → Z) l :
  (∀ x, f x = true ↔ P x) → sum_by g (select f l) = sum_by (λ x, if decide (P x) then g x else 0) l.
Proof.
  intros HP. rewrite sum_by_select. apply sum_by_ext. intros x _. specialize (HP x). case_decide; destruct (f x); naive_solver.
Qed.

Lemma capturedMinor_spec order cur : capturedMinor order cur = captured_of order cur.
Proof.
  unfold capturedMinor, captured_of, sum, paymentsFor. rewrite sum_by_fmap, <-sum_by_concat, sum_by_select.
  apply sum_by_ext. intros payment _. unfold compose.
  destruct (capturedAmountMinor payment) as [z|]; cbn [is_some is_None negb default];
    [rewrite andb_true_r|rewrite andb_false_r; by case_decide].
  pose proof (includes_spec CAPTURED_STATUSES (payment_status payment)) as H1.
  pose proof (str_eqb_spec (payment_currency payment) cur) as H2.
  destruct (str_eqb _ _), (includes _ _); case_decide as Hd; cbn; try done; exfalso; destruct Hd; naive_solver.
Qed.

Lemma refundedMinor_spec order cur : refundedMinor order cur = refunded_of order cur.
Proof.
  unfold refundedMinor, refunded_of, sum, paymentsFor. rewrite sum_by_fmap, <-sum_by_concat.
  rewrite (sum_by_decide _ (λ refund, refund_status refund = js "SUCCEEDED")) by (intros; apply str_eqb_spec).
  rewrite sum_by_bind. apply (sum_by_decide _ (λ payment, payment_currency payment = cur)). intros; apply str_eqb_spec.
Qed.

Lemma balanceSettlement_spec order cur settlement :
  balanceSettlement order cur = Some settlement ↔ first_balance order cur settlement.
Proof.
  unfold balanceSettlement, first_balance. generalize (settlements order) as l.
  assert (∀ x, str_eqb (settlement_kind x) (js "BALANCE_SETTLEMENT") && str_eqb (settlement_currency x) cur = true ↔ is_balance cur x) as Hb.
  { intros x. unfold is_balance. by rewrite andb_true_iff, !str_eqb_spec. }
  intros l. induction l as [|x l IH]; cbn [List.find].
  - split; [done|]. intros ([|] & ? & ? & _); done.
  - destruct (_ && _) eqn:E.
    + apply Hb in E. split; [intros [= <-]; by exists [], l|]. intros ([|y before] & after & [= <- ->] & _ & Hf); [done|].
      by apply Forall_cons in Hf as [? _].
    + assert (¬ is_balance cur x) as Hx by (rewrite <-Hb, E; done). rewrite IH. split.
      * intros (before & after & -> & ? & ?). exists (x :: before), after. split; [done|]. split; [done|]. by constructor.
      * intros ([|y before] & after & [= <- ->] & ? & Hf); [done|]. apply Forall_cons in Hf as [_ ?]. eauto.
Qed.

Lemma finalMarginRevenue_spec order cur r : finalMarginRevenue order cur = Some r ↔ margin_revenue order cur r.
Proof.
  unfold finalMarginRevenue. cbv zeta. rewrite capturedMinor_spec, refundedMinor_spec. split.
  - destruct (str_eqb (order_status order) (js "REFUNDED")) eqn:Hr.
    { apply str_eqb_spec in Hr. case_match eqn:Hz; [|done]. intros [= <-]. apply Z.eqb_eq in Hz. apply revenue_refunded; [done|lia]. }
    apply bool_decide_eq_false in Hr.
    destruct (activeContractPrice order) as [contract|] eqn:Hc; [|done].
    destruct (negb _) eqn:Hcur; [done|]. apply negb_false_iff, str_eqb_spec in Hcur.
    destruct (str_eqb (order_status order) (js "CANCELLED_SETTLED")) eqn:Hs.
    + apply str_eqb_spec in Hs. destruct (balanceSettlement order cur) as [settlement|] eqn:Hb; [|done].
      apply balanceSettlement_spec in Hb.
      destruct (_ || _) eqn:Hamounts; [done|].
      apply orb_false_iff in Hamounts as [[Ha1 Ha2]%orb_false_iff Ha3]. apply negb_false_iff, Z.eqb_eq in Ha1, Ha2, Ha3.
      destruct (_ || _) eqn:Hregime; [done|]. intros [= <-].
      rewrite <-Ha3. eapply revenue_settled; eauto; [lia|].
      apply orb_false_iff in Hregime as [H1 H2]. destruct (taxRegime contract); cbn in H1, H2.
      * apply negb_false_iff, Z.eqb_eq in H1. done.
      * apply Z.eqb_neq in H2. done.
    + apply bool_decide_eq_false in Hs. destruct (_ =? _) eqn:Hz; [|done]. intros [= <-]. apply Z.eqb_eq in Hz. by eapply revenue_contract.
  - intros [Hs Hz|contract settlement retained rate Hs Hc Hcur Hb H1 Hret H2 H3 -> Hregime|contract Hs1 Hs2 Hc Hcur Hz].
    + rewrite Hs. cbn. by rewrite (proj2 (Z.eqb_eq _ 0)) by lia.
    + apply balanceSettlement_spec in Hb. rewrite Hs. cbn. rewrite Hc. rewrite (proj2 (str_eqb_spec _ _) Hcur). cbn. rewrite Hb.
      rewrite <-Hret, H1, H2, H3, !Z.eqb_refl. cbn.
      destruct (taxRegime contract); cbn.
      * by rewrite (proj2 (Z.eqb_eq _ _) (proj1 Hregime eq_refl)).
      * destruct (Z.eqb_spec (vatRateBasisPoints contract) 0) as [Hz|]; [|done]. by apply Hregime in Hz.
    + unfold str_eqb. rewrite !bool_decide_eq_false_2 by done. rewrite Hc. rewrite bool_decide_eq_true_2 by done. cbn.
      by rewrite (proj2 (Z.eqb_eq _ _) Hz).
Qed.

(** A handling allocation that counts. *)
Definition counted_handling (cur : jstr) (allocation : HandlingAllocation) : Prop :=
  allocation_currency allocation = cur ∧ lifecycle allocation = js "COMPLETED" ∧ voidedAt allocation = None.

#[local] Instance counted_handling_dec cur allocation : Decision (counted_handling cur allocation).
Proof. unfold counted_handling. apply _. Defined.

Lemma counted_handling_spec cur allocation :
  str_eqb (allocation_currency allocation) cur && str_eqb (lifecycle allocation) (js "COMPLETED") && is_None (voidedAt allocation) = true
  ↔ counted_handling cur allocation.
Proof. unfold counted_handling. rewrite !andb_true_iff, !str_eqb_spec, is_None_spec. tauto. Qed.

Lemma handlingMinor_spec order cur :
  handlingMinor order cur
  = sum_by (λ a, if decide (counted_handling cur a) then allocatedCostMinor a else 0) (handlingAllocations order).
Proof. unfold handlingMinor, sum. rewrite sum_by_fmap. apply sum_by_decide, counted_handling_spec. Qed.

Lemma leafCost_spec cur cost : leafCost cur cost = true ↔ cost_successor cost = None ∧ cost_currency cost = cur.
Proof. unfold leafCost. by rewrite andb_true_iff, is_None_spec, str_eqb_spec. Qed.

(** The categories that are left. *)
Lemma required_spec (cur : jstr) (costs : list ActualCost) (required : gset jstr) (cat : jstr) :
  cat ∈ foldl (λ (required : gset jstr) cost, if leafCost cur cost then required ∖ {[category cost]} else required) required costs
  ↔ cat ∈ required ∧ ¬ ∃ cost, cost ∈ costs ∧ leafCost cur cost = true ∧ category cost = cat.
Proof.
  revert required. induction costs as [|cost costs IH]; intros required; cbn [foldl].
  - split; [|tauto]. intros H. split; [done|]. intros (? & H' & _). by apply not_elem_of_nil in H'.
  - rewrite IH. destruct (leafCost cur cost) eqn:Hl.
    + rewrite elem_of_difference, elem_of_singleton. split.
      * intros [[Hin Hne] Hno]. split; [done|]. intros (cost' & [->|Hc]%elem_of_cons & Hl' & He); [congruence|naive_solver].
      * intros [Hin Hno]. split_and!; [done| |].
        -- intros ->. apply Hno. exists cost. split; [by left|done].
        -- intros (cost' & Hc & Hl' & He). apply Hno. exists cost'. split; [by right|done].
    + split; intros [Hin Hno]; (split; [done|]).
      * intros (cost' & [->|Hc]%elem_of_cons & Hl' & He); [congruence|naive_solver].
      * intros (cost' & Hc & Hl' & He). apply Hno. exists cost'. split; [by right|done].
Qed.

Lemma hasExplicitMarginCoverage_spec order cur : hasExplicitMarginCoverage order cur = true ↔
  (∀ cat, cat ∈ COST_CATEGORIES → ∃ cost, cost ∈ actualCosts order ∧ leafCost cur cost = true ∧ category cost = cat)
  ∧ ∃ allocation, allocation ∈ handlingAllocations order ∧ counted_handling cur allocation.
Proof.
  unfold hasExplicitMarginCoverage. cbv zeta. rewrite andb_true_iff, Z.eqb_eq, Z.ltb_lt, zlength_pos.
  assert (∀ s : gset jstr, set_size s = 0 ↔ ∀ cat, cat ∉ s) as Hempty.
  { intros s. unfold set_size. split.
    - intros H. assert (size s = 0%nat) as Hs by lia. apply size_empty_iff in Hs. set_solver.
    - intros H. assert (s ≡ ∅) as Hs by set_solver. apply size_empty_iff in Hs. lia. }
  rewrite Hempty. setoid_rewrite elem_of_select. setoid_rewrite counted_handling_spec. f_equiv; [|naive_solver]. split.
  - intros H cat Hcat. specialize (H cat). rewrite required_spec in H.
    destruct (existsb (λ cost, leafCost cur cost && str_eqb (category cost) cat) (actualCosts order)) eqn:E.
    + apply existsb_exists in E as (cost & Hin & [Hl Hc%str_eqb_spec]%andb_prop). exists cost. by rewrite list_elem_of_In.
    + exfalso. apply H. split; [by apply elem_of_list_to_set|]. intros (cost & Hin & Hl & Hc).
      assert (existsb (λ cost, leafCost cur cost && str_eqb (category cost) cat) (actualCosts order) = true); [|congruence].
      apply existsb_exists. exists cost. split; [by apply list_elem_of_In|]. by rewrite Hl, (proj2 (str_eqb_spec _ _) Hc).
  - intros H cat. rewrite required_spec. intros [Hcat Hno]. apply Hno, H. by apply elem_of_list_to_set in Hcat.
Qed.

(** A cost that no other replaces. *)
Definition current_cost (cur : jstr) (cost : ActualCost) : Prop := cost_successor cost = None ∧ cost_currency cost = cur.

#[local] Instance current_cost_dec cur cost : Decision (current_cost cur cost).
Proof. unfold current_cost. apply _. Defined.

Lemma unresolvedRefunds_spec order : (0 <? zlength (unresolvedRefunds order)) = false ↔
  ∀ payments payment refund, payments ∈ priceBindings order → payment ∈ payments → refund ∈ refunds payment →
    refund_status refund ∉ UNRESOLVED_REFUNDS.
Proof.
  rewrite Z.ltb_ge. split.
  - intros H payments payment refund Hps Hp Hr Hin. assert (0 < zlength (unresolvedRefunds order)); [|lia]. apply zlength_pos. exists refund.
    unfold unresolvedRefunds, paymentsFor. rewrite elem_of_select, includes_spec, list_elem_of_bind. split; [done|].
    exists payment. split; [done|]. apply list_elem_of_In, in_concat. exists payments. by rewrite <-!list_elem_of_In.
  - intros H. destruct (Z.le_gt_cases (zlength (unresolvedRefunds order)) 0) as [|Hpos]; [done|]. exfalso.
    apply Z.lt_gt, Z.gt_lt, zlength_pos in Hpos as [refund Hr]. unfold unresolvedRefunds, paymentsFor in Hr.
    rewrite elem_of_select, includes_spec, list_elem_of_bind in Hr. destruct Hr as (Hs & payment & Hr & Hp).
    apply list_elem_of_In, in_concat in Hp as (payments & Hps & Hp). rewrite <-!list_elem_of_In in *. by eapply H.
Qed.

(** C27: A margin is reported exactly for an order that is over (completed,
    partially fulfilled, refunded, or cancelled and settled), none of whose
    refunds is pending or suspended, that has a current cost of each of the five
    categories and a completed handling session that is not void, and whose money
    reconciles; it is the revenue less the current costs and the handling that
    counts.  The money that was captured and returned is counted over the
    payments of all price bindings, and what a cancellation retained is counted
    without its VAT. *)
Theorem margin_known_exactly order cur m :
  finalContributionMargin order cur = Some m ↔
  ∃ revenue, margin_revenue order cur revenue
    ∧ order_status order
        ∈ js <$> ["COMPLETED"%string; "PARTIALLY_FULFILLED"%string; "REFUNDED"%string; "CANCELLED_SETTLED"%string]
    ∧ (∀ payments payment refund, payments ∈ priceBindings order → payment ∈ payments → refund ∈ refunds payment →
         refund_status refund ∉ js <$> ["PENDING"%string; "SUSPENDED"%string])
    ∧ (∀ cat, cat ∈ js <$> ["MATERIAL"%string; "VARIABLE_MACHINE"%string; "CARRIER"%string; "PACKAGING"%string; "PAYMENT_FEE"%string] →
         ∃ cost, cost ∈ actualCosts order ∧ current_cost cur cost ∧ category cost = cat)
    ∧ (∃ allocation, allocation ∈ handlingAllocations order ∧ counted_handling cur allocation)
    ∧ m = revenue
          - sum_by (λ cost, if decide (current_cost cur cost) then cost_amountMinor cost else 0) (actualCosts order)
          - sum_by (λ a, if decide (counted_handling cur a) then allocatedCostMinor a else 0) (handlingAllocations order).
Proof.
  pose proof (unresolvedRefunds_spec order) as Hun. pose proof (hasExplicitMarginCoverage_spec order cur) as Hcov.
  setoid_rewrite leafCost_spec in Hcov.
  assert (sum (cost_amountMinor <$> select (leafCost cur) (actualCosts order))
    = sum_by (λ cost, if decide (current_cost cur cost) then cost_amountMinor cost else 0) (actualCosts order)) as Hcosts.
  { unfold sum. rewrite sum_by_fmap. apply sum_by_decide. intros. apply leafCost_spec. }
  pose proof (includes_spec FINAL_STATUSES (order_status order)) as Hterminal.
  unfold finalContributionMargin. cbv zeta. rewrite Hcosts, handlingMinor_spec. split.
  - destruct (finalMarginRevenue order cur) as [revenue|] eqn:Hr; [|done]. destruct (_ || _) eqn:H; [done|]. intros [= <-].
    apply orb_false_iff in H as [[H1 H2]%orb_false_iff H3]. apply negb_false_iff in H1, H3. exists revenue.
    apply finalMarginRevenue_spec in Hr. destruct (proj1 Hcov H3) as [Hcats Halloc].
    pose proof (proj1 Hun H2). pose proof (proj1 Hterminal H1). done.
  - intros (revenue & Hr%finalMarginRevenue_spec & Ht & Hu & Hcats & Halloc & ->). rewrite Hr.
    unfold isFinalMarginTerminal. by rewrite (proj2 Hterminal Ht), (proj2 Hun Hu), (proj2 Hcov (conj Hcats Halloc)).
Qed.

(** What a cancellation retained is taxed as the core package taxes it. *)
Lemma netFromGross_core rate g : 0 ≤ rate ≤ Tax.BASIS_POINTS → 0 ≤ g → netFromGross g rate = Tax.net_of_gross rate g.
Proof.
  unfold netFromGross, Tax.net_of_gross, Tax.vat_of_gross, Arith.hdiv, Tax.BASIS_POINTS. intros Hr Hg. cbv zeta. f_equal.
  rewrite !Z.quot_div_nonneg by (try apply Z.add_nonneg_nonneg; try apply Z.quot_pos; nia).
  set (d := 10000 + rate). assert (0 < d) by lia.
  pose proof (Z.div_mod (g * rate + d / 2) d ltac:(lia)). pose proof (Z.mod_pos_bound (g * rate + d / 2) d ltac:(lia)).
  pose proof (Z.div_mod d 2 ltac:(lia)). pose proof (Z.mod_pos_bound d 2 ltac:(lia)).
  apply Z.div_unique_pos with (r := (2 * (g * rate) + d) - 2 * d * ((g * rate + d / 2) / d)); lia.
Qed.

(** The revenue of an order that was cancelled and settled is the net amount that
    the core package extracts from what was retained, under the contract's tax
    policy. *)
Theorem settled_revenue_is_core_net order cur contract revenue :
  order_status order = js "CANCELLED_SETTLED" → activeContractPrice order = Some contract →
  0 ≤ vatRateBasisPoints contract ≤ Tax.BASIS_POINTS →
  Money.wf (Money.mk (capturedMinor order cur - refundedMinor order cur) cur) →
  finalMarginRevenue order cur = Some revenue →
  ∃ breakdown, Tax.taxBreakdownFromGross (Money.mk (capturedMinor order cur - refundedMinor order cur) cur)
      (Tax.mkPolicy (taxRegime contract) (IntNum (vatRateBasisPoints contract))) = Ok breakdown
    ∧ revenue = Money.minorUnits (Tax.net breakdown).
Proof.
  intros Hs Hc Hrate Hwf Hr. apply finalMarginRevenue_spec in Hr. rewrite capturedMinor_spec, refundedMinor_spec in *.
  destruct Hr as [Hs'|contract' settlement retained rate _ Hc' Hcur Hb H1 -> H2 H3 -> Hregime|? ? Hs']; [by rewrite Hs in Hs'| |done].
  rewrite Hc in Hc'. injection Hc' as <-. eexists. split.
  - apply (Tax.taxBreakdownFromGross_eq _ _ (vatRateBasisPoints contract)); [done|]. split_and!; [done|lia..|apply Hregime].
  - cbn. apply netFromGross_core; [done|]. apply Hwf.
Qed.

(** ** Price bands and conversion *)

Lemma band_classes (g : Z) : sum_by (λ band, one_if (bool_decide (priceBandFor g = band))) BANDS = 1.
Proof. unfold BANDS. autorewrite with taven. by destruct (priceBandFor g). Qed.

Lemma priceBands_count values band : priceBands values band = count_if (λ v, bool_decide (priceBandFor v = band)) values.
Proof.
  unfold priceBands. set (step := λ (bands : PriceBand → Z) v b, if decide (b = priceBandFor v) then bands b + 1 else bands b).
  assert (∀ acc, foldl step acc values band = acc band + count_if (λ v, bool_decide (priceBandFor v = band)) values) as H; [|by rewrite H].
  induction values as [|v values IH]; intros acc; cbn [foldl]; [rewrite count_if_sum, sum_by_nil; lia|].
  rewrite IH, !count_if_sum, sum_by_cons. unfold step. case_decide as Hb.
  - rewrite bool_decide_eq_true_2 by done. cbn [one_if]. lia.
  - rewrite bool_decide_eq_false_2 by done. cbn [one_if]. lia.
Qed.

(** Every value is in one band. *)
Lemma priceBands_total values : sum_by (priceBands values) BANDS = zlength values.
Proof.
  rewrite (sum_by_ext _ (λ band, sum_by (λ v, one_if (bool_decide (priceBandFor v = band))) values))
    by (intros; by rewrite priceBands_count, count_if_sum).
  rewrite <-sum_by_swap, zlength_sum. apply sum_by_ext. intros g _. apply band_classes.
Qed.

(** What a group's figures say of its offers. *)
Definition reconciles (group : ConversionGroup) : Prop :=
  issued group = sum_by (λ band, band_issued (bands group band)) BANDS + unavailableGross group
  ∧ sum_by (λ band, band_confirmedPaid (bands group band)) BANDS ≤ confirmedPaid group ≤ issued group
  ∧ ∀ band, band_confirmedPaid (bands group band) ≤ band_issued (bands group band).

(** A group is divided into others. *)
Definition divided (group : ConversionGroup) (parts : list ConversionGroup) : Prop :=
  issued group = sum_by issued parts ∧ confirmedPaid group = sum_by confirmedPaid parts
  ∧ unavailableGross group = sum_by unavailableGross parts
  ∧ ∀ band, band_issued (bands group band) = sum_by (λ part, band_issued (bands part band)) parts
            ∧ band_confirmedPaid (bands group band) = sum_by (λ part, band_confirmedPaid (bands part band)) parts.

Lemma count_if_mono {A} (f g : A → bool) l : (∀ x, f x = true → g x = true) → count_if f l ≤ count_if g l.
Proof.
  intros H. rewrite !count_if_sum. apply sum_by_le. intros x _. specialize (H x).
  destruct (f x), (g x); cbn; lia || by specialize (H eq_refl).
Qed.

Lemma group_reconciles bindings : reconciles (priceBandConversionGroup bindings).
Proof.
  unfold reconciles, priceBandConversionGroup. cbv zeta. cbn [issued confirmedPaid unavailableGross bands band_issued band_confirmedPaid].
  split_and!; [| |apply count_if_le|].
  - rewrite (sum_by_ext _ (λ band, sum_by (λ b, one_if (in_band band b)) bindings)) by (intros; apply count_if_sum).
    rewrite <-sum_by_swap, count_if_sum, <-sum_by_add, zlength_sum. apply sum_by_ext. intros b _. unfold in_band.
    destruct (grossMinor b) as [g|]; cbn [is_None one_if].
    + by rewrite band_classes.
    + transitivity (sum_by (λ _ : PriceBand, 0) BANDS + 1); [done|]. by rewrite sum_by_const.
  - rewrite (sum_by_ext _ (λ band, sum_by (λ b, one_if (in_band band b && accepted b)) bindings)).
    2:{ intros band _. by rewrite count_if_select, count_if_sum. }
    rewrite <-sum_by_swap, count_if_sum. apply sum_by_le. intros b _. destruct (accepted b); cbn [one_if].
    + unfold in_band. destruct (grossMinor b) as [g|].
      * rewrite (sum_by_ext _ (λ band, one_if (bool_decide (priceBandFor g = band)))) by (intros; by rewrite andb_true_r).
        by rewrite band_classes.
      * transitivity (sum_by (λ _ : PriceBand, 0) BANDS); [done|]. by rewrite sum_by_const.
    + rewrite (sum_by_ext _ (λ _, 0)) by (intros; by rewrite andb_false_r). rewrite sum_by_const. lia.
  - intros band. apply count_if_le.
Qed.

(** The figures are counts of the offers. *)
Lemma group_divided (fs : list (BindingFact → bool)) bindings :
  (∀ b, sum_by (λ f : BindingFact → bool, one_if (f b)) fs = 1) →
  divided (priceBandConversionGroup bindings) ((λ f, priceBandConversionGroup (select f bindings)) <$> fs).
Proof.
  intros H. assert (∀ g, count_if g bindings = sum_by (λ f, count_if g (select f bindings)) fs) as Hcount.
  { intros g. rewrite (sum_by_ext _ (λ f, sum_by (λ b, one_if (f b) * one_if (g b)) bindings)).
    - rewrite <-sum_by_swap, count_if_sum. apply sum_by_ext. intros b _.
      rewrite (sum_by_ext _ (λ f : BindingFact → bool, one_if (g b) * one_if (f b))) by (intros; lia).
      rewrite sum_by_mul, H. lia.
    - intros f _. rewrite count_if_select, count_if_sum. apply sum_by_ext. intros b _. by destruct (f b), (g b). }
  assert (∀ l : list BindingFact, zlength l = count_if (λ _, true) l) as Hall.
  { intros l. rewrite count_if_sum. apply zlength_sum. }
  unfold divided. rewrite !sum_by_fmap. unfold priceBandConversionGroup, compose. cbv zeta.
  cbn [issued confirmedPaid unavailableGross bands band_issued band_confirmedPaid]. split_and!.
  - rewrite Hall, Hcount. apply sum_by_ext. intros f _. by rewrite Hall.
  - apply Hcount.
  - apply Hcount.
  - intros band. rewrite !sum_by_fmap. unfold compose.
    cbn [bands band_issued band_confirmedPaid]. split; [apply (Hcount (in_band band))|].
    rewrite count_if_select, Hcount. apply sum_by_ext. intros f _. by rewrite (count_if_select accepted (in_band band) (select f bindings)).
Qed.

(** The identities of the offers that have one. *)
Definition identities (bindings : list BindingFact) : gset jstr :=
  set_of (identity_text <$> select (λ b, truthy_id (bindingId b)) bindings).

Lemma unique_from_length bindings seen :
  zlength (unique_from seen bindings)
  = set_size (identities bindings ∖ seen) + count_if (λ b, negb (truthy_id (bindingId b))) bindings.
Proof.
  revert seen. induction bindings as [|b bindings IH]; intros seen; cbn [unique_from].
  - change (identities []) with (∅ : gset jstr). replace ((∅ : gset jstr) ∖ seen) with (∅ : gset jstr) by set_solver.
    unfold set_size. by rewrite size_empty.
  - assert (∀ l : list BindingFact, zlength (b :: l) = 1 + zlength l) as Hcons by (intros; unfold zlength; cbn [length]; lia).
    rewrite count_if_sum, sum_by_cons, <-count_if_sum. unfold identities, select. cbn [List.filter].
    destruct (truthy_id (bindingId b)) eqn:Ht; cbn [negb one_if]; fold (select (λ b, truthy_id (bindingId b)) bindings).
    + rewrite fmap_cons. unfold set_of. cbn [list_to_set]. fold (set_of (identity_text <$> select (λ b, truthy_id (bindingId b)) bindings)).
      fold (identities bindings). case_bool_decide as Hin.
      * rewrite IH. replace (({[identity_text b]} ∪ identities bindings) ∖ seen) with (identities bindings ∖ seen) by set_solver. lia.
      * rewrite Hcons, IH.
        assert (size (({[identity_text b]} ∪ identities bindings) ∖ seen)
          = S (size (identities bindings ∖ ({[identity_text b]} ∪ seen)))) as Hsize; [|unfold set_size; lia].
        replace (({[identity_text b]} ∪ identities bindings) ∖ seen)
          with ({[identity_text b]} ∪ (identities bindings ∖ ({[identity_text b]} ∪ seen))).
        2:{ apply set_eq. intros x. destruct (decide (x = identity_text b)); set_solver. }
        rewrite size_union, size_singleton by set_solver. done.
    + fold (set_of (identity_text <$> select (λ b, truthy_id (bindingId b)) bindings)). fold (identities bindings). rewrite Hcons, IH. lia.
Qed.

Lemma identity_text_inj b c : identity_text b = identity_text c → kind b = kind c ∧ default [] (bindingId b) = default [] (bindingId c).
Proof. unfold identity_text. destruct (kind b), (kind c); cbn; intros H; simplify_eq; done. Qed.

(** Every offer of the cohort counts once.  The total counts each
    identity once, and the offers without one; it is divided by origin, and each
    origin by the preflight at issuance; and in each of these groups the bands and
    the offers without an amount add up to what was issued, of which no more than
    that was paid. *)
Theorem conversion_counts_once bindings :
  let conversion := priceBandConversion bindings in
  let origins := [conversion_automatic conversion; conversion_individual conversion] in
  let parts origin := [origin_clean origin; origin_warning origin; origin_unknown origin] in
  issued (conversion_total conversion)
    = set_size (identities bindings) + count_if (λ b, negb (truthy_id (bindingId b))) bindings
  ∧ divided (conversion_total conversion) (origin_all <$> origins)
  ∧ Forall (λ origin, divided (origin_all origin) (parts origin)) origins
  ∧ Forall reconciles (conversion_total conversion :: (origins ≫= λ origin, origin_all origin :: parts origin)).
Proof.
  cbv zeta. unfold priceBandConversion. cbv zeta. cbn [conversion_total conversion_automatic conversion_individual].
  set (unique := unique_from ∅ bindings). split_and!.
  - cbn [issued priceBandConversionGroup]. unfold unique. rewrite unique_from_length. by rewrite difference_empty_L.
  - apply (group_divided [has_kind automatic; has_kind individual] unique). intros b. autorewrite with taven. unfold has_kind. by destruct (kind b).
  - assert (∀ k, divided (origin_all (originConversion unique k)) [origin_clean (originConversion unique k);
      origin_warning (originConversion unique k); origin_unknown (originConversion unique k)]) as H; [|by repeat (constructor; [apply H|])].
    intros k. apply (group_divided [λ b, bool_decide (preflightAtIssuance b = Some clean);
      λ b, bool_decide (preflightAtIssuance b = Some warning);
      λ b, bool_decide (preflightAtIssuance b = Some preflight_unknown) || is_None (preflightAtIssuance b)]).
    intros b. autorewrite with taven. by destruct (preflightAtIssuance b) as [[]|].
  - cbn. repeat constructor; apply group_reconciles.
Qed.

(** ** Files, requests and jobs *)

Lemma size_partition (O S A B C : gset jstr) :
  O = S ∪ A ∪ B ∪ C → S ## A → S ∪ A ## B → S ∪ A ∪ B ## C → set_size O = set_size S + set_size A + set_size B + set_size C.
Proof. intros -> H1 H2 H3. unfold set_size. rewrite !size_union by done. lia. Qed.

(** The uploaded files, when every use is of one of them, are the successful
    ones, those that are open, those that were handed over, and those of which
    nothing is known. *)
Lemma automation_accounts uses handoffs uploads c :
  (∀ use, use ∈ uses → use_modelFileId use ∈ uploads) →
  let a := automationMetrics uses handoffs uploads c in
  successfulAutomaticUses a + unresolvedOrPending a + blockedOrHandoff a + evidenceUnavailable a = confirmedModelFiles a
  ∧ (c = None → confirmedModelFiles a = set_size uploads).
Proof.
  intros Huses. cbv zeta. unfold automationMetrics. cbv zeta.
  cbn [successfulAutomaticUses confirmedModelFiles unresolvedOrPending blockedOrHandoff evidenceUnavailable].
  assert (successfulFiles uses c ⊆ usedFiles uses c) as HS.
  { intros id. unfold successfulFiles, usedFiles, set_of. rewrite !elem_of_list_to_set, !list_elem_of_fmap.
    intros (use & -> & [_ Hu]%elem_of_select). eauto. }
  assert (usedFiles uses c ⊆ observedFiles uses handoffs uploads c) as HU.
  { intros id Hid. unfold observedFiles. rewrite elem_of_filter. split; [by right; left|].
    unfold usedFiles, set_of in Hid. rewrite elem_of_list_to_set, list_elem_of_fmap in Hid.
    destruct Hid as (use & -> & [_ Hu]%elem_of_select). by apply Huses. }
  assert (handoffFiles handoffs uploads c ⊆ observedFiles uses handoffs uploads c) as HH.
  { intros id Hid. unfold observedFiles. rewrite elem_of_filter. split; [by right; right|].
    unfold handoffFiles, set_of in Hid. rewrite elem_of_list_to_set, elem_of_select, bool_decide_eq_true in Hid. by destruct Hid. }
  split.
  - set (S := successfulFiles uses c) in *. set (U := usedFiles uses c) in *. set (O := observedFiles uses handoffs uploads c) in *.
    set (H := handoffFiles handoffs uploads c) in *. clearbody S U O H.
    symmetry. apply size_partition; [apply set_eq; intros id|intros id..]; rewrite ?elem_of_union, ?elem_of_filter;
      destruct (decide (id ∈ S)), (decide (id ∈ U)), (decide (id ∈ H)); set_solver.
  - intros ->. f_equal. apply set_eq. intros id. unfold observedFiles. rewrite elem_of_filter. naive_solver.
Qed.

(** The requests: answered in time, too late, or not yet. *)
Lemma sla_accounts all generatedAt c :
  let sla := assistedSlaMetrics all generatedAt c in
  respondedOnTime sla + respondedLate sla = responded sla ∧ declinedOnTime sla + declinedLate sla = declined sla
  ∧ declined sla ≤ responded sla ∧ responded sla + pendingOverdue sla ≤ requests sla
  ∧ responseRate sla = ratio (respondedOnTime sla) (requests sla).
Proof.
  cbv zeta. unfold assistedSlaMetrics. cbv zeta.
  cbn [requests responded respondedOnTime respondedLate declined declinedOnTime declinedLate pendingOverdue responseRate].
  set (assisted := select _ all). clearbody assisted.
  assert (∀ l : list AssistedRequest, Forall (λ r, is_some (responseAt r) = true) l → count_if respondedBy l + count_if respondedAfter l = zlength l) as Hboth.
  { intros l Hl. rewrite !count_if_sum, <-sum_by_add, zlength_sum. apply sum_by_ext. intros r Hr.
    rewrite Forall_forall in Hl. specialize (Hl r Hr). unfold respondedBy, respondedAfter. destruct (responseAt r) as [t|]; [|done].
    destruct (Z.leb_spec t (slaDueAt r)), (Z.ltb_spec (slaDueAt r) t); cbn; lia. }
  assert (Forall (λ r, is_some (responseAt r) = true) (select (λ r, is_some (responseAt r)) assisted)) as Hanswered.
  { apply Forall_forall. intros r [Hr _]%elem_of_select. done. }
  split_and!; [by apply Hboth| |apply count_if_le| |done].
  - apply Hboth. apply Forall_forall. intros r [_ Hr]%elem_of_select. rewrite Forall_forall in Hanswered. by apply Hanswered.
  - fold (count_if (λ r, is_some (responseAt r)) assisted). rewrite !count_if_sum, <-sum_by_add, zlength_sum. apply sum_by_le.
    intros r _. destruct (responseAt r); cbn; [lia|]. by destruct (_ <? _).
Qed.

(** A job that was cancelled in production and has no other outcome is in none of
    the classes of the report. *)
Definition cancelledLate (job : OperationalJob) : bool :=
  cancelledStatus job && is_None (qcApprovedAt job) && is_None (failedAt job) && is_None (qcRejectedAt job)
  && (is_some (printingAt job) || is_some (printedAt job)).

Lemma yield_accounts jobs :
  let y := firstPassYield jobs in
  firstQcPasses y + originalTerminalFailures y + pending y + cancelledBeforeProduction y
  + count_if cancelledLate (original jobs) = zlength (original jobs).
Proof.
  cbv zeta. unfold firstPassYield. cbv zeta. cbn [firstQcPasses originalTerminalFailures pending cancelledBeforeProduction].
  rewrite <-(count_classes [firstPass; terminalFailure; pendingJob; cancelledEarly; cancelledLate] (original jobs)).
  - autorewrite with taven. lia.
  - intros job _. autorewrite with taven. unfold firstPass, terminalFailure, pendingJob, cancelledEarly, cancelledLate, is_some.
    destruct (qcApprovedAt job), (failedAt job), (qcRejectedAt job), (printingAt job), (printedAt job), (cancelledStatus job); done.
Qed.

Lemma orders_account orders cur :
  knownOrders (marginReport orders cur) + provisionalOrders (marginReport orders cur) = confirmedOrders (ordersReport orders cur)
  ∧ completeOrders (marginReport orders cur) + incompleteOrders (marginReport orders cur) = confirmedOrders (ordersReport orders cur)
  ∧ sum_by (acceptedGrossBands (ordersReport orders cur)) BANDS = confirmedOrders (ordersReport orders cur).
Proof.
  unfold marginReport, ordersReport. cbv zeta. cbn [knownOrders provisionalOrders completeOrders incompleteOrders confirmedOrders acceptedGrossBands].
  assert (∀ {A} (f g : A → bool) l, (∀ x, g x = negb (f x)) → count_if f l + count_if g l = zlength l) as Hboth.
  { intros A f g l Hg. rewrite !count_if_sum, <-sum_by_add, zlength_sum. apply sum_by_ext. intros x _. rewrite Hg. by destruct (f x). }
  split_and!.
  - rewrite (Hboth _ is_some is_None) by (by intros []). unfold zlength. by rewrite length_fmap.
  - by rewrite (Hboth _ (λ order, hasExplicitMarginCoverage order cur)).
  - rewrite priceBands_total. unfold zlength. by rewrite length_fmap.
Qed.

(** What the queries promise: only the uses of the files that are asked for. *)
Class StoreLaws `{MetricsStore} : Prop :=
  useRows_asked ids use : use ∈ useRows ids → use_modelFileId use ∈ ids.

(** *** What a report counts, independently of how *)

(** [n] elements of a list have a property. *)
Inductive counts {A} (P : A → Prop) : list A → Z → Prop :=
| counts_nil : counts P [] 0
| counts_in x l n : P x → counts P l n → counts P (x :: l) (n + 1)
| counts_out x l n : ¬ P x → counts P l n → counts P (x :: l) n.

Lemma counts_count_if {A} (P : A → Prop) (f : A → bool) l : (∀ x, f x = true ↔ P x) → counts P l (count_if f l).
Proof.
  intros HP. rewrite count_if_sum. induction l as [|x l IH]; [rewrite sum_by_nil; constructor|].
  rewrite sum_by_cons. specialize (HP x). destruct (f x); cbn [one_if].
  - rewrite Z.add_comm. apply counts_in; [by apply HP|done].
  - rewrite Z.add_0_l. apply counts_out; [by intros Hx%HP|done].
Qed.

(** The channel that an attribution names, when it is one of the five, and
    [unknown] otherwise; and whether it is the one that is asked for. *)
Definition names_channel (v : value) (c : jstr) : Prop :=
  (∃ a l, v = RecordV a l) ∧ v ?. "channel" = Str c
  ∧ c ∈ js <$> ["direct"%string; "organic"%string; "paid"%string; "referral"%string; "unknown"%string].

Definition in_channel (v : value) (c : option jstr) : Prop :=
  ∀ name, c = Some name → names_channel v name ∨ name = js "unknown" ∧ ∀ other, ¬ names_channel v other.

Lemma names_channel_spec v c : names_channel v c → attributionChannel v = c.
Proof.
  intros ((a & l & ->) & Hc & Hin). unfold attributionChannel. rewrite Hc. by rewrite (proj2 (includes_spec CHANNELS c) Hin).
Qed.

Lemma attributionChannel_unknown v : (∀ other, ¬ names_channel v other) → attributionChannel v = js "unknown".
Proof.
  intros Hno. unfold attributionChannel. destruct v as [| | | | | | | | | | |a l|]; try done.
  destruct ((RecordV a l) ?. "channel") as [| | | | | | | |c| | | |] eqn:E; try done.
  destruct (includes CHANNELS c) eqn:Hi; [|done]. exfalso. apply (Hno c). split; [by eexists _, _|]. split; [done|].
  by apply includes_spec.
Qed.

Lemma names_channel_dec v : names_channel v (attributionChannel v) ∨ ∀ other, ¬ names_channel v other.
Proof.
  unfold attributionChannel. destruct v as [| | | | | | | | | | |a l|]; try (right; by intros ? ((? & ? & ?) & _)).
  destruct ((RecordV a l) ?. "channel") as [| | | | | | | |c| | | |] eqn:E; try (right; intros ? (_ & Hc & _); congruence).
  destruct (includes CHANNELS c) eqn:Hi.
  - left. split; [by eexists _, _|]. split; [done|]. by apply includes_spec.
  - right. intros other (_ & Hc & Ho). rewrite E in Hc. injection Hc as ->.
    rewrite (proj2 (includes_spec CHANNELS other) Ho) in Hi. done.
Qed.

Lemma matchesChannel_spec v c : matchesChannel (attributionChannel v) c = true ↔ in_channel v c.
Proof.
  unfold matchesChannel, in_channel. destruct c as [c|]; [|split; [by intros _ ? [=]|done]]. rewrite str_eqb_spec. split.
  - intros <- name [= <-]. destruct (names_channel_dec v) as [Hn|Hn]; [by left|right]. split; [|done]. by apply attributionChannel_unknown.
  - intros H. destruct (H c eq_refl) as [Hn|[-> Hn]]; [by apply names_channel_spec|by apply attributionChannel_unknown].
Qed.

(** **** Uploaded files *)

(** A confirmed upload of a file is among the events. *)
Definition uploaded (events : list Event) (id : jstr) : Prop :=
  ∃ event a l, event ∈ events ∧ eventType event = js "upload.confirmed" ∧ payload event = RecordV a l
    ∧ (payload event) ?. "modelFileId" = Str id.

Section Files.
Context (events : list Event) (uses : list AutomaticUse) (handoffs : list AutomaticHandoff) (c : option jstr).

Definition file_used (id : jstr) : Prop :=
  ∃ use, use ∈ uses ∧ in_channel (default Undefined (use_origin use)) c ∧ use_modelFileId use = id.
Definition file_ordered (id : jstr) : Prop :=
  ∃ use, use ∈ uses ∧ in_channel (default Undefined (use_origin use)) c ∧ use_modelFileId use = id
    ∧ use_confirmedAt use ≠ None ∧ acceptedOrderPriceBindingId use ≠ None ∧ id ∈ sourceModelFileIds use.
Definition file_handed (id : jstr) : Prop :=
  uploaded events id ∧ ∃ handoff, handoff ∈ handoffs ∧ in_channel (handoff_attribution handoff) c ∧ id ∈ handoff_modelFileIds handoff.

(** The files that are observed, which are all of them unless a channel is asked
    for, divide into those that were ordered, those whose use is open, those that
    were handed over, and those of which nothing else is known; the figures are
    their numbers. *)
Definition files_accounted (a : AutomationMetrics) : Prop :=
  ∃ ordered open handed silent,
    NoDup (ordered ++ open ++ handed ++ silent)
    ∧ (∀ id, id ∈ ordered ++ open ++ handed ++ silent ↔ uploaded events id ∧ (c = None ∨ file_used id ∨ file_handed id))
    ∧ (∀ id, id ∈ ordered ↔ file_ordered id)
    ∧ (∀ id, id ∈ open ↔ file_used id ∧ ¬ file_ordered id ∧ ¬ file_handed id)
    ∧ (∀ id, id ∈ handed ↔ file_handed id ∧ ¬ file_ordered id)
    ∧ successfulAutomaticUses a = zlength ordered ∧ unresolvedOrPending a = zlength open
    ∧ blockedOrHandoff a = zlength handed ∧ evidenceUnavailable a = zlength silent
    ∧ confirmedModelFiles a = zlength (ordered ++ open ++ handed ++ silent).

Lemma jsonString_spec v field s : jsonString v field = Some s ↔ (∃ a l, v = RecordV a l) ∧ v ?. field = Str s.
Proof.
  unfold jsonString. split.
  - destruct v as [| | | | | | | | | | |a l|]; try done. destruct (_ ?. field); try done. intros [= ->]. split; [by eexists _, _|done].
  - by intros [(a & l & ->) ->].
Qed.

Lemma uploadedFiles_spec id : id ∈ uploadedFiles events ↔ uploaded events id.
Proof.
  unfold uploadedFiles, set_of, present, uploaded. rewrite elem_of_list_to_set, list_elem_of_omap.
  setoid_rewrite list_elem_of_fmap. setoid_rewrite elem_of_select. setoid_rewrite str_eqb_spec. split.
  - intros (o & (event & -> & He & Hin) & Hid). apply jsonString_spec in Hid as [(a & l & Hv) Hid]. by exists event, a, l.
  - intros (event & a & l & Hin & He & Hv & Hid). exists (Some id). split; [|done]. exists event. split; [|done].
    symmetry. apply jsonString_spec. eauto.
Qed.

Lemma usedFiles_spec id : id ∈ usedFiles uses c ↔ file_used id.
Proof.
  unfold usedFiles, set_of, eligibleUses, file_used, useChannel. rewrite elem_of_list_to_set, list_elem_of_fmap.
  setoid_rewrite elem_of_select. setoid_rewrite matchesChannel_spec. naive_solver.
Qed.

Lemma successfulFiles_spec id : id ∈ successfulFiles uses c ↔ file_ordered id.
Proof.
  unfold successfulFiles, set_of, eligibleUses, file_ordered, useChannel, successfulUse. rewrite elem_of_list_to_set, list_elem_of_fmap.
  setoid_rewrite elem_of_select. setoid_rewrite elem_of_select. setoid_rewrite matchesChannel_spec.
  setoid_rewrite andb_true_iff. setoid_rewrite andb_true_iff. setoid_rewrite includes_spec. setoid_rewrite is_some_spec. naive_solver.
Qed.

Lemma handoffFiles_spec id : id ∈ handoffFiles handoffs (uploadedFiles events) c ↔ file_handed id.
Proof.
  unfold handoffFiles, set_of, file_handed. rewrite elem_of_list_to_set, elem_of_select, bool_decide_eq_true, uploadedFiles_spec, list_elem_of_bind.
  setoid_rewrite elem_of_select. setoid_rewrite matchesChannel_spec. naive_solver.
Qed.

Lemma zlength_elements (s : gset jstr) : zlength (base.elements s) = set_size s.
Proof. done. Qed.

Lemma automation_files : (∀ use, use ∈ uses → uploaded events (use_modelFileId use)) →
  files_accounted (automationMetrics uses handoffs (uploadedFiles events) c).
Proof.
  intros Huses. destruct (automation_accounts uses handoffs (uploadedFiles events) c) as [Hsum _].
  { intros use Hu. by apply uploadedFiles_spec, Huses. }
  revert Hsum. unfold automationMetrics. cbv zeta.
  cbn [successfulAutomaticUses confirmedModelFiles unresolvedOrPending blockedOrHandoff evidenceUnavailable]. intros Hsum.
  set (S := successfulFiles uses c) in *. set (U := usedFiles uses c) in *. set (H := handoffFiles handoffs (uploadedFiles events) c) in *.
  set (O := observedFiles uses handoffs (uploadedFiles events) c) in *.
  assert (∀ id, id ∈ O ↔ uploaded events id ∧ (c = None ∨ id ∈ U ∨ id ∈ H)) as HO.
  { intros id. unfold O, observedFiles. rewrite elem_of_filter, uploadedFiles_spec. tauto. }
  assert (∀ id, id ∈ S → id ∈ U) as HSU.
  { intros id. unfold S, U. rewrite successfulFiles_spec, usedFiles_spec. unfold file_ordered, file_used. naive_solver. }
  assert (∀ id, id ∈ U → uploaded events id) as HU.
  { intros id. unfold U. rewrite usedFiles_spec. intros (use & Hu & _ & <-). by apply Huses. }
  assert (∀ id, id ∈ H → uploaded events id) as HH by (intros id; unfold H; rewrite handoffFiles_spec; by intros [? _]).
  exists (base.elements S), (base.elements (filter (λ id, (id ∉ S) ∧ (id ∉ H)) U)),
    (base.elements (filter (λ id, id ∉ S) H)), (base.elements (filter (λ id, (id ∉ U) ∧ (id ∉ H)) O)).
  split_and!.
  - rewrite !NoDup_app. split_and!; try apply NoDup_elements; intros id; rewrite ?elem_of_app, !elem_of_elements, ?elem_of_filter; naive_solver.
  - intros id. rewrite !elem_of_app, !elem_of_elements, !elem_of_filter, <-usedFiles_spec, <-handoffFiles_spec. fold U H.
    rewrite HO. specialize (HSU id). specialize (HU id). specialize (HH id).
    destruct (decide (id ∈ S)), (decide (id ∈ U)), (decide (id ∈ H)); tauto.
  - intros id. by rewrite elem_of_elements, <-successfulFiles_spec.
  - intros id. rewrite elem_of_elements, elem_of_filter, <-successfulFiles_spec, <-usedFiles_spec, <-handoffFiles_spec. tauto.
  - intros id. rewrite elem_of_elements, elem_of_filter, <-successfulFiles_spec, <-handoffFiles_spec. tauto.
  - done.
  - done.
  - done.
  - done.
  - cbn [confirmedModelFiles]. rewrite <-Hsum, <-!zlength_elements. unfold zlength. rewrite !length_app. lia.
Qed.
End Files.

(** **** Requests *)

(** When a request was answered: at the earlier of its response and its first
    offer. *)
Definition answered_at (request : AssistedRequest) (t : Z) : Prop :=
  (slaRespondedAt request = Some t ∨ head (request_quotes request) = Some t)
  ∧ ∀ u, slaRespondedAt request = Some u ∨ head (request_quotes request) = Some u → t ≤ u.

Definition unanswered (request : AssistedRequest) : Prop :=
  slaRespondedAt request = None ∧ request_quotes request = [].

Lemma responseAt_Some request t : responseAt request = Some t ↔ answered_at request t.
Proof.
  unfold responseAt, present, answered_at.
  destruct (slaRespondedAt request) as [u|], (request_quotes request) as [|v quotes]; cbn; try (destruct (Z.ltb_spec v u)); split;
    try (intros [= <-]); try (intros [[[= <-]|[= <-]] Hmin]); try (split; [auto|intros ? [[= <-]|[= <-]]; lia]); try done;
    try (pose proof (Hmin _ (or_introl eq_refl))); try (pose proof (Hmin _ (or_intror eq_refl))); try (f_equal; lia).
Qed.

Lemma responseAt_None request : responseAt request = None ↔ unanswered request.
Proof. unfold responseAt, present, unanswered. destruct (slaRespondedAt request), (request_quotes request); cbn; naive_solver. Qed.

(** The requests of a channel divide into those that were answered in time, those
    that were answered late, those that are overdue, and those that can still be
    answered in time. *)
Record requests_accounted (all : list AssistedRequest) (at_ : Z) (c : option jstr) (sla : AssistedSla) : Prop := {
  ra_requests : counts (λ r, in_channel (request_attribution r) c) all (requests sla);
  ra_onTime : counts (λ r, in_channel (request_attribution r) c ∧ ∃ t, answered_at r t ∧ t ≤ slaDueAt r) all (respondedOnTime sla);
  ra_late : counts (λ r, in_channel (request_attribution r) c ∧ ∃ t, answered_at r t ∧ slaDueAt r < t) all (respondedLate sla);
  ra_overdue : counts (λ r, in_channel (request_attribution r) c ∧ unanswered r ∧ slaDueAt r < at_) all (pendingOverdue sla);
  ra_divide : ∃ waiting, counts (λ r, in_channel (request_attribution r) c ∧ unanswered r ∧ at_ ≤ slaDueAt r) all waiting
    ∧ respondedOnTime sla + respondedLate sla + pendingOverdue sla + waiting = requests sla;
  ra_responded : respondedOnTime sla + respondedLate sla = responded sla;
  ra_declined : counts (λ r, in_channel (request_attribution r) c
      ∧ (∃ t, answered_at r t) ∧ request_status r = js "REJECTED" ∧ request_quotes r = []) all (declined sla);
  ra_declinedOnTime : counts (λ r, in_channel (request_attribution r) c
      ∧ (∃ t, answered_at r t ∧ t ≤ slaDueAt r) ∧ request_status r = js "REJECTED" ∧ request_quotes r = []) all (declinedOnTime sla);
  ra_declinedLate : declinedOnTime sla + declinedLate sla = declined sla;
  ra_rate : responseRate sla = mkRatio (respondedOnTime sla) (requests sla)
    (if requests sla =? 0 then None else Some (respondedOnTime sla, requests sla));
}.

Lemma respondedBy_spec r : respondedBy r = true ↔ ∃ t, answered_at r t ∧ t ≤ slaDueAt r.
Proof.
  unfold respondedBy. setoid_rewrite <-responseAt_Some. destruct (responseAt r) as [t|]; [|naive_solver].
  rewrite Z.leb_le. naive_solver.
Qed.

Lemma respondedAfter_spec r : respondedAfter r = true ↔ ∃ t, answered_at r t ∧ slaDueAt r < t.
Proof.
  unfold respondedAfter. setoid_rewrite <-responseAt_Some. destruct (responseAt r) as [t|]; [|naive_solver].
  rewrite Z.ltb_lt. naive_solver.
Qed.

Lemma responded_spec r : is_some (responseAt r) = true ↔ ∃ t, answered_at r t.
Proof. setoid_rewrite <-responseAt_Some. destruct (responseAt r); cbn; naive_solver. Qed.

Lemma overdue_spec r at_ : is_None (responseAt r) && (slaDueAt r <? at_) = true ↔ unanswered r ∧ slaDueAt r < at_.
Proof. by rewrite andb_true_iff, is_None_spec, responseAt_None, Z.ltb_lt. Qed.

Lemma waiting_spec r at_ : is_None (responseAt r) && (at_ <=? slaDueAt r) = true ↔ unanswered r ∧ at_ ≤ slaDueAt r.
Proof. by rewrite andb_true_iff, is_None_spec, responseAt_None, Z.leb_le. Qed.

Lemma declined_spec r : str_eqb (request_status r) (js "REJECTED") && bool_decide (request_quotes r = []) = true
  ↔ request_status r = js "REJECTED" ∧ request_quotes r = [].
Proof. by rewrite andb_true_iff, str_eqb_spec, bool_decide_eq_true. Qed.

(** The elements of a selection, counted in the whole list. *)
Lemma counts_select {A} (P : A → Prop) (f g : A → bool) l : (∀ x, f x && g x = true ↔ P x) → counts P l (count_if g (select f l)).
Proof. intros HP. rewrite count_if_select. by apply counts_count_if. Qed.

Lemma requests_account all at_ c : requests_accounted all at_ c (assistedSlaMetrics all at_ c).
Proof.
  pose proof (sla_accounts all at_ c) as Hsla. cbv zeta in Hsla. destruct Hsla as (Hresponded & Hdeclined & _ & _ & _).
  assert (∀ r, matchesChannel (attributionChannel (request_attribution r)) c = true ↔ in_channel (request_attribution r) c) as Hc
    by (intros; apply matchesChannel_spec).
  revert Hresponded Hdeclined. unfold assistedSlaMetrics. cbv zeta.
  cbn [requests responded respondedOnTime respondedLate declined declinedOnTime declinedLate pendingOverdue responseRate].
  intros Hresponded Hdeclined. split; cbn [requests responded respondedOnTime respondedLate declined declinedOnTime declinedLate pendingOverdue responseRate].
  - by apply counts_count_if.
  - rewrite !select_select. apply counts_count_if. intros r.
    rewrite !andb_true_iff, Hc, responded_spec, respondedBy_spec. naive_solver.
  - rewrite select_select. apply counts_select. intros r. rewrite !andb_true_iff, Hc, responded_spec, respondedAfter_spec. naive_solver.
  - apply counts_select. intros r. by rewrite andb_true_iff, Hc, overdue_spec.
  - exists (count_if (λ r, is_None (responseAt r) && (at_ <=? slaDueAt r))
      (select (λ r, matchesChannel (attributionChannel (request_attribution r)) c) all)).
    split; [apply counts_select; intros r; by rewrite andb_true_iff, Hc, waiting_spec|].
    rewrite Hresponded. set (assisted := select _ all). fold (count_if (λ r, is_some (responseAt r)) assisted).
    rewrite !count_if_sum, <-!sum_by_add, zlength_sum. apply sum_by_ext. intros r _.
    destruct (responseAt r); cbn; [lia|]. destruct (Z.ltb_spec (slaDueAt r) at_), (Z.leb_spec at_ (slaDueAt r)); cbn; lia.
  - exact Hresponded.
  - rewrite !select_select. apply counts_count_if. intros r. rewrite !andb_true_iff, Hc, responded_spec, str_eqb_spec, bool_decide_eq_true. tauto.
  - rewrite !select_select. apply counts_select. intros r.
    rewrite !andb_true_iff, Hc, responded_spec, str_eqb_spec, bool_decide_eq_true, respondedBy_spec. naive_solver.
  - exact Hdeclined.
  - done.
Qed.

(** **** Jobs *)

Lemma count_if_fmap {A B} (f : B → bool) (g : A → B) l : count_if f (g <$> l) = count_if (λ x, f (g x)) l.
Proof. by rewrite !count_if_sum, sum_by_fmap. Qed.

Lemma authorize_Ok operator node : authorize operator node = Ok () →
  role operator = js "ADMIN" ∧ js "metrics:read" ∈ permissions operator ∧ node ∈ nodeIds operator.
Proof.
  unfold authorize, requireOperatorPermission. intros (? & Hp%throw_when_Ok & Hauth)%bind_Ok.
  apply bind_Ok in Hauth as (? & Hrole%throw_when_Ok & Hn%throw_when_Ok). rewrite negb_false_iff in *.
  by rewrite <-!includes_spec, <-str_eqb_spec.
Qed.

Lemma handed_rows `{MetricsStore} (files : gset jstr) :
  (if set_size files =? 0 then [] else handoffRows (base.elements files))
  = match base.elements files with [] => [] | _ => handoffRows (base.elements files) end.
Proof. rewrite <-zlength_elements. by destruct (base.elements files). Qed.

Definition first_attempt (job : OperationalJob) : Prop := replacesJobId job = None.
Definition no_outcome (job : OperationalJob) : Prop :=
  qcApprovedAt job = None ∧ failedAt job = None ∧ qcRejectedAt job = None.

(** The jobs that replace no other divide into those that passed the quality
    control, those that failed in printing or in the control, those that are
    pending, and those that were cancelled: before their production, which the
    report counts, or in it, which it does not. *)
Record jobs_accounted (all : list OperationalJob) (y : FirstPassYield) : Prop := {
  ja_passed : counts (λ job, first_attempt job ∧ qcApprovedAt job ≠ None) all (firstQcPasses y);
  ja_failed : counts (λ job, first_attempt job ∧ qcApprovedAt job = None ∧ (failedAt job ≠ None ∨ qcRejectedAt job ≠ None))
    all (originalTerminalFailures y);
  ja_pending : counts (λ job, first_attempt job ∧ no_outcome job ∧ job_status job ≠ js "CANCELLED") all (pending y);
  ja_cancelled : counts (λ job, first_attempt job ∧ no_outcome job ∧ job_status job = js "CANCELLED"
      ∧ printingAt job = None ∧ printedAt job = None) all (cancelledBeforeProduction y);
  ja_divide : ∃ unreported,
    counts (λ job, first_attempt job ∧ no_outcome job ∧ job_status job = js "CANCELLED"
      ∧ (printingAt job ≠ None ∨ printedAt job ≠ None)) all unreported
    ∧ counts first_attempt all
        (firstQcPasses y + originalTerminalFailures y + pending y + cancelledBeforeProduction y + unreported);
  ja_value : yield_value y = mkRatio (firstQcPasses y) (firstQcPasses y + originalTerminalFailures y)
    (if firstQcPasses y + originalTerminalFailures y =? 0 then None
     else Some (firstQcPasses y, firstQcPasses y + originalTerminalFailures y));
}.

Lemma cancelledStatus_spec job : cancelledStatus job = true ↔ job_status job = js "CANCELLED".
Proof. apply str_eqb_spec. Qed.

Lemma jobs_account jobs : jobs_accounted jobs (firstPassYield jobs).
Proof.
  pose proof (yield_accounts jobs) as Hsum. cbv zeta in Hsum. split;
    [..|exists (count_if cancelledLate (original jobs)); split; [|rewrite Hsum; apply (counts_count_if _ _ jobs); intros; apply is_None_spec]|done];
    apply counts_select; intros job; unfold first_attempt, no_outcome, firstPass, terminalFailure, pendingJob, cancelledEarly, cancelledLate;
    rewrite ?andb_true_iff, ?orb_true_iff, ?negb_true_iff, ?is_some_spec, ?is_None_spec, <-?cancelledStatus_spec, <-?not_true_iff_false; tauto.
Qed.

(** **** Orders *)

(** What an order came from: its automatic origin, or its individual one, or the
    first attribution of its customer. *)
Definition order_origin (order : ReportOrder) : value :=
  default Undefined (head (omap (λ o, match o with Some Null | Some Undefined => None | _ => o end)
    [automaticOrigin order; individualOrigin order; firstAttribution order])).

(** An order of the currency and the channel that are asked for, with the
    snapshot of the price that the customer accepted. *)
Definition reported (query : MetricsQuery) (order : ReportOrder) (snapshot : PriceSnapshot) : Prop :=
  acceptedPriceBinding order = Some snapshot ∧ snapshot_currency snapshot = currency query
  ∧ in_channel (order_origin order) (channel query).

Definition in_range (band : PriceBand) (g : Z) : Prop :=
  match band with
  | under_25000 => g < 25000
  | from_25000_to_49999 => 25000 ≤ g < 50000
  | from_50000_to_99999 => 50000 ≤ g < 100000
  | from_100000_to_199999 => 100000 ≤ g < 200000
  | from_200000 => 200000 ≤ g
  end.

(** The orders that are reported divide by whether their margin is known, by
    whether their costs are complete, and by the band of their price. *)
Record orders_accounted (query : MetricsQuery) (all : list ReportOrder) (o : OrdersReport) (m : MarginReport) : Prop := {
  oa_orders : counts (λ order, ∃ snapshot, reported query order snapshot) all (confirmedOrders o);
  oa_known : counts (λ order, (∃ snapshot, reported query order snapshot)
      ∧ ∃ margin, finalContributionMargin order (currency query) = Some margin) all (knownOrders m);
  oa_margins : knownOrders m + provisionalOrders m = confirmedOrders o;
  oa_complete : counts (λ order, (∃ snapshot, reported query order snapshot)
      ∧ (∀ cat, cat ∈ js <$> ["MATERIAL"%string; "VARIABLE_MACHINE"%string; "CARRIER"%string; "PACKAGING"%string; "PAYMENT_FEE"%string] →
           ∃ cost, cost ∈ actualCosts order ∧ current_cost (currency query) cost ∧ category cost = cat)
      ∧ ∃ allocation, allocation ∈ handlingAllocations order ∧ counted_handling (currency query) allocation)
    all (completeOrders m);
  oa_costs : completeOrders m + incompleteOrders m = confirmedOrders o;
  oa_bands : ∀ band, counts (λ order, ∃ snapshot, reported query order snapshot
      ∧ in_range band (snapshot_contractTotalMinor snapshot)) all (acceptedGrossBands o band);
  oa_divide : acceptedGrossBands o under_25000 + acceptedGrossBands o from_25000_to_49999
    + acceptedGrossBands o from_50000_to_99999 + acceptedGrossBands o from_100000_to_199999
    + acceptedGrossBands o from_200000 = confirmedOrders o;
}.

Lemma orderChannel_origin order : orderChannel order = attributionChannel (order_origin order).
Proof.
  unfold orderChannel, order_origin, coalesce.
  destruct (automaticOrigin order) as [[]|], (individualOrigin order) as [[]|], (firstAttribution order) as [[]|]; reflexivity.
Qed.

Lemma reported_spec query order :
  selectedCurrency order (currency query) && matchesChannel (orderChannel order) (channel query) = true
  ↔ ∃ snapshot, reported query order snapshot.
Proof.
  unfold reported, selectedCurrency. rewrite andb_true_iff, orderChannel_origin, matchesChannel_spec.
  destruct (acceptedPriceBinding order) as [snapshot|]; [|naive_solver]. rewrite str_eqb_spec. naive_solver.
Qed.

Lemma priceBandFor_spec g band : priceBandFor g = band ↔ in_range band g.
Proof.
  unfold priceBandFor. destruct (Z.ltb_spec g 25000), (Z.ltb_spec g 50000), (Z.ltb_spec g 100000), (Z.ltb_spec g 200000);
    (split; [intros <-; cbn; lia|destruct band; cbn; intros; first [done|lia]]).
Qed.

Lemma orders_accounts query all :
  let rows := select (λ order, selectedCurrency order (currency query) && matchesChannel (orderChannel order) (channel query)) all in
  orders_accounted query all (ordersReport rows (currency query)) (marginReport rows (currency query)).
Proof.
  intros rows. destruct (orders_account rows (currency query)) as (Hmargins & Hcosts & Hbands). split; [| |done| |done|..].
  - by apply counts_count_if, reported_spec.
  - unfold marginReport. cbn [knownOrders]. rewrite count_if_fmap. apply counts_select. intros order.
    rewrite andb_true_iff, reported_spec. f_equiv. destruct (finalContributionMargin _ _); cbn; naive_solver.
  - apply counts_select. intros order. rewrite andb_true_iff, reported_spec, hasExplicitMarginCoverage_spec.
    setoid_rewrite leafCost_spec. done.
  - intros band. unfold ordersReport. cbn [acceptedGrossBands]. rewrite priceBands_count, count_if_fmap. apply counts_select.
    intros order. rewrite andb_true_iff, reported_spec, bool_decide_eq_true, priceBandFor_spec. unfold reported, acceptedGrossMinor.
    destruct (acceptedPriceBinding order); naive_solver.
  - rewrite <-Hbands. unfold BANDS. autorewrite with taven. lia.
Qed.

(** C28: A report is made for an administrator of the node who may read metrics,
    and it accounts for everything that it counts.  The uploads of the events that
    are observed (all of them, unless a channel is asked for) divide into those
    that were ordered, those that are open, those that were handed over and those
    of which nothing is known.  The assisted requests divide into those that were
    answered in time, those answered late, those overdue and those that can still
    be answered in time.  The jobs that replace no other divide into those that
    passed, failed, are pending, or were cancelled before their production, but
    for those cancelled in production, which no figure counts.  The orders divide
    by their margins, their costs and the bands of their prices.  Each figure is
    the number of rows that have the property it is named for. *)
Theorem report_accounts `{PragueMonths} `{Collation} `{StoreLaws} operator query r :
  report operator query = Ok r →
  let events := eventRows (from query) (to query) in
  (role operator = js "ADMIN" ∧ js "metrics:read" ∈ permissions operator ∧ nodeId query ∈ nodeIds operator)
  ∧ (∃ ids, NoDup ids ∧ (∀ id, id ∈ ids ↔ uploaded events id)
       ∧ files_accounted events (useRows ids) (match ids with [] => [] | _ => handoffRows ids end) (channel query)
           (automationShare (commercial r)))
  ∧ requests_accounted (requestRows (from query) (to query)) now (channel query) (assistedSla (commercial r))
  ∧ jobs_accounted (jobRows query) (operational_yield (operational r))
  ∧ orders_accounted query (confirmedOrderRows (from query) (to query)) (commercial_orders (commercial r))
      (handlingAndContributionMargin (commercial r)).
Proof.
  unfold report. cbv zeta. intros ([] & Hauth & Hr)%bind_Ok. apply bind_Ok in Hr as (production & Hproduction & [= <-]).
  cbn [commercial operational automationShare assistedSla handlingAndContributionMargin commercial_orders commercialReport].
  unfold operationalReport in Hproduction. cbv zeta in Hproduction. apply bind_Ok in Hproduction as (turnover & _ & [= <-]).
  cbn [operational_yield]. split; [|split; [|split; [apply requests_account|split; [apply jobs_account|apply orders_accounts]]]].
  - by apply authorize_Ok.
  - exists (base.elements (uploadedFiles (eventRows (from query) (to query)))).
    split; [apply NoDup_elements|]. split; [intros id; by rewrite elem_of_elements, uploadedFiles_spec|].
    rewrite handed_rows. apply automation_files. intros use Huse%useRows_asked%elem_of_elements. by apply uploadedFiles_spec.
Qed.

(** ** Months *)

Section Months.
Context `{PragueMonths} `{Collation}.

(** The turnover of the orders of a month. *)
Definition in_month (key : jstr) (order : ReportOrder) : bool := bool_decide (monthKey order = Ok key).
Definition of_month (f : ReportOrder → Z) (orders : list ReportOrder) (key : jstr) : Z :=
  sum_by (λ order, if in_month key order then f order else 0) orders.
Definition turnover_of (cur : jstr) (orders : list ReportOrder) (key : jstr) : Turnover :=
  mkTurnover (of_month acceptedGrossMinor orders key) (of_month (λ order, capturedMinor order cur) orders key)
    (of_month (λ order, refundedMinor order cur) orders key).

(** One group for each month, with the turnover of its orders. *)
Definition grouped (cur : jstr) (orders : list ReportOrder) (groups : list (jstr * Turnover)) : Prop :=
  NoDup groups.*1
  ∧ (∀ key, key ∈ groups.*1 ↔ ∃ order, order ∈ orders ∧ monthKey order = Ok key)
  ∧ Forall (λ group, group.2 = turnover_of cur orders group.1) groups
  ∧ Forall (λ order, ∃ key, monthKey order = Ok key) orders.

Lemma assoc_None {A} k (l : list (jstr * A)) : assoc k l = None ↔ k ∉ l.*1.
Proof.
  induction l as [|[k' a] l IH]; cbn [assoc fmap list_fmap]; [split; [intros _; apply not_elem_of_nil|done]|].
  rewrite not_elem_of_cons. unfold str_eqb. case_bool_decide as Hk; [naive_solver|]. rewrite IH. naive_solver.
Qed.

Lemma of_month_snoc f orders order key :
  of_month f (orders ++ [order]) key = of_month f orders key + if in_month key order then f order else 0.
Proof. unfold of_month. rewrite sum_by_app, sum_by_cons, sum_by_nil. lia. Qed.

Lemma of_month_none f orders key : (¬ ∃ order, order ∈ orders ∧ monthKey order = Ok key) → of_month f orders key = 0.
Proof.
  intros Hno. unfold of_month. rewrite (sum_by_ext _ (λ _, 0)); [by rewrite sum_by_const|].
  intros order Hin. unfold in_month. rewrite bool_decide_eq_false_2; [done|]. naive_solver.
Qed.

Lemma turnover_of_snoc cur orders order key key' : monthKey order = Ok key →
  turnover_of cur (orders ++ [order]) key' =
  let t := turnover_of cur orders key' in
  if bool_decide (key' = key)
  then mkTurnover (turnover_gross t + acceptedGrossMinor order) (turnover_captured t + capturedMinor order cur)
         (turnover_refunds t + refundedMinor order cur)
  else t.
Proof.
  intros Hk. unfold turnover_of. rewrite !of_month_snoc. unfold in_month. rewrite Hk. cbv zeta. cbn [turnover_gross turnover_captured turnover_refunds].
  case_bool_decide as He; [case_bool_decide as He'; [done|congruence]|]. case_bool_decide as He'; [congruence|]. by rewrite !Z.add_0_r.
Qed.

Lemma addTurnover_grouped cur orders groups order groups' :
  grouped cur orders groups → addTurnover cur groups order = Ok groups' → grouped cur (orders ++ [order]) groups'.
Proof.
  intros (Hnd & Hkeys & Hvals & Hdates) H1. unfold addTurnover in H1. apply bind_Ok in H1 as (key & Hk & [= <-]).
  assert (Forall (λ o, ∃ k, monthKey o = Ok k) (orders ++ [order])) as Hdates' by (apply Forall_app; split; [done|constructor; [eauto|done]]).
  assert (∀ k, (∃ o, o ∈ orders ++ [order] ∧ monthKey o = Ok k) ↔ k ∈ groups.*1 ∨ k = key) as Hkeys'.
  { intros k. rewrite Hkeys. split.
    - intros (o & [Ho| ->%list_elem_of_singleton]%elem_of_app & Hok); [left; eauto|right; congruence].
    - intros [(o & Ho & Hok)| ->]; [exists o|exists order]; rewrite elem_of_app, list_elem_of_singleton; auto. }
  rewrite Forall_forall in Hvals. destruct (assoc key groups) as [t|] eqn:Ha; cbn [default].
  - pose proof (assoc_elem _ _ _ Ha) as Hin. pose proof (Hvals _ Hin) as Ht. cbn in Ht. subst t.
    assert (key ∈ groups.*1) as Hkin by (by apply (list_elem_of_fmap_2 fst) in Hin).
    set (next := mkTurnover _ _ _).
    assert (((λ p : jstr * Turnover, if str_eqb p.1 key then (p.1, next) else p) <$> groups).*1 = groups.*1) as Hfst.
    { rewrite <-list_fmap_compose. apply list_fmap_ext. intros i [k u] _. cbn. by case_match. }
    unfold grouped. rewrite Hfst. split_and!; [done| | |done].
    + intros k. rewrite Hkeys'. split; [by left|by intros [?| ->]].
    + apply Forall_forall. intros g ([k u] & -> & Hg)%list_elem_of_fmap. cbn [fst snd]. unfold str_eqb.
      case_bool_decide as He; cbn [fst snd]; rewrite turnover_of_snoc with (key := key) by done; cbv zeta.
      * subst k. by rewrite bool_decide_eq_true_2.
      * rewrite bool_decide_eq_false_2 by done. by apply (Hvals _ Hg).
  - apply assoc_None in Ha. unfold grouped. rewrite fmap_app. cbn [fmap list_fmap fst]. split_and!; [| | |done].
    + apply NoDup_app. split_and!; [done| |apply NoDup_singleton]. intros k Hk' Hs%list_elem_of_singleton. congruence.
    + intros k. rewrite Hkeys', elem_of_app, list_elem_of_singleton. done.
    + apply Forall_app. split.
      * apply Forall_forall. intros [k u] Hg. cbn [fst snd]. rewrite turnover_of_snoc with (key := key) by done. cbv zeta.
        rewrite bool_decide_eq_false_2; [by apply (Hvals _ Hg)|]. intros ->. by apply Ha, (list_elem_of_fmap_2 fst _ _ Hg).
      * constructor; [|constructor]. cbn [fst snd]. rewrite turnover_of_snoc with (key := key) by done. cbv zeta.
        rewrite bool_decide_eq_true_2 by done. unfold turnover_of. cbn [turnover_gross turnover_captured turnover_refunds].
        rewrite Hkeys in Ha. by rewrite !of_month_none.
Qed.

Lemma foldM_grouped cur orders groups : foldM (addTurnover cur) [] orders = Ok groups → grouped cur orders groups.
Proof.
  revert groups. induction orders as [|order orders IH] using rev_ind; intros groups Hf.
  - injection Hf as <-. split_and!; try constructor. + intros Hin. by apply not_elem_of_nil in Hin.
    + intros (? & Hin & _). by apply not_elem_of_nil in Hin.
  - rewrite foldM_app in Hf. apply bind_Ok in Hf as (groups' & Hf & Hlast). cbn [foldM] in Hlast.
    apply bind_Ok in Hlast as (? & Hlast & [= <-]). eapply addTurnover_grouped; [by apply IH|done].
Qed.

Lemma grouped_total cur orders groups (f : ReportOrder → Z) : grouped cur orders groups →
  sum_by (λ group, of_month f orders group.1) groups = sum_by f orders.
Proof.
  intros (Hnd & Hkeys & _ & Hdates). unfold of_month. rewrite (sum_by_swap (λ group order, if in_month group.1 order then f order else 0)).
  apply sum_by_ext. intros order Hin. rewrite Forall_forall in Hdates. destruct (Hdates order Hin) as [key Hk].
  assert (key ∈ groups.*1) as Hg by (apply Hkeys; eauto). unfold in_month. rewrite Hk.
  transitivity (sum_by (λ k, if bool_decide (Ok key = Ok k) then f order else 0) groups.*1); [by rewrite sum_by_fmap|].
  apply list_elem_of_split in Hg as (l1 & l2 & Hl).
  rewrite Hl in Hnd |- *. apply NoDup_app in Hnd as (_ & Hd1 & Hd2). apply NoDup_cons in Hd2 as [Hd2 _].
  rewrite sum_by_app, sum_by_cons, bool_decide_eq_true_2 by done.
  assert (∀ l : list jstr, key ∉ l → sum_by (λ k, if bool_decide (Ok key = Ok k) then f order else 0) l = 0) as Hzero.
  { intros l Hl'. rewrite (sum_by_ext _ (λ _, 0)); [by rewrite sum_by_const|]. intros k Hk'. rewrite bool_decide_eq_false_2; [done|]. congruence. }
  rewrite !Hzero; [lia|done|]. intros Hk'. by eapply Hd1; [exact Hk'|left].
Qed.

(** The month in which an order was confirmed, and what the orders of a month
    add up to. *)
Definition month_of (order : ReportOrder) : option jstr :=
  (λ t, (monthParts t).1 ++ js "-" ++ (monthParts t).2) <$> confirmedAt order.
Definition month_sum (f : ReportOrder → Z) (orders : list ReportOrder) (month : jstr) : Z :=
  sum_by (λ order, if decide (month_of order = Some month) then f order else 0) orders.

(** The accepted gross of an order. *)
Definition gross_of (order : ReportOrder) : Z := from_option snapshot_contractTotalMinor 0 (acceptedPriceBinding order).

Lemma monthKey_spec order key : monthKey order = Ok key ↔ month_of order = Some key.
Proof. unfold monthKey, month_of, requiredConfirmedAt. destruct (confirmedAt order); cbn; naive_solver. Qed.

Lemma of_month_sum f orders key : of_month f orders key = month_sum f orders key.
Proof.
  unfold of_month, month_sum, in_month. apply sum_by_ext. intros order _.
  case_bool_decide as H1; case_decide as H2; try done; by rewrite monthKey_spec in H1.
Qed.

Lemma acceptedGrossMinor_spec order : acceptedGrossMinor order = gross_of order.
Proof. unfold acceptedGrossMinor, gross_of. by destruct (acceptedPriceBinding order). Qed.

Lemma month_sum_ext f g orders key : (∀ order, f order = g order) → month_sum f orders key = month_sum g orders key.
Proof. intros Hfg. apply sum_by_ext. intros order _. by rewrite Hfg. Qed.

Lemma months_sorted `{!Comparator localeCompare} (groups : list (jstr * Turnover)) :
  StronglySorted (λ m n, localeCompare m n ≤ 0) (js_sort (λ left right, localeCompare left.1 right.1) groups).*1.
Proof.
  assert (Comparator (λ left right : jstr * Turnover, localeCompare left.1 right.1)) as Hcmp.
  { split; intros; [apply cmp_antisym|by eapply cmp_trans]. }
  generalize (js_sort_sorted _ groups). generalize (js_sort (λ left right, localeCompare left.1 right.1) groups) as l.
  induction 1 as [|group l _ IH Hall]; cbn; constructor; [done|]. by apply Forall_fmap.
Qed.

(** The row of a group has the sums of its month. *)
Lemma monthRow_sums cur orders group : group.2 = turnover_of cur orders group.1 →
  monthRow cur group
  = mkMonth group.1 (mkMoney (toString10 (month_sum gross_of orders group.1)) cur)
      (mkMoney (toString10 (month_sum (λ order, captured_of order cur) orders group.1)) cur)
      (mkMoney (toString10 (month_sum (λ order, refunded_of order cur) orders group.1)) cur)
      (mkMoney (toString10 (month_sum (λ order, captured_of order cur) orders group.1
                            - month_sum (λ order, refunded_of order cur) orders group.1)) cur).
Proof.
  intros Hgroup. unfold monthRow, money. rewrite Hgroup. unfold turnover_of. cbn [turnover_gross turnover_captured turnover_refunds].
  rewrite !of_month_sum. rewrite (month_sum_ext acceptedGrossMinor gross_of) by apply acceptedGrossMinor_spec.
  rewrite (month_sum_ext (λ order, capturedMinor order cur) (λ order, captured_of order cur)) by (intros; apply capturedMinor_spec).
  by rewrite (month_sum_ext (λ order, refundedMinor order cur) (λ order, refunded_of order cur)) by (intros; apply refundedMinor_spec).
Qed.

(** C29: The months of a report add up to its turnover.  Every order has a month,
    and each month in which an order was confirmed has one row: with the accepted
    gross of the orders of the month, the cash that was captured of them, the
    refunds that succeeded, and the captured cash less these refunds.  The rows
    are in the order of the collation.  The sums of the columns are the sums over
    all orders, which are what the commercial turnover shows. *)
Theorem monthly_turnover_complete orders cur rows :
  monthlyTurnover orders cur = Ok rows →
  Forall (λ order, is_Some (month_of order)) orders
  ∧ (∃ months, NoDup months ∧ (∀ month, month ∈ months ↔ ∃ order, order ∈ orders ∧ month_of order = Some month)
     ∧ (Comparator localeCompare → StronglySorted (λ m n, localeCompare m n ≤ 0) months)
     ∧ rows = (λ month,
          let gross := month_sum gross_of orders month in
          let captured := month_sum (λ order, captured_of order cur) orders month in
          let refunded := month_sum (λ order, refunded_of order cur) orders month in
          mkMonth month (mkMoney (toString10 gross) cur) (mkMoney (toString10 captured) cur)
            (mkMoney (toString10 refunded) cur) (mkMoney (toString10 (captured - refunded)) cur)) <$> months
     ∧ Forall (λ f, sum_by (month_sum f orders) months = sum_by f orders)
         [gross_of; (λ order, captured_of order cur); (λ order, refunded_of order cur)])
  ∧ (let gross := sum_by gross_of orders in
     let captured := sum_by (λ order, captured_of order cur) orders in
     let refunded := sum_by (λ order, refunded_of order cur) orders in
     turnoverReport orders cur =
       mkCommercialTurnover (mkMoney (toString10 gross) cur) (mkMoney (toString10 captured) cur)
         (mkMoney (toString10 refunded) cur) (mkMoney (toString10 (captured - refunded)) cur)).
Proof.
  intros (groups & Hg%foldM_grouped & [= <-])%bind_Ok. set (sorted := js_sort _ groups).
  assert (sorted ≡ₚ groups) as Hp by apply js_sort_perm.
  assert (grouped cur orders sorted) as Hs.
  { destruct Hg as (? & Hk & ? & ?). unfold grouped. split_and!; [by rewrite Hp| |by rewrite Hp|done]. intros key. by rewrite Hp. }
  split; [|split].
  - destruct Hg as (_ & _ & _ & Hdates). eapply Forall_impl; [exact Hdates|]. intros order [key Hk%monthKey_spec]. by exists key.
  - exists sorted.*1. destruct Hs as (Hnd & Hkeys & Hvals & Hdates). split; [done|]. split.
    { intros month. rewrite Hkeys. by setoid_rewrite monthKey_spec. }
    split.
    { intros Hcmp. apply months_sorted. }
    split.
    { rewrite <-list_fmap_compose. apply list_fmap_ext. intros i group Hi%list_elem_of_lookup_2.
      rewrite Forall_forall in Hvals. apply monthRow_sums. by apply Hvals. }
    repeat constructor; rewrite sum_by_fmap, <-(grouped_total cur orders sorted) by done;
      apply sum_by_ext; intros group _; symmetry; apply of_month_sum.
  - unfold turnoverReport, sum, money. cbv zeta. rewrite !sum_by_fmap. unfold compose.
    rewrite (sum_by_ext acceptedGrossMinor gross_of) by (intros; apply acceptedGrossMinor_spec).
    rewrite (sum_by_ext (λ order, capturedMinor order cur) (λ order, captured_of order cur)) by (intros; apply capturedMinor_spec).
    by rewrite (sum_by_ext (λ order, refundedMinor order cur) (λ order, refunded_of order cur)) by (intros; apply refundedMinor_spec).
Qed.
End Months.

(** ** The interval *)

Lemma parseInstant_valid `{DateParsing} s p t :
  read_instant s = Some p → valid_parts p = true → Date_parse s = Some t → parseInstant (Some s) = Ok t.
Proof.
  intros Hp Hv Hd. unfold parseInstant. cbn [mbind option_bind]. rewrite Hp. cbv zeta.
  unfold valid_parts in Hv. rewrite !andb_true_iff, valid_civil_spec, !Z.leb_le in Hv. destruct Hv as (((((Hc & ?) & ?) & ?) & ?) & ?).
  rewrite (civil_of_MakeDay _ Hc), bool_decide_eq_true_2 by done. destruct Hc as [Hm _].
  rewrite !(proj2 (Z.ltb_ge _ _)) by lia. cbn [orb negb]. by rewrite Hd.
Qed.

Lemma parseInstant_iso `{DateParsingLaws} t : 0 ≤ year (civil_of (t / msPerDay)) ≤ 9999 → date_range t = true →
  parseInstant (Some (toISOString t)) = Ok t.
Proof.
  intros Hy Ht. apply (parseInstant_valid _ (parts_of t)); [|apply parts_of_valid|by apply Date_parse_iso, iso_time_toISOString].
  rewrite <-(read_toISOString t Ht). unfold toISOString. cbv zeta.
  apply (year_text_read (civil_of (t / msPerDay)) (t `mod` msPerDay)); [apply civil_of_valid|by apply Z.mod_pos_bound|lia|done].
Qed.

(** What is parsed is a date of the calendar, at its time. *)
Lemma parseInstant_Ok `{DateParsing} v t : parseInstant v = Ok t →
  ∃ s p, v = Some s ∧ read_instant s = Some p ∧ valid_civil (date p) ∧ hour p ≤ 23 ∧ minute p ≤ 59 ∧ second p ≤ 59
    ∧ Date_parse s = Some t.
Proof.
  unfold parseInstant. destruct v as [s|]; cbn [mbind option_bind]; [|done]. destruct (read_instant s) as [p|] eqn:Hp; [|done].
  cbv zeta. destruct (_ || _) eqn:Hv; [done|]. destruct (Date_parse s) as [u|] eqn:Hd; [|done]. intros [= ->].
  exists s, p. bool_inv. split_and!; try done. destruct (civil_of_valid (MakeDay (year (date p)) (month (date p)) (day (date p)))) as [Hvalid _].
  congruence.
Qed.

(** C30: A query that was accepted is within its bounds, and the interval
    that a report repeats is accepted again as the same query, for the years 0 to
    9999 and a node whose id matches [UUID_PATTERN], as every id that the database
    generates does: an accepted query that names no node takes the operator's
    only one, whose id is not matched, while the report repeats that id. *)
Theorem interval_asked_again `{DateParsingLaws} values ids query :
  parseMetricsQuery values ids = Ok query →
  0 < to query - from query ≤ MAX_INTERVAL_MILLISECONDS
  ∧ currency query ∈ CURRENCIES ∧ nodeId query ∈ ids ∧ (∀ c, channel query = Some c → c ∈ CHANNELS)
  ∧ (UUID_PATTERN (nodeId query) = true →
     Forall (λ t, date_range t = true ∧ 0 ≤ year (civil_of (t / msPerDay)) ≤ 9999) [from query; to query] →
     parseMetricsQuery (intervalDto query) ids = Ok query).
Proof.
  unfold parseMetricsQuery. intros H1.
  apply bind_Ok in H1 as (f & Hf & H1). apply bind_Ok in H1 as (t & Ht & H1).
  apply bind_Ok in H1 as (? & Hlt%throw_when_Ok & H1). apply bind_Ok in H1 as (? & Hmax%throw_when_Ok & H1).
  apply bind_Ok in H1 as (? & Hchannel%throw_when_Ok & H1). apply bind_Ok in H1 as (? & Hcur%throw_when_Ok & H1).
  apply bind_Ok in H1 as (? & Huuid%throw_when_Ok & H1). apply bind_Ok in H1 as (node & Hnode & H1).
  apply bind_Ok in H1 as (? & Hin%throw_when_Ok & [= <-]). cbn [from to currency nodeId channel].
  set (cur := default (js "CZK") (values_currency values)) in *. clearbody cur.
  split_and!.
  - bool_inv. lia.
  - bool_inv. lia.
  - apply negb_false_iff in Hcur. by apply includes_spec.
  - apply negb_false_iff in Hin. by apply includes_spec.
  - intros c Hc. rewrite Hc in Hchannel. apply negb_false_iff in Hchannel. by apply includes_spec.
  - intros Hu Hrange. apply Forall_cons in Hrange as [[Hfr Hfy] Hrange]. apply Forall_cons in Hrange as [[Htr Hty] _].
    unfold intervalDto. cbn [values_from values_to values_channel values_currency values_nodeId default from to channel currency nodeId].
    rewrite !parseInstant_iso by done. run. rewrite Hlt. run. rewrite Hmax. run. rewrite Hchannel. run. change (id cur) with cur. rewrite Hcur. run.
    rewrite Hu. run. rewrite Hin. done.
Qed.

(** ** A sample *)

Section Sample.
#[local] Instance sample_months : PragueMonths :=
  λ t, let c := civil_of (t / msPerDay) in (toString10 (year c), fixed 2 (month c)).
#[local] Instance sample_collation : Collation := compareStrings.
#[local] Instance sample_dates : DateParsing := iso_dates.
#[local] Instance sample_dates_laws : DateParsingLaws := iso_dates_laws.

Definition czk : jstr := js "CZK".
Definition node : jstr := js "00000000-0000-4000-8000-000000000001".
Definition attribution : value := RecordV 0 [(js "channel", lit "paid")].

(** An order of 1210 with 21 % VAT that was paid, and refunded but for 605. *)
Definition sample_order : ReportOrder :=
  mkOrder (js "o1") (js "T-1") (js "CANCELLED_SETTLED") (Some 1700000000000) (Some (js "c1")) None (Some attribution) None
    (Some (mkSnapshot 1210 1000 210 czk [js "EXPRESS"]))
    (Some (mkRevision 1210 1000 210 Tax.VAT_PAYER 2100 czk))
    [[mkPayment (Some 1210) czk (js "PARTIALLY_REFUNDED") [mkRefund 605 (js "SUCCEEDED")]]]
    ((λ cat, mkCost 10 czk cat None) <$> COST_CATEGORIES)
    [mkAllocation 7 czk (js "COMPLETED") None]
    [mkSettlement (js "BALANCE_SETTLEMENT") czk 1210 1210 605 605 0]
    [node] [].

Example sample_margin : finalContributionMargin sample_order czk = Some (500 - 50 - 7) ∧ outstandingGross sample_order czk = 0.
Proof. vm_compute. done. Qed.

Lemma settled_revenue_is_core_net_witness :
  ∃ breakdown, Tax.taxBreakdownFromGross (Money.mk 605 czk) (Tax.mkPolicy Tax.VAT_PAYER (IntNum 2100)) = Ok breakdown
    ∧ 500 = Money.minorUnits (Tax.net breakdown).
Proof.
  destruct (settled_revenue_is_core_net sample_order czk (mkRevision 1210 1000 210 Tax.VAT_PAYER 2100 czk) 500)
    as (breakdown & Hb & Hr).
  - vm_compute. reflexivity.
  - reflexivity.
  - unfold Tax.BASIS_POINTS. cbn. lia.
  - replace (capturedMinor sample_order czk - refundedMinor sample_order czk) with 605 by (vm_compute; reflexivity). apply Money.CZK_wf. lia.
  - vm_compute. reflexivity.
  - exists breakdown. split; [|exact Hr]. rewrite <-Hb. vm_compute. reflexivity.
Defined.

Definition sample_use (id : jstr) : AutomaticUse :=
  mkUse id (Some 1700000000000) (Some (js "b1")) (Some attribution) [id].

#[local] Instance sample_store : MetricsStore := {|
  now := 1700000100000;
  confirmedOrderRows _ _ := [sample_order];
  eventRows _ _ := [mkEvent (js "upload.confirmed") None None (RecordV 0 [(js "modelFileId", lit "f1")]);
                    mkEvent (js "upload.confirmed") None None (RecordV 0 [(js "modelFileId", lit "f2")]);
                    mkEvent (js "upload.confirmed") None None (RecordV 0 [(js "modelFileId", lit "f4")])];
  sessionRows _ := [];
  orderBindingRows _ := [];
  riskRows _ := [];
  quoteRows _ := [];
  useRows ids := sample_use <$> select (λ id, str_eqb id (js "f1")) ids;
  handoffRows _ := [mkHandoff [js "f2"; js "f3"] Null];
  firstOrderRows _ := [js "o1"];
  jobRows _ := [mkJob None (js "CANCELLED") None (Some 0) None None None; mkJob None (js "COMPLETED") None None None (Some 1) None];
  reservationRows _ _ := [mkReservation (js "m1") 1700000000000 1700000160000];
  requestRows _ _ := [mkRequest Null 0 10 (Some 5) (js "REJECTED") []; mkRequest Null 0 10 None (js "OPEN") []];
  spendRows _ _ := [mkSpend (js "PAID") 1699999000000 1700000000000 100 czk None];
|}.

#[local] Instance sample_store_laws : StoreLaws.
Proof.
  intros ids use Hu. change (use ∈ sample_use <$> select (λ id, str_eqb id (js "f1")) ids) in Hu.
  apply list_elem_of_fmap in Hu as (id & -> & [_ Hid]%elem_of_select). exact Hid.
Qed.

Definition sample_query : MetricsQuery := mkQuery 1699999000000 1700000200000 None czk node.
Definition sample_operator : OperatorContext := mkOperator (js "ADMIN") [js "metrics:read"] [node].

Lemma report_accounts_witness :
  match report sample_operator sample_query with
  | Ok r => (let a := automationShare (commercial r) in
             (confirmedModelFiles a, successfulAutomaticUses a, unresolvedOrPending a, blockedOrHandoff a, evidenceUnavailable a)
             = (3, 1, 0, 1, 1))
            ∧ ∃ ids, NoDup ids ∧ (∀ id, id ∈ ids ↔ uploaded (eventRows (from sample_query) (to sample_query)) id)
                ∧ files_accounted (eventRows (from sample_query) (to sample_query)) (useRows ids)
                    (match ids with [] => [] | _ => handoffRows ids end) None (automationShare (commercial r))
  | Throw _ => False
  end.
Proof.
  destruct (report sample_operator sample_query) as [r|e] eqn:Hr.
  - destruct (report_accounts sample_operator sample_query r Hr) as (_ & Hfiles & _).
    assert (match report sample_operator sample_query with
            | Ok r => let a := automationShare (commercial r) in
                (confirmedModelFiles a, successfulAutomaticUses a, unresolvedOrPending a, blockedOrHandoff a, evidenceUnavailable a)
            | Throw _ => (0, 0, 0, 0, 0) end = (3, 1, 0, 1, 1)) as Hc by (vm_compute; reflexivity).
    rewrite Hr in Hc. split; [exact Hc|exact Hfiles].
  - assert (match report sample_operator sample_query with Ok _ => true | Throw _ => false end = true) as Hc by (vm_compute; reflexivity).
    rewrite Hr in Hc. discriminate Hc.
Defined.

Lemma monthly_turnover_complete_witness :
  ∃ rows, monthlyTurnover [sample_order; sample_order] czk = Ok rows
    ∧ turnoverReport [sample_order; sample_order] czk =
        mkCommercialTurnover (mkMoney (js "2420") czk) (mkMoney (js "2420") czk) (mkMoney (js "1210") czk) (mkMoney (js "1210") czk).
Proof.
  destruct (monthlyTurnover [sample_order; sample_order] czk) as [rows|e] eqn:Hr.
  - exists rows. split; [reflexivity|].
    rewrite (proj2 (proj2 (monthly_turnover_complete [sample_order; sample_order] czk rows Hr))). vm_compute. reflexivity.
  - assert (match monthlyTurnover [sample_order; sample_order] czk with Ok _ => true | Throw _ => false end = true) as Hc
      by (vm_compute; reflexivity). rewrite Hr in Hc. discriminate Hc.
Defined.

Definition sample_values : MetricsValues :=
  mkValues (Some (js "2024-02-29T01:00:00+01:00")) (Some (js "2024-03-01T00:00:00.5Z")) (Some (js "paid")) None (Some node).

Lemma interval_asked_again_witness :
  parseMetricsQuery (intervalDto (mkQuery 1709164800000 1709251200500 (Some (js "paid")) czk node)) [node]
  = Ok (mkQuery 1709164800000 1709251200500 (Some (js "paid")) czk node).
Proof.
  apply (interval_asked_again sample_values [node]).
  - vm_compute. reflexivity.
  - vm_compute. reflexivity.
  - repeat constructor; vm_compute; (reflexivity || discriminate).
Defined.
End Sample.
End MetricsFacts.
